(* ===== verification/_CoqProject ===== *)
-Q . S2P
Prelude.v
Crc32.v
Kapi.v
Ring.v
Layout.v
State.v
Scsi.v
Fmt.v
SimDisk.v
Log.v
Core.v
CoreInv.v
CoreSpec.v
CoreReq.v
CoreThm.v
CoreInit.v
CoreDisk.v
CorePersist.v
CoreBoot.v
Sim.v
Swap.v
SwapThm.v
Restart.v
Sysfs.v
BlkCore.v
BlkThm.v
BlkReq.v
BlkReqThm.v
BlkRl.v
BlkQueue.v
BlkRequeue.v
BlkCtl.v
BlkStat.v
BlkClone.v
Sd.v
SdThm.v
SdName.v
SdCap.v
SdPm.v
SdMode.v
SdAttr.v
SdProbe.v
ScsiHdr.v
ScsiMid.v
ScsiPool.v
ScsiDev.v
