(* ===== verification/Prelude.v ===== *)
(** * Verification of the scsiswap kernel patch

    ** The program

    scsiswap is a patch to the Linux SCSI disk stack that replaces bad sectors of a
    disk by sectors of a gigabyte reserved at its end.  Its parts:

    - [drivers/scsi/swap/]: the swap driver.  [core.c] keeps the mapping from bad
      blocks (64 KiB) of the user's area to blocks of the reserve, on disk as a head,
      a table and a data area, in memory as [swap_info] objects; [utils.c] sends the
      SCSI commands it needs; [log.c], on the ring buffer of [ring.h], keeps an event
      log in the reserve; [crc32.c] signs head, table and log; [sim.c] holds sectors an
      administrator declares bad; [sysfs.c] shows and changes these through files;
      [swap.c] connects all this with bios and with the life of a disk.
    - [block/blk-core.c]: the block layer.  [generic_make_request] asks the driver
      whether a bio touches a replaced block ([bio_has_bad_block]), [req_bio_endio]
      hands bios that failed to it ([swap_bio]); in both cases a work item serves the
      bio from the swap core instead.
    - [drivers/scsi/sd.c]: the disk driver.  It takes the reserve off the capacity
      the user sees, builds the commands, judges their results and starts and stops
      the swap driver with the disk.
    - [drivers/scsi/scsi.c]: the midlayer.  [scsi_done] turns writes to simulated bad
      sectors into medium errors.
    - [include/scsi/scsi_device.h], [include/scsi/scsi_swap.h]: the device and the
      interface of the driver.

    ** The model

    Code runs in the monad [K S] of this file: a function from a state [S] to a result
    and a new state, or to a [fault] (a load through NULL, an access out of bounds or
    after a free, BUG_ON, a loop that does not end).  [wp] is its weakest
    precondition, total: a theorem [wp m Q s] says that [m] returns, without a fault,
    in a state of [Q].  Integers are [Z] with the wrap-around of their C type written
    out; buffers are lists of bytes, loaded and stored with bounds.  Code outside the
    repository is a parameter: the SCSI midlayer's command execution is the class
    [ScsiLower], what is relied on of a disk the class [BlockDevice] (Scsi.v), for
    which SimDisk.v gives a concrete disk that the witnesses run on.

    - Prelude: widths, the monad, [wp] and its tactics, generic lemmas, hints.
    - Kapi: constants of the kernel's and SCSI's interfaces.
    - Crc32: [crc32.c].  Ring: [ring.h].  Log: [log.c], [log.h].
    - Layout: [core.h] and the on-disk structures of [core.c].  State: the driver's
      state ([struct swap_handler], [core], [swap_info]).  Core: every function of
      [core.c].  CoreInv, CoreSpec, CoreReq: invariant, abstract disk and
      specifications.  CoreThm, CoreInit: the results on them.  CoreDisk: what the
      reserved area holds ([saved]) and what the flush operations leave there;
      CorePersist: that requests keep it ([kept]); CoreBoot: starts of the core and of
      the log on a disk in use and on one never used.
    - Scsi: [utils.c].  Fmt: the text functions behind sysfs.  Sim: [sim.c] and the
      parser of its file.  Sysfs: [sysfs.c].  Swap, SwapThm: [swap.c].  Restart: the
      driver across restarts, as histories of requests and starts.
    - BlkCore, BlkThm: submission and completion of bios; BlkReq, BlkReqThm: requests,
      their merging and completion in pieces; BlkRl: request lists, their limits, who
      waits and who is woken, bypass and drain, as a step relation of concurrent tasks;
      BlkQueue: from a bio to a request in a plug or the elevator, flushing a plug,
      fetching requests for a driver and ending them; BlkRequeue: putting requests
      back, requests for commands, payloads; BlkCtl: allocating, running, stopping,
      draining and cleaning up a queue, as a step relation of the tasks that may be in
      its [request_fn]; BlkStat: statistics; BlkClone: cloned requests, their check
      against the limits of another queue, callbacks of plugs ([blk-core.c]).
    - Sd, SdThm: commands and their completion; SdCap: capacity; SdName: disk names
      and numbers; SdPm: open, release, events, spin-up, suspend, shutdown; SdMode:
      mode pages, VPD pages and revalidation; SdAttr: sysfs attributes, ioctls, geometry
      and the other small entry points; SdProbe: probe, its asynchronous part, removal,
      start and exit of the driver, and the life of a disk as a step relation ([sd.c];
      [scsi_get_vpd_page] and [scsi_report_opcode] of [scsi.c]).
    - ScsiMid: dispatch and completion of a command; ScsiPool: command pools, the
      command kept aside for a host; ScsiDev: references to devices, iteration, lookup,
      queue depth, start and exit of the layer; ScsiHdr: device types, serial numbers,
      what is logged ([scsi.c]), and the accessors of [scsi_device.h].

    ** The theorems

    - The swap core as a disk (CoreThm): on the invariant, for every behaviour of the
      device, a write that returns 0 has changed exactly its sectors of the abstract
      disk, a read returns what the abstract disk holds, reading after writing gives
      the data written, and both keep the invariant; a replacement block that is handed
      out was free, while the bitmap covers the mappings; start-up ends and a written head is recognised again
      (CoreInit); shutdown frees every object.
    - Restarts (Restart): on a disk whose reserved area is sound (the class
      [SoundReserve] of CoreDisk: READ(10) and WRITE(10) of its sectors complete; the
      user's sectors fail as they like), every request leaves on the disk what a start
      needs, [scsi_swap_init] rebuilds the same mapping with the same data from the disk
      alone, a first start formats the reserve, and every history of reads, writes,
      failing allocations and restarts refines an abstract disk.  During a start memory
      is available ([kmem] is empty).  Power is lost between requests, not inside one.
    - The path of a bio (BlkThm, BlkReqThm, SwapThm): a submitted bio leaves the block
      layer in exactly one way; a request, however its completion is cut into pieces,
      ends each bio exactly once and keeps describing the rest of the data; a failed
      write is taken over and served; the work handler completes a bio with 0 exactly
      when the abstract disk was read or written.
    - Queues and requests (BlkRl, BlkQueue): for every interleaving of the tasks that
      take and give back requests the counts are exact, the limits hold and no wake-up
      is lost; a drain in bypass mode leaves no request with elevator data; a queued bio
      is held by exactly one request; flushing a plug hands over every request once; a
      driver gets the first request it accepts, those before it having been ended or put
      off, and one it puts back next, as the elevator returns it (BlkRequeue).
    - Queues as a whole (BlkCtl, BlkStat, BlkClone): when [blk_cleanup_queue] is through,
      nobody is in [request_fn] and nothing is queued to run it, for every interleaving
      and for ever, because a dying queue gives out no request; allocation gives back what it took; the statistics of partitions are
      those of their requests, while each accounting step is atomic; cloning a request is all
      or nothing; callbacks are called once.
    - The life of a disk (SdProbe): every way a probe can go, with what it gives back and
      what it loses; whatever holds references and in whatever order they are
      dropped, a disk is released once, with its index, name and device reference.
    - The midlayer (ScsiPool, ScsiDev): commands do not leak and are not freed twice,
      whatever memory there is; a host without a command in use can always get one; a
      host taken down leaves nothing; the walk over devices visits each once and
      balances references; a failed start is undone in reverse order; serial numbers are
      not 0 and do not repeat (ScsiHdr).
    - The disk driver (SdThm, SdCap, SdPm, SdName, SdMode, SdAttr): a command decodes to the sectors
      of its request; asking for the capacity ends and, for a disk that reports the same
      size each time, keeps the reserve off the user's area; a partial completion never counts bytes behind the bad sector;
      spin-up ends; a disk is stopped only after its cache was flushed; references are
      balanced; a change of the medium is reported; names read back; the caching page
      is found behind any other pages and read; revalidation of a device whose mode
      pages stay in the buffer ends, announces flushes as the cache asks for and leaves a
      disk whose commands are built correctly; writing a sysfs attribute never takes a
      field out of its type, a cache type reaches the device
      as the bits that are read back, numbers survive a round trip; an ioctl passes its
      checks before it reaches the device.
    - Parts: the CRC is the CRC-32 polynomial's and detects every burst of four bytes;
      the ring is a bounded queue; on-disk structures and printed numbers survive a
      round trip; the sysfs files show what the components hold; a simulated bad
      sector fails exactly the writes that touch it.
    - Executions that show where the code does not do what it means to are theorems
      too; the manifest lists them as findings.

    ** Bounds and fuel

    Loops over lists are structural.  The others carry fuel, and [Hang] is a fault, so
    that every [wp] theorem about them also says that the fuel is enough: 13 rounds
    for READ CAPACITY (3 retries and 10 resets), 102 turns of the spin-up loop (one
    second each, a hundred seconds at most), 33 for the sectors a table write may try,
    17 for the attempts at a replacement block, 65537 for a walk over the ring, whose
    counter has 16 bits, one more than the length of the buffer for a disk name and for
    the walk over mode pages, one more than the number of requests for fetching, than
    the number of devices for iteration, than the commands aside for tear-down, than the
    number of bios for freeing a clone.  The loop of [__blk_drain_queue] waits for others:
    its fuel is the number of turns, and the theorems that need it to end say why one
    turn is enough; the interleavings of BlkCtl have no fuel.  The [ida] loop of [sd_probe]
    follows the list of answers of the allocator.

    ** Not modelled

    Locks, sleeping and interrupts: each operation is one step, and the operations on a
    disk follow one another.  Of the swap driver this is an assumption, not something
    the code makes sure of: [swap.c] creates one global work queue, ["blkswap"], for all
    disks, whose items may run on several processors at a time, and [core.c] only takes
    spin locks around its list of mappings and its bitmap, so that two requests for the
    same block can interleave inside [scsi_swap_core_write]; the theorems on the swap
    core are about requests that do not.  Request lists (BlkRl), running and cleaning up
    a queue (BlkCtl) and the life of a disk (SdProbe) are step relations, whose steps are
    the sections under a lock.  The steps of accounting (BlkStat) are atomic too, which
    the queue lock gives them everywhere but where a bio is merged into a plug, and its
    counters are unbounded.  Memory barriers and preemption inside a step are outside
    the model.  Of [blk-core.c]: the
    elevator's own policy (block/elevator.c is not in the repository), the dump of a
    request, the debugfs files of fault injection, [rq_flush_dcache_pages] (other
    architectures), the wrappers around kblockd and [blk_dev_init], which only create
    caches.  Of [sd.c] and [scsi.c]: the text of kernel messages.  Of the headers:
    declarations and fields no function of the repository uses.  The build files hold
    no logic. *)

From stdpp Require Import base gmap list list_numbers numbers.
From coqutil Require Import Byte Word.LittleEndianList.
From Stdlib Require Import ZArith Lia.

Local Open Scope Z_scope.

(** ** C integer widths *)

(** The driver runs on a kernel built with [-fno-strict-overflow]: signed
    arithmetic wraps, and a conversion to a narrower type keeps the low bits. *)
Definition u8 (z : Z) : Z := z mod 2 ^ 8.
Definition u16 (z : Z) : Z := z mod 2 ^ 16.
Definition u32 (z : Z) : Z := z mod 2 ^ 32.
Definition u64 (z : Z) : Z := z mod 2 ^ 64.
Definition s32 (z : Z) : Z := (z + 2 ^ 31) mod 2 ^ 32 - 2 ^ 31.

(** [(sector_t)-1], the sector that stands for no sector. *)
Definition NO_SECTOR : Z := u64 (-1).

(** C's truth value of an integer. *)
Definition c_true (z : Z) : bool := negb (z =? 0).

Lemma u32_small z : 0 <= z < 2 ^ 32 -> u32 z = z.
Proof. apply Z.mod_small. Qed.

Lemma u64_small z : 0 <= z < 2 ^ 64 -> u64 z = z.
Proof. apply Z.mod_small. Qed.

Lemma s32_small z : - 2 ^ 31 <= z < 2 ^ 31 -> s32 z = z.
Proof. intros. unfold s32. rewrite Z.mod_small; lia. Qed.

Lemma u32_range z : 0 <= u32 z < 2 ^ 32.
Proof. apply Z.mod_pos_bound. lia. Qed.

Lemma s32_range z : - 2 ^ 31 <= s32 z < 2 ^ 31.
Proof. unfold s32. pose proof (Z.mod_pos_bound (z + 2 ^ 31) (2 ^ 32)). lia. Qed.

(** Narrowing an [int] that was itself narrowed keeps the same 32 bits. *)
Lemma u32_s32 z : u32 (s32 z) = u32 z.
Proof.
  unfold u32, s32. rewrite <- (Z.mod_add (_ - _) 1) by lia.
  replace ((z + 2 ^ 31) mod 2 ^ 32 - 2 ^ 31 + 1 * 2 ^ 32)
    with ((z + 2 ^ 31) mod 2 ^ 32 + 2 ^ 31) by lia.
  rewrite Zplus_mod_idemp_l. replace (z + 2 ^ 31 + 2 ^ 31) with (z + 1 * 2 ^ 32) by lia.
  apply Z.mod_add. lia.
Qed.

Create Rewrite HintDb cint.
#[export] Hint Rewrite u32_small u64_small s32_small using lia : cint.

(** Discharges the casts of an expression whose value provably fits. *)
Ltac cint := autorewrite with cint in *; try lia.

(** ** Byte buffers addressed by C integers *)

Abbreviation bytes := (list byte).

#[global] Instance byte_eq_decision : EqDecision byte.
Proof.
  intros a b. destruct (Byte.eqb a b) eqn:E.
  - left. by apply Byte.byte_dec_bl.
  - right. intros ->. by rewrite Byte.byte_dec_lb in E.
Defined.

(** Length as a C integer. *)
Definition zlen {A} (l : list A) : Z := Z.of_nat (length l).

(** [memset]-like buffer of [n] copies. *)
Definition fill {A} (n : Z) (x : A) : list A := replicate (Z.to_nat n) x.

(** The [len] elements of [l] from offset [off] on. *)
Definition slice {A} (off len : Z) (l : list A) : list A :=
  take (Z.to_nat len) (drop (Z.to_nat off) l).

(** [l] with the elements from offset [off] on overwritten by [new]. *)
Definition splice {A} (off : Z) (new l : list A) : list A :=
  take (Z.to_nat off) l ++ new ++ drop (Z.to_nat off + length new) l.

(** Whether the range [off, off+len) lies inside a buffer. *)
Definition in_range {A} (off len : Z) (l : list A) : bool :=
  (0 <=? off) && (0 <=? len) && (off + len <=? zlen l).

Section Buffers.
Context {A : Type}.
Implicit Types l new : list A.

Lemma zlen_nonneg l : 0 <= zlen l.
Proof. unfold zlen. lia. Qed.

Lemma zlen_cons (x : A) l : zlen (x :: l) = 1 + zlen l.
Proof. unfold zlen. cbn [length]. lia. Qed.

Lemma zlen_app l1 l2 : zlen (l1 ++ l2) = zlen l1 + zlen l2.
Proof. unfold zlen. rewrite length_app. lia. Qed.

Lemma zlen_fill n (x : A) : 0 <= n -> zlen (fill n x) = n.
Proof. intros. unfold zlen, fill. rewrite length_replicate. lia. Qed.

Lemma in_range_spec off len l :
  in_range off len l = true <-> 0 <= off /\ 0 <= len /\ off + len <= zlen l.
Proof. unfold in_range. rewrite !andb_true_iff, !Z.leb_le. tauto. Qed.

Lemma zlen_slice off len l :
  0 <= off -> 0 <= len -> off + len <= zlen l -> zlen (slice off len l) = len.
Proof. unfold zlen, slice. intros. rewrite length_take, length_drop. lia. Qed.

Lemma zlen_splice off new l :
  0 <= off -> off + zlen new <= zlen l -> zlen (splice off new l) = zlen l.
Proof.
  unfold zlen, splice. intros.
  rewrite !length_app, length_take, length_drop. lia.
Qed.

Lemma lookup_slice off len l i :
  slice off len l !! i
  = if decide (i < Z.to_nat len)%nat then l !! (Z.to_nat off + i)%nat else None.
Proof. unfold slice. rewrite lookup_take, lookup_drop. done. Qed.

Lemma lookup_splice off new l i :
  0 <= off -> off + zlen new <= zlen l ->
  splice off new l !! i
  = if decide (Z.to_nat off <= i < Z.to_nat off + length new)%nat
    then new !! (i - Z.to_nat off)%nat else l !! i.
Proof.
  unfold zlen, splice. intros Hoff Hle.
  assert (length (take (Z.to_nat off) l) = Z.to_nat off) as Hlen
    by (rewrite length_take; lia).
  case_decide as Hin.
  - rewrite lookup_app_r by lia. rewrite lookup_app_l by lia. by rewrite Hlen.
  - destruct (decide (i < Z.to_nat off)%nat).
    + rewrite lookup_app_l, lookup_take by lia. by case_decide.
    + rewrite !lookup_app_r, lookup_drop by lia. f_equal. lia.
Qed.

Lemma slice_splice_in off new l o len :
  0 <= off -> off + zlen new <= zlen l -> off <= o -> o + len <= off + zlen new ->
  slice o len (splice off new l) = slice (o - off) len new.
Proof.
  intros. apply list_eq. intros i. rewrite !lookup_slice. case_decide; [|done].
  rewrite lookup_splice by done. unfold zlen in *.
  rewrite decide_True by lia. f_equal. lia.
Qed.

Lemma slice_splice_out off new l o len :
  0 <= off -> 0 <= o -> off + zlen new <= zlen l ->
  o + len <= off \/ off + zlen new <= o ->
  slice o len (splice off new l) = slice o len l.
Proof.
  intros. apply list_eq. intros i. rewrite !lookup_slice. case_decide; [|done].
  rewrite lookup_splice by done. unfold zlen in *.
  rewrite decide_False by lia. done.
Qed.

Lemma slice_all l : slice 0 (zlen l) l = l.
Proof. unfold slice, zlen. rewrite Nat2Z.id. change (Z.to_nat 0) with 0%nat.
  rewrite drop_0. apply take_ge. lia. Qed.

Lemma slice_slice o1 n1 o2 n2 l :
  0 <= o1 -> 0 <= o2 -> o2 + n2 <= n1 ->
  slice o2 n2 (slice o1 n1 l) = slice (o1 + o2) n2 l.
Proof.
  intros. apply list_eq. intros i. rewrite !lookup_slice.
  case_decide; [|done]. rewrite decide_True by lia. f_equal. lia.
Qed.

Lemma slice_app_split off n1 n2 l :
  0 <= off -> 0 <= n1 -> 0 <= n2 -> off + n1 + n2 <= zlen l ->
  slice off n1 l ++ slice (off + n1) n2 l = slice off (n1 + n2) l.
Proof.
  intros. unfold slice, zlen in *.
  replace (Z.to_nat (n1 + n2)) with (Z.to_nat n1 + Z.to_nat n2)%nat by lia.
  replace (Z.to_nat (off + n1)) with (Z.to_nat off + Z.to_nat n1)%nat by lia.
  rewrite <- (take_take_drop _ (Z.to_nat n1)). by rewrite drop_drop.
Qed.

(** Overwriting a buffer by all of a buffer of the same size. *)
Lemma splice_full new l : zlen new = zlen l -> splice 0 new l = new.
Proof.
  intros H. unfold splice, zlen in *. change (Z.to_nat 0) with 0%nat.
  rewrite take_0, drop_ge by lia. by rewrite app_nil_r.
Qed.

Lemma slice_fill o len n (x : A) :
  0 <= o -> 0 <= len -> o + len <= n -> slice o len (fill n x) = fill len x.
Proof.
  intros. unfold slice, fill. rewrite drop_replicate, take_replicate. f_equal. lia.
Qed.

(** Buffers of [n] units of 512 that agree on each unit are equal. *)
Lemma slices_eq n l1 l2 :
  0 <= n -> zlen l1 = 512 * n -> zlen l2 = 512 * n ->
  (forall k, 0 <= k < n -> slice (512 * k) 512 l1 = slice (512 * k) 512 l2) -> l1 = l2.
Proof.
  intros Hn H1 H2 Heq. unfold zlen in *. apply list_eq. intros i.
  destruct (decide (i < Z.to_nat (512 * n))%nat) as [Hi|Hi].
  - pose proof (Z.div_mod (Z.of_nat i) 512 ltac:(lia)).
    pose proof (Z.mod_pos_bound (Z.of_nat i) 512 ltac:(lia)).
    set (k := Z.of_nat i / 512) in *.
    specialize (Heq k ltac:(lia)). apply (f_equal (fun l => l !! (i - Z.to_nat (512 * k))%nat)) in Heq.
    rewrite !lookup_slice in Heq. rewrite !decide_True in Heq by lia.
    replace (Z.to_nat (512 * k) + (i - Z.to_nat (512 * k)))%nat with i in Heq by lia. done.
  - rewrite !lookup_ge_None_2 by lia. done.
Qed.
End Buffers.

Create Rewrite HintDb zlen.
#[export] Hint Rewrite @zlen_app @zlen_fill @zlen_slice @zlen_splice using lia : zlen.

(** ** Kernel code: state, return value, or an oops *)

(** What goes wrong when the C code leaves its defined behaviour. *)
Inductive fault :=
  | NullDeref      (** load or store through a NULL pointer *)
  | OutOfBounds    (** memcpy/memset outside the object *)
  | UseAfterFree   (** access to an object that was freed or never allocated *)
  | BugOn          (** BUG(), BUG_ON() *)
  | Hang.          (** a loop that exhausted the fuel given to it *)

Inductive res (A : Type) :=
  | Ok (a : A)
  | Oops (f : fault).
Arguments Ok {A} a.
Arguments Oops {A} f.

(** Code that runs on a state [S]: it returns with a new state or oopses. *)
Definition K (S A : Type) : Type := S -> res (A * S).

#[global] Instance K_ret (S : Type) : MRet (K S) := fun A a s => Ok (a, s).
#[global] Instance K_bind (S : Type) : MBind (K S) := fun A B k m s =>
  match m s with
  | Ok (a, s') => k a s'
  | Oops f => Oops f
  end.

Definition kget {S : Type} : K S S := fun s => Ok (s, s).
Definition kput {S : Type} (s' : S) : K S unit := fun _ => Ok (tt, s').
Definition kmod {S : Type} (f : S -> S) : K S unit := fun s => Ok (tt, f s).
Definition kfail {S A : Type} (f : fault) : K S A := fun _ => Oops f.

(** Dereference: NULL oopses. *)
Definition kderef {S A : Type} (f : fault) (o : option A) : K S A :=
  match o with Some a => mret a | None => kfail f end.

(** A counted C loop [for (i = i0; n iterations; i++)] whose body either goes on
    with a new accumulator ([inl]) or leaves the loop ([inr]). *)
Fixpoint kfor {S A B : Type} (n : nat) (i : Z)
    (body : Z -> A -> K S (A + B)) (a : A) : K S (A + B) :=
  match n with
  | O => mret (inl a)
  | Datatypes.S n' =>
      r ← body i a;
      match r with
      | inl a' => kfor n' (i + 1) body a'
      | inr b => mret (inr b)
      end
  end.

(** [memcpy(dst + off, src, len(src))] and [memcpy(.., src + off, len)]. *)
Definition kstore {S : Type} (off : Z) (new buf : bytes) : K S bytes :=
  if in_range off (zlen new) buf then mret (splice off new buf) else kfail OutOfBounds.
Definition kload {S : Type} (off len : Z) (buf : bytes) : K S bytes :=
  if in_range off len buf then mret (slice off len buf) else kfail OutOfBounds.

(** The kernel allocator of a state: [kmalloc(n)] is NULL or a fresh object of
    [n] bytes with unspecified contents. *)
Class Alloc (S : Type) := kmalloc : Z -> K S (option bytes).

(** *** Weakest preconditions: the code returns and the postcondition holds *)

Definition wp {S A : Type} (m : K S A) (Q : A -> S -> Prop) (s : S) : Prop :=
  match m s with
  | Ok (a, s') => Q a s'
  | Oops _ => False
  end.

Section Wp.
Context {S : Type}.

Lemma wp_ret {A} (a : A) (Q : A -> S -> Prop) s : Q a s -> wp (mret a) Q s.
Proof. done. Qed.

Lemma wp_bind {A B} (m : K S A) (k : A -> K S B) Q s :
  wp m (fun a s' => wp (k a) Q s') s -> wp (m ≫= k) Q s.
Proof.
  unfold wp, mbind, K_bind. destruct (m s) as [[a s']|f]; done.
Qed.

Lemma kbind_assoc {A B C} (m : K S A) (f : A -> K S B) (g : B -> K S C) Q s :
  wp ((m ≫= f) ≫= g) Q s -> wp (m ≫= (fun a => f a ≫= g)) Q s.
Proof. unfold wp, mbind, K_bind. by destruct (m s) as [[a s']|]. Qed.

Lemma wp_mono {A} (m : K S A) (P Q : A -> S -> Prop) s :
  wp m P s -> (forall a s', P a s' -> Q a s') -> wp m Q s.
Proof. unfold wp. destruct (m s) as [[a s']|]; auto. Qed.

Lemma wp_and {A} (m : K S A) (P Q : A -> S -> Prop) s :
  wp m P s -> wp m Q s -> wp m (fun a s' => P a s' /\ Q a s') s.
Proof. unfold wp. destruct (m s) as [[a s']|]; auto. Qed.

Lemma wp_inv {A} (m : K S A) Q s :
  wp m Q s -> exists a s', m s = Ok (a, s') /\ Q a s'.
Proof. unfold wp. destruct (m s) as [[a s']|]; [eauto|done]. Qed.

Lemma wp_of {A} (m : K S A) (Q : A -> S -> Prop) s a s' :
  m s = Ok (a, s') -> Q a s' -> wp m Q s.
Proof. unfold wp. by intros ->. Qed.

Lemma wp_get (Q : S -> S -> Prop) s : Q s s -> wp kget Q s.
Proof. done. Qed.

Lemma wp_mod (f : S -> S) (Q : unit -> S -> Prop) s : Q tt (f s) -> wp (kmod f) Q s.
Proof. done. Qed.

Lemma wp_deref {A} f (o : option A) (Q : A -> S -> Prop) s a :
  o = Some a -> Q a s -> wp (kderef f o) Q s.
Proof. by intros ->. Qed.

Lemma wp_store off new buf (Q : bytes -> S -> Prop) s :
  0 <= off -> off + zlen new <= zlen buf -> Q (splice off new buf) s ->
  wp (kstore off new buf) Q s.
Proof.
  intros ? ? HQ. unfold wp, kstore.
  rewrite (proj2 (in_range_spec _ _ _)); [done|]. pose proof (zlen_nonneg new). lia.
Qed.

Lemma wp_load off len buf (Q : bytes -> S -> Prop) s :
  0 <= off -> 0 <= len -> off + len <= zlen buf -> Q (slice off len buf) s ->
  wp (kload off len buf) Q s.
Proof.
  intros ? ? ? HQ. unfold wp, kload.
  rewrite (proj2 (in_range_spec _ _ _)); [done|]. lia.
Qed.

(** Loop rule: [I i a s] holds whenever the body is entered with index [i]. *)
Lemma wp_for {A B} (I : Z -> A -> S -> Prop) (Q : A + B -> S -> Prop) body :
  forall n i a s,
  I i a s ->
  (forall j a s, i <= j < i + Z.of_nat n -> I j a s ->
     wp (body j a) (fun r s' => match r with
                                | inl a' => I (j + 1) a' s'
                                | inr b => Q (inr b) s'
                                end) s) ->
  (forall a s, I (i + Z.of_nat n) a s -> Q (inl a) s) ->
  wp (kfor n i body a) Q s.
Proof.
  induction n as [|n IH]; intros i a s HI Hbody Hend; cbn [kfor].
  - apply wp_ret, Hend. by rewrite Z.add_0_r.
  - apply wp_bind. eapply wp_mono; [apply Hbody; [lia|done]|].
    intros [a'|b] s' HQ; [|done].
    apply IH; [done| |].
    + intros j a'' s'' Hj. apply Hbody. lia.
    + intros a'' s'' HI'. apply Hend. by replace (i + Z.of_nat (Datatypes.S n))
        with (i + 1 + Z.of_nat n) by lia.
Qed.
End Wp.

(** One step of symbolic execution of kernel code. *)
Ltac kstep :=
  lazymatch goal with
  | |- wp (mbind _ _) _ _ => apply wp_bind
  | |- wp (mret _) _ _ => apply wp_ret
  | |- wp kget _ _ => apply wp_get
  | |- wp (kmod _) _ _ => apply wp_mod
  end; cbv beta.

(** Use a specification for the call at the head of the goal. *)
Ltac kcall H := eapply wp_mono; [eapply H|cbv beta].
