(* ===== verification/Crc32.v ===== *)
(** * drivers/scsi/swap/crc32.c: the table-driven CRC-32

    [crc32_table], the unrolled [DO1]..[DO8] steps and [swap_crc32] are the C
    code; [crc_bit], [crc_byte] and [crc_ref] are the bit-serial definition of
    the reflected CRC-32 polynomial.  The main results: the table-driven code
    computes the bit-serial CRC, for any buffer and seed, and the checksum
    tells apart any two buffers that differ inside one window of four bytes. *)

From stdpp Require Import base list.
From coqutil Require Import Byte Word.LittleEndianList.
From Stdlib Require Import ZArith Lia.
From S2P Require Import Prelude.

Local Open Scope Z_scope.

(** ** The C code *)

Definition crc32_table : list Z := [
   0x00000000; 0x77073096; 0xee0e612c; 0x990951ba; 0x076dc419;
   0x706af48f; 0xe963a535; 0x9e6495a3; 0x0edb8832; 0x79dcb8a4;
   0xe0d5e91e; 0x97d2d988; 0x09b64c2b; 0x7eb17cbd; 0xe7b82d07;
   0x90bf1d91; 0x1db71064; 0x6ab020f2; 0xf3b97148; 0x84be41de;
   0x1adad47d; 0x6ddde4eb; 0xf4d4b551; 0x83d385c7; 0x136c9856;
   0x646ba8c0; 0xfd62f97a; 0x8a65c9ec; 0x14015c4f; 0x63066cd9;
   0xfa0f3d63; 0x8d080df5; 0x3b6e20c8; 0x4c69105e; 0xd56041e4;
   0xa2677172; 0x3c03e4d1; 0x4b04d447; 0xd20d85fd; 0xa50ab56b;
   0x35b5a8fa; 0x42b2986c; 0xdbbbc9d6; 0xacbcf940; 0x32d86ce3;
   0x45df5c75; 0xdcd60dcf; 0xabd13d59; 0x26d930ac; 0x51de003a;
   0xc8d75180; 0xbfd06116; 0x21b4f4b5; 0x56b3c423; 0xcfba9599;
   0xb8bda50f; 0x2802b89e; 0x5f058808; 0xc60cd9b2; 0xb10be924;
   0x2f6f7c87; 0x58684c11; 0xc1611dab; 0xb6662d3d; 0x76dc4190;
   0x01db7106; 0x98d220bc; 0xefd5102a; 0x71b18589; 0x06b6b51f;
   0x9fbfe4a5; 0xe8b8d433; 0x7807c9a2; 0x0f00f934; 0x9609a88e;
   0xe10e9818; 0x7f6a0dbb; 0x086d3d2d; 0x91646c97; 0xe6635c01;
   0x6b6b51f4; 0x1c6c6162; 0x856530d8; 0xf262004e; 0x6c0695ed;
   0x1b01a57b; 0x8208f4c1; 0xf50fc457; 0x65b0d9c6; 0x12b7e950;
   0x8bbeb8ea; 0xfcb9887c; 0x62dd1ddf; 0x15da2d49; 0x8cd37cf3;
   0xfbd44c65; 0x4db26158; 0x3ab551ce; 0xa3bc0074; 0xd4bb30e2;
   0x4adfa541; 0x3dd895d7; 0xa4d1c46d; 0xd3d6f4fb; 0x4369e96a;
   0x346ed9fc; 0xad678846; 0xda60b8d0; 0x44042d73; 0x33031de5;
   0xaa0a4c5f; 0xdd0d7cc9; 0x5005713c; 0x270241aa; 0xbe0b1010;
   0xc90c2086; 0x5768b525; 0x206f85b3; 0xb966d409; 0xce61e49f;
   0x5edef90e; 0x29d9c998; 0xb0d09822; 0xc7d7a8b4; 0x59b33d17;
   0x2eb40d81; 0xb7bd5c3b; 0xc0ba6cad; 0xedb88320; 0x9abfb3b6;
   0x03b6e20c; 0x74b1d29a; 0xead54739; 0x9dd277af; 0x04db2615;
   0x73dc1683; 0xe3630b12; 0x94643b84; 0x0d6d6a3e; 0x7a6a5aa8;
   0xe40ecf0b; 0x9309ff9d; 0x0a00ae27; 0x7d079eb1; 0xf00f9344;
   0x8708a3d2; 0x1e01f268; 0x6906c2fe; 0xf762575d; 0x806567cb;
   0x196c3671; 0x6e6b06e7; 0xfed41b76; 0x89d32be0; 0x10da7a5a;
   0x67dd4acc; 0xf9b9df6f; 0x8ebeeff9; 0x17b7be43; 0x60b08ed5;
   0xd6d6a3e8; 0xa1d1937e; 0x38d8c2c4; 0x4fdff252; 0xd1bb67f1;
   0xa6bc5767; 0x3fb506dd; 0x48b2364b; 0xd80d2bda; 0xaf0a1b4c;
   0x36034af6; 0x41047a60; 0xdf60efc3; 0xa867df55; 0x316e8eef;
   0x4669be79; 0xcb61b38c; 0xbc66831a; 0x256fd2a0; 0x5268e236;
   0xcc0c7795; 0xbb0b4703; 0x220216b9; 0x5505262f; 0xc5ba3bbe;
   0xb2bd0b28; 0x2bb45a92; 0x5cb36a04; 0xc2d7ffa7; 0xb5d0cf31;
   0x2cd99e8b; 0x5bdeae1d; 0x9b64c2b0; 0xec63f226; 0x756aa39c;
   0x026d930a; 0x9c0906a9; 0xeb0e363f; 0x72076785; 0x05005713;
   0x95bf4a82; 0xe2b87a14; 0x7bb12bae; 0x0cb61b38; 0x92d28e9b;
   0xe5d5be0d; 0x7cdcefb7; 0x0bdbdf21; 0x86d3d2d4; 0xf1d4e242;
   0x68ddb3f8; 0x1fda836e; 0x81be16cd; 0xf6b9265b; 0x6fb077e1;
   0x18b74777; 0x88085ae6; 0xff0f6a70; 0x66063bca; 0x11010b5c;
   0x8f659eff; 0xf862ae69; 0x616bffd3; 0x166ccf45; 0xa00ae278;
   0xd70dd2ee; 0x4e048354; 0x3903b3c2; 0xa7672661; 0xd06016f7;
   0x4969474d; 0x3e6e77db; 0xaed16a4a; 0xd9d65adc; 0x40df0b66;
   0x37d83bf0; 0xa9bcae53; 0xdebb9ec5; 0x47b2cf7f; 0x30b5ffe9;
   0xbdbdf21c; 0xcabac28a; 0x53b39330; 0x24b4a3a6; 0xbad03605;
   0xcdd70693; 0x54de5729; 0x23d967bf; 0xb3667a2e; 0xc4614ab8;
   0x5d681b02; 0x2a6f2b94; 0xb40bbe37; 0xc30c8ea1; 0x5a05df1b;
   0x2d02ef8d].

(** [crc = crc32_table[((int)crc ^ ( *buf++)) & 0xff] ^ (crc >> 8)], on the pair
    of the register and the read pointer. *)
Definition DO1 (st : Z * bytes) : Z * bytes :=
  let '(crc, buf) := st in
  let b := byte.unsigned (hd Byte.x00 buf) in
  (Z.lxor (nth (Z.to_nat (Z.land (Z.lxor crc b) 0xff)) crc32_table 0)
          (Z.shiftr crc 8),
   tl buf).
Definition DO2 (st : Z * bytes) : Z * bytes := DO1 (DO1 st).
Definition DO4 (st : Z * bytes) : Z * bytes := DO2 (DO2 st).
Definition DO8 (st : Z * bytes) : Z * bytes := DO4 (DO4 st).

(** [while (len >= 8) { DO8(buf); len -= 8; }] *)
Fixpoint do8_loop (fuel : nat) (st : Z * bytes) (len : Z) : Z * bytes * Z :=
  match fuel with
  | O => (st, len)
  | S f => if 8 <=? len then do8_loop f (DO8 st) (len - 8) else (st, len)
  end.

(** [do { DO1(buf); } while (--len);] *)
Fixpoint do1_loop (fuel : nat) (st : Z * bytes) (len : Z) : Z * bytes :=
  match fuel with
  | O => st
  | S f =>
      let st' := DO1 st in
      let len' := len - 1 in
      if len' =? 0 then st' else do1_loop f st' len'
  end.

(** [u32 swap_crc32(u32 crc, const void *ss, int len)] on a buffer [ss]. *)
Definition swap_crc32 (crc : Z) (ss : bytes) (len : Z) : Z :=
  let crc := Z.lxor crc 0xffffffff in
  let '(st, len) := do8_loop (Z.to_nat len) (crc, ss) len in
  let st := if negb (len =? 0) then do1_loop (Z.to_nat len) st len else st in
  Z.lxor (fst st) 0xffffffff.

(** ** The bit-serial reference *)

Definition crc_poly : Z := 0xedb88320.

Definition crc_bit (c : Z) : Z :=
  Z.lxor (Z.shiftr c 1) (if Z.testbit c 0 then crc_poly else 0).

Definition crc_bits (n : nat) (c : Z) : Z := Nat.iter n crc_bit c.

Definition crc_byte (c : Z) (b : byte) : Z := crc_bits 8 (Z.lxor c (byte.unsigned b)).

Definition crc_ref (crc : Z) (ss : bytes) : Z :=
  Z.lxor (foldl crc_byte (Z.lxor crc 0xffffffff) ss) 0xffffffff.

(** ** Algebra of the reference *)

Definition is_u32 (c : Z) : Prop := 0 <= c < 2 ^ 32.

Lemma lxor_u32 a b : is_u32 a -> is_u32 b -> is_u32 (Z.lxor a b).
Proof.
  unfold is_u32. intros Ha Hb. split; [apply Z.lxor_nonneg; lia|].
  destruct (Z.eq_dec (Z.lxor a b) 0) as [->|Hne]; [lia|].
  assert (0 <= Z.lxor a b) by (apply Z.lxor_nonneg; lia).
  apply Z.log2_lt_pow2; [lia|].
  pose proof (Z.log2_lxor a b ltac:(lia) ltac:(lia)).
  destruct (Z.eq_dec a 0) as [->|], (Z.eq_dec b 0) as [->|]; cbn in *; try lia;
    repeat match goal with
    | H : 0 <= ?x < 2 ^ 32, H' : ?x <> 0 |- _ =>
        let L := fresh in
        assert (Z.log2 x < 32) as L by (apply Z.log2_lt_pow2; lia); clear H'
    end; lia.
Qed.

Lemma crc_bit_lxor a b : crc_bit (Z.lxor a b) = Z.lxor (crc_bit a) (crc_bit b).
Proof.
  unfold crc_bit. rewrite Z.lxor_spec, Z.shiftr_lxor.
  apply Z.bits_inj'. intros i _.
  destruct (Z.testbit a 0), (Z.testbit b 0); cbn [xorb];
    rewrite !Z.lxor_spec, ?Z.bits_0;
    by destruct (Z.testbit _ i), (Z.testbit _ i), (Z.testbit crc_poly i).
Qed.

Lemma crc_bits_S n c : crc_bits (S n) c = crc_bit (crc_bits n c).
Proof. done. Qed.

Lemma crc_bits_lxor n a b :
  crc_bits n (Z.lxor a b) = Z.lxor (crc_bits n a) (crc_bits n b).
Proof.
  induction n as [|n IH]; [done|]. by rewrite !crc_bits_S, IH, crc_bit_lxor.
Qed.

Lemma crc_bits_add n m c : crc_bits (n + m) c = crc_bits n (crc_bits m c).
Proof. unfold crc_bits. apply Nat.iter_add. Qed.

(** Low bits that are zero are only shifted out. *)
Lemma crc_bits_shiftl n y : crc_bits n (Z.shiftl y (Z.of_nat n)) = y.
Proof.
  revert y. induction n as [|n IH]; intros y; [apply Z.shiftl_0_r|].
  replace (S n) with (n + 1)%nat by lia. rewrite crc_bits_add.
  change (crc_bits 1 ?c) with (crc_bit c).
  unfold crc_bit. rewrite Z.shiftl_spec_low, Z.lxor_0_r by lia.
  rewrite Z.shiftr_shiftl_l by lia.
  replace (Z.of_nat (n + 1) - 1) with (Z.of_nat n) by lia. apply IH.
Qed.

Lemma crc_bit_u32 c : is_u32 c -> is_u32 (crc_bit c).
Proof.
  intros Hc. apply lxor_u32.
  - unfold is_u32 in *. rewrite Z.shiftr_div_pow2 by lia.
    change (2 ^ 1) with 2. split; [apply Z.div_pos; lia|].
    apply Z.div_lt_upper_bound; lia.
  - unfold is_u32, crc_poly. destruct (Z.testbit c 0); lia.
Qed.

Lemma crc_bits_u32 n c : is_u32 c -> is_u32 (crc_bits n c).
Proof.
  intros Hc. induction n; [done|]. rewrite crc_bits_S. by apply crc_bit_u32.
Qed.

(** The polynomial has bit 31 set, so a step can be undone. *)
Lemma crc_bit_inj a b : is_u32 a -> is_u32 b -> crc_bit a = crc_bit b -> a = b.
Proof.
  intros Ha Hb E.
  assert (forall c, is_u32 c -> Z.testbit (crc_bit c) 31 = Z.testbit c 0) as Htop.
  { intros c Hc. unfold crc_bit. rewrite Z.lxor_spec, Z.shiftr_spec by lia.
    replace (Z.testbit c (31 + 1)) with false.
    - by destruct (Z.testbit c 0).
    - symmetry. apply Z.bits_above_log2; [unfold is_u32 in *; lia|].
      destruct (Z.eq_dec c 0) as [->|]; [done|].
      apply Z.log2_lt_pow2; unfold is_u32 in *; lia. }
  assert (Z.testbit a 0 = Z.testbit b 0) as E0 by (rewrite <- !Htop, E by done; done).
  assert (Z.shiftr a 1 = Z.shiftr b 1) as E1.
  { unfold crc_bit in E. rewrite E0 in E.
    apply (f_equal (fun z => Z.lxor z (if Z.testbit b 0 then crc_poly else 0))) in E.
    by rewrite !Z.lxor_assoc, !Z.lxor_nilpotent, !Z.lxor_0_r in E. }
  apply Z.bits_inj'. intros i Hi. destruct (Z.eq_dec i 0) as [->|]; [done|].
  replace i with (i - 1 + 1) by lia. rewrite <- !Z.shiftr_spec by lia. by rewrite E1.
Qed.

Lemma crc_bits_inj n a b :
  is_u32 a -> is_u32 b -> crc_bits n a = crc_bits n b -> a = b.
Proof.
  intros Ha Hb. induction n as [|n IH]; [done|]. rewrite !crc_bits_S. intros E. apply IH.
  apply crc_bit_inj; [by apply crc_bits_u32..|done].
Qed.

Lemma lxor_cancel_l c a b : Z.lxor c a = Z.lxor c b -> a = b.
Proof.
  intros E. apply (f_equal (Z.lxor c)) in E.
  by rewrite <- !Z.lxor_assoc, Z.lxor_nilpotent, !Z.lxor_0_l in E.
Qed.

(** A whole buffer is folded in as one little-endian number. *)
Lemma crc_fold_le c ss :
  foldl crc_byte c ss = crc_bits (8 * length ss) (Z.lxor c (le_combine ss)).
Proof.
  revert c. induction ss as [|b ss IH]; intros c.
  - cbn. unfold le_combine. by rewrite Z.lxor_0_r.
  - cbn [foldl]. rewrite IH. unfold crc_byte.
    change (length (b :: ss)) with (S (length ss)).
    replace (8 * S (length ss))%nat with (8 * length ss + 8)%nat by lia.
    rewrite crc_bits_add. f_equal.
    replace (le_combine (b :: ss))
      with (Z.lxor (byte.unsigned b) (Z.shiftl (le_combine ss) (Z.of_nat 8))).
    + rewrite <- Z.lxor_assoc, (crc_bits_lxor 8 (Z.lxor c _)), crc_bits_shiftl. done.
    + unfold le_combine; fold le_combine. symmetry. apply Z.bits_inj'. intros i Hi.
      rewrite Z.lor_spec, Z.lxor_spec.
      destruct (Z.ltb_spec i 8) as [Hlt|Hge].
      * rewrite !Z.shiftl_spec_low by lia. by destruct (Z.testbit _ _).
      * replace (Z.testbit (byte.unsigned b) i) with false; [by destruct (Z.testbit _ _)|].
        symmetry. pose proof (byte.unsigned_range b).
        destruct (Z.eq_dec (byte.unsigned b) 0) as [->|]; [by rewrite Z.bits_0|].
        apply Z.bits_above_log2; [lia|].
        assert (Z.log2 (byte.unsigned b) < 8) by (apply Z.log2_lt_pow2; lia). lia.
Qed.

(** ** The C code computes the reference *)

Lemma crc32_table_spec i :
  0 <= i < 256 -> nth (Z.to_nat i) crc32_table 0 = crc_bits 8 i.
Proof.
  intros Hi.
  assert (forallb (fun n => nth n crc32_table 0 =? crc_bits 8 (Z.of_nat n)) (seq 0 256)
          = true) as Hall by (vm_compute; reflexivity).
  rewrite forallb_forall in Hall. specialize (Hall (Z.to_nat i)).
  rewrite Z.eqb_eq, Z2Nat.id in Hall by lia. apply Hall, in_seq. lia.
Qed.

Lemma DO1_spec c b ss : is_u32 c -> DO1 (c, b :: ss) = (crc_byte c b, ss).
Proof.
  intros Hc. unfold DO1. cbn [hd tl]. f_equal.
  pose proof (byte.unsigned_range b) as Hb.
  change 0xff with (Z.ones 8). rewrite Z.land_ones by lia.
  rewrite crc32_table_spec by (apply Z.mod_pos_bound; lia).
  unfold crc_byte. set (x := Z.lxor c (byte.unsigned b)).
  replace (Z.shiftr c 8) with (Z.shiftr x 8).
  - rewrite <- (crc_bits_shiftl 8 (Z.shiftr x 8)), <- crc_bits_lxor. f_equal.
    apply Z.bits_inj'. intros i Hi. rewrite Z.lxor_spec, <- Z.land_ones, Z.land_spec by lia.
    rewrite Z.testbit_ones_nonneg by lia. change (Z.of_nat 8) with 8.
    destruct (Z.ltb_spec i 8).
    + rewrite Z.shiftl_spec_low by lia. by destruct (Z.testbit x i).
    + rewrite Z.shiftl_spec, Z.shiftr_spec by lia.
      replace (i - 8 + 8) with i by lia. by destruct (Z.testbit x i).
  - unfold x. rewrite Z.shiftr_lxor, (Z.shiftr_div_pow2 (byte.unsigned b)) by lia.
    rewrite (Z.div_small (byte.unsigned b)) by lia. apply Z.lxor_0_r.
Qed.

Lemma crc_byte_u32 c b : is_u32 c -> is_u32 (crc_byte c b).
Proof.
  intros Hc. apply crc_bits_u32, lxor_u32; [done|].
  pose proof (byte.unsigned_range b). unfold is_u32. lia.
Qed.

Lemma crc_fold_u32 c ss : is_u32 c -> is_u32 (foldl crc_byte c ss).
Proof. revert c. induction ss; [done|]. intros c Hc. cbn. by apply IHss, crc_byte_u32. Qed.

Lemma DO8_spec c l ss :
  is_u32 c -> length l = 8%nat -> DO8 (c, l ++ ss) = (foldl crc_byte c l, ss).
Proof.
  intros Hc Hl.
  do 8 (destruct l as [|? l]; [done|]). destruct l; [|done]. cbn [app foldl].
  unfold DO8, DO4, DO2. by rewrite !DO1_spec by (repeat apply crc_byte_u32; done).
Qed.

Lemma DO8_take c ss :
  is_u32 c -> (8 <= length ss)%nat ->
  DO8 (c, ss) = (foldl crc_byte c (take 8 ss), drop 8 ss).
Proof.
  intros Hc H8. rewrite <- (take_drop 8 ss) at 1. apply DO8_spec; [done|].
  rewrite length_take. lia.
Qed.

Lemma do8_loop_spec fuel : forall c ss len,
  is_u32 c -> len = zlen ss -> (length ss <= fuel)%nat ->
  exists l1 l2, ss = l1 ++ l2 /\ (length l2 < 8)%nat /\
    do8_loop fuel (c, ss) len = (foldl crc_byte c l1, l2, zlen l2).
Proof.
  induction fuel as [|f IH]; intros c ss len Hc -> Hf; cbn [do8_loop].
  - exists [], []. destruct ss; [|cbn in Hf; lia]. split_and!; [done|cbn; lia|done].
  - destruct (Z.leb_spec 8 (zlen ss)) as [H8|H8].
    + assert (8 <= length ss)%nat by (unfold zlen in H8; lia).
      rewrite DO8_take by done.
      destruct (IH (foldl crc_byte c (take 8 ss)) (drop 8 ss) (zlen ss - 8))
        as (l1 & l2 & E & Hl2 & ->).
      * by apply crc_fold_u32.
      * unfold zlen. rewrite length_drop. lia.
      * rewrite length_drop. lia.
      * exists (take 8 ss ++ l1), l2. rewrite <- app_assoc, <- E, take_drop.
        by rewrite foldl_app.
    + exists [], ss. unfold zlen in *. split_and!; [done|lia|done].
Qed.

Lemma do1_loop_spec fuel : forall c ss len,
  is_u32 c -> ss <> [] -> len = zlen ss -> (length ss <= fuel)%nat ->
  do1_loop fuel (c, ss) len = (foldl crc_byte c ss, []).
Proof.
  induction fuel as [|f IH]; intros c ss len Hc Hne -> Hf;
    (destruct ss as [|b ss]; [done|]); cbn in Hf; [lia|].
  cbn [do1_loop]. rewrite DO1_spec by done. destruct ss as [|b' ss].
  - done.
  - replace (zlen (b :: b' :: ss) - 1) with (zlen (b' :: ss)) by (unfold zlen; cbn; lia).
    destruct (Z.eqb_spec (zlen (b' :: ss)) 0) as [E|_]; [unfold zlen in E; cbn in E; lia|].
    rewrite IH; [done|by apply crc_byte_u32|done|done|cbn in *; lia].
Qed.

Lemma swap_crc32_eq crc ss :
  is_u32 crc -> swap_crc32 crc ss (zlen ss) = crc_ref crc ss.
Proof.
  intros Hc. unfold swap_crc32, crc_ref.
  assert (is_u32 (Z.lxor crc 0xffffffff)) as Hx
    by (apply lxor_u32; [done|unfold is_u32; lia]).
  destruct (do8_loop_spec (Z.to_nat (zlen ss)) (Z.lxor crc 0xffffffff) ss (zlen ss) Hx)
    as (l1 & l2 & E & Hl2 & ->); [done|unfold zlen; lia|].
  destruct l2 as [|b l2]; cbn [fst].
  - change (zlen (@nil byte) =? 0) with true. cbn [negb fst].
    by rewrite app_nil_r in E; subst.
  - destruct (Z.eqb_spec (zlen (b :: l2)) 0) as [E0|_]; [unfold zlen in E0; cbn in E0; lia|].
    cbn [negb]. rewrite do1_loop_spec; [|by apply crc_fold_u32|done|done|unfold zlen; lia].
    cbn [fst]. by rewrite <- foldl_app, <- E.
Qed.

(** C35: for every seed and every buffer, the unrolled table-driven [swap_crc32]
    called with the buffer's length returns the bit-serial CRC-32. *)
Theorem swap_crc32_is_crc32 (crc : Z) (ss : bytes) :
  is_u32 crc -> swap_crc32 crc ss (zlen ss) = crc_ref crc ss.
Proof. apply swap_crc32_eq. Qed.

Lemma swap_crc32_is_crc32_witness :
  is_u32 0xffffffff /\
  swap_crc32 0xffffffff (fill 11 Byte.x41) (zlen (fill 11 Byte.x41))
  = crc_ref 0xffffffff (fill 11 Byte.x41).
Proof.
  split; [unfold is_u32; lia|]. apply swap_crc32_is_crc32. unfold is_u32. lia.
Defined.

(** The check value of CRC-32: ["123456789"] with the usual seed. *)
Example swap_crc32_check :
  swap_crc32 0 [Byte.x31; Byte.x32; Byte.x33; Byte.x34; Byte.x35;
                Byte.x36; Byte.x37; Byte.x38; Byte.x39] 9 = 0xcbf43926.
Proof. vm_compute. reflexivity. Qed.

Lemma swap_crc32_u32 crc ss : is_u32 crc -> is_u32 (swap_crc32 crc ss (zlen ss)).
Proof.
  intros Hc. rewrite swap_crc32_eq by done. unfold crc_ref.
  apply lxor_u32; [|unfold is_u32; lia].
  apply crc_fold_u32, lxor_u32; [done|unfold is_u32; lia].
Qed.

Lemma crc_window_inj c w w' :
  is_u32 c -> length w = length w' -> (length w <= 4)%nat ->
  foldl crc_byte c w = foldl crc_byte c w' -> w = w'.
Proof.
  intros Hc Hlen H4. rewrite !crc_fold_le, <- Hlen. intros E.
  assert (forall l : bytes, (length l <= 4)%nat -> is_u32 (le_combine l)) as Hu32.
  { intros l Hl. pose proof (le_combine_bound l) as [H0 Hb]. split; [done|].
    eapply Z.lt_le_trans; [exact Hb|]. apply Z.pow_le_mono_r; lia. }
  apply crc_bits_inj in E; [|apply lxor_u32; [done|apply Hu32; lia]..].
  apply lxor_cancel_l in E. by apply le_combine_inj.
Qed.

Lemma crc_fold_inj c c' ss :
  is_u32 c -> is_u32 c' -> foldl crc_byte c ss = foldl crc_byte c' ss -> c = c'.
Proof.
  intros Hc Hc'. rewrite !crc_fold_le, !crc_bits_lxor.
  intros E. apply (f_equal (fun z => Z.lxor z (crc_bits (8 * length ss) (le_combine ss)))) in E.
  rewrite !Z.lxor_assoc, !Z.lxor_nilpotent, !Z.lxor_0_r in E.
  by eapply crc_bits_inj.
Qed.

(** two buffers of the same layout that differ only inside a window of at
    most four bytes never have the same checksum: a single corrupted field of a
    swap table or head is always noticed by the CRC check. *)
Theorem swap_crc32_detects_burst (crc : Z) (pre w w' post : bytes) :
  is_u32 crc -> length w = length w' -> (length w <= 4)%nat -> w <> w' ->
  swap_crc32 crc (pre ++ w ++ post) (zlen (pre ++ w ++ post))
  <> swap_crc32 crc (pre ++ w' ++ post) (zlen (pre ++ w' ++ post)).
Proof.
  intros Hc Hlen H4 Hne. rewrite !swap_crc32_eq by done. unfold crc_ref.
  rewrite !(Z.lxor_comm _ 0xffffffff), !foldl_app. intros E. apply lxor_cancel_l in E.
  assert (is_u32 (foldl crc_byte (Z.lxor 0xffffffff crc) pre)) as Hpre
    by (apply crc_fold_u32, lxor_u32; [unfold is_u32; lia|done]).
  apply crc_fold_inj in E; [|by apply crc_fold_u32..].
  apply Hne. by eapply crc_window_inj.
Qed.

Lemma swap_crc32_detects_burst_witness :
  [Byte.x01] <> [Byte.x02] /\
  swap_crc32 0xffffffff ([Byte.x07] ++ [Byte.x01] ++ [Byte.x09]) 3
  <> swap_crc32 0xffffffff ([Byte.x07] ++ [Byte.x02] ++ [Byte.x09]) 3.
Proof.
  split; [discriminate|].
  apply (swap_crc32_detects_burst 0xffffffff [Byte.x07] [Byte.x01] [Byte.x02] [Byte.x09]);
    [unfold is_u32; lia|reflexivity|cbn; lia|discriminate].
Defined.

(** Proofs use the results above, never the table. *)
Global Opaque swap_crc32.
