(* ===== verification/Kapi.v ===== *)
(** * Constants of the kernel and SCSI interfaces the driver is written against

    Command codes, status bytes and errno values are fixed by the SCSI standards
    and by the kernel's exported headers; the repository only uses their names. *)

From stdpp Require Import base decidable.
From Stdlib Require Import ZArith.
Local Open Scope Z_scope.

(** ** SCSI command codes (SBC/SPC) *)
Definition TEST_UNIT_READY : Z := 0x00.
Definition REASSIGN_BLOCKS : Z := 0x07.
Definition READ_6 : Z := 0x08.
Definition WRITE_6 : Z := 0x0a.
Definition READ_CAPACITY : Z := 0x25.
Definition READ_10 : Z := 0x28.
Definition WRITE_10 : Z := 0x2a.
Definition SYNCHRONIZE_CACHE : Z := 0x35.
Definition WRITE_SAME : Z := 0x41.
Definition UNMAP : Z := 0x42.
Definition VARIABLE_LENGTH_CMD : Z := 0x7f.
Definition READ_16 : Z := 0x88.
Definition WRITE_16 : Z := 0x8a.
Definition WRITE_SAME_16 : Z := 0x93.
Definition SERVICE_ACTION_IN : Z := 0x9e.
Definition SAI_READ_CAPACITY_16 : Z := 0x10.
Definition READ_12 : Z := 0xa8.
Definition WRITE_12 : Z := 0xaa.
Definition READ_32 : Z := 0x09.
Definition WRITE_32 : Z := 0x0b.

(** ** Sense keys *)
Definition NO_SENSE : Z := 0x00.
Definition RECOVERED_ERROR : Z := 0x01.
Definition NOT_READY : Z := 0x02.
Definition MEDIUM_ERROR : Z := 0x03.
Definition HARDWARE_ERROR : Z := 0x04.
Definition ILLEGAL_REQUEST : Z := 0x05.
Definition UNIT_ATTENTION : Z := 0x06.
Definition ABORTED_COMMAND : Z := 0x0b.

(** ** The four bytes of a command result *)
Definition SAM_STAT_CHECK_CONDITION : Z := 0x02.
Definition DID_NO_CONNECT : Z := 0x01.
Definition DID_TIME_OUT : Z := 0x03.
Definition DID_BAD_TARGET : Z := 0x04.
Definition DID_ABORT : Z := 0x05.
Definition DRIVER_INVALID : Z := 0x05.
Definition DRIVER_SENSE : Z := 0x08.
Definition host_byte (result : Z) : Z := Z.land (Z.shiftr result 16) 0xff.
Definition driver_byte (result : Z) : Z := Z.land (Z.shiftr result 24) 0xff.

(** ** errno *)
Definition EIO : Z := 5.
Definition ENXIO : Z := 6.
Definition EAGAIN : Z := 11.
Definition ENOMEM : Z := 12.
Definition EACCES : Z := 13.
Definition ENODEV : Z := 19.
Definition EINVAL : Z := 22.
Definition EROFS : Z := 30.
Definition EOVERFLOW : Z := 75.
Definition EOPNOTSUPP : Z := 95.
Definition ENOMEDIUM : Z := 123.

(** ** Memory *)
Definition PAGE_SIZE : Z := 4096.

(** Decoded sense data. *)
Record scsi_sense_hdr := mkSense {
  response_code : Z;
  sense_key : Z;
  asc : Z;
  ascq : Z
}.

Definition no_sense_hdr : scsi_sense_hdr := mkSense 0 0 0 0.

(** Direction of a data transfer. *)
Inductive dma_dir := DMA_TO_DEVICE | DMA_FROM_DEVICE | DMA_NONE.

(** Request flags (include/linux/blk_types.h). *)
Definition REQ_DISCARD : Z := Z.shiftl 1 7.
Definition REQ_SECURE : Z := Z.shiftl 1 8.
Definition REQ_WRITE_SAME : Z := Z.shiftl 1 9.
Definition REQ_FUA : Z := Z.shiftl 1 11.
Definition REQ_FLUSH : Z := Z.shiftl 1 12.
Definition REQ_WRITE : Z := 1.
Definition REQ_FAILFAST_MASK : Z := 0xe.
Definition REQ_COMMON_MASK : Z := 0x1fff.
Definition REQ_SYNC : Z := Z.shiftl 1 4.
Definition REQ_RAHEAD : Z := Z.shiftl 1 13.
Definition REQ_SOFTBARRIER : Z := Z.shiftl 1 16.
Definition REQ_STARTED : Z := Z.shiftl 1 18.
Definition REQ_DONTPREP : Z := Z.shiftl 1 19.
Definition REQ_ELVPRIV : Z := Z.shiftl 1 21.
Definition REQ_QUIET : Z := Z.shiftl 1 23.
Definition REQ_ALLOCED : Z := Z.shiftl 1 25.
Definition REQ_FLUSH_SEQ : Z := Z.shiftl 1 27.
Definition REQ_IO_STAT : Z := Z.shiftl 1 28.
Definition REQ_MIXED_MERGE : Z := Z.shiftl 1 29.

(** drivers/scsi/sd.h and include/linux/blkdev.h *)
Definition SD_MAX_WS10_BLOCKS : Z := 0xffff.
Definition SD_MAX_WS16_BLOCKS : Z := 0x7fffff.
Definition SD_MAX_RETRIES : Z := 5.
Definition SD_LAST_BUGGY_SECTORS : Z := 8.
Definition SD_EXT_CDB_SIZE : Z := 32.
Definition SD_DIF_TYPE2_PROTECTION : Z := 2.
Definition SD_DIF_TYPE3_PROTECTION : Z := 3.
Definition BLK_MAX_CDB : Z := 16.
Inductive lbp_mode := SD_LBP_FULL | SD_LBP_UNMAP | SD_LBP_WS16 | SD_LBP_WS10 | SD_LBP_ZERO | SD_LBP_DISABLE.
Inductive req_type := REQ_TYPE_FS | REQ_TYPE_BLOCK_PC | REQ_TYPE_OTHER.
#[global] Instance req_type_eq_dec : EqDecision req_type.
Proof. solve_decision. Defined.
#[global] Instance lbp_mode_eq_dec : EqDecision lbp_mode.
Proof. solve_decision. Defined.
