(* ===== verification/Ring.v ===== *)
(** * drivers/scsi/swap/ring.h: the ring buffer behind the swap log

    [cspring] keeps the C structure, its storage as raw bytes; the fields are C
    ints and every sum and product of them is taken at 32 bits ([s32]).  The
    bound on the storage in [ring_wf] is what keeps those from overflowing (the
    ring of the log has 16384 bytes).  [ring_items] is
    the abstract content, oldest item first; the results say that [cspring_push]
    implements a queue bounded by the capacity that forgets its oldest item, that
    [cspring_peek] reads the abstract content by index, and that every access
    stays inside the storage. *)

From stdpp Require Import base list list_numbers.
From coqutil Require Import Byte.
From Stdlib Require Import ZArith Lia.
From S2P Require Import Prelude.

Local Open Scope Z_scope.

(** ** The C code *)

Record cspring := mkRing {
  item_cap : Z;      (* capacity of slots *)
  item_size : Z;     (* size of each item *)
  item_num : Z;      (* number of elements *)
  item_next : Z;     (* next push index *)
  buffer : bytes     (* cspring buffer *)
}.

Definition cspring_size (r : cspring) : Z := s32 (item_cap r * item_size r).

Definition cspring_get_pop_index (r : cspring) : Z :=
  Z.rem (s32 (s32 (item_next r - item_num r) + item_cap r)) (item_cap r).

(** Offset of slot [index] in the storage: the pointer [cspring_get_data] returns,
    relative to [r->buffer]. *)
Definition cspring_get_data (r : cspring) (index : Z) : Z := s32 (index * item_size r).

Definition cspring_update (r : cspring) : cspring :=
  let num := if item_cap r <? item_num r then item_cap r else item_num r in
  let next := if item_cap r <=? item_next r then 0 else item_next r in
  let next := if num <=? 0 then 0 else next in
  mkRing (item_cap r) (item_size r) num next (buffer r).

(** [sizeof(struct cspring)]: four ints and a pointer. *)
Definition sizeof_cspring : Z := 24.

Section Create.
Context {S : Type} `{Alloc S}.

(** Both failures go to [err:], where [cspring_destroy] gives the memory back. *)
Definition cspring_create (size cap : Z) : K S (option cspring) :=
  r ← kmalloc (s32 (size * cap));
  match r with
  | None => mret None
  | Some obj =>
      if zlen obj <? sizeof_cspring then kfail OutOfBounds else
      buf ← kmalloc (s32 (cap * size));
      match buf with
      | None => mret None
      | Some b => mret (Some (mkRing cap size 0 0 b))
      end
  end.

(** [cspring_push] returns the ring and the offset the item was stored at. *)
Definition cspring_push (r : cspring) (data : bytes) : K S (cspring * Z) :=
  let ret := cspring_get_data r (item_next r) in
  item ← kload 0 (item_size r) data;
  b ← kstore ret item (buffer r);
  mret (cspring_update
          (mkRing (item_cap r) (item_size r) (s32 (item_num r + 1)) (s32 (item_next r + 1)) b),
        ret).
End Create.

Definition cspring_peek (r : cspring) (index : Z) : Z :=
  let pop_index := cspring_get_pop_index r in
  cspring_get_data r (Z.rem (s32 (pop_index + index)) (item_cap r)).

(** ** Abstract content *)

(** The bytes of the item at offset [off]. *)
Definition item_at (r : cspring) (off : Z) : bytes := slice off (item_size r) (buffer r).

Definition ring_items (r : cspring) : list bytes :=
  (fun k => item_at r (cspring_peek r k)) <$> seqZ 0 (item_num r).

(** A queue of at most [cap] items that drops its oldest one. *)
Definition bounded_push (cap : Z) (l : list bytes) (x : bytes) : list bytes :=
  drop (length (l ++ [x]) - Z.to_nat cap) (l ++ [x]).

(** The storage is at most a gigabyte: no index or offset leaves an int. *)
Definition ring_wf (r : cspring) : Prop :=
  (0 < item_cap r /\ 0 < item_size r /\ item_cap r * item_size r <= 2 ^ 30) /\
  0 <= item_num r <= item_cap r /\
  0 <= item_next r < item_cap r /\ zlen (buffer r) = cspring_size r.

(** ** Lemmas *)

Lemma ring_cap_small r : ring_wf r -> item_cap r <= 2 ^ 30.
Proof. intros ((?&?&?)&_). nia. Qed.

Lemma ring_storage r : ring_wf r -> zlen (buffer r) = item_cap r * item_size r.
Proof.
  intros ((?&?&?)&_&_&->). unfold cspring_size. apply s32_small. nia.
Qed.

Lemma get_data_slot r i :
  ring_wf r -> 0 <= i < item_cap r -> cspring_get_data r i = i * item_size r.
Proof. intros ((?&?&?)&_) ?. apply s32_small. nia. Qed.

Lemma peek_slot r k :
  ring_wf r -> 0 <= k <= item_cap r ->
  cspring_peek r k
  = (item_next r - item_num r + k) mod item_cap r * item_size r.
Proof.
  intros Hwf Hk. pose proof (ring_cap_small r Hwf) as Hsm.
  pose proof Hwf as ((Hc & Hs & Hb) & Hn & Hx & _).
  unfold cspring_peek, cspring_get_pop_index.
  rewrite (s32_small (item_next r - _)), (s32_small (item_next r - _ + _)) by lia.
  rewrite (Z.rem_mod_nonneg (item_next r - _ + _)) by lia.
  pose proof (Z.mod_pos_bound (item_next r - item_num r + item_cap r) (item_cap r) Hc).
  rewrite s32_small, Z.rem_mod_nonneg, get_data_slot
    by (done || lia || (rewrite ?Z.rem_mod_nonneg by lia; apply Z.mod_pos_bound; lia)).
  rewrite Zplus_mod_idemp_l. f_equal.
  replace (item_next r - item_num r + item_cap r + k)
    with (item_next r - item_num r + k + 1 * item_cap r) by lia.
  apply Z.mod_add. lia.
Qed.

Lemma slot_in_range r i :
  ring_wf r -> 0 <= i < item_cap r ->
  0 <= i * item_size r /\ i * item_size r + item_size r <= zlen (buffer r).
Proof. intros Hwf Hi. rewrite ring_storage by done. destruct Hwf as ((?&?&?)&_). nia. Qed.

Lemma peek_in_range r k :
  ring_wf r -> 0 <= k <= item_cap r ->
  0 <= cspring_peek r k /\ cspring_peek r k + item_size r <= zlen (buffer r).
Proof.
  intros Hwf Hk. rewrite peek_slot by done. apply slot_in_range; [done|].
  apply Z.mod_pos_bound. by destruct Hwf as ((?&_)&_).
Qed.

Lemma mod_off_diag a k c : 0 < c -> 0 < k < c -> 0 <= a < c -> (a - k) mod c <> a.
Proof.
  intros Hc Hk Ha E. destruct (Z.le_gt_cases k a).
  - rewrite Z.mod_small in E by lia. lia.
  - rewrite <- (Z.mod_add _ 1), Z.mod_small in E by lia. lia.
Qed.

Lemma item_at_push r d i :
  ring_wf r -> zlen d = item_size r -> 0 <= i < item_cap r ->
  slice (i * item_size r) (item_size r) (splice (item_next r * item_size r) d (buffer r))
  = if decide (i = item_next r) then d else item_at r (i * item_size r).
Proof.
  intros Hwf Hd Hi. pose proof (slot_in_range r (item_next r) Hwf) as Hnext.
  pose proof (ring_storage r Hwf) as Hb; destruct Hwf as ((Hc & Hs & Hm) & Hn & Hx & _). specialize (Hnext Hx).
  case_decide as E.
  - subst i. rewrite slice_splice_in by lia.
    by rewrite Z.sub_diag, <- Hd, slice_all.
  - unfold item_at. apply slice_splice_out; [lia|nia|lia|].
    rewrite Hd. destruct (Z.lt_total i (item_next r)) as [?|[?|?]]; [left|done|right]; nia.
Qed.

Section Push.
Context {S : Type} `{Alloc S}.
Variable s : S.

(** The state of the ring after a push. *)
Definition pushed (r : cspring) (d : bytes) : cspring :=
  cspring_update
    (mkRing (item_cap r) (item_size r) (item_num r + 1) (item_next r + 1)
       (splice (item_next r * item_size r) d (buffer r))).

Lemma cspring_push_eq r d :
  ring_wf r -> zlen d = item_size r ->
  cspring_push r d s = Ok (pushed r d, item_next r * item_size r, s).
Proof.
  intros Hwf Hd. pose proof (slot_in_range r (item_next r) Hwf) as Hr.
  pose proof (ring_cap_small r Hwf).
  pose proof Hwf as ((Hc & Hs & Hm) & Hn & Hx & _). specialize (Hr Hx).
  unfold cspring_push, kload, kstore, mbind, K_bind.
  rewrite get_data_slot, (s32_small (item_num r + 1)), (s32_small (item_next r + 1)) by (done || lia).
  rewrite (proj2 (in_range_spec 0 (item_size r) d)) by lia. cbn.
  rewrite <- Hd, slice_all, Hd.
  rewrite (proj2 (in_range_spec _ _ (buffer r))) by (rewrite ?Hd; lia). done.
Qed.

Lemma pushed_wf r d : ring_wf r -> zlen d = item_size r -> ring_wf (pushed r d).
Proof.
  intros Hwf Hd. pose proof (slot_in_range r (item_next r) Hwf) as Hr.
  pose proof (ring_storage r Hwf) as Hb; destruct Hwf as ((Hc & Hs & Hm) & Hn & Hx & _). specialize (Hr Hx).
  unfold ring_wf, pushed, cspring_update, cspring_size; cbn.
  rewrite zlen_splice, s32_small by nia.
  destruct (Z.ltb_spec (item_cap r) (item_num r + 1)),
           (Z.leb_spec (item_cap r) (item_next r + 1)); cbn;
    match goal with |- context [?n <=? 0] => destruct (Z.leb_spec n 0) end; lia.
Qed.

Lemma pushed_num r d :
  ring_wf r -> item_num (pushed r d) = Z.min (item_cap r) (item_num r + 1).
Proof.
  intros ((Hc & _) & Hn & _). unfold pushed, cspring_update; cbn.
  destruct (Z.ltb_spec (item_cap r) (item_num r + 1)); lia.
Qed.

Lemma pushed_next r d :
  ring_wf r -> item_next (pushed r d) mod item_cap r = (item_next r + 1) mod item_cap r.
Proof.
  intros ((Hc & _) & Hn & Hx & _). unfold pushed, cspring_update; cbn.
  destruct (Z.ltb_spec (item_cap r) (item_num r + 1)),
           (Z.leb_spec (item_cap r) (item_next r + 1)); cbn;
    match goal with |- context [?n <=? 0] => destruct (Z.leb_spec n 0) end;
    try lia; try done;
    by replace (item_next r + 1) with (item_cap r) by lia; rewrite Z_mod_same_full.
Qed.

(** Item [k] after the push. *)
Lemma pushed_peek r d k :
  ring_wf r -> zlen d = item_size r -> 0 <= k < item_num (pushed r d) ->
  item_at (pushed r d) (cspring_peek (pushed r d) k)
  = if decide (k = item_num (pushed r d) - 1) then d
    else item_at r (cspring_peek r (k + (item_num r + 1 - item_num (pushed r d)))).
Proof.
  intros Hwf Hd Hk. pose proof (pushed_wf r d Hwf Hd) as Hwf'.
  pose proof (pushed_num r d Hwf) as Hnum. pose proof Hwf as ((Hc & _) & Hn & Hx & _).
  rewrite !peek_slot by (done || (change (item_cap (pushed r d)) with (item_cap r); lia)).
  set (num' := item_num (pushed r d)) in *.
  change (item_cap (pushed r d)) with (item_cap r).
  change (item_size (pushed r d)) with (item_size r).
  replace ((item_next (pushed r d) - num' + k) mod item_cap r)
    with ((item_next r + 1 - num' + k) mod item_cap r); cycle 1.
  { rewrite <- Z.sub_sub_distr, <- (Zminus_mod_idemp_l (item_next r + 1)),
      <- (pushed_next r d Hwf), Zminus_mod_idemp_l. f_equal. lia. }
  change (item_at (pushed r d) ?o)
    with (slice o (item_size r) (splice (item_next r * item_size r) d (buffer r))).
  rewrite item_at_push by (done || (apply Z.mod_pos_bound; lia)).
  case_decide as E1; case_decide as E2; try done.
  - exfalso. apply (mod_off_diag (item_next r) (num' - 1 - k) (item_cap r)); try lia.
    rewrite <- E1 at 2. f_equal. lia.
  - exfalso. apply E1. subst k.
    replace (item_next r + 1 - num' + (num' - 1)) with (item_next r) by lia.
    apply Z.mod_small. lia.
  - do 3 f_equal. lia.
Qed.

Lemma ring_items_push r d :
  ring_wf r -> zlen d = item_size r ->
  ring_items (pushed r d) = bounded_push (item_cap r) (ring_items r) d.
Proof.
  intros Hwf Hd. pose proof (pushed_num r d Hwf) as Hnum.
  pose proof Hwf as ((Hc & _) & Hn & _).
  assert (length (ring_items r) = Z.to_nat (item_num r)) as Hlen
    by (unfold ring_items; rewrite length_fmap, length_seqZ; done).
  unfold bounded_push. rewrite length_app, Hlen. cbn [length].
  apply list_eq. intros i. rewrite lookup_drop.
  unfold ring_items at 1. rewrite list_lookup_fmap.
  destruct (decide (i < Z.to_nat (item_num (pushed r d)))%nat) as [Hi|Hi]; cycle 1.
  { rewrite lookup_seqZ_ge by lia. symmetry. apply lookup_ge_None.
    rewrite length_app, Hlen. cbn. lia. }
  rewrite lookup_seqZ_lt by lia. cbn [fmap option_fmap option_map].
  rewrite pushed_peek by (done || lia). case_decide as E.
  - rewrite lookup_app_r by lia.
    replace (_ - length (ring_items r))%nat with 0%nat by lia. done.
  - rewrite lookup_app_l by lia. unfold ring_items. rewrite list_lookup_fmap.
    rewrite lookup_seqZ_lt by lia. cbn [fmap option_fmap option_map]. do 3 f_equal. lia.
Qed.
End Push.

(** ** Results *)

(** C36: on a well-formed ring (counters within the capacity, a storage of
    capacity times item size bytes, at most 2^30 of them), with every sum and
    product of the code taken at 32 bits, [cspring_push] of an item of the
    ring's item size returns, keeps the ring well-formed, stores the item at
    the slot it reports, and the abstract content becomes that of a queue of
    capacity [item_cap] that forgets its oldest item when full. *)
Theorem cspring_push_refines_queue {S : Type} `{Alloc S} (s : S) (r : cspring) (d : bytes) :
  ring_wf r -> zlen d = item_size r ->
  exists r' off, cspring_push r d s = Ok (r', off, s) /\ ring_wf r' /\
    item_at r' off = d /\ item_cap r' = item_cap r /\ item_size r' = item_size r /\
    ring_items r' = bounded_push (item_cap r) (ring_items r) d.
Proof.
  intros Hwf Hd. exists (pushed r d), (item_next r * item_size r).
  split_and!; [by apply cspring_push_eq|by apply pushed_wf| |done|done|by apply ring_items_push].
  change (item_at (pushed r d) ?o)
    with (slice o (item_size r) (splice (item_next r * item_size r) d (buffer r))).
  rewrite item_at_push; [by rewrite decide_True|done|done|]. by destruct Hwf as (_&_&?&_).
Qed.

(** An allocator that never fails, to run the code on. *)
#[local] Instance unit_alloc : Alloc unit := fun n => mret (Some (fill n Byte.x00)).

Definition demo_ring : cspring := mkRing 2 3 2 1 (fill 6 Byte.x00).

Lemma cspring_push_refines_queue_witness :
  ring_wf demo_ring /\
  exists r' off, cspring_push demo_ring [Byte.x01; Byte.x02; Byte.x03] tt = Ok (r', off, tt)
    /\ ring_wf r' /\ item_at r' off = [Byte.x01; Byte.x02; Byte.x03]
    /\ item_cap r' = item_cap demo_ring /\ item_size r' = item_size demo_ring
    /\ ring_items r' = bounded_push 2 (ring_items demo_ring) [Byte.x01; Byte.x02; Byte.x03].
Proof.
  assert (ring_wf demo_ring) by (repeat split; vm_compute; congruence). split; [done|].
  apply (cspring_push_refines_queue tt demo_ring); [done|reflexivity].
Defined.

(** reading the ring through [cspring_peek] never leaves the storage, and
    index [k] below [item_num] is the [k]-th oldest item. *)
Theorem cspring_peek_reads_items (r : cspring) (k : Z) :
  ring_wf r -> 0 <= k < item_num r ->
  0 <= cspring_peek r k /\ cspring_peek r k + item_size r <= zlen (buffer r) /\
  ring_items r !! Z.to_nat k = Some (item_at r (cspring_peek r k)).
Proof.
  intros Hwf Hk. assert (0 <= k <= item_cap r) as Hk' by (destruct Hwf as (_&?&_); lia).
  pose proof (peek_in_range r k Hwf Hk').
  split_and!; [lia..|]. unfold ring_items. rewrite list_lookup_fmap, lookup_seqZ_lt by lia.
  cbn. do 3 f_equal. lia.
Qed.

Lemma cspring_peek_reads_items_witness :
  ring_wf demo_ring /\
  0 <= cspring_peek demo_ring 1 /\
  cspring_peek demo_ring 1 + item_size demo_ring <= zlen (buffer demo_ring) /\
  ring_items demo_ring !! Z.to_nat 1 = Some (item_at demo_ring (cspring_peek demo_ring 1)).
Proof.
  assert (ring_wf demo_ring) by (repeat split; vm_compute; congruence). split; [done|].
  apply cspring_peek_reads_items; [done|cbn; lia].
Defined.
