(* ===== verification/Layout.v ===== *)
(** * drivers/scsi/swap/core.h and the structures of core.c: what is on the disk

    The constants and block macros of [core.h], the on-disk [swap_head] (512
    bytes) and [swap_table] (64 bytes) with their little-endian memory layout on a
    64-bit kernel ([sector_t] is u64), and the geometry of the reserved area.  The
    results: both structures survive a trip through memory in either direction,
    the areas of the reserved gigabyte do not overlap, and the block macros
    partition the sectors of a disk. *)

From stdpp Require Import base list list_numbers.
From coqutil Require Import Byte Word.LittleEndianList.
From Stdlib Require Import ZArith Lia.
From S2P Require Import Prelude Crc32.

Local Open Scope Z_scope.

(** ** Constants *)

Definition SECTOR_SIZE : Z := 512.
Definition SECTOR_1M : Z := 2 * 1024.
Definition SECTOR_NUM_PER_SWAP_BLOCK : Z := 128.
Definition MAX_RESERVED_SECTOR : Z := SECTOR_1M * 1024.
Definition DATA_SECTOR : Z := SECTOR_1M * 64.
Definition DATA_BLOCK_NUM : Z := DATA_SECTOR / SECTOR_NUM_PER_SWAP_BLOCK.
Definition DATA_MAY_DIRTY : Z := 0xaa.

Definition SWAP_HEAD_STRING_LEN : Z := 16.
Definition SWAP_HEAD_STATUS_LEN : Z := 16.
Definition SWAP_HEAD_VERSION_LEN : Z := 4.
Definition SWAP_HEAD_BITMAP_LEN : Z := DATA_BLOCK_NUM / 32.
Definition SWAP_HEAD_RESERVE_LEN : Z :=
  SECTOR_SIZE - SWAP_HEAD_STRING_LEN - SWAP_HEAD_STATUS_LEN - SWAP_HEAD_VERSION_LEN
  - 4 * SWAP_HEAD_BITMAP_LEN - 4.

Definition SECTOR_8M : Z := 16 * 1024.
Definition MAX_SWAP_BLOCK_FOR_USE : Z := 128.
Definition SWAP_HEAD_OFFEST : Z := SECTOR_8M.
Definition SWAP_HEAD_N_SECTOR : Z := 8.
Definition SWAP_TABLE_OFFSET : Z := 2 * SECTOR_8M.
Definition SWPA_TABLE_N_SECTOR : Z := 32.
Definition SWAP_DATA_OFFSET : Z := 3 * SECTOR_8M.
Definition SWAP_HEAD_BACKUP_OFFEST : Z := 64.
Definition SWAP_TABLE_BACKUP_OFFSET : Z := MAX_RESERVED_SECTOR - SECTOR_8M.
Definition MAX_SWAP_HEAD_BLOCK_NUM : Z := 8 * SECTOR_NUM_PER_SWAP_BLOCK.

Definition SWAP_LOG_TOTAL_SECTOR : Z := SECTOR_8M.
Definition SWAP_LOG_HEAD_OFFSET : Z := SWAP_TABLE_BACKUP_OFFSET - SWAP_LOG_TOTAL_SECTOR.
Definition SWAP_LOG_DATA_OFFSET : Z := SWAP_LOG_HEAD_OFFSET + SECTOR_1M.

Definition SWAP_BLOCK_SIZE : Z := SECTOR_NUM_PER_SWAP_BLOCK * SECTOR_SIZE.
Definition SWAP_REASSIGN_BLKS_CMDLEN : Z := 6.
Definition SWAP_MAX_REASSIGN_BLKS_NUM : Z := 1024.

(** ["DHSWAP"], ["0001"], ["valid"] and ["invalid"] as bytes. *)
Definition SWAP_HEAD_STRING : bytes :=
  [Byte.x44; Byte.x48; Byte.x53; Byte.x57; Byte.x41; Byte.x50].
Definition SWAP_VERSION : bytes := [Byte.x30; Byte.x30; Byte.x30; Byte.x31].
Definition str_valid : bytes := [Byte.x76; Byte.x61; Byte.x6c; Byte.x69; Byte.x64].
Definition str_invalid : bytes :=
  [Byte.x69; Byte.x6e; Byte.x76; Byte.x61; Byte.x6c; Byte.x69; Byte.x64].

(** ** Block macros *)

Definition SWAP_BLOCK_INDEX (sector : Z) : Z := sector / SECTOR_NUM_PER_SWAP_BLOCK.
Definition SWAP_BLOCK_SECTOR (i : Z) : Z := i * SECTOR_NUM_PER_SWAP_BLOCK.
Definition SWAP_SECTOR_ALIGN (sector : Z) : Z := SWAP_BLOCK_SECTOR (SWAP_BLOCK_INDEX sector).

(** ** [struct swap_head] *)

Record swap_head := mkHead {
  head_string : bytes;     (* 16 *)
  status : bytes;          (* 16 *)
  version : bytes;         (* 4 *)
  bitmap : list Z;         (* 32 words of 32 bits, one bit per data block *)
  head_reserved : bytes;   (* 344 *)
  head_checksum : Z
}.

(** ** [struct swap_table] *)

Record swap_table := mkTable {
  src_sec : Z;             (* first sector of the replaced block *)
  swap_sec : Z;            (* first sector of the replacement *)
  sec_size : Z;            (* sectors replaced; 0 means unused *)
  retrys : Z;
  index : Z;               (* number of the replacement block *)
  reserverd : list Z;      (* 6 words *)
  checksum : Z;
  save_sec : Z             (* where the entry is stored; not under the checksum *)
}.

Definition sizeof_swap_table : Z := 64.
Definition table_num_per_sect : Z := SECTOR_SIZE / sizeof_swap_table.

(** ** Memory layout *)

Definition words_le (ws : list Z) : bytes := concat (le_split 4 <$> ws).

Fixpoint le_words (n : nat) (bs : bytes) : list Z :=
  match n with
  | O => []
  | S n' => le_combine (take 4 bs) :: le_words n' (drop 4 bs)
  end.

Definition encode_head (h : swap_head) : bytes :=
  head_string h ++ status h ++ version h ++ words_le (bitmap h)
  ++ head_reserved h ++ le_split 4 (head_checksum h).

Definition decode_head (b : bytes) : swap_head := {|
  head_string := slice 0 16 b;
  status := slice 16 16 b;
  version := slice 32 4 b;
  bitmap := le_words 32 (slice 36 128 b);
  head_reserved := slice 164 344 b;
  head_checksum := le_combine (slice 508 4 b)
|}.

Definition encode_table (t : swap_table) : bytes :=
  le_split 8 (src_sec t) ++ le_split 8 (swap_sec t) ++ le_split 4 (sec_size t)
  ++ le_split 4 (retrys t) ++ le_split 4 (index t) ++ words_le (reserverd t)
  ++ le_split 4 (checksum t) ++ le_split 8 (save_sec t).

Definition decode_table (b : bytes) : swap_table := {|
  src_sec := le_combine (slice 0 8 b);
  swap_sec := le_combine (slice 8 8 b);
  sec_size := le_combine (slice 16 4 b);
  retrys := le_combine (slice 20 4 b);
  index := le_combine (slice 24 4 b);
  reserverd := le_words 6 (slice 28 24 b);
  checksum := le_combine (slice 52 4 b);
  save_sec := le_combine (slice 56 8 b)
|}.

(** [swap_crc32(~0, head, SECTOR_SIZE - sizeof(u32))] and
    [swap_crc32(~0, table, sizeof(struct swap_table) - sizeof(u32) - sizeof(sector_t))] *)
Definition crc_of_head (h : swap_head) : Z :=
  swap_crc32 0xffffffff (slice 0 508 (encode_head h)) (SECTOR_SIZE - 4).
Definition crc_of_table (t : swap_table) : Z :=
  swap_crc32 0xffffffff (slice 0 52 (encode_table t)) (sizeof_swap_table - 4 - 8).

(** ** Objects as C can hold them *)

Definition u32s (ws : list Z) : Prop := Forall (fun w => 0 <= w < 2 ^ 32) ws.

Definition head_wf (h : swap_head) : Prop :=
  zlen (head_string h) = 16 /\ zlen (status h) = 16 /\ zlen (version h) = 4 /\
  length (bitmap h) = 32%nat /\ u32s (bitmap h) /\ zlen (head_reserved h) = 344 /\
  0 <= head_checksum h < 2 ^ 32.

Definition table_wf (t : swap_table) : Prop :=
  0 <= src_sec t < 2 ^ 64 /\ 0 <= swap_sec t < 2 ^ 64 /\ 0 <= sec_size t < 2 ^ 32 /\
  0 <= retrys t < 2 ^ 32 /\ 0 <= index t < 2 ^ 32 /\
  length (reserverd t) = 6%nat /\ u32s (reserverd t) /\
  0 <= checksum t < 2 ^ 32 /\ 0 <= save_sec t < 2 ^ 64.

(** ** Lemmas on the layout *)

Lemma le_split_combine_small n z :
  0 <= z < 2 ^ (Z.of_nat n * 8) -> le_combine (le_split n z) = z.
Proof. intros. rewrite le_combine_split. by apply Z.mod_small. Qed.

Lemma zlen_le_split n z : zlen (le_split n z) = Z.of_nat n.
Proof. unfold zlen. by rewrite length_le_split. Qed.

Lemma le_combine_range n (b : bytes) :
  zlen b = Z.of_nat n -> 0 <= le_combine b < 2 ^ (8 * Z.of_nat n).
Proof. intros <-. apply le_combine_bound. Qed.

Lemma zlen_words_le ws : zlen (words_le ws) = 4 * zlen ws.
Proof.
  unfold words_le. induction ws as [|w ws IH]; [done|].
  cbn [fmap list_fmap concat]. rewrite zlen_app, IH, zlen_le_split.
  unfold zlen. cbn [length]. lia.
Qed.

Lemma le_words_encode n ws : u32s ws -> length ws = n -> le_words n (words_le ws) = ws.
Proof.
  intros Hu <-. unfold words_le. revert Hu. induction 1 as [|w ws Hw _ IH]; [done|].
  cbn [fmap list_fmap concat length le_words].
  rewrite take_app_length', drop_app_length' by (by rewrite length_le_split).
  by rewrite IH, le_split_combine_small.
Qed.

Lemma words_le_decode n b : length b = (4 * n)%nat -> words_le (le_words n b) = b.
Proof.
  unfold words_le. revert b. induction n as [|n IH]; intros b Hb.
  - destruct b; [done|cbn in Hb; lia].
  - cbn [le_words fmap list_fmap concat]. rewrite IH by (rewrite length_drop; lia).
    rewrite split_le_combine' by (rewrite length_take; lia). apply take_drop.
Qed.

Lemma le_words_length n b : length (le_words n b) = n.
Proof. revert b. induction n; intros; cbn; [done|]. by rewrite IHn. Qed.

Lemma le_words_u32s n b : length b = (4 * n)%nat -> u32s (le_words n b).
Proof.
  revert b. induction n as [|n IH]; intros b Hb; cbn; constructor.
  - apply (le_combine_range 4). unfold zlen. rewrite length_take. lia.
  - apply IH. rewrite length_drop. lia.
Qed.

Lemma slice_app_here {A} n (l1 l2 : list A) : zlen l1 = n -> slice 0 n (l1 ++ l2) = l1.
Proof.
  intros <-. unfold slice, zlen. rewrite Nat2Z.id. change (Z.to_nat 0) with 0%nat.
  rewrite drop_0. apply take_app_length.
Qed.

Lemma slice_app_skip {A} k off n (l1 l2 : list A) :
  zlen l1 = k -> k <= off -> slice off n (l1 ++ l2) = slice (off - k) n l2.
Proof.
  unfold slice, zlen. intros <- Hle. rewrite drop_app_ge by lia. do 2 f_equal. lia.
Qed.

Lemma slice_last {A} n (l : list A) : zlen l = n -> slice 0 n l = l.
Proof. intros <-. apply slice_all. Qed.

(** Selects the field at a literal offset of an encoded structure. *)
Ltac field_len :=
  first [assumption | by rewrite zlen_le_split | by rewrite zlen_words_le; unfold zlen; lia].
Ltac pick_field :=
  repeat lazymatch goal with
  | |- context [slice 0 ?n (?l1 ++ ?l2)] => rewrite (slice_app_here n l1 l2) by field_len
  | |- context [slice ?o ?n (?l1 ++ ?l2)] =>
      let k := lazymatch l1 with
               | le_split ?m _ => constr:(Z.of_nat m)
               | _ => lazymatch goal with H : zlen l1 = ?k |- _ => constr:(k) end
               end in
      rewrite (slice_app_skip k o n l1 l2) by (field_len || lia);
      let c := eval vm_compute in (o - k) in change (o - k) with c
  | |- context [slice 0 ?n ?l] => rewrite (slice_last n l) by field_len
  end.

Lemma zlen_encode_head h : head_wf h -> zlen (encode_head h) = 512.
Proof.
  intros (?&?&?&Hb&_&?&_). unfold encode_head.
  rewrite !zlen_app, zlen_words_le, zlen_le_split. unfold zlen in *. lia.
Qed.

Lemma zlen_encode_table t : length (reserverd t) = 6%nat -> zlen (encode_table t) = 64.
Proof.
  intros H. unfold encode_table. rewrite !zlen_app, zlen_words_le, !zlen_le_split.
  unfold zlen. rewrite H. done.
Qed.

Lemma decode_encode_head h : head_wf h -> decode_head (encode_head h) = h.
Proof.
  intros (H1&H2&H3&Hb&Hu&H4&Hc). unfold decode_head, encode_head.
  assert (zlen (words_le (bitmap h)) = 128) by (rewrite zlen_words_le; unfold zlen; lia).
  pick_field. rewrite le_words_encode, le_split_combine_small by done. by destruct h.
Qed.

Lemma decode_head_wf b : zlen b = 512 -> head_wf (decode_head b).
Proof.
  intros Hb. unfold head_wf, decode_head; cbn -[le_words slice].
  rewrite !zlen_slice by lia. rewrite le_words_length.
  assert (zlen (slice 36 128 b) = 128) as H128 by (apply zlen_slice; lia).
  split_and!; try done.
  - apply le_words_u32s. unfold zlen in H128. lia.
  - apply (le_combine_range 4). apply zlen_slice; lia.
  - apply (le_combine_range 4). apply zlen_slice; lia.
Qed.

Lemma encode_decode_head b : zlen b = 512 -> encode_head (decode_head b) = b.
Proof.
  intros Hb. unfold encode_head, decode_head;
    cbn [head_string status version bitmap head_reserved head_checksum].
  assert (forall o n, 0 <= o -> 0 <= n -> o + n <= 512 ->
            length (slice o n b) = Z.to_nat n) as Hlen.
  { intros. pose proof (zlen_slice o n b). unfold zlen in *. lia. }
  rewrite words_le_decode by (rewrite Hlen by lia; lia).
  rewrite split_le_combine' by (rewrite Hlen by lia; lia).
  rewrite (slice_app_split 164 344 4), (slice_app_split 36 128), (slice_app_split 32 4),
    (slice_app_split 16 16), (slice_app_split 0 16) by lia.
  apply slice_last. lia.
Qed.

Lemma decode_encode_table t : table_wf t -> decode_table (encode_table t) = t.
Proof.
  intros (?&?&?&?&?&Hr&Hu&?&?). unfold decode_table, encode_table.
  assert (zlen (words_le (reserverd t)) = 24) by (rewrite zlen_words_le; unfold zlen; lia).
  pick_field. rewrite le_words_encode by done.
  rewrite !le_split_combine_small by (change (Z.of_nat 4) with 4; change (Z.of_nat 8) with 8; lia).
  by destruct t.
Qed.

Lemma decode_table_wf b : zlen b = 64 -> table_wf (decode_table b).
Proof.
  intros Hb. unfold table_wf, decode_table; cbn -[le_words slice].
  rewrite le_words_length.
  assert (zlen (slice 28 24 b) = 24) as H24 by (apply zlen_slice; lia).
  split_and!; try done;
    try (first [ apply (le_combine_range 8); apply zlen_slice; lia
               | apply (le_combine_range 4); apply zlen_slice; lia ]).
  apply le_words_u32s. unfold zlen in H24. lia.
Qed.

(** ** The reserved area *)

(** The areas of the reserved gigabyte, as (first sector, sectors), relative to
    its start: head and backup head, swap table, replacement blocks, log head,
    log data, backup table.  The table areas are given with the 64 sectors that
    [flush_swap_info_table] can reach when writes fail. *)
Definition reserved_areas : list (Z * Z) := [
  (SWAP_HEAD_OFFEST, SECTOR_NUM_PER_SWAP_BLOCK);
  (SWAP_TABLE_OFFSET, 2 * SWPA_TABLE_N_SECTOR);
  (SWAP_DATA_OFFSET, DATA_SECTOR);
  (SWAP_LOG_HEAD_OFFSET, 1);
  (SWAP_LOG_DATA_OFFSET, 32);
  (SWAP_TABLE_BACKUP_OFFSET, 2 * SWPA_TABLE_N_SECTOR)].

(** Areas follow each other without overlap and end inside the reserved space. *)
Fixpoint areas_ordered (from : Z) (l : list (Z * Z)) : bool :=
  match l with
  | [] => from <=? MAX_RESERVED_SECTOR
  | (o, n) :: l' => (from <=? o) && (0 <=? n) && areas_ordered (o + n) l'
  end.

(** Data block [i] of the replacement area. *)
Definition data_block (i : Z) : Z * Z :=
  (SWAP_DATA_OFFSET + SECTOR_NUM_PER_SWAP_BLOCK * i, SECTOR_NUM_PER_SWAP_BLOCK).

(** the structures fill exactly what they are meant to fill (a head is one
    sector, eight table entries are one sector, 1024 bitmap bits cover the data
    area), and the areas of the reserved gigabyte are pairwise disjoint. *)
Theorem layout_consistent :
  SWAP_HEAD_STRING_LEN + SWAP_HEAD_STATUS_LEN + SWAP_HEAD_VERSION_LEN
    + 4 * SWAP_HEAD_BITMAP_LEN + SWAP_HEAD_RESERVE_LEN + 4 = SECTOR_SIZE
  /\ table_num_per_sect * sizeof_swap_table = SECTOR_SIZE
  /\ 32 * SWAP_HEAD_BITMAP_LEN * SECTOR_NUM_PER_SWAP_BLOCK = DATA_SECTOR
  /\ SWPA_TABLE_N_SECTOR * table_num_per_sect = 2 * MAX_SWAP_BLOCK_FOR_USE
  /\ areas_ordered 0 reserved_areas = true.
Proof. by vm_compute. Qed.

(** the search for a usable head block is not confined to the head area: the
    blocks [swap_create_new_head] and [init_swap_head] may try beyond the 128th
    lie on the swap table and then on the replacement blocks. *)
Theorem head_search_overruns_table :
  SWAP_HEAD_OFFEST + 128 * SECTOR_NUM_PER_SWAP_BLOCK = SWAP_TABLE_OFFSET
  /\ SWAP_HEAD_OFFEST + 256 * SECTOR_NUM_PER_SWAP_BLOCK = SWAP_DATA_OFFSET
  /\ 256 < MAX_SWAP_HEAD_BLOCK_NUM.
Proof. by vm_compute. Qed.

(** ** Block macros *)

Lemma align_spec x :
  SWAP_SECTOR_ALIGN x <= x < SWAP_SECTOR_ALIGN x + SECTOR_NUM_PER_SWAP_BLOCK
  /\ SWAP_SECTOR_ALIGN x mod SECTOR_NUM_PER_SWAP_BLOCK = 0.
Proof.
  unfold SWAP_SECTOR_ALIGN, SWAP_BLOCK_SECTOR, SWAP_BLOCK_INDEX, SECTOR_NUM_PER_SWAP_BLOCK.
  rewrite Z.mod_mul by lia. pose proof (Z.div_mod x 128). pose proof (Z.mod_pos_bound x 128). lia.
Qed.

Lemma align_aligned b : b mod SECTOR_NUM_PER_SWAP_BLOCK = 0 -> SWAP_SECTOR_ALIGN b = b.
Proof.
  unfold SWAP_SECTOR_ALIGN, SWAP_BLOCK_SECTOR, SWAP_BLOCK_INDEX, SECTOR_NUM_PER_SWAP_BLOCK.
  intros. pose proof (Z.div_mod b 128). lia.
Qed.

Lemma align_unique x b :
  b mod SECTOR_NUM_PER_SWAP_BLOCK = 0 -> b <= x < b + SECTOR_NUM_PER_SWAP_BLOCK ->
  SWAP_SECTOR_ALIGN x = b.
Proof.
  intros Hb Hx. pose proof (align_spec x) as [H1 H2].
  unfold SECTOR_NUM_PER_SWAP_BLOCK in *.
  pose proof (Z.div_mod b 128). pose proof (Z.div_mod (SWAP_SECTOR_ALIGN x) 128). lia.
Qed.

(** a head read from a sector and written back is the same 512 bytes, and a
    head in memory that is written and read back is the same structure. *)
Theorem swap_head_roundtrip :
  (forall b : bytes, zlen b = SECTOR_SIZE -> encode_head (decode_head b) = b)
  /\ (forall h, head_wf h -> zlen (encode_head h) = SECTOR_SIZE /\ decode_head (encode_head h) = h).
Proof.
  split; [apply encode_decode_head|].
  intros h Hwf. split; [by apply zlen_encode_head|by apply decode_encode_head].
Qed.

(** a table entry written into a table sector and read back is the same entry,
    and any 64 bytes decode to an entry C can hold. *)
Theorem swap_table_roundtrip :
  (forall t, table_wf t -> zlen (encode_table t) = sizeof_swap_table
                           /\ decode_table (encode_table t) = t)
  /\ (forall b : bytes, zlen b = sizeof_swap_table -> table_wf (decode_table b)).
Proof.
  split; [|apply decode_table_wf].
  intros t Hwf. split; [|by apply decode_encode_table].
  apply zlen_encode_table. by destruct Hwf as (_&_&_&_&_&?&_).
Qed.
