(* ===== verification/State.v ===== *)
(** * The state the swap driver works on

    One [st] is what hangs off one [struct scsi_device]: the device behind the
    SCSI midlayer ([dev], of an abstract type [D]), the [scsi_device] flags the
    driver reads, the [swap_handler] with its [core] and [log] (swap.h), and the
    kernel memory the driver owns: the [swap_info] objects, reached through
    pointers because the info list, the request path and the table flush share
    and mutate them.  [kmem] says how the coming [kmalloc] calls end, [clock] is
    the wall clock. *)

From stdpp Require Import base gmap list.
From coqutil Require Import Byte.
From Stdlib Require Import ZArith Lia.
From S2P Require Import Prelude Kapi Ring Layout.

Local Open Scope Z_scope.

(** ** include/scsi/scsi_device.h *)

Inductive scsi_device_state :=
  | SDEV_CREATED | SDEV_RUNNING | SDEV_CANCEL | SDEV_DEL | SDEV_QUIESCE
  | SDEV_OFFLINE | SDEV_TRANSPORT_OFFLINE | SDEV_BLOCK | SDEV_CREATED_BLOCK.

#[global] Instance scsi_device_state_eq_dec : EqDecision scsi_device_state.
Proof. solve_decision. Defined.

(** The fields of [struct scsi_device] the swap driver uses. *)
Record scsi_device := mkSdev {
  removable : bool;
  changed : bool;
  sdev_state : scsi_device_state
}.

Definition scsi_device_online (d : scsi_device) : bool :=
  bool_decide (sdev_state d <> SDEV_OFFLINE) &&
  bool_decide (sdev_state d <> SDEV_TRANSPORT_OFFLINE) &&
  bool_decide (sdev_state d <> SDEV_DEL).

(** ** core.c: struct swap_info *)

(** Kernel addresses of [swap_info] objects. *)
Abbreviation ptr := positive.

(** [data] is the 64 KiB cache of the replacement block, or NULL. *)
Record swap_info := mkInfo {
  table : swap_table;
  data : option bytes
}.

Definition zero_table : swap_table := mkTable 0 0 0 0 0 [0; 0; 0; 0; 0; 0] 0 0.

(** ** core.h: struct scsi_swap_core *)

Record scsi_swap_core := mkCore {
  device_dead : Z;
  info_num : Z;
  user : Z;
  head : swap_head;
  info_list : list ptr;
  capacity : Z;
  sector_reserve_start : Z;
  sector_head : Z;
  sector_table : Z;
  sector_data : Z
}.

(** ** log.h *)

Record scsi_swap_log_head := mkLogHead {
  log_crc : Z;
  log_item_num : Z;
  log_item_next : Z
}.

Record scsi_swap_log := mkLog {
  log_head : scsi_swap_log_head;
  ring : option cspring;
  log_sector_head : Z;
  log_sector_data : Z
}.

(** ** The whole *)

Record st (D : Type) := mkSt {
  dev : D;
  sdev : scsi_device;
  core : scsi_swap_core;
  log : scsi_swap_log;
  infos : gmap ptr swap_info;
  kmem : list (option (nat -> byte));
  clock : Z
}.
Arguments mkSt {D} _ _ _ _ _ _ _.
Arguments dev {D} _.
Arguments sdev {D} _.
Arguments core {D} _.
Arguments log {D} _.
Arguments infos {D} _.
Arguments kmem {D} _.
Arguments clock {D} _.

(** ** Assignments *)

Definition core_dead (z : Z) (c : scsi_swap_core) : scsi_swap_core :=
  mkCore z (info_num c) (user c) (head c) (info_list c) (capacity c)
    (sector_reserve_start c) (sector_head c) (sector_table c) (sector_data c).
Definition core_num (z : Z) (c : scsi_swap_core) : scsi_swap_core :=
  mkCore (device_dead c) z (user c) (head c) (info_list c) (capacity c)
    (sector_reserve_start c) (sector_head c) (sector_table c) (sector_data c).
Definition core_user (z : Z) (c : scsi_swap_core) : scsi_swap_core :=
  mkCore (device_dead c) (info_num c) z (head c) (info_list c) (capacity c)
    (sector_reserve_start c) (sector_head c) (sector_table c) (sector_data c).
Definition core_head (h : swap_head) (c : scsi_swap_core) : scsi_swap_core :=
  mkCore (device_dead c) (info_num c) (user c) h (info_list c) (capacity c)
    (sector_reserve_start c) (sector_head c) (sector_table c) (sector_data c).
Definition core_list (l : list ptr) (c : scsi_swap_core) : scsi_swap_core :=
  mkCore (device_dead c) (info_num c) (user c) (head c) l (capacity c)
    (sector_reserve_start c) (sector_head c) (sector_table c) (sector_data c).
Definition core_sector_head (z : Z) (c : scsi_swap_core) : scsi_swap_core :=
  mkCore (device_dead c) (info_num c) (user c) (head c) (info_list c) (capacity c)
    (sector_reserve_start c) z (sector_table c) (sector_data c).

Definition head_with_bitmap (b : list Z) (h : swap_head) : swap_head :=
  mkHead (head_string h) (status h) (version h) b (head_reserved h) (head_checksum h).
Definition head_with_checksum (z : Z) (h : swap_head) : swap_head :=
  mkHead (head_string h) (status h) (version h) (bitmap h) (head_reserved h) z.
Definition head_with_status (b : bytes) (h : swap_head) : swap_head :=
  mkHead (head_string h) b (version h) (bitmap h) (head_reserved h) (head_checksum h).
Definition head_with_strings (b v : bytes) (h : swap_head) : swap_head :=
  mkHead b (status h) v (bitmap h) (head_reserved h) (head_checksum h).

Section Assign.
Context {D : Type}.
Implicit Types s : st D.

Definition set_dev (d : D) s : st D :=
  mkSt d (sdev s) (core s) (log s) (infos s) (kmem s) (clock s).
Definition set_sdev (d : scsi_device) s : st D :=
  mkSt (dev s) d (core s) (log s) (infos s) (kmem s) (clock s).
Definition upd_core (f : scsi_swap_core -> scsi_swap_core) s : st D :=
  mkSt (dev s) (sdev s) (f (core s)) (log s) (infos s) (kmem s) (clock s).
Definition set_log (l : scsi_swap_log) s : st D :=
  mkSt (dev s) (sdev s) (core s) l (infos s) (kmem s) (clock s).
Definition set_infos (m : gmap ptr swap_info) s : st D :=
  mkSt (dev s) (sdev s) (core s) (log s) m (kmem s) (clock s).
Definition set_kmem (l : list (option (nat -> byte))) s : st D :=
  mkSt (dev s) (sdev s) (core s) (log s) (infos s) l (clock s).

(** [atomic_inc(&core->device_dead)] *)
Definition inc_device_dead : K (st D) unit :=
  kmod (fun s => upd_core (core_dead (s32 (device_dead (core s) + 1))) s).

(** [kmalloc]: the next verdict of [kmem]; an exhausted list means success. *)
#[global] Instance st_alloc : Alloc (st D) := fun n s =>
  match kmem s with
  | [] => Ok (Some (fill n Byte.x00), s)
  | v :: rest =>
      Ok (match v with
          | None => None
          | Some f => Some ((fun i => f (Z.to_nat i)) <$> seqZ 0 n)
          end, set_kmem rest s)
  end.

(** Reading and writing the [swap_info] a pointer leads to. *)
Definition get_info (p : ptr) : K (st D) swap_info :=
  s ← kget; kderef UseAfterFree (infos s !! p).
Definition set_info (p : ptr) (i : swap_info) : K (st D) unit :=
  kmod (fun s => set_infos (<[p := i]> (infos s)) s).
Definition free_info (p : ptr) : K (st D) unit :=
  kmod (fun s => set_infos (delete p (infos s)) s).
End Assign.

(** ** What the swap algorithms observe of the state *)

(** [save_sec] only records where an entry was last saved; two objects that
    differ in it are the same mapping. *)
Definition erase_save (i : swap_info) : swap_info :=
  let t := table i in
  mkInfo (mkTable (src_sec t) (swap_sec t) (sec_size t) (retrys t) (index t)
            (reserverd t) (checksum t) 0) (data i).

Record view := mkView {
  v_list : list ptr;
  v_infos : gmap ptr swap_info;
  v_bitmap : list Z;
  v_num : Z;
  v_user : Z;
  v_geom : Z * Z * Z * Z
}.

Section View.
Context {D : Type}.
Implicit Types s : st D.

Definition geom s : Z * Z * Z * Z :=
  (sector_reserve_start (core s), sector_head (core s),
   sector_table (core s), sector_data (core s)).

Definition view_of s : view := {|
  v_list := info_list (core s);
  v_infos := erase_save <$> infos s;
  v_bitmap := bitmap (head (core s));
  v_num := info_num (core s);
  v_user := user (core s);
  v_geom := geom s
|}.

Lemma view_infos s s' p :
  view_of s' = view_of s ->
  erase_save <$> infos s' !! p = erase_save <$> infos s !! p.
Proof. intros [= _ E _ _ _ _]. by rewrite <- !lookup_fmap, E. Qed.

(** What [kmalloc] can do. *)
Lemma wp_kmalloc n (Q : option bytes -> st D -> Prop) s :
  0 <= n ->
  (forall l, Q None (set_kmem l s)) ->
  (forall b l, zlen b = n -> Q (Some b) (set_kmem l s)) ->
  wp (kmalloc n) Q s.
Proof.
  intros Hn HN HS. unfold wp, kmalloc, st_alloc.
  destruct (kmem s) as [|[f|] rest] eqn:E.
  - replace s with (set_kmem (kmem s) s) by (by destruct s).
    rewrite E. apply HS. by apply zlen_fill.
  - apply HS. unfold zlen. rewrite length_fmap, length_seqZ. lia.
  - apply HN.
Qed.

Lemma wp_get_info p i (Q : swap_info -> st D -> Prop) s :
  infos s !! p = Some i -> Q i s -> wp (get_info p) Q s.
Proof. intros Hp HQ. unfold get_info. kstep. kstep. by eapply wp_deref. Qed.
End View.
