(* ===== verification/Scsi.v ===== *)
(** * drivers/scsi/swap/utils.c: commands the swap driver sends to the disk

    The SCSI midlayer ([scsi_execute], [scsi_execute_req], sense decoding) is not
    part of the repository: [ScsiLower] is its interface and [BlockDevice] states
    what the driver relies on, the behaviour of READ(10), WRITE(10) and of
    commands without data as the SBC standard documents it.  [hd_*] are the C
    functions.  The results are the specifications the swap core is verified
    against ([wp_hd_read], [wp_hd_write]), the exact LBA a request reaches, and
    the REASSIGN BLOCKS parameter list. *)

From stdpp Require Import base gmap list list_numbers.
From coqutil Require Import Byte Word.LittleEndianList.
From Stdlib Require Import ZArith Lia.
From S2P Require Import Prelude Kapi Ring Layout State.

Local Open Scope Z_scope.

(** ** The midlayer *)

Record scsi_reply := mkReply {
  r_result : Z;       (* status, host and driver byte *)
  r_sense : bytes;
  r_buf : bytes       (* the data buffer after the command *)
}.

Class ScsiLower (D : Type) := {
  HZ : Z;
  scsi_execute : D -> bytes -> dma_dir -> bytes -> Z -> Z -> D * scsi_reply;
  scsi_execute_req :
    D -> bytes -> dma_dir -> bytes -> Z -> Z -> D * (Z * scsi_sense_hdr * bytes);
  scsi_normalize_sense : bytes -> scsi_sense_hdr;
  scsi_sense_valid : scsi_sense_hdr -> bool
}.

(** ** Big-endian fields *)

Definition be_split (n : nat) (z : Z) : bytes := rev (le_split n z).
Definition be_combine (b : bytes) : Z := le_combine (rev b).

(** The byte [(x >> sh) & 0xff]. *)
Definition byte_at (x sh : Z) : byte := byte.of_Z (Z.land (Z.shiftr x sh) 0xff).

(** ** The C code *)

Definition SWAP_DEFAULT_RETRIES : Z := 5.

Section Commands.
Context {D : Type} `{ScsiLower D}.

Definition SWAP_DEFAULT_TIMEOUT : Z := 10 * HZ.

(** [s8 cdb[32]] of a READ(10) or WRITE(10). *)
Definition cdb10 (op sector sec_num : Z) : bytes :=
  [byte.of_Z op; Byte.x00;
   byte_at sector 24; byte_at sector 16; byte_at sector 8; byte_at sector 0;
   byte_at sec_num 16; byte_at sec_num 8; byte_at sec_num 0] ++ fill 23 Byte.x00.

(** A result that only says sense data is present is not an error. *)
Definition filter_result (ret : Z) (sense : bytes) : Z :=
  if driver_byte ret =? DRIVER_SENSE then
    let ret := Z.land ret (Z.lnot (s32 (Z.shiftl 0xff 24))) in
    if c_true (Z.land ret SAM_STAT_CHECK_CONDITION) then
      let sshdr := scsi_normalize_sense sense in
      if (sense_key sshdr =? 0) && (asc sshdr =? 0) && (ascq sshdr =? 0)
      then Z.land ret (Z.lnot SAM_STAT_CHECK_CONDITION)
      else ret
    else ret
  else ret.

(** The tail shared by the data commands: map the result to 0 or -1 and note a
    device that is gone. *)
Definition finish_cmd (rep : scsi_reply) : K (st D) Z :=
  let ret := filter_result (r_result rep) (r_sense rep) in
  if negb (ret =? 0) then
    let host_status := host_byte ret in
    if (host_status =? DID_NO_CONNECT) || (host_status =? DID_BAD_TARGET)
    then inc_device_dead;; mret (-1)
    else mret (-1)
  else mret 0.

Definition execute (cmnd : bytes) (dir : dma_dir) (buf : bytes) (timeout retries : Z)
    : K (st D) scsi_reply :=
  s ← kget;
  let '(d', rep) := scsi_execute (dev s) cmnd dir buf timeout retries in
  kmod (set_dev d');; mret rep.

(** The result is the return value and the buffer afterwards; [buf] is what the
    pointer leads to, [None] for NULL. *)
Definition hd_read_sector (sector sec_num : Z) (buf : option bytes) (len timeout retries : Z)
    : K (st D) (Z * bytes) :=
  match buf with
  | None => mret (-1, [])
  | Some b =>
      if u32 len <? u32 (SECTOR_SIZE * sec_num) then mret (-1, b) else
      dma ← kload 0 len b;
      rep ← execute (cdb10 READ_10 sector sec_num) DMA_FROM_DEVICE dma timeout retries;
      b' ← kstore 0 (r_buf rep) b;
      ret ← finish_cmd rep;
      mret (ret, b')
  end.

Definition hd_read_sector_retry (sector sec_num : Z) (buf : option bytes) (len : Z) :=
  hd_read_sector sector sec_num buf len SWAP_DEFAULT_TIMEOUT SWAP_DEFAULT_RETRIES.

Definition hd_read_sector_no_retry (sector sec_num : Z) (buf : option bytes) (len : Z) :=
  hd_read_sector sector sec_num buf len (5 * HZ) 0.

Definition hd_write_sector (sector sec_num : Z) (buf : option bytes) (len timeout retries : Z)
    : K (st D) Z :=
  match buf with
  | None => mret (-1)
  | Some b =>
      if u32 len <? u32 (SECTOR_SIZE * sec_num) then mret (-1) else
      dma ← kload 0 len b;
      rep ← execute (cdb10 WRITE_10 sector sec_num) DMA_TO_DEVICE dma timeout retries;
      finish_cmd rep
  end.

Definition hd_write_sector_retry (sector sec_num : Z) (buf : option bytes) (len : Z) :=
  hd_write_sector sector sec_num buf len SWAP_DEFAULT_TIMEOUT SWAP_DEFAULT_RETRIES.

Definition hd_write_sector_no_retry (sector sec_num : Z) (buf : option bytes) (len : Z) :=
  hd_write_sector sector sec_num buf len (5 * HZ) 0.

(** [cdb[1] = (s8)(((longlba << 1) & 0x2) | (longlist & 0x1))] *)
Definition hd_reassign_blocks (longlba longlist : Z) (paramp : option bytes)
    (param_len timeout retries : Z) : K (st D) Z :=
  match paramp with
  | None => mret (-1)
  | Some b =>
      let flags := Z.lor (Z.land (Z.shiftl longlba 1) 0x2) (Z.land longlist 0x1) in
      let cdb := [byte.of_Z REASSIGN_BLOCKS; byte.of_Z flags;
                  Byte.x00; Byte.x00; Byte.x00; Byte.x00] in
      dma ← kload 0 param_len b;
      rep ← execute cdb DMA_TO_DEVICE dma timeout retries;
      finish_cmd rep
  end.

(** The eight bytes of one LBA descriptor. *)
Definition lba_desc (lba : Z) : bytes :=
  [byte_at lba 56; byte_at lba 48; byte_at lba 40; byte_at lba 32;
   byte_at lba 24; byte_at lba 16; byte_at lba 8; byte_at lba 0].

(** The parameter list: a length of four bytes and [count] descriptors. *)
Definition reassign_param (sector count : Z) : bytes :=
  let param_len := 4 + 8 * count in
  [byte_at (param_len - 4) 24; byte_at (param_len - 4) 16;
   byte_at (param_len - 4) 8; byte_at (param_len - 4) 0]
  ++ concat ((fun j => lba_desc (u64 (sector + j))) <$> seqZ 0 count).

Definition hd_reassign_successive_sectors (sector count : Z) : K (st D) Z :=
  if SWAP_MAX_REASSIGN_BLKS_NUM <? count then mret (-1) else
  let param_len := 4 + 8 * count in
  m ← kmalloc param_len;
  match m with
  | None => mret (-1)
  | Some mem =>
      param_arr ← kstore 0 (reassign_param sector count) mem;
      hd_reassign_blocks 1 1 (Some param_arr) param_len (10 * HZ) 0
  end.

(** [sdev->changed = 1] *)
Definition set_changed : K (st D) unit :=
  kmod (fun s => set_sdev (mkSdev (removable (sdev s)) true (sdev_state (sdev s))) s).

(** [scsi_sense_valid(sshdr) && sshdr->sense_key == key]; NULL is not valid. *)
Definition sense_is (sshdr : option scsi_sense_hdr) (key : Z) : bool :=
  match sshdr with
  | Some h => scsi_sense_valid h && (sense_key h =? key)
  | None => false
  end.

(** One TEST UNIT READY; [alloc] says whether there is a sense buffer. *)
Definition tur_once (alloc : bool) : K (st D) (Z * option scsi_sense_hdr) :=
  s ← kget;
  let cmd := fill 6 Byte.x00 in
  let '(d', (result, h, _)) := scsi_execute_req (dev s) cmd DMA_NONE [] (10 * HZ) 0 in
  kmod (set_dev d');;
  let sshdr := if alloc then Some h else None in
  s ← kget;
  (if removable (sdev s) && sense_is sshdr UNIT_ATTENTION then set_changed else mret tt);;
  mret (result, sshdr).

(** [do { .. } while (.. UNIT_ATTENTION && --retries)], entered with [retries]. *)
Fixpoint tur_loop (alloc : bool) (retries : nat) : K (st D) (Z * option scsi_sense_hdr) :=
  match retries with
  | O => kfail Hang
  | S r =>
      x ← tur_once alloc;
      if sense_is (snd x) UNIT_ATTENTION && negb (r =? 0)%nat
      then tur_loop alloc r else mret x
  end.

Definition hd_test_unit_ready : K (st D) Z :=
  m ← kmalloc 8;
  let alloc := match m with Some _ => true | None => false end in
  x ← tur_loop alloc 3;
  let '(result, sshdr) := x in
  match sshdr with
  | None => mret result
  | Some _ =>
      s ← kget;
      if removable (sdev s) && (sense_is sshdr UNIT_ATTENTION || sense_is sshdr NOT_READY)
      then set_changed;; mret 0
      else mret result
  end.

(** [for (retries = 3; retries > 0; --retries)] until the command succeeds. *)
Fixpoint sync_loop (retries : nat) (res : Z) : K (st D) Z :=
  match retries with
  | O => mret res
  | S r =>
      s ← kget;
      let cmd := byte.of_Z SYNCHRONIZE_CACHE :: fill 9 Byte.x00 in
      let '(d', (res, _, _)) := scsi_execute_req (dev s) cmd DMA_NONE [] (60 * HZ) 2 in
      kmod (set_dev d');;
      if res =? 0 then mret res else sync_loop r res
  end.

Definition hd_sync_cache : K (st D) Z :=
  s ← kget;
  if negb (scsi_device_online (sdev s)) then mret (- ENODEV) else
  res ← sync_loop 3 0;
  if c_true res then mret (- EIO) else mret 0.
End Commands.

(** ** What the driver relies on *)

(** A reply that reports a completed command: GOOD status, or sense data present
    that reports no error. *)
Definition reply_good {D} `{ScsiLower D} (rep : scsi_reply) : bool :=
  (r_result rep =? 0) ||
  ((driver_byte (r_result rep) =? DRIVER_SENSE) &&
   ((Z.land (r_result rep) 0xffffff =? 0) ||
    ((Z.land (r_result rep) 0xffffff =? SAM_STAT_CHECK_CONDITION) &&
     (sense_key (scsi_normalize_sense (r_sense rep)) =? 0) &&
     (asc (scsi_normalize_sense (r_sense rep)) =? 0) &&
     (ascq (scsi_normalize_sense (r_sense rep)) =? 0)))).

(** LOGICAL BLOCK ADDRESS and TRANSFER LENGTH of a 10-byte CDB. *)
Definition cdb_op (cdb : bytes) : Z := byte.unsigned (default Byte.x00 (cdb !! 0%nat)).
Definition cdb10_lba (cdb : bytes) : Z := be_combine (slice 2 4 cdb).
Definition cdb10_len (cdb : bytes) : Z := be_combine (slice 7 2 cdb).

Class BlockDevice (D : Type) `{ScsiLower D} := {
  (** contents of the medium by LBA, with 512-byte blocks *)
  media : D -> Z -> bytes;
  media_len : forall d x, zlen (media d x) = 512;
  (** READ(10) never changes the medium and fills the buffer from it *)
  execute_read10 : forall d cdb buf timeout retries,
    cdb_op cdb = READ_10 -> zlen buf = 512 * cdb10_len cdb ->
    let '(d', rep) := scsi_execute d cdb DMA_FROM_DEVICE buf timeout retries in
    (forall x, media d' x = media d x) /\
    zlen (r_buf rep) = zlen buf /\
    (reply_good rep = true -> forall i, 0 <= i < cdb10_len cdb ->
       slice (512 * i) 512 (r_buf rep) = media d (cdb10_lba cdb + i));
  (** WRITE(10) touches only the addressed blocks, and stores all of them when it
      completes *)
  execute_write10 : forall d cdb buf timeout retries,
    cdb_op cdb = WRITE_10 -> zlen buf = 512 * cdb10_len cdb ->
    let '(d', rep) := scsi_execute d cdb DMA_TO_DEVICE buf timeout retries in
    (forall x, ~ cdb10_lba cdb <= x < cdb10_lba cdb + cdb10_len cdb ->
       media d' x = media d x) /\
    (reply_good rep = true -> forall i, 0 <= i < cdb10_len cdb ->
       media d' (cdb10_lba cdb + i) = slice (512 * i) 512 buf);
  (** commands without data do not change the medium *)
  execute_req_nodata : forall d cdb timeout retries,
    let '(d', _) := scsi_execute_req d cdb DMA_NONE [] timeout retries in
    forall x, media d' x = media d x
}.

(** ** Fields of the CDBs *)

Lemma byte_at_of_Z x sh : byte_at x sh = byte.of_Z (Z.shiftr x sh).
Proof.
  apply byte.unsigned_inj. unfold byte_at. rewrite !byte.unsigned_of_Z. unfold byte.wrap.
  change 0xff with (Z.ones 8). rewrite Z.land_ones by lia. apply Zmod_mod.
Qed.

Lemma be_combine_split n z : be_combine (be_split n z) = z mod 2 ^ (Z.of_nat n * 8).
Proof. unfold be_combine, be_split. by rewrite rev_involutive, le_combine_split. Qed.

Lemma be_split_2 z : [byte_at z 8; byte_at z 0] = be_split 2 z.
Proof. rewrite !byte_at_of_Z. unfold be_split. cbv [le_split rev app]. by rewrite Z.shiftr_0_r. Qed.

Lemma be_split_4 z : [byte_at z 24; byte_at z 16; byte_at z 8; byte_at z 0] = be_split 4 z.
Proof.
  rewrite !byte_at_of_Z. unfold be_split. cbv [le_split rev app].
  rewrite !Z.shiftr_shiftr, Z.shiftr_0_r by lia. done.
Qed.

Lemma lba_desc_be z : lba_desc z = be_split 8 z.
Proof.
  unfold lba_desc. rewrite !byte_at_of_Z. unfold be_split. cbv [le_split rev app].
  rewrite !Z.shiftr_shiftr, Z.shiftr_0_r by lia. done.
Qed.

Lemma cdb10_fields op sector sec_num :
  0 <= op < 256 ->
  cdb_op (cdb10 op sector sec_num) = op /\
  cdb10_lba (cdb10 op sector sec_num) = sector mod 2 ^ 32 /\
  cdb10_len (cdb10 op sector sec_num) = sec_num mod 2 ^ 16.
Proof.
  intros Hop. split_and!.
  - transitivity (byte.unsigned (byte.of_Z op)); [done|].
    rewrite byte.unsigned_of_Z. by apply Z.mod_small.
  - unfold cdb10_lba.
    change (slice 2 4 (cdb10 op sector sec_num))
      with [byte_at sector 24; byte_at sector 16; byte_at sector 8; byte_at sector 0].
    rewrite be_split_4, be_combine_split. done.
  - unfold cdb10_len.
    change (slice 7 2 (cdb10 op sector sec_num)) with [byte_at sec_num 8; byte_at sec_num 0].
    rewrite be_split_2, be_combine_split. done.
Qed.

(** ** Specifications *)

(** [finish_cmd] accepts exactly the replies of completed commands. *)
Lemma filter_result_good {D} `{ScsiLower D} rep :
  filter_result (r_result rep) (r_sense rep) = 0 <-> reply_good rep = true.
Proof.
  unfold filter_result, reply_good, c_true.
  change (Z.lnot (s32 (Z.shiftl 255 24))) with 0xffffff.
  change (Z.lnot SAM_STAT_CHECK_CONDITION) with (-3). unfold SAM_STAT_CHECK_CONDITION.
  set (res := r_result rep) in *. set (h := scsi_normalize_sense (r_sense rep)).
  destruct (Z.eqb_spec res 0) as [->|Hne]; [done|].
  destruct (driver_byte res =? DRIVER_SENSE) eqn:Hd; cbn [orb andb]; [|lia].
  set (low := Z.land res 0xffffff).
  destruct (Z.eqb_spec (Z.land low 2) 0) as [E2|E2]; cbn [negb].
  - destruct (Z.eqb_spec low 0) as [->|Hl]; [done|]. cbn [orb].
    destruct (Z.eqb_spec low 2) as [E|_]; [rewrite E in E2; done|]. cbn. lia.
  - destruct (Z.eqb_spec low 0) as [E|_]; [rewrite E in E2; done|]. cbn [orb].
    destruct (Z.eqb_spec (sense_key h) 0), (Z.eqb_spec (asc h) 0), (Z.eqb_spec (ascq h) 0);
      rewrite ?andb_false_r; cbn [andb]; rewrite ?andb_false_r;
      try (split; [intros E; rewrite E in E2; done|done]).
    rewrite !andb_true_r, Z.eqb_eq. split; [|by intros ->].
    intros E. apply Z.bits_inj'. intros i Hi.
    pose proof (f_equal (fun z => Z.testbit z i) E) as Ei.
    cbv beta in Ei. rewrite Z.land_spec, Z.bits_0 in Ei.
    destruct (Z.eq_dec i 1) as [->|Hi1].
    + destruct (Z.testbit low 1) eqn:E1; [done|]. exfalso. apply E2.
      apply Z.bits_inj'. intros j Hj. rewrite Z.land_spec, Z.bits_0.
      destruct (Z.eq_dec j 1) as [->|Hj1]; [by rewrite E1|].
      replace (Z.testbit 2 j) with false; [by rewrite andb_false_r|].
      symmetry. change 2 with (2 ^ 1). by apply Z.pow2_bits_false.
    + replace (Z.testbit 2 i) with false
        by (symmetry; change 2 with (2 ^ 1); by apply Z.pow2_bits_false).
      change (-3) with (Z.lnot 2) in Ei. rewrite Z.lnot_spec in Ei by done.
      change 2 with (2 ^ 1) in Ei. rewrite Z.pow2_bits_false in Ei by done.
      by rewrite andb_true_r in Ei.
Qed.

Section Specs.
Context {D : Type} `{BlockDevice D}.
Implicit Types s : st D.

(** A data command changes the device, and perhaps the count of fatal errors. *)
Definition io s s' : Prop :=
  s' = set_dev (dev s') (upd_core (core_dead (device_dead (core s'))) s).

Lemma io_refl s : io s s.
Proof. by destruct s as [? ? [] ? ? ? ?]. Qed.

Lemma io_trans s1 s2 s3 : io s1 s2 -> io s2 s3 -> io s1 s3.
Proof. unfold io. intros E1 E2. rewrite E2, E1. done. Qed.

Lemma io_view s s' : io s s' -> view_of s' = view_of s.
Proof. unfold io. intros ->. done. Qed.

Lemma io_infos s s' : io s s' -> infos s' = infos s.
Proof. unfold io. intros ->. done. Qed.

Lemma io_log s s' : io s s' -> log s' = log s.
Proof. unfold io. intros ->. done. Qed.

Lemma io_head s s' : io s s' -> head (core s') = head (core s).
Proof. unfold io. intros ->. done. Qed.

(** The medium differs at most at the sectors of [R]. *)
Definition touches (R : Z -> Prop) s s' : Prop :=
  forall x, ~ R x -> media (dev s') x = media (dev s) x.

Lemma touches_refl R s : touches R s s.
Proof. done. Qed.

Lemma touches_trans R s1 s2 s3 : touches R s1 s2 -> touches R s2 s3 -> touches R s1 s3.
Proof. unfold touches. intros H1 H2 x Hx. by rewrite H2, H1. Qed.

Lemma touches_mono (R R' : Z -> Prop) s s' :
  touches R s s' -> (forall x, R x -> R' x) -> touches R' s s'.
Proof. unfold touches. auto. Qed.

Definition nowhere (x : Z) : Prop := False.
Definition between (a b : Z) (x : Z) : Prop := a <= x < b.

Lemma touches_nowhere R s s' : touches nowhere s s' -> touches R s s'.
Proof. intros Ht. eapply touches_mono; [exact Ht|]. by intros x []. Qed.

Lemma wp_finish_cmd rep s :
  wp (finish_cmd rep)
     (fun ret s' => (ret = 0 \/ ret = -1) /\ (ret = 0 -> reply_good rep = true) /\
                    io s s' /\ dev s' = dev s) s.
Proof.
  unfold finish_cmd.
  destruct (Z.eqb_spec (filter_result (r_result rep) (r_sense rep)) 0) as [E|E]; cbn [negb].
  - kstep. split_and!; [by left| |apply io_refl|done]. intros _. by apply filter_result_good.
  - destruct (_ || _); repeat kstep; (split_and!; [by right|done| |done]).
    + unfold io. by destruct s.
    + apply io_refl.
Qed.

Lemma wp_hd_read sector n (buf : bytes) len timeout retries s :
  0 <= sector < 2 ^ 32 -> 0 <= n < 2 ^ 16 -> len = 512 * n -> zlen buf = len ->
  wp (hd_read_sector sector n (Some buf) len timeout retries)
     (fun x s' => io s s' /\ touches nowhere s s' /\ zlen (snd x) = len /\
        (fst x = 0 \/ fst x = -1) /\
        (fst x = 0 -> forall i, 0 <= i < n ->
           slice (512 * i) 512 (snd x) = media (dev s) (sector + i))) s.
Proof.
  intros Hs Hn -> Hb. unfold hd_read_sector, SECTOR_SIZE. rewrite Z.ltb_irrefl.
  kstep. apply wp_load; [lia..|]. rewrite slice_last by done.
  destruct (cdb10_fields READ_10 sector n ltac:(unfold READ_10; lia)) as (Ho & Hl & Hc).
  rewrite Z.mod_small in Hl, Hc by lia.
  unfold execute. do 3 kstep.
  pose proof (execute_read10 (dev s) (cdb10 READ_10 sector n) buf timeout retries Ho) as Hex.
  rewrite Hc, Hl in Hex. specialize (Hex Hb).
  destruct (scsi_execute _ _ _ _ _ _) as [d' rep]. destruct Hex as (Hm & Hlen & Hgood).
  repeat kstep. apply wp_store; [lia..|]. rewrite splice_full by done.
  kstep. kcall wp_finish_cmd. intros ret s' (Hret & Hok & Hio & Hdev).
  kstep. cbn [fst snd]. rewrite Hlen. split_and!.
  - apply io_trans with (set_dev d' s); [|exact Hio]. unfold io. by destruct s as [? ? [] ? ? ? ?].
  - intros x _. by rewrite Hdev, Hm.
  - done.
  - done.
  - intros E0 i Hi. auto.
Qed.

Lemma wp_hd_write sector n (buf : bytes) len timeout retries s :
  0 <= sector < 2 ^ 32 -> 0 <= n < 2 ^ 16 -> len = 512 * n -> zlen buf = len ->
  wp (hd_write_sector sector n (Some buf) len timeout retries)
     (fun ret s' => io s s' /\ touches (between sector (sector + n)) s s' /\
        (ret = 0 \/ ret = -1) /\
        (ret = 0 -> forall i, 0 <= i < n ->
           media (dev s') (sector + i) = slice (512 * i) 512 buf)) s.
Proof.
  intros Hs Hn -> Hb. unfold hd_write_sector, SECTOR_SIZE. rewrite Z.ltb_irrefl.
  kstep. apply wp_load; [lia..|]. rewrite slice_last by done.
  destruct (cdb10_fields WRITE_10 sector n ltac:(unfold WRITE_10; lia)) as (Ho & Hl & Hc).
  rewrite Z.mod_small in Hl, Hc by lia.
  unfold execute. do 3 kstep.
  pose proof (execute_write10 (dev s) (cdb10 WRITE_10 sector n) buf timeout retries Ho) as Hex.
  rewrite Hc, Hl in Hex. specialize (Hex Hb).
  destruct (scsi_execute _ _ _ _ _ _) as [d' rep]. destruct Hex as (Hm & Hgood).
  repeat kstep. kcall wp_finish_cmd. intros ret s' (Hret & Hok & Hio & Hdev).
  split_and!.
  - apply io_trans with (set_dev d' s); [|exact Hio]. unfold io. by destruct s as [? ? [] ? ? ? ?].
  - intros x Hx. rewrite Hdev. by apply Hm.
  - done.
  - intros E0 i Hi. rewrite Hdev. auto.
Qed.

(** A command without data leaves all but the device, its [changed] flag and the
    allocator alone. *)
Definition quiet s s' : Prop :=
  core s' = core s /\ log s' = log s /\ infos s' = infos s /\ touches nowhere s s'.

Lemma quiet_refl s : quiet s s.
Proof. done. Qed.

Lemma quiet_trans s1 s2 s3 : quiet s1 s2 -> quiet s2 s3 -> quiet s1 s3.
Proof.
  intros (E1&E2&E3&T1) (F1&F2&F3&T2).
  split_and!; [congruence..|by eapply touches_trans].
Qed.

Lemma quiet_kmem l s : quiet s (set_kmem l s).
Proof. done. Qed.

Lemma quiet_view s s' : quiet s s' -> view_of s' = view_of s.
Proof. intros (E1&_&E3&_). unfold view_of, geom. by rewrite E1, E3. Qed.

Lemma quiet_nodata d' cdb timeout retries x s :
  scsi_execute_req (dev s) cdb DMA_NONE [] timeout retries = (d', x) ->
  quiet s (set_dev d' s).
Proof.
  intros E. pose proof (execute_req_nodata (dev s) cdb timeout retries) as Hm.
  rewrite E in Hm. split_and!; [done..|]. intros y _. apply Hm.
Qed.

Lemma wp_tur_once alloc s : wp (tur_once alloc) (fun _ s' => quiet s s') s.
Proof.
  unfold tur_once. do 2 kstep.
  destruct (scsi_execute_req _ _ _ _ _ _) as [d' [[res h] b]] eqn:E.
  pose proof (quiet_nodata d' _ _ _ _ s E) as Hq.
  repeat kstep. destruct (_ && _); unfold set_changed; repeat kstep; done.
Qed.

Lemma wp_tur_loop alloc n s : (0 < n)%nat -> wp (tur_loop alloc n) (fun _ s' => quiet s s') s.
Proof.
  revert s. induction n as [|n IH]; intros s Hn; [lia|]. cbn [tur_loop].
  kstep. kcall wp_tur_once. intros x s' Hq.
  destruct (sense_is (snd x) UNIT_ATTENTION && negb (n =? 0)%nat) eqn:E.
  - apply andb_true_iff in E as [_ E%negb_true_iff%Nat.eqb_neq].
    eapply wp_mono; [apply IH; lia|]. intros y s'' Hq'. by eapply quiet_trans.
  - by kstep.
Qed.

Lemma wp_test_unit_ready s : wp hd_test_unit_ready (fun _ s' => quiet s s') s.
Proof.
  unfold hd_test_unit_ready. kstep.
  assert (forall (a : bool) s1, quiet s s1 ->
    wp (x ← tur_loop a 3;
        let '(result, sshdr) := x in
        match sshdr with
        | None => mret result
        | Some _ => s ← kget;
            if removable (sdev s) &&
                 (sense_is sshdr UNIT_ATTENTION || sense_is sshdr NOT_READY)
            then set_changed;; mret 0 else mret result
        end) (fun _ s' => quiet s s') s1) as Hrest.
  { intros a s1 Hq1. kstep. eapply wp_mono; [apply wp_tur_loop; lia|].
    intros [res [h|]] s2 Hq2; [|kstep; by eapply quiet_trans].
    do 2 kstep. destruct (_ && _); unfold set_changed; repeat kstep;
      (eapply quiet_trans; [exact Hq1|]); done. }
  apply wp_kmalloc; [lia|..]; intros; by apply Hrest.
Qed.
End Specs.

(** ** Results *)

(** C38: the LBA and length fields of the CDB [hd_read_sector]/[hd_write_sector]
    send hold the sector modulo 2^32 and the count modulo 2^16: requests below
    2 TiB and of at most 65535 sectors reach exactly the sectors asked for. *)
Theorem cdb10_reaches_sector (op sector sec_num : Z) :
  0 <= op < 256 ->
  cdb_op (cdb10 op sector sec_num) = op /\
  cdb10_lba (cdb10 op sector sec_num) = sector mod 2 ^ 32 /\
  cdb10_len (cdb10 op sector sec_num) = sec_num mod 2 ^ 16 /\
  (0 <= sector < 2 ^ 32 -> cdb10_lba (cdb10 op sector sec_num) = sector) /\
  (0 <= sec_num < 2 ^ 16 -> cdb10_len (cdb10 op sector sec_num) = sec_num).
Proof.
  intros Hop. destruct (cdb10_fields op sector sec_num Hop) as (Ho & Hl & Hc).
  split_and!; [done..| |]; intros; rewrite ?Hl, ?Hc; by apply Z.mod_small.
Qed.

Lemma cdb10_reaches_sector_witness :
  0 <= READ_10 < 256 /\ cdb10_lba (cdb10 READ_10 (2 ^ 32 + 5) 8) = (2 ^ 32 + 5) mod 2 ^ 32.
Proof.
  split; [vm_compute; by split|].
  apply (cdb10_reaches_sector READ_10 (2 ^ 32 + 5) 8). vm_compute. by split.
Defined.

(** The descriptors of a parsed REASSIGN BLOCKS parameter list with long LBAs. *)
Definition param_length (p : bytes) : Z := be_combine (slice 0 4 p).
Definition param_lba (p : bytes) (j : Z) : Z := be_combine (slice (4 + 8 * j) 8 p).

Lemma concat_slice (f : Z -> bytes) n j :
  (forall k, length (f k) = 8%nat) -> 0 <= j < n ->
  slice (8 * j) 8 (concat (f <$> seqZ 0 n)) = f j.
Proof.
  intros Hf Hj.
  assert (forall m, length (concat (f <$> m)) = (8 * length m)%nat) as Hlen.
  { induction m as [|x m IH]; [done|].
    change (length (f x ++ concat (f <$> m)) = (8 * S (length m))%nat).
    rewrite length_app, IH, Hf. lia. }
  replace n with (j + (1 + (n - j - 1))) by lia.
  rewrite seqZ_app, fmap_app, concat_app by lia.
  rewrite (slice_app_skip (8 * j)); [|unfold zlen; rewrite Hlen, length_seqZ; lia|lia].
  rewrite Z.sub_diag, seqZ_app, fmap_app, concat_app by lia.
  change (seqZ (0 + j) 1) with [0 + j]. cbn [fmap list_fmap concat]. rewrite app_nil_r.
  rewrite Z.add_0_l. apply slice_app_here. unfold zlen. by rewrite Hf.
Qed.

Lemma zlen_reassign_param sector count :
  0 <= count -> zlen (reassign_param sector count) = 4 + 8 * count.
Proof.
  intros. unfold reassign_param. rewrite zlen_app.
  change (zlen [_; _; _; _]) with 4. f_equal. unfold zlen.
  assert (forall m : list Z, length (concat ((fun j => lba_desc (u64 (sector + j))) <$> m))
                   = (8 * length m)%nat) as ->.
  { induction m as [|x m IH]; [done|]. cbn [fmap list_fmap concat].
    rewrite length_app, IH. cbn. lia. }
  rewrite length_seqZ. lia.
Qed.

(** the parameter list [hd_reassign_successive_sectors] sends announces
    [8 * count] bytes of descriptors and its [j]-th descriptor is sector
    [sector + j], for every request the function accepts. *)
Theorem reassign_param_lists_sectors (sector count j : Z) :
  0 <= sector -> sector + count < 2 ^ 64 ->
  0 <= j < count -> count <= SWAP_MAX_REASSIGN_BLKS_NUM ->
  zlen (reassign_param sector count) = 4 + 8 * count /\
  param_length (reassign_param sector count) = 8 * count /\
  param_lba (reassign_param sector count) j = sector + j.
Proof.
  unfold SWAP_MAX_REASSIGN_BLKS_NUM. intros Hs Hmax Hj Hc.
  split_and!; [apply zlen_reassign_param; lia| |].
  - unfold param_length, reassign_param. rewrite slice_app_here by done.
    rewrite be_split_4, be_combine_split, Z.mod_small; lia.
  - unfold param_lba, reassign_param. rewrite (slice_app_skip 4) by (done || lia).
    replace (4 + 8 * j - 4) with (8 * j) by lia.
    rewrite (concat_slice (fun j => lba_desc (u64 (sector + j)))) by (done || lia).
    rewrite lba_desc_be, be_combine_split, u64_small by lia. apply Z.mod_small. lia.
Qed.

Lemma reassign_param_lists_sectors_witness :
  zlen (reassign_param 1000 3) = 28 /\ param_length (reassign_param 1000 3) = 24 /\
  param_lba (reassign_param 1000 3) 2 = 1002.
Proof. apply (reassign_param_lists_sectors 1000 3 2); unfold SWAP_MAX_REASSIGN_BLKS_NUM; lia. Defined.
