(* ===== verification/Fmt.v ===== *)
(** * Text: what the sysfs files print and parse

    Decimal conversion ([%u], [%llu], [%d] of the values the driver prints, [%llu]
    of [sscanf]) and the loop shared by [scsi_swap_core_show], [scsi_swap_log_show]
    and [scsi_swap_sim_show] that fills one sysfs page line by line.  Results:
    numbers survive printing and parsing, and a page never overflows and holds
    whole lines only. *)

From stdpp Require Import base list.
From coqutil Require Import Byte.
From Stdlib Require Import ZArith Lia.
From S2P Require Import Prelude Kapi.

Local Open Scope Z_scope.

(** ** Printing *)

Definition digit (d : Z) : byte := byte.of_Z (48 + d).

(** Digits of [n], least significant last; [fuel] bounds their number. *)
Fixpoint dec_digits (fuel : nat) (n : Z) : bytes :=
  match fuel with
  | O => []
  | S f => (if n <? 10 then [] else dec_digits f (n / 10)) ++ [digit (n mod 10)]
  end.

(** A u64 has at most 20 digits. *)
Definition dec (n : Z) : bytes := dec_digits 20 n.

Definition space : byte := Byte.x20.
Definition newline : byte := Byte.x0a.

(** Fields separated by blanks, ended by a newline. *)
Fixpoint fields (l : list Z) : bytes :=
  match l with
  | [] => [newline]
  | [n] => dec n ++ [newline]
  | n :: l' => dec n ++ [space] ++ fields l'
  end.

(** [snprintf(buf, size, ..)] keeps at most [size - 1] characters but returns the
    full length. *)
Definition snprintf (size : Z) (text : bytes) : bytes * Z :=
  (slice 0 (Z.min (size - 1) (zlen text)) text, zlen text).

(** [if (left <= len) break; strcpy(page + (PAGE_SIZE - left), buf); left -= len;]
    for each line; returns the page text and the value of [PAGE_SIZE - left]. *)
Fixpoint show_loop (bufsize : Z) (lines : list bytes) (page : bytes) (left : Z) : bytes * Z :=
  match lines with
  | [] => (page, PAGE_SIZE - left)
  | line :: rest =>
      let '(buf, len) := snprintf bufsize line in
      if left <=? len then (page, PAGE_SIZE - left)
      else show_loop bufsize rest (slice 0 (PAGE_SIZE - left) page ++ buf) (left - len)
  end.

Definition show_page (bufsize : Z) (lines : list bytes) : bytes * Z :=
  show_loop bufsize lines [] PAGE_SIZE.

(** ** Parsing *)

Definition is_digit (b : byte) : bool :=
  (48 <=? byte.unsigned b) && (byte.unsigned b <=? 57).
Definition is_space (b : byte) : bool :=
  let c := byte.unsigned b in (c =? 32) || ((9 <=? c) && (c <=? 13)).

Fixpoint skip_spaces (t : bytes) : bytes :=
  match t with
  | b :: t' => if is_space b then skip_spaces t' else t
  | [] => []
  end.

(** Decimal digits accumulated into [acc], and the rest of the text. *)
Fixpoint scan_digits (t : bytes) (acc : Z) : Z * bytes :=
  match t with
  | b :: t' => if is_digit b then scan_digits t' (acc * 10 + (byte.unsigned b - 48))
               else (acc, t)
  | [] => (acc, [])
  end.

(** [%llu] / [%u]: blanks are skipped, one digit at least is needed. *)
Definition scan_num (t : bytes) : option (Z * bytes) :=
  match skip_spaces t with
  | b :: t' => if is_digit b then Some (scan_digits (b :: t') 0) else None
  | [] => None
  end.

(** A literal word of the format. *)
Fixpoint scan_lit (lit t : bytes) : option bytes :=
  match lit, t with
  | [], _ => Some t
  | c :: lit', b :: t' => if Byte.eqb c b then scan_lit lit' t' else None
  | _ :: _, [] => None
  end.

(** ** Lemmas *)

Lemma digit_is_digit d : 0 <= d < 10 -> is_digit (digit d) = true.
Proof.
  intros. unfold is_digit, digit. rewrite byte.unsigned_of_Z. unfold byte.wrap.
  rewrite Z.mod_small by lia. rewrite andb_true_iff, !Z.leb_le. lia.
Qed.

Lemma digit_value d : 0 <= d < 10 -> byte.unsigned (digit d) - 48 = d.
Proof.
  intros. unfold digit. rewrite byte.unsigned_of_Z. unfold byte.wrap.
  rewrite Z.mod_small by lia. lia.
Qed.

Lemma digit_not_space b : is_digit b = true -> is_space b = false.
Proof.
  unfold is_digit, is_space. rewrite andb_true_iff, !Z.leb_le. intros.
  rewrite orb_false_iff, andb_false_iff, Z.eqb_neq, !Z.leb_gt. lia.
Qed.

(** The value of a run of digits read left to right. *)
Lemma scan_digits_app ds t acc :
  Forall (fun b => is_digit b = true) ds ->
  (match t with b :: _ => is_digit b = false | [] => True end) ->
  scan_digits (ds ++ t) acc
  = (foldl (fun a b => a * 10 + (byte.unsigned b - 48)) acc ds, t).
Proof.
  intros Hds Ht. revert acc. induction Hds as [|b ds Hb _ IH]; intros acc; cbn [app foldl].
  - destruct t as [|b t']; [done|]. cbn [scan_digits]. by rewrite Ht.
  - cbn [scan_digits]. by rewrite Hb, IH.
Qed.

Lemma dec_digits_digits fuel n :
  0 <= n -> Forall (fun b => is_digit b = true) (dec_digits fuel n).
Proof.
  revert n. induction fuel as [|f IH]; intros n Hn; cbn [dec_digits]; [constructor|].
  apply Forall_app. split.
  - destruct (n <? 10); [constructor|]. apply IH, Z.div_pos; lia.
  - repeat constructor. apply digit_is_digit, Z.mod_pos_bound. lia.
Qed.

Lemma dec_digits_value fuel n :
  0 <= n < 10 ^ Z.of_nat fuel -> (0 < fuel)%nat ->
  foldl (fun a b => a * 10 + (byte.unsigned b - 48)) 0 (dec_digits fuel n) = n.
Proof.
  revert n. induction fuel as [|f IH]; intros n Hn Hf; [lia|]. cbn [dec_digits].
  rewrite foldl_app. cbn [foldl].
  rewrite digit_value by (apply Z.mod_pos_bound; lia).
  destruct (Z.ltb_spec n 10) as [Hlt|Hge]; cbn [foldl].
  - rewrite Z.mod_small; lia.
  - assert (f <> O) by (intros ->; change (10 ^ Z.of_nat 1) with 10 in Hn; lia).
    rewrite IH; [|split|lia].
    + pose proof (Z.div_mod n 10). lia.
    + apply Z.div_pos; lia.
    + apply Z.div_lt_upper_bound; [lia|].
      rewrite Nat2Z.inj_succ, Z.pow_succ_r in Hn by lia. lia.
Qed.

Lemma dec_digits_cons fuel n :
  0 <= n -> (0 < fuel)%nat -> exists b t, dec_digits fuel n = b :: t /\ is_digit b = true.
Proof.
  intros Hn Hf. pose proof (dec_digits_digits fuel n Hn) as Hall.
  destruct (dec_digits fuel n) as [|b t] eqn:E.
  - destruct fuel; [lia|]. cbn in E. by destruct (if n <? 10 then _ else _).
  - exists b, t. split; [done|]. by inversion Hall.
Qed.

Lemma scan_num_dec n t :
  0 <= n < 10 ^ 20 ->
  (match t with b :: _ => is_digit b = false | [] => True end) ->
  scan_num (dec n ++ t) = Some (n, t).
Proof.
  intros Hn Ht. unfold scan_num.
  destruct (dec_digits_cons 20 n ltac:(lia) ltac:(lia)) as (b & ds & E & Hb).
  unfold dec. rewrite E. cbn [app skip_spaces]. rewrite (digit_not_space b) by done.
  rewrite Hb. change (b :: ds ++ t) with ((b :: ds) ++ t). rewrite <- E.
  rewrite scan_digits_app, dec_digits_value; try done; try lia.
  apply dec_digits_digits. lia.
Qed.

Lemma scan_num_space n t :
  0 <= n < 10 ^ 20 ->
  (match t with b :: _ => is_digit b = false | [] => True end) ->
  scan_num (space :: dec n ++ t) = Some (n, t).
Proof.
  intros Hn Ht. pose proof (scan_num_dec n t Hn Ht) as H.
  unfold scan_num in *. cbn [skip_spaces]. exact H.
Qed.

Lemma scan_lit_app lit t : scan_lit lit (lit ++ t) = Some t.
Proof.
  induction lit as [|c lit IH]; [by destruct t|]. cbn [app scan_lit].
  by rewrite Byte.byte_dec_lb.
Qed.

(** The pages: only whole lines, in order, never a full page. *)
Lemma show_loop_spec bufsize lines : forall page left,
  Forall (fun l => zlen l < bufsize) lines ->
  zlen page = PAGE_SIZE - left -> 0 < left ->
  exists k,
    show_loop bufsize lines page left
    = (page ++ concat (take k lines), zlen (page ++ concat (take k lines)))
    /\ zlen (page ++ concat (take k lines)) < PAGE_SIZE
    /\ ((k < length lines)%nat ->
        PAGE_SIZE <= zlen (page ++ concat (take k lines)) + zlen (nth k lines [])).
Proof.
  induction lines as [|line lines IH]; intros page left Hall Hpage Hleft; cbn [show_loop].
  - exists 0%nat. cbn [take concat]. rewrite app_nil_r, Hpage.
    split_and!; [done|lia|cbn; lia].
  - apply Forall_cons in Hall as [Hline Hall]. unfold snprintf.
    rewrite Z.min_r, slice_all by lia.
    destruct (Z.leb_spec left (zlen line)) as [Hle|Hgt].
    + exists 0%nat. cbn [take concat nth]. rewrite app_nil_r, Hpage.
      split_and!; [done|lia|intros; lia].
    + rewrite <- Hpage, slice_all.
      destruct (IH (page ++ line) (left - zlen line)) as (k & -> & Hlt & Hmax);
        [done|rewrite zlen_app; lia|lia|].
      exists (S k). cbn [take concat nth length]. rewrite <- app_assoc in *.
      split_and!; [done|done|]. intros. apply Hmax. lia.
Qed.

(** a sysfs page filled by a show function holds a prefix of the lines, each
    whole, leaves room for the terminating NUL, reports its length, and stops only
    when the next line would not fit. *)
Theorem show_page_whole_lines (bufsize : Z) (lines : list bytes) :
  Forall (fun l => zlen l < bufsize) lines ->
  exists k,
    fst (show_page bufsize lines) = concat (take k lines) /\
    snd (show_page bufsize lines) = zlen (concat (take k lines)) /\
    zlen (concat (take k lines)) < PAGE_SIZE /\
    ((k < length lines)%nat ->
       PAGE_SIZE <= zlen (concat (take k lines)) + zlen (nth k lines [])).
Proof.
  intros Hall. destruct (show_loop_spec bufsize lines [] PAGE_SIZE Hall) as (k & E & H1 & H2);
    [done|unfold PAGE_SIZE; lia|].
  exists k. unfold show_page. rewrite E. done.
Qed.

Definition demo_lines : list bytes := [fields [8; 9]].

Lemma show_page_whole_lines_witness :
  Forall (fun l => zlen l < 64) demo_lines /\
  exists k, fst (show_page 64 demo_lines) = concat (take k demo_lines) /\
    snd (show_page 64 demo_lines) = zlen (concat (take k demo_lines)) /\
    zlen (concat (take k demo_lines)) < PAGE_SIZE /\
    ((k < length demo_lines)%nat ->
       PAGE_SIZE <= zlen (concat (take k demo_lines)) + zlen (nth k demo_lines [])).
Proof.
  assert (Forall (fun l => zlen l < 64) demo_lines) as H by (repeat constructor).
  split; [exact H|]. exact (show_page_whole_lines 64 _ H).
Defined.
