(* ===== verification/SimDisk.v ===== *)
(** * A disk to run the model on

    [simdisk] is a concrete device behind the SCSI midlayer: a medium, a list of
    LBAs whose transfers fail with a medium error, and a switch that makes the
    device disappear.  It satisfies [BlockDevice], so the theorems of the other
    files apply to it and the witnesses evaluate the code on it. *)

From stdpp Require Import base gmap list list_numbers.
From coqutil Require Import Byte Word.LittleEndianList.
From Stdlib Require Import ZArith Lia.
From S2P Require Import Prelude Kapi Layout State Scsi.

Local Open Scope Z_scope.

Record simdisk := mkDisk {
  blocks : gmap Z bytes;
  bad_read : list Z;
  bad_write : list Z;
  gone : bool
}.

(** A block is 512 bytes, whatever was stored. *)
Definition norm512 (b : bytes) : bytes := take 512 (b ++ fill 512 Byte.x00).

Definition sim_media (d : simdisk) (x : Z) : bytes := norm512 (default [] (blocks d !! x)).

Definition range_hits (l : list Z) (lba n : Z) : bool :=
  existsb (fun b => (lba <=? b) && (b <? lba + n)) l.

Definition sim_sense_err : bytes := [Byte.x70; Byte.x00; Byte.x03].

(** CHECK CONDITION with sense data, or no connection. *)
Definition sim_fail (d : simdisk) (buf : bytes) : scsi_reply :=
  mkReply (if gone d then Z.shiftl DID_NO_CONNECT 16
           else Z.lor (Z.shiftl DRIVER_SENSE 24) SAM_STAT_CHECK_CONDITION)
          sim_sense_err buf.

Definition sim_store (lba n : Z) (buf : bytes) (m : gmap Z bytes) : gmap Z bytes :=
  foldl (fun m i => <[lba + i := norm512 (slice (512 * i) 512 buf)]> m) m (seqZ 0 n).

Definition sim_load (d : simdisk) (lba n : Z) : bytes :=
  concat ((fun i => sim_media d (lba + i)) <$> seqZ 0 n).

Definition sim_execute (d : simdisk) (cdb : bytes) (dir : dma_dir) (buf : bytes)
    (timeout retries : Z) : simdisk * scsi_reply :=
  let lba := cdb10_lba cdb in
  let n := cdb10_len cdb in
  if cdb_op cdb =? READ_10 then
    if gone d || range_hits (bad_read d) lba n then (d, sim_fail d buf)
    else (d, mkReply 0 [] (sim_load d lba n))
  else if cdb_op cdb =? WRITE_10 then
    if gone d || range_hits (bad_write d) lba n then (d, sim_fail d buf)
    else (mkDisk (sim_store lba n buf (blocks d)) (bad_read d) (bad_write d) (gone d),
          mkReply 0 [] buf)
  else (d, sim_fail d buf).

Definition sim_execute_req (d : simdisk) (cdb : bytes) (dir : dma_dir) (buf : bytes)
    (timeout retries : Z) : simdisk * (Z * scsi_sense_hdr * bytes) :=
  if gone d then (d, (Z.shiftl DID_NO_CONNECT 16, no_sense_hdr, buf))
  else (d, (0, no_sense_hdr, buf)).

#[global] Instance simdisk_lower : ScsiLower simdisk := {
  HZ := 1000;
  scsi_execute := sim_execute;
  scsi_execute_req := sim_execute_req;
  scsi_normalize_sense b :=
    mkSense (byte.unsigned (default Byte.x00 (b !! 0%nat)))
            (byte.unsigned (default Byte.x00 (b !! 2%nat))) 0 0;
  scsi_sense_valid h := Z.land (response_code h) 0x70 =? 0x70
}.

Lemma length_norm512 b : length (norm512 b) = 512%nat.
Proof.
  unfold norm512, fill. rewrite length_take, length_app, length_replicate.
  change (Z.to_nat 512) with 512%nat. lia.
Qed.

Lemma norm512_id b : length b = 512%nat -> norm512 b = b.
Proof. intros E. unfold norm512. rewrite <- E. apply take_app_length. Qed.

Lemma norm512_idem b : norm512 (norm512 b) = norm512 b.
Proof. apply norm512_id, length_norm512. Qed.

Lemma concat_slice512 (f : Z -> bytes) n j :
  (forall k, length (f k) = 512%nat) -> 0 <= j < n ->
  slice (512 * j) 512 (concat (f <$> seqZ 0 n)) = f j
  /\ zlen (concat (f <$> seqZ 0 n)) = 512 * n.
Proof.
  intros Hf Hj.
  assert (forall m, zlen (concat (f <$> m)) = 512 * zlen m) as Hlen.
  { induction m as [|x m IH]; [done|].
    change (zlen (f x ++ concat (f <$> m)) = 512 * zlen (x :: m)).
    rewrite zlen_app, IH. unfold zlen. rewrite Hf. cbn [length]. lia. }
  split; [|rewrite Hlen; unfold zlen; rewrite length_seqZ; lia].
  replace n with (j + (1 + (n - j - 1))) by lia.
  rewrite seqZ_app, fmap_app, concat_app by lia.
  rewrite (slice_app_skip (512 * j)); [|rewrite Hlen; unfold zlen; rewrite length_seqZ; lia|lia].
  rewrite Z.sub_diag, seqZ_app, fmap_app, concat_app by lia.
  change (seqZ (0 + j) 1) with [0 + j]. cbn [fmap list_fmap concat]. rewrite app_nil_r.
  rewrite Z.add_0_l. apply slice_app_here. unfold zlen. by rewrite Hf.
Qed.

Lemma sim_store_lookup lba n buf m x :
  0 <= n ->
  sim_store lba n buf m !! x
  = if decide (lba <= x < lba + n) then Some (norm512 (slice (512 * (x - lba)) 512 buf))
    else m !! x.
Proof.
  intros Hn. unfold sim_store.
  pattern n. apply natlike_ind; [| |done].
  - rewrite decide_False by lia. done.
  - clear n Hn. intros n Hn IH. replace (Z.succ n) with (n + 1) by lia.
    rewrite seqZ_app, foldl_app by lia. change (seqZ (0 + n) 1) with [0 + n].
    cbn [foldl]. rewrite Z.add_0_l.
    destruct (decide (x = lba + n)) as [->|Hne].
    + rewrite lookup_insert_eq, decide_True by lia.
      replace (lba + n - lba) with n by lia. done.
    + rewrite lookup_insert_ne, IH by lia.
      destruct (decide (lba <= x < lba + n)), (decide (lba <= x < lba + (n + 1))); try lia; done.
Qed.

Lemma sim_fail_bad d buf : reply_good (sim_fail d buf) = false.
Proof. unfold sim_fail. destruct (gone d); reflexivity. Qed.

Lemma cdb10_len_nonneg cdb : 0 <= cdb10_len cdb.
Proof. apply le_combine_bound. Qed.

Lemma sim_read_law d cdb buf timeout retries :
  cdb_op cdb = READ_10 -> zlen buf = 512 * cdb10_len cdb ->
  let '(d', rep) := sim_execute d cdb DMA_FROM_DEVICE buf timeout retries in
  (forall x, sim_media d' x = sim_media d x) /\ zlen (r_buf rep) = zlen buf /\
  (reply_good rep = true -> forall i, 0 <= i < cdb10_len cdb ->
     slice (512 * i) 512 (r_buf rep) = sim_media d (cdb10_lba cdb + i)).
Proof.
  intros Hop Hb. unfold sim_execute. rewrite Hop, Z.eqb_refl.
  destruct (_ || _); cbn [r_buf sim_fail].
  - split_and!; [done..|]. rewrite sim_fail_bad. done.
  - pose proof (cdb10_len_nonneg cdb) as Hn. rewrite Hb. unfold sim_load.
    assert (forall k, length (sim_media d (cdb10_lba cdb + k)) = 512%nat) as Hl
      by (intros; apply length_norm512).
    split_and!; [done| |].
    + destruct (Z.eq_dec (cdb10_len cdb) 0) as [->|]; [done|].
      apply (concat_slice512 (fun i => sim_media d (cdb10_lba cdb + i)) _ 0); [done|lia].
    + intros _ i Hi. by apply (concat_slice512 (fun i => sim_media d (cdb10_lba cdb + i))).
Qed.

Lemma sim_write_law d cdb buf timeout retries :
  cdb_op cdb = WRITE_10 -> zlen buf = 512 * cdb10_len cdb ->
  let '(d', rep) := sim_execute d cdb DMA_TO_DEVICE buf timeout retries in
  (forall x, ~ cdb10_lba cdb <= x < cdb10_lba cdb + cdb10_len cdb ->
     sim_media d' x = sim_media d x) /\
  (reply_good rep = true -> forall i, 0 <= i < cdb10_len cdb ->
     sim_media d' (cdb10_lba cdb + i) = slice (512 * i) 512 buf).
Proof.
  intros Hop Hb. unfold sim_execute. rewrite Hop.
  change (WRITE_10 =? READ_10) with false. rewrite Z.eqb_refl. cbn iota.
  pose proof (cdb10_len_nonneg cdb) as Hn.
  destruct (_ || _).
  - split; [done|]. rewrite sim_fail_bad. done.
  - unfold sim_media. cbn [blocks]. split.
    + intros x Hx. rewrite sim_store_lookup, decide_False by done. done.
    + intros _ i Hi. rewrite sim_store_lookup, decide_True by lia. cbv [from_option id].
      replace (cdb10_lba cdb + i - cdb10_lba cdb) with i by lia.
      rewrite norm512_idem. apply norm512_id.
      pose proof (zlen_slice (512 * i) 512 buf). unfold zlen in *. lia.
Qed.

Lemma sim_media_len d x : zlen (sim_media d x) = 512.
Proof. unfold zlen, sim_media. by rewrite length_norm512. Qed.

Lemma sim_nodata_law d cdb timeout retries :
  let '(d', _) := sim_execute_req d cdb DMA_NONE [] timeout retries in
  forall x, sim_media d' x = sim_media d x.
Proof. unfold sim_execute_req. by destruct (gone d). Qed.

#[global] Instance simdisk_block : BlockDevice simdisk := {
  media := sim_media;
  media_len := sim_media_len;
  execute_read10 := sim_read_law;
  execute_write10 := sim_write_law;
  execute_req_nodata := sim_nodata_law
}.

(** An empty disk. *)
Definition blank_disk : simdisk := mkDisk ∅ [] [] false.
