(* ===== verification/Log.v ===== *)
(** * drivers/scsi/swap/log.c: the event log

    A ring of 512 items of 32 bytes, mirrored in 32 sectors of the reserved area,
    with a head sector that holds the ring's counters under a CRC.  The functions
    follow log.c; [log_ok] is the invariant the swap core keeps, [wp_log_push] the
    specification it uses.  The results describe what a push does to the ring and
    to the disk, that the counters written are the counters loaded at the next
    start, and where the code departs from its intention: the data sector that is
    written and the bytes the item CRC covers. *)

From stdpp Require Import base gmap list list_numbers.
From coqutil Require Import Byte Word.LittleEndianList.
From Stdlib Require Import ZArith Lia.
From S2P Require Import Prelude Kapi Crc32 Ring Layout State Scsi Fmt SimDisk.

Local Open Scope Z_scope.

(** ** log.h *)

Inductive LOG_TYPE := LOG_TYPE_CREATE | LOG_TYPE_FIX | LOG_TYPE_CRC_FAILED.
Definition log_type_val (t : LOG_TYPE) : Z :=
  match t with LOG_TYPE_CREATE => 0 | LOG_TYPE_FIX => 1 | LOG_TYPE_CRC_FAILED => 2 end.

Definition LOG_FAILED_CREATE_MAXCOUNT : Z := 0.
Definition LOG_FAILED_CREATE_MALLOC : Z := 1.
Definition LOG_FAILED_CREATE_WRITE_DST : Z := 2.
Definition LOG_FAILED_CREATE_FLUSH_HEAD : Z := 3.

Definition LOG_SUCCESS : Z := 0.
Definition LOG_FAILED : Z := 1.
Definition LOG_RESULT (fail_reason : Z) : Z :=
  if fail_reason =? -1 then LOG_SUCCESS else Z.lor LOG_FAILED (Z.shiftl fail_reason 1).

(** ** Items *)

Definition LOG_CRC32_INIT : Z := 0xffffffff.
Definition LOG_MAX_SECTOR_NUM : Z := 32.
Definition LOG_ITEM_SIZE : Z := 32.
Definition LOG_COUNT_PER_SECTOR : Z := SECTOR_SIZE / LOG_ITEM_SIZE.

Record scsi_swap_log_item := mkItem {
  i_crc : Z;          (* u32 *)
  i_time : Z;         (* u32 *)
  sec_src : Z;        (* u64 *)
  sec_dst : Z;        (* u64 *)
  sec_count : Z;      (* u16 *)
  i_type : Z;         (* u8 *)
  i_result : Z;       (* u8 *)
  reboot_count : Z;   (* u8 *)
  fix_count : Z;      (* u8 *)
  curr_count : Z;     (* u8 *)
  i_reserved : Z      (* u8 *)
}.

Definition encode_item (i : scsi_swap_log_item) : bytes :=
  le_split 4 (i_crc i) ++ le_split 4 (i_time i) ++ le_split 8 (sec_src i)
  ++ le_split 8 (sec_dst i) ++ le_split 2 (sec_count i) ++ le_split 1 (i_type i)
  ++ le_split 1 (i_result i) ++ le_split 1 (reboot_count i) ++ le_split 1 (fix_count i)
  ++ le_split 1 (curr_count i) ++ le_split 1 (i_reserved i).

Definition decode_item (b : bytes) : scsi_swap_log_item := {|
  i_crc := le_combine (slice 0 4 b);
  i_time := le_combine (slice 4 4 b);
  sec_src := le_combine (slice 8 8 b);
  sec_dst := le_combine (slice 16 8 b);
  sec_count := le_combine (slice 24 2 b);
  i_type := le_combine (slice 26 1 b);
  i_result := le_combine (slice 27 1 b);
  reboot_count := le_combine (slice 28 1 b);
  fix_count := le_combine (slice 29 1 b);
  curr_count := le_combine (slice 30 1 b);
  i_reserved := le_combine (slice 31 1 b)
|}.

Definition item_with_crc (z : Z) (i : scsi_swap_log_item) : scsi_swap_log_item :=
  mkItem z (i_time i) (sec_src i) (sec_dst i) (sec_count i) (i_type i) (i_result i)
    (reboot_count i) (fix_count i) (curr_count i) (i_reserved i).

(** ** Checksums *)

Definition encode_log_head (h : scsi_swap_log_head) : bytes :=
  le_split 4 (log_crc h) ++ le_split 2 (log_item_num h) ++ le_split 2 (log_item_next h).
Definition decode_log_head (b : bytes) : scsi_swap_log_head :=
  mkLogHead (le_combine (slice 0 4 b)) (le_combine (slice 4 2 b)) (le_combine (slice 6 2 b)).

Definition scsi_swap_log_crc_head (h : scsi_swap_log_head) : Z :=
  swap_crc32 LOG_CRC32_INIT (slice 4 4 (encode_log_head h)) (8 - 4).

Definition scsi_swap_log_crc_item (i : scsi_swap_log_item) : Z :=
  swap_crc32 LOG_CRC32_INIT (slice 4 28 (encode_item i)) (LOG_ITEM_SIZE - 4).

(** ** Operations *)

Section Ops.
Context {D : Type} `{ScsiLower D}.

Definition upd_ring (r : cspring) : K (st D) unit :=
  kmod (fun s => set_log (mkLog (log_head (log s)) (Some r)
                            (log_sector_head (log s)) (log_sector_data (log s))) s).
Definition upd_log_head (h : scsi_swap_log_head) : K (st D) unit :=
  kmod (fun s => set_log (mkLog h (ring (log s))
                            (log_sector_head (log s)) (log_sector_data (log s))) s).
Definition get_ring : K (st D) cspring := s ← kget; kderef NullDeref (ring (log s)).

Definition scsi_swap_log_update_data (item : scsi_swap_log_item) : K (st D) Z :=
  r ← get_ring;
  x ← cspring_push r (encode_item item);
  let '(r', start) := x in
  upd_ring r';;
  let i_sector := start / SECTOR_SIZE in
  s ← kget;
  let sector := u64 (log_sector_data (log s) + i_sector) in
  data ← kload i_sector SECTOR_SIZE (buffer r');   (* data = base + i_sector *)
  hd_write_sector_no_retry sector 1 (Some data) SECTOR_SIZE.

Definition scsi_swap_log_update_head : K (st D) Z :=
  r ← get_ring;
  s ← kget;
  let h := mkLogHead (log_crc (log_head (log s))) (u16 (item_num r)) (u16 (item_next r)) in
  let h := mkLogHead (scsi_swap_log_crc_head h) (log_item_num h) (log_item_next h) in
  upd_log_head h;;
  buf ← kstore 0 (encode_log_head h) (fill SECTOR_SIZE Byte.x00);
  hd_write_sector_no_retry (log_sector_head (log s)) 1 (Some buf) SECTOR_SIZE.

Definition scsi_swap_log_peek (idx : Z) : K (st D) (option scsi_swap_log_item) :=
  r ← get_ring;
  if (idx <? 0) || (item_num r <=? idx) then mret None else
  b ← kload (cspring_peek r idx) (item_size r) (buffer r);
  mret (Some (decode_item b)).

Definition scsi_swap_log_last : K (st D) (option scsi_swap_log_item) :=
  r ← get_ring;
  let num := item_num r in
  if num =? 0 then mret None else scsi_swap_log_peek (num - 1).

Definition scsi_swap_log_load : K (st D) Z :=
  s ← kget;
  x ← hd_read_sector_no_retry (log_sector_head (log s)) 1
        (Some (fill SECTOR_SIZE Byte.x00)) SECTOR_SIZE;
  let '(ret, buf) := x in
  if ret =? -1 then mret (-1) else
  let h := decode_log_head (slice 0 8 buf) in
  upd_log_head h;;
  let crc := scsi_swap_log_crc_head h in
  if negb (log_crc h =? crc) then mret (-1) else
  r ← get_ring;
  let len := LOG_MAX_SECTOR_NUM * LOG_COUNT_PER_SECTOR * LOG_ITEM_SIZE in
  s ← kget;
  y ← hd_read_sector_no_retry (log_sector_data (log s)) LOG_MAX_SECTOR_NUM
        (Some (buffer r)) len;
  let '(ret, b) := y in
  upd_ring (mkRing (item_cap r) (item_size r) (item_num r) (item_next r) b);;
  mret ret.

(** The ring is published before the load, so a failed load leaves it in place
    and empty; the return value is ignored by [scsi_swap_init]. *)
Definition scsi_swap_log_init (head data : Z) : K (st D) Z :=
  r ← cspring_create LOG_ITEM_SIZE (LOG_MAX_SECTOR_NUM * LOG_COUNT_PER_SECTOR);
  kmod (fun s => set_log (mkLog (log_head (log s)) r
                            (log_sector_head (log s)) (log_sector_data (log s))) s);;
  match r with
  | None => mret (-1)
  | Some _ =>
      kmod (fun s => set_log (mkLog (log_head (log s)) (ring (log s)) head data) s);;
      ret ← scsi_swap_log_load;
      if ret =? -1 then mret (-1) else
      r ← get_ring;
      s ← kget;
      upd_ring (mkRing (item_cap r) (item_size r) (log_item_num (log_head (log s)))
                  (log_item_next (log_head (log s))) (buffer r));;
      mret 0
  end.

(** [cspring_destroy] frees the ring; the pointer in the log is left behind, and
    the whole handler is freed next. *)
Definition scsi_swap_log_destroy : K (st D) Z :=
  kmod (fun s => set_log (mkLog (log_head (log s)) None
                            (log_sector_head (log s)) (log_sector_data (log s))) s);;
  mret 0.

Definition scsi_swap_log_item_init (type : LOG_TYPE) (result src dst count : Z)
    : K (st D) scsi_swap_log_item :=
  s ← kget;
  let item := mkItem 0 (u32 (clock s)) 0 0 0 0 0 0 0 0 0 in
  last ← scsi_swap_log_last;
  let item :=
    match last with
    | Some l => mkItem 0 (i_time item) 0 0 0 0 0 (reboot_count l) (fix_count l) (curr_count l) 0
    | None => item
    end in
  let item := mkItem 0 (i_time item) 0 0 0 0 0 (reboot_count item) (fix_count item)
                (u8 (curr_count item + 1)) 0 in
  let crc := scsi_swap_log_crc_item item in
  mret (mkItem crc (i_time item) (u64 src) (u64 dst) (u16 count) (log_type_val type)
          (u8 result) (reboot_count item) (fix_count item) (curr_count item) 0).

Definition scsi_swap_log_push (type : LOG_TYPE) (result src dst count : Z) : K (st D) Z :=
  item ← scsi_swap_log_item_init type result src dst count;
  ret ← scsi_swap_log_update_data item;
  if ret =? -1 then mret (-1) else
  ret ← scsi_swap_log_update_head;
  if ret =? -1 then mret (-1) else
  mret 0.

(** One line of [scsi_swap_log_show]. *)
Definition log_line (i : scsi_swap_log_item) : bytes :=
  fields [i_time i; sec_src i; sec_dst i; sec_count i; i_type i; i_result i;
          reboot_count i; fix_count i; curr_count i].

(** [while ((item = scsi_swap_log_peek(log, i++)))]: the items from index [i] on. *)
Fixpoint peek_from (fuel : nat) (i : Z) : K (st D) (list scsi_swap_log_item) :=
  match fuel with
  | O => kfail Hang
  | S f =>
      o ← scsi_swap_log_peek i;
      match o with
      | None => mret []
      | Some it => rest ← peek_from f (i + 1); mret (it :: rest)
      end
  end.

(** [item_num] comes from a u16 of the disk or from the ring, so it is below 65536;
    collecting the lines first and cutting the page afterwards is the same as
    stopping at the line that does not fit, because peeking changes nothing. *)
Definition scsi_swap_log_show : K (st D) (bytes * Z) :=
  items ← peek_from (Z.to_nat 65537) 0;
  mret (show_page 256 (log_line <$> items)).
End Ops.

(** ** Invariant and specifications *)

(** The reserved area starts at a sector such that all of it can be addressed by
    READ(10)/WRITE(10). *)
Definition reserve_ok {D} (s : st D) : Prop :=
  0 <= sector_reserve_start (core s) /\
  sector_reserve_start (core s) + MAX_RESERVED_SECTOR <= 2 ^ 32.

Definition log_ok {D} (s : st D) : Prop :=
  exists r, ring (log s) = Some r /\ ring_wf r /\ item_cap r = 512 /\ item_size r = 32 /\
    log_sector_head (log s) = sector_reserve_start (core s) + SWAP_LOG_HEAD_OFFSET /\
    log_sector_data (log s) = sector_reserve_start (core s) + SWAP_LOG_DATA_OFFSET.

(** The sectors of the log, given where the reserved area starts. *)
Definition log_area (rs x : Z) : Prop :=
  between (rs + SWAP_LOG_HEAD_OFFSET) (rs + SWAP_LOG_HEAD_OFFSET + 1) x \/
  between (rs + SWAP_LOG_DATA_OFFSET) (rs + SWAP_LOG_DATA_OFFSET + LOG_MAX_SECTOR_NUM) x.

(** Nothing of the swap core moved but the count of fatal errors. *)
Definition core_io {D} (s s' : st D) : Prop :=
  core s' = core_dead (device_dead (core s')) (core s) /\ infos s' = infos s.

Lemma zlen_encode_item i : zlen (encode_item i) = 32.
Proof. unfold encode_item. rewrite !zlen_app, !zlen_le_split. done. Qed.

Lemma zlen_encode_log_head h : zlen (encode_log_head h) = 8.
Proof. unfold encode_log_head. rewrite !zlen_app, !zlen_le_split. done. Qed.

Section CoreIo.
Context {D : Type}.
Implicit Types s : st D.

Lemma core_io_refl s : core_io s s.
Proof. split; [|done]. by destruct (core s). Qed.

Lemma core_io_trans s1 s2 s3 : core_io s1 s2 -> core_io s2 s3 -> core_io s1 s3.
Proof. intros [E1 F1] [E2 F2]. split; [|congruence]. rewrite E2, E1. done. Qed.

Lemma core_io_view s s' : core_io s s' -> view_of s' = view_of s.
Proof. intros [E F]. unfold view_of, geom. rewrite E, F. done. Qed.

Lemma core_io_set_log l s : core_io s (set_log l s).
Proof. split; [|done]. cbn. by destruct (core s). Qed.

Lemma core_io_reserve s s' :
  core_io s s' -> sector_reserve_start (core s') = sector_reserve_start (core s).
Proof. intros [E _]. by rewrite E. Qed.
End CoreIo.

Section LogSpecs.
Context {D : Type} `{BlockDevice D}.
Implicit Types s : st D.

Lemma io_core_io s s' : io s s' -> core_io s s'.
Proof. unfold io. intros E. split; rewrite E; done. Qed.

Lemma wp_get_ring r (Q : cspring -> st D -> Prop) s :
  ring (log s) = Some r -> Q r s -> wp get_ring Q s.
Proof. intros E HQ. unfold get_ring. do 2 kstep. by eapply wp_deref. Qed.

(** Peeking reads the abstract content of the ring. *)
Lemma wp_log_peek r idx (Q : option scsi_swap_log_item -> st D -> Prop) s :
  ring (log s) = Some r -> ring_wf r ->
  Q (if decide (0 <= idx) then decode_item <$> ring_items r !! Z.to_nat idx else None) s ->
  wp (scsi_swap_log_peek idx) Q s.
Proof.
  intros E Hwf HQ. unfold scsi_swap_log_peek. kstep. apply (wp_get_ring r); [done|].
  destruct (Z.ltb_spec idx 0) as [Hneg|Hpos]; cbn [orb].
  { kstep. by rewrite decide_False in HQ by lia. }
  rewrite decide_True in HQ by lia.
  destruct (Z.leb_spec (item_num r) idx) as [Hge|Hlt].
  - kstep. rewrite lookup_ge_None_2 in HQ; [done|].
    unfold ring_items. rewrite length_fmap, length_seqZ. lia.
  - pose proof Hwf as ((_ & Hs & _) & Hnc & _). pose proof (peek_in_range r idx Hwf ltac:(lia)).
    kstep. apply wp_load; [lia..|]. kstep.
    unfold ring_items in HQ. rewrite list_lookup_fmap, lookup_seqZ_lt in HQ by lia.
    cbn [fmap option_fmap option_map] in HQ. rewrite Z2Nat.id, Z.add_0_l in HQ by lia. done.
Qed.

(** The item a push stores, from the clock and the newest item of the log. *)
Definition log_item_of (clk : Z) (last : option scsi_swap_log_item)
    (type : LOG_TYPE) (result src dst count : Z) : scsi_swap_log_item :=
  let base := default (mkItem 0 0 0 0 0 0 0 0 0 0 0) last in
  let seed := mkItem 0 (u32 clk) 0 0 0 0 0 (reboot_count base) (fix_count base)
                (u8 (curr_count base + 1)) 0 in
  mkItem (scsi_swap_log_crc_item seed) (u32 clk) (u64 src) (u64 dst) (u16 count)
    (log_type_val type) (u8 result) (reboot_count base) (fix_count base)
    (u8 (curr_count base + 1)) 0.

Lemma ring_items_last r :
  ring_wf r ->
  last (ring_items r)
  = if item_num r =? 0 then None else ring_items r !! Z.to_nat (item_num r - 1).
Proof.
  intros (_ & Hn & _). rewrite last_lookup.
  replace (length (ring_items r)) with (Z.to_nat (item_num r))
    by (unfold ring_items; by rewrite length_fmap, length_seqZ).
  destruct (Z.eqb_spec (item_num r) 0) as [E|E].
  - unfold ring_items. by rewrite E.
  - f_equal. lia.
Qed.

Lemma wp_item_init r type result src dst count Q s :
  ring (log s) = Some r -> ring_wf r ->
  Q (log_item_of (clock s) (decode_item <$> last (ring_items r))
       type result src dst count) s ->
  wp (scsi_swap_log_item_init type result src dst count) Q s.
Proof.
  intros E Hwf HQ. rewrite ring_items_last in HQ by done.
  unfold scsi_swap_log_item_init, scsi_swap_log_last. do 2 kstep. kstep. kstep.
  apply (wp_get_ring r); [done|]. pose proof Hwf as (_ & Hn & _).
  destruct (Z.eqb_spec (item_num r) 0).
  - do 2 kstep. exact HQ.
  - apply (wp_log_peek r); [done..|]. rewrite decide_True by lia.
    destruct (ring_items r !! Z.to_nat (item_num r - 1)) as [b|] eqn:Eb; kstep; exact HQ.
Qed.

(** The sector of the log data the slot of the next push lies in. *)
Definition push_sector (r : cspring) : Z := item_next r * item_size r / SECTOR_SIZE.

Lemma push_sector_range r :
  ring_wf r -> item_cap r = 512 -> item_size r = 32 -> 0 <= push_sector r < 32.
Proof.
  intros (_&_&Hx&_) Hc Hs. unfold push_sector, SECTOR_SIZE. rewrite Hs.
  split; [apply Z.div_pos; lia|apply Z.div_lt_upper_bound; lia].
Qed.

Lemma wp_update_data r it s :
  reserve_ok s -> ring (log s) = Some r -> ring_wf r -> item_cap r = 512 -> item_size r = 32 ->
  log_sector_data (log s) = sector_reserve_start (core s) + SWAP_LOG_DATA_OFFSET ->
  wp (scsi_swap_log_update_data it)
     (fun ret s' =>
        log s' = mkLog (log_head (log s)) (Some (pushed r (encode_item it)))
                   (log_sector_head (log s)) (log_sector_data (log s)) /\
        core_io s s' /\ touches (log_area (sector_reserve_start (core s))) s s' /\
        (ret = 0 \/ ret = -1) /\
        (ret = 0 -> media (dev s') (log_sector_data (log s) + push_sector r)
           = slice (push_sector r) 512 (buffer (pushed r (encode_item it))))) s.
Proof.
  intros Hres Er Hwf Hc Hs Hsd. pose proof (push_sector_range r Hwf Hc Hs) as Hps.
  pose proof (pushed_wf r (encode_item it) Hwf) as Hwf'.
  rewrite zlen_encode_item, Hs in Hwf'. specialize (Hwf' eq_refl).
  assert (zlen (buffer (pushed r (encode_item it))) = 16384) as Hblen.
  { rewrite ring_storage by done.
    change (item_cap (pushed r (encode_item it))) with (item_cap r).
    change (item_size (pushed r (encode_item it))) with (item_size r). lia. }
  unfold scsi_swap_log_update_data. kstep. apply (wp_get_ring r); [done|].
  kstep. unfold wp at 1. rewrite cspring_push_eq by (done || by rewrite zlen_encode_item).
  unfold upd_ring. do 4 kstep. fold (push_sector r). kstep. unfold SECTOR_SIZE.
  apply wp_load; [lia..|].
  unfold reserve_ok, MAX_RESERVED_SECTOR, SECTOR_1M in Hres. cbn [log set_log].
  cbn [log_sector_data]. rewrite u64_small
    by (rewrite Hsd; unfold SWAP_LOG_DATA_OFFSET, SWAP_LOG_HEAD_OFFSET,
          SWAP_TABLE_BACKUP_OFFSET, SWAP_LOG_TOTAL_SECTOR, MAX_RESERVED_SECTOR, SECTOR_1M, SECTOR_8M; lia).
  eapply wp_mono; [apply wp_hd_write|].
  - rewrite Hsd; unfold SWAP_LOG_DATA_OFFSET, SWAP_LOG_HEAD_OFFSET,
      SWAP_TABLE_BACKUP_OFFSET, SWAP_LOG_TOTAL_SECTOR, MAX_RESERVED_SECTOR, SECTOR_1M, SECTOR_8M; lia.
  - lia.
  - done.
  - rewrite zlen_slice; lia.
  - cbv beta. intros ret s' (Hio & Ht & Hret & Hok). split_and!.
    + by rewrite (io_log _ _ Hio).
    + eapply core_io_trans; [apply core_io_set_log|by apply io_core_io].
    + intros x Hx. rewrite Ht; [done|]. intros Hb. apply Hx. right. unfold between in *.
      rewrite Hsd in Hb. unfold LOG_MAX_SECTOR_NUM. lia.
    + done.
    + intros E0. specialize (Hok E0 0 ltac:(lia)). rewrite Z.add_0_r in Hok. rewrite Hok.
      rewrite slice_slice by lia. f_equal. lia.
Qed.

(** The head a push leaves: the ring's counters under their CRC. *)
Definition log_head_of (r : cspring) : scsi_swap_log_head :=
  mkLogHead (scsi_swap_log_crc_head (mkLogHead 0 (u16 (item_num r)) (u16 (item_next r))))
    (u16 (item_num r)) (u16 (item_next r)).

(** A head sector: the head and zeros. *)
Definition log_head_sector (h : scsi_swap_log_head) : bytes :=
  splice 0 (encode_log_head h) (fill SECTOR_SIZE Byte.x00).

Lemma crc_head_ignores_crc c c' n x :
  scsi_swap_log_crc_head (mkLogHead c n x) = scsi_swap_log_crc_head (mkLogHead c' n x).
Proof.
  unfold scsi_swap_log_crc_head, encode_log_head. cbn [log_crc log_item_num log_item_next].
  by rewrite !(slice_app_skip 4 4 4) by (by rewrite ?zlen_le_split || lia).
Qed.

Lemma wp_update_head r s :
  reserve_ok s -> ring (log s) = Some r ->
  log_sector_head (log s) = sector_reserve_start (core s) + SWAP_LOG_HEAD_OFFSET ->
  wp scsi_swap_log_update_head
     (fun ret s' =>
        log s' = mkLog (log_head_of r) (Some r) (log_sector_head (log s)) (log_sector_data (log s)) /\
        core_io s s' /\ touches (log_area (sector_reserve_start (core s))) s s' /\
        (forall x, x <> log_sector_head (log s) -> media (dev s') x = media (dev s) x) /\
        (ret = 0 \/ ret = -1) /\
        (ret = 0 -> media (dev s') (log_sector_head (log s)) = log_head_sector (log_head_of r))) s.
Proof.
  intros Hres Er Hsh.
  assert (0 <= log_sector_head (log s) < 2 ^ 32) as Hrange.
  { unfold reserve_ok in Hres. rewrite Hsh. unfold SWAP_LOG_HEAD_OFFSET,
      SWAP_TABLE_BACKUP_OFFSET, SWAP_LOG_TOTAL_SECTOR, MAX_RESERVED_SECTOR, SECTOR_1M, SECTOR_8M in *. lia. }
  unfold scsi_swap_log_update_head. kstep. apply (wp_get_ring r); [done|]. do 2 kstep.
  cbn [log_crc log_item_num log_item_next].
  rewrite (crc_head_ignores_crc (log_crc (log_head (log s))) 0).
  fold (log_head_of r). unfold upd_log_head. do 3 kstep.
  assert (zlen (fill SECTOR_SIZE Byte.x00) = 512) as Hfill by (by apply zlen_fill).
  apply wp_store; [lia|rewrite zlen_encode_log_head; lia|]. fold (log_head_sector (log_head_of r)).
  eapply wp_mono; [apply wp_hd_write; [lia|lia|done|]|].
  - unfold log_head_sector. rewrite zlen_splice; [done|lia|rewrite zlen_encode_log_head; lia].
  - cbv beta. intros ret s' (Hio & Ht & Hret & Hok). split_and!.
    + rewrite (io_log _ _ Hio). cbn. by rewrite Er.
    + eapply core_io_trans; [apply core_io_set_log|by apply io_core_io].
    + intros x Hx. rewrite Ht; [done|]. intros Hb. apply Hx. left. rewrite <- Hsh. exact Hb.
    + intros x Hx. rewrite Ht; [done|]. unfold between. lia.
    + done.
    + intros E0. specialize (Hok E0 0 ltac:(lia)). rewrite Z.add_0_r in Hok. rewrite Hok.
      apply slice_last. unfold log_head_sector.
      rewrite zlen_splice; [done|lia|rewrite zlen_encode_log_head; lia].
Qed.

(** What a push does, on every path. *)
Lemma wp_log_push_full type result src dst count s :
  reserve_ok s -> log_ok s ->
  wp (scsi_swap_log_push type result src dst count)
     (fun ret s' => exists r it,
        ring (log s) = Some r /\
        it = log_item_of (clock s) (decode_item <$> last (ring_items r))
               type result src dst count /\
        ring (log s') = Some (pushed r (encode_item it)) /\
        log_ok s' /\ core_io s s' /\
        touches (log_area (sector_reserve_start (core s))) s s' /\
        (ret = 0 \/ ret = -1) /\
        (ret = 0 ->
           media (dev s') (log_sector_head (log s))
             = log_head_sector (log_head_of (pushed r (encode_item it))) /\
           media (dev s') (log_sector_data (log s) + push_sector r)
             = slice (push_sector r) 512 (buffer (pushed r (encode_item it))))) s.
Proof.
  intros Hres (r & Er & Hwf & Hc & Hs & Hsh & Hsd). unfold scsi_swap_log_push.
  kstep. apply (wp_item_init r); [done..|].
  set (it := log_item_of _ _ _ _ _ _ _).
  assert (ring_wf (pushed r (encode_item it))) as Hwf'
    by (apply pushed_wf; [done|by rewrite zlen_encode_item]).
  pose proof (push_sector_range r Hwf Hc Hs) as Hps.
  kstep. eapply wp_mono; [apply (wp_update_data r it); done|].
  cbv beta. intros ret s1 (El & Hcio & Ht & Hret & Hok).
  assert (forall s2, core_io s s2 -> ring (log s2) = Some (pushed r (encode_item it)) ->
     log_sector_head (log s2) = log_sector_head (log s) ->
     log_sector_data (log s2) = log_sector_data (log s) -> log_ok s2) as Hlog.
  { intros s2 Hc2 Hr2 Hh2 Hd2. exists (pushed r (encode_item it)).
    rewrite Hh2, Hd2, (core_io_reserve _ _ Hc2). split_and!; done. }
  destruct (Z.eqb_spec ret (-1)) as [->|Hne].
  { kstep. exists r, it. split_and!; [done|done|by rewrite El| |done|done|by right|done].
    apply Hlog; [done|by rewrite El..]. }
  destruct Hret as [->|]; [|done]. specialize (Hok eq_refl).
  kstep. eapply wp_mono; [apply (wp_update_head (pushed r (encode_item it)))|].
  - unfold reserve_ok. by rewrite (core_io_reserve _ _ Hcio).
  - by rewrite El.
  - rewrite El. cbn. by rewrite (core_io_reserve _ _ Hcio).
  - cbv beta. rewrite El. cbn [log_sector_head log_sector_data].
    rewrite (core_io_reserve _ _ Hcio).
    intros ret s2 (El2 & Hcio2 & Ht2 & Hfr & Hret & Hok2).
    assert (core_io s s2) as Hc2 by (by eapply core_io_trans).
    assert (log_ok s2) as Hl2 by (apply Hlog; [done|by rewrite El2..]).
    assert (touches (log_area (sector_reserve_start (core s))) s s2) as Ht3
      by (by eapply touches_trans).
    destruct (Z.eqb_spec ret (-1)) as [->|Hne']; kstep; exists r, it.
    + split_and!; [done|done|by rewrite El2|done|done|done|by right|done].
    + destruct Hret as [->|]; [|done].
      split_and!; [done|done|by rewrite El2|done|done|done|by left|].
      intros _. split; [by apply Hok2|]. rewrite Hfr; [done|].
      rewrite Hsh, Hsd. unfold SWAP_LOG_DATA_OFFSET, SECTOR_1M. lia.
Qed.

Lemma wp_log_push type result src dst count s :
  reserve_ok s -> log_ok s ->
  wp (scsi_swap_log_push type result src dst count)
     (fun _ s' => log_ok s' /\ core_io s s' /\
        touches (log_area (sector_reserve_start (core s))) s s') s.
Proof.
  intros Hres Hlog. eapply wp_mono; [by apply wp_log_push_full|].
  cbv beta. intros ret s' (r & it & _ & _ & _ & ? & ? & ? & _). done.
Qed.
End LogSpecs.

(** ** Round trips *)

Definition item_wf (i : scsi_swap_log_item) : Prop :=
  0 <= i_crc i < 2 ^ 32 /\ 0 <= i_time i < 2 ^ 32 /\ 0 <= sec_src i < 2 ^ 64 /\
  0 <= sec_dst i < 2 ^ 64 /\ 0 <= sec_count i < 2 ^ 16 /\ 0 <= i_type i < 2 ^ 8 /\
  0 <= i_result i < 2 ^ 8 /\ 0 <= reboot_count i < 2 ^ 8 /\ 0 <= fix_count i < 2 ^ 8 /\
  0 <= curr_count i < 2 ^ 8 /\ 0 <= i_reserved i < 2 ^ 8.

Lemma decode_encode_item i : item_wf i -> decode_item (encode_item i) = i.
Proof.
  intros (?&?&?&?&?&?&?&?&?&?&?). unfold decode_item, encode_item.
  pick_field. rewrite !le_split_combine_small by
    (change (Z.of_nat 1) with 1; change (Z.of_nat 2) with 2;
     change (Z.of_nat 4) with 4; change (Z.of_nat 8) with 8; lia).
  by destruct i.
Qed.

Lemma decode_item_counts b :
  zlen b = 32 ->
  0 <= reboot_count (decode_item b) < 2 ^ 8 /\ 0 <= fix_count (decode_item b) < 2 ^ 8.
Proof.
  intros Hb. cbn. split; apply (le_combine_range 1); apply zlen_slice; lia.
Qed.

Lemma crc_item_u32 i : 0 <= scsi_swap_log_crc_item i < 2 ^ 32.
Proof.
  unfold scsi_swap_log_crc_item. pose proof (zlen_encode_item i) as Hl.
  generalize dependent (encode_item i). intros b Hl.
  change (LOG_ITEM_SIZE - 4) with 28.
  assert (zlen (slice 4 28 b) = 28) as Hs by (apply zlen_slice; lia).
  pose proof (swap_crc32_u32 LOG_CRC32_INIT (slice 4 28 b)) as Hu. rewrite Hs in Hu.
  apply Hu. unfold is_u32, LOG_CRC32_INIT. lia.
Qed.

Lemma log_item_of_wf clk (b : option bytes) type result src dst count :
  (forall x, b = Some x -> zlen x = 32) ->
  item_wf (log_item_of clk (decode_item <$> b) type result src dst count).
Proof.
  intros Hb. unfold item_wf, log_item_of.
  cbn [i_crc i_time sec_src sec_dst sec_count i_type i_result reboot_count fix_count
       curr_count i_reserved].
  set (base := default _ _).
  assert (0 <= reboot_count base < 2 ^ 8 /\ 0 <= fix_count base < 2 ^ 8) as [? ?].
  { subst base. destruct b as [x|]; [|cbn; lia]. apply decode_item_counts. by apply Hb. }
  pose proof (crc_item_u32 (mkItem 0 (u32 clk) 0 0 0 0 0 (reboot_count base) (fix_count base)
                (u8 (curr_count base + 1)) 0)) as Hcrc.
  split_and!; try apply Hcrc; try (apply Z.mod_pos_bound; lia); try lia;
    destruct type; unfold log_type_val; lia.
Qed.

Lemma ring_items_zlen r b : ring_wf r -> b ∈ ring_items r -> zlen b = item_size r.
Proof.
  intros Hwf Hin. unfold ring_items in Hin. apply list_elem_of_fmap in Hin as (k & -> & Hk).
  apply elem_of_seqZ in Hk. pose proof Hwf as ((_ & Hs & _) & Hn & _).
  pose proof (peek_in_range r k Hwf ltac:(lia)). apply zlen_slice; lia.
Qed.

Lemma last_bounded_push cap l x : 0 < cap -> last (bounded_push cap l x) = Some x.
Proof.
  intros Hc. unfold bounded_push. rewrite last_lookup, lookup_drop, length_drop.
  rewrite <- (last_snoc x l), last_lookup. f_equal. rewrite length_app. cbn [length].
  unfold zlen in *. lia.
Qed.

(** ** Results *)

(** C37: a push always returns; the ring then holds its old items and the new one,
    less the oldest if it was full; the new item carries the arguments, the time
    and the running counters of the item before it.  When 0 is returned the head
    sector on disk holds the ring's counters under a matching CRC. *)
Theorem log_push_records {D} `{BlockDevice D} (s : st D) type result src dst count :
  reserve_ok s -> log_ok s ->
  wp (scsi_swap_log_push type result src dst count)
     (fun ret s' => exists r r',
        ring (log s) = Some r /\ ring (log s') = Some r' /\ log_ok s' /\
        (let it := log_item_of (clock s) (decode_item <$> last (ring_items r))
                     type result src dst count in
         ring_items r' = bounded_push 512 (ring_items r) (encode_item it) /\
         decode_item <$> last (ring_items r') = Some it) /\
        (ret = 0 \/ ret = -1) /\
        (ret = 0 -> media (dev s') (log_sector_head (log s)) = log_head_sector (log_head_of r'))) s.
Proof.
  intros Hres Hlog. eapply wp_mono; [by apply wp_log_push_full|].
  cbv beta. intros ret s' (r & it & Er & -> & Er' & Hlog' & _ & _ & Hret & Hok).
  destruct Hlog as (r0 & Er0 & Hwf & Hc & Hs & _). rewrite Er in Er0. injection Er0 as <-.
  set (it := log_item_of _ _ _ _ _ _ _) in *.
  assert (ring_items (pushed r (encode_item it))
          = bounded_push 512 (ring_items r) (encode_item it)) as Hitems.
  { rewrite <- Hc. apply ring_items_push; [done|]. by rewrite zlen_encode_item. }
  eexists _, _. split_and!; [done|exact Er'|done| |done|].
  - split; [done|]. rewrite Hitems, last_bounded_push by lia. cbn. f_equal.
    apply decode_encode_item, log_item_of_wf. intros x Hx. rewrite <- Hs.
    eapply ring_items_zlen; [done|]. by apply last_Some_elem_of.
  - intros E0. by apply Hok.
Qed.

(** The log as [scsi_swap_log_init] leaves it on an empty disk. *)
Definition demo_log_state (next : Z) : st simdisk :=
  mkSt blank_disk (mkSdev false false SDEV_RUNNING)
    (mkCore 0 0 0 (decode_head (fill 512 Byte.x00)) [] 0 0
       SWAP_HEAD_OFFEST SWAP_TABLE_OFFSET SWAP_DATA_OFFSET)
    (mkLog (mkLogHead 0 0 0) (Some (mkRing 512 32 0 next (fill 16384 Byte.x00)))
       SWAP_LOG_HEAD_OFFSET SWAP_LOG_DATA_OFFSET)
    ∅ [] 1385000000.

Lemma demo_log_ok next : 0 <= next < 512 -> reserve_ok (demo_log_state next) /\ log_ok (demo_log_state next).
Proof.
  intros Hn. split; [split; vm_compute; congruence|].
  eexists. split; [reflexivity|]. unfold ring_wf, cspring_size. cbn [item_cap item_size item_num
    item_next buffer]. split_and!; try lia; reflexivity.
Qed.

Lemma log_push_records_witness :
  reserve_ok (demo_log_state 16) /\ log_ok (demo_log_state 16) /\
  exists ret s', scsi_swap_log_push LOG_TYPE_CREATE 0 256 49152 128 (demo_log_state 16)
                 = Ok (ret, s') /\ log_ok s'.
Proof.
  destruct (demo_log_ok 16 ltac:(lia)) as [H1 H2]. split; [exact H1|]. split; [exact H2|].
  destruct (wp_inv _ _ _ (log_push_records (demo_log_state 16) LOG_TYPE_CREATE 0 256 49152 128 H1 H2))
    as (ret & s' & E & r & r' & _ & _ & Hl & _).
  exists ret, s'. split; [exact E|exact Hl].
Defined.

(** the CRC of a log item is computed before the addresses, the count, the
    type and the result are filled in, so it does not depend on them. *)
Theorem log_item_crc_skips_payload clk last type type' result result' src src' dst dst' count count' :
  i_crc (log_item_of clk last type result src dst count)
  = i_crc (log_item_of clk last type' result' src' dst' count').
Proof. unfold log_item_of. cbn [i_crc]. reflexivity. Qed.

(** the sector of log data written by a push is taken [i_sector] bytes, not
    [i_sector] sectors, into the ring: for a push into the second sector the call
    succeeds and the item it stored is not on the disk. *)
Theorem log_push_persists_wrong_bytes :
  exists s' r', scsi_swap_log_push LOG_TYPE_CREATE 0 256 49152 128 (demo_log_state 16)
                = Ok (0, s') /\
  ring (log s') = Some r' /\
  sim_media (dev s') (SWAP_LOG_DATA_OFFSET + 1) <> slice 512 512 (buffer r') /\
  sim_media (dev s') (SWAP_LOG_DATA_OFFSET + 1) = slice 1 512 (buffer r').
Proof.
  destruct (demo_log_ok 16 ltac:(lia)) as [H1 H2].
  pose proof (wp_log_push_full LOG_TYPE_CREATE 0 256 49152 128 (demo_log_state 16) H1 H2) as Hw.
  destruct (wp_inv _ _ _ Hw) as (ret & s' & E & r & it & Er & -> & Er' & _ & _ & _ & Hret & Hok).
  injection Er as <-. set (it := log_item_of _ _ _ _ _ _ _) in *.
  assert (ret = 0) as ->.
  { assert (match scsi_swap_log_push LOG_TYPE_CREATE 0 256 49152 128 (demo_log_state 16) with
            | Ok (r, _) => r =? 0 | Oops _ => false end = true) as Hr by (vm_compute; reflexivity).
    rewrite E in Hr. by apply Z.eqb_eq. }
  destruct (Hok eq_refl) as [_ Hdata]. eexists s', _. split; [exact E|]. split; [exact Er'|].
  change (log_sector_data (log (demo_log_state 16)) + push_sector _)
    with (SWAP_LOG_DATA_OFFSET + 1) in Hdata.
  change (push_sector _) with 1 in Hdata. change (media (dev s')) with (sim_media (dev s')) in Hdata.
  split; [|exact Hdata]. rewrite Hdata. intros Heq.
  apply (f_equal (fun l : bytes => nth 4 l Byte.x00)) in Heq.
  vm_compute in Heq. discriminate.
Qed.
