(* ===== verification/Core.v ===== *)
(** * drivers/scsi/swap/core.c: the swap core, operations

    Every function of core.c, in the order of the file, on the state of State.v.
    Pointers to [swap_info] objects are keys of the [infos] heap, so the info
    list, the caller and the table flush share one object, and a freed or NULL
    object faults.  C loops whose bound is not a constant carry fuel and fault
    with [Hang] when it runs out; CoreSpec.v shows that they never do.  Locks are
    not part of the state: one work item per device runs at a time. *)

From stdpp Require Import base gmap fin_maps list list_numbers.
From coqutil Require Import Byte Word.LittleEndianList.
From Stdlib Require Import ZArith Lia.
From S2P Require Import Prelude Kapi Crc32 Ring Layout State Scsi Fmt Log.

Local Open Scope Z_scope.

(** ** Strings *)

(** [strncpy(dst, lit, n)]: pads with NULs, writes no terminator at full length. *)
Definition strncpy (dst lit : bytes) (n : Z) : bytes :=
  splice 0 (take (Z.to_nat n) (lit ++ fill n Byte.x00)) dst.

(** [strncmp(a, lit, n) == 0] for a string literal [lit]. *)
Fixpoint strncmp_eq (a lit : bytes) (n : nat) : bool :=
  match n with
  | O => true
  | S n' =>
      let x := default Byte.x00 (a !! 0%nat) in
      let y := default Byte.x00 (lit !! 0%nat) in
      if negb (Byte.eqb x y) then false
      else if Byte.eqb x Byte.x00 then true
      else strncmp_eq (tail a) (tail lit) n'
  end.

(** ** Enumerations *)

Inductive swap_head_state :=
  | HEAD_OK | HEAD_EMPTY | HEAD_BROKEN | HEAD_INVALID | HEAD_FAIL | UNKNOWN.
#[global] Instance swap_head_state_eq_dec : EqDecision swap_head_state.
Proof. solve_decision. Defined.

Inductive swap_table_sync := NO_NEED_SYNC | MASTER_NEED_SYNC | BACKUP_NEED_SYNC.

(** ** Arithmetic and bitmap *)

Definition get_swap_block_count (start count : Z) : Z :=
  let nlen := s32 (start + count - SWAP_SECTOR_ALIGN start) in
  Z.quot nlen SECTOR_NUM_PER_SWAP_BLOCK
  + (if Z.rem nlen SECTOR_NUM_PER_SWAP_BLOCK =? 0 then 0 else 1).

(** Bit [nbit] of the bitmap: little-endian words of 32 bits. *)
Definition bit_of (map : list Z) (nbit : Z) : bool :=
  Z.testbit (default 0 (map !! Z.to_nat (nbit / 32))) (nbit mod 32).

Definition swap_bitmap_set_bit (map : list Z) (nbit val : Z) : list Z :=
  alter (fun w => if val =? 0 then Z.clearbit w (nbit mod 32)
                  else Z.setbit w (nbit mod 32)) (Z.to_nat (nbit / 32)) map.

(** [find_first_zero_bit(map, size)]: [size] when all bits are set. *)
Fixpoint find_zero_from (n : nat) (i : Z) (map : list Z) : Z :=
  match n with
  | O => i
  | S n' => if bit_of map i then find_zero_from n' (i + 1) map else i
  end.
Definition find_first_zero_bit (map : list Z) (size : Z) : Z :=
  find_zero_from (Z.to_nat size) 0 map.

Definition swap_head_bitmap_get_first_zero_bit (h : swap_head) : Z :=
  let nbits := SWAP_HEAD_BITMAP_LEN * 4 * 8 in
  let nbit := find_first_zero_bit (bitmap h) nbits in
  if s32 nbit =? nbits then -1 else s32 nbit.

(** ** Fields of a [swap_info] *)

Definition info_with_data (d : option bytes) (i : swap_info) : swap_info :=
  mkInfo (table i) d.
Definition table_with_save (z : Z) (t : swap_table) : swap_table :=
  mkTable (src_sec t) (swap_sec t) (sec_size t) (retrys t) (index t) (reserverd t)
    (checksum t) z.
Definition table_with_index (idx sec : Z) (t : swap_table) : swap_table :=
  mkTable (src_sec t) sec (sec_size t) (retrys t) idx (reserverd t) (checksum t) (save_sec t).
Definition table_with_crc (z : Z) (t : swap_table) : swap_table :=
  mkTable (src_sec t) (swap_sec t) (sec_size t) (retrys t) (index t) (reserverd t) z (save_sec t).

Definition swap_head_valid (h : swap_head) : bool := strncmp_eq (status h) str_valid 5.
Definition swap_head_invalid (h : swap_head) : bool := strncmp_eq (status h) str_invalid 7.
Definition swap_head_exist (h : swap_head) : bool := strncmp_eq (head_string h) SWAP_HEAD_STRING 6.
Definition scsi_swap_check (h : swap_head) : Z := crc_of_head h.

(** The part of [swap_get_head_state] after a successful read. *)
Definition head_state_of (h : swap_head) : swap_head_state :=
  if negb (swap_head_exist h) then HEAD_EMPTY
  else if swap_head_invalid h then HEAD_INVALID
  else if swap_head_valid h then
    if negb (scsi_swap_check h =? head_checksum h) then HEAD_BROKEN else HEAD_OK
  else HEAD_BROKEN.

Definition sizeof_swap_info : Z := 112.

(** How the first attempt on an unmapped block of a request ends: the block is
    done, it has to be repaired, or the device is gone. *)
Inductive attempt := DONE | REPAIR | DEAD.
#[global] Instance attempt_eq_dec : EqDecision attempt.
Proof. solve_decision. Defined.

Section Ops.
Context {D : Type} `{ScsiLower D}.

(** ** Access to the state *)

Definition upd_head (f : swap_head -> swap_head) : K (st D) unit :=
  kmod (fun s => upd_core (core_head (f (head (core s)))) s).
Definition set_bit (nbit val : Z) : K (st D) unit :=
  if (0 <=? nbit) && (nbit <? SWAP_HEAD_BITMAP_LEN * 32)
  then upd_head (fun h => head_with_bitmap (swap_bitmap_set_bit (bitmap h) nbit val) h)
  else kfail OutOfBounds.
Definition is_dead : K (st D) bool := s ← kget; mret (c_true (device_dead (core s))).
Definition info_data (p : ptr) : K (st D) bytes :=
  i ← get_info p; kderef NullDeref (data i).

(** Read [n] sectors into [info->data + off] with one of the [hd_read_sector_*]. *)
Definition info_read (rd : Z -> Z -> option bytes -> Z -> K (st D) (Z * bytes))
    (p : ptr) (off sector n : Z) : K (st D) Z :=
  i ← get_info p;
  match data i with
  | None => if off =? 0 then x ← rd sector n None (n * SECTOR_SIZE); mret (fst x)
            else kfail NullDeref
  | Some d =>
      b ← kload off (n * SECTOR_SIZE) d;
      x ← rd sector n (Some b) (n * SECTOR_SIZE);
      d' ← kstore off (snd x) d;
      set_info p (info_with_data (Some d') i);;
      mret (fst x)
  end.

(** [memcpy(info->data + off, new, ..)] *)
Definition info_store (p : ptr) (off : Z) (new : bytes) : K (st D) unit :=
  i ← get_info p;
  d ← kderef NullDeref (data i);
  d' ← kstore off new d;
  set_info p (info_with_data (Some d') i).

(** ** Flushing *)

Definition flush_swap_info_data (p : ptr) : K (st D) Z :=
  i ← get_info p;
  let t := table i in
  hd_write_sector_retry (swap_sec t) (sec_size t) (data i) (u32 (sec_size t * SECTOR_SIZE)).

(** [while (0 != hd_write_sector_retry(device, sect++, 1, buffer, SECTOR_SIZE))
     if (sect >= limit) break;] -- the value of [sect] afterwards. *)
Fixpoint write_until (fuel : nat) (sect limit : Z) (buffer : bytes) : K (st D) Z :=
  match fuel with
  | O => kfail Hang
  | S f =>
      ret ← hd_write_sector_retry sect 1 (Some buffer) SECTOR_SIZE;
      let sect := u64 (sect + 1) in
      if ret =? 0 then mret sect
      else if limit <=? sect then mret sect
      else write_until f sect limit buffer
  end.

Definition write_fuel : nat := Z.to_nat (SWPA_TABLE_N_SECTOR + 1).

(** Both copies of one table sector. *)
Definition flush_table_sector (sect_index sect_back_index : Z) (buffer : bytes)
    : K (st D) (Z * Z) :=
  s ← kget;
  sect_index ← write_until write_fuel sect_index
    (u64 (sector_table (core s) + SWPA_TABLE_N_SECTOR)) buffer;
  s ← kget;
  sect_back_index ← write_until write_fuel sect_back_index
    (u64 (sector_reserve_start (core s) + SWAP_TABLE_BACKUP_OFFSET + SWPA_TABLE_N_SECTOR)) buffer;
  mret (sect_index, sect_back_index).

(** The list walk, from entry number [i] of the current sector on. *)
Fixpoint flush_entries (l : list ptr) (i sect_index sect_back_index : Z) (buffer : bytes)
    : K (st D) (Z * Z * Z * bytes) :=
  match l with
  | [] => mret (i, sect_index, sect_back_index, buffer)
  | entry :: rest =>
      let buffer := if i =? 0 then fill SECTOR_SIZE Byte.x00 else buffer in
      e ← get_info entry;
      let t := table_with_save sect_index (table e) in
      set_info entry (mkInfo t (data e));;
      buffer ← kstore (i * sizeof_swap_table) (encode_table t) buffer;
      if i =? table_num_per_sect - 1 then
        x ← flush_table_sector sect_index sect_back_index buffer;
        flush_entries rest 0 (fst x) (snd x) buffer
      else flush_entries rest (i + 1) sect_index sect_back_index buffer
  end.

Definition flush_swap_info_table : K (st D) Z :=
  s ← kget;
  let c := core s in
  x ← flush_entries (info_list c) 0 (sector_table c)
        (u64 (sector_reserve_start c + SWAP_TABLE_BACKUP_OFFSET)) (fill SECTOR_SIZE Byte.x00);
  let '(i, sect_index, sect_back_index, buffer) := x in
  (if negb (i =? 0) then flush_table_sector sect_index sect_back_index buffer;; mret tt
   else mret tt);;
  mret 0.

(** ** Lookup *)

Fixpoint find_in (l : list ptr) (sector : Z) : K (st D) (option ptr) :=
  match l with
  | [] => mret None
  | p :: rest =>
      i ← get_info p;
      if src_sec (table i) =? sector then mret (Some p) else find_in rest sector
  end.
Definition swap_find_swap_info (sector : Z) : K (st D) (option ptr) :=
  s ← kget; find_in (info_list (core s)) sector.

(** ** The head *)

Definition flush_swap_head : K (st D) Z :=
  upd_head (fun h => head_with_checksum (crc_of_head h) h);;
  s ← kget;
  let c := core s in
  ret ← hd_write_sector_retry (sector_head c) 1 (Some (encode_head (head c))) SECTOR_SIZE;
  ret ← hd_write_sector_retry (u64 (sector_head c + SWAP_HEAD_BACKUP_OFFEST)) 1
          (Some (encode_head (head c))) SECTOR_SIZE;
  if negb (ret =? 0) then mret (-1) else mret 0.

(** The return value and [*bad_index]. *)
Definition swap_check_block_by_sector (sec_start bad_index : Z) : K (st D) (Z * Z) :=
  r ← kfor (Z.to_nat SECTOR_NUM_PER_SWAP_BLOCK) 0
    (fun i (_ : unit) =>
       ret ← hd_write_sector_retry (u64 (sec_start + i)) 1
               (Some (fill SECTOR_SIZE Byte.x00)) SECTOR_SIZE;
       if negb (ret =? 0) then mret (inr i) else mret (inl tt)) tt;
  match r with
  | inr i => mret (-1, i)
  | inl _ => mret (0, bad_index)
  end.

Definition swap_check_block (sec_start : Z) : K (st D) Z :=
  let block_size := SECTOR_SIZE * SECTOR_NUM_PER_SWAP_BLOCK in
  m ← kmalloc block_size;
  match m with
  | None => mret (-1)
  | Some _ =>
      ret ← hd_write_sector_retry sec_start SECTOR_NUM_PER_SWAP_BLOCK
              (Some (fill block_size Byte.x00)) block_size;
      if negb (ret =? 0) then mret (-1) else mret 0
  end.

Definition _swap_create_new_head : K (st D) Z :=
  upd_head (fun h => head_with_strings (strncpy (head_string h) SWAP_HEAD_STRING 16)
                       (strncpy (version h) SWAP_VERSION 4) h);;
  flush_swap_head.

Definition swap_create_new_head : K (st D) Z :=
  upd_head (fun _ => decode_head (fill SECTOR_SIZE Byte.x00));;
  r ← kfor (Z.to_nat MAX_SWAP_HEAD_BLOCK_NUM) 0
    (fun _ bad_index =>
       s ← kget;
       x ← swap_check_block_by_sector (sector_head (core s)) bad_index;
       let '(ret, bad_index) := x in
       if ret =? 0 then
         upd_head (fun h => head_with_status (strncpy (status h) str_valid 5) h);;
         mret (inr tt)
       else
         (if negb (bad_index =? 0) then
            upd_head (fun h => head_with_status (strncpy (status h) str_invalid 7) h);;
            _swap_create_new_head;; mret tt
          else mret tt);;
         upd_head (fun h => head_with_status (fill SWAP_HEAD_STATUS_LEN Byte.x00) h);;
         kmod (fun s => upd_core (core_sector_head
                 (u64 (sector_head (core s) + SECTOR_NUM_PER_SWAP_BLOCK))) s);;
         mret (inl bad_index)) 0;
  match r with
  | inl _ => mret (-1)
  | inr _ => _swap_create_new_head
  end.

(** ** Allocation *)

(** [for (; start < end; start += SECTOR_NUM_PER_SWAP_BLOCK)] *)
Fixpoint did_swapped_loop (fuel : nat) (start end_ : Z) : K (st D) bool :=
  if start <? end_ then
    match fuel with
    | O => kfail Hang
    | S f =>
        o ← swap_find_swap_info start;
        match o with
        | Some _ => mret true
        | None => did_swapped_loop f (u64 (start + SECTOR_NUM_PER_SWAP_BLOCK)) end_
        end
    end
  else mret false.

Definition _did_block_swapped (sector count : Z) : K (st D) bool :=
  let end_ := u64 (sector + count) in
  let start := SWAP_SECTOR_ALIGN sector in
  did_swapped_loop (Z.to_nat ((end_ - start) / SECTOR_NUM_PER_SWAP_BLOCK + 1)) start end_.

Definition _swap_alloc_info : K (st D) (option ptr) :=
  m ← kmalloc sizeof_swap_info;
  match m with
  | None => mret None
  | Some _ =>
      s ← kget;
      let info := fresh (dom (infos s)) in
      set_info info (mkInfo zero_table None);;
      d ← kmalloc SWAP_BLOCK_SIZE;
      match d with
      | None => free_info info;; mret None
      | Some _ =>
          set_info info (mkInfo zero_table (Some (fill SWAP_BLOCK_SIZE Byte.x00)));;
          mret (Some info)
      end
  end.

Definition _swap_dealloc_info (info : option ptr) : K (st D) unit :=
  match info with None => mret tt | Some p => free_info p end.

(** The [while] loop, entered with a free [index] and [err_cnt] errors so far. *)
Fixpoint alloc_block_loop (fuel : nat) (index err_cnt : Z) : K (st D) Z :=
  match fuel with
  | O => kfail Hang
  | S f =>
      s ← kget;
      ret ← swap_check_block (u64 (sector_data (core s) + SECTOR_NUM_PER_SWAP_BLOCK * index));
      if ret =? 0 then set_bit index 1;; mret index
      else if 16 <=? err_cnt then inc_device_dead;; mret (-1)
      else
        set_bit index 1;;
        s ← kget;
        let index := swap_head_bitmap_get_first_zero_bit (head (core s)) in
        if index =? -1 then mret (-1) else alloc_block_loop f index (err_cnt + 1)
  end.

Definition _swap_alloc_new_block : K (st D) Z :=
  s ← kget;
  let index := swap_head_bitmap_get_first_zero_bit (head (core s)) in
  if index =? -1 then mret (-1) else alloc_block_loop 17 index 0.

(** ** Creating a mapping *)

Definition _swap_create (info : ptr) (src need_zero_offset need_zero_len : Z) : K (st D) Z :=
  index ← _swap_alloc_new_block;
  if index =? -1 then mret (-1) else
  let need_zero_len :=
    if SECTOR_NUM_PER_SWAP_BLOCK <? need_zero_offset + need_zero_len
    then SECTOR_NUM_PER_SWAP_BLOCK - need_zero_offset else need_zero_len in
  let front_len := need_zero_offset in
  let back_len := SECTOR_NUM_PER_SWAP_BLOCK - (need_zero_offset + need_zero_len) in
  (if 0 <? front_len
   then info_read hd_read_sector_no_retry info 0 src front_len;; mret tt
   else mret tt);;
  (if 0 <? back_len
   then info_read hd_read_sector_no_retry info
          ((need_zero_offset + need_zero_len) * SECTOR_SIZE)
          (u64 (src + need_zero_offset + need_zero_len)) back_len;; mret tt
   else mret tt);;
  s ← kget;
  i ← get_info info;
  let t := table i in
  let t := mkTable src (u64 (sector_data (core s) + u32 (SECTOR_NUM_PER_SWAP_BLOCK * index)))
             SECTOR_NUM_PER_SWAP_BLOCK (retrys t) index (reserverd t) (checksum t) (save_sec t) in
  set_info info (mkInfo (table_with_crc (crc_of_table t) t) (data i));;
  mret 0.

(** ** Data of a mapped block *)

(** The destination buffer after [memcpy(buf, info->data + data_offset, buf_size)],
    [buf] pointing [pos] bytes into [dst]. *)
Definition _swap_read (info : option ptr) (sector_start sector_count : Z)
    (dst : bytes) (pos buf_size : Z) : K (st D) (Z * bytes) :=
  match info with
  | None => mret (-1, dst)
  | Some p =>
      let sector_src := SWAP_SECTOR_ALIGN sector_start in
      let data_offset := s32 ((sector_start - sector_src) * SECTOR_SIZE) in
      let buf_size := Z.min (s32 (sector_count * SECTOR_SIZE)) buf_size in
      d ← info_data p;
      b ← kload data_offset buf_size d;
      dst ← kstore pos b dst;
      mret (0, dst)
  end.

(** [sector_src] is a u32 here. *)
Definition _swap_write (info : option ptr) (sector_start sector_count : Z)
    (src : bytes) (pos buf_size : Z) : K (st D) Z :=
  match info with
  | None => mret (-1)
  | Some p =>
      let sector_src := u32 (SWAP_SECTOR_ALIGN sector_start) in
      let data_offset := s32 (u64 (sector_start - sector_src) * SECTOR_SIZE) in
      let buf_size := Z.min (s32 (sector_count * SECTOR_SIZE)) buf_size in
      b ← kload pos buf_size src;
      info_store p data_offset b;;
      ret ← flush_swap_info_data p;
      if negb (ret =? 0) then mret (-1) else mret 0
  end.

(** The end of [swap_create]: the label [out]. *)
Definition swap_create_out (info : option ptr) (sector_start sector_count fail_reason : Z)
    : K (st D) (option ptr) :=
  match info with
  | None =>
      scsi_swap_log_push LOG_TYPE_CREATE (LOG_RESULT fail_reason) sector_start (-1) sector_count;;
      mret None
  | Some p =>
      i ← get_info p;
      scsi_swap_log_push LOG_TYPE_CREATE (LOG_RESULT fail_reason)
        (src_sec (table i)) (swap_sec (table i)) (sec_size (table i));;
      mret (Some p)
  end.

Definition swap_create (sector_start sector_count : Z) : K (st D) (option ptr) :=
  s ← kget;
  if MAX_SWAP_BLOCK_FOR_USE <=? info_num (core s)
  then swap_create_out None sector_start sector_count LOG_FAILED_CREATE_MAXCOUNT else
  let sector_bswap := SWAP_SECTOR_ALIGN sector_start in
  o ← _swap_alloc_info;
  match o with
  | None => swap_create_out None sector_start sector_count LOG_FAILED_CREATE_MALLOC
  | Some p =>
      ret ← _swap_create p sector_bswap (s32 (sector_start - sector_bswap)) (s32 sector_count);
      if negb (ret =? 0) then
        _swap_dealloc_info (Some p);;
        swap_create_out None sector_start sector_count LOG_FAILED_CREATE_WRITE_DST
      else
      ret ← flush_swap_head;
      if negb (ret =? 0) then
        i ← get_info p;
        set_bit (s32 (index (table i))) 0;;
        _swap_dealloc_info (Some p);;
        swap_create_out None sector_start sector_count LOG_FAILED_CREATE_FLUSH_HEAD
      else swap_create_out (Some p) sector_start sector_count (-1)
  end.

(** The sectors of the old replacement block, one by one; zeros for unreadable ones. *)
Definition recreate_read (info : ptr) (i : Z) : K (st D) unit :=
  e ← get_info info;
  ret ← info_read hd_read_sector_no_retry info (i * SECTOR_SIZE) (u64 (swap_sec (table e) + i)) 1;
  if negb (ret =? 0) then info_store info (i * SECTOR_SIZE) (fill SECTOR_SIZE Byte.x00)
  else mret tt.

Definition swap_recreate (info : ptr) : K (st D) Z :=
  s ← kget;
  if MAX_SWAP_BLOCK_FOR_USE <=? info_num (core s) then mret (-1) else
  index ← _swap_alloc_new_block;
  if index =? -1 then mret (-1) else
  kfor (B := unit) (Z.to_nat SECTOR_NUM_PER_SWAP_BLOCK) 0
    (fun i (_ : unit) => recreate_read info i;; mret (inl tt)) tt;;
  s ← kget;
  e ← get_info info;
  let t := table_with_index index
             (u64 (sector_data (core s) + u32 (SECTOR_NUM_PER_SWAP_BLOCK * index))) (table e) in
  set_info info (mkInfo (table_with_crc (crc_of_table t) t) (data e));;
  let err := set_bit index 0;; mret (-1) in
  ret ← flush_swap_info_data info;
  if negb (ret =? 0) then err else
  ret ← flush_swap_info_table;
  if negb (ret =? 0) then err else
  ret ← flush_swap_head;
  if negb (ret =? 0) then err else
  mret 0.

Definition swap_write (info : ptr) (sector_start sector_count : Z) (src : bytes)
    (pos buf_size : Z) : K (st D) Z :=
  ret ← _swap_write (Some info) sector_start sector_count src pos buf_size;
  if ret =? 0 then mret 0 else
  ret ← swap_recreate info;
  if negb (ret =? 0) then mret (-1) else
  ret ← _swap_write (Some info) sector_start sector_count src pos buf_size;
  if negb (ret =? 0) then mret (-1) else mret (- DATA_MAY_DIRTY).

(** ** Start *)

(** The state and the buffer [head] points to, after the read. *)
Definition swap_get_head_state (sector sec_num : Z) (buf : bytes)
    : K (st D) (swap_head_state * bytes) :=
  x ← hd_read_sector_retry sector sec_num (Some buf) SECTOR_SIZE;
  let '(ret, b) := x in
  if negb (ret =? 0) then mret (HEAD_FAIL, b)
  else mret (head_state_of (decode_head b), b).

Definition swap_repair_successive_sectors (sector count : Z) : K (st D) Z :=
  ret ← hd_test_unit_ready;
  if negb (ret =? 0) then inc_device_dead;; mret (- EIO) else mret (-1).

(** One round of the search: [inr] is the return of [init_swap_head]. *)
Definition init_head_block (start i : Z) (head_back : bytes) : K (st D) (bytes + Z) :=
  let sec_start := u64 (start + i * SECTOR_NUM_PER_SWAP_BLOCK) in
  s ← kget;
  x ← swap_get_head_state sec_start 1 (encode_head (head (core s)));
  let '(head_state, b) := x in
  upd_head (fun _ => decode_head b);;
  if bool_decide (head_state = HEAD_INVALID) then mret (inl head_back) else
  y ← swap_get_head_state (u64 (sec_start + SWAP_HEAD_BACKUP_OFFEST)) 1 head_back;
  let '(head_back_state, head_back) := y in
  if bool_decide (head_state = HEAD_FAIL) && bool_decide (head_back_state = HEAD_FAIL)
  then mret (inl head_back)
  else if bool_decide (head_state = HEAD_OK) then
    (if negb (bool_decide (head_back_state = HEAD_OK))
     then hd_write_sector_retry (u64 (sec_start + SWAP_HEAD_BACKUP_OFFEST)) 1 (Some b) SECTOR_SIZE;;
          mret tt
     else mret tt);;
    kmod (upd_core (core_sector_head sec_start));;
    mret (inr 0)
  else if bool_decide (head_back_state = HEAD_OK) then
    upd_head (fun _ => decode_head head_back);;
    hd_write_sector_retry sec_start 1 (Some head_back) SECTOR_SIZE;;
    kmod (upd_core (core_sector_head sec_start));;
    mret (inr 0)
  else
    ret ← swap_create_new_head;
    if ret =? -1 then inc_device_dead;; mret (inr (-1)) else mret (inr 0).

Definition init_swap_head (start num : Z) : K (st D) Z :=
  r ← kfor (Z.to_nat MAX_SWAP_HEAD_BLOCK_NUM) 0 (init_head_block start)
        (fill SECTOR_SIZE Byte.x00);
  match r with
  | inr ret => mret ret
  | inl _ => inc_device_dead;; mret (-1)
  end.

Definition alloc_swap_info_data (start num : Z) : K (st D) (option bytes) :=
  let nbytes := u32 (num * SECTOR_SIZE) in
  m ← kmalloc nbytes;
  match m with
  | None => mret None
  | Some _ =>
      x ← hd_read_sector_retry start num (Some (fill nbytes Byte.x00)) nbytes;
      if negb (fst x =? 0) then mret None else mret (Some (snd x))
  end.

(** Entry [j] of a table sector, and whether it is in use. *)
Definition table_at (buffer : bytes) (j : Z) : swap_table :=
  decode_table (slice (sizeof_swap_table * j) sizeof_swap_table buffer).
Definition table_used (t : swap_table) : bool :=
  (sec_size t =? SECTOR_NUM_PER_SWAP_BLOCK) && (crc_of_table t =? checksum t).

(** The inner loop of [calc_swap_info_num] on one sector: [inr] returns. *)
Fixpoint count_entries (n : nat) (j : Z) (buffer : bytes) (total : Z) : Z + Z :=
  match n with
  | O => inl total
  | S n' =>
      if negb (sec_size (table_at buffer j) =? SECTOR_NUM_PER_SWAP_BLOCK) then inr total
      else if negb (crc_of_table (table_at buffer j) =? checksum (table_at buffer j)) then inr total
      else count_entries n' (j + 1) buffer (total + 1)
  end.

Definition calc_swap_info_num (start num : Z) : K (st D) Z :=
  r ← kfor (Z.to_nat num) 0
    (fun i total =>
       x ← hd_read_sector_retry (u64 (start + i)) 1 (Some (fill SECTOR_SIZE Byte.x00)) SECTOR_SIZE;
       let '(ret, buffer) := x in
       if negb (ret =? 0) then mret (inl total)
       else mret (count_entries (Z.to_nat table_num_per_sect) 0 buffer total)) 0;
  match r with inl total => mret total | inr total => mret total end.

(** [list_add_tail(&info->list, &core->info_list)] and [atomic_inc(&core->info_num)] *)
Definition list_add_tail (p : ptr) : K (st D) unit :=
  kmod (fun s => upd_core (core_list (info_list (core s) ++ [p])) s).
Definition inc_info_num : K (st D) unit :=
  kmod (fun s => upd_core (core_num (s32 (info_num (core s) + 1))) s).

(** The entries of one table sector: [inl] the buffer and [end_flag], [inr] a
    return value of [init_swap_info]. *)
Fixpoint init_entries (n : nat) (j : Z) (buffer : bytes) : K (st D) (bytes * bool + Z) :=
  match n with
  | O => mret (inl (buffer, false))
  | S n' =>
      m ← kmalloc sizeof_swap_info;
      match m with
      | None => mret (inr (-1))
      | Some _ =>
          s ← kget;
          let info := fresh (dom (infos s)) in
          let t := table_at buffer j in
          set_info info (mkInfo t None);;
          if negb (sec_size t =? SECTOR_NUM_PER_SWAP_BLOCK)
          then free_info info;; mret (inl (buffer, true))
          else if (swap_sec t <? sector_data (core s)) || (sector_reserve_start (core s) <? src_sec t)
          then free_info info;; mret (inr (-1))
          else if negb (crc_of_table t =? checksum t)
          then free_info info;; mret (inr (-1))
          else
          d ← alloc_swap_info_data (swap_sec t) (sec_size t);
          set_info info (mkInfo t d);;
          r ← (match d with
               | Some _ => mret (Some buffer)
               | None =>
                   ret ← swap_recreate info;
                   if ret =? 0 then
                     e ← get_info info;
                     b ← kstore (sizeof_swap_table * j) (encode_table (table e)) buffer;
                     mret (Some b)
                   else free_info info;; mret None
               end);
          match r with
          | None => mret (inr (-1))
          | Some buffer =>
              list_add_tail info;;
              inc_info_num;;
              init_entries n' (j + 1) buffer
          end
      end
  end.

(** One round of the outer loop; the accumulator is [start_master], [start_back]. *)
Definition init_info_sector (start : Z) (sync : swap_table_sync) (i : Z) (acc : Z * Z)
    : K (st D) (Z * Z + Z) :=
  let '(start_master, start_back) := acc in
  x ← hd_read_sector_retry (u64 (start + i)) 1 (Some (fill SECTOR_SIZE Byte.x00)) SECTOR_SIZE;
  if negb (fst x =? 0) then mret (inl acc) else
  r ← init_entries (Z.to_nat table_num_per_sect) 0 (snd x);
  match r with
  | inr ret => mret (inr ret)
  | inl (buffer, end_flag) =>
      s ← kget;
      acc' ← (match sync with
              | MASTER_NEED_SYNC =>
                  m ← write_until write_fuel start_master
                        (u64 (sector_table (core s) + SWPA_TABLE_N_SECTOR)) buffer;
                  mret (m, start_back)
              | BACKUP_NEED_SYNC =>
                  b ← write_until write_fuel start_back
                        (u64 (sector_reserve_start (core s) + SWAP_TABLE_BACKUP_OFFSET
                              + SWPA_TABLE_N_SECTOR)) buffer;
                  mret (start_master, b)
              | NO_NEED_SYNC => mret (start_master, start_back)
              end);
      if (end_flag : bool) then mret (inr 0) else mret (inl acc')
  end.

(** Which copy of the table is loaded; [None] when both are empty. *)
Definition choose_table (start_master start_back table_num table_num_back : Z)
    : option (Z * swap_table_sync) :=
  if table_num <? table_num_back then Some (start_back, MASTER_NEED_SYNC)
  else if table_num_back <? table_num then Some (start_master, BACKUP_NEED_SYNC)
  else if table_num =? 0 then None
  else Some (start_master, NO_NEED_SYNC).

Definition init_swap_info (num : Z) : K (st D) Z :=
  s ← kget;
  let start_master := sector_table (core s) in
  let start_back := u64 (sector_reserve_start (core s) + SWAP_TABLE_BACKUP_OFFSET) in
  kmod (upd_core (core_list []));;
  kmod (upd_core (core_num 0));;
  table_num ← calc_swap_info_num start_master SWPA_TABLE_N_SECTOR;
  table_num_back ← calc_swap_info_num start_back SWPA_TABLE_N_SECTOR;
  match choose_table start_master start_back table_num table_num_back with
  | None => mret 0
  | Some (start, sync) =>
      r ← kfor (Z.to_nat SWPA_TABLE_N_SECTOR) 0 (init_info_sector start sync)
            (start_master, start_back);
      match r with inl _ => mret 0 | inr ret => mret ret end
  end.

(** [list_for_each_entry_safe]: unlink and free every entry. *)
Fixpoint destroy_entries (l : list ptr) : K (st D) unit :=
  match l with
  | [] => mret tt
  | p :: rest => get_info p;; free_info p;; destroy_entries rest
  end.
Definition swap_info_destroy : K (st D) Z :=
  s ← kget;
  destroy_entries (info_list (core s));;
  kmod (upd_core (core_list []));;
  mret 0.

Definition scsi_swap_core_init (reserve_sector : Z) : K (st D) Z :=
  kmod (fun s => upd_core (fun c =>
    mkCore (device_dead c) (info_num c) (user c) (head c) (info_list c) (capacity c)
      reserve_sector (u64 (reserve_sector + SWAP_HEAD_OFFEST))
      (u64 (reserve_sector + SWAP_TABLE_OFFSET)) (u64 (reserve_sector + SWAP_DATA_OFFSET))) s);;
  s ← kget;
  ret ← init_swap_head (sector_head (core s)) SWAP_HEAD_N_SECTOR;
  if negb (ret =? 0) then mret (-1) else
  ret ← init_swap_info SWPA_TABLE_N_SECTOR;
  if negb (ret =? 0) then swap_info_destroy;; mret (-1) else
  kmod (upd_core (core_dead 0));;
  kmod (upd_core (core_user 0));;
  mret 0.

(** [while ((i++ < 100) && (0 != users)) { msleep(300); users = ..; }]; [msleep]
    is what the rest of the kernel does meanwhile. *)
Fixpoint wait_users (msleep : K (st D) unit) (n : nat) (users : Z) : K (st D) unit :=
  match n with
  | O => mret tt
  | S n' =>
      if users =? 0 then mret tt else
      msleep;;
      s ← kget;
      wait_users msleep n' (user (core s))
  end.

Definition scsi_swap_core_destroy (msleep : K (st D) unit) : K (st D) Z :=
  inc_device_dead;;
  s ← kget;
  let users := user (core s) in
  (if negb (users =? 0) then hd_sync_cache;; mret tt else mret tt);;
  wait_users msleep 100 users;;
  swap_info_destroy;;
  mret 0.

Definition scsi_swap_core_swapped (sector num : Z) : K (st D) bool :=
  _did_block_swapped sector (s32 num).

Definition scsi_swap_core_can_swap (sector num : Z) : K (st D) bool :=
  s ← kget;
  mret ((device_dead (core s) =? 0) && (sector <? sector_reserve_start (core s))).

(** ** Requests *)

Definition inc_user : K (st D) unit :=
  kmod (fun s => upd_core (core_user (s32 (user (core s) + 1))) s).
Definition dec_user : K (st D) unit :=
  kmod (fun s => upd_core (core_user (s32 (user (core s) - 1))) s).

(** The part of a request that falls into block number [i_start + i]:
    [b_start], [s_start] and [s_count]; [count] is what is left of the request. *)
Definition piece (start i_start i count : Z) : Z * Z * Z :=
  let b_start := u32 (SWAP_BLOCK_SECTOR (i_start + i)) in
  let s_start := if i =? 0 then start else b_start in
  let s_count := Z.min count (u32 (SWAP_BLOCK_SECTOR (i_start + i + 1) - s_start)) in
  (b_start, s_start, s_count).

(** A new mapping for a block that could not be read: the lines from
    [swap_create] on.  [false] is [goto err]; the buffer is the caller's memory. *)
Definition read_remap (b_start s_start s_count : Z) (buf : bytes) (pos s_len : Z)
    : K (st D) (bool * bytes) :=
  o ← swap_create s_start s_count;
  match o with
  | None => mret (false, buf)
  | Some info =>
      d ← info_data info;
      b ← kload (u32 (s_start - b_start) * SECTOR_SIZE) (Z.min (u32 s_len) SWAP_BLOCK_SIZE) d;
      buf ← kstore pos b buf;
      let undo := e ← get_info info; set_bit (s32 (index (table e))) 0;;
                  _swap_dealloc_info (Some info);; mret (false, buf) in
      ret ← flush_swap_info_data info;
      if negb (ret =? 0) then undo else
      list_add_tail info;;
      ret ← flush_swap_info_table;
      if negb (ret =? 0) then undo else
      inc_info_num;;
      mret (true, buf)
  end.

(** What the loops carry: sectors left, position in the buffer, [data_dirty] and,
    for reads, the buffer. *)
Record racc := mkRacc { ra_count : Z; ra_pos : Z; ra_dirty : bool; ra_buf : bytes }.

(** The first attempt on an unmapped block, a plain read unless the block is the
    one known to be bad. *)

Definition read_direct (skip : bool) (s_start s_count : Z) (buf : bytes) (pos s_len : Z)
    : K (st D) (attempt * bytes) :=
  if skip then mret (REPAIR, buf) else
  b ← kload pos s_len buf;
  x ← hd_read_sector_retry s_start s_count (Some b) s_len;
  buf ← kstore pos (snd x) buf;
  if fst x =? 0 then mret (DONE, buf) else
  dead ← is_dead;
  mret (if (dead : bool) then DEAD else REPAIR, buf).

(** The rest: repair, which never succeeds in this version, then remap. *)
Definition read_repair (b_start s_start s_count : Z) (buf : bytes) (pos s_len : Z)
    : K (st D) (option bool * bytes) :=
  ret ← swap_repair_successive_sectors s_start s_count;
  if ret =? 0 then
    buf ← kstore pos (fill s_len Byte.x00) buf;
    mret (Some false, buf)
  else
  dead ← is_dead;
  if (dead : bool) then mret (None, buf) else
  x ← read_remap b_start s_start s_count buf pos s_len;
  mret (if (fst x : bool) then Some true else None, snd x).

(** The body of the loop of [scsi_swap_core_read]; [inr] is [goto err]. *)
Definition core_read_blk (start i_start i_bad i : Z) (a : racc) : K (st D) (racc + bytes) :=
  let '(b_start, s_start, s_count) := piece start i_start i (ra_count a) in
  let s_len := s_count * SECTOR_SIZE in
  let next dirty buf :=
    mkRacc (u32 (ra_count a - s_count)) (ra_pos a + s_len) dirty buf in
  info ← swap_find_swap_info b_start;
  match info with
  | Some p =>
      x ← _swap_read (Some p) s_start s_count (ra_buf a) (ra_pos a) s_len;
      mret (inl (next (ra_dirty a) (snd x)))
  | None =>
      x ← read_direct (i_bad =? i_start + i) s_start s_count (ra_buf a) (ra_pos a) s_len;
      match fst x with
      | DEAD => mret (inr (snd x))
      | DONE => mret (inl (next (ra_dirty a) (snd x)))
      | REPAIR =>
          y ← read_repair b_start s_start s_count (snd x) (ra_pos a) s_len;
          match fst y with
          | None => mret (inr (snd y))
          | Some dirty => mret (inl (next (if (dirty : bool) then true else ra_dirty a) (snd y)))
          end
      end
  end.

(** The return value and the buffer; [bad] is the sector known to be bad,
    [NO_SECTOR] for none. *)
Definition scsi_swap_core_read (start count bad : Z) (buf : bytes) : K (st D) (Z * bytes) :=
  let b_count := get_swap_block_count start count in
  let i_start := s32 (SWAP_BLOCK_INDEX start) in
  let i_bad := if bad =? NO_SECTOR then -1 else s32 (SWAP_BLOCK_INDEX bad) in
  dead ← is_dead;
  if (dead : bool) then mret (-1, buf) else
  inc_user;;
  r ← kfor (Z.to_nat b_count) 0 (core_read_blk start i_start i_bad) (mkRacc count 0 false buf);
  dec_user;;
  match r with
  | inl a => mret (if ra_dirty a then - DATA_MAY_DIRTY else 0, ra_buf a)
  | inr buf => mret (-1, buf)
  end.

(** A new mapping for a block that could not be written; [false] is [goto err]. *)
Definition write_remap (s_start s_count : Z) (buf : bytes) (pos s_len : Z) : K (st D) bool :=
  o ← swap_create s_start s_count;
  match o with
  | None => mret false
  | Some info =>
      let undo := e ← get_info info; set_bit (s32 (index (table e))) 0;;
                  _swap_dealloc_info (Some info);; mret false in
      ret ← swap_write info s_start s_count buf pos s_len;
      if negb (ret =? 0) then undo else
      list_add_tail info;;
      ret ← flush_swap_info_table;
      if negb (ret =? 0) then undo else
      inc_info_num;;
      mret true
  end.

Record wacc := mkWacc { wa_count : Z; wa_pos : Z; wa_dirty : bool }.

(** The first attempt on an unmapped block. *)
Definition write_direct (skip : bool) (s_start s_count : Z) (buf : bytes) (pos s_len : Z)
    : K (st D) attempt :=
  if skip then mret REPAIR else
  b ← kload pos s_len buf;
  ret ← hd_write_sector_retry s_start s_count (Some b) s_len;
  if ret =? 0 then mret DONE else
  dead ← is_dead;
  mret (if (dead : bool) then DEAD else REPAIR).

(** Repair and write again, or remap: [Some dirty], or [None] for [goto err]. *)
Definition write_repair (s_start s_count : Z) (buf : bytes) (pos s_len : Z)
    : K (st D) (option bool) :=
  let remap :=
    ok ← write_remap s_start s_count buf pos s_len;
    mret (if (ok : bool) then Some (s_count <? SECTOR_NUM_PER_SWAP_BLOCK) else None) in
  ret ← swap_repair_successive_sectors s_start s_count;
  if ret =? 0 then
    b ← kload pos s_len buf;
    ret ← hd_write_sector_retry s_start s_count (Some b) s_len;
    if ret =? 0 then mret (Some false) else remap
  else
    dead ← is_dead;
    if (dead : bool) then mret None else remap.

(** The body of the loop of [scsi_swap_core_write]. *)
Definition core_write_blk (buf : bytes) (start i_start i_bad i : Z) (a : wacc)
    : K (st D) (wacc + unit) :=
  let '(b_start, s_start, s_count) := piece start i_start i (wa_count a) in
  let s_len := s_count * SECTOR_SIZE in
  let next (dirty : bool) := mkWacc (u32 (wa_count a - s_count)) (wa_pos a + s_len)
                               (if dirty then true else wa_dirty a) in
  info ← swap_find_swap_info b_start;
  match info with
  | Some p =>
      ret ← swap_write p s_start s_count buf (wa_pos a) s_len;
      if ret =? 0 then mret (inl (next false))
      else if ret =? - DATA_MAY_DIRTY
      then mret (inl (next (s_count <? SECTOR_NUM_PER_SWAP_BLOCK)))
      else mret (inr tt)
  | None =>
      x ← write_direct (i_bad =? i_start + i) s_start s_count buf (wa_pos a) s_len;
      match x with
      | DEAD => mret (inr tt)
      | DONE => mret (inl (next false))
      | REPAIR =>
          r ← write_repair s_start s_count buf (wa_pos a) s_len;
          match r with
          | None => mret (inr tt)
          | Some dirty => mret (inl (next dirty))
          end
      end
  end.

Definition scsi_swap_core_write (start count bad : Z) (buf : bytes) : K (st D) Z :=
  let b_count := get_swap_block_count start count in
  let i_start := s32 (SWAP_BLOCK_INDEX start) in
  let i_bad := if bad =? NO_SECTOR then -1 else s32 (SWAP_BLOCK_INDEX bad) in
  dead ← is_dead;
  if (dead : bool) then mret (-1) else
  inc_user;;
  r ← kfor (Z.to_nat b_count) 0 (core_write_blk buf start i_start i_bad) (mkWacc count 0 false);
  dec_user;;
  match r with
  | inl a => mret (if wa_dirty a then - DATA_MAY_DIRTY else 0)
  | inr _ => mret (-1)
  end.

(** ** sysfs *)

Definition info_line (i : swap_info) : bytes :=
  fields [src_sec (table i); swap_sec (table i); sec_size (table i)].

Fixpoint lines_of (l : list ptr) : K (st D) (list bytes) :=
  match l with
  | [] => mret []
  | p :: rest => i ← get_info p; ls ← lines_of rest; mret (info_line i :: ls)
  end.

(** As in [scsi_swap_log_show], the page is cut after collecting the lines. *)
Definition scsi_swap_core_show : K (st D) (bytes * Z) :=
  s ← kget;
  ls ← lines_of (info_list (core s));
  mret (show_page 64 ls).
End Ops.
