(* ===== verification/CoreInv.v ===== *)
(** * Invariant and abstract state of the swap core

    A [view] (State.v) is the driver's bookkeeping; together with the medium it
    determines the abstract disk: [content] is what a reader of the device sees,
    sector by sector, the cached replacement where the sector's block is mapped
    and the medium elsewhere.  [maps_ok] and [bits_ok] are the invariants, [hush]
    and [bg] the footprints of the operations that only touch the reserved area. *)

From stdpp Require Import base gmap fin_maps list list_numbers.
From coqutil Require Import Byte Word.LittleEndianList.
From Stdlib Require Import ZArith Lia.
From S2P Require Import Prelude Kapi Crc32 Ring Layout State Scsi Log Core.

Local Open Scope Z_scope.

(** ** Views *)

Definition v_with_bitmap (b : list Z) (v : view) : view :=
  mkView (v_list v) (v_infos v) b (v_num v) (v_user v) (v_geom v).
Definition v_with_infos (m : gmap ptr swap_info) (v : view) : view :=
  mkView (v_list v) m (v_bitmap v) (v_num v) (v_user v) (v_geom v).
Definition v_with_list (l : list ptr) (v : view) : view :=
  mkView l (v_infos v) (v_bitmap v) (v_num v) (v_user v) (v_geom v).
Definition v_with_num (n : Z) (v : view) : view :=
  mkView (v_list v) (v_infos v) (v_bitmap v) n (v_user v) (v_geom v).
Definition v_with_user (n : Z) (v : view) : view :=
  mkView (v_list v) (v_infos v) (v_bitmap v) (v_num v) n (v_geom v).

Definition v_reserve (v : view) : Z := let '(r, _, _, _) := v_geom v in r.
Definition v_head (v : view) : Z := let '(_, h, _, _) := v_geom v in h.
Definition v_table (v : view) : Z := let '(_, _, t, _) := v_geom v in t.
Definition v_data (v : view) : Z := let '(_, _, _, d) := v_geom v in d.

(** ** The mapping *)

(** The first listed object whose source is [x]. *)
Fixpoint find_src (m : gmap ptr swap_info) (l : list ptr) (x : Z) : option ptr :=
  match l with
  | [] => None
  | p :: l' =>
      if decide (src_sec ∘ table <$> m !! p = Some x) then Some p else find_src m l' x
  end.

Definition v_find (v : view) (x : Z) : option ptr := find_src (v_infos v) (v_list v) x.

Definition block_data (v : view) (p : ptr) : bytes :=
  match v_infos v !! p with Some i => default [] (data i) | None => [] end.

(** What a reader sees at sector [x], the medium being [m]. *)
Definition content (v : view) (m : Z -> bytes) (x : Z) : bytes :=
  match v_find v (SWAP_SECTOR_ALIGN x) with
  | Some p => slice ((x - SWAP_SECTOR_ALIGN x) * SECTOR_SIZE) SECTOR_SIZE (block_data v p)
  | None => m x
  end.

(** ** Invariants *)

Definition geom_ok (v : view) : Prop :=
  0 <= v_reserve v /\ v_reserve v + MAX_RESERVED_SECTOR <= 2 ^ 32 /\
  v_reserve v + SWAP_HEAD_OFFEST <= v_head v /\
  v_head v < v_reserve v + SWAP_HEAD_OFFEST + MAX_SWAP_HEAD_BLOCK_NUM * SECTOR_NUM_PER_SWAP_BLOCK /\
  v_table v = v_reserve v + SWAP_TABLE_OFFSET /\
  v_data v = v_reserve v + SWAP_DATA_OFFSET.

(** An object that maps a block: cached data of a whole block, an aligned source,
    a replacement inside the data area, a valid checksum. *)
Record info_ok (sd : Z) (i : swap_info) : Prop := {
  io_data : exists d, data i = Some d /\ zlen d = SWAP_BLOCK_SIZE;
  io_table : table_wf (table i);
  io_src : src_sec (table i) mod SECTOR_NUM_PER_SWAP_BLOCK = 0;
  io_size : sec_size (table i) = SECTOR_NUM_PER_SWAP_BLOCK;
  io_index : 0 <= index (table i) < DATA_BLOCK_NUM;
  io_swap : swap_sec (table i) = sd + SECTOR_NUM_PER_SWAP_BLOCK * index (table i);
  io_crc : checksum (table i) = crc_of_table (table i)
}.

Definition v_src (v : view) (p : ptr) : option Z := src_sec ∘ table <$> v_infos v !! p.
Definition v_index (v : view) (p : ptr) : option Z := index ∘ table <$> v_infos v !! p.

(** Every listed object maps a block, and no two map the same one. *)
Record maps_ok (v : view) : Prop := {
  mo_geom : geom_ok v;
  mo_infos : forall p, p ∈ v_list v ->
    exists i, v_infos v !! p = Some i /\ info_ok (v_data v) i;
  mo_nodup : NoDup (v_src v <$> v_list v);
  mo_len : zlen (v_list v) <= 256
}.

(** The bitmap knows the replacement blocks in use, and each serves one source. *)
Record bits_ok (v : view) : Prop := {
  bo_set : forall p i, p ∈ v_list v -> v_infos v !! p = Some i ->
    bit_of (v_bitmap v) (index (table i)) = true;
  bo_nodup : NoDup (v_index v <$> v_list v)
}.

Definition num_ok (v : view) : Prop := v_num v = zlen (v_list v).

(** Head and log are proper objects. *)
Definition env_ok {D} (s : st D) : Prop := head_wf (head (core s)) /\ log_ok s.

Definition inv {D} (s : st D) : Prop :=
  env_ok s /\ maps_ok (view_of s) /\ num_ok (view_of s).

(** ** Lookup *)

Section Find.
Implicit Types (m : gmap ptr swap_info) (l : list ptr).

Lemma find_src_Some m l x p :
  find_src m l x = Some p ->
  p ∈ l /\ exists i, m !! p = Some i /\ src_sec (table i) = x.
Proof.
  induction l as [|q l IH]; cbn; [done|]. case_decide as E.
  - intros [= ->]. split; [left|]. destruct (m !! p) as [i|]; [|done].
    injection E as <-. eauto.
  - intros Hf. apply IH in Hf as [? ?]. split; [by right|done].
Qed.

Lemma find_src_None m l x p :
  find_src m l x = None -> p ∈ l -> src_sec ∘ table <$> m !! p <> Some x.
Proof.
  induction l as [|q l IH]; cbn; [by intros _ ?%not_elem_of_nil|].
  case_decide; [done|]. intros Hf [->|Hin]%elem_of_cons; [done|by apply IH].
Qed.

(** Only the sources of the listed objects matter. *)
Lemma find_src_ext m m' l x :
  (forall p, p ∈ l -> src_sec ∘ table <$> m' !! p = src_sec ∘ table <$> m !! p) ->
  find_src m' l x = find_src m l x.
Proof.
  induction l as [|q l IH]; intros Hm; cbn; [done|].
  rewrite (Hm q) by left. case_decide; [done|]. apply IH. intros p Hp. apply Hm. by right.
Qed.

Lemma find_src_app m l1 l2 x :
  find_src m (l1 ++ l2) x
  = match find_src m l1 x with Some p => Some p | None => find_src m l2 x end.
Proof. induction l1 as [|q l1 IH]; cbn; [done|]. by case_decide. Qed.
End Find.

(** ** Invariants under changes of the view *)

Section ViewLemmas.
Implicit Types v : view.

Lemma maps_find v x p :
  maps_ok v -> v_find v x = Some p ->
  p ∈ v_list v /\ exists i, v_infos v !! p = Some i /\ info_ok (v_data v) i /\ src_sec (table i) = x.
Proof.
  intros Hm (Hin & i & Hi & Hx)%find_src_Some. split; [done|].
  destruct (mo_infos v Hm p Hin) as (i' & Hi' & Hok). rewrite Hi in Hi'.
  injection Hi' as <-. eauto.
Qed.

(** The objects behind a mapping may be replaced by ones for the same source. *)
Lemma maps_ok_update v p i' :
  maps_ok v -> info_ok (v_data v) i' ->
  (p ∈ v_list v -> src_sec ∘ table <$> v_infos v !! p = Some (src_sec (table i'))) ->
  maps_ok (v_with_infos (<[p := i']> (v_infos v)) v).
Proof.
  intros Hm Hi' Hsrc. split; cbn.
  - exact (mo_geom v Hm).
  - intros q Hq. destruct (decide (q = p)) as [->|Hne].
    + exists i'. by rewrite lookup_insert_eq.
    + rewrite lookup_insert_ne by done. by apply (mo_infos v Hm).
  - pose proof (mo_nodup v Hm) as Hnd.
    replace (v_src (v_with_infos (<[p:=i']> (v_infos v)) v) <$> v_list v)
      with (v_src v <$> v_list v); [done|].
    apply list_fmap_ext. intros k q Hk%list_elem_of_lookup_2. unfold v_src. cbn.
    destruct (decide (q = p)) as [->|Hne].
    + rewrite lookup_insert_eq. by apply Hsrc.
    + by rewrite lookup_insert_ne by done.
  - exact (mo_len v Hm).
Qed.

Lemma maps_ok_add v p i :
  maps_ok v -> v_infos v !! p = Some i -> info_ok (v_data v) i ->
  v_find v (src_sec (table i)) = None -> zlen (v_list v) < 256 ->
  maps_ok (v_with_list (v_list v ++ [p]) v).
Proof.
  intros Hm Hp Hi Hf Hlen. split; cbn.
  - exact (mo_geom v Hm).
  - intros q [Hq|Hq%list_elem_of_singleton]%elem_of_app; [by apply (mo_infos v Hm)|].
    subst q. eauto.
  - rewrite fmap_app. apply NoDup_app. split_and!.
    + exact (mo_nodup v Hm).
    + intros o Ho Ho'. cbn in Ho'. apply list_elem_of_singleton in Ho'. subst o.
      apply list_elem_of_fmap in Ho as (q & Hq & Hqin). unfold v_src in Hq. cbn in Hq.
      rewrite Hp in Hq. by eapply find_src_None; eauto.
    + apply NoDup_singleton.
  - rewrite zlen_app. change (zlen [p]) with 1. lia.
Qed.

Lemma bits_ok_add v p i :
  bits_ok v -> v_infos v !! p = Some i -> bit_of (v_bitmap v) (index (table i)) = true ->
  (forall q j, q ∈ v_list v -> v_infos v !! q = Some j -> index (table j) <> index (table i)) ->
  (forall q, q ∈ v_list v -> is_Some (v_infos v !! q)) ->
  bits_ok (v_with_list (v_list v ++ [p]) v).
Proof.
  intros Hb Hp Hbit Hnew Hall. split; cbn.
  - intros q j [Hq|Hq%list_elem_of_singleton]%elem_of_app Hj.
    + by eapply (bo_set v Hb).
    + subst q. rewrite Hp in Hj. by injection Hj as <-.
  - rewrite fmap_app. apply NoDup_app. split_and!.
    + exact (bo_nodup v Hb).
    + intros o Ho Ho'. cbn in Ho'. apply list_elem_of_singleton in Ho'. subst o.
      apply list_elem_of_fmap in Ho as (q & Hq & Hqin). unfold v_index in Hq. cbn in Hq.
      rewrite Hp in Hq. destruct (Hall q Hqin) as [j Hj]. rewrite Hj in Hq.
      injection Hq as Hq. by eapply Hnew.
    + apply NoDup_singleton.
Qed.

(** Bits may be added. *)
Lemma bits_ok_mono v b :
  maps_ok v -> bits_ok v ->
  (forall n, 0 <= n -> bit_of (v_bitmap v) n = true -> bit_of b n = true) ->
  bits_ok (v_with_bitmap b v).
Proof.
  intros Hm Hb Hle. split; cbn; [|exact (bo_nodup v Hb)].
  intros p i Hp Hi. apply Hle; [|by eapply (bo_set v Hb)].
  destruct (mo_infos v Hm p Hp) as (i' & Hi' & Hok). rewrite Hi in Hi'. injection Hi' as <-.
  apply (io_index _ _ Hok).
Qed.

Lemma maps_ok_unlisted v p : maps_ok v -> v_infos v !! p = None -> p ∉ v_list v.
Proof.
  intros Hm Hn Hin. destruct (mo_infos v Hm p Hin) as (i & Hi & _). congruence.
Qed.

(** An object that is not listed does not count. *)
Lemma maps_ok_unlisted_infos v m :
  maps_ok v -> (forall p, p ∈ v_list v -> m !! p = v_infos v !! p) ->
  maps_ok (v_with_infos m v).
Proof.
  intros Hm Heq. split; cbn.
  - exact (mo_geom v Hm).
  - intros p Hp. rewrite Heq by done. by apply (mo_infos v Hm).
  - replace (v_src (v_with_infos m v) <$> v_list v) with (v_src v <$> v_list v);
      [exact (mo_nodup v Hm)|].
    apply list_fmap_ext. intros k p Hk%list_elem_of_lookup_2. unfold v_src. cbn.
    by rewrite Heq.
  - exact (mo_len v Hm).
Qed.

Lemma bits_ok_unlisted_infos v m :
  bits_ok v -> (forall p, p ∈ v_list v -> m !! p = v_infos v !! p) ->
  bits_ok (v_with_infos m v).
Proof.
  intros Hb Heq. split; cbn.
  - intros p i Hp Hi. rewrite Heq in Hi by done. by eapply (bo_set v Hb).
  - replace (v_index (v_with_infos m v) <$> v_list v) with (v_index v <$> v_list v);
      [exact (bo_nodup v Hb)|].
    apply list_fmap_ext. intros k p Hk%list_elem_of_lookup_2. unfold v_index. cbn.
    by rewrite Heq.
Qed.

(** ** Content under changes *)

Lemma content_ext v m m' x :
  (v_find v (SWAP_SECTOR_ALIGN x) = None -> m' x = m x) -> content v m' x = content v m x.
Proof. intros Hm. unfold content. destruct (v_find _ _); auto. Qed.

Lemma content_unlisted v m' m x :
  (forall p, p ∈ v_list v -> m' !! p = v_infos v !! p) ->
  content (v_with_infos m' v) m x = content v m x.
Proof.
  intros Heq. unfold content, v_find. cbn.
  rewrite (find_src_ext (v_infos v) m' (v_list v)) by (intros p Hp; by rewrite Heq).
  destruct (find_src _ _ _) as [p|] eqn:Hf; [|done].
  apply find_src_Some in Hf as [Hin _]. unfold block_data. cbn. by rewrite Heq.
Qed.

(** A changed object only changes the sectors of its block. *)
Lemma content_update v m p i i' x :
  v_infos v !! p = Some i -> src_sec (table i') = src_sec (table i) ->
  content (v_with_infos (<[p := i']> (v_infos v)) v) m x
  = if decide (v_find v (SWAP_SECTOR_ALIGN x) = Some p)
    then slice ((x - SWAP_SECTOR_ALIGN x) * SECTOR_SIZE) SECTOR_SIZE (default [] (data i'))
    else content v m x.
Proof.
  intros Hp Hsrc. unfold content, v_find. cbn.
  rewrite (find_src_ext (v_infos v)).
  2: { intros q _. destruct (decide (q = p)) as [->|Hne].
       - rewrite lookup_insert_eq, Hp. cbn. by rewrite Hsrc.
       - by rewrite lookup_insert_ne by done. }
  unfold block_data. cbn.
  destruct (find_src (v_infos v) (v_list v) _) as [q|]; case_decide as E.
  - injection E as ->. by rewrite lookup_insert_eq.
  - rewrite lookup_insert_ne by congruence. done.
  - done.
  - done.
Qed.

(** A new mapping shows its data in its block. *)
Lemma content_add v m p i x :
  v_infos v !! p = Some i -> v_find v (src_sec (table i)) = None ->
  content (v_with_list (v_list v ++ [p]) v) m x
  = if decide (SWAP_SECTOR_ALIGN x = src_sec (table i))
    then slice ((x - SWAP_SECTOR_ALIGN x) * SECTOR_SIZE) SECTOR_SIZE (default [] (data i))
    else content v m x.
Proof.
  intros Hp Hf. unfold content, v_find in *. cbn. rewrite find_src_app.
  case_decide as E.
  - rewrite E, Hf. cbn. rewrite Hp. cbn. rewrite decide_True by done.
    unfold block_data. cbn. by rewrite Hp.
  - destruct (find_src (v_infos v) (v_list v) (SWAP_SECTOR_ALIGN x)); [done|].
    cbn. rewrite Hp. cbn. rewrite decide_False; [done|congruence].
Qed.
End ViewLemmas.

(** ** Objects and views *)

Lemma erase_save_idem i : erase_save (erase_save i) = erase_save i.
Proof. done. Qed.

(** The checksum covers neither itself nor [save_sec]. *)
Lemma crc_of_table_prefix t c z :
  length (reserverd t) = 6%nat ->
  crc_of_table (table_with_crc c (table_with_save z t)) = crc_of_table t.
Proof.
  intros Hr.
  assert (forall c z, slice 0 52 (encode_table (table_with_crc c (table_with_save z t)))
    = le_split 8 (src_sec t) ++ le_split 8 (swap_sec t) ++ le_split 4 (sec_size t)
      ++ le_split 4 (retrys t) ++ le_split 4 (index t) ++ words_le (reserverd t)) as Hpre.
  { intros c' z'. unfold encode_table, table_with_crc, table_with_save.
    cbn [src_sec swap_sec sec_size retrys index reserverd checksum save_sec].
    rewrite (app_assoc (words_le _)), !app_assoc. rewrite <- (app_assoc _ (le_split 4 c')).
    apply slice_app_here. rewrite !zlen_app, !zlen_le_split, zlen_words_le. unfold zlen.
    rewrite Hr. done. }
  unfold crc_of_table. rewrite Hpre.
  pose proof (Hpre (checksum t) (save_sec t)) as Ht. destruct t; cbn in Ht |- *.
  by rewrite <- Ht.
Qed.

Lemma view_lookup {D} (s : st D) p :
  v_infos (view_of s) !! p = erase_save <$> infos s !! p.
Proof. apply lookup_fmap. Qed.

(** Writing an object. *)
Lemma view_set_info {D} (s : st D) p i :
  view_of (set_infos (<[p := i]> (infos s)) s)
  = v_with_infos (<[p := erase_save i]> (v_infos (view_of s))) (view_of s).
Proof. unfold view_of, v_with_infos. cbn. f_equal. apply fmap_insert. Qed.

Lemma view_free_info {D} (s : st D) p :
  view_of (set_infos (delete p (infos s)) s)
  = v_with_infos (delete p (v_infos (view_of s))) (view_of s).
Proof. unfold view_of, v_with_infos. cbn. f_equal. apply fmap_delete. Qed.

(** ** Footprints *)

(** The part of the reserved area the driver writes. *)
Definition reserved (v : view) (x : Z) : Prop :=
  between (v_reserve v + SWAP_HEAD_OFFEST) (v_reserve v + MAX_RESERVED_SECTOR) x.

Section Footprints.
Context {D : Type} `{BlockDevice D}.
Implicit Types s : st D.

(** What a reader of the device sees. *)
Definition sees s (x : Z) : bytes := content (view_of s) (media (dev s)) x.

(** Nothing but the reserved area changed. *)
Definition hush s s' : Prop :=
  view_of s' = view_of s /\ (env_ok s -> env_ok s') /\ touches (reserved (view_of s)) s s'.

(** The same, and the bitmap. *)
Definition bg s s' : Prop :=
  view_of s' = v_with_bitmap (bitmap (head (core s'))) (view_of s) /\
  (env_ok s -> env_ok s') /\ touches (reserved (view_of s)) s s'.

Lemma hush_refl s : hush s s.
Proof. done. Qed.

Lemma hush_trans s1 s2 s3 : hush s1 s2 -> hush s2 s3 -> hush s1 s3.
Proof.
  intros (E1&L1&T1) (E2&L2&T2). split_and!; [congruence|auto|].
  rewrite E1 in T2. by eapply touches_trans.
Qed.

Lemma hush_bg s s' : hush s s' -> bg s s'.
Proof.
  intros (E&L&T). split_and!; [|done..]. rewrite E.
  assert (bitmap (head (core s')) = bitmap (head (core s))) as ->
    by (exact (f_equal v_bitmap E)). done.
Qed.

Lemma bg_trans s1 s2 s3 : bg s1 s2 -> bg s2 s3 -> bg s1 s3.
Proof.
  intros (E1&L1&T1) (E2&L2&T2). split_and!; [|auto|].
  - rewrite E2, E1. done.
  - assert (reserved (view_of s2) = reserved (view_of s1)) as Er by (by rewrite E1).
    rewrite Er in T2. by eapply touches_trans.
Qed.

Lemma env_ok_same s s' :
  head (core s') = head (core s) -> log s' = log s ->
  sector_reserve_start (core s') = sector_reserve_start (core s) -> env_ok s -> env_ok s'.
Proof. intros Eh El Er. unfold env_ok, log_ok. by rewrite Eh, El, Er. Qed.

(** A data command to the reserved area. *)
Lemma hush_io (R : Z -> Prop) s s' :
  io s s' -> touches R s s' -> (forall x, R x -> reserved (view_of s) x) -> hush s s'.
Proof.
  intros Hio Ht HR. split_and!.
  - by apply io_view.
  - unfold io in Hio. apply env_ok_same; by rewrite Hio.
  - by eapply touches_mono.
Qed.

Lemma hush_quiet s s' : quiet s s' -> hush s s'.
Proof.
  intros Hq. pose proof (quiet_view s s' Hq) as Hv. destruct Hq as (E1&E2&E3&T).
  split_and!; [done| |by apply touches_nowhere].
  apply env_ok_same; by rewrite ?E1, ?E2.
Qed.

Lemma hush_dead s z : hush s (upd_core (core_dead z) s).
Proof. split_and!; [done| |done]. by apply env_ok_same. Qed.

Lemma hush_kmem l s : hush s (set_kmem l s).
Proof. done. Qed.

Lemma reserved_log v x : log_area (v_reserve v) x -> reserved v x.
Proof.
  unfold log_area, reserved, between, LOG_MAX_SECTOR_NUM, SWAP_LOG_DATA_OFFSET,
    SWAP_LOG_HEAD_OFFSET, SWAP_TABLE_BACKUP_OFFSET, SWAP_LOG_TOTAL_SECTOR,
    MAX_RESERVED_SECTOR, SWAP_HEAD_OFFEST, SECTOR_8M, SECTOR_1M. lia.
Qed.

Lemma geom_reserve_ok s : geom_ok (view_of s) -> reserve_ok s.
Proof. intros (?&?&_). by split. Qed.

Lemma wp_push_hush type result src dst count s :
  maps_ok (view_of s) -> env_ok s ->
  wp (scsi_swap_log_push type result src dst count) (fun _ s' => hush s s') s.
Proof.
  intros Hm [Hh Hl]. eapply wp_mono.
  { apply wp_log_push; [apply geom_reserve_ok, (mo_geom _ Hm)|done]. }
  cbv beta. intros ret s' (Hl' & Hc & Ht). split_and!.
  - by apply core_io_view.
  - intros _. split; [|done]. destruct Hc as [-> _]. done.
  - eapply touches_mono; [exact Ht|]. intros x Hx. by apply reserved_log.
Qed.

(** *** Invariant and content along a footprint *)

Lemma bg_maps s s' : bg s s' -> maps_ok (view_of s) -> maps_ok (view_of s').
Proof.
  intros (E&_&_) Hm. rewrite E. destruct Hm as [Hg Hi Hn Hl]. by split.
Qed.

Lemma hush_maps s s' : hush s s' -> maps_ok (view_of s) -> maps_ok (view_of s').
Proof. intros (E&_&_). by rewrite E. Qed.

(** The user's sectors. *)
Definition user_sector (v : view) (x : Z) : Prop := 0 <= x < v_reserve v.

Lemma touches_user R s s' x :
  touches R s s' -> user_sector (view_of s) x -> (forall y, R y -> reserved (view_of s) y) ->
  media (dev s') x = media (dev s) x.
Proof.
  intros Ht Hx HR. apply Ht. intros Hr. apply HR in Hr.
  unfold reserved, between, user_sector, SWAP_HEAD_OFFEST, SECTOR_8M in *. lia.
Qed.

Lemma bg_sees s s' x : bg s s' -> user_sector (view_of s) x -> sees s' x = sees s x.
Proof.
  intros (E&_&T) Hx. unfold sees. rewrite E.
  transitivity (content (view_of s) (media (dev s')) x); [done|].
  apply content_ext. intros _. by eapply touches_user.
Qed.

Lemma hush_sees s s' x : hush s s' -> user_sector (view_of s) x -> sees s' x = sees s x.
Proof. intros Hh. apply bg_sees. by apply hush_bg. Qed.

(** *** Reading objects through the view *)

Lemma wp_get_info_v p i0 (Q : swap_info -> st D -> Prop) s :
  v_infos (view_of s) !! p = Some i0 ->
  (forall i, infos s !! p = Some i -> erase_save i = i0 -> Q i s) ->
  wp (get_info p) Q s.
Proof.
  rewrite view_lookup. intros Hp HQ. destruct (infos s !! p) as [i|] eqn:E; [|done].
  injection Hp as Hp. eapply wp_get_info; [done|]. by apply HQ.
Qed.

Lemma wp_find x (Q : option ptr -> st D -> Prop) s :
  maps_ok (view_of s) -> Q (v_find (view_of s) x) s -> wp (swap_find_swap_info x) Q s.
Proof.
  intros Hm. unfold swap_find_swap_info, v_find. cbn [view_of v_list]. intros HQ. do 2 kstep.
  assert (forall p, p ∈ info_list (core s) -> is_Some (v_infos (view_of s) !! p)) as Hall.
  { intros p Hp. destruct (mo_infos _ Hm p Hp) as (i & -> & _). eauto. }
  clear Hm. revert HQ Hall. generalize (info_list (core s)) as l.
  induction l as [|p l IH]; cbn [find_in find_src]; intros HQ Hall; [by kstep|].
  destruct (Hall p ltac:(left)) as [i0 Hp]. kstep. eapply wp_get_info_v; [done|].
  intros i _ Hi. subst i0. rewrite Hp in HQ.
  change (src_sec ∘ table <$> Some (erase_save i)) with (Some (src_sec (table i))) in HQ.
  destruct (Z.eqb_spec (src_sec (table i)) x) as [E|E].
  - kstep. by rewrite decide_True in HQ by congruence.
  - rewrite decide_False in HQ by congruence. apply IH; [done|].
    intros q Hq. apply Hall. by right.
Qed.
End Footprints.

#[export] Hint Resolve hush_refl hush_dead hush_kmem : core.
