(* ===== verification/CoreSpec.v ===== *)
(** * Specifications of the swap core's internal operations

    Flushing, allocation of a replacement block, creation and re-creation of a
    mapping: each returns (no fault, no exhausted loop) from every state of the
    invariant, on every device behaviour, and has the stated effect on the
    mapping. *)

From stdpp Require Import base gmap fin_maps list list_numbers.
From coqutil Require Import Byte Word.LittleEndianList.
From Stdlib Require Import ZArith Lia.
From S2P Require Import Prelude Kapi Crc32 Ring Layout State Scsi Log Core CoreInv.

Local Open Scope Z_scope.

(** Numeric values of the layout constants. *)
Ltac layout :=
  unfold geom_ok, reserved, user_sector, between, SWAP_LOG_DATA_OFFSET, SWAP_LOG_HEAD_OFFSET,
    SWAP_TABLE_BACKUP_OFFSET, SWAP_LOG_TOTAL_SECTOR, MAX_RESERVED_SECTOR, SWAP_DATA_OFFSET,
    SWAP_TABLE_OFFSET, SWAP_HEAD_OFFEST, SWAP_HEAD_BACKUP_OFFEST, MAX_SWAP_HEAD_BLOCK_NUM,
    SWPA_TABLE_N_SECTOR, SWAP_BLOCK_SIZE, SECTOR_NUM_PER_SWAP_BLOCK, SECTOR_8M, SECTOR_1M,
    SECTOR_SIZE in *.

(** ** The bitmap *)

Lemma setbit_u32 w k : 0 <= w < 2 ^ 32 -> 0 <= k < 32 -> 0 <= Z.setbit w k < 2 ^ 32.
Proof.
  intros Hw Hk. unfold Z.setbit. rewrite Z.shiftl_1_l.
  split; [apply Z.lor_nonneg; split; [lia|apply Z.pow_nonneg; lia]|].
  destruct (Z.eq_dec (Z.lor w (2 ^ k)) 0) as [->|Hne]; [lia|].
  assert (0 < Z.lor w (2 ^ k)) as Hpos.
  { assert (0 <= Z.lor w (2 ^ k)); [|lia]. apply Z.lor_nonneg.
    split; [lia|apply Z.pow_nonneg; lia]. }
  apply Z.log2_lt_pow2; [done|]. rewrite Z.log2_lor by (try apply Z.pow_nonneg; lia).
  rewrite Z.log2_pow2 by lia. apply Z.max_lub_lt; [|lia].
  destruct (Z.eq_dec w 0) as [->|]; [cbn; lia|]. apply Z.log2_lt_pow2; lia.
Qed.

Lemma clearbit_u32 w k : 0 <= w < 2 ^ 32 -> 0 <= k -> 0 <= Z.clearbit w k < 2 ^ 32.
Proof.
  intros Hw Hk. unfold Z.clearbit. rewrite Z.shiftl_1_l.
  assert (Z.ldiff w (2 ^ k) <= w) by (apply Z.ldiff_le; [lia|]; rewrite Z.ldiff_ldiff_l, Z.lor_comm, <- Z.ldiff_ldiff_l, Z.ldiff_diag; apply Z.ldiff_0_l).
  split; [|lia]. apply Z.ldiff_nonneg. lia.
Qed.

Lemma set_bit_wf map n val :
  u32s map -> 0 <= n -> u32s (swap_bitmap_set_bit map n val).
Proof.
  intros Hu Hn. unfold swap_bitmap_set_bit, u32s. apply Forall_alter; [done|].
  intros w _ Hw. pose proof (Z.mod_pos_bound n 32).
  destruct (val =? 0); [apply clearbit_u32|apply setbit_u32]; lia.
Qed.

Lemma bit_of_set map n k val :
  0 <= n < 32 * zlen map -> 0 <= k ->
  bit_of (swap_bitmap_set_bit map n val) k
  = if decide (k = n) then c_true val else bit_of map k.
Proof.
  intros Hn Hk. unfold bit_of, swap_bitmap_set_bit, zlen in *.
  pose proof (Z.mod_pos_bound n 32 ltac:(lia)). pose proof (Z.mod_pos_bound k 32 ltac:(lia)).
  pose proof (Z.div_mod n 32 ltac:(lia)). pose proof (Z.div_mod k 32 ltac:(lia)).
  assert (0 <= n / 32) by (apply Z.div_pos; lia). assert (0 <= k / 32) by (apply Z.div_pos; lia).
  destruct (decide (k / 32 = n / 32)) as [E|E].
  - rewrite E, list_lookup_alter_eq. 
    destruct (lookup_lt_is_Some_2 map (Z.to_nat (n / 32))) as [w Hw]; [lia|].
    rewrite Hw. cbn [fmap option_fmap option_map default id]. case_decide as Ek.
    + subst k. unfold c_true. destruct (val =? 0); cbn [negb].
      * by apply Z.clearbit_eq.
      * apply Z.setbit_eq. lia.
    + destruct (val =? 0).
      * apply Z.clearbit_neq. intros ?. apply Ek. lia.
      * rewrite Z.setbit_neq; [done|lia|]. intros ?. apply Ek. lia.
  - rewrite list_lookup_alter_ne by lia. rewrite decide_False; [done|congruence].
Qed.

Lemma find_zero_from_spec n i map :
  let r := find_zero_from n i map in
  i <= r <= i + Z.of_nat n /\ (r < i + Z.of_nat n -> bit_of map r = false) /\
  (forall k, i <= k < r -> bit_of map k = true).
Proof.
  revert i. induction n as [|n IH]; intros i; cbn [find_zero_from]; cbv zeta.
  { split_and!; intros; lia. }
  destruct (bit_of map i) eqn:E.
  - destruct (IH (i + 1)) as (H1 & H2 & H3). split_and!; [lia|lia| |].
    + intros Hr. apply H2. lia.
    + intros k Hk. destruct (Z.eq_dec k i) as [->|]; [done|]. apply H3. lia.
  - split_and!; [lia|lia|done|intros; lia].
Qed.

(** The allocator's search: the first free block, or -1 if there is none. *)
Lemma first_zero_bit_spec h :
  let r := swap_head_bitmap_get_first_zero_bit h in
  (r = -1 /\ forall k, 0 <= k < 1024 -> bit_of (bitmap h) k = true) \/
  (0 <= r < 1024 /\ bit_of (bitmap h) r = false /\
   forall k, 0 <= k < r -> bit_of (bitmap h) k = true).
Proof.
  unfold swap_head_bitmap_get_first_zero_bit, find_first_zero_bit.
  change (SWAP_HEAD_BITMAP_LEN * 4 * 8) with 1024.
  destruct (find_zero_from_spec (Z.to_nat 1024) 0 (bitmap h)) as (H1 & H2 & H3).
  set (r := find_zero_from _ _ _) in *. cbv zeta. rewrite s32_small by lia.
  destruct (Z.eqb_spec r 1024) as [E|E].
  - left. split; [done|]. intros k Hk. apply H3. lia.
  - right. split_and!; [lia|lia| |done]. apply H2. lia.
Qed.

Section Specs.
Context {D : Type} `{BlockDevice D}.
Implicit Types s : st D.

(** ** Flushing *)

Lemma wp_flush_data p i d s :
  geom_ok (view_of s) -> v_infos (view_of s) !! p = Some i -> info_ok (v_data (view_of s)) i ->
  data i = Some d ->
  wp (flush_swap_info_data p)
     (fun ret s' => hush s s' /\ infos s' = infos s /\ (ret = 0 \/ ret = -1) /\
        (ret = 0 -> forall k, 0 <= k < 128 ->
           media (dev s') (swap_sec (table i) + k) = slice (512 * k) 512 d)) s.
Proof.
  intros Hg Hp Hok Hd. unfold flush_swap_info_data. kstep. eapply wp_get_info_v; [done|].
  intros i0 Hi0 <-. destruct Hok as [(d' & Hd' & Hlen) _ _ Hsz Hix Hsw _]. cbn in *.
  rewrite Hd' in Hd. injection Hd as ->. rewrite Hsz, Hd', Hsw.
  unfold DATA_BLOCK_NUM, DATA_SECTOR in Hix.
  change (SECTOR_1M * 64 / SECTOR_NUM_PER_SWAP_BLOCK) with 1024 in Hix.
  change (u32 (SECTOR_NUM_PER_SWAP_BLOCK * SECTOR_SIZE)) with 65536.
  layout. unfold v_data, v_reserve, v_head, v_table in *. cbn in Hg |- *.
  eapply wp_mono; [apply wp_hd_write; [lia|lia|done|done]|].
  cbv beta. intros ret s' (Hio & Ht & Hret & Hok).
  split_and!; [|by apply io_infos|done|exact Hok].
  eapply hush_io; [done|exact Ht|]. intros x. layout. unfold v_reserve. cbn. lia.
Qed.

Lemma wp_write_until fuel sect limit buffer s :
  0 <= sect -> sect + 1 < 2 ^ 32 -> limit < 2 ^ 32 -> zlen buffer = 512 ->
  limit - sect <= Z.of_nat fuel -> (0 < fuel)%nat ->
  wp (write_until fuel sect limit buffer)
     (fun sect' s' => sect < sect' <= Z.max (sect + 1) limit /\ io s s' /\
        touches (between sect sect') s s') s.
Proof.
  revert sect s. induction fuel as [|f IH]; intros sect s H1 H2 H3 Hb Hf Hpos; [lia|].
  cbn [write_until]. kstep. unfold hd_write_sector_retry, SECTOR_SIZE.
  eapply wp_mono; [apply wp_hd_write; [lia|lia|done|done]|].
  cbv beta. intros ret s' (Hio & Ht & _ & _). rewrite u64_small by lia.
  destruct (ret =? 0); [kstep; split_and!; [lia|lia|done|done]|].
  destruct (Z.leb_spec limit (sect + 1)); [kstep; split_and!; [lia|lia|done|done]|].
  eapply wp_mono; [apply IH; try lia; done|].
  cbv beta. intros sect' s'' (Hs' & Hio' & Ht'). split_and!; [lia|lia|by eapply io_trans|].
  eapply touches_trans; eapply touches_mono; [exact Ht| |exact Ht'|]; unfold between; lia.
Qed.

Lemma wp_flush_table_sector si bi buffer s :
  geom_ok (view_of s) -> zlen buffer = 512 ->
  v_table (view_of s) <= si < v_table (view_of s) + 1024 ->
  v_reserve (view_of s) + SWAP_TABLE_BACKUP_OFFSET <= bi
    < v_reserve (view_of s) + SWAP_TABLE_BACKUP_OFFSET + 1024 ->
  wp (flush_table_sector si bi buffer)
     (fun x s' => io s s' /\ touches (reserved (view_of s)) s s' /\
        si < fst x <= Z.max (si + 1) (v_table (view_of s) + 32) /\
        bi < snd x <= Z.max (bi + 1) (v_reserve (view_of s) + SWAP_TABLE_BACKUP_OFFSET + 32)) s.
Proof.
  intros Hg Hb Hsi Hbi. unfold flush_table_sector, write_fuel. layout.
  unfold v_data, v_reserve, v_head, v_table in *. cbn in Hg, Hsi, Hbi |- *.
  do 3 kstep. rewrite u64_small by lia.
  eapply wp_mono; [apply wp_write_until; try lia; done|].
  cbv beta. intros si' s1 (Hsi' & Hio1 & Ht1).
  assert (sector_reserve_start (core s1) = sector_reserve_start (core s)) as Er
    by (unfold io in Hio1; by rewrite Hio1).
  do 3 kstep. rewrite Er, u64_small by lia.
  eapply wp_mono; [apply wp_write_until; try lia; done|].
  cbv beta. intros bi' s2 (Hbi' & Hio2 & Ht2). kstep. cbn [fst snd].
  split_and!; [by eapply io_trans| |lia..].
  eapply touches_trans; eapply touches_mono; [exact Ht1| |exact Ht2|];
    unfold between; intros x; lia.
Qed.

(** Saving where an entry is stored does not change the view. *)
Lemma hush_save p i z s :
  infos s !! p = Some i ->
  hush s (set_infos (<[p := mkInfo (table_with_save z (table i)) (data i)]> (infos s)) s).
Proof.
  intros Hp. split_and!; [|done|done]. rewrite view_set_info.
  unfold v_with_infos. rewrite insert_id; [done|]. by rewrite view_lookup, Hp.
Qed.

Definition same_core s s' : Prop := core s' = core_dead (device_dead (core s')) (core s).

Lemma same_core_io s s' : io s s' -> same_core s s'.
Proof. unfold io, same_core. intros ->. done. Qed.

Lemma same_core_refl s : same_core s s.
Proof. unfold same_core. by destruct (core s). Qed.

Lemma same_core_trans s1 s2 s3 : same_core s1 s2 -> same_core s2 s3 -> same_core s1 s3.
Proof. unfold same_core. intros E1 E2. rewrite E2, E1. done. Qed.

Lemma wp_flush_entries l : forall i si bi buffer s,
  geom_ok (view_of s) ->
  (forall p, p ∈ l -> exists j, v_infos (view_of s) !! p = Some j /\
                                info_ok (v_data (view_of s)) j) ->
  zlen buffer = 512 -> 0 <= i < 8 -> zlen l <= 256 ->
  v_table (view_of s) <= si <= v_table (view_of s) + 32 + (256 - zlen l) ->
  v_reserve (view_of s) + SWAP_TABLE_BACKUP_OFFSET <= bi
    <= v_reserve (view_of s) + SWAP_TABLE_BACKUP_OFFSET + 32 + (256 - zlen l) ->
  wp (flush_entries l i si bi buffer)
     (fun x s' => let '(i', si', bi', buffer') := x in
        hush s s' /\ same_core s s' /\ zlen buffer' = 512 /\
        v_table (view_of s) <= si' <= v_table (view_of s) + 288 /\
        v_reserve (view_of s) + SWAP_TABLE_BACKUP_OFFSET <= bi'
          <= v_reserve (view_of s) + SWAP_TABLE_BACKUP_OFFSET + 288) s.
Proof.
  induction l as [|p l IH]; intros i si bi buffer s Hg Hall Hb Hi Hlen Hsi Hbi;
    cbn [flush_entries].
  { change (zlen (@nil ptr)) with 0 in *. kstep.
    split_and!; first [lia|apply hush_refl|apply same_core_refl]. }
  assert (zlen (p :: l) = zlen l + 1) as Hcons by (unfold zlen; cbn [length]; lia).
  pose proof (zlen_nonneg l) as Hl0.
  destruct (Hall p ltac:(left)) as (j & Hj & Hok).
  kstep. eapply wp_get_info_v; [done|]. intros e He <-. kstep. unfold set_info. kstep.
  set (t := table_with_save si (table e)). set (s1 := set_infos _ s).
  assert (hush s s1) as Hh1 by (by apply hush_save).
  assert (same_core s s1) as Hc1 by (unfold same_core; subst s1; cbn; by destruct (core s)).
  assert (zlen (encode_table t) = 64) as Ht
    by (apply zlen_encode_table; by destruct (io_table _ _ Hok) as (_&_&_&_&_&?&_)).
  set (buf0 := if i =? 0 then _ else buffer).
  assert (zlen buf0 = 512) as Hb0 by (subst buf0; destruct (i =? 0); [by apply zlen_fill|done]).
  kstep. unfold sizeof_swap_table. apply wp_store; [lia|lia|].
  assert (zlen (splice (i * 64) (encode_table t) buf0) = 512) as Hb1
    by (rewrite zlen_splice; lia).
  pose proof Hh1 as (Ev1 & _ & _).
  assert (forall s2 i' si' bi' buf', hush s s2 -> same_core s s2 -> zlen buf' = 512 -> 0 <= i' < 8 ->
    v_table (view_of s) <= si' <= v_table (view_of s) + 32 + (256 - zlen l) ->
    v_reserve (view_of s) + SWAP_TABLE_BACKUP_OFFSET <= bi'
      <= v_reserve (view_of s) + SWAP_TABLE_BACKUP_OFFSET + 32 + (256 - zlen l) ->
    wp (flush_entries l i' si' bi' buf') (fun x s' => let '(i', si', bi', buffer') := x in
        hush s s' /\ same_core s s' /\ zlen buffer' = 512 /\
        v_table (view_of s) <= si' <= v_table (view_of s) + 288 /\
        v_reserve (view_of s) + SWAP_TABLE_BACKUP_OFFSET <= bi'
          <= v_reserve (view_of s) + SWAP_TABLE_BACKUP_OFFSET + 288) s2) as Hrec.
  { intros s2 i' si' bi' buf' Hh2 Hc2 Hbuf Hi' Hsi' Hbi'. pose proof Hh2 as (Ev2 & _ & _).
    eapply wp_mono; [apply IH; rewrite ?Ev2; try done; try lia|].
    - intros q Hq. apply Hall. by right.
    - cbv beta. intros [[[i2 si2] bi2] buf2] s3 (Hh3 & Hc3 & R). rewrite Ev2 in R.
      split; [by eapply hush_trans|]. split; [by eapply same_core_trans|exact R]. }
  change (table_num_per_sect - 1) with 7. destruct (Z.eqb_spec i 7) as [->|Hne].
  - kstep. eapply wp_mono; [apply wp_flush_table_sector; rewrite ?Ev1; try done; lia|].
    cbv beta. intros x s2 (Hio & Htch & Hx1 & Hx2). rewrite Ev1 in *. apply Hrec; try lia.
    + eapply hush_trans; [exact Hh1|]. eapply hush_io; [done|exact Htch|]. by rewrite Ev1.
    + eapply same_core_trans; [exact Hc1|]. by apply same_core_io.
  - apply Hrec; try lia; done.
Qed.

Lemma wp_flush_table s :
  maps_ok (view_of s) ->
  wp flush_swap_info_table (fun ret s' => ret = 0 /\ hush s s' /\ same_core s s') s.
Proof.
  intros Hm. pose proof (mo_geom _ Hm) as Hg. unfold flush_swap_info_table. do 3 kstep.
  pose proof (mo_len _ Hm) as Hl. cbn [view_of v_list] in Hl.
  assert (u64 (sector_reserve_start (core s) + SWAP_TABLE_BACKUP_OFFSET)
          = v_reserve (view_of s) + SWAP_TABLE_BACKUP_OFFSET) as ->.
  { apply u64_small. layout. unfold v_reserve in *. cbn in Hg |- *. lia. }
  eapply wp_mono.
  { change (sector_table (core s)) with (v_table (view_of s)).
    apply wp_flush_entries; [done|exact (mo_infos _ Hm)|by apply zlen_fill|lia..]. }
  cbv beta. intros [[[i si] bi] buf] s1 (Hh & Hc & Hb & Hsi & Hbi). pose proof Hh as (Ev & _ & _).
  kstep. destruct (negb (i =? 0)).
  - kstep. eapply wp_mono; [apply wp_flush_table_sector; rewrite ?Ev; try done; lia|].
    cbv beta. intros x s2 (Hio & Htch & _). do 2 kstep. split_and!; [done| |].
    + eapply hush_trans; [exact Hh|]. by eapply hush_io.
    + eapply same_core_trans; [exact Hc|]. by apply same_core_io.
  - do 2 kstep. done.
Qed.

(** ** The head *)

Lemma crc_of_head_u32 h : head_wf h -> 0 <= crc_of_head h < 2 ^ 32.
Proof.
  intros Hh. unfold crc_of_head. pose proof (zlen_encode_head h Hh) as Hl.
  generalize dependent (encode_head h). intros b Hl.
  change (SECTOR_SIZE - 4) with 508.
  assert (zlen (slice 0 508 b) = 508) as Hs by (apply zlen_slice; lia).
  pose proof (swap_crc32_u32 0xffffffff (slice 0 508 b)) as Hu. rewrite Hs in Hu.
  apply Hu. unfold is_u32. lia.
Qed.

(** The head as it goes to the disk. *)
Definition signed_head (h : swap_head) : swap_head := head_with_checksum (crc_of_head h) h.

Lemma signed_head_wf h : head_wf h -> head_wf (signed_head h).
Proof.
  intros Hh. pose proof (crc_of_head_u32 h Hh) as Hc.
  destruct Hh as (?&?&?&?&?&?&?). unfold head_wf, signed_head, head_with_checksum.
  cbn [head_string status version bitmap head_reserved head_checksum]. split_and!; assumption || apply Hc.
Qed.

Lemma wp_flush_head s :
  geom_ok (view_of s) -> head_wf (head (core s)) ->
  wp flush_swap_head
     (fun ret s' => hush s s' /\ (ret = 0 \/ ret = -1) /\ infos s' = infos s /\ log s' = log s /\
        core s' = core_dead (device_dead (core s')) (core_head (signed_head (head (core s))) (core s)) /\
        (ret = 0 -> media (dev s') (v_head (view_of s) + SWAP_HEAD_BACKUP_OFFEST)
                    = encode_head (signed_head (head (core s))))) s.
Proof.
  intros Hg Hh. unfold flush_swap_head, upd_head. do 4 kstep.
  fold (signed_head (head (core s))). pose proof (signed_head_wf _ Hh) as Hh'.
  cbn [core upd_core core_head head sector_head]. layout.
  unfold v_data, v_reserve, v_head, v_table in *. cbn in Hg.
  pose proof (zlen_encode_head _ Hh') as Hl. set (s0 := upd_core _ s).
  assert (hush s s0) as Hh0.
  { split_and!; [done| |done]. intros [_ ?]. by split. }
  kstep. unfold hd_write_sector_retry. rewrite u64_small by lia.
  eapply wp_mono; [apply wp_hd_write; [lia|lia|done|done]|].
  cbv beta. intros ret1 s1 (Hio1 & Ht1 & _).
  kstep. eapply wp_mono; [apply wp_hd_write; [lia|lia|done|done]|].
  cbv beta. intros ret2 s2 (Hio2 & Ht2 & Hret & Hok).
  assert (io s0 s2) as Hio by (by eapply io_trans).
  assert (hush s s2) as Hhush.
  { eapply hush_trans; [exact Hh0|].
    eapply (hush_io (reserved (view_of s0))); [done| |done].
    eapply touches_trans; eapply touches_mono; [exact Ht1| |exact Ht2|];
      layout; unfold v_reserve; intros x; cbn; lia. }
  assert (core s2 = core_dead (device_dead (core s2))
            (core_head (signed_head (head (core s))) (core s))) as Hcore.
  { apply same_core_io in Hio. unfold same_core in Hio. rewrite Hio. done. }
  assert (infos s2 = infos s /\ log s2 = log s) as [? ?].
  { by rewrite (io_infos _ _ Hio), (io_log _ _ Hio). }
  destruct (Z.eqb_spec ret2 0) as [->|Hne]; cbn [negb]; kstep;
    (split_and!; [done|lia|done|done|done|]); [|done].
  intros _. specialize (Hok eq_refl 0 ltac:(lia)). rewrite Z.add_0_r in Hok. cbn.
  rewrite Hok. by apply slice_last.
Qed.
(** ** Allocation of a replacement block *)

(** Bits are only added. *)
Definition bits_grow s s' : Prop :=
  forall n, 0 <= n -> bit_of (v_bitmap (view_of s)) n = true ->
            bit_of (v_bitmap (view_of s')) n = true.

(** At most [n] bits were added. *)
Definition takes (n : Z) s s' : Prop :=
  exists l : list Z, zlen l <= n /\
    forall k, 0 <= k -> bit_of (v_bitmap (view_of s')) k
                        = bit_of (v_bitmap (view_of s)) k || bool_decide (k ∈ l).

Lemma takes_none n s s' : 0 <= n -> v_bitmap (view_of s') = v_bitmap (view_of s) -> takes n s s'.
Proof. intros Hn E. exists []. split; [done|]. intros k _. rewrite E. by rewrite orb_false_r. Qed.

Lemma takes_one n k0 s s' s'' :
  (forall k, 0 <= k -> bit_of (v_bitmap (view_of s')) k
             = if decide (k = k0) then true else bit_of (v_bitmap (view_of s)) k) ->
  takes n s' s'' -> takes (n + 1) s s''.
Proof.
  intros Hb (l & Hl & Hbits). exists (k0 :: l). split; [rewrite zlen_cons; lia|].
  intros k Hk. rewrite Hbits, Hb by done. destruct (decide (k = k0)) as [->|Hne].
  - rewrite (bool_decide_eq_true_2 (k0 ∈ k0 :: l)) by left. by rewrite orb_true_r.
  - f_equal. apply bool_decide_ext. rewrite elem_of_cons. tauto.
Qed.

Lemma takes_grow n s s' : takes n s s' -> bits_grow s s'.
Proof. intros (l & _ & Hb) k Hk E. by rewrite Hb, E. Qed.

Lemma env_ok_bitmap n val s :
  0 <= n < 1024 -> env_ok s ->
  env_ok (upd_core (core_head (head_with_bitmap
            (swap_bitmap_set_bit (bitmap (head (core s))) n val) (head (core s)))) s).
Proof.
  intros Hn [(H1&H2&H3&H4&H5&H6&H7) Hl]. split; [|done].
  unfold head_wf. cbn [core upd_core core_head head head_with_bitmap head_string status version
    bitmap head_reserved head_checksum].
  split_and!; try done; try lia.
  - unfold swap_bitmap_set_bit. by rewrite length_alter.
  - apply set_bit_wf; [done|lia].
Qed.

Lemma wp_set_bit n val s :
  0 <= n < 1024 -> env_ok s ->
  wp (set_bit n val)
     (fun _ s' => bg s s' /\ infos s' = infos s /\ dev s' = dev s /\
        view_of s' = v_with_bitmap (swap_bitmap_set_bit (v_bitmap (view_of s)) n val) (view_of s) /\
        forall k, 0 <= k -> bit_of (v_bitmap (view_of s')) k
                  = if decide (k = n) then c_true val else bit_of (v_bitmap (view_of s)) k) s.
Proof.
  intros Hn Henv. unfold set_bit. change (SWAP_HEAD_BITMAP_LEN * 32) with 1024.
  rewrite (proj2 (Z.leb_le _ _)), (proj2 (Z.ltb_lt _ _)) by lia. cbn [andb].
  unfold upd_head. kstep. split_and!; [|done..|].
  - split_and!; [done|by apply env_ok_bitmap|done].
  - intros k Hk. cbn. apply bit_of_set; [|done]. unfold zlen.
    destruct Henv as [(_&_&_&->&_) _]. lia.
Qed.

Lemma wp_check_block k s :
  geom_ok (view_of s) -> 0 <= k < 1024 ->
  wp (swap_check_block (u64 (sector_data (core s) + SECTOR_NUM_PER_SWAP_BLOCK * k)))
     (fun ret s' => hush s s') s.
Proof.
  intros Hg Hk. unfold swap_check_block. layout.
  unfold v_data, v_reserve, v_head, v_table in *. cbn in Hg.
  kstep. apply wp_kmalloc; [lia|intros l; by kstep|]. intros b l Hb. kstep.
  rewrite u64_small by lia.
  eapply wp_mono; [apply wp_hd_write; [lia|lia|done|by apply zlen_fill]|].
  cbv beta. intros ret s' (Hio & Ht & Hret & _).
  assert (hush s s').
  { eapply hush_trans; [apply (hush_kmem l)|]. eapply hush_io; [exact Hio|exact Ht|].
    layout. unfold v_reserve. cbn. intros x. lia. }
  by destruct (negb (ret =? 0)); kstep.
Qed.

Lemma bg_geom s s' : bg s s' -> v_geom (view_of s') = v_geom (view_of s).
Proof. intros (E & _). by rewrite E. Qed.

Lemma geom_ok_eq v v' : v_geom v' = v_geom v -> geom_ok v -> geom_ok v'.
Proof. unfold geom_ok, v_reserve, v_head, v_table, v_data. by intros ->. Qed.

Lemma wp_alloc_loop fuel : forall k err_cnt s,
  geom_ok (view_of s) -> env_ok s -> 0 <= k < 1024 -> bit_of (v_bitmap (view_of s)) k = false ->
  0 <= err_cnt <= 16 -> 17 - err_cnt <= Z.of_nat fuel ->
  wp (alloc_block_loop fuel k err_cnt)
     (fun ret s' => bg s s' /\ takes (17 - err_cnt) s s' /\
        (ret = -1 \/ (0 <= ret < 1024 /\ bit_of (v_bitmap (view_of s)) ret = false /\
                      bit_of (v_bitmap (view_of s')) ret = true))) s.
Proof.
  induction fuel as [|f IH]; intros k err_cnt s Hg Henv Hk Hbit Herr Hf; [lia|].
  cbn [alloc_block_loop]. do 3 kstep. kcall wp_check_block; [done..|].
  intros ret s1 Hh1. pose proof Hh1 as (Ev1 & Hl1 & _). specialize (Hl1 Henv).
  destruct (ret =? 0).
  { kstep. kcall wp_set_bit; [done..|]. intros _ s2 (Hb2 & _ & _ & _ & Hbits). rewrite Ev1 in Hbits.
    kstep. split_and!.
    - eapply bg_trans; [by apply hush_bg|done].
    - replace (17 - err_cnt) with (16 - err_cnt + 1) by lia.
      eapply takes_one; [exact Hbits|]. apply takes_none; [lia|done].
    - right. split_and!; [lia|lia|done|]. rewrite Hbits by lia. by rewrite decide_True. }
  destruct (Z.leb_spec 16 err_cnt).
  { unfold inc_device_dead. do 3 kstep. split_and!; [|by apply takes_none; [lia|rewrite <- Ev1]|by left].
    apply hush_bg. eapply hush_trans; [exact Hh1|]. apply hush_dead. }
  kstep. kcall wp_set_bit; [done..|]. intros _ s2 (Hb2 & _ & _ & _ & Hbits). rewrite Ev1 in Hbits.
  assert (bg s s2) as Hbg by (eapply bg_trans; [by apply hush_bg|done]).
  replace (17 - err_cnt) with (17 - (err_cnt + 1) + 1) by lia.
  do 2 kstep. pose proof (first_zero_bit_spec (head (core s2))) as Hz. cbv zeta in Hz.
  set (k' := swap_head_bitmap_get_first_zero_bit _) in *.
  change (bitmap (head (core s2))) with (v_bitmap (view_of s2)) in Hz.
  destruct (Z.eqb_spec k' (-1)) as [E|E].
  { kstep. split_and!; [done| |by left].
    eapply takes_one; [exact Hbits|]. apply takes_none; [lia|done]. }
  destruct Hz as [[? _]|(Hk' & Hz & _)]; [done|].
  eapply wp_mono; [apply IH; try done; try lia|].
  - by eapply geom_ok_eq; [apply bg_geom|].
  - by apply Hb2.
  - cbv beta. intros ret' s3 (Hb3 & Hg3 & Hret). split_and!.
    + by eapply bg_trans.
    + eapply takes_one; [exact Hbits|exact Hg3].
    + destruct Hret as [->|(Hr & Hr0 & Hr1)]; [by left|right].
      split_and!; [lia|lia| |done]. rewrite Hbits in Hr0 by lia. by case_decide.
Qed.

Lemma wp_alloc_new_block_takes s :
  geom_ok (view_of s) -> env_ok s ->
  wp _swap_alloc_new_block
     (fun ret s' => bg s s' /\ takes 17 s s' /\
        (ret = -1 \/ (0 <= ret < 1024 /\ bit_of (v_bitmap (view_of s)) ret = false /\
                      bit_of (v_bitmap (view_of s')) ret = true))) s.
Proof.
  intros Hg Henv. unfold _swap_alloc_new_block. do 2 kstep.
  pose proof (first_zero_bit_spec (head (core s))) as Hz. cbv zeta in Hz.
  set (k := swap_head_bitmap_get_first_zero_bit _) in *.
  destruct (Z.eqb_spec k (-1)) as [E|E].
  - kstep. split_and!; [apply hush_bg, hush_refl|by apply takes_none|by left].
  - destruct Hz as [[? _]|(Hk & Hz & _)]; [done|]. apply (wp_alloc_loop 17 k 0); try done; lia.
Qed.

Lemma wp_alloc_new_block s :
  geom_ok (view_of s) -> env_ok s ->
  wp _swap_alloc_new_block
     (fun ret s' => bg s s' /\ bits_grow s s' /\
        (ret = -1 \/ (0 <= ret < 1024 /\ bit_of (v_bitmap (view_of s)) ret = false /\
                      bit_of (v_bitmap (view_of s')) ret = true))) s.
Proof.
  intros Hg Henv. eapply wp_mono; [by apply wp_alloc_new_block_takes|].
  cbv beta. intros ret s' (Hb & Ht & Hr). split_and!; [done|by eapply takes_grow|done].
Qed.

(** ** A private object *)

(** Only the object [p], the bitmap and the reserved area changed. *)
Definition priv p s s' : Prop :=
  (exists b m, view_of s' = v_with_bitmap b (v_with_infos m (view_of s)) /\
     forall q, q <> p -> m !! q = v_infos (view_of s) !! q) /\
  (env_ok s -> env_ok s') /\ touches (reserved (view_of s)) s s'.

Lemma bg_priv p s s' : bg s s' -> priv p s s'.
Proof.
  intros (E & L & T). split_and!; [|done..].
  exists (bitmap (head (core s'))), (v_infos (view_of s)). by rewrite E at 1.
Qed.

Lemma priv_trans p s1 s2 s3 : priv p s1 s2 -> priv p s2 s3 -> priv p s1 s3.
Proof.
  intros ((b1 & m1 & E1 & F1) & L1 & T1) ((b2 & m2 & E2 & F2) & L2 & T2).
  split_and!; [|auto|].
  - exists b2, m2. rewrite E2, E1. split; [done|]. intros q Hq. rewrite F2 by done.
    rewrite E1. cbn. by apply F1.
  - assert (reserved (view_of s2) = reserved (view_of s1)) as Er by (by rewrite E1).
    rewrite Er in T2. by eapply touches_trans.
Qed.

Lemma priv_set p i s : priv p s (set_infos (<[p := i]> (infos s)) s).
Proof.
  split_and!; [|done|done]. exists (v_bitmap (view_of s)), (<[p := erase_save i]> (v_infos (view_of s))).
  rewrite view_set_info. split; [reflexivity|].
  intros q Hq. by rewrite lookup_insert_ne.
Qed.

Lemma priv_free p s : priv p s (set_infos (delete p (infos s)) s).
Proof.
  split_and!; [|done|done]. exists (v_bitmap (view_of s)), (delete p (v_infos (view_of s))).
  rewrite view_free_info. split; [reflexivity|].
  intros q Hq. by rewrite lookup_delete_ne.
Qed.

Lemma priv_geom p s s' : priv p s s' -> v_geom (view_of s') = v_geom (view_of s).
Proof. intros ((b & m & E & _) & _). by rewrite E. Qed.

Lemma priv_list p s s' : priv p s s' -> v_list (view_of s') = v_list (view_of s).
Proof. intros ((b & m & E & _) & _). by rewrite E. Qed.

Lemma priv_num p s s' : priv p s s' -> v_num (view_of s') = v_num (view_of s).
Proof. intros ((b & m & E & _) & _). by rewrite E. Qed.

Lemma priv_lookup p q s s' :
  priv p s s' -> q <> p -> v_infos (view_of s') !! q = v_infos (view_of s) !! q.
Proof. intros ((b & m & E & F) & _) Hq. rewrite E. cbn. by apply F. Qed.

(** If the object was not there and is gone again, nothing happened. *)
Lemma priv_bg p s s' :
  priv p s s' -> v_infos (view_of s) !! p = None -> v_infos (view_of s') !! p = None -> bg s s'.
Proof.
  intros ((b & m & E & F) & L & T) H1 H2. split_and!; [|done..].
  assert (b = bitmap (head (core s'))) as -> by (by apply (f_equal v_bitmap) in E).
  assert (m = v_infos (view_of s)) as ->.
  { apply map_eq. intros q. destruct (decide (q = p)) as [->|]; [|by apply F].
    rewrite E in H2. cbn in H2. congruence. }
  rewrite E at 1. done.
Qed.

Lemma priv_maps p s s' :
  priv p s s' -> p ∉ v_list (view_of s) -> maps_ok (view_of s) -> maps_ok (view_of s').
Proof.
  intros ((b & m & E & F) & _) Hp Hm. rewrite E.
  destruct (maps_ok_unlisted_infos (view_of s) m Hm) as [? ? ? ?]; [|by split].
  intros q Hq. apply F. by intros ->.
Qed.

Lemma priv_sees p s s' x :
  priv p s s' -> p ∉ v_list (view_of s) -> user_sector (view_of s) x -> sees s' x = sees s x.
Proof.
  intros ((b & m & E & F) & _ & T) Hp Hx. unfold sees. rewrite E.
  transitivity (content (v_with_infos m (view_of s)) (media (dev s')) x); [done|].
  rewrite content_unlisted by (intros q Hq; apply F; by intros ->).
  apply content_ext. intros _. by eapply touches_user.
Qed.

Lemma priv_bits p s s' :
  priv p s s' -> p ∉ v_list (view_of s) -> maps_ok (view_of s) -> bits_grow s s' ->
  bits_ok (view_of s) -> bits_ok (view_of s').
Proof.
  intros ((b & m & E & F) & _) Hp Hm Hg Hb. unfold bits_grow in Hg. rewrite E in Hg |- *.
  assert (forall q, q ∈ v_list (view_of s) -> m !! q = v_infos (view_of s) !! q) as Hq
    by (intros q Hq; apply F; by intros ->).
  apply (bits_ok_mono (v_with_infos m (view_of s)) b); [| |exact Hg].
  - by apply maps_ok_unlisted_infos.
  - by apply bits_ok_unlisted_infos.
Qed.

Lemma bits_grow_view s s' : view_of s' = view_of s -> bits_grow s s'.
Proof. intros E n Hn. by rewrite E. Qed.

Lemma bits_grow_trans s1 s2 s3 : bits_grow s1 s2 -> bits_grow s2 s3 -> bits_grow s1 s3.
Proof. intros H1 H2 n Hn Hb. apply H2; [done|]. by apply H1. Qed.

(** ** Reading into an object *)

Lemma wp_info_read timeout retries p i d off sector n s :
  infos s !! p = Some i -> data i = Some d ->
  0 <= sector < 2 ^ 32 -> 0 <= n < 2 ^ 16 -> 0 <= off -> off + 512 * n <= zlen d ->
  wp (info_read (fun a b c l => hd_read_sector a b c l timeout retries) p off sector n)
     (fun ret s' => exists s1 b, io s s1 /\ touches nowhere s s1 /\ zlen b = 512 * n /\
        s' = set_infos (<[p := info_with_data (Some (splice off b d)) i]> (infos s1)) s1 /\
        (ret = 0 \/ ret = -1) /\
        (ret = 0 -> forall k, 0 <= k < n -> slice (512 * k) 512 b = media (dev s) (sector + k))) s.
Proof.
  intros Hp Hd Hs Hn Hoff Hlen. unfold info_read. kstep. eapply wp_get_info; [done|].
  rewrite Hd. unfold SECTOR_SIZE. kstep. apply wp_load; [lia..|]. kstep.
  eapply wp_mono; [apply wp_hd_read; [done|done|lia|rewrite zlen_slice; lia]|].
  cbv beta. intros [ret b] s1 (Hio & Ht & Hb & Hret & Hok). cbn [fst snd] in *.
  kstep. apply wp_store; [lia|lia|]. unfold set_info. do 3 kstep.
  exists s1, b. split_and!; [done|done|lia|done|done|done].
Qed.

(** The object [p] has a block of data and, but for [save_sec], the table [t]. *)
Definition holds p t (v : view) : Prop :=
  exists d, v_infos v !! p = Some (mkInfo t (Some d)) /\ zlen d = SWAP_BLOCK_SIZE.

Lemma io_priv p s s1 : io s s1 -> touches nowhere s s1 -> priv p s s1.
Proof.
  intros Hio Ht. apply bg_priv, hush_bg. eapply hush_io; [done|exact Ht|]. by intros x [].
Qed.

Lemma view_some p i0 s :
  v_infos (view_of s) !! p = Some i0 -> exists i, infos s !! p = Some i /\ erase_save i = i0.
Proof.
  rewrite view_lookup. destruct (infos s !! p) as [i|]; [|done]. intros [= E]. eauto.
Qed.

Lemma wp_fill p t off sector n s :
  holds p t (view_of s) -> 0 <= sector < 2 ^ 32 -> 0 <= n <= 128 -> 0 <= off ->
  off + 512 * n <= SWAP_BLOCK_SIZE ->
  wp (info_read hd_read_sector_no_retry p off sector n)
     (fun _ s' => priv p s s' /\ v_bitmap (view_of s') = v_bitmap (view_of s) /\
                  holds p t (view_of s')) s.
Proof.
  intros (d & Hp & Hlen) Hs Hn Hoff Hfit. destruct (view_some _ _ _ Hp) as (i & Hi & Hie).
  assert (data i = Some d) as Hd by (apply (f_equal data) in Hie; exact Hie).
  eapply wp_mono; [eapply (wp_info_read (5 * HZ) 0); try done; lia|].
  cbv beta. intros ret s' (s1 & b & Hio & Htch & Hb & -> & _). split_and!.
  - eapply priv_trans; [by eapply io_priv|apply priv_set].
  - rewrite view_set_info, (io_view _ _ Hio). done.
  - rewrite view_set_info. exists (splice off b d). cbn [v_infos v_with_infos].
    rewrite lookup_insert_eq. split; [|rewrite zlen_splice; lia].
    f_equal. apply (f_equal table) in Hie. cbn in Hie. rewrite <- Hie. done.
Qed.

(** ** New table entries *)

Lemma crc_of_table_u32 t : length (reserverd t) = 6%nat -> 0 <= crc_of_table t < 2 ^ 32.
Proof.
  intros Hr. unfold crc_of_table. pose proof (zlen_encode_table t Hr) as Hl.
  generalize dependent (encode_table t). intros b Hl.
  change (sizeof_swap_table - 4 - 8) with 52.
  assert (zlen (slice 0 52 b) = 52) as Hs by (apply zlen_slice; lia).
  pose proof (swap_crc32_u32 0xffffffff (slice 0 52 b)) as Hu. rewrite Hs in Hu.
  apply Hu. unfold is_u32. lia.
Qed.

Lemma info_ok_new sd d src ix ret res c z :
  zlen d = SWAP_BLOCK_SIZE -> src mod SECTOR_NUM_PER_SWAP_BLOCK = 0 ->
  0 <= src < 2 ^ 64 -> 0 <= ix < 1024 -> 0 <= sd -> sd + 2 ^ 20 < 2 ^ 64 ->
  0 <= ret < 2 ^ 32 -> length res = 6%nat -> u32s res ->
  let t := mkTable src (sd + SECTOR_NUM_PER_SWAP_BLOCK * ix) SECTOR_NUM_PER_SWAP_BLOCK
             ret ix res c z in
  info_ok sd (erase_save (mkInfo (table_with_crc (crc_of_table t) t) (Some d))).
Proof.
  intros Hd Hmod Hsrc Hix Hsd Hsd' Hret Hlen Hu t.
  pose proof (crc_of_table_u32 t Hlen) as Hc.
  split; unfold erase_save; cbn [table data src_sec swap_sec sec_size retrys index reserverd
    checksum save_sec table_with_crc t]; unfold DATA_BLOCK_NUM, DATA_SECTOR.
  - eauto.
  - unfold table_wf. cbn [src_sec swap_sec sec_size retrys index reserverd checksum save_sec].
    unfold SECTOR_NUM_PER_SWAP_BLOCK. split_and!; try assumption; try lia.
  - done.
  - done.
  - change (SECTOR_1M * 64 / SECTOR_NUM_PER_SWAP_BLOCK) with 1024. lia.
  - done.
  - symmetry. apply (crc_of_table_prefix t (crc_of_table t) 0 Hlen).
Qed.
(** ** Creating a mapping *)

Lemma holds_view p t v v' : v_infos v' !! p = v_infos v !! p -> holds p t v -> holds p t v'.
Proof. intros E (d & Hd & Hl). exists d. by rewrite E. Qed.

Lemma wp_alloc_info s :
  wp _swap_alloc_info
     (fun o s' => match o with
        | None => hush s s'
        | Some p => v_infos (view_of s) !! p = None /\ priv p s s' /\
                    v_bitmap (view_of s') = v_bitmap (view_of s) /\
                    holds p zero_table (view_of s')
        end) s.
Proof.
  unfold _swap_alloc_info. kstep. apply wp_kmalloc; [done|intros l; by kstep|].
  intros b l _. do 2 kstep. set (s1 := set_kmem l s). set (p := fresh (dom (infos s1))).
  assert (infos s1 !! p = None) as Hp
    by (apply not_elem_of_dom; apply is_fresh).
  assert (v_infos (view_of s1) !! p = None) as Hpv by (by rewrite view_lookup, Hp).
  unfold set_info. do 3 kstep. set (s2 := set_infos _ s1). apply wp_kmalloc; [done|..].
  - intros l2. unfold free_info. do 3 kstep. split_and!; [|done|done].
    unfold view_of, geom. cbn [infos set_infos core set_kmem s2]. by rewrite delete_insert_id.
  - intros d l2 _. do 3 kstep. set (s3 := set_kmem l2 s2). split_and!; [done| |done|].
    + eapply priv_trans; [|apply priv_set]. exact (priv_set p _ s1).
    + rewrite view_set_info. exists (fill SWAP_BLOCK_SIZE Byte.x00). cbn [v_infos v_with_infos].
      rewrite lookup_insert_eq. split; [done|by apply zlen_fill].
Qed.

Lemma wp_swap_create_inner p src off len s :
  maps_ok (view_of s) -> env_ok s -> p ∉ v_list (view_of s) ->
  holds p zero_table (view_of s) ->
  src mod SECTOR_NUM_PER_SWAP_BLOCK = 0 -> user_sector (view_of s) src ->
  0 <= off -> 0 <= len -> off + len <= 128 ->
  wp (_swap_create p src off len)
     (fun ret s' => priv p s s' /\ bits_grow s s' /\
        (ret = -1 \/
         (ret = 0 /\ exists i, v_infos (view_of s') !! p = Some i /\
            info_ok (v_data (view_of s)) i /\ src_sec (table i) = src /\
            bit_of (v_bitmap (view_of s)) (index (table i)) = false /\
            bit_of (v_bitmap (view_of s')) (index (table i)) = true))) s.
Proof.
  intros Hm Henv Hp Hh Hmod Husr Hoff Hlen Hfit. pose proof (mo_geom _ Hm) as Hg.
  unfold _swap_create. kstep. kcall wp_alloc_new_block; [done..|].
  intros ix s1 (Hb1 & Hg1 & Hix).
  assert (priv p s s1) as Hp1 by (by apply bg_priv).
  destruct (Z.eqb_spec ix (-1)) as [->|Hne].
  { kstep. split_and!; [done|done|by left]. }
  destruct Hix as [?|(Hix & Hix0 & Hix1)]; [done|].
  change SECTOR_NUM_PER_SWAP_BLOCK with 128.
  rewrite (proj2 (Z.ltb_ge 128 (off + len))) by lia.
  assert (holds p zero_table (view_of s1)) as Hh1.
  { eapply holds_view; [|exact Hh]. destruct Hb1 as (-> & _). done. }
  assert (v_reserve (view_of s) < 2 ^ 32 - 2 ^ 20) as Hrs by (layout; lia).
  unfold user_sector in Husr.
  kstep. apply wp_mono with (P := fun _ s2 => priv p s s2 /\
      v_bitmap (view_of s2) = v_bitmap (view_of s1) /\ holds p zero_table (view_of s2)).
  { destruct (Z.ltb_spec 0 off); [|by kstep]. kstep.
    eapply wp_mono; [apply wp_fill; [exact Hh1|lia|lia|lia|layout; lia]|].
    cbv beta. intros _ s2 (Hp2 & Hbm & Hh2). kstep. split_and!; [by eapply priv_trans|done..]. }
  intros _ s2 (Hp2 & Hbm2 & Hh2). kstep.
  apply wp_mono with (P := fun _ s3 => priv p s s3 /\
      v_bitmap (view_of s3) = v_bitmap (view_of s1) /\ holds p zero_table (view_of s3)).
  { destruct (Z.ltb_spec 0 (128 - (off + len))); [|by kstep]. kstep.
    rewrite u64_small by lia. unfold SECTOR_SIZE.
    eapply wp_mono; [apply wp_fill; [exact Hh2|lia|lia|lia|layout; lia]|].
    cbv beta. intros _ s3 (Hp3 & Hbm & Hh3). kstep.
    split_and!; [by eapply priv_trans|congruence|done]. }
  intros _ s3 (Hp3 & Hbm3 & (d & Hd & Hdl)). do 2 kstep. kstep.
  eapply wp_get_info_v; [exact Hd|]. intros i Hi Hie.
  unfold set_info. do 3 kstep.
  assert (v_data (view_of s3) = v_data (view_of s)) as Hvd
    by (unfold v_data; by rewrite (priv_geom _ _ _ Hp3)).
  change (sector_data (core s3)) with (v_data (view_of s3)). rewrite Hvd.
  assert (0 <= v_data (view_of s) < 2 ^ 32) as Hdr by (layout; lia).
  rewrite u32_small, u64_small by (rewrite ?u32_small; lia).
  assert (retrys (table i) = 0 /\ reserverd (table i) = [0;0;0;0;0;0]) as [Hr Hres].
  { apply (f_equal table) in Hie. destruct i as [[] ?]. cbn in Hie |- *. by injection Hie. }
  assert (data i = Some d) as Hdi by (apply (f_equal data) in Hie; exact Hie).
  rewrite Hr, Hres, Hdi. set (j := mkInfo _ (Some d)).
  assert (info_ok (v_data (view_of s)) (erase_save j)) as Hok.
  { apply info_ok_new; try done; try lia. repeat constructor; lia. }
  assert (v_bitmap (view_of (set_infos (<[p:=j]> (infos s3)) s3)) = v_bitmap (view_of s1)) as Hbm4
    by (by rewrite view_set_info).
  split_and!.
  - eapply priv_trans; [exact Hp3|apply priv_set].
  - intros n Hn Hb. rewrite Hbm4. by apply Hg1.
  - right. split; [done|]. exists (erase_save j). rewrite Hbm4, view_set_info. cbn [v_infos v_with_infos].
    rewrite lookup_insert_eq. split_and!; done.
Qed.
Lemma wp_create_out o start count reason s :
  maps_ok (view_of s) -> env_ok s ->
  (forall p, o = Some p -> is_Some (v_infos (view_of s) !! p)) ->
  wp (swap_create_out o start count reason) (fun o' s' => o' = o /\ hush s s') s.
Proof.
  intros Hm Henv Ho. unfold swap_create_out. destruct o as [p|].
  - destruct (Ho p eq_refl) as [i0 Hi]. kstep. eapply wp_get_info_v; [exact Hi|]. intros i _ _.
    kstep. kcall wp_push_hush; [done..|]. intros _ s' Hh. by kstep.
  - kstep. kcall wp_push_hush; [done..|]. intros _ s' Hh. by kstep.
Qed.

(** Freeing a private object: as if it had never been there. *)
Lemma priv_free_bg p s s' :
  priv p s s' -> v_infos (view_of s) !! p = None -> bg s (set_infos (delete p (infos s')) s').
Proof.
  intros Hp Hn. eapply priv_bg; [|exact Hn|].
  - eapply priv_trans; [exact Hp|apply priv_free].
  - rewrite view_free_info. cbn. apply lookup_delete_eq.
Qed.

Lemma bits_grow_free p s s' :
  bits_grow s s' -> bits_grow s (set_infos (delete p (infos s')) s').
Proof. done. Qed.

Lemma bg_then_hush s s1 s2 :
  bg s s1 -> bits_grow s s1 -> hush s1 s2 -> bg s s2 /\ bits_grow s s2.
Proof.
  intros Hb Hg Hh. split; [eapply bg_trans; [done|by apply hush_bg]|].
  eapply bits_grow_trans; [exact Hg|]. apply bits_grow_view, Hh.
Qed.

Definition created s (o : option ptr) (src : Z) s' : Prop :=
  match o with
  | None => bg s s' /\ bits_grow s s'
  | Some p =>
      v_infos (view_of s) !! p = None /\ priv p s s' /\ bits_grow s s' /\
      v_num (view_of s) < MAX_SWAP_BLOCK_FOR_USE /\
      exists i, v_infos (view_of s') !! p = Some i /\ info_ok (v_data (view_of s)) i /\
        src_sec (table i) = src /\ bit_of (v_bitmap (view_of s)) (index (table i)) = false /\
        bit_of (v_bitmap (view_of s')) (index (table i)) = true
  end.

(** Undoing a creation: clear the bit, free the object. *)
Lemma created_undo p i s s' s2 :
  v_infos (view_of s) !! p = None -> priv p s s' -> bits_grow s s' ->
  bit_of (v_bitmap (view_of s)) (index (table i)) = false ->
  bg s' s2 ->
  (forall k, 0 <= k -> bit_of (v_bitmap (view_of s2)) k
     = if decide (k = index (table i)) then false else bit_of (v_bitmap (view_of s')) k) ->
  bg s (set_infos (delete p (infos s2)) s2) /\ bits_grow s (set_infos (delete p (infos s2)) s2).
Proof.
  intros Hn Hp Hg Hb0 Hbg Hbits. split.
  - apply priv_free_bg; [|done]. eapply priv_trans; [exact Hp|by apply bg_priv].
  - intros n Hn0 Hb. cbn. rewrite Hbits by done. case_decide as E.
    + subst n. congruence.
    + by apply Hg.
Qed.

Lemma wp_free_info p (Q : unit -> st D -> Prop) s :
  Q tt (set_infos (delete p (infos s)) s) -> wp (_swap_dealloc_info (Some p)) Q s.
Proof. done. Qed.

Lemma wp_clear_index p i s :
  v_infos (view_of s) !! p = Some i -> 0 <= index (table i) < 1024 -> env_ok s ->
  wp (e ← get_info p; set_bit (s32 (index (table e))) 0)
     (fun _ s' => bg s s' /\
        forall k, 0 <= k -> bit_of (v_bitmap (view_of s')) k
          = if decide (k = index (table i)) then false else bit_of (v_bitmap (view_of s)) k) s.
Proof.
  intros Hi Hix Henv. kstep. eapply wp_get_info_v; [exact Hi|]. intros e _ <-. cbn in Hix |- *.
  rewrite s32_small by lia. kcall wp_set_bit; [done..|].
  intros _ s' (Hb & _ & _ & _ & Hbits). split; [done|exact Hbits].
Qed.

Lemma info_index sd i : info_ok sd i -> 0 <= index (table i) < 1024.
Proof. intros Hok. exact (io_index _ _ Hok). Qed.

(** The piece of a request that lies in the block of [start]. *)
Definition in_block (start count : Z) : Prop :=
  0 < count /\ start - SWAP_SECTOR_ALIGN start + count <= 128.

Lemma wp_swap_create start count s :
  maps_ok (view_of s) -> env_ok s -> user_sector (view_of s) start -> in_block start count ->
  wp (swap_create start count) (fun o s' => created s o (SWAP_SECTOR_ALIGN start) s') s.
Proof.
  intros Hm Henv Hu (Hc & Hin). unfold swap_create. do 2 kstep.
  destruct (align_spec start) as [Hal Hmod]. change SECTOR_NUM_PER_SWAP_BLOCK with 128 in Hal.
  assert (0 <= SWAP_SECTOR_ALIGN start) as Hal0.
  { unfold SWAP_SECTOR_ALIGN, SWAP_BLOCK_SECTOR, SWAP_BLOCK_INDEX, SECTOR_NUM_PER_SWAP_BLOCK.
    unfold user_sector in Hu. pose proof (Z.div_pos start 128). lia. }
  assert (forall reason s1, bg s s1 -> bits_grow s s1 ->
    wp (swap_create_out None start count reason)
       (fun o s' => created s o (SWAP_SECTOR_ALIGN start) s') s1) as Hnone.
  { intros reason s1 Hb Hg. eapply wp_mono.
    { apply wp_create_out; [by eapply bg_maps|by apply Hb|done]. }
    cbv beta. intros o s2 [-> Hh]. by eapply bg_then_hush. }
  destruct (Z.leb_spec MAX_SWAP_BLOCK_FOR_USE (info_num (core s))) as [|Hnum].
  { apply Hnone; [apply hush_bg, hush_refl|by intros n]. }
  kstep. kcall wp_alloc_info. intros [p|] s1.
  2: { intros Hh. apply Hnone; [by apply hush_bg|by apply bits_grow_view, Hh]. }
  intros (Hn & Hp1 & Hbm1 & Hh1).
  pose proof (maps_ok_unlisted _ _ Hm Hn) as Hpl.
  assert (maps_ok (view_of s1)) as Hm1 by (by eapply priv_maps).
  assert (env_ok s1) as Henv1 by (by apply Hp1).
  assert (bits_grow s s1) as Hg1 by (intros n Hn'; by rewrite Hbm1).
  assert (v_geom (view_of s1) = v_geom (view_of s)) as Hgeo by (by eapply priv_geom).
  unfold user_sector, v_reserve in Hu.
  rewrite !s32_small by lia. kstep. eapply wp_mono.
  { apply wp_swap_create_inner; try done; try lia.
    - by rewrite (priv_list _ _ _ Hp1).
    - unfold user_sector, v_reserve. rewrite Hgeo. lia. }
  cbv beta. intros ret s2 (Hp2 & Hg2 & Hret).
  assert (priv p s s2) as Hp02 by (by eapply priv_trans).
  assert (bits_grow s s2) as Hg02 by (by eapply bits_grow_trans).
  destruct Hret as [->|(-> & i & Hi & Hok & Hsrc & Hb0 & Hb1)]; cbn [Z.eqb negb].
  { kstep. apply wp_free_info. apply Hnone; [by apply priv_free_bg|done]. }
  assert (v_data (view_of s1) = v_data (view_of s)) as Hvd by (unfold v_data; by rewrite Hgeo).
  rewrite Hvd in Hok. rewrite Hbm1 in Hb0.
  assert (created s (Some p) (SWAP_SECTOR_ALIGN start) s2) as Hcr.
  { split_and!; try done. exists i. split_and!; done. }
  assert (env_ok s2) as Henv2 by (by apply Hp02).
  assert (maps_ok (view_of s2)) as Hm2 by (by eapply priv_maps).
  kstep. eapply wp_mono; [apply wp_flush_head; [apply (mo_geom _ Hm2)|apply Henv2]|].
  cbv beta. intros ret s3 (Hh3 & Hret & _). pose proof Hh3 as (Ev3 & He3 & _).
  specialize (He3 Henv2).
  destruct (Z.eqb_spec ret 0) as [->|Hne]; cbn [negb].
  - eapply wp_mono; [apply wp_create_out; [by eapply hush_maps|done|]|].
    + intros q [= <-]. rewrite Ev3. eauto.
    + cbv beta. intros o s4 [-> Hh4].
      assert (hush s2 s4) as Hh by (by eapply hush_trans). destruct Hh as (Ev & _ & _).
      split_and!; try done.
      * eapply priv_trans; [exact Hp02|]. apply bg_priv, hush_bg. by eapply hush_trans.
      * eapply bits_grow_trans; [exact Hg02|by apply bits_grow_view].
      * exists i. rewrite Ev. done.
  - apply kbind_assoc. kstep. eapply wp_mono.
    { apply (wp_clear_index p i); [by rewrite Ev3|by eapply info_index|done]. }
    cbv beta. intros _ s4 (Hb4 & Hbits4). rewrite Ev3 in Hbits4.
    kstep. apply wp_free_info.
    destruct (created_undo p i s s2 s4) as [? ?]; try done; [|by apply Hnone].
    eapply bg_trans; [by apply hush_bg|done].
Qed.
(** ** Writing to a mapped block *)

Lemma wp_info_store p i d off new s :
  v_infos (view_of s) !! p = Some i -> data i = Some d -> 0 <= off -> off + zlen new <= zlen d ->
  wp (info_store p off new)
     (fun _ s' => priv p s s' /\ dev s' = dev s /\
        view_of s' = v_with_infos (<[p := info_with_data (Some (splice off new d)) i]>
                                     (v_infos (view_of s))) (view_of s)) s.
Proof.
  intros Hp Hd Hoff Hfit. unfold info_store. kstep. eapply wp_get_info_v; [done|].
  intros e He <-. cbn in Hd. kstep. eapply wp_deref; [exact Hd|]. kstep.
  apply wp_store; [done|done|]. unfold set_info. kstep.
  split_and!; [apply priv_set|done|]. rewrite view_set_info. done.
Qed.

(** An object of the invariant may be replaced by another for the same source. *)
Lemma priv_maps_update p i' s s' :
  priv p s s' -> maps_ok (view_of s) -> v_infos (view_of s') !! p = Some i' ->
  info_ok (v_data (view_of s)) i' ->
  (p ∈ v_list (view_of s) ->
     src_sec ∘ table <$> v_infos (view_of s) !! p = Some (src_sec (table i'))) ->
  maps_ok (view_of s').
Proof.
  intros ((b & m & E & F) & _) Hm Hi Hok Hsrc. rewrite E in Hi |- *. cbn in Hi.
  pose proof (maps_ok_update (view_of s) p i' Hm Hok Hsrc) as Hm'.
  assert (m = <[p := i']> (v_infos (view_of s))) as ->.
  { apply map_eq. intros q. destruct (decide (q = p)) as [->|Hq].
    - by rewrite lookup_insert_eq.
    - rewrite lookup_insert_ne by done. by apply F. }
  destruct Hm'. by split.
Qed.

Lemma wp_recreate_read p t k s :
  holds p t (view_of s) -> 0 <= swap_sec t -> swap_sec t + 128 < 2 ^ 32 -> 0 <= k < 128 ->
  wp (recreate_read p k)
     (fun _ s' => priv p s s' /\ v_bitmap (view_of s') = v_bitmap (view_of s) /\
                  holds p t (view_of s')) s.
Proof.
  intros Hh Ht Ht' Hk. unfold recreate_read. kstep.
  destruct Hh as (d & Hd & Hdl). eapply wp_get_info_v; [exact Hd|]. intros e _ He.
  assert (swap_sec (table e) = swap_sec t) as ->.
  { apply (f_equal (swap_sec ∘ table)) in He. exact He. }
  kstep. unfold SECTOR_SIZE. rewrite u64_small by lia.
  eapply wp_mono; [apply (wp_fill p t); [by exists d|lia|lia|lia|layout; lia]|].
  cbv beta. intros ret s1 (Hp1 & Hb1 & (d1 & Hd1 & Hdl1)).
  destruct (negb (ret =? 0)).
  - eapply wp_mono; [apply (wp_info_store p (mkInfo t (Some d1)) d1); [exact Hd1|done|lia|]|].
    { rewrite zlen_fill by lia. layout. lia. }
    cbv beta. intros _ s2 (Hp2 & _ & Ev2). split_and!; [by eapply priv_trans|by rewrite Ev2|].
    rewrite Ev2. eexists. cbn [v_infos v_with_infos]. rewrite lookup_insert_eq. split; [done|].
    rewrite zlen_splice; rewrite ?zlen_fill; layout; lia.
  - kstep. split_and!; [done|done|by exists d1].
Qed.

Lemma wp_recreate_loop p t s :
  holds p t (view_of s) -> 0 <= swap_sec t -> swap_sec t + 128 < 2 ^ 32 ->
  wp (kfor (B := unit) (Z.to_nat SECTOR_NUM_PER_SWAP_BLOCK) 0
        (fun i (_ : unit) => recreate_read p i;; mret (inl tt)) tt)
     (fun _ s' => priv p s s' /\ v_bitmap (view_of s') = v_bitmap (view_of s) /\
                  holds p t (view_of s')) s.
Proof.
  intros Hh Ht Ht'.
  apply (wp_for (fun _ _ s' => priv p s s' /\ v_bitmap (view_of s') = v_bitmap (view_of s) /\
                               holds p t (view_of s'))).
  - split_and!; [apply bg_priv, hush_bg, hush_refl|done|done].
  - unfold SECTOR_NUM_PER_SWAP_BLOCK. intros k _ s1 Hk (Hp1 & Hb1 & Hh1). kstep.
    eapply wp_mono; [apply (wp_recreate_read p t); [done..|lia]|].
    cbv beta. intros _ s2 (Hp2 & Hb2 & Hh2). kstep.
    split_and!; [by eapply priv_trans|congruence|done].
  - intros _ s1 Hs1. exact Hs1.
Qed.

(** How an operation on the object [p] may have moved its replacement block. *)
Definition moved s (ret : Z) (i i' : swap_info) s' : Prop :=
  table i' = table i \/
  (bit_of (v_bitmap (view_of s)) (index (table i')) = false /\
   (ret <> -1 -> bit_of (v_bitmap (view_of s')) (index (table i')) = true)).

Definition recreated p i s (ret : Z) s' : Prop :=
  priv p s s' /\ bits_grow s s' /\ (ret = 0 \/ ret = -1) /\
  exists i', v_infos (view_of s') !! p = Some i' /\ info_ok (v_data (view_of s)) i' /\
    src_sec (table i') = src_sec (table i) /\ moved s ret i i' s'.

(** The object [p] has been pointed at the free block [ix]. *)
Record retargeted p i ix s s' : Prop := {
  rt_priv : priv p s s';
  rt_grow : bits_grow s s';
  rt_range : 0 <= ix < 1024;
  rt_free : bit_of (v_bitmap (view_of s)) ix = false;
  rt_taken : bit_of (v_bitmap (view_of s')) ix = true;
  rt_info : exists j, v_infos (view_of s') !! p = Some j /\ info_ok (v_data (view_of s)) j /\
              src_sec (table j) = src_sec (table i) /\ index (table j) = ix
}.

Lemma retargeted_hush p i ix s s1 s2 :
  retargeted p i ix s s1 -> hush s1 s2 -> retargeted p i ix s s2.
Proof.
  intros [Hp Hg Hr Hf Ht Hi] Hh. pose proof Hh as (Ev & _ & _). split; rewrite ?Ev; try done.
  - eapply priv_trans; [exact Hp|]. by apply bg_priv, hush_bg.
  - intros n Hn. rewrite Ev. by apply Hg.
Qed.

Lemma retargeted_done p i ix s s' : retargeted p i ix s s' -> recreated p i s 0 s'.
Proof.
  intros [Hp Hg Hr Hf Ht (j & Hj & Hok & Hs & Hx)]. split_and!; [done|done|by left|].
  exists j. split_and!; try done. right. by rewrite Hx.
Qed.

Lemma wp_retargeted_err p i ix s s1 :
  retargeted p i ix s s1 -> env_ok s ->
  wp (set_bit ix 0;; mret (-1)) (recreated p i s) s1.
Proof.
  intros [Hp Hg Hr Hf Ht (j & Hj & Hok & Hs & Hx)] Henv. kstep.
  kcall wp_set_bit; [done|by apply Hp|]. intros _ s2 (Hb & _ & _ & Ev & Hbits). kstep.
  split_and!; [eapply priv_trans; [done|by apply bg_priv]| |by right|].
  - intros n Hn Hb'. rewrite Hbits by done. case_decide; [congruence|by apply Hg].
  - exists j. rewrite Ev. split_and!; try done. right. by rewrite Hx.
Qed.

Lemma retargeted_maps p i ix s s' :
  retargeted p i ix s s' -> maps_ok (view_of s) -> v_infos (view_of s) !! p = Some i ->
  maps_ok (view_of s').
Proof.
  intros [Hp _ _ _ _ (j & Hj & Hok & Hs & _)] Hm Hi.
  eapply priv_maps_update; [exact Hp|done|exact Hj|done|]. intros _. rewrite Hi. cbn. by rewrite Hs.
Qed.

(** The old data goes to the new block, the table and the head follow. *)
Lemma wp_recreate_flush p i ix s s1 :
  retargeted p i ix s s1 -> maps_ok (view_of s) -> env_ok s -> v_infos (view_of s) !! p = Some i ->
  wp (let err := set_bit ix 0;; mret (-1) in
      ret ← flush_swap_info_data p;
      if negb (ret =? 0) then err else
      ret ← flush_swap_info_table;
      if negb (ret =? 0) then err else
      ret ← flush_swap_head;
      if negb (ret =? 0) then err else mret 0) (recreated p i s) s1.
Proof.
  intros Hrt Hm Henv Hi. cbv zeta. pose proof (retargeted_maps _ _ _ _ _ Hrt Hm Hi) as Hm1.
  destruct (rt_info _ _ _ _ _ Hrt) as (j & Hj & Hok & _).
  destruct (io_data _ _ Hok) as (d & Hd & _). pose proof (rt_priv _ _ _ _ _ Hrt) as Hp.
  assert (v_data (view_of s1) = v_data (view_of s)) as Hvd
    by (unfold v_data; by rewrite (priv_geom _ _ _ Hp)).
  kstep. eapply wp_mono; [apply (wp_flush_data p j d); [apply (mo_geom _ Hm1)|done| |done]|].
  { by rewrite Hvd. }
  cbv beta. intros ret s2 (Hh2 & _ & _ & _).
  assert (retargeted p i ix s s2) as Hrt2 by (by eapply retargeted_hush).
  destruct (negb (ret =? 0)); [by apply wp_retargeted_err|].
  kstep. eapply wp_mono; [apply wp_flush_table; by eapply hush_maps|].
  cbv beta. intros ret2 s3 (-> & Hh3 & _). cbn [Z.eqb negb].
  assert (retargeted p i ix s s3) as Hrt3 by (by eapply retargeted_hush).
  kstep. eapply wp_mono.
  { apply wp_flush_head; [|apply Hrt3, Henv].
    apply mo_geom. eapply (retargeted_maps _ _ _ _ _ Hrt3); done. }
  cbv beta. intros ret3 s4 (Hh4 & _).
  assert (retargeted p i ix s s4) as Hrt4 by (by eapply retargeted_hush).
  destruct (negb (ret3 =? 0)); [by apply wp_retargeted_err|].
  kstep. exact (retargeted_done _ _ _ _ _ Hrt4).
Qed.

(** Pointing an object at a new block. *)
Lemma retarget p i ix d e s s1 :
  priv p s s1 -> bits_grow s s1 -> 0 <= ix < 1024 ->
  bit_of (v_bitmap (view_of s)) ix = false -> bit_of (v_bitmap (view_of s1)) ix = true ->
  geom_ok (view_of s) -> info_ok (v_data (view_of s)) i -> zlen d = SWAP_BLOCK_SIZE ->
  infos s1 !! p = Some e -> erase_save e = mkInfo (table i) (Some d) ->
  let t := table_with_index ix (u64 (sector_data (core s1) + u32 (SECTOR_NUM_PER_SWAP_BLOCK * ix)))
             (table e) in
  retargeted p i ix s
    (set_infos (<[p := mkInfo (table_with_crc (crc_of_table t) t) (data e)]> (infos s1)) s1).
Proof.
  intros Hp Hg Hix Hb0 Hb1 Hgeo Hok Hdl He Hee t. subst t.
  change (sector_data (core s1)) with (v_data (view_of s1)).
  assert (v_data (view_of s1) = v_data (view_of s)) as ->
    by (unfold v_data; by rewrite (priv_geom _ _ _ Hp)).
  assert (0 <= v_data (view_of s) < 2 ^ 32 - 2 ^ 20) as Hdr by (layout; lia).
  change SECTOR_NUM_PER_SWAP_BLOCK with 128. rewrite (u32_small (128 * ix)), u64_small by lia.
  assert (data e = Some d) as -> by (apply (f_equal data) in Hee; exact Hee).
  assert (src_sec (table e) = src_sec (table i) /\ sec_size (table e) = 128 /\
          retrys (table e) = retrys (table i) /\ reserverd (table e) = reserverd (table i))
    as (Es & Ez & Er & Ev).
  { pose proof (io_size _ _ Hok) as Hsz. apply (f_equal table) in Hee. cbn in Hee.
    rewrite <- Hee in Hsz |- *. done. }
  split; try done.
  - eapply priv_trans; [exact Hp|apply priv_set].
  - eexists. rewrite view_set_info. cbn [v_infos v_with_infos].
    rewrite lookup_insert_eq. split_and!; [reflexivity| |exact Es|done].
    unfold table_with_index. rewrite Ez. destruct (io_table _ _ Hok) as (?&?&?&?&?&?&?&?&?).
    apply (info_ok_new _ d (src_sec (table e)) ix (retrys (table e)) (reserverd (table e))
             (checksum (table e)) (save_sec (table e))); rewrite ?Es, ?Er, ?Ev; try done; try lia.
    exact (io_src _ _ Hok).
Qed.

Lemma recreated_same p i s s' :
  bg s s' -> bits_grow s s' -> v_infos (view_of s) !! p = Some i ->
  info_ok (v_data (view_of s)) i -> recreated p i s (-1) s'.
Proof.
  intros Hb Hg Hi Hok. split_and!; [by apply bg_priv|done|by right|].
  exists i. destruct Hb as (-> & _). split_and!; try done. by left.
Qed.

Lemma wp_swap_recreate p i s :
  maps_ok (view_of s) -> env_ok s -> v_infos (view_of s) !! p = Some i ->
  info_ok (v_data (view_of s)) i ->
  wp (swap_recreate p) (recreated p i s) s.
Proof.
  intros Hm Henv Hi Hok. pose proof (mo_geom _ Hm) as Hg. unfold swap_recreate. do 2 kstep.
  destruct (MAX_SWAP_BLOCK_FOR_USE <=? info_num (core s)).
  { kstep. apply recreated_same; [apply hush_bg, hush_refl|by intros n|done..]. }
  kstep. kcall wp_alloc_new_block; [done..|]. intros ix s1 (Hb1 & Hg1 & Hix).
  destruct (Z.eqb_spec ix (-1)) as [->|Hne]; [kstep; by apply recreated_same|].
  destruct Hix as [?|(Hix & Hix0 & Hix1)]; [done|].
  destruct (io_data _ _ Hok) as (d & Hd & Hdl).
  pose proof (info_index _ _ Hok) as Hidx. pose proof (io_swap _ _ Hok) as Hsw.
  assert (0 <= v_data (view_of s) < 2 ^ 32 - 2 ^ 20) as Hdr by (layout; lia).
  change SECTOR_NUM_PER_SWAP_BLOCK with 128 in Hsw.
  kstep. eapply wp_mono; [apply (wp_recreate_loop p (table i)); [|lia|lia]|].
  { assert (v_infos (view_of s1) = v_infos (view_of s)) as Ei by (by destruct Hb1 as (-> & _)).
    exists d. rewrite Ei, Hi. split; [|done]. destruct i; cbn in *. by rewrite Hd. }
  cbv beta. intros _ s2 (Hp2 & Hbm2 & (d2 & Hd2 & Hdl2)). do 2 kstep. kstep.
  destruct (view_some _ _ _ Hd2) as (e & He & Hee). eapply wp_get_info; [exact He|].
  unfold set_info. do 2 kstep. eapply wp_recreate_flush; try done.
  eapply retarget; try done.
  - eapply priv_trans; [by apply bg_priv|done].
  - intros n Hn. rewrite Hbm2. by apply Hg1.
  - by rewrite Hbm2.
Qed.
(** Byte offset of [start] in the data of its block. *)
Definition block_off (start : Z) : Z := (start - SWAP_SECTOR_ALIGN start) * SECTOR_SIZE.

Lemma block_off_range start count :
  in_block start count ->
  0 <= block_off start /\ block_off start + 512 * count <= SWAP_BLOCK_SIZE.
Proof.
  intros [? ?]. unfold block_off. destruct (align_spec start) as [? _]. layout. lia.
Qed.

Lemma info_ok_data sd i d d' :
  info_ok sd i -> data i = Some d -> zlen d' = zlen d -> info_ok sd (info_with_data (Some d') i).
Proof.
  intros [(d0 & Hd0 & Hl) ? ? ? ? ? ?] Hd Hl'. rewrite Hd in Hd0. injection Hd0 as <-.
  split; unfold info_with_data; cbn [table data]; try assumption.
  exists d'. split; [reflexivity|]. by rewrite Hl'.
Qed.

Lemma wp_swap_write1 p i d start count buf pos s :
  geom_ok (view_of s) -> env_ok s -> v_infos (view_of s) !! p = Some i ->
  info_ok (v_data (view_of s)) i -> data i = Some d -> user_sector (view_of s) start ->
  in_block start count -> 0 <= pos -> pos + 512 * count <= zlen buf ->
  wp (_swap_write (Some p) start count buf pos (count * SECTOR_SIZE))
     (fun ret s' => priv p s s' /\ v_bitmap (view_of s') = v_bitmap (view_of s) /\
        (ret = 0 \/ ret = -1) /\
        v_infos (view_of s') !! p = Some (info_with_data
          (Some (splice (block_off start) (slice pos (512 * count) buf) d)) i)) s.
Proof.
  intros Hg Henv Hi Hok Hd Hu Hin Hpos Hfit.
  pose proof (block_off_range _ _ Hin) as [Ho1 Ho2]. destruct Hin as [Hc Hin].
  destruct (align_spec start) as [Hal _]. change SECTOR_NUM_PER_SWAP_BLOCK with 128 in Hal.
  assert (0 <= start < 2 ^ 32 - 2 ^ 20) as Hst by (layout; lia).
  assert (0 <= SWAP_SECTOR_ALIGN start) as Hal0
    by (unfold SWAP_SECTOR_ALIGN, SWAP_BLOCK_SECTOR, SWAP_BLOCK_INDEX; layout;
        pose proof (Z.div_pos start 128); lia).
  destruct (io_data _ _ Hok) as (d0 & Hd0 & Hdl). rewrite Hd in Hd0. injection Hd0 as <-.
  unfold _swap_write. rewrite (u32_small (SWAP_SECTOR_ALIGN start)), u64_small by lia.
  fold (block_off start). unfold SWAP_BLOCK_SIZE, SECTOR_NUM_PER_SWAP_BLOCK, SECTOR_SIZE in *.
  rewrite (s32_small (count * 512)), (s32_small (block_off start)), Z.min_id by lia.
  replace (count * 512) with (512 * count) by lia.
  assert (zlen (slice pos (512 * count) buf) = 512 * count) as Hsl by (rewrite zlen_slice; lia).
  kstep. apply wp_load; [lia..|]. kstep.
  eapply wp_mono; [eapply wp_info_store; [exact Hi|exact Hd|lia|lia]|].
  cbv beta. intros _ s1 (Hp1 & _ & Ev1). set (d1 := splice _ _ d) in *.
  assert (v_infos (view_of s1) !! p = Some (info_with_data (Some d1) i)) as Hi1
    by (rewrite Ev1; apply lookup_insert_eq).
  assert (zlen d1 = 65536) as Hd1 by (subst d1; rewrite zlen_splice; lia).
  kstep. eapply wp_mono; [eapply (wp_flush_data p _ d1); [|exact Hi1| |done]|].
  { by rewrite Ev1. }
  { rewrite Ev1. eapply info_ok_data; [done|exact Hd|lia]. }
  cbv beta. intros ret s2 (Hh2 & _ & Hret & _). pose proof Hh2 as (Ev2 & _ & _).
  assert (forall r, r = 0 \/ r = -1 -> priv p s s2 /\
     v_bitmap (view_of s2) = v_bitmap (view_of s) /\ (r = 0 \/ r = -1) /\
     v_infos (view_of s2) !! p = Some (info_with_data (Some d1) i)) as Hfin.
  { intros r Hr. split_and!; [|by rewrite Ev2, Ev1|done|by rewrite Ev2].
    eapply priv_trans; [exact Hp1|]. by apply bg_priv, hush_bg. }
  destruct (negb (ret =? 0)); kstep; apply Hfin; lia.
Qed.

(** What a write of [new] at byte [off] did to the object [p]. *)
Definition wrote p i d off new s (ret : Z) s' : Prop :=
  priv p s s' /\ bits_grow s s' /\ (ret = 0 \/ ret = -1 \/ ret = - DATA_MAY_DIRTY) /\
  exists i' d', v_infos (view_of s') !! p = Some i' /\ info_ok (v_data (view_of s)) i' /\
    src_sec (table i') = src_sec (table i) /\ moved s ret i i' s' /\ data i' = Some d' /\
    (ret = 0 -> d' = splice off new d) /\
    (ret <> -1 -> slice off (zlen new) d' = new).

Lemma wp_swap_write p i d start count buf pos s :
  maps_ok (view_of s) -> env_ok s -> v_infos (view_of s) !! p = Some i ->
  info_ok (v_data (view_of s)) i -> data i = Some d -> user_sector (view_of s) start ->
  in_block start count -> 0 <= pos -> pos + 512 * count <= zlen buf ->
  wp (swap_write p start count buf pos (count * SECTOR_SIZE))
     (wrote p i d (block_off start) (slice pos (512 * count) buf) s) s.
Proof.
  intros Hm Henv Hi Hok Hd Hu Hin Hpos Hfit. pose proof (mo_geom _ Hm) as Hg.
  pose proof (block_off_range _ _ Hin) as [Ho1 Ho2].
  destruct (io_data _ _ Hok) as (d0 & Hd0 & Hdl). rewrite Hd in Hd0. injection Hd0 as <-.
  assert (zlen (slice pos (512 * count) buf) = 512 * count) as Hsl
    by (rewrite zlen_slice; destruct Hin; lia).
  unfold swap_write. kstep. eapply wp_mono; [by eapply wp_swap_write1|].
  cbv beta. intros ret s1 (Hp1 & Hbm1 & Hret & Hi1).
  set (d1 := splice (block_off start) _ d) in *.
  assert (info_ok (v_data (view_of s)) (info_with_data (Some d1) i)) as Hok1
    by (eapply info_ok_data; [done|done|]; subst d1; rewrite zlen_splice; lia).
  assert (bits_grow s s1) as Hg1 by (intros n Hn; by rewrite Hbm1).
  destruct (Z.eqb_spec ret 0) as [->|Hne].
  { kstep. split_and!; [done|done|by left|]. eexists _, d1. split_and!; try done.
    - by left.
    - intros _. unfold d1. rewrite slice_splice_in by lia. rewrite Z.sub_diag. by apply slice_all. }
  assert (v_geom (view_of s1) = v_geom (view_of s)) as Hgeo by (by eapply priv_geom).
  assert (v_data (view_of s1) = v_data (view_of s)) as Hvd by (unfold v_data; by rewrite Hgeo).
  assert (maps_ok (view_of s1)) as Hm1.
  { eapply priv_maps_update; [exact Hp1|done|exact Hi1|done|]. intros _. by rewrite Hi. }
  kstep. eapply wp_mono; [eapply wp_swap_recreate; [done|by apply Hp1|exact Hi1|by rewrite Hvd]|].
  cbv beta. intros ret2 s2 (Hp2 & Hg2 & Hret2 & i2 & Hi2 & Hok2 & Hs2 & Hmv2).
  rewrite Hvd in Hok2.
  assert (priv p s s2) as Hp02 by (by eapply priv_trans).
  assert (bits_grow s s2) as Hg02 by (by eapply bits_grow_trans).
  destruct (io_data _ _ Hok2) as (d2 & Hd2 & Hdl2).
  assert (forall r s', (r <> -1 -> ret2 = 0) -> v_bitmap (view_of s') = v_bitmap (view_of s2) ->
            forall i', table i' = table i2 -> moved s r i i' s') as Hmv.
  { intros r s' Hr Eb i' Et. unfold moved in *. rewrite Eb, Et. cbn [table info_with_data] in Hmv2.
    destruct Hmv2 as [?|[? Hx]]; [by left|right]. rewrite <- Hbm1. split; [done|].
    intros Hr1. apply Hx. rewrite (Hr Hr1). done. }
  destruct (Z.eqb_spec ret2 0) as [->|Hne2]; cbn [negb].
  2: { kstep. split_and!; [done|done|by right; left|]. exists i2, d2.
       split_and!; try done. by apply Hmv. }
  assert (maps_ok (view_of s2)) as Hm2.
  { eapply priv_maps_update; [exact Hp02|done|exact Hi2|done|]. intros _. rewrite Hi. cbn.
    by rewrite Hs2. }
  assert (v_geom (view_of s2) = v_geom (view_of s)) as Hgeo2 by (by eapply priv_geom).
  kstep. eapply wp_mono.
  { eapply (wp_swap_write1 p i2 d2); try done.
    - apply (mo_geom _ Hm2).
    - by apply Hp02.
    - by unfold v_data; rewrite Hgeo2.
    - by unfold user_sector, v_reserve; rewrite Hgeo2. }
  cbv beta. intros ret3 s3 (Hp3 & Hbm3 & Hret3 & Hi3). set (d3 := splice (block_off start) _ d2) in *.
  assert (priv p s s3) as Hp03 by (by eapply priv_trans).
  assert (bits_grow s s3) as Hg03 by (intros n Hn; rewrite Hbm3; by apply Hg02).
  assert (info_ok (v_data (view_of s)) (info_with_data (Some d3) i2)) as Hok3
    by (eapply info_ok_data; [done|done|]; subst d3; rewrite zlen_splice; lia).
  destruct (negb (ret3 =? 0)); kstep; (split_and!; [done|done|by auto|]);
    exists (info_with_data (Some d3) i2), d3; split_and!; try done; try by apply Hmv.
  intros _. unfold d3. rewrite slice_splice_in by lia. rewrite Z.sub_diag. by apply slice_all.
Qed.
End Specs.
