(* ===== verification/CoreReq.v ===== *)
(** * Requests: [scsi_swap_core_read] and [scsi_swap_core_write]

    The main results of the development: on every state of the invariant, for
    every request to user sectors and whatever the device does, a read returns
    what the abstract disk holds and a write updates it, a returned 0 meaning
    exactly that and [-DATA_MAY_DIRTY] that the untouched sectors of remapped
    blocks may have been lost. *)

From stdpp Require Import base gmap fin_maps list list_numbers.
From coqutil Require Import Byte Word.LittleEndianList.
From Stdlib Require Import ZArith Lia.
From S2P Require Import Prelude Kapi Crc32 Ring Layout State Scsi SimDisk Log Core CoreInv CoreSpec.

Local Open Scope Z_scope.

(** ** Cutting a request into blocks *)

(** First sector of round [i], if the request reaches that far. *)
Definition cursor (start i : Z) : Z :=
  if i =? 0 then start else SWAP_BLOCK_SECTOR (SWAP_BLOCK_INDEX start + i).

(** How far a request has come before round [i]. *)
Definition reached (start count i : Z) : Z := Z.min (start + count) (cursor start i).

Lemma block_count_spec start count :
  0 <= start -> 0 < count < 2 ^ 30 ->
  0 < get_swap_block_count start count /\
  forall i, 0 <= i -> (i < get_swap_block_count start count <-> cursor start i < start + count).
Proof.
  intros Hs Hc. unfold get_swap_block_count, cursor, SWAP_BLOCK_SECTOR, SWAP_BLOCK_INDEX.
  destruct (align_spec start) as [Hal _]. revert Hal.
  unfold SWAP_SECTOR_ALIGN, SWAP_BLOCK_SECTOR, SWAP_BLOCK_INDEX, SECTOR_NUM_PER_SWAP_BLOCK.
  set (b := start / 128). intros Hal. rewrite s32_small by lia.
  rewrite Z.quot_div_nonneg, Z.rem_mod_nonneg by lia. set (n := start + count - b * 128).
  pose proof (Z.div_mod n 128 ltac:(lia)). pose proof (Z.mod_pos_bound n 128 ltac:(lia)).
  assert (0 <= n / 128) by (apply Z.div_pos; lia).
  destruct (Z.eqb_spec (n mod 128) 0).
  - split; [lia|]. intros i Hi. destruct (Z.eqb_spec i 0); lia.
  - split; [lia|]. intros i Hi. destruct (Z.eqb_spec i 0); lia.
Qed.

Record piece_ok (start count i c b cur n : Z) : Prop := {
  po_cur : cur = cursor start i;
  po_b : b = SWAP_SECTOR_ALIGN cur;
  po_blk : b = SWAP_BLOCK_SECTOR (SWAP_BLOCK_INDEX start + i);
  po_in : in_block cur n;
  po_next : cur + n = reached start count (i + 1);
  po_left : u32 (c - n) = start + count - (cur + n);
  po_range : start <= cur /\ cur + n <= start + count
}.

Lemma piece_spec start count i c :
  0 <= start -> 0 < count < 2 ^ 30 -> start + count < 2 ^ 32 -> 0 <= i ->
  cursor start i < start + count -> c = start + count - cursor start i ->
  exists b n, piece start (SWAP_BLOCK_INDEX start) i c = (b, cursor start i, n) /\
              piece_ok start count i c b (cursor start i) n.
Proof.
  intros Hs Hc Hsc Hi Hlt ->. unfold piece.
  destruct (align_spec start) as [Hal _]. revert Hal Hlt.
  unfold cursor, reached, SWAP_SECTOR_ALIGN, SWAP_BLOCK_SECTOR, SWAP_BLOCK_INDEX,
    SECTOR_NUM_PER_SWAP_BLOCK.
  pose proof (Z.div_pos start 128 Hs ltac:(lia)) as Hq. set (q := start / 128) in *. intros Hal Hlt.
  set (cur := if i =? 0 then start else (q + i) * 128) in *.
  assert ((q + i) * 128 <= cur < (q + i + 1) * 128) as Hcur by (subst cur; destruct (Z.eqb_spec i 0); lia).
  rewrite (u32_small ((q + i) * 128)) by lia. fold cur.
  rewrite (u32_small ((q + i + 1) * 128 - cur)) by lia.
  eexists _, _. split; [reflexivity|].
  assert (cur / 128 = q + i) as Hdiv by (symmetry; apply (Z.div_unique _ _ _ (cur - (q + i) * 128)); lia).
  split; unfold reached, cursor, in_block, SWAP_SECTOR_ALIGN, SWAP_BLOCK_SECTOR,
    SWAP_BLOCK_INDEX, SECTOR_NUM_PER_SWAP_BLOCK.
  - done.
  - by rewrite Hdiv.
  - done.
  - rewrite Hdiv. lia.
  - fold q. destruct (Z.eqb_spec (i + 1) 0); [lia|]. lia.
  - rewrite u32_small; lia.
  - subst cur. destruct (Z.eqb_spec i 0); lia.
Qed.

(** ** Buffers *)

(** Only [len] bytes from [pos] on differ. *)
Definition buf_upd (pos len : Z) (buf buf' : bytes) : Prop :=
  zlen buf' = zlen buf /\
  forall o l, 0 <= o -> (o + l <= pos \/ pos + len <= o) -> slice o l buf' = slice o l buf.

Lemma buf_upd_refl pos len buf : buf_upd pos len buf buf.
Proof. done. Qed.

Lemma buf_upd_trans pos len b1 b2 b3 :
  buf_upd pos len b1 b2 -> buf_upd pos len b2 b3 -> buf_upd pos len b1 b3.
Proof.
  intros [L1 S1] [L2 S2]. split; [congruence|]. intros o l Ho Hd. by rewrite S2, S1.
Qed.

Lemma buf_upd_splice pos new buf :
  0 <= pos -> pos + zlen new <= zlen buf -> buf_upd pos (zlen new) buf (splice pos new buf).
Proof.
  intros Hp Hf. split; [by apply zlen_splice|]. intros o l Ho Hd. by apply slice_splice_out.
Qed.

Lemma align_in_block cur n x :
  in_block cur n -> cur <= x < cur + n -> SWAP_SECTOR_ALIGN x = SWAP_SECTOR_ALIGN cur.
Proof.
  intros [_ Hin] Hx. destruct (align_spec cur) as [Hal Hmod].
  apply align_unique; [done|]. unfold SECTOR_NUM_PER_SWAP_BLOCK in *. lia.
Qed.

Section Requests.
Context {D : Type} `{BlockDevice D}.
Implicit Types s : st D.

(** ** Steps that keep the invariant *)

Record step_ok (keep : Prop) s s' : Prop := {
  so_inv : inv s';
  so_geom : v_geom (view_of s') = v_geom (view_of s);
  so_user : v_user (view_of s') = v_user (view_of s);
  so_bits : keep -> bits_ok (view_of s) -> bits_ok (view_of s')
}.

Lemma step_ok_trans keep s1 s2 s3 : step_ok keep s1 s2 -> step_ok keep s2 s3 -> step_ok keep s1 s3.
Proof. intros [I1 G1 U1 B1] [I2 G2 U2 B2]. split; [done|congruence|congruence|auto]. Qed.

Lemma step_ok_weaken keep s s' : step_ok True s s' -> step_ok keep s s'.
Proof. intros [I G U B]. split; try done. auto. Qed.

Lemma bg_step keep s s' : inv s -> bg s s' -> bits_grow s s' -> step_ok keep s s'.
Proof.
  intros (He & Hm & Hn) Hb Hg. pose proof Hb as (Ev & Hl & _). split.
  - split_and!; [by apply Hl|by eapply bg_maps|by rewrite Ev].
  - by rewrite Ev.
  - by rewrite Ev.
  - intros _ Hbits. unfold bits_grow in Hg. rewrite Ev in Hg |- *. by apply bits_ok_mono.
Qed.

Lemma hush_step keep s s' : inv s -> hush s s' -> step_ok keep s s'.
Proof. intros Hi Hh. apply bg_step; [done|by apply hush_bg|by apply bits_grow_view, Hh]. Qed.

(** Sectors of other blocks are as before. *)
Definition frame (b : Z) s s' : Prop :=
  forall x, user_sector (view_of s) x -> SWAP_SECTOR_ALIGN x <> b -> sees s' x = sees s x.

(** All sectors are as before. *)
Definition unchanged s s' : Prop :=
  forall x, user_sector (view_of s) x -> sees s' x = sees s x.

Lemma unchanged_frame b s s' : unchanged s s' -> frame b s s'.
Proof. intros Hu x Hx _. by apply Hu. Qed.

Lemma bg_unchanged s s' : bg s s' -> unchanged s s'.
Proof. intros Hb x Hx. by apply bg_sees. Qed.

Lemma frame_trans b s1 s2 s3 :
  v_geom (view_of s2) = v_geom (view_of s1) -> frame b s1 s2 -> frame b s2 s3 -> frame b s1 s3.
Proof.
  intros Hg H1 H2 x Hx Hb. rewrite H2, H1; try done. unfold user_sector, v_reserve in *. by rewrite Hg.
Qed.

(** ** Adding a created mapping *)

Lemma created_hush p src s s1 s2 :
  created s (Some p) src s1 -> hush s1 s2 -> created s (Some p) src s2.
Proof.
  intros (Hn & Hp & Hg & Hnum & i & Hi & Hr) Hh. pose proof Hh as (Ev & _ & _).
  split_and!; try done.
  - eapply priv_trans; [exact Hp|]. by apply bg_priv, hush_bg.
  - intros n Hn0. rewrite Ev. by apply Hg.
  - exists i. rewrite Ev. done.
Qed.

(** The state after [list_add_tail] on a created object: a block more is mapped,
    and its sectors show the object's data. *)
Lemma created_add p src i s s1 :
  inv s -> created s (Some p) src s1 -> v_find (view_of s) src = None ->
  v_infos (view_of s1) !! p = Some i ->
  let s2 := upd_core (core_list (info_list (core s1) ++ [p])) s1 in
  env_ok s2 /\ maps_ok (view_of s2) /\ (bits_ok (view_of s) -> bits_ok (view_of s2)) /\
  v_geom (view_of s2) = v_geom (view_of s) /\ v_user (view_of s2) = v_user (view_of s) /\
  v_num (view_of s2) + 1 = zlen (v_list (view_of s2)) /\
  (forall x, user_sector (view_of s) x ->
     sees s2 x = if decide (SWAP_SECTOR_ALIGN x = src)
                 then slice ((x - SWAP_SECTOR_ALIGN x) * SECTOR_SIZE) SECTOR_SIZE
                        (default [] (data i))
                 else sees s x).
Proof.
  intros (He & Hm & Hnum) (Hn & Hp & Hg & Hlt & j & Hj & Hok & Hsrc & Hb0 & Hb1) Hf Hi s2.
  rewrite Hi in Hj. injection Hj as <-.
  assert (view_of s2 = v_with_list (v_list (view_of s1) ++ [p]) (view_of s1)) as Ev by done.
  pose proof (maps_ok_unlisted _ _ Hm Hn) as Hpl.
  assert (maps_ok (view_of s1)) as Hm1 by (by eapply priv_maps).
  assert (v_geom (view_of s1) = v_geom (view_of s)) as Hgeo by (by eapply priv_geom).
  assert (v_list (view_of s1) = v_list (view_of s)) as Hli by (by eapply priv_list).
  assert (v_find (view_of s1) (src_sec (table i)) = None) as Hf1.
  { unfold v_find. rewrite Hli, Hsrc. rewrite (find_src_ext (v_infos (view_of s))); [exact Hf|].
    intros q Hq. rewrite (priv_lookup _ q _ _ Hp); [done|]. by intros ->. }
  unfold num_ok in Hnum. unfold MAX_SWAP_BLOCK_FOR_USE in Hlt.
  assert (v_user (view_of s1) = v_user (view_of s)) as Hus
    by (by destruct Hp as ((b & m & -> & _) & _)).
  rewrite Ev. split_and!.
  - by apply Hp.
  - eapply maps_ok_add; try done.
    + unfold v_data. by rewrite Hgeo.
    + rewrite Hli. lia.
  - intros Hb. eapply bits_ok_add; try done.
    + by eapply priv_bits.
    + intros q j Hq Hj. rewrite Hli in Hq. rewrite (priv_lookup _ q _ _ Hp) in Hj by (by intros ->).
      intros E. rewrite <- E in Hb0. rewrite (bo_set _ Hb q j Hq Hj) in Hb0. done.
    + intros q Hq. destruct (mo_infos _ Hm1 q Hq) as (? & -> & _). eauto.
  - done.
  - done.
  - cbn. rewrite zlen_app. change (zlen [p]) with 1.
    change (info_list (core s1)) with (v_list (view_of s1)). rewrite Hli.
    change (info_num (core s1)) with (v_num (view_of s1)). rewrite (priv_num _ _ _ Hp). lia.
  - intros x Hx. unfold sees at 1. rewrite Ev, (content_add _ _ p i) by done. rewrite Hsrc.
    case_decide; [done|]. by eapply (priv_sees p s s1).
Qed.

(** What publishing a created object with the data [d] achieves. *)
Definition published src (d : bytes) s s' : Prop :=
  step_ok True s s' /\
  forall x, user_sector (view_of s) x ->
    sees s' x = if decide (SWAP_SECTOR_ALIGN x = src)
                then slice ((x - SWAP_SECTOR_ALIGN x) * SECTOR_SIZE) SECTOR_SIZE d
                else sees s x.

(** Then the table is flushed and the mapping counted. *)
Lemma wp_publish {A} p src i (k : Z -> K (st D) A) Q s s1 :
  inv s -> created s (Some p) src s1 -> v_find (view_of s) src = None ->
  v_infos (view_of s1) !! p = Some i ->
  (forall s2, published src (default [] (data i)) s
                (upd_core (core_num (s32 (info_num (core s2) + 1))) s2) -> wp (k 0) Q s2) ->
  wp (list_add_tail p;; ret ← flush_swap_info_table; k ret) Q s1.
Proof.
  intros Hinv Hcr Hf Hi Hk. unfold list_add_tail. do 2 kstep.
  destruct (created_add p src i s s1 Hinv Hcr Hf Hi) as (He & Hm & Hb & Hg & Hu & Hn & Hs).
  set (s2 := upd_core _ s1) in *. kstep.
  eapply wp_mono; [by apply wp_flush_table|].
  cbv beta. intros ret s3 (-> & Hh & _). pose proof Hh as (Ev & Hl & _). apply Hk.
  set (s4 := upd_core _ s3).
  assert (info_num (core s3) = v_num (view_of s2)) as En by (by rewrite <- Ev).
  assert (view_of s4 = v_with_num (s32 (v_num (view_of s2) + 1)) (view_of s2)) as Ev4.
  { unfold s4. rewrite <- En. change (view_of (upd_core _ s3))
      with (v_with_num (s32 (info_num (core s3) + 1)) (view_of s3)). by rewrite Ev. }
  pose proof (mo_len _ Hm) as Hlen. split.
  - split; rewrite ?Ev4; try done.
    + split_and!; [by apply Hl|rewrite Ev4; by destruct Hm|]. rewrite Ev4. unfold num_ok.
      cbn [v_num v_list v_with_num]. pose proof (zlen_nonneg (v_list (view_of s2))).
      rewrite s32_small by lia. done.
    + intros _ Hbits. destruct (Hb Hbits). by split.
  - intros x Hx. rewrite <- Hs by done. unfold sees at 1. rewrite Ev4.
    transitivity (content (view_of s2) (media (dev s3)) x); [done|].
    assert (user_sector (view_of s2) x) as Hx2
      by (unfold user_sector, v_reserve in *; by rewrite Hg).
    pose proof (hush_sees _ _ x Hh Hx2) as E. unfold sees in E. by rewrite Ev in E.
Qed.

(** ** Reading one block *)

Lemma wp_repair sector count s :
  wp (swap_repair_successive_sectors sector count) (fun ret s' => hush s s' /\ ret <> 0) s.
Proof.
  unfold swap_repair_successive_sectors. kstep. kcall wp_test_unit_ready.
  intros ret s' Hq. apply hush_quiet in Hq.
  destruct (negb (ret =? 0)); unfold inc_device_dead; repeat kstep; (split; [|by vm_compute]).
  - eapply hush_trans; [exact Hq|apply hush_dead].
  - done.
Qed.

(** The sectors [cur, cur+n) of the buffer, which starts at byte [pos], are those
    of the abstract disk. *)
Definition shows cur n pos (buf : bytes) s : Prop :=
  forall x, cur <= x < cur + n -> slice (pos + 512 * (x - cur)) 512 buf = sees s x.

(** Data of a block copied to the buffer. *)
Lemma shows_block cur n pos buf (d : bytes) s :
  in_block cur n -> 0 <= pos -> pos + 512 * n <= zlen buf -> zlen d = SWAP_BLOCK_SIZE ->
  (forall x, cur <= x < cur + n ->
     sees s x = slice ((x - SWAP_SECTOR_ALIGN x) * SECTOR_SIZE) SECTOR_SIZE d) ->
  buf_upd pos (512 * n) buf (splice pos (slice (block_off cur) (512 * n) d) buf) /\
  shows cur n pos (splice pos (slice (block_off cur) (512 * n) d) buf) s.
Proof.
  intros Hin Hpos Hfit Hd Hs. pose proof (block_off_range _ _ Hin) as [Ho1 Ho2].
  destruct (Hin) as [Hc _].
  assert (zlen (slice (block_off cur) (512 * n) d) = 512 * n) as Hl by (apply zlen_slice; lia).
  split.
  - rewrite <- Hl at 1. apply buf_upd_splice; lia.
  - intros x Hx. rewrite slice_splice_in by lia. rewrite slice_slice by lia. rewrite Hs by done.
    f_equal. rewrite (align_in_block cur n x Hin Hx). unfold block_off, SECTOR_SIZE. lia.
Qed.

Lemma wp_swap_read p i d cur n dst pos s :
  v_infos (view_of s) !! p = Some i -> data i = Some d -> zlen d = SWAP_BLOCK_SIZE ->
  in_block cur n -> 0 <= pos -> pos + 512 * n <= zlen dst ->
  wp (_swap_read (Some p) cur n dst pos (n * SECTOR_SIZE))
     (fun x s' => s' = s /\ snd x = splice pos (slice (block_off cur) (512 * n) d) dst) s.
Proof.
  intros Hi Hd Hl Hin Hpos Hfit. pose proof (block_off_range _ _ Hin) as [Ho1 Ho2].
  destruct (Hin) as [Hc Hc']. destruct (align_spec cur) as [Hal _].
  unfold _swap_read. fold (block_off cur).
  unfold SWAP_BLOCK_SIZE, SECTOR_NUM_PER_SWAP_BLOCK, SECTOR_SIZE in *.
  rewrite (s32_small (n * 512)), (s32_small (block_off cur)), Z.min_id by lia.
  replace (n * 512) with (512 * n) by lia.
  kstep. unfold info_data. kstep. eapply wp_get_info_v; [exact Hi|]. intros e _ <-. cbn in Hd.
  eapply wp_deref; [exact Hd|]. kstep. apply wp_load; [lia..|]. kstep.
  apply wp_store; [lia| |by kstep]. rewrite zlen_slice; lia.
Qed.

(** The state and the buffer after a block has been read or given up. *)
Definition read_ok b cur n pos buf (dirty : bool) buf' s s' : Prop :=
  step_ok True s s' /\ frame b s s' /\ buf_upd pos (512 * n) buf buf' /\
  shows cur n pos buf' s' /\ (dirty = false -> unchanged s s').
Definition read_err pos n buf buf' s s' : Prop :=
  step_ok True s s' /\ unchanged s s' /\ buf_upd pos (512 * n) buf buf'.

Lemma bg_then_unchanged s s1 s2 :
  inv s -> bg s s1 -> bits_grow s s1 -> step_ok True s1 s2 -> unchanged s1 s2 ->
  step_ok True s s2 /\ unchanged s s2.
Proof.
  intros Hi Hb Hg Hs Hu. pose proof (bg_step True s s1 Hi Hb Hg) as H1. split.
  - by eapply step_ok_trans.
  - intros x Hx. rewrite Hu.
    + by eapply bg_unchanged.
    + unfold user_sector, v_reserve in *. by rewrite (so_geom _ _ _ H1).
Qed.

(** The error path after a creation: nothing is left of it. *)
Lemma wp_undo {A} p i (a : A) Q s s1 :
  inv s -> v_infos (view_of s) !! p = None -> priv p s s1 -> bits_grow s s1 ->
  v_infos (view_of s1) !! p = Some i -> 0 <= index (table i) < 1024 ->
  bit_of (v_bitmap (view_of s)) (index (table i)) = false ->
  (forall s2, step_ok True s s2 -> unchanged s s2 -> Q a s2) ->
  wp (e ← get_info p; set_bit (s32 (index (table e))) 0;; _swap_dealloc_info (Some p);; mret a) Q s1.
Proof.
  intros Hinv Hn Hp Hg Hi Hix Hb0 HQ. apply kbind_assoc. kstep. eapply wp_mono.
  { apply (wp_clear_index p i); [done|done|]. by apply Hp, Hinv. }
  cbv beta. intros _ s2 (Hb & Hbits). kstep. apply wp_free_info. kstep.
  destruct (created_undo p i s s1 s2) as [Hb' Hg']; try done.
  apply HQ; [by apply bg_step|by apply bg_unchanged].
Qed.

Lemma wp_read_remap cur n buf pos s :
  inv s -> v_find (view_of s) (SWAP_SECTOR_ALIGN cur) = None -> user_sector (view_of s) cur ->
  cur + n <= v_reserve (view_of s) -> in_block cur n -> 0 <= pos -> pos + 512 * n <= zlen buf ->
  wp (read_remap (SWAP_SECTOR_ALIGN cur) cur n buf pos (n * SECTOR_SIZE))
     (fun x s' => if fst x then read_ok (SWAP_SECTOR_ALIGN cur) cur n pos buf true (snd x) s s'
                  else read_err pos n buf (snd x) s s') s.
Proof.
  intros Hinv Hf Hu Hend Hin Hpos Hfit. pose proof (block_off_range _ _ Hin) as [Ho1 Ho2].
  pose proof Hinv as (He & Hm & Hnum). destruct (Hin) as [Hn Hn'].
  destruct (align_spec cur) as [Hal _].
  unfold read_remap. kstep. kcall wp_swap_create; [done..|]. intros [p|] s1 Hcr.
  2: { kstep. cbn [fst snd]. destruct Hcr as [Hb Hg].
       split_and!; [by apply bg_step|by apply bg_unchanged|done]. }
  pose proof Hcr as (Hnone & Hp & Hg & Hlt & i & Hi & Hok & Hsrc & Hb0 & Hb1).
  destruct (io_data _ _ Hok) as (d & Hd & Hdl).
  kstep. unfold info_data. kstep. eapply wp_get_info_v; [exact Hi|]. intros e _ Hee.
  assert (data e = Some d) as Hde by (rewrite <- Hee in Hd; exact Hd).
  eapply wp_deref; [exact Hde|].
  unfold SWAP_BLOCK_SIZE, SECTOR_NUM_PER_SWAP_BLOCK, SECTOR_SIZE in *.
  rewrite (u32_small (cur - _)), (u32_small (n * 512)), Z.min_l by lia.
  change 512 with SECTOR_SIZE at 1. fold (block_off cur).
  replace (n * 512) with (512 * n) by lia.
  kstep. apply wp_load; [lia..|]. kstep. apply wp_store; [lia|rewrite zlen_slice; lia|].
  set (buf1 := splice pos _ buf).
  assert (zlen (slice (block_off cur) (512 * n) d) = 512 * n) as Hsl by (rewrite zlen_slice; lia).
  assert (buf_upd pos (512 * n) buf buf1) as Hbuf
    by (rewrite <- Hsl at 1; apply buf_upd_splice; lia).
  cbv zeta. kstep. eapply wp_mono; [apply (wp_flush_data p i d)|].
  { apply mo_geom. eapply priv_maps; [exact Hp|by eapply maps_ok_unlisted|done]. }
  { done. } { by unfold v_data; rewrite (priv_geom _ _ _ Hp). } { done. }
  cbv beta. intros ret s2 (Hh2 & _ & Hret & _). pose proof Hh2 as (Ev2 & _ & _).
  pose proof (created_hush _ _ _ _ _ Hcr Hh2) as Hcr2.
  pose proof Hcr2 as (_ & Hp2 & Hg2 & _ & _).
  assert (v_infos (view_of s2) !! p = Some i) as Hi2 by (by rewrite Ev2).
  destruct (negb (ret =? 0)).
  { eapply (wp_undo p i _ _ s); [done|done|done|done|done|by eapply info_index|done|].
    intros s3 Hst Hun. by split_and!. }
  eapply (wp_publish p _ i _ _ s); try done. intros s3 (Hst & Hs). cbn [Z.eqb negb].
  unfold inc_info_num. do 3 kstep. cbn [fst snd]. set (s4 := upd_core _ s3) in *.
  rewrite Hd in Hs. cbn [default] in Hs.
  split_and!; [done| |done| |done].
  - intros x Hx Hne. rewrite Hs by done. by rewrite decide_False.
  - eapply (shows_block cur n pos buf d s4); try done. intros x Hx.
    rewrite Hs by (unfold user_sector in *; lia).
    rewrite decide_True by (by eapply align_in_block). done.
Qed.

(** An unmapped sector shows the medium. *)
Lemma sees_unmapped s x :
  v_find (view_of s) (SWAP_SECTOR_ALIGN x) = None -> sees s x = media (dev s) x.
Proof. intros Hf. unfold sees, content. by rewrite Hf. Qed.

Lemma wp_is_dead (Q : bool -> st D -> Prop) s :
  Q (c_true (device_dead (core s))) s -> wp is_dead Q s.
Proof. intros HQ. unfold is_dead. by do 3 kstep. Qed.

Lemma wp_read_direct skip cur n buf pos s :
  inv s -> v_find (view_of s) (SWAP_SECTOR_ALIGN cur) = None -> user_sector (view_of s) cur ->
  cur + n <= v_reserve (view_of s) -> in_block cur n -> 0 <= pos -> pos + 512 * n <= zlen buf ->
  wp (read_direct skip cur n buf pos (n * SECTOR_SIZE))
     (fun x s' => hush s s' /\
        if decide (fst x = DONE)
        then read_ok (SWAP_SECTOR_ALIGN cur) cur n pos buf false (snd x) s s'
        else read_err pos n buf (snd x) s s') s.
Proof.
  intros Hinv Hf Hu Hend Hin Hpos Hfit. pose proof Hinv as (_ & Hm & _).
  destruct (Hin) as [Hn Hn']. destruct (align_spec cur) as [Hal _].
  assert (0 <= cur < 2 ^ 32) as Hcur by (pose proof (mo_geom _ Hm); layout; lia).
  unfold read_direct. destruct skip.
  { kstep. cbn. split; [done|]. split_and!; [by apply hush_step|done|done]. }
  unfold SECTOR_SIZE. replace (n * 512) with (512 * n) by lia.
  kstep. apply wp_load; [lia..|]. kstep. unfold hd_read_sector_retry.
  eapply wp_mono; [apply wp_hd_read; [lia|lia|done|rewrite zlen_slice; lia]|].
  cbv beta. intros [ret b] s1 (Hio & Ht & Hbl & Hret & Hdata). cbn [fst snd] in *.
  assert (hush s s1) as Hh by (eapply hush_io; [exact Hio|exact Ht|by intros x []]).
  pose proof (hush_step True _ _ Hinv Hh) as Hst.
  assert (unchanged s s1) as Hun by (by apply bg_unchanged, hush_bg).
  kstep. apply wp_store; [lia|lia|].
  assert (buf_upd pos (512 * n) buf (splice pos b buf)) as Hbuf
    by (rewrite <- Hbl; apply buf_upd_splice; lia).
  destruct (Z.eqb_spec ret 0) as [->|Hne].
  - kstep. split; [done|]. cbn [fst snd]. rewrite decide_True by done.
    split_and!; [done|by apply unchanged_frame|done| |done].
    intros x Hx. rewrite slice_splice_in by lia.
    replace (pos + 512 * (x - cur) - pos) with (512 * (x - cur)) by lia.
    rewrite (Hdata eq_refl) by lia. replace (cur + (x - cur)) with x by lia.
    rewrite Hun by (unfold user_sector in *; lia). symmetry. apply sees_unmapped.
    by rewrite (align_in_block cur n x).
  - kstep. apply wp_is_dead. kstep. split; [done|].
    destruct (c_true _); cbn; by split_and!.
Qed.

Lemma wp_read_repair cur n buf pos s :
  inv s -> v_find (view_of s) (SWAP_SECTOR_ALIGN cur) = None -> user_sector (view_of s) cur ->
  cur + n <= v_reserve (view_of s) -> in_block cur n -> 0 <= pos -> pos + 512 * n <= zlen buf ->
  wp (read_repair (SWAP_SECTOR_ALIGN cur) cur n buf pos (n * SECTOR_SIZE))
     (fun x s' => match fst x with
        | Some dirty => dirty = true /\ read_ok (SWAP_SECTOR_ALIGN cur) cur n pos buf true (snd x) s s'
        | None => read_err pos n buf (snd x) s s'
        end) s.
Proof.
  intros Hinv Hf Hu Hend Hin Hpos Hfit. unfold read_repair. kstep. kcall wp_repair.
  intros ret s1 (Hh & Hne). apply Z.eqb_neq in Hne as ->.
  pose proof Hh as (Ev & _ & _). pose proof (hush_step True _ _ Hinv Hh) as Hst.
  assert (unchanged s s1) as Hun by (by apply bg_unchanged, hush_bg).
  kstep. apply wp_is_dead. destruct (c_true _).
  { kstep. by split_and!. }
  kstep. eapply wp_mono; [apply wp_read_remap; rewrite ?Ev; try done; apply Hst|].
  cbv beta. intros [ok buf1] s2 Hr. kstep. cbn [fst snd] in *.
  assert (forall x, user_sector (view_of s1) x <-> user_sector (view_of s) x) as Hux
    by (by rewrite Ev).
  destruct ok.
  - destruct Hr as (Hst2 & Hfr & Hbuf & Hsh & _). split; [done|].
    split_and!; [by eapply step_ok_trans| |done|done|done].
    eapply frame_trans; [apply Hst|by apply unchanged_frame|done].
  - destruct Hr as (Hst2 & Hun2 & Hbuf). split_and!; [by eapply step_ok_trans| |done].
    intros x Hx. rewrite Hun2 by (by apply Hux). by apply Hun.
Qed.

Lemma read_ok_after s s1 s2 b cur n pos buf buf1 buf2 dirty :
  hush s s1 -> read_err pos n buf buf1 s s1 -> read_ok b cur n pos buf1 dirty buf2 s1 s2 ->
  read_ok b cur n pos buf dirty buf2 s s2.
Proof.
  intros Hh (Hst & Hun & Hb) (Hst2 & Hfr & Hb2 & Hsh & Hdirty). pose proof Hh as (Ev & _ & _).
  split_and!.
  - by eapply step_ok_trans.
  - eapply frame_trans; [apply Hst|by apply unchanged_frame|done].
  - by eapply buf_upd_trans.
  - done.
  - intros Hd x Hx. rewrite Hdirty; [by apply Hun|done|by rewrite Ev].
Qed.

Lemma read_err_after s s1 s2 pos n buf buf1 buf2 :
  hush s s1 -> read_err pos n buf buf1 s s1 -> read_err pos n buf1 buf2 s1 s2 ->
  read_err pos n buf buf2 s s2.
Proof.
  intros Hh (Hst & Hun & Hb) (Hst2 & Hun2 & Hb2). pose proof Hh as (Ev & _ & _).
  split_and!; [by eapply step_ok_trans| |by eapply buf_upd_trans].
  intros x Hx. rewrite Hun2; [by apply Hun|by rewrite Ev].
Qed.

(** One round of the read loop on the piece [cur, cur+n). *)
Lemma wp_core_read_blk start i_start i_bad i a cur n s :
  inv s -> user_sector (view_of s) cur -> cur + n <= v_reserve (view_of s) -> in_block cur n ->
  piece start i_start i (ra_count a) = (SWAP_SECTOR_ALIGN cur, cur, n) ->
  0 <= ra_pos a -> ra_pos a + 512 * n <= zlen (ra_buf a) ->
  wp (core_read_blk start i_start i_bad i a)
     (fun r s' => match r with
        | inl a' => exists dirty,
            a' = mkRacc (u32 (ra_count a - n)) (ra_pos a + 512 * n)
                   (if (dirty : bool) then true else ra_dirty a) (ra_buf a') /\
            read_ok (SWAP_SECTOR_ALIGN cur) cur n (ra_pos a) (ra_buf a) dirty (ra_buf a') s s'
        | inr buf' => read_err (ra_pos a) n (ra_buf a) buf' s s'
        end) s.
Proof.
  intros Hinv Hu Hend Hin Hpc Hpos Hfit. pose proof Hinv as (_ & Hm & _).
  unfold core_read_blk. rewrite Hpc.
  replace (ra_pos a + 512 * n) with (ra_pos a + n * SECTOR_SIZE) by (unfold SECTOR_SIZE; lia).
  kstep. apply wp_find; [done|].
  destruct (v_find (view_of s) (SWAP_SECTOR_ALIGN cur)) as [p|] eqn:Hf.
  - destruct (maps_find _ _ _ Hm Hf) as (_ & j & Hj & Hok & Hsrc).
    destruct (io_data _ _ Hok) as (d & Hd & Hdl).
    kstep. eapply wp_mono; [by eapply wp_swap_read|].
    cbv beta. intros x s' [-> Hx]. kstep. exists false. cbn [ra_buf]. split; [done|].
    rewrite Hx. destruct (shows_block cur n (ra_pos a) (ra_buf a) d s) as [Hb Hsh]; [done..| |].
    { intros y Hy. unfold sees, content. rewrite (align_in_block cur n y Hin Hy), Hf.
      unfold block_data. rewrite Hj, Hd. done. }
    split_and!; [by apply hush_step|done..].
  - kstep. eapply wp_mono; [by apply wp_read_direct|].
    cbv beta. intros [r buf1] s1 [Hh Hr]. cbn [fst snd] in *.
    destruct r; cbn in Hr.
    + kstep. exists false. by split.
    + kstep. pose proof Hh as (Ev & _ & _). pose proof Hr as (Hst & _ & [Hbl _]).
      eapply wp_mono; [apply wp_read_repair; rewrite ?Ev; first [done|apply Hst|by rewrite Hbl]|].
      cbv beta. intros [[dirty|] buf2] s2; cbn [fst snd].
      * intros [-> Hok]. kstep. exists true. split; [done|].
        exact (read_ok_after _ _ _ _ _ _ _ _ _ _ _ Hh Hr Hok).
      * intros Herr. kstep. exact (read_err_after _ _ _ _ _ _ _ _ Hh Hr Herr).
    + kstep. done.
Qed.

(** ** The read loop *)

(** Blocks a request [start, stop) has worked on. *)
Definition touched (start stop x : Z) : Prop :=
  SWAP_SECTOR_ALIGN start <= SWAP_SECTOR_ALIGN x < stop.

Definition frame_outside (start stop : Z) s s' : Prop :=
  forall x, user_sector (view_of s) x -> ~ touched start stop x -> sees s' x = sees s x.

Lemma align_mono x y : x <= y -> SWAP_SECTOR_ALIGN x <= SWAP_SECTOR_ALIGN y.
Proof.
  intros. unfold SWAP_SECTOR_ALIGN, SWAP_BLOCK_SECTOR, SWAP_BLOCK_INDEX, SECTOR_NUM_PER_SWAP_BLOCK.
  pose proof (Z.div_le_mono x y 128). lia.
Qed.

Lemma frame_extend start cur n s0 s s' :
  v_geom (view_of s) = v_geom (view_of s0) -> start <= cur -> 0 < n ->
  frame_outside start cur s0 s -> frame (SWAP_SECTOR_ALIGN cur) s s' ->
  frame_outside start (cur + n) s0 s'.
Proof.
  intros Hg Hle Hn Hf0 Hf x Hx Hout. pose proof (align_mono _ _ Hle).
  destruct (align_spec cur) as [? _]. unfold touched in *. rewrite Hf.
  - apply Hf0; [done|]. unfold touched. lia.
  - unfold user_sector, v_reserve in *. by rewrite Hg.
  - lia.
Qed.

(** Sectors already done are not in the block of the current round. *)
Lemma cursor_done start i x :
  0 <= i -> start <= x < cursor start i -> SWAP_SECTOR_ALIGN x <> SWAP_SECTOR_ALIGN (cursor start i).
Proof.
  intros Hi. unfold cursor. destruct (Z.eqb_spec i 0); [lia|]. intros Hx.
  rewrite (align_aligned (SWAP_BLOCK_SECTOR _)).
  - destruct (align_spec x). lia.
  - unfold SWAP_BLOCK_SECTOR, SECTOR_NUM_PER_SWAP_BLOCK. apply Z.mod_mul. lia.
Qed.

Lemma reached_cursor start count i : cursor start i < start + count -> reached start count i = cursor start i.
Proof. unfold reached. lia. Qed.

Definition read_loop_inv start count s0 i (a : racc) s : Prop :=
  let cur := reached start count i in
  ra_count a = start + count - cur /\ ra_pos a = 512 * (cur - start) /\
  zlen (ra_buf a) = 512 * count /\ step_ok True s0 s /\ frame_outside start cur s0 s /\
  (ra_dirty a = false -> unchanged s0 s) /\ shows start (cur - start) 0 (ra_buf a) s.

Lemma shows_extend start cur n buf buf' s s' :
  start <= cur -> 0 < n ->
  (forall x, start <= x < cur -> user_sector (view_of s) x /\
             SWAP_SECTOR_ALIGN x <> SWAP_SECTOR_ALIGN cur) ->
  shows start (cur - start) 0 buf s -> frame (SWAP_SECTOR_ALIGN cur) s s' ->
  buf_upd (512 * (cur - start)) (512 * n) buf buf' ->
  shows cur n (512 * (cur - start)) buf' s' ->
  shows start (cur + n - start) 0 buf' s'.
Proof.
  intros Hle Hn Hdone Hsh Hfr [_ Hb] Hsh' x Hx.
  destruct (Z_lt_ge_dec x cur) as [Hlt|Hge].
  - destruct (Hdone x ltac:(lia)) as [Hu Hne]. rewrite Hb by lia. rewrite Hsh by lia.
    symmetry. by apply Hfr.
  - rewrite <- Hsh' by lia. f_equal. lia.
Qed.

Lemma read_round start count i_bad j a s0 s :
  0 <= start -> 0 < count < 2 ^ 30 -> start + count <= v_reserve (view_of s0) ->
  v_reserve (view_of s0) < 2 ^ 32 - 2 ^ 20 -> 0 <= j -> cursor start j < start + count ->
  read_loop_inv start count s0 j a s ->
  wp (core_read_blk start (SWAP_BLOCK_INDEX start) i_bad j a)
     (fun r s' => match r with
        | inl a' => read_loop_inv start count s0 (j + 1) a' s'
        | inr buf' => zlen buf' = 512 * count /\ step_ok True s0 s' /\
                      frame_outside start (start + count) s0 s'
        end) s.
Proof.
  intros Hs Hc Hend Hres Hj Hcur (Ec & Ep & Eb & Hst & Hfr & Hdirty & Hsh).
  rewrite (reached_cursor _ _ _ Hcur) in *.
  destruct (piece_spec start count j (ra_count a)) as (b & n & Epc & Hpo); try done; try lia.
  destruct Hpo as [_ Eb' _ Hin Hnext Hleft Hrange]. rewrite Eb' in Epc.
  set (cur := cursor start j) in *. pose proof Hin as [Hn _].
  assert (v_geom (view_of s) = v_geom (view_of s0)) as Hg by apply Hst.
  assert (v_reserve (view_of s) = v_reserve (view_of s0)) as Hvr by (unfold v_reserve; by rewrite Hg).
  eapply wp_mono.
  { apply (wp_core_read_blk _ _ _ _ _ cur n); try done; try lia; [apply Hst|].
    unfold user_sector. lia. }
  cbv beta. intros [a'|buf'] s'.
  - intros (dirty & Ea & Hst' & Hfr' & Hb' & Hsh' & Hd'). unfold read_loop_inv.
    rewrite <- Hnext. rewrite Ea. cbn [ra_count ra_pos ra_buf ra_dirty].
    pose proof Hb' as [Hbl _]. split_and!.
    + done.
    + lia.
    + by rewrite Hbl.
    + by eapply step_ok_trans.
    + eapply frame_extend; try done; lia.
    + destruct dirty; [done|]. intros Hd x Hx. rewrite Hd'; [by apply Hdirty|done|].
      unfold user_sector. by rewrite Hvr.
    + rewrite Ep in *. eapply shows_extend; try done; [lia|].
      intros x Hx. split; [unfold user_sector; lia|]. by apply cursor_done.
  - intros (Hst' & Hun & [Hbl _]). split_and!; [by rewrite Hbl|by eapply step_ok_trans|].
    intros x Hx Hout. rewrite Hun by (unfold user_sector; by rewrite Hvr).
    apply Hfr; [done|]. unfold touched in *. lia.
Qed.

(** The number of users does not matter to what is seen. *)
Lemma with_user_view z s :
  view_of (upd_core (core_user z) s) = v_with_user z (view_of s).
Proof. done. Qed.

Lemma inv_user z s : inv s -> inv (upd_core (core_user z) s).
Proof.
  intros ([Hh Hl] & [? ? ? ?] & Hn). split_and!; [done|by split|done].
Qed.

Lemma bits_user z s : bits_ok (view_of (upd_core (core_user z) s)) <-> bits_ok (view_of s).
Proof. rewrite with_user_view. split; intros []; by split. Qed.

(** What a request promises besides its data: the invariant, the geometry and
    the count of users. *)
Definition request_ok (keep : Prop) s s' : Prop :=
  inv s' /\ v_geom (view_of s') = v_geom (view_of s) /\
  v_user (view_of s') = v_user (view_of s) /\ (keep -> bits_ok (view_of s) -> bits_ok (view_of s')).

Lemma request_ok_user keep s s' :
  0 <= v_user (view_of s) < 2 ^ 31 - 1 ->
  step_ok keep (upd_core (core_user (s32 (user (core s) + 1))) s) s' ->
  request_ok keep s (upd_core (core_user (s32 (user (core s') - 1))) s').
Proof.
  intros Hu [Hi Hg Hus Hb]. split_and!.
  - by apply inv_user.
  - exact Hg.
  - rewrite with_user_view. cbn [v_user v_with_user]. change (user (core s')) with (v_user (view_of s')).
    rewrite Hus, with_user_view. cbn in Hu |- *. rewrite (s32_small (user (core s) + 1)) by lia. rewrite s32_small; lia.
  - intros Hk Hbits. apply bits_user. apply Hb; [done|]. by apply bits_user.
Qed.

(** A request to user sectors. *)
Record request s (start count : Z) (buf : bytes) : Prop := {
  rq_start : 0 <= start;
  rq_count : 0 < count < 2 ^ 23;
  rq_end : start + count <= v_reserve (view_of s);
  rq_buf : zlen buf = 512 * count;
  rq_users : 0 <= v_user (view_of s) < 2 ^ 31 - 1
}.

Lemma request_index s start count buf :
  inv s -> request s start count buf -> s32 (SWAP_BLOCK_INDEX start) = SWAP_BLOCK_INDEX start.
Proof.
  intros (_ & Hm & _) [Hs Hc He _ _]. pose proof (mo_geom _ Hm) as Hg. apply s32_small.
  unfold SWAP_BLOCK_INDEX, SECTOR_NUM_PER_SWAP_BLOCK.
  assert (start < 2 ^ 32) by (layout; lia).
  assert (0 <= start / 128) by (apply Z.div_pos; lia).
  assert (start / 128 < 2 ^ 25) by (apply Z.div_lt_upper_bound; lia). lia.
Qed.

Lemma wp_core_read start count bad buf s :
  inv s -> request s start count buf ->
  wp (scsi_swap_core_read start count bad buf)
     (fun x s' => let '(ret, buf') := x in
        zlen buf' = zlen buf /\ request_ok True s s' /\
        (ret = 0 \/ ret = -1 \/ ret = - DATA_MAY_DIRTY) /\
        (ret = 0 -> unchanged s s') /\
        (ret <> -1 -> shows start count 0 buf' s') /\
        frame_outside start (start + count) s s' /\
        (device_dead (core s) <> 0 -> ret = -1 /\ s' = s /\ buf' = buf)) s.
Proof.
  intros Hinv Hrq. pose proof (request_index _ _ _ _ Hinv Hrq) as Hix.
  destruct Hrq as [Hs Hc Hend Hbuf Hus]. pose proof Hinv as (_ & Hm & _).
  assert (v_reserve (view_of s) < 2 ^ 32 - 2 ^ 20) as Hres by (pose proof (mo_geom _ Hm); layout; lia).
  unfold scsi_swap_core_read. rewrite Hix. kstep. apply wp_is_dead. unfold c_true.
  destruct (Z.eqb_spec (device_dead (core s)) 0) as [Hd|Hd]; cbn [negb].
  2: { kstep. split_and!; try done; try by auto. }
  unfold inc_user. do 2 kstep. set (s0 := upd_core _ s).
  destruct (block_count_spec start count) as [Hb0 Hb]; [lia..|].
  kstep. apply wp_mono with (P := fun r s' => match r with
       | inl a => read_loop_inv start count s0 (get_swap_block_count start count) a s'
       | inr buf' => zlen buf' = 512 * count /\ step_ok True s0 s' /\
                     frame_outside start (start + count) s0 s'
       end).
  { apply (wp_for (read_loop_inv start count s0)).
    - unfold read_loop_inv, reached, cursor. cbn [Z.eqb ra_count ra_pos ra_buf ra_dirty].
      rewrite Z.min_r by lia. split_and!; try lia; try done.
      + split; try done. by apply inv_user.
      + intros x Hx. lia.
    - intros j a s1 Hj HI. rewrite Z2Nat.id in Hj by lia.
      eapply wp_mono.
      + eapply (read_round start count _ _ _ s0); try exact Hend; try exact Hres; try exact HI;
          try lia. apply Hb; lia.
      + intros [a'|b'] s2 HH; exact HH.
    - intros a s1 HI. rewrite Z.add_0_l, Z2Nat.id in HI by lia. exact HI. }
  assert (reached start count (get_swap_block_count start count) = start + count) as Hr.
  { unfold reached. destruct (Z_lt_ge_dec (cursor start (get_swap_block_count start count))
      (start + count)) as [Hlt|]; [|lia]. apply Hb in Hlt; lia. }
  intros r s1 HQ. unfold dec_user. do 2 kstep. destruct r as [a|buf']; kstep.
  - destruct HQ as (_ & _ & Hbl & Hst & Hfr & Hdirty & Hsh). rewrite Hr in *.
    replace (start + count - start) with count in Hsh by lia.
    split_and!; [congruence|by apply request_ok_user| | |done|done|done].
    + destruct (ra_dirty a); auto.
    + destruct (ra_dirty a); [done|]. intros _. by apply Hdirty.
  - destruct HQ as (Hbl & Hst & Hfr).
    split_and!; [congruence|by apply request_ok_user|by auto|done|done|done|done].
Qed.


(** ** Writing one block *)

Lemma NoDup_fmap_upd {A B} (f g : A -> B) (l : list A) (p : A) :
  NoDup (f <$> l) -> (forall q, q ∈ l -> q <> p -> g q = f q) ->
  (forall q, q ∈ l -> q <> p -> f q <> g p) -> EqDecision A -> NoDup (g <$> l).
Proof.
  intros Hnd Heq Hne ?. induction l as [|a l IH]; [done|].
  apply NoDup_cons in Hnd as [Ha Hnd]. cbn. apply NoDup_cons. split.
  - intros (q & Hq & Hin)%list_elem_of_fmap.
    destruct (decide (a = p)) as [->|Hap], (decide (q = p)) as [->|Hqp].
    + apply Ha. by apply list_elem_of_fmap_2.
    + rewrite (Heq q) in Hq by (done || by right). by apply (Hne q); [right|..].
    + rewrite (Heq a) in Hq by (done || left). by apply (Hne a); [left|..].
    + rewrite (Heq a), (Heq q) in Hq by (done || left || by right).
      apply Ha. rewrite Hq. by apply list_elem_of_fmap_2.
  - apply IH; [done|..]; intros q Hq; [apply Heq|apply Hne]; by right.
Qed.

(** A moved replacement block keeps the bitmap in order. *)
Lemma moved_bits p i i' ret s s' :
  priv p s s' -> maps_ok (view_of s) -> bits_grow s s' ->
  v_infos (view_of s) !! p = Some i -> v_infos (view_of s') !! p = Some i' ->
  0 <= index (table i') -> moved s ret i i' s' -> ret <> -1 ->
  bits_ok (view_of s) -> bits_ok (view_of s').
Proof.
  intros Hp Hm Hg Hi Hi' Hix Hmv Hret Hb.
  assert (forall q, q <> p -> v_infos (view_of s') !! q = v_infos (view_of s) !! q) as Hq
    by (intros; by eapply priv_lookup).
  assert (forall q j, q ∈ v_list (view_of s) -> v_infos (view_of s) !! q = Some j ->
            0 <= index (table j)) as Hrange.
  { intros q j Hin Hj. destruct (mo_infos _ Hm q Hin) as (j' & Hj' & Hok).
    rewrite Hj in Hj'. injection Hj' as <-. apply (io_index _ _ Hok). }
  split; rewrite (priv_list _ _ _ Hp).
  - intros q j Hin Hj. destruct (decide (q = p)) as [->|Hne].
    + rewrite Hi' in Hj. injection Hj as <-. destruct Hmv as [Et|[_ Hx]]; [|by apply Hx].
      rewrite Et in Hix |- *. apply Hg; [done|]. by eapply (bo_set _ Hb).
    + rewrite Hq in Hj by done. apply Hg; [by eapply Hrange|]. by eapply (bo_set _ Hb).
  - destruct Hmv as [Et|[Hfree _]].
    + rewrite (list_fmap_ext (v_index (view_of s')) (v_index (view_of s)) (v_list (view_of s))).
      * exact (bo_nodup _ Hb).
      * intros k q _. unfold v_index. destruct (decide (q = p)) as [->|Hne]; [|by rewrite Hq].
        rewrite Hi, Hi'. cbn. by rewrite Et.
    + apply (NoDup_fmap_upd (v_index (view_of s)) _ _ p); [exact (bo_nodup _ Hb)| | |apply _].
      * intros q _ Hne. unfold v_index. by rewrite Hq.
      * intros q Hin Hne. unfold v_index. rewrite Hi'.
        destruct (mo_infos _ Hm q Hin) as (j & Hj & _). rewrite Hj. cbn.
        intros [= E]. rewrite <- E, (bo_set _ Hb q j Hin Hj) in Hfree. done.
Qed.

(** What a change of the listed object [p] does to the abstract disk. *)
Lemma priv_sees_listed p i i' d' s s' x :
  priv p s s' -> v_infos (view_of s) !! p = Some i -> v_infos (view_of s') !! p = Some i' ->
  src_sec (table i') = src_sec (table i) -> data i' = Some d' -> user_sector (view_of s) x ->
  sees s' x = if decide (v_find (view_of s) (SWAP_SECTOR_ALIGN x) = Some p)
              then slice ((x - SWAP_SECTOR_ALIGN x) * SECTOR_SIZE) SECTOR_SIZE d'
              else sees s x.
Proof.
  intros ((b & m & E & F) & _ & T) Hi Hi' Hsrc Hd Hx.
  assert (m = <[p := i']> (v_infos (view_of s))) as ->.
  { apply map_eq. intros q. destruct (decide (q = p)) as [->|Hq].
    - rewrite E in Hi'. by rewrite lookup_insert_eq.
    - rewrite lookup_insert_ne by done. by apply F. }
  unfold sees at 1. rewrite E.
  transitivity (content (v_with_infos (<[p:=i']> (v_infos (view_of s))) (view_of s))
                  (media (dev s')) x); [done|].
  rewrite (content_update _ _ p i i') by done. rewrite Hd. cbn [default].
  case_decide; [done|]. unfold sees. apply content_ext. intros _. by eapply touches_user.
Qed.

(** The sectors [cur, cur+n) now hold the data at byte [pos] of [buf]. *)
Definition stored cur n pos (buf : bytes) s : Prop :=
  forall x, cur <= x < cur + n -> sees s x = slice (pos + 512 * (x - cur)) 512 buf.

Definition write_ok b cur n pos buf (dirty : bool) s s' : Prop :=
  step_ok True s s' /\ frame b s s' /\ stored cur n pos buf s' /\
  (dirty = false -> forall x, user_sector (view_of s) x -> ~ (cur <= x < cur + n) ->
     sees s' x = sees s x).
Definition write_err b s s' : Prop := step_ok False s s' /\ frame b s s'.

Lemma whole_block cur n x :
  in_block cur n -> 128 <= n -> ~ (cur <= x < cur + n) -> SWAP_SECTOR_ALIGN x <> SWAP_SECTOR_ALIGN cur.
Proof.
  intros [Hn Hin] Hw Hx E. destruct (align_spec cur) as [? _]. destruct (align_spec x) as [? _].
  unfold SECTOR_NUM_PER_SWAP_BLOCK in *. lia.
Qed.

(** The sectors of a request in the data of their block. *)
Lemma block_slice cur n pos buf (d : bytes) x :
  in_block cur n -> 0 <= pos -> pos + 512 * n <= zlen buf -> zlen d = SWAP_BLOCK_SIZE ->
  slice (block_off cur) (512 * n) d = slice pos (512 * n) buf -> cur <= x < cur + n ->
  slice ((x - SWAP_SECTOR_ALIGN x) * SECTOR_SIZE) SECTOR_SIZE d = slice (pos + 512 * (x - cur)) 512 buf.
Proof.
  intros Hin Hpos Hfit Hd Heq Hx. pose proof (block_off_range _ _ Hin) as [Ho1 Ho2].
  rewrite (align_in_block cur n x Hin Hx).
  replace ((x - SWAP_SECTOR_ALIGN cur) * SECTOR_SIZE) with (block_off cur + 512 * (x - cur))
    by (unfold block_off, SECTOR_SIZE; lia).
  change SECTOR_SIZE with 512. rewrite <- (slice_slice _ (512 * n)), Heq, slice_slice by lia. done.
Qed.

(** Outside the written range the data of the block is the old one. *)
Lemma block_slice_out cur n (new d : bytes) x :
  in_block cur n -> zlen new = 512 * n -> zlen d = SWAP_BLOCK_SIZE ->
  SWAP_SECTOR_ALIGN x = SWAP_SECTOR_ALIGN cur -> ~ (cur <= x < cur + n) ->
  slice ((x - SWAP_SECTOR_ALIGN x) * SECTOR_SIZE) SECTOR_SIZE (splice (block_off cur) new d)
  = slice ((x - SWAP_SECTOR_ALIGN x) * SECTOR_SIZE) SECTOR_SIZE d.
Proof.
  intros Hin Hnew Hd Ea Hx. pose proof (block_off_range _ _ Hin) as [Ho1 Ho2].
  destruct (align_spec x) as [? _].
  apply slice_splice_out; [done|unfold SECTOR_SIZE; lia|lia|].
  rewrite Ea in *. rewrite Hnew. unfold block_off, SECTOR_SIZE in *. lia.
Qed.

(** A change of a listed object as a step. *)
Lemma listed_step p i i' ret s s' :
  inv s -> priv p s s' -> bits_grow s s' -> p ∈ v_list (view_of s) ->
  v_infos (view_of s) !! p = Some i -> v_infos (view_of s') !! p = Some i' ->
  info_ok (v_data (view_of s)) i' -> src_sec (table i') = src_sec (table i) ->
  moved s ret i i' s' -> step_ok (ret <> -1) s s'.
Proof.
  intros (He & Hm & Hn) Hp Hg Hin Hi Hi' Hok Hsrc Hmv. split.
  - split_and!.
    + by apply Hp.
    + eapply priv_maps_update; [exact Hp|done|exact Hi'|done|]. intros _. rewrite Hi. cbn. by rewrite Hsrc.
    + unfold num_ok. by rewrite (priv_num _ _ _ Hp), (priv_list _ _ _ Hp).
  - by eapply priv_geom.
  - by destruct Hp as ((b & m & -> & _) & _).
  - intros Hr. eapply moved_bits; try done. apply (io_index _ _ Hok).
Qed.

Lemma step_ok_keep (P P' : Prop) s s' : (P' -> P) -> step_ok P s s' -> step_ok P' s s'.
Proof. intros HP [? ? ? ?]. split; auto. Qed.

(** Writing to a mapped block. *)
Lemma wp_write_mapped p cur n buf pos s :
  inv s -> v_find (view_of s) (SWAP_SECTOR_ALIGN cur) = Some p -> user_sector (view_of s) cur ->
  cur + n <= v_reserve (view_of s) -> in_block cur n -> 0 <= pos -> pos + 512 * n <= zlen buf ->
  wp (swap_write p cur n buf pos (n * SECTOR_SIZE))
     (fun ret s' => (ret = 0 \/ ret = -1 \/ ret = - DATA_MAY_DIRTY) /\
        (ret = 0 -> write_ok (SWAP_SECTOR_ALIGN cur) cur n pos buf false s s') /\
        (ret = - DATA_MAY_DIRTY ->
           write_ok (SWAP_SECTOR_ALIGN cur) cur n pos buf (n <? SECTOR_NUM_PER_SWAP_BLOCK) s s') /\
        (ret = -1 -> write_err (SWAP_SECTOR_ALIGN cur) s s')) s.
Proof.
  intros Hinv Hf Hu Hend Hin Hpos Hfit. pose proof Hinv as (He & Hm & _).
  destruct (maps_find _ _ _ Hm Hf) as (Hpin & i & Hi & Hok & Hsrc).
  destruct (io_data _ _ Hok) as (d & Hd & Hdl). destruct (Hin) as [Hn _].
  eapply wp_mono; [by apply (wp_swap_write p i d)|].
  cbv beta. intros ret s' (Hp & Hg & Hret & i' & d' & Hi' & Hok' & Hs' & Hmv & Hd' & H0' & Hrange).
  pose proof (listed_step p i i' ret s s' Hinv Hp Hg Hpin Hi Hi' Hok' Hs' Hmv) as Hst.
  assert (zlen d' = SWAP_BLOCK_SIZE) as Hdl'
    by (destruct (io_data _ _ Hok') as (d0 & E & ?); rewrite Hd' in E; by injection E as <-).
  assert (zlen (slice pos (512 * n) buf) = 512 * n) as Hsl by (apply zlen_slice; lia).
  rewrite Hsl in Hrange.
  assert (forall x, user_sector (view_of s) x -> sees s' x
    = if decide (v_find (view_of s) (SWAP_SECTOR_ALIGN x) = Some p)
      then slice ((x - SWAP_SECTOR_ALIGN x) * SECTOR_SIZE) SECTOR_SIZE d' else sees s x) as Hsees
    by (intros x Hx; by eapply priv_sees_listed).
  assert (frame (SWAP_SECTOR_ALIGN cur) s s') as Hfr.
  { intros x Hx Hne. rewrite Hsees by done. rewrite decide_False; [done|]. intros Hfx.
    destruct (maps_find _ _ _ Hm Hfx) as (_ & j & Hj & _ & Hsj). rewrite Hi in Hj.
    injection Hj as <-. congruence. }
  assert (ret <> -1 -> stored cur n pos buf s') as Hsto.
  { intros Hr x Hx. rewrite Hsees by (unfold user_sector in *; lia).
    rewrite decide_True by (by rewrite (align_in_block cur n x)).
    eapply block_slice; try done. by apply Hrange. }
  split_and!; [done| | |].
  - intros ->. split_and!; [eapply step_ok_keep; [|exact Hst]|done|apply Hsto|];
      try (unfold DATA_MAY_DIRTY; lia).
    intros _ x Hx Hout. rewrite Hsees by done. case_decide as Hfx; [|done].
    rewrite (H0' eq_refl), (block_slice_out cur n); try done.
    + unfold sees, content. rewrite Hfx. unfold block_data. by rewrite Hi, Hd.
    + destruct (maps_find _ _ _ Hm Hfx) as (_ & j & Hj & _ & Hsj). congruence.
  - intros ->. split_and!; [eapply step_ok_keep; [|exact Hst]|done|apply Hsto|];
      try (unfold DATA_MAY_DIRTY; lia).
    intros Hw x Hx Hout. apply Hfr; [done|]. apply Z.ltb_ge in Hw.
    by eapply whole_block.
  - intros ->. split; [eapply step_ok_keep; [|exact Hst]; lia|done].
Qed.

(** A plain write to an unmapped block. *)
Lemma wp_write_direct skip cur n buf pos s :
  inv s -> v_find (view_of s) (SWAP_SECTOR_ALIGN cur) = None -> user_sector (view_of s) cur ->
  cur + n <= v_reserve (view_of s) -> in_block cur n -> 0 <= pos -> pos + 512 * n <= zlen buf ->
  wp (write_direct skip cur n buf pos (n * SECTOR_SIZE))
     (fun r s' => view_of s' = view_of s /\ step_ok True s s' /\ frame (SWAP_SECTOR_ALIGN cur) s s' /\
        (r = DONE -> write_ok (SWAP_SECTOR_ALIGN cur) cur n pos buf false s s')) s.
Proof.
  intros Hinv Hf Hu Hend Hin Hpos Hfit. pose proof Hinv as (He & Hm & Hnum).
  destruct (Hin) as [Hn Hn']. destruct (align_spec cur) as [Hal _].
  assert (0 <= cur < 2 ^ 32) as Hcur by (pose proof (mo_geom _ Hm); layout; lia).
  unfold write_direct. destruct skip.
  { kstep. split_and!; [done|by apply hush_step|done|done]. }
  unfold SECTOR_SIZE. replace (n * 512) with (512 * n) by lia.
  kstep. apply wp_load; [lia..|]. kstep. unfold hd_write_sector_retry.
  assert (zlen (slice pos (512 * n) buf) = 512 * n) as Hsl by (apply zlen_slice; lia).
  eapply wp_mono; [apply wp_hd_write; [lia|lia|done|done]|].
  cbv beta. intros ret s1 (Hio & Ht & Hret & Hdata).
  pose proof (io_view _ _ Hio) as Ev.
  assert (step_ok True s s1) as Hst.
  { split; rewrite ?Ev; try done. split_and!; rewrite ?Ev; try done.
    unfold io in Hio. eapply env_ok_same; [..|exact He]; by rewrite Hio. }
  assert (forall x, ~ (cur <= x < cur + n) -> sees s1 x = sees s x) as Hout.
  { intros x Hx. unfold sees. rewrite Ev. apply content_ext. intros _. by apply Ht. }
  assert (frame (SWAP_SECTOR_ALIGN cur) s s1) as Hfr.
  { intros x Hx Hne. apply Hout. intros Hxx. apply Hne. by eapply align_in_block. }
  destruct (Z.eqb_spec ret 0) as [->|Hne].
  - kstep. split_and!; try done. intros _. split_and!; try done; [|by intros _ x _ Hx; apply Hout].
    intros x Hx. rewrite sees_unmapped by (rewrite Ev; by rewrite (align_in_block cur n x)).
    replace x with (cur + (x - cur)) at 1 by lia. rewrite (Hdata eq_refl) by lia.
    rewrite slice_slice by lia. done.
  - kstep. apply wp_is_dead. kstep. split_and!; [done|done|done|]. by destruct (c_true _).
Qed.

(** A block that was free after a step was free before. *)
Lemma grow_free s s' n :
  bits_grow s s' -> 0 <= n -> bit_of (v_bitmap (view_of s')) n = false ->
  bit_of (v_bitmap (view_of s)) n = false.
Proof.
  intros Hg Hn Hf. destruct (bit_of (v_bitmap (view_of s)) n) eqn:E; [|done].
  by rewrite (Hg n Hn E) in Hf.
Qed.

(** A write to a created object that is not yet listed. *)
Lemma wrote_created p src i d off new ret s s1 s2 :
  created s (Some p) src s1 -> v_infos (view_of s1) !! p = Some i ->
  wrote p i d off new s1 ret s2 ->
  exists i', v_infos (view_of s2) !! p = Some i' /\ info_ok (v_data (view_of s)) i' /\
    bit_of (v_bitmap (view_of s)) (index (table i')) = false /\
    priv p s s2 /\ bits_grow s s2 /\
    (ret <> -1 -> created s (Some p) src s2 /\
       exists d', data i' = Some d' /\ zlen d' = SWAP_BLOCK_SIZE /\ slice off (zlen new) d' = new).
Proof.
  intros (Hn & Hp & Hg & Hnum & j & Hj & Hok & Hsrc & Hb0 & Hb1) Hi
         (Hp2 & Hg2 & _ & i' & d' & Hi' & Hok' & Hs' & Hmv & Hd' & _ & Hsl).
  rewrite Hi in Hj. injection Hj as <-.
  assert (v_data (view_of s1) = v_data (view_of s)) as Hvd
    by (unfold v_data; by rewrite (priv_geom _ _ _ Hp)).
  rewrite Hvd in Hok'. pose proof (info_index _ _ Hok') as Hix.
  assert (priv p s s2) as Hp02 by (by eapply priv_trans).
  assert (bits_grow s s2) as Hg02 by (by eapply bits_grow_trans).
  assert (bit_of (v_bitmap (view_of s)) (index (table i')) = false) as Hfree.
  { destruct Hmv as [->|[Hf _]]; [done|]. eapply grow_free; [exact Hg|lia|done]. }
  exists i'. split_and!; try done. intros Hr. split.
  - split_and!; try done. exists i'. split_and!; try done; [congruence|].
    destruct Hmv as [Et|[_ Hx]]; [|by apply Hx]. rewrite Et in Hix |- *. apply Hg2; [lia|done].
  - exists d'. split_and!; [done| |by apply Hsl].
    destruct (io_data _ _ Hok') as (d0 & E & ?). rewrite Hd' in E. by injection E as <-.
Qed.

Lemma wp_write_remap cur n buf pos s :
  inv s -> v_find (view_of s) (SWAP_SECTOR_ALIGN cur) = None -> user_sector (view_of s) cur ->
  cur + n <= v_reserve (view_of s) -> in_block cur n -> 0 <= pos -> pos + 512 * n <= zlen buf ->
  wp (write_remap cur n buf pos (n * SECTOR_SIZE))
     (fun ok s' => step_ok True s s' /\ frame (SWAP_SECTOR_ALIGN cur) s s' /\
                   (ok = true -> stored cur n pos buf s')) s.
Proof.
  intros Hinv Hf Hu Hend Hin Hpos Hfit. pose proof Hinv as (He & Hm & Hnum). destruct (Hin) as [Hn _].
  unfold write_remap. kstep. kcall wp_swap_create; [done..|]. intros [p|] s1 Hcr.
  2: { destruct Hcr as [Hb Hg]. kstep.
       split_and!; [by apply bg_step|by apply unchanged_frame, bg_unchanged|done]. }
  pose proof Hcr as (Hnone & Hp & Hg & _ & i & Hi & Hok & Hsrc & _ & _).
  destruct (io_data _ _ Hok) as (d & Hd & Hdl).
  assert (v_geom (view_of s1) = v_geom (view_of s)) as Hgeo by (by eapply priv_geom).
  cbv zeta. kstep. eapply wp_mono.
  { apply (wp_swap_write p i d); try done.
    - eapply priv_maps; [exact Hp|by eapply maps_ok_unlisted|done].
    - by apply Hp.
    - unfold v_data. by rewrite Hgeo.
    - unfold user_sector, v_reserve. by rewrite Hgeo. }
  cbv beta. intros ret s2 Hw.
  destruct (wrote_created _ _ _ _ _ _ _ _ _ _ Hcr Hi Hw)
    as (i' & Hi' & Hok' & Hfree & Hp2 & Hg2 & Hnew).
  destruct (Z.eqb_spec ret 0) as [->|Hne]; cbn [negb].
  2: { eapply (wp_undo p i' _ _ s); [done|done|done|done|done|by eapply info_index|done|].
       intros s3 Hst Hun. split_and!; [done|by apply unchanged_frame|done]. }
  destruct (Hnew ltac:(done)) as (Hcr2 & d' & Hd' & Hdl' & Hsl).
  assert (zlen (slice pos (512 * n) buf) = 512 * n) as Hlen by (apply zlen_slice; lia).
  rewrite Hlen in Hsl.
  eapply (wp_publish p _ i' _ _ s); try done. intros s3 (Hst & Hs). cbn [Z.eqb negb].
  unfold inc_info_num. do 3 kstep. set (s4 := upd_core _ s3) in *.
  rewrite Hd' in Hs. cbn [default] in Hs. split_and!; [done| |].
  - intros x Hx Hne. rewrite Hs by done. by rewrite decide_False.
  - intros _ x Hx. rewrite Hs by (unfold user_sector in *; lia).
    rewrite decide_True by (by eapply align_in_block). by eapply block_slice.
Qed.

Lemma wp_write_repair cur n buf pos s :
  inv s -> v_find (view_of s) (SWAP_SECTOR_ALIGN cur) = None -> user_sector (view_of s) cur ->
  cur + n <= v_reserve (view_of s) -> in_block cur n -> 0 <= pos -> pos + 512 * n <= zlen buf ->
  wp (write_repair cur n buf pos (n * SECTOR_SIZE))
     (fun r s' => step_ok True s s' /\ frame (SWAP_SECTOR_ALIGN cur) s s' /\
        (forall dirty, r = Some dirty -> dirty = (n <? SECTOR_NUM_PER_SWAP_BLOCK) /\
           stored cur n pos buf s')) s.
Proof.
  intros Hinv Hf Hu Hend Hin Hpos Hfit. unfold write_repair. kstep. kcall wp_repair.
  intros ret s1 (Hh & Hne). apply Z.eqb_neq in Hne as ->.
  pose proof Hh as (Ev & _ & _). pose proof (hush_step True _ _ Hinv Hh) as Hst.
  assert (unchanged s s1) as Hun by (by apply bg_unchanged, hush_bg).
  kstep. apply wp_is_dead. destruct (c_true _).
  { kstep. split_and!; [done|by apply unchanged_frame|done]. }
  kstep. eapply wp_mono; [apply wp_write_remap; rewrite ?Ev; first [done|apply Hst]|].
  cbv beta. intros ok s2 (Hst2 & Hfr & Hsto). kstep.
  split_and!; [by eapply step_ok_trans| |].
  - eapply frame_trans; [apply Hst|by apply unchanged_frame|done].
  - destruct ok; [|done]. intros dirty [= <-]. split; [done|by apply Hsto].
Qed.

(** One round of the write loop. *)
Lemma wp_core_write_blk buf start i_start i_bad i a cur n s :
  inv s -> user_sector (view_of s) cur -> cur + n <= v_reserve (view_of s) -> in_block cur n ->
  piece start i_start i (wa_count a) = (SWAP_SECTOR_ALIGN cur, cur, n) ->
  0 <= wa_pos a -> wa_pos a + 512 * n <= zlen buf ->
  wp (core_write_blk buf start i_start i_bad i a)
     (fun r s' => match r with
        | inl a' => exists dirty,
            a' = mkWacc (u32 (wa_count a - n)) (wa_pos a + 512 * n)
                   (if (dirty : bool) then true else wa_dirty a) /\
            write_ok (SWAP_SECTOR_ALIGN cur) cur n (wa_pos a) buf dirty s s'
        | inr _ => write_err (SWAP_SECTOR_ALIGN cur) s s'
        end) s.
Proof.
  intros Hinv Hu Hend Hin Hpc Hpos Hfit. pose proof Hinv as (_ & Hm & _).
  unfold core_write_blk. rewrite Hpc.
  replace (wa_pos a + 512 * n) with (wa_pos a + n * SECTOR_SIZE) by (unfold SECTOR_SIZE; lia).
  kstep. apply wp_find; [done|].
  destruct (v_find (view_of s) (SWAP_SECTOR_ALIGN cur)) as [p|] eqn:Hf.
  - kstep. eapply wp_mono; [by apply wp_write_mapped|].
    cbv beta. intros ret s' (Hret & H1 & H2 & H3).
    destruct (Z.eqb_spec ret 0) as [->|Hne].
    { kstep. exists false. split; [done|by apply H1]. }
    destruct (Z.eqb_spec ret (- DATA_MAY_DIRTY)) as [->|Hne'].
    { kstep. eexists. split; [reflexivity|by apply H2]. }
    kstep. apply H3. by destruct Hret as [?|[?|?]].
  - kstep. eapply wp_mono; [by apply wp_write_direct|].
    cbv beta. intros r s1 (Ev & Hst & Hfr & Hdone). destruct r.
    + kstep. exists false. split; [done|by apply Hdone].
    + kstep. eapply wp_mono; [apply wp_write_repair; rewrite ?Ev; first [done|apply Hst]|].
      cbv beta. intros r s2 (Hst2 & Hfr2 & Hr).
      assert (step_ok True s s2) as Hst02 by (by eapply step_ok_trans).
      assert (frame (SWAP_SECTOR_ALIGN cur) s s2) as Hfr02
        by (eapply frame_trans; [apply Hst|done|done]).
      destruct r as [dirty|]; kstep.
      * destruct (Hr dirty eq_refl) as [-> Hsto]. eexists. split; [reflexivity|].
        split_and!; [done|done|done|]. intros Hw x Hx Hout. apply Hfr02; [done|].
        apply Z.ltb_ge in Hw. by eapply whole_block.
      * split; [by apply step_ok_weaken|done].
    + kstep. split; [by apply step_ok_weaken|done].
Qed.

(** ** The write loop *)

(** Outside [a, b) nothing changed. *)
Definition only (a b : Z) s s' : Prop :=
  forall x, user_sector (view_of s) x -> ~ (a <= x < b) -> sees s' x = sees s x.

Definition write_loop_inv start count buf s0 i (a : wacc) s : Prop :=
  let cur := reached start count i in
  wa_count a = start + count - cur /\ wa_pos a = 512 * (cur - start) /\
  step_ok True s0 s /\ frame_outside start cur s0 s /\
  stored start (cur - start) 0 buf s /\ (wa_dirty a = false -> only start cur s0 s).

Lemma stored_extend start cur n buf s s' :
  start <= cur -> 0 < n ->
  (forall x, start <= x < cur -> user_sector (view_of s) x /\
             SWAP_SECTOR_ALIGN x <> SWAP_SECTOR_ALIGN cur) ->
  stored start (cur - start) 0 buf s -> frame (SWAP_SECTOR_ALIGN cur) s s' ->
  stored cur n (512 * (cur - start)) buf s' ->
  stored start (cur + n - start) 0 buf s'.
Proof.
  intros Hle Hn Hdone Hsh Hfr Hsh' x Hx.
  destruct (Z_lt_ge_dec x cur) as [Hlt|Hge].
  - destruct (Hdone x ltac:(lia)) as [Hu Hne]. rewrite Hfr by done. apply Hsh. lia.
  - rewrite Hsh' by lia. f_equal. lia.
Qed.

Lemma write_round start count i_bad buf j a s0 s :
  0 <= start -> 0 < count < 2 ^ 30 -> start + count <= v_reserve (view_of s0) ->
  v_reserve (view_of s0) < 2 ^ 32 - 2 ^ 20 -> zlen buf = 512 * count ->
  0 <= j -> cursor start j < start + count ->
  write_loop_inv start count buf s0 j a s ->
  wp (core_write_blk buf start (SWAP_BLOCK_INDEX start) i_bad j a)
     (fun r s' => match r with
        | inl a' => write_loop_inv start count buf s0 (j + 1) a' s'
        | inr _ => step_ok False s0 s' /\ frame_outside start (start + count) s0 s'
        end) s.
Proof.
  intros Hs Hc Hend Hres Hbuf Hj Hcur (Ec & Ep & Hst & Hfr & Hsto & Hdirty).
  rewrite (reached_cursor _ _ _ Hcur) in *.
  destruct (piece_spec start count j (wa_count a)) as (b & n & Epc & Hpo); try done; try lia.
  destruct Hpo as [_ Eb' _ Hin Hnext Hleft Hrange]. rewrite Eb' in Epc.
  set (cur := cursor start j) in *. pose proof Hin as [Hn _].
  assert (v_geom (view_of s) = v_geom (view_of s0)) as Hg by apply Hst.
  assert (v_reserve (view_of s) = v_reserve (view_of s0)) as Hvr by (unfold v_reserve; by rewrite Hg).
  eapply wp_mono.
  { apply (wp_core_write_blk _ _ _ _ _ _ cur n); try done; try lia; [apply Hst|].
    unfold user_sector. lia. }
  cbv beta. intros [a'|u] s'.
  - intros (dirty & Ea & Hst' & Hfr' & Hsto' & Hd'). unfold write_loop_inv.
    rewrite <- Hnext. rewrite Ea. cbn [wa_count wa_pos wa_dirty]. split_and!.
    + done.
    + lia.
    + by eapply step_ok_trans.
    + eapply frame_extend; try done; lia.
    + rewrite Ep in *. eapply stored_extend; try done; [lia|].
      intros x Hx. split; [unfold user_sector; lia|]. by apply cursor_done.
    + destruct dirty; [done|]. intros Hd x Hx Hout. rewrite Hd'; [|done| |lia].
      * apply Hdirty; [done|done|lia].
      * unfold user_sector. by rewrite Hvr.
  - intros (Hst' & Hfr'). split.
    + eapply step_ok_trans; [by apply step_ok_weaken|done].
    + intros x Hx Hout. eapply (frame_extend start cur n s0 s s'); try done; try lia.
      unfold touched in *. lia.
Qed.

Lemma wp_core_write start count bad buf s :
  inv s -> request s start count buf ->
  wp (scsi_swap_core_write start count bad buf)
     (fun ret s' =>
        request_ok (ret <> -1) s s' /\
        (ret = 0 \/ ret = -1 \/ ret = - DATA_MAY_DIRTY) /\
        (ret <> -1 -> stored start count 0 buf s') /\
        (ret = 0 -> only start (start + count) s s') /\
        frame_outside start (start + count) s s' /\
        (device_dead (core s) <> 0 -> ret = -1 /\ s' = s)) s.
Proof.
  intros Hinv Hrq. pose proof (request_index _ _ _ _ Hinv Hrq) as Hix.
  destruct Hrq as [Hs Hc Hend Hbuf Hus]. pose proof Hinv as (_ & Hm & _).
  assert (v_reserve (view_of s) < 2 ^ 32 - 2 ^ 20) as Hres by (pose proof (mo_geom _ Hm); layout; lia).
  unfold scsi_swap_core_write. rewrite Hix. kstep. apply wp_is_dead. unfold c_true.
  destruct (Z.eqb_spec (device_dead (core s)) 0) as [Hd|Hd]; cbn [negb].
  2: { kstep. split_and!; try done; by auto. }
  unfold inc_user. do 2 kstep. set (s0 := upd_core _ s).
  destruct (block_count_spec start count) as [Hb0 Hb]; [lia..|].
  kstep. apply wp_mono with (P := fun r s' => match r with
       | inl a => write_loop_inv start count buf s0 (get_swap_block_count start count) a s'
       | inr _ => step_ok False s0 s' /\ frame_outside start (start + count) s0 s'
       end).
  { apply (wp_for (write_loop_inv start count buf s0)).
    - unfold write_loop_inv, reached, cursor. cbn [Z.eqb wa_count wa_pos wa_dirty].
      rewrite Z.min_r by lia. split_and!; try lia; try done.
      + split; try done. by apply inv_user.
      + intros x Hx. lia.
    - intros j a s1 Hj HI. rewrite Z2Nat.id in Hj by lia. eapply wp_mono.
      + eapply (write_round start count _ _ _ _ s0); try exact Hend; try exact Hres; try exact HI;
          try exact Hbuf; try lia. apply Hb; lia.
      + intros [a'|b'] s2 HH; exact HH.
    - intros a s1 HI. rewrite Z.add_0_l, Z2Nat.id in HI by lia. exact HI. }
  assert (reached start count (get_swap_block_count start count) = start + count) as Hr.
  { unfold reached. destruct (Z_lt_ge_dec (cursor start (get_swap_block_count start count))
      (start + count)) as [Hlt|]; [|lia]. apply Hb in Hlt; lia. }
  intros r s1 HQ. unfold dec_user. do 2 kstep. destruct r as [a|u]; kstep.
  - destruct HQ as (_ & _ & Hst & Hfr & Hsto & Hdirty). rewrite Hr in *.
    replace (start + count - start) with count in Hsto by lia.
    split_and!; [|destruct (wa_dirty a); auto|done| |done|done].
    + apply request_ok_user; [done|]. by apply step_ok_weaken.
    + destruct (wa_dirty a); [done|]. intros _. by apply Hdirty.
  - destruct HQ as (Hst & Hfr).
    split_and!; [|by auto|done|done|done|done].
    apply request_ok_user; [done|]. eapply step_ok_keep; [|exact Hst]. lia.
Qed.
End Requests.
