(* ===== verification/CoreThm.v ===== *)
(** * Results on the swap core

    The promises of [scsi_swap_core_read] and [scsi_swap_core_write], what a
    reader sees after a write, the freshness of allocated replacement blocks, the
    meaning of [scsi_swap_core_swapped], the release of all objects by
    [scsi_swap_core_destroy], and two executions in which the error paths of
    core.c do not do what they mean to. *)

From stdpp Require Import base gmap fin_maps list list_numbers.
From coqutil Require Import Byte Word.LittleEndianList.
From Stdlib Require Import ZArith Lia.
From S2P Require Import Prelude Kapi Crc32 Ring Layout State Scsi SimDisk Log Core CoreInv CoreSpec CoreReq.

Local Open Scope Z_scope.

(** ** A concrete device *)

Definition demo_rs : Z := 4096.

(** A core on the device [d] with the reserved area at [demo_rs], the objects [l]
    and the bitmap [bm]. *)
Definition demo_core (d : simdisk) (bm : list Z) (l : list (ptr * swap_info)) : st simdisk :=
  mkSt d (mkSdev false false SDEV_RUNNING)
    (mkCore 0 (zlen l) 0 (head_with_bitmap bm (decode_head (fill 512 Byte.x00))) (fst <$> l) 0 demo_rs
       (demo_rs + SWAP_HEAD_OFFEST) (demo_rs + SWAP_TABLE_OFFSET) (demo_rs + SWAP_DATA_OFFSET))
    (mkLog (mkLogHead 0 0 0) (Some (mkRing 512 32 0 0 (fill 16384 Byte.x00)))
       (demo_rs + SWAP_LOG_HEAD_OFFSET) (demo_rs + SWAP_LOG_DATA_OFFSET))
    (list_to_map l) [] 1385000000.

Definition no_bits : list Z := replicate 32 0.

(** The object that maps the block at [src] to replacement block [ix]. *)
Definition demo_info (src ix : Z) : swap_info :=
  let t := mkTable src (demo_rs + SWAP_DATA_OFFSET + SECTOR_NUM_PER_SWAP_BLOCK * ix)
             SECTOR_NUM_PER_SWAP_BLOCK 0 ix [0; 0; 0; 0; 0; 0] 0 0 in
  erase_save (mkInfo (table_with_crc (crc_of_table t) t) (Some (fill SWAP_BLOCK_SIZE Byte.x00))).

Lemma demo_info_ok src ix :
  src mod SECTOR_NUM_PER_SWAP_BLOCK = 0 -> 0 <= src < 2 ^ 64 -> 0 <= ix < 1024 ->
  info_ok (demo_rs + SWAP_DATA_OFFSET) (demo_info src ix).
Proof.
  intros Hm Hs Hi.
  assert (0 <= demo_rs + SWAP_DATA_OFFSET < 2 ^ 20) as Hsd by (split; vm_compute; congruence).
  apply info_ok_new; [by apply zlen_fill|exact Hm|exact Hs|exact Hi|lia|lia|lia|reflexivity|].
  unfold u32s. repeat (apply Forall_cons_2; [lia|]). apply Forall_nil_2.
Qed.

Lemma demo_env d bm l :
  length bm = 32%nat -> u32s bm -> env_ok (demo_core d bm l).
Proof.
  intros Hl Hu. split.
  - destruct (decode_head_wf (fill 512 Byte.x00)) as (?&?&?&?&?&?&?); [by apply zlen_fill|].
    unfold head_wf, head_with_bitmap, demo_core. cbn [core head].
    cbn [head_string status version bitmap head_reserved head_checksum]. split_and!; done.
  - eexists. split; [reflexivity|]. split_and!; try done; unfold ring_wf, cspring_size; cbn; try lia.
Qed.

Lemma demo_geom d bm l : geom_ok (view_of (demo_core d bm l)).
Proof. unfold geom_ok. cbn. by vm_compute. Qed.

Lemma demo_empty_inv d : inv (demo_core d no_bits []) /\ bits_ok (view_of (demo_core d no_bits [])).
Proof.
  split; [split_and!|].
  - apply demo_env; [done|]. apply Forall_replicate. lia.
  - split; cbn.
    + apply demo_geom.
    + by intros p ?%not_elem_of_nil.
    + constructor.
    + done.
  - done.
  - split; cbn; [by intros p i ?%not_elem_of_nil|constructor].
Qed.

Lemma demo_request d l bm start count :
  0 <= start -> 0 < count -> start + count <= demo_rs ->
  request (demo_core d bm l) start count (fill (512 * count) Byte.x55).
Proof.
  intros. split; try lia.
  - unfold demo_rs in *. lia.
  - cbn. lia.
  - by rewrite zlen_fill by lia.
  - cbn. lia.
Qed.

(** ** Requests *)

(** C2: on every state of the invariant and for every behaviour of the device, a
    read of user sectors returns.  Unless it returns -1, the buffer holds what the
    abstract disk holds afterwards; if it returns 0 the abstract disk is the one
    before the read; in any case only blocks the request reaches can change, and
    the answer is 0, -1 or -DATA_MAY_DIRTY. *)
Theorem core_read_correct {D} `{BlockDevice D} (s : st D) (start count bad : Z) (buf : bytes) :
  inv s -> request s start count buf ->
  wp (scsi_swap_core_read start count bad buf)
     (fun x s' => let '(ret, buf') := x in
        (ret = 0 \/ ret = -1 \/ ret = - DATA_MAY_DIRTY) /\ zlen buf' = 512 * count /\
        (ret <> -1 -> forall x, start <= x < start + count ->
           slice (512 * (x - start)) 512 buf' = sees s' x) /\
        (ret = 0 -> forall x, user_sector (view_of s) x -> sees s' x = sees s x) /\
        (forall x, user_sector (view_of s) x ->
           ~ (SWAP_SECTOR_ALIGN start <= SWAP_SECTOR_ALIGN x < start + count) ->
           sees s' x = sees s x)) s.
Proof.
  intros Hi Hr. eapply wp_mono; [by apply wp_core_read|].
  intros [ret buf'] s' (Hl & _ & Hret & Hz0 & Hsh & Hfr & _).
  split_and!; [done|rewrite Hl; apply Hr|exact Hsh|exact Hz0|exact Hfr].
Qed.

Lemma core_read_correct_witness :
  let s := demo_core (mkDisk ∅ [300] [] false) no_bits [] in
  inv s /\ request s 290 20 (fill (512 * 20) Byte.x55) /\
  exists ret buf' s', scsi_swap_core_read 290 20 NO_SECTOR (fill (512 * 20) Byte.x55) s
                      = Ok (ret, buf', s') /\ zlen buf' = 512 * 20.
Proof.
  destruct (demo_empty_inv (mkDisk ∅ [300] [] false)) as [Hi _].
  assert (request (demo_core (mkDisk ∅ [300] [] false) no_bits []) 290 20
            (fill (512 * 20) Byte.x55)) as Hr
    by (apply (demo_request _ _ _ 290 20); unfold demo_rs; lia).
  split; [exact Hi|]. split; [exact Hr|].
  destruct (wp_inv _ _ _ (core_read_correct _ 290 20 NO_SECTOR _ Hi Hr))
    as ([ret buf'] & s' & E & _ & Hl & _).
  exists ret, buf', s'. split; [exact E|exact Hl].
Defined.

(** C1: on every state of the invariant and for every behaviour of the device, a
    write to user sectors returns.  Unless it returns -1, the sectors of the
    request hold the written data; if it returns 0, every other sector holds what
    it held; in any case only blocks the request reaches can change. *)
Theorem core_write_correct {D} `{BlockDevice D} (s : st D) (start count bad : Z) (buf : bytes) :
  inv s -> request s start count buf ->
  wp (scsi_swap_core_write start count bad buf)
     (fun ret s' =>
        (ret = 0 \/ ret = -1 \/ ret = - DATA_MAY_DIRTY) /\
        (ret <> -1 -> forall x, start <= x < start + count ->
           sees s' x = slice (512 * (x - start)) 512 buf) /\
        (ret = 0 -> forall x, user_sector (view_of s) x -> ~ (start <= x < start + count) ->
           sees s' x = sees s x) /\
        (forall x, user_sector (view_of s) x ->
           ~ (SWAP_SECTOR_ALIGN start <= SWAP_SECTOR_ALIGN x < start + count) ->
           sees s' x = sees s x)) s.
Proof.
  intros Hi Hr. eapply wp_mono; [by apply wp_core_write|].
  intros ret s' (_ & Hret & Hsto & Hz0 & Hfr & _).
  split_and!; [done|exact Hsto|exact Hz0|exact Hfr].
Qed.

Lemma core_write_correct_witness :
  let s := demo_core (mkDisk ∅ [] [300] false) no_bits [] in
  inv s /\ request s 290 20 (fill (512 * 20) Byte.x55) /\
  exists ret s', scsi_swap_core_write 290 20 NO_SECTOR (fill (512 * 20) Byte.x55) s = Ok (ret, s') /\
                 (ret = 0 \/ ret = -1 \/ ret = - DATA_MAY_DIRTY).
Proof.
  destruct (demo_empty_inv (mkDisk ∅ [] [300] false)) as [Hi _].
  assert (request (demo_core (mkDisk ∅ [] [300] false) no_bits []) 290 20
            (fill (512 * 20) Byte.x55)) as Hr
    by (apply (demo_request _ _ _ 290 20); unfold demo_rs; lia).
  split; [exact Hi|]. split; [exact Hr|].
  destruct (wp_inv _ _ _ (core_write_correct _ 290 20 NO_SECTOR _ Hi Hr)) as (ret & s' & E & Hret & _).
  exists ret, s'. split; [exact E|exact Hret].
Defined.

(** C7: requests keep the invariant of the core (every listed object maps one
    block, with its data cached and its table entry intact, no two the same), the
    geometry and the count of users; the bitmap stays in step with the table
    entries after every read, and after every write that does not fail. *)
Theorem requests_keep_invariant {D} `{BlockDevice D} (s : st D) (start count bad : Z) (buf : bytes) :
  inv s -> request s start count buf ->
  wp (scsi_swap_core_read start count bad buf)
     (fun _ s' => inv s' /\ geom s' = geom s /\ user (core s') = user (core s) /\
                  (bits_ok (view_of s) -> bits_ok (view_of s'))) s /\
  wp (scsi_swap_core_write start count bad buf)
     (fun ret s' => inv s' /\ geom s' = geom s /\ user (core s') = user (core s) /\
                    (ret <> -1 -> bits_ok (view_of s) -> bits_ok (view_of s'))) s.
Proof.
  intros Hi Hr. split; (eapply wp_mono; [by (apply wp_core_read || apply wp_core_write)|]).
  - intros [ret buf'] s' (_ & (H1 & H2 & H3 & H4) & _). split_and!; [done..|]. by apply H4.
  - intros ret s' ((H1 & H2 & H3 & H4) & _). by split_and!.
Qed.

Lemma requests_keep_invariant_witness :
  let s := demo_core blank_disk no_bits [] in
  inv s /\ request s 0 1 (fill (512 * 1) Byte.x55) /\
  exists ret s', scsi_swap_core_write 0 1 0 (fill (512 * 1) Byte.x55) s = Ok (ret, s') /\ inv s'.
Proof.
  destruct (demo_empty_inv blank_disk) as [Hi _].
  assert (request (demo_core blank_disk no_bits []) 0 1 (fill (512 * 1) Byte.x55)) as Hr
    by (apply (demo_request _ _ _ 0 1); unfold demo_rs; lia).
  split; [exact Hi|]. split; [exact Hr|].
  destruct (wp_inv _ _ _ (proj2 (requests_keep_invariant _ 0 1 0 _ Hi Hr))) as (ret & s' & E & Hi' & _).
  exists ret, s'. split; [exact E|exact Hi'].
Defined.

(** C5: what is written is read back: when a write of a range did not fail and a
    later read of it returns 0, the read delivers the written bytes, whatever the
    device did to either request. *)
Theorem read_back {D} `{BlockDevice D} (s : st D) (start count bad bad' : Z) (buf buf0 : bytes) :
  inv s -> request s start count buf -> zlen buf0 = zlen buf ->
  wp (ret ← scsi_swap_core_write start count bad buf;
      x ← scsi_swap_core_read start count bad' buf0; mret (ret, x))
     (fun y _ => let '(wret, (rret, buf')) := y in wret <> -1 -> rret = 0 -> buf' = buf) s.
Proof.
  intros Hi Hr Hl. kstep. eapply wp_mono; [by apply wp_core_write|].
  intros wret s1 ((Hi1 & Hg1 & Hu1 & _) & _ & Hsto & _). destruct Hr as [R1 R2 R3 R4 R5].
  kstep. eapply wp_mono.
  { apply wp_core_read; [done|]. split; [done|done| |congruence|by rewrite Hu1].
    unfold v_reserve in *. by rewrite Hg1. }
  intros [rret buf'] s2 (Hl2 & _ & _ & Hz0 & Hsh & _). kstep. intros Hw Hz.
  assert (zlen buf' = 512 * count) as Hlen by congruence.
  apply (slices_eq count); [lia|done|done|]. intros k Hk.
  specialize (Hsh ltac:(lia) (start + k) ltac:(lia)).
  specialize (Hsto Hw (start + k) ltac:(lia)).
  replace (0 + 512 * (start + k - start)) with (512 * k) in Hsh, Hsto by lia.
  rewrite Hsh, <- Hsto. apply Hz0; [done|]. unfold user_sector, v_reserve in *. rewrite Hg1. lia.
Qed.

Lemma read_back_witness :
  let s := demo_core (mkDisk ∅ [300] [300] false) no_bits [] in
  inv s /\ exists wret rret buf' s',
    (ret ← scsi_swap_core_write 290 20 NO_SECTOR (fill (512 * 20) Byte.x55);
     x ← scsi_swap_core_read 290 20 NO_SECTOR (fill (512 * 20) Byte.x00); mret (ret, x)) s
    = Ok ((wret, (rret, buf')), s') /\
    (wret <> -1 -> rret = 0 -> buf' = fill (512 * 20) Byte.x55).
Proof.
  destruct (demo_empty_inv (mkDisk ∅ [300] [300] false)) as [Hi _].
  assert (request (demo_core (mkDisk ∅ [300] [300] false) no_bits []) 290 20
            (fill (512 * 20) Byte.x55)) as Hr
    by (apply (demo_request _ _ _ 290 20); unfold demo_rs; lia).
  split; [exact Hi|].
  destruct (wp_inv _ _ _ (read_back _ 290 20 NO_SECTOR NO_SECTOR _ (fill (512 * 20) Byte.x00) Hi Hr
    ltac:(by rewrite !zlen_fill by lia))) as ([wret [rret buf']] & s' & E & HQ).
  exists wret, rret, buf', s'. split; [exact E|exact HQ].
Defined.

(** a dead device is refused at once: once [device_dead] counts an error, both
    requests return -1 and leave every part of the state, the disk and the buffer
    alone. *)
Theorem dead_device_refused {D} `{BlockDevice D} (s : st D) (start count bad : Z) (buf : bytes) :
  device_dead (core s) <> 0 ->
  scsi_swap_core_read start count bad buf s = Ok ((-1, buf), s) /\
  scsi_swap_core_write start count bad buf s = Ok (-1, s) /\
  forall sector num, scsi_swap_core_can_swap sector num s = Ok (false, s).
Proof.
  intros Hd. apply Z.eqb_neq in Hd.
  split_and!; unfold scsi_swap_core_read, scsi_swap_core_write, scsi_swap_core_can_swap, is_dead,
    c_true, mbind, K_bind, kget, mret, K_ret; intros; rewrite Hd; done.
Qed.

Lemma dead_device_refused_witness :
  let s := upd_core (core_dead 1) (demo_core blank_disk no_bits []) in
  device_dead (core s) <> 0 /\ scsi_swap_core_write 0 1 0 [] s = Ok (-1, s).
Proof. split; [done|]. by apply (dead_device_refused _ 0 1 0 []). Defined.

(** ** Allocation *)

(** A core with one mapping: the block of sector 256, in replacement block 0. *)
Definition one_mapping (d : simdisk) : st simdisk :=
  demo_core d (1 :: replicate 31 0) [(1%positive, demo_info 256 0)].

Lemma one_mapping_inv d : inv (one_mapping d) /\ bits_ok (view_of (one_mapping d)).
Proof.
  assert (v_infos (view_of (one_mapping d)) !! 1%positive = Some (demo_info 256 0)) as Hl.
  { rewrite view_lookup. unfold one_mapping, demo_core. cbn [infos list_to_map fold_right].
    rewrite lookup_insert_eq. reflexivity. }
  split; [split_and!|].
  - apply demo_env; [done|]. apply Forall_cons_2; [lia|]. apply Forall_replicate. lia.
  - split.
    + apply demo_geom.
    + intros p Hp. assert (p = 1%positive) as -> by (by apply list_elem_of_singleton in Hp).
      exists (demo_info 256 0). split; [exact Hl|]. apply demo_info_ok; [done|lia|lia].
    + apply NoDup_singleton.
    + done.
  - done.
  - split; [|apply NoDup_singleton].
    intros p i Hp Hi. assert (p = 1%positive) as -> by (by apply list_elem_of_singleton in Hp).
    rewrite Hl in Hi.
    injection Hi as <-. reflexivity.
Qed.

(** One mapping, and a second replacement block that cannot be written. *)
Definition spare_state : st simdisk :=
  one_mapping (mkDisk ∅ [] [demo_rs + SWAP_DATA_OFFSET + 128] false).

(** C10: in a state in which the bitmap knows the replacement blocks in use (the
    bit of every listed mapping's block is set, [bits_ok]: true after a start from
    a disk in use and kept by every request that does not fail; the error path of
    [swap_recreate] breaks it, [recreate_error_frees_used_block]), the block
    [_swap_alloc_new_block] hands out was free, is now taken and is used by no
    listed mapping; the search releases no block and takes at most 17, the bad
    candidates it skipped and the one it returns, whatever writes or allocations
    fail, and it keeps the invariant and what every user sector holds. *)
Theorem alloc_new_block_fresh {D} `{BlockDevice D} (s : st D) :
  inv s -> bits_ok (view_of s) ->
  wp _swap_alloc_new_block
     (fun ret s' =>
        (exists l : list Z, zlen l <= 17 /\
           forall n, 0 <= n -> bit_of (bitmap (head (core s'))) n
                               = bit_of (bitmap (head (core s))) n || bool_decide (n ∈ l)) /\
        (ret = -1 \/
         (0 <= ret < DATA_BLOCK_NUM /\ bit_of (bitmap (head (core s))) ret = false /\
          bit_of (bitmap (head (core s'))) ret = true /\
          forall p i, p ∈ info_list (core s) -> infos s !! p = Some i -> index (table i) <> ret)) /\
        inv s' /\ bits_ok (view_of s') /\
        forall x, user_sector (view_of s) x -> sees s' x = sees s x) s.
Proof.
  intros Hi Hb. pose proof Hi as (He & Hm & Hn).
  eapply wp_mono; [apply wp_alloc_new_block_takes; [apply (mo_geom _ Hm)|done]|].
  cbv beta. intros ret s' (Hbg & Htk & Hret). pose proof (takes_grow _ _ _ Htk) as Hgr.
  pose proof (bg_step True s s' Hi Hbg Hgr) as Hst.
  split_and!; [exact Htk| |apply Hst|by apply Hst|by apply bg_unchanged].
  destruct Hret as [?|(Hr & Hf & Ht)]; [by left|right]. split_and!; [lia|exact (proj2 Hr)|done|done|].
  intros p i Hp Hpi E. assert (v_infos (view_of s) !! p = Some (erase_save i)) as Hv
    by (by rewrite view_lookup, Hpi).
  pose proof (bo_set _ Hb p _ Hp Hv) as Hset. cbn in Hset. rewrite E in Hset.
  cbn in Hf. congruence.
Qed.

(** The first block is in use, the second cannot be written: the third is handed out. *)
Lemma alloc_new_block_fresh_witness :
  inv spare_state /\ bits_ok (view_of spare_state) /\
  exists s', _swap_alloc_new_block spare_state = Ok (2, s') /\
    bit_of (bitmap (head (core s'))) 2 = true /\ bits_ok (view_of s') /\
    forall p i, p ∈ info_list (core spare_state) -> infos spare_state !! p = Some i -> index (table i) <> 2.
Proof.
  destruct (one_mapping_inv (mkDisk ∅ [] [demo_rs + SWAP_DATA_OFFSET + 128] false)) as [Hi Hb].
  fold spare_state in Hi, Hb. split; [exact Hi|]. split; [exact Hb|].
  assert (match _swap_alloc_new_block spare_state with
          | Ok (r, _) => r =? 2 | Oops _ => false end = true) as Hr by (vm_compute; reflexivity).
  destruct (wp_inv _ _ _ (alloc_new_block_fresh spare_state Hi Hb))
    as (ret & s' & E & _ & Hret & _ & Hb' & _).
  rewrite E in Hr. apply Z.eqb_eq in Hr. rewrite Hr in E, Hret.
  destruct Hret as [Hx|(_ & _ & Ht & Hu)]; [discriminate Hx|].
  exists s'. split; [exact E|]. split; [exact Ht|]. split; [exact Hb'|exact Hu].
Defined.

(** ** Which requests concern the swap core *)

Lemma wp_did_swapped {D} `{BlockDevice D} (s : st D) end_ : forall fuel start,
  maps_ok (view_of s) -> start mod SECTOR_NUM_PER_SWAP_BLOCK = 0 -> 0 <= start ->
  end_ < 2 ^ 63 -> end_ <= start + 128 * Z.of_nat fuel ->
  wp (did_swapped_loop fuel start end_)
     (fun b s' => s' = s /\
        (b = true <-> exists y, y mod SECTOR_NUM_PER_SWAP_BLOCK = 0 /\ start <= y < end_ /\
                                is_Some (v_find (view_of s) y))) s.
Proof.
  induction fuel as [|f IH]; intros start Hm Hmod Hs He Hf; cbn [did_swapped_loop];
    destruct (Z.ltb_spec start end_) as [Hlt|Hge].
  - lia.
  - kstep. split; [done|]. split; [done|]. intros (y & _ & ? & _). lia.
  - kstep. apply wp_find; [done|].
    destruct (v_find (view_of s) start) as [p|] eqn:Hfd.
    + kstep. split; [done|]. split; [|done]. intros _. exists start. rewrite Hfd. split_and!; [done|lia|lia|eauto].
    + unfold SECTOR_NUM_PER_SWAP_BLOCK in *. rewrite u64_small by lia.
      eapply wp_mono; [apply IH; try done; try lia|].
      { rewrite Z.add_mod, Hmod by lia. done. }
      cbv beta. intros b s' [-> Hb]. split; [done|]. rewrite Hb.
      split; intros (y & Hy & Hr & Hsome); exists y; [by (split_and!; [done|lia|lia|done])|].
      destruct (decide (y = start)) as [->|Hne]; [rewrite Hfd in Hsome; by destruct Hsome|].
      split_and!; [done| |lia|done].
      pose proof (Z.div_mod y 128 ltac:(lia)). pose proof (Z.div_mod start 128 ltac:(lia)). lia.
  - kstep. split; [done|]. split; [done|]. intros (y & _ & ? & _). lia.
Qed.

Lemma wp_core_swapped {D} `{BlockDevice D} (s : st D) (sector num : Z) :
  inv s -> 0 <= sector < 2 ^ 62 -> 0 < num < 2 ^ 31 ->
  wp (scsi_swap_core_swapped sector num)
     (fun b s' => s' = s /\
        (b = true <-> exists x, sector <= x < sector + num /\
                                is_Some (v_find (view_of s) (SWAP_SECTOR_ALIGN x)))) s.
Proof.
  intros (_ & Hm & _) Hs Hn. unfold scsi_swap_core_swapped, _did_block_swapped.
  rewrite s32_small, u64_small by (rewrite ?s32_small; lia).
  destruct (align_spec sector) as [Hal Hmod]. unfold SECTOR_NUM_PER_SWAP_BLOCK in Hal.
  assert (0 <= SWAP_SECTOR_ALIGN sector) as Hal0
    by (unfold SWAP_SECTOR_ALIGN, SWAP_BLOCK_SECTOR, SWAP_BLOCK_INDEX, SECTOR_NUM_PER_SWAP_BLOCK;
        pose proof (Z.div_pos sector 128); lia).
  eapply wp_mono; [apply wp_did_swapped; try done; try lia|].
  { unfold SECTOR_NUM_PER_SWAP_BLOCK.
    pose proof (Z.div_mod (sector + num - SWAP_SECTOR_ALIGN sector) 128 ltac:(lia)).
    pose proof (Z.mod_pos_bound (sector + num - SWAP_SECTOR_ALIGN sector) 128 ltac:(lia)). lia. }
  cbv beta. intros b s' [-> Hb]. split; [done|]. rewrite Hb. split.
  - intros (y & Hy & Hr & Hsome). exists (Z.max y sector). split; [lia|].
    rewrite (align_unique _ y); [done|done|]. unfold SECTOR_NUM_PER_SWAP_BLOCK in *.
    pose proof (Z.div_mod y 128 ltac:(lia)).
    pose proof (Z.div_mod (SWAP_SECTOR_ALIGN sector) 128 ltac:(lia)). lia.
  - intros (x & Hx & Hsome). exists (SWAP_SECTOR_ALIGN x).
    destruct (align_spec x) as [Hax Hmx]. split_and!; [done| |lia|done].
    apply align_mono. lia.
Qed.

(** [scsi_swap_core_swapped] answers true exactly when some sector of the
    request lies in a mapped block, and changes nothing. *)
Theorem core_swapped_iff {D} `{BlockDevice D} (s : st D) (sector num : Z) :
  inv s -> 0 <= sector < 2 ^ 62 -> 0 < num < 2 ^ 31 ->
  wp (scsi_swap_core_swapped sector num)
     (fun b s' => s' = s /\
        (b = true <-> exists x, sector <= x < sector + num /\
                                is_Some (v_find (view_of s) (SWAP_SECTOR_ALIGN x)))) s.
Proof. apply wp_core_swapped. Qed.

Lemma core_swapped_iff_witness :
  inv (demo_core blank_disk no_bits []) /\
  exists b s', scsi_swap_core_swapped 1000 300 (demo_core blank_disk no_bits []) = Ok (b, s').
Proof.
  destruct (demo_empty_inv blank_disk) as [Hi _]. split; [exact Hi|].
  destruct (wp_inv _ _ _ (core_swapped_iff _ 1000 300 Hi ltac:(lia) ltac:(lia)))
    as (b & s' & E & _). by exists b, s'.
Defined.

(** ** Release *)

Lemma wp_sync_loop {D} `{BlockDevice D} n res (s : st D) :
  wp (sync_loop n res) (fun _ s' => quiet s s') s.
Proof.
  revert res s. induction n as [|n IH]; intros res s; cbn [sync_loop]; [by kstep|].
  do 2 kstep. destruct (scsi_execute_req _ _ _ _ _ _) as [d' [[r h] b]] eqn:E.
  pose proof (quiet_nodata d' _ _ _ _ s E) as Hq. do 2 kstep.
  destruct (r =? 0); [by kstep|]. eapply wp_mono; [apply IH|].
  intros x s' Hq'. by eapply quiet_trans.
Qed.

Lemma wp_sync_cache {D} `{BlockDevice D} (s : st D) :
  wp hd_sync_cache (fun _ s' => quiet s s') s.
Proof.
  unfold hd_sync_cache. do 2 kstep. destruct (negb _); [by kstep|].
  kstep. kcall @wp_sync_loop. intros res s' Hq. by destruct (c_true res); kstep.
Qed.

Lemma wp_destroy_entries {D} `{BlockDevice D} l : forall (s : st D),
  NoDup l -> (forall p, p ∈ l -> is_Some (infos s !! p)) ->
  wp (destroy_entries l)
     (fun _ s' => core s' = core s /\
        forall p, infos s' !! p = if decide (p ∈ l) then None else infos s !! p) s.
Proof.
  induction l as [|q l IH]; intros s Hnd Hall; cbn [destroy_entries].
  { kstep. split; [done|]. intros p. by rewrite decide_False by (apply not_elem_of_nil). }
  apply NoDup_cons in Hnd as [Hq Hnd]. destruct (Hall q ltac:(left)) as [i Hi].
  kstep. eapply wp_get_info; [exact Hi|]. unfold free_info. do 2 kstep.
  eapply wp_mono; [apply IH; [done|]|].
  - intros p Hp. cbn. rewrite lookup_delete_ne by (by intros ->). apply Hall. by right.
  - cbv beta. intros _ s' [Hc Hl]. split; [done|]. intros p. rewrite Hl. cbn.
    destruct (decide (p = q)) as [->|Hne].
    + rewrite decide_False by done. rewrite decide_True by left. apply lookup_delete_eq.
    + rewrite lookup_delete_ne by done.
      destruct (decide (p ∈ l)) as [Hin|Hin].
      * by rewrite decide_True by (by right).
      * rewrite decide_False; [done|]. rewrite elem_of_cons. tauto.
Qed.

(** What the rest of the kernel may do while the destructor sleeps: it keeps the
    invariant (requests do, [wp_core_read] and [wp_core_write]) and does not revive
    a dead device. *)
Definition other_work {D} (m : K (st D) unit) : Prop :=
  forall s : st D, inv s ->
    wp m (fun _ s' => inv s' /\ (0 < device_dead (core s) -> 0 < device_dead (core s'))) s.

(** [n] sleeps lead from [s] to [s'], each begun with users left. *)
Fixpoint sleeps {D} (m : K (st D) unit) (n : nat) (s s' : st D) : Prop :=
  match n with
  | O => s' = s
  | S n => user (core s) <> 0 /\ exists s1, m s = Ok (tt, s1) /\ sleeps m n s1 s'
  end.

Lemma wp_wait_users {D} (m : K (st D) unit) (Hm : other_work m) fuel : forall s,
  inv s ->
  wp (wait_users m fuel (user (core s)))
     (fun _ s' => inv s' /\ (0 < device_dead (core s) -> 0 < device_dead (core s')) /\
        exists n, (n <= fuel)%nat /\ sleeps m n s s' /\ ((n < fuel)%nat -> user (core s') = 0)) s.
Proof.
  induction fuel as [|f IH]; intros s Hi; cbn [wait_users].
  { kstep. split_and!; [done..|]. exists 0%nat. split_and!; [done|done|lia]. }
  destruct (Z.eqb_spec (user (core s)) 0) as [E|E].
  { kstep. split_and!; [done..|]. exists 0%nat. split_and!; [lia|done|done]. }
  destruct (wp_inv _ _ _ (Hm s Hi)) as ([] & s1 & E1 & Hi1 & Hd1).
  kstep. eapply wp_of; [exact E1|]. do 2 kstep. eapply wp_mono; [by apply IH|].
  cbv beta. intros _ s' (Hi' & Hd' & n & Hn & Hsl & Hu). split_and!; [done|auto|].
  exists (S n). split_and!; [lia| |intros; apply Hu; lia]. split; [done|]. by exists s1.
Qed.

Lemma inv_core_eq {D} (s s' : st D) :
  core s' = core_dead (device_dead (core s')) (core s) -> log s' = log s -> infos s' = infos s ->
  inv s -> inv s'.
Proof.
  intros Hc Hl Hif (He & Hm). assert (view_of s' = view_of s) as Hv
    by (unfold view_of, geom; by rewrite Hc, Hif).
  split; [|by rewrite Hv]. unfold env_ok, log_ok in *. by rewrite Hl, Hc.
Qed.

Lemma wp_core_destroy {D} `{BlockDevice D} (s : st D) (msleep : K (st D) unit) :
  inv s -> other_work msleep ->
  wp (scsi_swap_core_destroy msleep)
     (fun ret s' => ret = 0 /\ exists s0 s1 n,
        (let marked := upd_core (core_dead (s32 (device_dead (core s) + 1))) s in
         if user (core s) =? 0 then s0 = marked
         else exists r, hd_sync_cache marked = Ok (r, s0)) /\
        (n <= 100)%nat /\ sleeps msleep n s0 s1 /\ ((n < 100)%nat -> user (core s1) = 0) /\
        (0 <= device_dead (core s) < 2 ^ 31 - 1 -> 0 < device_dead (core s')) /\
        info_list (core s') = [] /\
        forall p, infos s' !! p = if decide (p ∈ info_list (core s1)) then None else infos s1 !! p) s.
Proof.
  intros Hinv Hk. unfold scsi_swap_core_destroy, inc_device_dead. do 4 kstep.
  set (s0 := upd_core _ s). kstep.
  assert (inv s0) as Hi0 by (apply (inv_core_eq s); [reflexivity..|exact Hinv]).
  apply wp_mono with (P := fun _ s1 => inv s1 /\ core s1 = core s0 /\
    if user (core s) =? 0 then s1 = s0 else exists r, hd_sync_cache s0 = Ok (r, s1)).
  { change (user (core s0)) with (user (core s)). destruct (user (core s) =? 0); cbn [negb]; [by kstep|].
    destruct (wp_inv _ _ _ (wp_sync_cache s0)) as (r & s1 & E & Hc & Hl & Hif & _).
    kstep. eapply wp_of; [exact E|]. kstep. split_and!; [|done|by exists r].
    apply (inv_core_eq s0); [rewrite Hc; reflexivity|exact Hl|exact Hif|exact Hi0]. }
  intros _ s1 (Hi1 & Hc1 & Hs1). kstep.
  replace (user (core s0)) with (user (core s1)) by (by rewrite Hc1).
  eapply wp_mono; [by apply wp_wait_users|].
  cbv beta. intros _ s2 ((He2 & Hm2 & Hn2) & Hd2 & n & Hn & Hsl & Hu).
  unfold swap_info_destroy. do 4 kstep. eapply wp_mono; [apply wp_destroy_entries|].
  - eapply NoDup_fmap_1. exact (mo_nodup _ Hm2).
  - intros p Hp. destruct (mo_infos _ Hm2 p Hp) as (i & Hi & _).
    rewrite view_lookup in Hi. by destruct (infos s2 !! p).
  - cbv beta. intros _ s3 [Hc3 Hl3]. do 3 kstep. kstep. split; [done|]. exists s1, s2, n.
    split_and!; [exact Hs1|exact Hn|exact Hsl|exact Hu| |done|exact Hl3].
    intros Hd. cbn. rewrite Hc3. apply Hd2. rewrite Hc1. cbn. rewrite s32_small; lia.
Qed.

(** C34: [scsi_swap_core_destroy] always returns 0.  First the device is counted
    dead (and stays so while the count fits an int); if requests are still being
    served the write cache is then flushed, otherwise not; then it sleeps, each
    time only while users are left, at most 100 times, and stops earlier only when
    none is; at the end the info list is empty, every object listed after the last
    sleep has been freed and no other object was touched.  What runs during the
    sleeps is arbitrary as long as it ends, keeps the invariant and does not
    revive the device. *)
Theorem core_destroy_frees {D} `{BlockDevice D} (s : st D) (msleep : K (st D) unit) :
  inv s -> other_work msleep ->
  wp (scsi_swap_core_destroy msleep)
     (fun ret s' => ret = 0 /\ exists s0 s1 n,
        (let marked := upd_core (core_dead (s32 (device_dead (core s) + 1))) s in
         if user (core s) =? 0 then s0 = marked
         else exists r, hd_sync_cache marked = Ok (r, s0)) /\
        (n <= 100)%nat /\ sleeps msleep n s0 s1 /\ ((n < 100)%nat -> user (core s1) = 0) /\
        (0 <= device_dead (core s) < 2 ^ 31 - 1 -> 0 < device_dead (core s')) /\
        info_list (core s') = [] /\
        forall p, infos s' !! p = if decide (p ∈ info_list (core s1)) then None else infos s1 !! p) s.
Proof. apply wp_core_destroy. Qed.

Lemma other_work_ret {D} : other_work (D := D) (mret tt).
Proof. intros s Hi. by kstep. Qed.

(** Meanwhile one request ends. *)
Definition user_leaves {D} : K (st D) unit :=
  kmod (fun s => upd_core (core_user (Z.max 0 (user (core s) - 1))) s).

Lemma other_work_leaves {D} : other_work (D := D) user_leaves.
Proof.
  intros s Hi. unfold user_leaves. kstep. split; [by apply inv_user|intros Hd; exact Hd].
Qed.

(** One mapping and three requests under way: three sleeps, and the object is freed. *)
Lemma core_destroy_frees_witness :
  let s := upd_core (core_user 3) (one_mapping blank_disk) in
  inv s /\ info_list (core s) = [1%positive] /\
  exists s', scsi_swap_core_destroy user_leaves s = Ok (0, s') /\
    0 < device_dead (core s') /\ info_list (core s') = [] /\ infos s' !! 1%positive = None.
Proof.
  destruct (one_mapping_inv blank_disk) as [Hi0 _].
  set (s := upd_core (core_user 3) (one_mapping blank_disk)).
  pose proof (inv_user 3 _ Hi0) as Hi. fold s in Hi. split; [exact Hi|]. split; [reflexivity|].
  destruct (wp_inv _ _ _ (core_destroy_frees s user_leaves Hi other_work_leaves))
    as (r & s' & E & -> & s0 & s1 & n & _ & _ & _ & _ & Hd & Hl & _).
  exists s'. split; [exact E|]. split; [apply Hd; split; [discriminate|reflexivity]|]. split; [exact Hl|].
  assert (match scsi_swap_core_destroy user_leaves s with
          | Ok (_, x) => bool_decide (infos x !! 1%positive = None) | Oops _ => false end = true) as Hx
    by (vm_compute; reflexivity).
  rewrite E in Hx. exact (bool_decide_eq_true_1 _ Hx).
Defined.

(** ** Error paths *)

(** A core with one mapping whose replacement block and whose backup of the head
    can no longer be written. *)
Definition worn_state : st simdisk :=
  one_mapping (mkDisk ∅ [] [demo_rs + SWAP_DATA_OFFSET;
                            demo_rs + SWAP_HEAD_OFFEST + SWAP_HEAD_BACKUP_OFFEST] false).

(** The listed object [p] points at a replacement block that is free in the bitmap. *)
Definition points_at_free (p : ptr) (s : st simdisk) : bool :=
  match infos s !! p with
  | Some i => negb (bit_of (bitmap (head (core s))) (index (table i)))
  | None => false
  end.

Definition check_worn (r : res (Z * st simdisk)) : bool :=
  match r with
  | Ok (ret, s') =>
      (ret =? -1) && bool_decide (info_list (core s') = [1%positive]) && points_at_free 1 s' &&
      match _swap_alloc_new_block s' with
      | Ok (ix, _) => bool_decide (index ∘ table <$> infos s' !! 1%positive = Some ix)
      | Oops _ => false
      end
  | Oops _ => false
  end.

(** the error path of [swap_recreate] clears the bit of the block the object
    has just been moved to.  From a state of the invariant a failed write leaves a
    listed mapping whose replacement block the bitmap calls free, and the next
    allocation hands that very block out again. *)
Theorem recreate_error_frees_used_block :
  inv worn_state /\ bits_ok (view_of worn_state) /\
  exists s', scsi_swap_core_write 256 1 (-1) (fill 512 Byte.x55) worn_state = Ok (-1, s') /\
    ~ bits_ok (view_of s') /\
    exists ix s'', _swap_alloc_new_block s' = Ok (ix, s'') /\
      exists i, 1%positive ∈ info_list (core s') /\ infos s' !! 1%positive = Some i /\
                index (table i) = ix.
Proof.
  destruct (one_mapping_inv (mkDisk ∅ [] [demo_rs + SWAP_DATA_OFFSET;
    demo_rs + SWAP_HEAD_OFFEST + SWAP_HEAD_BACKUP_OFFEST] false)) as [Hi Hb]. split; [exact Hi|]. split; [exact Hb|].
  assert (check_worn (scsi_swap_core_write 256 1 (-1) (fill 512 Byte.x55) worn_state) = true)
    as Hc by (vm_compute; reflexivity).
  destruct (scsi_swap_core_write 256 1 (-1) (fill 512 Byte.x55) worn_state) as [[ret s']|]; [|done].
  unfold check_worn, points_at_free in Hc.
  apply andb_true_iff in Hc as [Hc Halloc]. apply andb_true_iff in Hc as [Hc Hfree].
  apply andb_true_iff in Hc as [Hret Hlist].
  apply Z.eqb_eq in Hret as ->. apply bool_decide_eq_true in Hlist.
  destruct (infos s' !! 1%positive) as [i|] eqn:Ei; [|done].
  exists s'. split; [done|]. split.
  - intros [Hset _]. assert (v_infos (view_of s') !! 1%positive = Some (erase_save i)) as Hv
      by (by rewrite view_lookup, Ei).
    specialize (Hset 1%positive (erase_save i)). cbn [view_of v_list] in Hset. rewrite Hlist in Hset.
    specialize (Hset ltac:(left) Hv). cbn in Hset. by rewrite Hset in Hfree.
  - destruct (_swap_alloc_new_block s') as [[ix s'']|]; [|done]. exists ix, s''. split; [done|].
    exists i. rewrite Hlist. split_and!; [left|done|].
    apply bool_decide_eq_true in Halloc. cbn in Halloc. by injection Halloc.
Qed.

(** A disk whose swap table holds one valid entry, for the block of sector 256,
    and whose replacement block cannot be read. *)
Definition unreadable_disk : simdisk :=
  mkDisk {[ demo_rs + SWAP_TABLE_OFFSET := encode_table (table (demo_info 256 0)) ]}
    [demo_rs + SWAP_DATA_OFFSET] [] false.

(** when a replacement block cannot be read at start, [init_swap_info] calls
    [swap_recreate] on an object whose data pointer is NULL, and the first unread
    sector is cleared through it: loading the driver oopses on a disk with one
    valid table entry. *)
Theorem init_unreadable_block_oopses :
  table_used (table_at (sim_media unreadable_disk (demo_rs + SWAP_TABLE_OFFSET)) 0) = true /\
  scsi_swap_core_init demo_rs (demo_core unreadable_disk no_bits []) = Oops NullDeref.
Proof. split; vm_compute; reflexivity. Qed.
