(* ===== verification/CoreInit.v ===== *)
(** * Start of the swap core: finding or creating the head

    [init_swap_head] and [swap_create_new_head] end in every case; when they
    report success the head in memory is a valid one, sits in the search area, and
    the user's sectors are as before.  A head that was written is recognised when
    it is read again.  One execution shows a stale master copy winning over a newer
    backup. *)

From stdpp Require Import base gmap fin_maps list list_numbers.
From coqutil Require Import Byte Word.LittleEndianList.
From Stdlib Require Import ZArith Lia.
From S2P Require Import Prelude Kapi Crc32 Ring Layout State Scsi SimDisk Log Core CoreInv CoreSpec CoreReq CoreThm.

Local Open Scope Z_scope.

(** ** Heads *)

(** The checksum field is not under the checksum. *)
Lemma crc_of_head_prefix c h : head_wf h -> crc_of_head (head_with_checksum c h) = crc_of_head h.
Proof.
  intros (H1 & H2 & H3 & H4 & _ & H6 & _).
  assert (forall c, slice 0 508 (encode_head (head_with_checksum c h))
    = head_string h ++ status h ++ version h ++ words_le (bitmap h) ++ head_reserved h) as Hpre.
  { intros c'. unfold encode_head, head_with_checksum.
    cbn [head_string status version bitmap head_reserved head_checksum].
    rewrite !app_assoc. apply slice_app_here. rewrite !zlen_app, zlen_words_le. unfold zlen in *. lia. }
  unfold crc_of_head. rewrite Hpre. pose proof (Hpre (head_checksum h)) as Hh.
  destruct h; cbn in Hh |- *. by rewrite <- Hh.
Qed.

(** A head with the driver's strings and a fresh checksum is accepted. *)
Lemma signed_head_ok h :
  head_wf h -> swap_head_exist h = true -> swap_head_invalid h = false -> swap_head_valid h = true ->
  head_state_of (signed_head h) = HEAD_OK.
Proof.
  intros Hwf He Hi Hv. unfold head_state_of, scsi_swap_check, signed_head.
  rewrite crc_of_head_prefix by done.
  change (swap_head_exist (head_with_checksum (crc_of_head h) h)) with (swap_head_exist h).
  change (swap_head_invalid (head_with_checksum (crc_of_head h) h)) with (swap_head_invalid h).
  change (swap_head_valid (head_with_checksum (crc_of_head h) h)) with (swap_head_valid h).
  change (head_checksum (head_with_checksum (crc_of_head h) h)) with (crc_of_head h).
  rewrite He, Hi, Hv, Z.eqb_refl. done.
Qed.

(** The head [_swap_create_new_head] signs. *)
Definition named_head (h : swap_head) : swap_head :=
  head_with_strings (strncpy (head_string h) SWAP_HEAD_STRING 16) (strncpy (version h) SWAP_VERSION 4) h.

Lemma strncpy_full dst lit n :
  zlen dst = n -> 0 <= n -> strncpy dst lit n = take (Z.to_nat n) (lit ++ fill n Byte.x00).
Proof.
  intros Hd Hn. unfold strncpy. apply splice_full. rewrite Hd. unfold zlen.
  rewrite length_take, length_app. unfold fill. rewrite length_replicate. lia.
Qed.

Lemma named_head_wf h : head_wf h -> head_wf (named_head h).
Proof.
  intros (H1 & H2 & H3 & H4 & H5 & H6 & H7). unfold head_wf, named_head, head_with_strings.
  cbn [head_string status version bitmap head_reserved head_checksum].
  rewrite (strncpy_full _ _ 16), (strncpy_full _ _ 4) by lia. split_and!; first [done|lia].
Qed.

Lemma named_head_exists h : zlen (head_string h) = 16 -> swap_head_exist (named_head h) = true.
Proof.
  intros Hl. unfold swap_head_exist, named_head, head_with_strings. cbn [head_string].
  by rewrite strncpy_full.
Qed.

Lemma status_wf b h : zlen b = 16 -> head_wf h -> head_wf (head_with_status b h).
Proof.
  intros Hb (H1 & H2 & H3 & H4 & H5 & H6 & H7). unfold head_wf, head_with_status.
  cbn [head_string status version bitmap head_reserved head_checksum].
  split_and!; first [done|lia].
Qed.

Definition valid_status : bytes := str_valid ++ fill 11 Byte.x00.

Section Init.
Context {D : Type} `{BlockDevice D}.
Implicit Types s : st D.

(** While the driver starts, only the head, its place, the count of errors and
    the reserved area change. *)
Definition boot s s' : Prop :=
  core s' = mkCore (device_dead (core s')) (info_num (core s)) (user (core s)) (head (core s'))
              (info_list (core s)) (capacity (core s)) (sector_reserve_start (core s))
              (sector_head (core s')) (sector_table (core s)) (sector_data (core s)) /\
  infos s' = infos s /\ log s' = log s /\
  touches (between (sector_reserve_start (core s) + SWAP_HEAD_OFFEST)
             (sector_reserve_start (core s) + MAX_RESERVED_SECTOR)) s s'.

Lemma boot_refl s : boot s s.
Proof. split_and!; try done. by destruct (core s). Qed.

Lemma boot_trans s1 s2 s3 : boot s1 s2 -> boot s2 s3 -> boot s1 s3.
Proof.
  intros (C1 & I1 & L1 & T1) (C2 & I2 & L2 & T2).
  split_and!; [|congruence..|].
  - etransitivity; [exact C2|]. rewrite C1. reflexivity.
  - rewrite C1 in T2. cbn in T2. by eapply touches_trans.
Qed.

Lemma boot_io (R : Z -> Prop) s s' :
  io s s' -> touches R s s' ->
  (forall x, R x -> between (sector_reserve_start (core s) + SWAP_HEAD_OFFEST)
                      (sector_reserve_start (core s) + MAX_RESERVED_SECTOR) x) -> boot s s'.
Proof.
  intros Hio Ht HR. split_and!.
  - unfold io in Hio. rewrite Hio. done.
  - by apply io_infos.
  - by apply io_log.
  - by eapply touches_mono.
Qed.

Lemma boot_head h s : boot s (upd_core (core_head h) s).
Proof. by split_and!. Qed.

Lemma boot_dead z s : boot s (upd_core (core_dead z) s).
Proof. by split_and!. Qed.

Lemma boot_sector_head z s : boot s (upd_core (core_sector_head z) s).
Proof. by split_and!. Qed.

Lemma boot_reserve s s' : boot s s' -> sector_reserve_start (core s') = sector_reserve_start (core s).
Proof. intros (-> & _). done. Qed.

(** [x] starts one of the [MAX_SWAP_HEAD_BLOCK_NUM] blocks of the search area. *)
Definition head_place s (x : Z) : Prop :=
  let start := sector_reserve_start (core s) + SWAP_HEAD_OFFEST in
  start <= x /\ x < start + MAX_SWAP_HEAD_BLOCK_NUM * SECTOR_NUM_PER_SWAP_BLOCK /\
  (x - start) mod SECTOR_NUM_PER_SWAP_BLOCK = 0.

Definition room s : Prop :=
  0 <= sector_reserve_start (core s) /\ sector_reserve_start (core s) + MAX_RESERVED_SECTOR <= 2 ^ 32.

Lemma wp_get_head_state x b s :
  0 <= x < 2 ^ 32 -> zlen b = 512 ->
  wp (swap_get_head_state x 1 b)
     (fun y s' => io s s' /\ touches nowhere s s' /\ zlen (snd y) = 512 /\
        (fst y = HEAD_FAIL \/
         (fst y = head_state_of (decode_head (snd y)) /\ snd y = media (dev s) x))) s.
Proof.
  intros Hx Hb. unfold swap_get_head_state. kstep. unfold hd_read_sector_retry, SECTOR_SIZE.
  eapply wp_mono; [apply wp_hd_read; [done|lia|done|done]|].
  cbv beta. intros [ret b'] s' (Hio & Ht & Hl & Hret & Hok). cbn [fst snd] in *.
  destruct (Z.eqb_spec ret 0) as [->|Hne]; cbn [negb]; kstep; cbn [fst snd].
  - split_and!; try done. right. split; [done|].
    specialize (Hok eq_refl 0 ltac:(lia)). rewrite Z.add_0_r in Hok. rewrite <- Hok.
    symmetry. by apply slice_last.
  - split_and!; try done. by left.
Qed.

Lemma wp_boot_flush_head s :
  room s -> head_place s (sector_head (core s)) -> head_wf (head (core s)) ->
  wp flush_swap_head
     (fun ret s' => boot s s' /\ (ret = 0 \/ ret = -1) /\
        head (core s') = signed_head (head (core s)) /\ sector_head (core s') = sector_head (core s)) s.
Proof.
  intros Hr Hp Hh. unfold flush_swap_head, upd_head. do 4 kstep.
  fold (signed_head (head (core s))). pose proof (signed_head_wf _ Hh) as Hh'.
  cbn [core upd_core core_head head sector_head]. unfold room, head_place in *. layout.
  pose proof (zlen_encode_head _ Hh') as Hl. set (s0 := upd_core _ s).
  kstep. unfold hd_write_sector_retry. rewrite u64_small by lia.
  eapply wp_mono; [apply wp_hd_write; [lia|lia|done|done]|].
  cbv beta. intros ret1 s1 (Hio1 & Ht1 & _).
  kstep. eapply wp_mono; [apply wp_hd_write; [lia|lia|done|done]|].
  cbv beta. intros ret2 s2 (Hio2 & Ht2 & Hret & _).
  assert (io s0 s2) as Hio by (by eapply io_trans).
  assert (boot s0 s2) as Hb.
  { eapply boot_io; [done| |intros x Hx; exact Hx].
    eapply touches_trans; eapply touches_mono; [exact Ht1| |exact Ht2|]; layout; cbn; intros x; lia. }
  assert (head (core s2) = signed_head (head (core s)) /\ sector_head (core s2) = sector_head (core s))
    as [? ?].
  { unfold io in Hio. rewrite Hio. done. }
  assert (boot s s2) by (eapply boot_trans; [apply boot_head|exact Hb]).
  destruct (negb (ret2 =? 0)); kstep; split_and!; try done; lia.
Qed.

Lemma wp_check_by_sector x bad s :
  room s -> head_place s x ->
  wp (swap_check_block_by_sector x bad)
     (fun y s' => boot s s' /\ io s s') s.
Proof.
  intros Hr Hp. unfold swap_check_block_by_sector. kstep.
  apply wp_mono with (P := fun _ s' => boot s s' /\ io s s').
  { apply (wp_for (fun _ _ s' => boot s s' /\ io s s')).
    - split; [apply boot_refl|apply io_refl].
    - intros j u s1 Hj (Hb & Hio). kstep. unfold hd_write_sector_retry.
      unfold room, head_place in *. pose proof (boot_reserve _ _ Hb) as Er. layout.
      rewrite u64_small by lia.
      eapply wp_mono; [apply wp_hd_write; [lia|lia|done|by apply zlen_fill]|].
      cbv beta. intros ret s2 (Hio2 & Ht2 & _).
      assert (boot s s2 /\ io s s2).
      { split; [|by eapply io_trans]. eapply boot_trans; [exact Hb|].
        eapply boot_io; [done|exact Ht2|]. layout. rewrite Er. intros y. lia. }
      by destruct (negb (ret =? 0)); kstep.
    - intros u s1 Hs1. exact Hs1. }
  intros [u|i] s' Hs'; by kstep.
Qed.

Lemma wp_upd_head f (Q : unit -> st D -> Prop) s :
  Q tt (upd_core (core_head (f (head (core s)))) s) -> wp (upd_head f) Q s.
Proof. done. Qed.

Lemma boot_room s s' : boot s s' -> room s -> room s'.
Proof. intros Hb. unfold room. by rewrite (boot_reserve _ _ Hb). Qed.

Lemma boot_place s s' x : boot s s' -> head_place s x -> head_place s' x.
Proof. intros Hb. unfold head_place. by rewrite (boot_reserve _ _ Hb). Qed.

Lemma wp_create_new_head_flush s :
  room s -> head_place s (sector_head (core s)) -> head_wf (head (core s)) ->
  wp _swap_create_new_head
     (fun ret s' => boot s s' /\ (ret = 0 \/ ret = -1) /\
        head (core s') = signed_head (named_head (head (core s))) /\
        sector_head (core s') = sector_head (core s)) s.
Proof.
  intros Hr Hp Hh. unfold _swap_create_new_head, upd_head. do 2 kstep.
  fold (named_head (head (core s))). set (s0 := upd_core _ s).
  eapply wp_mono; [apply (wp_boot_flush_head s0)|].
  - done.
  - done.
  - by apply named_head_wf.
  - cbv beta. intros ret s' (Hb & Hret & Hh' & Hsh). split_and!; try done.
Qed.

(** A successful start leaves a head that the driver accepts, inside the area. *)
Definition head_found s : Prop :=
  head_state_of (head (core s)) = HEAD_OK /\ head_place s (sector_head (core s)).

Definition search_inv s0 start i s : Prop :=
  boot s0 s /\ sector_head (core s) = start + 128 * i /\ head_wf (head (core s)) /\
  status (head (core s)) = fill 16 Byte.x00.

Lemma head_place_at s i :
  0 <= i < 1024 -> head_place s (sector_reserve_start (core s) + SWAP_HEAD_OFFEST + 128 * i).
Proof.
  intros Hi. unfold head_place. cbv zeta.
  replace (sector_reserve_start (core s) + SWAP_HEAD_OFFEST + 128 * i
           - (sector_reserve_start (core s) + SWAP_HEAD_OFFEST))
    with (i * SECTOR_NUM_PER_SWAP_BLOCK) by (unfold SECTOR_NUM_PER_SWAP_BLOCK; lia).
  rewrite Z_mod_mult. unfold MAX_SWAP_HEAD_BLOCK_NUM, SECTOR_NUM_PER_SWAP_BLOCK. lia.
Qed.

(** One round of the search for a writable head block. *)
Lemma wp_search_round s0 i bad s :
  let start := sector_reserve_start (core s0) + SWAP_HEAD_OFFEST in
  room s0 -> 0 <= i < 1024 -> search_inv s0 start i s ->
  wp (x ← swap_check_block_by_sector (sector_head (core s)) bad;
      let '(ret, bad_index) := x in
      if ret =? 0 then
        upd_head (fun h => head_with_status (strncpy (status h) str_valid 5) h);;
        mret (inr tt)
      else
        (if negb (bad_index =? 0) then
           upd_head (fun h => head_with_status (strncpy (status h) str_invalid 7) h);;
           _swap_create_new_head;; mret tt
         else mret tt);;
        upd_head (fun h => head_with_status (fill SWAP_HEAD_STATUS_LEN Byte.x00) h);;
        kmod (fun s => upd_core (core_sector_head
                (u64 (sector_head (core s) + SECTOR_NUM_PER_SWAP_BLOCK))) s);;
        mret (inl bad_index))
     (fun r s' => match r with
        | inl _ => search_inv s0 start (i + 1) s'
        | inr _ => boot s0 s' /\ head_place s' (sector_head (core s')) /\ head_wf (head (core s')) /\
                   status (head (core s')) = valid_status
        end) s.
Proof.
  intros start Hr Hi (Hb & Hsh & Hwf & Hst).
  pose proof (boot_room _ _ Hb Hr) as Hr1.
  assert (head_place s (sector_head (core s))) as Hp1.
  { rewrite Hsh. subst start. rewrite <- (boot_reserve _ _ Hb). apply head_place_at. lia. }
  kstep. eapply wp_mono; [by apply wp_check_by_sector|].
  cbv beta. intros [ret bi] s2 (Hb2 & Hio2).
  assert (boot s0 s2) as Hb02 by (by eapply boot_trans).
  assert (head (core s2) = head (core s) /\ sector_head (core s2) = sector_head (core s)) as [Eh Es].
  { unfold io in Hio2. rewrite Hio2. done. }
  destruct (ret =? 0).
  - unfold upd_head. do 3 kstep. rewrite Eh, Hst. set (s3 := upd_core _ s2). split_and!.
    + eapply boot_trans; [exact Hb02|apply boot_head].
    + cbn. rewrite Es. apply (boot_place s s2); done.
    + apply status_wf; [by vm_compute|]. exact Hwf.
    + done.
  - kstep. apply wp_mono with (P := fun _ s3 => boot s0 s3 /\
      sector_head (core s3) = start + 128 * i /\ head_wf (head (core s3))).
    + destruct (negb (bi =? 0)).
      * kstep. apply wp_upd_head. kstep. set (s3 := upd_core _ s2).
        assert (boot s0 s3) as Hb03 by (eapply boot_trans; [exact Hb02|apply boot_head]).
        assert (head_wf (head (core s3))) as Hw3.
        { cbn. rewrite Eh, Hst. apply status_wf; [by vm_compute|done]. }
        eapply wp_mono; [apply (wp_create_new_head_flush s3)|].
        { by eapply boot_room. }
        { cbn. rewrite Es. by apply (boot_place s s3); [eapply boot_trans; [exact Hb2|apply boot_head]|]. }
        { done. }
        cbv beta. intros r s4 (Hb4 & _ & Eh4 & Es4). kstep. split_and!.
        -- by eapply boot_trans.
        -- rewrite Es4. cbn. by rewrite Es, Hsh.
        -- rewrite Eh4. by apply signed_head_wf, named_head_wf.
      * kstep. split_and!; [done|by rewrite Es|by rewrite Eh].
    + intros _ s3 (Hb3 & Es3 & Hw3). unfold upd_head. do 5 kstep. cbn [core upd_core].
      unfold search_inv. split_and!.
      * eapply boot_trans; [exact Hb3|]. eapply boot_trans; [apply boot_head|apply boot_sector_head].
      * cbn. rewrite Es3. unfold room in Hr. subst start. layout. rewrite u64_small by lia. lia.
      * apply status_wf; [by apply zlen_fill|done].
      * done.
Qed.

Lemma wp_swap_create_new_head s :
  room s -> sector_head (core s) = sector_reserve_start (core s) + SWAP_HEAD_OFFEST ->
  wp swap_create_new_head
     (fun ret s' => boot s s' /\ (ret = 0 \/ ret = -1) /\ head_wf (head (core s')) /\
                    (ret = 0 -> head_found s')) s.
Proof.
  intros Hr Hsh. unfold swap_create_new_head. kstep. apply wp_upd_head.
  set (s1 := upd_core _ s). set (start := sector_reserve_start (core s) + SWAP_HEAD_OFFEST).
  kstep. apply wp_mono with (P := fun r s' => match r with
    | inl _ => search_inv s start 1024 s'
    | inr _ => boot s s' /\ head_place s' (sector_head (core s')) /\ head_wf (head (core s')) /\
               status (head (core s')) = valid_status
    end).
  { apply (wp_for (fun i _ s' => search_inv s start i s')).
    - unfold search_inv. split_and!; [apply boot_head|cbn; lia| |done].
      cbn. apply decode_head_wf. by apply zlen_fill.
    - change (Z.of_nat (Z.to_nat MAX_SWAP_HEAD_BLOCK_NUM)) with 1024.
      intros j bad s2 Hj Hinv. do 2 kstep. eapply wp_mono; [by apply (wp_search_round s)|].
      intros [b|u] s3 HH; exact HH.
    - intros bad s2 Hinv. exact Hinv. }
  intros [b|u] s2.
  - intros (Hb & _ & Hw & _). kstep. split_and!; [done|by right|done|done].
  - intros (Hb & Hp & Hw & Hst).
    eapply wp_mono; [apply wp_create_new_head_flush; [by eapply boot_room|done|done]|].
    cbv beta. intros ret s3 (Hb3 & Hret & Eh & Es). split_and!; [by eapply boot_trans|done| |].
    + rewrite Eh. by apply signed_head_wf, named_head_wf.
    + intros _. split.
      * rewrite Eh. apply signed_head_ok.
        -- by apply named_head_wf.
        -- apply named_head_exists. apply Hw.
        -- unfold swap_head_invalid. change (status (named_head (head (core s2))))
             with (status (head (core s2))). by rewrite Hst.
        -- unfold swap_head_valid. change (status (named_head (head (core s2))))
             with (status (head (core s2))). by rewrite Hst.
      * rewrite Es. by eapply boot_place.
Qed.

Definition scan_inv s0 (back : bytes) s : Prop :=
  boot s0 s /\ head_wf (head (core s)) /\ zlen back = 512 /\
  sector_head (core s) = sector_reserve_start (core s0) + SWAP_HEAD_OFFEST.

Definition scan_end s0 (ret : Z) s : Prop :=
  boot s0 s /\ head_wf (head (core s)) /\ (ret = 0 \/ ret = -1) /\ (ret = 0 -> head_found s).

(** Adopting the copy [b] of the head found at block [i]. *)
Lemma scan_adopt s0 i b s :
  0 <= i < 1024 -> boot s0 s -> zlen b = 512 -> head_state_of (decode_head b) = HEAD_OK ->
  head (core s) = decode_head b ->
  scan_end s0 0 (upd_core (core_sector_head
    (sector_reserve_start (core s0) + SWAP_HEAD_OFFEST + 128 * i)) s).
Proof.
  intros Hi Hb Hl Hok Eh. split_and!.
  - eapply boot_trans; [exact Hb|apply boot_sector_head].
  - cbn. rewrite Eh. by apply decode_head_wf.
  - by left.
  - intros _. split; cbn; [by rewrite Eh|]. rewrite <- (boot_reserve _ _ Hb).
    apply (head_place_at s). lia.
Qed.

Lemma wp_init_head_block s0 i back s :
  room s0 -> 0 <= i < 1024 -> scan_inv s0 back s ->
  wp (init_head_block (sector_reserve_start (core s0) + SWAP_HEAD_OFFEST) i back)
     (fun r s' => match r with inl back' => scan_inv s0 back' s' | inr ret => scan_end s0 ret s' end) s.
Proof.
  intros Hr Hi (Hb & Hw & Hl & Hsh). unfold init_head_block.
  change SECTOR_NUM_PER_SWAP_BLOCK with 128. replace (i * 128) with (128 * i) by lia.
  pose proof (boot_reserve _ _ Hb) as Er. unfold room in Hr.
  set (x := sector_reserve_start (core s0) + SWAP_HEAD_OFFEST + 128 * i).
  assert (0 <= x < 2 ^ 32 - 64 /\ sector_reserve_start (core s0) + SWAP_HEAD_OFFEST <= x /\
          x + 65 <= sector_reserve_start (core s0) + MAX_RESERVED_SECTOR) as Hx by (subst x; layout; lia).
  rewrite (u64_small x) by lia. unfold SWAP_HEAD_BACKUP_OFFEST. rewrite (u64_small (x + 64)) by lia.
  do 3 kstep. eapply wp_mono; [apply wp_get_head_state; [lia|by apply zlen_encode_head]|].
  cbv beta. intros [hs b] s1 (Hio1 & Ht1 & Hl1 & Hhs). cbn [fst snd] in *.
  assert (boot s s1) as Hb1 by (eapply boot_io; [done|exact Ht1|by intros y []]).
  kstep. apply wp_upd_head. set (s2 := upd_core _ s1).
  assert (boot s0 s2) as Hb2
    by (eapply boot_trans; [exact Hb|]; eapply boot_trans; [exact Hb1|apply boot_head]).
  assert (head_wf (head (core s2))) as Hw2 by (by apply decode_head_wf).
  assert (sector_head (core s2) = sector_reserve_start (core s0) + SWAP_HEAD_OFFEST) as Hsh2.
  { rewrite <- Hsh. unfold io in Hio1. cbn. rewrite Hio1. done. }
  case_bool_decide; [by kstep|].
  kstep. eapply wp_mono; [apply wp_get_head_state; [lia|done]|].
  cbv beta. intros [bs b2] s3 (Hio3 & Ht3 & Hl3 & Hbs). cbn [fst snd] in *.
  assert (boot s2 s3) as Hb23 by (eapply boot_io; [done|exact Ht3|by intros y []]).
  assert (boot s0 s3) as Hb3 by (by eapply boot_trans).
  assert (head (core s3) = decode_head b /\ sector_head (core s3) = sector_head (core s2)) as [Eh3 Es3].
  { unfold io in Hio3. rewrite Hio3. done. }
  assert (scan_inv s0 b2 s3) as Hinv3.
  { split_and!; [done|rewrite Eh3; by apply decode_head_wf|done|congruence]. }
  destruct (bool_decide (hs = HEAD_FAIL) && bool_decide (bs = HEAD_FAIL)); [by kstep|].
  assert (forall y (c : bytes), x <= y <= x + 64 -> zlen c = 512 -> forall s4, boot s0 s4 ->
    wp (hd_write_sector_retry y 1 (Some c) SECTOR_SIZE) (fun _ s5 => boot s0 s5 /\ io s4 s5) s4) as Hwr.
  { intros y c Hy Hc s4 Hb4. unfold hd_write_sector_retry, SECTOR_SIZE.
    eapply wp_mono; [apply wp_hd_write; [lia|lia|done|done]|].
    cbv beta. intros r s5 (Hio5 & Ht5 & _). split; [|done]. eapply boot_trans; [exact Hb4|].
    eapply boot_io; [done|exact Ht5|]. rewrite (boot_reserve _ _ Hb4). unfold between. lia. }
  case_bool_decide as Ehs.
  - destruct Hhs as [?|[Hhs _]]; [congruence|]. kstep.
    apply wp_mono with (P := fun _ s4 => boot s0 s4 /\ head (core s4) = decode_head b).
    + destruct (negb _); [|by kstep]. kstep. eapply wp_mono; [by apply Hwr; try done; lia|].
      cbv beta. intros r s4 (Hb4 & Hio4). kstep. split; [done|]. by rewrite (io_head _ _ Hio4).
    + intros _ s4 (Hb4 & Eh4). do 3 kstep. apply (scan_adopt s0 i b); try done. congruence.
  - case_bool_decide as Ebs.
    + destruct Hbs as [?|[Hbs _]]; [congruence|]. kstep. apply wp_upd_head. kstep.
      eapply wp_mono; [apply Hwr; [lia|done|eapply boot_trans; [exact Hb3|apply boot_head]]|].
      cbv beta. intros r s4 (Hb4 & Hio4). do 3 kstep. apply (scan_adopt s0 i b2); try done; [congruence|].
      by rewrite (io_head _ _ Hio4).
    + kstep. eapply wp_mono.
      { apply wp_swap_create_new_head; [by eapply boot_room|].
        rewrite (boot_reserve _ _ Hb3). congruence. }
      cbv beta. intros ret s4 (Hb4 & Hret & Hw4 & Hf).
      destruct (Z.eqb_spec ret (-1)) as [->|Hne].
      * unfold inc_device_dead. do 3 kstep. split_and!; [|done|by right|done].
        eapply boot_trans; [exact Hb3|]. eapply boot_trans; [exact Hb4|apply boot_dead].
      * kstep. split_and!; [by eapply boot_trans|done|by left|]. intros _. apply Hf. lia.
Qed.

Lemma wp_init_swap_head num s :
  room s -> head_wf (head (core s)) ->
  sector_head (core s) = sector_reserve_start (core s) + SWAP_HEAD_OFFEST ->
  wp (init_swap_head (sector_head (core s)) num) (scan_end s) s.
Proof.
  intros Hr Hw Hsh. unfold init_swap_head. rewrite Hsh. kstep.
  apply wp_mono with (P := fun r s' =>
    match r with inl back => scan_inv s back s' | inr ret => scan_end s ret s' end).
  { apply (wp_for (fun _ back s' => scan_inv s back s')).
    - split_and!; [apply boot_refl|done|by apply zlen_fill|done].
    - change (Z.of_nat (Z.to_nat MAX_SWAP_HEAD_BLOCK_NUM)) with 1024.
      intros j back s1 Hj Hinv. eapply wp_mono; [by apply wp_init_head_block|].
      intros [b|r] s2 HH; exact HH.
    - intros back s1 Hinv. exact Hinv. }
  intros [back|ret] s1.
  - intros (Hb & Hw1 & _). unfold inc_device_dead. do 3 kstep. split_and!; [|done|by right|done].
    eapply boot_trans; [exact Hb|apply boot_dead].
  - intros Hend. by kstep.
Qed.
End Init.

(** ** Results *)

(** C11: for a reserved area that READ(10) and WRITE(10) can address and a search
    that starts at its head area, [init_swap_head] always ends, with 0 or -1,
    whatever the device does.  On success the head in memory carries the driver's
    name, the status "valid" and a matching checksum, and its place is the start of
    one of the [MAX_SWAP_HEAD_BLOCK_NUM] blocks of the search area; the user's
    sectors, the objects and the log are untouched in every case. *)
Theorem init_swap_head_valid {D} `{BlockDevice D} (s : st D) (num : Z) :
  reserve_ok s -> head_wf (head (core s)) ->
  sector_head (core s) = sector_reserve_start (core s) + SWAP_HEAD_OFFEST ->
  wp (init_swap_head (sector_head (core s)) num)
     (fun ret s' => (ret = 0 \/ ret = -1) /\ head_wf (head (core s')) /\
        (ret = 0 -> head_state_of (head (core s')) = HEAD_OK /\
                    head_place s' (sector_head (core s'))) /\
        infos s' = infos s /\ log s' = log s /\
        forall x, x < sector_reserve_start (core s) -> media (dev s') x = media (dev s) x) s.
Proof.
  intros Hr Hw Hsh. eapply wp_mono; [by apply wp_init_swap_head|].
  intros ret s' ((_ & Hi & Hl & Ht) & Hw' & Hret & Hf). split_and!; try done.
  intros x Hx. apply Ht. layout. lia.
Qed.

(** A blank disk whose first head block has a sector that cannot be written. *)
Definition scarred_core : st simdisk :=
  demo_core (mkDisk ∅ [] [demo_rs + SWAP_HEAD_OFFEST + 3] false) no_bits [].

(** The head goes to the second block. *)
Lemma init_swap_head_valid_witness :
  reserve_ok scarred_core /\ exists s', init_swap_head (sector_head (core scarred_core)) 8 scarred_core = Ok (0, s') /\
    head_state_of (head (core s')) = HEAD_OK /\ head_place s' (sector_head (core s')) /\
    sector_head (core s') = demo_rs + SWAP_HEAD_OFFEST + SECTOR_NUM_PER_SWAP_BLOCK.
Proof.
  assert (reserve_ok scarred_core) as Hr by (split; vm_compute; congruence).
  split; [exact Hr|].
  destruct (demo_empty_inv (mkDisk ∅ [] [demo_rs + SWAP_HEAD_OFFEST + 3] false)) as [([Hw _] & _ & _) _].
  fold scarred_core in Hw.
  assert (match init_swap_head (sector_head (core scarred_core)) 8 scarred_core with
          | Ok (r, x) => (r =? 0) && (sector_head (core x) =? demo_rs + SWAP_HEAD_OFFEST + SECTOR_NUM_PER_SWAP_BLOCK)
          | Oops _ => false end = true) as Hc by (vm_compute; reflexivity).
  destruct (wp_inv _ _ _ (init_swap_head_valid scarred_core 8 Hr Hw eq_refl)) as (ret & s' & E & _ & _ & Hok & _).
  rewrite E in Hc. apply andb_prop in Hc as [H1 H2]. apply Z.eqb_eq in H1, H2.
  rewrite H1 in E, Hok. destruct (Hok eq_refl) as [Hs Hp].
  exists s'. split; [exact E|]. split; [exact Hs|]. split; [exact Hp|exact H2].
Defined.

(** a head that [flush_swap_head] signed is recognised as HEAD_OK, with the
    same contents, when its sector is read back, provided it carries the driver's
    name and the status "valid". *)
Theorem flushed_head_recognised (h : swap_head) :
  head_wf h -> swap_head_exist h = true -> swap_head_invalid h = false -> swap_head_valid h = true ->
  let sector := encode_head (signed_head h) in
  zlen sector = SECTOR_SIZE /\ head_state_of (decode_head sector) = HEAD_OK /\
  bitmap (decode_head sector) = bitmap h.
Proof.
  intros Hw He Hi Hv sector. pose proof (signed_head_wf _ Hw) as Hw'. subst sector.
  rewrite decode_encode_head by done.
  split_and!; [by apply zlen_encode_head|by apply signed_head_ok|done].
Qed.

Definition demo_head : swap_head :=
  head_with_status valid_status (named_head (decode_head (fill 512 Byte.x00))).

Lemma demo_head_wf : head_wf demo_head.
Proof. apply status_wf; [by vm_compute|]. apply named_head_wf, decode_head_wf. by apply zlen_fill. Qed.

Lemma flushed_head_recognised_witness :
  head_wf demo_head /\ head_state_of (decode_head (encode_head (signed_head demo_head))) = HEAD_OK.
Proof.
  split; [exact demo_head_wf|].
  apply (flushed_head_recognised demo_head demo_head_wf); vm_compute; reflexivity.
Defined.

(** The bitmap of the head found at start. *)
Definition found_bitmap (r : res (Z * st simdisk)) : option (list Z) :=
  match r with Ok (ret, s) => if ret =? 0 then Some (bitmap (head (core s))) else None | Oops _ => None end.

(** A disk with a valid head in both places; the master can no longer be written. *)
Definition stale_disk : simdisk :=
  mkDisk (<[demo_rs + SWAP_HEAD_OFFEST := encode_head (signed_head demo_head)]>
          {[ demo_rs + SWAP_HEAD_OFFEST + SWAP_HEAD_BACKUP_OFFEST := encode_head (signed_head demo_head) ]})
    [] [demo_rs + SWAP_HEAD_OFFEST] false.

Definition flush_and_restart (s : st simdisk) : Z * option (list Z) :=
  match flush_swap_head s with
  | Ok (ret, s1) => (ret, found_bitmap (init_swap_head (demo_rs + SWAP_HEAD_OFFEST) 8
                                          (demo_core (dev s1) no_bits [])))
  | Oops _ => (-2, None)
  end.

(** [flush_swap_head] ignores a failed write of the master copy and reports
    success; at the next start the old master, whose checksum still matches, is
    taken before the newer backup, and the blocks allocated since then are free
    again. *)
Theorem stale_master_head_wins :
  let s := demo_core stale_disk (1 :: replicate 31 0) [] in
  flush_and_restart (upd_core (core_head (head_with_bitmap (1 :: replicate 31 0) demo_head)) s)
  = (0, Some (replicate 32 0)).
Proof. vm_compute. reflexivity. Qed.

