(* ===== verification/CoreDisk.v ===== *)
(** * What the swap core leaves on the disk

    The driver keeps its mapping in memory and on the disk: the head with the
    bitmap, two copies of the table, and the replacement blocks.  [saved v m] says
    that the medium [m] holds everything a new start needs to rebuild the mapping of
    the view [v].  The specifications of this file are those of the flush operations
    on a device whose reserved area is sound ([SoundReserve]): each reports success,
    and the medium holds what was flushed.  The user's sectors may fail in any way. *)

From stdpp Require Import base gmap fin_maps list list_numbers.
From coqutil Require Import Byte Word.LittleEndianList.
From Stdlib Require Import ZArith Lia.
From S2P Require Import Prelude Kapi Crc32 Ring Layout State Scsi Log Core CoreInv CoreSpec.

Local Open Scope Z_scope.

(** ** A device with a sound reserved area *)

(** READ(10) and WRITE(10) of sectors of the reserved gigabyte at [rs] complete. *)
Class SoundReserve (D : Type) `{BlockDevice D} (rs : Z) := {
  reserve_reads : forall d cdb buf timeout retries,
    cdb_op cdb = READ_10 -> zlen buf = 512 * cdb10_len cdb ->
    rs <= cdb10_lba cdb -> cdb10_lba cdb + cdb10_len cdb <= rs + MAX_RESERVED_SECTOR ->
    reply_good (snd (scsi_execute d cdb DMA_FROM_DEVICE buf timeout retries)) = true;
  reserve_writes : forall d cdb buf timeout retries,
    cdb_op cdb = WRITE_10 -> zlen buf = 512 * cdb10_len cdb ->
    rs <= cdb10_lba cdb -> cdb10_lba cdb + cdb10_len cdb <= rs + MAX_RESERVED_SECTOR ->
    reply_good (snd (scsi_execute d cdb DMA_TO_DEVICE buf timeout retries)) = true
}.

(** ** The saved state *)

(** Entry [n] of the table that starts at sector [base]. *)
Definition entry_at (m : Z -> bytes) (base n : Z) : swap_table :=
  table_at (m (base + n / 8)) (n mod 8).

(** The table at [base] lists the mappings of [v], in order, and nothing else. *)
Definition table_saved (v : view) (m : Z -> bytes) (base : Z) : Prop :=
  (forall n p i, v_list v !! n = Some p -> v_infos v !! p = Some i ->
     table_with_save 0 (entry_at m base (Z.of_nat n)) = table i) /\
  (forall n, zlen (v_list v) <= n < 256 ->
     sec_size (entry_at m base n) <> SECTOR_NUM_PER_SWAP_BLOCK).

(** Sector of block [j] of the search for a head. *)
Definition head_block (v : view) (j : Z) : Z := v_reserve v + SWAP_HEAD_OFFEST + 128 * j.

Definition backup_table (v : view) : Z := v_reserve v + SWAP_TABLE_BACKUP_OFFSET.

Record saved (v : view) (m : Z -> bytes) : Prop := {
  sv_place : exists i, 0 <= i < 128 /\ v_head v = head_block v i /\
    forall j, 0 <= j < i -> head_state_of (decode_head (m (head_block v j))) = HEAD_INVALID;
  sv_head : head_state_of (decode_head (m (v_head v))) = HEAD_OK;
  sv_bits : forall p i, p ∈ v_list v -> v_infos v !! p = Some i ->
    bit_of (bitmap (decode_head (m (v_head v)))) (index (table i)) = true;
  sv_src : forall p i, p ∈ v_list v -> v_infos v !! p = Some i -> src_sec (table i) < v_reserve v;
  sv_table : table_saved v m (v_table v);
  sv_backup : table_saved v m (backup_table v);
  sv_data : forall p i d k, p ∈ v_list v -> v_infos v !! p = Some i -> data i = Some d ->
    0 <= k < 128 -> m (swap_sec (table i) + k) = slice (512 * k) 512 d
}.

(** The head in memory carries the driver's name and the status "valid". *)
Definition named {D} (s : st D) : Prop :=
  let h := head (core s) in
  swap_head_exist h = true /\ swap_head_invalid h = false /\ swap_head_valid h = true.

(** The counters of the log on the disk, if its checksum is right, are those of a ring. *)
Definition log_sane (rs : Z) (m : Z -> bytes) : Prop :=
  let h := decode_log_head (slice 0 8 (m (rs + SWAP_LOG_HEAD_OFFSET))) in
  log_crc h = scsi_swap_log_crc_head h -> log_item_num h <= 512 /\ log_item_next h < 512.

(** A core in order, whose mapping is on the disk as well. *)
Record kept {D} `{BlockDevice D} (rs : Z) (s : st D) : Prop := {
  kp_inv : inv s;
  kp_bits : bits_ok (view_of s);
  kp_rs : v_reserve (view_of s) = rs;
  kp_named : named s;
  kp_saved : saved (view_of s) (media (dev s));
  kp_log : log_sane rs (media (dev s))
}.

(** ** Sectors the saved state depends on *)

Definition in_tables (v : view) (x : Z) : Prop :=
  between (v_table v) (v_table v + 32) x \/ between (backup_table v) (backup_table v + 32) x.

Definition in_block_of (i : swap_info) (x : Z) : Prop :=
  between (swap_sec (table i)) (swap_sec (table i) + 128) x.

Definition precious (v : view) (x : Z) : Prop :=
  (exists j, 0 <= j < 128 /\ x = head_block v j) \/ in_tables v x \/
  (exists p i, p ∈ v_list v /\ v_infos v !! p = Some i /\ in_block_of i x).

Section Saved.
Implicit Types (v : view) (m : Z -> bytes).

Lemma entry_sector n : 0 <= n < 256 -> 0 <= n / 8 < 32.
Proof. intros. split; [apply Z.div_pos; lia|]. apply Z.div_lt_upper_bound; lia. Qed.

(** Only the sectors of the table matter. *)
Lemma table_saved_frame v m m' base :
  zlen (v_list v) <= 256 -> (forall x, between base (base + 32) x -> m' x = m x) ->
  table_saved v m base -> table_saved v m' base.
Proof.
  intros Hlen Hm [H1 H2].
  assert (forall n, 0 <= n < 256 -> entry_at m' base n = entry_at m base n) as He.
  { intros n Hn. unfold entry_at. rewrite Hm; [done|]. unfold between.
    pose proof (entry_sector n Hn). lia. }
  split.
  - intros n p i Hp Hi. rewrite He by (apply lookup_lt_Some in Hp; unfold zlen in Hlen; lia).
    by eapply H1.
  - intros n Hn. rewrite He by (pose proof (zlen_nonneg (v_list v)); lia). by apply H2.
Qed.

(** A new head may be written, if it knows the blocks in use. *)
Lemma saved_frame_head v m m' :
  zlen (v_list v) <= 256 -> (forall x, precious v x -> x <> v_head v -> m' x = m x) ->
  head_state_of (decode_head (m' (v_head v))) = HEAD_OK ->
  (forall p i, p ∈ v_list v -> v_infos v !! p = Some i ->
     bit_of (bitmap (decode_head (m' (v_head v)))) (index (table i)) = true) ->
  (forall x, in_tables v x -> x <> v_head v) ->
  (forall p i x, p ∈ v_list v -> v_infos v !! p = Some i -> in_block_of i x -> x <> v_head v) ->
  saved v m -> saved v m'.
Proof.
  intros Hlen Hm Hok Hbits Ht Hd [(i & Hi & Eh & Hj) H1 H2 H3 H4 H5 H6]. split; try done.
  - exists i. split_and!; try done; [lia..|]. intros j Hj'. rewrite Hm; [by apply Hj|..].
    + left. exists j. split; [lia|done].
    + rewrite Eh. unfold head_block. lia.
  - eapply table_saved_frame; [done| |exact H4]. intros x Hx.
    apply Hm; [right; left; by left|]. apply Ht. by left.
  - eapply table_saved_frame; [done| |exact H5]. intros x Hx.
    apply Hm; [right; left; by right|]. apply Ht. by right.
  - intros p j d k Hp Hpj Hdj Hk.
    assert (in_block_of j (swap_sec (table j) + k)) as Hb by (unfold in_block_of, between; lia).
    rewrite Hm; [by eapply H6|right; right; by exists p, j|by eapply Hd].
Qed.

Lemma saved_frame v m m' :
  zlen (v_list v) <= 256 -> (forall x, precious v x -> m' x = m x) -> saved v m -> saved v m'.
Proof.
  intros Hlen Hm [(i & Hi & Eh & Hj) H1 H2 H3 H4 H5 H6].
  assert (m' (v_head v) = m (v_head v)) as Em by (apply Hm; left; exists i; split; [lia|done]).
  split; rewrite ?Em; try done.
  - exists i. split_and!; try done; [lia..|]. intros j Hj'. rewrite Hm; [by apply Hj|].
    left. exists j. split; [lia|done].
  - eapply table_saved_frame; [done| |exact H4]. intros x Hx. apply Hm. right. left. by left.
  - eapply table_saved_frame; [done| |exact H5]. intros x Hx. apply Hm. right. left. by right.
  - intros p j d k Hp Hpj Hd Hk. rewrite Hm; [by eapply H6|].
    right. right. exists p, j. split_and!; try done. unfold in_block_of, between. lia.
Qed.

(** Only the listed objects and the geometry matter. *)
Lemma table_saved_ext v v' m base :
  v_list v' = v_list v -> (forall p, p ∈ v_list v -> v_infos v' !! p = v_infos v !! p) ->
  table_saved v m base -> table_saved v' m base.
Proof.
  intros El Ei [H1 H2]. split; rewrite El; [|done].
  intros n p i Hn Hi. rewrite Ei in Hi by (by eapply list_elem_of_lookup_2). by eapply H1.
Qed.

Lemma saved_ext v v' m :
  v_geom v' = v_geom v -> v_list v' = v_list v ->
  (forall p, p ∈ v_list v -> v_infos v' !! p = v_infos v !! p) -> saved v m -> saved v' m.
Proof.
  intros Eg El Ei [H0 H1 H2 H3 H4 H5 H6].
  assert (v_reserve v' = v_reserve v /\ v_head v' = v_head v /\ v_table v' = v_table v)
    as (Er & Eh & Et) by (unfold v_reserve, v_head, v_table; by rewrite Eg).
  assert (forall j, head_block v' j = head_block v j) as Eb by (intros; unfold head_block; by rewrite Er).
  assert (backup_table v' = backup_table v) as Ek by (unfold backup_table; by rewrite Er).
  split; rewrite ?Eh, ?Et, ?Ek, ?Er; try done.
  - destruct H0 as (i & Hi & Eq & Hj). exists i. rewrite Eb. split_and!; try done; [lia..|].
    intros j Hj'. rewrite Eb. by apply Hj.
  - intros p i. rewrite El. intros Hp. rewrite Ei by done. by apply H2.
  - intros p i. rewrite El. intros Hp. rewrite Ei by done. by apply H3.
  - by eapply table_saved_ext.
  - by eapply table_saved_ext.
  - intros p i d k. rewrite El. intros Hp. rewrite Ei by done. by apply H6.
Qed.
End Saved.

(** ** Commands to the reserved area *)

Section Sound.
Context {D : Type} {rs : Z} `{SoundReserve D rs}.
Implicit Types s : st D.

Definition in_reserve (x n : Z) : Prop :=
  0 <= rs /\ rs + MAX_RESERVED_SECTOR <= 2 ^ 32 /\ rs <= x /\ 0 < n < 2 ^ 16 /\
  x + n <= rs + MAX_RESERVED_SECTOR.

Lemma wp_finish_good rep (Q : Z -> st D -> Prop) s :
  reply_good rep = true -> Q 0 s -> wp (finish_cmd rep) Q s.
Proof. intros Hg HQ. unfold finish_cmd. apply filter_result_good in Hg as ->. cbn [Z.eqb negb]. by kstep. Qed.

Lemma reserve_fields op x n :
  0 <= op < 256 -> in_reserve x n ->
  cdb_op (cdb10 op x n) = op /\ cdb10_lba (cdb10 op x n) = x /\ cdb10_len (cdb10 op x n) = n.
Proof.
  intros Hop (? & ? & ? & ? & ?). destruct (cdb10_fields op x n Hop) as (-> & -> & ->).
  unfold MAX_RESERVED_SECTOR, SECTOR_1M in *. rewrite !Z.mod_small by lia. done.
Qed.

Lemma wp_write_reserve x n (buf : bytes) len timeout retries s :
  in_reserve x n -> len = 512 * n -> zlen buf = len ->
  wp (hd_write_sector x n (Some buf) len timeout retries)
     (fun ret s' => ret = 0 /\ io s s' /\ touches (between x (x + n)) s s' /\
        forall i, 0 <= i < n -> media (dev s') (x + i) = slice (512 * i) 512 buf) s.
Proof.
  intros Hr Hl Hb. pose proof Hr as (B1 & B2 & B3 & B4 & B5).
  unfold MAX_RESERVED_SECTOR, SECTOR_1M in B2, B5.
  apply wp_mono with (P := fun ret s' => (io s s' /\ touches (between x (x + n)) s s' /\
    (ret = 0 \/ ret = -1) /\ (ret = 0 -> forall i, 0 <= i < n ->
       media (dev s') (x + i) = slice (512 * i) 512 buf)) /\ ret = 0).
  2: { intros ret s' ((Hio & Ht & _ & Hm) & Hz). split_and!; try done. by apply Hm. }
  apply wp_and; [apply wp_hd_write; [lia|lia|done|done]|].
  subst len. unfold hd_write_sector, SECTOR_SIZE. rewrite Z.ltb_irrefl.
  kstep. apply wp_load; [lia..|]. rewrite slice_last by done. unfold execute. do 3 kstep.
  destruct (reserve_fields WRITE_10 x n ltac:(unfold WRITE_10; lia) Hr) as (Eo & El & Ec).
  pose proof (reserve_writes (dev s) (cdb10 WRITE_10 x n) buf timeout retries Eo) as Hg.
  rewrite Ec, El in Hg. specialize (Hg Hb B3 B5).
  destruct (scsi_execute _ _ _ _ _ _) as [d' rep]. repeat kstep. by apply wp_finish_good.
Qed.

Lemma wp_read_reserve_ret x n (buf : bytes) len timeout retries s :
  in_reserve x n -> len = 512 * n -> zlen buf = len ->
  wp (hd_read_sector x n (Some buf) len timeout retries) (fun y s' => fst y = 0 /\ core s' = core s) s.
Proof.
  intros Hr Hl Hb. pose proof Hr as (B1 & B2 & B3 & B4 & B5).
  unfold MAX_RESERVED_SECTOR, SECTOR_1M in B2, B5.
  subst len. unfold hd_read_sector, SECTOR_SIZE. rewrite Z.ltb_irrefl.
  kstep. apply wp_load; [lia..|]. rewrite slice_last by done. unfold execute. do 3 kstep.
  destruct (reserve_fields READ_10 x n ltac:(unfold READ_10; lia) Hr) as (Eo & El & Ec).
  pose proof (reserve_reads (dev s) (cdb10 READ_10 x n) buf timeout retries Eo) as Hg.
  pose proof (execute_read10 (dev s) (cdb10 READ_10 x n) buf timeout retries Eo) as Hx.
  rewrite Ec, El in Hg, Hx. specialize (Hg Hb B3 B5). specialize (Hx Hb).
  destruct (scsi_execute _ _ _ _ _ _) as [d' rep]. destruct Hx as (_ & Hlen & _).
  repeat kstep. apply wp_store; [lia|lia|]. kstep. apply wp_finish_good; [done|]. by kstep.
Qed.

Lemma wp_read_reserve x n (buf : bytes) len timeout retries s :
  in_reserve x n -> len = 512 * n -> zlen buf = len ->
  wp (hd_read_sector x n (Some buf) len timeout retries)
     (fun y s' => fst y = 0 /\ io s s' /\ touches nowhere s s' /\ zlen (snd y) = len /\
        forall i, 0 <= i < n -> slice (512 * i) 512 (snd y) = media (dev s) (x + i)) s.
Proof.
  intros Hr Hl Hb. pose proof Hr as (B1 & B2 & B3 & B4 & B5).
  unfold MAX_RESERVED_SECTOR, SECTOR_1M in B2, B5.
  eapply wp_mono; [apply wp_and; [apply wp_hd_read; [lia|lia|done|done]|by apply wp_read_reserve_ret]|].
  cbv beta. intros y s' ((Hio & Ht & Hz & _ & Hm) & E0 & _). split_and!; try done. by apply Hm.
Qed.

(** A whole sector that was written. *)
Lemma write_one x (buf : bytes) (f : Z -> bytes) :
  zlen buf = 512 -> (forall i, 0 <= i < 1 -> f (x + i) = slice (512 * i) 512 buf) -> f x = buf.
Proof.
  intros Hb Hf. specialize (Hf 0 ltac:(lia)). rewrite Z.add_0_r in Hf. rewrite Hf. by apply slice_last.
Qed.

(** ** Quiet changes *)

(** What identifies the head: everything but bitmap and checksum. *)
Definition names s : bytes * bytes * bytes :=
  (head_string (head (core s)), status (head (core s)), version (head (core s))).

(** The medium changed at most in [R]; the head kept its names, the areas their
    places, head and log are in order. *)
Definition quietly (R : Z -> Prop) s s' : Prop :=
  touches R s s' /\ names s' = names s /\ geom s' = geom s /\ (env_ok s -> env_ok s').

Lemma quietly_refl R s : quietly R s s.
Proof. done. Qed.

Lemma quietly_trans R s1 s2 s3 : quietly R s1 s2 -> quietly R s2 s3 -> quietly R s1 s3.
Proof.
  intros (T1 & N1 & G1 & E1) (T2 & N2 & G2 & E2).
  split_and!; [by eapply touches_trans|congruence|congruence|auto].
Qed.

Lemma quietly_mono (R R' : Z -> Prop) s s' :
  quietly R s s' -> (forall x, R x -> R' x) -> quietly R' s s'.
Proof. intros (T & N) HR. split; [by eapply touches_mono|done]. Qed.

Lemma quietly_io R s s' : io s s' -> touches R s s' -> quietly R s s'.
Proof.
  intros Hio Ht. pose proof (same_core_io _ _ Hio) as Hc. unfold same_core in Hc.
  split_and!; [done|unfold names; by rewrite Hc|unfold geom; by rewrite Hc|].
  apply env_ok_same; [by rewrite Hc|by apply io_log|by rewrite Hc].
Qed.

Lemma quietly_core R s s' : core s' = core s -> dev s' = dev s -> log s' = log s -> quietly R s s'.
Proof.
  intros Ec Ed El. split_and!; [intros x _; by rewrite Ed|unfold names, geom; by rewrite Ec..|].
  apply env_ok_same; by rewrite ?Ec, ?El.
Qed.

Lemma named_names s s' : names s' = names s -> named s -> named s'.
Proof.
  unfold names, named. intros [= E1 E2 _]. unfold swap_head_exist, swap_head_invalid, swap_head_valid.
  by rewrite E1, E2.
Qed.
End Sound.

Lemma log_sane_frame (rs : Z) (m m' : Z -> bytes) :
  m' (rs + SWAP_LOG_HEAD_OFFSET) = m (rs + SWAP_LOG_HEAD_OFFSET) -> log_sane rs m -> log_sane rs m'.
Proof. unfold log_sane. by intros ->. Qed.

Arguments in_reserve rs x n : clear implicits.
#[export] Hint Resolve quietly_refl : core.

(** ** Table sectors *)

(** The entry that position [n] of the table should hold. *)
Definition tab_of (v : view) (n : Z) : option swap_table :=
  p ← v_list v !! Z.to_nat n; table <$> v_infos v !! p.

(** The buffer of table sector [q] with its first [cnt] entries stored. *)
Definition buf_has (v : view) (q cnt : Z) (buf : bytes) : Prop :=
  zlen buf = 512 /\
  (forall j, 0 <= j < cnt -> Some (table_with_save 0 (table_at buf j)) = tab_of v (8 * q + j)) /\
  (forall j, cnt <= j < 8 -> sec_size (table_at buf j) = 0).

(** The first [q] sectors at [base] hold their entries. *)
Definition flushed (v : view) (m : Z -> bytes) (base q : Z) : Prop :=
  forall n, 0 <= n < 8 * q -> Some (table_with_save 0 (entry_at m base n)) = tab_of v n.

Lemma buf_has_zero v q : buf_has v q 0 (fill 512 Byte.x00).
Proof.
  split_and!; [by apply zlen_fill|intros; lia|]. intros j Hj. unfold table_at, sizeof_swap_table.
  rewrite slice_fill by lia. by vm_compute.
Qed.

Lemma table_at_splice buf t j k :
  zlen buf = 512 -> table_wf t -> 0 <= j < 8 -> 0 <= k < 8 ->
  table_at (splice (64 * k) (encode_table t) buf) j = if decide (j = k) then t else table_at buf j.
Proof.
  intros Hb Ht Hj Hk. assert (zlen (encode_table t) = 64) as Hl
    by (apply zlen_encode_table; by destruct Ht as (_&_&_&_&_&?&_)).
  unfold table_at, sizeof_swap_table. case_decide as E.
  - subst k. rewrite slice_splice_in by lia. rewrite Z.sub_diag, slice_last by done.
    by apply decode_encode_table.
  - rewrite slice_splice_out by lia. done.
Qed.

Lemma buf_has_store v q cnt buf t :
  buf_has v q cnt buf -> 0 <= cnt < 8 -> table_wf t ->
  Some (table_with_save 0 t) = tab_of v (8 * q + cnt) ->
  buf_has v q (cnt + 1) (splice (64 * cnt) (encode_table t) buf).
Proof.
  intros (Hb & Hin & Hout) Hc Ht Ht'. assert (zlen (encode_table t) = 64) as Hl
    by (apply zlen_encode_table; by destruct Ht as (_&_&_&_&_&?&_)).
  split_and!; [rewrite zlen_splice; lia|..]; intros j Hj; rewrite table_at_splice by (done || lia).
  - case_decide; [by subst j|]. apply Hin. lia.
  - rewrite decide_False by lia. apply Hout. lia.
Qed.

Lemma entry_at_in m base q j : 0 <= j < 8 -> entry_at m base (8 * q + j) = table_at (m (base + q)) j.
Proof.
  intros Hj. unfold entry_at. replace (8 * q + j) with (j + q * 8) by lia.
  rewrite Z.div_add, Z.div_small, Z_mod_plus_full, Z.mod_small by lia. done.
Qed.

Lemma flushed_step v m m' base q :
  0 <= q -> flushed v m base q -> (forall x, between base (base + q) x -> m' x = m x) ->
  buf_has v q 8 (m' (base + q)) -> flushed v m' base (q + 1).
Proof.
  intros Hq Hf Hm (_ & Hb & _) n Hn.
  destruct (Z_lt_ge_dec n (8 * q)) as [Hlt|Hge].
  - rewrite <- Hf by lia. unfold entry_at. rewrite Hm; [done|]. unfold between.
    pose proof (Z.div_pos n 8). pose proof (Z.div_lt_upper_bound n 8 q). lia.
  - replace n with (8 * q + (n - 8 * q)) by lia. rewrite entry_at_in by lia. apply Hb. lia.
Qed.

(** Full sectors, and perhaps a last one, make a table. *)
Lemma flushed_saved v m m' base q cnt :
  zlen (v_list v) = 8 * q + cnt -> 0 <= q -> 0 <= cnt < 8 -> flushed v m' base q ->
  (0 < cnt -> buf_has v q cnt (m' (base + q))) ->
  (forall x, base + q + (if cnt =? 0 then 0 else 1) <= x < base + 32 -> m' x = m x) ->
  (forall n, zlen (v_list v) <= n < 256 ->
     sec_size (entry_at m base n) <> SECTOR_NUM_PER_SWAP_BLOCK) ->
  table_saved v m' base.
Proof.
  intros Hlen Hq Hc Hf Hb Hm Htail. split.
  - intros n p i Hn Hi. pose proof (lookup_lt_Some _ _ _ Hn) as Hlt. unfold zlen in Hlen.
    assert (Some (table_with_save 0 (entry_at m' base (Z.of_nat n))) = tab_of v (Z.of_nat n)) as E.
    { destruct (Z_lt_ge_dec (Z.of_nat n) (8 * q)); [apply Hf; lia|].
      destruct (Hb ltac:(lia)) as (_ & Hin & _).
      replace (Z.of_nat n) with (8 * q + (Z.of_nat n - 8 * q)) by lia.
      rewrite entry_at_in by lia. apply Hin. lia. }
    unfold tab_of in E. rewrite Nat2Z.id, Hn in E. cbn in E. rewrite Hi in E. by injection E.
  - intros n Hn. destruct (Z_lt_ge_dec n (8 * q + 8)) as [Hlt|Hge].
    + destruct (Z.eqb_spec cnt 0) as [->|Hne].
      * unfold entry_at. rewrite Hm; [by apply Htail|].
        assert (n / 8 = q) as -> by (symmetry; apply (Z.div_unique n 8 q (n - 8 * q)); lia). lia.
      * destruct (Hb ltac:(lia)) as (_ & _ & Hout).
        replace n with (8 * q + (n - 8 * q)) by lia. rewrite entry_at_in by lia.
        rewrite Hout by lia. done.
    + unfold entry_at. rewrite Hm; [by apply Htail|].
      pose proof (Z.div_le_lower_bound n 8 (q + 1)). pose proof (entry_sector n ltac:(lia)).
      destruct (cnt =? 0); lia.
Qed.

Section Flush.
Context {D : Type} {rs : Z} `{SoundReserve D rs}.
Implicit Types s : st D.

(** Numeric form of the geometry. *)
Lemma geom_nums v :
  geom_ok v -> v_reserve v = rs ->
  0 <= rs /\ rs + MAX_RESERVED_SECTOR <= 2 ^ 32 /\ rs + 16384 <= v_head v < rs + 147456 /\
  v_table v = rs + 32768 /\ v_data v = rs + 49152 /\ backup_table v = rs + 2080768.
Proof. intros Hg E. unfold backup_table. layout. rewrite E in *. lia. Qed.

Lemma wp_flush_data_sound p i d s :
  geom_ok (view_of s) -> v_reserve (view_of s) = rs -> v_infos (view_of s) !! p = Some i ->
  info_ok (v_data (view_of s)) i -> data i = Some d ->
  wp (flush_swap_info_data p)
     (fun ret s' => ret = 0 /\ hush s s' /\ infos s' = infos s /\ quietly (in_block_of i) s s' /\
        forall k, 0 <= k < 128 -> media (dev s') (swap_sec (table i) + k) = slice (512 * k) 512 d) s.
Proof.
  intros Hg Hrs Hp Hok Hd. destruct (geom_nums _ Hg Hrs) as (N1 & N2 & N3 & N4 & N5 & N6).
  unfold flush_swap_info_data. kstep. eapply wp_get_info_v; [done|]. intros e He Hee.
  destruct (io_data _ _ Hok) as (d' & Hd' & Hlen). rewrite Hd in Hd'. injection Hd' as <-.
  pose proof (info_index _ _ Hok) as Hix. pose proof (io_swap _ _ Hok) as Hsw.
  pose proof (io_size _ _ Hok) as Hsz. rewrite N5 in Hsw. subst i. cbn in Hd, Hsw, Hsz, Hix |- *.
  rewrite Hsz, Hd. change (u32 (SECTOR_NUM_PER_SWAP_BLOCK * SECTOR_SIZE)) with 65536.
  unfold SECTOR_NUM_PER_SWAP_BLOCK in *. unfold hd_write_sector_retry.
  eapply wp_mono.
  { apply wp_write_reserve; [|done|exact Hlen]. unfold in_reserve.
    unfold MAX_RESERVED_SECTOR, SECTOR_1M in *. lia. }
  cbv beta. intros ret s' (-> & Hio & Ht & Hm). split_and!; [done| |by apply io_infos| |done].
  - eapply hush_io; [done|exact Ht|]. intros x. layout. rewrite Hrs. lia.
  - apply quietly_io; [done|]. eapply touches_mono; [exact Ht|]. intros x Hx. exact Hx.
Qed.

(** The sectors of the head and its backup. *)
Definition head_pair (v : view) (x : Z) : Prop :=
  x = v_head v \/ x = v_head v + SWAP_HEAD_BACKUP_OFFEST.

Lemma wp_flush_head_sound s :
  geom_ok (view_of s) -> v_reserve (view_of s) = rs -> head_wf (head (core s)) ->
  wp flush_swap_head
     (fun ret s' => ret = 0 /\ hush s s' /\ infos s' = infos s /\
        quietly (head_pair (view_of s)) s s' /\
        media (dev s') (v_head (view_of s)) = encode_head (signed_head (head (core s)))) s.
Proof.
  intros Hg Hrs Hh. destruct (geom_nums _ Hg Hrs) as (N1 & N2 & N3 & _).
  apply wp_mono with (P := fun ret s' => (hush s s' /\ (ret = 0 \/ ret = -1) /\ infos s' = infos s /\
    log s' = log s /\ core s' = core_dead (device_dead (core s'))
      (core_head (signed_head (head (core s))) (core s)) /\
    (ret = 0 -> media (dev s') (v_head (view_of s) + SWAP_HEAD_BACKUP_OFFEST)
                = encode_head (signed_head (head (core s))))) /\
    (ret = 0 /\ touches (head_pair (view_of s)) s s' /\
     media (dev s') (v_head (view_of s)) = encode_head (signed_head (head (core s))))).
  2: { intros ret s' ((Hu & _ & Hi & _ & Hc & _) & Hz & Ht & Hm). split_and!; try done.
       split_and!; [done|unfold names, geom; by rewrite Hc..|]. apply Hu. }
  apply wp_and; [by apply wp_flush_head|].
  unfold flush_swap_head, upd_head. do 4 kstep. fold (signed_head (head (core s))).
  pose proof (zlen_encode_head _ (signed_head_wf _ Hh)) as Hl. set (s0 := upd_core _ s).
  change (sector_head (core s0)) with (v_head (view_of s)).
  change (head (core s0)) with (signed_head (head (core s))).
  unfold MAX_RESERVED_SECTOR, SECTOR_1M in N2. unfold SWAP_HEAD_BACKUP_OFFEST, hd_write_sector_retry.
  rewrite u64_small by lia.
  assert (forall z, z = v_head (view_of s) \/ z = v_head (view_of s) + 64 -> in_reserve rs z 1) as Hin
    by (intros z Hz; unfold in_reserve, MAX_RESERVED_SECTOR, SECTOR_1M; lia).
  kstep. eapply wp_mono; [apply wp_write_reserve; [apply Hin; by left|done|exact Hl]|].
  cbv beta. intros r1 s1 (-> & Hio1 & Ht1 & Hm1). apply (write_one _ _ _ Hl) in Hm1.
  kstep. eapply wp_mono; [apply wp_write_reserve; [apply Hin; by right|done|exact Hl]|].
  cbv beta. intros r2 s2 (-> & Hio2 & Ht2 & _). cbn [Z.eqb negb]. kstep. split_and!; [done| |].
  - intros x Hx. unfold head_pair, SWAP_HEAD_BACKUP_OFFEST in Hx.
    rewrite Ht2, Ht1 by (unfold between; lia). done.
  - rewrite Ht2 by (unfold between; lia). exact Hm1.
Qed.

(** ** The table *)

Lemma wp_write_until_sound fuel x limit buffer s :
  in_reserve rs x 1 -> zlen buffer = 512 -> (0 < fuel)%nat ->
  wp (write_until fuel x limit buffer)
     (fun x' s' => x' = x + 1 /\ io s s' /\ touches (fun y => y = x) s s' /\
                   media (dev s') x = buffer) s.
Proof.
  intros Hin Hb Hf. destruct fuel as [|f]; [lia|]. cbn [write_until]. kstep.
  unfold hd_write_sector_retry, SECTOR_SIZE.
  eapply wp_mono; [by apply wp_write_reserve|].
  cbv beta. intros ret s' (-> & Hio & Ht & Hm). apply (write_one _ _ _ Hb) in Hm.
  cbn [Z.eqb]. kstep. unfold in_reserve, MAX_RESERVED_SECTOR, SECTOR_1M in Hin.
  rewrite u64_small by lia. split_and!; try done.
  eapply touches_mono; [exact Ht|]. unfold between. lia.
Qed.

(** Both copies of table sector [q]. *)
Lemma wp_flush_sector_sound q buffer s :
  geom_ok (view_of s) -> v_reserve (view_of s) = rs -> zlen buffer = 512 -> 0 <= q < 32 ->
  let v := view_of s in
  wp (flush_table_sector (v_table v + q) (backup_table v + q) buffer)
     (fun x s' => x = (v_table v + q + 1, backup_table v + q + 1) /\ io s s' /\
        touches (fun y => y = v_table v + q \/ y = backup_table v + q) s s' /\
        media (dev s') (v_table v + q) = buffer /\ media (dev s') (backup_table v + q) = buffer) s.
Proof.
  intros Hg Hrs Hb Hq v. destruct (geom_nums _ Hg Hrs) as (N1 & N2 & _ & N4 & _ & N6). fold v in N4, N6.
  assert (in_reserve rs (v_table v + q) 1 /\ in_reserve rs (backup_table v + q) 1) as [I1 I2]
    by (unfold in_reserve, MAX_RESERVED_SECTOR, SECTOR_1M in *; lia).
  unfold flush_table_sector. do 3 kstep.
  eapply wp_mono; [apply wp_write_until_sound; [done|done|unfold write_fuel, SWPA_TABLE_N_SECTOR; lia]|].
  cbv beta. intros x1 s1 (-> & Hio1 & Ht1 & Hm1). do 3 kstep.
  eapply wp_mono; [apply wp_write_until_sound; [done|done|unfold write_fuel, SWPA_TABLE_N_SECTOR; lia]|].
  cbv beta. intros x2 s2 (-> & Hio2 & Ht2 & Hm2). kstep.
  split_and!; [done|by eapply io_trans| |rewrite Ht2 by lia; done|done].
  intros y Hy. rewrite Ht2, Ht1 by lia. done.
Qed.

(** The first [q] sectors of both copies. *)
Definition written (v : view) (q x : Z) : Prop :=
  between (v_table v) (v_table v + q) x \/ between (backup_table v) (backup_table v + q) x.

(** The flush that began in [s0] has stored [8 * q + i] entries, the last [i] of
    them in the buffer only. *)
Record flushing s0 (q i : Z) (buffer : bytes) s : Prop := {
  fl_range : 0 <= q /\ 0 <= i < 8;
  fl_hush : hush s0 s;
  fl_core : same_core s0 s;
  fl_len : zlen buffer = 512;
  fl_buf : 0 < i -> buf_has (view_of s0) q i buffer;
  fl_master : flushed (view_of s0) (media (dev s)) (v_table (view_of s0)) q;
  fl_back : flushed (view_of s0) (media (dev s)) (backup_table (view_of s0)) q;
  fl_touch : touches (written (view_of s0) q) s0 s
}.

(** A full buffer goes to the disk. *)
Lemma flushing_sector s0 q buffer s s' :
  geom_ok (view_of s0) -> v_reserve (view_of s0) = rs -> 0 <= q < 32 ->
  hush s0 s -> same_core s0 s -> buf_has (view_of s0) q 8 buffer ->
  flushed (view_of s0) (media (dev s)) (v_table (view_of s0)) q ->
  flushed (view_of s0) (media (dev s)) (backup_table (view_of s0)) q ->
  touches (written (view_of s0) q) s0 s -> io s s' ->
  touches (fun y => y = v_table (view_of s0) + q \/ y = backup_table (view_of s0) + q) s s' ->
  media (dev s') (v_table (view_of s0) + q) = buffer ->
  media (dev s') (backup_table (view_of s0) + q) = buffer ->
  flushing s0 (q + 1) 0 buffer s'.
Proof.
  intros Hg Hrs Hq Hh Hc Hbuf Hfm Hfb Ht Hio Ht' Em Eb.
  destruct (geom_nums _ Hg Hrs) as (N1 & N2 & _ & N4 & _ & N6). pose proof Hh as (Ev & _ & _).
  split; try done; try lia.
  - eapply hush_trans; [exact Hh|]. eapply hush_io; [done|exact Ht'|]. intros x. rewrite Ev. layout.
    rewrite Hrs. lia.
  - eapply same_core_trans; [exact Hc|by apply same_core_io].
  - apply Hbuf.
  - eapply flushed_step; [lia|exact Hfm| |by rewrite Em]. intros x Hx. apply Ht'. unfold between in Hx. lia.
  - eapply flushed_step; [lia|exact Hfb| |by rewrite Eb]. intros x Hx. apply Ht'. unfold between in Hx. lia.
  - intros x Hx. unfold written, between in *. rewrite Ht', Ht by lia. done.
Qed.

(** One entry more in the buffer. *)
Lemma flushing_entry s0 q i buffer p e s :
  maps_ok (view_of s0) -> flushing s0 q i buffer s -> v_list (view_of s0) !! Z.to_nat (8 * q + i) = Some p ->
  infos s !! p = Some e -> 0 <= v_table (view_of s0) + q < 2 ^ 64 ->
  let t := table_with_save (v_table (view_of s0) + q) (table e) in
  table_wf t /\
  buf_has (view_of s0) q (i + 1)
    (splice (i * sizeof_swap_table) (encode_table t)
       (if i =? 0 then fill SECTOR_SIZE Byte.x00 else buffer)).
Proof.
  intros Hm [[Hq Hi] (Ev & _ & _) _ Hl Hb _ _ _] Hp He Hr t.
  assert (v_infos (view_of s0) !! p = Some (erase_save e)) as Hv by (by rewrite <- Ev, view_lookup, He).
  destruct (mo_infos _ Hm p) as (j & Hj & Hok); [by eapply list_elem_of_lookup_2|].
  rewrite Hv in Hj. injection Hj as <-.
  assert (table_wf t) as Ht.
  { destruct (io_table _ _ Hok) as (?&?&?&?&?&?&?&?&?). unfold table_wf, t, table_with_save.
    cbn [src_sec swap_sec sec_size retrys index reserverd checksum save_sec]. cbn in *. split_and!; try lia; done. }
  split; [done|]. change (i * sizeof_swap_table) with (i * 64). rewrite (Z.mul_comm i 64).
  apply buf_has_store; [|done|done|].
  - destruct (Z.eqb_spec i 0) as [->|]; [apply buf_has_zero|apply Hb; lia].
  - unfold tab_of. rewrite Hp. change (Some (table_with_save 0 t) = table <$> v_infos (view_of s0) !! p). rewrite Hv. done.
Qed.

Lemma wp_flush_entries_sound s0 l : forall pre q i buffer s,
  maps_ok (view_of s0) -> v_reserve (view_of s0) = rs -> v_list (view_of s0) = pre ++ l ->
  zlen pre = 8 * q + i -> flushing s0 q i buffer s ->
  wp (flush_entries l i (v_table (view_of s0) + q) (backup_table (view_of s0) + q) buffer)
     (fun x s' => exists q' i' buf', zlen (v_list (view_of s0)) = 8 * q' + i' /\
        x = (i', v_table (view_of s0) + q', backup_table (view_of s0) + q', buf') /\
        flushing s0 q' i' buf' s') s.
Proof.
  induction l as [|p l IH]; intros pre q i buffer s Hm Hrs El Hlen Hfl; cbn [flush_entries].
  { kstep. exists q, i, buffer. rewrite El, app_nil_r. done. }
  pose proof (mo_geom _ Hm) as Hg. destruct (geom_nums _ Hg Hrs) as (N1 & N2 & _ & N4 & _ & N6).
  pose proof (fl_range _ _ _ _ _ Hfl) as [Hq Hi]. pose proof (fl_hush _ _ _ _ _ Hfl) as Hh.
  pose proof Hh as (Ev & _ & _).
  assert (8 * q + i < 256) as Hmax.
  { pose proof (mo_len _ Hm) as Hmx. rewrite El, zlen_app, zlen_cons in Hmx.
    pose proof (zlen_nonneg l). lia. }
  assert (v_list (view_of s0) !! Z.to_nat (8 * q + i) = Some p) as Hp.
  { rewrite El. rewrite list_lookup_middle; [done|]. unfold zlen in Hlen. lia. }
  destruct (mo_infos _ Hm p) as (j & Hj & Hok); [by eapply list_elem_of_lookup_2|].
  kstep. eapply wp_get_info_v; [rewrite Ev; exact Hj|]. intros e He _.
  unfold MAX_RESERVED_SECTOR, SECTOR_1M in N2.
  destruct (flushing_entry s0 q i buffer p e s Hm Hfl Hp He ltac:(lia)) as [Ht Hbuf].
  kstep. unfold set_info. kstep. set (t := table_with_save _ (table e)) in *. set (s1 := set_infos _ s).
  assert (hush s0 s1) as Hh1 by (eapply hush_trans; [exact Hh|by apply hush_save]).
  assert (same_core s0 s1) as Hc1 by (exact (fl_core _ _ _ _ _ Hfl)).
  assert (zlen (encode_table t) = 64) as Hl64
    by (apply zlen_encode_table; by destruct Ht as (_&_&_&_&_&?&_)).
  kstep. apply wp_store; [unfold sizeof_swap_table; lia| |].
  { unfold sizeof_swap_table. rewrite Hl64. destruct (i =? 0).
    - rewrite zlen_fill by (unfold SECTOR_SIZE; lia). unfold SECTOR_SIZE. lia.
    - rewrite (fl_len _ _ _ _ _ Hfl). lia. }
  set (buf1 := splice _ _ _) in *.
  assert (v_list (view_of s0) = (pre ++ [p]) ++ l) as El1 by (by rewrite <- app_assoc).
  assert (zlen (pre ++ [p]) = 8 * q + i + 1) as Hlen1
    by (rewrite zlen_app; change (zlen [p]) with 1; lia).
  change (table_num_per_sect - 1) with 7. destruct (Z.eqb_spec i 7) as [->|Hne].
  - pose proof Hh1 as (Ev1 & _ & _). kstep. eapply wp_mono.
    { rewrite <- Ev1. apply wp_flush_sector_sound; rewrite ?Ev1; try done; [apply Hbuf|lia]. }
    cbv beta. rewrite Ev1. intros x s2 (-> & Hio & Ht2 & Em & Eb). cbn [fst snd].
    rewrite <- !Z.add_assoc. apply (IH (pre ++ [p])); try done; [lia|].
    eapply (flushing_sector s0 q buf1 s1); try done; [lia|exact (fl_master _ _ _ _ _ Hfl)|
      exact (fl_back _ _ _ _ _ Hfl)|exact (fl_touch _ _ _ _ _ Hfl)].
  - apply (IH (pre ++ [p])); try done; [lia|].
    destruct Hfl as [? ? ? ? ? Hfm Hfb Hft]. split; try done; [lia|apply Hbuf].
Qed.

Lemma flush_quiet s s' :
  hush s s' -> same_core s s' -> touches (in_tables (view_of s)) s s' -> quietly (in_tables (view_of s)) s s'.
Proof. intros Hh Hc Ht. split_and!; [done|unfold names, geom; by rewrite Hc..|]. apply Hh. Qed.

(** The last sector, which is not full, goes to the disk. *)
Lemma flushing_last s q i buf s1 s2 :
  maps_ok (view_of s) -> v_reserve (view_of s) = rs -> 0 < i -> zlen (v_list (view_of s)) = 8 * q + i ->
  flushing s q i buf s1 -> io s1 s2 ->
  touches (fun y => y = v_table (view_of s) + q \/ y = backup_table (view_of s) + q) s1 s2 ->
  media (dev s2) (v_table (view_of s) + q) = buf -> media (dev s2) (backup_table (view_of s) + q) = buf ->
  hush s s2 /\ quietly (in_tables (view_of s)) s s2 /\
  forall base, base = v_table (view_of s) \/ base = backup_table (view_of s) ->
    (forall n, zlen (v_list (view_of s)) <= n < 256 ->
       sec_size (entry_at (media (dev s)) base n) <> SECTOR_NUM_PER_SWAP_BLOCK) ->
    table_saved (view_of s) (media (dev s2)) base.
Proof.
  intros Hm Hrs Hi0 Hlen [[Hq Hi] Hh Hc Hl Hb Hfm Hfb Ht] Hio Ht2 Em Eb. pose proof (mo_geom _ Hm) as Hg.
  destruct (geom_nums _ Hg Hrs) as (N1 & N2 & _ & N4 & _ & N6). pose proof (mo_len _ Hm) as Hmax.
  pose proof Hh as (Ev & _ & _).
  assert (forall z, ~ written (view_of s) (q + 1) z -> media (dev s2) z = media (dev s) z) as Ht3.
  { intros z Hz. unfold written, between in *. rewrite Ht2, Ht by lia. done. }
  assert (hush s s2) as Hh2.
  { eapply hush_trans; [exact Hh|]. eapply hush_io; [done|exact Ht2|]. intros z. rewrite Ev. layout.
    rewrite Hrs. lia. }
  split_and!; [done| |].
  - apply flush_quiet; [done|eapply same_core_trans; [exact Hc|by apply same_core_io]|].
    intros z Hz. apply Ht3. unfold written, in_tables, between in *. lia.
  - intros base Hbase Htail. eapply (flushed_saved _ (media (dev s)) _ _ q i); try done.
    + intros n Hn. assert (flushed (view_of s) (media (dev s1)) base q) as Hf by (by destruct Hbase as [-> | ->]).
      rewrite <- Hf by done. unfold entry_at. rewrite Ht2; [done|].
      pose proof (Z.div_pos n 8). pose proof (Z.div_lt_upper_bound n 8 q). lia.
    + intros _. destruct Hbase as [-> | ->]; [rewrite Em|rewrite Eb]; by apply Hb.
    + destruct (Z.eqb_spec i 0); [lia|]. intros z Hz. apply Ht3. unfold written, between. lia.
Qed.

Lemma wp_flush_table_sound s :
  maps_ok (view_of s) -> v_reserve (view_of s) = rs ->
  (forall n, zlen (v_list (view_of s)) <= n < 256 ->
     sec_size (entry_at (media (dev s)) (v_table (view_of s)) n) <> SECTOR_NUM_PER_SWAP_BLOCK) ->
  (forall n, zlen (v_list (view_of s)) <= n < 256 ->
     sec_size (entry_at (media (dev s)) (backup_table (view_of s)) n) <> SECTOR_NUM_PER_SWAP_BLOCK) ->
  wp flush_swap_info_table
     (fun ret s' => ret = 0 /\ hush s s' /\ quietly (in_tables (view_of s)) s s' /\
        table_saved (view_of s) (media (dev s')) (v_table (view_of s)) /\
        table_saved (view_of s) (media (dev s')) (backup_table (view_of s))) s.
Proof.
  intros Hm Hrs Htl Htb. pose proof (mo_geom _ Hm) as Hg.
  destruct (geom_nums _ Hg Hrs) as (N1 & N2 & _ & N4 & _ & N6). pose proof (mo_len _ Hm) as Hmax.
  unfold MAX_RESERVED_SECTOR, SECTOR_1M in N2.
  unfold flush_swap_info_table. do 3 kstep.
  assert (u64 (sector_reserve_start (core s) + SWAP_TABLE_BACKUP_OFFSET)
          = backup_table (view_of s) + 0) as ->.
  { change (sector_reserve_start (core s) + SWAP_TABLE_BACKUP_OFFSET) with (backup_table (view_of s)).
    rewrite u64_small; lia. }
  replace (sector_table (core s)) with (v_table (view_of s) + 0) by (cbn; lia).
  eapply wp_mono.
  { apply (wp_flush_entries_sound s _ []); try done.
    split; try done; [apply same_core_refl|intros n Hn; lia|intros n Hn; lia]. }
  cbv beta. intros x s1 (q & i & buf & Hlen & -> & Hfl). pose proof Hfl as [[Hq Hi] Hh Hc Hl Hb Hfm Hfb Ht].
  kstep. destruct (Z.eqb_spec i 0) as [->|Hne]; cbn [negb].
  - kstep. kstep. split_and!; [done|done| | |].
    + apply flush_quiet; [done|done|]. eapply touches_mono; [exact Ht|]. unfold written, in_tables, between. lia.
    + eapply (flushed_saved _ (media (dev s))); try done; try lia. intros y Hy.
      cbn [Z.eqb] in Hy. apply Ht. unfold written, between. lia.
    + eapply (flushed_saved _ (media (dev s))); try done; try lia. intros y Hy.
      cbn [Z.eqb] in Hy. apply Ht. unfold written, between. lia.
  - pose proof Hh as (Ev & _ & _). kstep. eapply wp_mono.
    { rewrite <- Ev. apply wp_flush_sector_sound; rewrite ?Ev; try done. lia. }
    cbv beta. rewrite Ev. intros y s2 (-> & Hio & Ht2 & Em & Eb). do 2 kstep.
    destruct (flushing_last s q i buf s1 s2) as (Hh2 & Hq2 & Htab); try done; [lia|].
    split_and!; [done|done|done|apply Htab; [by left|done]|apply Htab; [by right|done]].
Qed.

(** ** The log *)

Lemma wp_update_data_sound r it s :
  reserve_ok s -> sector_reserve_start (core s) = rs -> ring (log s) = Some r -> ring_wf r ->
  item_cap r = 512 -> item_size r = 32 ->
  log_sector_data (log s) = sector_reserve_start (core s) + SWAP_LOG_DATA_OFFSET ->
  wp (scsi_swap_log_update_data it) (fun ret _ => ret = 0) s.
Proof.
  intros Hres Hrs Er Hwf Hc Hs Hsd. pose proof (push_sector_range r Hwf Hc Hs) as Hps.
  pose proof (pushed_wf r (encode_item it) Hwf) as Hwf'.
  rewrite zlen_encode_item, Hs in Hwf'. specialize (Hwf' eq_refl).
  assert (zlen (buffer (pushed r (encode_item it))) = 16384) as Hblen.
  { rewrite ring_storage by done.
    change (item_cap (pushed r (encode_item it))) with (item_cap r).
    change (item_size (pushed r (encode_item it))) with (item_size r). lia. }
  assert (in_reserve rs (log_sector_data (log s) + push_sector r) 1) as Hin.
  { unfold reserve_ok in Hres. unfold in_reserve. rewrite Hsd. layout. lia. }
  unfold scsi_swap_log_update_data. kstep. apply (wp_get_ring r); [done|].
  kstep. unfold wp at 1. rewrite cspring_push_eq by (done || by rewrite zlen_encode_item).
  unfold upd_ring. do 4 kstep. fold (push_sector r). kstep. unfold SECTOR_SIZE.
  apply wp_load; [lia..|]. cbn [log set_log log_sector_data].
  unfold in_reserve, MAX_RESERVED_SECTOR, SECTOR_1M in Hin. rewrite u64_small by lia.
  eapply wp_mono; [apply wp_write_reserve; [done|done|rewrite zlen_slice; lia]|].
  cbv beta. by intros ret s' (-> & _).
Qed.

Lemma wp_update_head_sound r s :
  reserve_ok s -> sector_reserve_start (core s) = rs -> ring (log s) = Some r ->
  log_sector_head (log s) = sector_reserve_start (core s) + SWAP_LOG_HEAD_OFFSET ->
  wp scsi_swap_log_update_head (fun ret _ => ret = 0) s.
Proof.
  intros Hres Hrs Er Hsh.
  assert (in_reserve rs (log_sector_head (log s)) 1) as Hin.
  { unfold reserve_ok in Hres. unfold in_reserve. rewrite Hsh. layout. lia. }
  unfold scsi_swap_log_update_head. kstep. apply (wp_get_ring r); [done|]. do 2 kstep.
  unfold upd_log_head. do 3 kstep.
  assert (zlen (fill SECTOR_SIZE Byte.x00) = 512) as Hfill by (by apply zlen_fill).
  apply wp_store; [lia|rewrite zlen_encode_log_head; lia|].
  eapply wp_mono; [apply wp_write_reserve; [done|done|]|cbv beta; by intros ret s' (-> & _)].
  rewrite zlen_splice; [done|lia|rewrite zlen_encode_log_head; lia].
Qed.

Lemma log_head_sector_sane (r : cspring) (m : Z -> bytes) :
  ring_wf r -> item_cap r = 512 -> m (rs + SWAP_LOG_HEAD_OFFSET) = log_head_sector (log_head_of r) ->
  log_sane rs m.
Proof.
  intros (_ & Hn & Hx & _) Hc Em. unfold log_sane. rewrite Em. unfold log_head_sector.
  rewrite slice_splice_in by (rewrite ?zlen_encode_log_head, ?zlen_fill; unfold SECTOR_SIZE; lia).
  rewrite Z.sub_diag, slice_last by apply zlen_encode_log_head.
  unfold decode_log_head, encode_log_head, log_head_of. cbn [log_crc log_item_num log_item_next].
  pick_field. intros _.
  rewrite !le_split_combine_small
    by (change (2 ^ (Z.of_nat 2 * 8)) with 65536; unfold u16; apply Z.mod_pos_bound; lia).
  unfold u16. rewrite !Z.mod_small by lia. lia.
Qed.

(** A push leaves a log that can be loaded. *)
Lemma wp_log_push_sound type result src dst count s :
  geom_ok (view_of s) -> v_reserve (view_of s) = rs -> env_ok s ->
  wp (scsi_swap_log_push type result src dst count) (fun _ s' => log_sane rs (media (dev s'))) s.
Proof.
  intros Hg Hrs [_ Hl]. pose proof (geom_reserve_ok _ Hg) as Hres.
  assert (sector_reserve_start (core s) = rs) as Hrs' by (rewrite <- Hrs; done).
  eapply wp_mono with (P := fun ret s' => _ /\ ret = 0); [apply wp_and; [by apply wp_log_push_full|]|].
  - pose proof Hl as (r & Er & Hwf & Hc & Hs & Hsh & Hsd). unfold scsi_swap_log_push.
    kstep. apply (wp_item_init r); [done..|]. set (it := log_item_of _ _ _ _ _ _ _).
    kstep. eapply wp_mono; [apply wp_and; [by apply (wp_update_data r it)|by apply (wp_update_data_sound r it)]|].
    cbv beta. intros ret s1 ((El & Hcio & _) & ->). cbn [Z.eqb].
    kstep. eapply wp_mono; [apply (wp_update_head_sound (pushed r (encode_item it)))|].
    + unfold reserve_ok. by rewrite (core_io_reserve _ _ Hcio).
    + by rewrite (core_io_reserve _ _ Hcio).
    + by rewrite El.
    + rewrite El. cbn. by rewrite (core_io_reserve _ _ Hcio).
    + cbv beta. intros ret s2 ->. cbn [Z.eqb]. by kstep.
  - cbv beta. intros ret s' ((r & it & Er & _ & Er' & Hl' & Hcio & _ & _ & Hm) & Hz).
    destruct (Hm Hz) as [Hh _]. destruct Hl as (r0 & Er0 & _ & _ & _ & Hsh & _).
    destruct Hl' as (r1 & Er1 & Hwf1 & Hc1 & _). rewrite Er' in Er1. injection Er1 as <-.
    eapply (log_head_sector_sane (pushed r (encode_item it))); [done|done|].
    rewrite <- Hrs', <- Hsh. exact Hh.
Qed.
End Flush.
