(* ===== verification/CorePersist.v ===== *)
(** * Requests keep the mapping on the disk

    On a device whose reserved area is sound, every request leaves the medium in a
    state from which a new start rebuilds the mapping ([kept] of CoreDisk.v),
    whatever the user's sectors and the allocator do: the head with the new bit, then
    the data of the block go to the disk before the table names the block. *)

From stdpp Require Import base gmap fin_maps list list_numbers.
From coqutil Require Import Byte Word.LittleEndianList.
From Stdlib Require Import ZArith Lia.
From S2P Require Import Prelude Kapi Crc32 Ring Layout State Scsi SimDisk Log Core CoreInv CoreSpec CoreReq CoreThm CoreInit CoreDisk.

Local Open Scope Z_scope.

(** ** Footprints without preconditions *)

(** If the code returns, then in [Q]; faults are excluded elsewhere. *)
Definition wlp {S A : Type} (m : K S A) (Q : A -> S -> Prop) (s : S) : Prop :=
  match m s with Ok (a, s') => Q a s' | Oops _ => True end.

Section Wlp.
Context {S : Type}.

Lemma wlp_ret {A} (a : A) (Q : A -> S -> Prop) s : Q a s -> wlp (mret a) Q s.
Proof. done. Qed.

Lemma wlp_bind {A B} (m : K S A) (k : A -> K S B) Q s :
  wlp m (fun a s' => wlp (k a) Q s') s -> wlp (m ≫= k) Q s.
Proof. unfold wlp, mbind, K_bind. by destruct (m s) as [[a s']|f]. Qed.

Lemma wlp_mono {A} (m : K S A) (P Q : A -> S -> Prop) s :
  wlp m P s -> (forall a s', P a s' -> Q a s') -> wlp m Q s.
Proof. unfold wlp. destruct (m s) as [[a s']|]; auto. Qed.

Lemma wlp_get (Q : S -> S -> Prop) s : Q s s -> wlp kget Q s.
Proof. done. Qed.

Lemma wlp_mod (f : S -> S) (Q : unit -> S -> Prop) s : Q tt (f s) -> wlp (kmod f) Q s.
Proof. done. Qed.

Lemma wlp_deref {A} f (o : option A) (Q : A -> S -> Prop) s :
  (forall a, o = Some a -> Q a s) -> wlp (kderef f o) Q s.
Proof. destruct o; cbn; [intros HQ; by apply HQ|done]. Qed.

Lemma wlp_store off new buf (Q : bytes -> S -> Prop) s :
  (0 <= off -> off + zlen new <= zlen buf -> Q (splice off new buf) s) -> wlp (kstore off new buf) Q s.
Proof.
  intros HQ. unfold wlp, kstore. destruct (in_range _ _ _) eqn:E; [|done].
  apply in_range_spec in E. apply HQ; lia.
Qed.

Lemma wlp_load off len buf (Q : bytes -> S -> Prop) s :
  (0 <= off -> 0 <= len -> off + len <= zlen buf -> Q (slice off len buf) s) ->
  wlp (kload off len buf) Q s.
Proof.
  intros HQ. unfold wlp, kload. destruct (in_range _ _ _) eqn:E; [|done].
  apply in_range_spec in E. apply HQ; lia.
Qed.

Lemma wp_wlp {A} (m : K S A) Q s : wp m Q s -> wlp m Q s.
Proof. unfold wp, wlp. by destruct (m s) as [[a s']|]. Qed.

(** Total correctness and a footprint. *)
Lemma wp_with {A} (m : K S A) P Q s : wp m P s -> wlp m Q s -> wp m (fun a s' => P a s' /\ Q a s') s.
Proof. unfold wp, wlp. destruct (m s) as [[a s']|]; auto. Qed.
End Wlp.

Section WlpInfo.
Context {D : Type}.
Implicit Types s : st D.

Lemma wlp_get_info p (Q : swap_info -> st D -> Prop) s :
  (forall i, infos s !! p = Some i -> Q i s) -> wlp (get_info p) Q s.
Proof. intros HQ. unfold get_info. apply wlp_bind, wlp_get, wlp_deref. exact HQ. Qed.

Lemma wlp_set_info p i (Q : unit -> st D -> Prop) s :
  Q tt (set_infos (<[p := i]> (infos s)) s) -> wlp (set_info p i) Q s.
Proof. done. Qed.

Lemma wlp_free_info p (Q : unit -> st D -> Prop) s :
  Q tt (set_infos (delete p (infos s)) s) -> wlp (free_info p) Q s.
Proof. done. Qed.
End WlpInfo.

(** One step of symbolic execution, as [kstep]. *)
Ltac pstep :=
  lazymatch goal with
  | |- wlp (mbind _ _) _ _ => apply wlp_bind
  | |- wlp (mret _) _ _ => apply wlp_ret
  | |- wlp kget _ _ => apply wlp_get
  | |- wlp (kmod _) _ _ => apply wlp_mod
  | |- wlp (kderef _ _) _ _ => apply wlp_deref
  | |- wlp (kstore _ _ _) _ _ => apply wlp_store
  | |- wlp (kload _ _ _) _ _ => apply wlp_load
  | |- wlp (get_info _) _ _ => apply wlp_get_info
  | |- wlp (set_info _ _) _ _ => apply wlp_set_info
  | |- wlp (free_info _) _ _ => apply wlp_free_info
  end; cbv beta.

(** The replacement blocks that are free. *)
Definition free_area (v : view) (x : Z) : Prop :=
  exists k, 0 <= k < 1024 /\ bit_of (v_bitmap v) k = false /\
            between (v_data v + 128 * k) (v_data v + 128 * k + 128) x.

(** What creating a mapping writes before the head. *)
Definition made (v : view) (x : Z) : Prop := free_area v x \/ log_area (v_reserve v) x.

Section Create.
Context {D : Type} {rs : Z} `{SoundReserve D rs}.
Implicit Types s : st D.

Lemma wlp_kmalloc n R s (Q : option bytes -> st D -> Prop) :
  (forall o s', quietly R s s' -> view_of s' = view_of s -> Q o s') -> wlp (kmalloc n) Q s.
Proof.
  intros HQ. unfold wlp, kmalloc, st_alloc. destruct (kmem s) as [|[f|] rest]; by apply HQ.
Qed.

Lemma wp_set_bit_quiet n val s :
  0 <= n < 1024 -> env_ok s -> wp (set_bit n val) (fun _ s' => quietly nowhere s s') s.
Proof.
  intros Hn He. eapply wp_mono; [apply wp_with; [by apply wp_set_bit|]|].
  - unfold set_bit. destruct (_ && _); [|done]. unfold upd_head.
    instantiate (1 := fun _ s' => names s' = names s /\ geom s' = geom s). done.
  - cbv beta. intros _ s' ((Hb & _ & Ed & _) & Hnm & Hgm).
    split_and!; [intros x _; by rewrite Ed|done|done|apply Hb].
Qed.

(** *** The search for a free block *)

Lemma wlp_check_block k s :
  geom_ok (view_of s) -> 0 <= k < 1024 ->
  wlp (swap_check_block (u64 (sector_data (core s) + SECTOR_NUM_PER_SWAP_BLOCK * k)))
      (fun _ s' => quietly (between (v_data (view_of s) + 128 * k) (v_data (view_of s) + 128 * k + 128)) s s')
      s.
Proof.
  intros Hg Hk. unfold swap_check_block. pstep. eapply (wlp_kmalloc _ nowhere).
  intros [b|] s1 Hq1 Ev1; [|pstep; by eapply quietly_mono].
  assert (0 <= v_data (view_of s) < 2 ^ 32 - 2 ^ 20) as Hd by (layout; lia).
  change (sector_data (core s)) with (v_data (view_of s)). change SECTOR_NUM_PER_SWAP_BLOCK with 128.
  pstep. apply wp_wlp. rewrite u64_small by lia. unfold hd_write_sector_retry.
  eapply wp_mono; [apply wp_hd_write; [lia|lia|done|by apply zlen_fill]|].
  cbv beta. intros ret s2 (Hio & Ht & _).
  assert (quietly (between (v_data (view_of s) + 128 * k) (v_data (view_of s) + 128 * k + 128)) s s2).
  { eapply quietly_trans; [eapply quietly_mono; [exact Hq1|by intros x []]|]. by apply quietly_io. }
  by destruct (negb (ret =? 0)); pstep.
Qed.

Lemma free_area_grow s s' x :
  bits_grow s s' -> geom s' = geom s -> free_area (view_of s') x -> free_area (view_of s) x.
Proof.
  intros Hg Eg (k & Hk & Hf & Hx). exists k. split_and!; try done; try lia.
  - destruct (bit_of (v_bitmap (view_of s)) k) eqn:E; [|done].
    rewrite (Hg k) in Hf; [done|lia|done].
  - unfold v_data in *. cbn [view_of v_geom] in *. by rewrite Eg in Hx.
Qed.

Lemma wp_alloc_loop_quiet fuel : forall k err_cnt s,
  geom_ok (view_of s) -> env_ok s -> 0 <= k < 1024 -> bit_of (v_bitmap (view_of s)) k = false ->
  0 <= err_cnt <= 16 -> 17 - err_cnt <= Z.of_nat fuel ->
  wp (alloc_block_loop fuel k err_cnt) (fun _ s' => quietly (free_area (view_of s)) s s') s.
Proof.
  induction fuel as [|f IH]; intros k err_cnt s Hg He Hk Hb Herr Hf; [lia|].
  cbn [alloc_block_loop]. do 3 kstep. eapply wp_mono.
  { apply wp_with; [by apply wp_check_block|by apply wlp_check_block]. }
  cbv beta. intros ret s1 (Hh1 & Hq1). pose proof Hh1 as (Ev1 & He1 & _). specialize (He1 He).
  assert (quietly (free_area (view_of s)) s s1) as Hf1.
  { eapply quietly_mono; [exact Hq1|]. intros x Hx. by exists k. }
  assert (wp (set_bit k 1) (fun _ s2 => (bg s1 s2 /\ bits_grow s s2) /\
            quietly (free_area (view_of s)) s s2) s1) as Hset.
  { eapply wp_mono; [apply wp_and; [by apply wp_set_bit|by apply wp_set_bit_quiet]|].
    cbv beta. intros _ s2 ((Hb2 & _ & _ & _ & Hbits) & Hq2). rewrite Ev1 in Hbits. split_and!; [done| |].
    - intros n Hn Hbn. rewrite Hbits by done. by case_decide.
    - eapply quietly_trans; [exact Hf1|]. eapply quietly_mono; [exact Hq2|by intros x []]. }
  destruct (ret =? 0).
  { kstep. eapply wp_mono; [exact Hset|]. cbv beta. intros _ s2 (_ & Hq2). by kstep. }
  destruct (Z.leb_spec 16 err_cnt).
  { unfold inc_device_dead. do 3 kstep. eapply quietly_trans; [exact Hf1|].
    by split_and!. }
  kstep. eapply wp_mono; [exact Hset|]. cbv beta. intros _ s2 ((Hb2 & Hgr) & Hq2). do 2 kstep.
  pose proof (first_zero_bit_spec (head (core s2))) as Hz. cbv zeta in Hz.
  set (k' := swap_head_bitmap_get_first_zero_bit _) in *.
  change (bitmap (head (core s2))) with (v_bitmap (view_of s2)) in Hz.
  destruct (Z.eqb_spec k' (-1)) as [E|E]; [by kstep|].
  destruct Hz as [[? _]|(Hk' & Hz & _)]; [done|].
  pose proof Hq2 as (_ & _ & Eg2 & He2).
  eapply wp_mono; [apply IH; try done; try lia; [|by apply He2]|].
  - eapply geom_ok_eq; [|exact Hg]. exact Eg2.
  - cbv beta. intros r s3 Hq3. eapply quietly_trans; [exact Hq2|].
    eapply quietly_mono; [exact Hq3|]. intros x. by apply free_area_grow.
Qed.

Lemma wp_alloc_quiet s :
  geom_ok (view_of s) -> env_ok s ->
  wp _swap_alloc_new_block (fun _ s' => quietly (free_area (view_of s)) s s') s.
Proof.
  intros Hg He. unfold _swap_alloc_new_block. do 2 kstep.
  pose proof (first_zero_bit_spec (head (core s))) as Hz. cbv zeta in Hz.
  set (k := swap_head_bitmap_get_first_zero_bit _) in *.
  destruct (Z.eqb_spec k (-1)) as [E|E]; [by kstep|].
  destruct Hz as [[? _]|(Hk & Hz & _)]; [done|]. apply wp_alloc_loop_quiet; try done; lia.
Qed.

(** *** A new mapping *)

Lemma quietly_nowhere R s s' : quietly nowhere s s' -> quietly R s s'.
Proof. intros Hq. eapply quietly_mono; [exact Hq|]. by intros x []. Qed.

Lemma quietly_infos R m s : quietly R s (set_infos m s).
Proof. by apply quietly_core. Qed.

Lemma wlp_info_read p off sector n s :
  0 <= sector < 2 ^ 32 -> 0 <= n < 2 ^ 16 ->
  wlp (info_read hd_read_sector_no_retry p off sector n)
      (fun _ s' => quietly nowhere s s' /\ v_bitmap (view_of s') = v_bitmap (view_of s)) s.
Proof.
  intros Hs Hn. unfold info_read. do 2 pstep. intros i _. destruct (data i) as [d|].
  - pstep. pstep. intros Ho Hl Hfit. pstep. apply wp_wlp. unfold hd_read_sector_no_retry.
    eapply wp_mono.
    { apply wp_hd_read; [done|done|unfold SECTOR_SIZE; lia|apply zlen_slice; lia]. }
    cbv beta. intros x s1 (Hio & Ht & _). pstep. pstep. intros _ _. do 3 pstep.
    split; [|by rewrite <- (io_view _ _ Hio)].
    eapply quietly_trans; [by apply quietly_io|apply quietly_infos].
  - destruct (off =? 0); [|done]. unfold hd_read_sector_no_retry, hd_read_sector. do 3 pstep. done.
Qed.

Lemma wlp_alloc_info s :
  wlp _swap_alloc_info
      (fun _ s' => quietly nowhere s s' /\ v_bitmap (view_of s') = v_bitmap (view_of s)) s.
Proof.
  unfold _swap_alloc_info. pstep. apply (wlp_kmalloc _ nowhere). intros [b|] s1 Hq1 Ev1.
  2: { pstep. by rewrite Ev1. }
  do 2 pstep. set (p := fresh _). do 3 pstep. eapply (wlp_kmalloc _ nowhere).
  intros o s2 Hq2 Ev2.
  assert (v_bitmap (view_of s2) = v_bitmap (view_of s)) as Eb by (by rewrite Ev2, <- Ev1).
  destruct o as [d|].
  - do 3 pstep. split; [|exact Eb].
    eapply quietly_trans; [exact Hq1|]. eapply quietly_trans; [apply quietly_infos|].
    eapply quietly_trans; [exact Hq2|apply quietly_infos].
  - do 3 pstep. split; [|exact Eb].
    eapply quietly_trans; [exact Hq1|]. eapply quietly_trans; [apply quietly_infos|].
    eapply quietly_trans; [exact Hq2|apply quietly_infos].
Qed.

Lemma wlp_swap_create_inner p src off len s :
  geom_ok (view_of s) -> env_ok s -> user_sector (view_of s) src -> 0 <= off -> 0 <= len ->
  off + len <= 128 ->
  wlp (_swap_create p src off len) (fun _ s' => quietly (free_area (view_of s)) s s') s.
Proof.
  intros Hg He Hu Ho Hl Hfit. unfold _swap_create. pstep. apply wp_wlp.
  eapply wp_mono; [by apply wp_alloc_quiet|]. cbv beta. intros ix s1 Hq1.
  destruct (ix =? -1); [by pstep|]. change SECTOR_NUM_PER_SWAP_BLOCK with 128.
  rewrite (proj2 (Z.ltb_ge 128 (off + len))) by lia.
  assert (v_reserve (view_of s) < 2 ^ 32 - 2 ^ 20) as Hrs by (layout; lia). unfold user_sector in Hu.
  pstep. apply wlp_mono with (P := fun _ s2 => quietly (free_area (view_of s)) s s2).
  { destruct (Z.ltb_spec 0 off); [|by pstep]. pstep.
    eapply wlp_mono; [apply wlp_info_read; lia|]. cbv beta. intros _ s2 (Hq2 & _). pstep.
    eapply quietly_trans; [exact Hq1|by apply quietly_nowhere]. }
  cbv beta. intros _ s2 Hq2. pstep.
  apply wlp_mono with (P := fun _ s3 => quietly (free_area (view_of s)) s s3).
  { destruct (Z.ltb_spec 0 (128 - (off + len))); [|by pstep]. pstep. rewrite u64_small by lia.
    eapply wlp_mono; [apply wlp_info_read; lia|]. cbv beta. intros _ s3 (Hq3 & _). pstep.
    eapply quietly_trans; [exact Hq2|by apply quietly_nowhere]. }
  cbv beta. intros _ s3 Hq3. do 4 pstep. intros i _. do 3 pstep.
  eapply quietly_trans; [exact Hq3|apply quietly_infos].
Qed.

Lemma wp_log_quiet type result src dst count s :
  geom_ok (view_of s) -> v_reserve (view_of s) = rs -> env_ok s ->
  wp (scsi_swap_log_push type result src dst count)
     (fun _ s' => (quietly (log_area (v_reserve (view_of s))) s s' /\ hush s s') /\
        log_sane rs (media (dev s'))) s.
Proof.
  intros Hg Hrs He0. apply wp_and; [|by apply wp_log_push_sound]. destruct He0 as [Hh Hl].
  eapply wp_mono; [apply wp_log_push; [by apply geom_reserve_ok|done]|].
  cbv beta. intros ret s' (Hl' & [Hc Hi] & Ht).
  assert (env_ok s -> env_ok s') as He by (intros _; split; [by rewrite Hc|done]).
  split; split_and!; try done.
  - unfold names. by rewrite Hc.
  - unfold geom. by rewrite Hc.
  - by apply core_io_view.
  - eapply touches_mono; [exact Ht|]. intros x Hx. by apply reserved_log.
Qed.

(** What [swap_create] did to the disk: nothing but free blocks and the log changed,
    and, when there is a new mapping, the head, which now knows its block. *)
Definition create_disk s (o : option ptr) s' : Prop :=
  log_sane rs (media (dev s')) /\
  match o with
  | None => quietly (made (view_of s)) s s'
  | Some _ =>
      quietly (fun x => made (view_of s) x \/ head_pair (view_of s) x) s s' /\
      exists h, media (dev s') (v_head (view_of s)) = encode_head (signed_head h) /\
        head_wf h /\ bitmap h = v_bitmap (view_of s') /\
        (head_string h, status h, version h) = names s
  end.

Lemma wlp_create_none start count reason s s1 :
  geom_ok (view_of s) -> v_reserve (view_of s) = rs -> env_ok s -> quietly (free_area (view_of s)) s s1 ->
  wlp (swap_create_out None start count reason) (create_disk s) s1.
Proof.
  intros Hg Hr He Hq. pose proof Hq as (_ & _ & Eg & He1). unfold swap_create_out. pstep. apply wp_wlp.
  assert (v_geom (view_of s1) = v_geom (view_of s)) as Eg' by exact Eg.
  assert (geom_ok (view_of s1)) as Hg1 by (by eapply geom_ok_eq).
  eapply wp_mono; [apply wp_log_quiet; [exact Hg1| |by apply He1]|].
  { rewrite <- Hr. unfold v_reserve. by rewrite Eg'. }
  cbv beta. intros _ s2 ((Hq2 & _) & Hl2). pstep. split; [done|].
  eapply quietly_trans; (eapply quietly_mono; [eassumption|]); intros x Hx; [by left|right].
  unfold v_reserve in *. by rewrite Eg' in Hx.
Qed.

(** The end of [swap_create]: the head is flushed, the event is logged. *)
Lemma wlp_create_flush p start count s s2 :
  geom_ok (view_of s) -> v_reserve (view_of s) = rs -> env_ok s -> quietly (free_area (view_of s)) s s2 ->
  wlp (ret ← flush_swap_head;
       if negb (ret =? 0) then
         i ← get_info p;
         set_bit (s32 (index (table i))) 0;;
         _swap_dealloc_info (Some p);;
         swap_create_out None start count LOG_FAILED_CREATE_FLUSH_HEAD
       else swap_create_out (Some p) start count (-1)) (create_disk s) s2.
Proof.
  intros Hg Hrs He Hq2.
  pose proof Hq2 as (_ & En2 & Eg2 & He2). specialize (He2 He).
  assert (v_geom (view_of s2) = v_geom (view_of s)) as Eg2' by exact Eg2.
  assert (geom_ok (view_of s2)) as Hg2 by (by eapply geom_ok_eq).
  pstep. apply wp_wlp. eapply wp_mono.
  { apply wp_flush_head_sound; [done| |by apply He2]. unfold v_reserve in *. by rewrite Eg2'. }
  cbv beta. intros r3 s3 (-> & Hh3 & _ & Hq3 & Hm3). cbn [Z.eqb negb]. pose proof Hh3 as (Ev3 & _ & _).
  assert (quietly (fun x => made (view_of s) x \/ head_pair (view_of s) x) s s3) as Hq03.
  { eapply quietly_trans; (eapply quietly_mono; [eassumption|]); intros x Hx.
    - left. by left.
    - right. unfold head_pair, v_head in *. by rewrite Eg2' in Hx. }
  unfold swap_create_out. do 2 pstep. intros i _. pstep. apply wp_wlp.
  assert (v_geom (view_of s3) = v_geom (view_of s)) as Eg3 by (by rewrite Ev3).
  eapply wp_mono; [apply wp_log_quiet; [by eapply geom_ok_eq| |by apply Hq03]|].
  { rewrite <- Hrs. unfold v_reserve. by rewrite Eg3. }
  cbv beta. intros _ s4 ((Hq4 & (Ev4 & _ & _)) & Hl4). pstep. unfold v_reserve in Hq4. rewrite Eg3 in Hq4.
  split_and!; [done|..].
  - eapply quietly_trans; [exact Hq03|]. eapply quietly_mono; [exact Hq4|]. intros x Hx. left. by right.
  - exists (head (core s2)). split_and!; [|apply He2| |exact En2].
    + pose proof Hq4 as (Ht4 & _). unfold v_head in *. rewrite Eg2' in Hm3. rewrite Ht4; [exact Hm3|].
      destruct (geom_nums _ Hg Hrs) as (_ & _ & N3 & _). unfold v_head in N3.
      unfold log_area, between, LOG_MAX_SECTOR_NUM. layout. unfold v_reserve in Hrs. rewrite Hrs. lia.
    + by rewrite Ev4, Ev3.
Qed.

Lemma wlp_swap_create start count s :
  geom_ok (view_of s) -> v_reserve (view_of s) = rs -> env_ok s -> user_sector (view_of s) start ->
  in_block start count -> wlp (swap_create start count) (create_disk s) s.
Proof.
  intros Hg Hrs He Hu (Hc & Hin). unfold swap_create. do 2 pstep.
  destruct (align_spec start) as [Hal Hmod]. change SECTOR_NUM_PER_SWAP_BLOCK with 128 in Hal.
  assert (0 <= SWAP_SECTOR_ALIGN start) as Hal0.
  { unfold SWAP_SECTOR_ALIGN, SWAP_BLOCK_SECTOR, SWAP_BLOCK_INDEX, SECTOR_NUM_PER_SWAP_BLOCK.
    unfold user_sector in Hu. pose proof (Z.div_pos start 128). lia. }
  destruct (MAX_SWAP_BLOCK_FOR_USE <=? info_num (core s)); [by apply wlp_create_none|].
  pstep. eapply wlp_mono; [apply wlp_alloc_info|]. cbv beta. intros [p|] s1 (Hq1 & Eb1).
  2: { apply wlp_create_none; [done|done|done|]. by apply quietly_nowhere. }
  pose proof Hq1 as (_ & _ & Eg1 & He1). specialize (He1 He).
  assert (v_geom (view_of s1) = v_geom (view_of s)) as Eg1' by exact Eg1.
  assert (geom_ok (view_of s1)) as Hg1 by (by eapply geom_ok_eq).
  assert (forall x, free_area (view_of s1) x -> free_area (view_of s) x) as Hfree.
  { unfold free_area, v_data. rewrite Eb1, Eg1'. done. }
  unfold user_sector in Hu. pose proof (geom_nums _ Hg Hrs) as (N1 & N2 & _).
  unfold MAX_RESERVED_SECTOR, SECTOR_1M in N2.
  rewrite !s32_small by lia. pstep. eapply wlp_mono.
  { apply wlp_swap_create_inner; try done; try lia. unfold user_sector, v_reserve in *. rewrite Eg1'. lia. }
  cbv beta. intros ret s2 Hq12.
  assert (quietly (free_area (view_of s)) s s2) as Hq2.
  { eapply quietly_trans; [by apply quietly_nowhere|]. by eapply quietly_mono. }
  destruct (negb (ret =? 0)).
  { pstep. unfold _swap_dealloc_info. pstep. apply wlp_create_none; [done|done|done|].
    eapply quietly_trans; [exact Hq2|apply quietly_infos]. }
  by apply wlp_create_flush.
Qed.
End Create.

(** ** The saved state under changes *)

Section Keep.
Context {D : Type} {rs : Z} `{SoundReserve D rs}.
Implicit Types (s : st D) (v : view).

(** Where the parts of the saved state lie. *)
Lemma head_block_range v j :
  geom_ok v -> v_reserve v = rs -> 0 <= j < 128 -> rs + 16384 <= head_block v j < rs + 32641.
Proof. intros Hg Hr Hj. unfold head_block. layout. lia. Qed.

Lemma listed_block v p i x :
  maps_ok v -> v_reserve v = rs -> p ∈ v_list v -> v_infos v !! p = Some i -> in_block_of i x ->
  swap_sec (table i) = rs + 49152 + 128 * index (table i) /\ 0 <= index (table i) < 1024 /\
  rs + 49152 <= x < rs + 180224.
Proof.
  intros Hm Hr Hp Hi Hx. destruct (mo_infos _ Hm p Hp) as (j & Hj & Hok).
  rewrite Hi in Hj. injection Hj as <-. destruct (geom_nums _ (mo_geom _ Hm) Hr) as (_&_&_&_&N5&_).
  pose proof (info_index _ _ Hok). pose proof (io_swap _ _ Hok) as E. rewrite N5 in E.
  unfold in_block_of, between, SECTOR_NUM_PER_SWAP_BLOCK in *. lia.
Qed.

Lemma tables_range v x :
  geom_ok v -> v_reserve v = rs -> in_tables v x ->
  rs + 32768 <= x < rs + 32800 \/ rs + 2080768 <= x < rs + 2080800.
Proof.
  intros Hg Hr. destruct (geom_nums _ Hg Hr) as (_&_&_&N4&_&N6). unfold in_tables, between. lia.
Qed.

Lemma made_not_precious v x :
  maps_ok v -> bits_ok v -> v_reserve v = rs -> made v x -> ~ precious v x.
Proof.
  intros Hm Hb Hr Hx Hp. pose proof (mo_geom _ Hm) as Hg.
  destruct (geom_nums _ Hg Hr) as (_&_&_&_&N5&_).
  assert (rs + 49152 <= x < rs + 180224 \/ rs + 2064384 <= x < rs + 2080768) as Hxr.
  { destruct Hx as [(k & Hk & _ & Hx)|Hx]; [unfold between in Hx; lia|].
    revert Hx. unfold log_area, between, LOG_MAX_SECTOR_NUM. layout. rewrite Hr. lia. }
  destruct Hp as [(j & Hj & ->)|[Ht|(p & i & Hp & Hi & Hin)]].
  - pose proof (head_block_range v j Hg Hr Hj). lia.
  - pose proof (tables_range v x Hg Hr Ht). lia.
  - destruct (listed_block _ _ _ _ Hm Hr Hp Hi Hin) as (Es & Hix & Hxd).
    pose proof (bo_set _ Hb p i Hp Hi) as Hset.
    destruct Hx as [(k & Hk & Hf & Hx)|Hx].
    + assert (k = index (table i)) as -> by (unfold in_block_of, between in *; lia). congruence.
    + revert Hx. unfold log_area, between, LOG_MAX_SECTOR_NUM. layout. rewrite Hr. lia.
Qed.

Lemma head_not_elsewhere v m :
  maps_ok v -> v_reserve v = rs -> saved v m ->
  (forall x, in_tables v x -> x <> v_head v) /\
  (forall p i x, p ∈ v_list v -> v_infos v !! p = Some i -> in_block_of i x -> x <> v_head v) /\
  (forall x, head_pair v x -> precious v x -> x = v_head v).
Proof.
  intros Hm Hr Hs. pose proof (mo_geom _ Hm) as Hg. destruct (sv_place _ _ Hs) as (i & Hi & Eh & _).
  pose proof (head_block_range v i Hg Hr Hi) as Hh. rewrite <- Eh in Hh. split_and!.
  - intros x Hx. pose proof (tables_range v x Hg Hr Hx). lia.
  - intros p j x Hp Hj Hx. destruct (listed_block _ _ _ _ Hm Hr Hp Hj Hx) as (_ & _ & ?). lia.
  - intros x [->| ->]; [done|]. unfold SWAP_HEAD_BACKUP_OFFEST.
    intros [(j & Hj & E)|[Ht|(p & j & Hp & Hj & Hin)]].
    + rewrite Eh in E. unfold head_block in E. lia.
    + pose proof (tables_range v _ Hg Hr Ht). rewrite Eh in *. unfold head_block in *. layout. lia.
    + destruct (listed_block _ _ _ _ Hm Hr Hp Hj Hin) as (_ & _ & ?). rewrite Eh in *.
      unfold head_block in *. layout. lia.
Qed.

(** Changes that leave the saved state alone. *)
Lemma quietly_saved (R : Z -> Prop) s s' :
  kept rs s -> quietly R s s' -> (forall x, R x -> ~ precious (view_of s) x) ->
  saved (view_of s) (media (dev s')) /\ named s'.
Proof.
  intros [(He & Hm & Hn) Hb Hr Hnm Hs _] (Ht & En & _) HR. split; [|by eapply named_names].
  eapply saved_frame; [apply (mo_len _ Hm)| |exact Hs]. intros x Hx. apply Ht. intros HRx. by apply (HR x).
Qed.

Lemma quietly_log (R : Z -> Prop) s s' :
  quietly R s s' -> ~ R (rs + SWAP_LOG_HEAD_OFFSET) -> log_sane rs (media (dev s)) ->
  log_sane rs (media (dev s')).
Proof. intros (Ht & _) HR. apply log_sane_frame. by apply Ht. Qed.

(** After [swap_create]: the old mapping is still on the disk, and the head knows
    the new block. *)
Lemma created_saved s o src s' :
  kept rs s -> created s o src s' -> create_disk (rs := rs) s o s' ->
  saved (view_of s') (media (dev s')) /\ named s' /\ log_sane rs (media (dev s')) /\
  match o with
  | None => True
  | Some p => forall n, 0 <= n -> bit_of (v_bitmap (view_of s')) n = true ->
                bit_of (bitmap (decode_head (media (dev s') (v_head (view_of s'))))) n = true
  end.
Proof.
  intros Hk Hcr [Hlog Hd]. pose proof Hk as [(He & Hm & Hn) Hb Hr Hnm Hs _]. destruct o as [p|].
  - destruct Hcr as (Hnone & Hp & Hg & _). pose proof (maps_ok_unlisted _ _ Hm Hnone) as Hpl.
    destruct Hd as ((Ht & En & _ & _) & h & Eh & Hwf & Ebm & Enm).
    destruct (head_not_elsewhere _ _ Hm Hr Hs) as (Hh1 & Hh2 & Hh3).
    pose proof (signed_head_wf _ Hwf) as Hwf'.
    assert (decode_head (media (dev s') (v_head (view_of s))) = signed_head h) as Edec
      by (rewrite Eh; by apply decode_encode_head).
    assert (v_geom (view_of s') = v_geom (view_of s)) as Egm by (by eapply priv_geom).
    assert (v_head (view_of s') = v_head (view_of s)) as Evh by (unfold v_head; by rewrite Egm).
    split_and!; [|by eapply named_names|done|].
    + eapply saved_ext; [exact Egm|by eapply priv_list| |].
      { intros q Hq. eapply priv_lookup; [exact Hp|]. intros E. apply Hpl. rewrite <- E. exact Hq. }
      eapply saved_frame_head; [apply (mo_len _ Hm)| | | |exact Hh1|exact Hh2|exact Hs].
      * intros x Hx Hne. apply Ht. intros [Hmd|Hpair].
        -- by eapply (made_not_precious (view_of s)).
        -- apply Hne. by apply Hh3.
      * rewrite Edec. apply signed_head_ok; [done|..];
          unfold names in Enm; injection Enm as E1 E2 _; destruct Hnm as (A1 & A2 & A3);
          unfold swap_head_exist, swap_head_invalid, swap_head_valid in *; congruence.
      * intros q i Hq Hi. rewrite Edec. cbn [bitmap signed_head head_with_checksum]. rewrite Ebm.
        apply Hg; [|by eapply (bo_set _ Hb)].
        destruct (mo_infos _ Hm q Hq) as (j & Hj & Hok). rewrite Hi in Hj. injection Hj as <-.
        apply (info_index _ _ Hok).
    + intros n Hn0 Hbn. rewrite Evh, Edec. cbn [bitmap signed_head head_with_checksum]. by rewrite Ebm.
  - destruct Hcr as [(Ev & _) Hg].
    destruct (quietly_saved (made (view_of s)) s s' Hk Hd) as [Hs' Hn'].
    { intros x Hx. by apply made_not_precious. }
    split_and!; [|done|done|done]. eapply saved_ext; [..|exact Hs']; by rewrite Ev.
Qed.

(** A mapping is added: the table names it, its block holds its data, the head
    knows the block. *)
Lemma saved_add v p i d m m' :
  maps_ok v -> v_reserve v = rs -> saved v m -> v_infos v !! p = Some i -> data i = Some d ->
  bit_of (bitmap (decode_head (m (v_head v)))) (index (table i)) = true ->
  src_sec (table i) < v_reserve v ->
  swap_sec (table i) = v_data v + 128 * index (table i) -> 0 <= index (table i) < 1024 ->
  (forall k, 0 <= k < 128 -> m (swap_sec (table i) + k) = slice (512 * k) 512 d) ->
  (forall x, ~ in_tables v x -> m' x = m x) ->
  let v' := v_with_list (v_list v ++ [p]) v in
  table_saved v' m' (v_table v') -> table_saved v' m' (backup_table v') -> saved v' m'.
Proof.
  intros Hm Hr Hs Hi Hd Hbit Hsrc Esw Hix Hdat Hm' v' Ht Hbk. pose proof (mo_geom _ Hm) as Hg.
  destruct (geom_nums _ Hg Hr) as (_&_&_&_&N5&_).
  destruct (head_not_elsewhere _ _ Hm Hr Hs) as (Hh1 & _ & _).
  assert (m' (v_head v) = m (v_head v)) as Em by (apply Hm'; intros Hx; by apply (Hh1 _ Hx)).
  assert (forall q j, q ∈ v_list v' -> v_infos v' !! q = Some j ->
            q ∈ v_list v \/ (q = p /\ j = i)) as Hcase.
  { intros q j Hq Hj. cbn in Hq. apply elem_of_app in Hq as [Hq|Hq%list_elem_of_singleton]; [by left|].
    right. subst q. cbn in Hj. rewrite Hi in Hj. by injection Hj as <-. }
  destruct Hs as [(i0 & Hi0 & Eh & Hj) S1 S2 S3 S4 S5 S6].
  split; try done; change (v_head v') with (v_head v); rewrite ?Em; try done.
  - exists i0. split_and!; try done; [lia..|]. intros j Hj'. change (head_block v' j) with (head_block v j).
    rewrite Hm'; [by apply Hj|]. intros Hx. pose proof (tables_range v _ Hg Hr Hx).
    pose proof (head_block_range v j Hg Hr ltac:(lia)). lia.
  - intros q j Hq Hj'. destruct (Hcase q j Hq Hj') as [Hq'|[-> ->]]; [by eapply S2|done].
  - intros q j Hq Hj'. destruct (Hcase q j Hq Hj') as [Hq'|[-> ->]]; [by eapply S3|done].
  - intros q j d' k Hq Hj' Hd' Hk.
    assert (rs + 49152 <= swap_sec (table j) + k < rs + 180224 -> m' (swap_sec (table j) + k)
            = m (swap_sec (table j) + k)) as Hout.
    { intros Hx. apply Hm'. intros Hx'. pose proof (tables_range v _ Hg Hr Hx'). lia. }
    destruct (Hcase q j Hq Hj') as [Hq'|[-> ->]].
    + rewrite Hout; [by eapply S6|].
      eapply (listed_block v q j); try done. unfold in_block_of, between. lia.
    + rewrite Hout by lia. rewrite Hd in Hd'. injection Hd' as <-. by apply Hdat.
Qed.

(** The data of a listed object and of its block changed together. *)
Lemma saved_update v p i d m m' :
  maps_ok v -> bits_ok v -> v_reserve v = rs -> saved v m -> p ∈ v_list v -> v_infos v !! p = Some i ->
  (forall x, ~ in_block_of i x -> m' x = m x) ->
  (forall k, 0 <= k < 128 -> m' (swap_sec (table i) + k) = slice (512 * k) 512 d) ->
  saved (v_with_infos (<[p := info_with_data (Some d) i]> (v_infos v)) v) m'.
Proof.
  intros Hm Hb Hr Hs Hp Hi Hm' Hdat. set (v' := v_with_infos _ v). pose proof (mo_geom _ Hm) as Hg.
  assert (forall q j, v_infos v' !! q = Some j -> exists j0, v_infos v !! q = Some j0 /\ table j = table j0 /\
            (q <> p -> j = j0) /\ (q = p -> data j = Some d)) as Hq.
  { intros q j. cbn. destruct (decide (q = p)) as [->|Hne].
    - rewrite lookup_insert_eq. intros [= <-]. by exists i.
    - rewrite lookup_insert_ne by done. intros Hj. by exists j. }
  assert (forall x, x < rs + 49152 \/ rs + 180224 <= x -> m' x = m x) as Hout.
  { intros x Hx. apply Hm'. intros Hin. destruct (listed_block _ _ _ _ Hm Hr Hp Hi Hin) as (_&_&?). lia. }
  destruct (geom_nums _ Hg Hr) as (_&_&_&N4&_&N6).
  assert (forall base, table_saved v m base -> (base = v_table v \/ base = backup_table v) ->
            table_saved v' m' base) as Htab.
  { intros base Hts Hbase. eapply table_saved_frame with (m := m); [apply (mo_len _ Hm)| |].
    - intros x Hx. apply Hout. unfold between in Hx. lia.
    - destruct Hts as [T1 T2]. split; [|done]. intros n q j Hn Hj.
      destruct (Hq q j Hj) as (j0 & Hj0 & -> & _). by eapply T1. }
  destruct Hs as [(i0 & Hi0 & Eh & Hj) S1 S2 S3 S4 S5 S6].
  pose proof (head_block_range v i0 Hg Hr Hi0) as Hh. rewrite <- Eh in Hh.
  assert (m' (v_head v) = m (v_head v)) as Em by (apply Hout; lia).
  split; try done; change (v_head v') with (v_head v); rewrite ?Em; try done.
  - exists i0. split_and!; try done; [lia..|]. intros j Hj'. change (head_block v' j) with (head_block v j).
    pose proof (head_block_range v j Hg Hr ltac:(lia)). rewrite Hout by lia. by apply Hj.
  - intros q j Hqin Hqj. destruct (Hq q j Hqj) as (j0 & Hj0 & -> & _). by eapply S2.
  - intros q j Hqin Hqj. destruct (Hq q j Hqj) as (j0 & Hj0 & -> & _). by eapply S3.
  - by apply Htab; [|left].
  - by apply Htab; [|right].
  - intros q j d' k Hqin Hqj Hd' Hk. destruct (Hq q j Hqj) as (j0 & Hj0 & Et & Hne & Heq).
    rewrite Et. destruct (decide (q = p)) as [->|Hqp].
    + rewrite Hi in Hj0. injection Hj0 as <-. rewrite (Heq eq_refl) in Hd'. injection Hd' as <-. by apply Hdat.
    + rewrite (Hne Hqp) in Hd'. rewrite Hm'; [by eapply S6|]. intros Hin.
      assert (in_block_of j0 (swap_sec (table j0) + k)) as Hin0 by (unfold in_block_of, between; lia).
      destruct (listed_block _ _ _ _ Hm Hr Hp Hi Hin) as (E1 & _ & _).
      destruct (listed_block _ _ _ _ Hm Hr Hqin Hj0 Hin0) as (E2 & _ & _).
      assert (index (table j0) = index (table i)) as Eix by (unfold in_block_of, between in *; lia).
      apply Hqp. change (v_list v') with (v_list v) in Hqin. apply list_elem_of_lookup in Hqin as [a Ha]. apply list_elem_of_lookup in Hp as [b Hb'].
      assert (a = b) as ->; [|congruence].
      eapply (NoDup_lookup _ a b (Some (index (table i))) (bo_nodup _ Hb));
        rewrite list_lookup_fmap, ?Ha, ?Hb'; cbn; unfold v_index; rewrite ?Hj0, ?Hi; cbn; by rewrite ?Eix.
Qed.
End Keep.

(** ** Writing to a mapped block, publishing a new one *)

Section Blocks.
Context {D : Type} {rs : Z} `{SoundReserve D rs}.
Implicit Types (s : st D) (v : view).

(** The object and its block hold the same, new data. *)
Definition wrote_through p i s s' : Prop :=
  quietly (in_block_of i) s s' /\
  exists d, view_of s' = v_with_infos (<[p := info_with_data (Some d) i]> (v_infos (view_of s))) (view_of s) /\
    forall k, 0 <= k < 128 -> media (dev s') (swap_sec (table i) + k) = slice (512 * k) 512 d.

Lemma wlp_info_store p off new s : wlp (info_store p off new) (fun _ s' => core s' = core s) s.
Proof. unfold info_store. do 2 pstep. intros i _. do 2 pstep. intros d _. do 2 pstep. intros _ _. by pstep. Qed.

Lemma wp_swap_write_sound p i d start count buf pos s :
  geom_ok (view_of s) -> v_reserve (view_of s) = rs -> v_infos (view_of s) !! p = Some i ->
  info_ok (v_data (view_of s)) i -> data i = Some d -> user_sector (view_of s) start ->
  in_block start count -> 0 <= pos -> pos + 512 * count <= zlen buf ->
  wp (swap_write p start count buf pos (count * SECTOR_SIZE))
     (fun ret s' => ret = 0 /\ wrote_through p i s s') s.
Proof.
  intros Hg Hrs Hi Hok Hd Hu Hin Hpos Hfit. destruct (geom_nums _ Hg Hrs) as (N1 & N2 & _).
  unfold MAX_RESERVED_SECTOR, SECTOR_1M in N2. unfold user_sector in Hu.
  pose proof (block_off_range _ _ Hin) as [Ho1 Ho2]. destruct Hin as [Hc Hin].
  destruct (align_spec start) as [Hal _]. change SECTOR_NUM_PER_SWAP_BLOCK with 128 in Hal.
  assert (0 <= SWAP_SECTOR_ALIGN start) as Hal0
    by (unfold SWAP_SECTOR_ALIGN, SWAP_BLOCK_SECTOR, SWAP_BLOCK_INDEX; layout;
        pose proof (Z.div_pos start 128); lia).
  destruct (io_data _ _ Hok) as (d0 & Hd0 & Hdl). rewrite Hd in Hd0. injection Hd0 as <-.
  unfold swap_write, _swap_write.
  rewrite (u32_small (SWAP_SECTOR_ALIGN start)), u64_small by lia. fold (block_off start).
  unfold SWAP_BLOCK_SIZE, SECTOR_NUM_PER_SWAP_BLOCK, SECTOR_SIZE in *.
  rewrite (s32_small (count * 512)), (s32_small (block_off start)), Z.min_id by lia.
  replace (count * 512) with (512 * count) by lia.
  assert (zlen (slice pos (512 * count) buf) = 512 * count) as Hsl by (rewrite zlen_slice; lia).
  do 2 kstep. apply wp_load; [lia..|]. kstep.
  eapply wp_mono; [eapply wp_with; [eapply wp_info_store; [exact Hi|exact Hd|lia|lia]|apply wlp_info_store]|].
  cbv beta. intros _ s1 ((Hp1 & Ed1 & Ev1) & Ec1). set (d1 := splice _ _ d) in *.
  assert (v_infos (view_of s1) !! p = Some (info_with_data (Some d1) i)) as Hi1
    by (rewrite Ev1; apply lookup_insert_eq).
  assert (zlen d1 = 65536) as Hd1 by (subst d1; rewrite zlen_splice; lia).
  kstep. eapply wp_mono.
  { eapply (wp_flush_data_sound p _ d1); [by rewrite Ev1|by rewrite Ev1|exact Hi1| |done].
    rewrite Ev1. eapply info_ok_data; [done|exact Hd|lia]. }
  cbv beta. intros ret s2 (-> & (Ev2 & He2 & _) & _ & (Ht2 & En2 & Eg2 & _) & Hm2). cbn [Z.eqb negb].
  kstep. cbn [Z.eqb]. kstep. split; [done|]. split.
  - destruct Hp1 as (_ & He1 & _). split_and!; [|rewrite En2|rewrite Eg2|auto].
    + intros x Hx. rewrite Ht2 by exact Hx. by rewrite Ed1.
    + unfold names. by rewrite Ec1.
    + unfold geom. by rewrite Ec1.
  - exists d1. by rewrite Ev2, Ev1.
Qed.

Lemma wp_write_mapped_kept p cur n buf pos s :
  kept rs s -> v_find (view_of s) (SWAP_SECTOR_ALIGN cur) = Some p -> user_sector (view_of s) cur ->
  cur + n <= v_reserve (view_of s) -> in_block cur n -> 0 <= pos -> pos + 512 * n <= zlen buf ->
  wp (swap_write p cur n buf pos (n * SECTOR_SIZE)) (fun ret s' => ret = 0 /\ kept rs s') s.
Proof.
  intros [Hinv Hb Hr Hnm Hs Hl] Hf Hu Hend Hin Hpos Hfit. pose proof Hinv as (He & Hm & _).
  destruct (maps_find _ _ _ Hm Hf) as (Hpin & i & Hi & Hok & _).
  destruct (io_data _ _ Hok) as (d & Hd & _). eapply wp_mono.
  { apply wp_and; [by apply wp_write_mapped|].
    apply (wp_swap_write_sound p i d); try done. apply (mo_geom _ Hm). }
  cbv beta. intros ret s' ((_ & H0' & _) & -> & Hq & d' & Ev & Hdat). pose proof Hq as (Ht & En & _).
  destruct (H0' eq_refl) as (Hst & _). split; [done|]. split.
  - apply Hst.
  - by apply Hst.
  - rewrite <- Hr. unfold v_reserve. by rewrite (so_geom _ _ _ Hst).
  - by eapply named_names.
  - rewrite Ev. by eapply saved_update.
  - eapply quietly_log; [exact Hq| |done]. intros Hx.
    destruct (listed_block _ _ _ _ Hm Hr Hpin Hi Hx) as (_ & _ & ?). layout. lia.
Qed.

(** The state between [swap_create] and the flush of the table: the object is ready
    but not listed. *)
Record ready p src s0 s : Prop := {
  rd_created : created s0 (Some p) src s;
  rd_named : named s;
  rd_log : log_sane rs (media (dev s));
  rd_saved : saved (view_of s) (media (dev s));
  rd_bits : forall n, 0 <= n -> bit_of (v_bitmap (view_of s)) n = true ->
    bit_of (bitmap (decode_head (media (dev s) (v_head (view_of s))))) n = true
}.

Lemma ready_data p src s0 i d s s' :
  kept rs s0 -> ready p src s0 s -> v_infos (view_of s) !! p = Some i ->
  created s0 (Some p) src s' -> quietly (in_block_of i) s s' ->
  view_of s' = v_with_infos (<[p := info_with_data (Some d) i]> (v_infos (view_of s))) (view_of s) ->
  ready p src s0 s'.
Proof.
  intros [Hinv0 Hb0 Hr0 _ _ _] [Hcr Hnm Hlg Hs Hbits] Hi Hcr' Hqt Ev. pose proof Hqt as (Ht & En & Eg & _).
  pose proof Hinv0 as (_ & Hm0 & _).
  pose proof Hcr as (Hnone & Hp & Hg & _ & j & Hj & Hok & _ & Hf & _).
  rewrite Hi in Hj. injection Hj as <-.
  pose proof (maps_ok_unlisted _ _ Hm0 Hnone) as Hpl.
  assert (v_geom (view_of s) = v_geom (view_of s0)) as Eg0 by (by eapply priv_geom).
  assert (v_list (view_of s) = v_list (view_of s0)) as El by (by eapply priv_list).
  assert (v_reserve (view_of s) = rs) as Hr by (rewrite <- Hr0; unfold v_reserve; by rewrite Eg0).
  assert (maps_ok (view_of s)) as Hm by (by eapply priv_maps).
  destruct (geom_nums _ (mo_geom _ Hm) Hr) as (_ & _ & _ & _ & N5 & _).
  pose proof (io_swap _ _ Hok) as Esw. pose proof (info_index _ _ Hok) as Hix.
  assert (v_data (view_of s0) = rs + 49152) as Ed0 by (rewrite <- N5; unfold v_data; by rewrite Eg0).
  rewrite Ed0 in Esw. change SECTOR_NUM_PER_SWAP_BLOCK with 128 in Esw.
  assert (forall x, in_block_of i x -> ~ precious (view_of s) x) as Hnp.
  { intros x Hx. unfold in_block_of, between in Hx. pose proof (mo_geom _ Hm) as Hgm.
    intros [(k & Hk & ->)|[Htb|(q & j & Hq & Hj & Hin)]].
    - pose proof (head_block_range _ k Hgm Hr Hk). lia.
    - pose proof (tables_range _ x Hgm Hr Htb). lia.
    - destruct (listed_block _ _ _ _ Hm Hr Hq Hj Hin) as (Ej & Hjx & _).
      assert (index (table j) = index (table i)) as E by (unfold in_block_of, between in *; lia).
      rewrite El in Hq. rewrite (priv_lookup _ q _ _ Hp) in Hj by (intros ->; by apply Hpl).
      rewrite <- E, (bo_set _ Hb0 q j Hq Hj) in Hf. done. }
  assert (media (dev s') (v_head (view_of s)) = media (dev s) (v_head (view_of s))) as Emh.
  { apply Ht. intros Hx. apply (Hnp _ Hx). destruct (sv_place _ _ Hs) as (k & Hk & -> & _).
    left. by exists k. }
  assert (v_head (view_of s') = v_head (view_of s)) as Evh by (by rewrite Ev).
  split; [done|by eapply named_names| | |].
  - eapply quietly_log; [exact Hqt| |done]. unfold in_block_of, between. layout. lia.
  - eapply saved_ext; [..|eapply saved_frame; [apply (mo_len _ Hm)| |exact Hs]].
    + by rewrite Ev.
    + by rewrite Ev.
    + intros q Hq. rewrite Ev. cbn. apply lookup_insert_ne. intros <-. apply Hpl. by rewrite <- El.
    + intros x Hx. apply Ht. intros Hx'. by apply (Hnp x).
  - intros n Hn Hbn. rewrite Evh, Emh. apply Hbits; [done|]. by rewrite Ev in Hbn.
Qed.

Lemma wp_publish_kept {A} p src i d (k : Z -> K (st D) A) Q s s1 :
  kept rs s -> ready p src s s1 -> v_find (view_of s) src = None -> src < v_reserve (view_of s) ->
  v_infos (view_of s1) !! p = Some i -> data i = Some d ->
  (forall k, 0 <= k < 128 -> media (dev s1) (swap_sec (table i) + k) = slice (512 * k) 512 d) ->
  (forall s2, kept rs (upd_core (core_num (s32 (info_num (core s2) + 1))) s2) -> wp (k 0) Q s2) ->
  wp (list_add_tail p;; ret ← flush_swap_info_table; k ret) Q s1.
Proof.
  intros [Hinv Hb Hr _ _ _] [Hcr Hnm Hlg Hs Hbits] Hf Hsrc Hi Hd Hdat Hk.
  destruct (created_add p src i s s1 Hinv Hcr Hf Hi) as (He & Hm & Hbt & Hg & _ & Hn & _).
  pose proof Hcr as (Hnone & Hp & _ & _ & j & Hj & Hok & Esrc & _ & Hb1).
  rewrite Hi in Hj. injection Hj as <-.
  unfold list_add_tail. do 2 kstep. set (s2 := upd_core _ s1) in *. cbv zeta in *.
  assert (view_of s2 = v_with_list (v_list (view_of s1) ++ [p]) (view_of s1)) as Ev by done.
  assert (v_reserve (view_of s2) = rs) as Hr2 by (rewrite <- Hr; unfold v_reserve; by rewrite Hg).
  assert (v_geom (view_of s1) = v_geom (view_of s)) as Hg1 by (by eapply priv_geom).
  assert (v_reserve (view_of s1) = rs) as Hr1 by (rewrite <- Hr; unfold v_reserve; by rewrite Hg1).
  assert (maps_ok (view_of s1)) as Hm1.
  { pose proof Hinv as (_ & Hm0 & _). eapply priv_maps; [exact Hp|by eapply maps_ok_unlisted|done]. }
  assert (zlen (v_list (view_of s1)) <= zlen (v_list (view_of s2))) as Hle.
  { rewrite Ev. cbn [v_list v_with_list]. rewrite zlen_app. change (zlen [p]) with 1. lia. }
  pose proof (sv_table _ _ Hs) as [_ Tt]. pose proof (sv_backup _ _ Hs) as [_ Tb].
  kstep. eapply wp_mono.
  { apply wp_flush_table_sound; [done|done|..]; intros n Hn0; [apply Tt|apply Tb]; lia. }
  cbv beta. intros ret s3 (-> & Hh & Hq & Tt3 & Tb3). pose proof Hq as (Ht & En & _). apply Hk.
  pose proof Hh as (Ev3 & He3 & _). set (s4 := upd_core _ s3).
  assert (info_num (core s3) = v_num (view_of s2)) as Enum by (by rewrite <- Ev3).
  assert (view_of s4 = v_with_num (s32 (v_num (view_of s2) + 1)) (view_of s2)) as Ev4.
  { unfold s4. rewrite <- Enum. change (view_of (upd_core _ s3))
      with (v_with_num (s32 (info_num (core s3) + 1)) (view_of s3)). by rewrite Ev3. }
  pose proof (mo_len _ Hm) as Hlen. pose proof (zlen_nonneg (v_list (view_of s2))).
  split.
  - split_and!; [by apply He3|rewrite Ev4; by destruct Hm|]. rewrite Ev4. unfold num_ok.
    cbn [v_num v_list v_with_num]. rewrite s32_small by lia. done.
  - rewrite Ev4. destruct (Hbt Hb). by split.
  - by rewrite Ev4.
  - eapply named_names; [|exact Hnm]. exact En.
  - rewrite Ev4. eapply saved_ext; [..|eapply (saved_add (view_of s1) p i d (media (dev s1)))]; try done.
    + apply Hbits; [apply (info_index _ _ Hok)|done].
    + rewrite Esrc, Hr1. lia.
    + unfold v_data. rewrite Hg1. exact (io_swap _ _ Hok).
    + by eapply info_index.
  - eapply (quietly_log _ s2); [exact Hq| |done]. intros Hx.
    pose proof (tables_range _ _ (mo_geom _ Hm) Hr2 Hx). layout. lia.
Qed.
End Blocks.

(** ** Requests *)

Section Requests.
Context {D : Type} {rs : Z} `{SoundReserve D rs}.
Implicit Types (s : st D) (v : view).

Lemma kept_quiet (R : Z -> Prop) s s' :
  kept rs s -> view_of s' = view_of s -> quietly R s s' ->
  (forall x, R x -> ~ precious (view_of s) x) -> ~ R (rs + SWAP_LOG_HEAD_OFFSET) -> kept rs s'.
Proof.
  intros Hk Ev Hq HR HL. pose proof (quietly_log _ _ _ Hq HL (kp_log _ _ Hk)) as Hlg. destruct (quietly_saved R s s' Hk Hq HR) as [Hs Hn].
  destruct Hk as [(He & Hm & Hnum) Hb Hr _ _ _]. destruct Hq as (_ & _ & _ & He').
  split; rewrite ?Ev; try done. split_and!; rewrite ?Ev; try done. by apply He'.
Qed.

Lemma kept_nowhere s s' : kept rs s -> view_of s' = view_of s -> quietly nowhere s s' -> kept rs s'.
Proof. intros Hk Ev Hq. eapply kept_quiet; [exact Hk|exact Ev|exact Hq|by intros x []|by intros []]. Qed.

(** The user's sectors are not part of the saved state. *)
Lemma user_not_precious v x :
  maps_ok v -> v_reserve v = rs -> x < rs -> ~ precious v x.
Proof.
  intros Hm Hr Hx. pose proof (mo_geom _ Hm) as Hg.
  intros [(j & Hj & ->)|[Ht|(p & i & Hp & Hi & Hin)]].
  - pose proof (head_block_range v j Hg Hr Hj). lia.
  - pose proof (tables_range v x Hg Hr Ht). lia.
  - destruct (listed_block _ _ _ _ Hm Hr Hp Hi Hin) as (_ & _ & ?). lia.
Qed.

(** The counters of users and errors do not matter. *)
Lemma kept_user z s : kept rs s <-> kept rs (upd_core (core_user z) s).
Proof.
  assert (forall s1 z1, kept rs s1 -> kept rs (upd_core (core_user z1) s1)) as Hdir.
  { intros s1 z1 [Hi Hb Hr Hn Hs Hl]. split; [by apply inv_user|by apply bits_user|done|done| |done].
    by eapply saved_ext; [..|exact Hs]. }
  split; [apply Hdir|]. intros Hk. apply (Hdir _ (user (core s))) in Hk.
  replace s with (upd_core (core_user (user (core s))) (upd_core (core_user z) s)); [done|].
  by destruct s as [? ? [] ? ? ? ?].
Qed.

Lemma wlp_repair sector count s :
  wlp (swap_repair_successive_sectors sector count)
      (fun _ s' => quietly nowhere s s' /\ view_of s' = view_of s) s.
Proof.
  unfold swap_repair_successive_sectors. pstep. apply wp_wlp. kcall wp_test_unit_ready.
  intros ret s1 Hq. pose proof (quiet_view _ _ Hq) as Ev. destruct Hq as (Ec & El & _ & Ht).
  assert (quietly nowhere s s1) as Hq1.
  { split_and!; [done|unfold names; by rewrite Ec|unfold geom; by rewrite Ec|].
    apply env_ok_same; by rewrite ?Ec, ?El. }
  destruct (negb (ret =? 0)); unfold inc_device_dead; repeat pstep; split; try done.
Qed.

Lemma wlp_read_direct skip cur n buf pos s :
  0 <= cur < 2 ^ 32 -> 0 <= n < 2 ^ 16 ->
  wlp (read_direct skip cur n buf pos (n * SECTOR_SIZE))
      (fun _ s' => quietly nowhere s s' /\ view_of s' = view_of s) s.
Proof.
  intros Hc Hn. unfold read_direct. destruct skip; [by pstep|]. pstep. pstep. intros Hp Hl Hf.
  pstep. apply wp_wlp. unfold hd_read_sector_retry. eapply wp_mono.
  { apply wp_hd_read; [done|done|unfold SECTOR_SIZE; lia|by apply zlen_slice]. }
  cbv beta. intros x s1 (Hio & Ht & _). pose proof (io_view _ _ Hio) as Ev.
  assert (quietly nowhere s s1) as Hq by (by apply quietly_io).
  pstep. pstep. intros _ _. destruct (fst x =? 0); [by pstep|]. unfold is_dead. repeat pstep. done.
Qed.

Lemma wlp_write_direct skip cur n buf pos s :
  0 <= cur < 2 ^ 32 -> 0 <= n < 2 ^ 16 ->
  wlp (write_direct skip cur n buf pos (n * SECTOR_SIZE))
      (fun _ s' => quietly (between cur (cur + n)) s s' /\ view_of s' = view_of s) s.
Proof.
  intros Hc Hn. unfold write_direct. destruct skip; [by pstep|]. pstep. pstep. intros Hp Hl Hf.
  pstep. apply wp_wlp. unfold hd_write_sector_retry. eapply wp_mono.
  { apply wp_hd_write; [done|done|unfold SECTOR_SIZE; lia|by apply zlen_slice]. }
  cbv beta. intros x s1 (Hio & Ht & _). pose proof (io_view _ _ Hio) as Ev.
  assert (quietly (between cur (cur + n)) s s1) as Hq by (by apply quietly_io).
  destruct (x =? 0); [by pstep|]. unfold is_dead. repeat pstep. done.
Qed.

(** [swap_create] leaves the mapping on the disk. *)
Lemma wlp_create_kept start count s :
  kept rs s -> user_sector (view_of s) start -> in_block start count ->
  wlp (swap_create start count)
      (fun o s' => match o with
         | None => kept rs s'
         | Some p => ready (rs := rs) p (SWAP_SECTOR_ALIGN start) s s'
         end) s.
Proof.
  intros Hk Hu Hin. pose proof Hk as [Hinv Hb Hr _ _ _]. pose proof Hinv as (He & Hm & _).
  eapply wlp_mono; [apply wp_wlp, wp_with; [by apply wp_swap_create|]|].
  { apply wlp_swap_create; try done. apply (mo_geom _ Hm). }
  cbv beta. intros o s' (Hcr & Hd). destruct (created_saved _ _ _ _ Hk Hcr Hd) as (Hs & Hn & Hlg & Ho).
  destruct o as [p|]; [by split|]. destruct Hcr as [Hbg Hg].
  pose proof (bg_step True _ _ Hinv Hbg Hg) as Hst. split; [apply Hst|by apply Hst| |done|done|done].
  rewrite <- Hr. unfold v_reserve. by rewrite (so_geom _ _ _ Hst).
Qed.

(** The data of a ready object goes to its block. *)
Lemma wlp_flush_ready p src s s1 :
  kept rs s -> ready (rs := rs) p src s s1 ->
  wlp (flush_swap_info_data p)
      (fun ret s2 => ret = 0 /\ ready (rs := rs) p src s s2 /\ exists i d, v_infos (view_of s2) !! p = Some i /\
         data i = Some d /\
         forall k, 0 <= k < 128 -> media (dev s2) (swap_sec (table i) + k) = slice (512 * k) 512 d) s1.
Proof.
  intros Hk Hrd. pose proof Hk as [(_ & Hm0 & _) _ Hr0 _ _ _]. pose proof Hrd as [Hcr _ _ _ _].
  pose proof Hcr as (Hnone & Hp & _ & _ & i & Hi & Hok & _).
  destruct (io_data _ _ Hok) as (d & Hd & _).
  assert (v_geom (view_of s1) = v_geom (view_of s)) as Eg by (by eapply priv_geom).
  apply wp_wlp. eapply wp_mono.
  { apply (wp_flush_data_sound p i d); [|..|done].
    - eapply geom_ok_eq; [exact Eg|apply (mo_geom _ Hm0)].
    - rewrite <- Hr0. unfold v_reserve. by rewrite Eg.
    - done.
    - unfold v_data. by rewrite Eg. }
  cbv beta. intros ret s2 (-> & Hh & _ & Hq & Hdat). pose proof Hh as (Ev & _ & _). split_and!; [done| |].
  - eapply (ready_data p src s i d s1); try done.
    + by eapply created_hush.
    + rewrite Ev. destruct i as [ti di]. cbn in Hd. subst di. unfold v_with_infos, info_with_data.
      cbn [table]. rewrite insert_id by done. by destruct (view_of s1).
  - exists i, d. by rewrite Ev.
Qed.

Lemma wlp_read_remap_kept cur n buf pos s :
  kept rs s -> v_find (view_of s) (SWAP_SECTOR_ALIGN cur) = None -> user_sector (view_of s) cur ->
  in_block cur n ->
  wlp (read_remap (SWAP_SECTOR_ALIGN cur) cur n buf pos (n * SECTOR_SIZE)) (fun _ s' => kept rs s') s.
Proof.
  intros Hk Hf Hu Hin. destruct (align_spec cur) as [Hal _]. unfold read_remap. pstep.
  eapply wlp_mono; [by apply wlp_create_kept|]. cbv beta. intros [p|] s1 Hs1; [|by pstep].
  pstep. unfold info_data. do 2 pstep. intros i0 _. pstep. intros d0 _. pstep. pstep. intros _ _ _.
  pstep. pstep. intros _ _. cbv zeta. pstep. eapply wlp_mono; [by eapply wlp_flush_ready|].
  cbv beta. intros ret s2 (-> & Hrd & i & d & Hi & Hd & Hdat). cbn [Z.eqb negb]. apply wp_wlp.
  eapply (wp_publish_kept p _ i d _ _ s); [done|done|done| |done|done|done|].
  - unfold user_sector in Hu. lia.
  - intros s3 Hk3. cbn [Z.eqb negb]. unfold inc_info_num. by do 3 kstep.
Qed.

Lemma wlp_write_remap_kept cur n buf pos s :
  kept rs s -> v_find (view_of s) (SWAP_SECTOR_ALIGN cur) = None -> user_sector (view_of s) cur ->
  cur + n <= v_reserve (view_of s) -> in_block cur n -> 0 <= pos -> pos + 512 * n <= zlen buf ->
  wlp (write_remap cur n buf pos (n * SECTOR_SIZE)) (fun _ s' => kept rs s') s.
Proof.
  intros Hk Hf Hu Hend Hin Hpos Hfit. destruct (align_spec cur) as [Hal _]. unfold write_remap. pstep.
  pose proof Hk as [(_ & Hm0 & _) _ Hr0 _ _ _].
  eapply wlp_mono; [by apply wlp_create_kept|]. cbv beta. intros [p|] s1 Hs1; [|by pstep].
  pose proof Hs1 as [Hcr _ _ _ _]. pose proof Hcr as (Hnone & Hp & Hg & Hnum & i & Hi & Hok & Hsrc & Hb0 & Hb1).
  destruct (io_data _ _ Hok) as (d & Hd & _).
  assert (v_geom (view_of s1) = v_geom (view_of s)) as Eg by (by eapply priv_geom).
  assert (maps_ok (view_of s1)) as Hm1
    by (eapply priv_maps; [exact Hp|by eapply maps_ok_unlisted|done]).
  cbv zeta. pstep. apply wp_wlp. eapply wp_mono.
  { apply wp_and; [apply (wp_swap_write p i d)|apply (wp_swap_write_sound p i d)]; try done.
    - apply Hp, Hk.
    - unfold v_data. by rewrite Eg.
    - unfold user_sector, v_reserve. by rewrite Eg.
    - apply (mo_geom _ Hm1).
    - rewrite <- Hr0. unfold v_reserve. by rewrite Eg.
    - unfold v_data. by rewrite Eg.
    - unfold user_sector, v_reserve. by rewrite Eg. }
  cbv beta. intros ret s2 (Hw & -> & Hq & d' & Ev & Hdat). cbn [Z.eqb negb].
  destruct (wrote_created _ _ _ _ _ _ _ _ _ _ Hcr Hi Hw) as (i' & Hi' & _ & _ & _ & _ & Hcr2).
  destruct (Hcr2 ltac:(lia)) as [Hcr2' _]. apply wp_wlp.
  assert (v_infos (view_of s2) !! p = Some (info_with_data (Some d') i)) as Hi2
    by (rewrite Ev; apply lookup_insert_eq).
  eapply (wp_publish_kept p _ (info_with_data (Some d') i) d' _ _ s); [done| |done| |done|done|done|].
  - by eapply (ready_data p _ s i d' s1).
  - unfold user_sector in Hu. lia.
  - intros s3 Hk3. cbn [Z.eqb negb]. unfold inc_info_num. by do 3 kstep.
Qed.

(** What one round works on. *)
Definition round s cur n : Prop :=
  user_sector (view_of s) cur /\ cur + n <= v_reserve (view_of s) /\ in_block cur n.

Lemma round_nums s cur n :
  kept rs s -> round s cur n -> 0 <= cur < 2 ^ 32 /\ 0 <= n < 2 ^ 16 /\ cur + n <= rs.
Proof.
  intros [(_ & Hm & _) _ Hr _ _ _] (Hu & Hend & Hn & Hin). destruct (align_spec cur) as [Hal _].
  destruct (geom_nums _ (mo_geom _ Hm) Hr) as (N1 & N2 & _).
  unfold MAX_RESERVED_SECTOR, SECTOR_1M, user_sector in *. rewrite Hr in *. lia.
Qed.

Lemma wlp_core_read_blk_kept start i_start i_bad i a cur n s :
  kept rs s -> round s cur n -> piece start i_start i (ra_count a) = (SWAP_SECTOR_ALIGN cur, cur, n) ->
  wlp (core_read_blk start i_start i_bad i a) (fun _ s' => kept rs s') s.
Proof.
  intros Hk Hrd Hpc. pose proof Hk as [(_ & Hm & _) _ _ _ _ _].
  destruct (round_nums _ _ _ Hk Hrd) as (Hc & Hn & Hle). destruct Hrd as (Hu & Hend & Hin).
  unfold core_read_blk. rewrite Hpc. pstep. apply wp_wlp. apply wp_find; [done|].
  destruct (v_find (view_of s) (SWAP_SECTOR_ALIGN cur)) as [p|] eqn:Hf.
  - pstep. unfold _swap_read, info_data. do 3 pstep. intros i0 _. pstep. intros d _. pstep. pstep.
    intros _ _ _. pstep. pstep. intros _ _. by repeat pstep.
  - pstep. eapply wlp_mono; [by apply wlp_read_direct|]. cbv beta. intros x s1 (Hq1 & Ev1).
    pose proof (kept_nowhere _ _ Hk Ev1 Hq1) as Hk1. destruct (fst x); [by pstep| |by pstep].
    pstep. apply wlp_mono with (P := fun _ s2 => kept rs s2).
    2: { cbv beta. intros y s2 Hk2. by destruct (fst y); pstep. }
    unfold read_repair. pstep. eapply wlp_mono; [apply wlp_repair|]. cbv beta. intros r s2 (Hq2 & Ev2).
    pose proof (kept_nowhere _ _ Hk1 Ev2 Hq2) as Hk2. destruct (r =? 0).
    { pstep. pstep. intros _ _. by pstep. }
    unfold is_dead. do 4 pstep. destruct (c_true _); [by pstep|].
    pstep. eapply wlp_mono; [apply wlp_read_remap_kept; rewrite ?Ev2, ?Ev1; done|].
    cbv beta. intros y s3 Hk3. by pstep.
Qed.

Lemma wlp_core_write_blk_kept buf start i_start i_bad i a cur n s :
  kept rs s -> round s cur n -> piece start i_start i (wa_count a) = (SWAP_SECTOR_ALIGN cur, cur, n) ->
  0 <= wa_pos a -> wa_pos a + 512 * n <= zlen buf ->
  wlp (core_write_blk buf start i_start i_bad i a) (fun _ s' => kept rs s') s.
Proof.
  intros Hk Hrd Hpc Hpos Hfit. pose proof Hk as [(_ & Hm & _) _ Hr _ _ _].
  destruct (round_nums _ _ _ Hk Hrd) as (Hc & Hn & Hle). destruct Hrd as (Hu & Hend & Hin).
  unfold core_write_blk. rewrite Hpc. pstep. apply wp_wlp. apply wp_find; [done|].
  destruct (v_find (view_of s) (SWAP_SECTOR_ALIGN cur)) as [p|] eqn:Hf.
  - pstep. apply wp_wlp. eapply wp_mono; [by apply wp_write_mapped_kept|].
    cbv beta. intros ret s1 (-> & Hk1). cbn [Z.eqb]. by pstep.
  - pstep. eapply wlp_mono; [by apply wlp_write_direct|]. cbv beta. intros x s1 (Hq1 & Ev1).
    assert (kept rs s1) as Hk1.
    { eapply kept_quiet; [exact Hk|exact Ev1|exact Hq1|intros y Hy|].
      - apply user_not_precious; [done|done|]. unfold between in Hy. lia.
      - unfold between. layout. lia. }
    destruct x; [by pstep| |by pstep].
    pstep. apply wlp_mono with (P := fun _ s2 => kept rs s2).
    2: { cbv beta. intros y s2 Hk2. by destruct y; pstep. }
    unfold write_repair. cbv zeta. pstep. eapply wlp_mono.
    { apply wp_wlp, wp_with; [apply (wp_repair cur n)|apply wlp_repair]. }
    cbv beta. intros r s2 ((_ & Hne) & Hq2 & Ev2). apply Z.eqb_neq in Hne as ->.
    pose proof (kept_nowhere _ _ Hk1 Ev2 Hq2) as Hk2.
    unfold is_dead. do 4 pstep. destruct (c_true _); [by pstep|].
    pstep. eapply wlp_mono; [apply wlp_write_remap_kept; rewrite ?Ev2, ?Ev1; done|].
    cbv beta. intros y s3 Hk3. by pstep.
Qed.

(** The loops: [round] from the position of the loop invariant. *)
Lemma round_reached start count j c s0 s :
  0 <= start -> 0 < count < 2 ^ 30 -> start + count <= v_reserve (view_of s0) ->
  v_reserve (view_of s0) < 2 ^ 32 - 2 ^ 20 -> 0 <= j -> cursor start j < start + count ->
  c = start + count - reached start count j -> v_geom (view_of s) = v_geom (view_of s0) ->
  exists n, round s (cursor start j) n /\ start <= cursor start j /\
    cursor start j + n <= start + count /\
    piece start (SWAP_BLOCK_INDEX start) j c = (SWAP_SECTOR_ALIGN (cursor start j), cursor start j, n).
Proof.
  intros Hs Hc Hend Hres Hj Hcur Ec Hg. rewrite (reached_cursor _ _ _ Hcur) in Ec.
  destruct (piece_spec start count j c) as (b & n & Epc & Hpo); try done; try lia.
  destruct Hpo as [_ Eb _ Hin _ _ Hrange]. rewrite Eb in Epc. exists n.
  assert (v_reserve (view_of s) = v_reserve (view_of s0)) as Hvr by (unfold v_reserve; by rewrite Hg).
  unfold round, user_sector. rewrite Hvr. split_and!; try done; lia.
Qed.

Lemma wp_core_write_kept start count bad buf s :
  kept rs s -> request s start count buf ->
  wp (scsi_swap_core_write start count bad buf) (fun _ s' => kept rs s') s.
Proof.
  intros Hk Hrq. pose proof Hk as [Hinv _ _ _ _ _]. pose proof (request_index _ _ _ _ Hinv Hrq) as Hix.
  destruct Hrq as [Hs Hc Hend Hbuf Hus]. pose proof Hinv as (_ & Hm & _).
  assert (v_reserve (view_of s) < 2 ^ 32 - 2 ^ 20) as Hres by (pose proof (mo_geom _ Hm); layout; lia).
  unfold scsi_swap_core_write. rewrite Hix. kstep. apply wp_is_dead. destruct (c_true _); [by kstep|].
  unfold inc_user. do 2 kstep. set (s0 := upd_core _ s).
  destruct (block_count_spec start count) as [Hb0 Hb]; [lia..|].
  kstep. apply wp_mono with (P := fun _ s' => kept rs s').
  2: { intros r s1 Hk1. unfold dec_user. do 2 kstep. apply (kept_user (s32 (user (core s1) - 1))) in Hk1.
       by destruct r; kstep. }
  apply (wp_for (fun j a s1 => write_loop_inv start count buf s0 j a s1 /\ kept rs s1)).
  - split; [|by apply kept_user]. unfold write_loop_inv, reached, cursor.
    cbn [Z.eqb wa_count wa_pos wa_dirty]. rewrite Z.min_r by lia. split_and!; try lia; try done.
    + split; try done. by apply inv_user.
    + intros x Hx. lia.
  - intros j a s1 Hj (HI & Hk1). rewrite Z2Nat.id in Hj by lia.
    assert (cursor start j < start + count) as Hcur by (apply Hb; lia). eapply wp_mono.
    { apply wp_with.
      - eapply (write_round start count _ _ _ _ s0); try exact Hend; try exact Hres; try exact HI;
          try exact Hbuf; lia.
      - destruct HI as (Ec & Ep & Hst & _). rewrite (reached_cursor _ _ _ Hcur) in Ep.
        destruct (round_reached start count j (wa_count a) s0 s1) as (n & Hrd & Hst' & Hle & Epc);
          try done; [lia..|by apply Hst|].
        destruct (Hrd) as (_ & _ & Hn & _).
        eapply (wlp_core_write_blk_kept _ _ _ _ _ _ (cursor start j) n); try done; rewrite ?Ep; lia. }
    intros [a'|u] s2 [HH Hk2]; done.
  - intros a s1 (_ & Hk1). exact Hk1.
Qed.

Lemma wp_core_read_kept start count bad buf s :
  kept rs s -> request s start count buf ->
  wp (scsi_swap_core_read start count bad buf) (fun _ s' => kept rs s') s.
Proof.
  intros Hk Hrq. pose proof Hk as [Hinv _ _ _ _ _]. pose proof (request_index _ _ _ _ Hinv Hrq) as Hix.
  destruct Hrq as [Hs Hc Hend Hbuf Hus]. pose proof Hinv as (_ & Hm & _).
  assert (v_reserve (view_of s) < 2 ^ 32 - 2 ^ 20) as Hres by (pose proof (mo_geom _ Hm); layout; lia).
  unfold scsi_swap_core_read. rewrite Hix. kstep. apply wp_is_dead. destruct (c_true _); [by kstep|].
  unfold inc_user. do 2 kstep. set (s0 := upd_core _ s).
  destruct (block_count_spec start count) as [Hb0 Hb]; [lia..|].
  kstep. apply wp_mono with (P := fun _ s' => kept rs s').
  2: { intros r s1 Hk1. unfold dec_user. do 2 kstep. apply (kept_user (s32 (user (core s1) - 1))) in Hk1.
       by destruct r; kstep. }
  apply (wp_for (fun j a s1 => read_loop_inv start count s0 j a s1 /\ kept rs s1)).
  - split; [|by apply kept_user]. unfold read_loop_inv, reached, cursor.
    cbn [Z.eqb ra_count ra_pos ra_buf ra_dirty]. rewrite Z.min_r by lia. split_and!; try lia; try done.
    + split; try done. by apply inv_user.
    + intros x Hx. lia.
  - intros j a s1 Hj (HI & Hk1). rewrite Z2Nat.id in Hj by lia.
    assert (cursor start j < start + count) as Hcur by (apply Hb; lia). eapply wp_mono.
    { apply wp_with.
      - eapply (read_round start count _ _ _ s0); try exact Hend; try exact Hres; try exact HI; lia.
      - destruct HI as (Ec & _ & _ & Hst & _).
        destruct (round_reached start count j (ra_count a) s0 s1) as (n & Hrd & _ & _ & Epc);
          try done; [lia..|by apply Hst|].
        by eapply (wlp_core_read_blk_kept _ _ _ _ _ (cursor start j) n). }
    intros [a'|u] s2 [HH Hk2]; done.
  - intros a s1 (_ & Hk1). exact Hk1.
Qed.
End Requests.
