(* ===== verification/CoreBoot.v ===== *)
(** * Starting the driver on a disk it has used before

    The disk of a core in order ([kept], CoreDisk.v) holds the mapping; the file
    proves that a start of the driver finds the head, counts the same entries in
    both copies of the table, loads every entry with the data of its replacement
    block and loads the log, so that a reader sees the same disk after the start as
    before it.  Memory is assumed to be available ([kmem] is empty) and the reserved
    area to be sound; the user's sectors may fail in any way. *)

From stdpp Require Import base gmap fin_maps list list_numbers.
From coqutil Require Import Byte Word.LittleEndianList.
From Stdlib Require Import ZArith Lia.
From S2P Require Import Prelude Kapi Crc32 Ring Layout State Scsi Log Core CoreInv CoreSpec CoreReq CoreInit CoreDisk CorePersist.

Local Open Scope Z_scope.

Section Head.
Context {D : Type} {rs : Z} `{SoundReserve D rs}.
Implicit Types (s : st D) (v : view).

(** ** The head *)

Lemma wp_head_state_sound x (b : bytes) s :
  in_reserve rs x 1 -> zlen b = 512 ->
  wp (swap_get_head_state x 1 b)
     (fun y s' => io s s' /\ touches nowhere s s' /\
        y = (head_state_of (decode_head (media (dev s) x)), media (dev s) x)) s.
Proof.
  intros Hx Hb. unfold swap_get_head_state, hd_read_sector_retry, SECTOR_SIZE. kstep.
  eapply wp_mono; [by apply wp_read_reserve|].
  cbv beta. intros [ret b'] s' (Hz & Hio & Ht & Hl & Hm). cbn [fst snd] in *. subst ret.
  cbn [Z.eqb negb]. kstep. split_and!; [done..|]. specialize (Hm 0 ltac:(lia)).
  rewrite Z.add_0_r, slice_last in Hm by done. by rewrite Hm.
Qed.

(** A start so far: the medium differs from [s0]'s at most in [R], the core in the
    head and the count of errors, and memory is still available. *)
Definition starting (R : Z -> Prop) s0 s : Prop :=
  boot s0 s /\ touches R s0 s /\ kmem s = kmem s0.

Lemma starting_refl R s : starting R s s.
Proof. split_and!; [apply boot_refl|done..]. Qed.

Lemma io_kmem s s' : io s s' -> kmem s' = kmem s.
Proof. unfold io. by intros ->. Qed.

Lemma starting_io (R R' : Z -> Prop) s0 s s' :
  starting R s0 s -> io s s' -> touches R' s s' ->
  (forall x, R' x -> R x /\ between (sector_reserve_start (core s0) + SWAP_HEAD_OFFEST)
                      (sector_reserve_start (core s0) + MAX_RESERVED_SECTOR) x) ->
  starting R s0 s'.
Proof.
  intros (Hb & Ht & Hk) Hio Ht' HR. pose proof (boot_reserve _ _ Hb) as Er. split_and!.
  - eapply boot_trans; [exact Hb|]. eapply boot_io; [done|exact Ht'|]. rewrite Er. intros x Hx. by apply HR.
  - eapply touches_trans; [exact Ht|]. eapply touches_mono; [exact Ht'|]. intros x Hx. by apply HR.
  - rewrite <- Hk. by apply io_kmem.
Qed.

Lemma starting_head R h s0 s : starting R s0 s -> starting R s0 (upd_core (core_head h) s).
Proof. intros (Hb & Ht & Hk). split_and!; [eapply boot_trans; [exact Hb|apply boot_head]|done..]. Qed.

(** What the search for the head ends with: the head of the disk, and at most its
    backup rewritten. *)
Definition head_loaded (h0 : Z) s0 s : Prop :=
  starting (fun x => x = h0 + SWAP_HEAD_BACKUP_OFFEST) s0 s /\
  head (core s) = decode_head (media (dev s0) h0) /\ sector_head (core s) = h0.

(** One round: heads that were given up are passed over, a good one is adopted. *)
Lemma wp_head_block_saved i (back : bytes) s0 s :
  let h := rs + SWAP_HEAD_OFFEST + 128 * i in
  0 <= rs /\ rs + MAX_RESERVED_SECTOR <= 2 ^ 32 -> 0 <= i < 128 ->
  sector_reserve_start (core s0) = rs -> starting nowhere s0 s -> head_wf (head (core s)) ->
  zlen back = 512 ->
  let hs := head_state_of (decode_head (media (dev s0) h)) in
  hs = HEAD_INVALID \/ hs = HEAD_OK ->
  wp (init_head_block (rs + SWAP_HEAD_OFFEST) i back)
     (fun r s' => match r with
        | inl back' => hs = HEAD_INVALID /\ starting nowhere s0 s' /\ head_wf (head (core s')) /\ zlen back' = 512
        | inr ret => hs = HEAD_OK /\ ret = 0 /\ head_loaded h s0 s'
        end) s.
Proof.
  intros h Hrs Hi Er Hst Hw Hl hs Hhs. unfold init_head_block.
  change SECTOR_NUM_PER_SWAP_BLOCK with 128. replace (i * 128) with (128 * i) by lia. fold h.
  assert (0 <= h < 2 ^ 32 - 64 /\ in_reserve rs h 1 /\ in_reserve rs (h + 64) 1) as (Hh & I1 & I2)
    by (subst h; unfold in_reserve; layout; lia).
  rewrite (u64_small h) by lia. unfold SWAP_HEAD_BACKUP_OFFEST. rewrite (u64_small (h + 64)) by lia.
  do 3 kstep. eapply wp_mono; [apply wp_head_state_sound; [done|by apply zlen_encode_head]|].
  cbv beta. intros y s1 (Hio1 & Ht1 & ->).
  assert (media (dev s) h = media (dev s0) h) as Em by (apply Hst; tauto).
  assert (starting nowhere s0 s1) as Hst1 by (eapply starting_io; [exact Hst|done|exact Ht1|by intros x []]).
  kstep. apply wp_upd_head. apply (starting_head _ (decode_head (media (dev s) h))) in Hst1.
  set (s2 := upd_core _ s1) in *. rewrite Em in *. fold hs.
  assert (head_wf (head (core s2))) as Hw2 by (apply decode_head_wf, media_len).
  destruct Hhs as [Ehs|Ehs]; rewrite Ehs.
  { rewrite bool_decide_eq_true_2 by done. kstep. by split_and!. }
  rewrite bool_decide_eq_false_2 by done. kstep.
  eapply wp_mono; [by apply wp_head_state_sound|]. cbv beta. intros y s3 (Hio3 & Ht3 & ->).
  assert (starting nowhere s0 s3) as Hst3 by (eapply starting_io; [exact Hst1|done|exact Ht3|by intros x []]).
  assert (head (core s3) = decode_head (media (dev s0) h)) as Eh3
    by (rewrite (io_head _ _ Hio3), <- Em; reflexivity).
  rewrite (bool_decide_eq_false_2 (HEAD_OK = HEAD_FAIL)), (bool_decide_eq_true_2 (HEAD_OK = HEAD_OK)) by done.
  cbn [andb]. kstep.
  apply wp_mono with (P := fun _ s4 => starting (fun x => x = h + 64) s0 s4 /\
                                       head (core s4) = decode_head (media (dev s0) h)).
  - assert (starting (fun x => x = h + 64) s0 s3) as Hst4.
    { destruct Hst3 as (? & ? & ?). split_and!; [done|by apply touches_nowhere|done]. }
    destruct (negb _); [|by kstep]. kstep. unfold hd_write_sector_retry, SECTOR_SIZE.
    eapply wp_mono; [apply wp_write_reserve; [done|done|apply media_len]|].
    cbv beta. intros r s4 (_ & Hio4 & Ht4 & _). kstep. split; [|by rewrite (io_head _ _ Hio4)].
    eapply starting_io; [exact Hst4|done|exact Ht4|]. rewrite Er. unfold between. subst h. layout. lia.
  - intros _ s4 ((Hb4 & Ht4 & Hk4) & Eh4). do 3 kstep. split_and!; [done..|]. unfold head_loaded.
    split_and!; try done. split_and!; try done. eapply boot_trans; [exact Hb4|apply boot_sector_head].
Qed.

(** The search for the head on a disk in use. *)
Lemma wp_init_head_saved v num s :
  geom_ok v -> v_reserve v = rs -> saved v (media (dev s)) ->
  sector_reserve_start (core s) = rs -> head_wf (head (core s)) ->
  wp (init_swap_head (rs + SWAP_HEAD_OFFEST) num) (fun ret s' => ret = 0 /\ head_loaded (v_head v) s s') s.
Proof.
  intros Hg Hr Hs Er Hw. destruct (geom_nums _ Hg Hr) as (N1 & N2 & _).
  destruct (sv_place _ _ Hs) as (i0 & Hi0 & Eh & Hinv). pose proof (sv_head _ _ Hs) as Hok.
  unfold head_block in *. rewrite Hr in *. rewrite Eh in Hok |- *. unfold init_swap_head. kstep.
  apply wp_mono with (P := fun r s' => r = inr 0 /\ head_loaded (rs + SWAP_HEAD_OFFEST + 128 * i0) s s').
  2: { intros r s' (-> & Hl). by kstep. }
  apply (wp_for (fun j back s1 => j <= i0 /\ starting nowhere s s1 /\ head_wf (head (core s1)) /\ zlen back = 512)).
  - split_and!; [lia|apply starting_refl|done|by apply zlen_fill].
  - change (Z.of_nat (Z.to_nat MAX_SWAP_HEAD_BLOCK_NUM)) with 1024.
    intros j back s1 Hj (Hle & Hst & Hw1 & Hl).
    eapply wp_mono; [apply (wp_head_block_saved j back s); try done; [lia|]|].
    + destruct (decide (j = i0)) as [->|Hne]; [by right|left]. apply Hinv. lia.
    + intros [b|ret] s2; cbv beta iota.
      * intros (E & Hst2 & Hw2 & Hl2). split_and!; try done.
        destruct (decide (j = i0)) as [->|Hne]; [congruence|lia].
      * intros (E & -> & Hld). destruct (decide (j = i0)) as [->|Hne]; [done|].
        rewrite Hinv in E by lia. done.
  - change (Z.of_nat (Z.to_nat MAX_SWAP_HEAD_BLOCK_NUM)) with 1024. intros back s1 (Hle & _). lia.
Qed.
End Head.

(** ** Counting the entries *)

Section Count.
Context {D : Type} {rs : Z} `{SoundReserve D rs}.
Implicit Types (s : st D) (v : view).

(** Entries in use at the front of a table sector. *)
Lemma count_entries_full (b : bytes) (c : nat) : forall n j total,
  (forall k, j <= k < j + Z.of_nat c -> table_used (table_at b k) = true) ->
  ((c < n)%nat -> sec_size (table_at b (j + Z.of_nat c)) <> SECTOR_NUM_PER_SWAP_BLOCK) -> (c <= n)%nat ->
  count_entries n j b total
  = if decide (c < n)%nat then inr (total + Z.of_nat c) else inl (total + Z.of_nat c).
Proof.
  induction c as [|c IH]; intros n j total Hu Ht Hle.
  - rewrite Z.add_0_r in *. destruct n as [|n]; [done|]. rewrite decide_True by lia. cbn [count_entries].
    rewrite (proj2 (Z.eqb_neq _ _)) by (apply Ht; lia). done.
  - destruct n as [|n]; [lia|]. cbn [count_entries].
    specialize (Hu j ltac:(lia)) as Hj. unfold table_used in Hj. apply andb_true_iff in Hj as [-> ->].
    cbn [negb]. rewrite IH.
    + replace (total + 1 + Z.of_nat c) with (total + Z.of_nat (S c)) by lia.
      destruct (decide (c < n)%nat), (decide (S c < S n)%nat); try lia; done.
    + intros k Hk. apply Hu. lia.
    + intros Hlt. replace (j + 1 + Z.of_nat c) with (j + Z.of_nat (S c)) by lia. apply Ht. lia.
    + lia.
Qed.

Lemma entry_at_used v m base n p i :
  maps_ok v -> table_saved v m base -> v_list v !! n = Some p -> v_infos v !! p = Some i ->
  table_used (entry_at m base (Z.of_nat n)) = true.
Proof.
  intros Hm [Ht _] Hn Hi. specialize (Ht _ _ _ Hn Hi).
  destruct (mo_infos _ Hm p) as (j & Hj & Hok); [by eapply list_elem_of_lookup_2|].
  rewrite Hi in Hj. injection Hj as <-. set (e := entry_at m base (Z.of_nat n)) in *.
  destruct (io_table _ _ Hok) as (_&_&_&_&_&Hlen&_).
  assert (length (reserverd e) = 6%nat) as Hl by (rewrite <- Hlen, <- Ht; done).
  unfold table_used. apply andb_true_iff. split; apply Z.eqb_eq.
  - rewrite <- (io_size _ _ Hok), <- Ht. done.
  - rewrite <- (crc_of_table_prefix e (checksum e) 0 Hl).
    change (table_with_crc (checksum e) (table_with_save 0 e)) with (table_with_save 0 e).
    rewrite Ht, <- (io_crc _ _ Hok), <- Ht. done.
Qed.

Lemma lookup_all v n :
  maps_ok v -> 0 <= n < zlen (v_list v) ->
  exists p i, v_list v !! Z.to_nat n = Some p /\ v_infos v !! p = Some i /\ info_ok (v_data v) i.
Proof.
  intros Hm Hn. destruct (lookup_lt_is_Some_2 (v_list v) (Z.to_nat n)) as [p Hp]; [unfold zlen in Hn; lia|].
  destruct (mo_infos _ Hm p) as (i & Hi & Hok); [by eapply list_elem_of_lookup_2|]. eauto.
Qed.

(** How many entries of table sector [q] are in use. *)
Definition in_sector v (q : Z) : nat := Z.to_nat (Z.min 8 (zlen (v_list v) - 8 * q)).

Lemma count_sector v m base q total :
  maps_ok v -> table_saved v m base -> 0 <= q < 32 -> 8 * q <= zlen (v_list v) ->
  count_entries (Z.to_nat table_num_per_sect) 0 (m (base + q)) total
  = (if decide (zlen (v_list v) < 8 * q + 8) then inr else inl) (total + Z.min 8 (zlen (v_list v) - 8 * q)).
Proof.
  intros Hm Ht Hq Hlen. rewrite (count_entries_full _ (in_sector v q)); unfold in_sector.
  - change (Z.to_nat table_num_per_sect) with 8%nat. rewrite Z2Nat.id by lia.
    destruct (decide _), (decide _); try lia; done.
  - intros k Hk. rewrite <- entry_at_in by lia.
    destruct (lookup_all v (8 * q + k) Hm ltac:(lia)) as (p & i & Hp & Hi & _).
    replace (8 * q + k) with (Z.of_nat (Z.to_nat (8 * q + k))) by lia. by eapply entry_at_used.
  - change (Z.to_nat table_num_per_sect) with 8%nat. intros Hlt. rewrite Z2Nat.id by lia.
    rewrite <- entry_at_in by lia. apply Ht. lia.
  - change (Z.to_nat table_num_per_sect) with 8%nat. lia.
Qed.

Lemma wp_calc_saved v base s :
  maps_ok v -> in_reserve rs base 32 -> table_saved v (media (dev s)) base ->
  wp (calc_swap_info_num base SWPA_TABLE_N_SECTOR)
     (fun ret s' => ret = zlen (v_list v) /\ io s s' /\ touches nowhere s s') s.
Proof.
  intros Hm Hin Ht. pose proof (mo_len _ Hm) as Hmax. pose proof (zlen_nonneg (v_list v)) as Hz.
  unfold calc_swap_info_num. kstep.
  apply wp_mono with (P := fun r s' => (r = inl (zlen (v_list v)) \/ r = inr (zlen (v_list v))) /\
                                       io s s' /\ touches nowhere s s').
  2: { intros r s' ([-> | ->] & Hio & Htc); by kstep. }
  apply (wp_for (fun q total s1 => total = 8 * q /\ 8 * q <= zlen (v_list v) /\ io s s1 /\ touches nowhere s s1)).
  - split_and!; [lia|lia|apply io_refl|done].
  - change (Z.of_nat (Z.to_nat SWPA_TABLE_N_SECTOR)) with 32.
    intros q total s1 Hq (-> & Hle & Hio & Htc). unfold hd_read_sector_retry, SECTOR_SIZE.
    unfold in_reserve, MAX_RESERVED_SECTOR, SECTOR_1M in Hin. rewrite u64_small by lia.
    kstep. eapply wp_mono.
    { apply wp_read_reserve; [|done|by apply zlen_fill]. unfold in_reserve, MAX_RESERVED_SECTOR, SECTOR_1M. lia. }
    cbv beta. intros [ret b] s2 (Hr & Hio2 & Ht2 & Hl & Hb). cbn [fst snd] in *. subst ret. cbn [Z.eqb negb].
    specialize (Hb 0 ltac:(lia)). rewrite Z.add_0_r, slice_last in Hb by done. subst b.
    rewrite (Htc (base + q)) by tauto. kstep. rewrite (count_sector v) by (done || lia).
    assert (io s s2 /\ touches nowhere s s2) as [? ?] by (split; [by eapply io_trans|by eapply touches_trans]).
    case_decide.
    + split_and!; try done. right. f_equal. lia.
    + split_and!; try done; lia.
  - change (Z.of_nat (Z.to_nat SWPA_TABLE_N_SECTOR)) with 32. intros total s1 (-> & Hle & Hio & Htc).
    split_and!; try done. left. f_equal. lia.
Qed.
End Count.

(** ** Loading the entries *)

Section Load.
Context {D : Type} {rs : Z} `{SoundReserve D rs}.
Implicit Types (s : st D) (v : view).

(** The first [n] mappings of [v] are in memory again. *)
Record loaded v s0 (n : Z) s : Prop := {
  ld_core : core s = core_dead (device_dead (core s)) (core_num n (core_list (info_list (core s)) (core s0)));
  ld_log : log s = log s0;
  ld_kmem : kmem s = [];
  ld_touch : touches nowhere s0 s;
  ld_len : zlen (info_list (core s)) = n;
  ld_infos : forall k p, info_list (core s) !! k = Some p ->
    exists q i, v_list v !! k = Some q /\ v_infos v !! q = Some i /\ v_infos (view_of s) !! p = Some i
}.

Lemma loaded_io v s0 n s s' : loaded v s0 n s -> io s s' -> touches nowhere s s' -> loaded v s0 n s'.
Proof.
  intros [L1 L2 L3 L4 L5 L6] Hio Ht. pose proof (io_view _ _ Hio) as Ev. pose proof (same_core_io _ _ Hio) as Ec.
  unfold same_core in Ec.
  assert (info_list (core s') = info_list (core s)) as El by (by rewrite Ec).
  split; rewrite ?El; try done.
  - rewrite Ec, L1. done.
  - rewrite <- L2. by apply io_log.
  - rewrite <- L3. by apply io_kmem.
  - by eapply touches_trans.
  - intros k p Hk. rewrite Ev. by apply L6.
Qed.

(** Objects that are not listed do not matter. *)
Lemma loaded_objects v s0 n m s :
  loaded v s0 n s -> (forall p, p ∈ info_list (core s) -> m !! p = infos s !! p) ->
  loaded v s0 n (set_infos m s).
Proof.
  intros [L1 L2 L3 L4 L5 L6] Hm. split; try done. intros k p Hk.
  destruct (L6 k p Hk) as (q & i & Hq & Hi & Hv). exists q, i. split_and!; try done.
  rewrite view_lookup in Hv |- *. cbn [infos set_infos]. rewrite Hm; [done|].
  by eapply list_elem_of_lookup_2.
Qed.

Lemma loaded_unlisted v s0 n p s : loaded v s0 n s -> infos s !! p = None -> p ∉ info_list (core s).
Proof.
  intros Hl Hp [k Hk]%list_elem_of_lookup. destruct (ld_infos _ _ _ _ Hl k p Hk) as (q & i & _ & _ & Hv).
  rewrite view_lookup, Hp in Hv. done.
Qed.

Lemma loaded_insert v s0 n p e s :
  loaded v s0 n s -> p ∉ info_list (core s) -> loaded v s0 n (set_infos (<[p := e]> (infos s)) s).
Proof. intros Hl Hp. apply loaded_objects; [done|]. intros q Hq. apply lookup_insert_ne. by intros ->. Qed.

Lemma loaded_add v s0 n p q i e s :
  loaded v s0 n s -> 0 <= n < 256 -> v_list v !! Z.to_nat n = Some q -> v_infos v !! q = Some i ->
  infos s !! p = Some e -> erase_save e = i ->
  let s1 := upd_core (core_list (info_list (core s) ++ [p])) s in
  loaded v s0 (n + 1) (upd_core (core_num (s32 (info_num (core s1) + 1))) s1).
Proof.
  intros [L1 L2 L3 L4 L5 L6] Hn Hq Hi Hp He s1.
  assert (info_num (core s1) = n) as En by (cbn; by rewrite L1).
  rewrite En, s32_small by lia. split; try done.
  - subst s1. cbn [core upd_core]. rewrite L1. done.
  - cbn. rewrite zlen_app, L5. done.
  - intros k p' Hk. cbn in Hk. apply lookup_app_Some in Hk as [Hk|[Hge Hk]].
    + destruct (L6 k p' Hk) as (q' & i' & ?). by exists q', i'.
    + apply list_lookup_singleton_Some in Hk as [Hz <-]. exists q, i.
      assert (k = Z.to_nat n) as -> by (unfold zlen in L5; lia). split_and!; try done.
      rewrite view_lookup. cbn. by rewrite Hp, <- He.
Qed.

Lemma wp_kmalloc_free n (Q : option bytes -> st D -> Prop) s :
  kmem s = [] -> Q (Some (fill n Byte.x00)) s -> wp (kmalloc n) Q s.
Proof. intros E HQ. unfold wp, kmalloc, st_alloc. by rewrite E. Qed.

(** The data of a replacement block. *)
Lemma wp_load_data v p i d s :
  geom_ok v -> v_reserve v = rs -> info_ok (v_data v) i -> data i = Some d ->
  saved v (media (dev s)) -> p ∈ v_list v -> v_infos v !! p = Some i -> kmem s = [] ->
  wp (alloc_swap_info_data (swap_sec (table i)) SECTOR_NUM_PER_SWAP_BLOCK)
     (fun o s' => o = Some d /\ io s s' /\ touches nowhere s s') s.
Proof.
  intros Hg Hr Hok Hd Hs Hp Hi Hk. destruct (geom_nums _ Hg Hr) as (N1 & N2 & _ & _ & N5 & _).
  destruct (io_data _ _ Hok) as (d' & Hd' & Hlen). rewrite Hd in Hd'. injection Hd' as <-.
  pose proof (io_swap _ _ Hok) as Esw. pose proof (info_index _ _ Hok) as Hix. rewrite N5 in Esw.
  unfold alloc_swap_info_data. change (u32 (SECTOR_NUM_PER_SWAP_BLOCK * SECTOR_SIZE)) with 65536.
  kstep. apply wp_kmalloc_free; [done|]. unfold hd_read_sector_retry. kstep.
  unfold MAX_RESERVED_SECTOR, SECTOR_1M, SECTOR_NUM_PER_SWAP_BLOCK in *. eapply wp_mono.
  { apply wp_read_reserve; [|done|by apply zlen_fill].
    unfold in_reserve, MAX_RESERVED_SECTOR, SECTOR_1M. lia. }
  cbv beta. intros x s' (Hz & Hio & Ht & Hl & Hm). rewrite Hz. cbn [Z.eqb negb]. kstep.
  split_and!; try done. f_equal. apply (slices_eq 128); [lia|done|done|]. intros k Hk128.
  rewrite Hm by done. by eapply (sv_data _ _ Hs).
Qed.

(** What holds of the state in which the tables are read. *)
Record loading v s0 : Prop := {
  lg_maps : maps_ok v;
  lg_rs : v_reserve v = rs;
  lg_saved : saved v (media (dev s0));
  lg_core : sector_data (core s0) = v_data v /\ sector_reserve_start (core s0) = rs
}.

Lemma loaded_saved v s0 n s : loading v s0 -> loaded v s0 n s -> saved v (media (dev s)).
Proof.
  intros Hlg Hl. eapply saved_frame; [apply (mo_len _ (lg_maps _ _ Hlg))| |apply Hlg].
  intros x _. apply (ld_touch _ _ _ _ Hl). tauto.
Qed.

(** One entry in use. *)
Lemma wp_load_entry v s0 n t p q i s (k : option bytes -> K (st D) (bytes * bool + Z)) Q :
  loading v s0 -> loaded v s0 n s -> v_list v !! Z.to_nat n = Some q -> v_infos v !! q = Some i ->
  table_with_save 0 t = table i -> infos s !! p = None ->
  (forall d s', loaded v s0 n s' -> infos s' !! p = Some (mkInfo t (Some d)) -> data i = Some d ->
     wp (k (Some d)) Q s') ->
  wp (d ← alloc_swap_info_data (swap_sec t) (sec_size t); set_info p (mkInfo t d);; k d) Q
     (set_infos (<[p := mkInfo t None]> (infos s)) s).
Proof.
  intros Hlg Hl Hq Hi Et Hp Hk. pose proof (lg_maps _ _ Hlg) as Hm.
  destruct (mo_infos _ Hm q) as (j & Hj & Hok); [by eapply list_elem_of_lookup_2|].
  rewrite Hi in Hj. injection Hj as <-. destruct (io_data _ _ Hok) as (d & Hd & _).
  pose proof (loaded_unlisted _ _ _ _ _ Hl Hp) as Hnl. set (s1 := set_infos _ s).
  assert (loaded v s0 n s1) as Hl1 by (by apply loaded_insert).
  assert (swap_sec t = swap_sec (table i) /\ sec_size t = SECTOR_NUM_PER_SWAP_BLOCK) as [-> ->]
    by (rewrite <- (io_size _ _ Hok), <- Et; done).
  kstep. eapply wp_mono.
  { eapply (wp_load_data v q i d); try done; [apply (mo_geom _ Hm)|apply Hlg|by eapply loaded_saved|
      by eapply list_elem_of_lookup_2|apply (ld_kmem _ _ _ _ Hl1)]. }
  cbv beta. intros o s' (-> & Hio & Ht). pose proof (loaded_io _ _ _ _ _ Hl1 Hio Ht) as Hl'.
  unfold set_info. do 2 kstep. eapply Hk; [|apply lookup_insert_eq|done].
  apply loaded_insert; [done|]. by rewrite (same_core_io _ _ Hio).
Qed.

Lemma wp_init_entries_saved v s0 base q : forall n j s,
  loading v s0 -> table_saved v (media (dev s0)) base -> 0 <= q < 32 -> 0 <= j -> Z.of_nat n + j = 8 ->
  8 * q + j <= zlen (v_list v) -> loaded v s0 (8 * q + j) s ->
  wp (init_entries n j (media (dev s0) (base + q)))
     (fun r s' => exists e, r = inl (media (dev s0) (base + q), e) /\
        if (e : bool) then loaded v s0 (zlen (v_list v)) s'
        else 8 * q + 8 <= zlen (v_list v) /\ loaded v s0 (8 * q + 8) s') s.
Proof.
  induction n as [|n IH]; intros j s Hlg Ht Hq Hj Hn Hle Hl; cbn [init_entries].
  { kstep. exists false. split; [done|]. assert (j = 8) as -> by lia. done. }
  pose proof (lg_maps _ _ Hlg) as Hm. pose proof (mo_len _ Hm) as Hmax.
  kstep. apply wp_kmalloc_free; [apply Hl|]. do 2 kstep. set (p := fresh _).
  assert (infos s !! p = None) as Hp by (apply not_elem_of_dom, is_fresh).
  rewrite <- (entry_at_in _ _ q j) by lia. set (t := entry_at _ _ _).
  kstep. unfold set_info at 1. kstep.
  assert (sector_data (core s) = v_data v /\ sector_reserve_start (core s) = rs) as [Esd Esr].
  { rewrite (ld_core _ _ _ _ Hl). apply Hlg. }
  destruct (decide (8 * q + j = zlen (v_list v))) as [E|Hne].
  - destruct Ht as [_ Hend]. rewrite (proj2 (Z.eqb_neq _ _)) by (apply Hend; lia). cbn [negb].
    unfold free_info. do 3 kstep. exists true. split; [done|]. rewrite <- E.
    apply (loaded_objects v s0 _ (delete p (<[p := mkInfo t None]> (infos s))) s); [done|].
    intros p' Hp'. by rewrite delete_insert_id.
  - destruct (lookup_all v (8 * q + j) Hm ltac:(lia)) as (pq & i & Hpq & Hi & Hok).
    assert (table_used t = true /\ table_with_save 0 t = table i) as [Hu Et].
    { unfold t. replace (8 * q + j) with (Z.of_nat (Z.to_nat (8 * q + j))) by lia.
      split; [by eapply entry_at_used|by eapply Ht]. }
    unfold table_used in Hu. apply andb_true_iff in Hu as [-> Hcrc]. rewrite Hcrc. cbn [negb].
    assert (swap_sec t = swap_sec (table i) /\ src_sec t = src_sec (table i)) as [E1 E2]
      by (rewrite <- Et; split; reflexivity).
    clearbody t.
    rewrite (proj2 (Z.ltb_ge (swap_sec t) _)), (proj2 (Z.ltb_ge _ (src_sec t))).
    2: { rewrite Esr, E2. pose proof (sv_src _ _ (lg_saved _ _ Hlg) pq i) as Hsrc.
         rewrite (lg_rs _ _ Hlg) in Hsrc. apply Z.lt_le_incl, Hsrc; [by eapply list_elem_of_lookup_2|done]. }
    2: { rewrite Esd, E1, (io_swap _ _ Hok). pose proof (info_index _ _ Hok).
         unfold SECTOR_NUM_PER_SWAP_BLOCK. lia. }
    cbn [orb]. eapply (wp_load_entry v s0 _ t p pq i); [exact Hlg|exact Hl|exact Hpq|exact Hi|exact Et|exact Hp|].
    intros d s1 Hl1 Ei Hd. do 2 kstep.
    unfold list_add_tail, inc_info_num. do 4 kstep.
    apply IH; [exact Hlg|exact Ht|lia|lia|lia|lia|]. rewrite Z.add_assoc.
    eapply (loaded_add _ _ _ p pq i); [exact Hl1|lia|exact Hpq|exact Hi|exact Ei|].
    destruct i as [ti di]. cbn [table data] in Et, Hd. rewrite Hd, <- Et. reflexivity.
Qed.

(** One table sector. *)
Lemma wp_info_sector_saved v s0 q acc s :
  loading v s0 -> 0 <= q < 32 -> 8 * q <= zlen (v_list v) -> loaded v s0 (8 * q) s ->
  wp (init_info_sector (v_table v) NO_NEED_SYNC q acc)
     (fun r s' => match r with
        | inl _ => 8 * (q + 1) <= zlen (v_list v) /\ loaded v s0 (8 * (q + 1)) s'
        | inr ret => ret = 0 /\ loaded v s0 (zlen (v_list v)) s'
        end) s.
Proof.
  intros Hlg Hq Hle Hl. pose proof (lg_maps _ _ Hlg) as Hm.
  destruct (geom_nums _ (mo_geom _ Hm) (lg_rs _ _ Hlg)) as (N1 & N2 & _ & N4 & _).
  unfold MAX_RESERVED_SECTOR, SECTOR_1M in N2.
  unfold init_info_sector. destruct acc as [a1 a2]. rewrite u64_small by lia.
  unfold hd_read_sector_retry, SECTOR_SIZE. kstep. eapply wp_mono.
  { apply wp_read_reserve; [|done|by apply zlen_fill]. unfold in_reserve, MAX_RESERVED_SECTOR, SECTOR_1M. lia. }
  cbv beta. intros [ret b] s1 (Hr & Hio & Ht & Hlen & Hb). cbn [fst snd] in *. subst ret. cbn [Z.eqb negb].
  specialize (Hb 0 ltac:(lia)). rewrite Z.add_0_r, slice_last in Hb by done. subst b.
  rewrite (ld_touch _ _ _ _ Hl (v_table v + q)) by tauto. kstep. eapply wp_mono.
  { apply (wp_init_entries_saved v s0 (v_table v) q (Z.to_nat table_num_per_sect) 0 s1);
      [exact Hlg|apply Hlg|lia|lia|reflexivity|lia|].
    rewrite Z.add_0_r. eapply loaded_io; [exact Hl|exact Hio|exact Ht]. }
  cbv beta. intros r s2 (e & -> & He). do 3 kstep. destruct e.
  - kstep. split; [reflexivity|exact He].
  - kstep. replace (8 * (q + 1)) with (8 * q + 8) by lia. exact He.
Qed.

(** Loading the table of a disk in use. *)
Lemma wp_init_info_saved v num s :
  loading v s -> sector_table (core s) = v_table v -> kmem s = [] ->
  wp (init_swap_info num) (fun ret s' => ret = 0 /\ loaded v s (zlen (v_list v)) s') s.
Proof.
  intros Hlg Est Hk. pose proof (lg_maps _ _ Hlg) as Hm. pose proof (lg_core _ _ Hlg) as [_ Esr].
  destruct (geom_nums _ (mo_geom _ Hm) (lg_rs _ _ Hlg)) as (N1 & N2 & _ & N4 & _ & N6).
  unfold MAX_RESERVED_SECTOR, SECTOR_1M in N2. pose proof (mo_len _ Hm) as Hmax.
  unfold init_swap_info. do 2 kstep. rewrite Est, Esr.
  assert (u64 (rs + SWAP_TABLE_BACKUP_OFFSET) = backup_table v) as ->.
  { unfold backup_table in *. rewrite (lg_rs _ _ Hlg) in *. rewrite u64_small; lia. }
  do 4 kstep. set (s1 := upd_core (core_num 0) _).
  assert (loaded v s 0 s1) as Hl1.
  { split; [by destruct s as [? ? [] ? ? ? ?]|reflexivity|exact Hk|intros x _; reflexivity|reflexivity|].
    intros k p. cbn. rewrite lookup_nil. done. }
  assert (forall base, base = v_table v \/ base = backup_table v -> in_reserve rs base 32 /\
            table_saved v (media (dev s)) base) as Hbase.
  { intros base Hb. pose proof (lg_saved _ _ Hlg) as Hs.
    split; [unfold in_reserve, MAX_RESERVED_SECTOR, SECTOR_1M; lia|].
    destruct Hb as [-> | ->]; [apply (sv_table _ _ Hs)|apply (sv_backup _ _ Hs)]. }
  assert (forall base s2, base = v_table v \/ base = backup_table v -> loaded v s 0 s2 ->
    wp (calc_swap_info_num base SWPA_TABLE_N_SECTOR)
       (fun ret s3 => ret = zlen (v_list v) /\ loaded v s 0 s3) s2) as Hcalc.
  { intros base s2 Hb Hl2. destruct (Hbase base Hb) as [Hin Ht]. eapply wp_mono.
    - apply (wp_calc_saved v); [exact Hm|exact Hin|].
      eapply table_saved_frame; [exact Hmax| |exact Ht]. intros x _. apply (ld_touch _ _ _ _ Hl2). tauto.
    - cbv beta. intros ret s3 (-> & Hio & Htc). split; [reflexivity|]. by eapply loaded_io. }
  kstep. eapply wp_mono; [apply Hcalc; [by left|exact Hl1]|]. cbv beta. intros n1 s2 (-> & Hl2).
  kstep. eapply wp_mono; [apply Hcalc; [by right|exact Hl2]|]. cbv beta. intros n2 s3 (-> & Hl3).
  unfold choose_table. rewrite Z.ltb_irrefl. destruct (Z.eqb_spec (zlen (v_list v)) 0) as [E|Hne].
  { kstep. rewrite E. split; [reflexivity|exact Hl3]. }
  kstep. apply wp_mono with (P := fun r s' => (exists a, r = inl a \/ r = inr 0) /\ loaded v s (zlen (v_list v)) s').
  2: { intros r s' ((a & [-> | ->]) & Hl); kstep; (split; [reflexivity|exact Hl]). }
  apply (wp_for (fun q _ s' => 8 * q <= zlen (v_list v) /\ loaded v s (8 * q) s')).
  - split; [pose proof (zlen_nonneg (v_list v)); lia|exact Hl3].
  - change (Z.of_nat (Z.to_nat SWPA_TABLE_N_SECTOR)) with 32. intros q acc s4 Hq (Hle & Hl4).
    eapply wp_mono; [apply (wp_info_sector_saved v s q acc); [exact Hlg|lia|exact Hle|exact Hl4]|].
    intros [a|ret] s5; cbv beta iota; [done|]. intros (-> & Hl5).
    split; [exists (0, 0); by right|exact Hl5].
  - change (Z.of_nat (Z.to_nat SWPA_TABLE_N_SECTOR)) with 32. intros acc s4 (Hle & Hl4).
    split; [exists acc; by left|]. replace (zlen (v_list v)) with (8 * (0 + 32)) by lia. exact Hl4.
Qed.
End Load.

(** ** The same mapping with other objects *)

(** The mappings in the order of the list. *)
Definition objects (v : view) : list (option swap_info) := (fun p => v_infos v !! p) <$> v_list v.

(** Two views of the same mapping. *)
Definition same_maps (v v' : view) : Prop := objects v' = objects v /\ v_geom v' = v_geom v.

Section Same.
Implicit Types (v : view) (m : Z -> bytes).

#[global] Instance same_maps_equiv : Equivalence same_maps.
Proof.
  split; unfold same_maps; [done|by intros v v' [-> ->]|by intros v1 v2 v3 [-> ->] [-> ->]].
Qed.

Lemma same_len v v' : same_maps v v' -> zlen (v_list v') = zlen (v_list v).
Proof.
  intros [Eo _]. apply (f_equal (@length _)) in Eo. unfold objects in Eo. rewrite !length_fmap in Eo.
  unfold zlen. by rewrite Eo.
Qed.

Lemma same_at v v' k p :
  same_maps v v' -> v_list v' !! k = Some p ->
  exists q, v_list v !! k = Some q /\ v_infos v' !! p = v_infos v !! q.
Proof.
  intros [Eo _] Hk. apply (f_equal (fun l => l !! k)) in Eo. unfold objects in Eo.
  rewrite !list_lookup_fmap, Hk in Eo. destruct (v_list v !! k) as [q|]; [|done].
  injection Eo as Eo. eauto.
Qed.

Lemma same_listed v v' p :
  same_maps v v' -> p ∈ v_list v' -> exists q, q ∈ v_list v /\ v_infos v' !! p = v_infos v !! q.
Proof.
  intros Hs [k Hk]%list_elem_of_lookup. destruct (same_at v v' k p Hs Hk) as (q & Hq & E).
  exists q. split; [by eapply list_elem_of_lookup_2|done].
Qed.

Lemma same_fmap {A} v v' (f : option swap_info -> A) :
  same_maps v v' -> (fun p => f (v_infos v' !! p)) <$> v_list v' = (fun p => f (v_infos v !! p)) <$> v_list v.
Proof. intros [Eo _]. apply (f_equal (fmap f)) in Eo. unfold objects in Eo. by rewrite <- !list_fmap_compose in Eo. Qed.

#[global] Instance maps_ok_same : Proper (same_maps ==> impl) maps_ok.
Proof.
  intros v v' Hs [Hg Hi Hn Hl]. pose proof Hs as [_ Eg]. split.
  - unfold geom_ok, v_reserve, v_head, v_table, v_data in *. by rewrite Eg.
  - intros p Hp. destruct (same_listed v v' p Hs Hp) as (q & Hq & ->). unfold v_data. rewrite Eg. by apply Hi.
  - replace (v_src v' <$> v_list v') with (v_src v <$> v_list v); [done|].
    symmetry. exact (same_fmap v v' (fmap (src_sec ∘ table)) Hs).
  - by rewrite (same_len v v' Hs).
Qed.

Lemma bits_ok_same v v' :
  same_maps v v' -> bits_ok v ->
  (forall q i, q ∈ v_list v -> v_infos v !! q = Some i -> bit_of (v_bitmap v') (index (table i)) = true) ->
  bits_ok v'.
Proof.
  intros Hs [_ Hn] Hb. split.
  - intros p i Hp Hi. destruct (same_listed v v' p Hs Hp) as (q & Hq & E). rewrite E in Hi. by eapply Hb.
  - replace (v_index v' <$> v_list v') with (v_index v <$> v_list v); [done|].
    symmetry. exact (same_fmap v v' (fmap (index ∘ table)) Hs).
Qed.

Lemma table_saved_same v v' m base : same_maps v v' -> table_saved v m base -> table_saved v' m base.
Proof.
  intros Hs [H1 H2]. split; [|by rewrite (same_len v v' Hs)].
  intros n p i Hn Hi. destruct (same_at v v' n p Hs Hn) as (q & Hq & E). rewrite E in Hi. by eapply H1.
Qed.

Lemma saved_same v v' m : same_maps v v' -> saved v m -> saved v' m.
Proof.
  intros Hs [H0 H1 H2 H3 H4 H5 H6]. pose proof Hs as [_ Eg].
  assert (v_reserve v' = v_reserve v /\ v_head v' = v_head v /\ v_table v' = v_table v)
    as (Er & Eh & Et) by (unfold v_reserve, v_head, v_table; by rewrite Eg).
  unfold backup_table in *.
  split; unfold backup_table, head_block; rewrite ?Eh, ?Et, ?Er; try done.
  - intros p i Hp Hi. destruct (same_listed v v' p Hs Hp) as (q & Hq & E). rewrite E in Hi. by eapply H2.
  - intros p i Hp Hi. destruct (same_listed v v' p Hs Hp) as (q & Hq & E). rewrite E in Hi. by eapply H3.
  - by eapply table_saved_same.
  - by eapply table_saved_same.
  - intros p i d k Hp Hi. destruct (same_listed v v' p Hs Hp) as (q & Hq & E). rewrite E in Hi. by eapply H6.
Qed.

Lemma find_src_same (m m' : gmap ptr swap_info) x : forall l l' : list ptr,
  (fun p => m' !! p) <$> l' = (fun p => m !! p) <$> l ->
  (find_src m' l' x ≫= fun p => m' !! p) = (find_src m l x ≫= fun p => m !! p) /\
  (find_src m' l' x = None <-> find_src m l x = None).
Proof.
  induction l as [|q l IH]; intros [|q' l']; try done. rewrite !fmap_cons. intros [= Eq El].
  cbn [find_src]. rewrite Eq. case_decide; [cbn; by rewrite Eq|by apply IH].
Qed.

Lemma content_same v v' m x : same_maps v v' -> content v' m x = content v m x.
Proof.
  intros [Eo _]. destruct (find_src_same (v_infos v) (v_infos v') (SWAP_SECTOR_ALIGN x) _ _ Eo) as [Ef En].
  unfold content, v_find. destruct (find_src (v_infos v') _ _) as [p'|], (find_src (v_infos v) _ _) as [p|].
  - cbn in Ef. unfold block_data. by rewrite Ef.
  - destruct En as [_ En]. by discriminate En.
  - destruct En as [En _]. by discriminate En.
  - done.
Qed.
End Same.

(** ** A start of the core *)

Section Start.
Context {D : Type} {rs : Z} `{SoundReserve D rs}.
Implicit Types (s : st D) (v : view).

(** A head was found, and the disk holds the mapping [v]. *)
Record found v s : Prop := {
  fd_maps : maps_ok v;
  fd_bits : NoDup (v_index v <$> v_list v);
  fd_rs : v_reserve v = rs;
  fd_saved : saved v (media (dev s));
  fd_log : log_sane rs (media (dev s));
  fd_geom : geom s = v_geom v;
  fd_head : head (core s) = decode_head (media (dev s) (v_head v));
  fd_kmem : kmem s = []
}.

(** The core after a start that found [v] in [s0]. *)
Record revived v s0 s : Prop := {
  rv_maps : same_maps v (view_of s);
  rv_head : head (core s) = head (core s0);
  rv_touch : touches nowhere s0 s;
  rv_num : num_ok (view_of s);
  rv_ready : device_dead (core s) = 0 /\ user (core s) = 0 /\ kmem s = []
}.

(** The backup of the head is not needed to find the mapping. *)
Lemma backup_saved v (m m' : Z -> bytes) :
  maps_ok v -> v_reserve v = rs -> saved v m ->
  (forall x, x <> v_head v + SWAP_HEAD_BACKUP_OFFEST -> m' x = m x) -> saved v m'.
Proof.
  intros Hm Hr Hs Hx. eapply saved_frame; [apply (mo_len _ Hm)| |exact Hs]. intros x Hp. apply Hx. intros ->.
  destruct (head_not_elsewhere v m Hm Hr Hs) as (_ & _ & Hone).
  specialize (Hone _ (or_intror eq_refl) Hp). unfold SWAP_HEAD_BACKUP_OFFEST in Hone. lia.
Qed.

Lemma loaded_same v s0 s :
  geom s0 = v_geom v -> loaded v s0 (zlen (v_list v)) s -> same_maps v (view_of s).
Proof.
  intros Eg [L1 _ _ _ L5 L6]. split.
  - apply list_eq_same_length with (n := length (v_list v)); unfold objects; rewrite ?length_fmap.
    + done.
    + cbn. unfold zlen in L5. lia.
    + intros k x y Hk Hx Hy. rewrite list_lookup_fmap in Hx, Hy.
      destruct (v_list (view_of s) !! k) as [p|] eqn:Ep; [|done]. injection Hx as <-.
      destruct (L6 k p Ep) as (q & i & Hq & Hi & Hp). rewrite Hq in Hy. injection Hy as <-.
      exact (eq_trans Hp (eq_sym Hi)).
  - rewrite <- Eg. cbn. unfold geom. rewrite L1. done.
Qed.

Lemma head_state_ok (h : swap_head) :
  head_state_of h = HEAD_OK ->
  swap_head_exist h = true /\ swap_head_invalid h = false /\ swap_head_valid h = true.
Proof.
  unfold head_state_of. destruct (swap_head_exist h); [|discriminate].
  destruct (swap_head_invalid h); [discriminate|]. destruct (swap_head_valid h); [|discriminate].
  intros _. split_and!; reflexivity.
Qed.

(** The core before the search: everything zero but the places. *)
Definition placed s : st D :=
  upd_core (fun c => mkCore (device_dead c) (info_num c) (user c) (head c) (info_list c) (capacity c)
    rs (u64 (rs + SWAP_HEAD_OFFEST)) (u64 (rs + SWAP_TABLE_OFFSET)) (u64 (rs + SWAP_DATA_OFFSET))) s.

(** Once the search has found [v], the rest of the start loads it. *)
Lemma wp_core_init_found v (P : st D -> Prop) s :
  0 <= rs -> rs + MAX_RESERVED_SECTOR <= 2 ^ 32 ->
  wp (init_swap_head (rs + SWAP_HEAD_OFFEST) SWAP_HEAD_N_SECTOR)
     (fun ret s' => ret = 0 /\ found v s' /\ P s') (placed s) ->
  wp (scsi_swap_core_init rs)
     (fun ret s' => ret = 0 /\ exists s2, found v s2 /\ P s2 /\ revived v s2 s') s.
Proof.
  intros R1 R2 Hsearch. unfold MAX_RESERVED_SECTOR, SECTOR_1M in R2.
  unfold scsi_swap_core_init. do 4 kstep. fold (placed s).
  change (sector_head (core (placed s))) with (u64 (rs + SWAP_HEAD_OFFEST)).
  rewrite u64_small by (layout; lia). kstep. eapply wp_mono; [exact Hsearch|].
  cbv beta. intros ret s2 (-> & Hfd & HP). cbn [Z.eqb negb]. pose proof Hfd as [Hm _ Hr Hs _ Eg _ Hk].
  assert (sector_reserve_start (core s2) = v_reserve v /\ sector_table (core s2) = v_table v /\
          sector_data (core s2) = v_data v) as (E1 & E2 & E3).
  { unfold v_reserve, v_table, v_data. rewrite <- Eg. done. }
  kstep. eapply wp_mono.
  { apply (wp_init_info_saved v); [|exact E2|exact Hk]. split; [done..|]. by rewrite E1, E3. }
  cbv beta. intros ret s3 (-> & Hl). cbn [Z.eqb negb]. do 5 kstep. split; [done|]. exists s2. split; [done|].
  split; [exact HP|]. split.
  - exact (loaded_same v s2 s3 Eg Hl).
  - change (head (core s3) = head (core s2)). by rewrite (ld_core _ _ _ _ Hl).
  - exact (ld_touch _ _ _ _ Hl).
  - unfold num_ok. cbn. rewrite (ld_core _ _ _ _ Hl) at 1. cbn. by rewrite (ld_len _ _ _ _ Hl).
  - split_and!; [done|done|apply (ld_kmem _ _ _ _ Hl)].
Qed.

(** The search on a disk in use. *)
Lemma wp_search_saved s0 s :
  kept rs s0 -> dev s = dev s0 -> kmem s = [] -> head_wf (head (core s)) ->
  wp (init_swap_head (rs + SWAP_HEAD_OFFEST) SWAP_HEAD_N_SECTOR)
     (fun ret s' => ret = 0 /\ found (view_of s0) s' /\
        touches (fun x => x = v_head (view_of s0) + SWAP_HEAD_BACKUP_OFFEST) s0 s') (placed s).
Proof.
  intros [(_ & Hm & _) Hb Hr _ Hs Hlg] Ed Hk Hw. pose proof (mo_geom _ Hm) as Hg. set (v := view_of s0) in *.
  destruct (geom_nums _ Hg Hr) as (N1 & N2 & N3 & N4 & N5 & N6). unfold MAX_RESERVED_SECTOR, SECTOR_1M in N2.
  assert (u64 (rs + SWAP_TABLE_OFFSET) = v_table v /\ u64 (rs + SWAP_DATA_OFFSET) = v_data v) as (E2 & E3).
  { rewrite N4, N5. layout. rewrite !u64_small by lia. lia. }
  eapply wp_mono; [apply (wp_init_head_saved v); try done; change (dev (placed s)) with (dev s); by rewrite Ed|].
  cbv beta. intros ret s2 (-> & (Hbt & Ht & Hk2) & Eh2 & Esh).
  change (dev (placed s)) with (dev s) in Eh2. rewrite Ed in Eh2.
  assert (forall x, x <> v_head v + SWAP_HEAD_BACKUP_OFFEST -> media (dev s2) x = media (dev s0) x) as Em.
  { intros x Hx. rewrite <- Ed. by apply (Ht x). }
  pose proof Hbt as (Ec2 & _ & _ & _). split_and!; [done| |exact Em].
  split; [done|apply Hb|done|by eapply backup_saved| | | |rewrite Hk2; exact Hk].
  - eapply log_sane_frame; [|exact Hlg]. apply Em. unfold SWAP_HEAD_BACKUP_OFFEST. layout. lia.
  - unfold geom. rewrite Ec2, Esh. unfold placed.
    cbn [core upd_core sector_reserve_start sector_head sector_table sector_data].
    rewrite E2, E3. unfold v_head, v_table, v_data, v_reserve in *. destruct (v_geom v) as [[[? ?] ?] ?]. congruence.
  - rewrite Eh2, Em; [done|]. unfold SWAP_HEAD_BACKUP_OFFEST. lia.
Qed.

(** ** A disk that was never used *)

(** No head, no entries, and no log that could not be loaded. *)
Record blank (m : Z -> bytes) : Prop := {
  bk_head : let hs := head_state_of (decode_head (m (rs + SWAP_HEAD_OFFEST))) in
    hs <> HEAD_OK /\ hs <> HEAD_INVALID;
  bk_backup : head_state_of (decode_head (m (rs + SWAP_HEAD_OFFEST + SWAP_HEAD_BACKUP_OFFEST))) <> HEAD_OK;
  bk_tables : forall n, 0 <= n < 256 ->
    sec_size (entry_at m (rs + SWAP_TABLE_OFFSET) n) <> SECTOR_NUM_PER_SWAP_BLOCK /\
    sec_size (entry_at m (rs + SWAP_TABLE_BACKUP_OFFSET) n) <> SECTOR_NUM_PER_SWAP_BLOCK;
  bk_log : log_sane rs m
}.

(** A view without mappings. *)
Definition empty_view : view :=
  mkView [] ∅ [] 0 0 (rs, rs + SWAP_HEAD_OFFEST, rs + SWAP_TABLE_OFFSET, rs + SWAP_DATA_OFFSET).

(** The block of the first head. *)
Definition head_area (x : Z) : Prop := between (rs + SWAP_HEAD_OFFEST) (rs + SWAP_HEAD_OFFEST + 128) x.

Definition room_for_reserve : Prop := 0 <= rs /\ rs + MAX_RESERVED_SECTOR <= 2 ^ 32.

Lemma empty_maps : room_for_reserve -> maps_ok empty_view.
Proof.
  intros [R1 R2]. split; cbn; [|by intros p ?%not_elem_of_nil|constructor|done].
  unfold geom_ok, v_reserve, v_head, v_table, v_data, empty_view. cbn [v_geom]. layout. lia.
Qed.

(** Zeroes go to every sector of a sound block. *)
Lemma wp_check_sound bad s0 s :
  room_for_reserve -> sector_reserve_start (core s0) = rs -> starting head_area s0 s ->
  wp (swap_check_block_by_sector (rs + SWAP_HEAD_OFFEST) bad)
     (fun r s' => r = (0, bad) /\ io s s' /\ starting head_area s0 s') s.
Proof.
  intros [R1 R2] Er Hst. unfold swap_check_block_by_sector. kstep.
  apply wp_mono with (P := fun r s' => r = inl tt /\ io s s' /\ starting head_area s0 s').
  2: { intros r s' (-> & Hio & Hst'). by kstep. }
  apply (wp_for (fun _ _ s' => io s s' /\ starting head_area s0 s')).
  - split; [apply io_refl|done].
  - change (Z.of_nat (Z.to_nat SECTOR_NUM_PER_SWAP_BLOCK)) with 128. intros j _ s1 Hj (Hio & Hst1).
    unfold hd_write_sector_retry, SECTOR_SIZE.
    assert (in_reserve rs (rs + SWAP_HEAD_OFFEST + j) 1) as Hin by (unfold in_reserve; layout; lia).
    rewrite u64_small by (unfold in_reserve, MAX_RESERVED_SECTOR, SECTOR_1M in Hin; lia).
    kstep. eapply wp_mono; [apply wp_write_reserve; [done|done|by apply zlen_fill]|].
    cbv beta. intros ret s2 (-> & Hio2 & Ht2 & _). cbn [Z.eqb negb]. kstep.
    split; [by eapply io_trans|]. eapply starting_io; [exact Hst1|done|exact Ht2|].
    intros x. rewrite Er. unfold head_area, between. layout. lia.
  - intros [] s1 [Hio Hst1]. done.
Qed.

(** The head is signed and written. *)
Lemma wp_sign_head s0 s :
  room_for_reserve -> sector_reserve_start (core s0) = rs -> starting head_area s0 s ->
  sector_head (core s) = rs + SWAP_HEAD_OFFEST -> head_wf (head (core s)) ->
  wp _swap_create_new_head
     (fun ret s' => let h := signed_head (named_head (head (core s))) in
        ret = 0 /\ starting head_area s0 s' /\ sector_head (core s') = rs + SWAP_HEAD_OFFEST /\
        head (core s') = h /\ media (dev s') (rs + SWAP_HEAD_OFFEST) = encode_head h) s.
Proof.
  intros [R1 R2] Er Hst Esh Hw. unfold _swap_create_new_head. kstep. apply wp_upd_head.
  fold (named_head (head (core s))). set (sa := upd_core _ s).
  assert (head_wf (head (core sa))) as Hw0 by (by apply named_head_wf).
  unfold flush_swap_head, upd_head. do 4 kstep.
  fold (signed_head (head (core sa))). pose proof (zlen_encode_head _ (signed_head_wf _ Hw0)) as Hl.
  set (s1 := upd_core _ sa). change (signed_head (named_head (head (core s)))) with (head (core s1)).
  change (signed_head (head (core sa))) with (head (core s1)) in Hl.
  assert (starting head_area s0 s1) as Hst1 by (apply starting_head, starting_head; exact Hst).
  change (sector_head (core s1)) with (sector_head (core s)). rewrite Esh.
  assert (in_reserve rs (rs + SWAP_HEAD_OFFEST) 1 /\
          in_reserve rs (rs + SWAP_HEAD_OFFEST + SWAP_HEAD_BACKUP_OFFEST) 1) as [I1 I2]
    by (unfold in_reserve, SWAP_HEAD_BACKUP_OFFEST; layout; lia).
  rewrite u64_small by (unfold in_reserve, MAX_RESERVED_SECTOR, SECTOR_1M in I2; lia).
  unfold hd_write_sector_retry.
  kstep. eapply wp_mono; [apply wp_write_reserve; [exact I1|done|exact Hl]|].
  cbv beta. intros r1 s2 (-> & Hio1 & Ht1 & Hm1). apply (write_one _ _ _ Hl) in Hm1.
  assert (starting head_area s0 s2) as Hst2.
  { eapply starting_io; [exact Hst1|done|exact Ht1|]. intros x. rewrite Er. unfold head_area, between. layout. lia. }
  kstep. eapply wp_mono; [apply wp_write_reserve; [exact I2|done|exact Hl]|].
  cbv beta. intros r2 s3 (-> & Hio2 & Ht2 & _). cbn [Z.eqb negb]. kstep.
  assert (core s3 = core_dead (device_dead (core s3)) (core s1)) as Ec
    by exact (same_core_io _ _ (io_trans _ _ _ Hio1 Hio2)).
  assert (sector_head (core s3) = rs + SWAP_HEAD_OFFEST) as E1 by (rewrite Ec; exact Esh).
  assert (head (core s3) = head (core s1)) as E2
    by exact (io_head _ _ (io_trans _ _ _ Hio1 Hio2)).
  cbv zeta. split; [reflexivity|]. split; [|split; [exact E1|split; [exact E2|]]].
  - eapply starting_io; [exact Hst2|done|exact Ht2|]. intros x. rewrite Er.
    unfold head_area, between, SWAP_HEAD_BACKUP_OFFEST. layout. lia.
  - rewrite Ht2 by (unfold between, SWAP_HEAD_BACKUP_OFFEST; lia). exact Hm1.
Qed.

(** The new head is one the driver accepts. *)
Definition fresh_head (h : swap_head) : Prop :=
  head_wf h /\ head_state_of h = HEAD_OK.

Lemma wp_create_head_sound s0 s :
  room_for_reserve -> sector_reserve_start (core s0) = rs -> starting head_area s0 s ->
  sector_head (core s) = rs + SWAP_HEAD_OFFEST ->
  wp swap_create_new_head
     (fun ret s' => ret = 0 /\ starting head_area s0 s' /\ sector_head (core s') = rs + SWAP_HEAD_OFFEST /\
        fresh_head (head (core s')) /\
        media (dev s') (rs + SWAP_HEAD_OFFEST) = encode_head (head (core s'))) s.
Proof.
  intros Hrm Er Hst Esh. unfold swap_create_new_head. kstep. apply wp_upd_head.
  apply (starting_head _ (decode_head (fill SECTOR_SIZE Byte.x00))) in Hst. set (s1 := upd_core _ s) in *.
  assert (head_wf (head (core s1)) /\ status (head (core s1)) = fill 16 Byte.x00) as [Hw1 Hs1].
  { split; [by apply decode_head_wf, zlen_fill|reflexivity]. }
  assert (sector_head (core s1) = rs + SWAP_HEAD_OFFEST) as Esh1 by exact Esh. clearbody s1.
  kstep. apply wp_mono with (P := fun r s' => r = inr tt /\ starting head_area s0 s' /\
    sector_head (core s') = rs + SWAP_HEAD_OFFEST /\ head_wf (head (core s')) /\
    status (head (core s')) = valid_status).
  - apply (wp_for (fun j _ s' => j = 0 /\ s' = s1)); [done|..].
    + intros j bad s2 _ [_ ->]. do 2 kstep. rewrite Esh1. kstep.
      eapply wp_mono; [by apply (wp_check_sound bad s0)|]. cbv beta. intros r s3 (-> & Hio & Hst3).
      cbn [Z.eqb]. kstep. apply wp_upd_head. kstep.
      pose proof (io_head _ _ Hio) as Eh. rewrite Eh. split_and!; [done|by apply starting_head| | |].
      * rewrite <- Esh1. cbn. by rewrite (same_core_io _ _ Hio).
      * cbn. apply status_wf; [|done]. rewrite Hs1. by vm_compute.
      * cbn. rewrite Hs1. reflexivity.
    + intros bad s2 [E _]. by vm_compute in E.
  - intros r s2 (-> & Hst2 & Esh2 & Hw2 & Hs2). eapply wp_mono; [by apply (wp_sign_head s0)|].
    cbv beta zeta. set (h := named_head (head (core s2))).
    intros ret s3 (-> & Hst3 & Esh3 & Eh3 & Em3). rewrite Eh3. split_and!; [done..| |done].
    assert (head_wf h) as Hwh by (by apply named_head_wf).
    split; [by apply signed_head_wf|]. apply signed_head_ok; [done|apply named_head_exists, Hw2|..].
    + unfold swap_head_invalid, h. change (status (named_head (head (core s2)))) with (status (head (core s2))).
      by rewrite Hs2.
    + unfold swap_head_valid, h. change (status (named_head (head (core s2)))) with (status (head (core s2))).
      by rewrite Hs2.
Qed.

(** The empty mapping is on the disk once the head is. *)
Lemma blank_found s0 s :
  room_for_reserve -> blank (media (dev s0)) -> kmem s0 = [] ->
  sector_reserve_start (core s0) = rs /\ sector_table (core s0) = rs + SWAP_TABLE_OFFSET /\
  sector_data (core s0) = rs + SWAP_DATA_OFFSET ->
  starting head_area s0 s -> sector_head (core s) = rs + SWAP_HEAD_OFFEST -> fresh_head (head (core s)) ->
  media (dev s) (rs + SWAP_HEAD_OFFEST) = encode_head (head (core s)) ->
  found empty_view s.
Proof.
  intros Hrm [_ _ Ht Hlg] Hk (E1 & E2 & E3) (Hb & Htc & Hk') Esh [Hw Hok] Em. pose proof Hrm as [R1 R2].
  assert (decode_head (media (dev s) (rs + SWAP_HEAD_OFFEST)) = head (core s)) as Ed
    by (rewrite Em; by apply decode_encode_head).
  pose proof Hb as (Ec & _).
  assert (forall base n, base = rs + SWAP_TABLE_OFFSET \/ base = rs + SWAP_TABLE_BACKUP_OFFSET -> 0 <= n < 256 ->
            entry_at (media (dev s)) base n = entry_at (media (dev s0)) base n) as Hent.
  { intros base n Hbase Hn. unfold entry_at. rewrite Htc; [done|]. pose proof (entry_sector n Hn).
    unfold head_area. layout. lia. }
  split.
  - by apply empty_maps.
  - constructor.
  - done.
  - split; try (by intros p ? ?%not_elem_of_nil).
    + exists 0. split_and!; [lia..| |intros j Hj; lia].
      change (rs + SWAP_HEAD_OFFEST = rs + SWAP_HEAD_OFFEST + 0). lia.
    + change (v_head empty_view) with (rs + SWAP_HEAD_OFFEST). by rewrite Ed.
    + split; [by intros n p i ?%list_elem_of_lookup_2%not_elem_of_nil|].
      change (zlen (v_list empty_view)) with 0. change (v_table empty_view) with (rs + SWAP_TABLE_OFFSET).
      intros n Hn. rewrite Hent by (tauto || lia). by apply Ht.
    + split; [by intros n p i ?%list_elem_of_lookup_2%not_elem_of_nil|].
      change (zlen (v_list empty_view)) with 0.
      change (backup_table empty_view) with (rs + SWAP_TABLE_BACKUP_OFFSET).
      intros n Hn. rewrite Hent by (tauto || lia). by apply Ht.
    + by intros p ? ? ? ?%not_elem_of_nil.
  - eapply log_sane_frame; [|exact Hlg]. apply Htc. unfold head_area. layout. lia.
  - unfold geom. rewrite Ec, Esh. cbn. by rewrite E1, E2, E3.
  - change (v_head empty_view) with (rs + SWAP_HEAD_OFFEST). by rewrite Ed.
  - by rewrite Hk'.
Qed.

(** The first round of the search on a disk that was never used. *)
Lemma wp_head_block_blank (back : bytes) s :
  room_for_reserve -> blank (media (dev s)) -> sector_reserve_start (core s) = rs ->
  sector_head (core s) = rs + SWAP_HEAD_OFFEST -> head_wf (head (core s)) -> zlen back = 512 ->
  wp (init_head_block (rs + SWAP_HEAD_OFFEST) 0 back)
     (fun r s' => r = inr 0 /\ starting head_area s s' /\ sector_head (core s') = rs + SWAP_HEAD_OFFEST /\
        fresh_head (head (core s')) /\
        media (dev s') (rs + SWAP_HEAD_OFFEST) = encode_head (head (core s'))) s.
Proof.
  intros Hrm [[Hok Hinv] Hbk _ _] Er Esh Hw Hl. pose proof Hrm as [R1 R2]. unfold init_head_block.
  rewrite Z.mul_0_l, Z.add_0_r.
  assert (in_reserve rs (rs + SWAP_HEAD_OFFEST) 1 /\
          in_reserve rs (rs + SWAP_HEAD_OFFEST + SWAP_HEAD_BACKUP_OFFEST) 1) as [I1 I2]
    by (unfold in_reserve; layout; lia).
  assert (u64 (rs + SWAP_HEAD_OFFEST) = rs + SWAP_HEAD_OFFEST /\
          u64 (rs + SWAP_HEAD_OFFEST + SWAP_HEAD_BACKUP_OFFEST)
          = rs + SWAP_HEAD_OFFEST + SWAP_HEAD_BACKUP_OFFEST) as [-> ->]
    by (unfold in_reserve, MAX_RESERVED_SECTOR, SECTOR_1M in *; rewrite !u64_small by lia; done).
  do 3 kstep. eapply wp_mono; [apply wp_head_state_sound; [done|by apply zlen_encode_head]|].
  cbv beta. intros y s1 (Hio1 & Ht1 & ->). kstep. apply wp_upd_head.
  assert (starting head_area s s1) as Hst1
    by (eapply starting_io; [apply starting_refl|done|exact Ht1|by intros x []]).
  apply (starting_head _ (decode_head (media (dev s) (rs + SWAP_HEAD_OFFEST)))) in Hst1.
  set (s2 := upd_core _ s1) in *.
  assert (sector_head (core s2) = rs + SWAP_HEAD_OFFEST) as Esh2
    by (rewrite <- Esh; cbn; by rewrite (same_core_io _ _ Hio1)).
  assert (forall x, media (dev s2) x = media (dev s) x) as Em2 by (intros x; apply Ht1; tauto).
  clearbody s2. rewrite bool_decide_eq_false_2 by done.
  kstep. eapply wp_mono; [by apply wp_head_state_sound|]. cbv beta. rewrite Em2.
  intros y s3 (Hio3 & Ht3 & ->).
  assert (starting head_area s s3) as Hst3 by (eapply starting_io; [exact Hst1|done|exact Ht3|by intros x []]).
  assert (head_state_of (decode_head (media (dev s) (rs + SWAP_HEAD_OFFEST))) <> HEAD_FAIL) as Hnf.
  { unfold head_state_of. repeat case_match; discriminate. }
  rewrite (bool_decide_eq_false_2 (_ = HEAD_FAIL)) by done. cbn [andb].
  rewrite !(bool_decide_eq_false_2 (_ = HEAD_OK)) by done.
  kstep. eapply wp_mono.
  { apply (wp_create_head_sound s); [done|done|done|].
    rewrite <- Esh2. by rewrite (same_core_io _ _ Hio3). }
  cbv beta. intros ret s4 (-> & Hst4). cbn [Z.eqb]. kstep. done.
Qed.

(** The search on a disk that was never used ends with a new head. *)
Lemma wp_search_blank s :
  room_for_reserve -> blank (media (dev s)) -> kmem s = [] -> head_wf (head (core s)) ->
  wp (init_swap_head (rs + SWAP_HEAD_OFFEST) SWAP_HEAD_N_SECTOR)
     (fun ret s' => ret = 0 /\ found empty_view s' /\ touches head_area s s') (placed s).
Proof.
  intros Hrm Hbk Hk Hw. pose proof Hrm as [R1 R2]. unfold MAX_RESERVED_SECTOR, SECTOR_1M in R2.
  assert (u64 (rs + SWAP_HEAD_OFFEST) = rs + SWAP_HEAD_OFFEST /\
          u64 (rs + SWAP_TABLE_OFFSET) = rs + SWAP_TABLE_OFFSET /\
          u64 (rs + SWAP_DATA_OFFSET) = rs + SWAP_DATA_OFFSET) as (E1 & E2 & E3).
  { layout. rewrite !u64_small by lia. done. }
  unfold init_swap_head. kstep.
  apply wp_mono with (P := fun r s' => r = inr 0 /\ found empty_view s' /\ touches head_area s s').
  2: { intros r s' (-> & HH). by kstep. }
  apply (wp_for (fun j back s' => j = 0 /\ s' = placed s /\ zlen back = 512)).
  - split_and!; [done..|by apply zlen_fill].
  - intros j back s1 _ (-> & -> & Hl). eapply wp_mono; [by apply wp_head_block_blank|].
    cbv beta. intros r s2 (-> & Hst & Esh & Hf & Em). split_and!; [done| |apply Hst].
    eapply (blank_found (placed s)); done.
  - intros back s1 (E & _). by vm_compute in E.
Qed.

(** A core that found its mapping and whose log was started is in order. *)
Lemma revived_kept v s2 s3 s4 :
  found v s2 -> revived v s2 s3 -> log_ok s4 -> core s4 = core s3 -> infos s4 = infos s3 ->
  touches nowhere s3 s4 ->
  kept rs s4 /\ forall x, sees s4 x = content v (media (dev s2)) x.
Proof.
  intros [Hm Hnd Hr Hs Hlg Eg Eh _] [Hsm Eh3 Ht3 Hn3 _] Hl4 Ec Ei Ht4.
  assert (view_of s4 = view_of s3) as Ev by (unfold view_of, geom; by rewrite Ec, Ei).
  assert (forall x, media (dev s4) x = media (dev s2) x) as Em.
  { intros x. rewrite Ht4, Ht3; tauto. }
  assert (head (core s4) = decode_head (media (dev s2) (v_head v))) as Eh4 by congruence.
  pose proof Hsm as [_ Egs]. rewrite <- Ev in Hsm, Hn3, Egs.
  split.
  - split.
    + split_and!; [|by eapply maps_ok_same|done]. split; [|done]. rewrite Eh4. apply decode_head_wf, media_len.
    + eapply (bits_ok_same (v_with_bitmap (bitmap (head (core s4))) v)); [exact Hsm| |].
      * split; [|done]. intros p i Hp Hi. cbn. rewrite Eh4. by eapply (sv_bits _ _ Hs).
      * intros q i Hq Hi. cbn. rewrite Eh4. by eapply (sv_bits _ _ Hs).
    + rewrite <- Hr. unfold v_reserve. by rewrite Egs.
    + unfold named. rewrite Eh4. apply head_state_ok, (sv_head _ _ Hs).
    + eapply saved_same; [exact Hsm|]. eapply saved_frame; [apply (mo_len _ Hm)| |exact Hs].
      intros x _. apply Em.
    + eapply log_sane_frame; [|exact Hlg]. apply Em.
  - intros x. unfold sees. rewrite (content_same v) by done. apply content_ext. intros _. apply Em.
Qed.

(** ** A start of the log *)

Lemma decode_log_head_range (b : bytes) :
  0 <= log_item_num (decode_log_head b) /\ 0 <= log_item_next (decode_log_head b).
Proof. unfold decode_log_head. cbn. split; apply le_combine_bound. Qed.

(** The read of the log: a ring with the counters of the disk, or -1. *)
Lemma wp_log_load_sane (r0 : cspring) s :
  0 <= rs -> rs + MAX_RESERVED_SECTOR <= 2 ^ 32 -> ring (log s) = Some r0 ->
  zlen (buffer r0) = 16384 -> log_sector_head (log s) = rs + SWAP_LOG_HEAD_OFFSET ->
  log_sector_data (log s) = rs + SWAP_LOG_DATA_OFFSET -> log_sane rs (media (dev s)) ->
  wp scsi_swap_log_load
     (fun ret s' => core s' = core s /\ infos s' = infos s /\ touches nowhere s s' /\
        exists h b, log s' = mkLog h (Some (mkRing (item_cap r0) (item_size r0) (item_num r0) (item_next r0) b))
                               (log_sector_head (log s)) (log_sector_data (log s)) /\
          zlen b = 16384 /\ (ret <> -1 -> 0 <= log_item_num h <= 512 /\ 0 <= log_item_next h < 512)) s.
Proof.
  intros R1 R2 Er Hb Hsh Hsd Hlog.
  assert (in_reserve rs (rs + SWAP_LOG_HEAD_OFFSET) 1 /\ in_reserve rs (rs + SWAP_LOG_DATA_OFFSET) 32) as [I1 I2].
  { unfold in_reserve. layout. lia. }
  unfold scsi_swap_log_load, hd_read_sector_no_retry, SECTOR_SIZE. do 3 kstep. rewrite Hsh.
  eapply wp_mono.
  { apply wp_and; [apply wp_read_reserve|apply wp_read_reserve_ret]; try done; by apply zlen_fill. }
  cbv beta. intros [ret buf] s1 ((Hz & Hio1 & Ht1 & Hl1 & Hm1) & _ & Ec1). cbn [fst snd] in *. subst ret.
  cbn [Z.eqb]. specialize (Hm1 0 ltac:(lia)). rewrite Z.add_0_r, slice_last in Hm1 by done. subst buf.
  set (h := decode_log_head _). unfold upd_log_head. do 2 kstep.
  pose proof (io_log _ _ Hio1) as El1. pose proof (io_infos _ _ Hio1) as Ei1.
  destruct (Z.eqb_spec (log_crc h) (scsi_swap_log_crc_head h)) as [Hcrc|Hcrc]; cbn [negb].
  2: { kstep. split_and!; try done. exists h, (buffer r0). cbn. rewrite El1, Er. split_and!; try done.
       rewrite Hsh. by destruct r0. }
  specialize (Hlog Hcrc) as [Hn Hx]. fold h in Hn, Hx.
  destruct (decode_log_head_range (slice 0 8 (media (dev s) (rs + SWAP_LOG_HEAD_OFFSET)))) as [Hn0 Hx0].
  fold h in Hn0, Hx0.
  kstep. apply (wp_get_ring r0); [cbn; congruence|]. do 3 kstep. cbn [log set_log log_sector_data].
  rewrite El1, Hsd. change LOG_MAX_SECTOR_NUM with 32.
  change (32 * LOG_COUNT_PER_SECTOR * LOG_ITEM_SIZE) with 16384. eapply wp_mono.
  { apply wp_and; [apply wp_read_reserve|apply wp_read_reserve_ret]; done. }
  cbv beta. intros [ret b] s2 ((Hz & Hio2 & Ht2 & Hl2 & _) & _ & Ec2). cbn [fst snd] in *. subst ret.
  unfold upd_ring. do 3 kstep. pose proof (io_log _ _ Hio2) as El2. cbn in El2.
  split_and!; [exact (eq_trans Ec2 Ec1)|exact (eq_trans (io_infos _ _ Hio2) Ei1)| |].
  - intros x Hx'. etransitivity; [exact (Ht2 x Hx')|exact (Ht1 x Hx')].
  - exists h, b. cbn. rewrite El2. cbn. rewrite Hsh. by split_and!.
Qed.

(** The log of a disk in use is loaded; a log whose checksum is wrong is started anew. *)
Lemma wp_log_init_sane s :
  reserve_ok s -> sector_reserve_start (core s) = rs -> kmem s = [] -> log_sane rs (media (dev s)) ->
  wp (scsi_swap_log_init (rs + SWAP_LOG_HEAD_OFFSET) (rs + SWAP_LOG_DATA_OFFSET))
     (fun _ s' => log_ok s' /\ core s' = core s /\ infos s' = infos s /\ touches nowhere s s') s.
Proof.
  intros [R1 R2] Er Hk Hlog. rewrite Er in R1, R2.
  assert (zlen (fill 16384 Byte.x00) = 16384) as Hf by (by apply zlen_fill).
  unfold scsi_swap_log_init, cspring_create, sizeof_cspring. do 2 kstep. apply wp_kmalloc_free; [done|].
  change (s32 (LOG_ITEM_SIZE * (LOG_MAX_SECTOR_NUM * LOG_COUNT_PER_SECTOR))) with 16384.
  change (s32 (LOG_MAX_SECTOR_NUM * LOG_COUNT_PER_SECTOR * LOG_ITEM_SIZE)) with 16384.
  rewrite Hf. cbn [Z.ltb Z.compare Pos.compare Pos.compare_cont].
  kstep. apply wp_kmalloc_free; [done|].
  do 5 kstep.
  change (LOG_MAX_SECTOR_NUM * LOG_COUNT_PER_SECTOR) with 512. change LOG_ITEM_SIZE with 32.
  set (r0 := mkRing 512 32 0 0 _). cbn [log set_log log_head ring].
  set (s1 := set_log _ _). kstep. eapply wp_mono.
  { apply (wp_log_load_sane r0); try done. }
  cbv beta. intros ret s2 (Ec & Ei & Ht & h & b & El & Hb & Hr).
  assert (forall h' n x l, 0 <= n <= 512 -> 0 <= x < 512 ->
    l = mkLog h' (Some (mkRing 512 32 n x b)) (rs + SWAP_LOG_HEAD_OFFSET) (rs + SWAP_LOG_DATA_OFFSET) ->
    log_ok (set_log l s2)) as Hok.
  { intros h' n x l Hn Hx ->. exists (mkRing 512 32 n x b). cbn. rewrite Ec. cbn. rewrite Er.
    split; [reflexivity|]. split; [|split_and!; reflexivity].
    unfold ring_wf, cspring_size. cbn [item_cap item_size item_num item_next buffer].
    change (s32 (512 * 32)) with 16384. lia. }
  destruct (Z.eqb_spec ret (-1)) as [->|Hne].
  - kstep. split_and!; [|done|done|done]. replace s2 with (set_log (log s2) s2) by (by destruct s2).
    eapply Hok; [| |exact El]; cbn; lia.
  - destruct (Hr Hne) as [Hn Hx]. kstep. eapply wp_get_ring; [by rewrite El|]. unfold upd_ring. do 4 kstep.
    rewrite El. cbn [log_head log_item_num log_item_next buffer log_sector_head log_sector_data item_cap item_size r0].
    split_and!; [|done|done|done]. by eapply Hok.
Qed.
End Start.
