(* ===== verification/Swap.v ===== *)
(** * drivers/scsi/swap/swap.c: the block layer's side of the driver

    Bios and their segments, the queue of work items, the work handler that
    serves one bio through the swap core, the decisions of [swap_bio] and
    [bio_has_bad_block], the decoding of read and write CDBs for simulated bad
    sectors, and the life cycle of the handler.  A freed handler is not the same
    as an absent one: touching it is a fault. *)

From stdpp Require Import base gmap list list_numbers.
From coqutil Require Import Byte Word.LittleEndianList.
From Stdlib Require Import ZArith Lia.
From S2P Require Import Prelude Kapi Ring Layout State Scsi SimDisk Log Core CoreInv CoreSpec CoreReq CoreThm Sim.

Local Open Scope Z_scope.

(** ** Bios *)

(** [bv_page] is the memory of the page, [None] when it has no kernel address. *)
Record bio_vec := mkVec {
  bv_page : option bytes;
  bv_offset : Z;
  bv_len : Z
}.

(** [bi_segs] are the segments from [bi_idx] on. *)
Record bio := mkBio {
  bi_sector : Z;
  bi_size : Z;
  bi_rw : Z;
  bi_uptodate : bool;
  bi_segs : list bio_vec;
  bi_end_io : bool
}.

Definition WRITE : Z := 1.
Definition bio_sectors (b : bio) : Z := Z.shiftr (bi_size b) 9.
Definition bio_rw (b : bio) : Z := Z.land (bi_rw b) WRITE.

Definition bio_with_segs (l : list bio_vec) (b : bio) : bio :=
  mkBio (bi_sector b) (bi_size b) (bi_rw b) (bi_uptodate b) l (bi_end_io b).
Definition bio_with_uptodate (u : bool) (b : bio) : bio :=
  mkBio (bi_sector b) (bi_size b) (bi_rw b) u (bi_segs b) (bi_end_io b).
Definition bio_with_place (sector size : Z) (b : bio) : bio :=
  mkBio sector size (bi_rw b) (bi_uptodate b) (bi_segs b) (bi_end_io b).

(** ** The device a bio is for *)

(** [bdev->bd_disk->part0.__dev.parent], and what the parent is. *)
Inductive parent_device := OtherDevice | SdevDevice.
Record gendisk := mkDiskPtr { disk_parent : option parent_device }.
Record block_device := mkBdev { bd_disk : option gendisk }.

Definition sdev_from_bdev (bdev : option block_device) : bool :=
  match bdev with
  | None => false
  | Some b =>
      match bd_disk b with
      | None => false
      | Some g =>
          match disk_parent g with
          | None => false
          | Some OtherDevice => false
          | Some SdevDevice => true
          end
      end
  end.

(** ** State *)

Record swap_bio_item := mkSwapItem {
  it_bio : bio;
  it_start_sec : Z;
  it_size : Z;
  it_bad_sec : Z;
  it_may_create : bool
}.

Inductive handler_ptr := HNull | HLive | HFreed.

(** One [scsi_device] with its [scsi_swap]; [sw_st] and [sw_sim] are the handler,
    [sw_wq] the work items queued, [sw_host] the chain
    [sdp->host->hostt->proc_name]. *)
Record sw (D : Type) := mkSw {
  sw_enable : bool;
  sw_handler : handler_ptr;
  sw_host : option (option (option bytes));
  sw_sim : scsi_swap_sim;
  sw_wq : list swap_bio_item;
  sw_st : st D
}.
Arguments mkSw {D} _ _ _ _ _ _.
Arguments sw_enable {D} _.
Arguments sw_handler {D} _.
Arguments sw_host {D} _.
Arguments sw_sim {D} _.
Arguments sw_wq {D} _.
Arguments sw_st {D} _.

Definition sw_with_st {D} (s : st D) (w : sw D) : sw D :=
  mkSw (sw_enable w) (sw_handler w) (sw_host w) (sw_sim w) (sw_wq w) s.
Definition sw_with_sim {D} (l : scsi_swap_sim) (w : sw D) : sw D :=
  mkSw (sw_enable w) (sw_handler w) (sw_host w) l (sw_wq w) (sw_st w).
Definition sw_with_wq {D} (l : list swap_bio_item) (w : sw D) : sw D :=
  mkSw (sw_enable w) (sw_handler w) (sw_host w) (sw_sim w) l (sw_st w).
Definition sw_with_handler {D} (h : handler_ptr) (w : sw D) : sw D :=
  mkSw (sw_enable w) h (sw_host w) (sw_sim w) (sw_wq w) (sw_st w).
Definition sw_with_enable {D} (b : bool) (w : sw D) : sw D :=
  mkSw b (sw_handler w) (sw_host w) (sw_sim w) (sw_wq w) (sw_st w).

Section Lift.
Context {D : Type}.

(** Code on the handler's state; the pointer must be live. *)
Definition on_handler {A} (m : K (st D) A) : K (sw D) A := fun w =>
  match sw_handler w with
  | HNull => Oops NullDeref
  | HFreed => Oops UseAfterFree
  | HLive =>
      match m (sw_st w) with
      | Ok (a, s') => Ok (a, sw_with_st s' w)
      | Oops f => Oops f
      end
  end.

(** Code on the [scsi_device] that does not go through the handler. *)
Definition on_sdev {A} (m : K (st D) A) : K (sw D) A := fun w =>
  match m (sw_st w) with
  | Ok (a, s') => Ok (a, sw_with_st s' w)
  | Oops f => Oops f
  end.

Lemma wp_on_handler {A} (m : K (st D) A) Q w :
  sw_handler w = HLive -> wp m (fun a s' => Q a (sw_with_st s' w)) (sw_st w) ->
  wp (on_handler m) Q w.
Proof. intros Hl. unfold wp, on_handler. rewrite Hl. by destruct (m (sw_st w)) as [[a s']|]. Qed.

Lemma wp_on_sdev {A} (m : K (st D) A) Q w :
  wp m (fun a s' => Q a (sw_with_st s' w)) (sw_st w) -> wp (on_sdev m) Q w.
Proof. unfold wp, on_sdev. by destruct (m (sw_st w)) as [[a s']|]. Qed.
End Lift.

(** ** Copying between a bio and a buffer *)

Section Copy.
Context {S : Type}.

(** [p] is the offset of the C pointer [p] in [buf]. *)
Fixpoint fill_segs (segs : list bio_vec) (buf : bytes) (p len : Z) : K S (list bio_vec) :=
  match segs with
  | [] => mret []
  | v :: rest =>
      if p <? len then
        v' ← (match bv_page v with
              | Some page =>
                  b ← kload p (bv_len v) buf;
                  page' ← kstore (bv_offset v) b page;
                  mret (mkVec (Some page') (bv_offset v) (bv_len v))
              | None => mret v
              end);
        rest' ← fill_segs rest buf (p + bv_len v) len;
        mret (v' :: rest')
      else
        rest' ← fill_segs rest buf p len;
        mret (v :: rest')
  end.

Definition buf_fill_bio (b : bio) (buf : bytes) (len : Z) : K S bio :=
  segs ← fill_segs (bi_segs b) buf 0 len;
  mret (bio_with_segs segs b).

Fixpoint gather_segs (segs : list bio_vec) (buf : bytes) (p len : Z) : K S bytes :=
  match segs with
  | [] => mret buf
  | v :: rest =>
      if p <? len then
        buf' ← (match bv_page v with
                | Some page =>
                    b ← kload (bv_offset v) (bv_len v) page;
                    kstore p b buf
                | None => mret buf
                end);
        gather_segs rest buf' (p + bv_len v) len
      else gather_segs rest buf p len
  end.

Definition bio_fill_buf (b : bio) (buf : bytes) (len : Z) : K S bytes :=
  gather_segs (bi_segs b) buf 0 len.
End Copy.

(** ** Decisions *)

(** ["mv64xx"], ["pm8001"] *)
Definition swap_filter_table : list bytes :=
  [[Byte.x6d; Byte.x76; Byte.x36; Byte.x34; Byte.x78; Byte.x78];
   [Byte.x70; Byte.x6d; Byte.x38; Byte.x30; Byte.x30; Byte.x31]].

Definition scsi_device_can_swap (host : option (option (option bytes))) : bool :=
  match host with
  | Some (Some (Some proc_name)) => bool_decide (proc_name ∈ swap_filter_table)
  | _ => false
  end.

Definition scsi_get_reserve_sectors_for_swap (host : option (option (option bytes))) : Z :=
  if scsi_device_can_swap host then MAX_RESERVED_SECTOR else 0.

(** ** CDBs *)

Definition cdb_byte (cdb : bytes) (i : nat) : Z := byte.unsigned (default Byte.x00 (cdb !! i)).
Definition be16 (cdb : bytes) (i : nat) : Z :=
  Z.lor (Z.shiftl (cdb_byte cdb i) 8) (cdb_byte cdb (i + 1)).
Definition be32 (cdb : bytes) (i : nat) : Z :=
  Z.lor (Z.lor (Z.lor (Z.shiftl (cdb_byte cdb i) 24) (Z.shiftl (cdb_byte cdb (i + 1)) 16))
           (Z.shiftl (cdb_byte cdb (i + 2)) 8)) (cdb_byte cdb (i + 3)).

(** The count and the sector. *)
Definition sector_from_scmd (cdb : bytes) : Z * Z :=
  let op := cdb_byte cdb 0 in
  let '(hight, low, count) :=
    if (op =? READ_6) || (op =? WRITE_6) then
      (0, Z.lor (Z.lor (Z.shiftl (Z.land (cdb_byte cdb 1) 0x1F) 16) (Z.shiftl (cdb_byte cdb 2) 8))
            (cdb_byte cdb 3), cdb_byte cdb 4)
    else if (op =? READ_10) || (op =? WRITE_10) then (0, be32 cdb 2, be16 cdb 7)
    else if (op =? READ_12) || (op =? WRITE_12) then (0, be32 cdb 2, be32 cdb 6)
    else if (op =? READ_16) || (op =? WRITE_16) then (be32 cdb 2, be32 cdb 6, be32 cdb 10)
    else (0, 0, 0) in
  (count, Z.lor (Z.shiftl hight 32) low).

Inductive scsi_action := SCSI_ACTION_UNKNOWN | SCSI_ACTION_READ | SCSI_ACTION_WRITE.
#[global] Instance scsi_action_eq_dec : EqDecision scsi_action.
Proof. solve_decision. Defined.

Definition scmd_get_action (cdb : bytes) : scsi_action :=
  let op := cdb_byte cdb 0 in
  if (op =? READ_6) || (op =? READ_10) || (op =? READ_12) || (op =? READ_16)
  then SCSI_ACTION_READ
  else if (op =? WRITE_6) || (op =? WRITE_10) || (op =? WRITE_12) || (op =? WRITE_16)
  then SCSI_ACTION_WRITE
  else SCSI_ACTION_UNKNOWN.

Definition sizeof_swap_bio_item : Z := 88.
Definition sizeof_swap_handler : Z := 1024.

Section Ops.
Context {D : Type} `{ScsiLower D}.

Definition bio_get_scsi_swap (bdev : option block_device) : K (sw D) bool :=
  if negb (sdev_from_bdev bdev) then mret false else
  w ← kget;
  let d := sdev (sw_st w) in
  if removable d || changed d then mret false else
  mret (sw_enable w).

(** The work handler: the bio as it is handed to [bi_end_io], and the error code
    if there is such a function. *)
Definition swap_bio_work_handler (item : swap_bio_item) : K (sw D) (bio * option Z) :=
  let b := it_bio item in
  let rw := bio_rw b in
  let sector := it_start_sec item in
  let size := it_size item in
  let bad := it_bad_sec item in
  let num := Z.shiftr size 9 in
  m ← on_sdev (kmalloc size);
  x ← (match m with
       | None => mret (b, - EIO)
       | Some buf =>
           y ← (if rw =? WRITE then
                  buf ← bio_fill_buf b buf size;
                  ret ← on_handler (scsi_swap_core_write sector num bad buf);
                  mret (b, (ret =? 0) || (ret =? - DATA_MAY_DIRTY))
                else
                  z ← on_handler (scsi_swap_core_read sector num bad buf);
                  let '(ret, buf) := z in
                  if (ret =? 0) || (ret =? - DATA_MAY_DIRTY)
                  then b' ← buf_fill_bio b buf size; mret (b', true)
                  else mret (b, false));
           let '(b, done) := y in
           let b := if (done : bool) then bio_with_uptodate true b else b in
           let error := if (done : bool) then 0 else - EIO in
           let b := if size <=? bi_size b
                    then bio_with_place (u64 (bi_sector b + Z.shiftr size 9)) (u32 (bi_size b - size)) b
                    else b in
           mret (b, error)
       end);
  let '(b, error) := x in
  mret (b, if bi_end_io b then Some error else None).

(** [queue_work]: true when the bio has been taken over. *)
Definition swap_bio (b : option bio) (bdev : option block_device) (sector size bad_sec error : Z)
    (may_create : bool) : K (sw D) bool :=
  match b with
  | None => mret false
  | Some b =>
      if negb (error =? - EIO) then mret false else
      if negb (bio_rw b =? WRITE) && negb (bad_sec =? NO_SECTOR) then mret false else
      ok ← bio_get_scsi_swap bdev;
      if negb (ok : bool) then mret false else
      can ← on_handler (scsi_swap_core_can_swap sector size);
      if negb (can : bool) then mret false else
      m ← on_sdev (kmalloc sizeof_swap_bio_item);
      match m with
      | None => mret false
      | Some _ =>
          kmod (fun w => sw_with_wq (sw_wq w ++ [mkSwapItem b sector size bad_sec may_create]) w);;
          mret true
      end
  end.

Definition bio_has_bad_block (b : bio) (bdev : option block_device) : K (sw D) bool :=
  ok ← bio_get_scsi_swap bdev;
  if negb (ok : bool) then mret false else
  on_handler (scsi_swap_core_swapped (bi_sector b) (bio_sectors b)).

Definition scmd_should_be_bad (cdb : bytes) : K (sw D) bool :=
  w ← kget;
  if negb (sw_enable w) then mret false else
  if negb (bool_decide (scmd_get_action cdb = SCSI_ACTION_WRITE)) then mret false else
  let '(num, sector) := sector_from_scmd cdb in
  on_handler (mret tt);;
  mret (scsi_swap_sim_hit (sw_sim w) sector num).

(** ** Life cycle *)

(** [kzalloc] of the handler. *)
Definition zero_handler (s : st D) : st D :=
  mkSt (dev s) (sdev s)
    (mkCore 0 0 0 (decode_head (fill SECTOR_SIZE Byte.x00)) [] 0 0 0 0 0)
    (mkLog (mkLogHead 0 0 0) None 0 0) ∅ (kmem s) (clock s).

Definition scsi_swap_init (reserve_sector : Z) : K (sw D) Z :=
  w ← kget;
  if negb (scsi_device_can_swap (sw_host w)) then mret (-1) else
  m ← on_sdev (kmalloc sizeof_swap_handler);
  match m with
  | None => mret (-1)
  | Some _ =>
      kmod (fun w => sw_with_handler HLive (sw_with_st (zero_handler (sw_st w)) w));;
      ret ← on_handler (scsi_swap_core_init reserve_sector);
      if ret <? 0 then kmod (sw_with_handler HFreed);; mret (-1) else
      on_handler (scsi_swap_log_init (u64 (reserve_sector + SWAP_LOG_HEAD_OFFSET))
                    (u64 (reserve_sector + SWAP_LOG_DATA_OFFSET)));;
      kmod (sw_with_sim (fst scsi_swap_sim_init));;
      kmod (sw_with_enable true);;
      mret 0
  end.

(** Neither [enable] nor [private_data] is cleared. *)
Definition scsi_swap_destroy (msleep : K (st D) unit) : K (sw D) Z :=
  w ← kget;
  if negb (sw_enable w) then mret (-1) else
  on_handler (scsi_swap_core_destroy msleep);;
  on_handler scsi_swap_log_destroy;;
  on_handler (mret tt);;
  kmod (fun w => sw_with_sim (fst (scsi_swap_sim_destroy (sw_sim w))) w);;
  kmod (sw_with_handler HFreed);;
  mret 0.
End Ops.

(** [create_workqueue] and [destroy_workqueue]: the queue or NULL. *)
Definition module_scsi_swap_init (create : bool) : bool * Z := if create then (true, 0) else (false, -1).
Definition module_scsi_swap_exit (wq : bool) : bool * Z := (false, 0).
