(* ===== verification/SwapThm.v ===== *)
(** * Results on swap.c

    The data of a bio survives the copy to and from the linear buffer; a queued
    bio that completes without error has been served by the abstract disk of the
    swap core; [swap_bio] queues a bio exactly under the stated conditions; the
    handler left behind by [scsi_swap_destroy] and a missing event log are fatal
    for the next request. *)

From stdpp Require Import base gmap list list_numbers.
From coqutil Require Import Byte Word.LittleEndianList.
From Stdlib Require Import ZArith Lia.
From S2P Require Import Prelude Kapi Ring Layout State Scsi SimDisk Log Core CoreInv CoreSpec CoreReq CoreThm Sim Swap.

Local Open Scope Z_scope.

(** ** Segments *)

Definition vec_ok (v : bio_vec) : Prop :=
  0 < bv_len v /\ 0 <= bv_offset v /\
  exists page, bv_page v = Some page /\ bv_offset v + bv_len v <= zlen page.

Definition vec_data (v : bio_vec) : bytes :=
  match bv_page v with Some page => slice (bv_offset v) (bv_len v) page | None => [] end.

(** The data of a bio, segment after segment. *)
Definition segs_data (l : list bio_vec) : bytes := concat (vec_data <$> l).

Lemma zlen_vec_data v : vec_ok v -> zlen (vec_data v) = bv_len v.
Proof.
  intros (Hl & Ho & page & Hp & Hf). unfold vec_data. rewrite Hp. apply zlen_slice; lia.
Qed.

Lemma segs_data_cons v l : segs_data (v :: l) = vec_data v ++ segs_data l.
Proof. done. Qed.

Section CopyLemmas.
Context {S : Type}.
Implicit Types s : S.

(** The buffer is filled with the data of the segments, from [p] on. *)
Lemma wp_gather l : forall buf p len s,
  Forall vec_ok l -> 0 <= p -> p + zlen (segs_data l) = len -> zlen buf = len ->
  wp (gather_segs l buf p len)
     (fun buf' s' => s' = s /\ buf' = take (Z.to_nat p) buf ++ segs_data l) s.
Proof.
  induction l as [|v l IH]; intros buf p len s Hall Hp Hlen Hbuf; cbn [gather_segs].
  { kstep. split; [done|]. cbn. change (zlen (segs_data [])) with 0 in Hlen.
    rewrite app_nil_r, take_ge; [done|]. unfold zlen in *. lia. }
  apply Forall_cons in Hall as [Hv Hall]. pose proof (zlen_vec_data v Hv) as Hvl.
  rewrite segs_data_cons, zlen_app, Hvl in Hlen. pose proof (zlen_nonneg (segs_data l)).
  destruct Hv as (Hl & Ho & page & Hpg & Hf).
  rewrite (proj2 (Z.ltb_lt _ _)) by lia. rewrite Hpg. do 2 kstep.
  apply wp_load; [lia..|]. assert (slice (bv_offset v) (bv_len v) page = vec_data v) as ->
    by (unfold vec_data; by rewrite Hpg).
  apply wp_store; [lia|lia|].
  eapply wp_mono; [apply IH; [done|lia|lia|rewrite zlen_splice; lia]|].
  cbv beta. intros buf' s' [-> ->]. split; [done|]. rewrite segs_data_cons, app_assoc. f_equal.
  unfold splice, zlen in *. rewrite app_assoc.
  rewrite take_app_le by (rewrite length_app, length_take; lia).
  apply take_ge. rewrite length_app, length_take. lia.
Qed.

(** Same places and lengths. *)
Definition same_shape (l l' : list bio_vec) : Prop :=
  Forall2 (fun v v' => bv_offset v' = bv_offset v /\ bv_len v' = bv_len v) l l'.

Lemma wp_scatter l : forall buf p len s,
  Forall vec_ok l -> 0 <= p -> p + zlen (segs_data l) = len -> zlen buf = len ->
  wp (fill_segs l buf p len)
     (fun l' s' => s' = s /\ same_shape l l' /\ Forall vec_ok l' /\
                   segs_data l' = drop (Z.to_nat p) buf) s.
Proof.
  induction l as [|v l IH]; intros buf p len s Hall Hp Hlen Hbuf; cbn [fill_segs].
  { kstep. change (zlen (segs_data [])) with 0 in Hlen. split_and!; [done|constructor|constructor|].
    cbn. rewrite drop_ge; [done|]. unfold zlen in *. lia. }
  apply Forall_cons in Hall as [Hv Hall]. pose proof (zlen_vec_data v Hv) as Hvl.
  rewrite segs_data_cons, zlen_app, Hvl in Hlen. pose proof (zlen_nonneg (segs_data l)).
  destruct Hv as (Hl & Ho & page & Hpg & Hf).
  rewrite (proj2 (Z.ltb_lt _ _)) by lia. rewrite Hpg. do 2 kstep.
  apply wp_load; [lia..|]. assert (zlen (slice p (bv_len v) buf) = bv_len v) as Hsl
    by (apply zlen_slice; lia).
  kstep. apply wp_store; [lia|lia|]. kstep. kstep.
  eapply wp_mono; [apply IH; [done|lia|lia|done]|].
  cbv beta. intros l' s' (-> & Hsh & Hok & Hd). kstep. split_and!; [done| | |].
  - by constructor.
  - constructor; [|done]. split_and!; [done|done|]. eexists. split; [reflexivity|].
    cbn. rewrite zlen_splice; lia.
  - rewrite segs_data_cons, Hd. unfold vec_data. cbn [bv_page bv_offset bv_len].
    rewrite slice_splice_in by lia. rewrite Z.sub_diag.
    rewrite slice_last by done. unfold slice.
    replace (Z.to_nat (p + bv_len v)) with (Z.to_nat p + Z.to_nat (bv_len v))%nat by lia.
    rewrite <- drop_drop. apply take_drop.
Qed.
End CopyLemmas.

(** copying a buffer into a bio and gathering the bio again gives the buffer
    back; both copies stay inside the pages and the buffer when the segments make
    up exactly the size of the request. *)
Theorem bio_copy_roundtrip {S : Type} (s : S) (b : bio) (buf buf0 : bytes) :
  Forall vec_ok (bi_segs b) -> zlen (segs_data (bi_segs b)) = zlen buf -> zlen buf0 = zlen buf ->
  wp (b' ← buf_fill_bio b buf (zlen buf); out ← bio_fill_buf b' buf0 (zlen buf); mret (b', out))
     (fun x s' => s' = s /\ snd x = buf /\ segs_data (bi_segs (fst x)) = buf /\
                  same_shape (bi_segs b) (bi_segs (fst x))) s.
Proof.
  intros Hok Hlen Hl0. unfold buf_fill_bio, bio_fill_buf. do 2 kstep.
  eapply wp_mono; [apply wp_scatter; [done|lia|lia|done]|].
  cbv beta. intros l' s' (-> & Hsh & Hok' & Hd). kstep. kstep. cbn [bi_segs bio_with_segs].
  change (Z.to_nat 0) with 0%nat in Hd. rewrite drop_0 in Hd.
  eapply wp_mono; [apply wp_gather; [done|lia|rewrite Hd; lia|done]|].
  cbv beta. intros out s' [-> ->]. kstep. cbn [fst snd bi_segs bio_with_segs].
  split_and!; [done| |done|done]. by rewrite Hd.
Qed.

Definition demo_segs : list bio_vec :=
  [mkVec (Some (fill 4096 Byte.x00)) 0 512; mkVec (Some (fill 4096 Byte.x11)) 1024 512].
Definition demo_bio (rw : Z) : bio := mkBio 300 1024 rw false demo_segs true.

Lemma demo_segs_ok : Forall vec_ok demo_segs.
Proof.
  repeat constructor; cbn; try lia; eexists; (split; [reflexivity|]); rewrite zlen_fill; lia.
Qed.

Lemma demo_segs_len : zlen (segs_data demo_segs) = 1024.
Proof. by vm_compute. Qed.

Lemma bio_copy_roundtrip_witness :
  wp (b' ← buf_fill_bio (demo_bio 0) (fill 1024 Byte.x55) (zlen (fill 1024 Byte.x55));
      out ← bio_fill_buf b' (fill 1024 Byte.x00) (zlen (fill 1024 Byte.x55)); mret (b', out))
     (fun x s' => s' = tt /\ snd x = fill 1024 Byte.x55 /\
                  segs_data (bi_segs (fst x)) = fill 1024 Byte.x55 /\
                  same_shape (bi_segs (demo_bio 0)) (bi_segs (fst x))) tt.
Proof.
  apply (bio_copy_roundtrip tt (demo_bio 0) (fill 1024 Byte.x55) (fill 1024 Byte.x00) demo_segs_ok);
    rewrite ?zlen_fill by lia; [exact demo_segs_len|reflexivity].
Defined.

(** ** The work handler *)

(** A work item as [swap_bio] queues it for a request inside the user's area. *)
Record item_ok {D} (w : sw D) (item : swap_bio_item) (num : Z) : Prop := {
  ik_handler : sw_handler w = HLive;
  ik_inv : inv (sw_st w);
  ik_start : 0 <= it_start_sec item;
  ik_num : 0 < num < 2 ^ 22;
  ik_size : it_size item = 512 * num;
  ik_end : it_start_sec item + num <= v_reserve (view_of (sw_st w));
  ik_users : 0 <= v_user (view_of (sw_st w)) < 2 ^ 31 - 1;
  ik_segs : Forall vec_ok (bi_segs (it_bio item));
  ik_len : zlen (segs_data (bi_segs (it_bio item))) = it_size item
}.

(** The bio shows the sectors of the abstract disk. *)
Definition bio_shows {D} `{BlockDevice D} (b : bio) (start num : Z) (s : st D) : Prop :=
  forall k, 0 <= k < num -> slice (512 * k) 512 (segs_data (bi_segs b)) = sees s (start + k).

Definition served {D} `{BlockDevice D} (item : swap_bio_item) (num : Z) (x : bio * option Z) (w' : sw D) : Prop :=
  let '(b, e) := x in
  inv (sw_st w') /\ sw_handler w' = HLive /\
  (bi_end_io (it_bio item) = true -> e = Some 0 \/ e = Some (- EIO)) /\
  (e = Some 0 -> bi_uptodate b = true /\ bio_shows b (it_start_sec item) num (sw_st w')) /\
  (e = Some 0 -> bio_rw (it_bio item) = WRITE ->
     segs_data (bi_segs b) = segs_data (bi_segs (it_bio item))).

Section Handler.
Context {D : Type} `{BlockDevice D}.
Implicit Types w : sw D.

Lemma inv_kmem l (s : st D) : inv s -> inv (set_kmem l s).
Proof. intros (He & Hm & Hn). by split_and!. Qed.

(** The end of the handler. *)
Lemma served_end item num b done (w' : sw D) :
  inv (sw_st w') -> sw_handler w' = HLive -> bi_end_io b = bi_end_io (it_bio item) ->
  (done = true -> bio_shows b (it_start_sec item) num (sw_st w')) ->
  (done = true -> bio_rw (it_bio item) = WRITE ->
     segs_data (bi_segs b) = segs_data (bi_segs (it_bio item))) ->
  let b1 := if (done : bool) then bio_with_uptodate true b else b in
  let b2 := if it_size item <=? bi_size b1
            then bio_with_place (u64 (bi_sector b1 + num))
                   (u32 (bi_size b1 - it_size item)) b1 else b1 in
  served item num (b2, if bi_end_io b2 then Some (if done then 0 else - EIO) else None) w'.
Proof.
  intros Hi Hl He Hs Hw b1 b2.
  assert (bi_end_io b2 = bi_end_io b /\ bi_segs b2 = bi_segs b /\ bi_uptodate b2 = bi_uptodate b1)
    as (E1 & E2 & E3) by (subst b2 b1; destruct done, (_ <=? _); done).
  unfold served. rewrite E1, E2, E3, He. split_and!; [done|done| | |].
  - intros ->. destruct done; auto.
  - destruct (bi_end_io (it_bio item)); [|done]. destruct done; [|done]. intros _.
    split; [done|]. unfold bio_shows. rewrite E2. by apply Hs.
  - destruct (bi_end_io (it_bio item)); [|done]. destruct done; [|done]. intros _. by apply Hw.
Qed.

Lemma wp_work_handler item num w :
  item_ok w item num -> wp (swap_bio_work_handler item) (served item num) w.
Proof.
  intros [Hl Hi Hs Hn Hsz He Hu Hsg Hlen]. unfold swap_bio_work_handler.
  assert (Z.shiftr (it_size item) 9 = num) as Hshift
    by (rewrite Z.shiftr_div_pow2, Hsz, Z.mul_comm by lia; by apply Z.div_mul).
  rewrite Hshift. kstep. apply wp_on_sdev. apply wp_kmalloc; [lia|..].
  { intros l. kstep. kstep. kstep. unfold served. cbn [sw_st sw_with_st sw_handler].
    split_and!; [by apply inv_kmem|done| | |]; destruct (bi_end_io (it_bio item)); auto; discriminate. }
  intros buf l Hbuf. set (w1 := sw_with_st _ w).
  assert (inv (sw_st w1)) as Hi1 by (by apply inv_kmem).
  assert (forall b, zlen b = it_size item -> request (sw_st w1) (it_start_sec item) num b) as Hrq.
  { intros b Hb. split; [done|lia|exact He|lia|exact Hu]. }
  do 2 kstep.
  destruct (Z.eqb_spec (bio_rw (it_bio item)) WRITE) as [Hw|Hw].
  - kstep. unfold bio_fill_buf. eapply wp_mono; [apply wp_gather; [done|lia|lia|done]|].
    cbv beta. intros buf' w' [-> ->]. change (Z.to_nat 0) with 0%nat. rewrite take_0. cbn [app].
    kstep. apply wp_on_handler; [done|].
    eapply wp_mono; [apply wp_core_write; [done|by apply Hrq]|].
    cbv beta. intros ret s2 ((Hi2 & _) & Hret & Hsto & _). kstep. kstep. kstep.
    apply (served_end item num (it_bio item) _ (sw_with_st s2 w1)); try done.
    intros Hd k Hk. specialize (Hsto ltac:(unfold DATA_MAY_DIRTY in *; lia) (it_start_sec item + k) ltac:(lia)).
    cbn [sw_st sw_with_st]. rewrite Hsto. f_equal. lia.
  - kstep. apply wp_on_handler; [done|].
    eapply wp_mono; [apply wp_core_read; [done|by apply Hrq]|].
    cbv beta. intros [ret buf'] s2 (Hl2 & (Hi2 & _) & Hret & _ & Hsh & _).
    set (w2 := sw_with_st s2 w1).
    destruct ((ret =? 0) || (ret =? - DATA_MAY_DIRTY)) eqn:Ed.
    + kstep. unfold buf_fill_bio. kstep.
      eapply wp_mono; [apply wp_scatter; [done|lia|lia|lia]|].
      cbv beta. intros l' w' (-> & Hshape & Hok' & Hd). do 4 kstep.
      apply (served_end item num (bio_with_segs l' (it_bio item)) true w2); try done.
      intros _ k Hk. cbn [bi_segs bio_with_segs]. rewrite Hd. change (Z.to_nat 0) with 0%nat.
      rewrite drop_0. specialize (Hsh ltac:(unfold DATA_MAY_DIRTY in *; lia)
        (it_start_sec item + k) ltac:(lia)). subst w2.
      cbn [sw_st sw_with_st]. rewrite <- Hsh. f_equal. lia.
    + do 3 kstep.
      apply (served_end item num (it_bio item) false w2); done.
Qed.
End Handler.

(** C9: the work handler always calls the bio's completion, with 0 or -EIO, and
    keeps the swap core's invariant.  After a completion with 0 the bio is up to
    date and its data is that of the abstract disk, sector by sector: for a write
    the disk now holds the bio's (unchanged) data, for a read the bio received the
    disk's. *)
Theorem work_handler_serves {D} `{BlockDevice D} (w : sw D) (item : swap_bio_item) (num : Z) :
  item_ok w item num ->
  wp (swap_bio_work_handler item)
     (fun x w' => let '(b, e) := x in
        inv (sw_st w') /\ sw_handler w' = HLive /\
        (bi_end_io (it_bio item) = true -> e = Some 0 \/ e = Some (- EIO)) /\
        (e = Some 0 -> bi_uptodate b = true /\ bio_shows b (it_start_sec item) num (sw_st w')) /\
        (e = Some 0 -> bio_rw (it_bio item) = WRITE ->
           segs_data (bi_segs b) = segs_data (bi_segs (it_bio item)))) w.
Proof. intros Hk. eapply wp_mono; [by eapply wp_work_handler|]. by intros [b e] w' Hs. Qed.

(** A device whose sector 300 cannot be written, and a write to it. *)
Definition demo_sw (d : simdisk) : sw simdisk :=
  mkSw true HLive (Some (Some (Some (nth 0 swap_filter_table [])))) [] []
    (demo_core d no_bits []).
Definition demo_item : swap_bio_item := mkSwapItem (demo_bio WRITE) 300 1024 300 true.

Lemma demo_item_ok d : item_ok (demo_sw d) demo_item 2.
Proof.
  split; [done|apply demo_empty_inv|cbn; lia|lia|done| | |exact demo_segs_ok|exact demo_segs_len].
  - cbn. unfold demo_rs. lia.
  - cbn. lia.
Qed.

Lemma work_handler_serves_witness :
  item_ok (demo_sw (mkDisk ∅ [] [300] false)) demo_item 2 /\
  exists b e w', swap_bio_work_handler demo_item (demo_sw (mkDisk ∅ [] [300] false)) = Ok ((b, e), w') /\
                 (e = Some 0 \/ e = Some (- EIO)).
Proof.
  pose proof (demo_item_ok (mkDisk ∅ [] [300] false)) as Hk. split; [exact Hk|].
  destruct (wp_inv _ _ _ (work_handler_serves _ _ _ Hk)) as ([b e] & w' & E & _ & _ & He & _).
  exists b, e, w'. split; [exact E|]. apply He. reflexivity.
Defined.

(** ** Which bios are taken over *)

(** The conditions [swap_bio] tests, in the order it tests them. *)
Definition swappable {D} (w : sw D) (b : bio) (bdev : option block_device) (sector bad error : Z) : Prop :=
  error = - EIO /\ (bio_rw b = WRITE \/ bad = NO_SECTOR) /\ sdev_from_bdev bdev = true /\
  removable (sdev (sw_st w)) = false /\ changed (sdev (sw_st w)) = false /\ sw_enable w = true /\
  device_dead (core (sw_st w)) = 0 /\ sector < sector_reserve_start (core (sw_st w)).

Section Queue.
Context {D : Type} `{BlockDevice D}.
Implicit Types w : sw D.

Lemma wp_bio_get bdev w :
  wp (bio_get_scsi_swap bdev)
     (fun r w' => w' = w /\ (r = true <-> sdev_from_bdev bdev = true /\
        removable (sdev (sw_st w)) = false /\ changed (sdev (sw_st w)) = false /\ sw_enable w = true)) w.
Proof.
  unfold bio_get_scsi_swap. destruct (sdev_from_bdev bdev); cbn [negb]; [|by kstep; split; [done|]; intuition discriminate].
  do 2 kstep. destruct (removable _), (changed _); cbn [orb]; kstep; split; try done;
    intuition discriminate.
Qed.

(** [kmalloc], with the verdict it takes. *)
Lemma wp_kmalloc_next n (Q : option bytes -> st D -> Prop) (s : st D) :
  (forall l, kmem s !! 0%nat = Some None -> Q None (set_kmem l s)) ->
  (forall b l, kmem s !! 0%nat <> Some None -> Q (Some b) (set_kmem l s)) ->
  wp (kmalloc n) Q s.
Proof.
  intros HN HS. unfold wp, kmalloc, st_alloc. destruct (kmem s) as [|[f|] rest] eqn:E.
  - replace s with (set_kmem (kmem s) s) by (by destruct s). rewrite E. by apply HS.
  - by apply HS.
  - by apply HN.
Qed.
End Queue.

Lemma wp_swap_bio {D} `{BlockDevice D} (w : sw D) (b : bio) (bdev : option block_device)
    (sector size bad error : Z) (may_create : bool) :
  (sw_enable w = true -> sw_handler w = HLive) ->
  wp (swap_bio (Some b) bdev sector size bad error may_create)
     (fun r w' => exists l,
        (r = true -> swappable w b bdev sector bad error /\
           w' = sw_with_wq (sw_wq w ++ [mkSwapItem b sector size bad may_create])
                  (sw_with_st (set_kmem l (sw_st w)) w)) /\
        (r = false -> w' = sw_with_st (set_kmem l (sw_st w)) w /\
           (swappable w b bdev sector bad error -> kmem (sw_st w) !! 0%nat = Some None))) w.
Proof.
  intros Hl. unfold swap_bio.
  assert (w = sw_with_st (set_kmem (kmem (sw_st w)) (sw_st w)) w) as Hid
    by (by destruct w as [? ? ? ? ? []]).
  destruct (Z.eqb_spec error (- EIO)) as [He|He]; cbn [negb].
  2:{ kstep. eexists. split; [done|]. intros _. split; [exact Hid|]. by intros [? _]. }
  destruct (negb (bio_rw b =? WRITE) && negb (bad =? NO_SECTOR)) eqn:Erw.
  { kstep. eexists. split; [done|]. intros _. split; [exact Hid|]. intros (_ & ? & _). lia. }
  kstep. kcall @wp_bio_get. intros ok w' [-> Hok]. destruct ok; cbn [negb].
  2:{ kstep. eexists. split; [done|]. intros _. split; [exact Hid|].
      intros (_ & _ & ? & ? & ? & ? & _). discriminate (proj2 Hok); by split_and!. }
  destruct (proj1 Hok eq_refl) as (Hs & Hr & Hc & Hen). specialize (Hl Hen).
  kstep. apply wp_on_handler; [done|]. unfold scsi_swap_core_can_swap. do 3 kstep.
  destruct ((device_dead _ =? 0) && (sector <? _)) eqn:Ecan; cbn [negb].
  2:{ kstep. exists (kmem (sw_st w)). split; [done|]. intros _. split; [rewrite <- Hid; by destruct w|].
      intros (_ & _ & _ & _ & _ & _ & ? & ?). lia. }
  kstep. apply wp_on_sdev. apply wp_kmalloc_next.
  - intros l Hn. kstep. exists l. split; [done|]. intros _. by split.
  - intros buf l Hn. do 3 kstep. exists l. split; [|done]. intros _. split; [|done].
    unfold swappable. split_and!; try done; lia.
Qed.

(** [swap_bio] takes a bio over exactly when the request failed with -EIO, is
    a write or has no known bad sector, belongs to a fixed disk with a live swap
    core and starts below the reserved area (and a work item can be allocated).
    It then queues one work item, last, with the request as given; otherwise it
    leaves everything as it is. *)
Theorem swap_bio_takes {D} `{BlockDevice D} (w : sw D) (b : bio) (bdev : option block_device)
    (sector size bad error : Z) (may_create : bool) :
  (sw_enable w = true -> sw_handler w = HLive) ->
  wp (swap_bio (Some b) bdev sector size bad error may_create)
     (fun r w' => exists l,
        (r = true -> swappable w b bdev sector bad error /\
           w' = sw_with_wq (sw_wq w ++ [mkSwapItem b sector size bad may_create])
                  (sw_with_st (set_kmem l (sw_st w)) w)) /\
        (r = false -> w' = sw_with_st (set_kmem l (sw_st w)) w /\
           (swappable w b bdev sector bad error -> kmem (sw_st w) !! 0%nat = Some None))) w.
Proof. apply wp_swap_bio. Qed.

(** A fixed disk. *)
Definition demo_bdev : option block_device := Some (mkBdev (Some (mkDiskPtr (Some SdevDevice)))).

Lemma swap_bio_takes_witness :
  let w := demo_sw blank_disk in
  exists w', swap_bio (Some (demo_bio WRITE)) demo_bdev 300 1024 300 (- EIO) true w = Ok (true, w') /\
             sw_wq w' = [mkSwapItem (demo_bio WRITE) 300 1024 300 true].
Proof.
  intros w. destruct (wp_inv _ _ _ (swap_bio_takes w (demo_bio WRITE) demo_bdev 300 1024 300 (- EIO) true
    (fun _ => eq_refl))) as (r & w' & E & l & Ht & Hf).
  destruct r.
  - exists w'. split; [exact E|]. destruct (Ht eq_refl) as [_ ->]. reflexivity.
  - destruct (Hf eq_refl) as [_ Hk]. discriminate Hk. unfold swappable.
    split_and!; try reflexivity. by left.
Defined.

(** ** Life cycle *)

(** [scsi_swap_destroy] frees the handler and leaves [enable] set and
    [private_data] in place: if the device is still fixed, the next bio for it
    makes [bio_has_bad_block] read freed memory, and so does another
    [scsi_swap_destroy] (a driver unbound and bound again). *)
Theorem destroy_leaves_dangling {D} `{BlockDevice D} (w : sw D) (msleep : K (st D) unit) :
  sw_enable w = true -> sw_handler w = HLive -> inv (sw_st w) -> other_work msleep ->
  wp (scsi_swap_destroy msleep)
     (fun ret w' => ret = 0 /\ sw_handler w' = HFreed /\
        (forall b bdev, sdev_from_bdev bdev = true ->
           removable (sdev (sw_st w')) = false -> changed (sdev (sw_st w')) = false ->
           bio_has_bad_block b bdev w' = Oops UseAfterFree) /\
        (forall msleep', scsi_swap_destroy msleep' w' = Oops UseAfterFree)) w.
Proof.
  intros He Hl Hi Hk. unfold scsi_swap_destroy. do 2 kstep. rewrite He. cbn [negb].
  kstep. apply wp_on_handler; [done|].
  eapply wp_mono; [by apply wp_core_destroy|]. cbv beta. intros ret s' _.
  kstep. apply wp_on_handler; [done|]. unfold scsi_swap_log_destroy. do 3 kstep.
  kstep. apply wp_on_handler; [done|]. kstep. do 5 kstep.
  split_and!; [done|done| |].
  - intros b bdev Hb Hr Hc. unfold bio_has_bad_block, bio_get_scsi_swap. rewrite Hb. cbn [negb].
    unfold mbind, K_bind, kget, mret, K_ret. cbn in *. by rewrite Hr, Hc, He.
  - intros msleep'. unfold scsi_swap_destroy, mbind, K_bind, kget. cbn. by rewrite He.
Qed.

Lemma destroy_leaves_dangling_witness :
  let w := demo_sw blank_disk in
  exists w', scsi_swap_destroy (mret tt) w = Ok (0, w') /\
             scsi_swap_destroy (mret tt) w' = Oops UseAfterFree.
Proof.
  intros w. destruct (wp_inv _ _ _ (destroy_leaves_dangling w (mret tt) eq_refl eq_refl
    (proj1 (demo_empty_inv blank_disk)) other_work_ret)) as (r & w' & E & -> & _ & _ & Hd).
  exists w'. split; [exact E|apply Hd].
Defined.

(** A disk before [sd_probe] initialises its swap area. *)
Definition fresh_sw (d : simdisk) (k : list (option (nat -> byte))) : sw simdisk :=
  mkSw false HNull (Some (Some (Some (nth 0 swap_filter_table [])))) [] []
    (zero_handler (set_kmem k (demo_core d no_bits []))).

(** [scsi_swap_init] does not look at the result of [scsi_swap_log_init].
    When the ring cannot be allocated it still returns 0 with the device enabled,
    and the first write that needs a replacement block dereferences the missing
    ring. *)
Theorem init_without_log_oopses :
  exists w, scsi_swap_init demo_rs (fresh_sw (mkDisk ∅ [] [256] false) [Some (fun _ => Byte.x00); None])
              = Ok (0, w) /\
    sw_enable w = true /\ ring (log (sw_st w)) = None /\
    swap_bio_work_handler (mkSwapItem (demo_bio WRITE) 256 1024 256 true) w = Oops NullDeref.
Proof.
  pose (r := scsi_swap_init demo_rs
    (fresh_sw (mkDisk ∅ [] [256] false) [Some (fun _ => Byte.x00); None])).
  assert (match r with
          | Ok (0, w) => match swap_bio_work_handler (mkSwapItem (demo_bio WRITE) 256 1024 256 true) w with
                         | Oops NullDeref => sw_enable w && negb (bool_decide (is_Some (ring (log (sw_st w)))))
                         | _ => false
                         end
          | _ => false
          end = true) as E by (vm_compute; reflexivity).
  fold r. clearbody r. destruct r as [[[|?|?] w]|]; try discriminate E. exists w.
  destruct (swap_bio_work_handler _ w) as [?|[]]; try discriminate E.
  apply andb_prop in E as [E1 E2]. split_and!; [done|done| |done].
  destruct (ring _); [|done]. by rewrite bool_decide_eq_true_2 in E2.
Qed.
