(* ===== verification/Restart.v ===== *)
(** * The driver across restarts

    [scsi_swap_init] (swap.c) on a disk in use brings the mapping back, on a disk
    that was never used it starts with an empty one.  A history is a sequence of
    reads, writes, changes of the memory situation and restarts; the theorem on
    histories says that every read that succeeds delivers what was last written, no
    matter how many restarts lie between and which of the user's sectors fail, as
    long as the reserved area is sound. *)

From stdpp Require Import base gmap fin_maps list list_numbers.
From coqutil Require Import Byte Word.LittleEndianList.
From Stdlib Require Import ZArith Lia.
From S2P Require Import Prelude Kapi Crc32 Ring Layout State Scsi SimDisk Log Core CoreInv CoreSpec CoreReq CoreThm CoreInit CoreDisk CorePersist CoreBoot Sim Swap SwapThm.

Local Open Scope Z_scope.

Section Start.
Context {D : Type} {rs : Z} `{SoundReserve D rs}.
Implicit Types (s : st D) (w : sw D).

(** The driver runs, and its mapping is on the disk. *)
Record up w : Prop := {
  up_enable : sw_enable w = true;
  up_live : sw_handler w = HLive;
  up_host : scsi_device_can_swap (sw_host w) = true;
  up_kept : kept rs (sw_st w);
  up_user : user (core (sw_st w)) = 0
}.

Lemma zero_head_wf s : head_wf (head (core (zero_handler s))).
Proof. apply decode_head_wf. by apply zlen_fill. Qed.

(** A start in which the search finds the mapping [v]. *)
Lemma wp_swap_init_found v (P : st D -> Prop) w :
  room_for_reserve (rs := rs) -> scsi_device_can_swap (sw_host w) = true -> kmem (sw_st w) = [] ->
  wp (init_swap_head (rs + SWAP_HEAD_OFFEST) SWAP_HEAD_N_SECTOR)
     (fun ret s' => ret = 0 /\ found (rs := rs) v s' /\ P s') (placed (rs := rs) (zero_handler (sw_st w))) ->
  wp (scsi_swap_init rs)
     (fun ret w' => ret = 0 /\ up w' /\ device_dead (core (sw_st w')) = 0 /\
        same_maps v (view_of (sw_st w')) /\
        exists s2, P s2 /\ forall x, sees (sw_st w') x = content v (media (dev s2)) x) w.
Proof.
  intros [R1 R2] Hhost Hk Hsearch. unfold scsi_swap_init. do 2 kstep. rewrite Hhost. cbn [negb].
  kstep. apply wp_on_sdev, wp_kmalloc_free; [done|]. do 3 kstep.
  apply wp_on_handler; [done|]. eapply wp_mono; [apply (wp_core_init_found v P); [done|done|exact Hsearch]|].
  cbv beta. intros ret s3 (-> & s2 & Hfd & HP & Hrv). cbn [Z.ltb Z.compare].
  assert (u64 (rs + SWAP_LOG_HEAD_OFFSET) = rs + SWAP_LOG_HEAD_OFFSET /\
          u64 (rs + SWAP_LOG_DATA_OFFSET) = rs + SWAP_LOG_DATA_OFFSET) as [-> ->].
  { unfold MAX_RESERVED_SECTOR, SECTOR_1M in R2. layout. rewrite !u64_small by lia. done. }
  pose proof Hfd as [_ _ Hr _ Hlg _ _ _]. pose proof Hrv as [Hsm _ Ht3 _ (Hd & Hu & Hk3)].
  assert (sector_reserve_start (core s3) = rs) as Er3.
  { destruct Hsm as [_ Eg]. rewrite <- Hr. unfold v_reserve. rewrite <- Eg. done. }
  kstep. apply wp_on_handler; [done|]. eapply wp_mono.
  { apply (wp_log_init_sane (rs := rs) s3); [split; by rewrite Er3|done|done|].
    eapply log_sane_frame; [|exact Hlg]. apply Ht3. tauto. }
  cbv beta. intros ret s4 (Hl & Ec & Ei & Ht4). do 5 kstep.
  destruct (revived_kept v s2 s3 s4 Hfd Hrv Hl Ec Ei Ht4) as [Hkept Hsees].
  split_and!; [done| |by cbn; rewrite Ec| |by exists s2].
  - split; [done|done|exact Hhost|exact Hkept|by cbn; rewrite Ec].
  - cbn. replace (view_of s4) with (view_of s3); [exact Hsm|]. unfold view_of, geom. by rewrite Ec, Ei.
Qed.

Lemma wp_swap_init_kept s0 w :
  kept rs s0 -> dev (sw_st w) = dev s0 -> kmem (sw_st w) = [] -> scsi_device_can_swap (sw_host w) = true ->
  wp (scsi_swap_init rs)
     (fun ret w' => ret = 0 /\ up w' /\ device_dead (core (sw_st w')) = 0 /\
        same_maps (view_of s0) (view_of (sw_st w')) /\
        forall x, user_sector (view_of s0) x -> sees (sw_st w') x = sees s0 x) w.
Proof.
  intros Hk Ed Hm Hh. pose proof Hk as [(_ & Hmp & _) _ Hr _ _ _].
  destruct (geom_nums _ (mo_geom _ Hmp) Hr) as (N1 & N2 & N3 & _).
  eapply wp_mono; [apply (wp_swap_init_found (view_of s0)); [by split|done|done|]|].
  { apply wp_search_saved; [done|exact Ed|exact Hm|apply zero_head_wf]. }
  cbv beta. intros ret w' (-> & Hup & Hd & Hsm & s2 & Ht & Hs). split_and!; try done.
  intros x Hx. rewrite Hs. apply content_ext. intros _. apply Ht. unfold user_sector in Hx. layout. lia.
Qed.

Lemma wp_swap_init_blank w :
  room_for_reserve (rs := rs) -> blank (rs := rs) (media (dev (sw_st w))) -> kmem (sw_st w) = [] ->
  scsi_device_can_swap (sw_host w) = true ->
  wp (scsi_swap_init rs)
     (fun ret w' => ret = 0 /\ up w' /\ device_dead (core (sw_st w')) = 0 /\
        info_list (core (sw_st w')) = [] /\
        forall x, 0 <= x < rs -> sees (sw_st w') x = media (dev (sw_st w)) x) w.
Proof.
  intros Hrm Hb Hm Hh.
  eapply wp_mono; [apply (wp_swap_init_found (empty_view (rs := rs))); [done|done|done|]|].
  { apply wp_search_blank; [done|exact Hb|exact Hm|apply zero_head_wf]. }
  cbv beta. intros ret w' (-> & Hup & Hd & Hsm & s2 & Ht & Hs). split_and!; try done.
  - apply same_len in Hsm. change (zlen (info_list (core (sw_st w'))) = 0) in Hsm.
    unfold zlen in Hsm. apply nil_length_inv. lia.
  - intros x Hx. rewrite Hs. apply Ht. unfold head_area. layout. lia.
Qed.
End Start.

(** ** Histories *)

(** [OMemory] decides how the coming allocations end; [OReboot] loses everything
    that is not on the disk and starts the driver again. *)
Inductive op :=
  | OWrite (start count bad : Z) (buf : bytes)
  | ORead (start count bad : Z) (buf : bytes)
  | OMemory (verdicts : list (option (nat -> byte)))
  | OReboot (time : Z).

(** Requests of the user's sectors. *)
Definition op_ok (rs : Z) (o : op) : Prop :=
  match o with
  | OWrite start count _ buf | ORead start count _ buf =>
      0 <= start /\ 0 < count < 2 ^ 23 /\ start + count <= rs /\ zlen buf = 512 * count
  | OMemory _ | OReboot _ => True
  end.

(** A block of the request reaches sector [x]. *)
Definition reaches (start count x : Z) : bool :=
  (SWAP_SECTOR_ALIGN start <=? SWAP_SECTOR_ALIGN x) && (SWAP_SECTOR_ALIGN x <? start + count).

Definition covers (start count x : Z) : bool := (start <=? x) && (x <? start + count).

(** The abstract disk at sector [x]: what a reader may rely on after an operation
    with answer [ret].  A write that fails, or a request that reports damage, leaves
    the blocks it reaches in doubt; nothing else does. *)
Definition learn (x : Z) (o : op) (ret : Z) (k : option bytes) : option bytes :=
  match o with
  | OWrite start count _ buf =>
      if covers start count x then
        if ret =? -1 then None else Some (slice (512 * (x - start)) 512 buf)
      else if ret =? 0 then k else if reaches start count x then None else k
  | ORead start count _ _ =>
      if ret =? 0 then k else if reaches start count x then None else k
  | OMemory _ | OReboot _ => k
  end.

(** Every read of [x] that succeeds tells what is known of [x]. *)
Fixpoint told (x : Z) (ops : list op) (answers : list (Z * bytes)) (k : option bytes) : Prop :=
  match ops, answers with
  | o :: ops', (ret, buf') :: answers' =>
      match o with
      | ORead start count _ _ =>
          ret = 0 -> covers start count x = true -> forall b, k = Some b ->
          slice (512 * (x - start)) 512 buf' = b
      | _ => True
      end /\ told x ops' answers' (learn x o ret k)
  | _, _ => True
  end.

Section History.
Context {D : Type} {rs : Z} `{SoundReserve D rs}.
Implicit Types (s : st D) (w : sw D).

(** The machine without the driver: only the disk is left. *)
Definition power_cycle (time : Z) w : sw D :=
  mkSw false HNull (sw_host w) [] []
    (let z := zero_handler (sw_st w) in mkSt (dev z) (sdev z) (core z) (log z) ∅ [] time).

Definition exec_op (o : op) : K (sw D) (Z * bytes) :=
  match o with
  | OWrite start count bad buf =>
      ret ← on_handler (scsi_swap_core_write start count bad buf); mret (ret, [])
  | ORead start count bad buf => on_handler (scsi_swap_core_read start count bad buf)
  | OMemory l => kmod (fun w => sw_with_st (set_kmem l (sw_st w)) w);; mret (0, [])
  | OReboot time => kmod (power_cycle time);; ret ← scsi_swap_init rs; mret (ret, [])
  end.

Fixpoint exec_ops (ops : list op) : K (sw D) (list (Z * bytes)) :=
  match ops with
  | [] => mret []
  | o :: ops' => a ← exec_op o; rest ← exec_ops ops'; mret (a :: rest)
  end.

Lemma up_request start count buf w :
  up (rs := rs) w -> 0 <= start /\ 0 < count < 2 ^ 23 /\ start + count <= rs /\ zlen buf = 512 * count ->
  inv (sw_st w) /\ request (sw_st w) start count buf.
Proof.
  intros [_ _ _ [Hi _ Hr _ _ _] Hu] (? & ? & ? & ?). split; [done|].
  split; [done|done|by rewrite Hr|done|]. change (v_user (view_of (sw_st w))) with (user (core (sw_st w))).
  rewrite Hu. lia.
Qed.

(** What one operation does to the abstract disk. *)
Definition op_spec (o : op) w (a : Z * bytes) w' : Prop :=
  up (rs := rs) w' /\
  forall x, 0 <= x < rs ->
    (forall b, learn x o (fst a) (Some (sees (sw_st w) x)) = Some b -> sees (sw_st w') x = b) /\
    match o with
    | ORead start count _ _ => fst a = 0 -> covers start count x = true ->
        slice (512 * (x - start)) 512 (snd a) = sees (sw_st w) x
    | _ => True
    end.

Lemma up_st s w : up (rs := rs) w -> kept rs s -> user (core s) = 0 -> up (rs := rs) (sw_with_st s w).
Proof. intros [U1 U2 U3 _ _] Hk Hu. by split. Qed.

Lemma learn_keeps x start count ret (v1 v2 b : bytes) :
  (ret = 0 -> v2 = v1) -> (reaches start count x = false -> v2 = v1) ->
  (if ret =? 0 then Some v1 else if reaches start count x then None else Some v1) = Some b -> v2 = b.
Proof.
  intros Hz Hn. destruct (Z.eqb_spec ret 0); [intros [= <-]; auto|].
  destruct (reaches start count x); [done|]. intros [= <-]. auto.
Qed.

Lemma reaches_touched start count x : reaches start count x = false -> ~ touched start (start + count) x.
Proof.
  unfold reaches, touched. intros [E|E]%andb_false_iff; [apply Z.leb_gt in E|apply Z.ltb_ge in E]; lia.
Qed.

Lemma covers_spec start count x : covers start count x = true <-> start <= x < start + count.
Proof. unfold covers. rewrite andb_true_iff, Z.leb_le, Z.ltb_lt. done. Qed.

Lemma wp_exec_write start count bad buf w :
  up (rs := rs) w -> op_ok rs (OWrite start count bad buf) ->
  wp (exec_op (OWrite start count bad buf)) (op_spec (OWrite start count bad buf) w) w.
Proof.
  intros Hup Hok. destruct (up_request _ _ _ _ Hup Hok) as [Hi Hrq].
  pose proof Hup as [_ Hlive _ Hk Hu]. pose proof (kp_rs _ _ Hk) as Hr. cbn [exec_op].
  kstep. apply wp_on_handler; [done|].
  eapply wp_mono; [apply wp_and; [by apply wp_core_write|by apply wp_core_write_kept]|].
  cbv beta. intros ret s' (((_ & _ & Hu' & _) & _ & Hsto & Hz & Hfr & _) & Hk'). kstep. split.
  - apply up_st; [done|done|]. rewrite <- Hu. exact Hu'.
  - intros x Hx. split; [|done]. intros b. cbn [learn fst sw_st sw_with_st].
    assert (user_sector (view_of (sw_st w)) x) as Hux by (unfold user_sector; by rewrite Hr).
    destruct (covers start count x) eqn:Hc.
    + apply covers_spec in Hc. destruct (Z.eqb_spec ret (-1)) as [|Hne]; [done|]. intros [= <-].
      rewrite (Hsto Hne x Hc). done.
    + apply learn_keeps.
      * intros E. apply (Hz E x Hux). rewrite <- covers_spec, Hc. done.
      * intros E. apply (Hfr x Hux). by apply reaches_touched.
Qed.

Lemma wp_exec_read start count bad buf w :
  up (rs := rs) w -> op_ok rs (ORead start count bad buf) ->
  wp (exec_op (ORead start count bad buf)) (op_spec (ORead start count bad buf) w) w.
Proof.
  intros Hup Hok. destruct (up_request _ _ _ _ Hup Hok) as [Hi Hrq].
  pose proof Hup as [_ Hlive _ Hk Hu]. pose proof (kp_rs _ _ Hk) as Hr. cbn [exec_op].
  apply wp_on_handler; [done|].
  eapply wp_mono; [apply wp_and; [by apply wp_core_read|by apply wp_core_read_kept]|].
  cbv beta. intros [ret buf'] s' ((_ & (_ & _ & Hu' & _) & _ & Hz & Hsh & Hfr & _) & Hk'). split.
  - apply up_st; [done|done|]. rewrite <- Hu. exact Hu'.
  - intros x Hx. cbn [learn fst snd sw_st sw_with_st].
    assert (user_sector (view_of (sw_st w)) x) as Hux by (unfold user_sector; by rewrite Hr). split.
    + intros b. apply learn_keeps.
      * intros E. by apply (Hz E x).
      * intros E. apply (Hfr x Hux). by apply reaches_touched.
    + intros -> Hc%covers_spec. rewrite <- (Hz eq_refl x Hux). apply (Hsh ltac:(done) x Hc).
Qed.

Lemma wp_exec_reboot time w :
  up (rs := rs) w -> wp (exec_op (OReboot time)) (op_spec (OReboot time) w) w.
Proof.
  intros [_ _ Hh Hk Hu]. cbn [exec_op]. do 3 kstep.
  eapply wp_mono; [apply (wp_swap_init_kept (sw_st w)); done|].
  cbv beta. intros ret w' (-> & Hup & _ & _ & Hs). kstep. split; [done|]. intros x Hx. split; [|done].
  cbn [learn]. intros b [= <-]. apply Hs. unfold user_sector. by rewrite (kp_rs _ _ Hk).
Qed.

Lemma kept_kmem l s : kept rs s -> kept rs (set_kmem l s).
Proof. by intros [? ? ? ? ? ?]. Qed.

Lemma wp_exec_op o w :
  up (rs := rs) w -> op_ok rs o -> wp (exec_op o) (op_spec o w) w.
Proof.
  intros Hup Hok. destruct o; [by apply wp_exec_write|by apply wp_exec_read| |by apply wp_exec_reboot].
  cbn [exec_op]. do 3 kstep. split.
  - destruct Hup as [U1 U2 U3 U4 U5]. by split; [..|apply kept_kmem|].
  - intros x Hx. split; [|done]. cbn [learn]. by intros b [= <-].
Qed.

Lemma wp_exec_ops ops : forall w (k : Z -> option bytes),
  up (rs := rs) w -> Forall (op_ok rs) ops ->
  (forall x b, 0 <= x < rs -> k x = Some b -> sees (sw_st w) x = b) ->
  wp (exec_ops ops) (fun answers w' => up (rs := rs) w' /\ length answers = length ops /\
    forall x, 0 <= x < rs -> told x ops answers (k x)) w.
Proof.
  induction ops as [|o ops IH]; intros w k Hup Hok Hkn; cbn [exec_ops]; [by kstep|].
  apply Forall_cons in Hok as [Ho Hok]. kstep. eapply wp_mono; [by apply wp_exec_op|].
  intros [ret buf] w1 [Hup1 Hsp]. kstep. cbn [fst snd] in *.
  eapply wp_mono; [apply (IH w1 (fun x => learn x o ret (k x)) Hup1 Hok)|].
  - intros x b Hx Hl. apply (proj1 (Hsp x Hx)).
    destruct (k x) as [c|] eqn:Ek; [by rewrite (Hkn x c Hx Ek)|]. revert Hl.
    destruct o; cbn [learn]; repeat case_match; done.
  - cbv beta. intros answers w2 (Hup2 & Hlen & Htold). kstep. split_and!; [done|cbn; congruence|].
    intros x Hx. cbn [told]. split; [|by apply Htold].
    destruct o; try done. intros E Hc b Hb. rewrite <- (Hkn x b Hx Hb). by apply (Hsp x Hx).
Qed.
End History.

(** ** A device to run histories on *)

(** A [simdisk] whose bad sectors all lie below [demo_rs]. *)
Record userdisk := mkUser { ud : simdisk }.

Definition sound_part (d : simdisk) : simdisk :=
  mkDisk (blocks d) (filter (fun x => x < demo_rs) (bad_read d)) (filter (fun x => x < demo_rs) (bad_write d)) false.

Definition user_execute (d : userdisk) (cdb : bytes) (dir : dma_dir) (buf : bytes) (timeout retries : Z)
    : userdisk * scsi_reply :=
  let '(d', rep) := sim_execute (sound_part (ud d)) cdb dir buf timeout retries in (mkUser d', rep).

#[global] Instance userdisk_lower : ScsiLower userdisk := {
  HZ := 1000;
  scsi_execute := user_execute;
  scsi_execute_req d cdb dir buf timeout retries := (d, (0, no_sense_hdr, buf));
  scsi_normalize_sense := scsi_normalize_sense (D := simdisk);
  scsi_sense_valid := scsi_sense_valid (D := simdisk)
}.

Lemma user_read_law d cdb buf timeout retries :
  cdb_op cdb = READ_10 -> zlen buf = 512 * cdb10_len cdb ->
  let '(d', rep) := user_execute d cdb DMA_FROM_DEVICE buf timeout retries in
  (forall x, sim_media (ud d') x = sim_media (ud d) x) /\ zlen (r_buf rep) = zlen buf /\
  (reply_good rep = true -> forall i, 0 <= i < cdb10_len cdb ->
     slice (512 * i) 512 (r_buf rep) = sim_media (ud d) (cdb10_lba cdb + i)).
Proof.
  intros Hop Hb. unfold user_execute.
  pose proof (sim_read_law (sound_part (ud d)) cdb buf timeout retries Hop Hb) as Hlaw.
  by destruct (sim_execute _ _ _ _ _ _) as [d' rep].
Qed.

Lemma user_write_law d cdb buf timeout retries :
  cdb_op cdb = WRITE_10 -> zlen buf = 512 * cdb10_len cdb ->
  let '(d', rep) := user_execute d cdb DMA_TO_DEVICE buf timeout retries in
  (forall x, ~ cdb10_lba cdb <= x < cdb10_lba cdb + cdb10_len cdb ->
     sim_media (ud d') x = sim_media (ud d) x) /\
  (reply_good rep = true -> forall i, 0 <= i < cdb10_len cdb ->
     sim_media (ud d') (cdb10_lba cdb + i) = slice (512 * i) 512 buf).
Proof.
  intros Hop Hb. unfold user_execute.
  pose proof (sim_write_law (sound_part (ud d)) cdb buf timeout retries Hop Hb) as Hlaw.
  by destruct (sim_execute _ _ _ _ _ _) as [d' rep].
Qed.

#[global] Instance userdisk_block : BlockDevice userdisk := {
  media d := sim_media (ud d);
  media_len d := sim_media_len (ud d);
  execute_read10 := user_read_law;
  execute_write10 := user_write_law;
  execute_req_nodata d cdb timeout retries := fun x => eq_refl
}.

Lemma sound_range (l : list Z) lba n :
  demo_rs <= lba -> range_hits (filter (fun x => x < demo_rs) l) lba n = false.
Proof.
  intros Hl. unfold range_hits. apply not_true_is_false. rewrite existsb_exists.
  intros (x & Hx%list_elem_of_In & Hr). apply list_elem_of_filter in Hx as [Hx _].
  apply andb_prop in Hr as [Hr%Z.leb_le _]. lia.
Qed.

#[global] Instance userdisk_sound : SoundReserve userdisk demo_rs.
Proof.
  split; intros d cdb buf timeout retries Hop Hb Hl _; cbn [scsi_execute userdisk_lower];
    unfold user_execute, sim_execute; rewrite Hop; cbn [gone sound_part bad_read bad_write orb].
  - rewrite Z.eqb_refl, sound_range by done. reflexivity.
  - change (WRITE_10 =? READ_10) with false. rewrite Z.eqb_refl, sound_range by done. reflexivity.
Qed.

(** A machine with such a disk, before the driver is started. *)
Definition user_machine (rd wr : list Z) : sw userdisk :=
  let s := demo_core blank_disk no_bits [] in
  mkSw false HNull (Some (Some (Some (nth 0 swap_filter_table [])))) [] []
    (mkSt (mkUser (mkDisk ∅ rd wr false)) (sdev s) (core s) (log s) (infos s) [] (clock s)).

Lemma user_machine_blank rd wr :
  room_for_reserve (rs := demo_rs) /\ blank (rs := demo_rs) (media (dev (sw_st (user_machine rd wr)))) /\
  scsi_device_can_swap (sw_host (user_machine rd wr)) = true.
Proof.
  assert (forall x, media (dev (sw_st (user_machine rd wr))) x = fill 512 Byte.x00) as Hm.
  { intros x. cbn. unfold sim_media. cbn. rewrite lookup_empty. done. }
  split_and!; [split; vm_compute; congruence| |done]. split.
  - rewrite Hm. by vm_compute.
  - rewrite Hm. by vm_compute.
  - intros n Hn. unfold entry_at. rewrite !Hm.
    assert (sec_size (table_at (fill 512 Byte.x00) (n mod 8)) = 0) as ->; [|done].
    unfold table_at, sizeof_swap_table. pose proof (Z.mod_pos_bound n 8 ltac:(lia)).
    rewrite slice_fill by lia. by vm_compute.
  - unfold log_sane. rewrite Hm. by vm_compute.
Qed.

(** The driver runs on such a machine. *)
Lemma user_machine_up rd wr :
  exists w, scsi_swap_init demo_rs (user_machine rd wr) = Ok (0, w) /\ up (rs := demo_rs) w.
Proof.
  destruct (user_machine_blank rd wr) as (Hrm & Hb & Hh).
  destruct (wp_inv _ _ _ (wp_swap_init_blank (user_machine rd wr) Hrm Hb eq_refl Hh))
    as (ret & w & E & -> & Hup & _). by exists w.
Qed.

(** ** Results *)

(** C6: on a device whose reserved area is sound, every read and every write of
    user sectors leaves on the disk what a new start needs: a head the driver
    accepts, with the bits of all replacement blocks in use, both copies of the table
    with exactly the mappings, the data of every mapped block, and a log that can be
    loaded; this holds whatever the user's sectors do, whatever the request answers
    and however the allocations end. *)
Theorem requests_keep_disk {D} {rs : Z} `{SoundReserve D rs} (s : st D) (start count bad : Z) (buf : bytes) :
  kept rs s -> request s start count buf ->
  wp (scsi_swap_core_read start count bad buf) (fun _ s' => kept rs s') s /\
  wp (scsi_swap_core_write start count bad buf) (fun _ s' => kept rs s') s.
Proof. intros Hk Hr. split; [by apply wp_core_read_kept|by apply wp_core_write_kept]. Qed.

Lemma requests_keep_disk_witness :
  exists w ret s', kept demo_rs (sw_st (D := userdisk) w) /\
    scsi_swap_core_write 290 20 NO_SECTOR (fill (512 * 20) Byte.x55) (sw_st w) = Ok (ret, s') /\ kept demo_rs s'.
Proof.
  destruct (user_machine_up [] [300]) as (w & _ & Hup).
  destruct (up_request 290 20 (fill (512 * 20) Byte.x55) w Hup) as [_ Hr].
  { split_and!; [lia|lia|lia|unfold demo_rs; lia|by rewrite zlen_fill by lia]. }
  destruct (wp_inv _ _ _ (proj2 (requests_keep_disk (sw_st w) 290 20 NO_SECTOR _ (up_kept _ Hup) Hr)))
    as (ret & s' & E & Hk).
  exists w, ret, s'. split; [exact (up_kept _ Hup)|]. split; [exact E|exact Hk].
Defined.

(** C4: on a device whose reserved area is sound (every READ(10) and WRITE(10)
    inside it completes; with an unreadable replacement block the start oopses,
    [init_unreadable_block_oopses]) and whose host the filter table accepts, and with
    memory for the allocations of the start, [scsi_swap_init] on the disk of a driver whose mapping was kept
    succeeds: it finds the head, loads the same mappings in the same order with
    their data, starts the log, enables the device and counts no error; every user
    sector shows what it showed before, and the new state is kept again.  Nothing
    but the disk is taken over from the state [s0] before the restart. *)
Theorem restart_restores {D} {rs : Z} `{SoundReserve D rs} (s0 : st D) (w : sw D) :
  kept rs s0 -> dev (sw_st w) = dev s0 -> kmem (sw_st w) = [] -> scsi_device_can_swap (sw_host w) = true ->
  wp (scsi_swap_init rs)
     (fun ret w' => ret = 0 /\ up (rs := rs) w' /\ device_dead (core (sw_st w')) = 0 /\
        objects (view_of (sw_st w')) = objects (view_of s0) /\
        forall x, user_sector (view_of s0) x -> sees (sw_st w') x = sees s0 x) w.
Proof.
  intros Hk Ed Hm Hh. eapply wp_mono; [by apply (wp_swap_init_kept s0)|].
  cbv beta. intros ret w' (-> & Hup & Hd & [Ho _] & Hs). by split_and!.
Qed.

(** The machine of the witness: started, and a write to a block with a bad sector. *)
Definition mapped_machine : K (sw userdisk) Z :=
  scsi_swap_init demo_rs;;
  a ← exec_op (rs := demo_rs) (OWrite 290 20 NO_SECTOR (fill (512 * 20) Byte.x55));
  mret (fst a).

Lemma mapped_machine_up :
  exists ret w, mapped_machine (user_machine [] [300]) = Ok (ret, w) /\ up (rs := demo_rs) w.
Proof.
  destruct (user_machine_up [] [300]) as (w & E & Hup).
  assert (op_ok demo_rs (OWrite 290 20 NO_SECTOR (fill (512 * 20) Byte.x55))) as Hok
    by (cbn [op_ok]; unfold demo_rs; rewrite ?zlen_fill by lia; lia).
  destruct (wp_inv _ _ _ (wp_exec_op _ w Hup Hok)) as (a & w1 & E1 & Hup1 & _).
  exists (fst a), w1. split; [|exact Hup1].
  unfold mapped_machine, mbind, K_bind. rewrite E, E1. reflexivity.
Qed.

(** One mapping, made for the bad sector 300, survives the restart. *)
Lemma restart_restores_witness :
  exists ret w w', mapped_machine (user_machine [] [300]) = Ok (ret, w) /\
    kept demo_rs (sw_st w) /\ length (info_list (core (sw_st w))) = 1%nat /\
    scsi_swap_init demo_rs (power_cycle 1386000000 w) = Ok (0, w') /\
    objects (view_of (sw_st w')) = objects (view_of (sw_st w)) /\
    forall x, 0 <= x < demo_rs -> sees (sw_st w') x = sees (sw_st w) x.
Proof.
  destruct mapped_machine_up as (r & w & E0 & Hup). pose proof (up_kept _ Hup) as Hk.
  assert (match mapped_machine (user_machine [] [300]) with
          | Ok (_, x) => (length (info_list (core (sw_st x))) =? 1)%nat | Oops _ => false end = true) as Hl
    by (vm_compute; reflexivity).
  rewrite E0 in Hl. apply Nat.eqb_eq in Hl.
  destruct (wp_inv _ _ _ (restart_restores (sw_st w) (power_cycle 1386000000 w) Hk eq_refl eq_refl (up_host _ Hup)))
    as (ret & w' & E & -> & _ & _ & Ho & Hs).
  exists r, w, w'. split; [exact E0|]. split; [exact Hk|]. split; [exact Hl|]. split; [exact E|].
  split; [exact Ho|]. intros x Hx. apply Hs.
  unfold user_sector. rewrite (kp_rs _ _ Hk). exact Hx.
Defined.

(** C12: on a device whose reserved area is sound (every READ(10) and WRITE(10)
    inside it completes) and lies within 32-bit sector numbers, whose host the
    filter table accepts, and with memory for the allocations of the start, the first [scsi_swap_init] on a disk without a
    head, without table entries and without a log that contradicts itself succeeds: the device is enabled, no
    block is mapped, the user's sectors are those of the medium, and the empty
    mapping is on the disk. *)
Theorem first_start_empty {D} {rs : Z} `{SoundReserve D rs} (w : sw D) :
  room_for_reserve (rs := rs) -> blank (rs := rs) (media (dev (sw_st w))) -> kmem (sw_st w) = [] ->
  scsi_device_can_swap (sw_host w) = true ->
  wp (scsi_swap_init rs)
     (fun ret w' => ret = 0 /\ up (rs := rs) w' /\ device_dead (core (sw_st w')) = 0 /\
        info_list (core (sw_st w')) = [] /\
        forall x, 0 <= x < rs -> sees (sw_st w') x = media (dev (sw_st w)) x) w.
Proof. apply wp_swap_init_blank. Qed.

Lemma first_start_empty_witness :
  exists w', scsi_swap_init demo_rs (user_machine [300] [300]) = Ok (0, w') /\
             info_list (core (sw_st w')) = [].
Proof.
  destruct (user_machine_blank [300] [300]) as (Hrm & Hb & Hh).
  pose proof (first_start_empty (rs := demo_rs) (user_machine [300] [300]) Hrm Hb eq_refl Hh) as Hwp.
  destruct (wp_inv _ _ _ Hwp) as (ret & w' & E & -> & _ & _ & Hl & _).
  exists w'. split; [exact E|exact Hl].
Defined.

(** C3: histories refine an abstract disk.  The device is one whose reserved area
    is sound: every READ(10) and WRITE(10) inside it completes, while commands for
    the user's sectors may fail in any way (with failures in the reserved area the
    claim does not hold, see [init_unreadable_block_oopses], [stale_master_head_wins]
    and [lost_head_reuses_block]).  The driver is up, the requests lie in the user's
    area, a restart happens between two requests and finds memory, while allocations
    during requests may fail in any way.  Then every sequence of reads, writes,
    changes of the memory situation and restarts runs to its end, and each read that
    returns 0 delivers, sector by sector, what the abstract disk [learn] says: the last data
    written without failure, or the original content, except where a later request
    answered that it failed or that data may be damaged.  Restarts change nothing. *)
Theorem history_told {D} {rs : Z} `{SoundReserve D rs} (w : sw D) (ops : list op) :
  up (rs := rs) w -> Forall (op_ok rs) ops ->
  wp (exec_ops (rs := rs) ops) (fun answers w' => up (rs := rs) w' /\ length answers = length ops /\
    forall x, 0 <= x < rs -> told x ops answers (Some (sees (sw_st w) x))) w.
Proof.
  intros Hup Hok. apply (wp_exec_ops ops w (fun x => Some (sees (sw_st w) x)) Hup Hok).
  by intros x b _ [= <-].
Qed.

(** A write to a block with a bad sector, a restart, and a read. *)
Definition write_restart_read : list op :=
  [OWrite 290 20 NO_SECTOR (fill (512 * 20) Byte.x55); OReboot 1386000000;
   ORead 290 20 NO_SECTOR (fill (512 * 20) Byte.x00)].

Definition answers_of {D} (r : res (list (Z * bytes) * sw D)) : list (Z * bytes) :=
  match r with Ok (l, _) => l | Oops _ => [] end.

Lemma history_told_witness :
  (exists w answers w', up (D := userdisk) (rs := demo_rs) w /\
     exec_ops (rs := demo_rs) write_restart_read w = Ok (answers, w') /\
     told 300 write_restart_read answers (Some (sees (sw_st w) 300))) /\
  bool_decide (answers_of ((scsi_swap_init demo_rs;; exec_ops (rs := demo_rs) write_restart_read)
                             (user_machine [] [300]))
    = [(- DATA_MAY_DIRTY, []); (0, []); (0, fill (512 * 20) Byte.x55)]) = true.
Proof.
  split; [|vm_compute; reflexivity].
  destruct (user_machine_up [] [300]) as (w & _ & Hup).
  assert (Forall (op_ok demo_rs) write_restart_read) as Hok.
  { repeat constructor; cbn [op_ok]; unfold demo_rs; rewrite ?zlen_fill by lia; lia. }
  destruct (wp_inv _ _ _ (history_told w write_restart_read Hup Hok)) as (answers & w' & E & _ & _ & Ht).
  exists w, answers, w'. split; [exact Hup|]. split; [exact E|]. apply Ht. unfold demo_rs. lia.
Defined.

(** ** A head that is lost *)

(** Both copies of the head are lost; the tables and the data are not. *)
Definition lose_head (w : sw userdisk) : sw userdisk :=
  let s := sw_st w in
  let d := ud (dev s) in
  let h := demo_rs + SWAP_HEAD_OFFEST in
  sw_with_st (set_dev (mkUser (mkDisk (delete h (delete (h + SWAP_HEAD_BACKUP_OFFEST) (blocks d)))
                                 (bad_read d) (bad_write d) (gone d))) s) w.

(** Is replacement block 0 in use, and does the bitmap know it? *)
Definition block0 (w : sw userdisk) : bool * bool :=
  let s := sw_st w in
  (bool_decide (Some 0 ∈ v_index (view_of s) <$> v_list (view_of s)), bit_of (bitmap (head (core s))) 0).

Definition lost_head_run : K (sw userdisk) (bool * bool * list Z * bytes) :=
  scsi_swap_init demo_rs;;
  a ← exec_op (rs := demo_rs) (OWrite 290 20 NO_SECTOR (fill (512 * 20) Byte.x55));
  kmod lose_head;;
  b ← exec_op (rs := demo_rs) (OReboot 1386000000);
  w ← kget;
  c ← exec_op (rs := demo_rs) (OWrite 600 8 NO_SECTOR (fill (512 * 8) Byte.x66));
  d ← exec_op (rs := demo_rs) (OReboot 1387000000);
  e ← exec_op (rs := demo_rs) (ORead 290 20 NO_SECTOR (fill (512 * 20) Byte.x00));
  mret (block0 w, [fst a; fst b; fst c; fst d; fst e], snd e).

(** When both copies of the head are lost, [init_swap_head] makes a new one with
    an empty bitmap and [init_swap_info] still loads the mappings of the table: a
    replacement block is in use and its bit is clear.  The next bad block gets the
    same replacement block, and after another restart a read of the first block
    returns 0 with other data than was written. *)
Theorem lost_head_reuses_block :
  exists answers buf w,
    lost_head_run (user_machine [] [300; 600]) = Ok (true, false, answers, buf, w) /\
    answers = [- DATA_MAY_DIRTY; 0; - DATA_MAY_DIRTY; 0; 0] /\ buf <> fill (512 * 20) Byte.x55.
Proof.
  pose (r := lost_head_run (user_machine [] [300; 600])).
  assert (match r with
          | Ok (true, false, answers, buf, _) =>
              bool_decide (answers = [- DATA_MAY_DIRTY; 0; - DATA_MAY_DIRTY; 0; 0]) &&
              negb (bool_decide (buf = fill (512 * 20) Byte.x55))
          | _ => false
          end = true) as E by (vm_compute; reflexivity).
  fold r. clearbody r. destruct r as [[[[[[] []] answers] buf] w]|]; try discriminate E.
  apply andb_prop in E as [E1 E2]. exists answers, buf, w. split; [reflexivity|]. split.
  - by apply bool_decide_eq_true in E1.
  - apply negb_true_iff, bool_decide_eq_false in E2. exact E2.
Qed.
