(* ===== verification/Sysfs.v ===== *)
(** * drivers/scsi/swap/sysfs.c: the files of a disk's "swap" directory

    The three attributes with their show and store functions, the dispatch through
    [swap_sysfs_ops], and the registration of the kobject.  Each file shows what
    the component behind it holds: the mappings, the log, the simulated bad
    sectors.  The sysfs lock serialises the accesses of one device, so an access
    is one step here. *)

From stdpp Require Import base gmap list list_numbers.
From coqutil Require Import Byte.
From Stdlib Require Import ZArith Lia.
From S2P Require Import Prelude Kapi Ring Layout State Scsi SimDisk Fmt Log Core CoreInv CoreSpec CoreReq CoreThm Sim Swap SwapThm.

Local Open Scope Z_scope.

(** ** Attributes *)

Inductive swap_sysfs_entry := swap_swap_entry | swap_log_entry | swap_sim_entry.

(** [scsi_swap_ktype.default_attrs] *)
Definition default_attrs : list swap_sysfs_entry := [swap_swap_entry; swap_log_entry; swap_sim_entry].

Section Attr.
Context {D : Type} `{ScsiLower D}.

Definition swap_swap_show : K (sw D) (bytes * Z) := on_handler scsi_swap_core_show.
Definition swap_swap_store (page : bytes) (count : Z) : K (sw D) Z := mret (-1).

Definition swap_log_show : K (sw D) (bytes * Z) := on_handler scsi_swap_log_show.
Definition swap_log_store (page : bytes) (count : Z) : K (sw D) Z := mret (-1).

Definition swap_sim_show : K (sw D) (bytes * Z) :=
  on_handler (mret tt);;
  w ← kget;
  mret (scsi_swap_sim_show (sw_sim w)).

(** A node is allocated only for "add". *)
Definition sizeof_sim_node : Z := 32.
Definition swap_sim_store_file (page : bytes) (count : Z) : K (sw D) Z :=
  on_handler (mret tt);;
  m ← (match scan_cmd lit_add page with
       | Some _ => on_sdev (kmalloc sizeof_sim_node)
       | None => mret None
       end);
  w ← kget;
  let '(sim, ret) := swap_sim_store (bool_decide (is_Some m)) (sw_sim w) page count in
  kmod (sw_with_sim sim);;
  mret ret.

(** No entry lacks a function, so the -EIO of the source is not reached. *)
Definition swap_attr_show (e : swap_sysfs_entry) : K (sw D) (bytes * Z) :=
  match e with
  | swap_swap_entry => swap_swap_show
  | swap_log_entry => swap_log_show
  | swap_sim_entry => swap_sim_show
  end.

Definition swap_attr_store (e : swap_sysfs_entry) (page : bytes) (length : Z) : K (sw D) Z :=
  match e with
  | swap_swap_entry => swap_swap_store page length
  | swap_log_entry => swap_log_store page length
  | swap_sim_entry => swap_sim_store_file page length
  end.
End Attr.

(** ** Registration *)

Inductive uevent := KOBJ_ADD | KOBJ_REMOVE.

(** The kobject of the device: whether it is in sysfs, the references this file
    takes on the disk's kobject, the events sent. *)
Record kobject := mkKobj {
  kobj_in_sysfs : bool;
  kobj_parent_refs : Z;
  kobj_uevents : list uevent
}.

(** [kobject_add] is the kernel's; [ret] is what it returns. *)
Definition scsi_swap_register_sysfs (enable : bool) (ret : Z) (k : kobject) : kobject * Z :=
  if negb enable then (k, -1) else
  let k := mkKobj (kobj_in_sysfs k) (kobj_parent_refs k + 1) (kobj_uevents k) in
  if ret <? 0 then (k, ret) else
  (mkKobj true (kobj_parent_refs k) (kobj_uevents k ++ [KOBJ_ADD]), 0).

Definition scsi_swap_unregister_sysfs (enable : bool) (k : kobject) : kobject * Z :=
  if negb enable then (k, -1) else
  (mkKobj false (kobj_parent_refs k - 1) (kobj_uevents k ++ [KOBJ_REMOVE]), 0).

(** ** What the files show *)

(** The lines of a file, from the state alone. *)
Definition file_lines {D} (e : swap_sysfs_entry) (w : sw D) : list bytes :=
  match e with
  | swap_swap_entry =>
      omap (fun p => info_line <$> infos (sw_st w) !! p) (info_list (core (sw_st w)))
  | swap_log_entry =>
      match ring (log (sw_st w)) with
      | Some r => (log_line ∘ decode_item) <$> ring_items r
      | None => []
      end
  | swap_sim_entry => sim_line <$> sw_sim w
  end.

(** The size of the buffer each show function formats a line in. *)
Definition line_buf (e : swap_sysfs_entry) : Z :=
  match e with swap_log_entry => 256 | _ => 64 end.

Lemma dec_short n : zlen (dec n) <= 20.
Proof.
  unfold dec. change 20 with (Z.of_nat 20). generalize 20%nat as f. intros f. revert n.
  induction f as [|f IH]; intros n; cbn [dec_digits]; [done|].
  rewrite zlen_app. specialize (IH (n / 10)). destruct (n <? 10); unfold zlen in *; cbn [length] in *; lia.
Qed.

Lemma fields_short n l : zlen (fields (n :: l)) <= 21 * zlen (n :: l).
Proof.
  revert n. induction l as [|m l IH]; intros n; cbn [fields];
    rewrite !zlen_app; pose proof (dec_short n).
  - unfold zlen in *. cbn [length]. lia.
  - specialize (IH m). cbn [fields] in IH. unfold zlen in *. cbn [length] in *. lia.
Qed.

Lemma file_lines_short {D} e (w : sw D) :
  Forall (fun l => zlen l < line_buf e) (file_lines e w).
Proof.
  apply Forall_forall. intros l Hl. destruct e; cbn [file_lines line_buf] in *.
  - apply list_elem_of_omap in Hl as (p & _ & Hl). apply fmap_Some in Hl as (i & _ & ->).
    eapply Z.le_lt_trans; [apply fields_short|done].
  - destruct (ring _) as [r|]; [|by apply not_elem_of_nil in Hl].
    apply list_elem_of_fmap in Hl as (i & -> & _).
    eapply Z.le_lt_trans; [apply fields_short|done].
  - apply list_elem_of_fmap in Hl as (i & -> & _).
    eapply Z.le_lt_trans; [apply fields_short|done].
Qed.

Section Show.
Context {D : Type} `{BlockDevice D}.
Implicit Types s : st D.

Lemma wp_lines_of l s (Q : list bytes -> st D -> Prop) :
  (forall p, p ∈ l -> is_Some (infos s !! p)) ->
  Q (omap (fun p => info_line <$> infos s !! p) l) s ->
  wp (lines_of l) Q s.
Proof.
  revert Q. induction l as [|p l IH]; intros Q Hl HQ; cbn [lines_of]; [by kstep|].
  destruct (Hl p) as [i Hi]; [left|]. kstep. eapply wp_get_info; [exact Hi|].
  kstep. apply IH; [intros q Hq; apply Hl; by right|]. kstep.
  cbn [omap list_omap] in HQ. by rewrite Hi in HQ.
Qed.

(** The loop ends after [item_num] peeks. *)
Lemma wp_peek_from r fuel i s (Q : list scsi_swap_log_item -> st D -> Prop) :
  ring (log s) = Some r -> ring_wf r -> 0 <= i -> item_num r < i + Z.of_nat fuel -> (0 < fuel)%nat ->
  Q (decode_item <$> drop (Z.to_nat i) (ring_items r)) s ->
  wp (peek_from fuel i) Q s.
Proof.
  intros Hr Hwf. assert (length (ring_items r) = Z.to_nat (item_num r)) as Hlen
    by (unfold ring_items; by rewrite length_fmap, length_seqZ).
  revert i Q. induction fuel as [|f IH]; intros i Q Hi Hf Hf0 HQ; [lia|]. cbn [peek_from].
  kstep. eapply wp_log_peek; [done|done|]. rewrite decide_True by done.
  destruct (ring_items r !! Z.to_nat i) as [b|] eqn:E; cbn [fmap option_fmap option_map].
  - pose proof (lookup_lt_Some _ _ _ E). kstep. apply IH; [lia|lia|lia|]. kstep.
    rewrite (drop_S _ b) in HQ by done. cbn [fmap list_fmap] in HQ.
    by replace (Z.to_nat (i + 1)) with (S (Z.to_nat i)) by lia.
  - apply lookup_ge_None in E. kstep. by rewrite drop_ge in HQ.
Qed.

Lemma wp_attr_show e (w : sw D) :
  sw_handler w = HLive -> inv (sw_st w) ->
  wp (swap_attr_show e) (fun x w' => x = show_page (line_buf e) (file_lines e w) /\ w' = w) w.
Proof.
  intros Hl ((_ & r & Hr & Hwf & Hcap & _) & Hm & _).
  assert (sw_with_st (sw_st w) w = w) as Hid by (by destruct w).
  destruct e; cbn [swap_attr_show line_buf file_lines].
  - apply wp_on_handler; [done|]. unfold scsi_swap_core_show. do 3 kstep.
    apply wp_lines_of; [|by kstep].
    intros p Hp. destruct (mo_infos _ Hm p Hp) as (i & Hi & _). rewrite view_lookup in Hi.
    by destruct (infos (sw_st w) !! p).
  - apply wp_on_handler; [done|]. unfold scsi_swap_log_show. kstep.
    pose proof Hwf as (_ & Hn & _). apply (wp_peek_from r); [done|done|done|lia|lia|]. kstep.
    rewrite Hr. split; [|done]. by rewrite <- list_fmap_compose.
  - unfold swap_sim_show. kstep. apply wp_on_handler; [done|]. do 4 kstep. by rewrite Hid.
Qed.
End Show.

(** ** Results *)

(** C39: reading a file of the swap directory returns and changes nothing.  The
    page holds whole lines from the first on: one for each mapping in list order,
    for each log item from the oldest, for each simulated range; the length it
    reports is its own, with room for the terminating NUL, and it stops early only
    when the next line does not fit. *)
Theorem attr_show_reports {D} `{BlockDevice D} (e : swap_sysfs_entry) (w : sw D) :
  sw_handler w = HLive -> inv (sw_st w) ->
  wp (swap_attr_show e)
     (fun x w' => w' = w /\ exists k,
        x = (concat (take k (file_lines e w)), zlen (concat (take k (file_lines e w)))) /\
        zlen (concat (take k (file_lines e w))) < PAGE_SIZE /\
        ((k < length (file_lines e w))%nat ->
           PAGE_SIZE <= zlen (concat (take k (file_lines e w))) + zlen (nth k (file_lines e w) []))) w.
Proof.
  intros Hl Hi. eapply wp_mono; [by apply wp_attr_show|]. cbv beta. intros x w' [-> ->].
  split; [done|]. unfold show_page.
  destruct (show_loop_spec (line_buf e) _ [] PAGE_SIZE (file_lines_short e w)) as (k & -> & ? & ?);
    [done|done|]. by exists k.
Qed.

Lemma attr_show_reports_witness :
  let w := demo_sw blank_disk in
  sw_handler w = HLive /\ exists x, swap_attr_show swap_log_entry w = Ok (x, w).
Proof.
  intros w. split; [reflexivity|].
  destruct (wp_inv _ _ _ (attr_show_reports swap_log_entry w eq_refl (proj1 (demo_empty_inv blank_disk))))
    as (x & w' & E & -> & _). by exists x.
Defined.

(** whichever way [kobject_add] ends, registering and unregistering give back
    the reference on the disk and leave nothing in sysfs, and "add" is announced
    exactly when the directory is there; a disabled device does neither. *)
Theorem sysfs_registration_balanced (enable : bool) (ret : Z) (k : kobject) :
  kobj_in_sysfs k = false ->
  let '(k1, r1) := scsi_swap_register_sysfs enable ret k in
  let '(k2, r2) := scsi_swap_unregister_sysfs enable k1 in
  kobj_parent_refs k2 = kobj_parent_refs k /\ kobj_in_sysfs k2 = false /\
  (kobj_in_sysfs k1 = true <-> r1 = 0) /\
  (kobj_in_sysfs k1 = true <-> kobj_uevents k1 = kobj_uevents k ++ [KOBJ_ADD]) /\
  (enable = false -> k2 = k /\ r1 = -1 /\ r2 = -1).
Proof.
  intros Hk. unfold scsi_swap_register_sysfs, scsi_swap_unregister_sysfs.
  assert (kobj_uevents k <> kobj_uevents k ++ [KOBJ_ADD]) as Hne
    by (intros E%(f_equal length); rewrite length_app in E; cbn in E; lia).
  destruct enable; cbn [negb]; [destruct (Z.ltb_spec ret 0)|]; cbn [kobj_in_sysfs kobj_parent_refs kobj_uevents].
  - rewrite Hk. split_and!; [lia|done| | |done]; split; (done || lia).
  - split_and!; [lia|done|done|done|done].
  - rewrite Hk. split_and!; [done|done| | |done]; split; (done || lia).
Qed.

Lemma sysfs_registration_balanced_witness :
  kobj_parent_refs (fst (scsi_swap_unregister_sysfs true
    (fst (scsi_swap_register_sysfs true (-12) (mkKobj false 3 []))))) = 3.
Proof. exact (proj1 (sysfs_registration_balanced true (-12) (mkKobj false 3 []) eq_refl)). Defined.
