(* ===== verification/BlkCore.v ===== *)
(** * block/blk-core.c: where bios meet the swap driver

    Submission ([submit_bio], [generic_make_request] and its checks) and
    completion ([req_bio_endio]) of bios, with the two calls into the swap driver.
    What the block layer takes from elsewhere (fault injection, integrity,
    throttling, the driver's [make_request_fn]) is a parameter.  The state keeps
    every way a bio can leave this code: ended with an error code, handed to the
    driver, or parked on [current->bio_list]; the swap driver's own queue is in
    [sw]. *)

From stdpp Require Import base gmap list list_numbers.
From coqutil Require Import Byte.
From Stdlib Require Import ZArith Lia.
From S2P Require Import Prelude Kapi Ring Layout State Scsi SimDisk Log Core CoreInv CoreSpec CoreReq CoreThm Sim Swap SwapThm.

Local Open Scope Z_scope.

(** ** Data *)

(** The fields of the queue the checks read. *)
Record request_queue := mkQueue {
  queue_max_hw_sectors : Z;
  flush_flags : Z;
  blk_queue_discard : bool;
  blk_queue_secdiscard : bool;
  bdev_write_same : bool
}.

(** A whole disk, and a partition of it: [start_sect] and the size of its inode. *)
Record whole := mkWhole {
  wh_bdev : block_device;
  wh_i_size : Z;
  wh_queue : option request_queue
}.
Inductive bdev :=
  | Whole (d : whole)
  | Part (start_sect i_size : Z) (bd_contains : whole).

Definition bdev_whole (d : bdev) : whole :=
  match d with Whole w => w | Part _ _ w => w end.
Definition i_size_read (d : bdev) : Z :=
  match d with Whole w => wh_i_size w | Part _ sz _ => sz end.
Definition bdev_get_queue (d : bdev) : option request_queue := wh_queue (bdev_whole d).

(** A bio with its device and the flags this code sets. *)
Record rbio := mkRbio {
  rb_bio : bio;
  bi_bdev : bdev;
  bio_quiet : bool;
  bio_eof : bool
}.

Definition rb_with_bio (b : bio) (r : rbio) : rbio := mkRbio b (bi_bdev r) (bio_quiet r) (bio_eof r).
Definition bio_with_rw (rw : Z) (b : bio) : bio :=
  mkBio (bi_sector b) (bi_size b) rw (bi_uptodate b) (bi_segs b) (bi_end_io b).

Record request := mkRequest {
  blk_rq_pos : Z;
  rq_quiet : bool;
  rq_flush_seq : bool
}.

Record blk (D : Type) := mkBlk {
  bk_sw : sw D;
  bk_ended : list (rbio * Z);
  bk_made : list rbio;
  bk_list : option (list rbio)
}.
Arguments mkBlk {D} _ _ _ _.
Arguments bk_sw {D} _.
Arguments bk_ended {D} _.
Arguments bk_made {D} _.
Arguments bk_list {D} _.

Definition blk_with_sw {D} (w : sw D) (k : blk D) : blk D := mkBlk w (bk_ended k) (bk_made k) (bk_list k).
Definition blk_with_list {D} (l : option (list rbio)) (k : blk D) : blk D :=
  mkBlk (bk_sw k) (bk_ended k) (bk_made k) l.

(** Code of the swap driver. *)
Definition on_sw {D A} (m : K (sw D) A) : K (blk D) A := fun k =>
  match m (bk_sw k) with
  | Ok (a, w') => Ok (a, blk_with_sw w' k)
  | Oops f => Oops f
  end.

Lemma wp_on_sw {D A} (m : K (sw D) A) Q (k : blk D) :
  wp m (fun a w' => Q a (blk_with_sw w' k)) (bk_sw k) -> wp (on_sw m) Q k.
Proof. unfold wp, on_sw. by destruct (m (bk_sw k)) as [[a w']|]. Qed.

(** [bio_endio]: the bio is finished. *)
Definition bio_endio {D} (b : rbio) (error : Z) : K (blk D) unit :=
  kmod (fun k => mkBlk (bk_sw k) (bk_ended k ++ [(b, error)]) (bk_made k) (bk_list k)).

Definition swap_bdev (b : rbio) : option block_device := Some (wh_bdev (bdev_whole (bi_bdev b))).

(** ** Remapping and bounds *)

Definition blk_partition_remap (b : rbio) : rbio :=
  match bi_bdev b with
  | Part start _ w =>
      if bio_sectors (rb_bio b) =? 0 then b else
      mkRbio (bio_with_place (u64 (bi_sector (rb_bio b) + start)) (bi_size (rb_bio b)) (rb_bio b))
        (Whole w) (bio_quiet b) (bio_eof b)
  | Whole _ => b
  end.

(** [handle_bad_sector]: the message is not kept, the flag is. *)
Definition handle_bad_sector (b : rbio) : rbio := mkRbio (rb_bio b) (bi_bdev b) (bio_quiet b) true.

(** True when the bio extends beyond the end of the device. *)
Definition bio_check_eod (b : rbio) (nr_sectors : Z) : bool * rbio :=
  if nr_sectors =? 0 then (false, b) else
  let maxsector := Z.shiftr (i_size_read (bi_bdev b)) 9 in
  if maxsector =? 0 then (false, b) else
  if (maxsector <? nr_sectors) || (maxsector - nr_sectors <? bi_sector (rb_bio b))
  then (true, handle_bad_sector b) else (false, b).

Section Blk.
Context {D : Type} `{ScsiLower D}.

(** include/linux/bio.h, block/blk-integrity.c, block/blk-throttle.c, the fault
    injector and the driver of the queue. *)
Variable bio_is_rw : bio -> bool.
Variable should_fail_request : rbio -> bool.
Variable integrity_fails : rbio -> bool.
Variable blk_throtl_bio : rbio -> bool.
Variable make_request_fn : rbio -> K (blk D) unit.

(** ** Completion *)

(** The bio as it is left, and its place in the swap queue or among the ended. *)
Definition req_bio_endio (rq : request) (b : rbio) (nbytes error : Z) : K (blk D) rbio :=
  let '(b, error) :=
    if negb (error =? 0) then (rb_with_bio (bio_with_uptodate false (rb_bio b)) b, error)
    else if negb (bi_uptodate (rb_bio b)) then (b, - EIO) else (b, error) in
  let nbytes := if bi_size (rb_bio b) <? nbytes then bi_size (rb_bio b) else nbytes in
  let b := if rq_quiet rq then mkRbio (rb_bio b) (bi_bdev b) true (bio_eof b) else b in
  let start_sec := bi_sector (rb_bio b) in
  let size := s32 (bi_size (rb_bio b)) in
  let bad_sec := blk_rq_pos rq in
  let b := rb_with_bio (bio_with_place (u64 (bi_sector (rb_bio b) + Z.shiftr nbytes 9))
                          (u32 (bi_size (rb_bio b) - nbytes)) (rb_bio b)) b in
  if (bi_size (rb_bio b) =? 0) && negb (rq_flush_seq rq) then
    taken ← on_sw (swap_bio (Some (rb_bio b)) (swap_bdev b) start_sec size bad_sec error true);
    if (taken : bool) then mret b else
    bio_endio b error;;
    mret b
  else mret b.

(** ** Submission *)

(** The bio to submit, or nothing when it has been ended or throttled. *)
Definition generic_make_request_checks (b : rbio) : K (blk D) (option rbio) :=
  let nr_sectors := bio_sectors (rb_bio b) in
  let end_io (b : rbio) (err : Z) : K (blk D) (option rbio) := bio_endio b err;; mret None in
  let '(eod, b) := bio_check_eod b nr_sectors in
  if (eod : bool) then end_io b (- EIO) else
  match bdev_get_queue (bi_bdev b) with
  | None => end_io b (- EIO)
  | Some q =>
      if bio_is_rw (rb_bio b) && (queue_max_hw_sectors q <? nr_sectors) then end_io b (- EIO) else
      if should_fail_request b then end_io b (- EIO) else
      let b := blk_partition_remap b in
      if integrity_fails b then end_io b (- EIO) else
      let '(eod, b) := bio_check_eod b nr_sectors in
      if (eod : bool) then end_io b (- EIO) else
      let flush := negb (Z.land (bi_rw (rb_bio b)) (Z.lor REQ_FLUSH REQ_FUA) =? 0)
                   && (flush_flags q =? 0) in
      let b := if flush
               then rb_with_bio (bio_with_rw (Z.ldiff (bi_rw (rb_bio b)) (Z.lor REQ_FLUSH REQ_FUA))
                                   (rb_bio b)) b
               else b in
      if flush && (nr_sectors =? 0) then end_io b 0 else
      let rw := bi_rw (rb_bio b) in
      if negb (Z.land rw REQ_DISCARD =? 0)
         && (negb (blk_queue_discard q) || (negb (Z.land rw REQ_SECURE =? 0) && negb (blk_queue_secdiscard q)))
      then end_io b (- EOPNOTSUPP) else
      if negb (Z.land rw REQ_WRITE_SAME =? 0) && negb (bdev_write_same q)
      then end_io b (- EOPNOTSUPP) else
      if blk_throtl_bio b then mret None else
      mret (Some b)
  end.

(** [do { q->make_request_fn(q, bio); bio = bio_list_pop(..); } while (bio)];
    a stacked driver may add bios to the list. *)
Fixpoint make_loop (fuel : nat) (b : rbio) : K (blk D) unit :=
  match fuel with
  | O => kfail Hang
  | S f =>
      make_request_fn b;;
      k ← kget;
      match bk_list k with
      | Some (b' :: rest) => kmod (blk_with_list (Some rest));; make_loop f b'
      | _ => mret tt
      end
  end.

Definition generic_make_request (fuel : nat) (b : rbio) : K (blk D) unit :=
  bad ← on_sw (bio_has_bad_block (rb_bio b) (swap_bdev b));
  if (bad : bool) then
    taken ← on_sw (swap_bio (Some (rb_bio b)) (swap_bdev b) (bi_sector (rb_bio b))
                     (s32 (bi_size (rb_bio b))) NO_SECTOR (- EIO) false);
    if (taken : bool) then mret tt else bio_endio b (- EIO)
  else
  o ← generic_make_request_checks b;
  match o with
  | None => mret tt
  | Some b =>
      k ← kget;
      match bk_list k with
      | Some l => kmod (blk_with_list (Some (l ++ [b])))
      | None =>
          kmod (blk_with_list (Some []));;
          make_loop fuel b;;
          kmod (blk_with_list None)
      end
  end.

(** The accounting of [submit_bio] touches no bio. *)
Definition submit_bio (fuel : nat) (rw : Z) (b : rbio) : K (blk D) unit :=
  generic_make_request fuel (rb_with_bio (bio_with_rw (Z.lor (bi_rw (rb_bio b)) rw) (rb_bio b)) b).
End Blk.
