(* ===== verification/BlkThm.v ===== *)
(** * Results on submission and completion of bios

    Every submitted bio leaves the block layer in exactly one way, what the driver
    gets lies inside the device, a request ends a bio once, and a failed write is
    handed to the swap core and served by it.  The last result is about
    partitions: the redirection happens before the remapping. *)

From stdpp Require Import base gmap list list_numbers.
From coqutil Require Import Byte.
From Stdlib Require Import ZArith Lia.
From S2P Require Import Prelude Kapi Ring Layout State Scsi SimDisk Log Core CoreInv CoreSpec CoreReq CoreThm Sim Swap SwapThm BlkCore.

Local Open Scope Z_scope.

(** ** What the driver gets *)

(** The sector of the whole disk a bio is for. *)
Definition abs_sector (b : rbio) : Z :=
  match bi_bdev b with
  | Whole _ => bi_sector (rb_bio b)
  | Part start _ _ => u64 (bi_sector (rb_bio b) + start)
  end.

(** The request ends within a device of [i_size] bytes, when that is known. *)
Definition fits (sector num i_size : Z) : Prop :=
  Z.shiftr i_size 9 = 0 \/ sector + num <= Z.shiftr i_size 9.

(** The flags of a bio on its way to the driver: a queue without a write cache is
    asked for no flush. *)
Definition driver_rw (q : request_queue) (rw : Z) : Z :=
  if negb (Z.land rw (Z.lor REQ_FLUSH REQ_FUA) =? 0) && (flush_flags q =? 0)
  then Z.ldiff rw (Z.lor REQ_FLUSH REQ_FUA) else rw.

(** [b'] is [b], addressed to the whole disk. *)
Definition accepted (b b' : rbio) : Prop :=
  bi_segs (rb_bio b') = bi_segs (rb_bio b) /\ bi_size (rb_bio b') = bi_size (rb_bio b) /\
  bi_end_io (rb_bio b') = bi_end_io (rb_bio b) /\
  bi_bdev b' = Whole (bdev_whole (bi_bdev b)) /\ bi_sector (rb_bio b') = abs_sector b /\
  exists q, bdev_get_queue (bi_bdev b) = Some q /\ bi_rw (rb_bio b') = driver_rw q (bi_rw (rb_bio b)).

(** Why a bio is ended with -EIO: it leaves its partition or the disk, the device
    has no queue, it is larger than a command, or a fault is injected or its
    integrity data cannot be made. *)
Inductive refused (bio_is_rw : bio -> bool) (should_fail_request integrity_fails : rbio -> bool)
    (b : rbio) : Prop :=
  | RefPart : ~ fits (bi_sector (rb_bio b)) (bio_sectors (rb_bio b)) (i_size_read (bi_bdev b)) ->
      refused bio_is_rw should_fail_request integrity_fails b
  | RefNoQueue : bdev_get_queue (bi_bdev b) = None -> refused bio_is_rw should_fail_request integrity_fails b
  | RefLarge q : bdev_get_queue (bi_bdev b) = Some q -> bio_is_rw (rb_bio b) = true ->
      queue_max_hw_sectors q < bio_sectors (rb_bio b) ->
      refused bio_is_rw should_fail_request integrity_fails b
  | RefFault : should_fail_request b = true -> refused bio_is_rw should_fail_request integrity_fails b
  | RefIntegrity : integrity_fails (blk_partition_remap b) = true ->
      refused bio_is_rw should_fail_request integrity_fails b
  | RefDisk : ~ fits (abs_sector b) (bio_sectors (rb_bio b)) (wh_i_size (bdev_whole (bi_bdev b))) ->
      refused bio_is_rw should_fail_request integrity_fails b.

(** Why a bio is ended with -EOPNOTSUPP: a discard or a write-same the queue does
    not do. *)
Inductive unsupported (b : rbio) : Prop :=
  | UnsDiscard q : bdev_get_queue (bi_bdev b) = Some q -> Z.land (bi_rw (rb_bio b)) REQ_DISCARD <> 0 ->
      blk_queue_discard q = false \/
      (Z.land (bi_rw (rb_bio b)) REQ_SECURE <> 0 /\ blk_queue_secdiscard q = false) -> unsupported b
  | UnsWriteSame q : bdev_get_queue (bi_bdev b) = Some q -> Z.land (bi_rw (rb_bio b)) REQ_WRITE_SAME <> 0 ->
      bdev_write_same q = false -> unsupported b.

(** The ways a bio leaves the submission code. *)
Definition sw_alloc {D} (l : list (option (nat -> byte))) (k : blk D) : blk D :=
  blk_with_sw (sw_with_st (set_kmem l (sw_st (bk_sw k))) (bk_sw k)) k.

(** A bio with the data and the callback of [b] is ended with [e], nothing else. *)
Definition ended_one {D} (b : rbio) (e : Z) (k k' : blk D) : Prop :=
  exists b', bi_segs (rb_bio b') = bi_segs (rb_bio b) /\ bi_end_io (rb_bio b') = bi_end_io (rb_bio b) /\
    k' = mkBlk (bk_sw k) (bk_ended k ++ [(b', e)]) (bk_made k) (bk_list k).

Definition queued_one {D} (item : swap_bio_item) (k k' : blk D) : Prop :=
  exists l, k' = blk_with_sw (sw_with_wq (sw_wq (bk_sw k) ++ [item]) (bk_sw (sw_alloc l k))) k.

(** To the driver, or to the list of the submission that is under way. *)
Definition handed_on {D} (b' : rbio) (k k' : blk D) : Prop :=
  bk_list k = None /\ k' = mkBlk (bk_sw k) (bk_ended k) (bk_made k ++ [b']) None \/
  exists l, bk_list k = Some l /\ k' = blk_with_list (Some (l ++ [b'])) k.

(** Some sector of the bio, as it is submitted, lies in a mapped block. *)
Definition hits {D} (b : rbio) (w : sw D) : Prop :=
  sdev_from_bdev (swap_bdev b) = true /\ removable (sdev (sw_st w)) = false /\
  changed (sdev (sw_st w)) = false /\ sw_enable w = true /\
  exists x, bi_sector (rb_bio b) <= x < bi_sector (rb_bio b) + bio_sectors (rb_bio b) /\
            is_Some (v_find (view_of (sw_st w)) (SWAP_SECTOR_ALIGN x)).

Lemma sw_alloc_id {D} (k : blk D) : sw_alloc (kmem (sw_st (bk_sw k))) k = k.
Proof. by destruct k as [[? ? ? ? ? []] ? ? ?]. Qed.

Lemma check_eod_spec b n :
  0 < n -> 0 <= bi_sector (rb_bio b) ->
  let '(eod, b1) := bio_check_eod b n in
  rb_bio b1 = rb_bio b /\ bi_bdev b1 = bi_bdev b /\
  if (eod : bool) then ~ fits (bi_sector (rb_bio b)) n (i_size_read (bi_bdev b))
  else b1 = b /\ fits (bi_sector (rb_bio b)) n (i_size_read (bi_bdev b)).
Proof.
  intros Hn Hs. unfold bio_check_eod, fits. destruct (Z.eqb_spec n 0); [lia|].
  destruct (Z.eqb_spec (Z.shiftr (i_size_read (bi_bdev b)) 9) 0); [by auto|].
  destruct (_ || _) eqn:E; split_and!; try done; lia.
Qed.

Lemma land_ldiff_disjoint a m d : Z.land d m = 0 -> Z.land (Z.ldiff a m) d = Z.land a d.
Proof.
  intros Hd. apply Z.bits_inj'. intros n Hn. rewrite !Z.land_spec, Z.ldiff_spec.
  assert (Z.testbit (Z.land d m) n = false) as Hb by (by rewrite Hd, Z.bits_0).
  rewrite Z.land_spec in Hb. destruct (Z.testbit a n), (Z.testbit m n), (Z.testbit d n); done.
Qed.

Lemma driver_rw_keeps q rw d :
  Z.land d (Z.lor REQ_FLUSH REQ_FUA) = 0 -> Z.land (driver_rw q rw) d = Z.land rw d.
Proof. intros Hd. unfold driver_rw. destruct (_ && _); [by apply land_ldiff_disjoint|done]. Qed.

Lemma remap_spec b :
  0 < bio_sectors (rb_bio b) -> 0 <= bi_sector (rb_bio b) ->
  let b2 := blk_partition_remap b in
  bi_segs (rb_bio b2) = bi_segs (rb_bio b) /\ bi_size (rb_bio b2) = bi_size (rb_bio b) /\
  bi_end_io (rb_bio b2) = bi_end_io (rb_bio b) /\ bi_rw (rb_bio b2) = bi_rw (rb_bio b) /\
  bi_bdev b2 = Whole (bdev_whole (bi_bdev b)) /\ bi_sector (rb_bio b2) = abs_sector b /\
  0 <= abs_sector b.
Proof.
  intros Hn Hs. unfold blk_partition_remap, abs_sector. destruct (bi_bdev b) eqn:E; [by rewrite E|].
  rewrite (proj2 (Z.eqb_neq (bio_sectors _) 0)) by lia. split_and!; try done. apply Z.mod_pos_bound. lia.
Qed.

Section Spec.
Context {D : Type} `{BlockDevice D}.
Variable bio_is_rw : bio -> bool.
Variables should_fail_request integrity_fails blk_throtl_bio : rbio -> bool.

#[local] Abbreviation refused := (refused bio_is_rw should_fail_request integrity_fails).

Lemma wp_end_io (b0 b : rbio) e (Q : option rbio -> blk D -> Prop) k :
  bi_segs (rb_bio b) = bi_segs (rb_bio b0) -> bi_end_io (rb_bio b) = bi_end_io (rb_bio b0) ->
  (forall k', ended_one b0 e k k' -> Q None k') -> wp (bio_endio b e;; mret None) Q k.
Proof. intros Hs He HQ. unfold bio_endio. do 3 kstep. apply HQ. by exists b. Qed.

(** What the checks make of a bio that is not empty. *)
Definition checked (b : rbio) (o : option rbio) (k k' : blk D) : Prop :=
  match o with
  | Some b' => k' = k /\ ~ refused b /\ ~ unsupported b /\ accepted b b' /\ blk_throtl_bio b' = false
  | None =>
      (refused b /\ ended_one b (- EIO) k k') \/
      (~ refused b /\ unsupported b /\ ended_one b (- EOPNOTSUPP) k k') \/
      (~ refused b /\ ~ unsupported b /\ k' = k /\ exists b', accepted b b' /\ blk_throtl_bio b' = true)
  end.

Lemma wp_checks b (k : blk D) :
  0 < bio_sectors (rb_bio b) -> 0 <= bi_sector (rb_bio b) ->
  wp (generic_make_request_checks bio_is_rw should_fail_request integrity_fails blk_throtl_bio b)
     (fun o k' => checked b o k k') k.
Proof.
  intros Hn Hs. unfold generic_make_request_checks.
  pose proof (check_eod_spec b _ Hn Hs) as He.
  destruct (bio_check_eod b _) as [eod b1]. destruct He as (Eb & Ed & Hok). destruct eod.
  { apply (wp_end_io b); [by rewrite Eb..|]. left. split; [by apply RefPart|done]. }
  destruct Hok as [-> Hfit1]. clear Eb Ed.
  destruct (bdev_get_queue (bi_bdev b)) as [q|] eqn:Eq.
  2:{ apply (wp_end_io b); [done..|]. left. split; [by apply RefNoQueue|done]. }
  destruct (bio_is_rw (rb_bio b) && (queue_max_hw_sectors q <? bio_sectors (rb_bio b))) eqn:El.
  { apply (wp_end_io b); [done..|]. apply andb_prop in El as [E1 E2%Z.ltb_lt].
    left. split; [by apply (RefLarge _ _ _ _ q)|done]. }
  destruct (should_fail_request b) eqn:Esf.
  { apply (wp_end_io b); [done..|]. left. split; [by apply RefFault|done]. }
  destruct (remap_spec b Hn Hs) as (Rs & Rz & Re & Rrw & Rd & Rx & Rp).
  destruct (integrity_fails (blk_partition_remap b)) eqn:Eif.
  { apply (wp_end_io b); [done..|]. left. split; [by apply RefIntegrity|done]. }
  set (b2 := blk_partition_remap b) in *.
  pose proof (check_eod_spec b2 _ Hn ltac:(by rewrite Rx)) as He.
  rewrite Rd, Rx in He. destruct (bio_check_eod b2 _) as [eod b3]. destruct He as (Eb & Ed & Hok). destruct eod.
  { apply (wp_end_io b); [by rewrite Eb..|]. left. split; [by apply RefDisk|done]. }
  destruct Hok as [-> Hfit2]. clear Eb Ed. cbn [i_size_read] in Hfit2.
  assert (~ refused b) as Hnr.
  { intros [HH|HH|q' HH1 HH2 HH3|HH|HH|HH]; try congruence; try (by apply HH);
      try (fold b2 in HH; congruence).
    rewrite Eq in HH1. injection HH1 as <-. rewrite HH2 in El. apply Z.ltb_ge in El. lia. }
  set (flush := negb _ && _). set (b4 := if flush then _ else _).
  assert (accepted b b4) as Hacc.
  { split_and!; try (subst b4; by destruct flush). exists q. split; [done|].
    subst b4. rewrite <- Rrw. unfold driver_rw. fold flush. by destruct flush. }
  rewrite (proj2 (Z.eqb_neq (bio_sectors (rb_bio b)) 0)), andb_false_r by lia.
  pose proof Hacc as (As & _ & Ae & _ & _ & q' & Eq' & Arw). rewrite Eq in Eq'. injection Eq' as <-.
  clearbody b4 flush. rewrite Arw, !driver_rw_keeps by reflexivity.
  destruct (negb (Z.land (bi_rw (rb_bio b)) REQ_DISCARD =? 0) && _) eqn:E1.
  { apply (wp_end_io b); [done..|]. intros k' Hk'. right. left. split; [done|]. split; [|done].
    apply andb_prop in E1 as [E1 E2]. apply (UnsDiscard _ q); [done|lia|].
    destruct (blk_queue_discard q); [right|by left]. apply andb_prop in E2 as [E2 E3%negb_true_iff]. split; [lia|done]. }
  destruct (negb (Z.land (bi_rw (rb_bio b)) REQ_WRITE_SAME =? 0) && _) eqn:E2.
  { apply (wp_end_io b); [done..|]. intros k' Hk'. right. left. split; [done|]. split; [|done].
    apply andb_prop in E2 as [E2 E3%negb_true_iff]. apply (UnsWriteSame _ q); [done|lia|done]. }
  assert (~ unsupported b) as Hnu.
  { intros [q' Eq' HH1 HH2|q' Eq' HH1 HH2]; rewrite Eq in Eq'; injection Eq' as <-.
    - rewrite (proj2 (Z.eqb_neq _ 0) HH1) in E1. destruct HH2 as [Hd|[HH2 Hd]]; rewrite Hd in E1; [done|].
      rewrite (proj2 (Z.eqb_neq _ 0) HH2), orb_true_r in E1. done.
    - by rewrite (proj2 (Z.eqb_neq _ 0) HH1), HH2 in E2. }
  destruct (blk_throtl_bio b4) eqn:Et; kstep; [|done].
  right. right. split_and!; try done. by exists b4.
Qed.

(** A driver that takes every bio, as [blk_queue_bio] does for a disk. *)
Definition take_bio (b : rbio) : K (blk D) unit :=
  kmod (fun k => mkBlk (bk_sw k) (bk_ended k) (bk_made k ++ [b]) (bk_list k)).

Lemma wp_has_bad_block b (w : sw D) :
  (sw_enable w = true -> sw_handler w = HLive /\ inv (sw_st w)) ->
  0 <= bi_sector (rb_bio b) < 2 ^ 62 -> 0 < bio_sectors (rb_bio b) < 2 ^ 31 ->
  wp (bio_has_bad_block (rb_bio b) (swap_bdev b)) (fun r w' => w' = w /\ (r = true <-> hits b w)) w.
Proof.
  intros Hen Hs Hn. unfold bio_has_bad_block, hits. kstep.
  eapply wp_mono; [apply wp_bio_get|]. cbv beta. intros ok w' [-> Hok].
  destruct ok; cbn [negb]; cycle 1.
  { kstep. split; [done|]. split; [done|]. intros (? & ? & ? & ? & _).
    discriminate (proj2 Hok); by split_and!. }
  destruct (proj1 Hok eq_refl) as (? & ? & ? & He). destruct (Hen He) as [Hl Hi].
  apply wp_on_handler; [done|]. eapply wp_mono; [by apply wp_core_swapped|].
  cbv beta. intros r s' [-> Hr]. split; [by destruct w|]. rewrite Hr. split; [by auto 10|]. by intros (_ & _ & _ & _ & ?).
Qed.

Lemma wp_submit b rw fuel (k : blk D) :
  let w := bk_sw k in
  let b0 := rb_with_bio (bio_with_rw (Z.lor (bi_rw (rb_bio b)) rw) (rb_bio b)) b in
  let item := mkSwapItem (rb_bio b0) (bi_sector (rb_bio b)) (s32 (bi_size (rb_bio b))) NO_SECTOR false in
  let ok := swappable w (rb_bio b0) (swap_bdev b) (bi_sector (rb_bio b)) NO_SECTOR (- EIO) in
  (sw_enable w = true -> sw_handler w = HLive /\ inv (sw_st w)) ->
  0 <= bi_sector (rb_bio b) < 2 ^ 62 -> 0 < bio_sectors (rb_bio b) < 2 ^ 31 ->
  wp (submit_bio bio_is_rw should_fail_request integrity_fails blk_throtl_bio take_bio (S fuel) rw b)
     (fun _ k' =>
        (hits b w /\
           ((ok /\ queued_one item k k') \/
            ((ok -> kmem (sw_st w) !! 0%nat = Some None) /\
             exists l, k' = mkBlk (bk_sw (sw_alloc l k)) (bk_ended k ++ [(b0, - EIO)]) (bk_made k) (bk_list k)))) \/
        (~ hits b w /\
           ((refused b0 /\ ended_one b0 (- EIO) k k') \/
            (~ refused b0 /\ unsupported b0 /\ ended_one b0 (- EOPNOTSUPP) k k') \/
            (~ refused b0 /\ ~ unsupported b0 /\ exists b', accepted b0 b' /\
               if blk_throtl_bio b' then k' = k else handed_on b' k k')))) k.
Proof.
  intros w b0 item ok Hen Hs Hn. unfold submit_bio, generic_make_request. fold b0.
  kstep. apply wp_on_sw. eapply wp_mono; [by apply wp_has_bad_block|]. cbv beta.
  change (hits b0 (bk_sw k)) with (hits b w).
  intros bad w' [-> Hbad]. replace (blk_with_sw (bk_sw k) k) with k by (by destruct k). destruct bad.
  - kstep. apply wp_on_sw. eapply wp_mono; [apply wp_swap_bio; intros He; by destruct (Hen He)|]. cbv beta.
    intros r w' (l & Ht & Hf). destruct r.
    + kstep. left. split; [by apply Hbad|]. left. destruct (Ht eq_refl) as [Hok ->].
      split; [exact Hok|]. by exists l.
    + unfold bio_endio. kstep. left. split; [by apply Hbad|]. right. destruct (Hf eq_refl) as [-> Hk].
      split; [exact Hk|]. by exists l.
  - assert (~ hits b w) as Hno by (intros Hh; discriminate (proj2 Hbad Hh)).
    kstep. eapply wp_mono; [apply (wp_checks b0); [apply Hn|apply Hs]|]. cbv beta. intros [b'|] k'.
    + intros (-> & Hr & Hu & Ha & Ht). kstep. kstep. destruct (bk_list k) as [l|] eqn:El.
      * kstep. right. split; [done|]. right. right. split_and!; [done|done|].
        exists b'. split; [exact Ha|]. rewrite Ht. right. by exists l.
      * do 3 kstep. cbn [make_loop]. unfold take_bio. do 4 kstep. cbn [bk_list blk_with_list]. do 2 kstep.
        right. split; [done|]. right. right. split_and!; [done|done|].
        exists b'. split; [exact Ha|]. rewrite Ht. by left.
    + intros Hend. kstep. right. split; [done|].
      destruct Hend as [?|[?|(Hr & Hu & -> & b' & Ha & Ht)]]; [by left|by right; left|].
      right. right. split_and!; [done|done|]. exists b'. by rewrite Ht.
Qed.
End Spec.

(** ** Results *)

(** C13: a bio of at least one sector submitted to a disk whose driver takes every
    bio (swap handler live if the device is enabled) leaves the submission code in
    exactly one way.
    If a sector of it, as it was submitted (relative to its partition: the
    redirection comes before the remapping, [partition_bio_misdirected]), lies in a
    mapped block, then it is queued for the swap core with its own sector and size
    when it may be swapped (the device is not dead and the bio starts in the user's
    area) and the work item can be allocated, and otherwise ended with -EIO.
    If not: it is ended with -EIO exactly when one of the checks refuses it (outside
    its partition or the disk, no queue, too large, injected fault, integrity); else
    with -EOPNOTSUPP exactly when it asks for a discard or write-same the queue does
    not do; else it is addressed to the whole disk at its absolute sector, with its
    data, size and callback, and is held back by the throttle or handed on once, to
    the driver or to the list of an active submission. *)
Theorem submit_bio_leaves_once {D} `{BlockDevice D} (bio_is_rw : bio -> bool)
    (should_fail_request integrity_fails blk_throtl_bio : rbio -> bool)
    (b : rbio) (rw : Z) (fuel : nat) (k : blk D) :
  let refuses := refused bio_is_rw should_fail_request integrity_fails in
  let w := bk_sw k in
  let b0 := rb_with_bio (bio_with_rw (Z.lor (bi_rw (rb_bio b)) rw) (rb_bio b)) b in
  let item := mkSwapItem (rb_bio b0) (bi_sector (rb_bio b)) (s32 (bi_size (rb_bio b))) NO_SECTOR false in
  let ok := swappable w (rb_bio b0) (swap_bdev b) (bi_sector (rb_bio b)) NO_SECTOR (- EIO) in
  (sw_enable w = true -> sw_handler w = HLive /\ inv (sw_st w)) ->
  0 <= bi_sector (rb_bio b) < 2 ^ 62 -> 0 < bio_sectors (rb_bio b) < 2 ^ 31 ->
  wp (submit_bio bio_is_rw should_fail_request integrity_fails blk_throtl_bio take_bio (S fuel) rw b)
     (fun _ k' =>
        (hits b w /\
           ((ok /\ queued_one item k k') \/
            ((ok -> kmem (sw_st w) !! 0%nat = Some None) /\
             exists l, k' = mkBlk (bk_sw (sw_alloc l k)) (bk_ended k ++ [(b0, - EIO)]) (bk_made k) (bk_list k)))) \/
        (~ hits b w /\
           ((refuses b0 /\ ended_one b0 (- EIO) k k') \/
            (~ refuses b0 /\ unsupported b0 /\ ended_one b0 (- EOPNOTSUPP) k k') \/
            (~ refuses b0 /\ ~ unsupported b0 /\ exists b', accepted b0 b' /\
               if blk_throtl_bio b' then k' = k else handed_on b' k k')))) k.
Proof. apply wp_submit. Qed.

(** A disk of 8192 sectors and a bio of two sectors at [sector]. *)
Definition demo_whole : whole :=
  mkWhole (mkBdev (Some (mkDiskPtr (Some SdevDevice)))) (512 * 8192)
    (Some (mkQueue 1024 0 false false false)).
Definition demo_rbio (d : bdev) (rw sector : Z) : rbio :=
  mkRbio (mkBio sector 1024 rw true demo_segs true) d false false.
Definition demo_blk (w : sw simdisk) : blk simdisk := mkBlk w [] [] None.
Definition submit_demo (rw : Z) (b : rbio) : K (blk simdisk) unit :=
  submit_bio (fun _ => true) (fun _ => false) (fun _ => false) (fun _ => false) take_bio 1 rw b.

(** A disk on which the block of sector 256 has been replaced. *)
Definition mapped_sw : sw simdisk := sw_with_st (one_mapping blank_disk) (demo_sw blank_disk).

(** A write to the mapped block is queued for the swap core, and a write to another
    one is handed to the driver. *)
Lemma submit_bio_leaves_once_witness :
  let k := demo_blk mapped_sw in
  (exists k', submit_demo WRITE (demo_rbio (Whole demo_whole) 0 300) k = Ok (tt, k') /\
     queued_one (mkSwapItem (rb_bio (demo_rbio (Whole demo_whole) WRITE 300)) 300 1024 NO_SECTOR false) k k') /\
  (exists k' b', submit_demo WRITE (demo_rbio (Whole demo_whole) 0 600) k = Ok (tt, k') /\
     bk_made k' = [b'] /\ bk_ended k' = [] /\ bi_sector (rb_bio b') = 600).
Proof.
  intros k. assert (sw_enable (bk_sw k) = true -> sw_handler (bk_sw k) = HLive /\ inv (sw_st (bk_sw k))) as Hen
    by (intros _; split; [reflexivity|exact (proj1 (one_mapping_inv blank_disk))]).
  split.
  - destruct (wp_inv _ _ _ (submit_bio_leaves_once (fun _ => true) (fun _ => false) (fun _ => false)
      (fun _ => false) (demo_rbio (Whole demo_whole) 0 300) WRITE 0 k Hen
      ltac:(cbn; lia) ltac:(vm_compute; split; congruence))) as ([] & k' & E & Hout).
    exists k'. split; [exact E|].
    destruct Hout as [(_ & [[_ Hq]|[Hm _]])|[Hno _]].
    + exact Hq.
    + exfalso. assert (kmem (sw_st (bk_sw k)) !! 0%nat = Some None) as Hx; [|discriminate Hx].
      apply Hm. unfold swappable. split_and!; try reflexivity. by left.
    + exfalso. apply Hno. unfold hits. split_and!; try reflexivity. exists 300. split; [split; vm_compute; congruence|].
      vm_compute. by eexists.
  - destruct (wp_inv _ _ _ (submit_bio_leaves_once (fun _ => true) (fun _ => false) (fun _ => false)
      (fun _ => false) (demo_rbio (Whole demo_whole) 0 600) WRITE 0 k Hen
      ltac:(cbn; lia) ltac:(vm_compute; split; congruence))) as ([] & k' & E & _).
    assert (match submit_demo WRITE (demo_rbio (Whole demo_whole) 0 600) k with
            | Ok (_, x) => match bk_made x, bk_ended x with
                           | [b'], [] => bi_sector (rb_bio b') =? 600 | _, _ => false end
            | Oops _ => false end = true) as Hc by (vm_compute; reflexivity).
    unfold submit_demo in Hc. rewrite E in Hc.
    destruct (bk_made k') as [|b' [|]] eqn:Em; try discriminate Hc.
    destruct (bk_ended k') eqn:Ee; try discriminate Hc.
    exists k', b'. split_and!; [exact E|exact Em|exact Ee|by apply Z.eqb_eq].
Defined.

(** ** Completion *)

(** The error a bio is ended with. *)
Definition endio_error (b : rbio) (error : Z) : Z :=
  if negb (error =? 0) then error else if bi_uptodate (rb_bio b) then 0 else - EIO.

Section Endio.
Context {D : Type} `{BlockDevice D}.

Lemma wp_req_bio_endio rq (b : rbio) nbytes error (k : blk D) :
  (sw_enable (bk_sw k) = true -> sw_handler (bk_sw k) = HLive) ->
  0 <= bi_size (rb_bio b) < 2 ^ 31 -> 0 <= nbytes ->
  let size := bi_size (rb_bio b) in
  let n := Z.min nbytes size in
  wp (req_bio_endio rq b nbytes error)
     (fun b' k' =>
        bi_sector (rb_bio b') = u64 (bi_sector (rb_bio b) + Z.shiftr n 9) /\
        bi_size (rb_bio b') = size - n /\ bi_segs (rb_bio b') = bi_segs (rb_bio b) /\
        bi_rw (rb_bio b') = bi_rw (rb_bio b) /\ bi_end_io (rb_bio b') = bi_end_io (rb_bio b) /\
        bi_bdev b' = bi_bdev b /\
        (n < size \/ rq_flush_seq rq = true -> k' = k) /\
        (n = size -> rq_flush_seq rq = false -> exists l,
           let item := mkSwapItem (rb_bio b') (bi_sector (rb_bio b)) size (blk_rq_pos rq) true in
           let ok := swappable (bk_sw k) (rb_bio b') (swap_bdev b) (bi_sector (rb_bio b))
                       (blk_rq_pos rq) (endio_error b error) in
           (ok /\ k' = blk_with_sw (sw_with_wq (sw_wq (bk_sw k) ++ [item]) (bk_sw (sw_alloc l k))) k) \/
           ((ok -> kmem (sw_st (bk_sw k)) !! 0%nat = Some None) /\
            k' = mkBlk (bk_sw (sw_alloc l k)) (bk_ended k ++ [(b', endio_error b error)])
                   (bk_made k) (bk_list k)))) k.
Proof.
  intros Hen Hs Hn size n. unfold req_bio_endio.
  set (p := if negb (error =? 0) then _ else _).
  assert (exists u, p = (rb_with_bio (bio_with_uptodate u (rb_bio b)) b, endio_error b error)) as [u ->].
  { subst p. unfold endio_error. destruct (Z.eqb_spec error 0) as [->|]; cbn [negb]; [|by exists false].
    exists (bi_uptodate (rb_bio b)). destruct b as [[? ? ? u ? ?] ? ? ?]. cbn. by destruct u. }
  cbn [rb_bio rb_with_bio bio_with_uptodate bi_size bi_sector].
  replace (if bi_size (rb_bio b) <? nbytes then bi_size (rb_bio b) else nbytes) with n
    by (subst n size; destruct (Z.ltb_spec (bi_size (rb_bio b)) nbytes); lia).
  set (b1 := if rq_quiet rq then _ else _).
  assert (exists q, b1 = mkRbio (bio_with_uptodate u (rb_bio b)) (bi_bdev b) q (bio_eof b)) as [q ->]
    by (subst b1; destruct (rq_quiet rq); by eexists).
  cbn [rb_bio rb_with_bio bio_with_uptodate bio_with_place bi_size bi_sector bi_bdev bio_quiet bio_eof].
  set (b2 := mkRbio _ _ _ _). fold size.
  assert (u32 (size - n) = size - n) as Hu by (apply u32_small; lia). rewrite Hu.
  rewrite (s32_small size) by lia.
  destruct (Z.eqb_spec (size - n) 0) as [Hz|Hz]; cbn [andb].
  2:{ kstep. split_and!; try done; try (by cbn; rewrite Hu); lia. }
  destruct (rq_flush_seq rq) eqn:Ef; cbn [negb].
  { kstep. split_and!; try done; by cbn; rewrite Hu. }
  kstep. apply wp_on_sw. eapply wp_mono; [by apply wp_swap_bio|]. cbv beta. intros r w' (l & Ht & Hf).
  destruct r; [|unfold bio_endio; kstep; kstep]; kstep; split_and!; try done;
    try (by cbn; rewrite Hu); try (intros [?|?]; [lia|done]); intros _ _; exists l.
  - left. by destruct (Ht eq_refl) as [? ->].
  - right. by destruct (Hf eq_refl) as [-> ?].
Qed.
End Endio.

(** [req_bio_endio] advances the bio by the bytes done, at most what is left.
    Until the last byte is done, and within a flush sequence, nothing else happens;
    then the bio is either queued for the swap core, exactly when it may be swapped
    (and a work item can be allocated), with the sector and size it had, or ended
    once, with the request's error, or -EIO if an earlier part had failed. *)
Theorem req_bio_endio_ends_once {D} `{BlockDevice D} (rq : request) (b : rbio) (nbytes error : Z) (k : blk D) :
  (sw_enable (bk_sw k) = true -> sw_handler (bk_sw k) = HLive) ->
  0 <= bi_size (rb_bio b) < 2 ^ 31 -> 0 <= nbytes ->
  let size := bi_size (rb_bio b) in
  let n := Z.min nbytes size in
  wp (req_bio_endio rq b nbytes error)
     (fun b' k' =>
        bi_sector (rb_bio b') = u64 (bi_sector (rb_bio b) + Z.shiftr n 9) /\
        bi_size (rb_bio b') = size - n /\
        (n < size \/ rq_flush_seq rq = true -> k' = k) /\
        (n = size -> rq_flush_seq rq = false -> exists l,
           let item := mkSwapItem (rb_bio b') (bi_sector (rb_bio b)) size (blk_rq_pos rq) true in
           let ok := swappable (bk_sw k) (rb_bio b') (swap_bdev b) (bi_sector (rb_bio b))
                       (blk_rq_pos rq) (endio_error b error) in
           (ok /\ k' = blk_with_sw (sw_with_wq (sw_wq (bk_sw k) ++ [item]) (bk_sw (sw_alloc l k))) k) \/
           ((ok -> kmem (sw_st (bk_sw k)) !! 0%nat = Some None) /\
            k' = mkBlk (bk_sw (sw_alloc l k)) (bk_ended k ++ [(b', endio_error b error)])
                   (bk_made k) (bk_list k)))) k.
Proof.
  intros Hen Hs Hn size n. eapply wp_mono; [by apply wp_req_bio_endio|]. cbv beta zeta.
  intros b' k' (? & ? & _ & _ & _ & _ & ? & ?). by split_and!.
Qed.

Lemma req_bio_endio_ends_once_witness :
  let k := demo_blk (demo_sw blank_disk) in
  exists b' k', req_bio_endio (mkRequest 300 false false) (demo_rbio (Whole demo_whole) WRITE 300) 512 (- EIO) k
                = Ok (b', k') /\ k' = k /\ bi_size (rb_bio b') = 512.
Proof.
  intros k. destruct (wp_inv _ _ _ (req_bio_endio_ends_once (mkRequest 300 false false)
    (demo_rbio (Whole demo_whole) WRITE 300) 512 (- EIO) k (fun _ => eq_refl)
    ltac:(cbn; lia) ltac:(lia))) as (b' & k' & E & _ & Hz & Hk & _).
  exists b', k'. split; [exact E|]. split; [apply Hk; left; reflexivity|exact Hz].
Defined.

(** C8: end to end, for the completion of a whole write to the user's area (outside
    a flush sequence, the swap handler live and its invariant true).  If the write
    may be swapped, that is it failed with -EIO on a fixed, enabled device that is
    not counted dead, and the work item can be allocated (GFP_ATOMIC), then it is
    not reported as failed: one item is queued, nothing is ended, and the work
    handler run on that item ends the bio with 0 or -EIO; with 0, the abstract disk
    holds the bio's data in every sector of the request.  In every other case the
    bio is ended at once with its error and nothing is queued. *)
Theorem failed_write_is_served {D} `{BlockDevice D} (rq : request) (b : rbio) (num error : Z) (k : blk D) :
  let w := bk_sw k in
  let bi := rb_bio b in
  let ok := swappable w bi (swap_bdev b) (bi_sector bi) (blk_rq_pos rq) (endio_error b error) in
  inv (sw_st w) -> sw_handler w = HLive ->
  bio_rw bi = WRITE -> 0 < num < 2 ^ 22 -> bi_size bi = 512 * num ->
  0 <= bi_sector bi -> bi_sector bi + num <= v_reserve (view_of (sw_st w)) ->
  0 <= v_user (view_of (sw_st w)) < 2 ^ 31 - 1 ->
  Forall vec_ok (bi_segs bi) -> zlen (segs_data (bi_segs bi)) = bi_size bi ->
  rq_flush_seq rq = false ->
  wp (req_bio_endio rq b (bi_size bi) error)
     (fun b' k' =>
        (ok /\ exists item,
           bk_ended k' = bk_ended k /\ sw_wq (bk_sw k') = sw_wq w ++ [item] /\
           wp (swap_bio_work_handler item)
              (fun x w' => let '(b2, e) := x in
                 inv (sw_st w') /\ (bi_end_io bi = true -> e = Some 0 \/ e = Some (- EIO)) /\
                 (e = Some 0 -> segs_data (bi_segs b2) = segs_data (bi_segs bi) /\
                                bio_shows b2 (bi_sector bi) num (sw_st w'))) (bk_sw k')) \/
        ((ok -> kmem (sw_st w) !! 0%nat = Some None) /\ sw_wq (bk_sw k') = sw_wq w /\
         bk_ended k' = bk_ended k ++ [(b', endio_error b error)])) k.
Proof.
  intros w bi ok Hi Hl Hrw Hn Hz Hs He Hu Hv Hlen Hf.
  eapply wp_mono; [apply wp_req_bio_endio; [done|fold bi; lia|fold bi; lia]|].
  cbv beta zeta. fold bi. intros b' k' (_ & _ & Es & Erw & Eend & _ & _ & Hq).
  assert (forall c s bad e, swappable (bk_sw k) (rb_bio b') c s bad e <-> swappable w bi c s bad e) as Hsw
    by (intros; unfold swappable, bio_rw; by rewrite Erw).
  destruct (Hq ltac:(lia) Hf) as (l & [[Hok ->]|[Hno ->]]).
  - left. split; [by apply Hsw|]. eexists. split; [done|]. split; [done|]. eapply wp_mono.
    { apply (wp_work_handler _ num). split; cbn [bk_sw blk_with_sw sw_with_wq sw_alloc sw_with_st sw_handler
        sw_st it_start_sec it_size it_bio]; rewrite ?Es; try done; by apply inv_kmem. }
    intros [b2 e] w' (Hi' & _ & He' & Hsh & Hw). cbn [it_bio it_start_sec] in *.
    rewrite Eend in He'. split; [done|]. split; [done|]. intros E.
    rewrite Hw by (done || by unfold bio_rw; rewrite Erw). split; [by rewrite Es|by apply Hsh].
  - right. split; [|done]. intros Hok. by apply Hno, Hsw.
Qed.

(** A write that hits a bad sector is queued; without memory for the item it is ended. *)
Lemma failed_write_is_served_witness :
  let k l := demo_blk (sw_with_st (set_kmem l (demo_core (mkDisk ∅ [] [300] false) no_bits []))
                         (demo_sw (mkDisk ∅ [] [300] false))) in
  let run l := req_bio_endio (mkRequest 300 false false) (demo_rbio (Whole demo_whole) WRITE 300) 1024 (- EIO) (k l) in
  (exists b' k', run [] = Ok (b', k') /\ length (sw_wq (bk_sw k')) = 1%nat /\ bk_ended k' = []) /\
  (exists b' k', run [None] = Ok (b', k') /\ sw_wq (bk_sw k') = [] /\ bk_ended k' = [(b', - EIO)]).
Proof.
  intros k run. pose proof (proj1 (demo_empty_inv (mkDisk ∅ [] [300] false))) as Hi.
  assert (forall l, swappable (bk_sw (k l)) (rb_bio (demo_rbio (Whole demo_whole) WRITE 300))
    (swap_bdev (demo_rbio (Whole demo_whole) WRITE 300)) 300 300 (- EIO)) as Hok
    by (intros l; unfold swappable; split_and!; try reflexivity; by left).
  pose proof (fun l => failed_write_is_served (mkRequest 300 false false)
    (demo_rbio (Whole demo_whole) WRITE 300) 2 (- EIO) (k l) (inv_kmem l _ Hi) eq_refl eq_refl
    ltac:(lia) eq_refl ltac:(cbn; lia) ltac:(vm_compute; congruence) ltac:(cbn; lia)
    demo_segs_ok demo_segs_len eq_refl) as Hw. split.
  - destruct (wp_inv _ _ _ (Hw [])) as (b' & k' & E & [(_ & item & Hend & Hq & _)|[Hm _]]).
    + exists b', k'. split_and!; [exact E|by rewrite Hq|exact Hend].
    + discriminate (Hm (Hok [])).
  - destruct (wp_inv _ _ _ (Hw [None])) as (b' & k' & E & [(_ & item & Hend & Hq & _)|(_ & Hq & Hend)]).
    + exfalso. assert (match run [None] with Ok (_, x) => bool_decide (length (sw_wq (bk_sw x)) = 0%nat)
                       | Oops _ => false end = true) as Hc by (vm_compute; reflexivity).
      assert (run [None] = Ok (b', k')) as E' by exact E. rewrite E', Hq in Hc. discriminate Hc.
    + exists b', k'. split_and!; [exact E|exact Hq|exact Hend].
Defined.

(** ** Partitions *)

(** Where the bios went: the sectors queued for the swap core and those handed to
    the driver. *)
Definition sent (r : res (unit * blk simdisk)) : option (list Z * list Z) :=
  match r with
  | Ok (_, k) => Some (it_start_sec <$> sw_wq (bk_sw k), (fun b => bi_sector (rb_bio b)) <$> bk_made k)
  | Oops _ => None
  end.

(** the redirection looks at the sector relative to the partition, because it
    comes before [blk_partition_remap].  On a disk where the block of sector 256
    has been replaced and a partition starts at sector 1280, a write to sector 300
    of the partition, disk sector 1580, is queued for the replacement of disk
    sector 300; and a read of disk sector 300 through a partition that starts at
    64, sector 236 of it, is not redirected but sent to the replaced sector. *)
Theorem partition_bio_misdirected :
  let far := demo_rbio (Part 1280 (512 * 4096) demo_whole) 0 300 in
  let near := demo_rbio (Part 64 (512 * 4096) demo_whole) 0 236 in
  abs_sector far = 1580 /\ abs_sector near = 300 /\
  sent (submit_demo WRITE far (demo_blk mapped_sw)) = Some ([300], []) /\
  sent (submit_demo 0 near (demo_blk mapped_sw)) = Some ([], [300]) /\
  sent (submit_demo 0 (demo_rbio (Whole demo_whole) 0 300) (demo_blk mapped_sw)) = Some ([300], []).
Proof. split_and!; by vm_compute. Qed.
