(* ===== verification/BlkReq.v ===== *)
(** * block/blk-core.c: requests and their bios

    A request carries a list of bios.  It is built from one bio
    ([init_request_from_bio]), grows by merging ([bio_attempt_back_merge],
    [bio_attempt_front_merge], [attempt_plug_merge]) and is completed in pieces
    ([blk_update_request]), each piece ending the bios it covers and advancing the
    one it stops in.  The segments of a bio are the [bi_segs] from [bi_idx] on. *)

From stdpp Require Import base gmap list list_numbers.
From coqutil Require Import Byte.
From Stdlib Require Import ZArith Lia.
From S2P Require Import Prelude Kapi Ring Layout State Scsi SimDisk Log Core CoreInv CoreSpec CoreReq CoreThm Sim Swap SwapThm BlkCore BlkThm.

Local Open Scope Z_scope.

(** ** Data *)

(** [rr_bio] is the chain [req->bio .. req->biotail]. *)
Record rreq := mkRreq {
  rr_bio : list rbio;
  rr_data_len : Z;        (* __data_len, u32 *)
  rr_sector : Z;          (* __sector *)
  rr_cmd_type : req_type;
  rr_cmd_flags : Z;
  rr_errors : Z
}.

Definition has_flag (flags f : Z) : bool := negb (Z.land flags f =? 0).

(** What [req_bio_endio] reads of a request. *)
Definition rr_view (rq : rreq) : request :=
  mkRequest (rr_sector rq) (has_flag (rr_cmd_flags rq) REQ_QUIET)
    (has_flag (rr_cmd_flags rq) REQ_FLUSH_SEQ).

(** [bio_cur_bytes], [blk_rq_cur_bytes] of include/linux/blkdev.h *)
Definition bio_cur_bytes (b : bio) : Z :=
  match bi_segs b with v :: _ => bv_len v | [] => bi_size b end.
Definition blk_rq_cur_bytes (rq : rreq) : Z :=
  match rr_bio rq with b :: _ => bio_cur_bytes (rb_bio b) | [] => 0 end.

(** ** Building a request *)

Definition blk_rq_bio_prep (rq : rreq) (b : rbio) : rreq :=
  mkRreq [b] (bi_size (rb_bio b)) (rr_sector rq) (rr_cmd_type rq)
    (Z.lor (rr_cmd_flags rq) (Z.land (bi_rw (rb_bio b)) REQ_WRITE)) (rr_errors rq).

Definition init_request_from_bio (rq : rreq) (b : rbio) : rreq :=
  let rw := bi_rw (rb_bio b) in
  let flags := Z.lor (rr_cmd_flags rq) (Z.land rw REQ_COMMON_MASK) in
  let flags := if has_flag rw REQ_RAHEAD then Z.lor flags REQ_FAILFAST_MASK else flags in
  blk_rq_bio_prep (mkRreq (rr_bio rq) (rr_data_len rq) (bi_sector (rb_bio b)) REQ_TYPE_FS flags 0) b.

(** ** Merging *)

Inductive elv_ret := ELEVATOR_NO_MERGE | ELEVATOR_FRONT_MERGE | ELEVATOR_BACK_MERGE.

Section Merge.
(** block/blk-merge.c: whether the limits of the queue allow the merge, what
    [blk_rq_set_mixed_merge] makes of a request, whether and where a bio fits. *)
Variable ll_back_merge_fn : rreq -> rbio -> bool.
Variable ll_front_merge_fn : rreq -> rbio -> bool.
Variable blk_rq_set_mixed_merge : rreq -> rreq.
Variable blk_rq_merge_ok : rreq -> rbio -> bool.
Variable blk_try_merge : rreq -> rbio -> elv_ret.

(** The request after the merge, or nothing when it does not take place. *)
Definition bio_attempt_back_merge (rq : rreq) (b : rbio) : option rreq :=
  let ff := Z.land (bi_rw (rb_bio b)) REQ_FAILFAST_MASK in
  if negb (ll_back_merge_fn rq b) then None else
  let rq := if negb (Z.land (rr_cmd_flags rq) REQ_FAILFAST_MASK =? ff)
            then blk_rq_set_mixed_merge rq else rq in
  Some (mkRreq (rr_bio rq ++ [b]) (u32 (rr_data_len rq + bi_size (rb_bio b))) (rr_sector rq)
          (rr_cmd_type rq) (rr_cmd_flags rq) (rr_errors rq)).

Definition bio_attempt_front_merge (rq : rreq) (b : rbio) : option rreq :=
  let ff := Z.land (bi_rw (rb_bio b)) REQ_FAILFAST_MASK in
  if negb (ll_front_merge_fn rq b) then None else
  let rq := if negb (Z.land (rr_cmd_flags rq) REQ_FAILFAST_MASK =? ff)
            then blk_rq_set_mixed_merge rq else rq in
  Some (mkRreq (b :: rr_bio rq) (u32 (rr_data_len rq + bi_size (rb_bio b))) (bi_sector (rb_bio b))
          (rr_cmd_type rq) (rr_cmd_flags rq) (rr_errors rq)).

(** The walk over the plugged requests, last first: each with whether it belongs to
    the queue of the bio.  The count is of the requests of this queue passed, the
    list is the plug with the merged request in place of the old. *)
Fixpoint plug_walk (rev_list : list (bool * rreq)) (b : rbio) (count : Z)
    : bool * Z * list (bool * rreq) :=
  match rev_list with
  | [] => (false, count, [])
  | (mine, rq) :: rest =>
      let count := if mine then count + 1 else count in
      let skip := let '(ret, n, rest') := plug_walk rest b count in (ret, n, (mine, rq) :: rest') in
      if negb mine || negb (blk_rq_merge_ok rq b) then skip else
      let merged := match blk_try_merge rq b with
                    | ELEVATOR_BACK_MERGE => bio_attempt_back_merge rq b
                    | ELEVATOR_FRONT_MERGE => bio_attempt_front_merge rq b
                    | ELEVATOR_NO_MERGE => None
                    end in
      match merged with
      | Some rq' => (true, count, (mine, rq') :: rest)
      | None => skip
      end
  end.

(** [None] is a task without a plug, which leaves [*request_count] alone. *)
Definition attempt_plug_merge (plug : option (list (bool * rreq))) (b : rbio) (request_count : Z)
    : bool * Z * option (list (bool * rreq)) :=
  match plug with
  | None => (false, request_count, None)
  | Some l => let '(ret, n, l') := plug_walk (reverse l) b 0 in (ret, n, Some (reverse l'))
  end.
End Merge.

(** ** Completing a request *)

Section Complete.
Context {D : Type} `{ScsiLower D}.

(** The rounds of the loop of [blk_update_request] inside one bio, whose size
    [nr_bytes] does not reach: bytes left to end, bytes done in this bio, bytes done
    in all, segments passed. *)
Fixpoint update_segs (size : Z) (segs : list bio_vec) (nr_bytes bio_nbytes total_bytes : Z)
    (next_idx : nat) : K (blk D) (Z * Z * Z * nat) :=
  match segs with
  | [] => mret (nr_bytes, bio_nbytes, total_bytes, next_idx)
  | v :: rest =>
      let nbytes := bv_len v in
      if size <? nbytes then kfail BugOn else
      if nr_bytes <? nbytes
      then mret (nr_bytes, bio_nbytes + nr_bytes, total_bytes + nr_bytes, next_idx) else
      let nr_bytes := nr_bytes - nbytes in
      if nr_bytes <=? 0
      then mret (nr_bytes, bio_nbytes + nbytes, total_bytes + nbytes, S next_idx)
      else update_segs size rest nr_bytes (bio_nbytes + nbytes) (total_bytes + nbytes) (S next_idx)
  end.

(** The rounds that end whole bios. *)
Fixpoint update_bios (rq : request) (error : Z) (bios : list rbio) (nr_bytes total_bytes : Z)
    : K (blk D) (list rbio * (Z * Z * Z * nat)) :=
  match bios with
  | [] => mret ([], (nr_bytes, 0, total_bytes, 0%nat))
  | b :: rest =>
      let size := bi_size (rb_bio b) in
      if size <=? nr_bytes then
        req_bio_endio rq b size error;;
        let nr_bytes := nr_bytes - size in
        let total_bytes := total_bytes + size in
        if nr_bytes <=? 0 then mret (rest, (nr_bytes, 0, total_bytes, 0%nat))
        else update_bios rq error rest nr_bytes total_bytes
      else
        x ← update_segs size (bi_segs (rb_bio b)) nr_bytes 0 total_bytes 0;
        mret (b :: rest, x)
  end.

(** [bi_idx += next_idx], and the first segment left begins [nr_bytes] later. *)
Definition advance_segs (b : rbio) (next_idx : nat) (nr_bytes : Z) : K (blk D) rbio :=
  match drop next_idx (bi_segs (rb_bio b)) with
  | [] => kfail OutOfBounds
  | v :: rest =>
      let v := mkVec (bv_page v) (u32 (bv_offset v + nr_bytes)) (u32 (bv_len v - nr_bytes)) in
      mret (rb_with_bio (bio_with_segs (v :: rest) (rb_bio b)) b)
  end.

(** The result says whether the request has more data; the number of physical
    segments and [req->buffer], which only the driver reads, are not kept. *)
Definition blk_update_request (rq : rreq) (error nr_bytes : Z) : K (blk D) (bool * rreq) :=
  match rr_bio rq with
  | [] => mret (false, rq)
  | _ =>
      let fs := bool_decide (rr_cmd_type rq = REQ_TYPE_FS) in
      let errors := if fs then 0 else rr_errors rq in
      x ← update_bios (rr_view rq) error (rr_bio rq) nr_bytes 0;
      let '(bios, (nr_bytes, bio_nbytes, total_bytes, next_idx)) := x in
      match bios with
      | [] => mret (false, mkRreq [] 0 (rr_sector rq) (rr_cmd_type rq) (rr_cmd_flags rq) errors)
      | b :: rest =>
          b ← (if bio_nbytes =? 0 then mret b else
               b ← req_bio_endio (rr_view rq) b bio_nbytes error;
               advance_segs b next_idx nr_bytes);
          let data_len := u32 (rr_data_len rq - total_bytes) in
          let sector := if fs then u64 (rr_sector rq + Z.shiftr total_bytes 9) else rr_sector rq in
          let flags :=
            if has_flag (rr_cmd_flags rq) REQ_MIXED_MERGE
            then Z.lor (Z.ldiff (rr_cmd_flags rq) REQ_FAILFAST_MASK)
                       (Z.land (bi_rw (rb_bio b)) REQ_FAILFAST_MASK)
            else rr_cmd_flags rq in
          let rq := mkRreq (b :: rest) data_len sector (rr_cmd_type rq) flags errors in
          let data_len := if data_len <? blk_rq_cur_bytes rq then blk_rq_cur_bytes rq else data_len in
          mret (true, mkRreq (b :: rest) data_len sector (rr_cmd_type rq) flags errors)
      end
  end.

(** Both halves of a request; [next] is [rq->next_rq] of a bidirectional one. *)
Definition blk_update_bidi_request (rq : rreq) (next : option rreq) (error nr_bytes bidi_bytes : Z)
    : K (blk D) (bool * rreq * option rreq) :=
  x ← blk_update_request rq error nr_bytes;
  let '(more, rq) := x in
  if (more : bool) then mret (true, rq, next) else
  match next with
  | None => mret (false, rq, None)
  | Some nq =>
      y ← blk_update_request nq error bidi_bytes;
      mret (fst y, rq, Some (snd y))
  end.
End Complete.

(** ** How much of a mixed request may fail at once *)

Fixpoint err_bytes (ff : Z) (bios : list rbio) (bytes : Z) : Z :=
  match bios with
  | [] => bytes
  | b :: rest =>
      if negb (Z.land (bi_rw (rb_bio b)) ff =? ff) then bytes
      else err_bytes ff rest (u32 (bytes + bi_size (rb_bio b)))
  end.

Definition blk_rq_err_bytes {S} (rq : rreq) : K S Z :=
  let ff := Z.land (rr_cmd_flags rq) REQ_FAILFAST_MASK in
  if negb (has_flag (rr_cmd_flags rq) REQ_MIXED_MERGE) then mret (rr_data_len rq) else
  let bytes := err_bytes ff (rr_bio rq) 0 in
  if negb (rr_data_len rq =? 0) && (bytes =? 0) then kfail BugOn else mret bytes.
