(* ===== verification/BlkReqThm.v ===== *)
(** * Results on requests

    However the completion of a request is cut into pieces, every bio of it is
    ended, or handed to the swap core, exactly once and in order, and what is left
    is a request for exactly the rest of the data: this is what makes the sector
    and the size that reach [swap_bio] right after a partial completion.  Requests
    built from bios by merging are of this shape. *)

From stdpp Require Import base gmap list list_numbers.
From coqutil Require Import Byte.
From Stdlib Require Import ZArith Lia.
From S2P Require Import Prelude Kapi Ring Layout State Scsi SimDisk Log Core CoreInv CoreSpec CoreReq CoreThm Sim Swap SwapThm BlkCore BlkThm BlkReq.

Local Open Scope Z_scope.

(** ** Well-formed requests *)

(** The end of a segment within its page fits its type. *)
Definition vec_small (v : bio_vec) : Prop := bv_offset v + bv_len v < 2 ^ 32.

(** A bio whose segments make up its size, in whole sectors. *)
Record bio_wf (b : rbio) : Prop := {
  wf_size : 0 < bi_size (rb_bio b) < 2 ^ 31;
  wf_whole : bi_size (rb_bio b) mod 512 = 0;
  wf_vecs : Forall vec_ok (bi_segs (rb_bio b));
  wf_small : Forall vec_small (bi_segs (rb_bio b));
  wf_data : zlen (segs_data (bi_segs (rb_bio b))) = bi_size (rb_bio b)
}.

Fixpoint bios_size (l : list rbio) : Z :=
  match l with [] => 0 | b :: rest => bi_size (rb_bio b) + bios_size rest end.

Definition bios_data (l : list rbio) : bytes :=
  concat ((fun b => segs_data (bi_segs (rb_bio b))) <$> l).

(** Each bio starts where the one before it ends. *)
Fixpoint chained (sector : Z) (l : list rbio) : Prop :=
  match l with
  | [] => True
  | b :: rest => bi_sector (rb_bio b) = sector /\ chained (sector + bi_size (rb_bio b) / 512) rest
  end.

(** A file system request over consecutive sectors. *)
Record rq_wf (rq : rreq) : Prop := {
  wf_bios : Forall bio_wf (rr_bio rq);
  wf_chain : chained (rr_sector rq) (rr_bio rq);
  wf_len : rr_data_len rq = bios_size (rr_bio rq);
  wf_short : rr_data_len rq < 2 ^ 31;
  wf_pos : 0 <= rr_sector rq /\ rr_sector rq + rr_data_len rq / 512 < 2 ^ 62;
  wf_fs : rr_cmd_type rq = REQ_TYPE_FS;
  wf_noflush : has_flag (rr_cmd_flags rq) REQ_FLUSH_SEQ = false
}.

(** The sector after a bio.  It does not change when the front of the bio is done,
    and tells the bios of a request apart ([chained_ends]). *)
Definition bio_end (b : rbio) : Z := bi_sector (rb_bio b) + bi_size (rb_bio b) / 512.

(** [b'] is [b] with all its bytes done. *)
Definition consumed (b b' : rbio) : Prop :=
  bi_segs (rb_bio b') = bi_segs (rb_bio b) /\ bi_size (rb_bio b') = 0 /\
  bi_sector (rb_bio b') = u64 (bio_end b) /\ bi_rw (rb_bio b') = bi_rw (rb_bio b) /\
  bi_end_io (rb_bio b') = bi_end_io (rb_bio b) /\ bi_bdev b' = bi_bdev b.

(** [b] has left the request at [pos] with [error]: ended once, or queued once with
    its own sector and size. *)
Definition finished_one {D} (pos error : Z) (b : rbio) (k k' : blk D) : Prop :=
  exists b' l,
    consumed b b' /\
    ((swappable (bk_sw k) (rb_bio b') (swap_bdev b) (bi_sector (rb_bio b)) pos (endio_error b error) /\
      k' = blk_with_sw (sw_with_wq (sw_wq (bk_sw k) ++
             [mkSwapItem (rb_bio b') (bi_sector (rb_bio b)) (bi_size (rb_bio b)) pos true])
             (bk_sw (sw_alloc l k))) k) \/
     k' = mkBlk (bk_sw (sw_alloc l k)) (bk_ended k ++ [(b', endio_error b error)])
            (bk_made k) (bk_list k)).

Inductive finished {D} (pos error : Z) : list rbio -> blk D -> blk D -> Prop :=
  | finished_nil k : finished pos error [] k k
  | finished_cons b l k k1 k2 :
      finished_one pos error b k k1 -> finished pos error l k1 k2 -> finished pos error (b :: l) k k2.

(** The bios of a list leave one after the other, each with its own place and error. *)
Inductive completed {D} : list (rbio * (Z * Z)) -> blk D -> blk D -> Prop :=
  | completed_nil k : completed [] k k
  | completed_cons b pos error l k k1 k2 :
      finished_one pos error b k k1 -> completed l k1 k2 -> completed ((b, (pos, error)) :: l) k k2.

Lemma completed_app {D} l1 l2 (k k1 k2 : blk D) :
  completed l1 k k1 -> completed l2 k1 k2 -> completed (l1 ++ l2) k k2.
Proof. induction 1; intros; cbn; [done|]. econstructor; eauto. Qed.

Lemma finished_completed {D} pos error l (k k' : blk D) :
  finished pos error l k k' -> completed ((fun b => (b, (pos, error))) <$> l) k k'.
Proof. induction 1; cbn; econstructor; eauto. Qed.

(** ** Arithmetic of sizes *)

Lemma bios_size_app l1 l2 : bios_size (l1 ++ l2) = bios_size l1 + bios_size l2.
Proof. induction l1; cbn; lia. Qed.

Lemma bios_size_pos l : Forall bio_wf l -> 0 <= bios_size l.
Proof. induction 1 as [|b l [? _ _ _ _]]; cbn; lia. Qed.

Lemma bios_size_whole l : Forall bio_wf l -> bios_size l mod 512 = 0.
Proof.
  induction 1 as [|b l [_ Hw _ _ _] _ IH]; [done|]. cbn [bios_size].
  by rewrite Z.add_mod, Hw, IH by lia.
Qed.

Lemma zlen_bios_data l : Forall bio_wf l -> zlen (bios_data l) = bios_size l.
Proof.
  induction 1 as [|b l [_ _ _ _ Hd] _ IH]; [done|].
  change (bios_data (b :: l)) with (segs_data (bi_segs (rb_bio b)) ++ bios_data l).
  rewrite zlen_app, IH, Hd. done.
Qed.

Lemma chained_app s l1 l2 :
  Forall bio_wf l1 -> chained s (l1 ++ l2) -> chained (s + bios_size l1 / 512) l2.
Proof.
  intros Hwf. revert s. induction Hwf as [|b l Hb Hl IH]; intros s Hc; cbn in *.
  - change (0 / 512) with 0. by rewrite Z.add_0_r.
  - destruct Hc as [_ Hc]. apply IH in Hc.
    pose proof (wf_whole b Hb). pose proof (bios_size_whole l Hl).
    replace (s + (bi_size (rb_bio b) + bios_size l) / 512)
      with (s + bi_size (rb_bio b) / 512 + bios_size l / 512); [done|].
    rewrite <- Z.add_assoc. f_equal. pose proof (Z.div_mod (bi_size (rb_bio b)) 512).
    pose proof (Z.div_mod (bios_size l) 512). apply Z.div_unique with 0; lia.
Qed.

Lemma chained_ends s l :
  Forall bio_wf l -> chained s l -> NoDup (bio_end <$> l) /\ Forall (fun b => s < bio_end b) l.
Proof.
  intros Hwf. revert s. induction Hwf as [|b l Hb Hl IH]; intros s Hc; cbn in *; [by repeat constructor|].
  destruct Hc as [Hs Hc]. destruct (IH _ Hc) as [Hnd Hlt].
  assert (s < bio_end b) as Hsb.
  { unfold bio_end. pose proof (wf_size b Hb). pose proof (wf_whole b Hb).
    pose proof (Z.div_mod (bi_size (rb_bio b)) 512). lia. }
  rewrite <- Hs in Hlt. fold (bio_end b) in Hlt. split.
  - constructor; [|done]. intros (c & Hc' & Hin)%list_elem_of_fmap.
    rewrite Forall_forall in Hlt. specialize (Hlt c Hin). lia.
  - constructor; [done|]. eapply Forall_impl; [exact Hlt|]. cbv beta. lia.
Qed.

(** ** Completions keep the driver running *)

Lemma finished_one_env {D} pos error b (k k' : blk D) :
  finished_one pos error b k k' ->
  sw_enable (bk_sw k') = sw_enable (bk_sw k) /\ sw_handler (bk_sw k') = sw_handler (bk_sw k).
Proof. by intros (b' & l & _ & [[_ ->]| ->]). Qed.

Lemma finished_env {D} pos error l (k k' : blk D) :
  finished pos error l k k' ->
  sw_enable (bk_sw k') = sw_enable (bk_sw k) /\ sw_handler (bk_sw k') = sw_handler (bk_sw k).
Proof.
  induction 1 as [k|b l k k1 k2 H1 _ [E1 E2]]; [done|].
  destruct (finished_one_env _ _ _ _ _ H1) as [F1 F2]. split; congruence.
Qed.

(** ** The loop *)

(** Equality of tuples of numbers. *)
Ltac tuple_eq :=
  repeat lazymatch goal with |- (_, _) = (_, _) => f_equal end; lia.

Section Loop.
Context {D : Type} `{BlockDevice D}.
Implicit Types k : blk D.

Definition ready k : Prop := sw_enable (bk_sw k) = true -> sw_handler (bk_sw k) = HLive.

(** A round that ends a whole bio. *)
Lemma wp_end_bio rq b error k :
  ready k -> bio_wf b -> rq_flush_seq rq = false ->
  wp (req_bio_endio rq b (bi_size (rb_bio b)) error)
     (fun _ k' => finished_one (blk_rq_pos rq) error b k k') k.
Proof.
  intros Hr Hb Hf. destruct (wf_size b Hb).
  eapply wp_mono; [apply wp_req_bio_endio; [done|lia|lia]|]. cbv beta zeta.
  rewrite Z.min_id, Z.shiftr_div_pow2, Z.sub_diag by lia. change (2 ^ 9) with 512.
  intros b' k' (Hx & Hz & Hs & Hrw & Hend & Hbd & _ & Hk). destruct (Hk eq_refl Hf) as [l Hl].
  exists b', l. split; [by split_and!|]. destruct Hl as [[? ->]|[_ ->]]; [left|right]; done.
Qed.

(** The rounds inside a bio stop in the segment where the bytes run out. *)
Lemma wp_update_segs size segs : forall nr bn tot idx k,
  Forall vec_ok segs -> Forall (fun v => bv_len v <= size) segs ->
  0 <= nr < zlen (segs_data segs) ->
  wp (update_segs size segs nr bn tot idx)
     (fun x k' => k' = k /\ exists n v rest nr',
        x = (nr', bn + nr, tot + nr, (idx + n)%nat) /\ drop n segs = v :: rest /\
        0 <= nr' < bv_len v /\ vec_ok v /\ Forall vec_ok rest /\
        drop (Z.to_nat nr) (segs_data segs) = drop (Z.to_nat nr') (segs_data (v :: rest))) k.
Proof.
  induction segs as [|v segs IH]; intros nr bn tot idx k Hok Hle Hnr.
  { change (zlen (segs_data [])) with 0 in Hnr. lia. }
  apply Forall_cons in Hok as [Hv Hok]. apply Forall_cons in Hle as [Hl Hle].
  pose proof (zlen_vec_data v Hv) as Hd. rewrite segs_data_cons, zlen_app, Hd in Hnr.
  cbn [update_segs]. rewrite (proj2 (Z.ltb_ge _ _)) by lia.
  destruct (Z.ltb_spec nr (bv_len v)) as [Hlt|Hge].
  { kstep. split; [done|]. exists 0%nat, v, segs, nr. rewrite Nat.add_0_r.
    split_and!; try done; lia. }
  assert (drop (Z.to_nat nr) (segs_data (v :: segs)) = drop (Z.to_nat (nr - bv_len v)) (segs_data segs)) as Hdrop.
  { rewrite segs_data_cons. unfold zlen in Hd. rewrite drop_app_ge by lia. f_equal. lia. }
  destruct (Z.leb_spec (nr - bv_len v) 0) as [Hz|Hz].
  - kstep. split; [done|].
    assert (nr - bv_len v = 0) as Hz0 by lia. rewrite Hz0 in *.
    destruct segs as [|v2 rest]; [change (zlen (segs_data [])) with 0 in Hnr; lia|].
    apply Forall_cons in Hok as [Hv2 Hok]. destruct Hv2 as (Hp2 & ?).
    exists 1%nat, v2, rest, 0. split_and!; try done; try lia. tuple_eq.
  - eapply wp_mono; [apply IH; [done|done|lia]|]. cbv beta.
    intros x k' (-> & n & v2 & rest & nr' & -> & Hn & Hr & Hv2 & Hrest & Hdd). split; [done|].
    exists (S n), v2, rest, nr'. rewrite Hdrop. split_and!; try done; try lia. tuple_eq.
Qed.

(** What is left of a bio after [nr] of its bytes. *)
Lemma wp_advance_segs b n v rest nr k :
  drop n (bi_segs (rb_bio b)) = v :: rest -> 0 <= nr < bv_len v ->
  Forall vec_ok (v :: rest) -> Forall vec_small (v :: rest) ->
  wp (advance_segs b n nr)
     (fun b' k' => k' = k /\ bi_bdev b' = bi_bdev b /\ bi_rw (rb_bio b') = bi_rw (rb_bio b) /\
        bi_sector (rb_bio b') = bi_sector (rb_bio b) /\ bi_size (rb_bio b') = bi_size (rb_bio b) /\
        Forall vec_ok (bi_segs (rb_bio b')) /\ Forall vec_small (bi_segs (rb_bio b')) /\
        segs_data (bi_segs (rb_bio b')) = drop (Z.to_nat nr) (segs_data (v :: rest))) k.
Proof.
  intros Hd Hnr Hv Hsm. apply Forall_cons in Hv as [Hv Hrest]. apply Forall_cons in Hsm as [H32 Hsm].
  unfold vec_small in H32. unfold advance_segs. rewrite Hd. kstep. cbn [rb_bio rb_with_bio bio_with_segs bi_segs].
  pose proof (zlen_vec_data v Hv) as Hl. destruct Hv as (Hp & Ho & page & Hpg & Hf).
  rewrite !u32_small by lia. split_and!; try done.
  - constructor; [|done]. split_and!; cbn; try lia. exists page. split; [done|lia].
  - constructor; [|done]. unfold vec_small. cbn. lia.
  - rewrite !segs_data_cons. unfold zlen in Hl. rewrite drop_app_le by lia. f_equal.
    unfold vec_data. cbn [bv_page bv_offset bv_len]. rewrite Hpg. unfold slice.
    replace (Z.to_nat (bv_offset v + nr)) with (Z.to_nat (bv_offset v) + Z.to_nat nr)%nat by lia.
    rewrite <- drop_drop, skipn_firstn_comm. f_equal. lia.
Qed.

Lemma segs_le l : Forall vec_ok l -> Forall (fun v => bv_len v <= zlen (segs_data l)) l.
Proof.
  induction 1 as [|v l Hv Hl IH]; constructor.
  - rewrite segs_data_cons, zlen_app, zlen_vec_data by done. pose proof (zlen_nonneg (segs_data l)). lia.
  - eapply Forall_impl; [exact IH|]. intros w ?. rewrite segs_data_cons, zlen_app.
    pose proof (zlen_nonneg (vec_data v)). cbn beta in *; lia.
Qed.

(** Where the loop stops: the bios before [b] are done and [m] bytes of [b], the
    last of them in its segment number [n], [nr'] bytes into it. *)
Definition stops_in (b : rbio) (m nr' : Z) (n : nat) : Prop :=
  0 <= m < bi_size (rb_bio b) /\
  (m <> 0 -> exists v rest, drop n (bi_segs (rb_bio b)) = v :: rest /\ 0 <= nr' < bv_len v /\
     Forall vec_ok (v :: rest) /\ Forall vec_small (v :: rest) /\
     drop (Z.to_nat m) (segs_data (bi_segs (rb_bio b))) = drop (Z.to_nat nr') (segs_data (v :: rest))).

Lemma wp_update_bios rq error bios : forall nr tot k,
  ready k -> rq_flush_seq rq = false -> Forall bio_wf bios -> 0 <= nr ->
  wp (update_bios rq error bios nr tot)
     (fun x k' => exists pre post, bios = pre ++ post /\ finished (blk_rq_pos rq) error pre k k' /\
        match post with
        | [] => bios_size bios <= nr /\ fst x = []
        | b :: _ => exists n nr', x = (post, (nr', nr - bios_size pre, tot + nr, n)) /\
                                  stops_in b (nr - bios_size pre) nr' n
        end) k.
Proof.
  induction bios as [|b bios IH]; intros nr tot k Hr Hf Hwf Hnr; cbn [update_bios].
  { kstep. exists [], []. split_and!; try done; constructor. }
  apply Forall_cons in Hwf as [Hb Hwf]. pose proof (wf_size b Hb) as Hs.
  destruct (Z.leb_spec (bi_size (rb_bio b)) nr) as [Hle|Hlt].
  - kstep. eapply wp_mono; [by apply wp_end_bio|]. cbv beta. intros _ k1 H1.
    destruct (finished_one_env _ _ _ _ _ H1) as (He & Hh).
    destruct (Z.leb_spec (nr - bi_size (rb_bio b)) 0) as [Hz|Hz].
    + kstep. exists [b], bios. split; [done|]. split; [eapply finished_cons; [done|constructor]|].
      destruct bios as [|b2 bios]; [split; [cbn; lia|done]|].
      apply Forall_cons in Hwf as [Hb2 _]. destruct (wf_size b2 Hb2). cbn [bios_size].
      exists 0%nat, 0. split; [f_equal; tuple_eq|]. split; [lia|]. intros Hne. lia.
    + eapply wp_mono; [apply IH; [|done|done|lia]|].
      { unfold ready. by rewrite He, Hh. }
      cbv beta. intros x k' (pre & post & -> & Hfin & Hp). exists (b :: pre), post.
      split; [done|]. split; [by eapply finished_cons|].
      destruct post as [|b2 post]; cbn [bios_size].
      * destruct Hp as [? ?]. split; [|done]. cbn [app bios_size] in *. lia.
      * destruct Hp as (n & nr' & -> & Hst). exists n, nr'.
        replace (nr - (bi_size (rb_bio b) + bios_size pre)) with (nr - bi_size (rb_bio b) - bios_size pre) by lia.
        split; [f_equal; tuple_eq|done].
  - kstep. pose proof (wf_data b Hb) as Hd. eapply wp_mono.
    { apply wp_update_segs; [apply Hb| |lia]. rewrite <- Hd. apply segs_le, Hb. }
    cbv beta. intros x k' (-> & n & v & rest & nr' & -> & Hn & Hr' & Hv & Hrest & Hdd). kstep.
    exists [], (b :: bios). split; [done|]. split; [constructor|]. exists n, nr'.
    change (bios_size []) with 0. rewrite Z.sub_0_r. split; [f_equal; tuple_eq|].
    split; [lia|]. intros _. exists v, rest. split_and!; try done; try lia; [by constructor|].
    rewrite <- Hn. apply Forall_drop, Hb.
Qed.
End Loop.

(** ** The request afterwards *)

Lemma failfast_keeps_flush_seq flags rw :
  has_flag (Z.lor (Z.ldiff flags REQ_FAILFAST_MASK) (Z.land rw REQ_FAILFAST_MASK)) REQ_FLUSH_SEQ
  = has_flag flags REQ_FLUSH_SEQ.
Proof.
  unfold has_flag. do 2 f_equal. apply Z.bits_inj'. intros i Hi.
  rewrite !Z.land_spec, Z.lor_spec, Z.ldiff_spec, Z.land_spec.
  change REQ_FLUSH_SEQ with (2 ^ 27). rewrite Z.pow2_bits_eqb by lia.
  destruct (Z.eqb_spec 27 i) as [<-|]; [|by rewrite !andb_false_r].
  change (Z.testbit REQ_FAILFAST_MASK 27) with false. by rewrite andb_false_r, orb_false_r, !andb_true_r.
Qed.

Lemma bios_data_app l1 l2 : bios_data (l1 ++ l2) = bios_data l1 ++ bios_data l2.
Proof. unfold bios_data. by rewrite fmap_app, concat_app. Qed.

Lemma bios_data_drop pre b post m :
  Forall bio_wf pre -> 0 <= m <= zlen (segs_data (bi_segs (rb_bio b))) ->
  drop (Z.to_nat (bios_size pre + m)) (bios_data (pre ++ b :: post))
  = drop (Z.to_nat m) (segs_data (bi_segs (rb_bio b))) ++ bios_data post.
Proof.
  intros Hwf Hm. pose proof (zlen_bios_data pre Hwf) as Hl. pose proof (bios_size_pos pre Hwf).
  rewrite bios_data_app. unfold zlen in *. rewrite drop_app_ge by lia.
  change (bios_data (b :: post)) with (segs_data (bi_segs (rb_bio b)) ++ bios_data post).
  rewrite drop_app_le by lia. do 2 f_equal. lia.
Qed.

(** What [blk_update_request] promises of its result. *)
Record updated (rq : rreq) (nr : Z) (post : list rbio) (more : bool) (rq' : rreq) : Prop := {
  up_more : more = (nr <? rr_data_len rq);
  up_left : bio_end <$> rr_bio rq' = bio_end <$> post;
  up_wf : rq_wf rq';
  up_data : bios_data (rr_bio rq') = drop (Z.to_nat nr) (bios_data (rr_bio rq));
  up_done : more = false -> rr_bio rq' = [];
  up_next : more = true -> rr_sector rq' = rr_sector rq + nr / 512 /\
                           rr_data_len rq' = rr_data_len rq - nr
}.

(** Sums and differences of whole sectors. *)
Lemma whole_add a b : a mod 512 = 0 -> b mod 512 = 0 -> (a + b) / 512 = a / 512 + b / 512.
Proof.
  intros. pose proof (Z.div_mod a 512). pose proof (Z.div_mod b 512).
  symmetry. apply Z.div_unique with 0; lia.
Qed.

Lemma whole_sub a b : a mod 512 = 0 -> b mod 512 = 0 ->
  (a - b) mod 512 = 0 /\ (a - b) / 512 = a / 512 - b / 512.
Proof.
  intros Ha Hb. split; [by rewrite Zminus_mod, Ha, Hb|].
  pose proof (Z.div_mod a 512). pose proof (Z.div_mod b 512). symmetry. apply Z.div_unique with 0; lia.
Qed.

Lemma sectors_range a : 0 <= a < 2 ^ 31 -> 0 <= a / 512 < 2 ^ 31.
Proof. intros. split; [apply Z.div_pos|apply Z.div_lt_upper_bound]; lia. Qed.

(** The request that is left when [nr] bytes end inside [b], of which [b'] is the
    rest. *)
Lemma rest_wf rq pre b b' post nr flags errors :
  rq_wf rq -> rr_bio rq = pre ++ b :: post -> bio_wf b' ->
  0 <= nr - bios_size pre < bi_size (rb_bio b) -> nr mod 512 = 0 ->
  bi_size (rb_bio b') = bi_size (rb_bio b) - (nr - bios_size pre) ->
  bi_sector (rb_bio b') = bi_sector (rb_bio b) + (nr - bios_size pre) / 512 ->
  has_flag flags REQ_FLUSH_SEQ = false ->
  rq_wf (mkRreq (b' :: post) (rr_data_len rq - nr) (rr_sector rq + nr / 512) (rr_cmd_type rq) flags errors).
Proof.
  intros [Hb Hc Hlen Hsh Hpos Hfs _] Epp Hb' Hm Hw Esz Esec Hfl.
  rewrite Epp, Forall_app, Forall_cons in Hb. destruct Hb as (Hpre & Hb & Hpost).
  rewrite Epp in Hc. apply chained_app in Hc; [|done]. cbn [chained] in Hc. destruct Hc as [Hsec Hc].
  rewrite Epp, bios_size_app in Hlen. cbn [bios_size] in Hlen.
  pose proof (bios_size_whole pre Hpre) as Hpw. pose proof (bios_size_whole post Hpost) as Hqw.
  pose proof (wf_whole b Hb) as Hbw. pose proof (bios_size_pos pre Hpre).
  destruct (whole_sub nr (bios_size pre) Hw Hpw) as [Hmw Hmd].
  destruct (whole_sub _ _ Hbw Hmw) as [_ Hrd].
  assert (rr_data_len rq mod 512 = 0) as Hlw.
  { rewrite Hlen, Z.add_mod, (Z.add_mod (bi_size _)), Hpw, Hbw, Hqw by lia. done. }
  destruct (whole_sub _ _ Hlw Hw) as [_ Hld]. pose proof (Z.div_pos nr 512).
  split; cbn [rr_bio rr_data_len rr_sector rr_cmd_type rr_cmd_flags]; try done; try lia.
  - by constructor.
  - split; [lia|]. rewrite Esz, Hrd, Hmd.
    by replace (rr_sector rq + nr / 512 + (bi_size (rb_bio b) / 512 - (nr / 512 - bios_size pre / 512)))
      with (rr_sector rq + bios_size pre / 512 + bi_size (rb_bio b) / 512) by lia.
  - cbn [bios_size]. lia.
Qed.

(** The first segment of a bio is not longer than what is left of it. *)
Lemma cur_bytes_le b : bio_wf b -> bio_cur_bytes (rb_bio b) <= bi_size (rb_bio b).
Proof.
  intros Hb. unfold bio_cur_bytes. pose proof (wf_data b Hb) as Hd. pose proof (segs_le _ (wf_vecs b Hb)) as Hle.
  destruct (bi_segs (rb_bio b)); [lia|]. rewrite Forall_cons in Hle. lia.
Qed.

(** Nothing is left when all of the data is done. *)
Lemma updated_done rq nr rq' :
  rq_wf rq -> rr_data_len rq <= nr -> rr_bio rq' = [] -> rr_data_len rq' = 0 ->
  rr_cmd_type rq' = rr_cmd_type rq -> rr_cmd_flags rq' = rr_cmd_flags rq ->
  0 <= rr_sector rq' < 2 ^ 62 -> updated rq nr [] false rq'.
Proof.
  intros [Hb _ Hlen Hsh _ Hfs Hfl] Hnr Eb El Et Ef Hp. split; rewrite ?Eb; try done.
  - symmetry. apply Z.ltb_ge. lia.
  - split; rewrite ?Eb, ?El, ?Et, ?Ef; try done; change (0 / 512) with 0; lia.
  - pose proof (zlen_bios_data _ Hb). unfold zlen in *. rewrite drop_ge by lia. done.
Qed.

Section Update.
Context {D : Type} `{BlockDevice D}.
Implicit Types k : blk D.

(** The bio the bytes run out in. *)
Lemma wp_partial rq b m nr' n error k :
  ready k -> bio_wf b -> stops_in b m nr' n -> m mod 512 = 0 -> 0 <= bi_sector (rb_bio b) < 2 ^ 63 ->
  wp (if m =? 0 then mret b else b ← req_bio_endio rq b m error; advance_segs b n nr')
     (fun b' k' => k' = k /\ bio_wf b' /\ bi_size (rb_bio b') = bi_size (rb_bio b) - m /\
        bi_sector (rb_bio b') = bi_sector (rb_bio b) + m / 512 /\
        segs_data (bi_segs (rb_bio b')) = drop (Z.to_nat m) (segs_data (bi_segs (rb_bio b)))) k.
Proof.
  intros Hr Hb (Hm & Hst) Hw Hsec. pose proof (wf_size b Hb) as Hs. pose proof (wf_whole b Hb) as Hwh.
  destruct (Z.eqb_spec m 0) as [->|Hne].
  { kstep. change (Z.to_nat 0) with 0%nat. change (0 / 512) with 0. rewrite drop_0, Z.sub_0_r, Z.add_0_r. done. }
  destruct (Hst Hne) as (v & rest & Hn & Hv & Hok & Hsm & Hdd). kstep.
  eapply wp_mono; [apply wp_req_bio_endio; [done|lia|lia]|]. cbv beta zeta.
  rewrite Z.min_l by lia. intros b1 k1 (Esec & Esz & Esg & Erw & _ & Ebd & Hk & _).
  rewrite (Hk ltac:(lia)). eapply wp_mono; [eapply wp_advance_segs; [by rewrite Esg|done..]|].
  cbv beta. intros b2 k2 (-> & _ & _ & Esec2 & Esz2 & Hok2 & Hsm2 & Hd2).
  rewrite Esec2, Esec, Esz2, Esz, Hd2, Hdd. rewrite Z.shiftr_div_pow2 by lia. change (2 ^ 9) with 512.
  assert (0 <= m / 512 < 2 ^ 31) by (split; [apply Z.div_pos|apply Z.div_lt_upper_bound]; lia).
  split_and!; try done; [|rewrite u64_small by lia; done].
  split; rewrite ?Esz2, ?Esz; try done; [lia| |].
  - by rewrite Zminus_mod, Hwh, Hw.
  - rewrite Hd2, <- Hdd. pose proof (wf_data b Hb). unfold zlen in *. rewrite length_drop. lia.
Qed.

Lemma wp_update_request rq error nr k :
  ready k -> rq_wf rq -> 0 <= nr -> nr mod 512 = 0 ->
  wp (blk_update_request rq error nr)
     (fun x k' => exists pre post, rr_bio rq = pre ++ post /\
        finished (rr_sector rq) error pre k k' /\ updated rq nr post (fst x) (snd x)) k.
Proof.
  intros Hr Hwf Hnr Hw. pose proof Hwf as [Hb Hc Hlen Hsh Hpos Hfs Hfl]. unfold blk_update_request.
  destruct (rr_bio rq) as [|b0 bios0] eqn:Ebios.
  { kstep. exists [], []. split; [done|]. split; [constructor|]. cbn in Hlen. rewrite Hlen in Hpos. change (0 / 512) with 0 in Hpos.
    apply updated_done; try done; cbn [fst snd]; lia. }
  rewrite <- Ebios in *. kstep.
  eapply wp_mono; [apply wp_update_bios; done|]. cbv beta. cbn [rr_view blk_rq_pos].
  intros [bios' [[[nr' bn] tot] n]] k1 (pre & post & Epp & Hfin & Hp).
  destruct post as [|b post].
  { destruct Hp as [Hle Hnil]. cbn [fst] in Hnil. subst bios'. kstep. exists pre, []. split; [done|].
    split; [done|]. apply updated_done; [done|lia|done..|]. cbn [snd rr_sector].
    pose proof (Z.div_pos (rr_data_len rq) 512). pose proof (bios_size_pos _ Hb). lia. }
  destruct Hp as (n' & nr1 & Ex & Hst). injection Ex as -> -> -> -> ->.
  rewrite Epp, Forall_app, Forall_cons in Hb. destruct Hb as (Hpre & Hb & Hpost).
  rewrite Epp, bios_size_app in Hlen. cbn [bios_size] in Hlen.
  pose proof (bios_size_pos pre Hpre). pose proof (bios_size_pos post Hpost). destruct (Hst) as [Hm _].
  destruct (whole_sub _ _ Hw (bios_size_whole pre Hpre)) as [Hmw Hmd].
  rewrite Epp in Hc. apply chained_app in Hc; [|done]. destruct Hc as [Hsec _].
  pose proof (sectors_range (bios_size pre) ltac:(lia)). pose proof (sectors_range nr ltac:(lia)).
  assert (rr_sector rq < 2 ^ 62) by (pose proof (Z.div_pos (rr_data_len rq) 512); lia).
  kstep. eapply wp_mono; [apply wp_partial; [|done|done|done|lia]|].
  { destruct (finished_env _ _ _ _ _ Hfin) as (He & Hh). unfold ready. by rewrite He, Hh. }
  cbv beta. intros b' k' (-> & Hb' & Esz & Esec & Ed). kstep. rewrite bool_decide_true by done.
  rewrite Z.add_0_l, Z.shiftr_div_pow2 by lia. change (2 ^ 9) with 512. rewrite u32_small, u64_small by lia.
  set (flags := if has_flag _ REQ_MIXED_MERGE then _ else _).
  assert (has_flag flags REQ_FLUSH_SEQ = false) as Hfl'
    by (subst flags; destruct (has_flag _ REQ_MIXED_MERGE); rewrite ?failfast_keeps_flush_seq; done).
  rewrite (proj2 (Z.ltb_ge _ _)) by (cbn [blk_rq_cur_bytes rr_bio]; pose proof (cur_bytes_le b' Hb'); lia).
  exists pre, (b :: post). split; [done|]. split; [done|]. split; cbn [fst snd]; try done.
  - symmetry. apply Z.ltb_lt. lia.
  - cbn [rr_bio fmap list_fmap]. f_equal. unfold bio_end. rewrite Esec, Esz.
    destruct (whole_sub _ _ (wf_whole b Hb) Hmw) as [_ ->]. lia.
  - apply (rest_wf rq pre b b' post nr); done.
  - rewrite Epp. cbn [rr_bio]. replace nr with (bios_size pre + (nr - bios_size pre)) by lia.
    rewrite bios_data_drop by (done || rewrite (wf_data b Hb); lia). by rewrite <- Ed.
Qed.
End Update.


(** ** Completion in pieces *)

Definition calls_size (calls : list (Z * Z)) : Z := foldr (fun c n => snd c + n) 0 calls.

Lemma calls_size_pos calls :
  Forall (fun c => 0 <= snd c /\ snd c mod 512 = 0) calls -> 0 <= calls_size calls.
Proof. unfold calls_size. induction 1 as [|c l [? _] _ IH]; cbn in *; lia. Qed.

(** The calls of [blk_update_request] on one request, one after the other. *)
Fixpoint complete_all {D} `{ScsiLower D} (rq : rreq) (calls : list (Z * Z)) : K (blk D) rreq :=
  match calls with
  | [] => mret rq
  | (error, nr) :: rest => x ← blk_update_request rq error nr; complete_all (snd x) rest
  end.

Lemma wp_complete_all {D} `{BlockDevice D} calls : forall rq (k : blk D),
  ready k -> rq_wf rq -> Forall (fun c => 0 <= snd c /\ snd c mod 512 = 0) calls ->
  wp (complete_all rq calls)
     (fun rq' k' => rq_wf rq' /\
        (exists gone, completed gone k k' /\ Forall (fun x => snd (snd x) ∈ fst <$> calls) gone /\
           (bio_end ∘ fst <$> gone) ++ (bio_end <$> rr_bio rq') = bio_end <$> rr_bio rq) /\
        bios_data (rr_bio rq') = drop (Z.to_nat (calls_size calls)) (bios_data (rr_bio rq))) k.
Proof.
  induction calls as [|[e nr] calls IH]; intros rq k Hr Hwf Hall; cbn [complete_all].
  { kstep. change (Z.to_nat (calls_size [])) with 0%nat. rewrite drop_0. split_and!; [done| |done].
    exists []. split_and!; [constructor|done|done]. }
  apply Forall_cons in Hall as [[Hnr Hw] Hall]. cbn [snd] in *. kstep.
  eapply wp_mono; [by apply wp_update_request|]. cbv beta.
  intros [more rq1] k1 (pre & post & Hpp & Hfin & [_ Hl Hwf' Hd _ _]). cbn [fst snd] in *.
  destruct (finished_env _ _ _ _ _ Hfin) as (He & Hh).
  eapply wp_mono; [apply IH; [|done|done]|].
  { unfold ready. by rewrite He, Hh. }
  cbv beta. intros rq' k' (Hwf2 & (gone & Hg & Herr & Hends) & Hd2). split_and!; [done| |].
  - eexists. split_and!; [eapply completed_app; [by apply finished_completed|exact Hg]| |].
    + apply Forall_app. split; [|eapply Forall_impl; [exact Herr|]; intros x Hx; by right].
      apply Forall_fmap, Forall_true. intros b. left.
    + rewrite fmap_app, <- app_assoc, Hends, Hl, Hpp, fmap_app. f_equal.
      by rewrite <- list_fmap_compose.
  - rewrite Hd2, Hd, drop_drop. f_equal. pose proof (calls_size_pos calls Hall).
    change (calls_size ((e, nr) :: calls)) with (nr + calls_size calls). lia.
Qed.


(** A request of two bios for sectors 300 to 303. *)
Definition demo_rreq : rreq :=
  mkRreq [demo_rbio (Whole demo_whole) WRITE 300; demo_rbio (Whole demo_whole) WRITE 302]
    2048 300 REQ_TYPE_FS 1 0.

Lemma demo_rbio_wf sector : bio_wf (demo_rbio (Whole demo_whole) WRITE sector).
Proof.
  split; [cbn; lia|done|exact demo_segs_ok| |exact demo_segs_len].
  repeat constructor; unfold vec_small; cbn; lia.
Qed.

Lemma demo_rreq_wf : rq_wf demo_rreq.
Proof.
  split; try done. unfold demo_rreq. cbn [rr_bio]. rewrite !Forall_cons. split_and!; apply demo_rbio_wf || constructor.
Qed.



(** ** Merging *)

(** The sector after a request. *)
Definition rq_end (rq : rreq) : Z := rr_sector rq + rr_data_len rq / 512.

(** What blk-merge.c promises: a merge is proposed only where the sectors adjoin,
    and within the limits of the queue; marking a request as mixed keeps its place
    and its data. *)
Class MergeRules (ll_back ll_front : rreq -> rbio -> bool) (mixed : rreq -> rreq)
    (try_merge : rreq -> rbio -> elv_ret) : Prop := {
  back_adjoins rq b : try_merge rq b = ELEVATOR_BACK_MERGE -> bi_sector (rb_bio b) = rq_end rq;
  front_adjoins rq b : try_merge rq b = ELEVATOR_FRONT_MERGE -> bio_end b = rr_sector rq;
  back_limit rq b : ll_back rq b = true -> rr_data_len rq + bi_size (rb_bio b) < 2 ^ 31;
  front_limit rq b : ll_front rq b = true -> rr_data_len rq + bi_size (rb_bio b) < 2 ^ 31;
  mixed_keeps rq : rq_wf rq -> rq_wf (mixed rq) /\ rr_sector (mixed rq) = rr_sector rq /\
                   rr_data_len (mixed rq) = rr_data_len rq /\
                   bios_data (rr_bio (mixed rq)) = bios_data (rr_bio rq)
}.

Lemma chained_snoc s l b :
  Forall bio_wf l -> chained s l -> bi_sector (rb_bio b) = s + bios_size l / 512 -> chained s (l ++ [b]).
Proof.
  intros Hwf. revert s. induction Hwf as [|c l Hc Hl IH]; intros s Hch Hb; cbn in *.
  - change (0 / 512) with 0 in Hb. split; [lia|done].
  - destruct Hch as [Hs Hch]. split; [done|]. apply IH; [done|].
    rewrite whole_add in Hb by (apply Hc || by apply bios_size_whole). lia.
Qed.

Section MergeThm.
Context {ll_back ll_front : rreq -> rbio -> bool} {mixed : rreq -> rreq}
        {merge_ok : rreq -> rbio -> bool} {try_merge : rreq -> rbio -> elv_ret}
        `{!MergeRules ll_back ll_front mixed try_merge}.

(** [rq'] is [rq] with [b] in front or behind. *)
Definition grown (rq : rreq) (b : rbio) (rq' : rreq) : Prop :=
  rq_wf rq' /\ rr_data_len rq' = rr_data_len rq + bi_size (rb_bio b) /\
  (rr_sector rq' = rr_sector rq /\
   bios_data (rr_bio rq') = bios_data (rr_bio rq) ++ segs_data (bi_segs (rb_bio b)) \/
   rr_sector rq' = bi_sector (rb_bio b) /\
   bios_data (rr_bio rq') = segs_data (bi_segs (rb_bio b)) ++ bios_data (rr_bio rq)).

(** The bio is for sectors the block layer can address. *)
Definition bio_placed (b : rbio) : Prop := 0 <= bi_sector (rb_bio b) /\ bio_end b < 2 ^ 62.

Lemma maybe_mixed rq (c : bool) :
  rq_wf rq -> let rq1 := if c then mixed rq else rq in
  rq_wf rq1 /\ rr_sector rq1 = rr_sector rq /\ rr_data_len rq1 = rr_data_len rq /\
  bios_data (rr_bio rq1) = bios_data (rr_bio rq).
Proof. intros Hwf. destruct c; [by apply mixed_keeps|done]. Qed.

Lemma back_merge_grows rq b rq' :
  rq_wf rq -> bio_wf b -> bio_placed b -> bi_sector (rb_bio b) = rq_end rq ->
  bio_attempt_back_merge ll_back mixed rq b = Some rq' -> grown rq b rq'.
Proof.
  intros Hwf Hb Hp He. unfold bio_attempt_back_merge. destruct (ll_back rq b) eqn:El; [|done].
  cbn [negb]. apply back_limit in El. destruct (maybe_mixed rq (negb (Z.land (rr_cmd_flags rq) REQ_FAILFAST_MASK
    =? Z.land (bi_rw (rb_bio b)) REQ_FAILFAST_MASK)) Hwf) as (H1 & Es & El1 & Ed).
  set (rq1 := if negb _ then _ else _) in *.
  intros [= <-]. pose proof (wf_size b Hb). destruct H1 as [Hbs Hc Hlen Hsh Hpos Hfs Hfl].
  pose proof (bios_size_pos _ Hbs). unfold bio_placed, bio_end, rq_end in *.
  rewrite u32_small by lia. split; [|split; [cbn; lia|left]].
  - split; cbn [rr_bio rr_data_len rr_sector rr_cmd_type rr_cmd_flags]; try done; try lia.
    + by rewrite Forall_app, Forall_cons.
    + apply chained_snoc; [done|done|]. rewrite <- Hlen, El1, Es. lia.
    + rewrite bios_size_app. cbn. lia.
    + rewrite whole_add by (apply Hb || rewrite Hlen; by apply bios_size_whole). rewrite El1 in *; lia.
  - cbn [rr_sector rr_bio]. split; [done|]. rewrite bios_data_app, Ed. f_equal. unfold bios_data. cbn.
    by rewrite app_nil_r.
Qed.

Lemma front_merge_grows rq b rq' :
  rq_wf rq -> bio_wf b -> bio_placed b -> bio_end b = rr_sector rq ->
  bio_attempt_front_merge ll_front mixed rq b = Some rq' -> grown rq b rq'.
Proof.
  intros Hwf Hb Hp He. unfold bio_attempt_front_merge. destruct (ll_front rq b) eqn:El; [|done].
  cbn [negb]. apply front_limit in El. destruct (maybe_mixed rq (negb (Z.land (rr_cmd_flags rq) REQ_FAILFAST_MASK
    =? Z.land (bi_rw (rb_bio b)) REQ_FAILFAST_MASK)) Hwf) as (H1 & Es & El1 & Ed).
  set (rq1 := if negb _ then _ else _) in *.
  intros [= <-]. pose proof (wf_size b Hb). destruct H1 as [Hbs Hc Hlen Hsh Hpos Hfs Hfl].
  pose proof (bios_size_pos _ Hbs). unfold bio_placed, bio_end, rq_end in *.
  rewrite u32_small by lia. split; [|split; [cbn; lia|right]].
  - split; cbn [rr_bio rr_data_len rr_sector rr_cmd_type rr_cmd_flags]; try done; try lia.
    + by constructor.
    + cbn. rewrite He, <- Es. done.
    + cbn. lia.
    + rewrite whole_add by (apply Hb || rewrite Hlen; by apply bios_size_whole). lia.
  - cbn [rr_sector rr_bio]. split; [done|].
    change (segs_data (bi_segs (rb_bio b)) ++ bios_data (rr_bio rq1) = segs_data (bi_segs (rb_bio b)) ++ bios_data (rr_bio rq)).
    by rewrite Ed.
Qed.

(** The walk changes at most one request, one of the bio's queue, and only by the
    bio. *)
Lemma plug_walk_sound l b : forall count,
  Forall (fun x => rq_wf (snd x)) l -> bio_wf b -> bio_placed b ->
  let '(ret, n, l') := plug_walk ll_back ll_front mixed merge_ok try_merge l b count in
  if ret then exists l1 rq l2 rq', l = l1 ++ (true, rq) :: l2 /\ l' = l1 ++ (true, rq') :: l2 /\ grown rq b rq'
  else l' = l.
Proof.
  induction l as [|[mine rq] l IH]; intros count Hall Hb Hp; cbn [plug_walk]; [done|].
  apply Forall_cons in Hall as [Hwf Hall]. cbn [snd] in Hwf.
  set (cnt := if mine then count + 1 else count). specialize (IH cnt Hall Hb Hp).
  destruct (plug_walk ll_back ll_front mixed merge_ok try_merge l b cnt) as [[ret n] l'].
  assert (if ret then exists l1 rq0 l2 rq', (mine, rq) :: l = l1 ++ (true, rq0) :: l2 /\
            (mine, rq) :: l' = l1 ++ (true, rq') :: l2 /\ grown rq0 b rq'
          else (mine, rq) :: l' = (mine, rq) :: l) as Hskip.
  { destruct ret; [|by subst]. destruct IH as (l1 & rq0 & l2 & rq' & -> & -> & Hg).
    by exists ((mine, rq) :: l1), rq0, l2, rq'. }
  destruct mine; cbn [negb orb]; [|done]. destruct (merge_ok rq b); cbn [negb]; [|done].
  set (merged := match try_merge rq b with ELEVATOR_NO_MERGE => None
    | ELEVATOR_FRONT_MERGE => bio_attempt_front_merge ll_front mixed rq b
    | ELEVATOR_BACK_MERGE => bio_attempt_back_merge ll_back mixed rq b end).
  assert (forall rq', merged = Some rq' -> grown rq b rq') as Hg.
  { intros rq'. subst merged. destruct (try_merge rq b) eqn:Et; [done| |].
    - eapply front_merge_grows; try done. by apply front_adjoins.
    - eapply back_merge_grows; try done. by apply back_adjoins. }
  destruct merged as [rq'|]; [|done]. exists [], rq, l, rq'. split_and!; try done. by apply Hg.
Qed.
End MergeThm.

(** merging a bio into the plug keeps every plugged request a request over
    consecutive sectors.  When [attempt_plug_merge] says it has merged, exactly one
    request has changed, one of the bio's own queue: it has grown by the bio's
    sectors and data, in front or behind; otherwise the plug is as it was. *)
Theorem plug_merge_sound (ll_back ll_front merge_ok : rreq -> rbio -> bool) (mixed : rreq -> rreq)
    (try_merge : rreq -> rbio -> elv_ret) (l : list (bool * rreq)) (b : rbio) (count : Z) :
  MergeRules ll_back ll_front mixed try_merge ->
  Forall (fun x => rq_wf (snd x)) l -> bio_wf b -> bio_placed b ->
  exists ret n l',
    attempt_plug_merge ll_back ll_front mixed merge_ok try_merge (Some l) b count = (ret, n, Some l') /\
    Forall (fun x => rq_wf (snd x)) l' /\
    (ret = false -> l' = l) /\
    (ret = true -> exists l1 rq l2 rq',
       l = l1 ++ (true, rq) :: l2 /\ l' = l1 ++ (true, rq') :: l2 /\ grown rq b rq').
Proof.
  intros HM Hall Hb Hp. cbn [attempt_plug_merge].
  pose proof (plug_walk_sound (merge_ok := merge_ok) (reverse l) b 0 ltac:(by rewrite Forall_reverse) Hb Hp) as Hw.
  destruct (plug_walk _ _ _ _ _ (reverse l) b 0) as [[ret n] l']. exists ret, n, (reverse l').
  split; [done|]. destruct ret.
  - destruct Hw as (l1 & rq & l2 & rq' & Hl & -> & Hg).
    assert (l = reverse l2 ++ (true, rq) :: reverse l1) as ->.
    { rewrite <- (reverse_involutive l), Hl, reverse_app, reverse_cons, <- app_assoc. done. }
    rewrite reverse_app, reverse_cons, <- app_assoc. cbn [app].
    rewrite Forall_app, Forall_cons in Hall. rewrite Forall_app, Forall_cons.
    split_and!; try tauto; [apply Hg|done|]. intros _. by exists (reverse l2), rq, (reverse l1), rq'.
  - subst l'. rewrite reverse_involutive. done.
Qed.

(** A request starts out as one bio. *)
Lemma land_flush_seq_masked rw m : Z.testbit m 27 = false -> Z.testbit (Z.land rw m) 27 = false.
Proof. intros Hm. by rewrite Z.land_spec, Hm, andb_false_r. Qed.

Lemma has_flush_seq flags : has_flag flags REQ_FLUSH_SEQ = Z.testbit flags 27.
Proof.
  unfold has_flag. change REQ_FLUSH_SEQ with (2 ^ 27).
  assert (Z.land flags (2 ^ 27) = if Z.testbit flags 27 then 2 ^ 27 else 0) as ->.
  { apply Z.bits_inj'. intros i Hi. rewrite Z.land_spec, Z.pow2_bits_eqb by lia.
    destruct (Z.eqb_spec 27 i) as [<-|Hne].
    - destruct (Z.testbit flags 27); by rewrite ?Z.pow2_bits_true, ?Z.bits_0.
    - rewrite andb_false_r. destruct (Z.testbit flags 27); rewrite ?Z.bits_0, ?Z.pow2_bits_false by lia; done. }
  by destruct (Z.testbit flags 27).
Qed.

Lemma init_request_wf rq b :
  bio_wf b -> bio_placed b -> has_flag (rr_cmd_flags rq) REQ_FLUSH_SEQ = false ->
  rq_wf (init_request_from_bio rq b) /\
  bios_data (rr_bio (init_request_from_bio rq b)) = segs_data (bi_segs (rb_bio b)).
Proof.
  intros Hb [Hp He] Hfl. pose proof (wf_size b Hb). unfold bio_end in He. split.
  - split; cbn [init_request_from_bio blk_rq_bio_prep rr_bio rr_data_len rr_sector rr_cmd_type rr_cmd_flags];
      try done; try lia.
    + by apply Forall_singleton.
    + cbn. lia.
    + rewrite has_flush_seq in *. rewrite Z.lor_spec, land_flush_seq_masked by done.
      destruct (has_flag _ REQ_RAHEAD); rewrite !Z.lor_spec, ?land_flush_seq_masked, Hfl by done; done.
  - unfold bios_data. cbn. apply app_nil_r.
Qed.

(** Sectors that adjoin, in queues without limits of their own. *)
Definition adjoin (rq : rreq) (b : rbio) : elv_ret :=
  if bi_sector (rb_bio b) =? rq_end rq then ELEVATOR_BACK_MERGE
  else if bio_end b =? rr_sector rq then ELEVATOR_FRONT_MERGE else ELEVATOR_NO_MERGE.
Definition short (rq : rreq) (b : rbio) : bool := rr_data_len rq + bi_size (rb_bio b) <? 2 ^ 31.

#[export] Instance adjoin_rules : MergeRules short short id adjoin.
Proof.
  split; unfold adjoin, short; intros rq b; try (intros ?; by apply Z.ltb_lt); try done.
  - destruct (Z.eqb_spec (bi_sector (rb_bio b)) (rq_end rq)); [done|by destruct (_ =? _)].
  - destruct (_ =? rq_end rq); [done|]. by destruct (Z.eqb_spec (bio_end b) (rr_sector rq)).
Qed.

Lemma plug_merge_sound_witness :
  exists l', attempt_plug_merge short short id (fun _ _ => true) adjoin (Some [(true, demo_rreq)])
               (demo_rbio (Whole demo_whole) WRITE 304) 0 = (true, 1, Some l') /\
             Forall (fun x => rq_wf (snd x)) l'.
Proof.
  destruct (plug_merge_sound short short (fun _ _ => true) id adjoin [(true, demo_rreq)]
    (demo_rbio (Whole demo_whole) WRITE 304) 0 adjoin_rules) as (ret & n & l' & E & Hl & _).
  - constructor; [exact demo_rreq_wf|constructor].
  - apply demo_rbio_wf.
  - split; [cbn; lia|vm_compute; reflexivity].
  - exists l'. split; [|exact Hl]. rewrite E. cbn in E. injection E as <- <- _. reflexivity.
Defined.
