(* ===== verification/BlkRl.v ===== *)
(** * block/blk-core.c: how many requests a queue may have

    A request list counts the requests taken from it in each direction.  A task that
    finds the list full sleeps until one is given back; a queue close to full is
    marked congested.  [__get_request] drops the queue lock while it allocates, so
    taking a request is two locked sections with other tasks in between; [rl_step] is
    the step relation of all tasks that take and give back requests.  Results, for
    every interleaving: the counters are the numbers of requests out, the limits
    hold, full and congested mean what they say, no wake-up is lost, and draining a
    queue leaves no request the elevator knows. *)

From stdpp Require Import base list relations functions.
From Stdlib Require Import ZArith Lia.
From S2P Require Import Prelude Kapi.

Local Open Scope Z_scope.

(** ** State *)

(** One direction of a request list; [rl_wait] counts the tasks asleep on the wait
    queue and [rl_woken] those woken that have not tried again yet. *)
Record rl_dir := mkDir {
  rl_count : Z;
  rl_starved : bool;
  rl_full : bool;
  rl_wait : Z;
  rl_woken : Z
}.

Record request_list := mkRl { rl_async : rl_dir; rl_sync : rl_dir }.

Definition rl_dir_of (sync : bool) (rl : request_list) : rl_dir := if sync then rl_sync rl else rl_async rl.
Definition rl_upd (sync : bool) (f : rl_dir -> rl_dir) (rl : request_list) : request_list :=
  if sync then mkRl (rl_async rl) (f (rl_sync rl)) else mkRl (f (rl_async rl)) (rl_sync rl).

Record io_context := mkIoc { nr_batch_requests : Z; last_waited : Z }.

(** Two counters, async and sync. *)
Record two (A : Type) := mkTwo { for_async : A; for_sync : A }.
Arguments mkTwo {A} _ _.
Arguments for_async {A} _.
Arguments for_sync {A} _.
Definition of_dir {A} (sync : bool) (x : two A) : A := if sync then for_sync x else for_async x.
Definition upd_dir {A} (sync : bool) (f : A -> A) (x : two A) : two A :=
  if sync then mkTwo (for_async x) (f (for_sync x)) else mkTwo (f (for_async x)) (for_sync x).

(** The part of [struct request_queue] these functions use.  Request list 0 is
    [root_rl], the others belong to control groups. *)
Record rqueue := mkRqueue {
  nr_requests : Z;
  nr_congestion_on : Z;
  nr_congestion_off : Z;
  nr_batching : Z;
  q_dying : bool;
  q_bypass : bool;
  bypass_depth : Z;
  q_io_stat : bool;
  q_congested : two bool;
  nr_rqs : two Z;
  nr_rqs_elvpriv : Z;
  q_rl : nat -> request_list
}.

Definition q_with_congested (x : two bool) (q : rqueue) : rqueue :=
  mkRqueue (nr_requests q) (nr_congestion_on q) (nr_congestion_off q) (nr_batching q) (q_dying q) (q_bypass q)
    (bypass_depth q) (q_io_stat q) x (nr_rqs q) (nr_rqs_elvpriv q) (q_rl q).
Definition q_with_nr (x : two Z) (q : rqueue) : rqueue :=
  mkRqueue (nr_requests q) (nr_congestion_on q) (nr_congestion_off q) (nr_batching q) (q_dying q) (q_bypass q)
    (bypass_depth q) (q_io_stat q) (q_congested q) x (nr_rqs_elvpriv q) (q_rl q).
Definition q_with_elvpriv (x : Z) (q : rqueue) : rqueue :=
  mkRqueue (nr_requests q) (nr_congestion_on q) (nr_congestion_off q) (nr_batching q) (q_dying q) (q_bypass q)
    (bypass_depth q) (q_io_stat q) (q_congested q) (nr_rqs q) x (q_rl q).
Definition q_with_rl (x : nat -> request_list) (q : rqueue) : rqueue :=
  mkRqueue (nr_requests q) (nr_congestion_on q) (nr_congestion_off q) (nr_batching q) (q_dying q) (q_bypass q)
    (bypass_depth q) (q_io_stat q) (q_congested q) (nr_rqs q) (nr_rqs_elvpriv q) x.
Definition q_with_bypass (dying bypass : bool) (depth : Z) (q : rqueue) : rqueue :=
  mkRqueue (nr_requests q) (nr_congestion_on q) (nr_congestion_off q) (nr_batching q) dying bypass
    depth (q_io_stat q) (q_congested q) (nr_rqs q) (nr_rqs_elvpriv q) (q_rl q).

Definition dir_at (q : rqueue) (i : nat) (sync : bool) : rl_dir := rl_dir_of sync (q_rl q i).
Definition q_upd_dir (i : nat) (sync : bool) (f : rl_dir -> rl_dir) (q : rqueue) : rqueue :=
  q_with_rl (<[i := rl_upd sync f (q_rl q i)]> (q_rl q)) q.

Definition d_add (n : Z) (d : rl_dir) : rl_dir :=
  mkDir (rl_count d + n) (rl_starved d) (rl_full d) (rl_wait d) (rl_woken d).
Definition d_starve (b : bool) (d : rl_dir) : rl_dir :=
  mkDir (rl_count d) b (rl_full d) (rl_wait d) (rl_woken d).
Definition d_fill (b : bool) (d : rl_dir) : rl_dir :=
  mkDir (rl_count d) (rl_starved d) b (rl_wait d) (rl_woken d).
Definition d_sleep (d : rl_dir) : rl_dir :=
  mkDir (rl_count d) (rl_starved d) (rl_full d) (rl_wait d + 1) (rl_woken d).
Definition d_retry (d : rl_dir) : rl_dir :=
  mkDir (rl_count d) (rl_starved d) (rl_full d) (rl_wait d) (rl_woken d - 1).

(** [wake_up]: the sleepers are exclusive, one of them is woken. *)
Definition wake_up (d : rl_dir) : rl_dir :=
  if 0 <? rl_wait d
  then mkDir (rl_count d) (rl_starved d) (rl_full d) (rl_wait d - 1) (rl_woken d + 1) else d.
Definition wake_up_all (d : rl_dir) : rl_dir :=
  mkDir (rl_count d) (rl_starved d) (rl_full d) 0 (rl_woken d + rl_wait d).

(** ** Code *)

(** include/linux/blkdev.h *)
Definition rw_is_sync (flags : Z) : bool := (Z.land flags REQ_WRITE =? 0) || negb (Z.land flags REQ_SYNC =? 0).
Definition elvpriv (flags : Z) : bool := negb (Z.land flags REQ_ELVPRIV =? 0).

Definition blk_queue_congestion_threshold (q : rqueue) : rqueue :=
  let n := nr_requests q in
  let on := n - n / 8 + 1 in
  let on := if n <? on then n else on in
  let off := n - n / 8 - n / 16 - 1 in
  let off := if off <? 1 then 1 else off in
  mkRqueue n on off (nr_batching q) (q_dying q) (q_bypass q) (bypass_depth q) (q_io_stat q)
    (q_congested q) (nr_rqs q) (nr_rqs_elvpriv q) (q_rl q).

Definition empty_dir : rl_dir := mkDir 0 false false 0 0.
Definition blk_init_rl : request_list := mkRl empty_dir empty_dir.

(** block/blk.h: a time that depends on the tick rate. *)
Section Lists.
Variable BLK_BATCH_TIME : Z.

Definition ioc_batching (q : rqueue) (jiffies : Z) (ioc : option io_context) : bool :=
  match ioc with
  | None => false
  | Some c => (nr_batch_requests c =? nr_batching q)
              || ((0 <? nr_batch_requests c) && (jiffies <? last_waited c + BLK_BATCH_TIME))
  end.

Definition ioc_set_batching (q : rqueue) (jiffies : Z) (ioc : option io_context) : option io_context :=
  match ioc with
  | None => None
  | Some c => if ioc_batching q jiffies ioc then ioc else Some (mkIoc (nr_batching q) jiffies)
  end.

Definition __freed_request (i : nat) (sync : bool) (q : rqueue) : rqueue :=
  let d := dir_at q i sync in
  let q := if (i =? 0)%nat && (rl_count d <? nr_congestion_off q)
           then q_with_congested (upd_dir sync (fun _ => false) (q_congested q)) q else q in
  if rl_count d + 1 <=? nr_requests q
  then q_upd_dir i sync (fun d => d_fill false (wake_up d)) q else q.

Definition freed_request (i : nat) (flags : Z) (q : rqueue) : rqueue :=
  let sync := rw_is_sync flags in
  let q := q_with_nr (upd_dir sync (fun n => n - 1) (nr_rqs q)) q in
  let q := q_upd_dir i sync (d_add (-1)) q in
  let q := if elvpriv flags then q_with_elvpriv (nr_rqs_elvpriv q - 1) q else q in
  let q := __freed_request i sync q in
  if rl_starved (dir_at q i (negb sync)) then __freed_request i (negb sync) q else q.

(** [bi_rw] of the bio a request is for, or no bio. *)
Definition blk_rq_should_init_elevator (bio : option Z) : bool :=
  match bio with
  | None => true
  | Some rw => Z.land rw (Z.lor REQ_FLUSH REQ_FUA) =? 0
  end.

(** What the elevator says of one more request. *)
Inductive elv_mqueue := ELV_MQUEUE_MAY | ELV_MQUEUE_NO | ELV_MQUEUE_MUST.
Global Instance elv_mqueue_eq : EqDecision elv_mqueue.
Proof. solve_decision. Defined.

(** How the first locked section of [__get_request] ends: no request, or the lock is
    dropped to allocate one with these flags. *)
Inductive reserved := RlNone | RlTaken (flags : Z).

Definition rq_starved (i : nat) (sync : bool) (q : rqueue) : rqueue :=
  if rl_count (dir_at q i sync) =? 0 then q_upd_dir i sync (d_starve true) q else q.

(** The queue is marked full and congested when it is about to be; nothing when the
    task must wait. *)
Definition get_request_mark (i : nat) (sync : bool) (may : elv_mqueue) (jiffies : Z) (ioc : option io_context)
    (q : rqueue) : option (rqueue * option io_context) :=
  let d := dir_at q i sync in
  if nr_congestion_on q <=? rl_count d + 1 then
    let congest q := if (i =? 0)%nat then q_with_congested (upd_dir sync (fun _ => true) (q_congested q)) q else q in
    if nr_requests q <=? rl_count d + 1 then
      if negb (rl_full d)
      then Some (congest (q_upd_dir i sync (d_fill true) q), ioc_set_batching q jiffies ioc)
      else if bool_decide (may <> ELV_MQUEUE_MUST) && negb (ioc_batching q jiffies ioc) then None
      else Some (congest q, ioc)
    else Some (congest q, ioc)
  else Some (q, ioc).

(** Up to the first [spin_unlock_irq]. *)
Definition get_request_reserve (i : nat) (rw_flags : Z) (bio : option Z) (may : elv_mqueue) (jiffies : Z)
    (ioc : option io_context) (q : rqueue) : rqueue * option io_context * reserved :=
  let sync := rw_is_sync rw_flags in
  if q_dying q then (q, ioc, RlNone) else
  if bool_decide (may = ELV_MQUEUE_NO) then (rq_starved i sync q, ioc, RlNone) else
  match get_request_mark i sync may jiffies ioc q with
  | None => (q, ioc, RlNone)
  | Some (q, ioc) =>
      if 3 * nr_requests q / 2 <=? rl_count (dir_at q i sync) then (q, ioc, RlNone) else
      let q := q_with_nr (upd_dir sync (fun n => n + 1) (nr_rqs q)) q in
      let q := q_upd_dir i sync (fun d => d_starve false (d_add 1 d)) q in
      let elv := blk_rq_should_init_elevator bio && negb (q_bypass q) in
      let flags := if elv then Z.lor rw_flags REQ_ELVPRIV else rw_flags in
      let q := if elv then q_with_elvpriv (nr_rqs_elvpriv q + 1) q else q in
      let flags := if q_io_stat q then Z.lor flags REQ_IO_STAT else flags in
      (q, ioc, RlTaken flags)
  end.

(** [fail_alloc]: the allocation failed, with the lock taken again. *)
Definition get_request_fail (i : nat) (flags : Z) (q : rqueue) : rqueue :=
  rq_starved i (rw_is_sync flags) (freed_request i flags q).

(** The allocation succeeded; [elv_ok] says whether the elevator's data could be set
    up ([fail_elvpriv] otherwise). *)
Definition get_request_finish (flags : Z) (elv_ok : bool) (jiffies : Z) (ioc : option io_context) (q : rqueue)
    : rqueue * option io_context * Z :=
  let cmd_flags := Z.lor flags REQ_ALLOCED in
  let '(q, cmd_flags) :=
    if elvpriv flags && negb elv_ok
    then (q_with_elvpriv (nr_rqs_elvpriv q - 1) q, Z.ldiff cmd_flags REQ_ELVPRIV) else (q, cmd_flags) in
  let ioc := match ioc with
             | Some c => if ioc_batching q jiffies ioc then Some (mkIoc (nr_batch_requests c - 1) (last_waited c)) else ioc
             | None => None
             end in
  (q, ioc, cmd_flags).

(** [__get_request] when nobody comes in between; [alloc] is the result of
    [mempool_alloc]. *)
Definition __get_request (i : nat) (rw_flags : Z) (bio : option Z) (may : elv_mqueue) (alloc elv_ok : bool)
    (jiffies : Z) (ioc : option io_context) (q : rqueue) : rqueue * option io_context * option Z :=
  match get_request_reserve i rw_flags bio may jiffies ioc q with
  | (q, ioc, RlNone) => (q, ioc, None)
  | (q, ioc, RlTaken flags) =>
      if alloc
      then let '(q, ioc, cmd_flags) := get_request_finish flags elv_ok jiffies ioc q in (q, ioc, Some cmd_flags)
      else (get_request_fail i flags q, ioc, None)
  end.

(** What [get_request] does after a failure, in the same locked section. *)
Definition get_request_wait (i : nat) (sync wait : bool) (q : rqueue) : rqueue :=
  if negb wait || q_dying q then q else q_upd_dir i sync d_sleep q.

(** The last reference to a request of the list is dropped. *)
Definition __blk_put_request (i : nat) (ref_count cmd_flags : Z) (q : rqueue) : rqueue * Z :=
  let ref_count := ref_count - 1 in
  if negb (ref_count =? 0) then (q, ref_count) else
  if negb (Z.land cmd_flags REQ_ALLOCED =? 0) then (freed_request i cmd_flags q, 0) else (q, 0).

(** Entering bypass mode, up to the drain; the result says whether to drain. *)
Definition blk_queue_bypass_enter (q : rqueue) : rqueue * bool :=
  (q_with_bypass (q_dying q) true (bypass_depth q + 1) q, bypass_depth q =? 0).

Definition blk_queue_bypass_end (q : rqueue) : rqueue :=
  let depth := bypass_depth q - 1 in
  q_with_bypass (q_dying q) (if depth =? 0 then false else q_bypass q) depth q.

(** [blk_cleanup_queue] up to the drain. *)
Definition blk_cleanup_mark (q : rqueue) : rqueue := q_with_bypass true true (bypass_depth q + 1) q.

(** The counters of this file that keep a drain waiting; [busy] stands for the
    queues and counters of the elevator, the driver and the flush machinery. *)
Definition drain_pending (busy drain_all : bool) (q : rqueue) : bool :=
  negb (nr_rqs_elvpriv q =? 0) || busy
  || (drain_all && (negb (for_async (nr_rqs q) =? 0) || negb (for_sync (nr_rqs q) =? 0))).

(** The end of [__blk_drain_queue]: everybody is woken. *)
Definition drain_wake (q : rqueue) : rqueue :=
  q_with_rl (fun i => rl_upd true wake_up_all (rl_upd false wake_up_all (q_rl q i))) q.

(** ** All tasks together *)

(** A request out of list [tk_rl]: being allocated, or handed out. *)
Record taken := mkTaken { tk_rl : nat; tk_flags : Z; tk_alloced : bool }.

Record rlm := mkRlm { m_queue : rqueue; m_out : list taken }.

(** The flags the callers of [get_request] ask with: a direction, and [REQ_SYNC]. *)
Definition rw_flags_ok (rw : Z) : Prop := In rw [0; REQ_WRITE; REQ_SYNC; Z.lor REQ_WRITE REQ_SYNC].

(** A task tries for the first time, or after it was woken. *)
Inductive tries (i : nat) (sync : bool) : rqueue -> rqueue -> Prop :=
  | try_first q : tries i sync q q
  | try_again q : 0 < rl_woken (dir_at q i sync) -> tries i sync q (q_upd_dir i sync d_retry q).

Inductive rl_step : rlm -> rlm -> Prop :=
  | step_reserve i rw bio may j ioc ioc' q q0 q1 out flags :
      rw_flags_ok rw -> tries i (rw_is_sync rw) q q0 ->
      get_request_reserve i rw bio may j ioc q0 = (q1, ioc', RlTaken flags) ->
      rl_step (mkRlm q out) (mkRlm q1 (mkTaken i flags false :: out))
  | step_refused i rw bio may j ioc ioc' q q0 q1 out wait :
      rw_flags_ok rw -> tries i (rw_is_sync rw) q q0 ->
      get_request_reserve i rw bio may j ioc q0 = (q1, ioc', RlNone) ->
      rl_step (mkRlm q out) (mkRlm (get_request_wait i (rw_is_sync rw) wait q1) out)
  | step_alloc_fail i flags q out1 out2 wait :
      rl_step (mkRlm q (out1 ++ mkTaken i flags false :: out2))
              (mkRlm (get_request_wait i (rw_is_sync flags) wait (get_request_fail i flags q)) (out1 ++ out2))
  | step_alloc_ok i flags elv_ok j ioc ioc' cmd_flags q q1 out1 out2 :
      get_request_finish flags elv_ok j ioc q = (q1, ioc', cmd_flags) ->
      rl_step (mkRlm q (out1 ++ mkTaken i flags false :: out2))
              (mkRlm q1 (out1 ++ mkTaken i cmd_flags true :: out2))
  | step_set_flags i flags flags' q out1 out2 :
      rw_is_sync flags' = rw_is_sync flags -> elvpriv flags' = elvpriv flags ->
      Z.land flags' REQ_ALLOCED = Z.land flags REQ_ALLOCED ->
      rl_step (mkRlm q (out1 ++ mkTaken i flags true :: out2))
              (mkRlm q (out1 ++ mkTaken i flags' true :: out2))
  | step_put i flags q q1 out1 out2 :
      __blk_put_request i 1 flags q = (q1, 0) ->
      rl_step (mkRlm q (out1 ++ mkTaken i flags true :: out2)) (mkRlm q1 (out1 ++ out2))
  | step_bypass_enter q out :
      rl_step (mkRlm q out) (mkRlm (fst (blk_queue_bypass_enter q)) out)
  | step_bypass_end q out :
      (if q_dying q then 1 else 0) < bypass_depth q ->
      rl_step (mkRlm q out) (mkRlm (blk_queue_bypass_end q) out)
  | step_cleanup q out :
      q_dying q = false -> rl_step (mkRlm q out) (mkRlm (blk_cleanup_mark q) out)
  | step_drained busy drain_all q out :
      drain_pending busy drain_all q = false -> rl_step (mkRlm q out) (mkRlm (drain_wake q) out).

(** A queue right after [blk_init_allocated_queue], with [nr] requests per list. *)
Definition new_queue (nr batching : Z) (io_stat : bool) : rqueue :=
  blk_queue_congestion_threshold
    (mkRqueue nr 0 0 batching false false 0 io_stat (mkTwo false false) (mkTwo 0 0) 0 (fun _ => blk_init_rl)).

(** ** What one locked section does to one direction *)

Lemma dir_at_upd i sync f q j t :
  dir_at (q_upd_dir i sync f q) j t
  = if bool_decide (j = i /\ t = sync) then f (dir_at q i sync) else dir_at q j t.
Proof.
  unfold dir_at, q_upd_dir, q_with_rl. cbn [q_rl].
  destruct (decide (j = i)) as [->|Hj].
  - rewrite fn_lookup_insert. unfold rl_upd, rl_dir_of.
    destruct t, sync; case_bool_decide as Hb; done || by destruct Hb.
  - rewrite fn_lookup_insert_ne by done. rewrite bool_decide_eq_false_2 by tauto. done.
Qed.

Lemma of_upd_dir {A} sync (f : A -> A) x t :
  of_dir t (upd_dir sync f x) = if bool_decide (t = sync) then f (of_dir sync x) else of_dir t x.
Proof. by destruct t, sync. Qed.

(** [__freed_request] on the direction it is called for. *)
Definition release (nr : Z) (d : rl_dir) : rl_dir :=
  if rl_count d + 1 <=? nr then d_fill false (wake_up d) else d.

Lemma freed_dir i sync q j t :
  dir_at (__freed_request i sync q) j t
  = if bool_decide (j = i /\ t = sync) then release (nr_requests q) (dir_at q i sync) else dir_at q j t.
Proof.
  unfold __freed_request, release. cbv zeta.
  destruct (_ && _); cbn [nr_requests q_with_congested]; (destruct (_ <=? _); [by rewrite dir_at_upd|]);
    (case_bool_decide as Hb; [by destruct Hb; subst|done]).
Qed.

Lemma freed_congested i sync q t :
  of_dir t (q_congested (__freed_request i sync q))
  = if bool_decide (t = sync) && ((i =? 0)%nat && (rl_count (dir_at q i sync) <? nr_congestion_off q)) then false
    else of_dir t (q_congested q).
Proof.
  unfold __freed_request. cbv zeta.
  destruct (_ && (_ <? _)); (destruct (_ <=? _)); cbn [q_congested q_with_congested q_upd_dir q_with_rl];
    rewrite ?of_upd_dir; by case_bool_decide.
Qed.

(** What [__freed_request] leaves alone. *)
Lemma freed_rest i sync q :
  nr_requests (__freed_request i sync q) = nr_requests q /\
  nr_congestion_on (__freed_request i sync q) = nr_congestion_on q /\
  nr_congestion_off (__freed_request i sync q) = nr_congestion_off q /\
  nr_rqs (__freed_request i sync q) = nr_rqs q /\
  nr_rqs_elvpriv (__freed_request i sync q) = nr_rqs_elvpriv q /\
  q_dying (__freed_request i sync q) = q_dying q /\
  q_bypass (__freed_request i sync q) = q_bypass q /\
  bypass_depth (__freed_request i sync q) = bypass_depth q.
Proof. unfold __freed_request. cbv zeta. destruct (_ && _), (_ <=? _); done. Qed.

(** ** The invariant *)

Definition zcount (P : taken -> bool) (l : list taken) : Z := zlen (List.filter P l).

Lemma zcount_cons P x l : zcount P (x :: l) = (if P x then 1 else 0) + zcount P l.
Proof. unfold zcount, zlen. cbn. destruct (P x); cbn [length]; lia. Qed.
Lemma zcount_mid P x l1 l2 : zcount P (l1 ++ x :: l2) = (if P x then 1 else 0) + zcount P (l1 ++ l2).
Proof.
  induction l1 as [|y l1 IH]; cbn [app]; [apply zcount_cons|]. rewrite !zcount_cons, IH. lia.
Qed.
Lemma zcount_nonneg P l : 0 <= zcount P l.
Proof. apply zlen_nonneg. Qed.
Lemma zcount_le P Q l : (forall x, P x = true -> Q x = true) -> zcount P l <= zcount Q l.
Proof.
  intros HPQ. induction l as [|x l IH]; [done|]. rewrite !zcount_cons. specialize (HPQ x).
  destruct (P x); [rewrite HPQ by done|destruct (Q x)]; lia.
Qed.

Definition is_at (i : nat) (sync : bool) (x : taken) : bool :=
  (tk_rl x =? i)%nat && Bool.eqb (rw_is_sync (tk_flags x)) sync.
Definition is_dir (sync : bool) (x : taken) : bool := Bool.eqb (rw_is_sync (tk_flags x)) sync.
Definition is_elv (x : taken) : bool := elvpriv (tk_flags x).

(** One direction of one list, with [n] of its requests out. *)
Record dir_ok (nr n : Z) (live : bool) (d : rl_dir) : Prop := {
  dir_count : rl_count d = n;
  dir_limit : rl_count d <= 3 * nr / 2;
  dir_full : rl_full d = true <-> nr <= rl_count d;
  dir_wait : 0 <= rl_wait d;
  dir_woken : 0 <= rl_woken d;
  dir_live : live = true -> 0 < rl_wait d -> 0 < rl_count d \/ rl_starved d = true \/ 0 < rl_woken d
}.

(** The congestion mark of the root list, with [n] requests out. *)
Record mark_ok (on off n : Z) (congested : bool) : Prop := {
  mark_on : on <= n -> congested = true;
  mark_off : congested = true -> off <= n
}.

(** [woke] are the directions in which a woken task is trying right now. *)
Record rl_inv (woke : nat -> bool -> bool) (m : rlm) : Prop := {
  inv_limits : 1 <= nr_congestion_off (m_queue m) <= nr_congestion_on (m_queue m)
               /\ nr_congestion_on (m_queue m) <= nr_requests (m_queue m);
  inv_dirs : forall i sync, dir_ok (nr_requests (m_queue m)) (zcount (is_at i sync) (m_out m))
                              (negb (q_dying (m_queue m)) && negb (woke i sync)) (dir_at (m_queue m) i sync);
  inv_marks : forall sync, mark_ok (nr_congestion_on (m_queue m)) (nr_congestion_off (m_queue m))
                             (zcount (is_at 0 sync) (m_out m)) (of_dir sync (q_congested (m_queue m)));
  inv_nr : forall sync, of_dir sync (nr_rqs (m_queue m)) = zcount (is_dir sync) (m_out m);
  inv_elv : nr_rqs_elvpriv (m_queue m) = zcount is_elv (m_out m);
  inv_bypass : q_bypass (m_queue m) = true <-> 0 < bypass_depth (m_queue m);
  inv_depth : 0 <= bypass_depth (m_queue m);
  inv_dying : q_dying (m_queue m) = true -> 0 < bypass_depth (m_queue m);
  inv_alloced : Forall (fun x => tk_alloced x = true -> Z.land (tk_flags x) REQ_ALLOCED <> 0) (m_out m)
}.

Definition nobody (i : nat) (sync : bool) : bool := false.
Definition only (i : nat) (sync : bool) (j : nat) (t : bool) : bool := bool_decide (j = i /\ t = sync).

(** ** Flags *)

Lemma land_bit x k : 0 <= k -> negb (Z.land x (Z.shiftl 1 k) =? 0) = Z.testbit x k.
Proof.
  intros Hk. rewrite Z.shiftl_1_l. destruct (Z.testbit x k) eqn:E.
  - destruct (Z.eqb_spec (Z.land x (2 ^ k)) 0) as [H0|]; [|done]. exfalso.
    assert (Z.testbit (Z.land x (2 ^ k)) k = false) as H1 by (rewrite H0; apply Z.bits_0).
    by rewrite Z.land_spec, E, Z.pow2_bits_true in H1 by done.
  - rewrite negb_false_iff, Z.eqb_eq. apply Z.bits_inj'. intros n Hn.
    rewrite Z.land_spec, Z.bits_0. destruct (Z.eq_dec n k) as [->|]; [by rewrite E|].
    by rewrite Z.pow2_bits_false, andb_false_r.
Qed.

Lemma rw_is_sync_bits x : rw_is_sync x = negb (Z.testbit x 0) || Z.testbit x 4.
Proof.
  unfold rw_is_sync, REQ_SYNC. rewrite land_bit by done. f_equal.
  rewrite <- (land_bit x 0) by done. by rewrite negb_involutive.
Qed.
Lemma elvpriv_bits x : elvpriv x = Z.testbit x 21.
Proof. by apply land_bit. Qed.

(** A flag outside the direction leaves the direction. *)
Lemma rw_is_sync_lor x f : Z.testbit f 0 = false -> Z.testbit f 4 = false -> rw_is_sync (Z.lor x f) = rw_is_sync x.
Proof. intros H0 H4. by rewrite !rw_is_sync_bits, !Z.lor_spec, H0, H4, !orb_false_r. Qed.
Lemma rw_is_sync_ldiff x f :
  Z.testbit f 0 = false -> Z.testbit f 4 = false -> rw_is_sync (Z.ldiff x f) = rw_is_sync x.
Proof. intros H0 H4. by rewrite !rw_is_sync_bits, !Z.ldiff_spec, H0, H4, !andb_true_r. Qed.
Lemma elvpriv_lor x f : elvpriv (Z.lor x f) = elvpriv x || Z.testbit f 21.
Proof. by rewrite !elvpriv_bits, Z.lor_spec. Qed.

Lemma rw_flags_no_elv rw : rw_flags_ok rw -> elvpriv rw = false.
Proof.
  by intros [<-|[<-|[<-|[<-|[]]]]].
Qed.

(** ** Each section keeps one direction in order *)

Lemma wake_up_count d : rl_count (wake_up d) = rl_count d.
Proof. unfold wake_up. by destruct (_ <? _). Qed.

Lemma release_ok nr n live d : 1 <= nr -> dir_ok nr n live d -> dir_ok nr n live (release nr d).
Proof.
  intros Hnr [H1 H2 H3 H4 H5 H6]. unfold release. destruct (Z.leb_spec (rl_count d + 1) nr); [|done].
  unfold wake_up. destruct (Z.ltb_spec 0 (rl_wait d)); split; cbn; done || lia.
Qed.

(** A request given back. *)
Lemma release_drop nr n live d :
  1 <= nr -> 0 < n -> dir_ok nr n live d -> dir_ok nr (n - 1) live (release nr (d_add (-1) d)).
Proof.
  intros Hnr Hn [H1 H2 H3 H4 H5 H6]. unfold release. cbn [rl_count d_add].
  destruct (Z.leb_spec (rl_count d + -1 + 1) nr).
  - unfold wake_up. cbn [rl_wait d_add]. destruct (Z.ltb_spec 0 (rl_wait d)); split; cbn; done || lia.
  - split; cbn; done || lia || (rewrite H3; lia).
Qed.

Lemma dir_restore nr n live live' d :
  dir_ok nr n live d -> (live' = true -> 0 < rl_count d \/ rl_starved d = true) -> dir_ok nr n live' d.
Proof. intros [H1 H2 H3 H4 H5 H6] Hl. split; try done. intros Ht _. destruct (Hl Ht); auto. Qed.

Lemma dir_weaken nr n live live' d : dir_ok nr n live d -> (live' = true -> live = true) -> dir_ok nr n live' d.
Proof. intros [H1 H2 H3 H4 H5 H6] Hl. split; auto. Qed.

Lemma starve_ok nr n live d : dir_ok nr n live d -> dir_ok nr n live (d_starve true d).
Proof. intros [H1 H2 H3 H4 H5 H6]. split; cbn; auto. Qed.

Lemma sleep_ok nr n live d :
  dir_ok nr n live d -> (live = true -> 0 < rl_count d \/ rl_starved d = true) -> dir_ok nr n live (d_sleep d).
Proof.
  intros [H1 H2 H3 H4 H5 H6] Hl. split; cbn; try done; try lia. intros Ht _. destruct (Hl Ht); auto.
Qed.

Lemma retry_ok nr n live d : dir_ok nr n live d -> 0 < rl_woken d -> dir_ok nr n false (d_retry d).
Proof. intros [H1 H2 H3 H4 H5 H6] Hw. split; cbn; done || lia. Qed.

Lemma fill_ok nr n live d : 0 <= n -> dir_ok nr n live d -> nr <= rl_count d + 1 -> rl_count d < 3 * nr / 2 ->
  dir_ok nr (n + 1) true (d_starve false (d_add 1 (d_fill true d))).
Proof.
  intros Hn [H1 H2 H3 H4 H5 H6] Hf Hl. split; cbn; try done; lia.
Qed.

Lemma take_ok nr n live d : 0 <= n -> dir_ok nr n live d -> (rl_full d = true \/ rl_count d + 1 < nr) ->
  rl_count d < 3 * nr / 2 -> dir_ok nr (n + 1) true (d_starve false (d_add 1 d)).
Proof.
  intros Hn [H1 H2 H3 H4 H5 H6] Hf Hl. split; cbn; try done; try lia.
  destruct Hf as [E|]; [|split; [intros E; apply H3 in E; lia|lia]]. pose proof (proj1 H3 E). rewrite E. lia.
Qed.

Lemma mark_release on off n c : off <= on -> mark_ok on off n c -> mark_ok on off n (if n <? off then false else c).
Proof. intros Ho [H1 H2]. destruct (Z.ltb_spec n off); split; auto; done || lia. Qed.

Lemma mark_drop on off n c :
  off <= on -> mark_ok on off n c -> mark_ok on off (n - 1) (if n - 1 <? off then false else c).
Proof.
  intros Ho [H1 H2]. destruct (Z.ltb_spec (n - 1) off); split; done || lia || (intros; apply H1; lia).
Qed.

Lemma mark_set on off n : off <= on -> on <= n \/ off <= n -> mark_ok on off n true.
Proof. intros Ho Hn. split; done || lia. Qed.

Lemma mark_same on off n n' c : mark_ok on off n c -> n' <= n \/ n' < on -> n <= n' \/ off <= n' -> mark_ok on off n' c.
Proof. intros [H1 H2] Ha Hb. split; [intros; apply H1; lia|intros Hc; specialize (H2 Hc); lia]. Qed.

(** ** Giving a request back *)

Lemma freed_request_dir i flags q j t :
  let s := rw_is_sync flags in
  dir_at (freed_request i flags q) j t
  = if bool_decide (j = i /\ t = s) then release (nr_requests q) (d_add (-1) (dir_at q i s))
    else if bool_decide (j = i /\ t = negb s) && rl_starved (dir_at q i (negb s))
         then release (nr_requests q) (dir_at q i t) else dir_at q j t.
Proof.
  intros s. unfold freed_request. fold s. cbv zeta.
  set (q1 := q_upd_dir i s (d_add (-1)) (q_with_nr _ q)).
  set (q2 := if elvpriv flags then _ else _).
  assert (forall j t, dir_at q2 j t = dir_at q1 j t) as Hq2 by (intros; subst q2; by destruct (elvpriv flags)).
  assert (nr_requests q2 = nr_requests q) as Hnr by (subst q2; by destruct (elvpriv flags)).
  assert (forall j t, dir_at q1 j t = if bool_decide (j = i /\ t = s) then d_add (-1) (dir_at q i s) else dir_at q j t)
    as Hq1 by (intros; subst q1; by rewrite dir_at_upd).
  assert (forall b, bool_decide (i = i /\ negb b = b) = false) as Hne
    by (intros b; apply bool_decide_eq_false_2; intros [_ E]; by destruct b).
  rewrite !freed_dir, Hne, !Hq2, !Hq1, Hne.
  destruct (freed_rest i s q2) as (Hr & _).
  destruct (rl_starved (dir_at q i (negb s))).
  - rewrite !freed_dir, Hr, Hnr, !Hq2, !Hq1, !Hne. rewrite !(bool_decide_eq_true_2 (i = i /\ s = s)) by done.
    repeat case_bool_decide; try done; destruct_and?; subst; try done; by destruct s.
  - rewrite andb_false_r, freed_dir, Hnr, !Hq2, !Hq1. rewrite !(bool_decide_eq_true_2 (i = i /\ s = s)) by done.
    by repeat case_bool_decide.
Qed.

Lemma freed_request_rest i flags q :
  let q' := freed_request i flags q in
  nr_requests q' = nr_requests q /\ nr_congestion_on q' = nr_congestion_on q /\
  nr_congestion_off q' = nr_congestion_off q /\
  nr_rqs q' = upd_dir (rw_is_sync flags) (fun n => n - 1) (nr_rqs q) /\
  nr_rqs_elvpriv q' = nr_rqs_elvpriv q - (if elvpriv flags then 1 else 0) /\
  q_dying q' = q_dying q /\ q_bypass q' = q_bypass q /\ bypass_depth q' = bypass_depth q.
Proof.
  unfold freed_request. cbv zeta. set (s := rw_is_sync flags).
  destruct (rl_starved _);
    repeat match goal with |- context [__freed_request ?i ?s ?q] =>
      destruct (freed_rest i s q) as (-> & -> & -> & -> & -> & -> & -> & ->) end;
    destruct (elvpriv flags); cbn; by rewrite ?Z.sub_0_r.
Qed.

Lemma freed_request_congested i flags q t :
  let s := rw_is_sync flags in
  of_dir t (q_congested (freed_request i flags q))
  = if (i =? 0)%nat &&
       (if bool_decide (t = s) then rl_count (dir_at q i s) - 1 <? nr_congestion_off q
        else rl_starved (dir_at q i t) && (rl_count (dir_at q i t) <? nr_congestion_off q)) then false
    else of_dir t (q_congested q).
Proof.
  intros s. unfold freed_request. fold s. cbv zeta.
  set (q1 := q_upd_dir i s (d_add (-1)) (q_with_nr _ q)).
  set (q2 := if elvpriv flags then _ else _).
  assert (forall j t, dir_at q2 j t = dir_at q1 j t) as Hq2 by (intros; subst q2; by destruct (elvpriv flags)).
  assert (nr_congestion_off q2 = nr_congestion_off q) as Hoff by (subst q2; by destruct (elvpriv flags)).
  assert (q_congested q2 = q_congested q) as Hcg by (subst q2; by destruct (elvpriv flags)).
  assert (forall t, dir_at q1 i t = if bool_decide (t = s) then d_add (-1) (dir_at q i s) else dir_at q i t) as Hq1.
  { intros t'. subst q1. rewrite dir_at_upd. by repeat case_bool_decide; destruct_and?; try done; exfalso; auto. }
  assert (forall b, bool_decide (negb b = b) = false) as Hne
    by (intros b; apply bool_decide_eq_false_2; by destruct b).
  assert (forall b, bool_decide (i = i /\ negb b = b) = false) as Hne2
    by (intros b; apply bool_decide_eq_false_2; intros [_ E]; by destruct b).
  rewrite !freed_dir, Hne2, !Hq2, !Hq1, Hne. destruct (freed_rest i s q2) as (_ & _ & Hr & _).
  destruct (rl_starved (dir_at q i (negb s))) eqn:Est.
  - rewrite !freed_congested, !freed_dir, Hr, Hoff, Hcg, Hne2, !Hq2, !Hq1, Hne, (bool_decide_eq_true_2 (s = s)) by done.
    destruct t, s; cbn [negb] in *; repeat (case_bool_decide; [try done|try done]); rewrite ?Est;
      destruct (i =? 0)%nat; cbn [andb]; rewrite ?andb_false_r; try done.
  - rewrite freed_congested, Hoff, Hcg, !Hq2, !Hq1, (bool_decide_eq_true_2 (s = s)) by done.
    destruct t, s; cbn [negb] in *; repeat (case_bool_decide; [try done|try done]); rewrite ?Est;
      destruct (i =? 0)%nat; cbn [andb]; rewrite ?andb_false_r; try done.
Qed.

Lemma is_at_spec j t x : is_at j t x = bool_decide (j = tk_rl x /\ t = rw_is_sync (tk_flags x)).
Proof.
  unfold is_at. apply eq_true_iff_eq. rewrite bool_decide_eq_true, andb_true_iff, Nat.eqb_eq, eqb_true_iff.
  split; intros [??]; split; congruence.
Qed.

Lemma is_dir_spec t x : is_dir t x = bool_decide (t = rw_is_sync (tk_flags x)).
Proof.
  unfold is_dir. apply eq_true_iff_eq. rewrite bool_decide_eq_true, eqb_true_iff. split; congruence.
Qed.

Lemma freed_request_inv woke x q out1 out2 :
  rl_inv woke (mkRlm q (out1 ++ x :: out2)) ->
  rl_inv woke (mkRlm (freed_request (tk_rl x) (tk_flags x) q) (out1 ++ out2)).
Proof.
  intros [Hlim Hdirs Hmarks Hnr Helv Hby Hdep Hdy Hal]. cbn [m_queue m_out] in *.
  destruct (freed_request_rest (tk_rl x) (tk_flags x) q) as (E1 & E2 & E3 & E4 & E5 & E6 & E7 & E8).
  assert (forall j t, dir_ok (nr_requests q) ((if is_at j t x then 1 else 0) + zcount (is_at j t) (out1 ++ out2))
            (negb (q_dying q) && negb (woke j t)) (dir_at q j t)) as Hd.
  { intros j t. rewrite <- zcount_mid. apply Hdirs. }
  split; cbn [m_queue m_out]; rewrite ?E1, ?E2, ?E3, ?E4, ?E5, ?E6, ?E7, ?E8; try done.
  - intros j t. specialize (Hd j t). pose proof (zcount_nonneg (is_at j t) (out1 ++ out2)).
    rewrite freed_request_dir. rewrite is_at_spec in Hd. case_bool_decide as Hb.
    + destruct Hb as [-> ->]. apply release_drop in Hd; [|lia..]. by rewrite Z.add_simpl_l in Hd.
    + destruct (bool_decide _ && _) eqn:Es; [|done]. apply andb_prop in Es as [Es _]. apply bool_decide_eq_true in Es as [-> _].
      by apply release_ok; [lia|].
  - intros t. rewrite freed_request_congested. specialize (Hmarks t). rewrite zcount_mid, is_at_spec in Hmarks.
    destruct (Nat.eqb_spec (tk_rl x) 0) as [E0|E0]; cbn [andb].
    2:{ rewrite bool_decide_eq_false_2 in Hmarks by (intros [? _]; congruence). done. }
    rewrite E0 in *. pose proof (dir_count _ _ _ _ (Hd 0%nat t)) as Hc. rewrite is_at_spec, E0 in Hc.
    destruct (decide (t = rw_is_sync (tk_flags x))) as [->|Hb].
    + rewrite (bool_decide_eq_true_2 (rw_is_sync _ = _)) by done.
      rewrite bool_decide_eq_true_2 in Hmarks, Hc by done. rewrite Hc, Z.add_simpl_l.
      apply mark_drop in Hmarks; [|lia]. by rewrite Z.add_simpl_l in Hmarks.
    + rewrite (bool_decide_eq_false_2 (t = _)) by done.
      rewrite bool_decide_eq_false_2 in Hmarks, Hc by tauto. destruct (rl_starved _); cbn [andb]; [|done].
      rewrite Hc. apply mark_release; [lia|done].
  - intros t. rewrite of_upd_dir. specialize (Hnr t). rewrite zcount_mid, is_dir_spec in Hnr.
    case_bool_decide; subst; lia.
  - rewrite zcount_mid in Helv. unfold is_elv at 1 in Helv. destruct (elvpriv _); lia.
  - apply Forall_app in Hal as [Ha1 Ha2]. apply Forall_cons_1 in Ha2 as [_ Ha2]. by apply Forall_app.
Qed.

(** ** Taking a request *)

(** The effect of [get_request_mark]: it may fill the direction and mark the queue. *)
Definition marked (i : nat) (s fill : bool) (q : rqueue) : rqueue :=
  let q1 := if fill then q_upd_dir i s (d_fill true) q else q in
  if (nr_congestion_on q <=? rl_count (dir_at q i s) + 1) && (i =? 0)%nat
  then q_with_congested (upd_dir s (fun _ => true) (q_congested q)) q1 else q1.

Lemma get_request_mark_spec i s may j ioc q :
  nr_congestion_on q <= nr_requests q ->
  match get_request_mark i s may j ioc q with
  | None => rl_full (dir_at q i s) = true
  | Some (q', _) => exists fill, q' = marked i s fill q /\
      if fill : bool then nr_requests q <= rl_count (dir_at q i s) + 1
      else rl_full (dir_at q i s) = true \/ rl_count (dir_at q i s) + 1 < nr_requests q
  end.
Proof.
  intros Hon. unfold get_request_mark, marked. cbv zeta.
  destruct (Z.leb_spec (nr_congestion_on q) (rl_count (dir_at q i s) + 1)); [|exists false; split; [done|lia]].
  destruct (Z.leb_spec (nr_requests q) (rl_count (dir_at q i s) + 1)); [|exists false; split; [by destruct (i =? 0)%nat|lia]].
  destruct (rl_full (dir_at q i s)); cbn [negb].
  - destruct (_ && _); [done|]. exists false. split; [by destruct (i =? 0)%nat|by left].
  - exists true. split; [by destruct (i =? 0)%nat|done].
Qed.

Lemma marked_dir i s fill q j t :
  dir_at (marked i s fill q) j t
  = if bool_decide (j = i /\ t = s) && fill then d_fill true (dir_at q i s) else dir_at q j t.
Proof.
  unfold marked. cbv zeta. destruct (_ && (i =? 0)%nat), fill; rewrite ?andb_false_r, ?andb_true_r; try done;
    [apply (dir_at_upd i s _ q j t)|apply dir_at_upd].
Qed.

Lemma marked_congested i s fill q t :
  of_dir t (q_congested (marked i s fill q))
  = if bool_decide (t = s) && ((nr_congestion_on q <=? rl_count (dir_at q i s) + 1) && (i =? 0)%nat) then true
    else of_dir t (q_congested q).
Proof.
  unfold marked. cbv zeta. destruct (_ && (i =? 0)%nat), fill; cbn [q_congested q_with_congested q_upd_dir q_with_rl];
    rewrite ?of_upd_dir; by case_bool_decide.
Qed.

Lemma marked_rest i s fill q :
  let q' := marked i s fill q in
  nr_requests q' = nr_requests q /\ nr_congestion_on q' = nr_congestion_on q /\
  nr_congestion_off q' = nr_congestion_off q /\ nr_rqs q' = nr_rqs q /\ nr_rqs_elvpriv q' = nr_rqs_elvpriv q /\
  q_dying q' = q_dying q /\ q_bypass q' = q_bypass q /\ bypass_depth q' = bypass_depth q.
Proof. unfold marked. cbv zeta. by destruct (_ && (i =? 0)%nat), fill. Qed.

(** [q'] is [q] with one more request out of direction [s] of list [i]. *)
Record takes_one (i : nat) (s fill elv : bool) (q q' : rqueue) : Prop := {
  one_dir : forall j t, dir_at q' j t
    = if bool_decide (j = i /\ t = s) then d_starve false (d_add 1 (dir_at (marked i s fill q) i s)) else dir_at q j t;
  one_congested : q_congested q' = q_congested (marked i s fill q);
  one_nr : nr_rqs q' = upd_dir s (fun n => n + 1) (nr_rqs q);
  one_elv : nr_rqs_elvpriv q' = nr_rqs_elvpriv q + (if elv then 1 else 0);
  one_elv_on : elv = true -> q_bypass q = false;
  one_same : (nr_requests q', nr_congestion_on q', nr_congestion_off q', q_dying q', q_bypass q', bypass_depth q')
             = (nr_requests q, nr_congestion_on q, nr_congestion_off q, q_dying q, q_bypass q, bypass_depth q)
}.

(** The three ways the first section of [__get_request] ends on a queue that lives. *)
Lemma get_request_reserve_cases i rw bio may j ioc q q' ioc' r :
  rw_flags_ok rw -> nr_congestion_on q <= nr_requests q ->
  get_request_reserve i rw bio may j ioc q = (q', ioc', r) ->
  let s := rw_is_sync rw in
  match r with
  | RlNone => q' = q /\ (q_dying q = true \/ rl_full (dir_at q i s) = true) \/
              q' = rq_starved i s q \/
              (exists fill, q' = marked i s fill q /\ 3 * nr_requests q / 2 <= rl_count (dir_at q i s))
  | RlTaken flags => q_dying q = false /\ rw_is_sync flags = s /\ rl_count (dir_at q i s) < 3 * nr_requests q / 2 /\
      exists fill, takes_one i s fill (elvpriv flags) q q' /\
        if fill : bool then nr_requests q <= rl_count (dir_at q i s) + 1
        else rl_full (dir_at q i s) = true \/ rl_count (dir_at q i s) + 1 < nr_requests q
  end.
Proof.
  intros Hrw Hon. unfold get_request_reserve. cbv zeta. set (s := rw_is_sync rw).
  destruct (q_dying q) eqn:Ed; [intros [= <- <- <-]; auto|].
  case_bool_decide; [intros [= <- <- <-]; auto|].
  pose proof (get_request_mark_spec i s may j ioc q Hon) as Hm.
  destruct (get_request_mark _ _ _ _ _ _) as [[q1 ioc1]|]; [|intros [= <- <- <-]; auto].
  destruct Hm as (fill & -> & Hf).
  destruct (marked_rest i s fill q) as (E1 & E2 & E3 & E4 & E5 & E6 & E7 & E8).
  assert (rl_count (dir_at (marked i s fill q) i s) = rl_count (dir_at q i s)) as Hc
    by (rewrite marked_dir; by destruct (_ && _)).
  rewrite E1, Hc. destruct (Z.leb_spec (3 * nr_requests q / 2) (rl_count (dir_at q i s))).
  { intros [= <- <- <-]. right. right. eauto. }
  set (elv := blk_rq_should_init_elevator bio && negb (q_bypass _)).
  set (flags := if elv then Z.lor rw _ else rw). set (fl := if q_io_stat _ then _ else _).
  intros [= <- <- <-].
  assert (rw_is_sync fl = s /\ elvpriv fl = elv) as [-> ->].
  { assert (rw_is_sync flags = s /\ elvpriv flags = elv) as [Hs He].
    { subst flags. destruct elv; [|by rewrite rw_flags_no_elv]. by rewrite rw_is_sync_lor, elvpriv_lor, orb_true_r. }
    subst fl. destruct (q_io_stat _); [|done]. by rewrite rw_is_sync_lor, elvpriv_lor, orb_false_r. }
  split_and!; [done|done|done|]. exists fill. split; [|done].
  assert (elv = true -> q_bypass q = false) as Hby.
  { subst elv. cbn. rewrite E7. intros [_ ?%negb_true_iff]%andb_prop. done. }
  split; [| | | |done|].
  - intros j' t'. transitivity (dir_at (q_upd_dir i s (fun d => d_starve false (d_add 1 d)) (marked i s fill q)) j' t').
    { by destruct elv. }
    rewrite dir_at_upd. case_bool_decide; [done|]. rewrite marked_dir, bool_decide_eq_false_2 by done. done.
  - by destruct elv.
  - destruct elv; cbn; by rewrite E4.
  - destruct elv; cbn; rewrite ?E5; lia.
  - destruct elv; cbn; by rewrite E1, E2, E3, E6, E7, E8.
Qed.

(** ** The invariant holds in every reachable state *)

(** Everything but the request lists. *)
Definition same_totals (q q' : rqueue) : Prop :=
  (nr_requests q', nr_congestion_on q', nr_congestion_off q', nr_rqs q', nr_rqs_elvpriv q', q_dying q', q_bypass q',
   bypass_depth q', q_congested q')
  = (nr_requests q, nr_congestion_on q, nr_congestion_off q, nr_rqs q, nr_rqs_elvpriv q, q_dying q, q_bypass q,
     bypass_depth q, q_congested q).

Lemma inv_new_dirs woke woke' q q' out :
  rl_inv woke (mkRlm q out) -> same_totals q q' ->
  (forall i s, dir_ok (nr_requests q) (zcount (is_at i s) out) (negb (q_dying q) && negb (woke i s)) (dir_at q i s) ->
     dir_ok (nr_requests q) (zcount (is_at i s) out) (negb (q_dying q) && negb (woke' i s)) (dir_at q' i s)) ->
  rl_inv woke' (mkRlm q' out).
Proof.
  intros [Hlim Hdirs Hmarks Hnr Helv Hby Hdep Hdy Hal] Hs Hd. unfold same_totals in Hs.
  injection Hs as E1 E2 E3 E4 E5 E6 E7 E8 E9. cbn [m_queue m_out] in *.
  split; cbn [m_queue m_out]; rewrite ?E1, ?E2, ?E3, ?E4, ?E5, ?E6, ?E7, ?E8, ?E9; auto.
Qed.

Lemma inv_tries i s q q0 out :
  rl_inv nobody (mkRlm q out) -> tries i s q q0 -> rl_inv (only i s) (mkRlm q0 out).
Proof.
  intros Hi Ht. revert Hi. destruct Ht as [q|q Hw]; intros Hi; (eapply inv_new_dirs; [exact Hi|done|intros j t Hd]).
  - eapply dir_weaken; [exact Hd|]. by intros [-> _]%andb_prop.
  - unfold only. rewrite dir_at_upd. case_bool_decide as Hb; cbn [negb]; [|done].
    destruct Hb as [-> ->]. rewrite andb_false_r. by eapply retry_ok.
Qed.

(** A task about to sleep knows that somebody will wake it. *)
Definition hopeful (i : nat) (s : bool) (q : rqueue) : Prop :=
  q_dying q = false -> 0 < rl_count (dir_at q i s) \/ rl_starved (dir_at q i s) = true.

Lemma inv_hopeful i s q out :
  rl_inv (only i s) (mkRlm q out) -> hopeful i s q -> rl_inv nobody (mkRlm q out).
Proof.
  intros Hi Hh. eapply inv_new_dirs; [exact Hi|done|]. intros j t Hd. unfold only in Hd.
  case_bool_decide as Hb; [|done]. destruct Hb as [-> ->]. eapply dir_restore; [exact Hd|].
  intros [Hdy%negb_true_iff _]%andb_prop. auto.
Qed.

Lemma inv_starved woke i s q out :
  rl_inv woke (mkRlm q out) -> rl_inv woke (mkRlm (rq_starved i s q) out) /\ hopeful i s (rq_starved i s q).
Proof.
  intros Hi. pose proof (inv_dirs _ _ Hi i s) as [Hc _ _ _ _ _]. cbn [m_queue m_out] in Hc.
  pose proof (zcount_nonneg (is_at i s) out). unfold rq_starved, hopeful.
  destruct (Z.eqb_spec (rl_count (dir_at q i s)) 0); [|split; [done|intros _; left; lia]]. split.
  - eapply inv_new_dirs; [exact Hi|done|]. intros j t Hd. rewrite dir_at_upd. case_bool_decide as Hb; [|done].
    destruct Hb as [-> ->]. by apply starve_ok.
  - intros _. right. rewrite dir_at_upd. by rewrite bool_decide_eq_true_2.
Qed.

Lemma inv_wait i s wait q out :
  rl_inv nobody (mkRlm q out) -> hopeful i s q -> rl_inv nobody (mkRlm (get_request_wait i s wait q) out).
Proof.
  intros Hi Hh. unfold get_request_wait. destruct (negb wait || q_dying q) eqn:E; [done|].
  eapply inv_new_dirs; [exact Hi|done|]. intros j t Hd. rewrite dir_at_upd. case_bool_decide as Hb; [|done].
  destruct Hb as [-> ->]. apply sleep_ok; [done|]. intros [Hdy%negb_true_iff _]%andb_prop. auto.
Qed.

Lemma three_halves nr : 1 <= nr -> nr <= 3 * nr / 2.
Proof. intros. apply Z.div_le_lower_bound; lia. Qed.

Lemma inv_marked_over woke i s fill q out :
  rl_inv woke (mkRlm q out) -> 3 * nr_requests q / 2 <= rl_count (dir_at q i s) ->
  rl_inv woke (mkRlm (marked i s fill q) out) /\ hopeful i s (marked i s fill q).
Proof.
  intros Hi Hov. destruct Hi as [Hlim Hdirs Hmarks Hnr Helv Hby Hdep Hdy Hal]. cbn [m_queue m_out] in *.
  destruct (marked_rest i s fill q) as (E1 & E2 & E3 & E4 & E5 & E6 & E7 & E8).
  pose proof (three_halves (nr_requests q) ltac:(lia)) as H3.
  split.
  - split; cbn [m_queue m_out]; rewrite ?E1, ?E2, ?E3, ?E4, ?E5, ?E6, ?E7, ?E8; try done.
    + intros j t. rewrite marked_dir. specialize (Hdirs j t).
      destruct (bool_decide _ && fill) eqn:Eb; [|done].
      apply andb_prop in Eb as [[-> ->]%bool_decide_eq_true _]. destruct Hdirs as [H1 H2 H4 H5 H6 H7].
      split; cbn; try done; lia.
    + intros t. rewrite marked_congested. specialize (Hmarks t).
      destruct (bool_decide _ && _) eqn:Eb; [|done].
      apply andb_prop in Eb as [->%bool_decide_eq_true [_ ->%Nat.eqb_eq]%andb_prop].
      rewrite <- (dir_count _ _ _ _ (Hdirs 0%nat s)). apply mark_set; [lia|]. right. lia.
  - intros _. left. rewrite marked_dir. destruct (bool_decide _ && fill); cbn; lia.
Qed.

Lemma inv_takes i fill q q' out flags :
  let s := rw_is_sync flags in
  rl_inv (only i s) (mkRlm q out) -> rl_count (dir_at q i s) < 3 * nr_requests q / 2 ->
  takes_one i s fill (elvpriv flags) q q' ->
  (if fill : bool then nr_requests q <= rl_count (dir_at q i s) + 1
   else rl_full (dir_at q i s) = true \/ rl_count (dir_at q i s) + 1 < nr_requests q) ->
  rl_inv nobody (mkRlm q' (mkTaken i flags false :: out)).
Proof.
  intros s [Hlim Hdirs Hmarks Hnr Helv Hby Hdep Hdy Hal] Hlt [Hd Hcg Hn He _ Hsame] Hf. cbn [m_queue m_out] in *.
  injection Hsame as E1 E2 E3 E6 E7 E8.
  split; cbn [m_queue m_out]; rewrite ?E1, ?E2, ?E3, ?Hn, ?He, ?E6, ?E7, ?E8; try done.
  - intros j t. rewrite Hd, zcount_cons, is_at_spec. cbn [tk_rl tk_flags]. fold s. specialize (Hdirs j t).
    unfold only in Hdirs. pose proof (zcount_nonneg (is_at j t) out).
    destruct (decide (j = i /\ t = s)) as [[-> ->]|Hne].
    + rewrite !(bool_decide_eq_true_2 (i = i /\ s = s)) by done. rewrite Z.add_comm.
      eapply dir_weaken; [|done]. rewrite marked_dir, bool_decide_eq_true_2 by done. cbn [andb].
      destruct fill; [by eapply fill_ok|by eapply take_ok].
    + rewrite (bool_decide_eq_false_2 (j = i /\ t = s)) in * by done. done.
  - intros t. rewrite Hcg, marked_congested, zcount_cons, is_at_spec. cbn [tk_rl tk_flags]. fold s.
    specialize (Hmarks t). pose proof (dir_count _ _ _ _ (Hdirs i t)) as Hc.
    destruct (decide (t = s)) as [->|Hne].
    + rewrite (bool_decide_eq_true_2 (s = s)), Hc by done. cbn [andb].
      destruct (Nat.eqb_spec i 0) as [->|Hi]; rewrite ?andb_true_r, ?andb_false_r.
      * rewrite bool_decide_eq_true_2 by done. destruct (Z.leb_spec (nr_congestion_on q) (zcount (is_at 0 s) out + 1)).
        -- apply mark_set; lia.
        -- eapply mark_same; [exact Hmarks|lia|lia].
      * rewrite bool_decide_eq_false_2 by (intros [? _]; congruence). done.
    + rewrite (bool_decide_eq_false_2 (t = s)), bool_decide_eq_false_2 by tauto. done.
  - intros t. rewrite of_upd_dir, zcount_cons, is_dir_spec. cbn [tk_flags]. fold s. specialize (Hnr t).
    case_bool_decide; subst; lia.
  - rewrite zcount_cons. unfold is_elv at 1. cbn [tk_flags]. lia.
  - by constructor.
Qed.

Lemma inv_refused i q q' out :
  forall s, rl_inv (only i s) (mkRlm q out) ->
  q' = q /\ (q_dying q = true \/ rl_full (dir_at q i s) = true) \/
  q' = rq_starved i s q \/
  (exists fill, q' = marked i s fill q /\ 3 * nr_requests q / 2 <= rl_count (dir_at q i s)) ->
  rl_inv (only i s) (mkRlm q' out) /\ hopeful i s q'.
Proof.
  intros s Hi [[-> Hr]|[->|(fill & -> & Hr)]]; [|by apply inv_starved|by apply inv_marked_over].
  split; [done|]. intros Hdy. destruct Hr as [?|Hfu]; [congruence|]. left.
  apply (dir_full _ _ _ _ (inv_dirs _ _ Hi i s)) in Hfu. destruct (inv_limits _ _ Hi). cbn [m_queue] in *. lia.
Qed.

(** The flags of a request may change, not its direction. *)
Lemma inv_reflag woke i flags flags' b b' q q' out1 out2 :
  rl_inv woke (mkRlm q (out1 ++ mkTaken i flags b :: out2)) ->
  rw_is_sync flags' = rw_is_sync flags ->
  (b' = true -> Z.land flags' REQ_ALLOCED <> 0) ->
  q' = q_with_elvpriv (nr_rqs_elvpriv q - (if elvpriv flags then 1 else 0) + (if elvpriv flags' then 1 else 0)) q ->
  rl_inv woke (mkRlm q' (out1 ++ mkTaken i flags' b' :: out2)).
Proof.
  intros [Hlim Hdirs Hmarks Hnr Helv Hby Hdep Hdy Hal] Hs Hb ->. cbn [m_queue m_out] in *.
  split; cbn -[dir_at] in *; try done.
  - intros j t. specialize (Hdirs j t). rewrite zcount_mid, is_at_spec in *. cbn [tk_rl tk_flags] in *.
    rewrite Hs. exact Hdirs.
  - intros t. specialize (Hmarks t). rewrite zcount_mid, is_at_spec in *. cbn [tk_rl tk_flags] in *. by rewrite Hs.
  - intros t. specialize (Hnr t). rewrite zcount_mid, is_dir_spec in *. cbn [tk_rl tk_flags] in *. by rewrite Hs.
  - rewrite Helv, !zcount_mid. unfold is_elv at 1 3. cbn [tk_flags]. lia.
  - apply Forall_app in Hal as [Ha1 Ha2]. apply Forall_cons_1 in Ha2 as [_ Ha2].
    apply Forall_app. split; [done|]. by constructor.
Qed.

Lemma finish_flags flags elv_ok j ioc q q' ioc' cmd_flags :
  get_request_finish flags elv_ok j ioc q = (q', ioc', cmd_flags) ->
  rw_is_sync cmd_flags = rw_is_sync flags /\ Z.land cmd_flags REQ_ALLOCED <> 0 /\
  q' = q_with_elvpriv (nr_rqs_elvpriv q - (if elvpriv flags then 1 else 0) + (if elvpriv cmd_flags then 1 else 0)) q.
Proof.
  unfold get_request_finish.
  assert (forall f, Z.testbit f 25 = true -> Z.land f REQ_ALLOCED <> 0) as Hal.
  { intros f Hf E. pose proof (land_bit f 25 ltac:(lia)) as Hb. rewrite Hf in Hb. fold REQ_ALLOCED in Hb.
    rewrite E in Hb. done. }
  assert (Z.testbit (Z.lor flags REQ_ALLOCED) 25 = true) as H25 by (rewrite Z.lor_spec, orb_true_r; done).
  assert (forall n, n = nr_rqs_elvpriv q -> q = q_with_elvpriv n q) as Hid by (by intros ? ->; destruct q).
  destruct (elvpriv flags) eqn:Ee; [destruct elv_ok|]; cbn [andb negb]; intros [= <- <- <-].
  - rewrite rw_is_sync_lor, elvpriv_lor, Ee by done. split_and!; [done|by apply Hal|]. apply Hid. cbn. lia.
  - rewrite rw_is_sync_ldiff, rw_is_sync_lor by done. split_and!; [done| |].
    + apply Hal. by rewrite Z.ldiff_spec, H25.
    + rewrite elvpriv_bits, Z.ldiff_spec, andb_false_r. by rewrite Z.add_0_r.
  - rewrite rw_is_sync_lor, elvpriv_lor, Ee by done. split_and!; [done|by apply Hal|].
    apply Hid. change (Z.testbit REQ_ALLOCED 21) with false. cbn. lia.
Qed.

(** Entering and leaving bypass mode. *)
Lemma inv_set_bypass dying bypass depth q out :
  rl_inv nobody (mkRlm q out) -> (q_dying q = true -> dying = true) ->
  (bypass = true <-> 0 < depth) -> 0 <= depth -> (dying = true -> 0 < depth) ->
  rl_inv nobody (mkRlm (q_with_bypass dying bypass depth q) out).
Proof.
  intros [Hlim Hdirs Hmarks Hnr Helv Hby Hdep Hdy Hal] Hd Hb Hn Hdd. cbn [m_queue m_out] in *.
  split; cbn [m_queue m_out]; try done.
  intros i t. eapply dir_weaken; [apply Hdirs|]. cbn. destruct (q_dying q), dying; done || auto.
Qed.

Lemma put_last i flags q :
  __blk_put_request i 1 flags q = (if Z.land flags REQ_ALLOCED =? 0 then q else freed_request i flags q, 0).
Proof. unfold __blk_put_request. change (1 - 1 =? 0) with true. by destruct (_ =? _). Qed.

Lemma rl_step_inv m m' : rl_step m m' -> rl_inv nobody m -> rl_inv nobody m'.
Proof.
  intros Hst Hi. destruct Hst as [i rw bio may j ioc ioc' q q0 q1 out flags Hrw Ht Hg
    |i rw bio may j ioc ioc' q q0 q1 out wait Hrw Ht Hg|i flags q out1 out2 wait
    |i flags elv_ok j ioc ioc' cmd q q1 out1 out2 Hf|i flags flags' q out1 out2 Hs He Ha
    |i flags q q1 out1 out2 Hp|q out|q out Hd|q out Hdy|busy all q out Hp].
  - pose proof (inv_tries _ _ _ _ _ Hi Ht) as Hi0. destruct (inv_limits _ _ Hi0) as [_ Hon]. cbn [m_queue] in Hon.
    destruct (get_request_reserve_cases _ _ _ _ _ _ _ _ _ _ Hrw Hon Hg) as (_ & Hs & Hlt & fill & Htk & Hf).
    rewrite <- Hs in *. by eapply inv_takes.
  - pose proof (inv_tries _ _ _ _ _ Hi Ht) as Hi0. destruct (inv_limits _ _ Hi0) as [_ Hon]. cbn [m_queue] in Hon.
    pose proof (get_request_reserve_cases _ _ _ _ _ _ _ _ _ _ Hrw Hon Hg) as Hr.
    destruct (inv_refused _ _ _ _ _ Hi0 Hr) as [Hi1 Hh]. apply inv_wait; [|done]. by eapply inv_hopeful.
  - pose proof (freed_request_inv _ (mkTaken i flags false) _ _ _ Hi) as Hi1. cbn [tk_rl tk_flags] in Hi1.
    destruct (inv_starved _ i (rw_is_sync flags) _ _ Hi1) as [Hi2 Hh]. by apply inv_wait.
  - destruct (finish_flags _ _ _ _ _ _ _ _ Hf) as (Hs & Ha & Hq). by eapply inv_reflag.
  - eapply inv_reflag; [exact Hi|done| |].
    + intros _. rewrite Ha. pose proof (inv_alloced _ _ Hi) as Hal. cbn [m_out] in Hal.
      apply Forall_app in Hal as [_ Hal]. by apply Forall_cons_1 in Hal as [Hal _]; apply Hal.
    + rewrite He, Z.sub_add. by destruct q.
  - pose proof (inv_alloced _ _ Hi) as Hal. cbn [m_out] in Hal. apply Forall_app in Hal as [_ Hal].
    apply Forall_cons_1 in Hal as [Hal _]. specialize (Hal eq_refl). cbn [tk_flags] in Hal.
    rewrite put_last, (proj2 (Z.eqb_neq _ _) Hal) in Hp. injection Hp as <-.
    exact (freed_request_inv _ (mkTaken i flags true) _ _ _ Hi).
  - pose proof (inv_depth _ _ Hi) as Hdep. cbn [m_queue] in *. apply inv_set_bypass; try done; lia.
  - pose proof (inv_bypass _ _ Hi) as Hby. pose proof (inv_depth _ _ Hi) as Hdep. cbn [m_queue] in *.
    unfold blk_queue_bypass_end. cbv zeta. apply inv_set_bypass; [done|done| |destruct (q_dying q); lia|].
    + destruct (Z.eqb_spec (bypass_depth q - 1) 0); [split; [done|lia]|]. rewrite Hby. destruct (q_dying q); lia.
    + intros E. rewrite E in Hd. lia.
  - pose proof (inv_depth _ _ Hi) as Hdep. cbn [m_queue] in *. apply inv_set_bypass; try done; try lia.
  - eapply inv_new_dirs; [exact Hi|done|]. intros i t [H1 H2 H3 H4 H5 H6].
    assert (dir_at (drain_wake q) i t = wake_up_all (dir_at q i t)) as -> by by destruct t.
    split; cbn; done || lia.
Qed.

Lemma new_queue_inv nr batching io_stat : 1 <= nr -> rl_inv nobody (mkRlm (new_queue nr batching io_stat) []).
Proof.
  intros Hnr. pose proof (three_halves nr Hnr).
  assert (0 <= nr / 8 <= nr / 2 /\ 0 <= nr / 16) as Hdiv.
  { split_and!; try (apply Z.div_pos; lia). apply Z.div_le_compat_l; lia. }
  assert (2 * (nr / 2) <= nr) by (apply Z.mul_div_le; lia).
  assert (nr / 8 = 0 \/ 8 <= nr) by (destruct (Z.lt_ge_cases nr 8); [left; apply Z.div_small; lia|lia]).
  split; cbn [m_queue m_out new_queue blk_queue_congestion_threshold nr_requests nr_congestion_on nr_congestion_off];
    try done.
  - destruct (Z.ltb_spec nr (nr - nr / 8 + 1)), (Z.ltb_spec (nr - nr / 8 - nr / 16 - 1) 1); lia.
  - intros i t. replace (dir_at _ i t) with empty_dir by by destruct t. split; cbn; done || lia.
  - intros t. replace (of_dir t _) with false by by destruct t. split; [|done]. unfold zcount, zlen. cbn.
    destruct (Z.ltb_spec nr (nr - nr / 8 + 1)); lia.
  - by intros [].
Qed.

(** The limit itself stays as it is. *)
Lemma wait_limit i s wait q : nr_requests (get_request_wait i s wait q) = nr_requests q.
Proof. unfold get_request_wait. by destruct (_ || _). Qed.
Lemma starved_limit i s q : nr_requests (rq_starved i s q) = nr_requests q.
Proof. unfold rq_starved. by destruct (_ =? _). Qed.
Lemma freed_limit i flags q : nr_requests (freed_request i flags q) = nr_requests q.
Proof. apply (freed_request_rest i flags q). Qed.
Lemma tries_limit i s q q' :
  tries i s q q' -> nr_requests q' = nr_requests q /\ nr_congestion_on q' = nr_congestion_on q.
Proof. by intros []. Qed.

Lemma reserve_limit i rw bio may j ioc q q' ioc' r :
  rw_flags_ok rw -> nr_congestion_on q <= nr_requests q ->
  get_request_reserve i rw bio may j ioc q = (q', ioc', r) -> nr_requests q' = nr_requests q.
Proof.
  intros Hrw Hon Hg. pose proof (get_request_reserve_cases _ _ _ _ _ _ _ _ _ _ Hrw Hon Hg) as Hc.
  destruct r as [|flags].
  - destruct Hc as [[-> _]|[->|(fill & -> & _)]]; [done|apply starved_limit|apply marked_rest].
  - destruct Hc as (_ & _ & _ & fill & [_ _ _ _ _ Hs] & _). by injection Hs.
Qed.

Lemma rl_step_limit m m' : rl_step m m' -> rl_inv nobody m -> nr_requests (m_queue m') = nr_requests (m_queue m).
Proof.
  intros Hst Hi. destruct (inv_limits _ _ Hi) as [_ Hon].
  destruct Hst as [i rw bio may j ioc ioc' q q0 q1 out flags Hrw Ht Hg
    |i rw bio may j ioc ioc' q q0 q1 out wait Hrw Ht Hg|i flags q out1 out2 wait
    |i flags elv_ok j ioc ioc' cmd q q1 out1 out2 Hf| |i flags q q1 out1 out2 Hp| | | |]; cbn [m_queue] in *; try done.
  - destruct (tries_limit _ _ _ _ Ht) as [E1 E2]. rewrite <- E1. eapply reserve_limit; [done|lia|done].
  - destruct (tries_limit _ _ _ _ Ht) as [E1 E2]. rewrite wait_limit, <- E1. eapply reserve_limit; [done|lia|done].
  - unfold get_request_fail. by rewrite wait_limit, starved_limit, freed_limit.
  - by destruct (finish_flags _ _ _ _ _ _ _ _ Hf) as (_ & _ & ->).
  - rewrite put_last in Hp. injection Hp as <-. destruct (_ =? _); [done|apply freed_limit].
Qed.

Lemma reachable_inv nr batching io_stat m :
  1 <= nr -> rtc rl_step (mkRlm (new_queue nr batching io_stat) []) m ->
  rl_inv nobody m /\ nr_requests (m_queue m) = nr.
Proof.
  intros Hnr Hr.
  assert (rl_inv nobody (mkRlm (new_queue nr batching io_stat) [])
          /\ nr_requests (m_queue (mkRlm (new_queue nr batching io_stat) [])) = nr) as Hi
    by by split; [apply new_queue_inv|].
  revert Hi. induction Hr as [|m m1 m2 Hs _ IH]; [done|]. intros [Hi En]. apply IH.
  split; [by eapply rl_step_inv|]. by rewrite (rl_step_limit _ _ Hs Hi).
Qed.
End Lists.

(** C17: in every state that any number of tasks taking and giving back requests can
    reach, in any interleaving and with allocations that may fail: the count of each
    direction of each request list is the number of its requests that are out, and
    never more than half over the limit; the direction is marked full exactly when the
    limit is reached; the queue's totals are the numbers of its requests. *)
Theorem request_counts_exact (T nr batching : Z) (io_stat : bool) (m : rlm) :
  1 <= nr -> rtc (rl_step T) (mkRlm (new_queue nr batching io_stat) []) m ->
  (forall i sync, let d := dir_at (m_queue m) i sync in
     rl_count d = zcount (is_at i sync) (m_out m) /\ 0 <= rl_count d <= 3 * nr / 2 /\
     (rl_full d = true <-> nr <= rl_count d)) /\
  (forall sync, of_dir sync (nr_rqs (m_queue m)) = zcount (is_dir sync) (m_out m)) /\
  nr_rqs_elvpriv (m_queue m) = zcount is_elv (m_out m).
Proof.
  intros Hnr Hr. destruct (reachable_inv _ _ _ _ _ Hnr Hr) as [Hi En].
  split; [|split; [apply (inv_nr _ _ Hi)|apply (inv_elv _ _ Hi)]].
  intros i sync d. destruct (inv_dirs _ _ Hi i sync) as [H1 H2 H3 _ _ _]. rewrite En in *.
  pose proof (zcount_nonneg (is_at i sync) (m_out m)). unfold d. split_and!; try done; lia.
Qed.

(** the congestion mark of a queue has a hysteresis: in every reachable state a
    direction with at least [nr_congestion_on] requests out is marked, one with fewer
    than [nr_congestion_off] is not, and the thresholds are in order for every limit. *)
Theorem congestion_tracks_load (T nr batching : Z) (io_stat : bool) (m : rlm) (sync : bool) :
  1 <= nr -> rtc (rl_step T) (mkRlm (new_queue nr batching io_stat) []) m ->
  let q := m_queue m in
  1 <= nr_congestion_off q <= nr_congestion_on q /\ nr_congestion_on q <= nr /\
  (nr_congestion_on q <= rl_count (dir_at q 0 sync) -> of_dir sync (q_congested q) = true) /\
  (rl_count (dir_at q 0 sync) < nr_congestion_off q -> of_dir sync (q_congested q) = false).
Proof.
  intros Hnr Hr q. destruct (reachable_inv _ _ _ _ _ Hnr Hr) as [Hi En].
  destruct (inv_limits _ _ Hi) as [H1 H2], (inv_marks _ _ Hi sync) as [H3 H4].
  rewrite <- (dir_count _ _ _ _ (inv_dirs _ _ Hi 0%nat sync)) in H3, H4. fold q in H1, H2, H3, H4, En.
  split; [lia|]. split; [lia|]. split; [exact H3|]. intros Hlt. destruct (of_dir sync (q_congested q)); [specialize (H4 eq_refl); lia|done].
Qed.

(** C18: no wake-up is lost.  Whenever a task sleeps for a request of a queue that is
    not dying, a request of the same list and direction is out, or a woken task is
    about to try again, or the direction is marked starved; and giving back a request
    then wakes a sleeper: one of the same direction as soon as the list is below its
    limit, and a starved one also when the request was of the other direction. *)
Theorem no_lost_wakeup (T nr batching : Z) (io_stat : bool) (m : rlm) (i : nat) (sync : bool) (flags : Z) :
  1 <= nr -> rtc (rl_step T) (mkRlm (new_queue nr batching io_stat) []) m ->
  q_dying (m_queue m) = false -> 0 < rl_wait (dir_at (m_queue m) i sync) ->
  let d := dir_at (m_queue m) i sync in
  let d' := dir_at (freed_request i flags (m_queue m)) i sync in
  (0 < zcount (is_at i sync) (m_out m) \/ rl_starved d = true \/ 0 < rl_woken d) /\
  ((if Bool.eqb (rw_is_sync flags) sync then rl_count d <= nr else rl_starved d = true /\ rl_count d < nr) ->
   rl_woken d' = rl_woken d + 1 /\ rl_wait d' = rl_wait d - 1).
Proof.
  intros Hnr Hr Hdy Hw d d'. destruct (reachable_inv _ _ _ _ _ Hnr Hr) as [Hi En].
  destruct (inv_dirs _ _ Hi i sync) as [H1 _ _ _ _ H6]. rewrite Hdy in H6. split.
  { rewrite <- H1. by apply H6. }
  intros Hc. fold d in Hw. unfold d'. rewrite freed_request_dir, En.
  destruct (Bool.eqb (rw_is_sync flags) sync) eqn:Eb.
  - apply eqb_prop in Eb as ->. rewrite bool_decide_eq_true_2 by done. unfold release, wake_up.
    cbn [rl_count rl_wait d_add]. fold d. destruct (Z.leb_spec (rl_count d + -1 + 1) nr); [|lia].
    destruct (Z.ltb_spec 0 (rl_wait d)); [done|lia].
  - destruct Hc as [Hs Hc]. apply eqb_false_iff in Eb.
    assert (sync = negb (rw_is_sync flags)) as Es by (destruct sync, (rw_is_sync flags); done).
    rewrite bool_decide_eq_false_2 by (intros [_ ?]; congruence).
    rewrite bool_decide_eq_true_2 by done. rewrite <- Es. fold d. rewrite Hs. cbn [andb].
    unfold release, wake_up. destruct (Z.leb_spec (rl_count d + 1) nr); [|lia].
    destruct (Z.ltb_spec 0 (rl_wait d)); [done|lia].
Qed.

(** ** Draining *)

Section Drain.
Variable T : Z.

(** A step that does not leave bypass mode. *)
Definition bypassed_step (m m' : rlm) : Prop := rl_step T m m' /\ q_bypass (m_queue m) = true.

Lemma bypassed_no_elv m m' :
  bypassed_step m m' -> rl_inv nobody m -> zcount is_elv (m_out m) = 0 -> zcount is_elv (m_out m') = 0.
Proof.
  intros [Hst Hby] Hi Hz. destruct (inv_limits _ _ Hi) as [_ Hon].
  destruct Hst as [i rw bio may j ioc ioc' q q0 q1 out flags Hrw Ht Hg| |i flags q out1 out2 wait
    |i flags elv_ok j ioc ioc' cmd q q1 out1 out2 Hf|i flags flags' q out1 out2 Hs He Ha
    |i flags q q1 out1 out2 Hp| | | |]; cbn [m_queue m_out] in *; try done;
    rewrite ?zcount_mid, ?zcount_cons in *; try pose proof (zcount_nonneg is_elv (out1 ++ out2)).
  - assert (q_bypass q0 = true) as Hby0 by by destruct Ht.
    assert (nr_congestion_on q0 <= nr_requests q0) as Hon0 by (destruct (tries_limit _ _ _ _ Ht); lia).
    destruct (get_request_reserve_cases _ _ _ _ _ _ _ _ _ _ _ Hrw Hon0 Hg) as (_ & _ & _ & fill & Htk & _).
    pose proof (one_elv_on _ _ _ _ _ _ Htk) as He. unfold is_elv at 1. cbn [tk_flags].
    destruct (elvpriv flags); [by rewrite He in Hby0|done].
  - destruct (is_elv _); lia.
  - unfold get_request_finish in Hf. unfold is_elv at 1. unfold is_elv at 1 in Hz. cbn [tk_flags] in *.
    destruct (elvpriv flags) eqn:Ee; [lia|]. cbn [andb] in Hf. injection Hf as _ _ <-.
    by rewrite elvpriv_lor, Ee.
  - unfold is_elv at 1. unfold is_elv at 1 in Hz. cbn [tk_flags] in *. by rewrite He.
  - destruct (is_elv _); lia.
Qed.

Lemma freed_no_sleeper i flags q j s :
  rl_wait (dir_at q j s) = 0 -> rl_wait (dir_at (freed_request i flags q) j s) = 0.
Proof.
  intros Hw. rewrite freed_request_dir.
  assert (forall nr d, rl_wait d = 0 -> rl_wait (release nr d) = 0) as Hrel.
  { intros nr d Hd. unfold release, wake_up. rewrite Hd. by destruct (_ <=? _). }
  case_bool_decide as Hb; [destruct Hb as [-> ->]; by apply Hrel|].
  destruct (bool_decide _ && _) eqn:E; [|done]. apply andb_prop in E as [[-> _]%bool_decide_eq_true _]. by apply Hrel.
Qed.

(** Dying is for ever, and no request is taken any more. *)
Lemma dying_step m m' :
  rl_step T m m' -> rl_inv nobody m -> q_dying (m_queue m) = true ->
  q_dying (m_queue m') = true /\ (m_out m = [] -> m_out m' = []) /\
  (forall i s, rl_wait (dir_at (m_queue m) i s) = 0 -> rl_wait (dir_at (m_queue m') i s) = 0).
Proof.
  intros Hst Hi Hdy. destruct Hst as [i rw bio may j ioc ioc' q q0 q1 out flags Hrw Ht Hg
    |i rw bio may j ioc ioc' q q0 q1 out wait Hrw Ht Hg|i flags q out1 out2 wait
    |i flags elv_ok j ioc ioc' cmd q q1 out1 out2 Hf|i flags flags' q out1 out2 Hs He Ha
    |i flags q q1 out1 out2 Hp|q out|q out Hd|q out Hdd|busy all q out Hp]; cbn [m_queue m_out] in *;
    try (split_and!; [done|by destruct out1|done]).
  - assert (q_dying q0 = true) as Hd0 by by destruct Ht. unfold get_request_reserve in Hg. rewrite Hd0 in Hg. done.
  - assert (q_dying q0 = true) as Hd0 by by destruct Ht. unfold get_request_reserve in Hg. rewrite Hd0 in Hg.
    injection Hg as <- _. unfold get_request_wait. rewrite Hd0, orb_true_r. split_and!; [done|done|].
    intros i' s Hw. destruct Ht; [done|]. rewrite dir_at_upd. case_bool_decide as Hb; [|done].
    by destruct Hb as [-> ->].
  - destruct (freed_request_rest i flags q) as (_ & _ & _ & _ & _ & Ed & _).
    assert (q_dying (get_request_fail i flags q) = true) as Hd1
      by (unfold get_request_fail, rq_starved; destruct (_ =? _); cbn; by rewrite Ed).
    unfold get_request_wait. rewrite Hd1, orb_true_r. split_and!; [done|by destruct out1|].
    intros i' s Hw. unfold get_request_fail, rq_starved.
    destruct (_ =? _); [rewrite dir_at_upd; case_bool_decide as Hb; [destruct Hb as [-> ->]; cbn [rl_wait d_starve]|]|];
      by apply freed_no_sleeper.
  - destruct (finish_flags _ _ _ _ _ _ _ _ _ Hf) as (_ & _ & ->). split_and!; [done|by destruct out1|done].
  - rewrite put_last in Hp. injection Hp as <-. destruct (_ =? _); [split_and!; [done|by destruct out1|done]|].
    destruct (freed_request_rest i flags q) as (_ & _ & _ & _ & _ & Ed & _).
    split_and!; [by rewrite Ed|by destruct out1|]. intros i' s Hw. by apply freed_no_sleeper.
  - by split_and!.
  - by split_and!.
  - by split_and!.
  - split_and!; [done|done|]. intros i s Hw. by destruct s.
Qed.

Lemma none_out (l : list taken) : zcount (is_dir false) l = 0 -> zcount (is_dir true) l = 0 -> l = [].
Proof.
  destruct l as [|x l]; [done|]. rewrite !zcount_cons. intros H1 H2.
  pose proof (zcount_nonneg (is_dir false) l). pose proof (zcount_nonneg (is_dir true) l).
  unfold is_dir in H1 at 1, H2 at 1. destruct (rw_is_sync (tk_flags x)); cbn [Bool.eqb] in *; lia.
Qed.

Lemma dying_rtc m m' :
  rtc (rl_step T) m m' -> rl_inv nobody m -> q_dying (m_queue m) = true ->
  q_dying (m_queue m') = true /\ (m_out m = [] -> m_out m' = []) /\
  (forall i s, rl_wait (dir_at (m_queue m) i s) = 0 -> rl_wait (dir_at (m_queue m') i s) = 0).
Proof.
  induction 1 as [|m m1 m2 Hs _ IH]; [done|]. intros Hi Hdy.
  destruct (dying_step _ _ Hs Hi Hdy) as (Hd1 & Ho1 & Hw1).
  destruct (IH (rl_step_inv _ _ _ Hs Hi) Hd1) as (Hd2 & Ho2 & Hw2). split_and!; auto.
Qed.
End Drain.

(** entering bypass mode does what its comment guarantees: once a drain in bypass
    mode has ended no request that is out has elevator data, and none gets any for as
    long as the queue stays in bypass mode, whatever the tasks do. *)
Theorem bypass_drains_elevator (T nr batching : Z) (io_stat busy drain_all : bool) (m m' : rlm) :
  1 <= nr -> rtc (rl_step T) (mkRlm (new_queue nr batching io_stat) []) m ->
  drain_pending busy drain_all (m_queue m) = false ->
  rtc (bypassed_step T) m m' ->
  Forall (fun x => elvpriv (tk_flags x) = false) (m_out m').
Proof.
  intros Hnr Hr Hdr Hb. destruct (reachable_inv _ _ _ _ _ Hnr Hr) as [Hi _].
  assert (zcount is_elv (m_out m) = 0) as Hz.
  { rewrite <- (inv_elv _ _ Hi). unfold drain_pending in Hdr. apply orb_false_elim in Hdr as [Hdr _].
    apply orb_false_elim in Hdr as [Hdr%negb_false_iff _]. by apply Z.eqb_eq. }
  clear Hr Hdr. induction Hb as [m|m m1 m2 Hs _ IH].
  - induction (m_out m) as [|x l IHl]; [constructor|]. rewrite zcount_cons in Hz. unfold is_elv in Hz at 1.
    pose proof (zcount_nonneg is_elv l). constructor; [by destruct (elvpriv _); [lia|]|]. apply IHl. destruct (elvpriv _); lia.
  - apply IH; [by eapply rl_step_inv; [apply Hs|]|by eapply bypassed_no_elv].
Qed.

(** tearing a queue down: once the queue is marked dying and the drain of all
    requests has ended and woken the sleepers, no request is out, no task sleeps, and
    this stays so for ever. *)
Theorem cleanup_leaves_nobody (T nr batching : Z) (io_stat busy : bool) (m m' : rlm) :
  1 <= nr -> rtc (rl_step T) (mkRlm (new_queue nr batching io_stat) []) m ->
  q_dying (m_queue m) = true -> drain_pending busy true (m_queue m) = false ->
  rtc (rl_step T) (mkRlm (drain_wake (m_queue m)) (m_out m)) m' ->
  m_out m' = [] /\ forall i sync, rl_wait (dir_at (m_queue m') i sync) = 0 /\ rl_count (dir_at (m_queue m') i sync) = 0.
Proof.
  intros Hnr Hr Hdy Hdr Hr'. destruct (reachable_inv _ _ _ _ _ Hnr Hr) as [Hi _].
  assert (m_out m = []) as Hnone.
  { unfold drain_pending in Hdr. apply orb_false_elim in Hdr as [_ Hdr]. cbn [andb] in Hdr.
    apply orb_false_elim in Hdr as [Ha%negb_false_iff%Z.eqb_eq Hs%negb_false_iff%Z.eqb_eq].
    apply none_out; [rewrite <- (inv_nr _ _ Hi false)|rewrite <- (inv_nr _ _ Hi true)]; done. }
  assert (rl_step T m (mkRlm (drain_wake (m_queue m)) (m_out m))) as Hst
    by (destruct m as [q out]; by apply step_drained with (busy := busy) (drain_all := true)).
  pose proof (rl_step_inv _ _ _ Hst Hi) as Hi1.
  destruct (dying_rtc _ _ _ Hr' Hi1 Hdy) as (_ & Ho & Hw). specialize (Ho Hnone). split; [done|].
  intros i s. split; [apply Hw; by destruct s|].
  destruct (reachable_inv T nr batching io_stat m' Hnr) as [Hi2 _].
  { etrans; [exact Hr|]. etrans; [by apply rtc_once|]. exact Hr'. }
  by rewrite (dir_count _ _ _ _ (inv_dirs _ _ Hi2 i s)), Ho.
Qed.

(** ** A trace *)

(** A queue of one request; one task takes it for a read, the next one has to sleep. *)
Definition demo_new : rqueue := new_queue 1 32 false.
Definition demo_taken : rqueue := fst (fst (get_request_reserve 5 0 0 None ELV_MQUEUE_MAY 0 None demo_new)).
Definition demo_full : rlm :=
  mkRlm (get_request_wait 0 true true demo_taken) [mkTaken 0 (Z.lor 0 REQ_ELVPRIV) false].

Lemma demo_reached : rtc (rl_step 5) (mkRlm demo_new []) demo_full.
Proof.
  eapply rtc_l; [eapply (step_reserve 5 0 0 None ELV_MQUEUE_MAY 0 None None); [by left|apply try_first|reflexivity]|].
  apply rtc_once.
  apply (step_refused 5 0 0 None ELV_MQUEUE_MAY 0 None None demo_taken demo_taken demo_taken _ true);
    [by left|apply try_first|reflexivity].
Qed.

Lemma request_counts_exact_witness :
  rl_count (dir_at (m_queue demo_full) 0 true) = 1 /\ rl_full (dir_at (m_queue demo_full) 0 true) = true.
Proof.
  destruct (request_counts_exact 5 1 32 false demo_full ltac:(lia) demo_reached) as (Hd & _).
  destruct (Hd 0%nat true) as (Hc & _ & Hf). split; [exact Hc|]. apply Hf. rewrite Hc. reflexivity.
Defined.

Lemma congestion_tracks_load_witness : for_sync (q_congested (m_queue demo_full)) = true.
Proof.
  destruct (congestion_tracks_load 5 1 32 false demo_full true ltac:(lia) demo_reached) as (_ & _ & Hon & _).
  apply Hon. vm_compute. discriminate.
Defined.

Lemma no_lost_wakeup_witness :
  rl_woken (dir_at (freed_request 0 0 (m_queue demo_full)) 0 true) = 1.
Proof.
  destruct (no_lost_wakeup 5 1 32 false demo_full 0 true 0 ltac:(lia) demo_reached eq_refl ltac:(by vm_compute))
    as [_ Hw].
  apply Hw. vm_compute. discriminate.
Defined.

(** The same queue, entering bypass mode or going away before anything is taken. *)
Lemma bypass_drains_elevator_witness :
  let q := fst (blk_queue_bypass_enter demo_new) in
  exists q' flags, rl_step 5 (mkRlm q []) (mkRlm q' [mkTaken 0 flags false]) /\ elvpriv flags = false.
Proof.
  intros q.
  set (r := get_request_reserve 5 0 0 None ELV_MQUEUE_MAY 0 None q).
  assert (rl_step 5 (mkRlm q []) (mkRlm (fst (fst r)) [mkTaken 0 0 false])) as Hs
    by (apply (step_reserve 5 0 0 None ELV_MQUEUE_MAY 0 None None q q (fst (fst r))); [by left|apply try_first|reflexivity]).
  assert (rtc (rl_step 5) (mkRlm demo_new []) (mkRlm q [])) as Hr by (apply rtc_once, step_bypass_enter).
  exists (fst (fst r)), 0. split; [exact Hs|].
  pose proof (bypass_drains_elevator 5 1 32 false false false (mkRlm q []) _ ltac:(lia) Hr eq_refl
    (rtc_once _ _ (conj Hs eq_refl))) as Hf.
  apply Forall_cons_1 in Hf as [Hf _]. exact Hf.
Defined.

Lemma cleanup_leaves_nobody_witness :
  let m := mkRlm (drain_wake (blk_cleanup_mark demo_new)) [] in
  m_out m = [] /\ rl_wait (dir_at (m_queue m) 0 true) = 0.
Proof.
  intros m.
  destruct (cleanup_leaves_nobody 5 1 32 false false (mkRlm (blk_cleanup_mark demo_new) []) m ltac:(lia)
    ltac:(apply rtc_once; by apply step_cleanup) eq_refl eq_refl (rtc_refl _ _)) as [Ho Hw].
  split; [exact Ho|apply Hw].
Defined.
