(* ===== verification/BlkQueue.v ===== *)
(** * block/blk-core.c: requests between the task, the elevator and the driver

    [blk_queue_bio] turns a bio into a request, or adds it to one, in the task's plug
    or in the elevator; [blk_flush_plug_list] hands the plugged requests over;
    [blk_fetch_request] gives the driver the next one, ending those its
    [prep_rq_fn] refuses; the functions of the [blk_end_request] family take it back.
    The elevator is the list of the requests it was given, in dispatch order.
    Results: no bio is lost or doubled between submission and the driver, what the
    driver refuses is ended, and a request that is ended completely is given back
    exactly once. *)

From stdpp Require Import base gmap list list_numbers sorting.
From coqutil Require Import Byte.
From Stdlib Require Import ZArith Lia Sorting.Permutation.
From S2P Require Import Prelude Kapi Ring Layout State Scsi SimDisk Log Core CoreInv CoreSpec CoreReq CoreThm Sim Swap SwapThm BlkCore BlkThm BlkReq BlkReqThm.

Local Open Scope Z_scope.

(** ** State *)

Inductive elv_where := ELEVATOR_INSERT_SORT | ELEVATOR_INSERT_SORT_MERGE | ELEVATOR_INSERT_FLUSH.

(** A request with its identity, its queue and the other half of a bidirectional
    one. *)
Record qreq := mkQreq {
  qr_id : nat;
  qr_q : nat;
  qr_rq : rreq;
  qr_next : option rreq
}.

Definition qr_with (rq : rreq) (r : qreq) : qreq := mkQreq (qr_id r) (qr_q r) rq (qr_next r).
Definition rr_with_flags (f : Z) (rq : rreq) : rreq :=
  mkRreq (rr_bio rq) (rr_data_len rq) (rr_sector rq) (rr_cmd_type rq) f (rr_errors rq).

(** [current->plug]: its requests and [should_sort]. *)
Record blk_plug := mkPlug { pl_list : list qreq; pl_should_sort : bool }.

Record bst (D : Type) := mkBst {
  b_blk : blk D;
  b_plug : option blk_plug;
  b_elv : list (elv_where * qreq);
  b_timers : list nat;       (* requests the driver has *)
  b_put : list nat;          (* requests given back *)
  b_runs : list nat;         (* queues run *)
  b_next_id : nat
}.
Arguments mkBst {D} _ _ _ _ _ _ _.
Arguments b_blk {D} _.
Arguments b_plug {D} _.
Arguments b_elv {D} _.
Arguments b_timers {D} _.
Arguments b_put {D} _.
Arguments b_runs {D} _.
Arguments b_next_id {D} _.

Section Upd.
Context {D : Type}.
Implicit Types s : bst D.
Definition with_blk (k : blk D) s : bst D :=
  mkBst k (b_plug s) (b_elv s) (b_timers s) (b_put s) (b_runs s) (b_next_id s).
Definition with_plug (p : option blk_plug) s : bst D :=
  mkBst (b_blk s) p (b_elv s) (b_timers s) (b_put s) (b_runs s) (b_next_id s).
Definition with_elv (l : list (elv_where * qreq)) s : bst D :=
  mkBst (b_blk s) (b_plug s) l (b_timers s) (b_put s) (b_runs s) (b_next_id s).
Definition with_timers (l : list nat) s : bst D :=
  mkBst (b_blk s) (b_plug s) (b_elv s) l (b_put s) (b_runs s) (b_next_id s).
Definition with_put (l : list nat) s : bst D :=
  mkBst (b_blk s) (b_plug s) (b_elv s) (b_timers s) l (b_runs s) (b_next_id s).
Definition with_runs (l : list nat) s : bst D :=
  mkBst (b_blk s) (b_plug s) (b_elv s) (b_timers s) (b_put s) l (b_next_id s).
Definition with_next_id (n : nat) s : bst D :=
  mkBst (b_blk s) (b_plug s) (b_elv s) (b_timers s) (b_put s) (b_runs s) n.

(** Code that ends bios. *)
Definition on_blk {A} (m : K (blk D) A) : K (bst D) A := fun s =>
  match m (b_blk s) with
  | Ok (a, k') => Ok (a, with_blk k' s)
  | Oops f => Oops f
  end.

Lemma wp_on_blk {A} (m : K (blk D) A) Q s :
  wp m (fun a k' => Q a (with_blk k' s)) (b_blk s) -> wp (on_blk m) Q s.
Proof. unfold wp, on_blk. by destruct (m (b_blk s)) as [[a k']|]. Qed.
End Upd.

Section Code.
Context {D : Type} `{ScsiLower D}.

(** Whether the request is on a list of the queue. *)
Definition blk_queued_rq (r : qreq) (s : bst D) : bool :=
  existsb (fun x => qr_id (snd x) =? qr_id r)%nat (b_elv s).

(** ** Ending a request *)

(** [unprep_rq_fn] of the driver, and [req->end_io] where the request has one, are
    not called for the requests of this file. *)
Definition blk_finish_request (r : qreq) : K (bst D) unit :=
  s ← kget;
  if blk_queued_rq r s then kfail BugOn else
  kmod (fun s => with_timers (List.filter (fun i => negb (i =? qr_id r)%nat) (b_timers s)) s);;
  kmod (fun s => with_put (b_put s ++ [qr_id r]) s).

(** True when the request has more to do. *)
Definition __blk_end_bidi_request (r : qreq) (error nr_bytes bidi_bytes : Z) : K (bst D) (bool * qreq) :=
  x ← on_blk (blk_update_bidi_request (qr_rq r) (qr_next r) error nr_bytes bidi_bytes);
  let '(pending, rq, next) := x in
  let r := mkQreq (qr_id r) (qr_q r) rq next in
  if (pending : bool) then mret (true, r) else
  blk_finish_request r;;
  mret (false, r).

(** The same with the queue lock taken inside. *)
Definition blk_end_bidi_request := __blk_end_bidi_request.

Definition __blk_end_request (r : qreq) (error nr_bytes : Z) : K (bst D) (bool * qreq) :=
  __blk_end_bidi_request r error nr_bytes 0.
Definition blk_end_request (r : qreq) (error nr_bytes : Z) : K (bst D) (bool * qreq) :=
  blk_end_bidi_request r error nr_bytes 0.

Definition __blk_end_request_all (r : qreq) (error : Z) : K (bst D) unit :=
  let bidi_bytes := match qr_next r with Some n => rr_data_len n | None => 0 end in
  x ← __blk_end_bidi_request r error (rr_data_len (qr_rq r)) bidi_bytes;
  if (fst x : bool) then kfail BugOn else mret tt.
Definition blk_end_request_all := __blk_end_request_all.

Definition __blk_end_request_cur (r : qreq) (error : Z) : K (bst D) (bool * qreq) :=
  __blk_end_request r error (blk_rq_cur_bytes (qr_rq r)).
Definition blk_end_request_cur (r : qreq) (error : Z) : K (bst D) (bool * qreq) :=
  blk_end_request r error (blk_rq_cur_bytes (qr_rq r)).

Definition __blk_end_request_err (r : qreq) (error : Z) : K (bst D) (bool * qreq) :=
  n ← blk_rq_err_bytes (qr_rq r);
  __blk_end_request r error n.
Definition blk_end_request_err := __blk_end_request_err.

(** ** Handing requests to the driver *)

Definition blk_dequeue_request (r : qreq) : K (bst D) unit :=
  s ← kget;
  if negb (blk_queued_rq r s) then kfail BugOn else
  kmod (fun s => with_elv (List.filter (fun x => negb (qr_id (snd x) =? qr_id r)%nat) (b_elv s)) s).

Definition blk_start_request (r : qreq) : K (bst D) unit :=
  blk_dequeue_request r;;
  kmod (fun s => with_timers (b_timers s ++ [qr_id r]) s).

Inductive blkprep := PREP_OK | PREP_DEFER | PREP_KILL | PREP_BAD.

(** The driver's [prep_rq_fn], if it has one; it may change the request. *)
Variable prep_rq_fn : option (rreq -> blkprep * rreq).

(** [__elv_next_request]: the first request of the queue. *)
Definition elv_next (q : nat) (l : list (elv_where * qreq)) : option qreq :=
  snd <$> List.find (fun x => qr_q (snd x) =? q)%nat l.

Definition elv_set (r : qreq) (l : list (elv_where * qreq)) : list (elv_where * qreq) :=
  (fun x => if (qr_id (snd x) =? qr_id r)%nat then (fst x, r) else x) <$> l.

(** One request for each unit of fuel; [nr_phys_segments] and the elevator's
    [boundary_rq] are not kept. *)
Fixpoint peek_loop (fuel : nat) (q : nat) : K (bst D) (option qreq) :=
  match fuel with
  | O => kfail Hang
  | S f =>
      s ← kget;
      match elv_next q (b_elv s) with
      | None => mret None
      | Some r =>
          let r := qr_with (rr_with_flags (Z.lor (rr_cmd_flags (qr_rq r)) REQ_STARTED) (qr_rq r)) r in
          kmod (fun s => with_elv (elv_set r (b_elv s)) s);;
          if has_flag (rr_cmd_flags (qr_rq r)) REQ_DONTPREP then mret (Some r) else
          match prep_rq_fn with
          | None => mret (Some r)
          | Some prep =>
              let '(ret, rq) := prep (qr_rq r) in
              let r := qr_with rq r in
              kmod (fun s => with_elv (elv_set r (b_elv s)) s);;
              match ret with
              | PREP_OK | PREP_BAD => mret (Some r)
              | PREP_DEFER => mret None
              | PREP_KILL =>
                  let r := qr_with (rr_with_flags (Z.lor (rr_cmd_flags (qr_rq r)) REQ_QUIET) (qr_rq r)) r in
                  blk_start_request r;;
                  __blk_end_request_all r (- EIO);;
                  peek_loop f q
              end
          end
      end
  end.

Definition blk_peek_request (q : nat) : K (bst D) (option qreq) :=
  s ← kget;
  peek_loop (S (length (b_elv s))) q.

Definition blk_fetch_request (q : nat) : K (bst D) (option qreq) :=
  r ← blk_peek_request q;
  match r with
  | None => mret None
  | Some r => blk_start_request r;; mret (Some r)
  end.

(** ** The plug *)

(** A nested plug is not used. *)
Definition blk_start_plug : K (bst D) bool :=
  s ← kget;
  match b_plug s with
  | Some _ => mret false
  | None => kmod (with_plug (Some (mkPlug [] false)));; mret true
  end.

(** 0 when [a] goes in front of [b]. *)
Definition plug_rq_cmp (a b : qreq) : Z :=
  if (qr_q a <? qr_q b)%nat || ((qr_q a =? qr_q b)%nat && (rr_sector (qr_rq a) <? rr_sector (qr_rq b)))
  then 0 else 1.

(** lib/list_sort.c; whether a queue is dying. *)
Variable list_sort : (qreq -> qreq -> Z) -> list qreq -> list qreq.
Variable blk_queue_dying : nat -> bool.

Definition __elv_add_request (w : elv_where) (r : qreq) : K (bst D) unit :=
  kmod (fun s => with_elv (b_elv s ++ [(w, r)]) s).
Definition blk_run (q : nat) : K (bst D) unit := kmod (fun s => with_runs (b_runs s ++ [q]) s).

(** [depth] goes to the trace only. *)
Definition queue_unplugged (q : nat) : K (bst D) unit := blk_run q.

(** The loop over the spliced list, with the queue locked so far. *)
Fixpoint flush_loop (cur : option nat) (l : list qreq) : K (bst D) unit :=
  match l with
  | [] => match cur with Some q => queue_unplugged q | None => mret tt end
  | r :: rest =>
      (if bool_decide (cur = Some (qr_q r)) then mret tt
       else match cur with Some q => queue_unplugged q | None => mret tt end);;
      (if blk_queue_dying (qr_q r) then __blk_end_request_all r (- ENODEV)
       else if has_flag (rr_cmd_flags (qr_rq r)) (Z.lor REQ_FLUSH REQ_FUA)
            then __elv_add_request ELEVATOR_INSERT_FLUSH r
            else __elv_add_request ELEVATOR_INSERT_SORT_MERGE r);;
      flush_loop (Some (qr_q r)) rest
  end.

(** The callbacks of the plug belong to other subsystems. *)
Definition blk_flush_plug_list : K (bst D) unit :=
  s ← kget;
  match b_plug s with
  | None => mret tt
  | Some p =>
      match pl_list p with
      | [] => mret tt
      | l =>
          let l := if pl_should_sort p then list_sort plug_rq_cmp l else l in
          kmod (with_plug (Some (mkPlug [] false)));;
          flush_loop None l
      end
  end.

(** For the task's own plug. *)
Definition blk_finish_plug : K (bst D) unit :=
  blk_flush_plug_list;;
  kmod (with_plug None).

(** ** Queueing a bio *)

Definition BLK_MAX_REQUEST_COUNT : Z := 16.

(** A request fresh from the allocator. *)
Definition blk_rq_init (cmd_flags : Z) : rreq := mkRreq [] 0 NO_SECTOR REQ_TYPE_OTHER cmd_flags 0.

(** Merging (see BlkReq.v), [blk_queue_bounce], and of the elevator: the request it
    finds for a bio, and its list once a request has grown. *)
Variable ll_back_merge_fn ll_front_merge_fn blk_rq_merge_ok : rreq -> rbio -> bool.
Variable blk_rq_set_mixed_merge : rreq -> rreq.
Variable blk_try_merge : rreq -> rbio -> elv_ret.
Variable blk_queue_bounce : rbio -> rbio.
Variable elv_merge : nat -> list (elv_where * qreq) -> rbio -> elv_ret * nat.
Variable elv_settle : nat -> list (elv_where * qreq) -> list (elv_where * qreq).

(** [get_request]: the flags of a new request, or nothing on a dying queue. *)
Variable get_request : nat -> Z -> option Z.

Definition plug_view (q : nat) (p : blk_plug) : list (bool * rreq) :=
  (fun r => ((qr_q r =? q)%nat, qr_rq r)) <$> pl_list p.
Definition plug_store (l : list (bool * rreq)) (p : blk_plug) : blk_plug :=
  mkPlug (zip_with (fun r x => qr_with (snd x) r) (pl_list p) l) (pl_should_sort p).

(** The elevator's request [id] grown by the bio, if it takes it. *)
Definition elv_grow (grow : rreq -> rbio -> option rreq) (id : nat) (b : rbio) (l : list (elv_where * qreq))
    : option (list (elv_where * qreq)) :=
  match List.find (fun x => qr_id (snd x) =? id)%nat l with
  | None => None
  | Some (_, r) => (fun rq => elv_set (qr_with rq r) l) <$> grow (qr_rq r) b
  end.

(** From the label [get_rq] on. *)
Definition queue_new (q : nat) (b : rbio) (w : elv_where) (request_count : Z) : K (bst D) unit :=
  let rw := bi_rw (rb_bio b) in
  let rw_flags := Z.lor (Z.land rw REQ_WRITE) (Z.land rw REQ_SYNC) in
  match get_request q rw_flags with
  | None => on_blk (bio_endio b (- ENODEV))
  | Some flags =>
      s ← kget;
      kmod (with_next_id (S (b_next_id s)));;
      let r := mkQreq (b_next_id s) q (init_request_from_bio (blk_rq_init flags) b) None in
      match b_plug s with
      | Some p =>
          match last (pl_list p) with
          | None => mret tt
          | Some lr =>
              kmod (with_plug (Some (mkPlug (pl_list p) (pl_should_sort p || negb (qr_q lr =? q)%nat))));;
              if BLK_MAX_REQUEST_COUNT <=? request_count then blk_flush_plug_list else mret tt
          end;;
          kmod (fun s => match b_plug s with
                         | Some p => with_plug (Some (mkPlug (pl_list p ++ [r]) (pl_should_sort p))) s
                         | None => s
                         end)
      | None => __elv_add_request w r;; blk_run q
      end
  end.

Definition blk_queue_bio (q : nat) (b : rbio) : K (bst D) unit :=
  let b := blk_queue_bounce b in
  if has_flag (bi_rw (rb_bio b)) (Z.lor REQ_FLUSH REQ_FUA) then queue_new q b ELEVATOR_INSERT_FLUSH 0 else
  s ← kget;
  let '(merged, request_count, l) :=
    attempt_plug_merge ll_back_merge_fn ll_front_merge_fn blk_rq_set_mixed_merge blk_rq_merge_ok blk_try_merge
      (plug_view q <$> b_plug s) b 0 in
  kmod (with_plug (p ← b_plug s; l ← l; Some (plug_store l p)));;
  if (merged : bool) then mret tt else
  let '(el_ret, id) := elv_merge q (b_elv s) b in
  let grown :=
    match el_ret with
    | ELEVATOR_BACK_MERGE =>
        elv_grow (bio_attempt_back_merge ll_back_merge_fn blk_rq_set_mixed_merge) id b (b_elv s)
    | ELEVATOR_FRONT_MERGE =>
        elv_grow (bio_attempt_front_merge ll_front_merge_fn blk_rq_set_mixed_merge) id b (b_elv s)
    | ELEVATOR_NO_MERGE => None
    end in
  match grown with
  | Some l => kmod (with_elv (elv_settle id l))
  | None => queue_new q b ELEVATOR_INSERT_SORT request_count
  end.
End Code.

(** ** Ending a request completely *)

Definition bios_of (l : list qreq) : list rbio := concat ((fun r => rr_bio (qr_rq r)) <$> l).

Lemma bios_of_cons r l : bios_of (r :: l) = rr_bio (qr_rq r) ++ bios_of l.
Proof. done. Qed.
Lemma bios_of_app l1 l2 : bios_of (l1 ++ l2) = bios_of l1 ++ bios_of l2.
Proof. unfold bios_of. by rewrite fmap_app, concat_app. Qed.

(** A bio without its fail-fast bits, which marking a request as mixed sets. *)
Definition plain (b : rbio) : rbio :=
  rb_with_bio (bio_with_rw (Z.ldiff (bi_rw (rb_bio b)) REQ_FAILFAST_MASK) (rb_bio b)) b.

Definition plains_of (l : list qreq) : list rbio := plain <$> bios_of l.

Lemma plains_of_cons r l : plains_of (r :: l) = (plain <$> rr_bio (qr_rq r)) ++ plains_of l.
Proof. unfold plains_of. by rewrite bios_of_cons, fmap_app. Qed.
Lemma plains_of_app l1 l2 : plains_of (l1 ++ l2) = plains_of l1 ++ plains_of l2.
Proof. unfold plains_of. by rewrite bios_of_app, fmap_app. Qed.

(** [b] leaves the block layer: completed by a request, or refused a request by a
    dying queue; in each case exactly one entry is added for it. *)
Definition left_one {D} (b : rbio) (k k' : blk D) : Prop :=
  (exists pos error, finished_one pos error b k k') \/
  k' = mkBlk (bk_sw k) (bk_ended k ++ [(b, - ENODEV)]) (bk_made k) (bk_list k).

(** The bios of a list leave one after the other. *)
Inductive left_all {D} : list rbio -> blk D -> blk D -> Prop :=
  | left_nil k : left_all [] k k
  | left_cons b l k k1 k2 : left_one b k k1 -> left_all l k1 k2 -> left_all (b :: l) k k2.

Lemma left_app {D} l1 l2 (k k1 k2 : blk D) : left_all l1 k k1 -> left_all l2 k1 k2 -> left_all (l1 ++ l2) k k2.
Proof. induction 1; intros; cbn; [done|]. econstructor; eauto. Qed.

Lemma finished_left {D} pos error l (k k' : blk D) : finished pos error l k k' -> left_all l k k'.
Proof. induction 1; [constructor|]. econstructor; [left; eauto|done]. Qed.

(** A request in one direction over consecutive sectors. *)
Definition qr_wf (r : qreq) : Prop := rq_wf (qr_rq r) /\ qr_next r = None.

Section End.
Context {D : Type} `{BlockDevice D}.
Implicit Types s : bst D.

(** The state once [r] is given back with its bios ended. *)
Definition given_back (r : qreq) (k : blk D) s : bst D :=
  with_put (b_put s ++ [qr_id r])
    (with_timers (List.filter (fun i => negb (i =? qr_id r)%nat) (b_timers s)) (with_blk k s)).

Lemma no_data_no_bios rq : rq_wf rq -> rr_data_len rq = 0 -> rr_bio rq = [].
Proof.
  intros Hwf Hz. destruct (rr_bio rq) as [|b l] eqn:E; [done|exfalso].
  pose proof (wf_bios _ Hwf) as Hb. pose proof (wf_len _ Hwf) as Hl. rewrite E in *. apply Forall_cons in Hb as [Hb Hr].
  pose proof (wf_size b Hb). pose proof (bios_size_pos l Hr). cbn [bios_size] in Hl. lia.
Qed.

Lemma wp_end_all r error s :
  qr_wf r -> ready (b_blk s) -> blk_queued_rq r s = false ->
  wp (__blk_end_request_all r error)
     (fun _ s' => exists k', finished (rr_sector (qr_rq r)) error (rr_bio (qr_rq r)) (b_blk s) k' /\
        s' = given_back r k' s) s.
Proof.
  intros [Hwf Hnx] Hr Hq. unfold __blk_end_request_all, __blk_end_bidi_request. rewrite Hnx. do 2 kstep.
  apply wp_on_blk. unfold blk_update_bidi_request. kstep.
  pose proof (bios_size_pos _ (wf_bios _ Hwf)) as Hpos. pose proof (bios_size_whole _ (wf_bios _ Hwf)) as Hwh.
  rewrite <- (wf_len _ Hwf) in Hpos, Hwh.
  eapply wp_mono; [by apply wp_update_request|]. cbv beta.
  intros [more rq'] k1 (pre & post & Hpp & Hfin & [Hm Hl Hwf' Hd _ _]). cbn [fst snd] in *.
  rewrite Z.ltb_irrefl in Hm. subst more. kstep.
  assert (post = []) as ->.
  { destruct post; [done|exfalso]. rewrite (no_data_no_bios rq' Hwf') in Hl; [done|].
    rewrite (wf_len _ Hwf'), <- (zlen_bios_data _ (wf_bios _ Hwf')), Hd.
    pose proof (zlen_bios_data _ (wf_bios _ Hwf)). rewrite <- (wf_len _ Hwf) in *. unfold zlen in *.
    rewrite length_drop. lia. }
  rewrite app_nil_r in Hpp. subst pre.
  unfold blk_finish_request. kstep. do 2 kstep. unfold blk_queued_rq in *. cbn [b_elv with_blk qr_id].
  rewrite Hq. do 4 kstep. cbn [fst]. kstep. by exists k1.
Qed.
End End.

(** ** Flushing the plug *)

(** How the elevator is given a request of the plug. *)
Definition handed (r : qreq) : elv_where * qreq :=
  (if has_flag (rr_cmd_flags (qr_rq r)) (Z.lor REQ_FLUSH REQ_FUA) then ELEVATOR_INSERT_FLUSH
   else ELEVATOR_INSERT_SORT_MERGE, r).

(** The queues of a list, each group of neighbours once. *)
Fixpoint groups (cur : option nat) (l : list qreq) : list nat :=
  match l with
  | [] => option_list cur
  | r :: rest => (if bool_decide (cur = Some (qr_q r)) then [] else option_list cur) ++ groups (Some (qr_q r)) rest
  end.

Definition elv_ids (l : list (elv_where * qreq)) : list nat := (fun x => qr_id (snd x)) <$> l.

Lemma not_queued {D} r (s : bst D) : qr_id r ∉ elv_ids (b_elv s) -> blk_queued_rq r s = false.
Proof.
  intros Hn. unfold blk_queued_rq. apply not_true_iff_false. intros (x & Hx & E%Nat.eqb_eq)%existsb_exists.
  apply Hn. rewrite <- E. apply list_elem_of_fmap. exists x. split; [done|by apply list_elem_of_In].
Qed.

Section Flush.
Context {D : Type} `{BlockDevice D}.
Variable dying : nat -> bool.
Implicit Types s : bst D.

Definition is_dying (r : qreq) : bool := dying (qr_q r).
Definition is_live (r : qreq) : bool := negb (dying (qr_q r)).

(** [l] has gone to the elevator, or has been ended where its queue is dying. *)
Record flushed (cur : option nat) (l : list qreq) s s' : Prop := {
  fl_elv : b_elv s' = b_elv s ++ (handed <$> List.filter is_live l);
  fl_plug : b_plug s' = b_plug s;
  fl_id : b_next_id s' = b_next_id s;
  fl_put : b_put s' = b_put s ++ (qr_id <$> List.filter is_dying l);
  fl_runs : b_runs s' = b_runs s ++ groups cur l;
  fl_ended : left_all (bios_of (List.filter is_dying l)) (b_blk s) (b_blk s');
  fl_ready : ready (b_blk s')
}.

Lemma wp_flush_loop l : forall cur s,
  Forall qr_wf l -> ready (b_blk s) -> NoDup ((qr_id <$> l) ++ elv_ids (b_elv s)) ->
  wp (flush_loop dying cur l) (fun _ s' => flushed cur l s s') s.
Proof.
  induction l as [|r l IH]; intros cur s Hwf Hr Hnd; cbn [flush_loop].
  { destruct cur; [unfold queue_unplugged, blk_run|]; kstep; split; cbn; rewrite ?app_nil_r; done || constructor. }
  apply Forall_cons in Hwf as [Hwr Hwf]. cbn [fmap list_fmap app] in Hnd. apply NoDup_cons in Hnd as [Hni Hnd].
  set (cs := if bool_decide (cur = Some (qr_q r)) then [] else option_list cur).
  kstep. apply wp_mono with (P := fun _ s1 => s1 = with_runs (b_runs s ++ cs) s).
  { subst cs. case_bool_decide; [kstep; rewrite app_nil_r; by destruct s|].
    destruct cur; [by unfold queue_unplugged, blk_run; kstep|]. kstep. cbn. rewrite app_nil_r. by destruct s. }
  intros _ s1 ->. kstep.
  apply wp_mono with (P := fun _ s2 => flushed None [r] s (with_runs (b_runs s ++ [qr_q r]) s2) /\
                                       b_runs s2 = b_runs s ++ cs).
  { apply not_elem_of_app in Hni as [_ Hni]. destruct (dying (qr_q r)) eqn:Ed.
    - eapply wp_mono; [by apply wp_end_all; [..|apply not_queued]|]. cbv beta. intros _ s2 (k' & Hf & ->).
      destruct (finished_env _ _ _ _ _ Hf) as (He & Hh).
      split; [|done]. split; cbn; unfold is_live, is_dying; rewrite ?Ed; cbn; rewrite ?app_nil_r; try done.
      + by eapply finished_left.
      + unfold ready in *. by rewrite He, Hh.
    - replace (if has_flag _ _ then _ else _) with (__elv_add_request (D := D) (fst (handed r)) r)
        by (unfold handed; by destruct (has_flag _ _)).
      unfold __elv_add_request. kstep. split; [|done].
      split; cbn; unfold is_live, is_dying; rewrite ?Ed; cbn; rewrite ?app_nil_r; done || constructor. }
  intros _ s2 [Hf1 Hr1]. destruct Hf1 as [E1 E2 E3 E4 _ E6 E7]. cbn [b_elv b_plug b_next_id b_put b_blk with_runs] in *.
  eapply wp_mono; [apply IH; [done|done|]|].
  { rewrite E1. unfold elv_ids. rewrite fmap_app, app_assoc. apply NoDup_app. split_and!; [done| |].
    - intros i Hi Hin. cbn in Hin. destruct (is_live r); cbn in Hin; [|by apply not_elem_of_nil in Hin].
      apply list_elem_of_singleton in Hin as ->. done.
    - cbn. destruct (is_live r); cbn; [apply NoDup_singleton|apply NoDup_nil_2]. }
  cbv beta. intros _ s3 [F1 F2 F3 F4 F5 F6 F7].
  split; cbn [List.filter groups]; rewrite ?F1, ?F2, ?F3, ?F4, ?F5, ?E1, ?E2, ?E3, ?E4, ?Hr1; try done.
  - rewrite <- app_assoc. f_equal. cbn. by destruct (is_live r).
  - rewrite <- app_assoc. f_equal. cbn. by destruct (is_dying r).
  - by rewrite <- app_assoc.
  - cbn [List.filter] in E6. destruct (is_dying r); [|inversion E6; congruence].
    rewrite bios_of_cons in *. change (bios_of []) with (@nil rbio) in E6. rewrite app_nil_r in E6. by eapply left_app.
Qed.
End Flush.

(** What lib/list_sort.c promises for a comparison that goes with an order: 0 or less
    only where the first may stand in front, more than 0 only where the second may. *)
Class ListSort (sort : (qreq -> qreq -> Z) -> list qreq -> list qreq) : Prop := {
  list_sort_perm : forall cmp l, sort cmp l ≡ₚ l;
  list_sort_sorted : forall cmp (le : relation qreq) l,
    Transitive le -> (forall a b, cmp a b <= 0 -> le a b) -> (forall a b, 0 < cmp a b -> le b a) ->
    Sorted le (sort cmp l)
}.

(** Queue first, then sector. *)
Definition plug_le (a b : qreq) : Prop :=
  (qr_q a < qr_q b)%nat \/ qr_q a = qr_q b /\ rr_sector (qr_rq a) <= rr_sector (qr_rq b).

#[global] Instance plug_le_trans : Transitive plug_le.
Proof. intros a b c [?|[? ?]] [?|[? ?]]; unfold plug_le; lia. Qed.

Lemma plug_rq_cmp_order a b :
  (plug_rq_cmp a b <= 0 -> plug_le a b) /\ (0 < plug_rq_cmp a b -> plug_le b a).
Proof.
  unfold plug_rq_cmp, plug_le.
  destruct (Nat.ltb_spec (qr_q a) (qr_q b)), (Nat.eqb_spec (qr_q a) (qr_q b)),
    (Z.ltb_spec (rr_sector (qr_rq a)) (rr_sector (qr_rq b))); cbn; lia.
Qed.

Lemma groups_in cur l q : q ∈ groups cur l -> cur = Some q \/ exists r, r ∈ l /\ qr_q r = q.
Proof.
  revert cur. induction l as [|r l IH]; intros cur Hq; cbn [groups] in Hq.
  { destruct cur; cbn in Hq; [apply list_elem_of_singleton in Hq as ->; by left|by apply not_elem_of_nil in Hq]. }
  apply elem_of_app in Hq as [Hq|Hq].
  - case_bool_decide; [by apply not_elem_of_nil in Hq|].
    destruct cur; cbn in Hq; [apply list_elem_of_singleton in Hq as ->; by left|by apply not_elem_of_nil in Hq].
  - apply IH in Hq as [[= <-]|(r' & Hr & <-)]; right; [exists r|exists r']; (split; [by constructor|done]).
Qed.

(** In a sorted list every queue makes one group. *)
Lemma groups_sorted cur l :
  StronglySorted plug_le l -> (forall q r, cur = Some q -> r ∈ l -> (q <= qr_q r)%nat) -> NoDup (groups cur l).
Proof.
  intros Hs. revert cur. induction Hs as [|r l Hs IH Hall]; intros cur Hcur; cbn [groups].
  { destruct cur; cbn; [apply NoDup_singleton|apply NoDup_nil_2]. }
  assert (NoDup (groups (Some (qr_q r)) l)) as Hnd.
  { apply IH. intros q r' [= <-] Hr'. rewrite Forall_forall in Hall. destruct (Hall r' Hr') as [?|[? _]]; lia. }
  case_bool_decide as Hc; [done|]. destruct cur as [q|]; [|done]. cbn. apply NoDup_cons. split; [|done].
  intros Hin. assert (qr_q r <> q) as Hne by congruence.
  pose proof (Hcur q r eq_refl ltac:(by constructor)) as Hle.
  apply groups_in in Hin as [[= E]|(r' & Hr' & <-)]; [done|].
  rewrite Forall_forall in Hall. destruct (Hall r' Hr') as [?|[? _]]; lia.
Qed.

(** flushing a plug hands every request of it over exactly once: the requests of
    live queues go to the elevator, in the order of the plug or, where the plug says so,
    sorted by queue and sector; those of dying queues are ended with all their bios and
    given back.  Every queue concerned is run after its requests, and when the list was
    sorted, once.  The plug is empty afterwards. *)
Theorem plug_flush_hands_over {D} `{BlockDevice D} (sort : (qreq -> qreq -> Z) -> list qreq -> list qreq)
    `{!ListSort sort} (dying : nat -> bool) (p : blk_plug) (s : bst D) :
  b_plug s = Some p -> Forall qr_wf (pl_list p) -> ready (b_blk s) ->
  NoDup ((qr_id <$> pl_list p) ++ elv_ids (b_elv s)) ->
  wp (blk_flush_plug_list sort dying)
     (fun _ s' => exists l, l ≡ₚ pl_list p /\
        (if pl_should_sort p then Sorted plug_le l /\ NoDup (groups None l) else l = pl_list p) /\
        b_elv s' = b_elv s ++ (handed <$> List.filter (is_live dying) l) /\
        b_put s' = b_put s ++ (qr_id <$> List.filter (is_dying dying) l) /\
        left_all (bios_of (List.filter (is_dying dying) l)) (b_blk s) (b_blk s') /\
        b_runs s' = b_runs s ++ groups None l /\
        (pl_list <$> b_plug s') = Some []) s.
Proof.
  intros Hp Hwf Hr Hnd. unfold blk_flush_plug_list. do 2 kstep. rewrite Hp.
  destruct (pl_list p) as [|r0 l0] eqn:El.
  { kstep. exists []. rewrite Hp, !app_nil_r. cbn. rewrite El.
    split; [done|]. split; [|split_and!; done || constructor].
    destruct (pl_should_sort p); [|done]. split; [constructor|apply NoDup_nil_2]. }
  rewrite <- El in *. set (l := if pl_should_sort p then _ else _). cbv zeta.
  assert (l ≡ₚ pl_list p) as Hperm by (subst l; destruct (pl_should_sort p); [apply list_sort_perm|done]).
  do 2 kstep. eapply wp_mono; [apply wp_flush_loop; [by eapply Forall_Permutation|done|]|].
  { cbn [b_elv with_plug]. eapply NoDup_Permutation_proper; [|exact Hnd]. by apply Permutation_app_tail, fmap_Permutation. }
  cbv beta. intros _ s' [F1 F2 _ F4 F5 F6 _]. cbn [b_elv b_plug b_put b_runs b_blk with_plug] in *.
  exists l. split; [done|]. rewrite F2. split; [|by split_and!].
  subst l. destruct (pl_should_sort p); [|done].
  assert (Sorted plug_le (sort plug_rq_cmp (pl_list p))) as Hs.
  { apply list_sort_sorted; [apply _|apply plug_rq_cmp_order|apply plug_rq_cmp_order]. }
  split; [done|]. apply groups_sorted; [|done]. apply Sorted_StronglySorted; [intros a b c; apply plug_le_trans|done].
Qed.

(** ** Queueing a bio *)

Section Queueing.
Context {D : Type} `{BlockDevice D}.
Variable sort : (qreq -> qreq -> Z) -> list qreq -> list qreq.
Context `{!ListSort sort}.
Variable dying : nat -> bool.
Variable ll_back ll_front merge_ok : rreq -> rbio -> bool.
Variable mixed : rreq -> rreq.
Variable try_merge : rreq -> rbio -> elv_ret.
Variable bounce : rbio -> rbio.
Variable find_rq : nat -> list (elv_where * qreq) -> rbio -> elv_ret * nat.
Variable settle : nat -> list (elv_where * qreq) -> list (elv_where * qreq).
Variable get_rq : nat -> Z -> option Z.
Hypothesis mixed_bios : forall rq, plain <$> rr_bio (mixed rq) = plain <$> rr_bio rq.
Hypothesis settle_bios : forall id l, plains_of (snd <$> settle id l) ≡ₚ plains_of (snd <$> l).
Implicit Types s : bst D.

Definition plug_reqs s : list qreq := match b_plug s with Some p => pl_list p | None => [] end.
Definition held s : list qreq := plug_reqs s ++ (snd <$> b_elv s).

(** Requests the task and the elevator hold are sound and distinct. *)
Record bst_ok s : Prop := {
  ok_ready : ready (b_blk s);
  ok_plug : Forall qr_wf (plug_reqs s);
  ok_ids : NoDup ((qr_id <$> plug_reqs s) ++ elv_ids (b_elv s));
  ok_fresh : Forall (fun r => (qr_id r < b_next_id s)%nat) (held s)
}.

(** [b] is now held by exactly one request, or among the bios that were completed. *)
Definition carries (b : rbio) (lossless : Prop) s s' : Prop :=
  exists gone, plain b :: plains_of (held s) ≡ₚ plains_of (held s') ++ (plain <$> gone) /\
    left_all gone (b_blk s) (b_blk s') /\ (lossless -> gone = []).

Lemma bios_split (f : qreq -> bool) l :
  bios_of l ≡ₚ bios_of (List.filter (fun r => negb (f r)) l) ++ bios_of (List.filter f l).
Proof.
  induction l as [|r l IH]; [done|]. cbn [List.filter]. rewrite bios_of_cons.
  destruct (f r); cbn [negb]; rewrite bios_of_cons.
  - rewrite (Permutation_app_comm (bios_of (List.filter _ l)) _), <- app_assoc.
    apply Permutation_app_head. rewrite IH. apply Permutation_app_comm.
  - rewrite <- app_assoc. by apply Permutation_app_head.
Qed.

Lemma fmap_handed (l : list qreq) : snd <$> (handed <$> l) = l.
Proof. induction l as [|r l IH]; [done|]. cbn. by f_equal. Qed.

Lemma last_not_nil {A} (l : list A) x : last l = Some x -> exists y l', l = y :: l'.
Proof. destruct l; [done|eauto]. Qed.

(** Flushing on the way keeps what is held, but for the requests of dying queues. *)
Lemma wp_flush_held s :
  bst_ok s ->
  wp (blk_flush_plug_list sort dying)
     (fun _ s' => exists gone, plains_of (held s) ≡ₚ plains_of (held s') ++ (plain <$> gone) /\
        left_all gone (b_blk s) (b_blk s') /\
        ((forall q, dying q = false) -> gone = []) /\
        (is_Some (b_plug s) -> is_Some (b_plug s')) /\ plug_reqs s' = []) s.
Proof.
  intros [Hr Hwf Hnd _]. unfold blk_flush_plug_list. do 2 kstep.
  unfold held, plug_reqs in *. destruct (b_plug s) as [p|] eqn:Ep.
  2:{ kstep. exists []. rewrite Ep, app_nil_r. split_and!; done || constructor. }
  destruct (pl_list p) as [|r0 l0] eqn:El.
  { kstep. exists []. rewrite Ep, El, app_nil_r. split_and!; done || constructor. }
  rewrite <- El in *. set (l := if pl_should_sort p then _ else _). cbv zeta.
  assert (l ≡ₚ pl_list p) as Hperm by (subst l; destruct (pl_should_sort p); [apply list_sort_perm|done]).
  do 2 kstep. eapply wp_mono; [apply wp_flush_loop; [by eapply Forall_Permutation|done|]|].
  { cbn [b_elv with_plug]. eapply NoDup_Permutation_proper; [|exact Hnd]. by apply Permutation_app_tail, fmap_Permutation. }
  cbv beta. intros _ s' [F1 F2 _ F4 F5 F6 _]. cbn [b_elv b_plug b_put b_runs b_blk with_plug] in *.
  exists (bios_of (List.filter (is_dying dying) l)). rewrite F1, F2, fmap_app, fmap_handed. cbn [pl_list app].
  split_and!; [|done| |done|done].
  - rewrite !plains_of_app, (Permutation_app_comm (plains_of (pl_list p))), <- app_assoc. apply Permutation_app_head.
    unfold plains_of. rewrite <- fmap_app. apply fmap_Permutation.
    rewrite <- (bios_split (is_dying dying) l). unfold bios_of. by rewrite Hperm.
  - intros Hall. clear -Hall. induction l as [|r l IH]; [done|]. cbn [List.filter].
    unfold is_dying at 1. by rewrite Hall.
Qed.

Lemma wp_queue_new q b w n s :
  bst_ok s ->
  wp (queue_new sort dying get_rq q b w n)
     (fun _ s' => carries b ((forall q, dying q = false) /\ (forall f, get_rq q f <> None)) s s') s.
Proof.
  intros Hok. unfold queue_new. destruct (get_rq _ _) as [flags|] eqn:Eg.
  2:{ apply wp_on_blk. unfold bio_endio. kstep. exists [b]. split_and!.
      - apply Permutation_cons_append.
      - econstructor; [by right|constructor].
      - intros [_ Hg]. by apply Hg in Eg. }
  do 4 kstep. set (r := mkQreq _ _ _ _). cbn [b_plug with_next_id].
  assert (rr_bio (qr_rq r) = [b]) as Hb by done.
  destruct (b_plug s) as [p|] eqn:Ep.
  2:{ unfold __elv_add_request, blk_run. do 3 kstep. exists []. unfold held, plug_reqs.
      cbn [b_plug b_elv b_blk with_elv with_next_id with_runs]. rewrite Ep. cbn [app].
      rewrite fmap_app, plains_of_app. split_and!; [|constructor|done]. cbn. rewrite !app_nil_r. apply Permutation_cons_append. }
  kstep.
  apply wp_mono with (P := fun _ s1 => exists gone, plains_of (held s) ≡ₚ plains_of (held s1) ++ (plain <$> gone) /\
      left_all gone (b_blk s) (b_blk s1) /\
      ((forall q, dying q = false) -> gone = []) /\ is_Some (b_plug s1)).
  { destruct (last (pl_list p)) as [lr|] eqn:Elast.
    2:{ kstep. exists []. rewrite app_nil_r. unfold held, plug_reqs. cbn. rewrite Ep. split_and!; done || constructor. }
    do 2 kstep. set (s1 := with_plug _ _).
    assert (held s1 = held s) as Eh by (unfold held, plug_reqs; cbn; by rewrite Ep).
    destruct (_ <=? _).
    - rewrite <- Eh. eapply wp_mono; [apply wp_flush_held|].
      { destruct Hok as [H1 H2 H3 H4]. unfold plug_reqs in *. rewrite Ep in *.
        split; [done|done|done|]. rewrite Eh. eapply Forall_impl; [exact H4|]. cbn. lia. }
      cbv beta. intros _ s2 (gone & Hg1 & Hg2 & Hg3 & Hg4 & _). exists gone. split_and!; try done. by apply Hg4.
    - kstep. exists []. rewrite Eh, app_nil_r. split_and!; done || constructor. }
  intros _ s1 (gone & Hg1 & Hg2 & Hg3 & [p1 Ep1]). kstep. rewrite Ep1. exists gone.
  unfold held, plug_reqs in *. cbn [b_plug b_elv b_blk with_plug pl_list]. rewrite Ep1 in Hg1.
  split_and!; [|done|by intros [? _]; auto].
  etrans; [apply perm_skip, Hg1|]. rewrite !plains_of_app, plains_of_cons, Hb, <- !app_assoc.
  cbn [app fmap list_fmap]. apply Permutation_middle.
Qed.

(** *** Merging *)

Definition rbios (l : list (bool * rreq)) : list rbio := plain <$> concat ((fun x => rr_bio (snd x)) <$> l).

Lemma rbios_cons m rq l : rbios ((m, rq) :: l) = (plain <$> rr_bio rq) ++ rbios l.
Proof. unfold rbios. by rewrite fmap_cons, concat_cons, fmap_app. Qed.

Lemma back_merge_bios rq b rq' :
  bio_attempt_back_merge ll_back mixed rq b = Some rq' -> plain <$> rr_bio rq' ≡ₚ plain b :: (plain <$> rr_bio rq).
Proof.
  unfold bio_attempt_back_merge. destruct (negb (ll_back _ _)); [done|]. intros [= <-]. cbn [rr_bio].
  destruct (negb _); rewrite fmap_app, ?mixed_bios; symmetry; apply Permutation_cons_append.
Qed.

Lemma front_merge_bios rq b rq' :
  bio_attempt_front_merge ll_front mixed rq b = Some rq' -> plain <$> rr_bio rq' ≡ₚ plain b :: (plain <$> rr_bio rq).
Proof.
  unfold bio_attempt_front_merge. destruct (negb (ll_front _ _)); [done|]. intros [= <-]. cbn [rr_bio].
  by destruct (negb _); cbn [fmap list_fmap]; rewrite ?mixed_bios.
Qed.

Lemma plug_walk_bios l b : forall n,
  let '(merged, _, l') := plug_walk ll_back ll_front mixed merge_ok try_merge l b n in
  length l' = length l /\ if merged then rbios l' ≡ₚ plain b :: rbios l else l' = l.
Proof.
  induction l as [|[mine rq] l IH]; intros n; cbn [plug_walk]; [done|].
  set (n1 := if mine then n + 1 else n). specialize (IH n1). destruct (plug_walk _ _ _ _ _ l b n1) as [[m k] l'].
  assert (length ((mine, rq) :: l') = length ((mine, rq) :: l) /\
          (if m then rbios ((mine, rq) :: l') ≡ₚ plain b :: rbios ((mine, rq) :: l) else (mine, rq) :: l' = (mine, rq) :: l))
    as Hskip.
  { destruct IH as [Hl Hb]. split; [cbn; lia|]. destruct m; [|by subst]. rewrite !rbios_cons.
    etrans; [apply Permutation_app_head, Hb|]. symmetry. apply Permutation_middle. }
  destruct (_ || _); [exact Hskip|].
  assert (forall rq', plain <$> rr_bio rq' ≡ₚ plain b :: (plain <$> rr_bio rq) ->
            length ((mine, rq') :: l) = length ((mine, rq) :: l) /\ rbios ((mine, rq') :: l) ≡ₚ plain b :: rbios ((mine, rq) :: l))
    as Hm by (intros rq' Hb; split; [done|]; rewrite !rbios_cons; exact (Permutation_app_tail _ Hb)).
  destruct (try_merge rq b); [exact Hskip| |].
  - destruct (bio_attempt_front_merge _ _ rq b) as [rq'|] eqn:E; [|exact Hskip]. by apply Hm, front_merge_bios.
  - destruct (bio_attempt_back_merge _ _ rq b) as [rq'|] eqn:E; [|exact Hskip]. by apply Hm, back_merge_bios.
Qed.

Lemma rbios_reverse l : rbios (reverse l) ≡ₚ rbios l.
Proof. unfold rbios. rewrite fmap_reverse. by rewrite (reverse_Permutation _). Qed.

Lemma rbios_view q p : rbios (plug_view q p) = plains_of (pl_list p).
Proof. unfold rbios, plug_view, plains_of, bios_of. by rewrite <- list_fmap_compose. Qed.

Lemma bios_store l p : length l = length (pl_list p) -> plains_of (pl_list (plug_store l p)) = rbios l.
Proof.
  unfold plug_store. cbn [pl_list]. generalize (pl_list p). intros rs. revert l.
  induction rs as [|r rs IH]; intros [|[m rq] l] Hl; try done. cbn [zip_with]. rewrite plains_of_cons, IH by (cbn in Hl; lia).
  by rewrite rbios_cons.
Qed.

Lemma store_view q p : plug_store (plug_view q p) p = p.
Proof.
  destruct p as [rs so]. unfold plug_store, plug_view. cbn [pl_list pl_should_sort]. f_equal.
  induction rs as [|[i q' rq nx] rs IH]; [done|]. cbn. by f_equal.
Qed.

Lemma plug_merge_bios q p b n :
  let '(merged, _, l) := attempt_plug_merge ll_back ll_front mixed merge_ok try_merge (Some (plug_view q p)) b n in
  exists l', l = Some l' /\
    if merged then plains_of (pl_list (plug_store l' p)) ≡ₚ plain b :: plains_of (pl_list p) else plug_store l' p = p.
Proof.
  unfold attempt_plug_merge. pose proof (plug_walk_bios (reverse (plug_view q p)) b 0) as Hw.
  destruct (plug_walk _ _ _ _ _ _ b 0) as [[m k] l']. destruct Hw as [Hl Hb]. exists (reverse l'). split; [done|].
  rewrite length_reverse in Hl. unfold plug_view in Hl. rewrite length_fmap in Hl. destruct m.
  - rewrite bios_store by (rewrite length_reverse; done). rewrite rbios_reverse, Hb.
    apply perm_skip. by rewrite rbios_reverse, rbios_view.
  - subst l'. rewrite reverse_involutive. apply store_view.
Qed.

Lemma elv_set_bios r rq b l :
  NoDup (elv_ids l) -> r ∈ (snd <$> l) -> plain <$> rr_bio rq ≡ₚ plain b :: (plain <$> rr_bio (qr_rq r)) ->
  plains_of (snd <$> elv_set (qr_with rq r) l) ≡ₚ plain b :: plains_of (snd <$> l).
Proof.
  intros Hnd Hin Hb. induction l as [|[w x] l IH]; [by apply not_elem_of_nil in Hin|].
  cbn [elv_ids fmap list_fmap snd] in Hnd. apply NoDup_cons in Hnd as [Hni Hnd].
  cbn [elv_set fmap list_fmap snd fst] in *. rewrite plains_of_cons. cbn [qr_id qr_with].
  destruct (Nat.eqb_spec (qr_id x) (qr_id r)) as [E|E].
  - assert (elv_set (qr_with rq r) l = l) as Hrest.
    { clear -Hni E. induction l as [|[w' y] l IH]; [done|]. cbn [elv_set fmap list_fmap snd fst elv_ids] in *.
      apply not_elem_of_cons in Hni as [Hne Hni]. cbn [qr_id qr_with].
      destruct (Nat.eqb_spec (qr_id y) (qr_id r)); [congruence|]. f_equal. by apply IH. }
    unfold elv_set in Hrest. cbn [qr_id qr_with] in Hrest. rewrite Hrest. cbn [snd]. rewrite plains_of_cons.
    assert (x = r) as ->.
    { apply elem_of_cons in Hin as [->|Hin]; [done|]. exfalso. apply Hni. rewrite E. unfold elv_ids.
      apply list_elem_of_fmap in Hin as (y & -> & Hy). apply list_elem_of_fmap. by exists y. }
    cbn [qr_rq qr_with]. by apply (Permutation_app_tail _ Hb).
  - apply elem_of_cons in Hin as [->|Hin]; [done|]. cbn [snd]. rewrite plains_of_cons.
    etrans; [apply Permutation_app_head, (IH Hnd Hin)|]. symmetry. apply Permutation_middle.
Qed.

Lemma elv_grow_bios (grow : rreq -> rbio -> option rreq) id b l l' :
  (forall rq rq', grow rq b = Some rq' -> plain <$> rr_bio rq' ≡ₚ plain b :: (plain <$> rr_bio rq)) -> NoDup (elv_ids l) ->
  elv_grow grow id b l = Some l' -> plains_of (snd <$> l') ≡ₚ plain b :: plains_of (snd <$> l).
Proof.
  intros Hg Hnd. unfold elv_grow. destruct (List.find _ l) as [[w r]|] eqn:Ef; [|done].
  apply find_some in Ef as [Hin _]. destruct (grow (qr_rq r) b) as [rq'|] eqn:Eg; [|done]. intros [= <-].
  apply elv_set_bios; [done| |by apply Hg]. apply list_elem_of_fmap. exists (w, r). split; [done|by apply list_elem_of_In].
Qed.

Lemma wp_blk_queue_bio q b s :
  bst_ok s ->
  wp (blk_queue_bio sort dying ll_back ll_front merge_ok mixed try_merge bounce find_rq settle get_rq q b)
     (fun _ s' => carries (bounce b) ((forall q, dying q = false) /\ (forall f, get_rq q f <> None)) s s') s.
Proof.
  intros Hok. unfold blk_queue_bio. cbv zeta. set (b' := bounce b).
  destruct (has_flag _ _); [by apply wp_queue_new|]. do 2 kstep.
  destruct (attempt_plug_merge _ _ _ _ _ _ b' 0) as [[merged n] l] eqn:Em.
  do 2 kstep. set (s1 := with_plug _ s).
  assert (if merged then plains_of (held s1) ≡ₚ plain b' :: plains_of (held s) else s1 = s) as Hs1.
  { subst s1. unfold held, plug_reqs. cbn [b_plug b_elv with_plug]. destruct (b_plug s) as [p|] eqn:Ep; cbn [fmap option_fmap option_map] in Em.
    - pose proof (plug_merge_bios q p b' 0) as Hp. rewrite Em in Hp. destruct Hp as (l' & -> & Hm). cbn [mbind option_bind].
      destruct merged; [|rewrite Hm, <- Ep; by destruct s].
      rewrite !plains_of_app. by apply (Permutation_app_tail _ Hm).
    - injection Em as <- <- <-. cbn [mbind option_bind]. rewrite <- Ep. by destruct s. }
  destruct merged.
  { kstep. exists []. rewrite app_nil_r. split_and!; [by symmetry|constructor|done]. }
  rewrite Hs1. clear s1 Hs1.
  destruct (find_rq q (b_elv s) b') as [el_ret id].
  assert (forall gr, (forall l', gr = Some l' -> plains_of (snd <$> l') ≡ₚ plain b' :: plains_of (snd <$> b_elv s)) ->
    wp (match gr with Some l => kmod (with_elv (settle id l))
        | None => queue_new sort dying get_rq q b' ELEVATOR_INSERT_SORT n end)
       (fun _ s' => carries b' ((forall q, dying q = false) /\ (forall f, get_rq q f <> None)) s s') s) as Hfin.
  { intros gr Hgr. destruct gr as [l'|]; [|by apply wp_queue_new]. kstep. exists []. rewrite app_nil_r.
    split_and!; [|constructor|done]. unfold held, plug_reqs. cbn [b_plug b_elv with_elv]. rewrite !plains_of_app.
    etrans; [apply Permutation_middle|]. apply Permutation_app_head.
    etrans; [|symmetry; apply settle_bios]. symmetry. by apply Hgr. }
  apply Hfin. intros l'. pose proof (ok_ids _ Hok) as Hids. apply NoDup_app in Hids as (_ & _ & Hids).
  destruct el_ret; [done| |]; apply elv_grow_bios; try done; intros rq rq';
    [apply front_merge_bios|apply back_merge_bios].
Qed.
End Queueing.

(** C16: a bio queued with [blk_queue_bio] (and bounced on the way) is held by exactly
    one request afterwards, in the plug or in the elevator, wherever it was merged or
    however the plug was flushed on the way, and no other bio is lost or doubled: up to
    the fail-fast bits, which marking a request as mixed sets in its bios, the bios held
    before and this one are the bios held now and those that left during the call; the
    latter left one after the other, each in one step that adds exactly one entry for
    it (ended, or queued for the swap core).  Nothing leaves unless a queue is dying.
    Assumed of the code outside: marking a request as mixed changes no more than the
    fail-fast bits of its bios, the elevator's rearrangement after a merge loses no
    bio, and list_sort permutes. *)
Theorem bio_queued_once {D} `{BlockDevice D} (sort : (qreq -> qreq -> Z) -> list qreq -> list qreq) `{!ListSort sort}
    (dying : nat -> bool) (ll_back ll_front merge_ok : rreq -> rbio -> bool) (mixed : rreq -> rreq)
    (try_merge : rreq -> rbio -> elv_ret) (bounce : rbio -> rbio)
    (find_rq : nat -> list (elv_where * qreq) -> rbio -> elv_ret * nat)
    (settle : nat -> list (elv_where * qreq) -> list (elv_where * qreq)) (get_rq : nat -> Z -> option Z)
    (q : nat) (b : rbio) (s : bst D) :
  (forall rq, plain <$> rr_bio (mixed rq) = plain <$> rr_bio rq) ->
  (forall id l, plains_of (snd <$> settle id l) ≡ₚ plains_of (snd <$> l)) ->
  bst_ok s ->
  wp (blk_queue_bio sort dying ll_back ll_front merge_ok mixed try_merge bounce find_rq settle get_rq q b)
     (fun _ s' => exists gone,
        plain (bounce b) :: plains_of (held s) ≡ₚ plains_of (held s') ++ (plain <$> gone) /\
        left_all gone (b_blk s) (b_blk s') /\
        ((forall q, dying q = false) -> (forall f, get_rq q f <> None) -> gone = [])) s.
Proof.
  intros Hmx Hst Hok. eapply wp_mono; [by apply wp_blk_queue_bio|]. cbv beta.
  intros _ s' (gone & H1 & H2 & H3). exists gone. split_and!; auto.
Qed.

(** ** What the driver fetches *)

Section Fetch.
Context {D : Type} `{BlockDevice D}.
Variable prep : rreq -> blkprep * rreq.

(** The driver's function may set flags of a request it refuses; it keeps what the
    request is for. *)
Definition keeps_request (rq rq' : rreq) : Prop :=
  rr_bio rq' = rr_bio rq /\ rr_sector rq' = rr_sector rq /\ rr_data_len rq' = rr_data_len rq /\
  rr_cmd_type rq' = rr_cmd_type rq /\
  has_flag (rr_cmd_flags rq') REQ_FLUSH_SEQ = has_flag (rr_cmd_flags rq) REQ_FLUSH_SEQ.
Hypothesis prep_keeps : forall rq, fst (prep rq) = PREP_KILL -> keeps_request rq (snd (prep rq)).
Implicit Types s : bst D.

Lemma keeps_wf rq rq' : keeps_request rq rq' -> rq_wf rq -> rq_wf rq'.
Proof.
  intros (E1 & E2 & E3 & E4 & E5) [H1 H2 H3 H4 H5 H6 H7]. split; rewrite ?E1, ?E2, ?E3, ?E4, ?E5; done.
Qed.

Definition started (rq : rreq) : rreq := rr_with_flags (Z.lor (rr_cmd_flags rq) REQ_STARTED) rq.
Definition quieted (rq : rreq) : rreq := rr_with_flags (Z.lor (rr_cmd_flags rq) REQ_QUIET) rq.

Lemma flag_keeps rq f :
  Z.testbit f 27 = false -> keeps_request rq (rr_with_flags (Z.lor (rr_cmd_flags rq) f) rq).
Proof.
  intros Hf. split_and!; try done. cbn [rr_cmd_flags rr_with_flags].
  by rewrite !has_flush_seq, Z.lor_spec, Hf, orb_false_r.
Qed.

(** The verdict on a request the driver sees. *)
Definition verdict (r : qreq) : blkprep * rreq :=
  let rq := started (qr_rq r) in
  if has_flag (rr_cmd_flags rq) REQ_DONTPREP then (PREP_OK, rq) else prep rq.

Definition of_q (q : nat) (l : list (elv_where * qreq)) : list (elv_where * qreq) :=
  List.filter (fun x => qr_q (snd x) =? q)%nat l.

Lemma elv_next_split q l r :
  elv_next q l = Some r ->
  exists l1 w l2, l = l1 ++ (w, r) :: l2 /\ of_q q l1 = [] /\ qr_q r = q.
Proof.
  unfold elv_next. induction l as [|[w x] l IH]; [done|]. cbn [List.find snd].
  destruct (Nat.eqb_spec (qr_q x) q) as [E|E]; cbn [fmap option_fmap option_map].
  - intros [= <-]. by exists [], w, l.
  - intros Hn. destruct (IH Hn) as (l1 & w' & l2 & -> & Hl1 & Hq). exists ((w, x) :: l1), w', l2.
    split_and!; [done| |done]. cbn. by rewrite (proj2 (Nat.eqb_neq _ _) E).
Qed.

Lemma of_q_app q l1 l2 : of_q q (l1 ++ l2) = of_q q l1 ++ of_q q l2.
Proof. apply List.filter_app. Qed.

Lemma elv_set_at l1 w r r' l2 :
  NoDup (elv_ids (l1 ++ (w, r) :: l2)) -> qr_id r' = qr_id r ->
  elv_set r' (l1 ++ (w, r) :: l2) = l1 ++ (w, r') :: l2.
Proof.
  intros Hnd Hid. assert (forall l, qr_id r ∉ elv_ids l -> elv_set r' l = l) as Hout.
  { intros l Hl. induction l as [|x l IH]; [done|].
    change (elv_set r' (x :: l)) with ((if (qr_id (snd x) =? qr_id r')%nat then (fst x, r') else x) :: elv_set r' l).
    apply not_elem_of_cons in Hl as [Hne Hl]. rewrite Hid, (proj2 (Nat.eqb_neq _ _)) by congruence.
    f_equal. by apply IH. }
  unfold elv_ids in Hnd. rewrite fmap_app, fmap_cons in Hnd. cbn [snd] in Hnd.
  apply NoDup_app in Hnd as (_ & Hd & Hnd). apply NoDup_cons in Hnd as [Hn2 _].
  transitivity (elv_set r' l1 ++ (if (qr_id r =? qr_id r')%nat then (w, r') else (w, r)) :: elv_set r' l2).
  { unfold elv_set. by rewrite fmap_app, fmap_cons. }
  rewrite Hid, Nat.eqb_refl, !Hout; [done|done|]. intros Hin. apply (Hd _ Hin). by constructor.
Qed.

Lemma elv_del_at l1 w r l2 :
  NoDup (elv_ids (l1 ++ (w, r) :: l2)) ->
  List.filter (fun x => negb (qr_id (snd x) =? qr_id r)%nat) (l1 ++ (w, r) :: l2) = l1 ++ l2.
Proof.
  intros Hnd. assert (forall l, qr_id r ∉ elv_ids l ->
    List.filter (fun x => negb (qr_id (snd x) =? qr_id r)%nat) l = l) as Hout.
  { intros l Hl. induction l as [|x l IH]; [done|]. cbn [List.filter elv_ids fmap list_fmap] in *.
    apply not_elem_of_cons in Hl as [Hne Hl]. rewrite (proj2 (Nat.eqb_neq _ _)) by congruence.
    cbn [negb]. f_equal. by apply IH. }
  unfold elv_ids in Hnd. rewrite fmap_app, fmap_cons in Hnd. cbn [snd] in Hnd.
  apply NoDup_app in Hnd as (_ & Hd & Hnd). apply NoDup_cons in Hnd as [Hn2 _].
  rewrite List.filter_app. cbn [List.filter snd]. rewrite Nat.eqb_refl. cbn [negb]. rewrite !Hout; [done|done|].
  intros Hin. apply (Hd _ Hin). by constructor.
Qed.

Lemma queued_at l1 w r l2 s : b_elv s = l1 ++ (w, r) :: l2 -> forall r', qr_id r' = qr_id r -> blk_queued_rq r' s = true.
Proof.
  intros E r' Hid. unfold blk_queued_rq. rewrite E, Hid, existsb_app. cbn. by rewrite Nat.eqb_refl, orb_true_r.
Qed.

Lemma wp_start_request l1 w r0 r l2 s :
  b_elv s = l1 ++ (w, r0) :: l2 -> qr_id r = qr_id r0 -> NoDup (elv_ids (b_elv s)) ->
  wp (blk_start_request r)
     (fun _ s' => s' = with_timers (b_timers s ++ [qr_id r]) (with_elv (l1 ++ l2) s)) s.
Proof.
  intros E Hid Hnd. unfold blk_start_request, blk_dequeue_request. do 3 kstep.
  rewrite (queued_at _ _ _ _ _ E r Hid). cbn [negb]. do 2 kstep.
  rewrite E, Hid, elv_del_at by by rewrite <- E. done.
Qed.

(** The requests of the queue in front of [rest] were refused and ended; the first of
    [rest] is the one returned, or keeps its place because it is deferred. *)
Definition peeked (q : nat) s (res : option qreq) s' : Prop :=
  exists killed rest,
    snd <$> of_q q (b_elv s) = killed ++ rest /\
    Forall (fun r => fst (verdict r) = PREP_KILL) killed /\
    left_all (bios_of killed) (b_blk s) (b_blk s') /\
    b_put s' = b_put s ++ (qr_id <$> killed) /\
    NoDup (elv_ids (b_elv s')) /\
    match res with
    | Some r => exists r0 l1 w l2,
        rest = r0 :: (snd <$> of_q q l2) /\ b_elv s' = l1 ++ (w, r) :: l2 /\ of_q q l1 = [] /\
        r = qr_with (snd (verdict r0)) r0 /\ (fst (verdict r0) = PREP_OK \/ fst (verdict r0) = PREP_BAD)
    | None =>
        elv_ids (of_q q (b_elv s')) = (qr_id <$> rest) /\
        match rest with [] => True | r0 :: _ => fst (verdict r0) = PREP_DEFER end
    end.

Lemma of_q_here q l1 w r l2 :
  of_q q l1 = [] -> qr_q r = q -> of_q q (l1 ++ (w, r) :: l2) = (w, r) :: of_q q l2.
Proof. intros H1 <-. rewrite of_q_app, H1. cbn. by rewrite Nat.eqb_refl. Qed.

Lemma elv_ids_mid l1 w r r' l2 :
  qr_id r' = qr_id r -> elv_ids (l1 ++ (w, r') :: l2) = elv_ids (l1 ++ (w, r) :: l2).
Proof. intros E. unfold elv_ids. rewrite !fmap_app, !fmap_cons. cbn. by rewrite E. Qed.

Lemma verdict_keeps r : fst (verdict r) = PREP_KILL -> keeps_request (qr_rq r) (snd (verdict r)).
Proof.
  unfold verdict. cbv zeta. assert (keeps_request (qr_rq r) (started (qr_rq r))) as Hs by by apply flag_keeps.
  destruct (has_flag _ _); [done|]. intros Hk. destruct (prep_keeps (started (qr_rq r)) Hk) as (E1 & E2 & E3 & E4 & E5).
  destruct Hs as (F1 & F2 & F3 & F4 & F5). split_and!; congruence.
Qed.

(** Ending the request that was refused. *)
Lemma wp_kill l1 w r0 r l2 s :
  b_elv s = l1 ++ (w, r0) :: l2 -> qr_id r = qr_id r0 -> NoDup (elv_ids (b_elv s)) -> qr_wf r -> ready (b_blk s) ->
  wp (blk_start_request r;; __blk_end_request_all r (- EIO))
     (fun _ s' => b_elv s' = l1 ++ l2 /\ b_put s' = b_put s ++ [qr_id r] /\ ready (b_blk s') /\
        left_all (rr_bio (qr_rq r)) (b_blk s) (b_blk s')) s.
Proof.
  intros E Hid Hnd Hwf Hr. kstep. eapply wp_mono; [by eapply wp_start_request|]. cbv beta. intros _ s1 ->.
  eapply wp_mono; [apply wp_end_all; [done|done|]|].
  { apply not_queued. cbn [b_elv with_timers with_elv]. rewrite Hid. rewrite E in Hnd. unfold elv_ids in *.
    rewrite fmap_app, fmap_cons in *. cbn [snd] in Hnd. rewrite not_elem_of_app.
    apply NoDup_app in Hnd as (_ & Hd & Hnd). apply NoDup_cons in Hnd as [Hn _]. split; [|done].
    intros Hin. apply (Hd _ Hin). by constructor. }
  cbv beta. intros _ s2 (k & Hf & ->). destruct (finished_env _ _ _ _ _ Hf) as (He & Hh).
  split_and!; [done|done| |by eapply finished_left]. cbn. unfold ready in *. by rewrite He, Hh.
Qed.

Lemma wp_peek_loop q : forall fuel s,
  (length (of_q q (b_elv s)) < fuel)%nat -> Forall (fun x => qr_wf (snd x)) (b_elv s) ->
  NoDup (elv_ids (b_elv s)) -> ready (b_blk s) ->
  wp (peek_loop (Some prep) fuel q) (peeked q s) s.
Proof.
  induction fuel as [|fuel IH]; intros s Hfu Hwf Hnd Hr; [lia|]. cbn [peek_loop]. do 2 kstep.
  destruct (elv_next q (b_elv s)) as [r|] eqn:En.
  2:{ assert (of_q q (b_elv s) = []) as Hq.
      { clear -En. unfold elv_next in En. induction (b_elv s) as [|x l IHl]; [done|]. cbn in *.
        destruct (qr_q (snd x) =? q)%nat; [done|auto]. }
      kstep. exists [], []. rewrite Hq. cbn. rewrite app_nil_r. split_and!; done || constructor. }
  destruct (elv_next_split _ _ _ En) as (l1 & w & l2 & El & Hl1 & Hq).
  assert (qr_wf r) as [Hwr Hnx].
  { rewrite El in Hwf. apply Forall_app in Hwf as [_ Hwf]. by apply Forall_cons_1 in Hwf as [Hwf _]. }
  set (r1 := qr_with (rr_with_flags _ (qr_rq r)) r). do 2 kstep.
  rewrite El. rewrite (elv_set_at l1 w r r1 l2) by (done || by rewrite <- El).
  assert (forall rq, NoDup (elv_ids (l1 ++ (w, qr_with rq r) :: l2))) as Hnd1
    by (intros rq; rewrite (elv_ids_mid l1 w r _ l2) by done; by rewrite <- El).
  assert (snd <$> of_q q (b_elv s) = r :: (snd <$> of_q q l2)) as Eq by by rewrite El, of_q_here.
  pose proof (verdict_keeps r) as Hvk. unfold verdict in Hvk. fold (started (qr_rq r)) in r1. cbv zeta in Hvk.
  assert (keeps_request (qr_rq r) (started (qr_rq r))) as Hst by by apply flag_keeps.
  change (qr_rq r1) with (started (qr_rq r)).
  destruct (has_flag (rr_cmd_flags (started (qr_rq r))) REQ_DONTPREP) eqn:Edp.
  { kstep. exists [], (snd <$> of_q q (b_elv s)). cbn. rewrite app_nil_r. split_and!; try done; try (by constructor); try (by apply Hnd1).
    exists r, l1, w, l2. unfold verdict. cbv zeta. rewrite Edp. split_and!; try done; by left. }
  destruct (prep (started (qr_rq r))) as [ret rq] eqn:Ep. cbn [fst snd] in Hvk. do 2 kstep.
  cbn [b_elv with_elv]. rewrite (elv_set_at l1 w r1 (qr_with rq r1) l2) by (done || by apply (Hnd1 (started (qr_rq r)))).
  change (qr_with rq r1) with (qr_with rq r).
  assert (verdict r = (ret, rq)) as Ev by (unfold verdict; cbv zeta; by rewrite Edp).
  destruct ret.
  - kstep. exists [], (snd <$> of_q q (b_elv s)). cbn. rewrite app_nil_r. split_and!; try done; try (by constructor); try (by apply Hnd1).
    exists r, l1, w, l2. rewrite Ev. split_and!; try done; by left.
  - kstep. exists [], (snd <$> of_q q (b_elv s)). cbn [b_elv with_elv]. rewrite Eq. cbn. rewrite app_nil_r.
    split_and!; try done; try (by constructor); try (by apply Hnd1); try (by rewrite Ev).
    rewrite of_q_here by done. unfold elv_ids. rewrite fmap_cons. cbn. f_equal. by rewrite <- list_fmap_compose.
  - set (r2 := qr_with (rr_with_flags _ _) _). 
    assert (keeps_request (qr_rq r) (qr_rq r2)) as Hk2.
    { change (qr_rq r2) with (quieted rq).
      assert (keeps_request rq (quieted rq)) as (F1 & F2 & F3 & F4 & F5) by by apply flag_keeps.
      destruct (Hvk eq_refl) as (E1 & E2 & E3 & E4 & E5). split_and!; congruence. }
    apply kbind_assoc. kstep.
    eapply wp_mono; [apply (wp_kill l1 w (qr_with rq r) r2 l2); [done|done|by apply Hnd1| |done]|].
    { split; [by eapply keeps_wf|done]. }
    cbv beta. intros _ s1 (Es1 & Ep1 & Hr1 & Hc1). cbn [b_elv b_put b_blk with_elv] in *.
    assert (of_q q (b_elv s1) = of_q q l2) as Eq1 by by rewrite Es1, of_q_app, Hl1.
    rewrite El in Hnd, Hwf.
    eapply wp_mono; [apply IH; [| | |done]|].
    + rewrite Eq1. assert (length (of_q q (b_elv s)) = S (length (of_q q l2))) by by rewrite El, of_q_here. lia.
    + rewrite Es1. apply Forall_app in Hwf as [Hw1 Hw2]. apply Forall_cons_1 in Hw2 as [_ Hw2]. by apply Forall_app.
    + rewrite Es1. unfold elv_ids in *. rewrite fmap_app, fmap_cons in *.
      apply NoDup_app in Hnd as (Hn1 & Hd & Hn2). apply NoDup_cons in Hn2 as [_ Hn2]. apply NoDup_app.
      split_and!; [done| |done]. intros x Hx Hin. apply (Hd x Hx). by constructor.
    + cbv beta. intros res s2 (killed & rest & H1 & H2 & H3 & H4 & H5 & H6). rewrite Eq1 in H1.
      exists (r :: killed), rest. rewrite Eq, H1. split_and!; try done.
      * constructor; [by rewrite Ev|done].
      * rewrite bios_of_cons. destruct Hk2 as (Eb2 & _). rewrite Eb2 in Hc1. by eapply left_app.
      * rewrite H4, Ep1, <- app_assoc. done.
  - kstep. exists [], (snd <$> of_q q (b_elv s)). cbn. rewrite app_nil_r. split_and!; try done; try (by constructor); try (by apply Hnd1).
    exists r, l1, w, l2. rewrite Ev. split_and!; try done; by right.
Qed.
End Fetch.

(** C28: [blk_fetch_request] gives the driver the first request of its queue that the
    driver's [prep_rq_fn] does not refuse: the refused ones in front of it are ended with
    all their bios, one after the other, each with exactly one entry for it, and given
    back, each once and in order; the accepted one, as the driver prepared it, leaves
    the queue and its timer runs; a deferred one keeps its place and nothing is
    returned; the requests behind keep their order.  The requests of the elevator are
    well-formed with distinct identities, and the driver changes no more than the flags
    of a request it refuses. *)
Theorem fetch_skips_refused {D} `{BlockDevice D} (prep : rreq -> blkprep * rreq) (q : nat) (s : bst D) :
  (forall rq, fst (prep rq) = PREP_KILL -> keeps_request rq (snd (prep rq))) ->
  Forall (fun x => qr_wf (snd x)) (b_elv s) -> NoDup (elv_ids (b_elv s)) -> ready (b_blk s) ->
  wp (blk_fetch_request (Some prep) q)
     (fun res s' => exists killed rest,
        snd <$> of_q q (b_elv s) = killed ++ rest /\
        Forall (fun r => fst (verdict prep r) = PREP_KILL) killed /\
        left_all (bios_of killed) (b_blk s) (b_blk s') /\
        b_put s' = b_put s ++ (qr_id <$> killed) /\
        match res with
        | Some r => exists r0 behind, rest = r0 :: behind /\ r = qr_with (snd (verdict prep r0)) r0 /\
            (fst (verdict prep r0) = PREP_OK \/ fst (verdict prep r0) = PREP_BAD) /\
            (qr_id r ∈ b_timers s') /\ (qr_id r ∉ elv_ids (b_elv s')) /\
            ((snd <$> of_q q (b_elv s')) = behind)
        | None => elv_ids (of_q q (b_elv s')) = (qr_id <$> rest) /\
            match rest with [] => True | r0 :: _ => fst (verdict prep r0) = PREP_DEFER end
        end) s.
Proof.
  intros Hk Hwf Hnd Hr. unfold blk_fetch_request, blk_peek_request. do 3 kstep.
  eapply wp_mono; [apply wp_peek_loop; [done| |done..]|].
  { pose proof (List.filter_length_le (fun x => qr_q (snd x) =? q)%nat (b_elv s)). unfold of_q. lia. }
  intros res s1 (killed & rest & H1 & H2 & H3 & H4 & H5 & H6). destruct res as [r|].
  2:{ kstep. exists killed, rest. split_and!; done || apply H6. }
  destruct H6 as (r0 & l1 & w & l2 & -> & El & Hl1 & Hr0 & Hv). kstep.
  eapply wp_mono; [by eapply wp_start_request|]. cbv beta. intros _ s2 ->. kstep.
  exists killed, (r0 :: (snd <$> of_q q l2)). cbn [b_blk b_put b_timers b_elv with_timers with_elv].
  split_and!; try done. exists r0, (snd <$> of_q q l2). split_and!; try done.
  - apply elem_of_app. right. by apply list_elem_of_singleton.
  - rewrite El in H5. unfold elv_ids in *. rewrite fmap_app, fmap_cons in *. cbn [snd] in H5.
    apply NoDup_app in H5 as (_ & Hd & Hn2). apply NoDup_cons in Hn2 as [Hn2 _].
    apply not_elem_of_app. split; [|done]. intros Hin. apply (Hd _ Hin). by constructor.
  - by rewrite of_q_app, Hl1.
Qed.

(** ** A plug and an elevator to run it on *)

Fixpoint ins_by (cmp : qreq -> qreq -> Z) (x : qreq) (l : list qreq) : list qreq :=
  match l with
  | [] => [x]
  | y :: rest => if cmp x y <=? 0 then x :: l else y :: ins_by cmp x rest
  end.
Definition sort_by (cmp : qreq -> qreq -> Z) (l : list qreq) : list qreq := foldr (ins_by cmp) [] l.

#[global] Instance sort_by_sorts : ListSort sort_by.
Proof.
  assert (forall cmp x l, ins_by cmp x l ≡ₚ x :: l) as Hins.
  { intros cmp x l. induction l as [|y l IH]; [done|]. cbn. destruct (_ <=? _); [done|].
    etrans; [apply perm_skip, IH|]. apply perm_swap. }
  split.
  - intros cmp l. induction l as [|x l IH]; [done|]. cbn. etrans; [apply Hins|]. by apply perm_skip.
  - intros cmp le l Htr H1 H2. induction l as [|x l IH]; [constructor|].
    change (sort_by cmp (x :: l)) with (ins_by cmp x (sort_by cmp l)). revert IH.
    generalize (sort_by cmp l). clear l. intros l Hs. induction Hs as [|y l Hs IH Hhd]; cbn; [by repeat constructor|].
    destruct (Z.leb_spec (cmp x y) 0).
    + constructor; [by constructor|]. constructor. by apply H1.
    + constructor; [done|]. destruct Hhd as [|z l Hyz]; cbn; [constructor; by apply H2|].
      destruct (_ <=? _); constructor; [by apply H2|done].
Qed.

Definition demo_qreq (id q : nat) (sector : Z) : qreq :=
  mkQreq id q (mkRreq [demo_rbio (Whole demo_whole) WRITE sector] 1024 sector REQ_TYPE_FS 1 0) None.

Lemma demo_qreq_wf id q sector : 0 <= sector < 2 ^ 32 -> qr_wf (demo_qreq id q sector).
Proof.
  intros Hs. split; [|done]. pose proof (demo_rbio_wf sector) as Hb. split; try done.
  - by constructor.
  - cbn. change (1024 / 512) with 2. lia.
Qed.

Definition demo_bst : bst simdisk :=
  mkBst (demo_blk (demo_sw blank_disk)) (Some (mkPlug [demo_qreq 0 1 300; demo_qreq 1 0 300; demo_qreq 2 1 304] true))
    [(ELEVATOR_INSERT_SORT, demo_qreq 3 0 400)] [] [] [] 4.

Lemma demo_bst_ok : bst_ok demo_bst.
Proof.
  split; [done| | |].
  - unfold plug_reqs, demo_bst. cbn [b_plug pl_list]. rewrite !Forall_cons. split_and!; [apply demo_qreq_wf; lia..|done].
  - apply (bool_decide_unpack _). by vm_compute.
  - apply (bool_decide_unpack _). by vm_compute.
Qed.

Lemma plug_flush_hands_over_witness :
  exists s', blk_flush_plug_list sort_by (fun q => (q =? 0)%nat) demo_bst = Ok (tt, s') /\
    elv_ids (b_elv s') = [3; 0; 2]%nat /\ length (bk_ended (b_blk s')) = 1%nat.
Proof.
  destruct (wp_inv _ _ _ (plug_flush_hands_over sort_by (fun q => (q =? 0)%nat) _ demo_bst eq_refl
    (ok_plug _ demo_bst_ok) (fun _ => eq_refl) (ok_ids _ demo_bst_ok))) as ([] & s' & E & l & Hl & _).
  exists s'. split; [exact E|]. vm_compute in E. injection E as <-. split; reflexivity.
Defined.

(** What blk-merge.c does to a request of mixed fail-fast bits. *)
Definition mark_mixed (rq : rreq) : rreq :=
  if has_flag (rr_cmd_flags rq) REQ_MIXED_MERGE then rq else
  let ff := Z.land (rr_cmd_flags rq) REQ_FAILFAST_MASK in
  mkRreq ((fun b => rb_with_bio (bio_with_rw (Z.lor (bi_rw (rb_bio b)) ff) (rb_bio b)) b) <$> rr_bio rq)
    (rr_data_len rq) (rr_sector rq) (rr_cmd_type rq) (Z.lor (rr_cmd_flags rq) REQ_MIXED_MERGE) (rr_errors rq).

Lemma ldiff_lor_mask a f m : Z.ldiff (Z.lor a (Z.land f m)) m = Z.ldiff a m.
Proof.
  apply Z.bits_inj'. intros n Hn. rewrite !Z.ldiff_spec, Z.lor_spec, Z.land_spec.
  by destruct (Z.testbit m n); rewrite ?andb_false_r, ?orb_false_r.
Qed.

Lemma mark_mixed_plain rq : plain <$> rr_bio (mark_mixed rq) = plain <$> rr_bio rq.
Proof.
  unfold mark_mixed. destruct (has_flag _ _); [done|]. cbn [rr_bio]. rewrite <- list_fmap_compose.
  apply list_fmap_ext. intros i b _. unfold plain, compose, rb_with_bio, bio_with_rw. cbn [rb_bio bi_rw].
  by rewrite ldiff_lor_mask.
Qed.

(** A plugged request for sectors 300 and 301 that fails fast. *)
Definition fast_bst : bst simdisk :=
  mkBst (demo_blk (demo_sw blank_disk))
    (Some (mkPlug [mkQreq 0 0 (mkRreq [demo_rbio (Whole demo_whole) WRITE 300] 1024 300 REQ_TYPE_FS
                                 (Z.lor 1 REQ_FAILFAST_MASK) 0) None] false)) [] [] [] [] 1.

Lemma fast_bst_ok : bst_ok fast_bst.
Proof.
  split; [done| | |].
  - unfold plug_reqs, fast_bst. cbn [b_plug pl_list]. rewrite Forall_cons. split; [|done]. split; [|done].
    pose proof (demo_rbio_wf 300) as Hb. split; try done. by constructor.
  - apply (bool_decide_unpack _). by vm_compute.
  - apply (bool_decide_unpack _). by vm_compute.
Qed.

(** A write to sectors 302 and 303 goes to the back of it, which marks it as mixed. *)
Lemma bio_queued_once_witness :
  let b := demo_rbio (Whole demo_whole) WRITE 302 in
  exists s', blk_queue_bio sort_by (fun _ => false) (fun _ _ => true) (fun _ _ => false) (fun _ _ => true) mark_mixed
               (fun _ _ => ELEVATOR_BACK_MERGE) id (fun _ _ _ => (ELEVATOR_NO_MERGE, 0%nat)) (fun _ l => l)
               (fun _ f => Some f) 0 b fast_bst = Ok (tt, s') /\
    plain b :: plains_of (held fast_bst) ≡ₚ plains_of (held s') /\
    ((fun c => has_flag (bi_rw (rb_bio c)) REQ_FAILFAST_MASK) <$> bios_of (held s')) = [true; false].
Proof.
  intros b.
  destruct (wp_inv _ _ _ (bio_queued_once sort_by (fun _ => false) (fun _ _ => true) (fun _ _ => false)
    (fun _ _ => true) mark_mixed (fun _ _ => ELEVATOR_BACK_MERGE) id (fun _ _ _ => (ELEVATOR_NO_MERGE, 0%nat)) (fun _ l => l)
    (fun _ f => Some f) 0 b fast_bst mark_mixed_plain (fun _ _ => Permutation_refl _) fast_bst_ok))
    as ([] & s' & E & gone & Hp & _ & Hg).
  exists s'. split; [exact E|]. rewrite Hg in Hp; [|done|done]. rewrite app_nil_r in Hp. split; [exact Hp|].
  vm_compute in E. injection E as <-. reflexivity.
Defined.

(** A driver that refuses sectors from 1000 on. *)
Definition demo_prep (rq : rreq) : blkprep * rreq := (if 1000 <=? rr_sector rq then PREP_KILL else PREP_OK, rq).

Lemma fetch_skips_refused_witness :
  let s := with_elv [(ELEVATOR_INSERT_SORT, demo_qreq 0 0 1000); (ELEVATOR_INSERT_SORT, demo_qreq 1 0 300)] demo_bst in
  exists r s', blk_fetch_request (Some demo_prep) 0 s = Ok (Some r, s') /\ qr_id r = 1%nat /\ b_put s' = [0%nat].
Proof.
  intros s.
  destruct (wp_inv _ _ _ (fetch_skips_refused demo_prep 0 s (fun rq _ => conj eq_refl (conj eq_refl (conj eq_refl
    (conj eq_refl eq_refl)))) ltac:(apply Forall_cons; split; [apply demo_qreq_wf; lia|]; apply Forall_cons; split; [apply demo_qreq_wf; lia|constructor])
    ltac:(apply (bool_decide_unpack _); by vm_compute) (fun _ => eq_refl))) as (r & s' & E & _).
  vm_compute in E. injection E as <- <-. eexists _, _. split_and!; [vm_compute; reflexivity|reflexivity|reflexivity].
Defined.
