(* ===== verification/BlkRequeue.v ===== *)
(** * block/blk-core.c: requests of drivers

    What drivers do to requests besides fetching and ending them: [blk_get_request] and
    [blk_make_request] for commands of their own, [blk_add_request_payload],
    [blk_requeue_request] when the hardware takes no more, and the bounds of
    [blk_rq_bytes] they rely on.  Results: a request that is put back is the next one
    the driver gets, and is not prepared a second time; a command is made of all bios of
    a chain in order, or of none; a discard with its payload is a request of exactly the
    payload's bytes. *)

From stdpp Require Import base gmap list list_numbers.
From coqutil Require Import Byte.
From Stdlib Require Import ZArith Lia.
From S2P Require Import Prelude Kapi Ring Layout State Scsi SimDisk Log Core CoreInv CoreSpec CoreReq CoreThm Sim Swap SwapThm BlkCore BlkThm BlkReq BlkReqThm BlkQueue.

Local Open Scope Z_scope.

(** ** Putting a request back *)

Section Requeue.
Context {D : Type} `{ScsiLower D}.

(** block/elevator.c, [elv_requeue_request]: the list of the queue with the request on it
    again. *)
Variable elv_requeue_request : qreq -> list (elv_where * qreq) -> list (elv_where * qreq).

(** Tags are not in use. *)
Definition blk_requeue_request (r : qreq) : K (bst D) unit :=
  kmod (fun s => with_timers (List.filter (fun i => negb (i =? qr_id r)%nat) (b_timers s)) s);;
  s ← kget;
  if blk_queued_rq r s then kfail BugOn else
  kmod (fun s => with_elv (elv_requeue_request r (b_elv s)) s).
End Requeue.

(** The flags [elv_requeue_request] leaves: not started, and a barrier for the
    elevator's own reordering. *)
Definition requeued_flags (f : Z) : Z := Z.lor (Z.ldiff f REQ_STARTED) REQ_SOFTBARRIER.

(** What block/elevator.c does (ELEVATOR_INSERT_REQUEUE): the request goes to the head
    of the list with these flags, otherwise as it is. *)
Class ElvRequeue (requeue : qreq -> list (elv_where * qreq) -> list (elv_where * qreq)) : Prop := {
  requeue_first r l : exists w,
    requeue r l = (w, qr_with (rr_with_flags (requeued_flags (rr_cmd_flags (qr_rq r))) (qr_rq r)) r) :: l
}.

Lemma has_flag_bit f b : 0 <= b -> has_flag f (Z.shiftl 1 b) = Z.testbit f b.
Proof.
  intros Hb. unfold has_flag. rewrite Z.shiftl_1_l. destruct (Z.testbit f b) eqn:E.
  - apply negb_true_iff, Z.eqb_neq. intros Hz. assert (Z.testbit (Z.land f (2 ^ b)) b = false) as Hf by (by rewrite Hz, Z.bits_0).
    rewrite Z.land_spec, E, Z.pow2_bits_true in Hf by lia. done.
  - apply negb_false_iff, Z.eqb_eq, Z.bits_inj'. intros m Hm. rewrite Z.land_spec, Z.pow2_bits_eqb, Z.bits_0 by lia.
    destruct (Z.eqb_spec b m) as [<-|]; [by rewrite E|apply andb_false_r].
Qed.

(** Started again, the request is as it was, with the barrier. *)
Lemma restarted_flags f :
  has_flag f REQ_STARTED = true -> Z.lor (requeued_flags f) REQ_STARTED = Z.lor f REQ_SOFTBARRIER.
Proof.
  unfold requeued_flags, REQ_STARTED, REQ_SOFTBARRIER. intros Hf. rewrite has_flag_bit in Hf by lia.
  apply Z.bits_inj'. intros n Hn. rewrite !Z.lor_spec, Z.ldiff_spec, !Z.shiftl_1_l, !Z.pow2_bits_eqb by lia.
  destruct (Z.eqb_spec 18 n) as [<-|]; [by rewrite Hf, orb_true_r|]. by rewrite orb_false_r, andb_true_r.
Qed.

(** A request the driver has started and prepared (REQ_DONTPREP) and puts back with
    [blk_requeue_request] is the one [blk_fetch_request] gives next, the same as it was
    but for the barrier flag: it is not prepared a second time, whatever [prep_rq_fn]
    says of it now, its timer runs again, and the other requests of the queue are as
    before. *)
Theorem requeue_roundtrip {D} `{ScsiLower D} (requeue : qreq -> list (elv_where * qreq) -> list (elv_where * qreq))
    `{!ElvRequeue requeue} (prep : option (rreq -> blkprep * rreq)) (r : qreq) (s : bst D) :
  has_flag (rr_cmd_flags (qr_rq r)) REQ_STARTED = true -> has_flag (rr_cmd_flags (qr_rq r)) REQ_DONTPREP = true ->
  NoDup (qr_id r :: elv_ids (b_elv s)) ->
  wp (blk_requeue_request requeue r;; blk_fetch_request prep (qr_q r))
     (fun res s' => res = Some (qr_with (rr_with_flags (Z.lor (rr_cmd_flags (qr_rq r)) REQ_SOFTBARRIER) (qr_rq r)) r) /\
        b_elv s' = b_elv s /\ b_put s' = b_put s /\
        b_timers s' = List.filter (fun i => negb (i =? qr_id r)%nat) (b_timers s) ++ [qr_id r]) s.
Proof.
  intros Hst Hdp Hnd. apply NoDup_cons in Hnd as [Hn Hnd]. unfold blk_requeue_request. do 3 kstep. do 2 kstep.
  rewrite not_queued by done. kstep. cbn [b_elv with_timers with_elv].
  destruct (requeue_first r (b_elv s)) as [w Ew]. rewrite Ew.
  set (r1 := qr_with (rr_with_flags (Z.lor (rr_cmd_flags (qr_rq r)) REQ_SOFTBARRIER) _) r).
  set (r0 := qr_with (rr_with_flags (requeued_flags _) _) r). set (s1 := with_elv ((w, r0) :: b_elv s) _).
  assert (NoDup (elv_ids (b_elv s1))) as Hnd1 by (constructor; [exact Hn|done]).
  assert (qr_with (rr_with_flags (Z.lor (rr_cmd_flags (qr_rq r0)) REQ_STARTED) (qr_rq r0)) r0 = r1) as Hr.
  { unfold r0, r1, qr_with, rr_with_flags. cbn [qr_rq rr_cmd_flags rr_bio rr_data_len rr_sector rr_cmd_type rr_errors].
    by rewrite restarted_flags. }
  assert (has_flag (rr_cmd_flags (qr_rq r1)) REQ_DONTPREP = true) as Hdp1.
  { cbn [r1 qr_rq qr_with rr_cmd_flags rr_with_flags]. unfold REQ_DONTPREP in *. rewrite has_flag_bit in * by lia.
    by rewrite Z.lor_spec, Hdp. }
  unfold blk_fetch_request, blk_peek_request. do 3 kstep. cbn [peek_loop]. do 2 kstep.
  assert (elv_next (qr_q r) (b_elv s1) = Some r0) as ->.
  { unfold elv_next. cbn [b_elv s1 with_elv List.find snd r0 qr_with qr_q]. by rewrite Nat.eqb_refl. }
  cbv zeta match. rewrite Hr, Hdp1. do 2 kstep. kstep.
  assert (elv_set r1 (b_elv s1) = (w, r1) :: b_elv s) as Hset.
  { unfold elv_set. cbn [b_elv s1 with_elv fmap list_fmap snd fst r0 r1 qr_with qr_id]. rewrite Nat.eqb_refl. f_equal.
    rewrite <- (list_fmap_id (b_elv s)) at 2. apply list_fmap_ext. intros i [w' x] Hx. cbn.
    destruct (Nat.eqb_spec (qr_id x) (qr_id r)) as [E|]; [|done]. exfalso. apply Hn. rewrite <- E.
    apply list_elem_of_fmap. exists (w', x). split; [done|]. by eapply list_elem_of_lookup_2. }
  kstep. eapply wp_mono; [apply (wp_start_request [] w r1 r1 (b_elv s)); [exact Hset|done|]|].
  { cbn [b_elv with_elv]. rewrite Hset. by constructor. }
  cbv beta. intros _ s2 ->. kstep. split_and!; done.
Qed.

(** ** Requests for commands *)

(** Requests given back, and of those the ones with bios still on them, for which the
    kernel warns of a bio leak. *)
Record putst := mkPutst { ps_puts : Z; ps_leaks : Z }.

Section Make.
(** The flags of a new request for a direction, if there is one; bounce buffers;
    [blk_rq_append_bio] of block/blk-map.c. *)
Variable get_request : Z -> option Z.
Variable blk_queue_bounce : rbio -> rbio.
Variable blk_rq_append_bio : rreq -> rbio -> Z * rreq.

Definition blk_get_request (rw : Z) : K putst (option rreq) :=
  if negb (rw =? 0) && negb (rw =? WRITE) then kfail BugOn else
  mret (blk_rq_init <$> get_request rw).

(** [__blk_put_request] with the last reference. *)
Definition blk_put_request (rq : rreq) : K putst unit :=
  kmod (fun s => mkPutst (ps_puts s + 1) (ps_leaks s + match rr_bio rq with [] => 0 | _ => 1 end)).

(** The error, or the request. *)
Fixpoint append_bios (bios : list rbio) (rq : rreq) : K putst (Z + rreq) :=
  match bios with
  | [] => mret (inr rq)
  | b :: bios =>
      let '(ret, rq) := blk_rq_append_bio rq (blk_queue_bounce b) in
      if c_true ret then blk_put_request rq;; mret (inl ret) else append_bios bios rq
  end.

(** [bios] is the chain the caller has. *)
Definition blk_make_request (bios : list rbio) : K putst (Z + rreq) :=
  match bios with
  | [] => kfail NullDeref
  | b :: _ =>
      rq ← blk_get_request (Z.land (bi_rw (rb_bio b)) WRITE);
      match rq with
      | None => mret (inl (- ENOMEM))
      | Some rq => append_bios bios rq
      end
  end.

(** What is relied on of [blk_rq_append_bio]: the bio is the last of the request, or the
    request is as it was. *)
Hypothesis append_all_or_nothing : forall rq b,
  let '(ret, rq') := blk_rq_append_bio rq b in
  if c_true ret then rq' = rq else rr_bio rq' = rr_bio rq ++ [b].

Lemma wp_append_bios bios : forall rq s,
  wp (append_bios bios rq)
     (fun x s' => match x with
                  | inr rq' => rr_bio rq' = rr_bio rq ++ (blk_queue_bounce <$> bios) /\ s' = s
                  | inl err => err <> 0 /\ exists k, (k < length bios)%nat /\
                      s' = mkPutst (ps_puts s + 1)
                             (ps_leaks s + match rr_bio rq, k with [], O => 0 | _, _ => 1 end)
                  end) s.
Proof.
  induction bios as [|b bios IH]; intros rq s; cbn [append_bios].
  - kstep. by rewrite app_nil_r.
  - pose proof (append_all_or_nothing rq (blk_queue_bounce b)) as Ha.
    destruct (blk_rq_append_bio rq (blk_queue_bounce b)) as [ret rq1].
    destruct (c_true ret) eqn:Er.
    + subst rq1. unfold blk_put_request. do 3 kstep. split; [|exists 0%nat].
      { unfold c_true in Er. by destruct (Z.eqb_spec ret 0). }
      split; [cbn; lia|]. by destruct (rr_bio rq).
    + kcall IH. intros [err|rq'] s'; cbv beta match; rewrite Ha.
      * intros (He & k & Hk & ->). split; [done|]. exists (S k). split; [cbn; lia|].
        by destruct (rr_bio rq), k.
      * rewrite <- app_assoc. done.
Qed.

(** [blk_make_request] makes one request of all the bios of a chain, in their order,
    or none: without a request to be had it is -ENOMEM; when a bio cannot be added, its
    error is returned and the request is given back, once - but with the bios added so
    far still on it, so that the kernel reports a leak unless the first one failed. *)
Theorem make_request_whole (b : rbio) (bios : list rbio) (s : putst) :
  wp (blk_make_request (b :: bios))
     (fun x s' =>
        match get_request (Z.land (bi_rw (rb_bio b)) WRITE) with
        | None => x = inl (- ENOMEM) /\ s' = s
        | Some _ =>
            match x with
            | inr rq => rr_bio rq = blk_queue_bounce <$> (b :: bios) /\ s' = s
            | inl err => err <> 0 /\ exists k, (k < length (b :: bios))%nat /\
                s' = mkPutst (ps_puts s + 1) (ps_leaks s + if (k =? 0)%nat then 0 else 1)
            end
        end) s.
Proof.
  unfold blk_make_request, blk_get_request. set (rw := Z.land (bi_rw (rb_bio b)) WRITE).
  assert (negb (rw =? 0) && negb (rw =? WRITE) = false) as ->.
  { unfold rw, WRITE. rewrite (Z.land_ones _ 1) by lia. pose proof (Z.mod_pos_bound (bi_rw (rb_bio b)) 2 ltac:(lia)).
    change (2 ^ 1) with 2. assert (bi_rw (rb_bio b) mod 2 = 0 \/ bi_rw (rb_bio b) mod 2 = 1) as [-> | ->] by lia; done. }
  do 2 kstep. destruct (get_request rw) as [fl|]; cbn [fmap option_fmap option_map]; [|done].
  kcall wp_append_bios. intros [err|rq] s'; [|done]. intros (He & k & Hk & ->). split; [done|]. exists k. split; [done|]. by destruct k.
Qed.
End Make.

(** ** The payload of a discard *)

(** [bio->bi_io_vec[0]] is overwritten; a request without a bio is not looked at. *)
Definition blk_add_request_payload {S} (page : bytes) (len : Z) (rq : rreq) : K S rreq :=
  match rr_bio rq with
  | [] => kfail NullDeref
  | b :: rest =>
      let bi := rb_bio b in
      let bi := mkBio (bi_sector bi) len (bi_rw bi) (bi_uptodate bi) [mkVec (Some page) 0 len] (bi_end_io bi) in
      mret (mkRreq (rb_with_bio bi b :: rest) len (rr_sector rq) (rr_cmd_type rq) (rr_cmd_flags rq) (rr_errors rq))
  end.

(** The request of one bio then is one of [len] bytes, the first of the page, and leaves
    everything else of the request alone. *)
Lemma payload_exact {S} page len rq b (s : S) :
  rr_bio rq = [b] -> 0 <= len <= zlen page ->
  wp (blk_add_request_payload page len rq)
     (fun rq' _ => rr_data_len rq' = len /\ bios_size (rr_bio rq') = len /\ bios_data (rr_bio rq') = slice 0 len page /\
                   rr_sector rq' = rr_sector rq /\ rr_cmd_flags rq' = rr_cmd_flags rq) s.
Proof.
  intros Hb Hl. unfold blk_add_request_payload. rewrite Hb. kstep. cbn [rr_data_len rr_bio bios_size rb_bio rb_with_bio bi_size].
  split_and!; [done|lia| |done|done]. unfold bios_data, segs_data. cbn. by rewrite !app_nil_r.
Qed.

(** ** Executions *)

Definition put_first (r : qreq) (l : list (elv_where * qreq)) : list (elv_where * qreq) :=
  (ELEVATOR_INSERT_SORT, qr_with (rr_with_flags (requeued_flags (rr_cmd_flags (qr_rq r))) (qr_rq r)) r) :: l.
#[global] Instance put_first_requeues : ElvRequeue put_first.
Proof. split. intros. by eexists. Qed.

Definition started_qreq (id q : nat) (sector : Z) : qreq :=
  qr_with (rr_with_flags (Z.lor (Z.lor 1 REQ_STARTED) REQ_DONTPREP) (qr_rq (demo_qreq id q sector))) (demo_qreq id q sector).

Lemma requeue_roundtrip_witness :
  exists r s', (blk_requeue_request put_first (started_qreq 7 0 300);; blk_fetch_request (Some demo_prep) 0) demo_bst
             = Ok (Some r, s') /\ qr_id r = 7%nat /\ b_elv s' = b_elv demo_bst /\ b_timers s' = [7%nat].
Proof.
  destruct (wp_inv _ _ _ (requeue_roundtrip put_first (Some demo_prep) (started_qreq 7 0 300) demo_bst
    eq_refl eq_refl ltac:(apply (bool_decide_unpack _); by vm_compute))) as (res & s' & E & -> & He & _ & Ht).
  eexists _, s'. split; [exact E|]. split; [reflexivity|]. split; [exact He|exact Ht].
Defined.

Definition append_two (rq : rreq) (b : rbio) : Z * rreq :=
  if (length (rr_bio rq) <? 2)%nat
  then (0, mkRreq (rr_bio rq ++ [b]) (rr_data_len rq) (rr_sector rq) (rr_cmd_type rq) (rr_cmd_flags rq) (rr_errors rq))
  else (- EINVAL, rq).

Lemma append_two_ok rq b :
  let '(ret, rq') := append_two rq b in if c_true ret then rq' = rq else rr_bio rq' = rr_bio rq ++ [b].
Proof. unfold append_two. by destruct (_ <? _)%nat. Qed.

(** The third of three bios does not fit. *)
Lemma make_request_whole_witness :
  let b := demo_rbio (Whole demo_whole) WRITE 500 in
  exists k, blk_make_request (fun _ => Some 0) id append_two [b; b; b] (mkPutst 0 0)
            = Ok (inl (- EINVAL), mkPutst 1 (if (k =? 0)%nat then 0 else 1)) /\ k <> 0%nat.
Proof.
  intros b.
  destruct (wp_inv _ _ _ (make_request_whole (fun _ => Some 0) id append_two append_two_ok b [b; b] (mkPutst 0 0)))
    as (x & s' & E & H).
  cbv match in H. vm_compute in E. injection E as <- <-. destruct H as (_ & k & _ & Hk). exists k.
  assert (k <> 0%nat) as Hn by (intros ->; by inversion Hk). split; [|exact Hn].
  destruct k as [|k]; [done|]. by vm_compute.
Defined.
