(* ===== verification/BlkCtl.v ===== *)
(** * block/blk-core.c: starting, stopping and tearing down a queue

    Allocation of a queue, the functions that run its [request_fn] (at once, through
    kblockd, or after a delay), [__blk_drain_queue], [blk_sync_queue] and
    [blk_cleanup_queue].  [request_fn] may drop the queue lock, so tasks that are in it
    interleave with everything else; [ctl_step] is the step relation of all of them.
    Results, for every interleaving: [request_fn_active] is the number of tasks in
    [request_fn]; a stopped queue is not run; when [blk_cleanup_queue] is through, nobody
    is in [request_fn], no work is queued or running for the queue, and no step changes
    that.  Allocation gives back what it took when it fails, but for one case. *)

From stdpp Require Import base list relations.
From Stdlib Require Import ZArith Lia.
From S2P Require Import Prelude Kapi BlkRl.

Local Open Scope Z_scope.

(** ** State *)

(** [QUEUE_FLAG_*]; the two flags against merging are set together. *)
Record qflags := mkFlags {
  fl_stopped : bool;
  fl_dying : bool;
  fl_dead : bool;
  fl_bypass : bool;
  fl_nomerges : bool
}.

(** What a drain looks at: the lengths of the dispatch list and of the flush lists, and
    the counters of requests. *)
Record qload := mkLoad {
  ld_head : Z;
  ld_elvpriv : Z;
  ld_nr : two Z;
  ld_in_flight : two Z;
  ld_flush : two Z
}.

Record qctl := mkCtl {
  c_flags : qflags;
  c_bypass_depth : Z;
  request_fn_active : Z;
  c_delay_work : bool;          (* queued for kblockd *)
  c_load : qload;
  c_request_fn : bool;          (* not NULL *)
  c_elevator : bool;            (* not NULL *)
  c_own_lock : bool;            (* queue_lock == &__queue_lock *)
  c_refs : Z;                   (* of the kobject *)
  c_woken : Z                   (* times all waiters were woken *)
}.

Definition c_with_flags (f : qflags) (q : qctl) : qctl :=
  mkCtl f (c_bypass_depth q) (request_fn_active q) (c_delay_work q) (c_load q) (c_request_fn q) (c_elevator q)
    (c_own_lock q) (c_refs q) (c_woken q).
Definition c_with_depth (z : Z) (q : qctl) : qctl :=
  mkCtl (c_flags q) z (request_fn_active q) (c_delay_work q) (c_load q) (c_request_fn q) (c_elevator q)
    (c_own_lock q) (c_refs q) (c_woken q).
Definition c_with_active (z : Z) (q : qctl) : qctl :=
  mkCtl (c_flags q) (c_bypass_depth q) z (c_delay_work q) (c_load q) (c_request_fn q) (c_elevator q)
    (c_own_lock q) (c_refs q) (c_woken q).
Definition c_with_delay (b : bool) (q : qctl) : qctl :=
  mkCtl (c_flags q) (c_bypass_depth q) (request_fn_active q) b (c_load q) (c_request_fn q) (c_elevator q)
    (c_own_lock q) (c_refs q) (c_woken q).
Definition c_with_load (l : qload) (q : qctl) : qctl :=
  mkCtl (c_flags q) (c_bypass_depth q) (request_fn_active q) (c_delay_work q) l (c_request_fn q) (c_elevator q)
    (c_own_lock q) (c_refs q) (c_woken q).
Definition c_with_fns (fn elv : bool) (q : qctl) : qctl :=
  mkCtl (c_flags q) (c_bypass_depth q) (request_fn_active q) (c_delay_work q) (c_load q) fn elv
    (c_own_lock q) (c_refs q) (c_woken q).
Definition c_with_lock (own : bool) (q : qctl) : qctl :=
  mkCtl (c_flags q) (c_bypass_depth q) (request_fn_active q) (c_delay_work q) (c_load q) (c_request_fn q) (c_elevator q)
    own (c_refs q) (c_woken q).
Definition c_add_refs (z : Z) (q : qctl) : qctl :=
  mkCtl (c_flags q) (c_bypass_depth q) (request_fn_active q) (c_delay_work q) (c_load q) (c_request_fn q) (c_elevator q)
    (c_own_lock q) (c_refs q + z) (c_woken q).
Definition c_wake (q : qctl) : qctl :=
  mkCtl (c_flags q) (c_bypass_depth q) (request_fn_active q) (c_delay_work q) (c_load q) (c_request_fn q) (c_elevator q)
    (c_own_lock q) (c_refs q) (c_woken q + 1).

Definition set_stopped (b : bool) (f : qflags) : qflags :=
  mkFlags b (fl_dying f) (fl_dead f) (fl_bypass f) (fl_nomerges f).
Definition set_dead (f : qflags) : qflags := mkFlags (fl_stopped f) (fl_dying f) true (fl_bypass f) (fl_nomerges f).
Definition set_dying (f : qflags) : qflags := mkFlags (fl_stopped f) true (fl_dead f) true true.

Definition blk_queue_stopped (q : qctl) : bool := fl_stopped (c_flags q).
Definition blk_queue_dying (q : qctl) : bool := fl_dying (c_flags q).
Definition blk_queue_dead (q : qctl) : bool := fl_dead (c_flags q).

(** ** Running the queue *)

(** The two halves of [__blk_run_queue_uncond] around [q->request_fn(q)]; the first says
    whether the function is called. *)
Definition run_enter (q : qctl) : qctl * bool :=
  if blk_queue_dead q then (q, false) else (c_with_active (request_fn_active q + 1) q, true).
Definition run_leave (q : qctl) : qctl := c_with_active (request_fn_active q - 1) q.

(** [__blk_run_queue] up to the call. *)
Definition run_try (q : qctl) : qctl * bool :=
  if blk_queue_stopped q then (q, false) else run_enter q.

Definition blk_start_try (q : qctl) : qctl * bool := run_try (c_with_flags (set_stopped false (c_flags q)) q).
Definition blk_stop_queue (q : qctl) : qctl :=
  let q := c_with_delay false q in
  c_with_flags (set_stopped true (c_flags q)) q.

Definition blk_delay_queue (q : qctl) : qctl := if negb (blk_queue_dead q) then c_with_delay true q else q.
Definition blk_run_queue_async (q : qctl) : qctl :=
  if negb (blk_queue_stopped q) && negb (blk_queue_dead q) then c_with_delay true q else q.

(** The parts of [blk_sync_queue]: no work is queued afterwards, and none runs. *)
Definition sync_cancel (q : qctl) : qctl := c_with_delay false q.

Definition blk_put_queue (q : qctl) : qctl := c_add_refs (-1) q.
Definition blk_get_queue (q : qctl) : qctl * bool :=
  if negb (blk_queue_dying q) then (c_add_refs 1 q, true) else (q, false).

Section Run.
(** The driver's function when it keeps the queue lock, the elevator's and the control
    groups' parts of a drain, and what happens while a drain sleeps. *)
Variable request_fn : qctl -> qctl.
Variables elv_drain_elevator blkcg_drain_queue : qctl -> qctl.
Variable msleep : nat -> qctl -> qctl.

Definition __blk_run_queue_uncond (q : qctl) : qctl :=
  match run_enter q with
  | (q, true) => run_leave (request_fn q)
  | (q, false) => q
  end.
Definition __blk_run_queue (q : qctl) : qctl := if blk_queue_stopped q then q else __blk_run_queue_uncond q.
Definition blk_run_queue (q : qctl) : qctl := __blk_run_queue q.
Definition blk_delay_work (q : qctl) : qctl := __blk_run_queue q.
Definition blk_start_queue (q : qctl) : qctl := __blk_run_queue (c_with_flags (set_stopped false (c_flags q)) q).

(** ** Draining *)

Definition any (x : two Z) : bool := negb (for_async x =? 0) || negb (for_sync x =? 0).
Definition must_drain (drain_all : bool) (q : qctl) : bool :=
  let l := c_load q in
  negb (ld_elvpriv l =? 0) || negb (request_fn_active q =? 0)
  || (drain_all && (negb (ld_head l =? 0) || any (ld_nr l) || any (ld_in_flight l) || any (ld_flush l))).

(** The loop body up to the call of [__blk_run_queue], and whether it is called. *)
Definition drain_begin (q : qctl) : qctl :=
  blkcg_drain_queue (if c_elevator q then elv_drain_elevator q else q).
Definition drain_kicks (q : qctl) : bool := negb (ld_head (c_load q) =? 0) && c_request_fn q.
Definition drain_end (q : qctl) : qctl := if c_request_fn q then c_wake q else q.

(** [None] when [fuel] turns are not enough. *)
Fixpoint __blk_drain_queue (fuel : nat) (drain_all : bool) (q : qctl) : option qctl :=
  match fuel with
  | O => None
  | S f =>
      let q := drain_begin q in
      let q := if drain_kicks q then __blk_run_queue q else q in
      if must_drain drain_all q then __blk_drain_queue f drain_all (msleep f q) else Some (drain_end q)
  end.

Definition bypass_enter (q : qctl) : qctl :=
  let f := c_flags q in
  c_with_flags (mkFlags (fl_stopped f) (fl_dying f) (fl_dead f) true (fl_nomerges f)) (c_with_depth (c_bypass_depth q + 1) q).
Definition blk_queue_bypass_start (fuel : nat) (q : qctl) : option qctl :=
  if c_bypass_depth q =? 0 then __blk_drain_queue fuel false (bypass_enter q) else Some (bypass_enter q).

(** ** Tearing down *)

(** [blk_cleanup_queue] up to the drain, the locked section behind it, the end. *)
Definition cleanup_mark (q : qctl) : qctl :=
  c_with_flags (set_dying (c_flags q)) (c_with_depth (c_bypass_depth q + 1) q).
Definition cleanup_dead (q : qctl) : qctl := c_with_flags (set_dead (c_flags q)) (drain_end q).
Definition cleanup_put (q : qctl) : qctl := blk_put_queue (c_with_lock true q).

Definition blk_cleanup_queue (fuel : nat) (q : qctl) : option qctl :=
  q ← __blk_drain_queue fuel true (cleanup_mark q);
  Some (cleanup_put (sync_cancel (c_with_flags (set_dead (c_flags q)) q))).

(** ** Allocation *)

(** What allocation takes: queues of the slab, numbers, backing device infos. *)
Record qres := mkRes { slab_queues : Z; queue_ids : Z; bdis : Z }.
Definition res_add (a b c : Z) (r : qres) : qres := mkRes (slab_queues r + a) (queue_ids r + b) (bdis r + c).

(** What [kmem_cache_alloc_node], [ida_simple_get], [bdi_init] and [blkcg_init_queue]
    answer. *)
Record alloc_env := mkAlloc { slab_ok : bool; ida_get : Z; bdi_init : Z; blkcg_init : Z }.

Definition no_load : qload := mkLoad 0 0 (mkTwo 0 0) (mkTwo 0 0) (mkTwo 0 0).

(** As [blk_alloc_queue_node] leaves it. *)
Definition alloced_queue : qctl :=
  mkCtl (mkFlags false false false true false) 1 0 false no_load false false true 1 0.

Definition fail_q (r : qres) : qres * option qctl := (res_add (-1) 0 0 r, None).
Definition fail_id (r : qres) : qres * option qctl := fail_q (res_add 0 (-1) 0 r).

Definition blk_alloc_queue_node (e : alloc_env) (r : qres) : qres * option qctl :=
  if negb (slab_ok e) then (r, None) else
  let r := res_add 1 0 0 r in
  if ida_get e <? 0 then fail_q r else
  let r := res_add 0 1 0 r in
  if c_true (bdi_init e) then fail_id r else
  let r := res_add 0 0 1 r in
  if c_true (blkcg_init e) then fail_id r else
  (r, Some alloced_queue).
Definition blk_alloc_queue (e : alloc_env) (r : qres) : qres * option qctl := blk_alloc_queue_node e r.

(** [rl] and [elv] are the results of [blk_init_rl] and [elevator_init]; a driver may give
    its own lock. *)
Definition blk_init_allocated_queue (rl elv : Z) (lock : bool) (q : option qctl) : option qctl * option qctl :=
  match q with
  | None => (None, None)
  | Some q =>
      if c_true rl then (None, Some q) else
      let q := c_with_fns true false q in
      let q := if lock then c_with_lock false q else q in
      if c_true elv then (None, Some q) else
      let q := c_with_fns true true q in
      (Some q, Some q)
  end.

(** block/blk-sysfs.c: called when the last reference goes. *)
Variable blk_release_queue : qres -> qres.
Definition released (r : qres) (q : qctl) : qres := if c_refs q =? 0 then blk_release_queue r else r.

Definition blk_init_queue_node (e : alloc_env) (rl elv : Z) (lock : bool) (fuel : nat) (r : qres)
    : option (qres * option qctl) :=
  let '(r, uninit_q) := blk_alloc_queue_node e r in
  match uninit_q with
  | None => Some (r, None)
  | Some uq =>
      match blk_init_allocated_queue rl elv lock (Some uq) with
      | (Some q, _) => Some (r, Some q)
      | (None, uq') => uq ← uq'; uq ← blk_cleanup_queue fuel uq; Some (released r uq, None)
      end
  end.
Definition blk_init_queue (e : alloc_env) (rl elv : Z) (lock : bool) (fuel : nat) (r : qres)
    : option (qres * option qctl) := blk_init_queue_node e rl elv lock fuel r.
End Run.

(** ** All tasks together *)

(** Who is in [request_fn]: a task that ran the queue, kblockd for the delayed work, or
    the drain of [blk_cleanup_queue]. *)
Inductive runner := ByTask | ByWork | ByDrain.
#[global] Instance runner_eq : EqDecision runner.
Proof. solve_decision. Defined.

(** How far [blk_cleanup_queue] is. *)
Inductive phase := Alive | Draining | DrainInFn | Dead | Cancelled | Synced | Put.
#[global] Instance phase_eq : EqDecision phase.
Proof. solve_decision. Defined.

(** [m_works] counts the executions of [blk_delay_work] that have begun. *)
Record ctlm := mkCtlm { m_q : qctl; m_in : list runner; m_works : Z; m_phase : phase }.

Definition works_in (l : list runner) : Z := zlen (filter (fun w => w = ByWork) l).

Definition drained (q : qctl) : Prop := must_drain true q = false.

(** A request between [get_request] and its last put: its direction, whether it has data
    of the elevator, and what it counts for on the dispatch list, in flight and on the
    flush lists, itself or through the flush issued for it. *)
Record got := mkGot { g_sync : bool; g_priv : bool; g_head : nat; g_in_flight : two nat; g_flush : two nat }.

Definition two_add (x : two nat) (y : two Z) : two Z :=
  mkTwo (Z.of_nat (for_async x) + for_async y) (Z.of_nat (for_sync x) + for_sync y).
Definition load_add (r : got) (l : qload) : qload :=
  mkLoad (Z.of_nat (g_head r) + ld_head l) ((if g_priv r then 1 else 0) + ld_elvpriv l)
    (upd_dir (g_sync r) (fun n => n + 1) (ld_nr l)) (two_add (g_in_flight r) (ld_in_flight l))
    (two_add (g_flush r) (ld_flush l)).

(** The counters and lists of a queue are those of its requests. *)
Definition load_of (rs : list got) : qload := foldr load_add no_load rs.

(** A request is got: [get_request_reserve] runs on the same queue and takes one. *)
Inductive gets (q : qctl) : qload -> Prop :=
  | gets_intro rl rl' batch_time i rw bio may now ioc ioc' flags :
      q_dying rl = blk_queue_dying q -> nr_rqs rl = ld_nr (c_load q) -> nr_rqs_elvpriv rl = ld_elvpriv (c_load q) ->
      get_request_reserve batch_time i rw bio may now ioc rl = (rl', ioc', RlTaken flags) ->
      gets q (mkLoad (ld_head (c_load q)) (nr_rqs_elvpriv rl') (nr_rqs rl')
                (ld_in_flight (c_load q)) (ld_flush (c_load q))).

Section Steps.
Variables elv_drain_elevator blkcg_drain_queue : qctl -> qctl.

(** A task that runs the queue, by one of the functions above. *)
Inductive runs : qctl -> qctl * bool -> Prop :=
  | runs_queue q : runs q (run_try q)
  | runs_uncond q : runs q (run_enter q)
  | runs_start q : runs q (blk_start_try q).

(** The check at the end of a turn of the drain. *)
Definition drain_check (q : qctl) : qctl * phase :=
  if must_drain true q then (q, Draining) else (cleanup_dead q, Dead).

Definition begun (q : qctl) : qctl := drain_begin elv_drain_elevator blkcg_drain_queue q.

Inductive ctl_step : ctlm -> ctlm -> Prop :=
  | s_run q q' l w ph called :
      runs q (q', called) ->
      ctl_step (mkCtlm q l w ph) (mkCtlm q' (if called then ByTask :: l else l) w ph)
  | s_return q l1 l2 w ph :
      ctl_step (mkCtlm q (l1 ++ ByTask :: l2) w ph) (mkCtlm (run_leave q) (l1 ++ l2) w ph)
  | s_stop q l w ph : ctl_step (mkCtlm q l w ph) (mkCtlm (blk_stop_queue q) l w ph)
  | s_delay q l w ph : ctl_step (mkCtlm q l w ph) (mkCtlm (blk_delay_queue q) l w ph)
  | s_async q l w ph : ctl_step (mkCtlm q l w ph) (mkCtlm (blk_run_queue_async q) l w ph)
  | s_fire q l w ph :
      c_delay_work q = true -> ctl_step (mkCtlm q l w ph) (mkCtlm (c_with_delay false q) l (w + 1) ph)
  | s_work q l w ph :
      works_in l < w ->
      ctl_step (mkCtlm q l w ph)
               (match run_try q with
                | (q', true) => mkCtlm q' (ByWork :: l) w ph
                | (q', false) => mkCtlm q' l (w - 1) ph
                end)
  | s_work_return q l1 l2 w ph :
      ctl_step (mkCtlm q (l1 ++ ByWork :: l2) w ph) (mkCtlm (run_leave q) (l1 ++ l2) (w - 1) ph)
  | s_get q ld l w ph :
      gets q ld -> ctl_step (mkCtlm q l w ph) (mkCtlm (c_with_load ld q) l w ph)
  | s_move q rs1 r r' rs2 l w ph :
      c_load q = load_of (rs1 ++ r :: rs2) -> g_sync r' = g_sync r -> g_priv r' = g_priv r ->
      ctl_step (mkCtlm q l w ph) (mkCtlm (c_with_load (load_of (rs1 ++ r' :: rs2)) q) l w ph)
  | s_free q rs1 r rs2 l w ph :
      c_load q = load_of (rs1 ++ r :: rs2) ->
      ctl_step (mkCtlm q l w ph) (mkCtlm (c_with_load (load_of (rs1 ++ rs2)) q) l w ph)
  | s_refs q q' l w ph :
      blk_get_queue q = (q', true) -> ctl_step (mkCtlm q l w ph) (mkCtlm q' l w ph)
  | s_mark q l w : ctl_step (mkCtlm q l w Alive) (mkCtlm (cleanup_mark q) l w Draining)
  | s_drain_fn q q' l w :
      drain_kicks (begun q) = true -> run_try (begun q) = (q', true) ->
      ctl_step (mkCtlm q l w Draining) (mkCtlm q' (ByDrain :: l) w DrainInFn)
  | s_drain_no_fn q q' l w ph' :
      drain_kicks (begun q) = false \/ snd (run_try (begun q)) = false ->
      drain_check (begun q) = (q', ph') ->
      ctl_step (mkCtlm q l w Draining) (mkCtlm q' l w ph')
  | s_drain_return q q' l1 l2 w ph' :
      drain_check (run_leave q) = (q', ph') ->
      ctl_step (mkCtlm q (l1 ++ ByDrain :: l2) w DrainInFn) (mkCtlm q' (l1 ++ l2) w ph')
  | s_cancel q l w : ctl_step (mkCtlm q l w Dead) (mkCtlm (sync_cancel q) l w Cancelled)
  | s_synced q l : ctl_step (mkCtlm q l 0 Cancelled) (mkCtlm q l 0 Synced)
  | s_put q l w : ctl_step (mkCtlm q l w Synced) (mkCtlm (cleanup_put q) l w Put).

(** What the elevator and the control groups do in a drain moves requests; it runs
    nothing and changes no flag. *)
Definition only_load (f : qctl -> qctl) : Prop := forall q, exists ld, f q = c_with_load ld q.

Definition past (ph : phase) : Z :=
  match ph with Alive => 0 | Draining | DrainInFn => 1 | Dead => 2 | Cancelled => 3 | Synced => 4 | Put => 5 end.

Record ctl_inv (m : ctlm) : Prop := {
  ci_active : request_fn_active (m_q m) = zlen (m_in m);
  ci_works : works_in (m_in m) <= m_works m;
  ci_drainer : filter (fun w => w = ByDrain) (m_in m) = if decide (m_phase m = DrainInFn) then [ByDrain] else [];
  ci_dying : 1 <= past (m_phase m) -> blk_queue_dying (m_q m) = true;
  ci_dead : blk_queue_dead (m_q m) = (2 <=? past (m_phase m));
  ci_drained : 2 <= past (m_phase m) -> drained (m_q m);
  ci_cancelled : 3 <= past (m_phase m) -> c_delay_work (m_q m) = false;
  ci_synced : 4 <= past (m_phase m) -> m_works m = 0
}.

(** ** The invariant *)

Lemma works_in_cons w l : works_in (w :: l) = (if decide (w = ByWork) then 1 else 0) + works_in l.
Proof. unfold works_in. rewrite filter_cons. destruct (decide _); [apply zlen_cons|lia]. Qed.
Lemma works_in_app l1 l2 : works_in (l1 ++ l2) = works_in l1 + works_in l2.
Proof. unfold works_in. by rewrite filter_app, zlen_app. Qed.
Lemma works_in_range l : 0 <= works_in l.
Proof. apply zlen_nonneg. Qed.

Lemma zlen_middle {A} (x : A) l1 l2 : zlen (l1 ++ x :: l2) = zlen (l1 ++ l2) + 1.
Proof. rewrite !zlen_app, zlen_cons. lia. Qed.

Lemma drained_idle q : drained q -> request_fn_active q = 0.
Proof.
  unfold drained, must_drain. destruct (Z.eqb_spec (request_fn_active q) 0); [done|].
  by rewrite orb_true_r.
Qed.

Lemma drained_same q q' : c_load q' = c_load q -> request_fn_active q' = request_fn_active q -> drained q -> drained q'.
Proof. unfold drained, must_drain. by intros -> ->. Qed.

(** A drained queue has no requests. *)
Lemma load_nr rs : 0 <= for_async (ld_nr (load_of rs)) /\ 0 <= for_sync (ld_nr (load_of rs)) /\
  for_async (ld_nr (load_of rs)) + for_sync (ld_nr (load_of rs)) = zlen rs.
Proof.
  induction rs as [|r rs IH]; [done|]. rewrite zlen_cons. cbn [load_of foldr load_add ld_nr].
  fold (load_of rs). destruct (g_sync r); cbn; lia.
Qed.

Lemma drained_no_requests q rs : c_load q = load_of rs -> drained q -> rs = [].
Proof.
  intros El Hd. pose proof (load_nr rs) as (H1 & H2 & H3). unfold drained, must_drain, any in Hd. rewrite El in Hd.
  destruct rs as [|r rs]; [done|exfalso]. rewrite zlen_cons in H3. pose proof (zlen_nonneg rs).
  destruct (Z.eqb_spec (for_async (ld_nr (load_of (r :: rs)))) 0) as [E1|E1]; cbn [negb orb] in Hd;
    [|by rewrite orb_true_r in Hd; rewrite ?orb_true_r in Hd].
  destruct (Z.eqb_spec (for_sync (ld_nr (load_of (r :: rs)))) 0) as [E2|E2]; cbn [negb orb] in Hd; [lia|].
  by rewrite ?orb_true_r in Hd.
Qed.

(** A dying queue gives no request. *)
Lemma dying_gets q ld : blk_queue_dying q = true -> ~ gets q ld.
Proof. intros Hd Hg. destruct Hg as [rl rl' bt i rw bio may now ioc ioc' flags Ed _ _ Eg].
  unfold get_request_reserve in Eg. by rewrite Ed, Hd in Eg. Qed.

Lemma drained_nobody m : ctl_inv m -> drained (m_q m) -> m_in m = [].
Proof.
  intros Hi Hd. apply drained_idle in Hd. rewrite (ci_active _ Hi) in Hd. by destruct (m_in m).
Qed.

(** Nobody is in [request_fn] once the queue is dead. *)
Lemma dead_nobody m : ctl_inv m -> 2 <= past (m_phase m) -> m_in m = [].
Proof. intros Hi Hp. by apply drained_nobody, (ci_drained _ Hi). Qed.

(** A step that only touches the queue, and nothing the invariant speaks of. *)
Lemma inv_same q q' l w ph :
  ctl_inv (mkCtlm q l w ph) -> request_fn_active q' = request_fn_active q -> c_load q' = c_load q ->
  blk_queue_dying q' = blk_queue_dying q -> blk_queue_dead q' = blk_queue_dead q ->
  (3 <= past ph -> c_delay_work q' = false) ->
  ctl_inv (mkCtlm q' l w ph).
Proof.
  intros Hi Ha Hl Hy Hd Hw. split; cbn [m_q m_in m_works m_phase].
  - rewrite Ha. apply (ci_active _ Hi).
  - apply (ci_works _ Hi).
  - apply (ci_drainer _ Hi).
  - rewrite Hy. apply (ci_dying _ Hi).
  - rewrite Hd. apply (ci_dead _ Hi).
  - intros Hp. apply (drained_same q); [done..|]. by apply (ci_drained _ Hi).
  - done.
  - apply (ci_synced _ Hi).
Qed.

Lemma inv_alive q l w ph :
  ctl_inv (mkCtlm q l w ph) -> blk_queue_dead q = false -> past ph < 2.
Proof. intros Hi Hd. pose proof (ci_dead _ Hi) as E. cbn in E. rewrite Hd in E. symmetry in E. by apply Z.leb_gt in E. Qed.

(** [run_try] and the others either leave the counter alone, or the queue is not dead. *)
Lemma runs_spec q q' called : runs q (q', called) ->
  c_load q' = c_load q /\ blk_queue_dying q' = blk_queue_dying q /\ blk_queue_dead q' = blk_queue_dead q /\
  c_delay_work q' = c_delay_work q /\ (called = true -> blk_queue_dead q = false) /\
  request_fn_active q' = request_fn_active q + if called then 1 else 0.
Proof.
  intros Hr. inversion Hr as [q1 E1 E2|q1 E1 E2|q1 E1 E2]; subst q1;
    unfold blk_start_try, run_try, run_enter, blk_queue_dead, blk_queue_stopped in *; cbn in *;
    repeat match goal with H : context [if ?b then _ else _] |- _ => destruct b eqn:? end;
    inversion E2; subst; cbn; split_and!; try done; lia.
Qed.

(** Somebody enters [request_fn]. *)
Lemma inv_enter q q' l w ph ph' who :
  ctl_inv (mkCtlm q l w ph) -> runs q (q', true) ->
  (who = ByWork -> works_in l < w) -> (who = ByDrain -> ph = Draining /\ ph' = DrainInFn) ->
  (who <> ByDrain -> ph' = ph) ->
  ctl_inv (mkCtlm q' (who :: l) w ph').
Proof.
  intros Hi Hr Hw Hd Hn. destruct (runs_spec _ _ _ Hr) as (Hl & Hy & Hdd & Hdw & Hc & Ha).
  pose proof (inv_alive _ _ _ _ Hi (Hc eq_refl)) as Hp.
  assert (past ph' = past ph) as Hpp by (destruct who; [by rewrite Hn..|by destruct Hd as [-> ->]]).
  pose proof (ci_works _ Hi) as Hwk. pose proof (ci_drainer _ Hi) as Hdr. cbn in Hwk, Hdr.
  split; cbn [m_q m_in m_works m_phase]; rewrite ?Hpp; try (intros; lia).
  - rewrite Ha, zlen_cons. pose proof (ci_active _ Hi) as E. cbn in E. lia.
  - rewrite works_in_cons. destruct (decide (who = ByWork)) as [E|]; [specialize (Hw E)|]; lia.
  - rewrite filter_cons. destruct (decide (who = ByDrain)) as [->|Hne].
    + destruct (Hd eq_refl) as [-> ->]. rewrite Hdr. done.
    + by rewrite (Hn Hne), Hdr.
  - intros H1. rewrite Hy. by apply (ci_dying _ Hi).
  - rewrite Hdd. apply (ci_dead _ Hi).
Qed.

(** Somebody comes out of it. *)
Lemma inv_leave q l1 l2 w w' ph ph' who :
  ctl_inv (mkCtlm q (l1 ++ who :: l2) w ph) ->
  (who = ByDrain -> ph = DrainInFn /\ ph' = Draining) -> (who <> ByDrain -> ph' = ph) ->
  w' = w - (if decide (who = ByWork) then 1 else 0) ->
  ctl_inv (mkCtlm (run_leave q) (l1 ++ l2) w' ph').
Proof.
  intros Hi Hdr Hne ->. assert (past ph < 2) as Hp.
  { destruct (Z.lt_ge_cases (past ph) 2) as [|Hge]; [done|].
    pose proof (dead_nobody _ Hi Hge) as E. cbn in E. by destruct l1. }
  assert (past ph' = past ph) as Hpp by (destruct who; [by rewrite Hne..|by destruct Hdr as [-> ->]]).
  pose proof (ci_active _ Hi) as Ha. pose proof (ci_works _ Hi) as Hw. pose proof (ci_drainer _ Hi) as Hd. cbn in Ha, Hw, Hd.
  split; cbn [m_q m_in m_works m_phase]; rewrite ?Hpp; try (intros; lia).
  - rewrite zlen_middle in Ha. cbn. lia.
  - rewrite works_in_app, works_in_cons in Hw. rewrite works_in_app. lia.
  - rewrite filter_app in *. rewrite filter_cons in Hd. destruct (decide (who = ByDrain)) as [->|Hn].
    + destruct (Hdr eq_refl) as [-> ->]. cbn in Hd.
      destruct (filter _ l1) as [|x t]; cbn in Hd; [by injection Hd as ->|]. injection Hd as _ E. by destruct t.
    + by rewrite (Hne Hn), <- Hd.
  - apply (ci_dying _ Hi).
  - apply (ci_dead _ Hi).
Qed.

Lemma inv_load q ld l w ph : ctl_inv (mkCtlm q l w ph) -> past ph < 2 -> ctl_inv (mkCtlm (c_with_load ld q) l w ph).
Proof.
  intros Hi Hp. split; cbn [m_q m_in m_works m_phase]; try (intros; lia).
  - apply (ci_active _ Hi).
  - apply (ci_works _ Hi).
  - apply (ci_drainer _ Hi).
  - apply (ci_dying _ Hi).
  - apply (ci_dead _ Hi).
Qed.

Lemma inv_check q q' l w ph' : ctl_inv (mkCtlm q l w Draining) -> drain_check q = (q', ph') -> ctl_inv (mkCtlm q' l w ph').
Proof.
  intros Hi. unfold drain_check. destruct (must_drain true q) eqn:E; intros [= <- <-]; [done|].
  assert (forall f, request_fn_active (c_with_flags f (drain_end q)) = request_fn_active q
                    /\ c_load (c_with_flags f (drain_end q)) = c_load q) as Hs
    by (intros f; unfold drain_end; by destruct (c_request_fn q)).
  destruct (Hs (set_dead (c_flags q))) as [Ha Hl].
  split; cbn [m_q m_in m_works m_phase past]; try (intros; lia).
  - unfold cleanup_dead. rewrite Ha. apply (ci_active _ Hi).
  - apply (ci_works _ Hi).
  - apply (ci_drainer _ Hi).
  - intros _. pose proof (ci_dying _ Hi ltac:(cbn; lia)) as Hy. unfold blk_queue_dying, cleanup_dead, drain_end in *. cbn in *.
    by destruct (c_request_fn q).
  - done.
  - intros _. by apply (drained_same q).
Qed.

Lemma inv_begun q l w :
  only_load elv_drain_elevator -> only_load blkcg_drain_queue ->
  ctl_inv (mkCtlm q l w Draining) -> ctl_inv (mkCtlm (begun q) l w Draining).
Proof.
  intros He Hb Hi. unfold begun, drain_begin.
  destruct (Hb (if c_elevator q then elv_drain_elevator q else q)) as [ld ->]. apply inv_load; [|cbn; lia].
  destruct (c_elevator q); [|done]. destruct (He q) as [ld' ->]. apply inv_load; [done|cbn; lia].
Qed.

(** [blk_cleanup_queue] goes on. *)
Lemma inv_phase ph ph' q l w :
  ctl_inv (mkCtlm q l w ph) -> 2 <= past ph -> 2 <= past ph' ->
  c_delay_work q = false -> (4 <= past ph' -> w = 0) -> ctl_inv (mkCtlm q l w ph').
Proof.
  intros Hi Hp Hp' Hd Hw. pose proof (ci_dead _ Hi) as Hdd. pose proof (ci_drainer _ Hi) as Hdr. cbn in Hdd, Hdr.
  split; cbn [m_q m_in m_works m_phase]; try done.
  - apply (ci_active _ Hi).
  - apply (ci_works _ Hi).
  - rewrite Hdr, !decide_False; [done|by intros ->..].
  - intros _. apply (ci_dying _ Hi). cbn. lia.
  - rewrite Hdd. transitivity true; [by apply Z.leb_le|symmetry; by apply Z.leb_le].
  - intros _. by apply (ci_drained _ Hi).
Qed.

Lemma inv_step m m' :
  only_load elv_drain_elevator -> only_load blkcg_drain_queue -> ctl_step m m' -> ctl_inv m -> ctl_inv m'.
Proof.
  intros He Hb Hs Hi. destruct Hs as [q q' l w ph called Hr|q l1 l2 w ph|q l w ph|q l w ph|q l w ph|q l w ph Hd|q l w ph Hw
    |q l1 l2 w ph|q ld l w ph Hgt|q rs1 r r' rs2 l w ph El _ _|q rs1 r rs2 l w ph El|q q' l w ph Hg|q l w|q q' l w Hk Hr|q q' l w ph' Hk Hc|q q' l1 l2 w ph' Hc|q l w|q l|q l w].
  - destruct called.
    + by apply (inv_enter q q' l w ph ph ByTask).
    + destruct (runs_spec _ _ _ Hr) as (? & ? & ? & Hdw & _ & Ha). rewrite Z.add_0_r in Ha. apply (inv_same q); try done.
      rewrite Hdw. apply (ci_cancelled _ Hi).
  - eapply inv_leave; [exact Hi|done|done|]. by rewrite decide_False, Z.sub_0_r.
  - by apply (inv_same q).
  - unfold blk_delay_queue. destruct (blk_queue_dead q) eqn:E; [done|]. pose proof (inv_alive _ _ _ _ Hi E). cbn [negb].
    apply (inv_same q); try done. lia.
  - unfold blk_run_queue_async. destruct (blk_queue_dead q) eqn:E; [by rewrite andb_false_r|].
    pose proof (inv_alive _ _ _ _ Hi E). destruct (blk_queue_stopped q); [done|]. cbn [negb andb].
    apply (inv_same q); try done. lia.
  - assert (past ph < 3) as Hp.
    { destruct (Z.lt_ge_cases (past ph) 3) as [|Hge]; [done|]. pose proof (ci_cancelled _ Hi Hge) as E. cbn in E. congruence. }
    pose proof (ci_works _ Hi) as Hw. cbn in Hw.
    apply (inv_same q) with (q' := c_with_delay false q) in Hi; try done.
    split; cbn [m_q m_in m_works m_phase]; try (intros; lia); try apply Hi.
  - destruct (run_try q) as [q' []] eqn:E; assert (runs q (run_try q)) as Hr by constructor; rewrite E in Hr.
    + by apply (inv_enter q q' l w ph ph ByWork).
    + destruct (runs_spec _ _ _ Hr) as (? & ? & ? & Hdw & _ & Ha). rewrite Z.add_0_r in Ha.
      apply (inv_same q) with (q' := q') in Hi; try done; [|rewrite Hdw; apply (ci_cancelled _ Hi)].
      split; cbn [m_q m_in m_works m_phase]; try apply Hi; [lia|].
      intros Hp. pose proof (ci_synced _ Hi Hp) as E0. cbn in E0. pose proof (works_in_range l). lia.
  - eapply inv_leave; [exact Hi|done..].
  - apply inv_load; [done|]. destruct (Z.lt_ge_cases (past ph) 2) as [|Hge]; [done|exfalso].
    eapply dying_gets; [|exact Hgt]. apply (ci_dying _ Hi). cbn. lia.
  - apply inv_load; [done|]. destruct (Z.lt_ge_cases (past ph) 2) as [|Hge]; [done|exfalso].
    apply (drained_no_requests q) in El; [by destruct rs1|by apply (ci_drained _ Hi)].
  - apply inv_load; [done|]. destruct (Z.lt_ge_cases (past ph) 2) as [|Hge]; [done|exfalso].
    apply (drained_no_requests q) in El; [by destruct rs1|by apply (ci_drained _ Hi)].
  - unfold blk_get_queue in Hg. destruct (negb _); [|done]. inversion Hg. subst q'.
    apply (inv_same q); try done. apply (ci_cancelled _ Hi).
  - split; cbn [m_q m_in m_works m_phase past]; try (intros; lia); try done; apply Hi.
  - apply (inv_enter (begun q) q' l w Draining DrainInFn ByDrain); try done; [by apply inv_begun|].
    rewrite <- Hr. constructor.
  - eapply inv_check; [by apply inv_begun|exact Hc].
  - eapply inv_check; [|exact Hc]. eapply inv_leave; [exact Hi|done|done|]. by rewrite decide_False, Z.sub_0_r.
  - apply (inv_same q) with (q' := sync_cancel q) in Hi; try done. by apply (inv_phase Dead).
  - apply (inv_phase Cancelled); try done. by apply (ci_cancelled _ Hi).
  - apply (inv_same q) with (q' := cleanup_put q) in Hi; try done; [|intros _; by apply (ci_cancelled _ Hi)].
    apply (inv_phase Synced); try done; [by apply (ci_cancelled _ Hi)|]. intros _. by apply (ci_synced _ Hi).
Qed.
End Steps.

(** The state of a queue nobody uses yet. *)
Definition unused (q : qctl) : Prop :=
  request_fn_active q = 0 /\ blk_queue_dead q = false.

Lemma inv_unused q : unused q -> ctl_inv (mkCtlm q [] 0 Alive).
Proof. intros [Ha Hd]. split; cbn; try done; lia. Qed.

Lemma inv_rtc elv cg m m' :
  only_load elv -> only_load cg -> rtc (ctl_step elv cg) m m' -> ctl_inv m -> ctl_inv m'.
Proof. intros He Hc Hr. induction Hr as [|m1 m2 m3 Hs _ IH]; [done|]. intros Hi. apply IH. by apply (inv_step elv cg m1). Qed.

Lemma phase_step elv cg m m' : ctl_step elv cg m m' -> past (m_phase m) <= past (m_phase m').
Proof.
  intros Hs. destruct Hs as [| | | | | |q l w ph Hw| | | | | | | |q q' l w ph' Hk Hc|q q' l1 l2 w ph' Hc| | |]; cbn; try lia.
  - destruct (run_try q) as [? []]; cbn; lia.
  - unfold drain_check in Hc. destruct (must_drain _ _); inversion Hc; cbn; lia.
  - unfold drain_check in Hc. destruct (must_drain _ _); inversion Hc; cbn; lia.
Qed.

Lemma phase_rtc elv cg m m' : rtc (ctl_step elv cg) m m' -> past (m_phase m) <= past (m_phase m').
Proof. intros Hr. induction Hr as [|m1 m2 m3 Hs _ IH]; [lia|]. pose proof (phase_step _ _ _ _ Hs). lia. Qed.

(** Nothing of the queue runs or is going to run. *)
Definition quiet (m : ctlm) : Prop :=
  m_in m = [] /\ m_works m = 0 /\ c_delay_work (m_q m) = false /\ drained (m_q m) /\ blk_queue_dead (m_q m) = true.

Lemma synced_quiet m : ctl_inv m -> 4 <= past (m_phase m) -> quiet m.
Proof.
  intros Hi Hp. split_and!.
  - apply dead_nobody; [done|lia].
  - by apply (ci_synced _ Hi).
  - apply (ci_cancelled _ Hi). lia.
  - apply (ci_drained _ Hi). lia.
  - rewrite (ci_dead _ Hi). apply Z.leb_le. lia.
Qed.

(** C26: Whatever tasks run, stop, start or delay the queue meanwhile, get requests (as
    far as [get_request_reserve] lets them), move them between the lists or give them
    back, and however often [request_fn] drops the queue lock: [request_fn_active] is
    always the number of tasks in [request_fn], and when [blk_cleanup_queue] has come
    past [blk_sync_queue] nobody is in it, [blk_delay_work] neither is queued nor runs,
    nothing is left to drain, and all of that stays so for ever, because a dying queue
    gives no request and a drained one has none.  The queue starts unused (nobody in
    [request_fn], not dead); the elevator's and the control groups' part of a drain
    only moves requests. *)
Theorem cleanup_quiesces (elv cg : qctl -> qctl) (q : qctl) (m : ctlm) :
  only_load elv -> only_load cg -> unused q ->
  rtc (ctl_step elv cg) (mkCtlm q [] 0 Alive) m ->
  request_fn_active (m_q m) = zlen (m_in m) /\
  (m_phase m = Synced \/ m_phase m = Put -> forall m', rtc (ctl_step elv cg) m m' -> quiet m').
Proof.
  intros He Hc Hq Hr. pose proof (inv_rtc _ _ _ _ He Hc Hr (inv_unused q Hq)) as Hi.
  split; [apply (ci_active _ Hi)|]. intros Hp m' Hr'. apply synced_quiet; [by apply (inv_rtc elv cg m)|].
  pose proof (phase_rtc _ _ _ _ Hr'). assert (4 <= past (m_phase m)) by (destruct Hp as [-> | ->]; cbn; lia). lia.
Qed.

(** ** Allocation *)

Ltac res_lia := unfold res_add; cbn [negb andb slab_queues queue_ids bdis Z.sub Z.eqb Z.add Z.opp Pos.eqb Z.pos_sub]; f_equal; lia.

Lemma cleanup_at_once fn elv cg sleep fuel q :
  c_load q = no_load -> request_fn_active q = 0 -> c_elevator q = false ->
  (forall q, c_load q = no_load -> cg q = q) ->
  exists q', blk_cleanup_queue fn elv cg sleep (S fuel) q = Some q' /\ c_refs q' = c_refs q - 1.
Proof.
  intros Hl Ha He Hc. unfold blk_cleanup_queue. cbn [__blk_drain_queue].
  assert (drain_begin elv cg (cleanup_mark q) = cleanup_mark q) as ->.
  { unfold drain_begin. change (c_elevator (cleanup_mark q)) with (c_elevator q). rewrite He. by apply Hc. }
  assert (drain_kicks (cleanup_mark q) = false) as -> by (unfold drain_kicks; cbn; by rewrite Hl).
  assert (must_drain true (cleanup_mark q) = false) as -> by (unfold must_drain; cbn; by rewrite Hl, Ha).
  cbn. eexists. split; [reflexivity|]. unfold drain_end. by destruct (c_request_fn _).
Qed.

(** C27: [blk_init_queue] returns in every case of failing allocations.  With a queue, it
    holds one queue of the slab, one number and one backing device info, one reference,
    and is in bypass mode with its function and elevator set.  Without one, everything
    was given back - except where [blkcg_init_queue] fails: the queue is freed with its
    backing device info still set up. *)
Theorem init_queue_outcomes (fn elv cg : qctl -> qctl) (sleep : nat -> qctl -> qctl) (release : qres -> qres)
    (e : alloc_env) (rl el : Z) (lock : bool) (fuel : nat) (r : qres) :
  (forall q, c_load q = no_load -> cg q = q) ->
  (forall r, release r = res_add (-1) (-1) (-1) r) ->
  let cgroup_fails := slab_ok e && (0 <=? ida_get e) && (bdi_init e =? 0) && negb (blkcg_init e =? 0) in
  exists r' q', blk_init_queue fn elv cg sleep release e rl el lock (S fuel) r = Some (r', q') /\
    match q' with
    | Some q => r' = res_add 1 1 1 r /\ c_refs q = 1 /\ c_bypass_depth q = 1 /\ fl_bypass (c_flags q) = true /\
                c_request_fn q = true /\ c_elevator q = true /\ c_own_lock q = negb lock /\ unused q /\ drained q
    | None => r' = if cgroup_fails then res_add 0 0 1 r else r
    end.
Proof.
  intros Hc Hrel. destruct r as [a b c]. unfold blk_init_queue, blk_init_queue_node, blk_alloc_queue_node, c_true.
  rewrite (Z.leb_antisym (ida_get e) 0).
  destruct (slab_ok e); cbn [negb andb]; [|by eexists _, None].
  destruct (ida_get e <? 0); cbn [negb andb].
  { eexists _, None. split; [reflexivity|]. res_lia. }
  destruct (bdi_init e =? 0); cbn [negb andb].
  2: { eexists _, None. split; [reflexivity|]. res_lia. }
  destruct (blkcg_init e =? 0); cbn [negb andb].
  2: { eexists _, None. split; [reflexivity|]. res_lia. }
  unfold blk_init_allocated_queue, c_true. destruct (rl =? 0); cbn [negb].
  2: { destruct (cleanup_at_once fn elv cg sleep fuel alloced_queue) as (q' & E & Hr); try done. cbn [mbind option_bind].
       rewrite E. cbn. eexists _, None. split; [reflexivity|]. unfold released. rewrite Hr, Hrel. res_lia. }
  set (q := if lock then _ else _).
  assert (c_load q = no_load /\ request_fn_active q = 0 /\ c_refs q = 1 /\ c_elevator q = false) as (Hl & Ha & Hf & Hv)
    by (by unfold q; destruct lock).
  destruct (el =? 0); cbn [negb].
  - eexists _, (Some _). split; [reflexivity|]. split; [res_lia|]. unfold q. by destruct lock.
  - destruct (cleanup_at_once fn elv cg sleep fuel q) as (q' & E & Hr); try done. cbn [mbind option_bind].
    rewrite E. cbn. eexists _, None. split; [reflexivity|]. unfold released. rewrite Hr, Hf, Hrel. res_lia.
Qed.

(** ** Executions *)

Definition idle_queue : qctl := c_with_fns true true alloced_queue.

Lemma id_only_load : only_load (fun q => q).
Proof. intros q. exists (c_load q). by destruct q. Qed.

(** The request lists of an unused queue. *)
Definition idle_lists : rqueue :=
  mkRqueue 128 113 103 32 false true 1 false (mkTwo false false) (mkTwo 0 0) 0 (fun _ => blk_init_rl).

Definition one_got : got := mkGot false false 0 (mkTwo 0%nat 0%nat) (mkTwo 0%nat 0%nat).

(** A task has got a request and runs the queue while it is cleaned up; the drain has to
    wait for both. *)
Definition busy_queue : qctl := c_with_load (load_of [one_got]) idle_queue.
Definition cleaned : ctlm := Eval vm_compute in
  mkCtlm (sync_cancel (cleanup_dead (c_with_load (load_of []) (run_leave (cleanup_mark (fst (run_try busy_queue)))))))
    [] 0 Synced.

Lemma idle_gets : gets idle_queue (load_of [one_got]).
Proof.
  set (x := get_request_reserve 50 0 REQ_WRITE None ELV_MQUEUE_MAY 0 None idle_lists).
  apply (gets_intro idle_queue idle_lists (fst (fst x)) 50 0 REQ_WRITE None ELV_MQUEUE_MAY 0 None (snd (fst x))
           REQ_WRITE); reflexivity.
Qed.

Lemma cleaned_reached : rtc (ctl_step (fun q => q) (fun q => q)) (mkCtlm idle_queue [] 0 Alive) cleaned.
Proof.
  eapply rtc_l; [apply s_get, idle_gets|].
  eapply rtc_l; [apply (s_run _ _ busy_queue (fst (run_try busy_queue)) [] 0 Alive true), (runs_queue busy_queue)|].
  eapply rtc_l; [apply s_mark|].
  eapply rtc_l; [by eapply (s_drain_no_fn _ _ _ _ _ _ Draining); [left|]|].
  eapply rtc_l; [apply (s_return _ _ _ [] [])|].
  eapply rtc_l; [by eapply (s_drain_no_fn _ _ _ _ _ _ Draining); [left|]|].
  eapply rtc_l; [by apply (s_free _ _ _ [] one_got [])|].
  eapply rtc_l; [by eapply (s_drain_no_fn _ _ _ _ _ _ Dead); [left|]|].
  eapply rtc_l; [apply s_cancel|].
  eapply rtc_l; [apply s_synced|]. apply rtc_refl.
Qed.

Lemma cleanup_quiesces_witness : quiet cleaned.
Proof.
  exact (proj2 (cleanup_quiesces (fun q => q) (fun q => q) idle_queue cleaned id_only_load id_only_load
    (conj eq_refl eq_refl) cleaned_reached) (or_introl eq_refl) cleaned (rtc_refl _ _)).
Defined.

(** The control group part fails: the number is given back, the backing device info is not. *)
Lemma init_queue_outcomes_witness :
  exists r' q', blk_init_queue (fun q => q) (fun q => q) (fun q => q) (fun _ q => q) (res_add (-1) (-1) (-1))
                  (mkAlloc true 3 0 (- ENOMEM)) 0 0 true 1 (mkRes 0 0 0) = Some (r', q') /\
                r' = mkRes 0 0 1 /\ q' = None.
Proof.
  destruct (init_queue_outcomes (fun q => q) (fun q => q) (fun q => q) (fun _ q => q) (res_add (-1) (-1) (-1))
    (mkAlloc true 3 0 (- ENOMEM)) 0 0 true 0 (mkRes 0 0 0) ltac:(done) ltac:(done)) as (r' & q' & E & H).
  exists r', q'. split; [exact E|]. vm_compute in E. inversion E. subst. done.
Defined.
