(* ===== verification/BlkStat.v ===== *)
(** * block/blk-core.c: the statistics of disks and partitions

    [drive_stat_acct] when a request is queued or merged, [blk_account_io_completion] and
    [blk_account_io_done] when it ends, [part_round_stats] in between.  A request is
    accounted on its partition and on the whole disk (partition 0), and holds a reference
    of its partition.  [acct_step] is the step relation of all requests of a disk and of
    the clock; each accounting function is one step, as under the queue lock.  The plug
    path of [blk_queue_bio] accounts a new request without that lock, so two tasks can
    round the same interval and both add it; that interleaving is not a step here.
    Results, for every order of such steps and counters that have not wrapped (they are
    integers here, unsigned longs in the kernel): the numbers in flight and the
    references are those of the requests out, finished requests are counted once, the
    time in queue is exactly the sum of the times of the requests, and a disk is never
    busy for longer than time passed. *)

From stdpp Require Import base list relations functions.
From Stdlib Require Import ZArith Lia.
From S2P Require Import Prelude Kapi BlkRl.

Local Open Scope Z_scope.

(** ** State *)

(** [struct hd_struct] with its statistics; a pair of counters is for READ and WRITE. *)
Record hd_struct := mkPart {
  stamp : Z;
  in_flight : two Z;
  st_ios : two Z;
  st_merges : two Z;
  st_sectors : two Z;
  st_ticks : two Z;
  time_in_queue : Z;
  io_ticks : Z;
  hd_refs : Z
}.

(** The partitions of a disk, 0 is [part0]. *)
Definition parts := nat -> hd_struct.

(** The part of [struct request] these functions use; [rq_io_stat] is
    [blk_do_io_stat(rq)] of block/blk.h. *)
Record areq := mkAreq {
  rq_part : nat;
  rq_write : bool;
  start_time : Z;
  rq_io_stat : bool;
  rq_flush_seq : bool
}.

Definition p_flight (f : two Z -> two Z) (p : hd_struct) : hd_struct :=
  mkPart (stamp p) (f (in_flight p)) (st_ios p) (st_merges p) (st_sectors p) (st_ticks p) (time_in_queue p) (io_ticks p) (hd_refs p).
Definition p_ios (f : two Z -> two Z) (p : hd_struct) : hd_struct :=
  mkPart (stamp p) (in_flight p) (f (st_ios p)) (st_merges p) (st_sectors p) (st_ticks p) (time_in_queue p) (io_ticks p) (hd_refs p).
Definition p_merges (f : two Z -> two Z) (p : hd_struct) : hd_struct :=
  mkPart (stamp p) (in_flight p) (st_ios p) (f (st_merges p)) (st_sectors p) (st_ticks p) (time_in_queue p) (io_ticks p) (hd_refs p).
Definition p_sectors (f : two Z -> two Z) (p : hd_struct) : hd_struct :=
  mkPart (stamp p) (in_flight p) (st_ios p) (st_merges p) (f (st_sectors p)) (st_ticks p) (time_in_queue p) (io_ticks p) (hd_refs p).
Definition p_ticks (f : two Z -> two Z) (p : hd_struct) : hd_struct :=
  mkPart (stamp p) (in_flight p) (st_ios p) (st_merges p) (st_sectors p) (f (st_ticks p)) (time_in_queue p) (io_ticks p) (hd_refs p).
Definition p_busy (now q t : Z) (p : hd_struct) : hd_struct :=
  mkPart now (in_flight p) (st_ios p) (st_merges p) (st_sectors p) (st_ticks p) (time_in_queue p + q) (io_ticks p + t) (hd_refs p).
Definition p_ref (n : Z) (p : hd_struct) : hd_struct :=
  mkPart (stamp p) (in_flight p) (st_ios p) (st_merges p) (st_sectors p) (st_ticks p) (time_in_queue p) (io_ticks p) (hd_refs p + n).

Definition part_upd (i : nat) (f : hd_struct -> hd_struct) (ps : parts) : parts := <[i := f (ps i)]> ps.

(** ** Code *)

(** include/linux/genhd.h: statistics and the numbers in flight of a partition are also
    those of the disk. *)
Definition part_stat_add (i : nat) (f : hd_struct -> hd_struct) (ps : parts) : parts :=
  let ps := part_upd i f ps in
  if (i =? 0)%nat then ps else part_upd 0 f ps.
Definition part_in_flight (p : hd_struct) : Z := for_async (in_flight p) + for_sync (in_flight p).

Definition part_round_stats_single (now : Z) (p : hd_struct) : hd_struct :=
  if now =? stamp p then p else
  if c_true (part_in_flight p)
  then p_busy now (part_in_flight p * (now - stamp p)) (now - stamp p) p
  else p_busy now 0 0 p.

Definition part_round_stats (now : Z) (i : nat) (ps : parts) : parts :=
  let ps := if (i =? 0)%nat then ps else part_upd 0 (part_round_stats_single now) ps in
  part_upd i (part_round_stats_single now) ps.

(** [part] is what [disk_map_sector_rcu] finds for the sector, [try_get] whether a
    reference could still be taken of it. *)
Definition drive_stat_acct (now : Z) (part : nat) (try_get new_io : bool) (rq : areq) (ps : parts) : areq * parts :=
  let rw := rq_write rq in
  if negb (rq_io_stat rq) then (rq, ps) else
  if negb new_io then (rq, part_stat_add (rq_part rq) (p_merges (upd_dir rw (fun n => n + 1))) ps) else
  let part := if try_get then part else 0%nat in
  let ps := part_upd part (p_ref 1) ps in
  let ps := part_round_stats now part ps in
  let ps := part_stat_add part (p_flight (upd_dir rw (fun n => n + 1))) ps in
  (mkAreq part rw (start_time rq) (rq_io_stat rq) (rq_flush_seq rq), ps).

Definition blk_account_io_completion (bytes : Z) (rq : areq) (ps : parts) : parts :=
  if rq_io_stat rq
  then part_stat_add (rq_part rq) (p_sectors (upd_dir (rq_write rq) (fun n => n + Z.shiftr bytes 9))) ps else ps.

Definition blk_account_io_done (now : Z) (rq : areq) (ps : parts) : parts :=
  if rq_io_stat rq && negb (rq_flush_seq rq) then
    let duration := now - start_time rq in
    let rw := rq_write rq in
    let part := rq_part rq in
    let ps := part_stat_add part (p_ios (upd_dir rw (fun n => n + 1))) ps in
    let ps := part_stat_add part (p_ticks (upd_dir rw (fun n => n + duration))) ps in
    let ps := part_round_stats now part ps in
    let ps := part_stat_add part (p_flight (upd_dir rw (fun n => n - 1))) ps in
    part_upd part (p_ref (-1)) ps
  else ps.

(** ** All requests of a disk *)

(** A request that is accounted, since when; and one that ended, when. *)
Record flying := mkFly { fl_rq : areq; fl_since : Z }.
Record landed := mkLanded { ld_fly : flying; ld_until : Z }.

Record acct := mkAcct { ac_parts : parts; ac_now : Z; ac_out : list flying; ac_done : list landed }.

(** Requests of the flush sequence are not accounted when they end; the request they
    belong to is. *)
Inductive acct_step : acct -> acct -> Prop :=
  | a_tick ps now now' out hist : now <= now' -> acct_step (mkAcct ps now out hist) (mkAcct ps now' out hist)
  | a_start ps ps' now out hist part try_get rq rq' :
      rq_io_stat rq = true -> rq_flush_seq rq = false ->
      drive_stat_acct now part try_get true rq ps = (rq', ps') ->
      acct_step (mkAcct ps now out hist) (mkAcct ps' now (mkFly rq' now :: out) hist)
  | a_merge ps ps' now out hist part try_get rq :
      drive_stat_acct now part try_get false rq ps = (rq, ps') ->
      acct_step (mkAcct ps now out hist) (mkAcct ps' now out hist)
  | a_progress ps now out hist bytes rq :
      acct_step (mkAcct ps now out hist) (mkAcct (blk_account_io_completion bytes rq ps) now out hist)
  | a_done ps now out1 out2 hist f :
      acct_step (mkAcct ps now (out1 ++ f :: out2) hist)
                (mkAcct (blk_account_io_done now (fl_rq f) ps) now (out1 ++ out2) (mkLanded f now :: hist))
  | a_round ps now out hist i :
      acct_step (mkAcct ps now out hist) (mkAcct (part_round_stats now i ps) now out hist).

(** ** One partition *)

(** Whether request [rq] counts for partition [j]. *)
Definition counts_for (j : nat) (rq : areq) : bool := (j =? 0)%nat || (j =? rq_part rq)%nat.

Lemma part_upd_at i f ps j : part_upd i f ps j = if (j =? i)%nat then f (ps i) else ps j.
Proof.
  unfold part_upd. destruct (Nat.eqb_spec j i) as [->|Hj]; [apply fn_lookup_insert|by apply fn_lookup_insert_ne].
Qed.

Lemma stat_add_at i f ps j : part_stat_add i f ps j = if (j =? 0)%nat || (j =? i)%nat then f (ps j) else ps j.
Proof.
  unfold part_stat_add. destruct (Nat.eqb_spec i 0) as [->|Hi].
  - rewrite part_upd_at. destruct (Nat.eqb_spec j 0) as [->|]; done.
  - rewrite !part_upd_at. destruct (Nat.eqb_spec j 0) as [->|]; cbn [orb].
    + by destruct (Nat.eqb_spec 0 i).
    + by destruct (Nat.eqb_spec j i) as [->|].
Qed.

Lemma round_at now i ps j :
  part_round_stats now i ps j = if (j =? 0)%nat || (j =? i)%nat then part_round_stats_single now (ps j) else ps j.
Proof.
  unfold part_round_stats. destruct (Nat.eqb_spec i 0) as [->|Hi].
  - rewrite part_upd_at. destruct (Nat.eqb_spec j 0) as [->|]; done.
  - rewrite !part_upd_at. destruct (Nat.eqb_spec j 0) as [->|]; cbn [orb].
    + by destruct (Nat.eqb_spec 0 i).
    + destruct (Nat.eqb_spec j i) as [->|]; [|done]. by destruct (Nat.eqb_spec i 0).
Qed.

(** Sums over lists. *)
Definition zsum {A} (g : A -> Z) (l : list A) : Z := foldr (fun x n => g x + n) 0 l.
Lemma zsum_app {A} (g : A -> Z) l1 l2 : zsum g (l1 ++ l2) = zsum g l1 + zsum g l2.
Proof. induction l1 as [|x l1 IH]; cbn; [done|]. unfold zsum in *. rewrite IH. lia. Qed.
Lemma zsum_cons {A} (g : A -> Z) x l : zsum g (x :: l) = g x + zsum g l.
Proof. done. Qed.
Lemma zsum_middle {A} (g : A -> Z) x l1 l2 : zsum g (l1 ++ x :: l2) = g x + zsum g (l1 ++ l2).
Proof. rewrite !zsum_app, zsum_cons. lia. Qed.

Definition if1 (b : bool) (z : Z) : Z := if b then z else 0.

(** What a request adds to partition [j]: one in flight of its direction, the time since
    it was queued, one reference of its own partition. *)
Definition flies (j : nat) (rw : bool) (f : flying) : Z :=
  if1 (counts_for j (fl_rq f) && Bool.eqb (rq_write (fl_rq f)) rw) 1.
Definition waited (j : nat) (now : Z) (f : flying) : Z := if1 (counts_for j (fl_rq f)) (now - fl_since f).
Definition lived (j : nat) (l : landed) : Z := waited j (ld_until l) (ld_fly l).
Definition holds (j : nat) (f : flying) : Z := if1 (j =? rq_part (fl_rq f))%nat 1.

Lemma waited_later j now now' out :
  zsum (waited j now') out = zsum (waited j now) out + (zsum (flies j false) out + zsum (flies j true) out) * (now' - now).
Proof.
  induction out as [|f out IH]; [cbn; lia|]. rewrite !zsum_cons, IH. unfold waited, flies, if1.
  destruct (counts_for j (fl_rq f)), (rq_write (fl_rq f)); cbn [Bool.eqb andb]; lia.
Qed.

(** Partition [j] of a disk that had the statistics [p0] when nothing was in flight. *)
Record part_inv (p0 : hd_struct) (j : nat) (p : hd_struct) (now : Z) (out : list flying) (hist : list landed) : Prop := {
  pi_flight rw : of_dir rw (in_flight p) = zsum (flies j rw) out;
  pi_stamp : stamp p0 <= stamp p <= now;
  pi_queue : time_in_queue p + part_in_flight p * (now - stamp p)
             = time_in_queue p0 + zsum (waited j now) out + zsum (lived j) hist;
  pi_busy : 0 <= io_ticks p - io_ticks p0 <= stamp p - stamp p0;
  pi_refs : hd_refs p = hd_refs p0 + zsum (holds j) out;
  pi_ios rw : of_dir rw (st_ios p) = of_dir rw (st_ios p0) + zsum (fun l => flies j rw (ld_fly l)) hist
}.

Definition accounted (f : flying) : Prop := rq_io_stat (fl_rq f) = true /\ rq_flush_seq (fl_rq f) = false.

Definition acct_inv (ps0 : parts) (a : acct) : Prop :=
  Forall accounted (ac_out a) /\
  forall j, part_inv (ps0 j) j (ac_parts a j) (ac_now a) (ac_out a) (ac_done a).

Lemma in_flight_two p0 j p now out hist : part_inv p0 j p now out hist ->
  part_in_flight p = zsum (flies j false) out + zsum (flies j true) out.
Proof. intros Hi. unfold part_in_flight. rewrite <- (pi_flight _ _ _ _ _ _ Hi false), <- (pi_flight _ _ _ _ _ _ Hi true). done. Qed.

Lemma of_dir_upd rw rw' (f : Z -> Z) x : of_dir rw' (upd_dir rw f x) = if Bool.eqb rw rw' then f (of_dir rw' x) else of_dir rw' x.
Proof. by destruct rw, rw'. Qed.

Lemma flight_upd rw f p : part_in_flight (p_flight (upd_dir rw f) p) = part_in_flight p + (f (of_dir rw (in_flight p)) - of_dir rw (in_flight p)).
Proof. unfold part_in_flight. destruct rw; cbn; lia. Qed.

Lemma inv_round p0 j p now out hist :
  part_inv p0 j p now out hist -> part_inv p0 j (part_round_stats_single now p) now out hist /\
                                  stamp (part_round_stats_single now p) = now.
Proof.
  intros Hi. unfold part_round_stats_single. destruct (Z.eqb_spec now (stamp p)) as [E|E]; [by split|].
  pose proof (pi_stamp _ _ _ _ _ _ Hi). pose proof (pi_queue _ _ _ _ _ _ Hi). pose proof (pi_busy _ _ _ _ _ _ Hi).
  unfold c_true. destruct (Z.eqb_spec (part_in_flight p) 0) as [E0|E0]; cbn [negb]; (split; [|done]);
    split; try apply Hi; cbn [stamp time_in_queue io_ticks p_busy];
    change (part_in_flight (p_busy _ _ _ _)) with (part_in_flight p); lia.
Qed.

Lemma inv_tick p0 j p now now' out hist : part_inv p0 j p now out hist -> now <= now' -> part_inv p0 j p now' out hist.
Proof.
  intros Hi Hn. split; try apply Hi.
  - pose proof (pi_stamp _ _ _ _ _ _ Hi). lia.
  - rewrite (waited_later j now now'), <- (in_flight_two _ _ _ _ _ _ Hi). pose proof (pi_queue _ _ _ _ _ _ Hi). lia.
Qed.

(** Rounding commutes with what does not touch the numbers in flight. *)
Lemma round_ref now n p : part_round_stats_single now (p_ref n p) = p_ref n (part_round_stats_single now p).
Proof. unfold part_round_stats_single. cbn. destruct (_ =? _); [done|]. by destruct (c_true _). Qed.
Lemma round_ios now f p : part_round_stats_single now (p_ios f p) = p_ios f (part_round_stats_single now p).
Proof. unfold part_round_stats_single. cbn. destruct (_ =? _); [done|]. by destruct (c_true _). Qed.
Lemma round_ticks now f p : part_round_stats_single now (p_ticks f p) = p_ticks f (part_round_stats_single now p).
Proof. unfold part_round_stats_single. cbn. destruct (_ =? _); [done|]. by destruct (c_true _). Qed.
Lemma p_ref_0 p : p_ref 0 p = p.
Proof. unfold p_ref. rewrite Z.add_0_r. by destruct p. Qed.

(** A request joins. *)
Lemma inv_join p0 j p now out hist rq :
  part_inv p0 j p now out hist -> counts_for j rq = true ->
  part_inv p0 j (p_flight (upd_dir (rq_write rq) (fun n => n + 1))
                   (p_ref (holds j (mkFly rq now)) (part_round_stats_single now p))) now (mkFly rq now :: out) hist.
Proof.
  intros Hi Hc. destruct (inv_round _ _ _ _ _ _ Hi) as [Hq Hs]. set (q := part_round_stats_single now p) in *.
  pose proof (pi_queue _ _ _ _ _ _ Hq) as HQ. rewrite Hs, Z.sub_diag, Z.mul_0_r in HQ.
  split; try apply Hq.
  - intros rw. cbn [in_flight p_flight p_ref]. rewrite of_dir_upd, zsum_cons, (pi_flight _ _ _ _ _ _ Hq). unfold flies, if1.
    cbn [fl_rq]. rewrite Hc. cbn [andb]. destruct (Bool.eqb (rq_write rq) rw); lia.
  - cbn [stamp time_in_queue p_flight p_ref]. rewrite Hs, Z.sub_diag, Z.mul_0_r, zsum_cons. unfold waited at 1, if1. cbn [fl_rq fl_since].
    rewrite Hc. lia.
  - cbn [hd_refs p_flight p_ref]. rewrite zsum_cons. pose proof (pi_refs _ _ _ _ _ _ Hq). lia.
Qed.

(** A request that counts for other partitions joins or leaves. *)
Lemma other_zero j f : counts_for j (fl_rq f) = false ->
  (forall rw, flies j rw f = 0) /\ (forall now, waited j now f = 0) /\ holds j f = 0.
Proof.
  intros Hc. unfold flies, waited, holds. rewrite Hc. split_and!; try done.
  unfold counts_for in Hc. apply orb_false_iff in Hc as [_ ->]. done.
Qed.

Lemma inv_join_other p0 j p now out hist f :
  part_inv p0 j p now out hist -> counts_for j (fl_rq f) = false -> part_inv p0 j p now (f :: out) hist.
Proof.
  intros Hi Hc. destruct (other_zero j f Hc) as (Hf & Hw & Hh).
  split; try apply Hi; intros; rewrite zsum_cons, ?Hf, ?Hw, ?Hh, ?Z.add_0_l; apply Hi.
Qed.

Lemma inv_leave_other p0 j p now out1 out2 hist f :
  part_inv p0 j p now (out1 ++ f :: out2) hist -> counts_for j (fl_rq f) = false ->
  part_inv p0 j p now (out1 ++ out2) (mkLanded f now :: hist).
Proof.
  intros Hi Hc. destruct (other_zero j f Hc) as (Hf & Hw & Hh).
  destruct Hi as [H1 H2 H3 H4 H5 H6]. rewrite zsum_middle in H3, H5. rewrite Hw in H3. rewrite Hh in H5.
  split; try done; intros; rewrite ?zsum_cons.
  - specialize (H1 rw). rewrite zsum_middle, Hf in H1. done.
  - unfold lived at 1. cbn [ld_until ld_fly]. rewrite Hw. lia.
  - cbn [ld_fly]. rewrite Hf. apply H6.
Qed.

(** A request ends. *)
Lemma inv_end p0 j p now out1 out2 hist f d :
  part_inv p0 j p now (out1 ++ f :: out2) hist -> counts_for j (fl_rq f) = true ->
  part_inv p0 j (p_ref (- holds j f) (p_flight (upd_dir (rq_write (fl_rq f)) (fun n => n - 1))
                   (p_ticks d (p_ios (upd_dir (rq_write (fl_rq f)) (fun n => n + 1)) (part_round_stats_single now p)))))
           now (out1 ++ out2) (mkLanded f now :: hist).
Proof.
  intros Hi Hc. destruct (inv_round _ _ _ _ _ _ Hi) as [Hq Hs]. set (q := part_round_stats_single now p) in *.
  destruct Hq as [H1 H2 H3 H4 H5 H6]. rewrite Hs, Z.sub_diag, Z.mul_0_r in H3. rewrite zsum_middle in H3, H5.
  split; try done; intros; rewrite ?zsum_cons.
  - specialize (H1 rw). rewrite zsum_middle in H1. cbn [in_flight p_flight p_ref p_ticks p_ios]. rewrite of_dir_upd.
    unfold flies at 1, if1 in H1. rewrite Hc in H1. cbn [andb] in H1. destruct (Bool.eqb (rq_write (fl_rq f)) rw); lia.
  - cbn [stamp time_in_queue p_flight p_ref p_ticks p_ios]. rewrite Hs, Z.sub_diag, Z.mul_0_r. unfold lived at 1. cbn [ld_until ld_fly]. lia.
  - cbn [hd_refs p_flight p_ref p_ticks p_ios]. lia.
  - cbn [st_ios p_flight p_ref p_ticks p_ios ld_fly]. rewrite of_dir_upd. specialize (H6 rw). unfold flies at 1, if1. rewrite Hc. cbn [andb].
    destruct (Bool.eqb (rq_write (fl_rq f)) rw); lia.
Qed.

(** Statistics nothing of the invariant depends on. *)
Lemma inv_stat p0 j p f now out hist :
  (forall p, stamp (f p) = stamp p /\ in_flight (f p) = in_flight p /\ st_ios (f p) = st_ios p /\
             time_in_queue (f p) = time_in_queue p /\ io_ticks (f p) = io_ticks p /\ hd_refs (f p) = hd_refs p) ->
  part_inv p0 j p now out hist -> part_inv p0 j (f p) now out hist.
Proof.
  intros Hf Hi. destruct (Hf p) as (E1 & E2 & E3 & E4 & E5 & E6). unfold part_in_flight.
  split; unfold part_in_flight; rewrite ?E1, ?E2, ?E3, ?E4, ?E5, ?E6; apply Hi.
Qed.

Lemma start_at now part try_get rq rq' ps ps' j :
  rq_io_stat rq = true -> drive_stat_acct now part try_get true rq ps = (rq', ps') ->
  rq_write rq' = rq_write rq /\ (rq_io_stat rq' = rq_io_stat rq /\ rq_flush_seq rq' = rq_flush_seq rq) /\
  ps' j = if counts_for j rq'
          then p_flight (upd_dir (rq_write rq') (fun n => n + 1))
                 (p_ref (holds j (mkFly rq' now)) (part_round_stats_single now (ps j))) else ps j.
Proof.
  intros Hs. unfold drive_stat_acct. rewrite Hs. cbn [negb]. intros [= <- <-]. split; [done|]. split; [by cbn|].
  set (i := if try_get then part else 0%nat). rewrite stat_add_at, round_at, part_upd_at.
  unfold counts_for, holds, if1. cbn [rq_part fl_rq rq_write].
  destruct (Nat.eqb_spec j i) as [->|]; [by rewrite orb_true_r, round_ref|].
  destruct (Nat.eqb_spec j 0) as [->|]; cbn [orb]; [by rewrite p_ref_0|done].
Qed.

Lemma done_at now rq ps j :
  rq_io_stat rq = true -> rq_flush_seq rq = false ->
  blk_account_io_done now rq ps j
  = if counts_for j rq
    then p_ref (- holds j (mkFly rq now)) (p_flight (upd_dir (rq_write rq) (fun n => n - 1))
           (p_ticks (upd_dir (rq_write rq) (fun n => n + (now - start_time rq)))
             (p_ios (upd_dir (rq_write rq) (fun n => n + 1)) (part_round_stats_single now (ps j)))))
    else ps j.
Proof.
  intros Hs Hf. unfold blk_account_io_done. rewrite Hs, Hf. cbn [negb andb].
  rewrite part_upd_at, !stat_add_at, !round_at, !stat_add_at. unfold counts_for, holds, if1. cbn [rq_part fl_rq].
  destruct (Nat.eqb_spec j (rq_part rq)) as [->|].
  - rewrite Nat.eqb_refl, !orb_true_r, round_ticks, round_ios. done.
  - destruct (Nat.eqb_spec j 0) as [->|]; cbn [orb]; [|done]. by rewrite round_ticks, round_ios, p_ref_0.
Qed.

Lemma acct_inv_step ps0 a a' : acct_step a a' -> acct_inv ps0 a -> acct_inv ps0 a'.
Proof.
  intros Hs [Hout Hi]. destruct Hs as [ps now now' out hist Hn|ps ps' now out hist part try_get rq rq' Hst Hfs E
    |ps ps' now out hist part try_get rq E|ps now out hist bytes rq|ps now out1 out2 hist f|ps now out hist i];
    cbn [ac_parts ac_now ac_out ac_done] in *; (split; cbn [ac_parts ac_now ac_out ac_done]; [|intros j; specialize (Hi j)]).
  - done.
  - by eapply inv_tick.
  - constructor; [|done]. destruct (start_at now part try_get rq rq' ps ps' 0 Hst E) as (_ & [Ha Hb] & _). split; cbn in *; congruence.
  - destruct (start_at now part try_get rq rq' ps ps' j Hst E) as (_ & _ & ->).
    destruct (counts_for j rq') eqn:Hc; [by apply inv_join|by apply inv_join_other].
  - done.
  - unfold drive_stat_acct in E. destruct (rq_io_stat rq); cbn [negb] in E; inversion E; subst; [|done].
    rewrite stat_add_at. destruct (_ || _); [|done]. by apply inv_stat.
  - done.
  - unfold blk_account_io_completion. destruct (rq_io_stat rq); [|done]. rewrite stat_add_at.
    destruct (_ || _); [|done]. by apply inv_stat.
  - apply Forall_app in Hout as [H1 H2]. apply Forall_cons_1 in H2 as [_ H2]. by apply Forall_app.
  - apply Forall_app in Hout as [_ H2]. apply Forall_cons_1 in H2 as [[Hs Hf] _]. rewrite done_at by done.
    destruct (counts_for j (fl_rq f)) eqn:Hc; [|by apply inv_leave_other].
    change (holds j (mkFly (fl_rq f) now)) with (holds j f). by apply inv_end.
  - done.
  - rewrite round_at. destruct (_ || _); [|done]. by apply inv_round.
Qed.

(** The statistics of a disk with nothing in flight. *)
Definition fresh_parts (ps : parts) (now : Z) : Prop :=
  forall j, stamp (ps j) <= now /\ in_flight (ps j) = mkTwo 0 0.

Lemma acct_inv_init ps now : fresh_parts ps now -> acct_inv ps (mkAcct ps now [] []).
Proof.
  intros Hf. split; [constructor|]. intros j. destruct (Hf j) as [Hs He].
  split; cbn [ac_parts ac_now ac_out ac_done zsum foldr]; unfold part_in_flight; rewrite ?He; try lia.
  - by intros [].
  - cbn. lia.
Qed.

(** However requests of a disk are queued, merged, ended and the clock goes on, one
    accounting function at a time and without a counter that wraps: a
    partition has in flight, in each direction, exactly its requests that have not
    ended, is referenced once for each of them, and has counted each that ended once;
    once the statistics are rounded to the current time, [time_in_queue] has grown by
    exactly the sum of the times its requests spent in the queue, and [io_ticks] by no
    more than the time that passed. *)
Theorem stats_exact (ps0 : parts) (t0 : Z) (a : acct) (j : nat) :
  fresh_parts ps0 t0 -> rtc acct_step (mkAcct ps0 t0 [] []) a ->
  let p := part_round_stats (ac_now a) j (ac_parts a) j in
  (forall rw, of_dir rw (in_flight p) = zsum (flies j rw) (ac_out a)) /\
  hd_refs p = hd_refs (ps0 j) + zsum (holds j) (ac_out a) /\
  (forall rw, of_dir rw (st_ios p) = of_dir rw (st_ios (ps0 j)) + zsum (fun l => flies j rw (ld_fly l)) (ac_done a)) /\
  time_in_queue p = time_in_queue (ps0 j) + zsum (waited j (ac_now a)) (ac_out a) + zsum (lived j) (ac_done a) /\
  0 <= io_ticks p - io_ticks (ps0 j) <= ac_now a - stamp (ps0 j).
Proof.
  intros Hf Hr. assert (acct_inv ps0 a) as [_ Hi].
  { pose proof (acct_inv_init ps0 t0 Hf) as H0. induction Hr as [|a1 a2 a3 Hs _ IH]; [done|]. apply IH. by eapply acct_inv_step. }
  cbv zeta. rewrite round_at, Nat.eqb_refl, orb_true_r. destruct (inv_round _ _ _ _ _ _ (Hi j)) as [Hq Hs].
  set (q := part_round_stats_single _ _) in *. split_and!.
  - apply Hq.
  - apply Hq.
  - apply Hq.
  - pose proof (pi_queue _ _ _ _ _ _ Hq) as E. rewrite Hs, Z.sub_diag in E. lia.
  - apply (pi_busy _ _ _ _ _ _ Hq).
  - pose proof (pi_busy _ _ _ _ _ _ Hq) as E. rewrite Hs in E. lia.
Qed.

(** ** An execution *)

Definition new_part : hd_struct := mkPart 100 (mkTwo 0 0) (mkTwo 0 0) (mkTwo 0 0) (mkTwo 0 0) (mkTwo 0 0) 0 0 1.
Definition demo_rq (part : nat) : areq := mkAreq part true 100 true false.

(** A request of partition 1 from time 100 to 130, another from 110 on: at 130 the disk
    has spent 50 in the queue and was busy for 30. *)
Lemma stats_exact_witness :
  exists a, rtc acct_step (mkAcct (fun _ => new_part) 100 [] []) a /\
    let p := part_round_stats (ac_now a) 0 (ac_parts a) 0%nat in
    time_in_queue p = 50 /\ io_ticks p = 30 /\ 0 <= io_ticks p <= 30.
Proof.
  set (s0 := mkAcct (fun _ => new_part) 100 [] []).
  set (ps1 := snd (drive_stat_acct 100 1 true true (demo_rq 0) (fun _ => new_part))).
  set (ps2 := snd (drive_stat_acct 110 1 true true (demo_rq 0) ps1)).
  set (a := mkAcct (blk_account_io_done 130 (demo_rq 1) ps2) 130 [mkFly (demo_rq 1) 110] [mkLanded (mkFly (demo_rq 1) 100) 130]).
  assert (rtc acct_step s0 a) as Hr.
  { eapply rtc_l; [by apply (a_start _ ps1 _ _ _ 1 true (demo_rq 0) (demo_rq 1))|].
    eapply rtc_l; [by apply (a_tick _ _ 110)|].
    eapply rtc_l; [by apply (a_start _ ps2 _ _ _ 1 true (demo_rq 0) (demo_rq 1))|].
    eapply rtc_l; [by apply (a_tick _ _ 130)|].
    eapply rtc_l; [apply (a_done ps2 130 [mkFly (demo_rq 1) 110] [] [] (mkFly (demo_rq 1) 100))|]. apply rtc_refl. }
  exists a. split; [exact Hr|].
  destruct (stats_exact (fun _ => new_part) 100 a 0 ltac:(intros j; split; [cbn; lia|done]) Hr) as (_ & _ & _ & Hq & Hb).
  cbv zeta in *. split; [rewrite Hq; by vm_compute|]. split; [by vm_compute|].
  change (io_ticks new_part) with 0 in Hb. change (stamp new_part) with 100 in Hb. change (ac_now a) with 130 in Hb |- *. lia.
Defined.
