(* ===== verification/BlkClone.v ===== *)
(** * block/blk-core.c: cloned requests, payloads and plug callbacks

    What stacking drivers use: [blk_rq_prep_clone] copies a request with its bios,
    [blk_insert_cloned_request] queues the copy on another queue after a check against its
    limits, [blk_rq_unprep_clone] frees the bios again; [blk_unprep_request],
    [blk_lld_busy]; and the callbacks other subsystems hang on a plug
    ([blk_check_plugged], [flush_plug_callbacks]).  Bios are objects of a heap linked by
    [bi_next].  Results: cloning is all or nothing, frees no bio twice and no bio that is
    not its own; only requests within the limits reach a queue; a callback is on a plug
    once, and is called once each time the plug is flushed. *)

From stdpp Require Import base gmap fin_maps list.
From Stdlib Require Import ZArith Lia.
From S2P Require Import Prelude Kapi.

Local Open Scope Z_scope.

(** ** Cloning *)

(** A bio of the clone: which bio it was made from, and [bi_next]. *)
Record cbio := mkCbio { cb_src : nat; cb_next : option nat }.

(** The attributes [__blk_rq_prep_clone] copies. *)
Record rq_attrs := mkAttrs {
  at_cpu : Z;
  at_cmd_flags : Z;
  at_cmd_type : req_type;
  at_sector : Z;
  at_data_len : Z;
  at_nr_phys_segments : Z;
  at_ioprio : Z;
  at_extra_len : Z
}.

(** The heap of bios, the clone's chain and attributes. *)
Record clone_st := mkClone {
  cl_heap : gmap nat cbio;
  cl_bio : option nat;
  cl_biotail : option nat;
  cl_attrs : rq_attrs
}.
Definition cl_with_heap (h : gmap nat cbio) (s : clone_st) : clone_st := mkClone h (cl_bio s) (cl_biotail s) (cl_attrs s).
Definition cl_with_bio (b : option nat) (s : clone_st) : clone_st := mkClone (cl_heap s) b (cl_biotail s) (cl_attrs s).
Definition cl_with_tail (b : option nat) (s : clone_st) : clone_st := mkClone (cl_heap s) (cl_bio s) b (cl_attrs s).
Definition cl_with_attrs (a : rq_attrs) (s : clone_st) : clone_st := mkClone (cl_heap s) (cl_bio s) (cl_biotail s) a.

(** include/linux/blk_types.h *)
Definition REQ_NOMERGE : Z := Z.shiftl 1 17.
Definition REQ_CLONE_MASK : Z := REQ_COMMON_MASK.

(** A bio through its pointer. *)
Definition load_bio (p : nat) : K clone_st cbio := s ← kget; kderef UseAfterFree (cl_heap s !! p).
Definition store_bio (p : nat) (b : cbio) : K clone_st unit := load_bio p;; kmod (fun s => cl_with_heap (<[p := b]> (cl_heap s)) s).

(** The last reference is dropped. *)
Definition bio_put (p : nat) : K clone_st unit := load_bio p;; kmod (fun s => cl_with_heap (delete p (cl_heap s)) s).

(** [while ((bio = rq->bio) != NULL)]; the heap bounds the length of the chain. *)
Fixpoint unprep_loop (fuel : nat) : K clone_st unit :=
  match fuel with
  | O => kfail Hang
  | S f =>
      s ← kget;
      match cl_bio s with
      | None => mret tt
      | Some p => b ← load_bio p; kmod (cl_with_bio (cb_next b));; bio_put p;; unprep_loop f
      end
  end.
Definition blk_rq_unprep_clone : K clone_st unit := s ← kget; unprep_loop (S (size (cl_heap s))).

Definition __blk_rq_prep_clone (src : rq_attrs) : rq_attrs :=
  mkAttrs (at_cpu src) (Z.lor (Z.land (at_cmd_flags src) REQ_CLONE_MASK) REQ_NOMERGE) (at_cmd_type src) (at_sector src)
    (at_data_len src) (at_nr_phys_segments src) (at_ioprio src) (at_extra_len src).

(** [blk_rq_init] *)
Definition init_attrs : rq_attrs := mkAttrs (-1) 0 REQ_TYPE_OTHER NO_SECTOR 0 0 0 0.

Section Prep.
(** fs/bio.c: where [bio_clone_bioset] puts the copy of a bio, if it can; the caller's
    [bio_ctr]. *)
Variable bio_clone_bioset : gmap nat cbio -> nat -> option nat.
Variable bio_ctr : nat -> nat -> Z.

Definition free_and_out (bio : option nat) : K clone_st Z :=
  match bio with Some p => bio_put p | None => mret tt end;;
  blk_rq_unprep_clone;;
  mret (- ENOMEM).

Definition append_clone (p : nat) : K clone_st unit :=
  s ← kget;
  match cl_bio s with
  | Some _ =>
      t ← kderef NullDeref (cl_biotail s);
      b ← load_bio t;
      store_bio t (mkCbio (cb_src b) (Some p));;
      kmod (cl_with_tail (Some p))
  | None => kmod (fun s => cl_with_tail (Some p) (cl_with_bio (Some p) s))
  end.

(** The loop over the bios of the original; the result is that of the function. *)
Fixpoint clone_loop (srcs : list nat) (src : rq_attrs) : K clone_st Z :=
  match srcs with
  | [] => kmod (cl_with_attrs (__blk_rq_prep_clone src));; mret 0
  | bio_src :: srcs =>
      s ← kget;
      match bio_clone_bioset (cl_heap s) bio_src with
      | None => free_and_out None
      | Some p =>
          kmod (fun s => cl_with_heap (<[p := mkCbio bio_src None]> (cl_heap s)) s);;
          if c_true (bio_ctr p bio_src) then free_and_out (Some p) else
          append_clone p;;
          clone_loop srcs src
      end
  end.

Definition blk_rq_prep_clone (srcs : list nat) (src : rq_attrs) : K clone_st Z :=
  kmod (fun s => mkClone (cl_heap s) None None init_attrs);;
  clone_loop srcs src.
End Prep.

(** ** Chains of bios *)

(** From [p] on lie the bios [l], each with the bio it was made from. *)
Fixpoint chain (h : gmap nat cbio) (p : option nat) (l : list (nat * nat)) : Prop :=
  match l with
  | [] => p = None
  | (i, src) :: l => p = Some i /\ exists nx, h !! i = Some (mkCbio src nx) /\ chain h nx l
  end.

Lemma chain_frame h h' l : forall p,
  chain h p l -> (forall i, i ∈ l.*1 -> h' !! i = h !! i) -> chain h' p l.
Proof.
  induction l as [|[i src] l IH]; intros p; cbn [chain fmap list_fmap fst]; [done|].
  intros (-> & nx & Hi & Hc) Hf. split; [done|]. exists nx. split; [rewrite Hf by constructor; done|].
  apply IH; [done|]. intros j Hj. apply Hf. by constructor.
Qed.

Lemma chain_in h l : forall p i, chain h p l -> i ∈ l.*1 -> is_Some (h !! i).
Proof.
  induction l as [|[j src] l IH]; intros p i; cbn [chain fmap list_fmap fst].
  - intros _ Hi. by apply not_elem_of_nil in Hi.
  - intros (_ & nx & Hj & Hc) [->|Hi]%elem_of_cons; [by rewrite Hj|by eapply IH].
Qed.

(** A bio is put behind the last one. *)
Lemma chain_snoc h l : forall p t s i src,
  chain h p (l ++ [(t, s)]) -> NoDup (l ++ [(t, s)]).*1 -> (i ∉ (l ++ [(t, s)]).*1) -> h !! i = Some (mkCbio src None) ->
  h !! t = Some (mkCbio s None) /\
  chain (<[t := mkCbio s (Some i)]> h) p ((l ++ [(t, s)]) ++ [(i, src)]).
Proof.
  induction l as [|[j sj] l IH]; intros p t s i src.
  - cbn. intros (-> & nx & Ht & ->) _ Hi Hh. split; [done|]. split; [done|]. exists (Some i). rewrite lookup_insert_eq.
    split; [done|]. split; [done|]. exists None. rewrite lookup_insert_ne; [done|]. intros ->. apply Hi. by constructor.
  - cbn [app chain fmap list_fmap fst]. intros (-> & nx & Hj & Hc) [Hn Hd]%NoDup_cons Hi Hh.
    apply not_elem_of_cons in Hi as [Hij Hi].
    destruct (IH nx t s i src Hc Hd Hi Hh) as [Ht Hc']. split; [done|]. split; [done|]. exists nx. split; [|done].
    rewrite lookup_insert_ne; [done|]. intros ->. apply Hn. rewrite fmap_app. apply elem_of_app. right. by constructor.
Qed.

Lemma chain_length h p l : chain h p l -> NoDup l.*1 -> (length l <= size h)%nat.
Proof.
  intros Hc Hd. rewrite <- size_dom, <- (length_fmap fst). rewrite <- (size_list_to_set (C := gset nat)) by done.
  apply subseteq_size. intros i Hi. apply elem_of_list_to_set in Hi. apply elem_of_dom. by eapply chain_in.
Qed.

Lemma wp_load_bio p b (Q : cbio -> clone_st -> Prop) s : cl_heap s !! p = Some b -> Q b s -> wp (load_bio p) Q s.
Proof. intros Hp HQ. unfold load_bio. kstep. kstep. by apply (wp_deref _ _ _ _ b). Qed.

Lemma wp_bio_put p b (Q : unit -> clone_st -> Prop) s :
  cl_heap s !! p = Some b -> Q tt (cl_with_heap (delete p (cl_heap s)) s) -> wp (bio_put p) Q s.
Proof. intros Hp HQ. unfold bio_put. kstep. eapply wp_load_bio; [done|]. by kstep. Qed.

(** The chain is freed, and nothing else. *)
Lemma wp_unprep_loop l : forall fuel s,
  chain (cl_heap s) (cl_bio s) l -> NoDup l.*1 -> (length l < fuel)%nat ->
  wp (unprep_loop fuel) (fun _ s' => cl_bio s' = None /\
       (forall i, i ∈ l.*1 -> cl_heap s' !! i = None) /\ (forall i, (i ∉ l.*1) -> cl_heap s' !! i = cl_heap s !! i)) s.
Proof.
  induction l as [|[i src] l IH]; intros fuel s; (destruct fuel as [|fuel]; [cbn; lia|]); cbn [unprep_loop chain fmap list_fmap fst length].
  - intros Hb _ _. do 2 kstep. rewrite Hb. kstep. split; [done|]. split; [|done]. intros i Hi. by apply not_elem_of_nil in Hi.
  - intros (Hb & nx & Hi & Hc) [Hn Hd]%NoDup_cons Hf. do 2 kstep. rewrite Hb. kstep. eapply wp_load_bio; [done|]. cbn [cb_next].
    do 2 kstep. kstep. eapply wp_bio_put; [done|].
    set (s' := cl_with_heap _ _).
    assert (forall j, cl_heap s' !! j = if decide (j = i) then None else cl_heap s !! j) as Hs'.
    { intros j. unfold s'. cbn. destruct (decide (j = i)) as [->|]; [apply lookup_delete_eq|by apply lookup_delete_ne]. }
    eapply wp_mono; [apply IH; [|done|lia]|].
    { apply (chain_frame (cl_heap s)); [done|]. intros j Hj. rewrite Hs', decide_False; [done|]. by intros ->. }
    intros [] s2 (H1 & H2 & H3). split; [done|]. split.
    + intros j [->|Hj]%elem_of_cons; [|by apply H2]. rewrite H3 by done. by rewrite Hs', decide_True.
    + intros j [Hji Hj]%not_elem_of_cons. rewrite H3 by done. by rewrite Hs', decide_False.
Qed.

(** ** Cloning is all or nothing *)

(** The bios [l] were added to the heap [h0] and are the clone's chain. *)
Record cloned (h0 : gmap nat cbio) (s : clone_st) (l : list (nat * nat)) : Prop := {
  cd_chain : chain (cl_heap s) (cl_bio s) l;
  cd_nodup : NoDup l.*1;
  cd_fresh i : i ∈ l.*1 -> h0 !! i = None;
  cd_old i : (i ∉ l.*1) -> cl_heap s !! i = h0 !! i;
  cd_tail : cl_biotail s = last l.*1
}.

Lemma wp_unprep h0 s l : cloned h0 s l ->
  wp blk_rq_unprep_clone (fun _ s' => cl_bio s' = None /\ cl_heap s' = h0) s.
Proof.
  intros [Hc Hd Hf Ho _]. unfold blk_rq_unprep_clone. do 2 kstep.
  eapply wp_mono; [apply (wp_unprep_loop l); [done..|]; pose proof (chain_length _ _ _ Hc Hd); lia|].
  intros [] s' (H1 & H2 & H3). split; [done|]. apply map_eq. intros i.
  destruct (decide (i ∈ l.*1)) as [Hi|Hi]; [by rewrite H2, Hf|by rewrite H3, Ho].
Qed.

Section CloneThm.
Variable bio_clone_bioset : gmap nat cbio -> nat -> option nat.
Variable bio_ctr : nat -> nat -> Z.
Hypothesis clone_fresh : forall h src p, bio_clone_bioset h src = Some p -> h !! p = None.

(** The result of [blk_rq_prep_clone]. *)
Definition clone_result (h0 : gmap nat cbio) (srcs : list nat) (src : rq_attrs) (ret : Z) (s : clone_st) : Prop :=
  (ret = 0 /\ exists l, cloned h0 s l /\ l.*2 = srcs /\ cl_attrs s = __blk_rq_prep_clone src) \/
  (ret = - ENOMEM /\ cl_bio s = None /\ cl_heap s = h0).

Lemma wp_free_clone h0 s l srcs src : cloned h0 s l -> wp (free_and_out None) (clone_result h0 srcs src) s.
Proof.
  intros Hc. unfold free_and_out. kstep. kstep. kstep. kcall (wp_unprep h0 s l Hc). intros [] s' [H1 H2].
  kstep. by right.
Qed.

Lemma wp_append h0 s l p bio_src :
  cloned h0 s l -> cl_heap s !! p = None ->
  wp (append_clone p) (fun _ s' => cloned h0 s' (l ++ [(p, bio_src)]))
     (cl_with_heap (<[p := mkCbio bio_src None]> (cl_heap s)) s).
Proof.
  intros [Hc Hd Hf Ho Ht] Hp.
  assert (p ∉ l.*1) as Hpl. { intros Hi. apply (chain_in _ _ _ _ Hc) in Hi as [b Hb]. congruence. }
  assert (h0 !! p = None) as Hp0 by (by rewrite <- Ho).
  assert (NoDup (l ++ [(p, bio_src)]).*1) as Hd'.
  { rewrite fmap_app. apply NoDup_app. split; [done|]. split; [|apply NoDup_singleton].
    intros i Hi [->|Hn]%elem_of_cons; [done|by apply not_elem_of_nil in Hn]. }
  assert (forall i, i ∈ (l ++ [(p, bio_src)]).*1 -> h0 !! i = None) as Hf'.
  { intros i. rewrite fmap_app, elem_of_app. intros [Hi|[->|Hn]%elem_of_cons]; [by apply Hf|done|by apply not_elem_of_nil in Hn]. }
  assert (last (l ++ [(p, bio_src)]).*1 = Some p) as Hlast by (rewrite fmap_app; apply last_snoc).
  unfold append_clone. do 2 kstep. cbn [cl_bio cl_with_heap]. destruct l as [|x l0] using rev_ind; [|clear IHl0].
  - cbn in Hc. rewrite Hc. cbv match. kstep. split; cbn [cl_heap cl_bio cl_biotail cl_with_tail cl_with_bio cl_with_heap]; try done.
    + split; [done|]. exists None. by rewrite lookup_insert_eq.
    + intros i Hi. rewrite lookup_insert_ne; [apply Ho; by apply not_elem_of_nil|]. intros ->. apply Hi. by constructor.
  - destruct x as [t st]. rewrite fmap_app in Ht. change ([(t, st)].*1) with [t] in Ht. rewrite last_snoc in Ht. cbn [cl_biotail cl_with_heap]. rewrite Ht.
    assert (is_Some (cl_bio s)) as [b0 Hb0] by (destruct l0 as [|[? ?] ?]; cbn in Hc; destruct Hc as [-> _]; done).
    rewrite Hb0. cbv match. kstep. apply (wp_deref _ _ _ _ t); [done|].
    destruct (chain_snoc (<[p := mkCbio bio_src None]> (cl_heap s)) l0 (cl_bio s) t st p bio_src) as [Htt Hcc]; try done.
    { apply (chain_frame (cl_heap s)); [done|]. intros i Hi. rewrite lookup_insert_ne; [done|]. by intros ->. }
    { by rewrite lookup_insert_eq. }
    kstep. eapply wp_load_bio; [exact Htt|]. kstep. unfold store_bio. kstep. eapply wp_load_bio; [exact Htt|]. kstep. kstep.
    split; cbn [cl_heap cl_bio cl_biotail cl_with_tail cl_with_bio cl_with_heap cb_src]; try done.
    intros i Hi. rewrite fmap_app in Hi. apply not_elem_of_app in Hi as [Hi Hip]. apply not_elem_of_cons in Hip as [Hip _].
    rewrite !lookup_insert_ne; [by apply Ho|done|]. intros ->. apply Hi. rewrite fmap_app. apply elem_of_app. right. by constructor.
Qed.

Lemma wp_clone_loop h0 src rest : forall s l,
  cloned h0 s l -> wp (clone_loop bio_clone_bioset bio_ctr rest src) (clone_result h0 (l.*2 ++ rest) src) s.
Proof.
  induction rest as [|b rest IH]; intros s l Hc; cbn [clone_loop].
  - kstep. kstep. kstep. left. split; [done|]. exists l. split; [by destruct Hc|]. by rewrite app_nil_r.
  - do 2 kstep. destruct (bio_clone_bioset (cl_heap s) b) as [p|] eqn:E; [|by eapply wp_free_clone].
    pose proof (clone_fresh _ _ _ E) as Hp. kstep. kstep. destruct (c_true (bio_ctr p b)).
    + unfold free_and_out. kstep. eapply wp_bio_put; [apply lookup_insert_eq|]. cbn [cl_heap cl_with_heap].
      rewrite delete_insert_id by done. destruct s as [h b0 t at0]. cbn. kstep. kcall (wp_unprep h0 _ l Hc).
      intros [] s' [H1 H2]. kstep. by right.
    + kstep. kcall (wp_append h0 s l p b Hc Hp). intros [] s' Hc'. kcall (IH s' _ Hc'). intros ret s2.
      by rewrite fmap_app, <- app_assoc.
Qed.
End CloneThm.

(** The attributes of a clone: place, size, type, segments, priority and CPU are the
    original's; of its flags it has the common ones (bits 0 to 12: direction, fail-fast,
    sync, meta, priority, discard, secure, write-same, no-idle, FUA and flush) and
    REQ_NOMERGE (bit 17), no other. *)
Definition clone_of (src dst : rq_attrs) : Prop :=
  at_sector dst = at_sector src /\ at_data_len dst = at_data_len src /\ at_cmd_type dst = at_cmd_type src /\
  at_nr_phys_segments dst = at_nr_phys_segments src /\ at_ioprio dst = at_ioprio src /\
  at_extra_len dst = at_extra_len src /\ at_cpu dst = at_cpu src /\
  forall b, 0 <= b ->
    Z.testbit (at_cmd_flags dst) b = (b =? 17) || ((b <? 13) && Z.testbit (at_cmd_flags src) b).

Lemma prep_clone_attrs src : clone_of src (__blk_rq_prep_clone src).
Proof.
  split_and!; try done. intros b Hb. cbn [at_cmd_flags __blk_rq_prep_clone].
  rewrite Z.lor_spec, Z.land_spec. unfold REQ_NOMERGE. rewrite Z.shiftl_1_l, Z.pow2_bits_eqb by lia.
  change REQ_CLONE_MASK with (Z.ones 13). rewrite Z.testbit_ones_nonneg by lia.
  rewrite orb_comm, (Z.eqb_sym 17). f_equal. apply andb_comm.
Qed.

(** C29: [blk_rq_prep_clone] is all or nothing, whatever bios cannot be allocated and
    whatever the caller's constructor refuses (a new bio is one that is not in use):
    with 0 the clone's chain holds one new bio for each bio of the original, in order,
    with [biotail] the last, its sector, size, type, segment count, priority and CPU are
    the original's, its flags are the original's common ones and REQ_NOMERGE, and no
    other bio changed; otherwise it is -ENOMEM and every bio it made is freed again,
    once, the heap being as before. *)
Theorem clone_all_or_nothing (bio_clone_bioset : gmap nat cbio -> nat -> option nat) (bio_ctr : nat -> nat -> Z)
    (srcs : list nat) (src : rq_attrs) (s : clone_st) :
  (forall h b p, bio_clone_bioset h b = Some p -> h !! p = None) ->
  wp (blk_rq_prep_clone bio_clone_bioset bio_ctr srcs src)
     (fun ret s' =>
        (ret = 0 /\ exists l, cloned (cl_heap s) s' l /\ l.*2 = srcs /\ clone_of src (cl_attrs s')) \/
        (ret = - ENOMEM /\ cl_bio s' = None /\ cl_heap s' = cl_heap s)) s.
Proof.
  intros Hf. unfold blk_rq_prep_clone. do 2 kstep. eapply wp_mono.
  - eapply (wp_clone_loop bio_clone_bioset bio_ctr Hf (cl_heap s) src srcs _ []). split; try done.
    + constructor.
    + intros i Hi. by apply not_elem_of_nil in Hi.
  - cbv beta. intros ret s' [(E & l & Hc & Hl & Ha)|?]; [left|by right].
    split; [done|]. exists l. split_and!; [done|done|]. rewrite Ha. apply prep_clone_attrs.
Qed.

(** ** Queueing a clone *)

Inductive ins_where := INSERT_BACK | INSERT_FLUSH.

(** [cq_queued] is [blk_queued_rq]; [cq_segments] is [nr_phys_segments]. *)
Record crq := mkCrq {
  cq_id : nat;
  cq_cmd_flags : Z;
  cq_mergeable : bool;
  cq_sectors : Z;
  cq_segments : Z;
  cq_disk : bool;
  cq_queued : bool
}.
Definition cq_with_segments (n : Z) (rq : crq) : crq :=
  mkCrq (cq_id rq) (cq_cmd_flags rq) (cq_mergeable rq) (cq_sectors rq) n (cq_disk rq) (cq_queued rq).

(** The requests given to the elevator and accounted, and how often the queue was run. *)
Record insq := mkInsq { iq_dying : bool; iq_elv : list (ins_where * nat); iq_acct : list nat; iq_runs : Z }.

Section Insert.
(** Limits of the queue, [blk_recalc_rq_segments], fault injection. *)
Variable blk_queue_get_max_sectors : Z -> Z.
Variable queue_max_segments : Z.
Variable blk_recalc_rq_segments : crq -> Z.
Variable should_fail_request : Z -> bool.

Definition blk_rq_check_limits (rq : crq) : Z * crq :=
  if negb (cq_mergeable rq) then (0, rq) else
  if blk_queue_get_max_sectors (cq_cmd_flags rq) <? cq_sectors rq then (- EIO, rq) else
  let rq := cq_with_segments (blk_recalc_rq_segments rq) rq in
  if queue_max_segments <? cq_segments rq then (- EIO, rq) else (0, rq).

Definition add_acct_request (id : nat) (w : ins_where) : K insq unit :=
  kmod (fun q => mkInsq (iq_dying q) (iq_elv q ++ [(w, id)]) (iq_acct q ++ [id]) (iq_runs q)).

(** Behind the check of the limits. *)
Definition insert_rest (rq : crq) : K insq (Z * crq) :=
  if cq_disk rq && should_fail_request (512 * cq_sectors rq) then mret (- EIO, rq) else
  q ← kget;
  if iq_dying q then mret (- ENODEV, rq) else
  if cq_queued rq then kfail BugOn else
  let w := if c_true (Z.land (cq_cmd_flags rq) (Z.lor REQ_FLUSH REQ_FUA)) then INSERT_FLUSH else INSERT_BACK in
  add_acct_request (cq_id rq) w;;
  match w with
  | INSERT_FLUSH => kmod (fun q => mkInsq (iq_dying q) (iq_elv q) (iq_acct q) (iq_runs q + 1))
  | INSERT_BACK => mret tt
  end;;
  mret (0, rq).

Definition blk_insert_cloned_request (rq : crq) : K insq (Z * crq) :=
  let '(r, rq) := blk_rq_check_limits rq in
  if c_true r then mret (- EIO, rq) else insert_rest rq.

Definition injected (rq : crq) : bool := cq_disk rq && should_fail_request (512 * cq_sectors rq).
Definition is_flush (rq : crq) : bool := c_true (Z.land (cq_cmd_flags rq) (Z.lor REQ_FLUSH REQ_FUA)).
Definition inserted (rq : crq) (q : insq) : insq :=
  mkInsq false (iq_elv q ++ [(if is_flush rq then INSERT_FLUSH else INSERT_BACK, cq_id rq)])
    (iq_acct q ++ [cq_id rq]) (iq_runs q + if is_flush rq then 1 else 0).

Lemma wp_insert_rest (rq : crq) (q : insq) :
  cq_queued rq = false ->
  wp (insert_rest rq)
     (fun x q' => snd x = rq /\
        if negb (injected rq) && negb (iq_dying q) then fst x = 0 /\ q' = inserted rq q
        else q' = q /\ fst x = if negb (injected rq) then - ENODEV else - EIO) q.
Proof.
  intros Hq. unfold insert_rest, inserted. change (c_true (Z.land (cq_cmd_flags rq) _)) with (is_flush rq). fold (injected rq).
  destruct (injected rq); [done|]. cbn [negb andb]. do 2 kstep.
  destruct (iq_dying q) eqn:Ed; [done|]. rewrite Hq. cbn [negb]. unfold add_acct_request.
  destruct (is_flush rq); cbv zeta match; do 3 kstep; kstep; rewrite Ed; split_and!; try done; by rewrite Z.add_0_r.
Qed.

(** [blk_insert_cloned_request] gives a request to the elevator, once and
    accounted, exactly when it respects the queue's limits (segments counted anew), is
    not picked by fault injection and the queue is not dying; a flush or FUA request goes
    to the flush machinery and the queue is run.  In every other case the queue is left
    alone and the error is -EIO, or -ENODEV for a dying queue. *)
Theorem insert_cloned_checked (rq : crq) (q : insq) :
  cq_queued rq = false ->
  let within := negb (cq_mergeable rq) ||
                ((cq_sectors rq <=? blk_queue_get_max_sectors (cq_cmd_flags rq)) &&
                 (blk_recalc_rq_segments rq <=? queue_max_segments)) in
  wp (blk_insert_cloned_request rq)
     (fun x q' =>
        if within && negb (injected rq) && negb (iq_dying q)
        then fst x = 0 /\ q' = inserted rq q /\ (cq_mergeable rq = true -> cq_segments (snd x) = blk_recalc_rq_segments rq)
        else q' = q /\ fst x = if within && negb (injected rq) then - ENODEV else - EIO) q.
Proof.
  intros Hq. cbv zeta. unfold blk_insert_cloned_request, blk_rq_check_limits.
  destruct (cq_mergeable rq) eqn:Em; cbn [negb orb andb].
  - rewrite Z.leb_antisym. destruct (_ <? cq_sectors rq); cbn [negb andb]; [done|].
    set (n := blk_recalc_rq_segments rq). cbn [cq_segments cq_with_segments].
    rewrite Z.leb_antisym. destruct (queue_max_segments <? n); cbn [negb andb]; [done|].
    kcall (wp_insert_rest (cq_with_segments n rq) q Hq). intros [r rq'] q' [-> Hr].
    change (injected (cq_with_segments n rq)) with (injected rq) in Hr. destruct (negb (injected rq) && negb (iq_dying q)); [by destruct Hr as [? ->]|done].
  - kcall (wp_insert_rest rq q Hq). intros [r rq'] q' [-> Hr].
    destruct (negb (injected rq) && negb (iq_dying q)); [by destruct Hr as [? ->]|done].
Qed.
End Insert.

(** [unprep_rq_fn] may be NULL; so may [lld_busy_fn]. *)
Definition blk_unprep_request {A} (unprep_rq_fn : option (A -> A)) (cmd_flags : Z) (a : A) : Z * A :=
  (Z.ldiff cmd_flags REQ_DONTPREP, match unprep_rq_fn with Some f => f a | None => a end).
Definition blk_lld_busy {A} (lld_busy_fn : option (A -> Z)) (q : A) : Z :=
  match lld_busy_fn with Some f => f q | None => 0 end.

(** ** Callbacks of a plug *)

(** [struct blk_plug_cb] *)
Record plug_cb := mkCb { pcb_callback : nat; pcb_data : nat }.
#[global] Instance plug_cb_eq : EqDecision plug_cb.
Proof. solve_decision. Defined.

(** [plug->cb_list] of the task, if it has a plug.  [size_ok] says that the caller's
    structure has room for a callback, [alloc] that [kzalloc] succeeded. *)
Definition blk_check_plugged (unplug data : nat) (size_ok alloc : bool) : K (option (list plug_cb)) (option plug_cb) :=
  plug ← kget;
  match plug with
  | None => mret None
  | Some l =>
      match List.find (fun cb => (pcb_callback cb =? unplug)%nat && (pcb_data cb =? data)%nat) l with
      | Some cb => mret (Some cb)
      | None =>
          if negb size_ok then kfail BugOn else
          if alloc then kput (Some (mkCb unplug data :: l));; mret (Some (mkCb unplug data)) else mret None
      end
  end.

Section Flush.
(** What a callback leaves of the plug's list: it may put callbacks on it. *)
Variable callback : plug_cb -> list plug_cb -> list plug_cb.

(** The inner loop over the spliced list, and the outer one; with the calls made. *)
Fixpoint run_callbacks (callbacks cb_list calls : list plug_cb) : list plug_cb * list plug_cb :=
  match callbacks with
  | [] => (cb_list, calls)
  | cb :: callbacks => run_callbacks callbacks (callback cb cb_list) (calls ++ [cb])
  end.
Fixpoint flush_plug_callbacks (fuel : nat) (cb_list calls : list plug_cb) : option (list plug_cb) :=
  match fuel with
  | O => None
  | S f =>
      match cb_list with
      | [] => Some calls
      | callbacks => let '(cb_list, calls) := run_callbacks callbacks [] calls in flush_plug_callbacks f cb_list calls
      end
  end.

Lemma run_callbacks_quiet l calls : (forall cb m, callback cb m = m) -> forall m, run_callbacks l m calls = (m, calls ++ l).
Proof.
  intros Hq. revert calls. induction l as [|cb l IH]; intros calls m; cbn [run_callbacks]; [by rewrite app_nil_r|].
  by rewrite Hq, IH, <- app_assoc.
Qed.
End Flush.

(** A sequence of registrations on a plug; each says whether memory was there. *)
Fixpoint register (l : list (nat * nat * bool)) : K (option (list plug_cb)) unit :=
  match l with
  | [] => mret tt
  | (f, d, alloc) :: l => blk_check_plugged f d true alloc;; register l
  end.

Lemma wp_check_plugged f d alloc l :
  NoDup l ->
  wp (blk_check_plugged f d true alloc)
     (fun r p => exists l', p = Some l' /\ NoDup l' /\
        (forall cb, cb ∈ l' <-> cb ∈ l \/ cb = mkCb f d /\ r = Some cb) /\
        (r = None -> (mkCb f d ∉ l) /\ alloc = false) /\ (forall cb, r = Some cb -> cb = mkCb f d)) (Some l).
Proof.
  intros Hd. unfold blk_check_plugged. do 2 kstep.
  destruct (List.find _ l) as [cb|] eqn:E.
  - apply find_some in E as [Hin Hb]. apply andb_true_iff in Hb as [H1 H2]. apply Nat.eqb_eq in H1, H2.
    assert (cb = mkCb f d) as -> by (destruct cb; cbn in *; congruence). apply list_elem_of_In in Hin.
    kstep. exists l. split_and!; try done; [|by intros cb [= <-]]. intros cb. split; [by left|]. intros [?|[-> _]]; done.
  - assert (mkCb f d ∉ l) as Hn.
    { intros Hin. apply list_elem_of_In in Hin. pose proof (find_none _ _ E _ Hin) as Hf. cbn in Hf. by rewrite !Nat.eqb_refl in Hf. }
    cbn [negb]. destruct alloc.
    + exists (mkCb f d :: l). split_and!; try done; [by constructor| |by intros cb [= <-]].
      intros cb. rewrite elem_of_cons. split; [intros [->|?]; [by right|by left]|intros [?|[-> _]]; [by right|by left]].
    + kstep. exists l. split_and!; try done. intros cb. split; [by left|]. intros [?|[_ ?]]; done.
Qed.

(** However often and by whom [blk_check_plugged] is called on a plug, a callback is on
    its list at most once per function and datum, and at least once when memory was
    there; [flush_plug_callbacks] then ends and calls each of them exactly once, where
    callbacks put no others on the list. *)
Theorem plug_callbacks_once (regs : list (nat * nat * bool)) (callback : plug_cb -> list plug_cb -> list plug_cb) :
  (forall cb m, callback cb m = m) ->
  wp (register regs)
     (fun _ p => exists l, p = Some l /\ NoDup l /\
        (forall f d, (f, d, true) ∈ regs -> mkCb f d ∈ l) /\
        (forall cb, cb ∈ l -> exists alloc, (pcb_callback cb, pcb_data cb, alloc) ∈ regs) /\
        flush_plug_callbacks callback 2 l [] = Some l) (Some []).
Proof.
  intros Hq.
  assert (forall regs l, NoDup l -> wp (register regs) (fun _ p => exists l', p = Some l' /\ NoDup l' /\ (forall cb, cb ∈ l -> cb ∈ l') /\
    (forall f d, (f, d, true) ∈ regs -> mkCb f d ∈ l') /\
    (forall cb, cb ∈ l' -> cb ∈ l \/ exists alloc, (pcb_callback cb, pcb_data cb, alloc) ∈ regs)) (Some l)) as Hr.
  { clear regs. induction regs as [|[[f d] alloc] regs IH]; intros l Hd; cbn [register].
    - kstep. exists l. split_and!; try done; [|by left]. intros f d Hin. by apply not_elem_of_nil in Hin.
    - kstep. kcall (wp_check_plugged f d alloc l Hd). intros r p (l1 & -> & Hd1 & Hin1 & Hnone & Hsome).
      kcall (IH l1 Hd1). intros [] p (l' & -> & Hd' & Hsub & Hreg & Hback). exists l'. split_and!; try done.
      + intros cb Hcb. apply Hsub, Hin1. by left.
      + intros f' d' [[= -> -> <-]|Hin]%elem_of_cons; [|by apply Hreg].
        destruct r as [cb|]; [|by destruct (Hnone eq_refl)]. pose proof (Hsome cb eq_refl) as ->. apply Hsub, Hin1. by right.
      + intros cb Hcb. destruct (Hback cb Hcb) as [Hc1|[a Ha]]; [|right; exists a; by constructor].
        apply Hin1 in Hc1 as [?|[-> _]]; [by left|]. right. exists alloc. by constructor. }
  kcall (Hr regs [] (NoDup_nil_2)). intros [] p (l & -> & Hd & _ & Hreg & Hback). exists l. split_and!; try done.
  - intros cb Hcb. destruct (Hback cb Hcb) as [Hn|?]; [by apply not_elem_of_nil in Hn|done].
  - cbn [flush_plug_callbacks]. destruct l as [|cb l]; [done|]. by rewrite run_callbacks_quiet by done.
Qed.

(** ** Executions *)

Definition next_bio (h : gmap nat cbio) (src : nat) : option nat := Some (fresh (dom h : gset nat)).
Definition refuse_8 (p src : nat) : Z := if (src =? 8)%nat then -1 else 0.
Definition some_attrs : rq_attrs := mkAttrs 0 1 REQ_TYPE_FS 2048 8192 2 0 0.
Definition no_clone : clone_st := mkClone ∅ None None init_attrs.

Lemma next_bio_fresh h src p : next_bio h src = Some p -> h !! p = None.
Proof. intros [= <-]. apply not_elem_of_dom, is_fresh. Qed.

(** Two bios are cloned; when the second is refused, the first is freed again. *)
Lemma clone_all_or_nothing_witness :
  (exists s' l, blk_rq_prep_clone next_bio refuse_8 [7; 9]%nat some_attrs no_clone = Ok (0, s') /\
     cloned ∅ s' l /\ l.*2 = [7; 9]%nat /\ at_sector (cl_attrs s') = 2048) /\
  (exists s', blk_rq_prep_clone next_bio refuse_8 [7; 8]%nat some_attrs no_clone = Ok (- ENOMEM, s') /\ cl_heap s' = ∅).
Proof.
  split.
  - destruct (wp_inv _ _ _ (clone_all_or_nothing next_bio refuse_8 [7; 9]%nat some_attrs no_clone next_bio_fresh))
      as (ret & s' & E & H).
    assert (ret = 0) as Hr by (vm_compute in E; by inversion E). subst ret.
    destruct H as [(_ & l & Hc & Hl & Ha)|[? _]]; [|done].
    exists s', l. split; [exact E|]. split; [exact Hc|]. split; [exact Hl|exact (proj1 Ha)].
  - destruct (wp_inv _ _ _ (clone_all_or_nothing next_bio refuse_8 [7; 8]%nat some_attrs no_clone next_bio_fresh))
      as (ret & s' & E & H).
    assert (ret = - ENOMEM) as Hr by (vm_compute in E; by inversion E).
    exists s'. subst ret. split; [exact E|]. destruct H as [[? _]|(_ & _ & H)]; [done|exact H].
Defined.

Lemma insert_cloned_checked_witness :
  wp (blk_insert_cloned_request (fun _ => 1024) 128 (fun _ => 2) (fun _ => false) (mkCrq 5 REQ_FLUSH true 8 9 true false))
     (fun x q' => fst x = 0 /\ q' = mkInsq false [(INSERT_FLUSH, 5%nat)] [5%nat] 1 /\ cq_segments (snd x) = 2)
     (mkInsq false [] [] 0).
Proof.
  eapply wp_mono; [apply (insert_cloned_checked (fun _ => 1024) 128 (fun _ => 2) (fun _ => false)
    (mkCrq 5 REQ_FLUSH true 8 9 true false) (mkInsq false [] [] 0) eq_refl)|].
  intros x q' (H1 & H2 & H3). split; [exact H1|]. split; [exact H2|]. exact (H3 eq_refl).
Defined.

Lemma plug_callbacks_once_witness :
  exists p, register [(1, 2, true); (3, 4, true); (1, 2, true)]%nat (Some []) = Ok (tt, p) /\
    exists l, p = Some l /\ flush_plug_callbacks (fun _ m => m) 2 l [] = Some [mkCb 3 4; mkCb 1 2].
Proof.
  destruct (wp_inv _ _ _ (plug_callbacks_once [(1, 2, true); (3, 4, true); (1, 2, true)]%nat (fun _ m => m) ltac:(done)))
    as ([] & p & E & l & Hp & _ & _ & _ & Hf).
  exists p. split; [exact E|]. exists l. split; [exact Hp|]. rewrite Hf.
  vm_compute in E. inversion E. subst. by inversion H0.
Defined.
