(* ===== verification/Sd.v ===== *)
(** * drivers/scsi/sd.c: commands for a disk

    How [sd_prep_fn] turns a request into a CDB (read and write in their four
    lengths, discard, write same, flush), the limits that [sd_config_discard] and
    [sd_config_write_same] set for them, and how much of a failed command
    [sd_done] counts as good.  Functions of the midlayer that are not in the
    repository ([scsi_setup_fs_cmnd], [scsi_setup_blk_pc_cmnd], the DIF helpers)
    are arguments. *)

From stdpp Require Import base gmap list list_numbers.
From coqutil Require Import Byte Word.LittleEndianList.
From Stdlib Require Import ZArith Lia.
From S2P Require Import Prelude Kapi Ring Layout State Scsi.

Local Open Scope Z_scope.

(** ** Data *)

(** The fields of [struct scsi_device] sd.c uses. *)
Record sd_device := mkSdDev {
  sd_base : scsi_device;
  sector_size : Z;
  last_sector_bug : bool;
  writeable : bool;
  use_16_for_rw : bool;
  use_10_for_rw : bool;
  scsi_device_protection : bool;
  no_write_same : bool
}.

Record queue_limits := mkLimits {
  discard_zeroes_data : bool;
  discard_alignment : Z;
  discard_granularity : Z;
  max_discard_sectors : Z;
  queue_discard : bool;
  max_write_same_sectors : Z
}.

(** [struct scsi_disk] and the limits of its queue. *)
Record scsi_disk := mkDiskState {
  sk_device : sd_device;
  sk_limits : queue_limits;
  get_capacity : Z;                 (* of the gendisk, 512-byte sectors *)
  provisioning_mode : lbp_mode;
  lbprz : bool;
  unmap_alignment : Z;
  unmap_granularity : Z;
  physical_block_size : Z;
  max_unmap_blocks : Z;
  max_ws_blocks : Z;
  ws16 : bool;
  medium_access_timed_out : Z;
  max_medium_access_timeouts : Z
}.

Definition sk_with_limits (l : queue_limits) (m : lbp_mode) (k : scsi_disk) : scsi_disk :=
  mkDiskState (sk_device k) l (get_capacity k) m (lbprz k) (unmap_alignment k) (unmap_granularity k)
    (physical_block_size k) (max_unmap_blocks k) (max_ws_blocks k) (ws16 k)
    (medium_access_timed_out k) (max_medium_access_timeouts k).
Definition sk_with_ws (l : queue_limits) (ws : Z) (k : scsi_disk) : scsi_disk :=
  mkDiskState (sk_device k) l (get_capacity k) (provisioning_mode k) (lbprz k) (unmap_alignment k)
    (unmap_granularity k) (physical_block_size k) (max_unmap_blocks k) ws (ws16 k)
    (medium_access_timed_out k) (max_medium_access_timeouts k).
Definition sk_with_device (d : sd_device) (k : scsi_disk) : scsi_disk :=
  mkDiskState d (sk_limits k) (get_capacity k) (provisioning_mode k) (lbprz k) (unmap_alignment k)
    (unmap_granularity k) (physical_block_size k) (max_unmap_blocks k) (max_ws_blocks k) (ws16 k)
    (medium_access_timed_out k) (max_medium_access_timeouts k).
Definition sk_with_timeouts (z : Z) (k : scsi_disk) : scsi_disk :=
  mkDiskState (sk_device k) (sk_limits k) (get_capacity k) (provisioning_mode k) (lbprz k)
    (unmap_alignment k) (unmap_granularity k) (physical_block_size k) (max_unmap_blocks k)
    (max_ws_blocks k) (ws16 k) z (max_medium_access_timeouts k).

(** ** Device numbers *)

Definition SCSI_DISK0_MAJOR : Z := 8.
Definition SCSI_DISK1_MAJOR : Z := 65.
Definition SCSI_DISK8_MAJOR : Z := 128.

(** [None] is [BUG()]. *)
Definition sd_major (major_idx : Z) : option Z :=
  if major_idx =? 0 then Some SCSI_DISK0_MAJOR
  else if (1 <=? major_idx) && (major_idx <=? 7) then Some (SCSI_DISK1_MAJOR + major_idx - 1)
  else if (8 <=? major_idx) && (major_idx <=? 15) then Some (SCSI_DISK8_MAJOR + major_idx - 8)
  else None.

(** ** Protection *)

Inductive prot_op :=
  | SCSI_PROT_NORMAL | SCSI_PROT_READ_INSERT | SCSI_PROT_WRITE_STRIP | SCSI_PROT_READ_STRIP
  | SCSI_PROT_WRITE_INSERT | SCSI_PROT_READ_PASS | SCSI_PROT_WRITE_PASS.

(** The operation and the type a command is tagged with ([scsi_set_prot_op],
    [scsi_set_prot_type]); [dix] is [scsi_prot_sg_count]. *)
Definition sd_prot_op (dir : dma_dir) (dif dix : Z) : prot_op * Z :=
  let dif_on := c_true dif in
  let dix_on := c_true dix in
  let op :=
    match dir with
    | DMA_FROM_DEVICE =>
        if dif_on && dix_on then SCSI_PROT_READ_PASS
        else if dif_on && negb dix_on then SCSI_PROT_READ_STRIP
        else if negb dif_on && dix_on then SCSI_PROT_READ_INSERT
        else SCSI_PROT_NORMAL
    | _ =>
        if dif_on && dix_on then SCSI_PROT_WRITE_PASS
        else if dif_on && negb dix_on then SCSI_PROT_WRITE_INSERT
        else if negb dif_on && dix_on then SCSI_PROT_WRITE_STRIP
        else SCSI_PROT_NORMAL
    end in
  (op, dif).

(** ** Limits *)

Definition min_not_zero (x y : Z) : Z :=
  if x =? 0 then y else if y =? 0 then x else Z.min x y.

Definition sd_config_discard (k : scsi_disk) (mode : lbp_mode) : scsi_disk :=
  let l := sk_limits k in
  let lbs := sector_size (sk_device k) in
  let zeroes := lbprz k in
  let align := u32 (unmap_alignment k * lbs) in
  let gran := Z.max (physical_block_size k) (u32 (unmap_granularity k * lbs)) in
  let set zeroes max_blocks :=
    sk_with_limits (mkLimits zeroes align gran (u32 (max_blocks * Z.shiftr lbs 9)) true
                      (max_write_same_sectors l)) mode k in
  match mode with
  | SD_LBP_DISABLE =>
      sk_with_limits (mkLimits zeroes align gran 0 false (max_write_same_sectors l)) mode k
  | SD_LBP_UNMAP => set zeroes (min_not_zero (max_unmap_blocks k) SD_MAX_WS16_BLOCKS)
  | SD_LBP_WS16 => set zeroes (min_not_zero (max_ws_blocks k) SD_MAX_WS16_BLOCKS)
  | SD_LBP_WS10 => set zeroes (min_not_zero (max_ws_blocks k) SD_MAX_WS10_BLOCKS)
  | SD_LBP_ZERO => set true (min_not_zero (max_ws_blocks k) SD_MAX_WS10_BLOCKS)
  | SD_LBP_FULL => set zeroes 0
  end.

Definition sd_config_write_same (k : scsi_disk) : scsi_disk :=
  let l := sk_limits k in
  let out ws blocks :=
    sk_with_ws (mkLimits (discard_zeroes_data l) (discard_alignment l) (discard_granularity l)
                  (max_discard_sectors l) (queue_discard l)
                  (u32 (blocks * Z.shiftr (sector_size (sk_device k)) 9))) ws k in
  if no_write_same (sk_device k) then out 0 0 else
  let ws := if max_ws_blocks k =? 0 then SD_MAX_WS10_BLOCKS else max_ws_blocks k in
  if ws16 k || (SD_MAX_WS10_BLOCKS <? ws)
  then out ws (min_not_zero ws SD_MAX_WS16_BLOCKS)
  else out ws (min_not_zero ws SD_MAX_WS10_BLOCKS).

(** ** Commands *)

Record sd_request := mkSdRq {
  rq_pos : Z;          (* blk_rq_pos, 512-byte sectors *)
  rq_sectors : Z;      (* blk_rq_sectors *)
  rq_bytes : Z;        (* blk_rq_bytes *)
  rq_cmd_flags : Z;
  rq_cmd_type : req_type;
  rq_bio_offset : Z;   (* bio_offset of the first bio *)
  rq_bv_len : Z        (* bv_len of its first segment *)
}.

(** What [sd_prep_fn] sets up on top for a read or write: the protection
    operation and type if any, [transfersize] and [allowed]. *)
Record rw_setup := mkRw {
  rw_prot : option (prot_op * Z);
  rw_transfersize : Z;
  rw_allowed : Z
}.

(** A command: CDB, payload of a discard, bytes to transfer, underflow; for the
    commands [scsi_setup_blk_pc_cmnd] finishes, [c_rw] is [None]. *)
Record sd_cmd := mkSdCmd {
  c_cdb : bytes;
  c_payload : bytes;
  c_length : Z;
  c_underflow : Z;
  c_dir : dma_dir;
  c_rw : option rw_setup
}.

Inductive prep :=
  | BLKPREP_OK (c : sd_cmd)
  | BLKPREP_KILL
  | BLKPREP_DEFER
  | PREP_BUG.          (* BUG_ON *)

(** [c[i] = v] for each pair, in order. *)
Definition put (l : list (nat * Z)) (c : bytes) : bytes :=
  fold_left (fun c p => <[fst p := byte.of_Z (snd p)]> c) l c.

Definition sh8 (x sh : Z) : Z := Z.land (Z.shiftr x sh) 0xff.

(** [put_unaligned_be16], [.._be32], [.._be64] at offset [i]. *)
Definition put_be16 (x : Z) (i : nat) (c : bytes) : bytes := put [(i, sh8 x 8); (i + 1, sh8 x 0)]%nat c.
Definition put_be32 (x : Z) (i : nat) (c : bytes) : bytes :=
  put [(i, sh8 x 24); (i + 1, sh8 x 16); (i + 2, sh8 x 8); (i + 3, sh8 x 0)]%nat c.
Definition put_be64 (x : Z) (i : nat) (c : bytes) : bytes :=
  put_be32 x (i + 4) (put_be32 (Z.shiftr x 32) i c).

Definition ilog2 (x : Z) : Z := Z.log2 x.
Definition zero_cdb : bytes := fill BLK_MAX_CDB Byte.x00.

Section Prep.
(** [scsi_setup_blk_pc_cmnd]: whether it succeeds, and otherwise with what. *)
Variable setup_pc : prep.

(** The command is passed on when the midlayer accepts it. *)
Definition blk_pc (c : sd_cmd) : prep :=
  match setup_pc with BLKPREP_OK _ => BLKPREP_OK c | p => p end.

(** [page]: whether a page can be allocated. *)
Definition sd_setup_discard_cmnd (page : bool) (k : scsi_disk) (rq : sd_request) : prep :=
  let sh := ilog2 (sector_size (sk_device k)) - 9 in
  let sector := Z.shiftr (rq_pos rq) sh in
  let nr_sectors := Z.shiftr (rq_sectors rq) sh in
  if negb page then BLKPREP_DEFER else
  let cmd c payload := blk_pc (mkSdCmd c payload (rq_bytes rq) 0 DMA_TO_DEVICE None) in
  let one := fill (sector_size (sk_device k)) Byte.x00 in
  match provisioning_mode k with
  | SD_LBP_UNMAP =>
      let buf := put_be32 nr_sectors 16 (put_be64 sector 8 (put_be16 16 2 (put_be16 (6 + 16) 0
                   (fill 24 Byte.x00)))) in
      cmd (put [(0%nat, UNMAP); (8%nat, 24)] zero_cdb) buf
  | SD_LBP_WS16 =>
      cmd (put_be32 nr_sectors 10 (put_be64 sector 2
             (put [(0%nat, WRITE_SAME_16); (1%nat, 0x8)] zero_cdb))) one
  | SD_LBP_WS10 =>
      cmd (put_be16 nr_sectors 7 (put_be32 sector 2
             (put [(0%nat, WRITE_SAME); (1%nat, 0x8)] zero_cdb))) one
  | SD_LBP_ZERO =>
      cmd (put_be16 nr_sectors 7 (put_be32 sector 2 (put [(0%nat, WRITE_SAME)] zero_cdb))) one
  | _ => BLKPREP_KILL
  end.

Definition sd_setup_write_same_cmnd (k : scsi_disk) (rq : sd_request) : prep :=
  if no_write_same (sk_device k) then BLKPREP_KILL else
  if negb (rq_bio_offset rq =? 0) || negb (rq_bv_len rq =? sector_size (sk_device k)) then PREP_BUG else
  let sh := ilog2 (sector_size (sk_device k)) - 9 in
  let sector := Z.shiftr (rq_pos rq) sh in
  let nr_sectors := Z.shiftr (rq_sectors rq) sh in
  let cmd c := blk_pc (mkSdCmd c [] (rq_bytes rq) 0 DMA_TO_DEVICE None) in
  if ws16 k || (0xffffffff <? sector) || (0xffff <? nr_sectors) then
    cmd (put_be32 nr_sectors 10 (put_be64 sector 2 (put [(0%nat, WRITE_SAME_16)] zero_cdb)))
  else
    cmd (put_be16 nr_sectors 7 (put_be32 sector 2 (put [(0%nat, WRITE_SAME)] zero_cdb))).

Definition scsi_setup_flush_cmnd (cdb : bytes) : prep :=
  blk_pc (mkSdCmd (put [(0%nat, SYNCHRONIZE_CACHE)] cdb) [] 0 0 DMA_NONE None).
End Prep.

(** ** Reads and writes *)

(** The part of a request this command covers, in 512-byte sectors: all of it,
    unless the device cannot do multi-sector accesses near its end. *)
Definition sd_this_count (k : scsi_disk) (rq : sd_request) : Z :=
  let d := sk_device k in
  let threshold := u64 (get_capacity k - SD_LAST_BUGGY_SECTORS * (sector_size d / 512)) in
  if last_sector_bug d && (threshold <? u64 (rq_pos rq + rq_sectors rq)) then
    if rq_pos rq <? threshold then u32 (threshold - rq_pos rq) else sector_size d / 512
  else rq_sectors rq.

(** Logical blocks of the device; [None] when the request does not start and end
    on one. *)
Definition sd_scale (size block sectors this_count : Z) : option (Z * Z) :=
  let unit (mask sh : Z) :=
    if negb (Z.land block mask =? 0) || negb (Z.land sectors mask =? 0) then None
    else Some (Z.shiftr block sh, Z.shiftr this_count sh) in
  if size =? 1024 then unit 1 1
  else if size =? 2048 then unit 3 2
  else if size =? 4096 then unit 7 3
  else Some (block, this_count).

Definition rw_flags (protect fua : bool) : Z :=
  Z.lor (if protect then Z.shiftl 1 5 else 0) (if fua then 0x8 else 0).

(** READ(32)/WRITE(32), READ(16).., READ(10)..; [op] is the six byte opcode and
    [cdb] the buffer the midlayer prepared. *)
Definition cdb_32 (read : bool) (protect fua : bool) (block count : Z) : bytes :=
  put [(0%nat, VARIABLE_LENGTH_CMD); (7%nat, 0x18); (9%nat, if read then READ_32 else WRITE_32);
       (10%nat, rw_flags protect fua);
       (12%nat, sh8 block 56); (13%nat, sh8 block 48); (14%nat, sh8 block 40); (15%nat, sh8 block 32);
       (16%nat, sh8 block 24); (17%nat, sh8 block 16); (18%nat, sh8 block 8); (19%nat, sh8 block 0);
       (20%nat, sh8 block 24); (21%nat, sh8 block 16); (22%nat, sh8 block 8); (23%nat, sh8 block 0);
       (28%nat, sh8 count 24); (29%nat, sh8 count 16); (30%nat, sh8 count 8); (31%nat, sh8 count 0)]
    (fill SD_EXT_CDB_SIZE Byte.x00).

Definition cdb_16 (op : Z) (protect fua : bool) (block count : Z) (cdb : bytes) : bytes :=
  put [(0%nat, op + (READ_16 - READ_6)); (1%nat, rw_flags protect fua);
       (2%nat, sh8 block 56); (3%nat, sh8 block 48); (4%nat, sh8 block 40); (5%nat, sh8 block 32);
       (6%nat, sh8 block 24); (7%nat, sh8 block 16); (8%nat, sh8 block 8); (9%nat, sh8 block 0);
       (10%nat, sh8 count 24); (11%nat, sh8 count 16); (12%nat, sh8 count 8); (13%nat, sh8 count 0);
       (15%nat, 0); (14%nat, 0)] cdb.

Definition cdb_10 (op : Z) (protect fua : bool) (block count : Z) (cdb : bytes) : bytes :=
  put [(0%nat, op + (READ_10 - READ_6)); (1%nat, rw_flags protect fua);
       (2%nat, sh8 block 24); (3%nat, sh8 block 16); (4%nat, sh8 block 8); (5%nat, sh8 block 0);
       (9%nat, 0); (6%nat, 0); (7%nat, sh8 count 8); (8%nat, sh8 count 0)] cdb.

(** [SCpnt->cmnd[1] |= (block >> 16) & 0x1f] *)
Definition cdb_6 (op block count : Z) (cdb : bytes) : bytes :=
  let old := byte.unsigned (default Byte.x00 (cdb !! 1%nat)) in
  put [(0%nat, op); (1%nat, Z.lor old (Z.land (Z.shiftr block 16) 0x1f));
       (2%nat, sh8 block 8); (3%nat, sh8 block 0); (4%nat, Z.land count 0xff); (5%nat, 0)] cdb.

(** The CDB and the number of blocks it asks for. *)
Definition sd_rw_cdb (k : scsi_disk) (write fua : bool) (host_dif : Z) (ext_cdb : bool)
    (block count : Z) (cdb : bytes) : prep + bytes * Z :=
  let d := sk_device k in
  let op := if write then WRITE_6 else READ_6 in
  let protect := negb (host_dif =? 0) in
  if host_dif =? SD_DIF_TYPE2_PROTECTION then
    if negb ext_cdb then inl BLKPREP_DEFER
    else inr (cdb_32 (negb write) protect fua block count, count)
  else if use_16_for_rw d then inr (cdb_16 op protect fua block count cdb, count)
  else if (0xff <? count) || (0x1fffff <? block) || scsi_device_protection d || use_10_for_rw d then
    let count := if 0xffff <? count then 0xffff else count in
    inr (cdb_10 op protect fua block count cdb, count)
  else if fua then inl BLKPREP_KILL
  else inr (cdb_6 op block count cdb, count).

(** The read and write part of [sd_prep_fn]. *)
Definition sd_prep_rw (k : scsi_disk) (rq : sd_request) (host_dif dix : Z) (ext_cdb : bool) (cdb : bytes)
    : prep :=
  let d := sk_device k in
  if negb (scsi_device_online (sd_base d)) || (get_capacity k <? u64 (rq_pos rq + rq_sectors rq))
  then BLKPREP_KILL else
  if changed (sd_base d) then BLKPREP_KILL else
  match sd_scale (sector_size d) (rq_pos rq) (rq_sectors rq) (sd_this_count k rq) with
  | None => BLKPREP_KILL
  | Some (block, this_count) =>
      let write := negb (Z.land (rq_cmd_flags rq) 1 =? 0) in
      let fua := negb (Z.land (rq_cmd_flags rq) REQ_FUA =? 0) in
      if write && negb (writeable d) then BLKPREP_KILL else
      match sd_rw_cdb k write fua host_dif ext_cdb block this_count cdb with
      | inl p => p
      | inr (cdb, this_count) =>
          let dir := if write then DMA_TO_DEVICE else DMA_FROM_DEVICE in
          let prot := if c_true host_dif || c_true dix then Some (sd_prot_op dir host_dif dix) else None in
          BLKPREP_OK (mkSdCmd cdb [] (u32 (this_count * sector_size d)) (u32 (Z.shiftl this_count 9)) dir
                        (Some (mkRw prot (sector_size d) SD_MAX_RETRIES)))
      end
  end.

(** [setup_fs] is the result of [scsi_setup_fs_cmnd] and [cdb] the buffer it
    prepared; [host_dif] is [scsi_host_dif_capable(..)], [dix] is
    [scsi_prot_sg_count(..)], [ext_cdb] whether the pool has a long CDB. *)
Definition sd_prep_fn (setup_pc setup_fs : prep) (page ext_cdb : bool) (host_dif dix : Z) (cdb : bytes)
    (k : scsi_disk) (rq : sd_request) : prep :=
  let flag f := negb (Z.land (rq_cmd_flags rq) f =? 0) in
  if flag REQ_DISCARD then sd_setup_discard_cmnd setup_pc page k rq
  else if flag REQ_WRITE_SAME then sd_setup_write_same_cmnd setup_pc k rq
  else if flag REQ_FLUSH then scsi_setup_flush_cmnd setup_pc cdb
  else if bool_decide (rq_cmd_type rq = REQ_TYPE_BLOCK_PC) then setup_pc
  else if negb (bool_decide (rq_cmd_type rq = REQ_TYPE_FS)) then BLKPREP_KILL
  else
  match setup_fs with
  | BLKPREP_OK _ => sd_prep_rw k rq host_dif dix ext_cdb cdb
  | p => p
  end.

(** ** Completion *)

Definition sd_eh_action (k : scsi_disk) (medium_access : bool) (result : Z) (eh_cmnd : bytes)
    (SUCCESS FAILED eh_disp : Z) : scsi_disk * Z :=
  if negb (scsi_device_online (sd_base (sk_device k))) || negb medium_access then (k, eh_disp) else
  let k := if (host_byte result =? DID_TIME_OUT) && (eh_disp =? SUCCESS)
              && negb (zlen eh_cmnd =? 0)
              && (byte.unsigned (default Byte.x00 (eh_cmnd !! 0%nat)) =? TEST_UNIT_READY)
           then sk_with_timeouts (u32 (medium_access_timed_out k + 1)) k else k in
  if max_medium_access_timeouts k <=? medium_access_timed_out k then
    let d := sk_device k in
    let b := sd_base d in
    (sk_with_device (mkSdDev (mkSdev (removable b) (changed b) SDEV_OFFLINE) (sector_size d)
                       (last_sector_bug d) (writeable d) (use_16_for_rw d) (use_10_for_rw d)
                       (scsi_device_protection d) (no_write_same d)) k, FAILED)
  else (k, eh_disp).

(** [bad_lba]: the information field of the sense data, when valid. *)
Definition sd_completed_bytes (size : Z) (rq : sd_request) (bufflen resid : Z) (bad_lba : option Z) : Z :=
  let start_lba := rq_pos rq in
  let end_lba := u64 (rq_pos rq + bufflen / 512) in
  let transferred := u32 (bufflen - resid) in
  if negb (bool_decide (rq_cmd_type rq = REQ_TYPE_FS)) then 0 else
  match bad_lba with
  | None => 0
  | Some bad =>
      if bufflen <=? size then 0 else
      let '(start_lba, end_lba) :=
        if size <? 512 then (u64 (Z.shiftl start_lba 1), u64 (Z.shiftl end_lba 1))
        else (start_lba / (size / 512), end_lba / (size / 512)) in
      if (bad <? start_lba) || (end_lba <=? bad) then 0 else
      Z.min (u32 ((bad - start_lba) * size)) transferred
  end.

(** What [sd_done] changes besides the disk. *)
Record done_out := mkDone {
  good_bytes : Z;
  d_result : Z;
  d_resid : Z;
  d_quiet : bool
}.

(** [sense]: the decoded sense data when there is any, and whether it is for an
    earlier command; [cdb] the command, [bad_lba] the information field. *)
Definition sd_done (k : scsi_disk) (rq : sd_request) (cdb : bytes) (result bufflen resid : Z)
    (sense : option (scsi_sense_hdr * bool)) (sshdr0 : scsi_sense_hdr) (bad_lba : option Z)
    : scsi_disk * done_out :=
  let op := byte.unsigned (default Byte.x00 (cdb !! 0%nat)) in
  let unmap := negb (Z.land (byte.unsigned (default Byte.x00 (cdb !! 1%nat))) 8 =? 0) in
  let flag f := negb (Z.land (rq_cmd_flags rq) f =? 0) in
  let special := flag REQ_DISCARD || flag REQ_WRITE_SAME in
  let good := if special then (if result =? 0 then rq_bytes rq else 0)
              else if result =? 0 then bufflen else 0 in
  let resid := if special then (if result =? 0 then 0 else rq_bytes rq) else resid in
  let '(valid, deferred, sshdr) :=
    if result =? 0 then (false, false, sshdr0)
    else match sense with
         | Some (h, df) => (true, df, h)
         | None => (false, false, sshdr0)
         end in
  if negb (driver_byte result =? DRIVER_SENSE) && (negb valid || deferred)
  then (k, mkDone good result resid false) else
  let k := sk_with_timeouts 0 k in
  let completed := sd_completed_bytes (sector_size (sk_device k)) rq bufflen resid bad_lba in
  let key := sense_key sshdr in
  if (key =? HARDWARE_ERROR) || (key =? MEDIUM_ERROR) then (k, mkDone completed result resid false)
  else if key =? RECOVERED_ERROR then (k, mkDone bufflen result resid false)
  else if key =? NO_SENSE then (k, mkDone good 0 resid false)
  else if key =? ABORTED_COMMAND then
    (k, mkDone (if asc sshdr =? 0x10 then completed else good) result resid false)
  else if key =? ILLEGAL_REQUEST then
    let good := if asc sshdr =? 0x10 then completed else good in
    if (asc sshdr =? 0x20) || (asc sshdr =? 0x24) then
      if op =? UNMAP then (sd_config_discard k SD_LBP_DISABLE, mkDone good result resid false)
      else if (op =? WRITE_SAME_16) || (op =? WRITE_SAME) then
        if unmap then (sd_config_discard k SD_LBP_DISABLE, mkDone good result resid false)
        else
          let d := sk_device k in
          let d := mkSdDev (sd_base d) (sector_size d) (last_sector_bug d) (writeable d)
                     (use_16_for_rw d) (use_10_for_rw d) (scsi_device_protection d) true in
          (sd_config_write_same (sk_with_device d k), mkDone 0 result resid true)
      else (k, mkDone good result resid false)
    else (k, mkDone good result resid false)
  else (k, mkDone good result resid false).
