(* ===== verification/SdThm.v ===== *)
(** * Results on sd.c

    The CDB of every read and write decodes, by the code of swap.c, to the blocks
    the request is for; discard and write same commands hold the whole range their
    limits admit; a failed command never counts more good bytes than lie in front
    of the bad block; majors are distinct. *)

From stdpp Require Import base gmap list list_numbers.
From coqutil Require Import Byte Word.LittleEndianList.
From Stdlib Require Import ZArith Lia.
From S2P Require Import Prelude Kapi Ring Layout State Scsi Sim Swap Sd.

Local Open Scope Z_scope.

(** ** Bytes *)

Lemma sh8_byte x sh : byte.unsigned (byte.of_Z (sh8 x sh)) = sh8 x sh.
Proof.
  rewrite byte.unsigned_of_Z. unfold byte.wrap, sh8. change 0xff with (Z.ones 8).
  by rewrite !Z.land_ones, Zmod_mod by lia.
Qed.

Lemma small_byte x : 0 <= x < 256 -> byte.unsigned (byte.of_Z x) = x.
Proof. intros. rewrite byte.unsigned_of_Z. unfold byte.wrap. by apply Z.mod_small. Qed.

(** A byte of a number, put back at its place. *)
Lemma sh8_place x n : 0 <= n -> Z.shiftl (sh8 x n) n = Z.land x (Z.shiftl 0xff n).
Proof.
  intros Hn. apply Z.bits_inj'. intros i Hi. unfold sh8. rewrite Z.land_spec, !Z.shiftl_spec by lia.
  destruct (Z.ltb_spec i n) as [Hlt|Hge].
  - rewrite !(Z.testbit_neg_r _ (i - n)) by lia. by rewrite andb_false_r.
  - rewrite Z.land_spec, Z.shiftr_spec by lia. do 2 f_equal. lia.
Qed.

Lemma join16 x : Z.lor (Z.shiftl (sh8 x 8) 8) (sh8 x 0) = x mod 2 ^ 16.
Proof.
  rewrite <- (Z.shiftl_0_r (sh8 x 0)), !sh8_place, <- Z.land_lor_distr_r by lia.
  rewrite <- Z.land_ones by lia. done.
Qed.

Lemma join24 x :
  0 <= x < 2 ^ 24 -> Z.lor (Z.lor (Z.shiftl (sh8 x 16) 16) (Z.shiftl (sh8 x 8) 8)) (sh8 x 0) = x.
Proof.
  intros Hx. rewrite <- (Z.shiftl_0_r (sh8 x 0)), !sh8_place, <- !Z.land_lor_distr_r by lia.
  change (Z.lor _ _) with (Z.ones 24). rewrite Z.land_ones by lia. by apply Z.mod_small.
Qed.

Lemma join32 x :
  Z.lor (Z.lor (Z.lor (Z.shiftl (sh8 x 24) 24) (Z.shiftl (sh8 x 16) 16)) (Z.shiftl (sh8 x 8) 8)) (sh8 x 0)
  = x mod 2 ^ 32.
Proof.
  rewrite <- (Z.shiftl_0_r (sh8 x 0)), !sh8_place, <- !Z.land_lor_distr_r by lia.
  rewrite <- Z.land_ones by lia. done.
Qed.

Lemma sh8_shiftr x n m : 0 <= n -> 0 <= m -> sh8 x (n + m) = sh8 (Z.shiftr x n) m.
Proof. intros. unfold sh8. by rewrite Z.shiftr_shiftr by lia. Qed.

Lemma join32_high x :
  Z.lor (Z.lor (Z.lor (Z.shiftl (sh8 x 56) 24) (Z.shiftl (sh8 x 48) 16)) (Z.shiftl (sh8 x 40) 8)) (sh8 x 32)
  = Z.shiftr x 32 mod 2 ^ 32.
Proof. rewrite <- join32, <- !sh8_shiftr by lia. reflexivity. Qed.

(** A sector from its two halves. *)
Lemma join64 x : 0 <= x < 2 ^ 64 -> Z.lor (Z.shiftl (Z.shiftr x 32 mod 2 ^ 32) 32) (x mod 2 ^ 32) = x.
Proof.
  intros Hx. rewrite <- !Z.land_ones by lia. apply Z.bits_inj'. intros i Hi.
  rewrite Z.lor_spec, Z.shiftl_spec, (Z.land_spec x), (Z.testbit_ones_nonneg 32 i) by lia.
  destruct (Z.ltb_spec i 32) as [Hlt|Hge].
  - rewrite (Z.testbit_neg_r _ (i - 32)) by lia. by rewrite andb_true_r.
  - rewrite andb_false_r, orb_false_r, Z.land_spec, Z.shiftr_spec, Z.testbit_ones_nonneg by lia.
    replace (i - 32 + 32) with i by lia. destruct (Z.ltb_spec (i - 32) 32); [by rewrite andb_true_r|].
    rewrite andb_false_r. symmetry. apply Z.bits_above_log2; [lia|].
    destruct (Z.eq_dec x 0) as [->|]; [cbn; lia|]. apply Z.log2_lt_pow2; [lia|].
    eapply Z.lt_le_trans; [apply Hx|]. apply Z.pow_le_mono_r; lia.
Qed.

(** ** The three forms the swap driver can decode *)

Lemma cdb_16_bytes op protect fua block count :
  cdb_16 op protect fua block count zero_cdb
  = byte.of_Z (op + (READ_16 - READ_6)) :: byte.of_Z (rw_flags protect fua) ::
    map (fun sh => byte.of_Z (sh8 block sh)) [56; 48; 40; 32; 24; 16; 8; 0] ++
    map (fun sh => byte.of_Z (sh8 count sh)) [24; 16; 8; 0] ++ [Byte.x00; Byte.x00].
Proof. reflexivity. Qed.

Lemma cdb_10_bytes op protect fua block count :
  cdb_10 op protect fua block count zero_cdb
  = byte.of_Z (op + (READ_10 - READ_6)) :: byte.of_Z (rw_flags protect fua) ::
    map (fun sh => byte.of_Z (sh8 block sh)) [24; 16; 8; 0] ++
    Byte.x00 :: map (fun sh => byte.of_Z (sh8 count sh)) [8; 0] ++ fill 7 Byte.x00.
Proof. reflexivity. Qed.

Lemma cdb_6_bytes op block count :
  cdb_6 op block count zero_cdb
  = byte.of_Z op :: byte.of_Z (Z.land (Z.shiftr block 16) 0x1f) :: byte.of_Z (sh8 block 8) ::
    byte.of_Z (sh8 block 0) :: byte.of_Z (Z.land count 0xff) :: fill 11 Byte.x00.
Proof. reflexivity. Qed.

Ltac cdb_bytes :=
  unfold be32, be16, cdb_byte; cbn [map app Nat.add lookup list_lookup default from_option id];
  rewrite ?sh8_byte.

Lemma decode_cdb_16 (write protect fua : bool) block count :
  0 <= block < 2 ^ 64 -> 0 <= count < 2 ^ 32 ->
  let cdb := cdb_16 (if write then WRITE_6 else READ_6) protect fua block count zero_cdb in
  sector_from_scmd cdb = (count, block) /\
  scmd_get_action cdb = if write then SCSI_ACTION_WRITE else SCSI_ACTION_READ.
Proof.
  intros Hb Hc cdb. unfold sector_from_scmd, scmd_get_action.
  assert (cdb_byte cdb 0 = if write then WRITE_16 else READ_16) as ->
    by (subst cdb; destruct write; reflexivity).
  assert (be32 cdb 2 = Z.shiftr block 32 mod 2 ^ 32 /\ be32 cdb 6 = block mod 2 ^ 32 /\ be32 cdb 10 = count)
    as (-> & -> & ->).
  { subst cdb. rewrite cdb_16_bytes. cdb_bytes. split_and!.
    - apply join32_high.
    - apply join32.
    - rewrite join32. by apply Z.mod_small. }
  destruct write; cbn -[Z.shiftl Z.lor Z.modulo Z.shiftr]; by rewrite join64.
Qed.

Lemma decode_cdb_10 (write protect fua : bool) block count :
  0 <= block < 2 ^ 32 -> 0 <= count < 2 ^ 16 ->
  let cdb := cdb_10 (if write then WRITE_6 else READ_6) protect fua block count zero_cdb in
  sector_from_scmd cdb = (count, block) /\
  scmd_get_action cdb = if write then SCSI_ACTION_WRITE else SCSI_ACTION_READ.
Proof.
  intros Hb Hc cdb. unfold sector_from_scmd, scmd_get_action.
  assert (cdb_byte cdb 0 = if write then WRITE_10 else READ_10) as ->
    by (subst cdb; destruct write; reflexivity).
  assert (be32 cdb 2 = block /\ be16 cdb 7 = count) as (-> & ->).
  { subst cdb. rewrite cdb_10_bytes. cdb_bytes. rewrite join32, join16. by rewrite !Z.mod_small. }
  by destruct write.
Qed.

Lemma decode_cdb_6 (write : bool) block count :
  0 <= block <= 0x1fffff -> 0 <= count < 256 ->
  let cdb := cdb_6 (if write then WRITE_6 else READ_6) block count zero_cdb in
  sector_from_scmd cdb = (count, block) /\
  scmd_get_action cdb = if write then SCSI_ACTION_WRITE else SCSI_ACTION_READ.
Proof.
  intros Hb Hc cdb. unfold sector_from_scmd, scmd_get_action.
  assert (cdb_byte cdb 0 = if write then WRITE_6 else READ_6) as ->
    by (subst cdb; destruct write; reflexivity).
  assert (Z.lor (Z.lor (Z.shiftl (Z.land (cdb_byte cdb 1) 0x1F) 16) (Z.shiftl (cdb_byte cdb 2) 8))
            (cdb_byte cdb 3) = block /\ cdb_byte cdb 4 = count) as (-> & ->).
  { subst cdb. rewrite cdb_6_bytes. cdb_bytes. split; cycle 1.
    { change 0xff with (Z.ones 8). rewrite Z.land_ones, Z.mod_small by lia. by apply small_byte. }
    assert (0 <= Z.shiftr block 16 < 32) as Hhi.
    { rewrite Z.shiftr_div_pow2 by lia.
      split; [apply Z.div_pos; lia|apply Z.div_lt_upper_bound; lia]. }
    assert (Z.land (Z.shiftr block 16) 0x1f = Z.shiftr block 16) as ->
      by (change 0x1f with (Z.ones 5); rewrite Z.land_ones, Z.mod_small; lia).
    rewrite small_byte by lia.
    assert (Z.land (Z.shiftr block 16) 0x1f = sh8 block 16) as ->
      by (unfold sh8; change 0x1f with (Z.ones 5); change 0xff with (Z.ones 8);
          rewrite !Z.land_ones, !Z.mod_small; lia).
    apply join24. lia. }
  by destruct write.
Qed.

(** ** Blocks of a request *)

(** Logical blocks per 512-byte sector count. *)
Definition sector_sizes : list Z := [512; 1024; 2048; 4096].

Lemma land_mask x k : 0 <= k -> Z.land x (Z.ones k) = 0 -> x = 2 ^ k * Z.shiftr x k.
Proof.
  intros Hk H. rewrite Z.land_ones in H by lia. rewrite Z.shiftr_div_pow2 by lia.
  pose proof (Z.div_mod x (2 ^ k)). lia.
Qed.

Lemma sd_scale_spec size block sectors count b c :
  size ∈ sector_sizes -> sd_scale size block sectors count = Some (b, c) ->
  let f := size / 512 in
  block = f * b /\ c = count / f /\ sectors mod f = 0.
Proof.
  intros Hin. unfold sector_sizes in Hin. rewrite !elem_of_cons in Hin.
  unfold sd_scale.
  assert (forall k, 0 <= k ->
    (if negb (Z.land block (Z.ones k) =? 0) || negb (Z.land sectors (Z.ones k) =? 0) then None
     else Some (Z.shiftr block k, Z.shiftr count k)) = Some (b, c) ->
    block = 2 ^ k * b /\ c = count / 2 ^ k /\ sectors mod 2 ^ k = 0) as Hu.
  { intros k Hk. destruct (Z.eqb_spec (Z.land block (Z.ones k)) 0) as [E1|]; [|done].
    destruct (Z.eqb_spec (Z.land sectors (Z.ones k)) 0) as [E2|]; [|done]. cbn [negb orb].
    intros [= <- <-]. split; [by apply land_mask|].
    rewrite Z.shiftr_div_pow2 by lia. split; [done|]. by rewrite Z.land_ones in E2 by lia. }
  destruct Hin as [->|[->|[->|[->|Hin]]]]; [| | | |by apply not_elem_of_nil in Hin]; cbn [Z.eqb Pos.eqb].
  - intros [= <- <-]. change (512 / 512) with 1. rewrite Z.div_1_r, Z.mod_1_r. lia.
  - apply (Hu 1). lia.
  - apply (Hu 2). lia.
  - apply (Hu 3). lia.
Qed.

(** A request for reading or writing that the block layer may send: whole logical
    blocks are not assumed, that is what [sd_prep_fn] checks. *)
Record rw_request (k : scsi_disk) (rq : sd_request) : Prop := {
  rw_fs : rq_cmd_type rq = REQ_TYPE_FS;
  rw_discard : Z.land (rq_cmd_flags rq) REQ_DISCARD = 0;
  rw_same : Z.land (rq_cmd_flags rq) REQ_WRITE_SAME = 0;
  rw_flush : Z.land (rq_cmd_flags rq) REQ_FLUSH = 0;
  rw_pos : 0 <= rq_pos rq;
  rw_sectors : 0 < rq_sectors rq < 2 ^ 32;
  rw_nowrap : rq_pos rq + rq_sectors rq < 2 ^ 64
}.

(** The disk as [sd_read_capacity] sets it up. *)
Record disk_ok (k : scsi_disk) : Prop := {
  dk_size : sector_size (sk_device k) ∈ sector_sizes;
  dk_cap : 0 <= get_capacity k < 2 ^ 64;
  dk_units : get_capacity k mod (sector_size (sk_device k) / 512) = 0;
  dk_10 : use_16_for_rw (sk_device k) = false ->
          get_capacity k <= sector_size (sk_device k) / 512 * 2 ^ 32
}.

Lemma sizes_factor size : size ∈ sector_sizes -> 1 <= size / 512 <= 8.
Proof.
  unfold sector_sizes. rewrite !elem_of_cons.
  intros [->|[->|[->|[->|Hin]]]]; [by vm_compute..|by apply not_elem_of_nil in Hin].
Qed.

(** The command covers whole blocks of the request, and at least one. *)
Lemma sd_this_count_spec k rq :
  disk_ok k -> rw_request k rq ->
  let f := sector_size (sk_device k) / 512 in
  rq_pos rq mod f = 0 -> rq_sectors rq mod f = 0 -> rq_pos rq + rq_sectors rq <= get_capacity k ->
  let c := sd_this_count k rq in
  0 < c <= rq_sectors rq /\ c mod f = 0 /\ (last_sector_bug (sk_device k) = false -> c = rq_sectors rq).
Proof.
  intros [Hsz Hcap Hun _] [_ _ _ _ Hp Hn Hw] f Hpm Hsm Hfit c. pose proof (sizes_factor _ Hsz) as Hf.
  fold f in Hf, Hun.
  subst c. unfold sd_this_count. fold f.
  destruct (last_sector_bug _); cbn [andb]; [|by split_and!; try lia].
  rewrite (u64_small (rq_pos rq + rq_sectors rq)) by lia.
  destruct (Z.leb_spec 0 (get_capacity k - SD_LAST_BUGGY_SECTORS * f)) as [Hpos|Hneg].
  - rewrite u64_small by (unfold SD_LAST_BUGGY_SECTORS in *; lia).
    set (t := get_capacity k - _) in *.
    assert (t mod f = 0) as Ht.
    { subst t. unfold SD_LAST_BUGGY_SECTORS. by rewrite Zminus_mod, Hun, Z.mod_mul by lia. }
    destruct (Z.ltb_spec t (rq_pos rq + rq_sectors rq)); [|split_and!; (lia || done)].
    destruct (Z.ltb_spec (rq_pos rq) t).
    + rewrite u32_small by lia. split_and!; [lia..| |done]. by rewrite Zminus_mod, Ht, Hpm.
    + split_and!; [lia| |by apply Z.mod_same; lia|done].
      pose proof (Z.div_mod (rq_sectors rq) f ltac:(lia)).
      enough (1 <= rq_sectors rq / f) by nia.
      enough (0 < rq_sectors rq / f) by lia. nia.
  - assert (2 ^ 64 - 64 <= u64 (get_capacity k - SD_LAST_BUGGY_SECTORS * f)) as Hbig.
    { unfold u64, SD_LAST_BUGGY_SECTORS in *. rewrite <- (Z.mod_add _ 1), Z.mod_small by lia. lia. }
    destruct (Z.ltb_spec (u64 (get_capacity k - SD_LAST_BUGGY_SECTORS * f)) (rq_pos rq + rq_sectors rq));
      [|split_and!; (lia || done)].
    exfalso. unfold SD_LAST_BUGGY_SECTORS in Hneg. lia.
Qed.

Lemma sd_rw_cdb_spec k write fua host_dif ext_cdb block count cdb n :
  host_dif <> SD_DIF_TYPE2_PROTECTION -> 0 <= block < 2 ^ 64 -> 0 < count < 2 ^ 32 ->
  (use_16_for_rw (sk_device k) = false -> block < 2 ^ 32) ->
  sd_rw_cdb k write fua host_dif ext_cdb block count zero_cdb = inr (cdb, n) ->
  0 < n <= count /\ (count <= 0xffff \/ use_16_for_rw (sk_device k) = true -> n = count) /\
  sector_from_scmd cdb = (n, block) /\
  scmd_get_action cdb = if write then SCSI_ACTION_WRITE else SCSI_ACTION_READ.
Proof.
  intros Hd Hb Hc H32. unfold sd_rw_cdb. rewrite (proj2 (Z.eqb_neq _ _)) by done.
  destruct (use_16_for_rw _).
  { intros [= <- <-]. split; [lia|]. split; [done|]. apply decode_cdb_16; lia. }
  specialize (H32 eq_refl). destruct (_ || _) eqn:E10.
  - intros [= <- <-]. destruct (Z.ltb_spec 0xffff count).
    + split; [lia|]. split; [lia|]. apply decode_cdb_10; lia.
    + split; [lia|]. split; [done|]. apply decode_cdb_10; lia.
  - destruct fua; [done|]. intros [= <- <-]. split; [lia|]. split; [done|].
    rewrite !orb_false_iff, !Z.ltb_ge in E10. apply decode_cdb_6; lia.
Qed.

Lemma sd_prep_decodes (setup_pc : prep) (c0 c : sd_cmd) (page ext_cdb : bool) (host_dif dix : Z)
    (k : scsi_disk) (rq : sd_request) :
  disk_ok k -> rw_request k rq -> host_dif <> SD_DIF_TYPE2_PROTECTION ->
  sd_prep_fn setup_pc (BLKPREP_OK c0) page ext_cdb host_dif dix zero_cdb k rq = BLKPREP_OK c ->
  let f := sector_size (sk_device k) / 512 in
  exists block count,
    sector_from_scmd (c_cdb c) = (count, block) /\ f * block = rq_pos rq /\
    0 < count /\ f * count <= rq_sectors rq /\
    f * (block + count) <= get_capacity k /\ c_length c = u32 (count * sector_size (sk_device k)) /\
    (last_sector_bug (sk_device k) = false ->
     rq_sectors rq <= f * 0xffff \/ use_16_for_rw (sk_device k) = true -> f * count = rq_sectors rq) /\
    scmd_get_action (c_cdb c)
    = if Z.land (rq_cmd_flags rq) 1 =? 0 then SCSI_ACTION_READ else SCSI_ACTION_WRITE.
Proof.
  intros Hk Hr Hdif. unfold sd_prep_fn.
  rewrite (rw_discard k rq Hr), (rw_same k rq Hr), (rw_flush k rq Hr), (rw_fs k rq Hr). cbn [Z.eqb negb bool_decide]. rewrite !bool_decide_eq_false_2 by done.
  rewrite bool_decide_eq_true_2 by done. cbn [negb].
  pose proof Hk as [Hsz Hcap Hun H10]. pose proof Hr as [_ _ _ _ Hp Hn Hw].
  pose proof (sizes_factor _ Hsz) as Hf. set (f := sector_size (sk_device k) / 512) in *.
  unfold sd_prep_rw. destruct (negb (scsi_device_online _) || _) eqn:Eo; [done|].
  rewrite (u64_small (rq_pos rq + rq_sectors rq)) in Eo by lia. apply orb_false_iff in Eo as [_ Hfit].
  destruct (changed _); [done|].
  destruct (sd_scale _ _ _ _) as [[block cnt]|] eqn:Es; [|done].
  apply sd_scale_spec in Es as (Eb & Ec & Em); [|done]. fold f in Eb, Ec, Em.
  destruct (sd_this_count_spec k rq Hk Hr) as (Hc & Hcm & Hall);
    [fold f; rewrite Eb, Z.mul_comm; apply Z.mod_mul; lia|done|lia|]. fold f in Hcm.
  assert (sd_this_count k rq = f * cnt) as Ecnt
    by (rewrite (Z.div_mod (sd_this_count k rq) f), Hcm, <- Ec; lia).
  set (write := negb _). destruct (write && _); [done|].
  destruct (sd_rw_cdb _ _ _ _ _ _ _ _) as [p|[cdb n]] eqn:Er.
  { intros ->. exfalso. unfold sd_rw_cdb in Er.
    repeat match type of Er with context [if ?b then _ else _] => destruct b end; done. }
  intros [= <-].
  apply sd_rw_cdb_spec in Er as (Hn0 & Hall2 & Hs & Ha); [|done|nia|nia|].
  2:{ intros H16. specialize (H10 H16). nia. }
  exists block, n. cbn [c_cdb c_length].
  split_and!; [done|lia|lia|nia|nia|done| |by subst write; rewrite Ha; destruct (_ =? 0)].
  intros Hbug Hor. rewrite Hall2; [rewrite <- Ecnt; by apply Hall|].
  destruct Hor; [left; nia|by right].
Qed.

(** C19: on a disk without Type 2 protection (with it the CDB is one of 32 bytes that
    neither function knows, [type2_command_not_decoded]), with logical blocks of 512
    to 4096 bytes and, where READ(10) and WRITE(10) are used, a capacity they can
    address, a read or write that [sd_prep_fn] accepts becomes a CDB which
    [sector_from_scmd] and [scmd_get_action] decode to the first logical block of
    the request, its direction and a count of at least one block that stays inside
    the request and inside the capacity of the disk.  The count is the whole
    request unless a ten byte CDB cannot hold it or the device has the last sector
    bug. *)
Theorem sd_rw_command_decodes (setup_pc : prep) (c0 c : sd_cmd) (page ext_cdb : bool) (host_dif dix : Z)
    (k : scsi_disk) (rq : sd_request) :
  disk_ok k -> rw_request k rq -> host_dif <> SD_DIF_TYPE2_PROTECTION ->
  sd_prep_fn setup_pc (BLKPREP_OK c0) page ext_cdb host_dif dix zero_cdb k rq = BLKPREP_OK c ->
  let f := sector_size (sk_device k) / 512 in
  exists block count,
    sector_from_scmd (c_cdb c) = (count, block) /\ f * block = rq_pos rq /\
    0 < count /\ f * count <= rq_sectors rq /\
    f * (block + count) <= get_capacity k /\ c_length c = u32 (count * sector_size (sk_device k)) /\
    (last_sector_bug (sk_device k) = false ->
     rq_sectors rq <= f * 0xffff \/ use_16_for_rw (sk_device k) = true -> f * count = rq_sectors rq) /\
    scmd_get_action (c_cdb c)
    = if Z.land (rq_cmd_flags rq) 1 =? 0 then SCSI_ACTION_READ else SCSI_ACTION_WRITE.
Proof. apply sd_prep_decodes. Qed.

(** A disk of 4096-byte blocks and a write of two of them. *)
Definition demo_sddev (size : Z) : sd_device :=
  mkSdDev (mkSdev false false SDEV_RUNNING) size false true false true false false.
Definition demo_disk (size : Z) : scsi_disk :=
  mkDiskState (demo_sddev size) (mkLimits false 0 0 0 false 0) 65536 SD_LBP_FULL false 0 0 4096 0 0 false 0 2.
Definition demo_sdrq : sd_request := mkSdRq 4096 16 8192 1 REQ_TYPE_FS 0 4096.

Lemma demo_disk_ok : disk_ok (demo_disk 4096).
Proof.
  split; cbn; [unfold sector_sizes; set_solver|lia|done|intros _; by vm_compute].
Qed.
Lemma demo_sdrq_ok : rw_request (demo_disk 4096) demo_sdrq.
Proof.
  by split.
Qed.

Lemma sd_rw_command_decodes_witness :
  exists c block count,
    sd_prep_fn BLKPREP_KILL (BLKPREP_OK (mkSdCmd [] [] 0 0 DMA_NONE None)) true true 0 0 zero_cdb
      (demo_disk 4096) demo_sdrq = BLKPREP_OK c /\
    sector_from_scmd (c_cdb c) = (count, block) /\ 8 * block = 4096.
Proof.
  eexists.
  destruct (sd_rw_command_decodes BLKPREP_KILL (mkSdCmd [] [] 0 0 DMA_NONE None) _ true true 0 0
    (demo_disk 4096) demo_sdrq demo_disk_ok demo_sdrq_ok ltac:(discriminate) eq_refl)
    as (block & count & Hs & Hp & _).
  exists block, count. split; [reflexivity|]. split; [exact Hs|exact Hp].
Defined.

(** On a disk with Type 2 protection [sd_prep_fn] makes a 32 byte command, which
    [sector_from_scmd] and [scmd_get_action] take for nothing: neither the bad sector
    simulation nor anything else that decodes commands sees it. *)
Theorem type2_command_not_decoded :
  exists c, sd_prep_fn BLKPREP_KILL (BLKPREP_OK (mkSdCmd [] [] 0 0 DMA_NONE None)) true true
              SD_DIF_TYPE2_PROTECTION 0 zero_cdb (demo_disk 4096) demo_sdrq = BLKPREP_OK c /\
    zlen (c_cdb c) = 32 /\ sector_from_scmd (c_cdb c) = (0, 0) /\ scmd_get_action (c_cdb c) = SCSI_ACTION_UNKNOWN.
Proof. eexists. split_and!; vm_compute; reflexivity. Qed.

(** ** Errors *)

Lemma completed_bytes_spec size rq bufflen resid bad :
  size ∈ sector_sizes -> 0 <= rq_pos rq -> 0 <= resid <= bufflen -> bufflen < 2 ^ 32 ->
  rq_pos rq mod (size / 512) = 0 -> rq_pos rq + bufflen < 2 ^ 64 ->
  let good := sd_completed_bytes size rq bufflen resid bad in
  0 <= good <= bufflen - resid /\
  (good <> 0 -> exists lba, bad = Some lba /\ 512 * rq_pos rq + good <= lba * size).
Proof.
  intros Hsz Hp Hres Hlen Hm Hw good. subst good. pose proof (sizes_factor _ Hsz) as Hf.
  assert (size = 512 * (size / 512)) as Es.
  { unfold sector_sizes in Hsz. rewrite !elem_of_cons in Hsz.
    destruct Hsz as [->|[->|[->|[->|Hin]]]]; [done..|by apply not_elem_of_nil in Hin]. }
  set (f := size / 512) in *. unfold sd_completed_bytes. fold f.
  destruct (negb _); [by split; [lia|]|]. destruct bad as [bad|]; [|by split; [lia|]].
  destruct (Z.leb_spec bufflen size); [by split; [lia|]|].
  rewrite (proj2 (Z.ltb_ge size 512)) by lia.
  pose proof (Z.div_mod bufflen 512 ltac:(lia)). pose proof (Z.mod_pos_bound bufflen 512 ltac:(lia)).
  rewrite (u64_small (rq_pos rq + _)) by lia.
  destruct (_ || _) eqn:E; [by split; [lia|]|]. apply orb_false_iff in E as [E1%Z.ltb_ge E2%Z.leb_gt].
  pose proof (Z.div_mod (rq_pos rq) f ltac:(lia)) as Ep. rewrite Hm, Z.add_0_r in Ep.
  rewrite Ep, Z.mul_comm, Z.div_add_l in E2 by lia.
  pose proof (Z.mul_div_le (bufflen / 512) f ltac:(lia)).
  assert (0 <= (bad - rq_pos rq / f) * size < bufflen) as Hg by nia.
  rewrite (u32_small ((bad - _) * size)), (u32_small (bufflen - resid)) by lia.
  split; [lia|]. intros _. exists bad. split; [done|]. nia.
Qed.

(** What [sd_done] may count as good after an error. *)
Definition good_ok (k : scsi_disk) (rq : sd_request) (result bufflen resid : Z)
    (sense : option (scsi_sense_hdr * bool)) (sshdr0 : scsi_sense_hdr) (bad_lba : option Z)
    (good : Z) : Prop :=
  good <> 0 ->
  ((exists h, sense = Some (h, false)) \/ driver_byte result = DRIVER_SENSE) /\
  ((exists h, (h = sshdr0 \/ exists df, sense = Some (h, df)) /\
              sense_key h = RECOVERED_ERROR /\ good = bufflen) \/
   exists lba, bad_lba = Some lba /\ good <= bufflen - resid /\
               512 * rq_pos rq + good <= lba * sector_size (sk_device k)).

Lemma sd_done_spec k rq cdb result bufflen resid sense sshdr0 bad_lba :
  disk_ok k -> rw_request k rq -> result <> 0 ->
  0 <= resid <= bufflen -> bufflen < 2 ^ 32 -> rq_pos rq + bufflen < 2 ^ 64 ->
  rq_pos rq mod (sector_size (sk_device k) / 512) = 0 ->
  let '(k', o) := sd_done k rq cdb result bufflen resid sense sshdr0 bad_lba in
  0 <= good_bytes o <= bufflen /\ get_capacity k' = get_capacity k /\
  good_ok k rq result bufflen resid sense sshdr0 bad_lba (good_bytes o).
Proof.
  intros [Hsz _ _ _] Hr Hne Hres Hlen Hw Hm. unfold sd_done.
  rewrite (rw_discard k rq Hr), (rw_same k rq Hr).
  rewrite (proj2 (Z.eqb_neq result 0)) by done. cbn [Z.eqb negb orb].
  destruct (completed_bytes_spec _ rq bufflen resid bad_lba Hsz (rw_pos k rq Hr) Hres Hlen Hm Hw) as [Hcb Hcl].
  set (p := match sense with Some _ => _ | None => _ end).
  assert (exists v df h, p = (v, df, h) /\ (h = sshdr0 \/ exists df, sense = Some (h, df)) /\
            (v = true -> df = false -> exists h, sense = Some (h, false))) as (v & df & h & -> & Hh & Hv).
  { subst p. destruct sense as [[h df]|].
    - exists true, df, h. split_and!; [done|by eauto|]. intros _ ->. by exists h.
    - exists false, false, sshdr0. split_and!; [done|by left|done]. }
  destruct (negb (driver_byte result =? DRIVER_SENSE) && _) eqn:Eg; [split_and!; [cbn; lia|cbn; lia|done|done]|].
  assert ((exists h, sense = Some (h, false)) \/ driver_byte result = DRIVER_SENSE) as Hwhy.
  { destruct (Z.eqb_spec (driver_byte result) DRIVER_SENSE); [by right|left].
    destruct v, df; try done. by apply Hv. }
  cbn [sk_with_timeouts sk_device].
  set (compl := sd_completed_bytes _ _ _ _ _) in *.
  assert (good_ok k rq result bufflen resid sense sshdr0 bad_lba compl) as Hcompl.
  { intros Hz. split; [done|]. right. destruct (Hcl Hz) as (lba & -> & ?). exists lba. split_and!; [done|lia|done]. }
  assert (good_ok k rq result bufflen resid sense sshdr0 bad_lba 0) as Hzero by done.
  assert (sense_key h = RECOVERED_ERROR ->
          good_ok k rq result bufflen resid sense sshdr0 bad_lba bufflen) as Hrec.
  { intros E Hz. split; [done|]. left. by exists h. }
  assert (forall c g r re q, get_capacity c = get_capacity k -> 0 <= g <= bufflen ->
    good_ok k rq result bufflen resid sense sshdr0 bad_lba g ->
    let '(k', o) := (c, mkDone g r re q) in
    0 <= good_bytes o <= bufflen /\ get_capacity k' = get_capacity k /\
    good_ok k rq result bufflen resid sense sshdr0 bad_lba (good_bytes o)) as Hleaf by done.
  destruct ((_ =? HARDWARE_ERROR) || _); [apply Hleaf; [done|lia|done]|].
  destruct (Z.eqb_spec (sense_key h) RECOVERED_ERROR); [apply Hleaf; [done|lia|auto]|].
  destruct (sense_key h =? NO_SENSE); [apply Hleaf; [done|lia|done]|].
  destruct (sense_key h =? ABORTED_COMMAND); [destruct (asc h =? 0x10); apply Hleaf; (done || lia)|].
  destruct (sense_key h =? ILLEGAL_REQUEST); [|apply Hleaf; [done|lia|done]].
  destruct (asc h =? 0x10);
    (destruct (_ || (asc h =? 0x24)); [|apply Hleaf; (done || lia)]);
    (destruct (_ =? UNMAP); [apply Hleaf; (done || lia)|]);
    (destruct (_ || (_ =? WRITE_SAME)); [|apply Hleaf; (done || lia)]);
    (destruct (negb (_ =? 0)); [apply Hleaf; (done || lia)|]);
    apply Hleaf; try done; try lia; unfold sd_config_write_same; cbn;
    repeat destruct (_ : bool); done.
Qed.
(** when a read or write fails ([result] is not 0), [sd_done] counts bytes as
    good only if there is sense data for this command or the driver byte says so:
    all of them for a recovered error, otherwise only bytes that were transferred
    and lie in front of the block the sense data reports as bad, so the request
    goes on, and the swap driver is asked, at or before the bad block. *)
Theorem sd_done_good_before_bad (k : scsi_disk) (rq : sd_request) (cdb : bytes) (result bufflen resid : Z)
    (sense : option (scsi_sense_hdr * bool)) (sshdr0 : scsi_sense_hdr) (bad_lba : option Z) :
  disk_ok k -> rw_request k rq -> result <> 0 ->
  0 <= resid <= bufflen -> bufflen < 2 ^ 32 -> rq_pos rq + bufflen < 2 ^ 64 ->
  rq_pos rq mod (sector_size (sk_device k) / 512) = 0 ->
  let '(k', o) := sd_done k rq cdb result bufflen resid sense sshdr0 bad_lba in
  0 <= good_bytes o <= bufflen /\ get_capacity k' = get_capacity k /\
  (good_bytes o <> 0 ->
   ((exists h, sense = Some (h, false)) \/ driver_byte result = DRIVER_SENSE) /\
   ((exists h, (h = sshdr0 \/ exists df, sense = Some (h, df)) /\
               sense_key h = RECOVERED_ERROR /\ good_bytes o = bufflen) \/
    exists lba, bad_lba = Some lba /\ good_bytes o <= bufflen - resid /\
                512 * rq_pos rq + good_bytes o <= lba * sector_size (sk_device k))).
Proof. apply sd_done_spec. Qed.

Lemma sd_done_good_before_bad_witness :
  good_bytes (snd (sd_done (demo_disk 4096) demo_sdrq (fill 16 Byte.x00) 0x08000002 8192 0
    (Some (mkSense 0x70 MEDIUM_ERROR 0x11 0, false)) no_sense_hdr (Some 513))) = 4096 /\
  512 * rq_pos demo_sdrq + 4096 <= 513 * 4096.
Proof.
  pose proof (sd_done_good_before_bad (demo_disk 4096) demo_sdrq (fill 16 Byte.x00) 0x08000002 8192 0
    (Some (mkSense 0x70 MEDIUM_ERROR 0x11 0, false)) no_sense_hdr (Some 513) demo_disk_ok demo_sdrq_ok
    ltac:(discriminate) ltac:(lia) ltac:(lia) ltac:(cbn; lia) eq_refl) as (_ & _ & Hg).
  split; [reflexivity|]. destruct Hg as [_ [(h & [->|[df [= <- _]]] & E & _)|(lba & [= <-] & _ & Hl)]];
    [discriminate|discriminate E|discriminate E|exact Hl].
Defined.

(** ** Discard and write same *)

Definition get_be16 (b : bytes) (i : nat) : Z := be16 b i.
Definition get_be32 (b : bytes) (i : nat) : Z := be32 b i.
Definition get_be64 (b : bytes) (i : nat) : Z := Z.lor (Z.shiftl (be32 b i) 32) (be32 b (i + 4)).

(** The range of a discard or write same command, as the device reads it. *)
Definition range_of (c : sd_cmd) : Z * Z :=
  let op := cdb_byte (c_cdb c) 0 in
  if op =? UNMAP then (get_be64 (c_payload c) 8, get_be32 (c_payload c) 16)
  else if op =? WRITE_SAME_16 then (get_be64 (c_cdb c) 2, get_be32 (c_cdb c) 10)
  else (get_be32 (c_cdb c) 2, get_be16 (c_cdb c) 7).

Lemma unmap_bytes sector n :
  put_be32 n 16 (put_be64 sector 8 (put_be16 16 2 (put_be16 (6 + 16) 0 (fill 24 Byte.x00))))
  = [Byte.x00; Byte.x16; Byte.x00; Byte.x10; Byte.x00; Byte.x00; Byte.x00; Byte.x00] ++
    map (fun sh => byte.of_Z (sh8 (Z.shiftr sector 32) sh)) [24; 16; 8; 0] ++
    map (fun sh => byte.of_Z (sh8 sector sh)) [24; 16; 8; 0] ++
    map (fun sh => byte.of_Z (sh8 n sh)) [24; 16; 8; 0] ++ fill 4 Byte.x00.
Proof. reflexivity. Qed.

Lemma ws16_bytes l sector n a b :
  put l zero_cdb = a :: b :: fill 14 Byte.x00 ->
  put_be32 n 10 (put_be64 sector 2 (put l zero_cdb))
  = [a; b] ++ map (fun sh => byte.of_Z (sh8 (Z.shiftr sector 32) sh)) [24; 16; 8; 0] ++
    map (fun sh => byte.of_Z (sh8 sector sh)) [24; 16; 8; 0] ++
    map (fun sh => byte.of_Z (sh8 n sh)) [24; 16; 8; 0] ++ [Byte.x00; Byte.x00].
Proof. intros ->. reflexivity. Qed.

Lemma ws10_bytes l sector n a b :
  put l zero_cdb = a :: b :: fill 14 Byte.x00 ->
  put_be16 n 7 (put_be32 sector 2 (put l zero_cdb))
  = [a; b] ++ map (fun sh => byte.of_Z (sh8 sector sh)) [24; 16; 8; 0] ++
    Byte.x00 :: map (fun sh => byte.of_Z (sh8 n sh)) [8; 0] ++ fill 7 Byte.x00.
Proof. intros ->. reflexivity. Qed.

Lemma unmap_range sector n len und dir rw :
  0 <= sector < 2 ^ 64 -> 0 <= n < 2 ^ 32 ->
  range_of (mkSdCmd (put [(0%nat, UNMAP); (8%nat, 24)] zero_cdb)
    (put_be32 n 16 (put_be64 sector 8 (put_be16 16 2 (put_be16 (6 + 16) 0 (fill 24 Byte.x00)))))
    len und dir rw) = (sector, n).
Proof.
  intros Hs Hn. unfold range_of. cbn [c_cdb c_payload].
  change (cdb_byte _ 0 =? UNMAP) with true. cbv iota. rewrite unmap_bytes.
  unfold get_be64, get_be32. cdb_bytes. rewrite !join32, join64 by done. by rewrite Z.mod_small.
Qed.

Lemma ws16_range l b sector n payload len und dir rw :
  put l zero_cdb = byte.of_Z WRITE_SAME_16 :: b :: fill 14 Byte.x00 ->
  0 <= sector < 2 ^ 64 -> 0 <= n < 2 ^ 32 ->
  range_of (mkSdCmd (put_be32 n 10 (put_be64 sector 2 (put l zero_cdb))) payload len und dir rw) = (sector, n).
Proof.
  intros Hl Hs Hn. unfold range_of. cbn [c_cdb]. rewrite (ws16_bytes _ _ _ _ _ Hl).
  change (cdb_byte _ 0) with WRITE_SAME_16. cbn [WRITE_SAME_16 UNMAP Z.eqb Pos.eqb].
  unfold get_be64, get_be32. cdb_bytes. rewrite !join32, join64 by done. by rewrite Z.mod_small.
Qed.

Lemma ws10_range l b sector n payload len und dir rw :
  put l zero_cdb = byte.of_Z WRITE_SAME :: b :: fill 14 Byte.x00 ->
  0 <= sector < 2 ^ 32 -> 0 <= n <= 0xffff ->
  range_of (mkSdCmd (put_be16 n 7 (put_be32 sector 2 (put l zero_cdb))) payload len und dir rw) = (sector, n).
Proof.
  intros Hl Hs Hn. unfold range_of. cbn [c_cdb]. rewrite (ws10_bytes _ _ _ _ _ Hl).
  change (cdb_byte _ 0) with WRITE_SAME. cbn [WRITE_SAME_16 WRITE_SAME UNMAP Z.eqb Pos.eqb].
  unfold get_be32, get_be16. cdb_bytes. rewrite join32, join16. rewrite !Z.mod_small by lia. done.
Qed.

Lemma scale_shift size x :
  size ∈ sector_sizes -> Z.shiftr x (ilog2 size - 9) = x / (size / 512) /\ Z.shiftr size 9 = size / 512.
Proof.
  unfold sector_sizes. rewrite !elem_of_cons.
  intros [->|[->|[->|[->|Hin]]]]; [..|by apply not_elem_of_nil in Hin]; cbn -[Z.shiftr Z.div];
    (split; [|reflexivity]); rewrite Z.shiftr_div_pow2 by (by vm_compute); reflexivity.
Qed.

Lemma min_not_zero_le x y : 0 <= x -> 0 < y -> 0 < min_not_zero x y <= y.
Proof.
  intros Hx Hy. unfold min_not_zero. destruct (Z.eqb_spec x 0); [lia|]. destruct (Z.eqb_spec y 0); lia.
Qed.

(** The request of [n] sectors is at most [max] blocks of [f] sectors. *)
Lemma limit_blocks n max f :
  0 <= max < 2 ^ 23 -> 1 <= f <= 8 -> 0 <= n <= u32 (max * f) -> 0 <= n / f <= max.
Proof.
  intros Hm Hf Hn. rewrite u32_small in Hn by nia. split; [apply Z.div_pos; lia|].
  apply Z.div_le_upper_bound; lia.
Qed.

Lemma blk_pc_ok setup_pc c c' : blk_pc setup_pc c = BLKPREP_OK c' -> c' = c.
Proof. unfold blk_pc. destruct setup_pc; congruence. Qed.

(** under the limits [sd_config_discard] sets for a provisioning mode, the
    command [sd_setup_discard_cmnd] builds for that mode (UNMAP, WRITE SAME(16) or
    WRITE SAME(10)) names exactly the logical blocks of the request: no count or
    sector is cut off.  For WRITE SAME(10) the start must fit in 32 bits, which
    nothing in the code checks. *)
Theorem discard_command_exact (setup_pc : prep) (page : bool) (k : scsi_disk) (mode : lbp_mode)
    (rq : sd_request) (c : sd_cmd) :
  let k1 := sd_config_discard k mode in
  let f := sector_size (sk_device k) / 512 in
  sector_size (sk_device k) ∈ sector_sizes -> 0 <= max_unmap_blocks k -> 0 <= max_ws_blocks k ->
  0 <= rq_pos rq < 2 ^ 64 -> 0 <= rq_sectors rq <= max_discard_sectors (sk_limits k1) ->
  (mode = SD_LBP_WS10 \/ mode = SD_LBP_ZERO -> rq_pos rq < f * 2 ^ 32) ->
  sd_setup_discard_cmnd setup_pc page k1 rq = BLKPREP_OK c ->
  range_of c = (rq_pos rq / f, rq_sectors rq / f).
Proof.
  intros k1 f Hsz Hu Hws Hp Hn H32.
  pose proof (sizes_factor _ Hsz) as Hf. fold f in Hf.
  assert (sk_device k1 = sk_device k /\ provisioning_mode k1 = mode) as [Ed Em]
    by (subst k1; by destruct mode).
  destruct (scale_shift _ (rq_pos rq) Hsz) as [Esp Es9].
  destruct (scale_shift _ (rq_sectors rq) Hsz) as [Esn _]. fold f in Esp, Esn, Es9.
  unfold sd_setup_discard_cmnd. rewrite Ed, Em, Esp, Esn. destruct page; [|done]. cbn [negb].
  assert (0 <= rq_pos rq / f < 2 ^ 64) as Hb.
  { split; [apply Z.div_pos; lia|]. apply Z.div_lt_upper_bound; nia. }
  set (sector := rq_pos rq / f) in *. set (n := rq_sectors rq / f) in *.
  assert (forall m, 0 < m < 2 ^ 23 -> 0 <= rq_sectors rq <= u32 (m * Z.shiftr (sector_size (sk_device k)) 9) ->
            0 <= n <= m) as Hlim.
  { intros m Hm Hl. rewrite Es9 in Hl. apply limit_blocks; [lia|done|done]. }
  assert (forall m, m = SD_MAX_WS16_BLOCKS \/ m = SD_MAX_WS10_BLOCKS -> 0 < m < 2 ^ 23) as Hmax
    by (by intros m [->| ->]).
  destruct mode; try done; intros ->%blk_pc_ok; subst k1; cbn [sd_config_discard sk_limits max_discard_sectors sk_with_limits] in Hn;
    match type of Hn with context [min_not_zero ?a ?b] =>
      pose proof (min_not_zero_le a b ltac:(done) ltac:(done)) as Hmz;
      pose proof (Hmax b ltac:(auto)); specialize (Hlim (min_not_zero a b) ltac:(lia) Hn) end;
    clear Hmax; unfold SD_MAX_WS16_BLOCKS, SD_MAX_WS10_BLOCKS in *.
  - apply unmap_range; lia.
  - eapply ws16_range; [reflexivity|lia|lia].
  - eapply ws10_range; [reflexivity| |lia].
    split; [lia|]. apply Z.div_lt_upper_bound; [lia|]. by apply H32; auto.
  - eapply ws10_range; [reflexivity| |lia].
    split; [lia|]. apply Z.div_lt_upper_bound; [lia|]. by apply H32; auto.
Qed.

Lemma discard_command_exact_witness :
  let rq := mkSdRq 4096 16 8192 (Z.lor 1 REQ_DISCARD) REQ_TYPE_FS 0 4096 in
  exists c, sd_setup_discard_cmnd (BLKPREP_OK (mkSdCmd [] [] 0 0 DMA_NONE None)) true
              (sd_config_discard (demo_disk 4096) SD_LBP_UNMAP) rq = BLKPREP_OK c /\
            range_of c = (512, 2).
Proof.
  intros rq. eexists. split; [reflexivity|].
  apply (discard_command_exact (BLKPREP_OK (mkSdCmd [] [] 0 0 DMA_NONE None)) true (demo_disk 4096) SD_LBP_UNMAP rq);
    [unfold sector_sizes; cbn; set_solver|cbn; lia|cbn; lia|cbn; lia| | |reflexivity].
  - vm_compute. split; congruence.
  - intros [?|?]; discriminate.
Defined.

(** a WRITE SAME command that [sd_setup_write_same_cmnd] builds names exactly
    the logical blocks of the request: the sixteen byte form is chosen whenever the
    ten byte form could not hold them. *)
Theorem write_same_command_exact (setup_pc : prep) (k : scsi_disk) (rq : sd_request) (c : sd_cmd) :
  let f := sector_size (sk_device k) / 512 in
  sector_size (sk_device k) ∈ sector_sizes ->
  0 <= rq_pos rq < 2 ^ 64 -> 0 <= rq_sectors rq < 2 ^ 32 ->
  sd_setup_write_same_cmnd setup_pc k rq = BLKPREP_OK c ->
  range_of c = (rq_pos rq / f, rq_sectors rq / f).
Proof.
  intros f Hsz Hp Hn. pose proof (sizes_factor _ Hsz) as Hf. fold f in Hf.
  unfold sd_setup_write_same_cmnd. destruct (no_write_same _); [done|]. destruct (_ || negb _); [done|].
  rewrite (proj1 (scale_shift _ (rq_pos rq) Hsz)), (proj1 (scale_shift _ (rq_sectors rq) Hsz)). fold f.
  assert (0 <= rq_pos rq / f < 2 ^ 64) by (split; [apply Z.div_pos|apply Z.div_lt_upper_bound]; nia).
  assert (0 <= rq_sectors rq / f < 2 ^ 32) by (split; [apply Z.div_pos|apply Z.div_lt_upper_bound]; nia).
  destruct (_ || (0xffff <? _)) eqn:E; intros ->%blk_pc_ok.
  - by eapply ws16_range.
  - rewrite !orb_false_iff, !Z.ltb_ge in E. eapply ws10_range; [reflexivity|lia|lia].
Qed.

Lemma write_same_command_exact_witness :
  exists c, sd_setup_write_same_cmnd (BLKPREP_OK (mkSdCmd [] [] 0 0 DMA_NONE None)) (demo_disk 4096) demo_sdrq
              = BLKPREP_OK c /\ range_of c = (512, 2).
Proof.
  eexists. split; [reflexivity|].
  apply (write_same_command_exact (BLKPREP_OK (mkSdCmd [] [] 0 0 DMA_NONE None)) (demo_disk 4096) demo_sdrq);
    [unfold sector_sizes; cbn; set_solver|cbn; lia|cbn; lia|reflexivity].
Defined.

(** Sixteen disk majors, all different. *)
Lemma sd_major_inj i j :
  0 <= i <= 15 -> 0 <= j <= 15 -> sd_major i = sd_major j -> i = j.
Proof.
  intros Hi Hj. unfold sd_major, SCSI_DISK0_MAJOR, SCSI_DISK1_MAJOR, SCSI_DISK8_MAJOR.
  destruct (Z.eqb_spec i 0), (Z.eqb_spec j 0);
    destruct ((1 <=? i) && (i <=? 7)) eqn:?, ((1 <=? j) && (j <=? 7)) eqn:?;
    destruct ((8 <=? i) && (i <=? 15)) eqn:?, ((8 <=? j) && (j <=? 15)) eqn:?;
    intros [=]; lia.
Qed.
