(* ===== verification/SdName.v ===== *)
(** * drivers/scsi/sd.c: names and numbers of disks

    [sd_format_disk_name] writes the name of disk number [index] (sda, .., sdz,
    sdaa, ..) into a buffer; [sd_probe_async] derives the device numbers from the
    same index.  Names read back to the index they were made from, and neither two
    names nor two device numbers coincide. *)

From stdpp Require Import base gmap list list_numbers.
From coqutil Require Import Byte.
From Stdlib Require Import ZArith Lia.
From S2P Require Import Prelude Kapi State Scsi Sd SdThm.

Local Open Scope Z_scope.

(** ** Code *)

Definition DISK_NAME_LEN : Z := 32.
Definition name_base : Z := 26.
Definition letter (d : Z) : byte := byte.of_Z (97 + d).

Section Format.
Context {S : Type}.

(** The [do .. while] loop, with [p] and [begin] as offsets into the buffer;
    [None] is the return of -EINVAL.  The letters are stored downwards from [p]. *)
Fixpoint name_loop (fuel : nat) (begin p index : Z) (buf : bytes) : K S (option Z * bytes) :=
  match fuel with
  | O => kfail Hang
  | Datatypes.S f =>
      if p =? begin then mret (None, buf) else
      let p := p - 1 in
      buf ← kstore p [letter (Z.rem index name_base)] buf;
      let index := Z.quot index name_base - 1 in
      if 0 <=? index then name_loop f begin p index buf else mret (Some p, buf)
  end.

(** [buf] is the whole buffer of [buflen] bytes. *)
Definition sd_format_disk_name (prefix : bytes) (index : Z) (buf : bytes) : K S (Z * bytes) :=
  let buflen := zlen buf in
  let begin := zlen prefix in
  let p := buflen - 1 in
  buf ← kstore p [Byte.x00] buf;
  x ← name_loop (Z.to_nat (buflen + 1)) begin p index buf;
  match x with
  | (None, buf) => mret (- EINVAL, buf)
  | (Some p, buf) =>
      name ← kload p (buflen - p) buf;
      buf ← kstore begin name buf;
      buf ← kstore 0 prefix buf;
      mret (0, buf)
  end.
End Format.

(** The device numbers [sd_probe_async] gives disk [index]. *)
Definition sd_disk_major (index : Z) : option Z := sd_major (Z.shiftr (Z.land index 0xf0) 4).
Definition sd_first_minor (index : Z) : Z :=
  Z.lor (Z.shiftl (Z.land index 0xf) 4) (Z.land index 0xfff00).
Definition SD_MINORS : Z := 16.

(** ** Names as numbers *)

(** Letters read as a number without a zero digit, continuing from [v]. *)
Definition name_value (v : Z) (ds : list Z) : Z := fold_left (fun v d => 26 * v + d + 1) ds v.

Lemma name_value_cons v d ds : name_value v (d :: ds) = name_value (26 * v + d + 1) ds.
Proof. done. Qed.

Definition is_digit26 (d : Z) : Prop := 0 <= d < 26.

(** How many names have at most [r] letters. *)
Fixpoint names (r : nat) : Z := match r with O => 0 | Datatypes.S r => 26 * (names r + 1) end.

Lemma names_pos r : 0 <= names r.
Proof. induction r; cbn [names]; lia. Qed.

Lemma splice_before {A} (c : A) hd t :
  0 < zlen hd -> splice (zlen hd - 1) [c] (hd ++ t) = take (Z.to_nat (zlen hd - 1)) hd ++ c :: t.
Proof.
  intros Hz. unfold splice, zlen in *. cbn [length app].
  rewrite take_app_le by lia. rewrite drop_app_ge by lia.
  replace (Z.to_nat (Z.of_nat (length hd) - 1) + 1 - length hd)%nat with 0%nat by lia. done.
Qed.

Section FormatThm.
Context {S : Type}.
Implicit Types s : S.

Lemma wp_name_loop r : forall fuel begin i hd ds s,
  (r < fuel)%nat -> zlen hd = begin + Z.of_nat r -> 0 <= begin -> 0 <= i -> Forall is_digit26 ds ->
  wp (name_loop fuel begin (zlen hd) i (hd ++ map letter ds ++ [Byte.x00]))
     (fun x s' => s' = s /\
        if i <? names r
        then exists hd' ds', x = (Some (zlen hd'), hd' ++ map letter ds' ++ [Byte.x00]) /\
               begin <= zlen hd' /\ Forall is_digit26 ds' /\ ds' <> [] /\
               zlen hd' + zlen ds' = zlen hd + zlen ds /\ name_value 0 ds' = name_value (i + 1) ds
        else exists buf', x = (None, buf') /\ zlen buf' = zlen (hd ++ map letter ds ++ [Byte.x00])) s.
Proof.
  induction r as [|r IH]; intros fuel begin i hd ds s Hf Hz Hb Hi Hds;
    (destruct fuel as [|fuel]; [lia|]); cbn [name_loop].
  - rewrite (proj2 (Z.eqb_eq _ _)) by lia. kstep. split; [done|].
    rewrite (proj2 (Z.ltb_ge _ _)) by (cbn; lia). by eexists.
  - rewrite (proj2 (Z.eqb_neq _ _)) by lia. kstep.
    pose proof (zlen_nonneg (map letter ds ++ [Byte.x00])).
    apply wp_store; [lia|rewrite zlen_app; change (zlen [letter _]) with 1; lia|].
    rewrite splice_before by lia. unfold name_base.
    rewrite Z.rem_mod_nonneg, Z.quot_div_nonneg by lia. set (d := i mod 26).
    assert (is_digit26 d) as Hd by (apply Z.mod_pos_bound; lia).
    pose proof (Z.div_mod i 26 ltac:(lia)) as Hdm. fold d in Hdm.
    set (hd' := take (Z.to_nat (zlen hd - 1)) hd).
    assert (zlen hd' = zlen hd - 1) as Hz' by (subst hd'; clear -Hz Hb; unfold zlen in *; rewrite length_take; lia).
    change (letter d :: map letter ds ++ [Byte.x00]) with (map letter (d :: ds) ++ [Byte.x00]).
    destruct (Z.leb_spec 0 (i / 26 - 1)) as [Hge|Hlt].
    + rewrite <- Hz'. eapply wp_mono; [apply IH; [lia|lia|lia|lia|by constructor]|].
      cbv beta. intros x s' [-> Hx]. split; [done|]. cbn [names].
      destruct (Z.ltb_spec (i / 26 - 1) (names r)) as [H1|H1].
      * rewrite (proj2 (Z.ltb_lt _ _)) by (unfold is_digit26 in Hd; lia).
        destruct Hx as (hd2 & ds2 & -> & Hb2 & Hd2 & Hn2 & Hl2 & Hv). exists hd2, ds2.
        split_and!; try done; [unfold zlen in *; cbn [length] in *; lia|].
        rewrite Hv. rewrite name_value_cons. f_equal. lia.
      * rewrite (proj2 (Z.ltb_ge _ _)) by (unfold is_digit26 in Hd; lia).
        destruct Hx as (buf' & -> & Hl2). exists buf'. split; [done|]. rewrite Hl2.
        rewrite !zlen_app. unfold zlen in *. cbn [map length]. rewrite !length_map in *. lia.
    + kstep. split; [done|]. pose proof (Z.div_pos i 26). cbn [names].
      pose proof (names_pos r). rewrite (proj2 (Z.ltb_lt _ _)) by (unfold is_digit26 in Hd; lia).
      exists hd', (d :: ds). rewrite Hz'. split_and!; try done; try lia; [by constructor| |].
      * unfold zlen in *. cbn [length]. lia.
      * rewrite name_value_cons. f_equal. lia.
Qed.
End FormatThm.

(** ** Reading a name back *)

(** The C string at the start of a buffer. *)
Fixpoint c_string (buf : bytes) : bytes :=
  match buf with
  | [] => []
  | c :: rest => if bool_decide (c = Byte.x00) then [] else c :: c_string rest
  end.

Lemma c_string_app l rest : Byte.x00 ∉ l -> c_string (l ++ Byte.x00 :: rest) = l.
Proof.
  induction l as [|c l IH]; intros Hn; cbn; [done|].
  rewrite not_elem_of_cons in Hn. destruct Hn as [Hc Hn]. rewrite bool_decide_false by congruence.
  by rewrite IH.
Qed.

Definition unletter (c : byte) : Z := byte.unsigned c - 97.

(** The number of a disk from its name. *)
Definition name_index (prefix name : bytes) : Z :=
  name_value 0 (map unletter (drop (length prefix) name)) - 1.

Lemma unletter_letter d : is_digit26 d -> unletter (letter d) = d.
Proof.
  unfold is_digit26, unletter, letter. intros Hd. rewrite byte.unsigned_of_Z.
  unfold byte.wrap. rewrite Z.mod_small; lia.
Qed.

Lemma unletters ds : Forall is_digit26 ds -> map unletter (map letter ds) = ds.
Proof. induction 1 as [|d ds Hd _ IH]; cbn; [done|]. by rewrite unletter_letter, IH. Qed.

Lemma letters_no_nul ds : Forall is_digit26 ds -> Byte.x00 ∉ map letter ds.
Proof.
  induction 1 as [|d ds Hd _ IH]; cbn; [apply not_elem_of_nil|]. rewrite not_elem_of_cons. split; [|done].
  intros E. apply (f_equal unletter) in E. rewrite unletter_letter in E by done.
  unfold is_digit26 in Hd. change (unletter Byte.x00) with (-97) in E. lia.
Qed.

(** Letters moved to the front, behind the prefix. *)
Lemma moved_name (prefix hd name : bytes) :
  zlen prefix <= zlen hd ->
  exists rest, splice 0 prefix (splice (zlen prefix) name (hd ++ name)) = prefix ++ name ++ rest.
Proof.
  intros Hle. unfold splice. change (Z.to_nat 0) with 0%nat. rewrite take_0, Nat.add_0_l. cbn [app].
  unfold zlen in *. rewrite Nat2Z.id. eexists. f_equal.
  rewrite drop_app_length' by (rewrite length_take, length_app; lia). done.
Qed.

Lemma wp_format_disk_name {S : Type} (s : S) (prefix buf : bytes) (index : Z) :
  zlen prefix < zlen buf -> Byte.x00 ∉ prefix -> 0 <= index ->
  wp (sd_format_disk_name prefix index buf)
     (fun x s' => let '(ret, buf') := x in
        s' = s /\ zlen buf' = zlen buf /\
        let room := Z.to_nat (zlen buf - 1 - zlen prefix) in
        (index < names room ->
           ret = 0 /\ take (length prefix) (c_string buf') = prefix /\
           name_index prefix (c_string buf') = index) /\
        (names room <= index -> ret = - EINVAL)) s.
Proof.
  intros Hlt Hnul Hi. pose proof (zlen_nonneg prefix) as Hp. unfold sd_format_disk_name. kstep.
  apply wp_store; [lia|change (zlen [Byte.x00]) with 1; lia|]. kstep.
  set (hd := take (Z.to_nat (zlen buf - 1)) buf).
  assert (zlen hd = zlen buf - 1) as Hz by (subst hd; clear -Hlt Hp; unfold zlen in *; rewrite length_take; lia).
  assert (splice (zlen buf - 1) [Byte.x00] buf = hd ++ map letter [] ++ [Byte.x00]) as ->.
  { unfold splice. fold hd. rewrite drop_ge; [done|]. clear -Hlt Hp. unfold zlen in *. cbn. lia. }
  rewrite <- Hz. set (r := Z.to_nat (zlen hd - zlen prefix)).
  eapply wp_mono; [apply (wp_name_loop r); [lia|lia|lia|done|constructor]|].
  cbv beta. intros x s' [-> Hx]. destruct (Z.ltb_spec index (names r)) as [Hn|Hn].
  - destruct Hx as (hd' & ds & -> & Hle & Hd & Hne & Hlen & Hv). change (zlen (@nil Z)) with 0 in Hlen.
    kstep. set (name := map letter ds ++ [Byte.x00]).
    assert (zlen name = zlen ds + 1) as Hnl by (unfold name, zlen; rewrite length_app, length_map; cbn; lia).
    pose proof (zlen_nonneg ds). apply wp_load; [apply zlen_nonneg|lia|rewrite zlen_app; lia|].
    assert (slice (zlen hd') (zlen buf - zlen hd') (hd' ++ name) = name) as ->.
    { unfold slice, zlen in *. rewrite Nat2Z.id, drop_app_length. apply take_ge. lia. }
    assert (zlen (splice (zlen prefix) name (hd' ++ name)) = zlen buf) as Hz1
      by (rewrite zlen_splice; rewrite ?zlen_app; lia).
    kstep. apply wp_store; [lia|rewrite zlen_app; lia|]. kstep. apply wp_store; [lia|lia|]. kstep. destruct (moved_name prefix hd' name Hle) as [rest Er].
    assert (zlen (splice 0 prefix (splice (zlen prefix) name (hd' ++ name))) = zlen buf) as Hzb.
    { rewrite zlen_splice; lia. }
    rewrite Er in *. split; [done|]. split; [done|]. cbv zeta. fold r. split; [|lia].
    intros _. split; [done|]. unfold name. rewrite <- app_assoc. cbn [app].
    rewrite app_assoc, c_string_app.
    2:{ rewrite not_elem_of_app. split; [done|by apply letters_no_nul]. }
    unfold name_index. rewrite take_app_length, drop_app_length, unletters, Hv by done. split; [done|]. cbn. lia.
  - destruct Hx as (buf' & -> & Hl). kstep. split; [done|]. split.
    + rewrite Hl, zlen_app. cbn. change (zlen [Byte.x00]) with 1. lia.
    + cbv zeta. fold r. split; [lia|done].
Qed.

(** C30: [sd_format_disk_name], for an index that is not negative and a prefix without a
    NUL that is shorter than the buffer: the loop ends and nothing outside the buffer
    is touched.  If the index is below the number of names with at most as many letters
    as there is room for, it returns 0, and the buffer holds a name that starts with the
    prefix, ends with a NUL and reads back to the index it was made from (as a number
    in base 26 without a zero digit), so no two disks have the same name; otherwise it
    returns -EINVAL. *)
Theorem disk_name_roundtrip {S : Type} (s : S) (prefix buf : bytes) (index : Z) :
  zlen prefix < zlen buf -> Byte.x00 ∉ prefix -> 0 <= index ->
  wp (sd_format_disk_name prefix index buf)
     (fun x s' => let '(ret, buf') := x in
        s' = s /\ zlen buf' = zlen buf /\
        let room := Z.to_nat (zlen buf - 1 - zlen prefix) in
        (index < names room ->
           ret = 0 /\ take (length prefix) (c_string buf') = prefix /\
           name_index prefix (c_string buf') = index) /\
        (names room <= index -> ret = - EINVAL)) s.
Proof. apply wp_format_disk_name. Qed.

Lemma disk_name_roundtrip_witness :
  exists buf', sd_format_disk_name [Byte.x73; Byte.x64] 702 (fill DISK_NAME_LEN Byte.x00) tt = Ok ((0, buf'), tt) /\
               name_index [Byte.x73; Byte.x64] (c_string buf') = 702.
Proof.
  destruct (wp_inv _ _ _ (disk_name_roundtrip tt [Byte.x73; Byte.x64] (fill DISK_NAME_LEN Byte.x00) 702
    ltac:(vm_compute; reflexivity)
    ltac:(rewrite !not_elem_of_cons; split_and!; [discriminate|discriminate|apply not_elem_of_nil]) ltac:(lia)))
    as ([ret buf'] & [] & E & _ & _ & Hn & _).
  destruct (Hn ltac:(vm_compute; reflexivity)) as (-> & _ & Hx). exists buf'. split; [exact E|exact Hx].
Defined.

(** Every index the kernel can hand out has a name. *)
Lemma sd_names_suffice index : 0 <= index < 2 ^ 31 -> index < names (Z.to_nat (DISK_NAME_LEN - 1 - 2)).
Proof. intros [_ Hi]. eapply Z.lt_trans; [exact Hi|]. by vm_compute. Qed.

(** ** Numbers *)

Lemma land_shiftl_mask i m n : 0 <= n -> Z.land i (Z.shiftl m n) = Z.shiftl (Z.land (Z.shiftr i n) m) n.
Proof.
  intros Hn. apply Z.bits_inj'. intros k Hk. rewrite Z.land_spec.
  destruct (Z.lt_ge_cases k n).
  - by rewrite !Z.shiftl_spec_low, andb_false_r by lia.
  - rewrite !Z.shiftl_spec, Z.land_spec, Z.shiftr_spec by lia. by rewrite Z.sub_add.
Qed.

Lemma land_field i n w : 0 <= n -> 0 <= w ->
  Z.land i (Z.shiftl (Z.ones w) n) = 2 ^ n * ((i / 2 ^ n) mod 2 ^ w).
Proof.
  intros. rewrite land_shiftl_mask, Z.land_ones, Z.shiftr_div_pow2, Z.shiftl_mul_pow2 by lia. lia.
Qed.

Lemma lor_apart a b n : 0 <= n -> 0 <= a < 2 ^ n -> Z.lor a (2 ^ n * b) = a + 2 ^ n * b.
Proof.
  intros Hn Ha. assert (Z.land a (2 ^ n * b) = 0) as Hl.
  { apply Z.bits_inj'. intros k Hk. rewrite Z.land_spec, Z.bits_0.
    destruct (Z.lt_ge_cases k n).
    - rewrite (Z.mul_comm (2 ^ n)), Z.mul_pow2_bits_low by lia. apply andb_false_r.
    - destruct (Z.eq_dec a 0) as [->|]; [by rewrite Z.bits_0|].
      rewrite Z.bits_above_log2; [done|lia|]. apply Z.log2_lt_pow2; [lia|].
      eapply Z.lt_le_trans; [apply Ha|]. apply Z.pow_le_mono_r; lia. }
  by rewrite <- Z.lxor_lor, Z.add_nocarry_lxor.
Qed.

Lemma disk_major_spec i : sd_disk_major i = sd_major ((i / 16) mod 16).
Proof.
  unfold sd_disk_major. f_equal. change 0xf0 with (Z.shiftl (Z.ones 4) 4). rewrite land_field by lia.
  rewrite Z.shiftr_div_pow2 by lia. change (2 ^ 4) with 16. rewrite Z.mul_comm. apply Z.div_mul. lia.
Qed.

Lemma first_minor_spec i : 0 <= i < 2 ^ 20 -> sd_first_minor i = 16 * (i mod 16) + 256 * (i / 256).
Proof.
  intros Hi. unfold sd_first_minor. change 0xf with (Z.ones 4).
  change 0xfff00 with (Z.shiftl (Z.ones 12) 8).
  rewrite land_field, Z.land_ones, (Z.shiftl_mul_pow2 (i mod _)) by lia.
  pose proof (Z.mod_pos_bound i 16 ltac:(lia)). change (2 ^ 4) with 16.
  change (2 ^ 12) with 4096. change (2 ^ 8) with 256.
  rewrite (Z.mod_small (i / 256)) by (split; [apply Z.div_pos|apply Z.div_lt_upper_bound]; lia).
  rewrite (lor_apart _ _ 8) by (change (2 ^ 8) with 256; lia). change (2 ^ 8) with 256. lia.
Qed.

(** every disk number below 2^20 has a major number, and the ranges of sixteen
    minor numbers of two disks with the same major number never overlap. *)
Theorem disk_numbers_disjoint (i j : Z) :
  0 <= i < 2 ^ 20 -> 0 <= j < 2 ^ 20 ->
  is_Some (sd_disk_major i) /\
  (i <> j -> sd_disk_major i = sd_disk_major j ->
   sd_first_minor i + SD_MINORS <= sd_first_minor j \/ sd_first_minor j + SD_MINORS <= sd_first_minor i).
Proof.
  intros Hi Hj. rewrite !disk_major_spec, !first_minor_spec by done.
  pose proof (Z.mod_pos_bound (i / 16) 16 ltac:(lia)). pose proof (Z.mod_pos_bound (j / 16) 16 ltac:(lia)). split.
  - unfold sd_major. destruct (Z.eqb_spec ((i / 16) mod 16) 0); [by eexists|].
    destruct ((1 <=? _) && _) eqn:E1; [by eexists|]. destruct ((8 <=? _) && _) eqn:E2; [by eexists|]. lia.
  - intros Hne Hm. apply sd_major_inj in Hm; [|lia..]. unfold SD_MINORS.
    assert (i = 256 * (i / 256) + 16 * ((i / 16) mod 16) + i mod 16) by (clear; Z.to_euclidean_division_equations; lia).
    assert (j = 256 * (j / 256) + 16 * ((j / 16) mod 16) + j mod 16) by (clear; Z.to_euclidean_division_equations; lia).
    pose proof (Z.mod_pos_bound i 16 ltac:(lia)). pose proof (Z.mod_pos_bound j 16 ltac:(lia)). lia.
Qed.

Lemma disk_numbers_disjoint_witness :
  sd_disk_major 3 = sd_disk_major 259 /\ sd_first_minor 3 + SD_MINORS <= sd_first_minor 259.
Proof.
  split; [reflexivity|].
  destruct (disk_numbers_disjoint 3 259 ltac:(lia) ltac:(lia)) as [_ H].
  destruct (H ltac:(lia) eq_refl) as [H1|H1]; [exact H1|exfalso; vm_compute in H1; apply H1; reflexivity].
Defined.
