(* ===== verification/SdCap.v ===== *)
(** * drivers/scsi/sd.c: the capacity of a disk and the reserve for swapping

    [read_capacity_10], [read_capacity_16] and [sd_read_capacity], which takes the
    reserved area off the end of the disks the swap driver serves.  [sector_t] has
    64 bits, so the branches for a 32-bit one are not there.  Results: asking for
    the capacity always ends; the reserve lies on the disk right behind the user's
    area and stays there when the disk is read again; what is set up fits the CDBs
    [sd_prep_fn] builds. *)

From stdpp Require Import base gmap list list_numbers.
From coqutil Require Import Byte Word.LittleEndianList.
From Stdlib Require Import ZArith Lia.
From S2P Require Import Prelude Kapi Ring Layout State Scsi Sim Swap Sd SdThm.

Local Open Scope Z_scope.

(** ** State *)

(** What the host and the device's quirks say. *)
Record cap_config := mkCfg {
  no_read_capacity_16 : bool;
  max_cmd_len : Z;
  try_rc_10_first : bool;
  scsi_level : Z;
  fix_capacity : bool;
  guess_capacity : bool;
  scsi_host_dif_capable : Z -> bool;
  cfg_host : option (option (option bytes))
}.

(** The disk behind the midlayer, its [scsi_disk] and the fields of it that only
    this file uses; [sd_capacity] is [sdkp->capacity]. *)
Record cap (D : Type) := mkCap {
  cp_dev : D;
  cp_disk : scsi_disk;
  sd_capacity : Z;
  media_present : bool;
  first_scan : bool;
  lbpme : bool;
  protection_type : Z;
  alignment_offset : Z;
  queue_logical_block_size : Z;
  queue_physical_block_size : Z
}.
Arguments mkCap {D} _ _ _ _ _ _ _ _ _ _.
Arguments cp_dev {D} _.
Arguments cp_disk {D} _.
Arguments sd_capacity {D} _.
Arguments media_present {D} _.
Arguments first_scan {D} _.
Arguments lbpme {D} _.
Arguments protection_type {D} _.
Arguments alignment_offset {D} _.
Arguments queue_logical_block_size {D} _.
Arguments queue_physical_block_size {D} _.

Section Update.
Context {D : Type}.
Implicit Types c : cap D.

Definition cap_dev (d : D) c : cap D :=
  mkCap d (cp_disk c) (sd_capacity c) (media_present c) (first_scan c) (lbpme c) (protection_type c)
    (alignment_offset c) (queue_logical_block_size c) (queue_physical_block_size c).
Definition cap_disk (k : scsi_disk) c : cap D :=
  mkCap (cp_dev c) k (sd_capacity c) (media_present c) (first_scan c) (lbpme c) (protection_type c)
    (alignment_offset c) (queue_logical_block_size c) (queue_physical_block_size c).
Definition cap_capacity (z : Z) c : cap D :=
  mkCap (cp_dev c) (cp_disk c) z (media_present c) (first_scan c) (lbpme c) (protection_type c)
    (alignment_offset c) (queue_logical_block_size c) (queue_physical_block_size c).
Definition cap_media (b : bool) c : cap D :=
  mkCap (cp_dev c) (cp_disk c) (sd_capacity c) b (first_scan c) (lbpme c) (protection_type c)
    (alignment_offset c) (queue_logical_block_size c) (queue_physical_block_size c).
Definition cap_lbpme c : cap D :=
  mkCap (cp_dev c) (cp_disk c) (sd_capacity c) (media_present c) (first_scan c) true (protection_type c)
    (alignment_offset c) (queue_logical_block_size c) (queue_physical_block_size c).
Definition cap_protection (z : Z) c : cap D :=
  mkCap (cp_dev c) (cp_disk c) (sd_capacity c) (media_present c) (first_scan c) (lbpme c) z
    (alignment_offset c) (queue_logical_block_size c) (queue_physical_block_size c).
Definition cap_alignment (z : Z) c : cap D :=
  mkCap (cp_dev c) (cp_disk c) (sd_capacity c) (media_present c) (first_scan c) (lbpme c)
    (protection_type c) z (queue_logical_block_size c) (queue_physical_block_size c).
Definition cap_queue (lbs pbs : Z) c : cap D :=
  mkCap (cp_dev c) (cp_disk c) (sd_capacity c) (media_present c) (first_scan c) (lbpme c)
    (protection_type c) (alignment_offset c) lbs pbs.
End Update.

Definition disk_physical (z : Z) (k : scsi_disk) : scsi_disk :=
  mkDiskState (sk_device k) (sk_limits k) (get_capacity k) (provisioning_mode k) (lbprz k)
    (unmap_alignment k) (unmap_granularity k) z (max_unmap_blocks k) (max_ws_blocks k) (ws16 k)
    (medium_access_timed_out k) (max_medium_access_timeouts k).
Definition disk_lbprz (k : scsi_disk) : scsi_disk :=
  mkDiskState (sk_device k) (sk_limits k) (get_capacity k) (provisioning_mode k) true
    (unmap_alignment k) (unmap_granularity k) (physical_block_size k) (max_unmap_blocks k)
    (max_ws_blocks k) (ws16 k) (medium_access_timed_out k) (max_medium_access_timeouts k).
Definition disk_base (b : scsi_device) (k : scsi_disk) : scsi_disk :=
  let d := sk_device k in
  sk_with_device (mkSdDev b (sector_size d) (last_sector_bug d) (writeable d) (use_16_for_rw d)
                    (use_10_for_rw d) (scsi_device_protection d) (no_write_same d)) k.
Definition disk_size (size : Z) (use16 : bool) (k : scsi_disk) : scsi_disk :=
  let d := sk_device k in
  sk_with_device (mkSdDev (sd_base d) size (last_sector_bug d) (writeable d) use16
                    (use_10_for_rw d) (scsi_device_protection d) (no_write_same d)) k.

(** ** Media *)

Definition set_media_not_present {D} (c : cap D) : cap D :=
  let b := sd_base (sk_device (cp_disk c)) in
  let c := if media_present c
           then cap_disk (disk_base (mkSdev (removable b) true (sdev_state b)) (cp_disk c)) c else c in
  if removable b then cap_capacity 0 (cap_media false c) else c.

Section Read.
Context {D : Type} `{ScsiLower D}.
Variable cfg : cap_config.

Definition media_not_present (sshdr : scsi_sense_hdr) : K (cap D) bool :=
  if negb (scsi_sense_valid sshdr) then mret false else
  if ((sense_key sshdr =? UNIT_ATTENTION) || (sense_key sshdr =? NOT_READY)) && (asc sshdr =? 0x3A)
  then kmod set_media_not_present;; mret true
  else mret false.

(** The result only goes to the kernel log. *)
Definition read_capacity_error (sshdr : scsi_sense_hdr) (sense_valid : bool) (the_result : Z)
    : K (cap D) unit :=
  kmod (fun c => if removable (sd_base (sk_device (cp_disk c))) && sense_valid
                    && (sense_key sshdr =? NOT_READY)
                 then set_media_not_present c else c);;
  kmod (cap_capacity 0).

Definition SD_TIMEOUT : Z := 30 * HZ.
Definition RC16_LEN : Z := 32.
Definition READ_CAPACITY_RETRIES_ON_RESET : Z := 10.

Inductive rc_outcome :=
  | RcNoMedia
  | RcUnsupported
  | RcReply (the_result : Z) (sshdr : scsi_sense_hdr) (sense_valid : bool) (buffer : bytes).

(** The [do .. while (the_result && retries)] of both functions; a [continue]
    goes to the condition.  [rc16] says whether an unsupported command ends it. *)
Fixpoint rc_loop (fuel : nat) (rc16 : bool) (cmd : bytes) (len retries reset_retries : Z)
    (sense_valid : bool) : K (cap D) rc_outcome :=
  match fuel with
  | O => kfail Hang
  | S f =>
      c ← kget;
      let '(d', (the_result, sshdr, buffer)) :=
        scsi_execute_req (cp_dev c) cmd DMA_FROM_DEVICE (fill len Byte.x00) SD_TIMEOUT SD_MAX_RETRIES in
      kmod (cap_dev d');;
      gone ← media_not_present sshdr;
      if (gone : bool) then mret RcNoMedia else
      let failed := negb (the_result =? 0) in
      let sense_valid := if failed then scsi_sense_valid sshdr else sense_valid in
      if rc16 && failed && sense_valid && (sense_key sshdr =? ILLEGAL_REQUEST)
         && ((asc sshdr =? 0x20) || (asc sshdr =? 0x24)) && (ascq sshdr =? 0x00)
      then mret RcUnsupported else
      let reset := failed && sense_valid && (sense_key sshdr =? UNIT_ATTENTION)
                   && (asc sshdr =? 0x29) && (ascq sshdr =? 0x00) in
      let reset_retries := if reset then reset_retries - 1 else reset_retries in
      let retries := if reset && (0 <? reset_retries) then retries else retries - 1 in
      if failed && negb (retries =? 0)
      then rc_loop f rc16 cmd len retries reset_retries sense_valid
      else mret (RcReply the_result sshdr sense_valid buffer)
  end.

(** Every turn lowers [retries] or [reset_retries]. *)
Definition rc_fuel : nat := 13.

(** [u8] arithmetic of the reply. *)
Definition sd_read_protection_type (buffer : bytes) : K (cap D) Z :=
  c ← kget;
  let b12 := cdb_byte buffer 12 in
  if negb (scsi_device_protection (sk_device (cp_disk c))) || (Z.land b12 1 =? 0) then mret 0 else
  let type := Z.land (Z.shiftr b12 1) 7 + 1 in
  let ret := if SD_DIF_TYPE3_PROTECTION <? type then - ENODEV
             else if scsi_host_dif_capable cfg type then 1 else 0 in
  kmod (cap_protection type);;
  mret ret.

Definition rc16_cmd : bytes :=
  put [(0%nat, SERVICE_ACTION_IN); (1%nat, SAI_READ_CAPACITY_16); (13%nat, RC16_LEN)] (fill 16 Byte.x00).

Definition read_capacity_16 : K (cap D) Z :=
  if no_read_capacity_16 cfg then mret (- EINVAL) else
  o ← rc_loop rc_fuel true rc16_cmd RC16_LEN 3 READ_CAPACITY_RETRIES_ON_RESET false;
  match o with
  | RcNoMedia => mret (- ENODEV)
  | RcUnsupported => mret (- EINVAL)
  | RcReply the_result sshdr sense_valid buffer =>
      if negb (the_result =? 0) then
        read_capacity_error sshdr sense_valid the_result;; mret (- EINVAL)
      else
      let size := get_be32 buffer 8 in
      let lba := get_be64 buffer 0 in
      p ← sd_read_protection_type buffer;
      if p <? 0 then kmod (cap_capacity 0);; mret (- ENODEV) else
      let b13 := cdb_byte buffer 13 in
      let b14 := cdb_byte buffer 14 in
      let b15 := cdb_byte buffer 15 in
      kmod (fun c => cap_disk (disk_physical (u32 (Z.shiftl 1 (Z.land b13 0xf) * size)) (cp_disk c)) c);;
      kmod (cap_alignment (u32 (Z.lor (Z.shiftl (Z.land b14 0x3f) 8) b15 * size)));;
      (if negb (Z.land b14 0x80 =? 0) then
         kmod cap_lbpme;;
         (if negb (Z.land b14 0x40 =? 0) then kmod (fun c => cap_disk (disk_lbprz (cp_disk c)) c)
          else mret tt);;
         kmod (fun c => cap_disk (sd_config_discard (cp_disk c) SD_LBP_WS16) c)
       else mret tt);;
      kmod (cap_capacity (u64 (lba + 1)));;
      mret (s32 size)
  end.

Definition rc10_cmd : bytes := put [(0%nat, READ_CAPACITY)] (fill 10 Byte.x00).

Definition read_capacity_10 : K (cap D) Z :=
  o ← rc_loop rc_fuel false rc10_cmd 8 3 READ_CAPACITY_RETRIES_ON_RESET false;
  match o with
  | RcNoMedia => mret (- ENODEV)
  | RcUnsupported => mret (- EINVAL)    (* not for this command *)
  | RcReply the_result sshdr sense_valid buffer =>
      if negb (the_result =? 0) then
        read_capacity_error sshdr sense_valid the_result;; mret (- EINVAL)
      else
      let size := get_be32 buffer 4 in
      let lba := get_be32 buffer 0 in
      let capacity := if no_read_capacity_16 cfg && (lba =? 0xffffffff) then 0 else lba + 1 in
      kmod (cap_capacity capacity);;
      kmod (fun c => cap_disk (disk_physical size (cp_disk c)) c);;
      mret (s32 size)
  end.

Definition SCSI_SPC_2 : Z := 4.

Definition sd_try_rc16_first (protection : bool) : bool :=
  if max_cmd_len cfg <? 16 then false else
  if try_rc_10_first cfg then false else
  if SCSI_SPC_2 <? scsi_level cfg then true else protection.

(** The commands: the block size reported, [None] when the capacity stays as the
    failed command left it, and whether the count may need fixing. *)
Definition sd_ask_capacity : K (cap D) (option (Z * bool)) :=
  c ← kget;
  if sd_try_rc16_first (scsi_device_protection (sk_device (cp_disk c))) then
    size ← read_capacity_16;
    if size =? - ENODEV then mret None else
    size ← (if size <? 0 then read_capacity_10 else mret size);
    if size <? 0 then mret None else mret (Some (size, true))
  else
    size ← read_capacity_10;
    if size <? 0 then mret None else
    c ← kget;
    if 0xffffffff <? sd_capacity c then
      size' ← read_capacity_16;
      if size' <? 0 then kmod (cap_capacity (1 + 0xffffffff));; mret (Some (size, false))
      else mret (Some (size', true))
    else mret (Some (size, true)).

Definition sd_adjust_capacity (capacity : Z) : Z :=
  if fix_capacity cfg || (guess_capacity cfg && negb (Z.land capacity 0x01 =? 0))
  then u64 (capacity - 1) else capacity.

(** [got_data]: the block size in use and the capacity in blocks of it. *)
Definition sd_block_size (size capacity : Z) : Z * Z :=
  let size := if size =? 0 then 512 else size in
  if bool_decide (size ∈ [512; 1024; 2048; 4096; 256]) then (size, capacity) else (512, 0).

(** Rescale to 512-byte units. *)
Definition sd_rescale (size capacity : Z) : Z :=
  if size =? 4096 then u64 (Z.shiftl capacity 3)
  else if size =? 2048 then u64 (Z.shiftl capacity 2)
  else if size =? 1024 then u64 (Z.shiftl capacity 1)
  else if size =? 256 then Z.shiftr capacity 1
  else capacity.

(** The swap driver's share is taken off when the disk is new or has another
    capacity than before. *)
Definition sd_reserve (scan : bool) (old capacity : Z) : Z :=
  if scan || negb (old =? capacity) then
    let reserved := scsi_get_reserve_sectors_for_swap (cfg_host cfg) in
    if negb (reserved =? 0) && (reserved <? capacity) then capacity - reserved else capacity
  else capacity.

Definition sd_read_capacity : K (cap D) unit :=
  c ← kget;
  let old_capacity := sd_capacity c in
  o ← sd_ask_capacity;
  match o with
  | None => mret tt
  | Some (size, adjust) =>
      kmod (fun c => if (adjust : bool) then cap_capacity (sd_adjust_capacity (sd_capacity c)) c else c);;
      c ← kget;
      let '(size, capacity) := sd_block_size size (sd_capacity c) in
      let use16 := 0xffffffff <? capacity in
      let capacity := sd_rescale size capacity in
      kmod (cap_capacity (sd_reserve (first_scan c) old_capacity capacity));;
      kmod (fun c => cap_queue size (physical_block_size (cp_disk c)) c);;
      kmod (fun c => cap_disk (disk_size size use16 (cp_disk c)) c)
  end.
End Read.

(** ** The commands always come to an end *)

Lemma lor_lt n a b : 0 <= n -> 0 <= a < 2 ^ n -> 0 <= b < 2 ^ n -> 0 <= Z.lor a b < 2 ^ n.
Proof.
  intros Hn Ha Hb. rewrite <- (Z.mod_small a (2 ^ n)), <- (Z.mod_small b (2 ^ n)) by lia.
  rewrite <- !Z.land_ones, <- Z.land_lor_distr_l, Z.land_ones by lia. apply Z.mod_pos_bound. lia.
Qed.

Lemma shl_lt x sh n : 0 <= sh -> sh <= n -> 0 <= x < 2 ^ (n - sh) -> 0 <= Z.shiftl x sh < 2 ^ n.
Proof.
  intros Hs Hn Hx. rewrite Z.shiftl_mul_pow2 by lia.
  replace (2 ^ n) with (2 ^ (n - sh) * 2 ^ sh) by (rewrite <- Z.pow_add_r by lia; f_equal; lia). nia.
Qed.

Lemma get_be32_range b i : 0 <= get_be32 b i < 2 ^ 32.
Proof.
  unfold get_be32, be32. assert (forall j sh, 0 <= sh <= 24 -> 0 <= Z.shiftl (cdb_byte b j) sh < 2 ^ 32) as Hb.
  { intros j sh Hsh. apply shl_lt; [lia|lia|]. unfold cdb_byte.
    pose proof (byte.unsigned_range (default Byte.x00 (b !! j))).
    assert (2 ^ 8 <= 2 ^ (32 - sh)) by (apply Z.pow_le_mono_r; lia). lia. }
  rewrite <- (Z.shiftl_0_r (cdb_byte b (i + 3))).
  repeat apply lor_lt; try lia; apply Hb; lia.
Qed.

(** The capacity is a [sector_t]. *)
Definition cap_ok {D} (c : cap D) : Prop := 0 <= sd_capacity c < 2 ^ 64.

Definition same_device {D} (c c' : cap D) : Prop :=
  sector_size (sk_device (cp_disk c')) = sector_size (sk_device (cp_disk c)) /\
  use_16_for_rw (sk_device (cp_disk c')) = use_16_for_rw (sk_device (cp_disk c)).

(** What every function below keeps. *)
Definition keeps {D} (c c' : cap D) : Prop := cap_ok c' /\ same_device c c'.

Section Total.
Context {D : Type} `{ScsiLower D}.
Variable cfg : cap_config.
Implicit Types c : cap D.

Lemma keeps_trans c1 c2 c3 : keeps c1 c2 -> keeps c2 c3 -> keeps c1 c3.
Proof. intros [_ [E1 E2]] [? [E3 E4]]. split; [done|]. split; congruence. Qed.

Lemma keeps_media c : cap_ok c -> keeps c (set_media_not_present c).
Proof.
  intros Hc. unfold keeps, cap_ok, set_media_not_present in *.
  destruct (media_present c), (removable _); split; done || (cbn; lia).
Qed.

Lemma wp_media_not_present sshdr c :
  cap_ok c -> wp (media_not_present sshdr) (fun _ c' => keeps c c') c.
Proof.
  intros Hc. unfold media_not_present. destruct (negb _); [by kstep|].
  destruct (_ && _); [do 3 kstep; by apply keeps_media|by kstep].
Qed.

Lemma wp_rc_loop fuel rc16 cmd len retries resets valid c :
  cap_ok c -> 0 < retries -> retries + Z.max 0 resets <= Z.of_nat fuel ->
  wp (rc_loop fuel rc16 cmd len retries resets valid) (fun _ c' => keeps c c') c.
Proof.
  revert retries resets valid c.
  induction fuel as [|f IH]; intros retries resets valid c Hc Hr Hf; [lia|].
  cbn [rc_loop]. do 2 kstep.
  destruct (scsi_execute_req _ _ _ _ _ _) as [d' [[res sshdr] buf]]. do 3 kstep.
  eapply wp_mono; [by apply wp_media_not_present|]. cbv beta. intros gone c' Hk.
  assert (keeps c c') as Hk1 by exact Hk. destruct gone; [by kstep|].
  destruct (rc16 && _ && _ && _ && _ && _); [by kstep|]. set (reset := _ && (ascq sshdr =? 0)).
  destruct (_ && negb (_ =? 0)) eqn:E; [|by kstep]. apply andb_prop in E as [_ E].
  eapply wp_mono with (P := fun _ c2 => keeps c' c2); [|intros ? ?; by apply keeps_trans].
  destruct Hk1 as [Hk1 _].
  revert E. destruct reset; cbn [andb]; cbv iota; [destruct (Z.ltb_spec 0 (resets - 1))|];
    intros E; apply IH; done || lia.
Qed.

Lemma wp_read_capacity_error sshdr valid res c :
  cap_ok c -> wp (read_capacity_error sshdr valid res) (fun _ c' => keeps c c') c.
Proof.
  intros Hc. unfold read_capacity_error. do 3 kstep.
  destruct (_ && _); [|by split].
  destruct (keeps_media c Hc) as [_ Hs]. by split.
Qed.

Lemma wp_protection_type buf c :
  cap_ok c -> wp (sd_read_protection_type cfg buf) (fun _ c' => keeps c c') c.
Proof.
  intros Hc. unfold sd_read_protection_type. do 2 kstep. destruct (_ || _); [by kstep|]. by do 3 kstep.
Qed.

Lemma wp_rc_16 c : cap_ok c -> wp (read_capacity_16 cfg) (fun _ c' => keeps c c') c.
Proof.
  intros Hc. unfold read_capacity_16. destruct (no_read_capacity_16 cfg); [by kstep|]. kstep.
  eapply wp_mono; [by apply wp_rc_loop|]. cbv beta. intros [| |res sshdr valid buf] c' Hk; [by kstep..|].
  destruct (negb _).
  { kstep. eapply wp_mono; [apply wp_read_capacity_error; by destruct Hk|]. intros ? c1 Hk1. kstep.
    by eapply keeps_trans. }
  kstep. eapply wp_mono; [apply wp_protection_type; by destruct Hk|]. cbv beta. intros p c1 Hk1.
  pose proof (keeps_trans _ _ _ Hk Hk1) as [Hc1 Hs1].
  destruct (p <? 0); [by do 3 kstep|]. do 5 kstep.
  eapply wp_mono with (P := fun _ c2 => same_device c c2).
  { destruct (negb _); [|by kstep]. do 3 kstep. destruct (negb _); by repeat kstep. }
  cbv beta. intros _ c2 Hs2. do 3 kstep. split; [|done]. apply Z.mod_pos_bound. lia.
Qed.

Lemma wp_rc_10 c : cap_ok c -> wp (read_capacity_10 cfg) (fun _ c' => keeps c c') c.
Proof.
  intros Hc. unfold read_capacity_10. kstep.
  eapply wp_mono; [by apply wp_rc_loop|]. cbv beta. intros [| |res sshdr valid buf] c' Hk; [by kstep..|].
  destruct (negb _).
  { kstep. eapply wp_mono; [apply wp_read_capacity_error; by destruct Hk|]. intros ? c1 Hk1. kstep.
    by eapply keeps_trans. }
  do 5 kstep. destruct Hk as [_ Hs]. split; [|done]. unfold cap_ok. cbn [cap_disk cap_capacity sd_capacity].
  pose proof (get_be32_range buf 0). destruct (_ && _); lia.
Qed.

Lemma wp_ask c : cap_ok c -> wp (sd_ask_capacity cfg) (fun _ c' => keeps c c') c.
Proof.
  intros Hc. unfold sd_ask_capacity. do 2 kstep. destruct (sd_try_rc16_first _ _).
  - kstep. eapply wp_mono; [by apply wp_rc_16|]. intros size c1 Hk1. destruct (size =? _); [by kstep|].
    kstep. eapply wp_mono with (P := fun _ c2 => keeps c c2).
    { destruct (size <? 0); [|by kstep]. eapply wp_mono; [apply wp_rc_10; by destruct Hk1|].
      intros ? ?. by apply keeps_trans. }
    intros size' c2 Hk2. destruct (size' <? 0); by kstep.
  - kstep. eapply wp_mono; [by apply wp_rc_10|]. intros size c1 Hk1. destruct (size <? 0); [by kstep|].
    do 2 kstep. destruct (_ <? _); [|by kstep]. kstep.
    eapply wp_mono; [apply wp_rc_16; by destruct Hk1|]. intros size' c2 Hk2.
    pose proof (keeps_trans _ _ _ Hk1 Hk2) as Hk. destruct (size' <? 0); repeat kstep; [|done].
    by destruct Hk.
Qed.
End Total.

(** ** Results *)

(** [set_capacity(disk, sdkp->capacity)] of [sd_revalidate_disk]. *)
Definition set_capacity (z : Z) (k : scsi_disk) : scsi_disk :=
  mkDiskState (sk_device k) (sk_limits k) z (provisioning_mode k) (lbprz k) (unmap_alignment k)
    (unmap_granularity k) (physical_block_size k) (max_unmap_blocks k) (max_ws_blocks k) (ws16 k)
    (medium_access_timed_out k) (max_medium_access_timeouts k).

Lemma block_size_range size capacity :
  0 <= capacity < 2 ^ 64 ->
  let '(s, n) := sd_block_size size capacity in
  (s = 256 \/ s ∈ sector_sizes) /\ 0 <= n < 2 ^ 64.
Proof.
  intros Hc. unfold sd_block_size. set (s := if size =? 0 then 512 else size).
  destruct (bool_decide_reflect (s ∈ [512; 1024; 2048; 4096; 256])) as [Hin|]; [|split; [right; left|lia]].
  split; [|done]. unfold sector_sizes. rewrite !elem_of_cons in *. tauto.
Qed.

(** In units of 512 bytes, the capacity is whole blocks. *)
Lemma rescale_spec s n :
  s ∈ sector_sizes -> 0 <= n < 2 ^ 64 ->
  0 <= sd_rescale s n < 2 ^ 64 /\ sd_rescale s n mod (s / 512) = 0 /\
  (n < 2 ^ 32 -> sd_rescale s n = s / 512 * n).
Proof.
  intros Hs Hn. unfold sector_sizes in Hs. rewrite !elem_of_cons in Hs.
  assert (forall k, 1 <= k <= 3 -> 0 <= u64 (Z.shiftl n k) < 2 ^ 64 /\ u64 (Z.shiftl n k) mod 2 ^ k = 0 /\
            (n < 2 ^ 32 -> u64 (Z.shiftl n k) = 2 ^ k * n)) as Hk.
  { intros k Hk. rewrite Z.shiftl_mul_pow2 by lia. unfold u64. split; [apply Z.mod_pos_bound; lia|].
    assert (2 ^ k <= 2 ^ 3) by (apply Z.pow_le_mono_r; lia). split.
    - replace (2 ^ 64) with (2 ^ k * 2 ^ (64 - k)) by (rewrite <- Z.pow_add_r by lia; f_equal; lia).
      rewrite (Z.mul_comm n), Zmult_mod_distr_l, Z.mul_comm. apply Z.mod_mul. lia.
    - intros Hn2. rewrite Z.mul_comm. apply Z.mod_small. nia. }
  destruct Hs as [->|[->|[->|[->|Hs]]]]; [| | | |by apply not_elem_of_nil in Hs].
  - change (sd_rescale 512 n) with n. change (512 / 512) with 1. rewrite Z.mod_1_r. lia.
  - apply (Hk 1). lia.
  - apply (Hk 2). lia.
  - apply (Hk 3). lia.
Qed.

Lemma reserve_cases host :
  scsi_get_reserve_sectors_for_swap host = 0 \/ scsi_get_reserve_sectors_for_swap host = MAX_RESERVED_SECTOR.
Proof. unfold scsi_get_reserve_sectors_for_swap. destruct (scsi_device_can_swap host); auto. Qed.

Lemma sd_reserve_spec cfg scan old f n :
  (f | 8) -> 0 < f -> 0 <= n < 2 ^ 64 -> n mod f = 0 ->
  0 <= sd_reserve cfg scan old n <= n /\ sd_reserve cfg scan old n mod f = 0.
Proof.
  intros Hd Hf Hn Hm. assert (0 <= n <= n /\ n mod f = 0) as Hsame by (split; [lia|done]).
  unfold sd_reserve. destruct (scan || _); [|done].
  destruct (reserve_cases (cfg_host cfg)) as [->| ->]; [done|].
  destruct (negb _ && _) eqn:E; [|done]. split; [unfold MAX_RESERVED_SECTOR, SECTOR_1M in *; lia|].
  rewrite Zminus_mod, Hm. rewrite (proj2 (Z.mod_divide MAX_RESERVED_SECTOR f ltac:(lia))); [done|].
  eapply Z.divide_trans; [exact Hd|]. by exists (MAX_RESERVED_SECTOR / 8).
Qed.

Lemma sizes_divide size : size ∈ sector_sizes -> (size / 512 | 8).
Proof.
  unfold sector_sizes. rewrite !elem_of_cons.
  intros [->|[->|[->|[->|Hin]]]]; [by exists 8|by exists 4|by exists 2|by exists 1|by apply not_elem_of_nil in Hin].
Qed.

Lemma wp_read_capacity {D} `{ScsiLower D} (cfg : cap_config) (c : cap D) :
  cap_ok c ->
  wp (sd_read_capacity cfg)
     (fun _ c' => cap_ok c' /\
        (same_device c c' \/ sector_size (sk_device (cp_disk c')) = 256 \/
         disk_ok (set_capacity (sd_capacity c') (cp_disk c')))) c.
Proof.
  intros Hc. unfold sd_read_capacity. do 3 kstep. eapply wp_mono; [by apply wp_ask|]. cbv beta.
  intros [[size adjust]|] c1 [Hc1 Hs1]; [|kstep; by auto].
  do 4 kstep. set (c2 := if adjust then _ else _).
  assert (cap_ok c2) as Hc2.
  { subst c2. destruct adjust; [|done]. unfold cap_ok, sd_adjust_capacity. cbn [cap_capacity sd_capacity].
    destruct (_ || _); [apply Z.mod_pos_bound; lia|exact Hc1]. }
  clearbody c2. pose proof (block_size_range size _ Hc2) as Hbs.
  destruct (sd_block_size size (sd_capacity c2)) as [s n]. destruct Hbs as [Hs Hn]. do 5 kstep.
  cbn [cap_disk cap_queue cap_capacity sd_capacity cp_disk disk_size sk_with_device sk_device sector_size].
  destruct Hs as [->|Hs].
  - split; [|by right; left]. cbn [sd_rescale Z.eqb Pos.eqb].
    assert (0 <= Z.shiftr n 1 < 2 ^ 64) as Hn1.
    { rewrite Z.shiftr_div_pow2 by lia. split; [apply Z.div_pos; lia|apply Z.div_lt_upper_bound; lia]. }
    destruct (sd_reserve_spec cfg (first_scan c2) (sd_capacity c) 1 (Z.shiftr n 1)) as [? _];
      [by exists 8|lia|exact Hn1|apply Z.mod_1_r|]. unfold cap_ok. cbn. lia.
  - destruct (rescale_spec s n Hs Hn) as (Hr & Hrm & Hsmall). pose proof (sizes_factor _ Hs).
    destruct (sd_reserve_spec cfg (first_scan c2) (sd_capacity c) (s / 512) (sd_rescale s n)) as [Hle Hm];
      [by apply sizes_divide|lia|done|done|].
    split; [unfold cap_ok; cbn; lia|]. right. right.
    split; cbn [set_capacity sk_device sector_size get_capacity use_16_for_rw]; [done|lia|done|].
    intros H16%Z.ltb_ge. specialize (Hsmall ltac:(lia)).
    eapply Z.le_trans; [apply Hle|]. rewrite Hsmall. apply Z.mul_le_mono_nonneg_l; cbn; lia.
Qed.

(** [sd_read_capacity] returns for every device, whatever it answers, resets
    included.  When it sets a block size of at least 512 bytes, the capacity is a
    whole number of blocks and the sixteen byte CDBs are switched on whenever a
    block number needs more than 32 bits: the disk is one whose commands
    [sd_prep_fn] builds correctly ([disk_ok]). *)
Theorem sd_read_capacity_sets_up {D} `{ScsiLower D} (cfg : cap_config) (c : cap D) :
  cap_ok c ->
  wp (sd_read_capacity cfg)
     (fun _ c' => cap_ok c' /\
        (same_device c c' \/ sector_size (sk_device (cp_disk c')) = 256 \/
         disk_ok (set_capacity (sd_capacity c') (cp_disk c')))) c.
Proof. apply wp_read_capacity. Qed.

(** ** A concrete device *)

(** It answers every command with success and the same bytes. *)
Definition rc_device : Type := bytes.
#[global] Instance rc_lower : ScsiLower rc_device := {|
  HZ := 100;
  scsi_execute := fun d _ _ _ _ _ => (d, mkReply 0 [] d);
  scsi_execute_req := fun d _ _ _ _ _ => (d, (0, no_sense_hdr, d));
  scsi_normalize_sense := fun _ => no_sense_hdr;
  scsi_sense_valid := fun h => negb (response_code h =? 0)
|}.

(** READ CAPACITY(10): last block [lba], 512-byte blocks. *)
Definition rc10_answer (lba : Z) : rc_device := put_be32 512 4 (put_be32 lba 0 (fill 8 Byte.x00)).

Definition demo_cfg : cap_config :=
  mkCfg false 12 false 5 false false (fun _ => false) (Some (Some (Some (nth 0 swap_filter_table [])))).
Definition demo_cap {D} (d : D) (old : Z) (scan : bool) : cap D :=
  mkCap d (demo_disk 512) old true scan false 0 0 512 512.

Lemma sd_read_capacity_sets_up_witness :
  exists c', sd_read_capacity demo_cfg (demo_cap (rc10_answer 0x3fffffff) 0 true) = Ok (tt, c') /\ cap_ok c'.
Proof.
  destruct (wp_inv _ _ _ (sd_read_capacity_sets_up demo_cfg (demo_cap (rc10_answer 0x3fffffff) 0 true)
    ltac:(unfold cap_ok; cbn; lia))) as ([] & c' & E & Hc & _).
  exists c'. split; [exact E|exact Hc].
Defined.

(** ** The reserve *)

(** A device that answers READ CAPACITY(10) with success, always in the same way. *)
Definition steady {D} `{ScsiLower D} (d : D) (lba size : Z) : Prop :=
  exists h buf, scsi_sense_valid h = false /\ get_be32 buf 0 = lba /\ get_be32 buf 4 = size /\
    forall t r, scsi_execute_req d rc10_cmd DMA_FROM_DEVICE (fill 8 Byte.x00) t r = (d, (0, h, buf)).

(** The same for READ CAPACITY(16); the protection type is one of the three. *)
Definition steady16 {D} `{ScsiLower D} (d : D) (lba size : Z) : Prop :=
  exists h buf, scsi_sense_valid h = false /\ get_be64 buf 0 = lba /\ get_be32 buf 8 = size /\
    (Z.land (cdb_byte buf 12) 1 = 0 \/ Z.land (Z.shiftr (cdb_byte buf 12) 1) 7 < 3) /\
    forall t r, scsi_execute_req d rc16_cmd DMA_FROM_DEVICE (fill RC16_LEN Byte.x00) t r = (d, (0, h, buf)).

(** When the sixteen byte command decides: the device is asked for it first, or
    the ten byte answer cannot hold the last block. *)
Definition asks_rc16 (cfg : cap_config) (protection : bool) (lba : Z) : bool :=
  negb (no_read_capacity_16 cfg) && (sd_try_rc16_first cfg protection || (0xffffffff <=? lba)).

(** A disk of [lba + 1] blocks of [size] bytes, as the commands report it; the ten
    byte command says 0xffffffff for what it cannot hold. *)
Record reports {D} `{ScsiLower D} (cfg : cap_config) (protection : bool) (d : D) (lba size : Z) : Prop := {
  rp_lba : 0 <= lba < 2 ^ 64 - 1;
  rp_size : size ∈ sector_sizes;
  rp_plain : no_read_capacity_16 cfg = true -> lba < 0xffffffff;
  rp_10 : sd_try_rc16_first cfg protection = false \/ no_read_capacity_16 cfg = true ->
          steady d (Z.min lba 0xffffffff) size;
  rp_16 : asks_rc16 cfg protection lba = true -> steady16 d lba size
}.

Section Reserve.
Context {D : Type} `{ScsiLower D}.
Variable cfg : cap_config.

Abbreviation prot c := (scsi_device_protection (sk_device (cp_disk c))).

(** The device and the scan as they were, [n] blocks found. *)
Definition found (c : cap D) (n : Z) (c' : cap D) : Prop :=
  cp_dev c' = cp_dev c /\ first_scan c' = first_scan c /\ prot c' = prot c /\ sd_capacity c' = n.

Lemma wp_rc_10_steady lba size (c : cap D) :
  steady (cp_dev c) lba size -> (no_read_capacity_16 cfg = true -> lba < 0xffffffff) ->
  wp (read_capacity_10 cfg) (fun r c' => r = s32 size /\ found c (lba + 1) c') c.
Proof.
  intros (h & buf & Hv & <- & <- & Hx) Hlt. unfold read_capacity_10. kstep.
  change rc_fuel with (S 12). generalize 12%nat. intros f. cbn [rc_loop]. do 2 kstep. rewrite Hx. do 3 kstep. unfold media_not_present. rewrite Hv. cbn [negb].
  kstep. cbn [Z.eqb negb andb]. kstep. cbn [Z.eqb negb].
  do 5 kstep. split; [done|]. split_and!; try done. cbn [cap_disk cap_capacity sd_capacity].
  destruct (no_read_capacity_16 cfg); [|done].
  specialize (Hlt eq_refl). cbn [andb]. by rewrite (proj2 (Z.eqb_neq _ _)) by lia.
Qed.

Lemma wp_protection_known buf (c : cap D) :
  Z.land (cdb_byte buf 12) 1 = 0 \/ Z.land (Z.shiftr (cdb_byte buf 12) 1) 7 < 3 ->
  wp (sd_read_protection_type cfg buf) (fun p c' => 0 <= p /\ found c (sd_capacity c) c') c.
Proof.
  intros Hp. unfold sd_read_protection_type. do 2 kstep. destruct (negb _ || _) eqn:E; [by kstep|].
  apply orb_false_elim in E as [_ E%Z.eqb_neq]. destruct Hp as [Hp|Hp]; [done|].
  rewrite (proj2 (Z.ltb_ge SD_DIF_TYPE3_PROTECTION _)) by (unfold SD_DIF_TYPE3_PROTECTION; lia).
  do 3 kstep. split; [by destruct (scsi_host_dif_capable _ _)|done].
Qed.

Lemma wp_rc_16_steady lba size (c : cap D) :
  steady16 (cp_dev c) lba size -> 0 <= lba < 2 ^ 64 - 1 -> no_read_capacity_16 cfg = false ->
  wp (read_capacity_16 cfg) (fun r c' => r = s32 size /\ found c (lba + 1) c') c.
Proof.
  intros (h & buf & Hv & <- & <- & Hp & Hx) Hlt Hno. unfold read_capacity_16. rewrite Hno. kstep.
  change rc_fuel with (S 12). generalize 12%nat. intros f. cbn [rc_loop]. do 2 kstep. rewrite Hx. do 3 kstep. unfold media_not_present. rewrite Hv. cbn [negb].
  kstep. cbn [Z.eqb negb andb]. kstep. cbn [Z.eqb negb]. kstep.
  eapply wp_mono; [by apply wp_protection_known|]. cbv beta. intros p c1 (Hp0 & Hd & Hs & Hpr & _).
  rewrite (proj2 (Z.ltb_ge p 0)) by lia. do 5 kstep.
  eapply wp_mono with (P := fun _ c2 => found c (sd_capacity c2) c2).
  { destruct (negb _); [|by kstep]. do 3 kstep. destruct (negb _); by repeat kstep. }
  cbv beta. intros _ c2 (Hd2 & Hs2 & Hp2 & _). do 3 kstep. split; [done|]. split_and!; try done.
  apply Z.mod_small. lia.
Qed.

Lemma wp_ask_reports lba size (c : cap D) :
  reports cfg (prot c) (cp_dev c) lba size ->
  wp (sd_ask_capacity cfg) (fun o c' => o = Some (size, true) /\ found c (lba + 1) c') c.
Proof.
  intros [Hlba Hsz Hno H10 H16].
  assert (s32 size = size /\ 0 < size) as [Es Hpos].
  { unfold sector_sizes in Hsz. rewrite !elem_of_cons in Hsz.
    destruct Hsz as [->|[->|[->|[->|Hsz]]]]; [done..|by apply not_elem_of_nil in Hsz]. }
  unfold asks_rc16 in H16. unfold sd_ask_capacity. do 2 kstep.
  destruct (sd_try_rc16_first cfg (prot c)) eqn:Et.
  - kstep. destruct (no_read_capacity_16 cfg) eqn:En.
    + unfold read_capacity_16. rewrite En. kstep. change (- EINVAL =? - ENODEV) with false. change (- EINVAL <? 0) with true. cbv iota.
      kstep. eapply wp_mono; [eapply wp_rc_10_steady; [by apply H10; right|lia]|].
      cbv beta. intros r c1 (-> & Hf). rewrite Es, (proj2 (Z.ltb_ge _ _)) by lia. kstep.
      split; [done|]. specialize (Hno eq_refl). by rewrite Z.min_l in Hf by lia.
    + eapply wp_mono; [eapply wp_rc_16_steady; [by apply H16|lia|done]|].
      cbv beta. intros r c1 (-> & Hf). rewrite Es, (proj2 (Z.eqb_neq _ _)), (proj2 (Z.ltb_ge _ _)) by (unfold ENODEV; lia).
      do 2 kstep. rewrite (proj2 (Z.ltb_ge _ _)) by lia. by kstep.
  - kstep. eapply wp_mono; [eapply wp_rc_10_steady; [by apply H10; left|]|].
    { intros E. specialize (Hno E). lia. }
    cbv beta. intros r c1 (-> & Hd & Hs & Hp & Hc). rewrite Es, (proj2 (Z.ltb_ge _ _)) by lia. do 2 kstep.
    rewrite Hc. destruct (Z.ltb_spec 0xffffffff (Z.min lba 0xffffffff + 1)).
    + assert (no_read_capacity_16 cfg = false) as En by (destruct (no_read_capacity_16 cfg); [specialize (Hno eq_refl); lia|done]).
      kstep. eapply wp_mono; [eapply wp_rc_16_steady; [rewrite Hd; apply H16|lia|done]|].
      { rewrite En. cbn. apply Z.leb_le. lia. }
      cbv beta. intros r c2 (-> & Hd2 & Hs2 & Hp2 & Hc2). rewrite Es, (proj2 (Z.ltb_ge _ _)) by lia. kstep.
      split; [done|]. split_and!; congruence.
    + kstep. split; [done|]. split_and!; try done. lia.
Qed.

(** The blocks that count: the last one is left out for a device that reports
    one too many. *)
Definition counted (lba : Z) : Z := sd_adjust_capacity cfg (lba + 1).

Lemma wp_read_capacity_reports lba size (c : cap D) :
  reports cfg (prot c) (cp_dev c) lba size ->
  wp (sd_read_capacity cfg)
     (fun _ c' => found c (sd_reserve cfg (first_scan c) (sd_capacity c) (sd_rescale size (counted lba))) c') c.
Proof.
  intros Hr. unfold sd_read_capacity. do 3 kstep. eapply wp_mono; [by eapply wp_ask_reports|].
  cbv beta. intros o c1 (-> & Hd & Hs & Hp & Hc). do 4 kstep. cbn [cap_capacity sd_capacity]. rewrite Hc.
  assert (sd_block_size size (sd_adjust_capacity cfg (lba + 1)) = (size, counted lba)) as ->.
  { destruct Hr as [_ Hsz _ _ _]. unfold sector_sizes in Hsz. rewrite !elem_of_cons in Hsz.
    destruct Hsz as [->|[->|[->|[->|Hsz]]]]; [done..|by apply not_elem_of_nil in Hsz]. }
  do 5 kstep. split_and!; try done. cbn. by rewrite Hs.
Qed.

Lemma counted_spec lba :
  0 <= lba < 2 ^ 64 - 1 ->
  counted lba = if fix_capacity cfg || (guess_capacity cfg && negb (Z.land (lba + 1) 1 =? 0)) then lba else lba + 1.
Proof.
  intros Hl. unfold counted, sd_adjust_capacity. destruct (_ || _); [|done].
  unfold u64. rewrite Z.mod_small; lia.
Qed.
End Reserve.

(** A rescan: [sd_read_capacity], then the end of the first scan, then again. *)
Definition end_scan {D} (c : cap D) : cap D :=
  mkCap (cp_dev c) (cp_disk c) (sd_capacity c) (media_present c) false (lbpme c) (protection_type c)
    (alignment_offset c) (queue_logical_block_size c) (queue_physical_block_size c).

Lemma reserve_first cfg old n :
  scsi_device_can_swap (cfg_host cfg) = true -> MAX_RESERVED_SECTOR < n ->
  sd_reserve cfg true old n = n - MAX_RESERVED_SECTOR.
Proof.
  intros Hcan Hn. unfold sd_reserve, scsi_get_reserve_sectors_for_swap. rewrite Hcan. cbn [orb].
  by rewrite (proj2 (Z.ltb_lt _ _)) by lia.
Qed.

Lemma reserve_again cfg scan n :
  scsi_device_can_swap (cfg_host cfg) = true -> MAX_RESERVED_SECTOR < n ->
  sd_reserve cfg scan (n - MAX_RESERVED_SECTOR) n = n - MAX_RESERVED_SECTOR.
Proof.
  intros Hcan Hn. unfold sd_reserve, scsi_get_reserve_sectors_for_swap. rewrite Hcan.
  assert (0 < MAX_RESERVED_SECTOR) by done. rewrite (proj2 (Z.eqb_neq (n - _) n)), orb_true_r by lia.
  by rewrite (proj2 (Z.ltb_lt _ _)) by lia.
Qed.

(** The size in sectors, below what a [sector_t] holds. *)
Lemma rescale_exact size n :
  size ∈ sector_sizes -> 0 <= n -> size / 512 * n < 2 ^ 64 -> sd_rescale size n = size / 512 * n.
Proof.
  intros Hs Hn Hlt. unfold sector_sizes in Hs. rewrite !elem_of_cons in Hs.
  assert (forall k, 0 <= k -> 2 ^ k * n < 2 ^ 64 -> u64 (Z.shiftl n k) = 2 ^ k * n) as Hk.
  { intros k Hk H2. rewrite Z.shiftl_mul_pow2, Z.mul_comm by lia. apply Z.mod_small. nia. }
  destruct Hs as [->|[->|[->|[->|Hs]]]]; [| | | |by apply not_elem_of_nil in Hs].
  - change (sd_rescale 512 n) with n. change (512 / 512) with 1. lia.
  - by apply (Hk 1).
  - by apply (Hk 2).
  - by apply (Hk 3).
Qed.

(** C20: take a disk whose host the filter of the swap driver accepts, found for the
    first time ([first_scan]) and reporting [lba + 1] blocks of 512, 1024, 2048 or
    4096 bytes, where every READ CAPACITY command that is sent, the ten or the
    sixteen byte one, succeeds and always answers the same ([reports]), the sixteen byte
    one with protection off or of a type from 1 to 3; when the sixteen byte command is
    not allowed, the last block fits the ten byte answer.
    The disk, less its last block for a device known (or guessed) to report one too
    many, has more sectors than the reserve and fewer than 2^64.  Then the user's
    capacity and the reserve add up to the disk, so the reserved area
    [scsi_swap_init] is given lies on the disk right behind the user's area; and
    reading the capacity a second time after the first scan, as [sd_probe_async]
    does, does not take the reserve off twice.  It says nothing of a disk whose size
    changes between the two: see [reserve_lost_on_equal_capacity]. *)
Theorem capacity_keeps_reserve {D} `{ScsiLower D} (cfg : cap_config) (c : cap D) (lba size : Z) :
  reports cfg (scsi_device_protection (sk_device (cp_disk c))) (cp_dev c) lba size ->
  let blocks := if fix_capacity cfg || (guess_capacity cfg && negb (Z.land (lba + 1) 1 =? 0)) then lba else lba + 1 in
  MAX_RESERVED_SECTOR < size / 512 * blocks < 2 ^ 64 ->
  first_scan c = true -> scsi_device_can_swap (cfg_host cfg) = true ->
  wp (sd_read_capacity cfg;; kmod end_scan;; c1 ← kget; sd_read_capacity cfg;; mret (sd_capacity c1))
     (fun first c' => first + MAX_RESERVED_SECTOR = size / 512 * blocks /\ sd_capacity c' = first) c.
Proof.
  intros Hrep blocks Hb Hscan Hcan. pose proof (counted_spec cfg lba (rp_lba _ _ _ _ _ Hrep)) as Eb. fold blocks in Eb.
  assert (sd_rescale size (counted cfg lba) = size / 512 * blocks) as Er.
  { rewrite Eb. apply rescale_exact; [apply Hrep| |lia]. destruct Hrep as [? _ _ _ _]. subst blocks. destruct (_ || _); lia. }
  kstep. eapply wp_mono; [by eapply wp_read_capacity_reports|]. cbv beta. intros _ c1 (Hd & Hs & Hp & Hc).
  rewrite Er, Hscan, reserve_first in Hc by (done || lia).
  do 5 kstep. eapply wp_mono; [eapply (wp_read_capacity_reports cfg lba size (end_scan c1)); cbn; by rewrite Hd, Hp|].
  cbv beta. intros _ c2 (_ & _ & _ & Hc2). kstep. cbn [end_scan sd_capacity] in *.
  rewrite Er, Hc, reserve_again in Hc2 by (done || lia). split; [lia|]. by rewrite Hc2.
Qed.

Lemma steady_answer lba : 0 <= lba < 2 ^ 32 -> steady (rc10_answer lba) lba 512.
Proof.
  intros Hl. exists no_sense_hdr, (rc10_answer lba). split; [done|].
  assert (rc10_answer lba = map (fun sh => byte.of_Z (sh8 lba sh)) [24; 16; 8; 0] ++
            [Byte.x00; Byte.x00; Byte.x02; Byte.x00]) as E by reflexivity.
  split_and!; [|by rewrite E|done]. rewrite E. unfold get_be32. cdb_bytes. rewrite join32. by apply Z.mod_small.
Qed.

Lemma rc10_reports lba : 0 <= lba < 0xffffffff -> reports demo_cfg false (rc10_answer lba) lba 512.
Proof.
  intros Hl. constructor; [lia|left|lia| |].
  - intros _. rewrite Z.min_l by lia. apply steady_answer. lia.
  - unfold asks_rc16. cbn [demo_cfg no_read_capacity_16 negb andb sd_try_rc16_first max_cmd_len Z.ltb Z.compare orb].
    change (sd_try_rc16_first demo_cfg false) with false. cbn [orb]. intros ?%Z.leb_le. lia.
Qed.

(** A device with blocks of 4096 bytes that takes the sixteen byte command: READ
    CAPACITY(16) tells the last block, 2^33 - 1, and protection is off. *)
Definition rc16_answer : rc_device := put_be32 4096 8 (put_be32 0xffffffff 4 (put_be32 1 0 (fill 32 Byte.x00))).
Definition large_cfg : cap_config :=
  mkCfg false 16 false 5 false true (fun _ => false) (cfg_host demo_cfg).

Lemma large_reports : reports large_cfg false rc16_answer 0x1ffffffff 4096.
Proof.
  constructor; [lia|by vm_compute; do 3 right; left|done|by intros [?|?]|].
  intros _. exists no_sense_hdr, rc16_answer. split_and!; [reflexivity..|by left|reflexivity].
Qed.

Lemma capacity_keeps_reserve_witness :
  (exists first c', (sd_read_capacity demo_cfg;; kmod end_scan;; c1 ← kget;
      sd_read_capacity demo_cfg;; mret (sd_capacity c1)) (demo_cap (rc10_answer 0x3fffffff) 0 true)
      = Ok (first, c') /\ first + MAX_RESERVED_SECTOR = 0x3fffffff + 1 /\ sd_capacity c' = first) /\
  (exists first c', (sd_read_capacity large_cfg;; kmod end_scan;; c1 ← kget;
      sd_read_capacity large_cfg;; mret (sd_capacity c1)) (demo_cap rc16_answer 0 true)
      = Ok (first, c') /\ first + MAX_RESERVED_SECTOR = 8 * 2 ^ 33 /\ sd_capacity c' = first).
Proof.
  split.
  - destruct (wp_inv _ _ _ (capacity_keeps_reserve demo_cfg (demo_cap (rc10_answer 0x3fffffff) 0 true) 0x3fffffff 512
      (rc10_reports 0x3fffffff ltac:(lia)) ltac:(vm_compute; split; congruence) eq_refl eq_refl)) as (first & c' & E & H1 & H2).
    exists first, c'. split; [exact E|]. split; [exact H1|exact H2].
  - destruct (wp_inv _ _ _ (capacity_keeps_reserve large_cfg (demo_cap rc16_answer 0 true) 0x1ffffffff 4096
      large_reports ltac:(vm_compute; split; congruence) eq_refl eq_refl)) as (first & c' & E & H1 & H2).
    exists first, c'. split; [exact E|]. split; [exact H1|exact H2].
Defined.

(** the reserve is lost when the disk is found again with exactly the capacity
    the user had before: the code takes this for an unchanged disk, and the swap
    area then starts behind the last block. *)
Theorem reserve_lost_on_equal_capacity {D} `{ScsiLower D} (cfg : cap_config) (c : cap D) (lba size : Z) :
  reports cfg (scsi_device_protection (sk_device (cp_disk c))) (cp_dev c) lba size ->
  first_scan c = false -> sd_capacity c = sd_rescale size (counted cfg lba) ->
  wp (sd_read_capacity cfg) (fun _ c' => sd_capacity c' = sd_rescale size (counted cfg lba)) c.
Proof.
  intros Hrep Hscan Hold. eapply wp_mono; [by eapply wp_read_capacity_reports|]. cbv beta.
  intros _ c' (_ & _ & _ & ->). unfold sd_reserve. by rewrite Hscan, Hold, Z.eqb_refl.
Qed.

Lemma reserve_lost_on_equal_capacity_witness :
  exists c', sd_read_capacity demo_cfg (demo_cap (rc10_answer 0x3fffffff) (0x3fffffff + 1) false) = Ok (tt, c') /\
             sd_capacity c' = 0x3fffffff + 1.
Proof.
  destruct (wp_inv _ _ _ (reserve_lost_on_equal_capacity demo_cfg
    (demo_cap (rc10_answer 0x3fffffff) (0x3fffffff + 1) false) 0x3fffffff 512
    (rc10_reports 0x3fffffff ltac:(lia)) eq_refl eq_refl)) as ([] & c' & E & Hc).
  exists c'. split; [exact E|exact Hc].
Defined.
