(* ===== verification/SdPm.v ===== *)
(** * drivers/scsi/sd.c: opening, spinning up, events, suspend and shutdown

    The functions of the disk driver that send short commands and hold references:
    [sd_open], [sd_release], [sd_spinup_disk], [sd_check_events], [sd_sync_cache],
    [sd_start_stop_device], [sd_shutdown], [sd_suspend] and [sd_resume].  The state
    keeps the commands sent, the time, and every count the functions raise and
    lower.  Results: spinning up ends for every device, a change of the medium is
    never missed, and references are given back on every path. *)

From stdpp Require Import base gmap list list_numbers.
From coqutil Require Import Byte.
From Stdlib Require Import ZArith Lia.
From S2P Require Import Prelude Kapi Ring Layout State Scsi Sim Swap Sd SdThm SdCap.

Local Open Scope Z_scope.

(** ** State *)

(** Flags of the device and what mode pages said of its cache. *)
Record pm_config := mkPmCfg {
  no_start_on_add : bool;
  start_stop_pwr_cond : bool;
  manage_start_stop : bool;
  write_prot : bool;
  WCE : bool
}.

Record pm (D : Type) := mkPm {
  pm_cap : cap D;
  jiffies : Z;
  pm_cmds : list (bytes * Z);   (* commands sent, with their results *)
  disk_refs : Z;           (* sdkp->dev *)
  sdev_refs : Z;           (* scsi_device_get *)
  autopm_refs : Z;         (* scsi_autopm_get_device *)
  openers : Z;
  removal_prevented : bool
}.
Arguments mkPm {D} _ _ _ _ _ _ _ _.
Arguments pm_cap {D} _.
Arguments jiffies {D} _.
Arguments pm_cmds {D} _.
Arguments disk_refs {D} _.
Arguments sdev_refs {D} _.
Arguments autopm_refs {D} _.
Arguments openers {D} _.
Arguments removal_prevented {D} _.

(** The counts a path must balance. *)
Definition counts {D} (p : pm D) : Z * Z * Z * Z := (disk_refs p, sdev_refs p, autopm_refs p, openers p).

Section Upd.
Context {D : Type}.
Implicit Types p : pm D.

Definition pm_with_cap (c : cap D) p : pm D :=
  mkPm c (jiffies p) (pm_cmds p) (disk_refs p) (sdev_refs p) (autopm_refs p) (openers p) (removal_prevented p).
Definition pm_with_time (t : Z) p : pm D :=
  mkPm (pm_cap p) t (pm_cmds p) (disk_refs p) (sdev_refs p) (autopm_refs p) (openers p) (removal_prevented p).
Definition pm_with_cmd (cmd : bytes * Z) p : pm D :=
  mkPm (pm_cap p) (jiffies p) (pm_cmds p ++ [cmd]) (disk_refs p) (sdev_refs p) (autopm_refs p) (openers p)
    (removal_prevented p).
Definition pm_ref (d : Z) p : pm D :=
  mkPm (pm_cap p) (jiffies p) (pm_cmds p) (disk_refs p + d) (sdev_refs p + d) (autopm_refs p) (openers p)
    (removal_prevented p).
Definition pm_autopm (d : Z) p : pm D :=
  mkPm (pm_cap p) (jiffies p) (pm_cmds p) (disk_refs p) (sdev_refs p) (autopm_refs p + d) (openers p)
    (removal_prevented p).
Definition pm_open (d : Z) p : pm D :=
  mkPm (pm_cap p) (jiffies p) (pm_cmds p) (disk_refs p) (sdev_refs p) (autopm_refs p) (openers p + d)
    (removal_prevented p).
Definition pm_removal (b : bool) p : pm D :=
  mkPm (pm_cap p) (jiffies p) (pm_cmds p) (disk_refs p) (sdev_refs p) (autopm_refs p) (openers p) b.

Definition pm_base p : scsi_device := sd_base (sk_device (cp_disk (pm_cap p))).

(** Code of the capacity part. *)
Definition on_cap {A} (m : K (cap D) A) : K (pm D) A := fun p =>
  match m (pm_cap p) with
  | Ok (a, c') => Ok (a, pm_with_cap c' p)
  | Oops f => Oops f
  end.

Lemma wp_on_cap {A} (m : K (cap D) A) Q p :
  wp m (fun a c' => Q a (pm_with_cap c' p)) (pm_cap p) -> wp (on_cap m) Q p.
Proof. unfold wp, on_cap. by destruct (m (pm_cap p)) as [[a c']|]. Qed.
End Upd.

Definition SD_FLUSH_TICKS : Z := 60.
Definition START_STOP : Z := 0x1b.

Section Pm.
Context {D : Type} `{ScsiLower D}.
Variable cfg : pm_config.

(** How long the device keeps a command, in jiffies. *)
Variable busy : D -> Z.

(** include/scsi/scsi.h *)
Variable scsi_status_is_good : Z -> bool.

Definition pm_exec (cmd : bytes) (timeout : Z) : K (pm D) (Z * scsi_sense_hdr) :=
  p ← kget;
  let d := cp_dev (pm_cap p) in
  let '(d', (res, sshdr, _)) := scsi_execute_req d cmd DMA_NONE [] timeout SD_MAX_RETRIES in
  kmod (fun p => pm_with_time (jiffies p + busy d) (pm_with_cmd (cmd, res) (pm_with_cap (cap_dev d' (pm_cap p)) p)));;
  mret (res, sshdr).

Definition msleep_1s : K (pm D) unit :=
  kmod (fun p => pm_with_time (jiffies p + HZ + busy (cp_dev (pm_cap p))) p).

(** ** Spinning up *)

Definition tur_cmd : bytes := byte.of_Z TEST_UNIT_READY :: fill 9 Byte.x00.
Definition start_cmd : bytes :=
  put [(0%nat, START_STOP); (1%nat, 1); (4%nat, if start_stop_pwr_cond cfg then Z.lor 1 (Z.shiftl 1 4) else 1)]
    (fill 10 Byte.x00).

Definition has_sense (the_result : Z) : bool := c_true (Z.land (driver_byte the_result) DRIVER_SENSE).

(** The inner loop, [n] rounds left; nothing when there is no medium. *)
Fixpoint spin_tur (n : nat) (sense_valid : bool) : K (pm D) (option (Z * scsi_sense_hdr * bool)) :=
  match n with
  | O => kfail Hang
  | S n' =>
      x ← pm_exec tur_cmd SD_TIMEOUT;
      let '(the_result, sshdr) := x in
      gone ← on_cap (media_not_present sshdr);
      if (gone : bool) then mret None else
      let sense_valid := if c_true the_result then scsi_sense_valid sshdr else sense_valid in
      let again := negb (scsi_status_is_good the_result)
                   || (has_sense the_result && sense_valid && (sense_key sshdr =? UNIT_ATTENTION)) in
      match n' with
      | O => mret (Some (the_result, sshdr, sense_valid))
      | S _ => if again then spin_tur n' sense_valid
               else mret (Some (the_result, sshdr, sense_valid))
      end
  end.

Inductive spin_next := SpinBreak | SpinStart | SpinWait.

(** What the sense data of the last TEST UNIT READY asks for. *)
Definition spin_decide (the_result : Z) (sshdr : scsi_sense_hdr) (sense_valid : bool) : spin_next :=
  if negb (has_sense the_result) then SpinBreak
  else if no_start_on_add cfg then SpinBreak
  else if sense_valid && (sense_key sshdr =? NOT_READY) then
    if (asc sshdr =? 4) && ((ascq sshdr =? 3) || (ascq sshdr =? 0xb) || (ascq sshdr =? 0xc))
    then SpinBreak else SpinStart
  else if sense_valid && (sense_key sshdr =? UNIT_ATTENTION) && (asc sshdr =? 0x28) then SpinWait
  else SpinBreak.

(** The outer loop; [expire] is [spintime_expire] once [spintime] is set. *)
Fixpoint spin_loop (fuel : nat) (expire : option Z) (sense_valid : bool) : K (pm D) unit :=
  match fuel with
  | O => kfail Hang
  | S f =>
      x ← spin_tur 3 sense_valid;
      match x with
      | None => mret tt
      | Some (the_result, sshdr, sense_valid) =>
          match spin_decide the_result sshdr sense_valid with
          | SpinBreak => mret tt
          | next =>
              expire ← (match expire with
                        | Some e => mret e
                        | None =>
                            match next with
                            | SpinStart =>
                                pm_exec start_cmd SD_TIMEOUT;;
                                p ← kget; mret (jiffies p + 100 * HZ)
                            | _ => p ← kget; mret (jiffies p + 5 * HZ)
                            end
                        end);
              msleep_1s;;
              p ← kget;
              if jiffies p <=? expire then spin_loop f (Some expire) sense_valid else mret tt
          end
      end
  end.

(** A hundred seconds of waiting, one at least for each turn. *)
Definition spin_fuel : nat := 102.
Definition sd_spinup_disk : K (pm D) unit := spin_loop spin_fuel None false.

(** ** Cache and power *)

Definition sync_cmd : bytes := byte.of_Z SYNCHRONIZE_CACHE :: fill 9 Byte.x00.

Fixpoint sd_sync_loop (retries : nat) (res : Z) : K (pm D) Z :=
  match retries with
  | O => mret res
  | S r =>
      x ← pm_exec sync_cmd (SD_FLUSH_TICKS * HZ);
      if fst x =? 0 then mret (fst x) else sd_sync_loop r (fst x)
  end.

Definition sd_sync_cache : K (pm D) Z :=
  p ← kget;
  if negb (scsi_device_online (pm_base p)) then mret (- ENODEV) else
  res ← sd_sync_loop 3 0;
  if c_true res then mret (- EIO) else mret 0.

Definition start_stop_cmd (start : bool) : bytes :=
  let b := if start then 1 else 0 in
  let b := if start_stop_pwr_cond cfg then Z.lor b (if start then Z.shiftl 1 4 else Z.shiftl 3 4) else b in
  put [(0%nat, START_STOP); (4%nat, b)] (fill 6 Byte.x00).

Definition sd_start_stop_device (start : bool) : K (pm D) Z :=
  p ← kget;
  if negb (scsi_device_online (pm_base p)) then mret (- ENODEV) else
  x ← pm_exec (start_stop_cmd start) SD_TIMEOUT;
  mret (fst x).

(** ** References *)

(** What the driver core and the midlayer answer: [dev_get_drvdata] and
    [disk->private_data] set, [scsi_device_get], [scsi_autopm_get_device], the two
    calls of [scsi_block_when_processing_errors]. *)
Record pm_env := mkPmEnv {
  drvdata : bool;
  private_data : bool;
  device_get : Z;
  autopm_get : Z;
  blocked1 : bool;
  blocked2 : bool
}.

(** True when a reference was taken. *)
Definition __scsi_disk_get (e : pm_env) : K (pm D) bool :=
  if private_data e then
    if device_get e =? 0 then kmod (pm_ref 1);; mret true else mret false
  else mret false.
Definition scsi_disk_get (e : pm_env) : K (pm D) bool := __scsi_disk_get e.
Definition scsi_disk_get_from_dev (e : pm_env) : K (pm D) bool :=
  if drvdata e then __scsi_disk_get e else mret false.
Definition scsi_disk_put : K (pm D) unit := kmod (pm_ref (-1)).

Definition sd_shutdown (e : pm_env) (suspended restart : bool) : K (pm D) unit :=
  ok ← scsi_disk_get_from_dev e;
  if negb (ok : bool) then mret tt else
  (if (suspended : bool) then mret tt else
   (if WCE cfg then sd_sync_cache;; mret tt else mret tt);;
   if negb restart && manage_start_stop cfg then sd_start_stop_device false;; mret tt else mret tt);;
  scsi_disk_put.

Definition sd_suspend (e : pm_env) : K (pm D) Z :=
  ok ← scsi_disk_get_from_dev e;
  if negb (ok : bool) then mret 0 else
  ret ← (if WCE cfg then sd_sync_cache else mret 0);
  ret ← (if WCE cfg && c_true ret then mret ret
         else if manage_start_stop cfg then sd_start_stop_device false else mret ret);
  scsi_disk_put;;
  mret ret.

(** There is no test for NULL here. *)
Definition sd_resume (e : pm_env) : K (pm D) Z :=
  ok ← scsi_disk_get_from_dev e;
  if negb (ok : bool) then kfail NullDeref else
  ret ← (if negb (manage_start_stop cfg) then mret 0 else sd_start_stop_device true);
  scsi_disk_put;;
  mret ret.

(** ** Opening and closing *)

(** fs/block_dev.c: [check_disk_change]. *)
Variable check_disk_change : K (pm D) unit.

Definition sd_open (e : pm_env) (ndelay write : bool) : K (pm D) Z :=
  ok ← scsi_disk_get e;
  if negb (ok : bool) then mret (- ENXIO) else
  if negb (autopm_get e =? 0) then scsi_disk_put;; mret (autopm_get e) else
  kmod (pm_autopm 1);;
  let error_out (retval : Z) : K (pm D) Z := kmod (pm_autopm (-1));; scsi_disk_put;; mret retval in
  if negb (blocked1 e) then error_out (- ENXIO) else
  p ← kget;
  (if removable (pm_base p) || write_prot cfg then check_disk_change else mret tt);;
  p ← kget;
  if removable (pm_base p) && negb (media_present (pm_cap p)) && negb ndelay then error_out (- ENOMEDIUM) else
  if write_prot cfg && write then error_out (- EROFS) else
  if negb (scsi_device_online (pm_base p)) then error_out (- ENXIO) else
  kmod (pm_open 1);;
  p ← kget;
  (if (openers p =? 1) && removable (pm_base p) && blocked2 e then kmod (pm_removal true) else mret tt);;
  mret 0.

Definition sd_release (e : pm_env) : K (pm D) Z :=
  kmod (pm_open (-1));;
  p ← kget;
  (if (openers p =? 0) && removable (pm_base p) && blocked2 e then kmod (pm_removal false) else mret tt);;
  kmod (pm_autopm (-1));;
  scsi_disk_put;;
  mret 0.

(** ** Events *)

Definition DISK_EVENT_MEDIA_CHANGE : Z := 1.

(** drivers/scsi/scsi_lib.c: [scsi_test_unit_ready]. *)
Variable scsi_test_unit_ready : K (pm D) (Z * scsi_sense_hdr).

Definition set_disk_changed (b : bool) (c : cap D) : cap D :=
  let base := sd_base (sk_device (cp_disk c)) in
  cap_disk (disk_base (mkSdev (removable base) b (sdev_state base)) (cp_disk c)) c.

(** From the label [out] on. *)
Definition events_out : K (pm D) Z :=
  p ← kget;
  let retval := if changed (pm_base p) then DISK_EVENT_MEDIA_CHANGE else 0 in
  on_cap (kmod (set_disk_changed false));;
  mret retval.

(** [alloc] says whether the sense buffer can be allocated. *)
Definition sd_check_events (e : pm_env) (alloc : bool) : K (pm D) Z :=
  p ← kget;
  if negb (scsi_device_online (pm_base p)) then on_cap (kmod set_media_not_present);; events_out else
  if blocked1 e && negb (autopm_get e =? 0) then events_out else
  x ← (if blocked1 e then
         kmod (pm_autopm 1);;
         y ← scsi_test_unit_ready;
         kmod (pm_autopm (-1));;
         mret (fst y, if (alloc : bool) then Some (snd y) else None)
       else mret (- ENODEV, None));
  let '(retval, sshdr) := x in
  if c_true (host_byte retval) then on_cap (kmod set_media_not_present);; events_out else
  gone ← (match sshdr with Some h => on_cap (media_not_present h) | None => mret false end);
  if (gone : bool) then events_out else
  on_cap (kmod (fun c => if media_present c then c else set_disk_changed true c));;
  on_cap (kmod (cap_media true));;
  events_out.
End Pm.

(** ** Spinning up ends *)

Section Spin.
Context {D : Type} `{ScsiLower D}.
Variable cfg : pm_config.
Variable busy : D -> Z.
Variable good : Z -> bool.
Hypothesis HZ_pos : 0 < HZ.
Hypothesis busy_nonneg : forall d, 0 <= busy d.
Implicit Types p : pm D.

(** Commands [sent] later, no earlier, with all counts as they were. *)
Record went (sent : list (bytes * Z)) p p' : Prop := {
  went_cmds : pm_cmds p' = pm_cmds p ++ sent;
  went_time : jiffies p <= jiffies p';
  went_counts : counts p' = counts p;
  went_state : sdev_state (pm_base p') = sdev_state (pm_base p);
  went_cap : cap_ok (pm_cap p) -> cap_ok (pm_cap p');
  went_dev : same_device (pm_cap p) (pm_cap p')
}.

Lemma went_refl p : went [] p p.
Proof. split; [by rewrite app_nil_r|lia|done..]. Qed.

Lemma went_trans s1 s2 p p1 p2 : went s1 p p1 -> went s2 p1 p2 -> went (s1 ++ s2) p p2.
Proof.
  intros [H1 H2 H3 H4 Hc [D1 D2]] [H5 H6 H7 H8 Hc' [D3 D4]].
  split; [by rewrite H5, H1, app_assoc|lia|congruence|congruence|auto|split; congruence].
Qed.

Lemma wp_pm_exec cmd timeout p : wp (pm_exec busy cmd timeout) (fun x p' => went [(cmd, fst x)] p p') p.
Proof.
  unfold pm_exec. do 2 kstep. destruct (scsi_execute_req _ _ _ _ _ _) as [d' [[res h] b]]. do 3 kstep.
  split; try done. cbn. specialize (busy_nonneg (cp_dev (pm_cap p))). lia.
Qed.

Lemma wp_pm_media h p : wp (on_cap (media_not_present h)) (fun _ p' => went [] p p') p.
Proof.
  apply wp_on_cap. unfold media_not_present. destruct (negb _); [kstep; by destruct p; apply went_refl|].
  destruct (_ && _); repeat kstep; [|by destruct p; apply went_refl].
  split; try done; cbn [pm_with_cap pm_cmds pm_cap jiffies]; [by rewrite app_nil_r| | |].
  - unfold pm_base, set_media_not_present. cbn [pm_with_cap pm_cap].
    by destruct (media_present _), (removable _).
  - intros Hc. by apply (keeps_media (pm_cap p)).
  - unfold set_media_not_present. by destruct (media_present _), (removable _).
Qed.

Definition only_turs (l : list (bytes * Z)) : Prop := Forall (fun c => fst c = tur_cmd) l.

Lemma wp_spin_tur n sv p :
  (0 < n)%nat ->
  wp (spin_tur busy good n sv) (fun _ p' => exists l, (length l <= n)%nat /\ only_turs l /\ went l p p') p.
Proof.
  revert sv p. induction n as [|n IH]; intros sv p Hn; [lia|]. cbn [spin_tur]. kstep.
  eapply wp_mono; [apply wp_pm_exec|]. cbv beta. intros [res h] p1 Hw1. kstep.
  eapply wp_mono; [apply wp_pm_media|]. cbv beta. intros gone p2 Hw2.
  pose proof (went_trans _ _ _ _ _ Hw1 Hw2) as Hw. cbn [app] in Hw.
  assert (exists l, (length l <= S n)%nat /\ only_turs l /\ went l p p2) as Hend
    by (exists [(tur_cmd, res)]; split_and!; [cbn; lia|by apply Forall_singleton|exact Hw]).
  destruct gone; [by kstep|]. destruct n as [|n]; [by kstep|]. destruct (_ || _); [|by kstep].
  eapply wp_mono; [apply IH; lia|]. cbv beta. intros _ p3 (l & Hl & Ho & Hw3).
  exists ((tur_cmd, res) :: l). split_and!; [cbn; lia|by constructor|]. exact (went_trans _ _ _ _ _ Hw Hw3).
Qed.

Lemma wp_msleep p :
  wp (msleep_1s busy) (fun _ p' => went [] p p' /\ jiffies p + HZ <= jiffies p') p.
Proof.
  unfold msleep_1s. kstep. specialize (busy_nonneg (cp_dev (pm_cap p))).
  split; [split|]; try done; cbn; rewrite ?app_nil_r; lia || done.
Qed.

Lemma wp_spin_loop fuel : forall e sv p,
  e - jiffies p < Z.of_nat fuel * HZ -> jiffies p <= e ->
  wp (spin_loop cfg busy good fuel (Some e) sv)
     (fun _ p' => exists sent, only_turs sent /\ (length sent <= 3 * fuel)%nat /\ went sent p p') p.
Proof.
  induction fuel as [|fuel IH]; intros e sv p He Hle; [lia|]. cbn [spin_loop]. kstep.
  eapply wp_mono; [apply wp_spin_tur; lia|]. cbv beta. intros x p1 (l & Hl & Ho & Hw).
  assert (exists sent, only_turs sent /\ (length sent <= 3 * S fuel)%nat /\ went sent p p1) as Hend
    by (exists l; split_and!; [done|lia|done]).
  destruct x as [[[res h] sv']|]; [|by kstep].
  destruct (spin_decide _ _ _ _); [by kstep| |].
  all: do 3 kstep; eapply wp_mono; [apply wp_msleep|]; cbv beta; intros _ p2 [Hw2 Ht]; do 2 kstep;
    pose proof (went_trans _ _ _ _ _ Hw Hw2) as Hw'; rewrite app_nil_r in Hw';
    (destruct (Z.leb_spec (jiffies p2) e); [|kstep; exists l; split_and!; [done|lia|done]]);
    (eapply wp_mono; [apply IH; [pose proof (went_time _ _ _ Hw); lia|lia]|]); cbv beta;
    intros _ p3 (sent & Hs & Hl3 & Hw3); exists (l ++ sent);
    (split_and!; [by apply Forall_app|rewrite length_app; lia|by eapply went_trans]).
Qed.
(** At most one START command. *)
Definition start_ok (l : list (bytes * Z)) : Prop := l = [] \/ exists r, l = [(start_cmd cfg, r)].

(** The first turn sets the time limit. *)
Lemma wp_spin_start p :
  wp (sd_spinup_disk cfg busy good)
     (fun _ p' => exists s1 start s2, went (s1 ++ start ++ s2) p p' /\ only_turs s1 /\ only_turs s2 /\
        start_ok start /\ (length s1 <= 3)%nat /\
        zlen s1 + zlen s2 <= 306) p.
Proof.
  unfold sd_spinup_disk, spin_fuel. change 102%nat with (S 101).
  assert (exists fuel, fuel = 101%nat) as [fuel Ef] by eauto. rewrite <- Ef. cbn [spin_loop]. kstep.
  eapply wp_mono; [apply wp_spin_tur; lia|]. cbv beta. intros x p1 (l & Hl & Ho & Hw).
  assert (forall start p2 e, start_ok start -> went start p1 p2 ->
    e <= jiffies p2 + 100 * HZ ->
    wp (msleep_1s busy;; p ← kget; if jiffies p <=? e then spin_loop cfg busy good fuel (Some e)
          (match x with Some (_, _, sv) => sv | None => false end) else mret tt)
       (fun _ p' => exists s1 start s2, went (s1 ++ start ++ s2) p p' /\ only_turs s1 /\ only_turs s2 /\
          start_ok start /\ (length s1 <= 3)%nat /\
          zlen s1 + zlen s2 <= 306) p2) as Hgo.
  { intros start p2 e Hst Hw2 He. pose proof (went_trans _ _ _ _ _ Hw Hw2) as Hw12. kstep.
    eapply wp_mono; [apply wp_msleep|]. cbv beta. intros _ p3 [Hw3 Ht]. do 2 kstep.
    pose proof (went_trans _ _ _ _ _ Hw12 Hw3) as Hw13.
    destruct (Z.leb_spec (jiffies p3) e).
    - eapply wp_mono; [apply wp_spin_loop; [lia|done]|]. cbv beta. intros _ p4 (sent & Hs & Hl4 & Hw4).
      exists l, start, sent.
      pose proof (went_trans _ _ _ _ _ Hw13 Hw4) as Hw14. rewrite app_nil_r, <- app_assoc in Hw14.
      unfold zlen. split_and!; try done; lia.
    - kstep. exists l, start, []. unfold zlen. rewrite app_nil_r. rewrite app_nil_r in Hw13.
      split_and!; try done; try (cbn; lia). constructor. }
  assert (exists s1 start s2, went (s1 ++ start ++ s2) p p1 /\ only_turs s1 /\ only_turs s2 /\
          start_ok start /\ (length s1 <= 3)%nat /\
          zlen s1 + zlen s2 <= 306) as Hend.
  { exists l, [], []. unfold zlen. cbn [app]. rewrite app_nil_r.
    split_and!; try done; try (cbn; lia); [constructor|by left]. }
  destruct x as [[[res h] sv']|]; [|kstep; exact Hend]. destruct (spin_decide _ _ _ _); [kstep; exact Hend| |].
  - do 2 kstep. eapply wp_mono; [apply wp_pm_exec|]. cbv beta. intros y p2 Hw2. do 3 kstep.
    eapply Hgo; [|exact Hw2|lia]. right. by eexists.
  - do 4 kstep. apply (Hgo []); [by left|apply went_refl|lia].
Qed.
End Spin.

(** whatever the device answers, [sd_spinup_disk] returns: it sends TEST UNIT
    READY at most 306 times and the START command at most once, after at most three
    of them, because every turn that goes on waits a second and the wait is bounded
    by a hundred; all counts are as before. *)
Theorem spinup_ends {D} `{ScsiLower D} (cfg : pm_config) (busy : D -> Z) (good : Z -> bool) (p : pm D) :
  0 < HZ -> (forall d, 0 <= busy d) -> cap_ok (pm_cap p) ->
  wp (sd_spinup_disk cfg busy good)
     (fun _ p' => exists s1 start s2,
        pm_cmds p' = pm_cmds p ++ s1 ++ start ++ s2 /\
        only_turs s1 /\ only_turs s2 /\ start_ok cfg start /\
        (length s1 <= 3)%nat /\ zlen s1 + zlen s2 <= 306 /\
        jiffies p <= jiffies p' /\ counts p' = counts p /\ cap_ok (pm_cap p')) p.
Proof.
  intros Hhz Hbusy Hc. eapply wp_mono; [by apply wp_spin_start|]. cbv beta.
  intros _ p' (s1 & start & s2 & [Hcmd Ht Hn _ Hcap _] & H1 & H2 & H3 & H4 & H5). exists s1, start, s2. auto 10.
Qed.

Lemma spinup_ends_witness :
  let p := mkPm (demo_cap (rc10_answer 0x3fffffff) 0 true) 0 [] 1 1 0 0 false in
  exists p', sd_spinup_disk (mkPmCfg false false false false true) (fun _ => 1) (fun r => r =? 0) p
             = Ok (tt, p') /\ counts p' = (1, 1, 0, 0).
Proof.
  intros p. destruct (wp_inv _ _ _ (spinup_ends (mkPmCfg false false false false true) (fun _ => 1)
    (fun r => r =? 0) p ltac:(done) (fun _ => ltac:(done)) ltac:(done)))
    as ([] & p' & E & _ & _ & _ & _ & _ & _ & _ & _ & _ & _ & Hc & _).
  exists p'. split; [exact E|exact Hc].
Defined.

(** ** Flushing before stopping *)

Section Power.
Context {D : Type} `{ScsiLower D}.
Variable cfg : pm_config.
Variable busy : D -> Z.
Hypothesis busy_nonneg : forall d, 0 <= busy d.
Implicit Types p : pm D.

(** At most three attempts to flush, the last of them with result [r]. *)
Definition flushes (r : Z) (l : list (bytes * Z)) : Prop :=
  Forall (fun c => fst c = sync_cmd) l /\ (0 < length l <= 3)%nat /\ snd <$> last l = Some r.

Lemma wp_sd_sync_loop n : forall res p,
  (0 < n <= 3)%nat ->
  wp (sd_sync_loop busy n res)
     (fun r p' => exists l, Forall (fun c => fst c = sync_cmd) l /\ (0 < length l <= n)%nat /\
                            snd <$> last l = Some r /\ went l p p') p.
Proof.
  induction n as [|n IH]; intros res p Hn; [lia|]. cbn [sd_sync_loop]. kstep.
  eapply wp_mono; [by apply wp_pm_exec|]. cbv beta. intros [r h] p1 Hw. cbn [fst] in *.
  assert (exists l, Forall (fun c => fst c = sync_cmd) l /\ (0 < length l <= S n)%nat /\
                    snd <$> last l = Some r /\ went l p p1) as Hend
    by (exists [(sync_cmd, r)]; split_and!; [by apply Forall_singleton|cbn; lia|cbn; lia|done|done]).
  destruct (r =? 0); [by kstep|]. destruct n as [|n]; [cbn [sd_sync_loop]; by kstep|].
  eapply wp_mono; [apply IH; lia|]. cbv beta. intros r2 p2 (l & Hall & Hl & Hlast & Hw2).
  exists ((sync_cmd, r) :: l). split_and!; [by constructor|cbn; lia|cbn; lia| |exact (went_trans _ _ _ _ _ Hw Hw2)].
  by destruct l as [|c l]; [cbn in Hl; lia|].
Qed.

Lemma went_online l p p' : went l p p' -> scsi_device_online (pm_base p') = scsi_device_online (pm_base p).
Proof. intros Hw. unfold scsi_device_online. by rewrite (went_state _ _ _ Hw). Qed.

Lemma wp_sd_sync_cache p :
  scsi_device_online (pm_base p) = true ->
  wp (sd_sync_cache busy)
     (fun ret p' => exists l r, went l p p' /\ flushes r l /\ ret = if r =? 0 then 0 else - EIO) p.
Proof.
  intros Ho. unfold sd_sync_cache. do 2 kstep. rewrite Ho. cbn [negb]. kstep.
  eapply wp_mono; [apply wp_sd_sync_loop; lia|]. cbv beta. intros r p' (l & Hall & Hl & Hlast & Hw).
  assert (flushes r l) as Hf by (split; [done|split; [lia|done]]).
  unfold c_true. destruct (r =? 0) eqn:Er; cbn [negb]; kstep; exists l, r; by rewrite Er.
Qed.

Lemma wp_sd_start_stop start p :
  scsi_device_online (pm_base p) = true ->
  wp (sd_start_stop_device cfg busy start) (fun ret p' => went [(start_stop_cmd cfg start, ret)] p p') p.
Proof.
  intros Ho. unfold sd_start_stop_device. do 2 kstep. rewrite Ho. cbn [negb]. kstep.
  eapply wp_mono; [by apply wp_pm_exec|]. cbv beta. intros x p' Hw. by kstep.
Qed.

Definition can_get (e : pm_env) : bool := drvdata e && private_data e && (device_get e =? 0).

Lemma wp_get_from_dev e p :
  wp (scsi_disk_get_from_dev e) (fun ok p' => ok = can_get e /\ p' = if ok then pm_ref 1 p else p) p.
Proof.
  unfold scsi_disk_get_from_dev, __scsi_disk_get, can_get.
  destruct (drvdata e), (private_data e), (device_get e =? 0); by repeat kstep.
Qed.

(** What a held reference is given back for. *)
Lemma went_put l p p' :
  went l (pm_ref 1 p) p' -> pm_cmds (pm_ref (-1) p') = pm_cmds p ++ l /\ counts (pm_ref (-1) p') = counts p.
Proof.
  intros [Hcmd _ Hn _ _]. split; [done|]. unfold counts in *. injection Hn as H1 H2 H3 H4.
  cbn in *. rewrite H1, H2, H3, H4.
  replace (disk_refs p + 1 + -1) with (disk_refs p) by lia.
  by replace (sdev_refs p + 1 + -1) with (sdev_refs p) by lia.
Qed.

(** A stop command [s] after the flushes [l], by the configuration. *)
Definition stopped_after (stop : bool) (ret : Z) (l s : list (bytes * Z)) : Prop :=
  if WCE cfg then
    exists r, flushes r l /\
      if r =? 0 then if stop then s = [(start_stop_cmd cfg false, ret)] else s = [] /\ ret = 0
      else s = [] /\ ret = - EIO
  else l = [] /\ if stop then s = [(start_stop_cmd cfg false, ret)] else s = [] /\ ret = 0.
End Power.

(** C40: suspending a disk that is there and online: with a write cache the cache is
    flushed first, in at most three attempts, and the disk is stopped only when a
    flush succeeded; a failed flush aborts the suspend with [-EIO] and the disk keeps
    running.  Without a disk nothing is sent.  Every reference is given back. *)
Theorem suspend_flushes_first {D} `{ScsiLower D} (cfg : pm_config) (busy : D -> Z) (e : pm_env) (p : pm D) :
  (forall d, 0 <= busy d) -> scsi_device_online (pm_base p) = true ->
  wp (sd_suspend cfg busy e)
     (fun ret p' => counts p' = counts p /\
        exists l s, pm_cmds p' = pm_cmds p ++ l ++ s /\
          if can_get e then stopped_after cfg (manage_start_stop cfg) ret l s else l ++ s = [] /\ ret = 0) p.
Proof.
  intros Hb Ho. unfold sd_suspend, scsi_disk_put. kstep. eapply wp_mono; [apply wp_get_from_dev|]. cbv beta.
  intros ok p1 [-> ->]. destruct (can_get e); cbn [negb].
  2:{ kstep. split; [done|]. exists [], []. by rewrite app_nil_r. }
  unfold stopped_after. destruct (WCE cfg); cbn [andb].
  - kstep. eapply wp_mono; [by apply wp_sd_sync_cache|]. cbv beta. intros ret p2 (l & r & Hw & Hf & ->).
    destruct (r =? 0) eqn:Er; cbn [c_true Z.eqb negb andb].
    + kstep. destruct (manage_start_stop cfg).
      * eapply wp_mono; [apply wp_sd_start_stop; [done|by rewrite (went_online _ _ _ Hw)]|].
        cbv beta. intros ret p3 Hw3. repeat kstep.
        destruct (went_put _ _ _ (went_trans _ _ _ _ _ Hw Hw3)) as [Hcmd Hn]. split; [done|].
        eexists l, _. split; [exact Hcmd|]. exists r. by rewrite Er.
      * repeat kstep. destruct (went_put _ _ _ Hw) as [Hcmd Hn]. split; [done|].
        exists l, []. rewrite app_nil_r. split; [done|]. exists r. by rewrite Er.
    + repeat kstep. destruct (went_put _ _ _ Hw) as [Hcmd Hn]. split; [done|].
      exists l, []. rewrite app_nil_r. split; [done|]. exists r. by rewrite Er.
  - do 3 kstep. destruct (manage_start_stop cfg).
    + eapply wp_mono; [by apply wp_sd_start_stop|].
      cbv beta. intros ret p3 Hw3. repeat kstep.
      destruct (went_put _ _ _ Hw3) as [Hcmd Hn]. split; [done|]. by exists [], [(start_stop_cmd cfg false, ret)].
    + repeat kstep. destruct (went_put _ _ _ (went_refl (pm_ref 1 p))) as [Hcmd Hn]. split; [done|]. by exists [], [].
Qed.

Lemma suspend_flushes_first_witness :
  let cfg := mkPmCfg false false true false true in
  let p := mkPm (demo_cap (rc10_answer 0x3fffffff) 0 true) 0 [] 1 1 0 0 false in
  exists ret p', sd_suspend cfg (fun _ => 1) (mkPmEnv true true 0 0 true true) p = Ok (ret, p') /\
    counts p' = (1, 1, 0, 0) /\
    exists l s, pm_cmds p' = l ++ s /\ stopped_after cfg true ret l s.
Proof.
  intros cfg p.
  destruct (wp_inv _ _ _ (suspend_flushes_first cfg (fun _ => 1) (mkPmEnv true true 0 0 true true) p
    (fun _ => ltac:(done)) eq_refl)) as (ret & p' & E & Hc & l & s & Hl & Hs).
  exists ret, p'. split; [exact E|]. split; [exact Hc|]. exists l, s. split; [exact Hl|exact Hs].
Defined.

(** Shutting down stops the disk also after a failed flush, but never before one. *)
Lemma shutdown_flushes_first {D} `{ScsiLower D} (cfg : pm_config) (busy : D -> Z) e (restart : bool) (p : pm D) :
  (forall d, 0 <= busy d) -> scsi_device_online (pm_base p) = true -> can_get e = true ->
  wp (sd_shutdown cfg busy e false restart)
     (fun _ p' => counts p' = counts p /\
        exists l s, pm_cmds p' = pm_cmds p ++ l ++ s /\
          (if WCE cfg then exists r, flushes r l else l = []) /\
          if negb restart && manage_start_stop cfg then exists r, s = [(start_stop_cmd cfg false, r)]
          else s = []) p.
Proof.
  intros Hb Ho He. unfold sd_shutdown, scsi_disk_put. kstep. eapply wp_mono; [apply wp_get_from_dev|].
  cbv beta. intros ok p1 [-> ->]. rewrite He. cbn [negb]. do 2 kstep.
  apply wp_mono with (P := fun _ p2 => exists l, went l (pm_ref 1 p) p2 /\
                                      if WCE cfg then exists r, flushes r l else l = []).
  { destruct (WCE cfg); [|kstep; exists []; by split; [apply went_refl|]]. kstep.
    eapply wp_mono; [by apply wp_sd_sync_cache|]. cbv beta. intros _ p2 (l & r & Hw & Hf & _). kstep. eauto. }
  intros _ p2 (l & Hw & Hl). destruct (_ && _).
  - kstep. eapply wp_mono; [apply wp_sd_start_stop; [done|by rewrite (went_online _ _ _ Hw)]|].
    cbv beta. intros r p3 Hw3. repeat kstep.
    destruct (went_put _ _ _ (went_trans _ _ _ _ _ Hw Hw3)) as [Hcmd Hn]. split; [done|]. eauto 10.
  - repeat kstep. destruct (went_put _ _ _ Hw) as [Hcmd Hn]. split; [done|].
    exists l, []. by rewrite app_nil_r.
Qed.

(** ** Opening and closing balance *)

Lemma wp_sd_release {D} e (q : pm D) :
  wp (sd_release e)
     (fun r q' => r = 0 /\ pm_base q' = pm_base q /\
        counts q' = (disk_refs q - 1, sdev_refs q - 1, autopm_refs q - 1, openers q - 1) /\
        removal_prevented q' = if (openers q =? 1) && removable (pm_base q) && blocked2 e then false
                               else removal_prevented q) q.
Proof.
  unfold sd_release, scsi_disk_put. do 4 kstep. cbn [openers pm_open].
  replace (openers q + -1 =? 0) with (openers q =? 1) by (apply eq_true_iff_eq; rewrite !Z.eqb_eq; lia).
  change (pm_base (pm_open (-1) q)) with (pm_base q).
  destruct (_ && _ && _); repeat kstep; by split_and!.
Qed.

(** a failed open leaves every count as it was, whichever step failed; a successful
    one takes a reference on the disk, on the device and on its power state and counts
    one opener, finds the device online, the medium there (unless asked not to care)
    and writable if it is to be written, and locks the medium of a removable disk for
    the first opener; the matching release gives everything back and the last one
    unlocks the medium. *)
Theorem open_release_balanced {D} (cfg : pm_config) (check_disk_change : K (pm D) unit)
    (e e' : pm_env) (ndelay write : bool) (p : pm D) :
  (forall q, wp check_disk_change (fun _ q' => counts q' = counts q) q) ->
  wp (sd_open cfg check_disk_change e ndelay write)
     (fun ret p1 =>
        if ret =? 0 then
          counts p1 = (disk_refs p + 1, sdev_refs p + 1, autopm_refs p + 1, openers p + 1) /\
          scsi_device_online (pm_base p1) = true /\
          write_prot cfg && write = false /\
          removable (pm_base p1) && negb (media_present (pm_cap p1)) && negb ndelay = false /\
          (openers p = 0 -> removable (pm_base p1) && blocked2 e = true -> removal_prevented p1 = true) /\
          wp (sd_release e')
             (fun r p2 => r = 0 /\ counts p2 = counts p /\
                (openers p = 0 -> removable (pm_base p2) && blocked2 e' = true -> removal_prevented p2 = false)) p1
        else counts p1 = counts p) p.
Proof.
  intros Hcd. unfold sd_open, scsi_disk_get, __scsi_disk_get, scsi_disk_put. kstep.
  destruct (private_data e); [|by repeat kstep]. destruct (device_get e =? 0); [|by repeat kstep].
  do 3 kstep. cbn [negb]. destruct (autopm_get e =? 0) eqn:Ea; cbn [negb].
  2:{ repeat kstep. rewrite Ea. unfold counts. cbn. by rewrite <- !Z.add_assoc, !Z.add_0_r. }
  do 2 kstep.
  assert (forall q : pm D, counts q = (disk_refs p + 1, sdev_refs p + 1, autopm_refs p + 1, openers p) ->
            counts (pm_ref (-1) (pm_autopm (-1) q)) = counts p) as Hback.
  { intros q Hq. unfold counts in *. injection Hq as H1 H2 H3 H4. cbn. rewrite H1, H2, H3, H4.
    by rewrite <- !Z.add_assoc, !Z.add_0_r. }
  destruct (blocked1 e); cbn [negb]; [|repeat kstep; by apply Hback].
  do 3 kstep.
  apply wp_mono with (P := fun _ q => counts q = (disk_refs p + 1, sdev_refs p + 1, autopm_refs p + 1, openers p)).
  { destruct (_ || _); [|by kstep]. eapply wp_mono; [apply Hcd|]. cbv beta. by intros _ q ->. }
  intros _ q Hq. do 2 kstep.
  destruct (removable (pm_base q) && _ && _) eqn:Em; [repeat kstep; by eapply Hback|].
  destruct (write_prot cfg && write) eqn:Ewp; [repeat kstep; by eapply Hback|].
  destruct (scsi_device_online _) eqn:Eo; cbn [negb]; [|repeat kstep; by eapply Hback].
  unfold counts in Hq. injection Hq as H1 H2 H3 H4. do 5 kstep. cbn [openers pm_open]. rewrite H4.
  match goal with |- wp (if ?l then _ else _) _ _ => set (lock := l) end.
  apply wp_mono with (P := fun _ q1 => q1 = if lock then pm_removal true (pm_open 1 q) else pm_open 1 q).
  { destruct lock; by kstep. }
  intros _ q1 Hq1. kstep. cbn [Z.eqb].
  assert (counts q1 = (disk_refs p + 1, sdev_refs p + 1, autopm_refs p + 1, openers p + 1)) as Hc1.
  { subst q1. unfold counts. destruct lock; cbn; by rewrite H1, H2, H3, H4. }
  assert (pm_cap q1 = pm_cap q) as Hcap by (subst q1; by destruct lock).
  assert (pm_base q1 = pm_base q) as Hbase by (unfold pm_base; by rewrite Hcap).
  rewrite Hbase, Hcap. split; [done|]. split; [done|]. split; [done|]. split; [done|]. split.
  - intros H0 Hr. subst q1. unfold lock. change (pm_base (pm_open 1 q)) with (pm_base q).
    rewrite H0. rewrite <- andb_assoc, Hr. done.
  - eapply wp_mono; [apply wp_sd_release|]. cbv beta. intros r p2 (-> & Hb2 & Hc2 & Hr2). split; [done|].
    unfold counts in Hc1. injection Hc1 as I1 I2 I3 I4. split.
    + rewrite Hc2, I1, I2, I3, I4. unfold counts. by rewrite !Z.add_simpl_r.
    + intros H0 Hr. rewrite Hr2, I4, H0, <- andb_assoc, <- Hb2, Hr. done.
Qed.

Lemma open_release_balanced_witness :
  let cfg := mkPmCfg false false true false true in
  let e := mkPmEnv true true 0 0 true true in
  let p := mkPm (demo_cap (rc10_answer 0x3fffffff) 0 true) 0 [] 1 1 0 0 false in
  exists p1, sd_open cfg (mret tt) e false true p = Ok (0, p1) /\ counts p1 = (2, 2, 1, 1).
Proof.
  intros cfg e p.
  destruct (wp_inv _ _ _ (open_release_balanced cfg (mret tt) e e false true p (fun q => ltac:(by apply wp_ret))))
    as (ret & p1 & E & H).
  vm_compute in E. injection E as <- E. subst p1. eexists. split; [vm_compute; reflexivity|].
  exact (proj1 H).
Defined.

(** ** A change of the medium is reported *)

Section Events.
Context {D : Type}.
Implicit Types p : pm D.

(** What [scsi_test_unit_ready] may change: it can note a change, not forget one. *)
Record probed p p' : Prop := {
  probed_counts : counts p' = counts p;
  probed_media : media_present (pm_cap p') = media_present (pm_cap p);
  probed_removable : removable (pm_base p') = removable (pm_base p);
  probed_changed : changed (pm_base p) = true -> changed (pm_base p') = true
}.

(** A change since [p] is noted in [p']. *)
Record noted p p' : Prop := {
  noted_counts : counts p' = counts p;
  noted_removable : removable (pm_base p') = removable (pm_base p);
  noted_change : changed (pm_base p) = true \/ media_present (pm_cap p') <> media_present (pm_cap p) ->
                 changed (pm_base p') = true
}.

Lemma probed_noted p p' : probed p p' -> noted p p'.
Proof. intros [H1 H2 H3 H4]. split; [done|done|]. intros [?|?]; [auto|congruence]. Qed.

Lemma noted_refl p : noted p p.
Proof. split; [done|done|]. by intros [?|?]. Qed.

Lemma noted_trans p1 p2 p3 : noted p1 p2 -> noted p2 p3 -> noted p1 p3.
Proof.
  intros [H1 H2 H3] [H4 H5 H6]. split; [congruence..|]. intros Hc. apply H6.
  destruct (bool_decide_reflect (media_present (pm_cap p2) = media_present (pm_cap p1))) as [E|E].
  - rewrite E. destruct Hc; auto.
  - left. auto.
Qed.

Lemma noted_lost p : noted p (pm_with_cap (set_media_not_present (pm_cap p)) p).
Proof.
  unfold set_media_not_present. fold (pm_base p).
  destruct (media_present (pm_cap p)) eqn:Em, (removable (pm_base p)) eqn:Er; (split; [done|by rewrite Er|]);
    intros [E|E]; unfold pm_base in *; cbn in *; congruence.
Qed.

Lemma noted_found p :
  noted p (pm_with_cap (cap_media true
             (if media_present (pm_cap p) then pm_cap p else set_disk_changed true (pm_cap p))) p).
Proof.
  split; [done| |]; unfold pm_base; cbn [pm_with_cap pm_cap].
  - by destruct (media_present _).
  - intros [E|E]; destruct (media_present (pm_cap p)) eqn:Em; cbn in *; congruence.
Qed.

Lemma wp_events_out p q :
  noted p q ->
  wp (events_out (D := D))
     (fun ev p' => counts p' = counts p /\ changed (pm_base p') = false /\
        media_present (pm_cap p') = media_present (pm_cap q) /\
        ev = if changed (pm_base q) then DISK_EVENT_MEDIA_CHANGE else 0) q.
Proof.
  intros [Hc _ _]. unfold events_out. do 3 kstep. apply wp_on_cap. kstep. kstep. by split_and!.
Qed.
End Events.

(** [sd_check_events] never misses a change of the medium: whenever one was noted
    before, or the medium came or went during the call, the event is reported, and
    reported once, since the note is cleared; a device that cannot be reached counts
    as one without a medium when it is removable; the power count is balanced on
    every path.  The hypothesis is about the midlayer's [scsi_test_unit_ready]. *)
Theorem medium_change_reported {D} `{ScsiLower D} (tur : K (pm D) (Z * scsi_sense_hdr)) (e : pm_env) (alloc : bool) (p : pm D) :
  (forall q, wp tur (fun _ q' => probed q q') q) ->
  wp (sd_check_events tur e alloc)
     (fun ev p' => counts p' = counts p /\ changed (pm_base p') = false /\
        (changed (pm_base p) = true \/ media_present (pm_cap p') <> media_present (pm_cap p) ->
         ev = DISK_EVENT_MEDIA_CHANGE) /\
        (scsi_device_online (pm_base p) = false -> removable (pm_base p) = true ->
         media_present (pm_cap p') = false)) p.
Proof.
  intros Htur.
  assert (forall q, noted p q ->
    (scsi_device_online (pm_base p) = false -> removable (pm_base p) = true -> media_present (pm_cap q) = false) ->
    wp (events_out (D := D)) (fun ev p' => counts p' = counts p /\ changed (pm_base p') = false /\
        (changed (pm_base p) = true \/ media_present (pm_cap p') <> media_present (pm_cap p) ->
         ev = DISK_EVENT_MEDIA_CHANGE) /\
        (scsi_device_online (pm_base p) = false -> removable (pm_base p) = true ->
         media_present (pm_cap p') = false)) q) as Hout.
  { intros q Hn Ho. eapply wp_mono; [by apply (wp_events_out p)|]. cbv beta.
    intros ev p' (Hc & Hch & Hm & ->). rewrite Hm. split_and!; [done|done| |done].
    intros Hx. by rewrite (noted_change _ _ Hn Hx). }
  unfold sd_check_events. do 2 kstep.
  destruct (scsi_device_online (pm_base p)) eqn:Eo; cbn [negb].
  2:{ kstep. apply wp_on_cap. kstep. apply Hout; [apply noted_lost|]. intros _ Hr.
      unfold set_media_not_present, pm_base in *. cbn [pm_with_cap pm_cap]. by rewrite Hr. }
  destruct (_ && _); [apply Hout; [apply noted_refl|done]|]. kstep.
  apply wp_mono with (P := fun _ q => noted p q).
  { destruct (blocked1 e); [|kstep; apply noted_refl]. do 3 kstep.
    eapply wp_mono; [apply Htur|]. cbv beta. intros y q Hq. do 3 kstep.
    destruct (probed_noted _ _ Hq) as [H1 H2 H3]. unfold counts in *.
    injection H1 as I1 I2 I3 I4. split; [|done|done]. unfold counts. cbn in *. rewrite I1, I2, I3, I4.
    by rewrite <- Z.add_assoc, Z.add_0_r. }
  intros [ret h] q Hq. destruct (c_true (host_byte ret)).
  { kstep. apply wp_on_cap. kstep. apply Hout; [|done]. eapply noted_trans; [exact Hq|apply noted_lost]. }
  kstep. apply wp_mono with (P := fun _ q => noted p q).
  { destruct h as [h|]; [|by kstep]. apply wp_on_cap. unfold media_not_present.
    destruct (negb _); [kstep; by destruct q|]. destruct (_ && _); repeat kstep; [|by destruct q].
    eapply noted_trans; [exact Hq|apply noted_lost]. }
  intros [|] q2 Hq2; [by apply Hout|]. kstep. apply wp_on_cap. kstep. kstep. apply wp_on_cap. kstep.
  apply Hout; [|done]. eapply noted_trans; [exact Hq2|exact (noted_found q2)].
Qed.

Lemma medium_change_reported_witness :
  let p := mkPm (set_disk_changed true (demo_cap (rc10_answer 0x3fffffff) 0 true)) 0 [] 1 1 0 0 false in
  exists p', sd_check_events (mret (0, mkSense 0 0 0 0)) (mkPmEnv true true 0 0 true true) true p
             = Ok (DISK_EVENT_MEDIA_CHANGE, p') /\ changed (pm_base p') = false.
Proof.
  intros p.
  destruct (wp_inv _ _ _ (medium_change_reported (mret (0, mkSense 0 0 0 0))
    (mkPmEnv true true 0 0 true true) true p
    (fun q => ltac:(by apply wp_ret)))) as (ev & p' & E & _ & Hch & Hev & _).
  exists p'. rewrite (Hev (or_introl eq_refl)) in E. split; [exact E|exact Hch].
Defined.
