(* ===== verification/SdMode.v ===== *)
(** * drivers/scsi/sd.c: what a disk says of itself

    Mode pages (write protection, cache, application tag), VPD pages (limits,
    provisioning, rotation) and [sd_revalidate_disk], which asks for all of them after
    spin-up and capacity; [scsi_get_vpd_page] and [scsi_report_opcode] are the parts of
    drivers/scsi/scsi.c that send the questions.  [scsi_mode_sense] of scsi_lib.c is a
    parameter.  Results: the walk over mode pages ends inside the data and finds the
    caching page; a VPD page is asked for only when the device lists it and what is
    returned is that page; flush requests are used exactly as the cache asks for.  Two
    executions read behind the buffer. *)

From stdpp Require Import base gmap list list_numbers.
From coqutil Require Import Byte.
From Stdlib Require Import ZArith Lia.
From S2P Require Import Prelude Kapi Ring Layout State Scsi Sim Swap Sd SdThm SdCap SdPm.

Local Open Scope Z_scope.

(** ** State *)

(** Flags of the device these functions read. *)
Record ms_config := mkMsCfg {
  skip_ms_page_8 : bool;
  skip_ms_page_3f : bool;
  use_192_bytes_for_3f : bool;
  type_rbc : bool;
  type_disk : bool;
  wce_default_on : bool;
  skip_vpd_pages : bool;
  no_report_opcodes : bool;
  ms_scsi_level : Z
}.

(** [struct scsi_mode_data] *)
Record scsi_mode_data := mkModeData {
  md_length : Z;
  md_block_descriptor_length : Z;
  md_header_length : Z;
  md_device_specific : Z
}.

(** drivers/scsi/scsi_lib.c: the result, the decoded header, sense data, and what the
    buffer begins with afterwards. *)
Class ModeSense (D : Type) := {
  scsi_mode_sense : D -> Z -> Z -> Z -> D * (Z * scsi_mode_data * bytes)
}.

Record cache_type := mkCache { sd_WCE : bool; sd_RCD : bool; sd_DPOFUA : bool }.

(** Logical block provisioning bits. *)
Record lbp_bits := mkLbp { lbpvpd : bool; lbpu : bool; lbpws : bool; lbpws10 : bool }.

Record rv (D : Type) := mkRv {
  rv_pm : pm D;
  rv_asked : list bytes;       (* INQUIRY and REPORT OPCODES commands sent *)
  rv_cache : cache_type;
  rv_ATO : bool;
  rv_write_prot : bool;
  rv_disk_ro : bool;
  rv_lbp : lbp_bits;
  rv_io_min : Z;               (* as given to blk_queue_io_min *)
  rv_io_opt : Z;
  rv_nonrot : bool;
  rv_flush : Z
}.
Arguments mkRv {D} _ _ _ _ _ _ _ _ _ _ _.
Arguments rv_pm {D} _.
Arguments rv_asked {D} _.
Arguments rv_cache {D} _.
Arguments rv_ATO {D} _.
Arguments rv_write_prot {D} _.
Arguments rv_disk_ro {D} _.
Arguments rv_lbp {D} _.
Arguments rv_io_min {D} _.
Arguments rv_io_opt {D} _.
Arguments rv_nonrot {D} _.
Arguments rv_flush {D} _.

Section Upd.
Context {D : Type}.
Implicit Types r : rv D.
Definition rv_with_pm (p : pm D) r : rv D :=
  mkRv p (rv_asked r) (rv_cache r) (rv_ATO r) (rv_write_prot r) (rv_disk_ro r) (rv_lbp r) (rv_io_min r)
    (rv_io_opt r) (rv_nonrot r) (rv_flush r).
Definition rv_ask (c : bytes) r : rv D :=
  mkRv (rv_pm r) (rv_asked r ++ [c]) (rv_cache r) (rv_ATO r) (rv_write_prot r) (rv_disk_ro r) (rv_lbp r) (rv_io_min r)
    (rv_io_opt r) (rv_nonrot r) (rv_flush r).
Definition rv_with_cache (x : cache_type) r : rv D :=
  mkRv (rv_pm r) (rv_asked r) x (rv_ATO r) (rv_write_prot r) (rv_disk_ro r) (rv_lbp r) (rv_io_min r)
    (rv_io_opt r) (rv_nonrot r) (rv_flush r).
Definition rv_set_ATO r : rv D :=
  mkRv (rv_pm r) (rv_asked r) (rv_cache r) true (rv_write_prot r) (rv_disk_ro r) (rv_lbp r) (rv_io_min r)
    (rv_io_opt r) (rv_nonrot r) (rv_flush r).
Definition rv_with_wp (wp ro : bool) r : rv D :=
  mkRv (rv_pm r) (rv_asked r) (rv_cache r) (rv_ATO r) wp ro (rv_lbp r) (rv_io_min r)
    (rv_io_opt r) (rv_nonrot r) (rv_flush r).
Definition rv_with_lbp (x : lbp_bits) r : rv D :=
  mkRv (rv_pm r) (rv_asked r) (rv_cache r) (rv_ATO r) (rv_write_prot r) (rv_disk_ro r) x (rv_io_min r)
    (rv_io_opt r) (rv_nonrot r) (rv_flush r).
Definition rv_with_io (mn opt : Z) r : rv D :=
  mkRv (rv_pm r) (rv_asked r) (rv_cache r) (rv_ATO r) (rv_write_prot r) (rv_disk_ro r) (rv_lbp r) mn opt
    (rv_nonrot r) (rv_flush r).
Definition rv_set_nonrot r : rv D :=
  mkRv (rv_pm r) (rv_asked r) (rv_cache r) (rv_ATO r) (rv_write_prot r) (rv_disk_ro r) (rv_lbp r) (rv_io_min r)
    (rv_io_opt r) true (rv_flush r).
Definition rv_with_flush (z : Z) r : rv D :=
  mkRv (rv_pm r) (rv_asked r) (rv_cache r) (rv_ATO r) (rv_write_prot r) (rv_disk_ro r) (rv_lbp r) (rv_io_min r)
    (rv_io_opt r) (rv_nonrot r) z.

Definition rv_cap r : cap D := pm_cap (rv_pm r).
Definition rv_disk r : scsi_disk := cp_disk (rv_cap r).

Definition on_pm {A} (m : K (pm D) A) : K (rv D) A := fun r =>
  match m (rv_pm r) with
  | Ok (a, p') => Ok (a, rv_with_pm p' r)
  | Oops f => Oops f
  end.
Definition on_rcap {A} (m : K (cap D) A) : K (rv D) A := on_pm (on_cap m).
Definition rv_upd_disk (f : scsi_disk -> scsi_disk) : K (rv D) unit :=
  on_rcap (kmod (fun c => cap_disk (f (cp_disk c)) c)).

Lemma wp_on_pm {A} (m : K (pm D) A) Q r : wp m (fun a p' => Q a (rv_with_pm p' r)) (rv_pm r) -> wp (on_pm m) Q r.
Proof. unfold wp, on_pm. by destruct (m (rv_pm r)) as [[a p']|]. Qed.
End Upd.

Definition SD_BUF_SIZE : Z := 512.

(** [buf[off]] *)
Definition kbyte {S} (off : Z) (buf : bytes) : K S Z :=
  b ← kload off 1 buf; mret (cdb_byte b 0).

(** A buffer that a transfer begins to fill with [ans]. *)
Definition received (ans buf : bytes) : bytes := take (length buf) (ans ++ drop (length ans) buf).

Section Code.
Context {D : Type} `{ScsiLower D} `{!ModeSense D}.
Variable cfg : ms_config.

(** ** Mode pages *)

(** Only the first [len] bytes of the buffer are asked for. *)
Definition sd_do_mode_sense (dbd modepage : Z) (buffer : bytes) (len : Z)
    : K (rv D) (Z * scsi_mode_data * bytes) :=
  r ← kget;
  let '(d, (res, data, ans)) := scsi_mode_sense (cp_dev (rv_cap r)) dbd modepage len in
  on_rcap (kmod (cap_dev d));;
  mret (res, data, received (take (Z.to_nat len) ans) buffer).

Variable scsi_status_is_good : Z -> bool.

Definition sd_read_write_protect_flag (buffer : bytes) : K (rv D) bytes :=
  kmod (fun r => rv_with_wp (rv_write_prot r) false r);;
  if skip_ms_page_3f cfg then mret buffer else
  x ← (if use_192_bytes_for_3f cfg then sd_do_mode_sense 0 0x3f buffer 192 else
       x ← sd_do_mode_sense 0 0x3f buffer 4;
       x ← (if scsi_status_is_good (fst (fst x)) then mret x else sd_do_mode_sense 0 0 (snd x) 4);
       if scsi_status_is_good (fst (fst x)) then mret x else sd_do_mode_sense 0 0x3f (snd x) 255);
  let '(res, data, buffer) := x in
  (if negb (scsi_status_is_good res) then mret tt
   else let wp := negb (Z.land (md_device_specific data) 0x80 =? 0) in kmod (rv_with_wp wp wp));;
  mret buffer.

(** Which page to ask for, with which [dbd] and how many bytes at first; nothing where
    the defaults are used without asking. *)
Definition cache_page : option (Z * Z * Z) :=
  if skip_ms_page_8 cfg then
    if type_rbc cfg then None
    else if skip_ms_page_3f cfg then None
    else Some (0x3f, 0, if use_192_bytes_for_3f cfg then 192 else 4)
  else if type_rbc cfg then Some (6, 8, 4)
  else Some (8, 0, 4).

Definition cache_defaults : K (rv D) unit := kmod (rv_with_cache (mkCache (wce_default_on cfg) false false)).

Inductive walked := PageAt (page_code offset : Z) | WalkEnd (offset : Z) | Incomplete.

(** The loop over the pages of the answer. *)
Fixpoint cache_walk (fuel : nat) (buffer : bytes) (len offset : Z) : K (rv D) walked :=
  match fuel with
  | O => kfail Hang
  | S f =>
      if negb (offset <? len) then mret (WalkEnd offset) else
      b ← kbyte offset buffer;
      let page_code := Z.land b 0x3f in
      let spf := Z.land b 0x40 in
      if (page_code =? 8) || (page_code =? 6) then
        if len - offset <=? 2 then mret Incomplete else mret (PageAt page_code offset)
      else if c_true spf && (3 <? len - offset) then
        b2 ← kbyte (offset + 2) buffer;
        b3 ← kbyte (offset + 3) buffer;
        cache_walk f buffer len (offset + (4 + Z.shiftl b2 8 + b3))
      else if negb (c_true spf) && (1 <? len - offset) then
        b1 ← kbyte (offset + 1) buffer;
        cache_walk f buffer len (offset + (2 + b1))
      else mret Incomplete
  end.

(** From the label [Page_found] on. *)
Definition page_found (data : scsi_mode_data) (buffer : bytes) (modepage offset : Z) : K (rv D) unit :=
  b ← kbyte (offset + 2) buffer;
  r ← kget;
  let dpofua := negb (Z.land (md_device_specific data) 0x10 =? 0) in
  let dpofua := dpofua && use_10_for_rw (sk_device (rv_disk r)) in
  kmod (rv_with_cache (if modepage =? 8
                       then mkCache (negb (Z.land b 0x04 =? 0)) (negb (Z.land b 0x01 =? 0)) dpofua
                       else mkCache (Z.land b 0x01 =? 0) false dpofua)).

Definition sd_read_cache_type (buffer : bytes) : K (rv D) bytes :=
  match cache_page with
  | None => cache_defaults;; mret buffer
  | Some (modepage, dbd, first_len) =>
      x ← sd_do_mode_sense dbd modepage buffer first_len;
      let '(res, data, buffer) := x in
      if negb (scsi_status_is_good res) then cache_defaults;; mret buffer else
      let '(modepage, first_len) := if md_header_length data =? 0 then (6, 0) else (modepage, first_len) in
      let len := md_length data in
      if len <? 3 then cache_defaults;; mret buffer else
      let len := if SD_BUF_SIZE <? len then SD_BUF_SIZE else len in
      let len := if (modepage =? 0x3f) && use_192_bytes_for_3f cfg then 192 else len in
      x ← (if first_len <? len then sd_do_mode_sense dbd modepage buffer len else mret (res, data, buffer));
      let '(res, data, buffer) := x in
      if negb (scsi_status_is_good res) then cache_defaults;; mret buffer else
      w ← cache_walk (S (Z.to_nat len)) buffer len (md_header_length data + md_block_descriptor_length data);
      match w with
      | Incomplete => cache_defaults
      | PageAt page offset => page_found data buffer page offset
      | WalkEnd offset =>
          if modepage =? 0x3f then cache_defaults else
          b ← kbyte offset buffer;
          if negb (Z.land b 0x3f =? modepage) then cache_defaults
          else page_found data buffer modepage offset
      end;;
      mret buffer
  end.

Definition sd_read_app_tag_own (buffer : bytes) : K (rv D) bytes :=
  if negb (type_disk cfg) then mret buffer else
  r ← kget;
  if protection_type (rv_cap r) =? 0 then mret buffer else
  x ← sd_do_mode_sense 1 0x0a buffer 36;
  let '(res, data, buffer) := x in
  if negb (scsi_status_is_good res) || (md_header_length data =? 0) || (md_length data <? 6) then mret buffer else
  let offset := md_header_length data + md_block_descriptor_length data in
  b ← kbyte offset buffer;
  if negb (Z.land b 0x3f =? 0x0a) then mret buffer else
  b5 ← kbyte (offset + 5) buffer;
  if Z.land b5 0x80 =? 0 then mret buffer else
  kmod rv_set_ATO;;
  mret buffer.

(** ** VPD pages *)

Definition INQUIRY : Z := 0x12.
Definition MAINTENANCE_IN : Z := 0xa3.
Definition MI_REPORT_SUPPORTED_OPERATION_CODES : Z := 0x0c.
Definition SCSI_SPC_3 : Z := 6.

Definition inquiry_cmd (page len : Z) : bytes :=
  byte.of_Z <$> [INQUIRY; 1; page; Z.shiftr len 8; Z.land len 0xff; 0].

(** A command that reads into the whole buffer. *)
Definition rv_exec_in (cmd buffer : bytes) (timeout retries : Z) : K (rv D) (Z * scsi_sense_hdr * bytes) :=
  r ← kget;
  let '(d, (res, sshdr, ans)) :=
    scsi_execute_req (cp_dev (rv_cap r)) cmd DMA_FROM_DEVICE buffer timeout retries in
  on_rcap (kmod (cap_dev d));;
  kmod (rv_ask cmd);;
  mret (res, sshdr, received ans buffer).

Definition scsi_vpd_inquiry (buffer : bytes) (page : Z) : K (rv D) (Z * bytes) :=
  x ← rv_exec_in (inquiry_cmd page (zlen buffer)) buffer (30 * HZ) 3;
  let '(result, _, buffer) := x in
  if c_true result then mret (result, buffer) else
  b ← kbyte 1 buffer;
  if negb (b =? page) then mret (- EIO, buffer) else mret (0, buffer).

(** The first of the [n] listed page codes, from index [i], that is [page]. *)
Fixpoint vpd_search (n : nat) (i : Z) (buf : bytes) (page : Z) : K (rv D) (bool * Z) :=
  match n with
  | O => mret (false, i)
  | S n' =>
      b ← kbyte (i + 4) buf;
      if b =? page then mret (true, i) else vpd_search n' (i + 1) buf page
  end.

Definition scsi_get_vpd_page (page : Z) (buf : bytes) : K (rv D) (Z * bytes) :=
  let buf_len := zlen buf in
  x ← scsi_vpd_inquiry buf 0;
  let '(result, buf) := x in
  if c_true result then mret (- EINVAL, buf) else
  if page =? 0 then mret (0, buf) else
  b3 ← kbyte 3 buf;
  y ← vpd_search (Z.to_nat (Z.min b3 (buf_len - 4))) 0 buf page;
  let '(listed, i) := y in
  if (listed : bool) || ((i <? b3) && (buf_len - 4 <=? i)) then
    x ← scsi_vpd_inquiry buf page;
    let '(result, buf) := x in
    if c_true result then mret (- EINVAL, buf) else mret (0, buf)
  else mret (- EINVAL, buf).

(** The scratch buffer is cleared first. *)
Definition scsi_report_opcode (buffer : bytes) (opcode : Z) : K (rv D) (bool * bytes) :=
  if no_report_opcodes cfg || (ms_scsi_level cfg <? SCSI_SPC_3) then mret (false, buffer) else
  let cmd := put_be32 (zlen buffer) 6
    (put [(0%nat, MAINTENANCE_IN); (1%nat, MI_REPORT_SUPPORTED_OPERATION_CODES); (2%nat, 1); (3%nat, opcode)]
       (fill 16 Byte.x00)) in
  x ← rv_exec_in cmd (fill (zlen buffer) Byte.x00) (30 * HZ) 3;
  let '(result, sshdr, buffer) := x in
  if c_true result && scsi_sense_valid sshdr && (sense_key sshdr =? ILLEGAL_REQUEST)
     && ((asc sshdr =? 0x20) || (asc sshdr =? 0x24)) && (ascq sshdr =? 0)
  then mret (false, buffer) else
  b ← kbyte 1 buffer;
  mret (Z.land b 3 =? 3, buffer).

Definition disk_block_limits (ws unmap gran align : Z) (k : scsi_disk) : scsi_disk :=
  mkDiskState (sk_device k) (sk_limits k) (get_capacity k) (provisioning_mode k) (lbprz k) align gran
    (physical_block_size k) unmap ws (ws16 k) (medium_access_timed_out k) (max_medium_access_timeouts k).

(** What the Block Limits page and the provisioning bits say about discard. *)
Definition discard_mode (lbp : lbp_bits) (max_unmap : Z) : lbp_mode :=
  if negb (lbpvpd lbp) then if c_true max_unmap then SD_LBP_UNMAP else SD_LBP_WS16
  else if lbpu lbp && c_true max_unmap then SD_LBP_UNMAP
  else if lbpws lbp then SD_LBP_WS16
  else if lbpws10 lbp then SD_LBP_WS10
  else SD_LBP_DISABLE.

(** [alloc] is the fresh buffer, if there is memory for one. *)
Definition sd_read_block_limits (alloc : option bytes) : K (rv D) unit :=
  r ← kget;
  let sector_sz := sector_size (sk_device (rv_disk r)) in
  match alloc with
  | None => mret tt
  | Some buf =>
      x ← scsi_get_vpd_page 0xb0 buf;
      let '(res, buffer) := x in
      if c_true res then mret tt else
      kmod (rv_with_io (u32 (be16 buffer 6 * sector_sz))
              (u32 (get_be32 buffer 12 * sector_sz)));;
      if negb (cdb_byte buffer 3 =? 0x3c) then mret tt else
      let ws := u32 (get_be64 buffer 36) in
      r ← kget;
      let k := rv_disk r in
      rv_upd_disk (disk_block_limits ws (max_unmap_blocks k) (unmap_granularity k) (unmap_alignment k));;
      if negb (lbpme (rv_cap r)) then mret tt else
      let unmap := if c_true (get_be32 buffer 20) && c_true (get_be32 buffer 24)
                   then get_be32 buffer 20 else max_unmap_blocks k in
      let align := if negb (Z.land (cdb_byte buffer 32) 0x80 =? 0)
                   then Z.land (get_be32 buffer 32) 0x7fffffff else unmap_alignment k in
      rv_upd_disk (disk_block_limits ws unmap (get_be32 buffer 28) align);;
      rv_upd_disk (fun k => sd_config_discard k (discard_mode (rv_lbp r) unmap))
  end.

Definition sd_read_block_characteristics (alloc : option bytes) : K (rv D) unit :=
  match alloc with
  | None => mret tt
  | Some buf =>
      x ← scsi_get_vpd_page 0xb1 buf;
      let '(res, buffer) := x in
      if c_true res then mret tt else
      if be16 buffer 4 =? 1 then kmod rv_set_nonrot else mret tt
  end.

Definition sd_read_block_provisioning (alloc : option bytes) : K (rv D) unit :=
  r ← kget;
  if negb (lbpme (rv_cap r)) then mret tt else
  match alloc with
  | None => mret tt
  | Some buf =>
      x ← scsi_get_vpd_page 0xb2 buf;
      let '(res, buffer) := x in
      if c_true res then mret tt else
      let b5 := cdb_byte buffer 5 in
      kmod (rv_with_lbp (mkLbp true (Z.testbit b5 7) (Z.testbit b5 6) (Z.testbit b5 5)))
  end.

Definition disk_ws16 (b : bool) (k : scsi_disk) : scsi_disk :=
  mkDiskState (sk_device k) (sk_limits k) (get_capacity k) (provisioning_mode k) (lbprz k) (unmap_alignment k)
    (unmap_granularity k) (physical_block_size k) (max_unmap_blocks k) (max_ws_blocks k) b
    (medium_access_timed_out k) (max_medium_access_timeouts k).

Definition sd_read_write_same (buffer : bytes) : K (rv D) bytes :=
  x ← scsi_report_opcode buffer WRITE_SAME_16;
  let '(ok, buffer) := x in
  (if (ok : bool) then rv_upd_disk (disk_ws16 true) else mret tt);;
  mret buffer.

Definition sd_try_extended_inquiry : bool := (SCSI_SPC_2 <? ms_scsi_level cfg) && negb (skip_vpd_pages cfg).

(** ** All of it *)

Variable pcfg : pm_config.
Variable ccfg : cap_config.
Variable busy : D -> Z.

Definition cap_scanned (c : cap D) : cap D :=
  mkCap (cp_dev c) (cp_disk c) (sd_capacity c) (media_present c) false (lbpme c) (protection_type c)
    (alignment_offset c) (queue_logical_block_size c) (queue_physical_block_size c).

(** How flush requests are dealt with. *)
Definition flush_of (x : cache_type) : Z :=
  if sd_WCE x then Z.lor REQ_FLUSH (if sd_DPOFUA x then REQ_FUA else 0) else 0.

(** [mem] is the buffer as the mode pages find it (there may be no memory for one), the
    others are those for the VPD pages. *)
Definition sd_revalidate_disk (mem vpd_lbp vpd_limits vpd_chars : option bytes) : K (rv D) Z :=
  r ← kget;
  if negb (scsi_device_online (pm_base (rv_pm r))) then mret 0 else
  match mem with
  | None => mret 0
  | Some buffer =>
      on_pm (sd_spinup_disk pcfg busy scsi_status_is_good);;
      r ← kget;
      (if media_present (rv_cap r) then
         on_rcap (sd_read_capacity ccfg);;
         (if sd_try_extended_inquiry then
            sd_read_block_provisioning vpd_lbp;;
            sd_read_block_limits vpd_limits;;
            sd_read_block_characteristics vpd_chars
          else mret tt);;
         buffer ← sd_read_write_protect_flag buffer;
         buffer ← sd_read_cache_type buffer;
         buffer ← sd_read_app_tag_own buffer;
         sd_read_write_same buffer;;
         mret tt
       else mret tt);;
      on_rcap (kmod cap_scanned);;
      r ← kget;
      kmod (rv_with_flush (flush_of (rv_cache r)));;
      rv_upd_disk (set_capacity (sd_capacity (rv_cap r)));;
      rv_upd_disk sd_config_write_same;;
      mret 0
  end.
End Code.

(** ** Reading bytes *)

Lemma wp_kbyte {S} off buf (Q : Z -> S -> Prop) s b :
  0 <= off -> buf !! Z.to_nat off = Some b -> Q (byte.unsigned b) s -> wp (kbyte off buf) Q s.
Proof.
  intros Ho Hb HQ. pose proof (lookup_lt_Some _ _ _ Hb) as Hlt. unfold kbyte. kstep.
  apply wp_load; [done|lia|unfold zlen; lia|]. kstep. unfold cdb_byte. rewrite lookup_slice, decide_True by lia.
  rewrite Nat.add_0_r, Hb. exact HQ.
Qed.

Lemma wp_kbyte_at {S} off buf (Q : Z -> S -> Prop) s :
  0 <= off < zlen buf ->
  (0 <= cdb_byte buf (Z.to_nat off) < 256 -> Q (cdb_byte buf (Z.to_nat off)) s) -> wp (kbyte off buf) Q s.
Proof.
  intros Ho HQ. destruct (lookup_lt_is_Some_2 buf (Z.to_nat off)) as [b Hb]; [unfold zlen in Ho; lia|].
  eapply wp_kbyte; [lia|exact Hb|]. unfold cdb_byte in HQ. rewrite Hb in HQ. apply HQ. apply byte.unsigned_range.
Qed.

Lemma length_received ans buf : length (received ans buf) = length buf.
Proof. unfold received. rewrite length_take, length_app, length_drop. lia. Qed.
Lemma zlen_received ans buf : zlen (received ans buf) = zlen buf.
Proof. unfold zlen. by rewrite length_received. Qed.

Lemma received_lookup ans buf i : (i < length ans)%nat -> (i < length buf)%nat -> received ans buf !! i = ans !! i.
Proof. intros H1 H2. unfold received. rewrite lookup_take, decide_True by lia. by rewrite lookup_app_l. Qed.

Lemma received_prefix ans buf : (length ans <= length buf)%nat -> exists rest, received ans buf = ans ++ rest.
Proof.
  intros Hl. exists (drop (length ans) buf). unfold received. apply take_ge. rewrite length_app, length_drop. lia.
Qed.

(** ** The walk over the pages ends inside the data *)

(** From a page that is not a caching page to the next. *)
Inductive page_step (buf : bytes) (len : Z) : Z -> Z -> Prop :=
  | step_page off :
      off + 1 < len -> Z.land (cdb_byte buf (Z.to_nat off)) 0x3f <> 8 -> Z.land (cdb_byte buf (Z.to_nat off)) 0x3f <> 6 ->
      Z.land (cdb_byte buf (Z.to_nat off)) 0x40 = 0 ->
      page_step buf len off (off + (2 + cdb_byte buf (Z.to_nat (off + 1))))
  | step_subpage off :
      off + 3 < len -> Z.land (cdb_byte buf (Z.to_nat off)) 0x3f <> 8 -> Z.land (cdb_byte buf (Z.to_nat off)) 0x3f <> 6 ->
      Z.land (cdb_byte buf (Z.to_nat off)) 0x40 <> 0 ->
      page_step buf len off
        (off + (4 + Z.shiftl (cdb_byte buf (Z.to_nat (off + 2))) 8 + cdb_byte buf (Z.to_nat (off + 3)))).

Section Walk.
Context {D : Type}.

Lemma wp_cache_walk_ends buffer len : forall fuel offset (r : rv D),
  0 <= offset -> Z.max 0 (len - offset) < Z.of_nat fuel -> len <= zlen buffer ->
  wp (cache_walk fuel buffer len offset)
     (fun w r' => r' = r /\
        match w with
        | PageAt page off => (page = 8 \/ page = 6) /\ offset <= off /\ off + 2 < len
        | WalkEnd off => len <= off /\ rtc (page_step buffer len) offset off
        | Incomplete => True
        end) r.
Proof.
  induction fuel as [|fuel IH]; intros offset r Ho Hf Hl; [lia|]. cbn [cache_walk].
  destruct (Z.ltb_spec offset len) as [Hlt|Hge]; cbn [negb]; [|kstep; split_and!; [done|lia|done]].
  kstep. apply wp_kbyte_at; [lia|]. intros Hb. cbv zeta. set (b := cdb_byte buffer _) in *.
  destruct ((Z.land b 0x3f =? 8) || (Z.land b 0x3f =? 6)) eqn:Epg.
  { apply orb_prop in Epg. rewrite !Z.eqb_eq in Epg.
    destruct (Z.leb_spec (len - offset) 2); kstep; (split; [done|]); [done|]. lia. }
  apply orb_false_elim in Epg as [N8%Z.eqb_neq N6%Z.eqb_neq].
  unfold c_true. destruct (Z.eqb_spec (Z.land b 0x40) 0) as [Hs|Hs]; cbn [negb andb].
  - destruct (Z.ltb_spec 1 (len - offset)); [|by kstep].
    kstep. apply wp_kbyte_at; [lia|]. intros Hb1.
    eapply wp_mono; [apply IH; lia|]. cbv beta. intros [p off|off|] r' [-> Hw]; (split; [done|]); [lia| |done].
    destruct Hw. split; [done|]. eapply rtc_l; [apply step_page; done || lia|done].
  - destruct (Z.ltb_spec 3 (len - offset)); [|by kstep].
    kstep. apply wp_kbyte_at; [lia|]. intros Hb2. kstep. apply wp_kbyte_at; [lia|]. intros Hb3.
    assert (0 <= Z.shiftl (cdb_byte buffer (Z.to_nat (offset + 2))) 8) by (rewrite Z.shiftl_nonneg; lia).
    eapply wp_mono; [apply IH; lia|]. cbv beta. intros [p off|off|] r' [-> Hw]; (split; [done|]); [lia| |done].
    destruct Hw. split; [done|]. eapply rtc_l; [apply step_subpage; done || lia|done].
Qed.
End Walk.

(** ** Mode pages as the standard lays them out *)

Inductive mode_page :=
  | Page (code : Z) (body : bytes)
  | SubPage (code sub : Z) (body : bytes).

Definition encode_page (p : mode_page) : bytes :=
  match p with
  | Page code body => byte.of_Z code :: byte.of_Z (zlen body) :: body
  | SubPage code sub body =>
      byte.of_Z (Z.lor code 0x40) :: byte.of_Z sub :: byte.of_Z (Z.shiftr (zlen body) 8)
        :: byte.of_Z (Z.land (zlen body) 0xff) :: body
  end.

(** A page that is not a caching page. *)
Definition other_page (p : mode_page) : Prop :=
  match p with
  | Page code body => 0 <= code < 64 /\ code <> 8 /\ code <> 6 /\ zlen body < 256
  | SubPage code _ body => 0 <= code < 64 /\ code <> 8 /\ code <> 6 /\ zlen body < 65536
  end.

Definition encode_pages (l : list mode_page) : bytes := concat (encode_page <$> l).

Lemma lookup_at (pre l : bytes) off i :
  off = zlen pre -> 0 <= i -> (pre ++ l) !! Z.to_nat (off + i) = l !! Z.to_nat i.
Proof.
  intros -> Hi. unfold zlen. rewrite lookup_app_r by lia. f_equal. lia.
Qed.

Lemma page_bits c : 0 <= c < 64 ->
  Z.land (byte.unsigned (byte.of_Z c)) 0x3f = c /\ Z.land (byte.unsigned (byte.of_Z c)) 0x40 = 0 /\
  Z.land (byte.unsigned (byte.of_Z (Z.lor c 0x40))) 0x3f = c /\
  c_true (Z.land (byte.unsigned (byte.of_Z (Z.lor c 0x40))) 0x40) = true.
Proof.
  intros Hc. assert (forallb (fun n => let c := Z.of_nat n in
    (Z.land (byte.unsigned (byte.of_Z c)) 0x3f =? c) && (Z.land (byte.unsigned (byte.of_Z c)) 0x40 =? 0) &&
    (Z.land (byte.unsigned (byte.of_Z (Z.lor c 0x40))) 0x3f =? c) &&
    c_true (Z.land (byte.unsigned (byte.of_Z (Z.lor c 0x40))) 0x40)) (seq 0 64) = true) as Hall by by vm_compute.
  rewrite forallb_forall in Hall. specialize (Hall (Z.to_nat c)). cbv zeta in Hall. rewrite Z2Nat.id in Hall by lia.
  specialize (Hall ltac:(apply in_seq; lia)).
  apply andb_prop in Hall as [Hall H4]. apply andb_prop in Hall as [Hall H3]. apply andb_prop in Hall as [H1 H2].
  by rewrite !Z.eqb_eq in *.
Qed.

Lemma length_pages pages : (length pages <= length (encode_pages pages))%nat.
Proof.
  unfold encode_pages. induction pages as [|p pages IH]; [done|]. cbn [fmap list_fmap concat length] in *.
  rewrite length_app. destruct p; cbn; lia.
Qed.

Section Find.
Context {D : Type}.

(** One step over a page that is not the one looked for. *)
Lemma walk_over_page fuel pre p post len (r : rv D) Q :
  other_page p -> zlen (pre ++ encode_page p) + 3 <= len ->
  wp (cache_walk fuel (pre ++ encode_page p ++ post) len (zlen (pre ++ encode_page p))) Q r ->
  wp (cache_walk (S fuel) (pre ++ encode_page p ++ post) len (zlen pre)) Q r.
Proof.
  intros Hp Hl Hw. rewrite zlen_app in *. cbn [cache_walk].
  assert (forall i b, 0 <= i -> encode_page p !! Z.to_nat i = Some b ->
    (pre ++ encode_page p ++ post) !! Z.to_nat (zlen pre + i) = Some b) as Hat.
  { intros i b Hi Hb. rewrite (lookup_at pre) by done. by apply lookup_app_l_Some. }
  pose proof (zlen_nonneg pre).
  destruct p as [code body|code sub body]; cbn [other_page] in Hp; destruct Hp as (Hc & H8 & H6 & Hb);
    destruct (page_bits code Hc) as (B1 & B2 & B3 & B4); pose proof (zlen_nonneg body).
  - assert (zlen (encode_page (Page code body)) = 2 + zlen body) as Hz by (unfold zlen; cbn; lia). rewrite Hz in *.
    rewrite (proj2 (Z.ltb_lt _ _)) by lia. cbn [negb]. kstep.
    eapply wp_kbyte; [lia|rewrite <- (Z.add_0_r (zlen pre)); apply Hat; [lia|reflexivity]|].
    rewrite B1, B2, (proj2 (Z.eqb_neq _ _) H8), (proj2 (Z.eqb_neq _ _) H6). cbn [orb c_true Z.eqb negb andb].
    rewrite (proj2 (Z.ltb_lt _ _)) by lia. kstep.
    eapply wp_kbyte; [lia|apply Hat; [lia|reflexivity]|].
    rewrite small_byte by lia. exact Hw.
  - assert (zlen (encode_page (SubPage code sub body)) = 4 + zlen body) as Hz by (unfold zlen; cbn; lia). rewrite Hz in *.
    rewrite (proj2 (Z.ltb_lt _ _)) by lia. cbn [negb]. kstep.
    eapply wp_kbyte; [lia|rewrite <- (Z.add_0_r (zlen pre)); apply Hat; [lia|reflexivity]|].
    rewrite B3, B4, (proj2 (Z.eqb_neq _ _) H8), (proj2 (Z.eqb_neq _ _) H6). cbn [orb andb].
    rewrite (proj2 (Z.ltb_lt _ _)) by lia. kstep.
    eapply wp_kbyte; [lia|apply Hat; [lia|reflexivity]|]. kstep.
    eapply wp_kbyte; [lia|apply Hat; [lia|reflexivity]|].
    assert (0 <= zlen body / 256 < 256) by (split; [apply Z.div_pos|apply Z.div_lt_upper_bound]; lia).
    rewrite !small_byte; [|rewrite Z.land_ones with (n := 8) by lia; apply Z.mod_pos_bound; lia
                          |rewrite Z.shiftr_div_pow2 by lia; done].
    replace (4 + Z.shiftl (Z.shiftr (zlen body) 8) 8 + Z.land (zlen body) 255) with (4 + zlen body); [exact Hw|].
    rewrite Z.shiftl_mul_pow2, Z.shiftr_div_pow2, (Z.land_ones _ 8) by lia.
    change (2 ^ 8) with 256. pose proof (Z.div_mod (zlen body) 256 ltac:(lia)). lia.
Qed.

(** Over all the pages in front, to the caching page. *)
Lemma walk_finds pages : forall fuel pre body post len (r : rv D),
  Forall other_page pages -> (length pages < fuel)%nat ->
  zlen (pre ++ encode_pages pages) + 3 <= len ->
  wp (cache_walk fuel (pre ++ encode_pages pages ++ encode_page (Page 8 body) ++ post) len (zlen pre))
     (fun w r' => r' = r /\ w = PageAt 8 (zlen (pre ++ encode_pages pages))) r.
Proof.
  induction pages as [|p pages IH]; intros fuel pre body post len r Hall Hf Hl; destruct fuel as [|fuel]; try (cbn in Hf; lia).
  - cbn [encode_pages fmap list_fmap concat app] in *. rewrite app_nil_r in *. cbn [cache_walk].
    rewrite (proj2 (Z.ltb_lt _ _)) by lia. cbn [negb]. kstep.
    pose proof (zlen_nonneg pre).
    eapply wp_kbyte; [lia|rewrite <- (Z.add_0_r (zlen pre)), (lookup_at pre) by done; reflexivity|].
    change (Z.land (byte.unsigned (byte.of_Z 8)) 63) with 8. cbn [Z.eqb Pos.eqb orb].
    rewrite (proj2 (Z.leb_gt _ _)) by lia. by kstep.
  - apply Forall_cons in Hall as [Hp Hall]. change (encode_pages (p :: pages)) with (encode_page p ++ encode_pages pages) in *.
    rewrite <- app_assoc. rewrite app_assoc in Hl. pose proof (zlen_nonneg (encode_pages pages)).
    apply walk_over_page; [done|rewrite zlen_app in Hl; lia|].
    rewrite (app_assoc pre (encode_page p)), (app_assoc pre (encode_page p)).
    apply IH; [done|cbn in Hf; lia|done].
Qed.
End Find.

(** A device that answers MODE SENSE with these data. *)
Definition answers {D} `{ModeSense D} (good : Z -> bool) (d : D) (data : scsi_mode_data) (ans : bytes) : Prop :=
  exists res, good res = true /\ forall dbd page len, scsi_mode_sense d dbd page len = (d, (res, data, ans)).

Lemma wp_on_rcap {D A} (m : K (cap D) A) Q (r : rv D) :
  wp m (fun a c' => Q a (rv_with_pm (pm_with_cap c' (rv_pm r)) r)) (rv_cap r) -> wp (on_rcap m) Q r.
Proof. intros Hm. unfold on_rcap. apply wp_on_pm. by apply wp_on_cap. Qed.

Lemma same_dev {D} (r : rv D) : rv_with_pm (pm_with_cap (cap_dev (cp_dev (rv_cap r)) (rv_cap r)) (rv_pm r)) r = r.
Proof. by destruct r as [[[]]]. Qed.

Lemma wp_answered {D} `{ScsiLower D} `{!ModeSense D} data ans res dbd page buffer len (r : rv D) :
  scsi_mode_sense (cp_dev (rv_cap r)) dbd page len = (cp_dev (rv_cap r), (res, data, ans)) ->
  wp (sd_do_mode_sense dbd page buffer len)
     (fun x r' => x = (res, data, received (take (Z.to_nat len) ans) buffer) /\ r' = r) r.
Proof.
  intros Hans. unfold sd_do_mode_sense. do 2 kstep. rewrite Hans. kstep. apply wp_on_rcap. kstep. kstep.
  split; [done|apply same_dev].
Qed.

Lemma sense_ok {D} `{ScsiLower D} `{!ModeSense D} data ans res dbd page buffer len (r : rv D) :
  scsi_mode_sense (cp_dev (rv_cap r)) dbd page len = (cp_dev (rv_cap r), (res, data, ans)) ->
  sd_do_mode_sense dbd page buffer len r = Ok ((res, data, received (take (Z.to_nat len) ans) buffer), r).
Proof.
  intros Hans. destruct (wp_inv _ _ _ (wp_answered _ _ _ _ _ buffer _ _ Hans)) as (x & r' & E & -> & ->). exact E.
Qed.

(** from every answer to MODE SENSE that holds a caching page, behind a header,
    block descriptors and any number of other pages and subpages, [sd_read_cache_type]
    takes the write cache and read cache bits of that page, and uses FUA exactly when the
    device offers it and is not restricted to six byte commands. *)
Theorem caching_page_read {D} `{ScsiLower D} `{!ModeSense D} (cfg : ms_config) (good : Z -> bool) (data : scsi_mode_data)
    (front : bytes) (pages : list mode_page) (b2 : Z) (body post buffer : bytes) (r : rv D) :
  let page := Page 8 (byte.of_Z b2 :: body) in
  let ans := front ++ encode_pages pages ++ encode_page page ++ post in
  skip_ms_page_8 cfg = false -> type_rbc cfg = false -> use_192_bytes_for_3f cfg = false ->
  answers good (cp_dev (rv_cap r)) data ans ->
  md_header_length data <> 0 -> md_header_length data + md_block_descriptor_length data = zlen front ->
  md_length data = zlen ans -> zlen ans <= SD_BUF_SIZE -> zlen buffer = SD_BUF_SIZE ->
  Forall other_page pages -> 0 <= b2 < 256 -> 4 < zlen ans ->
  wp (sd_read_cache_type cfg good buffer)
     (fun _ r' => rv_cache r' = mkCache (negb (Z.land b2 0x04 =? 0)) (negb (Z.land b2 0x01 =? 0))
        (negb (Z.land (md_device_specific data) 0x10 =? 0) && use_10_for_rw (sk_device (rv_disk r)))) r.
Proof.
  intros page ans Hs8 Hrbc H192 (res & Hg & Hans) Hh Hfr Hlen Hmax Hbuf Hpg Hb2 H4.
  unfold sd_read_cache_type, cache_page. rewrite Hs8, Hrbc. kstep.
  eapply wp_mono; [apply wp_answered, Hans|]. cbv beta. intros _ r1 [-> ->]. rewrite Hg. cbn [negb].
  rewrite (proj2 (Z.eqb_neq _ _) Hh). rewrite Hlen, (proj2 (Z.ltb_ge _ _)) by lia.
  rewrite (proj2 (Z.ltb_ge _ _)) by lia. rewrite H192. cbn [Z.eqb Pos.eqb andb].
  rewrite (proj2 (Z.ltb_lt _ _)) by lia. kstep.
  eapply wp_mono; [apply wp_answered, Hans|]. cbv beta. intros _ r1 [-> ->]. rewrite Hg. cbn [negb]. kstep.
  assert (take (Z.to_nat (zlen ans)) ans = ans) as -> by (unfold zlen; rewrite Nat2Z.id; by apply take_ge).
  destruct (received_prefix ans (received (take (Z.to_nat 4) ans) buffer)) as [rest ->].
  { rewrite length_received. unfold zlen in *. lia. }
  assert (ans ++ rest = front ++ encode_pages pages ++ encode_page page ++ post ++ rest) as ->
    by (unfold ans; by rewrite <- !app_assoc).
  pose proof (length_pages pages) as Hlp. rewrite Hfr.
  assert (zlen ans = zlen (front ++ encode_pages pages) + (3 + zlen body) + zlen post) as Hz
    by (unfold ans, zlen; rewrite !length_app; cbn; lia).
  pose proof (zlen_nonneg body). pose proof (zlen_nonneg post).
  eapply wp_mono; [apply walk_finds; [done| |lia]|].
  { rewrite zlen_app in Hz. pose proof (zlen_nonneg front). unfold zlen in *. lia. }
  cbv beta. intros w r1 [-> ->]. kstep. unfold page_found. kstep. rewrite app_assoc.
  eapply wp_kbyte; [pose proof (zlen_nonneg (front ++ encode_pages pages)); lia|rewrite lookup_at by done; reflexivity|].
  rewrite small_byte by done. cbn [Z.eqb Pos.eqb]. by do 4 kstep.
Qed.

(** ** VPD pages *)

(** What everything after [sd_read_capacity] leaves as it is. *)
Definition settled {D} (r r' : rv D) : Prop :=
  sd_capacity (rv_cap r') = sd_capacity (rv_cap r) /\ same_device (rv_cap r) (rv_cap r').

Lemma settled_trans {D} (r1 r2 r3 : rv D) : settled r1 r2 -> settled r2 r3 -> settled r1 r3.
Proof. intros [E1 [E2 E3]] [E4 [E5 E6]]. split; [congruence|split; congruence]. Qed.

(** Whether the list of pages in [buf] has [page], or does not fit the buffer. *)
Definition vpd_listed (buf : bytes) (page : Z) : bool :=
  existsb (fun b => byte.unsigned b =? page) (take (Z.to_nat (Z.min (cdb_byte buf 3) (zlen buf - 4))) (drop 4 buf))
  || (zlen buf - 4 <? cdb_byte buf 3).

Section Vpd.
Context {D : Type} `{ScsiLower D}.
Implicit Types r : rv D.

Lemma wp_vpd_search buf page : forall n i r,
  0 <= i -> i + 4 + Z.of_nat n <= zlen buf ->
  wp (vpd_search n i buf page)
     (fun x r' => r' = r /\ fst x = existsb (fun b => byte.unsigned b =? page) (take n (drop (Z.to_nat (4 + i)) buf)) /\
        (fst x = false -> snd x = i + Z.of_nat n)) r.
Proof.
  induction n as [|n IH]; intros i r Hi Hl; cbn [vpd_search].
  { kstep. split_and!; [done|done|cbn; lia]. }
  destruct (lookup_lt_is_Some_2 buf (Z.to_nat (i + 4))) as [b Hb]; [unfold zlen in Hl; lia|].
  kstep. eapply wp_kbyte; [lia|exact Hb|].
  assert (drop (Z.to_nat (4 + i)) buf = b :: drop (Z.to_nat (4 + (i + 1))) buf) as Hdr.
  { replace (Z.to_nat (4 + (i + 1))) with (S (Z.to_nat (4 + i))) by lia. apply drop_S.
    by replace (Z.to_nat (4 + i)) with (Z.to_nat (i + 4)) by lia. }
  rewrite Hdr. cbn [take existsb]. destruct (byte.unsigned b =? page); cbn [orb]; [by kstep|].
  eapply wp_mono; [apply IH; lia|]. cbv beta. intros x r' (-> & E1 & E2). split_and!; [done|done|]. intros Hx.
  rewrite E2 by done. lia.
Qed.

(** The reply to a command on the device of [r]. *)
Definition reply r (cmd buf : bytes) : Z * bytes :=
  let '(_, (res, _, ans)) := scsi_execute_req (cp_dev (rv_cap r)) cmd DMA_FROM_DEVICE buf (30 * HZ) 3 in
  (res, received ans buf).

Lemma wp_exec_in cmd buf timeout retries r :
  wp (rv_exec_in cmd buf timeout retries)
     (fun x r' => rv_asked r' = rv_asked r ++ [cmd] /\ settled r r' /\
        (exists d res h ans, scsi_execute_req (cp_dev (rv_cap r)) cmd DMA_FROM_DEVICE buf timeout retries = (d, (res, h, ans)) /\
           x = (res, h, received ans buf))) r.
Proof.
  unfold rv_exec_in. do 2 kstep. destruct (scsi_execute_req _ _ _ _ _ _) as [d [[res h] ans]]. kstep.
  apply wp_on_rcap. do 4 kstep. split_and!; [done|done|]. by exists d, res, h, ans.
Qed.

Lemma wp_vpd_inquiry buf page r :
  2 <= zlen buf ->
  wp (scsi_vpd_inquiry buf page)
     (fun x r' => rv_asked r' = rv_asked r ++ [inquiry_cmd page (zlen buf)] /\ settled r r' /\
        snd x = snd (reply r (inquiry_cmd page (zlen buf)) buf) /\ zlen (snd x) = zlen buf /\
        (fst x = 0 <-> fst (reply r (inquiry_cmd page (zlen buf)) buf) = 0 /\ cdb_byte (snd x) 1 = page)) r.
Proof.
  intros Hl. unfold scsi_vpd_inquiry, reply. kstep. eapply wp_mono; [apply wp_exec_in|]. cbv beta.
  intros x r1 (Ha & Hs & d & res & h & ans & -> & ->).
  unfold c_true. destruct (Z.eqb_spec res 0) as [->|Hr]; cbn [negb].
  - kstep. apply wp_kbyte_at; [rewrite zlen_received; lia|]. intros _. change (Z.to_nat 1) with 1%nat.
    destruct (Z.eqb_spec (cdb_byte (received ans buf) 1) page) as [E|E]; cbn [negb]; kstep; cbn [fst snd];
      (split_and!; [done|done|done|apply zlen_received|]).
    + by split.
    + split; [unfold EIO; lia|by intros [_ ?]].
  - kstep. cbn [fst snd]. split_and!; [done|done|done|apply zlen_received|]. split; [done|by intros [? _]].
Qed.
Lemma wp_get_vpd_page page buf r :
  4 <= zlen buf -> page <> 0 ->
  wp (scsi_get_vpd_page page buf)
     (fun x r' => let '(res, buf') := x in settled r r' /\
        let '(res0, buf0) := reply r (inquiry_cmd 0 (zlen buf)) buf in
        let ask := (res0 =? 0) && (cdb_byte buf0 1 =? 0) && vpd_listed buf0 page in
        rv_asked r' = rv_asked r ++ inquiry_cmd 0 (zlen buf) :: (if ask then [inquiry_cmd page (zlen buf)] else []) /\
        zlen buf' = zlen buf /\ (res = 0 \/ res = - EINVAL) /\
        (res = 0 -> ask = true /\ cdb_byte buf' 1 = page)) r.
Proof.
  intros Hl Hp. unfold scsi_get_vpd_page. cbv zeta. kstep. eapply wp_mono; [apply wp_vpd_inquiry; lia|]. cbv beta.
  intros [result buf1] r1 (Ha & Hs & Eb & Hz & Hres). cbn [fst snd] in *.
  destruct (reply r _ buf) as [res0 buf0]. cbn [fst snd] in *. subst buf1.
  unfold c_true at 1. destruct (Z.eqb_spec result 0) as [->|Hne]; cbn [negb].
  2:{ kstep. split_and!; [done| |done|by right|unfold EINVAL; lia].
      destruct (Z.eqb_spec res0 0), (Z.eqb_spec (cdb_byte buf0 1) 0); cbn [andb]; try done. exfalso. apply Hne. by apply Hres. }
  destruct Hres as [Hres _]. destruct (Hres eq_refl) as [-> E1]. rewrite E1, (proj2 (Z.eqb_neq _ _) Hp).
  change ((0 =? 0) && (0 =? 0)) with true. cbn [andb].
  kstep. apply wp_kbyte_at; [lia|]. change (Z.to_nat 3) with 3%nat. intros Hb3.
  kstep. eapply wp_mono; [apply wp_vpd_search; lia|]. cbv beta. intros [listed i] r2 (-> & Els & Ei). cbn [fst snd] in *.
  change (Z.to_nat (4 + 0)) with 4%nat in Els.
  assert (listed || ((i <? cdb_byte buf0 3) && (zlen buf - 4 <=? i)) = vpd_listed buf0 page) as ->.
  { unfold vpd_listed. rewrite Hz, <- Els. destruct listed; [done|]. cbn [orb]. rewrite (Ei eq_refl), Z2Nat.id by lia.
    destruct (Z.ltb_spec (zlen buf - 4) (cdb_byte buf0 3)); apply andb_true_iff || apply andb_false_iff;
      rewrite ?Z.ltb_lt, ?Z.leb_le, ?Z.ltb_ge, ?Z.leb_gt; lia. }
  destruct (vpd_listed buf0 page).
  2:{ kstep. split_and!; [done|done|done|by right|unfold EINVAL; lia]. }
  kstep. eapply wp_mono; [apply wp_vpd_inquiry; lia|]. cbv beta. intros [res2 buf2] r3 (Ha3 & Hs3 & Eb3 & Hz3 & Hres3).
  cbn [fst snd] in *. rewrite Ha, <- app_assoc, Hz in Ha3. cbn [app] in Ha3.
  unfold c_true. destruct (Z.eqb_spec res2 0) as [->|Hne]; cbn [negb]; kstep; (split_and!; [by eapply settled_trans|exact Ha3|congruence| |]).
  - by left.
  - intros _. split; [done|]. by apply Hres3.
  - by right.
  - unfold EINVAL. lia.
Qed.
End Vpd.

(** [scsi_get_vpd_page] stays inside its buffer, first asks for the list of pages,
    and asks for the page itself exactly when the list came back and has it (or is longer
    than the buffer); a result of 0 means that the buffer holds the page that was asked
    for, everything else is [-EINVAL]. *)
Theorem vpd_page_as_listed {D} `{ScsiLower D} (page : Z) (buf : bytes) (r : rv D) :
  4 <= zlen buf -> page <> 0 ->
  wp (scsi_get_vpd_page page buf)
     (fun x r' => let '(res, buf') := x in
        let '(res0, buf0) := reply r (inquiry_cmd 0 (zlen buf)) buf in
        let ask := (res0 =? 0) && (cdb_byte buf0 1 =? 0) && vpd_listed buf0 page in
        rv_asked r' = rv_asked r ++ inquiry_cmd 0 (zlen buf) :: (if ask then [inquiry_cmd page (zlen buf)] else []) /\
        zlen buf' = zlen buf /\ (res = 0 \/ res = - EINVAL) /\
        (res = 0 -> ask = true /\ cdb_byte buf' 1 = page)) r.
Proof.
  intros Hl Hp. eapply wp_mono; [by apply wp_get_vpd_page|]. cbv beta. by intros [res buf'] r' [_ Hx].
Qed.

(** A device for the executions below: what it answers to each command and to MODE
    SENSE. *)
Record ms_device := mkMsDev {
  ms_reply : bytes -> bytes;
  ms_data : scsi_mode_data;
  ms_ans : bytes
}.

#[global] Instance ms_lower : ScsiLower ms_device := {|
  HZ := 100;
  scsi_execute := fun d cmd _ _ _ _ => (d, mkReply 0 [] (ms_reply d cmd));
  scsi_execute_req := fun d cmd _ _ _ _ => (d, (0, no_sense_hdr, ms_reply d cmd));
  scsi_normalize_sense := fun _ => no_sense_hdr;
  scsi_sense_valid := fun h => negb (response_code h =? 0)
|}.
#[global] Instance ms_mode_sense : ModeSense ms_device := {|
  scsi_mode_sense := fun d _ _ _ => (d, (0, ms_data d, ms_ans d))
|}.

Definition demo_rv (d : ms_device) : rv ms_device :=
  mkRv (mkPm (demo_cap d 0 true) 0 [] 1 1 0 0 false) [] (mkCache false false false) false false false
    (mkLbp false false false false) 0 0 false 0.
Definition demo_ms : ms_config := mkMsCfg false false false false true false false false 6.
Definition demo_good (res : Z) : bool := res =? 0.

(** Answers to READ CAPACITY(10) and to INQUIRY for the pages 0, 0xb0 and 0xb1. *)
Definition demo_reply (cmd : bytes) : bytes :=
  if cdb_byte cmd 0 =? INQUIRY then
    if cdb_byte cmd 2 =? 0 then byte.of_Z <$> [0; 0; 0; 3; 0; 0xb0; 0xb1]
    else byte.of_Z <$> [0; cdb_byte cmd 2; 0; 0x3c; 0; 1]
  else rc10_answer 0x3fffffff.

(** A mode header of four bytes, a recovery page and a caching page with the write cache on. *)
Definition demo_page : bytes := byte.of_Z <$> [4; 0; 0; 0; 0; 0; 0; 0; 0].
Definition demo_ans : bytes :=
  (byte.of_Z <$> [15; 0; 0x10; 0]) ++ encode_pages [Page 1 (byte.of_Z <$> [1; 2; 3])] ++ encode_page (Page 8 demo_page).
Definition demo_msdev : ms_device := mkMsDev demo_reply (mkModeData (zlen demo_ans) 0 4 0x10) demo_ans.

Lemma caching_page_read_witness :
  exists b r', sd_read_cache_type demo_ms demo_good (fill SD_BUF_SIZE Byte.x00) (demo_rv demo_msdev) = Ok (b, r') /\
               rv_cache r' = mkCache true false true.
Proof.
  destruct (wp_inv _ _ _ (caching_page_read demo_ms demo_good (mkModeData (zlen demo_ans) 0 4 0x10)
    (byte.of_Z <$> [15; 0; 0x10; 0]) [Page 1 (byte.of_Z <$> [1; 2; 3])] 4 (drop 1 demo_page) []
    (fill SD_BUF_SIZE Byte.x00) (demo_rv demo_msdev) eq_refl eq_refl eq_refl
    ltac:(exists 0; by split) ltac:(done) eq_refl eq_refl ltac:(by vm_compute) eq_refl
    ltac:(repeat constructor; by vm_compute) ltac:(lia) ltac:(by vm_compute))) as (b & r' & E & Hc).
  exists b, r'. split; [exact E|exact Hc].
Defined.

Lemma vpd_page_as_listed_witness :
  exists res buf' r', scsi_get_vpd_page 0xb1 (fill 64 Byte.x00) (demo_rv demo_msdev) = Ok ((res, buf'), r') /\
    rv_asked r' = [inquiry_cmd 0 64; inquiry_cmd 0xb1 64] /\ res = 0.
Proof.
  destruct (wp_inv _ _ _ (vpd_page_as_listed 0xb1 (fill 64 Byte.x00) (demo_rv demo_msdev)
    ltac:(by vm_compute) ltac:(done))) as ([res buf'] & r' & E & Ha & _).
  exists res, buf', r'. split; [exact E|]. split; [exact Ha|]. vm_compute in E. by inversion E.
Defined.

(** ** Reads behind the buffer *)

Lemma bind_ok {S A B} (m : K S A) (k : A -> K S B) s a s' : m s = Ok (a, s') -> (x ← m; k x) s = k a s'.
Proof. intros E. unfold mbind, K_bind. by rewrite E. Qed.
Lemma bind_oops {S A B} (m : K S A) (k : A -> K S B) s f : m s = Oops f -> (x ← m; k x) s = Oops f.
Proof. intros E. unfold mbind, K_bind. by rewrite E. Qed.

Lemma kbyte_out {S} off buf (s : S) : zlen buf <= off -> kbyte off buf s = Oops OutOfBounds.
Proof.
  intros Ho. unfold kbyte. apply bind_oops. unfold kload.
  assert (in_range off 1 buf = false) as ->; [|done].
  unfold in_range. apply andb_false_iff. rewrite Z.leb_gt. lia.
Qed.

(** a device that announces more block descriptors than fit the buffer makes
    [sd_read_cache_type] and [sd_read_app_tag_own] read behind the end of it: the length
    of the data is limited to the buffer, the offset of the first page is not. *)
Theorem mode_page_read_behind {D} `{ScsiLower D} `{!ModeSense D} (cfg : ms_config) (good : Z -> bool) (data : scsi_mode_data)
    (ans buffer : bytes) (r : rv D) :
  answers good (cp_dev (rv_cap r)) data ans -> zlen buffer = SD_BUF_SIZE ->
  SD_BUF_SIZE <= md_header_length data + md_block_descriptor_length data ->
  md_header_length data <> 0 -> 6 <= md_length data -> skip_ms_page_8 cfg = false ->
  sd_read_cache_type cfg good buffer r = Oops OutOfBounds /\
  (type_disk cfg = true -> protection_type (rv_cap r) <> 0 ->
   sd_read_app_tag_own cfg good buffer r = Oops OutOfBounds).
Proof.
  intros (res & Hg & Hans) Hb Hoff Hh Hlen H8. split.
  - unfold sd_read_cache_type, cache_page. rewrite H8.
    assert (exists modepage dbd, (if type_rbc cfg then Some (6, 8, 4) else Some (8, 0, 4)) = Some (modepage, dbd, 4)
      /\ (modepage =? 0x3f) = false) as (modepage & dbd & -> & Hm) by (destruct (type_rbc cfg); eauto).
    erewrite bind_ok by apply sense_ok, Hans. cbv beta match. rewrite Hg, (proj2 (Z.eqb_neq _ _) Hh), Hm. cbn [negb andb].
    rewrite (proj2 (Z.ltb_ge _ _)) by lia.
    set (len := if SD_BUF_SIZE <? md_length data then _ else _).
    assert (4 < len <= SD_BUF_SIZE) as Hl by (unfold len, SD_BUF_SIZE; destruct (Z.ltb_spec 512 (md_length data)); lia).
    rewrite (proj2 (Z.ltb_lt _ _)) by lia. erewrite bind_ok by apply sense_ok, Hans. cbv beta match. rewrite Hg. cbn [negb].
    erewrite bind_ok; [|cbn [cache_walk]; rewrite (proj2 (Z.ltb_ge _ _)) by lia; reflexivity].
    cbv match. apply bind_oops, bind_oops, kbyte_out. by rewrite !zlen_received, Hb.
  - intros Hd Hp. unfold sd_read_app_tag_own. rewrite Hd. cbn [negb].
    erewrite bind_ok by reflexivity. rewrite (proj2 (Z.eqb_neq _ _) Hp).
    erewrite bind_ok by apply sense_ok, Hans. cbv beta match. rewrite Hg, (proj2 (Z.eqb_neq _ _) Hh), (proj2 (Z.ltb_ge _ _)) by lia.
    cbn [negb orb]. apply bind_oops, kbyte_out. by rewrite zlen_received, Hb.
Qed.

Lemma mode_page_read_behind_witness :
  sd_read_cache_type demo_ms demo_good (fill SD_BUF_SIZE Byte.x00)
    (demo_rv (mkMsDev demo_reply (mkModeData 20 600 4 0) demo_ans)) = Oops OutOfBounds.
Proof.
  apply (mode_page_read_behind demo_ms demo_good (mkModeData 20 600 4 0) demo_ans (fill SD_BUF_SIZE Byte.x00)
    (demo_rv (mkMsDev demo_reply (mkModeData 20 600 4 0) demo_ans)) ltac:(exists 0; by split) eq_refl
    ltac:(by vm_compute) ltac:(done) ltac:(by vm_compute) eq_refl).
Defined.

(** ** Revalidation *)

(** MODE SENSE answers whose pages stay inside the buffer.  The code does not make
    sure of it: a device that answers otherwise makes it read behind the buffer
    ([mode_page_read_behind]). *)
Definition mode_contained (D : Type) `{ModeSense D} : Prop :=
  forall (d : D) dbd page len buffer,
    let '(_, (_, data, ans)) := scsi_mode_sense d dbd page len in
    let off := md_header_length data + md_block_descriptor_length data in
    0 <= md_header_length data /\ 0 <= md_block_descriptor_length data /\ off + 6 <= SD_BUF_SIZE /\
    forall n off', zlen buffer = SD_BUF_SIZE -> n <= len ->
      rtc (page_step (received (take (Z.to_nat len) ans) buffer) n) off off' -> off' + 2 < SD_BUF_SIZE.

Section Revalidate.
Context {D : Type} `{ScsiLower D} `{!ModeSense D}.
Variable cfg : ms_config.
Variable good : Z -> bool.
Hypothesis contained : mode_contained D.
Implicit Types r : rv D.

(** A buffer of the right size; nothing that matters for the size of the disk changed since [r0]. *)
Definition steady_buf r0 (buf : bytes) r : Prop := zlen buf = SD_BUF_SIZE /\ settled r0 r.

(** An answer to MODE SENSE, for [asked] bytes. *)
Definition sense_kept r0 (asked : Z) (x : Z * scsi_mode_data * bytes) r : Prop :=
  let '(_, data, buf) := x in
  let off := md_header_length data + md_block_descriptor_length data in
  steady_buf r0 buf r /\ 0 <= off /\ off + 6 <= SD_BUF_SIZE /\
  forall n off', n <= asked -> rtc (page_step buf n) off off' -> off' + 2 < SD_BUF_SIZE.

Lemma wp_do_mode_sense r0 dbd page buffer len r :
  steady_buf r0 buffer r -> wp (sd_do_mode_sense dbd page buffer len) (sense_kept r0 len) r.
Proof.
  intros [Hb Hs]. unfold sd_do_mode_sense. do 2 kstep. pose proof (contained (cp_dev (rv_cap r)) dbd page len buffer) as Hc.
  destruct (scsi_mode_sense _ _ _ _) as [d [[res data] ans]]. destruct Hc as (H1 & H2 & H3 & H4).
  kstep. apply wp_on_rcap. do 2 kstep. unfold sense_kept.
  split_and!; [split; [by rewrite zlen_received|done]|lia|done|]. intros n off' Hn Hr. by eapply H4.
Qed.

Lemma wp_write_protect r0 buffer r :
  steady_buf r0 buffer r -> wp (sd_read_write_protect_flag cfg good buffer) (steady_buf r0) r.
Proof.
  intros Hb. unfold sd_read_write_protect_flag. do 2 kstep. set (r1 := rv_with_wp _ _ _).
  assert (steady_buf r0 buffer r1) as Hb1 by exact Hb. clearbody r1.
  destruct (skip_ms_page_3f cfg); [by kstep|]. kstep.
  assert (forall (m : K (rv D) _), wp m (fun x => steady_buf r0 (snd x)) r1 ->
    wp m (fun x r' => wp (let '(res, data, buffer) := x in
      (if negb (good res) then mret tt
       else let wp := negb (Z.land (md_device_specific data) 0x80 =? 0) in kmod (rv_with_wp wp wp));;
      mret buffer) (steady_buf r0) r') r1) as Hm.
  { intros m Hw. eapply wp_mono; [exact Hw|]. intros [[res data] buf] r2 Hb2.
    destruct (negb (good res)); kstep; cbv zeta; by do 2 kstep. }
  assert (forall dbd page b len r', steady_buf r0 b r' ->
    wp (sd_do_mode_sense dbd page b len) (fun x => steady_buf r0 (snd x)) r') as Hd.
  { intros dbd page b len r' Hk. eapply wp_mono; [by apply wp_do_mode_sense|]. by intros [[? ?] ?] ? [? _]. }
  assert (forall dbd page (x : Z * scsi_mode_data * bytes) len r', steady_buf r0 (snd x) r' ->
    wp (if good (fst (fst x)) then mret x else sd_do_mode_sense dbd page (snd x) len) (fun x => steady_buf r0 (snd x)) r') as Ha.
  { intros dbd page x len r' Hk. destruct (good _); [by kstep|]. by apply Hd. }
  apply Hm. destruct (use_192_bytes_for_3f cfg); [by apply Hd|].
  kstep. eapply wp_mono; [by apply Hd|]. cbv beta. intros x r2 Hx. kstep.
  eapply wp_mono; [by apply Ha|]. cbv beta. intros y r3 Hy. by apply Ha.
Qed.

Lemma wp_page_found r0 data buffer page off r :
  steady_buf r0 buffer r -> 0 <= off -> off + 2 < SD_BUF_SIZE ->
  wp (page_found data buffer page off) (fun _ r' => settled r0 r') r.
Proof.
  intros [Hz Hs] Ho Hl. unfold page_found. kstep. apply wp_kbyte_at; [lia|]. intros _. by do 3 kstep.
Qed.

Lemma wp_defaults r0 buffer r :
  steady_buf r0 buffer r -> wp (cache_defaults cfg;; mret buffer) (steady_buf r0) r.
Proof. intros Hb. unfold cache_defaults. by do 3 kstep. Qed.

(** The end of [sd_read_cache_type]. *)
Lemma wp_cache_pages r0 (modepage len asked : Z) x r :
  sense_kept r0 asked x r -> 3 <= len <= SD_BUF_SIZE -> len <= asked ->
  wp (let '(res, data, buffer) := x in
      if negb (good res) then cache_defaults cfg;; mret buffer else
      w ← cache_walk (S (Z.to_nat len)) buffer len (md_header_length data + md_block_descriptor_length data);
      match w with
      | Incomplete => cache_defaults cfg
      | PageAt page offset => page_found data buffer page offset
      | WalkEnd offset =>
          if modepage =? 0x3f then cache_defaults cfg else
          b ← kbyte offset buffer;
          if negb (Z.land b 0x3f =? modepage) then cache_defaults cfg
          else page_found data buffer modepage offset
      end;;
      mret buffer) (steady_buf r0) r.
Proof.
  intros Hx Hlen Hask. destruct x as [[res data] buffer]. destruct Hx as (Hb & H0 & Hoff & Hfit).
  destruct (negb _); [by apply wp_defaults|]. kstep. pose proof Hb as [Hz Hs].
  eapply wp_mono; [apply wp_cache_walk_ends; lia|]. cbv beta. intros w r1 [-> Hw]. kstep.
  assert (forall m : K (rv D) unit, wp m (fun _ r' => settled r0 r') r ->
    wp m (fun _ r' => wp (mret buffer) (steady_buf r0) r') r) as Hm.
  { intros m Hw'. eapply wp_mono; [exact Hw'|]. cbv beta. intros _ r2 Hs2. kstep. by split. }
  apply Hm. assert (wp (cache_defaults cfg) (fun _ r' => settled r0 r') r) as Hdef by (unfold cache_defaults; by kstep).
  destruct w as [page off|off|]; [|destruct Hw as [Hge Hr]|done].
  - apply wp_page_found; [done|lia|lia].
  - destruct (modepage =? 63); [done|]. apply Hfit in Hr; [|lia]. kstep. apply wp_kbyte_at; [lia|]. intros _.
    destruct (negb _); [done|]. apply wp_page_found; [done|lia|lia].
Qed.

Lemma wp_cache_type r0 buffer r :
  steady_buf r0 buffer r -> wp (sd_read_cache_type cfg good buffer) (steady_buf r0) r.
Proof.
  intros Hb. unfold sd_read_cache_type. destruct (cache_page cfg) as [[[modepage dbd] first_len]|]; [|by apply wp_defaults].
  kstep. eapply wp_mono; [by apply wp_do_mode_sense|]. intros [[res data] buf] r1 Hx. pose proof Hx as [Hb1 _].
  destruct (negb _); [by apply wp_defaults|].
  set (mf := if md_header_length data =? 0 then _ else _).
  assert (snd mf = first_len \/ snd mf = 0) as Hmf by (unfold mf; destruct (_ =? 0); auto).
  clearbody mf. destruct mf as [modepage' first_len']. cbn [snd] in Hmf.
  destruct (Z.ltb_spec (md_length data) 3); [by apply wp_defaults|].
  set (len := if (modepage' =? _) && _ then _ else _).
  assert (3 <= len <= SD_BUF_SIZE) as Hl.
  { unfold len, SD_BUF_SIZE. destruct (_ && _); [lia|]. destruct (Z.ltb_spec 512 (md_length data)); lia. }
  clearbody len. kstep. destruct (Z.ltb_spec first_len' len).
  - eapply wp_mono; [by apply wp_do_mode_sense|]. intros x r2 Hx2. by eapply wp_cache_pages; [exact Hx2| |].
  - kstep. eapply (wp_cache_pages _ _ _ first_len (res, data, buf)); [exact Hx|done|lia].
Qed.

Lemma wp_app_tag r0 buffer r :
  steady_buf r0 buffer r -> wp (sd_read_app_tag_own cfg good buffer) (steady_buf r0) r.
Proof.
  intros Hb. unfold sd_read_app_tag_own. destruct (negb _); [by kstep|]. do 2 kstep.
  destruct (_ =? 0); [by kstep|]. kstep. eapply wp_mono; [by apply wp_do_mode_sense|].
  intros [[res data] buf] r1 ([Hz Hs] & H0 & Hoff & _). destruct (_ || _ || _); [by kstep|]. kstep.
  apply wp_kbyte_at; [lia|]. intros _. destruct (negb _); [by kstep|]. kstep. apply wp_kbyte_at; [lia|]. intros _.
  destruct (_ =? 0); by repeat kstep.
Qed.

Lemma wp_upd_disk r0 f r Q :
  (forall k, sk_device (f k) = sk_device k) -> settled r0 r ->
  (forall r', settled r0 r' -> Q tt r') -> wp (rv_upd_disk f) Q r.
Proof.
  intros Hf Hs HQ. unfold rv_upd_disk. apply wp_on_rcap. kstep. apply HQ. destruct Hs as [E1 [E2 E3]].
  split; [exact E1|]. unfold same_device, rv_cap in *. cbn. by rewrite Hf.
Qed.

Lemma wp_write_same r0 buffer r :
  steady_buf r0 buffer r -> wp (sd_read_write_same cfg buffer) (fun _ r' => settled r0 r') r.
Proof.
  intros [Hb Hs]. unfold sd_read_write_same, scsi_report_opcode. kstep.
  assert (forall (ok : bool) (buf : bytes) r', settled r0 r' ->
    wp ((if ok then rv_upd_disk (disk_ws16 true) else mret tt);; mret buf) (fun _ r' => settled r0 r') r') as Hfin.
  { intros [] buf r' Hr; kstep; [|by do 2 kstep]. eapply wp_upd_disk; [done|exact Hr|]. intros. by kstep. }
  destruct (_ || _); [kstep; by apply (Hfin false buffer)|]. kstep. eapply wp_mono; [apply wp_exec_in|]. cbv beta.
  intros x r1 (_ & Hs1 & d & res & h & ans & _ & ->). pose proof (settled_trans _ _ _ Hs Hs1).
  destruct (c_true res && _ && _ && _ && _); [kstep; by apply (Hfin false (received ans _))|]. kstep.
  apply wp_kbyte_at; [rewrite zlen_received, zlen_fill, Hb by (rewrite Hb; done); done|]. intros _. kstep. by apply (Hfin (_ =? 3)).
Qed.

(** ** The VPD pages of the disk *)

Definition vpd_buf (alloc : option bytes) : Prop := forall b, alloc = Some b -> 4 <= zlen b.

Lemma wp_vpd_then r0 page buf (k : bytes -> K (rv D) unit) r :
  settled r0 r -> 4 <= zlen buf -> page <> 0 ->
  (forall b r', settled r0 r' -> wp (k b) (fun _ r' => settled r0 r') r') ->
  wp (x ← scsi_get_vpd_page page buf; let '(res, buffer) := x in if c_true res then mret tt else k buffer)
     (fun _ r' => settled r0 r') r.
Proof.
  intros Hs Hl Hp Hk. kstep. eapply wp_mono; [by apply wp_get_vpd_page|]. cbv beta. intros [res b] r1 [Hs1 _].
  pose proof (settled_trans _ _ _ Hs Hs1). destruct (c_true res); [by kstep|]. by apply Hk.
Qed.

Lemma device_discard k mode : sk_device (sd_config_discard k mode) = sk_device k.
Proof. by destruct mode. Qed.
Lemma device_write_same k : sk_device (sd_config_write_same k) = sk_device k.
Proof. unfold sd_config_write_same. destruct (no_write_same _); [done|]. by destruct (ws16 k || _). Qed.

Lemma wp_block_limits r0 alloc r :
  settled r0 r -> vpd_buf alloc -> wp (sd_read_block_limits alloc) (fun _ r' => settled r0 r') r.
Proof.
  intros Hs Hv. unfold sd_read_block_limits. do 2 kstep. destruct alloc as [buf|]; [|by kstep].
  apply wp_vpd_then; [done|by apply Hv|done|]. intros b r1 Hs1. do 2 kstep.
  destruct (negb _); [by kstep|]. do 3 kstep. eapply wp_upd_disk; [done|exact Hs1|]. intros r2 Hs2.
  destruct (negb _); [by kstep|]. kstep. eapply wp_upd_disk; [done|exact Hs2|]. intros r3 Hs3.
  eapply wp_upd_disk; [intros k; apply device_discard|exact Hs3|done].
Qed.

Lemma wp_characteristics r0 alloc r :
  settled r0 r -> vpd_buf alloc -> wp (sd_read_block_characteristics alloc) (fun _ r' => settled r0 r') r.
Proof.
  intros Hs Hv. unfold sd_read_block_characteristics. destruct alloc as [buf|]; [|by kstep].
  apply wp_vpd_then; [done|by apply Hv|done|]. intros b r1 Hs1. by destruct (_ =? 1); kstep.
Qed.

Lemma wp_provisioning r0 alloc r :
  settled r0 r -> vpd_buf alloc -> wp (sd_read_block_provisioning alloc) (fun _ r' => settled r0 r') r.
Proof.
  intros Hs Hv. unfold sd_read_block_provisioning. do 2 kstep. destruct (negb _); [by kstep|].
  destruct alloc as [buf|]; [|by kstep]. apply wp_vpd_then; [done|by apply Hv|done|]. intros b r1 Hs1. by kstep.
Qed.

(** Everything that is asked for once the capacity is known. *)
Lemma wp_ask_all r0 vl vb vc buffer r :
  steady_buf r0 buffer r -> vpd_buf vl -> vpd_buf vb -> vpd_buf vc ->
  wp ((if sd_try_extended_inquiry cfg then
         sd_read_block_provisioning vl;; sd_read_block_limits vb;; sd_read_block_characteristics vc
       else mret tt);;
      buffer ← sd_read_write_protect_flag cfg good buffer;
      buffer ← sd_read_cache_type cfg good buffer;
      buffer ← sd_read_app_tag_own cfg good buffer;
      sd_read_write_same cfg buffer;;
      mret tt) (fun _ r' => settled r0 r') r.
Proof.
  intros [Hz Hs] Hl Hb Hc. kstep.
  assert (wp (if sd_try_extended_inquiry cfg then
    sd_read_block_provisioning vl;; sd_read_block_limits vb;; sd_read_block_characteristics vc else mret tt)
    (fun _ r' => settled r0 r') r) as Hm.
  { destruct (sd_try_extended_inquiry cfg); [|by kstep].
    kstep. eapply wp_mono; [by apply wp_provisioning|]. cbv beta. intros _ r1 Hs1.
    kstep. eapply wp_mono; [by apply wp_block_limits|]. cbv beta. intros _ r2 Hs2. by apply wp_characteristics. }
  eapply wp_mono; [exact Hm|]. cbv beta. intros _ r1 Hs1.
  kstep. eapply wp_mono; [apply wp_write_protect; by split|]. intros b2 r2 H2.
  kstep. eapply wp_mono; [by apply wp_cache_type|]. intros b3 r3 H3.
  kstep. eapply wp_mono; [by apply wp_app_tag|]. intros b4 r4 H4.
  kstep. eapply wp_mono; [by apply wp_write_same|]. cbv beta. intros b5 r5 H5. by kstep.
Qed.
End Revalidate.

(** The size of a disk as [disk_ok] needs it is the device's and the capacity's alone. *)
Lemma disk_ok_same k k' :
  sector_size (sk_device k') = sector_size (sk_device k) ->
  use_16_for_rw (sk_device k') = use_16_for_rw (sk_device k) ->
  get_capacity k' = get_capacity k -> disk_ok k -> disk_ok k'.
Proof. intros E1 E2 E3 [H1 H2 H3 H4]. split; by rewrite ?E1, ?E2, ?E3. Qed.

Lemma capacity_write_same k : get_capacity (sd_config_write_same k) = get_capacity k.
Proof. unfold sd_config_write_same. destruct (no_write_same _); [done|]. by destruct (ws16 k || _). Qed.

(** What a scan establishes, when the device had [c0] before. *)
Definition scanned {D} (c0 : cap D) (r : rv D) : Prop :=
  cap_ok (rv_cap r) /\
  (same_device c0 (rv_cap r) \/ sector_size (sk_device (rv_disk r)) = 256 \/
   disk_ok (set_capacity (sd_capacity (rv_cap r)) (rv_disk r))).

Lemma scanned_settled {D} (c0 : cap D) (r r' : rv D) : settled r r' -> scanned c0 r -> scanned c0 r'.
Proof.
  intros [E1 [E2 E3]] [Hc Hs]. split; [unfold cap_ok in *; by rewrite E1|].
  destruct Hs as [[S1 S2]|[S1|S1]].
  - left. split; congruence.
  - right. left. unfold rv_disk in *. congruence.
  - right. right. eapply disk_ok_same; [..|exact S1]; done.
Qed.

(** The last part: flush handling and the capacity of the disk. *)
Lemma wp_announce {D} (c0 : cap D) (r : rv D) :
  scanned c0 r ->
  wp (on_rcap (kmod cap_scanned);;
      r ← kget;
      kmod (rv_with_flush (flush_of (rv_cache r)));;
      rv_upd_disk (set_capacity (sd_capacity (rv_cap r)));;
      rv_upd_disk sd_config_write_same;;
      mret 0)
     (fun ret r' => ret = 0 /\ first_scan (rv_cap r') = false /\ rv_flush r' = flush_of (rv_cache r') /\
        get_capacity (rv_disk r') = sd_capacity (rv_cap r') /\ cap_ok (rv_cap r') /\
        (same_device c0 (rv_cap r') \/ sector_size (sk_device (rv_disk r')) = 256 \/ disk_ok (rv_disk r'))) r.
Proof.
  intros [Hc Hs]. kstep. apply wp_on_rcap. do 6 kstep. unfold rv_upd_disk. apply wp_on_rcap. do 2 kstep.
  apply wp_on_rcap. do 2 kstep. split_and!; [done|done|done| |done|].
  - unfold rv_disk, rv_cap. cbn [rv_pm rv_with_pm pm_cap pm_with_cap cap_disk cp_disk]. by rewrite capacity_write_same.
  - destruct Hs as [[S1 S2]|[S1|S1]]; [left|right; left|right; right].
    + split; cbn [rv_cap rv_pm rv_with_pm pm_cap pm_with_cap cap_disk cp_disk]; by rewrite device_write_same.
    + unfold rv_disk, rv_cap. cbn [rv_pm rv_with_pm pm_cap pm_with_cap cap_disk cp_disk]. by rewrite device_write_same.
    + unfold rv_disk, rv_cap. cbn [rv_pm rv_with_pm pm_cap pm_with_cap cap_disk cp_disk].
      eapply disk_ok_same; [..|exact S1]; by rewrite ?device_write_same, ?capacity_write_same.
Qed.


(** A device with a caching page only, which is in the buffer whenever it is asked for. *)
Definition fixed_ans : bytes := (byte.of_Z <$> [12; 0; 0x10; 0]) ++ encode_page (Page 8 demo_page).
#[global] Instance ms_fixed : ModeSense rc_device := {|
  scsi_mode_sense := fun d _ _ _ => (d, (0, mkModeData (zlen fixed_ans) 0 4 0x10, fixed_ans))
|}.

Lemma ms_fixed_contained : mode_contained rc_device.
Proof.
  intros d dbd page len buffer. cbn [scsi_mode_sense ms_fixed]. split_and!; try by vm_compute.
  intros n off' Hb Hn Hr. cbn [md_header_length md_block_descriptor_length] in Hr. change (4 + 0) with 4 in Hr.
  apply rtc_inv in Hr as [<-|(off & Hst & _)]; [by vm_compute|]. exfalso.
  assert (4 < len -> cdb_byte (received (take (Z.to_nat len) fixed_ans) buffer) 4 = 8) as H4.
  { intros Hlt. unfold cdb_byte. rewrite received_lookup.
    - by rewrite lookup_take, decide_True by lia.
    - rewrite length_take. change (length fixed_ans) with 15%nat. lia.
    - unfold zlen, SD_BUF_SIZE in Hb. lia. }
  inversion Hst as [? H1 H2 H3|? H1 H2 H3]; subst; apply H2; change (Z.to_nat 4) with 4%nat; rewrite H4 by lia; done.
Qed.

