(* ===== verification/SdAttr.v ===== *)
(** * drivers/scsi/sd.c: the sysfs files and the ioctls of a disk

    The attributes of [sd_disk_attrs] with their show and store functions, the entry
    points [sd_ioctl], [sd_compat_ioctl], [sd_getgeo], [sd_rescan],
    [sd_unlock_native_capacity] and [sd_unprep_fn].  The kernel's number parsing,
    [scsi_mode_select] and [revalidate_disk] are parameters.  Results: writing never
    takes a field out of its type and what is shown is never cut; a cache type that is
    written reaches the device as the bits [sd_read_cache_type] reads back, everything
    else of the page as the device sent it; numbers that are shown can be written
    back; an ioctl reaches the device only past the checks.  Executions show the cases
    that are not as meant. *)

From Stdlib Require Import String.
From stdpp Require Import base gmap list list_numbers.
From coqutil Require Import Byte.
From Stdlib Require Import ZArith Lia.
From S2P Require Import Prelude Kapi Ring Layout State Scsi Fmt Log Core Sim Swap Sd SdThm SdCap SdPm SdMode.

Local Open Scope Z_scope.
Local Open Scope list_scope.

(** ** State *)

(** [allow_restart] and [manage_start_stop] are bit fields of one bit. *)
Record attr_state (D : Type) := mkAttr {
  at_rv : rv D;
  at_manage_start_stop : Z;
  at_allow_restart : Z;
  at_selects : list (Z * bytes);    (* MODE SELECT: the SP bit and the page *)
  at_revalidated : Z                (* calls of revalidate_disk *)
}.
Arguments mkAttr {D} _ _ _ _ _.
Arguments at_rv {D} _.
Arguments at_manage_start_stop {D} _.
Arguments at_allow_restart {D} _.
Arguments at_selects {D} _.
Arguments at_revalidated {D} _.

Definition ERANGE : Z := 34.
Definition ENOTTY : Z := 25.
Definition ENOIOCTLCMD : Z := 515.

(** An assignment to a one-bit field. *)
Definition bit1 (z : Z) : Z := z mod 2.

(** drivers/scsi/scsi_lib.c *)
Class ModeSelect (D : Type) := {
  scsi_mode_select : D -> Z -> Z -> Z -> bytes -> scsi_mode_data -> D * Z
}.

(** lib/kstrtox.c and lib/vsprintf.c: the value, or the error. *)
Class KStrto := {
  kstrtouint : bytes -> Z + Z;
  kstrtoul : bytes -> Z + Z;
  simple_strtoul : bytes -> Z
}.

Definition text (s : string) : bytes := list_byte_of_string s.

Definition sd_cache_types : list bytes :=
  text <$> ["write through"; "none"; "write back"; "write back, no read (daft)"]%string.

Definition lbp_mode_text (m : lbp_mode) : bytes :=
  text (match m with
        | SD_LBP_FULL => "full"
        | SD_LBP_UNMAP => "unmap"
        | SD_LBP_WS16 => "writesame_16"
        | SD_LBP_WS10 => "writesame_10"
        | SD_LBP_ZERO => "writesame_zero"
        | SD_LBP_DISABLE => "disabled"
        end).

Definition b2z (b : bool) : Z := if b then 1 else 0.

Section Upd.
Context {D : Type}.
Implicit Types a : attr_state D.
Definition at_with_rv (r : rv D) a : attr_state D :=
  mkAttr r (at_manage_start_stop a) (at_allow_restart a) (at_selects a) (at_revalidated a).
Definition at_set_manage (z : Z) a : attr_state D :=
  mkAttr (at_rv a) (bit1 z) (at_allow_restart a) (at_selects a) (at_revalidated a).
Definition at_set_restart (z : Z) a : attr_state D :=
  mkAttr (at_rv a) (at_manage_start_stop a) (bit1 z) (at_selects a) (at_revalidated a).
Definition at_select (sp : Z) (page : bytes) a : attr_state D :=
  mkAttr (at_rv a) (at_manage_start_stop a) (at_allow_restart a) (at_selects a ++ [(sp, page)]) (at_revalidated a).
Definition at_count a : attr_state D :=
  mkAttr (at_rv a) (at_manage_start_stop a) (at_allow_restart a) (at_selects a) (at_revalidated a + 1).

Definition at_disk a : scsi_disk := rv_disk (at_rv a).

Definition on_rv {A} (m : K (rv D) A) : K (attr_state D) A := fun a =>
  match m (at_rv a) with
  | Ok (x, r') => Ok (x, at_with_rv r' a)
  | Oops f => Oops f
  end.
Definition at_upd_disk (f : scsi_disk -> scsi_disk) : K (attr_state D) unit := on_rv (rv_upd_disk f).

Lemma wp_on_rv {A} (m : K (rv D) A) Q a :
  wp m (fun x r' => Q x (at_with_rv r' a)) (at_rv a) -> wp (on_rv m) Q a.
Proof. unfold wp, on_rv. by destruct (m (at_rv a)) as [[x r']|]. Qed.
End Upd.

(** The fields of [struct scsi_disk] that are written directly. *)
Definition sk_max_timeouts (z : Z) (k : scsi_disk) : scsi_disk :=
  mkDiskState (sk_device k) (sk_limits k) (get_capacity k) (provisioning_mode k) (lbprz k)
    (unmap_alignment k) (unmap_granularity k) (physical_block_size k) (max_unmap_blocks k)
    (max_ws_blocks k) (ws16 k) (medium_access_timed_out k) z.
Definition sk_set_no_write_same (k : scsi_disk) : scsi_disk :=
  let d := sk_device k in
  sk_with_device (mkSdDev (sd_base d) (sector_size d) (last_sector_bug d) (writeable d) (use_16_for_rw d)
                    (use_10_for_rw d) (scsi_device_protection d) true) k.
Definition sk_max_ws (z : Z) (k : scsi_disk) : scsi_disk := sk_with_ws (sk_limits k) z k.

Section Files.
Context {D : Type} `{ScsiLower D} `{!ModeSense D} `{!ModeSelect D} `{!KStrto}.
(** [sdp->type == TYPE_DISK], [capable(CAP_SYS_ADMIN)]; block layer code that calls
    [sd_revalidate_disk]; the protection capabilities of the host. *)
Variable is_disk : bool.
Variable capable : bool.
Variable revalidate_disk : K (rv D) unit.
Variables scsi_host_dif_capable scsi_host_dix_capable : Z -> Z.

(** The comparison of one entry: the name followed by a newline. *)
Definition names_type (buf name : bytes) : bool :=
  strncmp_eq name buf (length name) && Byte.eqb (nth (length name) buf Byte.x00) newline.

(** The loop over [sd_cache_types], from index [i]. *)
Fixpoint find_cache_type (buf : bytes) (names : list bytes) (i : Z) : option Z :=
  match names with
  | [] => None
  | name :: names => if names_type buf name then Some i else find_cache_type buf names (i + 1)
  end.

Definition sd_store_cache_type (buf : bytes) (count : Z) (stack : bytes) : K (attr_state D) Z :=
  if negb is_disk then mret (- EINVAL) else
  match find_cache_type buf sd_cache_types 0 with
  | None => mret (- EINVAL)
  | Some ct =>
      let rcd := if c_true (Z.land ct 0x01) then 1 else 0 in
      let wce := if c_true (Z.land ct 0x02) then 1 else 0 in
      x ← on_rv (sd_do_mode_sense 0x08 8 stack 64);
      let '(res, data, buffer) := x in
      if c_true res then mret (- EINVAL) else
      let off := md_header_length data + md_block_descriptor_length data in
      let len := Z.min 64 (u32 (md_length data - md_header_length data - md_block_descriptor_length data)) in
      b ← kbyte (off + 2) buffer;
      let b := Z.lor (Z.land b (Z.lnot 0x05)) (Z.lor (Z.shiftl wce 2) rcd) in
      buffer ← kstore (off + 2) [byte.of_Z b] buffer;
      b0 ← kbyte off buffer;
      let sp := if c_true (Z.land b0 0x80) then 1 else 0 in
      page ← kload off len buffer;
      a ← kget;
      let '(d, res) := scsi_mode_select (cp_dev (rv_cap (at_rv a))) 1 sp 8 page data in
      kmod (at_select sp page);;
      on_rv (on_rcap (kmod (cap_dev d)));;
      if c_true res then mret (- EINVAL) else
      kmod at_count;;
      on_rv revalidate_disk;;
      mret count
  end.

Definition sd_store_manage_start_stop (buf : bytes) (count : Z) : K (attr_state D) Z :=
  if negb capable then mret (- EACCES) else
  kmod (at_set_manage (simple_strtoul buf));;
  mret count.

Definition sd_store_allow_restart (buf : bytes) (count : Z) : K (attr_state D) Z :=
  if negb capable then mret (- EACCES) else
  if negb is_disk then mret (- EINVAL) else
  kmod (at_set_restart (simple_strtoul buf));;
  mret count.

(** [%u] and a newline, cut to a buffer of [size]. *)
Definition show_num (size n : Z) : bytes * Z := snprintf size (dec n ++ [newline]).

Definition sd_show_cache_type (a : attr_state D) : bytes * Z :=
  let ct := b2z (sd_RCD (rv_cache (at_rv a))) + 2 * b2z (sd_WCE (rv_cache (at_rv a))) in
  snprintf 40 (nth (Z.to_nat ct) sd_cache_types [] ++ [newline]).
Definition sd_show_fua (a : attr_state D) : bytes * Z := show_num 20 (b2z (sd_DPOFUA (rv_cache (at_rv a)))).
Definition sd_show_manage_start_stop (a : attr_state D) : bytes * Z := show_num 20 (at_manage_start_stop a).
Definition sd_show_allow_restart (a : attr_state D) : bytes * Z := show_num 40 (at_allow_restart a).
Definition sd_show_protection_type (a : attr_state D) : bytes * Z := show_num 20 (protection_type (rv_cap (at_rv a))).

Definition sd_store_protection_type (buf : bytes) (count : Z) : K (attr_state D) Z :=
  if negb capable then mret (- EACCES) else
  match kstrtouint buf with
  | inr err => mret err
  | inl val =>
      (if (0 <=? val) && (val <=? SD_DIF_TYPE3_PROTECTION)
       then on_rv (on_rcap (kmod (cap_protection val))) else mret tt);;
      mret count
  end.

Definition sd_show_protection_mode (a : attr_state D) : bytes * Z :=
  let type := protection_type (rv_cap (at_rv a)) in
  let dif := scsi_host_dif_capable type in
  let dix := scsi_host_dix_capable type in
  let '(dif, dix) := if negb (c_true dix) && c_true (scsi_host_dix_capable 0) then (0, 1) else (dif, dix) in
  if negb (c_true dif) && negb (c_true dix) then snprintf 20 (text "none" ++ [newline])
  else snprintf 20 (text (if c_true dix then "dix" else "dif") ++ dec dif ++ [newline]).

Definition sd_show_app_tag_own (a : attr_state D) : bytes * Z := show_num 20 (b2z (rv_ATO (at_rv a))).
Definition sd_show_thin_provisioning (a : attr_state D) : bytes * Z := show_num 20 (b2z (lbpme (rv_cap (at_rv a)))).
Definition sd_show_provisioning_mode (a : attr_state D) : bytes * Z :=
  snprintf 20 (lbp_mode_text (provisioning_mode (at_disk a)) ++ [newline]).

(** The cascade of comparisons, "full" is not among them. *)
Definition mode_of_text (buf : bytes) : option lbp_mode :=
  if strncmp_eq buf (lbp_mode_text SD_LBP_UNMAP) 20 then Some SD_LBP_UNMAP
  else if strncmp_eq buf (lbp_mode_text SD_LBP_WS16) 20 then Some SD_LBP_WS16
  else if strncmp_eq buf (lbp_mode_text SD_LBP_WS10) 20 then Some SD_LBP_WS10
  else if strncmp_eq buf (lbp_mode_text SD_LBP_ZERO) 20 then Some SD_LBP_ZERO
  else if strncmp_eq buf (lbp_mode_text SD_LBP_DISABLE) 20 then Some SD_LBP_DISABLE
  else None.

Definition sd_store_provisioning_mode (buf : bytes) (count : Z) : K (attr_state D) Z :=
  if negb capable then mret (- EACCES) else
  if negb is_disk then mret (- EINVAL) else
  match mode_of_text buf with
  | Some mode => at_upd_disk (fun k => sd_config_discard k mode);; mret count
  | None => mret (- EINVAL)
  end.

Definition sd_show_max_medium_access_timeouts (a : attr_state D) : bytes * Z :=
  show_num 20 (max_medium_access_timeouts (at_disk a)).

Definition sd_store_max_medium_access_timeouts (buf : bytes) (count : Z) : K (attr_state D) Z :=
  if negb capable then mret (- EACCES) else
  match kstrtouint buf with
  | inr err => mret err
  | inl val => at_upd_disk (sk_max_timeouts val);; mret count
  end.

Definition sd_show_write_same_blocks (a : attr_state D) : bytes * Z := show_num 20 (max_ws_blocks (at_disk a)).

Definition sd_store_write_same_blocks (buf : bytes) (count : Z) : K (attr_state D) Z :=
  if negb capable then mret (- EACCES) else
  if negb is_disk then mret (- EINVAL) else
  match kstrtoul buf with
  | inr err => mret err
  | inl max =>
      (if max =? 0 then at_upd_disk sk_set_no_write_same
       else if max <=? SD_MAX_WS16_BLOCKS then at_upd_disk (sk_max_ws max) else mret tt);;
      at_upd_disk sd_config_write_same;;
      mret count
  end.

(** ** The table [sd_disk_attrs] *)

Inductive sd_attr :=
  | a_cache_type | a_FUA | a_allow_restart | a_manage_start_stop | a_protection_type | a_protection_mode
  | a_app_tag_own | a_thin_provisioning | a_provisioning_mode | a_max_write_same_blocks
  | a_max_medium_access_timeouts.

Definition sd_attr_show (f : sd_attr) : attr_state D -> bytes * Z :=
  match f with
  | a_cache_type => sd_show_cache_type
  | a_FUA => sd_show_fua
  | a_allow_restart => sd_show_allow_restart
  | a_manage_start_stop => sd_show_manage_start_stop
  | a_protection_type => sd_show_protection_type
  | a_protection_mode => sd_show_protection_mode
  | a_app_tag_own => sd_show_app_tag_own
  | a_thin_provisioning => sd_show_thin_provisioning
  | a_provisioning_mode => sd_show_provisioning_mode
  | a_max_write_same_blocks => sd_show_write_same_blocks
  | a_max_medium_access_timeouts => sd_show_max_medium_access_timeouts
  end.

(** [NULL] where the file cannot be written; [stack] is the buffer of
    [sd_store_cache_type] as it is found. *)
Definition sd_attr_store (f : sd_attr) (stack : bytes) : option (bytes -> Z -> K (attr_state D) Z) :=
  match f with
  | a_cache_type => Some (fun buf count => sd_store_cache_type buf count stack)
  | a_allow_restart => Some sd_store_allow_restart
  | a_manage_start_stop => Some sd_store_manage_start_stop
  | a_protection_type => Some sd_store_protection_type
  | a_provisioning_mode => Some sd_store_provisioning_mode
  | a_max_write_same_blocks => Some sd_store_write_same_blocks
  | a_max_medium_access_timeouts => Some sd_store_max_medium_access_timeouts
  | a_FUA | a_protection_mode | a_app_tag_own | a_thin_provisioning => None
  end.
End Files.

(** ** Other entry points *)

Inductive ioctl_call :=
  | CallVerify | CallNonblockable (ndelay : bool) | CallWait | CallScsi (cmd : Z) | CallBlock (cmd : Z)
  | CallHost (cmd : Z).

Definition FMODE_NDELAY : Z := 64.
Definition SCSI_IOCTL_GET_IDLUN : Z := 0x5382.
Definition SCSI_IOCTL_GET_BUS_NUMBER : Z := 0x5386.

(** What the block layer and the midlayer answer: [scsi_verify_blk_ioctl],
    [scsi_nonblockable_ioctl], [scsi_block_when_processing_errors] (false when the
    device went offline), [scsi_ioctl], [scsi_cmd_blk_ioctl], and the host's
    [compat_ioctl] if there is one. *)
Record ioctl_env := mkIoctl {
  verify_blk_ioctl : Z -> Z;
  nonblockable_ioctl : Z -> bool -> Z;
  block_when_processing_errors : bool;
  scsi_ioctl : Z -> Z;
  cmd_blk_ioctl : Z -> Z -> Z;
  compat_ioctl : option (Z -> Z)
}.

(** The result and the calls made, in order. *)
Definition sd_ioctl (e : ioctl_env) (mode cmd : Z) : Z * list ioctl_call :=
  let error := verify_blk_ioctl e cmd in
  if error <? 0 then (error, [CallVerify]) else
  let ndelay := c_true (Z.land mode FMODE_NDELAY) in
  let error := nonblockable_ioctl e cmd ndelay in
  let calls := [CallVerify; CallNonblockable ndelay; CallWait] in
  if negb (block_when_processing_errors e) || negb (c_true error) then (error, calls) else
  if (cmd =? SCSI_IOCTL_GET_IDLUN) || (cmd =? SCSI_IOCTL_GET_BUS_NUMBER)
  then (scsi_ioctl e cmd, calls ++ [CallScsi cmd])
  else
  let error := cmd_blk_ioctl e mode cmd in
  if negb (error =? - ENOTTY) then (error, calls ++ [CallBlock cmd])
  else (scsi_ioctl e cmd, calls ++ [CallBlock cmd; CallScsi cmd]).

Definition sd_compat_ioctl (e : ioctl_env) (mode cmd : Z) : Z * list ioctl_call :=
  let ret := verify_blk_ioctl e cmd in
  if ret <? 0 then (ret, [CallVerify]) else
  if negb (block_when_processing_errors e) then (- ENODEV, [CallVerify; CallWait]) else
  match compat_ioctl e with
  | Some f => (f cmd, [CallVerify; CallWait; CallHost cmd])
  | None => (- ENOIOCTLCMD, [CallVerify; CallWait])
  end.

(** [struct hd_geometry]: heads and sectors of 8 bits, cylinders of 16. *)
Record hd_geometry := mkGeo { heads : Z; sectors : Z; cylinders : Z }.

(** [bios_param] is the host's, or [scsicam_bios_param]; it rewrites [diskinfo]. *)
Definition sd_getgeo (bios_param : option (Z -> Z * Z * Z -> Z * Z * Z))
    (scsicam_bios_param : Z -> Z * Z * Z -> Z * Z * Z) (capacity : Z) : hd_geometry :=
  let diskinfo := (0x40, 0x20, s32 (Z.shiftr capacity 11)) in
  let '(h, s, c) := match bios_param with
                    | Some f => f capacity diskinfo
                    | None => scsicam_bios_param capacity diskinfo
                    end in
  mkGeo (h mod 2 ^ 8) (s mod 2 ^ 8) (c mod 2 ^ 16).

Definition sd_rescan {D} (revalidate_disk : K (rv D) unit) (e : pm_env) : K (attr_state D) unit :=
  ok ← on_rv (on_pm (scsi_disk_get_from_dev e));
  if (ok : bool) then
    kmod at_count;;
    on_rv revalidate_disk;;
    on_rv (on_pm scsi_disk_put)
  else mret tt.

(** [host->hostt->unlock_native_capacity] is the host's, if there is one. *)
Definition sd_unlock_native_capacity {D} (unlock : option (D -> D)) (d : D) : D :=
  match unlock with Some f => f d | None => d end.

(** The page of a discard request: [rq->buffer] and the pages freed. *)
Definition sd_unprep_fn (cmd_flags : Z) (buffer : option Z) (freed : list (option Z)) : option Z * list (option Z) :=
  if c_true (Z.land cmd_flags REQ_DISCARD) then (None, freed ++ [buffer]) else (buffer, freed).

(** ** What is relied on of the number parsers *)

(** Values fit their C type, errors are negative, and a decimal number with a newline
    is read as itself. *)
Class KStrtoOk `{KStrto} : Prop := {
  kstrtouint_range buf v : kstrtouint buf = inl v -> 0 <= v < 2 ^ 32;
  kstrtouint_error buf e : kstrtouint buf = inr e -> e < 0;
  kstrtoul_range buf v : kstrtoul buf = inl v -> 0 <= v < 2 ^ 64;
  kstrtoul_error buf e : kstrtoul buf = inr e -> e < 0;
  kstrtouint_dec n : 0 <= n < 2 ^ 32 -> kstrtouint (dec n ++ [newline]) = inl n;
  kstrtoul_dec n : 0 <= n < 2 ^ 64 -> kstrtoul (dec n ++ [newline]) = inl n;
  simple_strtoul_dec n : 0 <= n < 2 ^ 64 -> simple_strtoul (dec n ++ [newline]) = n
}.

(** A parser of this kind: decimal digits, then nothing or one newline. *)
Definition parse_dec (bound : Z) (buf : bytes) : Z + Z :=
  match scan_num buf with
  | Some (v, rest) => if bool_decide (rest = [] \/ rest = [newline]) && (v <? bound) && (0 <=? v) then inl v else inr (- ERANGE)
  | None => inr (- EINVAL)
  end.
Definition demo_strto : KStrto := {|
  kstrtouint := parse_dec (2 ^ 32);
  kstrtoul := parse_dec (2 ^ 64);
  simple_strtoul := fun buf => match scan_num buf with Some (v, _) => v | None => 0 end
|}.

Lemma parse_dec_range bound buf v : parse_dec bound buf = inl v -> 0 <= v < bound.
Proof.
  unfold parse_dec. destruct (scan_num buf) as [[w rest]|]; [|done].
  destruct (bool_decide _); cbn; [|done].
  destruct (Z.ltb_spec w bound), (Z.leb_spec 0 w); cbn; intros [= <-]; lia.
Qed.
Lemma parse_dec_error bound buf e : parse_dec bound buf = inr e -> e < 0.
Proof.
  unfold parse_dec, ERANGE, EINVAL. destruct (scan_num buf) as [[w rest]|]; [|by intros [= <-]].
  destruct (_ && _); intros [= <-]; lia.
Qed.
Lemma parse_dec_dec bound n : 0 <= n < bound -> bound <= 2 ^ 64 -> parse_dec bound (dec n ++ [newline]) = inl n.
Proof.
  intros ? ?. unfold parse_dec. rewrite (scan_num_dec n [newline]) by (try done; lia).
  rewrite bool_decide_true by auto. cbn [andb].
  by rewrite (proj2 (Z.ltb_lt _ _)), (proj2 (Z.leb_le _ _)) by lia.
Qed.

Lemma demo_strto_ok : @KStrtoOk demo_strto.
Proof.
  split.
  - apply parse_dec_range.
  - apply parse_dec_error.
  - apply parse_dec_range.
  - apply parse_dec_error.
  - intros. apply parse_dec_dec; lia.
  - intros. apply parse_dec_dec; lia.
  - intros n ?. change (match scan_num (dec n ++ [newline]) with Some (v, _) => v | None => 0 end = n).
    by rewrite (scan_num_dec n [newline]) by (try done; lia).
Qed.

(** ** The length of what is shown *)

Lemma snprintf_whole size t : zlen t < size -> snprintf size t = (t, zlen t).
Proof. intros. unfold snprintf. by rewrite Z.min_r, slice_all by lia. Qed.

Lemma dec_digits_len fuel : forall n k, 0 <= n < 10 ^ Z.of_nat k -> (0 < k)%nat -> (length (dec_digits fuel n) <= k)%nat.
Proof.
  induction fuel as [|f IH]; intros n k Hn Hk; cbn [dec_digits]; [cbn; lia|].
  rewrite length_app. cbn [length].
  destruct (Z.ltb_spec n 10) as [|Hge]; cbn [length]; [lia|].
  destruct k as [|k]; [lia|]. rewrite Nat2Z.inj_succ, Z.pow_succ_r in Hn by lia.
  assert (k <> O) by (intros ->; cbn in Hn; lia).
  pose proof (IH (n / 10) k ltac:(split; [apply Z.div_pos; lia|apply Z.div_lt_upper_bound; lia]) ltac:(lia)). lia.
Qed.

(** A 32-bit number and its newline. *)
Lemma dec_len32 n : 0 <= n < 2 ^ 32 -> zlen (dec n ++ [newline]) < 12.
Proof.
  intros. pose proof (dec_digits_len 20 n 10 ltac:(lia) ltac:(lia)).
  rewrite zlen_app. unfold zlen, dec in *. cbn [length]. lia.
Qed.

(** ** Types *)

Section Typed.
Context {D : Type} `{ScsiLower D} `{!ModeSense D} `{!ModeSelect D} `{!KStrto} `{!KStrtoOk}.
Variables is_disk capable : bool.
Variable revalidate_disk : K (rv D) unit.
Variables dif dix : Z -> Z.
Implicit Types (a : attr_state D) (r : rv D).

Definition rv_typed r : Prop :=
  0 <= protection_type (rv_cap r) < 2 ^ 8 /\ 0 <= max_ws_blocks (rv_disk r) < 2 ^ 32 /\
  0 <= max_medium_access_timeouts (rv_disk r) < 2 ^ 32.

Definition attr_typed a : Prop :=
  rv_typed (at_rv a) /\ 0 <= at_manage_start_stop a < 2 /\ 0 <= at_allow_restart a < 2.

(** The file holds a line, all of it, and its length is what is returned. *)
Definition whole_line (x : bytes * Z) : Prop := exists t, fst x = t ++ [newline] /\ snd x = zlen (fst x).

(** What MODE SENSE answers fits the 64 bytes of [sd_store_cache_type], with the byte
    that holds the two bits. *)
Definition mode_fits (d : D) : Prop :=
  let '(_, (res, data, _)) := scsi_mode_sense d 0x08 8 64 in
  let off := md_header_length data + md_block_descriptor_length data in
  res = 0 -> 0 <= md_header_length data /\ 0 <= md_block_descriptor_length data /\ off + 3 <= 64 /\
             off <= md_length data <= 64.

Definition at_disk_upd (f : scsi_disk -> scsi_disk) a : attr_state D :=
  at_with_rv (rv_with_pm (pm_with_cap (cap_disk (f (at_disk a)) (rv_cap (at_rv a))) (rv_pm (at_rv a))) (at_rv a)) a.

Lemma wp_at_upd f Q a : Q tt (at_disk_upd f a) -> wp (at_upd_disk f) Q a.
Proof. done. Qed.

Lemma whole_snprintf size t : zlen (t ++ [newline]) < size -> whole_line (snprintf size (t ++ [newline])).
Proof. intros. rewrite snprintf_whole by done. by exists t. Qed.

Lemma whole_num size n : 0 <= n < 2 ^ 32 -> 20 <= size -> whole_line (show_num size n).
Proof. intros Hn Hs. apply whole_snprintf. pose proof (dec_len32 n Hn). lia. Qed.

Lemma b2z_range b : 0 <= b2z b < 2 ^ 32.
Proof. destruct b; cbn; lia. Qed.

Lemma shown_whole a f : (forall t, 0 <= dif t < 2 ^ 32) -> attr_typed a -> whole_line (sd_attr_show dif dix f a).
Proof.
  intros Hdif ((Hp & Hw & Hm) & Hs & Hr).
  destruct f; cbn [sd_attr_show]; try (apply whole_num; [first [apply b2z_range|lia|exact Hw|exact Hm]|lia]).
  - unfold sd_show_cache_type. apply whole_snprintf.
    by destruct (sd_RCD (rv_cache (at_rv a))), (sd_WCE (rv_cache (at_rv a))).
  - unfold sd_show_protection_mode.
    destruct (negb (c_true (dix _)) && _).
    + change (negb (c_true 0) && negb (c_true 1)) with false. cbv match. rewrite (app_assoc _ (dec 0)).
      by apply whole_snprintf.
    + destruct (_ && _); [by apply whole_snprintf|]. rewrite app_assoc. apply whole_snprintf.
      rewrite <- app_assoc, zlen_app. pose proof (dec_len32 _ (Hdif (protection_type (rv_cap (at_rv a))))).
      assert (forall b : bool, zlen (text (if b then "dix" else "dif")) = 3) as -> by (by intros []). lia.
  - unfold sd_show_provisioning_mode. apply whole_snprintf. by destruct (provisioning_mode (at_disk a)).
Qed.

(** A refused write changes no file, an accepted one keeps the fields in their types. *)
Definition stored (count : Z) a (ret : Z) a' : Prop :=
  attr_typed a' /\ (ret = count \/ ret < 0 /\ forall g, sd_attr_show dif dix g a' = sd_attr_show dif dix g a).

Lemma stored_same count a ret : attr_typed a -> ret < 0 -> stored count a ret a.
Proof. by split; [|right]. Qed.

Lemma stored_count count a a' : attr_typed a' -> stored count a count a'.
Proof. by split; [|left]. Qed.

Hypothesis Hrev : forall r, rv_typed r -> wp revalidate_disk (fun _ r' => rv_typed r') r.

Lemma store_restart_typed buf count a : attr_typed a -> wp (sd_store_allow_restart is_disk capable buf count) (stored count a) a.
Proof.
  intros Ha. unfold sd_store_allow_restart. destruct (negb capable); [by apply stored_same|].
  destruct (negb is_disk); [by apply stored_same|]. do 3 kstep. apply stored_count.
  destruct Ha as (? & ? & ?). split; [done|]. split; [done|]. apply Z.mod_pos_bound. lia.
Qed.

Lemma store_manage_typed buf count a : attr_typed a -> wp (sd_store_manage_start_stop capable buf count) (stored count a) a.
Proof.
  intros Ha. unfold sd_store_manage_start_stop. destruct (negb capable); [by apply stored_same|].
  do 3 kstep. apply stored_count.
  destruct Ha as (? & ? & ?). split; [done|]. split; [|done]. apply Z.mod_pos_bound. lia.
Qed.

Lemma store_protection_typed buf count a : attr_typed a -> wp (sd_store_protection_type capable buf count) (stored count a) a.
Proof.
  intros Ha. unfold sd_store_protection_type. destruct (negb capable); [by apply stored_same|].
  destruct (kstrtouint buf) as [v|e] eqn:E; [|apply stored_same; [done|by eapply kstrtouint_error]].
  kstep. destruct (Z.leb_spec 0 v); cbn [andb]; [|by apply stored_count].
  destruct (Z.leb_spec v SD_DIF_TYPE3_PROTECTION) as [Hv|]; [|by apply stored_count].
  unfold SD_DIF_TYPE3_PROTECTION in Hv. apply stored_count.
  destruct Ha as ((? & ? & ?) & ?). split; [|done]. split; [|done].
  change (0 <= v < 2 ^ 8). lia.
Qed.

Lemma store_timeouts_typed buf count a : attr_typed a -> wp (sd_store_max_medium_access_timeouts capable buf count) (stored count a) a.
Proof.
  intros Ha. unfold sd_store_max_medium_access_timeouts. destruct (negb capable); [by apply stored_same|].
  destruct (kstrtouint buf) as [v|e] eqn:E; [|apply stored_same; [done|by eapply kstrtouint_error]].
  kstep. apply wp_at_upd, stored_count. apply kstrtouint_range in E.
  destruct Ha as ((? & ? & ?) & ?). split; [|done]. by split; [|split].
Qed.

Lemma discard_keeps k m : max_ws_blocks (sd_config_discard k m) = max_ws_blocks k /\
  max_medium_access_timeouts (sd_config_discard k m) = max_medium_access_timeouts k /\ provisioning_mode (sd_config_discard k m) = m.
Proof. by destruct m. Qed.

Lemma store_provisioning_typed buf count a : attr_typed a -> wp (sd_store_provisioning_mode is_disk capable buf count) (stored count a) a.
Proof.
  intros Ha. unfold sd_store_provisioning_mode. destruct (negb capable); [by apply stored_same|].
  destruct (negb is_disk); [by apply stored_same|].
  destruct (mode_of_text buf) as [m|]; [|by apply stored_same].
  kstep. apply wp_at_upd, stored_count.
  destruct Ha as ((Hp & Hw & Ht) & ?), (discard_keeps (at_disk a) m) as (Ew & Et & _).
  split; [|done]. split; [done|].
  change (0 <= max_ws_blocks (sd_config_discard (at_disk a) m) < 2 ^ 32 /\
          0 <= max_medium_access_timeouts (sd_config_discard (at_disk a) m) < 2 ^ 32).
  by rewrite Ew, Et.
Qed.

Lemma ws_range k : 0 <= max_ws_blocks k < 2 ^ 32 -> 0 <= max_ws_blocks (sd_config_write_same k) < 2 ^ 32.
Proof.
  unfold sd_config_write_same, SD_MAX_WS10_BLOCKS. intros.
  destruct (no_write_same _); [cbn; lia|]. destruct (max_ws_blocks k =? 0); destruct (_ || _); cbn; lia.
Qed.
Lemma ws_timeouts k : max_medium_access_timeouts (sd_config_write_same k) = max_medium_access_timeouts k.
Proof.
  unfold sd_config_write_same. destruct (no_write_same _); [done|]. by destruct (max_ws_blocks k =? 0), (_ || _).
Qed.

Lemma typed_write_same f a : attr_typed a -> 0 <= max_ws_blocks (f (at_disk a)) < 2 ^ 32 ->
  max_medium_access_timeouts (f (at_disk a)) = max_medium_access_timeouts (at_disk a) ->
  attr_typed (at_disk_upd sd_config_write_same (at_disk_upd f a)).
Proof.
  intros ((? & ? & Ht) & ?) Hw Hm. split; [|done]. split; [done|]. split.
  - apply (ws_range (f (at_disk a)) Hw).
  - change (0 <= max_medium_access_timeouts (sd_config_write_same (f (at_disk a))) < 2 ^ 32).
    by rewrite ws_timeouts, Hm.
Qed.

Lemma at_upd_id a : at_disk_upd (fun k => k) a = a.
Proof. by destruct a as [[[[] ] ] ]. Qed.

Lemma store_ws_typed buf count a : attr_typed a -> wp (sd_store_write_same_blocks is_disk capable buf count) (stored count a) a.
Proof.
  intros Ha. unfold sd_store_write_same_blocks. destruct (negb capable); [by apply stored_same|].
  destruct (negb is_disk); [by apply stored_same|].
  destruct (kstrtoul buf) as [v|e] eqn:E; [|apply stored_same; [done|by eapply kstrtoul_error]].
  apply kstrtoul_range in E. destruct Ha as (Hr & Hs). pose proof Hr as (_ & Hw & _).
  kstep. destruct (v =? 0); [|destruct (Z.leb_spec v SD_MAX_WS16_BLOCKS) as [Hv|]].
  - apply wp_at_upd. kstep. apply wp_at_upd, stored_count, typed_write_same; done.
  - apply wp_at_upd. kstep. apply wp_at_upd, stored_count, typed_write_same; try done.
    unfold SD_MAX_WS16_BLOCKS in Hv. cbn. lia.
  - kstep. kstep. apply wp_at_upd, stored_count. rewrite <- (at_upd_id a) at 1. by apply typed_write_same.
Qed.

(** ** The cache type *)

Definition at_dev (d : D) a : attr_state D :=
  at_with_rv (rv_with_pm (pm_with_cap (cap_dev d (rv_cap (at_rv a))) (rv_pm (at_rv a))) (at_rv a)) a.

(** The two bits a cache type stands for, and the byte with them in. *)
Definition ct_bits (ct : Z) : Z :=
  Z.lor (Z.shiftl (if c_true (Z.land ct 0x02) then 1 else 0) 2) (if c_true (Z.land ct 0x01) then 1 else 0).
Definition ct_byte (ct : Z) (b : byte) : byte :=
  byte.of_Z (Z.lor (Z.land (byte.unsigned b) (Z.lnot 0x05)) (ct_bits ct)).

(** What MODE SELECT is given, from the buffer of 64 bytes MODE SENSE filled. *)
Definition select_page (ct off len : Z) (buffer : bytes) : bytes :=
  slice off len (splice (off + 2) [ct_byte ct (default Byte.x00 (slice (off + 2) 1 buffer !! 0%nat))] buffer).
Definition select_sp (ct off : Z) (buffer : bytes) : Z :=
  let b0 := cdb_byte (slice off 1 (splice (off + 2) [ct_byte ct (default Byte.x00 (slice (off + 2) 1 buffer !! 0%nat))] buffer)) 0 in
  if c_true (Z.land b0 0x80) then 1 else 0.

Lemma wp_cache_type_store buf count stack ct a d1 res data ans (Q : Z -> attr_state D -> Prop) :
  is_disk = true -> find_cache_type buf sd_cache_types 0 = Some ct -> zlen stack = 64 ->
  scsi_mode_sense (cp_dev (rv_cap (at_rv a))) 0x08 8 64 = (d1, (res, data, ans)) ->
  let off := md_header_length data + md_block_descriptor_length data in
  let buffer := received (take 64 ans) stack in
  let sp := select_sp ct off buffer in
  let page := select_page ct off (md_length data - off) buffer in
  (c_true res = true -> Q (- EINVAL) (at_dev d1 a)) ->
  (c_true res = false ->
   0 <= md_header_length data /\ 0 <= md_block_descriptor_length data /\ off + 3 <= 64 /\ off <= md_length data <= 64) ->
  (c_true res = false -> c_true (snd (scsi_mode_select d1 1 sp 8 page data)) = true ->
   Q (- EINVAL) (at_select sp page (at_dev (fst (scsi_mode_select d1 1 sp 8 page data)) a))) ->
  (c_true res = false -> c_true (snd (scsi_mode_select d1 1 sp 8 page data)) = false ->
   let a2 := at_count (at_select sp page (at_dev (fst (scsi_mode_select d1 1 sp 8 page data)) a)) in
   wp revalidate_disk (fun _ r' => Q count (at_with_rv r' a2)) (at_rv a2)) ->
  wp (sd_store_cache_type is_disk revalidate_disk buf count stack) Q a.
Proof.
  intros -> Hct Hst Hms off buffer sp page Hbad Hfit Hsel Hok.
  unfold sd_store_cache_type. cbn [negb]. rewrite Hct. cbv zeta. kstep.
  assert (sd_do_mode_sense 0x08 8 stack 64 (at_rv a)
          = Ok ((res, data, buffer), at_rv (at_dev d1 a))) as Em.
  { unfold sd_do_mode_sense, mbind, K_bind, kget. by rewrite Hms. }
  unfold wp at 1, on_rv at 1. rewrite Em. cbv beta match.
  change (at_with_rv (at_rv (at_dev d1 a)) a) with (at_dev d1 a).
  destruct (c_true res) eqn:Er; [by apply Hbad|].
  destruct (Hfit eq_refl) as (Hh & Hb & Ho & Hl). change (md_header_length data + md_block_descriptor_length data) with off.
  assert (zlen buffer = 64) as Hbuf by (unfold buffer; by rewrite zlen_received).
  assert (Z.min 64 (u32 (md_length data - md_header_length data - md_block_descriptor_length data)) = md_length data - off) as ->
    by (unfold u32; rewrite Z.mod_small by lia; lia).
  kstep. unfold kbyte at 1. kstep. apply wp_load; [lia..|]. kstep.
  kstep. apply wp_store; [lia|change (zlen [_]) with 1; lia|].
  set (buffer' := splice _ _ _).
  assert (zlen buffer' = 64) as Hbuf'.
  { unfold buffer'. rewrite zlen_splice; [done|lia|change (zlen [_]) with 1; lia]. }
  kstep. unfold kbyte. kstep. apply wp_load; [lia..|]. kstep.
  kstep. apply wp_load; [lia..|]. kstep. kstep.
  assert (buffer' = splice (off + 2) [ct_byte ct (default Byte.x00 (slice (off + 2) 1 buffer !! 0%nat))] buffer) as Eb.
  { unfold buffer', ct_byte, ct_bits, cdb_byte. done. }
  rewrite Eb. change (slice off (md_length data - off) _) with page.
  change (if c_true (Z.land (cdb_byte (slice off 1 _) 0) 0x80) then 1 else 0) with sp.
  change (cp_dev (rv_cap (at_rv (at_dev d1 a)))) with d1.
  destruct (scsi_mode_select d1 1 sp 8 page data) as [d2 res2]. cbn [fst snd] in *.
  kstep. kstep. kstep. apply wp_on_rv. unfold on_rcap.
  apply wp_on_pm. change (wp (on_cap (kmod (cap_dev d2))) ?Q ?p) with (Q tt (pm_with_cap (cap_dev d2 (pm_cap p)) p)). cbv beta.
  destruct (c_true res2); [by apply Hsel|].
  kstep. kstep. kstep. apply wp_on_rv. kcall (Hok eq_refl eq_refl). intros [] r' HQ. exact HQ.
Qed.

Lemma store_cache_typed buf count stack a :
  attr_typed a -> zlen stack = 64 -> mode_fits (cp_dev (rv_cap (at_rv a))) ->
  wp (sd_store_cache_type is_disk revalidate_disk buf count stack) (stored count a) a.
Proof.
  intros Ha Hst Hfit. destruct is_disk eqn:Hd; [|by apply stored_same].
  destruct (find_cache_type buf sd_cache_types 0) as [ct|] eqn:Ect;
    [|unfold sd_store_cache_type; rewrite Ect; by apply stored_same].
  unfold mode_fits in Hfit. destruct (scsi_mode_sense _ 0x08 8 64) as [d1 [[res data] ans]] eqn:Em.
  assert (forall d b p, attr_typed (at_select b p (at_dev d a))) as Hs by (intros; apply Ha).
  rewrite <- Hd. eapply wp_cache_type_store; try done.
  - intros _. split; [apply Ha|]. right. split; [done|]. by intros [].
  - intros Er. apply Hfit. unfold c_true in Er. by destruct (Z.eqb_spec res 0).
  - intros _ _. split; [apply Ha|]. right. split; [done|]. by intros [].
  - intros _ _. cbv zeta. kcall Hrev; [apply Ha|]. intros _ r' Hr. apply stored_count.
    by split; [|apply Ha].
Qed.
End Typed.

(** Every file of [sd_disk_attrs] that can be written keeps its field in its type.  It
    is assumed that revalidation, which a write of [cache_type] asks for, comes to an end
    and keeps the types itself (not so on a device whose MODE SENSE pages leave the
    buffer: [mode_page_read_behind]), and that the caching page fits the buffer of 64
    bytes.  The write returns [count] or an error, no bit field, byte or 32-bit field
    gets a value it cannot hold, an error leaves what every file shows as it was, and
    afterwards every file shows one whole line, not cut by the size given to
    [snprintf]. *)
Theorem attr_store_typed {D} `{ScsiLower D} `{!ModeSense D} `{!ModeSelect D} `{!KStrto} `{!KStrtoOk}
    (is_disk capable : bool) (revalidate_disk : K (rv D) unit) (dif dix : Z -> Z) (f : sd_attr)
    (stack buf : bytes) (count : Z) (st : bytes -> Z -> K (attr_state D) Z) (a : attr_state D) :
  (forall r, rv_typed r -> wp revalidate_disk (fun _ r' => rv_typed r') r) ->
  (forall t, 0 <= dif t < 2 ^ 32) ->
  sd_attr_store is_disk capable revalidate_disk f stack = Some st ->
  attr_typed a -> zlen stack = 64 -> mode_fits (cp_dev (rv_cap (at_rv a))) ->
  wp (st buf count)
     (fun ret a' => attr_typed a' /\ (forall g, whole_line (sd_attr_show dif dix g a')) /\
        (ret = count \/ ret < 0 /\ forall g, sd_attr_show dif dix g a' = sd_attr_show dif dix g a)) a.
Proof.
  intros Hrev Hdif Hst Ha Hstack Hfit.
  assert (wp (st buf count) (stored dif dix count a) a) as Hw.
  { destruct f; inversion Hst; subst st; auto using store_cache_typed, store_restart_typed, store_manage_typed,
      store_protection_typed, store_provisioning_typed, store_ws_typed, store_timeouts_typed. }
  kcall Hw. intros ret a' [Ht Hr]. split; [done|]. split; [|done]. intros g. by apply shown_whole.
Qed.

(** ** A cache type reaches the device *)

Lemma slice_between (l1 l2 l3 : bytes) : slice (zlen l1) (zlen l2) (l1 ++ l2 ++ l3) = l2.
Proof. unfold slice, zlen. rewrite !Nat2Z.id, drop_app_length. apply take_app_length. Qed.

Lemma splice_one (l1 l2 : bytes) x y : splice (zlen l1) [x] (l1 ++ y :: l2) = l1 ++ x :: l2.
Proof.
  unfold splice, zlen. rewrite Nat2Z.id, take_app_length. cbn [length].
  rewrite drop_app_ge by lia. by replace (length l1 + 1 - length l1)%nat with 1%nat by lia.
Qed.

Section Select.
Variables (ct : Z) (hdr : bytes) (p0 p1 b : byte) (rest behind : bytes).
Let page := p0 :: p1 :: b :: rest.
Let page' := p0 :: p1 :: ct_byte ct b :: rest.

Lemma select_at : slice (zlen hdr + 2) 1 (hdr ++ page ++ behind) = [b].
Proof.
  unfold page. replace (hdr ++ (p0 :: p1 :: b :: rest) ++ behind) with ((hdr ++ [p0; p1]) ++ [b] ++ (rest ++ behind))
    by (by rewrite <- app_assoc).
  replace (zlen hdr + 2) with (zlen (hdr ++ [p0; p1])) by (by rewrite zlen_app).
  apply (slice_between _ [b]).
Qed.

Lemma select_spliced : splice (zlen hdr + 2) [ct_byte ct b] (hdr ++ page ++ behind) = hdr ++ page' ++ behind.
Proof.
  unfold page, page'. replace (hdr ++ (p0 :: p1 :: b :: rest) ++ behind) with ((hdr ++ [p0; p1]) ++ b :: (rest ++ behind))
    by (by rewrite <- app_assoc).
  replace (zlen hdr + 2) with (zlen (hdr ++ [p0; p1])) by (by rewrite zlen_app).
  rewrite splice_one. by rewrite <- app_assoc.
Qed.

Lemma select_page_exact : select_page ct (zlen hdr) (zlen page) (hdr ++ page ++ behind) = page'.
Proof. unfold select_page. rewrite select_at. cbn [lookup list_lookup default from_option id]. rewrite select_spliced.
  change (zlen page) with (zlen page'). apply slice_between.
Qed.

Lemma select_sp_exact : select_sp ct (zlen hdr) (hdr ++ page ++ behind) = if c_true (Z.land (byte.unsigned p0) 0x80) then 1 else 0.
Proof. unfold select_sp. rewrite select_at. cbn [lookup list_lookup default from_option id]. rewrite select_spliced.
  unfold page'. change ((p0 :: p1 :: ct_byte ct b :: rest) ++ behind) with ([p0] ++ (p1 :: ct_byte ct b :: rest ++ behind)).
  change 1 with (zlen [p0]) at 1. by rewrite slice_between.
Qed.
End Select.

(** A mask of eight bits sees of the byte what is kept and the bits put in. *)
Lemma ct_byte_mask ct b m : Z.land 255 m = m ->
  Z.land (byte.unsigned (ct_byte ct b)) m
  = Z.lor (Z.land (byte.unsigned b) (Z.land (Z.lnot 5) m)) (Z.land (ct_bits ct) m).
Proof.
  intros Hm. unfold ct_byte. rewrite byte.unsigned_of_Z. unfold byte.wrap.
  rewrite <- (Z.land_ones _ 8) by lia. change (Z.ones 8) with 255.
  rewrite <- Z.land_assoc, Hm, Z.land_lor_distr_l. by rewrite <- Z.land_assoc.
Qed.

Lemma find_own_type ct name : sd_cache_types !! ct = Some name ->
  find_cache_type (name ++ [newline]) sd_cache_types 0 = Some (Z.of_nat ct).
Proof. do 4 (destruct ct as [|ct]; [by intros [= <-]|]). done. Qed.

(** Reading the byte the way [sd_read_cache_type] does gives the cache type back. *)
Lemma found_own_type {D} ct name data hdr p0 p1 b rest (r : rv D) (a : attr_state D) :
  sd_cache_types !! ct = Some name ->
  wp (page_found data (hdr ++ p0 :: p1 :: ct_byte (Z.of_nat ct) b :: rest) 8 (zlen hdr))
     (fun _ r' => sd_show_cache_type (at_with_rv r' a) = (name ++ [newline], zlen (name ++ [newline]))) r.
Proof.
  intros Hct. unfold page_found. kstep.
  eapply wp_kbyte; [unfold zlen; lia| |].
  { replace (Z.to_nat (zlen hdr + 2)) with (length hdr + 2)%nat by (unfold zlen; lia).
    rewrite lookup_app_r by lia. by replace (length hdr + 2 - length hdr)%nat with 2%nat by lia. }
  do 2 kstep. kstep. change (8 =? 8) with true. cbv match.
  rewrite !ct_byte_mask by done. change (Z.land (Z.lnot 5) 4) with 0. change (Z.land (Z.lnot 5) 1) with 0.
  rewrite Z.land_0_r, !Z.lor_0_l. unfold sd_show_cache_type. cbn [at_rv at_with_rv rv_cache rv_with_cache sd_RCD sd_WCE].
  do 4 (destruct ct as [|ct]; [by inversion Hct|]). done.
Qed.

(** Writing one of the four names to [cache_type] sends the device the caching page it
    reported, with only the bits WCE and RCD changed and SP as the device's PS bit
    says, asks for one revalidation and returns [count]; and a device that then answers
    with the page it was sent is read by [sd_read_cache_type] so that the file shows the
    name that was written. *)
Theorem cache_type_roundtrip {D} `{ScsiLower D} `{!ModeSense D} `{!ModeSelect D} (revalidate_disk : K (rv D) unit)
    (ct : nat) (name : bytes) (count : Z) (stack : bytes) (a : attr_state D) (d1 : D) (data : scsi_mode_data)
    (hdr : bytes) (p0 p1 b : byte) (rest : bytes) :
  sd_cache_types !! ct = Some name -> zlen stack = 64 ->
  let page := p0 :: p1 :: b :: rest in
  let page' := p0 :: p1 :: ct_byte (Z.of_nat ct) b :: rest in
  scsi_mode_sense (cp_dev (rv_cap (at_rv a))) 0x08 8 64 = (d1, (0, data, hdr ++ page)) ->
  0 <= md_header_length data -> 0 <= md_block_descriptor_length data ->
  md_header_length data + md_block_descriptor_length data = zlen hdr ->
  md_length data = zlen (hdr ++ page) -> zlen (hdr ++ page) <= 64 ->
  (forall sp, snd (scsi_mode_select d1 1 sp 8 page' data) = 0) ->
  (forall r, wp revalidate_disk (fun _ _ => True) r) ->
  wp (sd_store_cache_type true revalidate_disk (name ++ [newline]) count stack)
     (fun ret a' => ret = count /\
        at_selects a' = at_selects a ++ [(if c_true (Z.land (byte.unsigned p0) 0x80) then 1 else 0, page')] /\
        at_revalidated a' = at_revalidated a + 1 /\
        Z.land (byte.unsigned (ct_byte (Z.of_nat ct) b)) 0xfa = Z.land (byte.unsigned b) 0xfa /\
        forall r, wp (page_found data (hdr ++ page') 8 (zlen hdr))
                     (fun _ r' => sd_show_cache_type (at_with_rv r' a') = (name ++ [newline], zlen (name ++ [newline]))) r) a.
Proof.
  intros Hct Hst page page' Hms Hh Hb Hoff Hlen H64 Hsel Hrev.
  assert (Z.land (byte.unsigned (ct_byte (Z.of_nat ct) b)) 0xfa = Z.land (byte.unsigned b) 0xfa) as Hbits.
  { rewrite ct_byte_mask by done. change (Z.land (Z.lnot 5) 0xfa) with 0xfa.
    do 4 (destruct ct as [|ct]; [apply Z.lor_0_r|]). done. }
  destruct (received_prefix (hdr ++ page) stack) as [behind Hbuf]; [unfold zlen in *; lia|].
  assert (zlen page = 3 + zlen rest) as Hpage by (unfold page; rewrite !zlen_cons; lia).
  rewrite zlen_app in Hlen, H64. pose proof (zlen_nonneg rest).
  pose proof (select_page_exact (Z.of_nat ct) hdr p0 p1 b rest behind) as Ep.
  pose proof (select_sp_exact (Z.of_nat ct) hdr p0 p1 b rest behind) as Es.
  change (p0 :: p1 :: b :: rest) with page in Ep, Es. change (p0 :: p1 :: ct_byte (Z.of_nat ct) b :: rest) with page' in Ep.
  assert (received (take 64 (hdr ++ page)) stack = hdr ++ page ++ behind) as Hrec
    by (rewrite take_ge, Hbuf, <- app_assoc by (unfold zlen in *; rewrite length_app; lia); done).
  assert (md_length data - zlen hdr = zlen page) as Hl by lia.
  eapply wp_cache_type_store; [done|by apply find_own_type|done|exact Hms|..]; try done; rewrite Hoff, ?Hrec, ?Hl, ?Ep, ?Es.
  - intros _. split_and!; lia.
  - rewrite Hsel. done.
  - intros _ _. cbv zeta. kcall Hrev. intros _ r' _. split_and!; try done. intros r. by apply found_own_type.
Qed.

(** ** Numbers *)

(** The numbers each file takes. *)
Definition accepts {D} (f : sd_attr) (n : Z) (a : attr_state D) : Prop :=
  match f with
  | a_allow_restart | a_manage_start_stop => 0 <= n < 2
  | a_protection_type => 0 <= n <= SD_DIF_TYPE3_PROTECTION
  | a_max_medium_access_timeouts => 0 <= n < 2 ^ 32
  | a_max_write_same_blocks => 0 < n <= SD_MAX_WS16_BLOCKS /\ no_write_same (sk_device (at_disk a)) = false
  | _ => False
  end.

(** The files that show something else after [f] was written. *)
Definition shows_change (f g : sd_attr) : Prop :=
  g = f \/ f = a_protection_type /\ g = a_protection_mode.

Lemma ws_value k : no_write_same (sk_device k) = false -> 0 < max_ws_blocks k ->
  max_ws_blocks (sd_config_write_same k) = max_ws_blocks k.
Proof.
  intros Hn Hw. unfold sd_config_write_same. rewrite Hn.
  destruct (Z.eqb_spec (max_ws_blocks k) 0); [lia|]. by destruct (_ || _).
Qed.
Lemma ws_mode k : provisioning_mode (sd_config_write_same k) = provisioning_mode k.
Proof. unfold sd_config_write_same. destruct (no_write_same _); [done|]. by destruct (max_ws_blocks k =? 0), (_ || _). Qed.

(** The file [f] shows [n] and the others what they showed. *)
Definition now_shows {D} (dif dix : Z -> Z) (f : sd_attr) (n : Z) (a a' : attr_state D) : Prop :=
  sd_attr_show dif dix f a' = (dec n ++ [newline], zlen (dec n ++ [newline])) /\
  forall g, ~ shows_change f g -> sd_attr_show dif dix g a' = sd_attr_show dif dix g a.

Lemma show_num_whole size n : 0 <= n < 2 ^ 32 -> 20 <= size -> show_num size n = (dec n ++ [newline], zlen (dec n ++ [newline])).
Proof. intros Hn Hs. apply snprintf_whole. pose proof (dec_len32 n Hn). lia. Qed.

Lemma bit1_small n : 0 <= n < 2 -> bit1 n = n.
Proof. intros. by apply Z.mod_small. Qed.

Lemma now_shows_ws {D} (dif dix : Z -> Z) n (a : attr_state D) :
  0 < n <= SD_MAX_WS16_BLOCKS -> no_write_same (sk_device (at_disk a)) = false ->
  now_shows dif dix a_max_write_same_blocks n a (at_disk_upd sd_config_write_same (at_disk_upd (sk_max_ws n) a)).
Proof.
  intros Hn Hno. unfold SD_MAX_WS16_BLOCKS in Hn.
  assert (max_ws_blocks (sd_config_write_same (sk_max_ws n (at_disk a))) = n) as Hw by (apply ws_value; [done|cbn; lia]).
  split; [rewrite <- (show_num_whole 20 n) by lia; by rewrite <- Hw at 2|]. intros g Hg.
  destruct g; try done; cbn [sd_attr_show].
  - unfold sd_show_provisioning_mode.
    change (at_disk (at_disk_upd _ _)) with (sd_config_write_same (sk_max_ws n (at_disk a))). by rewrite ws_mode.
  - destruct Hg. by left.
  - unfold sd_show_max_medium_access_timeouts.
    change (at_disk (at_disk_upd _ _)) with (sd_config_write_same (sk_max_ws n (at_disk a))). by rewrite ws_timeouts.
Qed.

(** C25: a number that a file takes, written by a privileged user to the file of a disk
    as decimal digits and a newline, is what the file shows afterwards, whole and with
    its length returned, and no other file shows anything else than before (but for
    [protection_mode], which is computed from [protection_type]); the write returns
    [count].  The files and their numbers: [allow_restart] and [manage_start_stop] (0 or
    1), [protection_type] (0 to 3), [max_medium_access_timeouts] (32 bits) and
    [max_write_same_blocks] (1 to 0x7fffff, while WRITE SAME is not disabled).  Of the
    kernel's parsers ([KStrtoOk]) it is assumed that they read the decimal digits of a
    number of their type, followed by a newline, as that number. *)
Theorem number_roundtrip {D} `{ScsiLower D} `{!ModeSense D} `{!ModeSelect D} `{!KStrto} `{!KStrtoOk}
    (revalidate_disk : K (rv D) unit) (dif dix : Z -> Z) (f : sd_attr) (n : Z) (stack : bytes) (count : Z)
    (st : bytes -> Z -> K (attr_state D) Z) (a : attr_state D) :
  sd_attr_store true true revalidate_disk f stack = Some st -> accepts f n a ->
  wp (st (dec n ++ [newline]) count) (fun ret a' => ret = count /\ now_shows dif dix f n a a') a.
Proof.
  intros Hst Hn. destruct f; try done; inversion Hst; subst st; cbn [accepts] in Hn.
  - unfold sd_store_allow_restart. cbn [negb]. do 3 kstep. rewrite simple_strtoul_dec by lia.
    split; [done|]. split; [|intros [] Hg; first [done|by destruct Hg; left]].
    cbn [sd_attr_show]. unfold sd_show_allow_restart. cbn [at_allow_restart at_set_restart].
    rewrite bit1_small by lia. apply show_num_whole; lia.
  - unfold sd_store_manage_start_stop. cbn [negb]. do 3 kstep. rewrite simple_strtoul_dec by lia.
    split; [done|]. split; [|intros [] Hg; first [done|by destruct Hg; left]].
    cbn [sd_attr_show]. unfold sd_show_manage_start_stop. cbn [at_manage_start_stop at_set_manage].
    rewrite bit1_small by lia. apply show_num_whole; lia.
  - unfold SD_DIF_TYPE3_PROTECTION in Hn. unfold sd_store_protection_type, SD_DIF_TYPE3_PROTECTION. cbn [negb].
    rewrite kstrtouint_dec by lia. rewrite (proj2 (Z.leb_le 0 n)), (proj2 (Z.leb_le n 3)) by lia. cbn [andb].
    split; [done|]. split; [apply (show_num_whole 20 n); lia|]. intros [] Hg; try done; destruct Hg; [by left|by right].
  - destruct Hn as [Hn Hno]. unfold sd_store_write_same_blocks. cbn [negb].
    rewrite kstrtoul_dec by (unfold SD_MAX_WS16_BLOCKS in Hn; lia).
    destruct (Z.eqb_spec n 0); [lia|]. rewrite (proj2 (Z.leb_le _ _)) by lia.
    kstep. apply wp_at_upd. kstep. apply wp_at_upd. split; [done|]. by apply now_shows_ws.
  - unfold sd_store_max_medium_access_timeouts. cbn [negb]. rewrite kstrtouint_dec by lia. kstep. apply wp_at_upd.
    split; [done|]. split; [apply (show_num_whole 20 n); lia|]. intros [] Hg; first [done|by destruct Hg; left].
Qed.

(** ** Cases that are not as meant *)

(** [provisioning_mode] takes no text that it shows: the comparison runs over the
    terminating NUL, so the newline of what is shown, and of what [echo] writes, makes it
    fail with -EINVAL; the same name without its newline is taken. *)
Theorem provisioning_text_refused {D} `{ScsiLower D} (count : Z) (mode : lbp_mode) (a : attr_state D) :
  sd_store_provisioning_mode true true (fst (sd_show_provisioning_mode a)) count a = Ok (- EINVAL, a) /\
  (mode <> SD_LBP_FULL ->
   wp (sd_store_provisioning_mode true true (lbp_mode_text mode) count)
      (fun ret a' => ret = count /\ provisioning_mode (at_disk a') = mode) a).
Proof.
  split.
  - unfold sd_store_provisioning_mode, sd_show_provisioning_mode. by destruct (provisioning_mode (at_disk a)).
  - intros Hm. unfold sd_store_provisioning_mode. cbn [negb].
    assert (mode_of_text (lbp_mode_text mode) = Some mode) as -> by (by destruct mode).
    kstep. apply wp_at_upd. split; [done|]. apply discard_keeps.
Qed.

(** [sd_store_cache_type] takes the smaller of 64 and the length of the page for
    the number of bytes behind the mode header, so it reads past its buffer of 64
    bytes as soon as the device says its mode data are longer than that. *)
Theorem cache_type_overruns {D} `{ScsiLower D} `{!ModeSense D} `{!ModeSelect D} (revalidate_disk : K (rv D) unit)
    (ct : nat) (name : bytes) (count : Z) (stack : bytes) (a : attr_state D) (d1 : D) (data : scsi_mode_data) (ans : bytes) :
  sd_cache_types !! ct = Some name -> zlen stack = 64 ->
  scsi_mode_sense (cp_dev (rv_cap (at_rv a))) 0x08 8 64 = (d1, (0, data, ans)) ->
  let off := md_header_length data + md_block_descriptor_length data in
  0 < off <= 61 -> 64 < md_length data < 2 ^ 32 ->
  sd_store_cache_type true revalidate_disk (name ++ [newline]) count stack a = Oops OutOfBounds.
Proof.
  intros Hct Hst Hms off Hoff Hlen. unfold sd_store_cache_type. cbn [negb]. rewrite (find_own_type ct) by done. cbv zeta.
  set (buffer := received (take 64 ans) stack).
  assert (on_rv (sd_do_mode_sense 0x08 8 stack 64) a = Ok ((0, data, buffer), at_dev d1 a)) as Em.
  { unfold on_rv, sd_do_mode_sense, mbind, K_bind, kget. by rewrite Hms. }
  rewrite (bind_ok _ _ _ _ _ Em). cbv match beta. change (c_true 0) with false. cbv match.
  change (md_header_length data + md_block_descriptor_length data) with off.
  assert (zlen buffer = 64) as Hbuf by (unfold buffer; by rewrite zlen_received).
  assert (forall i (l : bytes) (s : attr_state D), zlen l = 64 -> 0 <= i < 64 -> exists z, kbyte i l s = Ok (z, s)) as Hk.
  { intros i l s Hl Hi. destruct (wp_inv (kbyte i l) (fun _ s' => s' = s) s) as (z & s' & E & ->); [|by exists z].
    apply wp_kbyte_at; [lia|done]. }
  destruct (Hk (off + 2) buffer (at_dev d1 a) Hbuf ltac:(lia)) as [z Ez]. rewrite (bind_ok _ _ _ _ _ Ez). cbv beta.
  set (x := Z.lor _ _). set (buffer' := splice (off + 2) [byte.of_Z x] buffer).
  assert (kstore (off + 2) [byte.of_Z x] buffer (at_dev d1 a) = Ok (buffer', at_dev d1 a)) as Es.
  { unfold kstore. rewrite (proj2 (in_range_spec _ _ _)); [done|]. change (zlen [byte.of_Z x]) with 1. lia. }
  rewrite (bind_ok _ _ _ _ _ Es). cbv beta.
  assert (zlen buffer' = 64) as Hbuf'.
  { unfold buffer'. rewrite zlen_splice; [done|lia|change (zlen [byte.of_Z x]) with 1; lia]. }
  destruct (Hk off buffer' (at_dev d1 a) Hbuf' ltac:(lia)) as [z0 Ez0]. rewrite (bind_ok _ _ _ _ _ Ez0). cbv beta.
  apply bind_oops. unfold kload. destruct (in_range _ _ _) eqn:E; [|done]. apply in_range_spec in E.
  unfold u32 in E. rewrite Z.mod_small in E by lia. lia.
Qed.

(** ** Ioctls *)

(** [sd_ioctl] hands a command to the block layer or the midlayer only when
    [scsi_verify_blk_ioctl] allows it, [scsi_nonblockable_ioctl] did not deal with it
    and the device came out of error recovery; then exactly one of them answers it, the
    midlayer for the two addressing commands and for those the block layer does not
    know. [sd_compat_ioctl] asks the host under the same condition. *)
Theorem ioctl_guarded (e : ioctl_env) (mode cmd : Z) :
  let '(ret, calls) := sd_ioctl e mode cmd in
  let ndelay := c_true (Z.land mode FMODE_NDELAY) in
  let passed := (0 <=? verify_blk_ioctl e cmd) && block_when_processing_errors e in
  let open := passed && c_true (nonblockable_ioctl e cmd ndelay) in
  let addressing := (cmd =? SCSI_IOCTL_GET_IDLUN) || (cmd =? SCSI_IOCTL_GET_BUS_NUMBER) in
  (CallBlock cmd ∈ calls <-> open = true /\ addressing = false) /\
  (CallScsi cmd ∈ calls <-> open = true /\ (addressing = true \/ cmd_blk_ioctl e mode cmd = - ENOTTY)) /\
  (CallScsi cmd ∈ calls -> ret = scsi_ioctl e cmd) /\
  (CallScsi cmd ∉ calls -> CallBlock cmd ∈ calls -> ret = cmd_blk_ioctl e mode cmd) /\
  (verify_blk_ioctl e cmd < 0 -> ret = verify_blk_ioctl e cmd /\ calls = [CallVerify]) /\
  (CallHost cmd ∈ snd (sd_compat_ioctl e mode cmd) <-> passed = true /\ is_Some (compat_ioctl e)).
Proof.
  unfold sd_ioctl, sd_compat_ioctl. set (ndelay := c_true (Z.land mode FMODE_NDELAY)).
  rewrite (Z.leb_antisym (verify_blk_ioctl e cmd) 0).
  destruct (Z.ltb_spec (verify_blk_ioctl e cmd) 0) as [Hv|Hv]; cbn [negb andb];
  destruct (block_when_processing_errors e), (c_true (nonblockable_ioctl e cmd ndelay)),
    ((cmd =? SCSI_IOCTL_GET_IDLUN) || (cmd =? SCSI_IOCTL_GET_BUS_NUMBER)), (compat_ioctl e);
  cbn [negb orb andb snd]; try destruct (Z.eqb_spec (cmd_blk_ioctl e mode cmd) (- ENOTTY)); cbn [negb app];
  rewrite ?list_elem_of_In, ?is_Some_alt; cbn [In]; split_and!; intuition (congruence || lia).
Qed.

(** ** Executions *)

(** A device that keeps the page it is sent behind its header. *)
#[global] Instance ms_mode_select : ModeSelect ms_device := {|
  scsi_mode_select := fun d _ _ _ page data =>
    (mkMsDev (ms_reply d) (ms_data d)
       (take (Z.to_nat (md_header_length data + md_block_descriptor_length data)) (ms_ans d) ++ page), 0)
|}.

Definition cache_hdr : bytes := byte.of_Z <$> [14; 0; 0x10; 0].
Definition cache_rest : bytes := byte.of_Z <$> [0; 0; 0; 0; 0; 0; 0; 0].
Definition cache_dev : ms_device :=
  mkMsDev demo_reply (mkModeData 15 0 4 0x10) (cache_hdr ++ Byte.x88 :: Byte.x09 :: Byte.x15 :: cache_rest).
Definition demo_at (d : ms_device) : attr_state ms_device := mkAttr (demo_rv d) 0 0 [] 0.
Definition demo_name : bytes := text "write back".
Definition demo_stack : bytes := fill 64 Byte.xaa.

Lemma demo_typed d : attr_typed (demo_at d).
Proof. unfold attr_typed, rv_typed. cbn. lia. Qed.

(** A host that supports type 1. *)
Definition demo_dif (t : Z) : Z := if t =? 1 then 1 else 0.
Lemma demo_dif_range t : 0 <= demo_dif t < 2 ^ 32.
Proof. unfold demo_dif. destruct (t =? 1); lia. Qed.

Lemma demo_mode_fits : mode_fits (cp_dev (rv_cap (at_rv (demo_at cache_dev)))).
Proof. intros _. change (0 <= 4 /\ 0 <= 0 /\ 4 + 0 + 3 <= 64 /\ 4 + 0 <= 15 <= 64). lia. Qed.

Lemma attr_store_typed_witness :
  exists ret a', sd_store_cache_type true (mret tt) (demo_name ++ [newline]) 11 demo_stack (demo_at cache_dev) = Ok (ret, a') /\
    attr_typed a' /\ whole_line (sd_attr_show demo_dif (fun _ => 0) a_protection_mode a').
Proof.
  destruct (wp_inv _ _ _ (@attr_store_typed ms_device _ _ _ demo_strto demo_strto_ok true true (mret tt)
    demo_dif (fun _ => 0) a_cache_type demo_stack (demo_name ++ [newline]) 11
    (fun buf count => sd_store_cache_type true (mret tt) buf count demo_stack) (demo_at cache_dev)
    (fun r Hr => wp_ret tt (fun _ r' => rv_typed r') r Hr) demo_dif_range eq_refl (demo_typed _) eq_refl
    demo_mode_fits))
    as (ret & a' & E & Ht & Hw & _).
  exists ret, a'. split; [exact E|]. split; [exact Ht|]. apply Hw.
Defined.

(** The page 88 09 15 .. becomes 88 09 14 ..: RCD off, WCE and the other bits as they were. *)
Lemma cache_type_roundtrip_witness :
  exists a', sd_store_cache_type true (mret tt) (demo_name ++ [newline]) 11 demo_stack (demo_at cache_dev) = Ok (11, a') /\
    at_selects a' = [(1, Byte.x88 :: Byte.x09 :: Byte.x14 :: cache_rest)].
Proof.
  destruct (wp_inv _ _ _ (@cache_type_roundtrip ms_device ms_lower ms_mode_sense ms_mode_select (mret tt) 2 demo_name 11 demo_stack (demo_at cache_dev)
    cache_dev (mkModeData 15 0 4 0x10) cache_hdr Byte.x88 Byte.x09 Byte.x15 cache_rest
    eq_refl eq_refl eq_refl ltac:(cbn; lia) ltac:(cbn; lia) eq_refl eq_refl ltac:(by vm_compute)
    (fun _ => eq_refl) (fun _ => I))) as (ret & a' & E & -> & Hs & _).
  exists a'. split; [exact E|]. exact Hs.
Defined.

Lemma number_roundtrip_witness :
  (exists a', @sd_store_write_same_blocks ms_device demo_strto true true (dec 0x7fffff ++ [newline]) 8 (demo_at cache_dev) = Ok (8, a') /\
    sd_show_write_same_blocks a' = (dec 8388607 ++ [newline], 8)) /\
  (exists a', @sd_store_protection_type ms_device demo_strto true (dec 2 ++ [newline]) 2 (demo_at cache_dev) = Ok (2, a') /\
    sd_show_protection_type a' = (dec 2 ++ [newline], 2) /\
    sd_show_write_same_blocks a' = sd_show_write_same_blocks (demo_at cache_dev)).
Proof.
  split.
  - destruct (wp_inv _ _ _ (@number_roundtrip ms_device _ _ _ demo_strto demo_strto_ok (mret tt) (fun _ => 0) (fun _ => 0)
      a_max_write_same_blocks 0x7fffff demo_stack 8 (@sd_store_write_same_blocks ms_device demo_strto true true)
      (demo_at cache_dev) eq_refl ltac:(by split; [unfold SD_MAX_WS16_BLOCKS; lia|])))
      as (ret & a' & E & -> & Hs & _).
    exists a'. split; [exact E|exact Hs].
  - destruct (wp_inv _ _ _ (@number_roundtrip ms_device _ _ _ demo_strto demo_strto_ok (mret tt) (fun _ => 0) (fun _ => 0)
      a_protection_type 2 demo_stack 2 (@sd_store_protection_type ms_device demo_strto true)
      (demo_at cache_dev) eq_refl ltac:(by split; [|unfold SD_DIF_TYPE3_PROTECTION; lia])))
      as (ret & a' & E & -> & Hs & Hother).
    exists a'. split; [exact E|]. split; [exact Hs|].
    apply (Hother a_max_write_same_blocks). intros [Hc|[_ Hc]]; discriminate Hc.
Defined.

Lemma cache_type_overruns_witness :
  sd_store_cache_type true (mret tt) (demo_name ++ [newline]) 11 demo_stack
    (demo_at (mkMsDev demo_reply (mkModeData 72 0 4 0x10) (cache_hdr ++ fill 60 Byte.x00))) = Oops OutOfBounds.
Proof.
  by apply (@cache_type_overruns ms_device ms_lower ms_mode_sense ms_mode_select (mret tt) 2 demo_name 11 demo_stack
    (demo_at (mkMsDev demo_reply (mkModeData 72 0 4 0x10) (cache_hdr ++ fill 60 Byte.x00)))
    (mkMsDev demo_reply (mkModeData 72 0 4 0x10) (cache_hdr ++ fill 60 Byte.x00)) (mkModeData 72 0 4 0x10)
    (cache_hdr ++ fill 60 Byte.x00)).
Defined.
