(* ===== verification/SdProbe.v ===== *)
(** * drivers/scsi/sd.c: the life of a disk and of the driver

    [sd_probe], its asynchronous part, [sd_remove], the release of a disk with its last
    reference, and the start and end of the driver.  The state holds the resources a
    disk owns and the references to it; calls of functions whose effect is on other
    state are recorded.  Results: what every way a probe can go gives back, and what it
    loses when the class device cannot be added; whatever the order of the asynchronous
    part, users coming and going and the removal, a disk is released exactly once, with
    its last reference, and nothing of it remains.  Four
    executions are not what is meant: a probe that reports success without a disk, after
    which the removal oopses; a removal that leaves the files of the swap driver; a start
    of the driver that reports success without a driver, and one that leaves the work
    queue of the swap driver. *)

From stdpp Require Import base list relations.
From coqutil Require Import Byte.
From Stdlib Require Import ZArith Lia.
From S2P Require Import Prelude Kapi Ring Layout State Scsi Sim Swap Sysfs Sd SdName.

Local Open Scope Z_scope.

(** ** A disk *)

(** [Defaults] are the values of the [scsi_disk] until the device tells otherwise,
    [Flags] those of the gendisk. *)
Inductive life_call :=
  | RqTimeout (ticks : Z) | Defaults | Revalidate | Flags (removable : bool) | AddDisk | DifConfig | DelDisk | Shutdown.

Record probe := mkProbe {
  ida : list Z;               (* sd_index_ida: indices in use *)
  sdkp_live : bool;           (* the scsi_disk is allocated *)
  sdkp_index : Z;
  sdkp_refs : Z;              (* sdkp->dev *)
  gd_refs : Z;                (* the gendisk's, from alloc_disk *)
  gd_name : bytes;
  gd_numbers : option (option Z * Z);    (* major, first_minor *)
  private_data : bool;        (* gd->private_data *)
  sdev_refs : Z;              (* sdev_gendev *)
  drvdata : bool;
  async : bool;               (* sd_probe_async is scheduled *)
  class_dev : bool;           (* device_add done, device_del not *)
  autopm : Z;
  prep_sd : bool;             (* the queue uses sd_prep_fn *)
  swap_enable : bool;
  swap_live : bool;           (* scsi_swap_init done, scsi_swap_destroy not *)
  swap_kobj : kobject;
  dev_named : bool;           (* sdkp->dev has a name of its own *)
  dev_names : Z;              (* names allocated by dev_set_name *)
  calls : list life_call
}.

Section Upd.
Implicit Types p : probe.
Definition p_ida (l : list Z) p : probe :=
  mkProbe l (sdkp_live p) (sdkp_index p) (sdkp_refs p) (gd_refs p) (gd_name p) (gd_numbers p) (private_data p)
    (sdev_refs p) (drvdata p) (async p) (class_dev p) (autopm p) (prep_sd p) (swap_enable p) (swap_live p) (swap_kobj p) (dev_named p) (dev_names p) (calls p).
Definition p_sdkp (live : bool) (index refs : Z) p : probe :=
  mkProbe (ida p) live index refs (gd_refs p) (gd_name p) (gd_numbers p) (private_data p)
    (sdev_refs p) (drvdata p) (async p) (class_dev p) (autopm p) (prep_sd p) (swap_enable p) (swap_live p) (swap_kobj p) (dev_named p) (dev_names p) (calls p).
Definition p_gd (refs : Z) (name : bytes) (numbers : option (option Z * Z)) (private : bool) p : probe :=
  mkProbe (ida p) (sdkp_live p) (sdkp_index p) (sdkp_refs p) refs name numbers private
    (sdev_refs p) (drvdata p) (async p) (class_dev p) (autopm p) (prep_sd p) (swap_enable p) (swap_live p) (swap_kobj p) (dev_named p) (dev_names p) (calls p).
Definition p_sdev (n : Z) p : probe :=
  mkProbe (ida p) (sdkp_live p) (sdkp_index p) (sdkp_refs p) (gd_refs p) (gd_name p) (gd_numbers p) (private_data p)
    (sdev_refs p + n) (drvdata p) (async p) (class_dev p) (autopm p) (prep_sd p) (swap_enable p) (swap_live p) (swap_kobj p) (dev_named p) (dev_names p) (calls p).
Definition p_drvdata (b : bool) p : probe :=
  mkProbe (ida p) (sdkp_live p) (sdkp_index p) (sdkp_refs p) (gd_refs p) (gd_name p) (gd_numbers p) (private_data p)
    (sdev_refs p) b (async p) (class_dev p) (autopm p) (prep_sd p) (swap_enable p) (swap_live p) (swap_kobj p) (dev_named p) (dev_names p) (calls p).
Definition p_async (b : bool) p : probe :=
  mkProbe (ida p) (sdkp_live p) (sdkp_index p) (sdkp_refs p) (gd_refs p) (gd_name p) (gd_numbers p) (private_data p)
    (sdev_refs p) (drvdata p) b (class_dev p) (autopm p) (prep_sd p) (swap_enable p) (swap_live p) (swap_kobj p) (dev_named p) (dev_names p) (calls p).
Definition p_class (b : bool) p : probe :=
  mkProbe (ida p) (sdkp_live p) (sdkp_index p) (sdkp_refs p) (gd_refs p) (gd_name p) (gd_numbers p) (private_data p)
    (sdev_refs p) (drvdata p) (async p) b (autopm p) (prep_sd p) (swap_enable p) (swap_live p) (swap_kobj p) (dev_named p) (dev_names p) (calls p).
Definition p_autopm (n : Z) p : probe :=
  mkProbe (ida p) (sdkp_live p) (sdkp_index p) (sdkp_refs p) (gd_refs p) (gd_name p) (gd_numbers p) (private_data p)
    (sdev_refs p) (drvdata p) (async p) (class_dev p) (autopm p + n) (prep_sd p) (swap_enable p) (swap_live p) (swap_kobj p) (dev_named p) (dev_names p) (calls p).
Definition p_prep (b : bool) p : probe :=
  mkProbe (ida p) (sdkp_live p) (sdkp_index p) (sdkp_refs p) (gd_refs p) (gd_name p) (gd_numbers p) (private_data p)
    (sdev_refs p) (drvdata p) (async p) (class_dev p) (autopm p) b (swap_enable p) (swap_live p) (swap_kobj p) (dev_named p) (dev_names p) (calls p).
Definition p_swap (enable live : bool) (k : kobject) p : probe :=
  mkProbe (ida p) (sdkp_live p) (sdkp_index p) (sdkp_refs p) (gd_refs p) (gd_name p) (gd_numbers p) (private_data p)
    (sdev_refs p) (drvdata p) (async p) (class_dev p) (autopm p) (prep_sd p) enable live k (dev_named p) (dev_names p) (calls p).
Definition p_call (c : life_call) p : probe :=
  mkProbe (ida p) (sdkp_live p) (sdkp_index p) (sdkp_refs p) (gd_refs p) (gd_name p) (gd_numbers p) (private_data p)
    (sdev_refs p) (drvdata p) (async p) (class_dev p) (autopm p) (prep_sd p) (swap_enable p) (swap_live p) (swap_kobj p)
    (dev_named p) (dev_names p) (calls p ++ [c]).
Definition p_name (named : bool) (names : Z) p : probe :=
  mkProbe (ida p) (sdkp_live p) (sdkp_index p) (sdkp_refs p) (gd_refs p) (gd_name p) (gd_numbers p) (private_data p)
    (sdev_refs p) (drvdata p) (async p) (class_dev p) (autopm p) (prep_sd p) (swap_enable p) (swap_live p) (swap_kobj p)
    named names (calls p).
End Upd.

(** The device: its type, whether it is removable, the time-out its queue has, what
    revalidation finds.  What the rest of the kernel answers: [kzalloc], [alloc_disk];
    for each turn of the loop, [ida_pre_get] and the result and index of [ida_get_new];
    whether [dev_set_name] gets the memory for the name; [device_add]; whether the swap driver takes the disk ([scsi_swap_init]);
    [kobject_add]. *)
Record probe_env := mkProbeEnv {
  dev_type : Z;
  dev_removable : bool;
  rq_timeout : Z;
  hz : Z;
  has_capacity : bool;
  kzalloc_ok : bool;
  alloc_disk_ok : bool;
  ida_answers : list (bool * Z * Z);
  set_name_ok : bool;
  device_add : Z;
  can_swap : bool;
  kobject_add : Z
}.

Definition TYPE_DISK : Z := 0x00.
Definition TYPE_MOD : Z := 0x07.
Definition TYPE_RBC : Z := 0x0e.

(** The [do .. while]: an error to return, or an index. *)
Fixpoint ida_loop (answers : list (bool * Z * Z)) (error : Z) : K probe (Z + Z) :=
  match answers with
  | [] => kfail Hang
  | (pre, err, index) :: rest =>
      if negb pre then mret (inl error) else
      if err =? - EAGAIN then ida_loop rest err else
      if negb (err =? 0) then mret (inl err) else
      kmod (fun p => p_ida (index :: ida p) p);;
      mret (inr index)
  end.

Definition ida_remove (index : Z) : K probe unit :=
  kmod (fun p => p_ida (filter (fun i => i <> index) (ida p)) p).

Definition sd_prefix : bytes := [Byte.x73; Byte.x64].

Definition flag (b : bool) : Z := if b then 1 else 0.

(** [dev_set_name]; the driver core frees the name of a device behind its release. *)
Definition dev_set_name (ok : bool) (p : probe) : probe :=
  if ok then p_name true (dev_names p + 1) p else p.
Definition free_name (p : probe) : probe := p_name false (dev_names p - flag (dev_named p)) p.

(** The labels at the end of [sd_probe].  [kfree] does not ask for references. *)
Definition out_free (error : Z) : K probe Z :=
  kmod (fun p => p_sdkp false (sdkp_index p) (sdkp_refs p) p);; mret error.
Definition put_disk : K probe unit :=
  kmod (fun p => p_gd (gd_refs p - 1) (gd_name p) (gd_numbers p) (private_data p) p).
Definition out_put (error : Z) : K probe Z := put_disk;; out_free error.
Definition out_free_index (index error : Z) : K probe Z := ida_remove index;; out_put error.

Definition sd_probe (e : probe_env) : K probe Z :=
  if negb (dev_type e =? TYPE_DISK) && negb (dev_type e =? TYPE_MOD) && negb (dev_type e =? TYPE_RBC)
  then mret (- ENODEV) else
  if negb (kzalloc_ok e) then mret (- ENOMEM) else
  kmod (fun p => p_name false (dev_names p) (p_sdkp true 0 0 p));;
  if negb (alloc_disk_ok e) then out_free (- ENOMEM) else
  kmod (p_gd 1 [] None false);;
  x ← ida_loop (ida_answers e) (- ENOMEM);
  match x with
  | inl error => out_put error
  | inr index =>
      y ← sd_format_disk_name sd_prefix index (fill DISK_NAME_LEN Byte.x00);
      let '(error, name) := y in
      kmod (fun p => p_gd (gd_refs p) name (gd_numbers p) (private_data p) p);;
      if negb (error =? 0) then out_free_index index error else
      (if rq_timeout e =? 0
       then kmod (p_call (RqTimeout (if dev_type e =? TYPE_MOD then 75 * hz e else 30 * hz e))) else mret tt);;
      kmod (fun p => p_sdkp true index 1 p);;
      kmod (dev_set_name (set_name_ok e));;
      if negb (device_add e =? 0) then out_free_index index error else
      kmod (p_class true);;
      kmod (p_sdev 1);;
      kmod (p_drvdata true);;
      kmod (fun p => p_sdkp (sdkp_live p) (sdkp_index p) (sdkp_refs p + 1) p);;
      kmod (p_async true);;
      mret 0
  end.

Definition scsi_disk_release : K probe unit :=
  p ← kget;
  ida_remove (sdkp_index p);;
  kmod (fun p => p_gd (gd_refs p) (gd_name p) (gd_numbers p) false p);;
  put_disk;;
  kmod (p_sdev (-1));;
  kmod (fun p => p_sdkp false (sdkp_index p) (sdkp_refs p) p).

(** [put_device(&sdkp->dev)] *)
Definition put_sdkp : K probe unit :=
  p ← kget;
  if negb (sdkp_live p) then kfail UseAfterFree else
  kmod (fun p => p_sdkp true (sdkp_index p) (sdkp_refs p - 1) p);;
  if sdkp_refs p - 1 =? 0 then scsi_disk_release;; kmod free_name else mret tt.

Definition sd_probe_async (e : probe_env) : K probe unit :=
  p ← kget;
  if negb (sdkp_live p) then kfail UseAfterFree else
  kmod (p_async false);;
  let index := sdkp_index p in
  kmod (fun p => p_gd (gd_refs p) (gd_name p) (Some (sd_disk_major index, sd_first_minor index)) true p);;
  kmod (p_call Defaults);;
  kmod (p_call Revalidate);;
  kmod (p_prep true);;
  kmod (p_call (Flags (dev_removable e)));;
  kmod (fun p => p_swap (can_swap e) (can_swap e) (swap_kobj p) p);;
  kmod (p_call AddDisk);;
  kmod (fun p => p_swap (swap_enable p) (swap_live p)
                   (fst (scsi_swap_register_sysfs (swap_enable p) (kobject_add e) (swap_kobj p))) p);;
  (if has_capacity e then kmod (p_call DifConfig) else mret tt);;
  kmod (p_call Revalidate);;
  kmod (p_autopm (-1));;
  put_sdkp.

(** [async_synchronize_full_domain] waits for the asynchronous part: if it has not run
    yet, it runs here. *)
Definition sd_remove (e : probe_env) : K probe Z :=
  p ← kget;
  if negb (drvdata p) then kfail NullDeref else
  if negb (sdkp_live p) then kfail UseAfterFree else
  kmod (fun p => p_swap (swap_enable p) (swap_live p)
                   (fst (scsi_swap_unregister_sysfs (swap_enable p) (swap_kobj p))) p);;
  kmod (p_autopm 1);;
  p ← kget;
  (if async p then sd_probe_async e else mret tt);;
  kmod (p_prep false);;
  kmod (p_class false);;
  kmod (p_call DelDisk);;
  kmod (p_call Shutdown);;
  kmod (fun p => p_swap (swap_enable p) (if swap_enable p then false else swap_live p) (swap_kobj p) p);;
  kmod (p_drvdata false);;
  put_sdkp;;
  mret 0.

(** [scsi_disk_get] and [scsi_disk_put] of a user of the disk; [got] says whether
    [scsi_device_get] succeeds. *)
Definition life_get (got : bool) : K probe bool :=
  p ← kget;
  if negb (private_data p) then mret false else
  if negb (sdkp_live p) then kfail UseAfterFree else
  if negb got then mret false else
  kmod (p_sdev 1);;
  kmod (fun p => p_sdkp (sdkp_live p) (sdkp_index p) (sdkp_refs p + 1) p);;
  mret true.
Definition life_put : K probe unit :=
  put_sdkp;;
  kmod (p_sdev (-1)).

(** ** The driver *)

Definition SD_MAJORS : nat := 16.

Record driver := mkDriver {
  dr_majors : list Z;         (* block majors held *)
  dr_class : bool;            (* sd_disk_class *)
  dr_swap_wq : bool;          (* work queue of the swap driver *)
  dr_cache : bool;            (* sd_cdb_cache *)
  dr_pool : bool;             (* sd_cdb_pool *)
  dr_driver : bool            (* sd_template.gendrv *)
}.

Record driver_env := mkDriverEnv {
  register_blkdev : Z -> Z;
  class_register : Z;
  create_workqueue : bool;
  cache_create : bool;
  pool_create : bool;
  register_driver : Z
}.

Definition d_majors (l : list Z) (d : driver) : driver :=
  mkDriver l (dr_class d) (dr_swap_wq d) (dr_cache d) (dr_pool d) (dr_driver d).
Definition d_class (b : bool) (d : driver) : driver :=
  mkDriver (dr_majors d) b (dr_swap_wq d) (dr_cache d) (dr_pool d) (dr_driver d).
Definition d_swap (b : bool) (d : driver) : driver :=
  mkDriver (dr_majors d) (dr_class d) b (dr_cache d) (dr_pool d) (dr_driver d).
Definition d_cache (b : bool) (d : driver) : driver :=
  mkDriver (dr_majors d) (dr_class d) (dr_swap_wq d) b (dr_pool d) (dr_driver d).
Definition d_pool (b : bool) (d : driver) : driver :=
  mkDriver (dr_majors d) (dr_class d) (dr_swap_wq d) (dr_cache d) b (dr_driver d).
Definition d_driver (b : bool) (d : driver) : driver :=
  mkDriver (dr_majors d) (dr_class d) (dr_swap_wq d) (dr_cache d) (dr_pool d) b.

(** The loops over the majors, from [i], [n] left. *)
Fixpoint register_majors (e : driver_env) (n : nat) (i majors : Z) : K driver Z :=
  match n with
  | O => mret majors
  | S n' =>
      m ← kderef BugOn (sd_major i);
      if register_blkdev e m =? 0
      then kmod (fun d => d_majors (m :: dr_majors d) d);; register_majors e n' (i + 1) (majors + 1)
      else register_majors e n' (i + 1) majors
  end.

Fixpoint unregister_majors (n : nat) (i : Z) : K driver unit :=
  match n with
  | O => mret tt
  | S n' =>
      m ← kderef BugOn (sd_major i);
      kmod (fun d => d_majors (filter (fun x => x <> m) (dr_majors d)) d);;
      unregister_majors n' (i + 1)
  end.

(** The labels at the end of [init_sd]. *)
Definition err_out (err : Z) : K driver Z := unregister_majors SD_MAJORS 0;; mret err.
Definition err_out_class (err : Z) : K driver Z := kmod (d_class false);; err_out err.
Definition err_out_cache (err : Z) : K driver Z := kmod (d_cache false);; err_out_class err.
Definition err_out_driver (err : Z) : K driver Z := kmod (d_pool false);; err_out_cache err.

Definition init_sd (e : driver_env) : K driver Z :=
  majors ← register_majors e SD_MAJORS 0 0;
  if majors =? 0 then mret (- ENODEV) else
  let err := class_register e in
  if negb (err =? 0) then err_out err else
  kmod (d_class true);;
  kmod (d_swap (fst (module_scsi_swap_init (create_workqueue e))));;
  if negb (cache_create e) then err_out_class err else
  kmod (d_cache true);;
  if negb (pool_create e) then err_out_cache err else
  kmod (d_pool true);;
  let err := register_driver e in
  if negb (err =? 0) then err_out_driver err else
  kmod (d_driver true);;
  mret 0.

Definition exit_sd : K driver unit :=
  d ← kget;
  kmod (d_swap (fst (module_scsi_swap_exit (dr_swap_wq d))));;
  kmod (d_driver false);;
  kmod (d_pool false);;
  kmod (d_cache false);;
  kmod (d_class false);;
  unregister_majors SD_MAJORS 0.

(** ** References and what they keep *)

(** A reference given back. *)
Definition drop_ref (p : probe) : probe :=
  let p1 := p_sdkp true (sdkp_index p) (sdkp_refs p - 1) p in
  if sdkp_refs p - 1 =? 0 then
    free_name (p_sdkp false (sdkp_index p) (sdkp_refs p - 1)
      (p_sdev (-1) (p_gd (gd_refs p - 1) (gd_name p) (gd_numbers p) false
         (p_ida (filter (fun i => i <> sdkp_index p) (ida p)) p1))))
  else p1.

Lemma put_sdkp_eq p : sdkp_live p = true -> put_sdkp p = Ok (tt, drop_ref p).
Proof.
  intros Hl. unfold put_sdkp, mbind, K_bind, kget. rewrite Hl. cbn [negb]. unfold drop_ref, kmod.
  by destruct (sdkp_refs p - 1 =? 0).
Qed.

(** A disk with [n] references, of which [users] are users', besides the indices
    [ida0], the references [sdev0] and the names [names0] that are not its own. *)
Inductive owns (ida0 : list Z) (sdev0 names0 users : Z) (n : Z) (p : probe) : Prop :=
  | owns_live :
      sdkp_live p = true -> 0 < n -> sdkp_refs p = n -> ida p ≡ₚ sdkp_index p :: ida0 -> NoDup (ida p) ->
      gd_refs p = 1 -> sdev_refs p = sdev0 + 1 + users ->
      dev_names p = names0 + flag (dev_named p) -> owns ida0 sdev0 names0 users n p
  | owns_gone :
      sdkp_live p = false -> n = 0 -> ida p ≡ₚ ida0 -> gd_refs p = 0 -> sdev_refs p = sdev0 + users ->
      private_data p = false -> dev_names p = names0 -> owns ida0 sdev0 names0 users n p.

Lemma owns_alive ida0 sdev0 names0 users n p : owns ida0 sdev0 names0 users n p -> 0 < n -> sdkp_live p = true.
Proof. intros [Hl|Hl ->] Hn; [done|lia]. Qed.

Lemma filter_notin (i : Z) (l : list Z) : (i ∉ l) -> filter (fun x => x <> i) l = l.
Proof.
  induction l as [|x l IH]; [done|]. intros [Hx Hl]%not_elem_of_cons. rewrite filter_cons, decide_True by auto.
  by rewrite IH.
Qed.

Lemma filter_head (i : Z) (l l0 : list Z) : NoDup l -> l ≡ₚ i :: l0 -> filter (fun x => x <> i) l ≡ₚ l0.
Proof.
  intros Hn Hl. rewrite Hl in Hn. apply NoDup_cons in Hn as [Hi _].
  etrans; [apply filter_Permutation, Hl|]. rewrite filter_cons, decide_False by auto. by rewrite filter_notin.
Qed.

Lemma owns_drop ida0 sdev0 names0 users n p :
  owns ida0 sdev0 names0 users n p -> 0 < n -> owns ida0 sdev0 names0 users (n - 1) (drop_ref p).
Proof.
  intros [Hl Hn Hr Hi Hd Hg Hs Hm|Hl ->] Hpos; [|lia]. unfold drop_ref. rewrite Hr.
  destruct (Z.eqb_spec (n - 1) 0) as [E|E].
  - apply owns_gone; cbn; try done; [by apply filter_head|lia..].
  - apply owns_live; cbn; try done; lia.
Qed.

(** The fields [owns] is about. *)
Definition same_owner (p p' : probe) : Prop :=
  sdkp_live p' = sdkp_live p /\ sdkp_refs p' = sdkp_refs p /\ ida p' = ida p /\ sdkp_index p' = sdkp_index p /\
  gd_refs p' = gd_refs p /\ sdev_refs p' = sdev_refs p /\
  dev_named p' = dev_named p /\ dev_names p' = dev_names p.

Lemma owns_same ida0 sdev0 names0 users n p p' :
  same_owner p p' -> 0 < n -> owns ida0 sdev0 names0 users n p -> owns ida0 sdev0 names0 users n p'.
Proof.
  intros (E1 & E2 & E3 & E4 & E5 & E6 & E7 & E8) Hpos [Hl Hn Hr Hi Hd Hg Hs Hm|Hl ->]; [|lia].
  by apply owns_live; rewrite ?E1, ?E2, ?E3, ?E4, ?E5, ?E6, ?E7, ?E8.
Qed.

Lemma wp_put_sdkp p Q : sdkp_live p = true -> Q tt (drop_ref p) -> wp put_sdkp Q p.
Proof. intros Hl HQ. unfold wp. by rewrite put_sdkp_eq. Qed.

Lemma wp_async e p :
  sdkp_live p = true ->
  wp (sd_probe_async e)
     (fun _ p' => exists q, p' = drop_ref q /\ same_owner p q /\ drvdata q = drvdata p /\ async q = false /\
        private_data q = true /\ class_dev q = class_dev p /\ swap_enable q = can_swap e /\ swap_live q = can_swap e /\
        swap_kobj q = fst (scsi_swap_register_sysfs (can_swap e) (kobject_add e) (swap_kobj p))) p.
Proof.
  intros Hl. unfold sd_probe_async. do 2 kstep. rewrite Hl. cbn [negb]. do 19 kstep.
  destruct (has_capacity e); repeat kstep; (apply wp_put_sdkp; [done|]); eexists; by split_and!.
Qed.

(** The part of [sd_remove] behind the wait. *)
Lemma wp_remove_tail ida0 sdev0 names0 users p :
  owns ida0 sdev0 names0 users (users + 1) p -> 0 <= users ->
  wp (kmod (p_prep false);;
      kmod (p_class false);;
      kmod (p_call DelDisk);;
      kmod (p_call Shutdown);;
      kmod (fun p => p_swap (swap_enable p) (if swap_enable p then false else swap_live p) (swap_kobj p) p);;
      kmod (p_drvdata false);;
      put_sdkp;;
      mret 0)
     (fun ret p' => ret = 0 /\ owns ida0 sdev0 names0 users users p' /\ drvdata p' = false /\ async p' = async p /\
        class_dev p' = false /\ swap_live p' = (if swap_enable p then false else swap_live p) /\ swap_kobj p' = swap_kobj p) p.
Proof.
  intros Ho Hu. do 13 kstep. set (q := p_drvdata false _). assert (same_owner p q) as Hq by done.
  assert (owns ida0 sdev0 names0 users (users + 1) q) as Hoq by (eapply owns_same; [exact Hq|lia|exact Ho]).
  apply wp_put_sdkp; [eapply owns_alive; [exact Hoq|lia]|]. kstep. apply owns_drop in Hoq; [|lia].
  replace (users + 1 - 1) with users in Hoq by lia. split; [done|]. split; [exact Hoq|].
  unfold drop_ref. destruct (sdkp_refs q - 1 =? 0); by split_and!.
Qed.

Lemma wp_remove ida0 sdev0 names0 users e p :
  owns ida0 sdev0 names0 users (users + 1 + flag (async p)) p -> drvdata p = true -> 0 <= users ->
  wp (sd_remove e)
     (fun ret p' => ret = 0 /\ owns ida0 sdev0 names0 users users p' /\ drvdata p' = false /\ async p' = false /\
        class_dev p' = false /\
        let enable := if async p then can_swap e else swap_enable p in
        swap_live p' = (if enable then false else if async p then can_swap e else swap_live p) /\
        swap_kobj p' =
          let k := fst (scsi_swap_unregister_sysfs (swap_enable p) (swap_kobj p)) in
          if async p then fst (scsi_swap_register_sysfs (can_swap e) (kobject_add e) k) else k) p.
Proof.
  intros Ho Hd Hu. assert (0 <= flag (async p)) by (by destruct (async p)).
  unfold sd_remove. do 2 kstep. rewrite Hd, (owns_alive _ _ _ _ _ _ Ho) by lia. cbn [negb]. do 7 kstep.
  set (q := p_autopm 1 _). change (async q) with (async p). assert (same_owner p q) as Hq by done.
  assert (owns ida0 sdev0 names0 users (users + 1 + flag (async p)) q) as Hoq by (eapply owns_same; [exact Hq|lia|exact Ho]).
  destruct (async p) eqn:Ea; cbn [flag] in *.
  - eapply wp_mono; [apply wp_async; eapply owns_alive; [exact Hoq|lia]|]. cbv beta.
    intros _ p1 (q1 & -> & Hs1 & D1 & A1 & _ & _ & SE & SL & SK).
    assert (owns ida0 sdev0 names0 users (users + 1) (drop_ref q1)) as Ho1.
    { replace (users + 1) with (users + 1 + 1 - 1) by lia. apply owns_drop; [|lia]. by eapply owns_same; [exact Hs1|lia|]. }
    assert (swap_enable (drop_ref q1) = swap_enable q1 /\ swap_live (drop_ref q1) = swap_live q1 /\
      swap_kobj (drop_ref q1) = swap_kobj q1 /\ async (drop_ref q1) = async q1) as (E1 & E2 & E3 & E4)
      by (unfold drop_ref; by destruct (_ =? 0)).
    eapply wp_mono; [by apply wp_remove_tail|]. cbv beta. intros ret p' (R & O & DD & AA & CC & LL & KK).
    rewrite AA, LL, KK, E1, E2, E3, E4, SE, SL, SK, A1. by split_and!.
  - kstep. rewrite Z.add_0_r in Hoq. eapply wp_mono; [by apply wp_remove_tail|]. cbv beta.
    intros ret p' (R & O & DD & AA & CC & LL & KK). by rewrite AA, LL, KK.
Qed.

(** ** The life of a disk *)

Section Life.
Variable e : probe_env.

(** The asynchronous part runs, users come and go, the disk is removed; [n] users. *)
Inductive life : probe * Z -> probe * Z -> Prop :=
  | life_async p p' n : async p = true -> sd_probe_async e p = Ok (tt, p') -> life (p, n) (p', n)
  | life_user p p' n got : life_get got p = Ok (true, p') -> life (p, n) (p', n + 1)
  | life_done p p' n : 0 < n -> life_put p = Ok (tt, p') -> life (p, n) (p', n - 1)
  | life_remove p p' n : drvdata p = true -> sd_remove e p = Ok (0, p') -> life (p, n) (p', n).

Record life_inv (ida0 : list Z) (sdev0 names0 : Z) (x : probe * Z) : Prop := {
  li_users : 0 <= snd x;
  li_owns : owns ida0 sdev0 names0 (snd x) (snd x + flag (drvdata (fst x)) + flag (async (fst x))) (fst x);
  li_async : async (fst x) = true -> drvdata (fst x) = true
}.

Lemma owns_private ida0 sdev0 names0 users n p : owns ida0 sdev0 names0 users n p -> private_data p = true -> sdkp_live p = true.
Proof. intros [Hl|? ? ? ? ? Hp]; [done|congruence]. Qed.

Lemma drop_flags p : drvdata (drop_ref p) = drvdata p /\ async (drop_ref p) = async p.
Proof. unfold drop_ref. by destruct (_ =? 0). Qed.

Lemma wp_life_async ida0 sdev0 names0 p n :
  life_inv ida0 sdev0 names0 (p, n) -> async p = true ->
  wp (sd_probe_async e) (fun _ p' => life_inv ida0 sdev0 names0 (p', n)) p.
Proof.
  intros [Hu Ho Ha] Hasy. cbn [fst snd] in *. rewrite Hasy, (Ha Hasy) in Ho. cbn [flag] in Ho.
  eapply wp_mono; [apply wp_async; eapply owns_alive; [exact Ho|lia]|]. cbv beta.
  intros _ p1 (q & -> & Hs & D & A & _). destruct (drop_flags q) as [E1 E2].
  split; cbn [fst snd]; [done| |by rewrite E2, A]. rewrite E1, E2, D, A, (Ha Hasy). cbn [flag].
  replace (n + 1 + 0) with (n + 1 + 1 - 1) by lia. apply owns_drop; [|lia]. by eapply owns_same; [exact Hs|lia|].
Qed.

Lemma wp_life_get ida0 sdev0 names0 got p n :
  life_inv ida0 sdev0 names0 (p, n) ->
  wp (life_get got) (fun b p' => if b then life_inv ida0 sdev0 names0 (p', n + 1) else p' = p) p.
Proof.
  intros [Hu Ho Ha]. cbn [fst snd] in *. unfold life_get. do 2 kstep.
  destruct (private_data p) eqn:Ep; cbn [negb]; [|by kstep]. rewrite (owns_private _ _ _ _ _ _ Ho Ep). cbn [negb].
  destruct got; cbn [negb]; [|by kstep].
  do 5 kstep. split; cbn [fst snd]; [lia| |done]. cbn [drvdata async p_sdkp p_sdev].
  destruct Ho as [Hl Hn Hr Hi Hd Hg Hs Hm|? ? ? ? ? Hp]; [|congruence].
  apply owns_live; cbn; done || lia.
Qed.

Lemma wp_life_put ida0 sdev0 names0 p n :
  life_inv ida0 sdev0 names0 (p, n) -> 0 < n -> wp life_put (fun _ p' => life_inv ida0 sdev0 names0 (p', n - 1)) p.
Proof.
  intros [Hu Ho Ha] Hn. cbn [fst snd] in *. assert (0 <= flag (drvdata p) /\ 0 <= flag (async p)) as [F1 F2]
    by (destruct (drvdata p), (async p); by cbn). unfold life_put. kstep.
  apply wp_put_sdkp; [eapply owns_alive; [exact Ho|lia]|]. kstep. destruct (drop_flags p) as [E1 E2].
  assert (forall q, drvdata (p_sdev (-1) q) = drvdata q /\ async (p_sdev (-1) q) = async q) as Hsame by done.
  split; cbn [fst snd]; [lia| |by rewrite !(proj1 (Hsame _)), !(proj2 (Hsame _)), E1, E2].
  rewrite (proj1 (Hsame _)), (proj2 (Hsame _)), E1, E2. apply owns_drop in Ho; [|lia].
  destruct Ho as [Hl Hn' Hr Hi Hd Hg Hs Hm|Hl Hn' Hi Hg Hs Hp Hm].
  - apply owns_live; cbn; done || lia.
  - apply owns_gone; cbn; done || lia.
Qed.

Lemma life_step_inv ida0 sdev0 names0 x y : life x y -> life_inv ida0 sdev0 names0 x -> life_inv ida0 sdev0 names0 y.
Proof.
  intros Hst Hi. destruct Hst as [p p' n Ha E|p p' n got E|p p' n Hn E|p p' n Hd E].
  - destruct (wp_inv _ _ _ (wp_life_async _ _ _ _ _ Hi Ha)) as (? & ? & E' & Hp). rewrite E in E'. by inversion E'.
  - destruct (wp_inv _ _ _ (wp_life_get _ _ _ got _ _ Hi)) as (? & ? & E' & Hp). rewrite E in E'. by inversion E'; subst.
  - destruct (wp_inv _ _ _ (wp_life_put _ _ _ _ _ Hi Hn)) as (? & ? & E' & Hp). rewrite E in E'. by inversion E'.
  - destruct Hi as [Hu Ho Ha]. cbn [fst snd] in *. rewrite Hd in Ho.
    destruct (wp_inv _ _ _ (wp_remove _ _ _ _ e _ Ho Hd Hu)) as (? & ? & E' & R & O & DD & AA & _).
    rewrite E in E'. inversion E'; subst. split; cbn [fst snd]; [done| |by rewrite AA].
    by rewrite DD, AA, !Z.add_0_r.
Qed.

Lemma life_rtc_inv ida0 sdev0 names0 x y : rtc life x y -> life_inv ida0 sdev0 names0 x -> life_inv ida0 sdev0 names0 y.
Proof. induction 1 as [|x y z Hxy _ IH]; [done|]. intros Hi. apply IH. by eapply life_step_inv. Qed.
End Life.

(** ** Probing *)

(** No disk yet. *)
Definition unprobed (p : probe) : Prop :=
  sdkp_live p = false /\ gd_refs p = 0 /\ drvdata p = false /\ async p = false /\ NoDup (ida p).

(** [ida_get_new] returns an index that is free and fits an [int], and not for ever
    -EAGAIN. *)
Definition ida_ok (used : list Z) (answers : list (bool * Z * Z)) : Prop :=
  Forall (fun '(_, _, index) => (index ∉ used) /\ 0 <= index < 2 ^ 31) answers /\
  Exists (fun '(pre, err, _) => pre = false \/ err <> - EAGAIN) answers.

(** What is left of an attempt that did not make a disk.  [late]: the device inside
    the [scsi_disk] had been initialised and named, and is freed with its first
    reference and its name. *)
Definition given_up (late named : bool) (p0 p : probe) : Prop :=
  sdkp_live p = false /\ gd_refs p = 0 /\ ida p ≡ₚ ida p0 /\ sdev_refs p = sdev_refs p0 /\ drvdata p = false /\
  async p = false /\ (if late then sdkp_refs p = 1 else sdkp_refs p = 0 \/ p = p0) /\
  dev_names p = dev_names p0 + flag (late && named).

(** Whether the loop gets an index. *)
Fixpoint ida_gets (answers : list (bool * Z * Z)) : bool :=
  match answers with
  | [] => false
  | (pre, err, _) :: rest => pre && ((err =? 0) || (err =? - EAGAIN) && ida_gets rest)
  end.

Lemma wp_ida_loop answers : forall error p,
  ida_ok (ida p) answers -> error <> 0 ->
  wp (ida_loop answers error)
     (fun x p' => match x with
                  | inl err => ida_gets answers = false /\ err <> 0 /\ p' = p
                  | inr index => ida_gets answers = true /\ p' = p_ida (index :: ida p) p /\ (index ∉ ida p) /\ 0 <= index < 2 ^ 31
                  end) p.
Proof.
  induction answers as [|[[pre err] index] rest IH]; intros error p [Hall Hex] He; [by apply Exists_nil in Hex|].
  apply Forall_cons in Hall as [Hi Hall]. cbn [ida_loop ida_gets]. destruct pre; cbn [negb andb]; [|by kstep].
  destruct (Z.eqb_spec err (- EAGAIN)) as [->|Hne].
  - change (- EAGAIN =? 0) with false. cbn [orb andb]. apply IH; [|done]. split; [done|]. apply Exists_cons in Hex as [[?|?]|Hex]; [done|done|done].
  - destruct (Z.eqb_spec err 0); cbn [negb]; [|by kstep]. by do 2 kstep.
Qed.

Lemma wp_out_free_index late named p0 index error p :
  gd_refs p = 1 -> ida p = index :: ida p0 -> (index ∉ ida p0) -> sdev_refs p = sdev_refs p0 -> drvdata p = false ->
  async p = false -> late = true -> sdkp_refs p = 1 -> dev_names p = dev_names p0 + flag (late && named) ->
  wp (out_free_index index error) (fun ret p' => ret = error /\ given_up late named p0 p') p.
Proof.
  intros Hg Hi Hn Hs Hd Ha -> Hr Hm. unfold out_free_index, ida_remove, out_put, put_disk, out_free. do 7 kstep.
  split; [done|]. unfold given_up. cbn. rewrite Hg, Hi, filter_cons, decide_False, filter_notin by auto. by split_and!.
Qed.

(** A disk that [sd_probe] has set up: the asynchronous part is scheduled, and the
    disk is named after an index nobody else has. *)
Definition set_up (p0 p : probe) : Prop :=
  drvdata p = true /\ async p = true /\ class_dev p = true /\ life_inv (ida p0) (sdev_refs p0) (dev_names p0) (p, 0) /\
  name_index sd_prefix (c_string (gd_name p)) = sdkp_index p.

(** Whether [sd_probe] gets as far as [device_add]: the device is a disk, and the
    memory for the [scsi_disk], the gendisk and the index is there. *)
Definition reaches_add (e : probe_env) : bool :=
  ((dev_type e =? TYPE_DISK) || (dev_type e =? TYPE_MOD) || (dev_type e =? TYPE_RBC)) &&
  kzalloc_ok e && alloc_disk_ok e && ida_gets (ida_answers e).

Lemma wp_probe e p0 :
  unprobed p0 -> ida_ok (ida p0) (ida_answers e) ->
  wp (sd_probe e)
     (fun ret p => if negb (reaches_add e) then ret <> 0 /\ given_up false (set_name_ok e) p0 p
                   else if device_add e =? 0 then ret = 0 /\ set_up p0 p
                   else ret = 0 /\ given_up true (set_name_ok e) p0 p) p0.
Proof.
  intros (Hl & Hg & Hd & Ha & Hn) Hida. unfold sd_probe, reaches_add.
  assert (forall late named, late = false -> given_up late named p0 p0) as Hup
    by (intros ? ? ->; unfold given_up; cbn; rewrite Z.add_0_r; split_and!; try done; by right).
  rewrite <- !negb_orb. destruct (_ || _ || _); cbn [negb andb]; [|kstep; split; [done|by apply Hup]].
  destruct (kzalloc_ok e); cbn [negb andb]; [|kstep; split; [done|by apply Hup]].
  assert (forall p late named, late = false -> sdkp_live p = false -> gd_refs p = 0 -> ida p = ida p0 -> sdev_refs p = sdev_refs p0 ->
    drvdata p = drvdata p0 -> async p = async p0 -> sdkp_refs p = 0 -> dev_names p = dev_names p0 -> given_up late named p0 p) as Hearly.
  { intros p late named -> ? ? E1 E2 E3 E4 ? E5. unfold given_up. cbn. rewrite Z.add_0_r, E1, E2, E3, E4, E5. split_and!; try done. by left. }
  do 2 kstep. unfold out_free. destruct (alloc_disk_ok e); cbn [negb andb]; [|do 3 kstep; split; [done|by apply Hearly]].
  do 3 kstep. eapply wp_mono; [apply wp_ida_loop; [exact Hida|done]|]. cbv beta. intros [err|index] p1.
  { intros (-> & He & ->). unfold out_put, put_disk, out_free. do 5 kstep. split; [done|by apply Hearly]. }
  intros (-> & -> & Hfree & Hrange). cbn [negb]. kstep.
  eapply wp_mono; [apply (wp_format_disk_name _ sd_prefix (fill DISK_NAME_LEN Byte.x00) index); [done| |lia]|].
  { unfold sd_prefix. rewrite !not_elem_of_cons. split_and!; [done|done|apply not_elem_of_nil]. }
  cbv beta. intros [error name] p2 (-> & _ & Hname & _). destruct Hname as (-> & _ & Hname); [by apply sd_names_suffice|].
  do 2 kstep. cbn [Z.eqb negb]. kstep.
  eapply wp_mono with (P := fun _ p => exists cl, p = mkProbe (index :: ida p0) true 0 0 1 name None false (sdev_refs p0)
    (drvdata p0) (async p0) (class_dev p0) (autopm p0) (prep_sd p0) (swap_enable p0) (swap_live p0) (swap_kobj p0)
    false (dev_names p0) cl).
  { destruct (_ =? 0); kstep; by eexists. }
  cbv beta. intros _ p3 [cl ->]. do 4 kstep. destruct (Z.eqb_spec (device_add e) 0) as [Hadd|Hadd]; cbn [negb].
  - do 11 kstep. split; [done|]. unfold set_up. destruct (set_name_ok e).
    all: cbn; split_and!; try done; split; cbn; try done;
      apply owns_live; cbn; try done; try lia; by apply NoDup_cons.
  - eapply wp_mono; [eapply (wp_out_free_index true (set_name_ok e) p0)|cbv beta; intros ret p [-> Hgu]; by split].
    all: destruct (set_name_ok e); cbn; try done; lia.
Qed.


(** C23: whatever the order in which the asynchronous part runs, users open and close the
    disk and the disk is removed, no step uses a freed disk; a disk in use stays
    allocated with its index; and when it is removed and its last user gone, disk,
    gendisk, index, name and references are given back. *)
Theorem disk_released_once (e : probe_env) (p0 p1 p : probe) (n : Z) :
  unprobed p0 -> ida_ok (ida p0) (ida_answers e) -> sd_probe e p0 = Ok (0, p1) -> device_add e = 0 ->
  rtc (life e) (p1, 0) (p, n) ->
  (async p = true -> exists p', sd_probe_async e p = Ok (tt, p')) /\
  (drvdata p = true -> exists p', sd_remove e p = Ok (0, p')) /\
  (forall got, exists b p', life_get got p = Ok (b, p')) /\
  (0 < n -> sdkp_live p = true /\ (sdkp_index p ∈ ida p) /\ exists p', life_put p = Ok (tt, p')) /\
  (drvdata p = false -> n = 0 ->
   sdkp_live p = false /\ gd_refs p = 0 /\ ida p ≡ₚ ida p0 /\ sdev_refs p = sdev_refs p0 /\ dev_names p = dev_names p0).
Proof.
  intros Hp Hi E Hadd Hst.
  destruct (wp_inv _ _ _ (wp_probe e p0 Hp Hi)) as (ret & p' & E' & Hr). rewrite E in E'. inversion E'; subst ret p'.
  rewrite Hadd in Hr. cbn [Z.eqb] in Hr. destruct (negb (reaches_add e)); [by destruct Hr|].
  destruct Hr as (_ & _ & _ & _ & Hinv & _). clear E E' Hp Hi.
  pose proof (life_rtc_inv _ _ _ _ _ _ Hst Hinv) as Hl.
  pose proof Hl as [Hu Ho Ha]. cbn [fst snd] in *. split_and!.
  - intros Has. destruct (wp_inv _ _ _ (wp_life_async e _ _ _ _ _ Hl Has)) as ([] & p' & E & _). by exists p'.
  - intros Hd. rewrite Hd in Ho. destruct (wp_inv _ _ _ (wp_remove _ _ _ _ e _ Ho Hd Hu)) as (r & p' & E & -> & _). by exists p'.
  - intros got. destruct (wp_inv _ _ _ (wp_life_get _ _ _ got _ _ Hl)) as (b & p' & E & _). by exists b, p'.
  - intros Hn. split_and!.
    + eapply owns_alive; [exact Ho|]. destruct (drvdata p), (async p); cbn; lia.
    + destruct Ho as [_ _ _ Hi _ _ _|? Hz]; [rewrite Hi; by left|]. destruct (drvdata p), (async p); cbn in Hz; lia.
    + destruct (wp_inv _ _ _ (wp_life_put _ _ _ _ _ Hl Hn)) as ([] & p' & E & _). by exists p'.
  - intros Hd ->. rewrite Hd in *. assert (async p = false) as Has by (destruct (async p); [by destruct (Ha eq_refl)|done]).
    rewrite Has in Ho. destruct Ho as [? Hz|? ? ? ? ? ?]; [cbn in Hz; lia|]. split_and!; try done; lia.
Qed.

(** ** Executions that are not what is meant *)

(** when the class device cannot be added, [sd_probe] gives everything back but
    returns 0, the value [error] has from naming the disk: the device counts as bound,
    and [sd_remove] then goes through a NULL pointer. *)
Theorem probe_success_without_disk (e e' : probe_env) (p0 : probe) (index : Z) (rest : list (bool * Z * Z)) :
  unprobed p0 -> ida_answers e = (true, 0, index) :: rest -> (index ∉ ida p0) -> 0 <= index < 2 ^ 31 ->
  dev_type e = TYPE_DISK -> kzalloc_ok e = true -> alloc_disk_ok e = true -> device_add e <> 0 ->
  wp (sd_probe e) (fun ret p => ret = 0 /\ given_up true (set_name_ok e) p0 p /\ sd_remove e' p = Oops NullDeref) p0.
Proof.
  intros (Hl & Hg & Hd & Ha & Hn) Hida Hi Hr Ht Hk Hal Hadd. unfold sd_probe.
  rewrite Ht, Hk, Hal, Hida. cbn [Z.eqb TYPE_DISK TYPE_MOD TYPE_RBC negb andb ida_loop]. do 5 kstep.
  change (- EAGAIN) with (-11). cbv match. do 3 kstep. rewrite (proj2 (Z.eqb_neq _ _) Hadd). kstep.
  eapply wp_mono; [apply (wp_format_disk_name _ sd_prefix (fill DISK_NAME_LEN Byte.x00) index); [done| |lia]|].
  { unfold sd_prefix. rewrite !not_elem_of_cons. split_and!; [done|done|apply not_elem_of_nil]. }
  cbv beta. intros [error name] p2 (-> & _ & Hname & _). destruct Hname as (-> & _ & _); [by apply sd_names_suffice|].
  do 2 kstep. cbn [Z.eqb negb]. kstep.
  eapply wp_mono with (P := fun _ p => gd_refs p = 1 /\ ida p = index :: ida p0 /\ sdev_refs p = sdev_refs p0 /\
    drvdata p = false /\ async p = false /\ dev_names p = dev_names p0).
  { by destruct (rq_timeout e =? 0); kstep. }
  cbv beta. intros _ p3 (A1 & A2 & A3 & A4 & A5 & A6). do 4 kstep.
  eapply wp_mono; [apply (wp_out_free_index true (set_name_ok e) p0)|]; try done;
    [destruct (set_name_ok e); cbn; done || lia..|].
  cbv beta. intros ret p [-> Hgu]. split_and!; [done|done|].
  destruct Hgu as (_ & _ & _ & _ & Hdd & _). unfold sd_remove, mbind, K_bind, kget. by rewrite Hdd.
Qed.

(** a disk that is removed after its asynchronous part has run leaves no file of the
    swap driver; one that is removed before leaves them, behind a driver that is gone:
    they are taken away before the wait during which they are made. *)
Theorem remove_before_async_leaves_files (e : probe_env) (ida0 : list Z) (sdev0 names0 n : Z) (p : probe) :
  life_inv ida0 sdev0 names0 (p, n) -> drvdata p = true ->
  can_swap e = true -> 0 <= kobject_add e ->
  wp (sd_remove e)
     (fun _ p' => (async p = false -> swap_enable p = true -> kobj_in_sysfs (swap_kobj p') = false /\ swap_live p' = false) /\
                  (async p = true -> swap_enable p = false -> kobj_in_sysfs (swap_kobj p') = true /\ swap_live p' = false)) p.
Proof.
  intros [Hu Ho Ha] Hd Hs Hk. cbn [fst snd] in *. rewrite Hd in Ho.
  eapply wp_mono; [by apply wp_remove|]. cbv beta. intros ret p' (_ & _ & _ & _ & _ & HL & HK).
  rewrite HL, HK. split; intros -> ->; [done|]. rewrite Hs. unfold scsi_swap_register_sysfs. cbn [negb].
  rewrite (proj2 (Z.ltb_ge _ _)) by done. done.
Qed.

(** ** The driver as a whole *)

Definition no_driver : driver := mkDriver [] false false false false false.

(** The majors of the driver that can be registered. *)
Definition sd_majors : list Z := [8; 65; 66; 67; 68; 69; 70; 71; 128; 129; 130; 131; 132; 133; 134; 135].

Lemma sd_majors_spec i : 0 <= i < 16 -> sd_major i = sd_majors !! Z.to_nat i.
Proof.
  intros Hi. assert (Forall (fun n => sd_major (Z.of_nat n) = sd_majors !! n) (seq 0 16)) as Hall
    by (apply (bool_decide_unpack _); by vm_compute). rewrite Forall_forall in Hall.
  rewrite <- (Z2Nat.id i) at 1 by lia. apply Hall. apply elem_of_seq. lia.
Qed.

Lemma wp_register_majors e n : forall i majors d,
  0 <= i -> i + Z.of_nat n <= 16 ->
  wp (register_majors e n i majors)
     (fun k d' => let l := filter (fun m => register_blkdev e m = 0) (take n (drop (Z.to_nat i) sd_majors)) in
        k = majors + zlen l /\ d' = d_majors (rev l ++ dr_majors d) d) d.
Proof.
  induction n as [|n IH]; intros i majors d Hi Hn; cbn [register_majors].
  { kstep. split; [symmetry; apply Z.add_0_r|by destruct d]. }
  destruct (lookup_lt_is_Some_2 sd_majors (Z.to_nat i)) as [m Hm]; [change (length sd_majors) with 16%nat; lia|].
  kstep. eapply wp_deref; [rewrite <- Hm; by apply sd_majors_spec; lia|].
  rewrite (drop_S _ _ _ Hm). cbn [take]. rewrite filter_cons.
  replace (S (Z.to_nat i)) with (Z.to_nat (i + 1)) by lia.
  destruct (Z.eqb_spec (register_blkdev e m) 0) as [E|E]; [rewrite decide_True by done|rewrite decide_False by done].
  - do 2 kstep. eapply wp_mono; [apply IH; lia|]. cbv beta zeta. intros k d' [-> ->]. rewrite zlen_cons.
    split; [lia|]. cbn [rev d_majors dr_majors]. by rewrite <- app_assoc.
  - eapply wp_mono; [apply IH; lia|]. cbv beta zeta. by intros k d' [-> ->].
Qed.

Lemma wp_unregister_majors n : forall i d,
  0 <= i -> i + Z.of_nat n <= 16 ->
  wp (unregister_majors n i)
     (fun _ d' => exists l, d' = d_majors l d /\
        forall x, x ∈ l -> x ∈ dr_majors d /\ (x ∉ take n (drop (Z.to_nat i) sd_majors))) d.
Proof.
  induction n as [|n IH]; intros i d Hi Hn; cbn [unregister_majors].
  { kstep. exists (dr_majors d). split; [by destruct d|]. intros x Hx. split; [done|apply not_elem_of_nil]. }
  destruct (lookup_lt_is_Some_2 sd_majors (Z.to_nat i)) as [m Hm]; [change (length sd_majors) with 16%nat; lia|].
  kstep. eapply wp_deref; [rewrite <- Hm; by apply sd_majors_spec; lia|]. do 2 kstep.
  eapply wp_mono; [apply IH; lia|]. cbv beta. intros _ d' (l & -> & Hl). exists l. split; [done|].
  intros x Hx. destruct (Hl x Hx) as [H1 H2]. cbn [dr_majors d_majors] in H1. apply list_elem_of_filter in H1 as [H1 H3].
  split; [done|]. rewrite (drop_S _ _ _ Hm). cbn [take]. apply not_elem_of_cons. split; [done|].
  by replace (S (Z.to_nat i)) with (Z.to_nat (i + 1)) by lia.
Qed.

(** All of them: none is left of those that were registered. *)
Lemma wp_unregister_all d Q :
  (forall x, x ∈ dr_majors d -> x ∈ sd_majors) -> Q tt (d_majors [] d) -> wp (unregister_majors SD_MAJORS 0) Q d.
Proof.
  intros Hall HQ. eapply wp_mono; [apply wp_unregister_majors; [lia|done]|]. cbv beta. intros [] d' (l & -> & Hl).
  destruct l as [|x l]; [done|]. destruct (Hl x ltac:(by left)) as [Hx Hn]. destruct Hn. by apply Hall.
Qed.

(** The majors that [init_sd] gets. *)
Definition got_majors (e : driver_env) : list Z := filter (fun m => register_blkdev e m = 0) sd_majors.

Definition wq_only (e : driver_env) : driver := mkDriver [] false (create_workqueue e) false false false.

(** the four ways [init_sd] can go once it has a major.  When the class or the driver
    cannot be registered it returns the error and gives back what it has, the work queue
    of the swap driver excepted; when all goes well everything is registered, and
    [exit_sd] takes all of it away; but when there is no memory for the cache or the
    pool of long commands it undoes everything and returns 0, so the module stays loaded
    without a driver. *)
Theorem init_sd_outcomes (e : driver_env) :
  got_majors e <> [] ->
  wp (init_sd e)
     (fun ret d =>
        if negb (class_register e =? 0) then ret = class_register e /\ d = no_driver
        else if negb (cache_create e) || negb (pool_create e) then ret = 0 /\ d = wq_only e
        else if negb (register_driver e =? 0) then ret = register_driver e /\ d = wq_only e
        else ret = 0 /\ d = mkDriver (rev (got_majors e)) true (create_workqueue e) true true true /\
             exit_sd d = Ok (tt, no_driver)) no_driver.
Proof.
  intros Hm. unfold init_sd. kstep. eapply wp_mono; [apply wp_register_majors; [lia|done]|]. cbv beta zeta.
  change (take SD_MAJORS (drop (Z.to_nat 0) sd_majors)) with sd_majors. fold (got_majors e). intros k d [-> ->].
  assert (0 < zlen (got_majors e)) as Hpos by (destruct (got_majors e); [done|rewrite zlen_cons; pose proof (zlen_nonneg l); lia]).
  rewrite (proj2 (Z.eqb_neq _ _)) by lia.
  assert (forall x, x ∈ rev (got_majors e) ++ [] -> x ∈ sd_majors) as Hin.
  { intros x. rewrite app_nil_r. intros Hx%list_elem_of_In%in_rev%list_elem_of_In. by apply list_elem_of_filter in Hx as [_ ?]. }
  assert (fst (module_scsi_swap_init (create_workqueue e)) = create_workqueue e) as Hwq by (by destruct (create_workqueue e)).
  unfold err_out_driver, err_out_cache, err_out_class, err_out.
  destruct (Z.eqb_spec (class_register e) 0) as [Hc|Hc]; cbn [negb].
  2:{ kstep. apply wp_unregister_all; [exact Hin|]. by kstep. }
  do 4 kstep. rewrite Hwq. destruct (cache_create e); cbn [negb orb].
  2:{ do 3 kstep. apply wp_unregister_all; [exact Hin|]. by kstep. }
  do 2 kstep. destruct (pool_create e); cbn [negb].
  2:{ do 5 kstep. apply wp_unregister_all; [exact Hin|]. by kstep. }
  do 2 kstep. destruct (Z.eqb_spec (register_driver e) 0) as [Hd|Hd]; cbn [negb].
  2:{ do 7 kstep. apply wp_unregister_all; [exact Hin|]. by kstep. }
  do 3 kstep. split; [done|]. split; [cbn; by rewrite app_nil_r|].
  set (d := d_driver true _). assert (wp exit_sd (fun _ d' => d' = no_driver) d) as Hex.
  { unfold exit_sd. do 12 kstep. apply wp_unregister_all; [exact Hin|done]. }
  destruct (wp_inv _ _ _ Hex) as ([] & d' & E & ->). exact E.
Qed.

(** ** Witnesses *)

Definition demo_probe : probe :=
  mkProbe [0; 1] false 0 0 0 [] None false 3 false false false 1 false false false (mkKobj false 0 []) false 0 [].
Definition demo_env (add : Z) : probe_env :=
  mkProbeEnv TYPE_DISK false 0 100 true true true [(true, - EAGAIN, 9); (true, 0, 2)] true add true 0.

Lemma demo_probe_ok add : unprobed demo_probe /\ ida_ok (ida demo_probe) (ida_answers (demo_env add)).
Proof.
  split; [split_and!; try done; apply (bool_decide_unpack _); by vm_compute|]. split.
  - repeat constructor; try lia; apply (bool_decide_unpack _); by vm_compute.
  - right. left. right. done.
Qed.


(** Probed, made ready, opened, removed, closed. *)
Definition then_ {A} (m : K probe A) (p : probe) : probe := match m p with Ok (_, p') => p' | Oops _ => p end.
Definition life1 : probe := Eval vm_compute in then_ (sd_probe (demo_env 0)) demo_probe.
Definition life2 : probe := Eval vm_compute in then_ (sd_probe_async (demo_env 0)) life1.
Definition life3 : probe := Eval vm_compute in then_ (life_get true) life2.
Definition life4 : probe := Eval vm_compute in then_ (sd_remove (demo_env 0)) life3.
Definition life5 : probe := Eval vm_compute in then_ life_put life4.

Lemma demo_life : rtc (life (demo_env 0)) (life1, 0) (life5, 0).
Proof.
  eapply rtc_l; [apply (life_async _ life1 life2); by vm_compute|].
  eapply rtc_l; [apply (life_user _ life2 life3 0 true); by vm_compute|].
  eapply rtc_l; [apply (life_remove _ life3 life4); by vm_compute|].
  eapply rtc_l; [apply (life_done _ life4 life5); by vm_compute|]. apply rtc_refl.
Qed.

Lemma disk_released_once_witness : sdkp_live life4 = true /\ sdkp_live life5 = false /\ ida life5 ≡ₚ [0; 1] /\ sdev_refs life5 = 3.
Proof.
  destruct (demo_probe_ok 0) as [H1 H2].
  destruct (disk_released_once (demo_env 0) demo_probe life1 life5 0 H1 H2 ltac:(by vm_compute) eq_refl demo_life)
    as (_ & _ & _ & _ & Hend).
  destruct (Hend eq_refl eq_refl) as (E1 & _ & E2 & E3 & _). split_and!; [by vm_compute|exact E1|exact E2|exact E3].
Defined.

Definition demo_refused : probe_env := mkProbeEnv TYPE_DISK false 0 100 true true true [(true, 0, 2)] true (-17) true 0.

Lemma probe_success_without_disk_witness :
  exists p, sd_probe demo_refused demo_probe = Ok (0, p) /\ sd_remove (demo_env 0) p = Oops NullDeref.
Proof.
  destruct (wp_inv _ _ _ (probe_success_without_disk demo_refused (demo_env 0) demo_probe 2 []
    ltac:(apply demo_probe_ok; exact 0) eq_refl ltac:(apply (bool_decide_unpack _); by vm_compute) ltac:(lia)
    eq_refl eq_refl eq_refl ltac:(done))) as (ret & p & E & -> & _ & Hr).
  exists p. split; [exact E|exact Hr].
Defined.

Lemma remove_before_async_leaves_files_witness :
  exists p, sd_remove (demo_env 0) life1 = Ok (0, p) /\ kobj_in_sysfs (swap_kobj p) = true /\ swap_live p = false.
Proof.
  assert (life_inv [0; 1] 3 0 (life1, 0)) as Hi.
  { split; cbn; [done| |done]. apply owns_live; cbn; done || apply (bool_decide_unpack _); by vm_compute. }
  destruct (wp_inv _ _ _ (remove_before_async_leaves_files (demo_env 0) [0; 1] 3 0 0 life1 Hi eq_refl eq_refl ltac:(done)))
    as (ret & p & E & _ & Hl).
  assert (ret = 0) as -> by (vm_compute in E; by inversion E). exists p. split; [exact E|]. by apply Hl.
Defined.

Lemma init_sd_outcomes_witness :
  exists d, init_sd (mkDriverEnv (fun _ => 0) 0 true false true 0) no_driver = Ok (0, d) /\ dr_driver d = false.
Proof.
  destruct (wp_inv _ _ _ (init_sd_outcomes (mkDriverEnv (fun _ => 0) 0 true false true 0) ltac:(by vm_compute)))
    as (ret & d & E & -> & ->).
  by exists (wq_only (mkDriverEnv (fun _ => 0) 0 true false true 0)).
Defined.
