(* ===== verification/ScsiHdr.v ===== *)
(** * What the midlayer says of a device: types, serial numbers, inquiry data, logging

    The small functions of drivers/scsi/scsi.c ([scsi_device_type],
    [scsi_cmd_get_serial], [scsi_log_send], [scsi_log_completion]) and the inline
    functions of include/scsi/scsi_device.h that look at a device's state and inquiry
    data.  Results: a type is always shown in 17 characters; serial numbers are never 0
    and repeat only after all others were used; the accessors of inquiry data stay
    inside it; a higher logging level prints what the lower ones print. *)

From Stdlib Require Import String.
From stdpp Require Import base gmap list list_numbers.
From coqutil Require Import Byte.
From Stdlib Require Import ZArith Lia.
From S2P Require Import Prelude Kapi Ring Layout State Scsi Fmt Log Core Sim Swap Sd SdThm SdCap SdPm SdMode SdAttr.

Local Open Scope Z_scope.
Local Open Scope list_scope.

(** ** Types *)

Definition scsi_device_types : list bytes :=
  text <$> ["Direct-Access    "; "Sequential-Access"; "Printer          "; "Processor        "; "WORM             ";
            "CD-ROM           "; "Scanner          "; "Optical Device   "; "Medium Changer   "; "Communications   ";
            "ASC IT8          "; "ASC IT8          "; "RAID             "; "Enclosure        "; "Direct-Access-RBC";
            "Optical card     "; "Bridge controller"; "Object storage   "; "Automation/Drive "]%string.

Definition scsi_device_type (type : Z) : bytes :=
  if type =? 0x1e then text "Well-known LUN   "
  else if type =? 0x1f then text "No Device        "
  else if zlen scsi_device_types <=? type then text "Unknown          "
  else nth (Z.to_nat type) scsi_device_types [].

Lemma device_type_width type : 0 <= type -> zlen (scsi_device_type type) = 17.
Proof.
  intros Ht. unfold scsi_device_type. destruct (type =? 0x1e); [done|]. destruct (type =? 0x1f); [done|].
  destruct (Z.leb_spec (zlen scsi_device_types) type) as [|Hlt]; [done|].
  change (zlen scsi_device_types) with 19 in Hlt.
  assert (forall n, (n < 19)%nat -> zlen (nth n scsi_device_types []) = 17) as Hall.
  { intros n Hn. do 19 (destruct n as [|n]; [done|]). lia. }
  apply Hall. lia.
Qed.

(** ** Serial numbers *)

(** The number of the command and [host->cmd_serial_number] afterwards, an
    [unsigned long]. *)
Definition scsi_cmd_get_serial (next : Z) : Z * Z :=
  let serial := next in
  let next := u64 (next + 1) in
  if serial =? 0 then (next, u64 (next + 1)) else (serial, next).

(** The numbers of [n] commands in a row. *)
Fixpoint serials (n : nat) (next : Z) : list Z :=
  match n with
  | O => []
  | S n => let '(serial, next) := scsi_cmd_get_serial next in serial :: serials n next
  end.

(** The number after [s], without 0. *)
Definition next_serial (s : Z) : Z := 1 + s mod (2 ^ 64 - 1).

Lemma serial_range next : 0 <= next < 2 ^ 64 ->
  1 <= fst (scsi_cmd_get_serial next) < 2 ^ 64 /\ 0 <= snd (scsi_cmd_get_serial next) < 2 ^ 64 /\
  snd (scsi_cmd_get_serial next) = u64 (fst (scsi_cmd_get_serial next) + 1).
Proof.
  intros Hn. unfold scsi_cmd_get_serial. destruct (Z.eqb_spec next 0) as [->|]; cbn [fst snd].
  - split; [change (1 <= 1 < 2 ^ 64); lia|]. split; [change (0 <= 2 < 2 ^ 64); lia|done].
  - unfold u64. split; [lia|]. split; [apply Z.mod_pos_bound; lia|done].
Qed.

Lemma serial_next s : 1 <= s < 2 ^ 64 -> fst (scsi_cmd_get_serial (u64 (s + 1))) = next_serial s.
Proof.
  intros Hs. unfold scsi_cmd_get_serial, next_serial, u64.
  destruct (Z.eq_dec s (2 ^ 64 - 1)) as [->|Hne]; [done|].
  rewrite (Z.mod_small (s + 1)), (Z.mod_small s) by lia. destruct (Z.eqb_spec (s + 1) 0); [lia|]. cbn [fst]. lia.
Qed.

Lemma serials_at n : forall next i s, 0 <= next < 2 ^ 64 -> serials n next !! i = Some s ->
  s = 1 + (fst (scsi_cmd_get_serial next) - 1 + Z.of_nat i) mod (2 ^ 64 - 1).
Proof.
  induction n as [|n IH]; intros next i s Hn; [done|]. cbn [serials].
  destruct (serial_range next Hn) as (H1 & H2 & H3).
  destruct (scsi_cmd_get_serial next) as [s0 next'] eqn:E. cbn [fst snd] in *. subst next'.
  destruct i as [|i]; cbn [lookup list_lookup].
  - intros [= <-]. rewrite Z.add_0_r, Z.mod_small; lia.
  - intros Hs. specialize (IH (u64 (s0 + 1)) i s H2 Hs). rewrite serial_next in IH by done. rewrite IH. f_equal.
    unfold next_serial. replace (1 + s0 mod (2 ^ 64 - 1) - 1 + Z.of_nat i) with (s0 mod (2 ^ 64 - 1) + Z.of_nat i) by lia.
    rewrite Zplus_mod_idemp_l. f_equal. lia.
Qed.

(** C31: The serial numbers [scsi_cmd_get_serial] gives to commands are never 0, also when
    the counter of the host wraps, and no two of 2^64 - 1 commands in a row have the same
    number. *)
Theorem serials_distinct (n : nat) (next : Z) :
  0 <= next < 2 ^ 64 -> Z.of_nat n <= 2 ^ 64 - 1 ->
  Forall (fun s => 1 <= s < 2 ^ 64) (serials n next) /\ NoDup (serials n next).
Proof.
  intros Hn Hc. assert (length (serials n next) = n) as Hlen.
  { clear. revert next. induction n as [|n IH]; intros next; [done|]. cbn [serials]. destruct (scsi_cmd_get_serial next). cbn. by rewrite IH. }
  split.
  - apply Forall_lookup. intros i s Hs. rewrite (serials_at _ _ _ _ Hn Hs).
    pose proof (Z.mod_pos_bound (fst (scsi_cmd_get_serial next) - 1 + Z.of_nat i) (2 ^ 64 - 1) ltac:(lia)). lia.
  - apply NoDup_alt. intros i j s Hi Hj. pose proof (lookup_lt_Some _ _ _ Hi). pose proof (lookup_lt_Some _ _ _ Hj).
    apply (serials_at _ _ _ _ Hn) in Hi, Hj. rewrite Hj in Hi. clear Hj s.
    set (m := 2 ^ 64 - 1) in *. set (a := fst (scsi_cmd_get_serial next) - 1) in *.
    assert ((a + Z.of_nat i) mod m = (a + Z.of_nat j) mod m) as E by lia.
    assert ((Z.of_nat i - Z.of_nat j) mod m = 0) as E0.
    { replace (Z.of_nat i - Z.of_nat j) with ((a + Z.of_nat i) - (a + Z.of_nat j)) by lia.
      rewrite Zminus_mod, E, Z.sub_diag. done. }
    apply Z.mod_divide in E0 as [k Hk]; [|unfold m; lia].
    assert (k = 0) by nia. lia.
Qed.

Lemma serials_distinct_witness : serials 3 (2 ^ 64 - 2) = [2 ^ 64 - 2; 2 ^ 64 - 1; 1] /\ NoDup (serials 3 (2 ^ 64 - 2)).
Proof.
  split; [reflexivity|]. exact (proj2 (serials_distinct 3 (2 ^ 64 - 2) ltac:(lia) ltac:(lia))).
Defined.

(** ** The state of a device *)

Definition scsi_device_created (st : scsi_device_state) : bool :=
  bool_decide (st = SDEV_CREATED) || bool_decide (st = SDEV_CREATED_BLOCK).

(** ** Inquiry data *)

(** [sdev->inquiry], [sdev->inquiry_len], [sdev->no_dif], [sdev->scsi_level]. *)
Record inq_device := mkInq { inquiry : option bytes; inquiry_len : Z; no_dif : bool; inq_level : Z }.

Definition SCSI_2 : Z := 3.

Section Inquiry.
Context {S : Type}.

(** [sdev->inquiry[i]] *)
Definition inq_byte (d : inq_device) (i : Z) : K S Z :=
  b ← kderef NullDeref (inquiry d); kbyte i b.

Definition scsi_device_dt_only (d : inq_device) : K S bool :=
  if inquiry_len d <? 57 then mret false else
  b ← inq_byte d 56; mret (Z.land b 0x0c =? 0x04).
Definition scsi_device_ius (d : inq_device) : K S Z :=
  if inquiry_len d <? 57 then mret 0 else b ← inq_byte d 56; mret (Z.land b 0x01).
Definition scsi_device_qas (d : inq_device) : K S Z :=
  if inquiry_len d <? 57 then mret 0 else b ← inq_byte d 56; mret (Z.land b 0x02).
Definition scsi_device_enclosure (d : inq_device) : K S Z :=
  match inquiry d with Some _ => b ← inq_byte d 6; mret (Z.land b (Z.shiftl 1 6)) | None => mret 1 end.
(** There is no test for NULL in this one. *)
Definition device_protection (d : inq_device) : K S bool :=
  if no_dif d then mret false else
  if SCSI_2 <? inq_level d then b ← inq_byte d 5; mret (c_true (Z.land b 1)) else mret false.
Definition scsi_device_tpgs (d : inq_device) : K S Z :=
  match inquiry d with Some _ => b ← inq_byte d 5; mret (Z.land (Z.shiftr b 4) 0x3) | None => mret 0 end.

(** What the scan of a device sets up: data of at least 36 bytes, as long as said. *)
Definition inquired (d : inq_device) : Prop :=
  exists b, inquiry d = Some b /\ inquiry_len d <= zlen b /\ 36 <= zlen b.

Lemma wp_inq_byte d b i (Q : Z -> S -> Prop) s :
  inquiry d = Some b -> 0 <= i < zlen b -> Q (cdb_byte b (Z.to_nat i)) s -> wp (inq_byte d i) Q s.
Proof.
  intros Hb Hi HQ. unfold inq_byte. kstep. apply (wp_deref _ _ _ _ b); [done|]. by apply wp_kbyte_at.
Qed.

(** The accessors do not leave the data of a device that was scanned, and read the bits
    the standards give them. *)
Lemma inquiry_inside d s b :
  inquiry d = Some b -> inquired d ->
  wp (scsi_device_dt_only d) (fun r _ => r = (57 <=? inquiry_len d) && (Z.land (cdb_byte b 56) 0x0c =? 4)) s /\
  wp (scsi_device_ius d) (fun r _ => r = if inquiry_len d <? 57 then 0 else Z.land (cdb_byte b 56) 1) s /\
  wp (scsi_device_qas d) (fun r _ => r = if inquiry_len d <? 57 then 0 else Z.land (cdb_byte b 56) 2) s /\
  wp (scsi_device_enclosure d) (fun r _ => r = Z.land (cdb_byte b 6) 64) s /\
  wp (device_protection d) (fun r _ => r = negb (no_dif d) && (SCSI_2 <? inq_level d) && c_true (Z.land (cdb_byte b 5) 1)) s /\
  wp (scsi_device_tpgs d) (fun r _ => r = Z.land (Z.shiftr (cdb_byte b 5) 4) 3) s.
Proof.
  intros Hb (b' & Hb' & Hl & H36). rewrite Hb in Hb'. injection Hb' as <-.
  unfold scsi_device_dt_only, scsi_device_ius, scsi_device_qas, scsi_device_enclosure, device_protection, scsi_device_tpgs.
  rewrite Hb. rewrite (Z.leb_antisym (inquiry_len d) 57).
  destruct (Z.ltb_spec (inquiry_len d) 57); cbn [negb andb]; (split; [|split; [|split; [|split; [|split]]]]); try done;
    try (kstep; eapply wp_inq_byte; [done|lia|]; kstep; done);
    (destruct (no_dif d); [done|]; destruct (SCSI_2 <? inq_level d); [|done]; kstep; eapply wp_inq_byte; [done|lia|]; by kstep).
Qed.
End Inquiry.

(** ** Logging *)

(** What is printed, an item each. *)
Inductive log_item := LogSend | LogDone | LogAddress | LogCommand | LogBuffer | LogDisposition (d : Z) | LogResult
  | LogSense | LogBusy.

(** include/scsi/scsi_logging.h *)
Definition SCSI_LOG_LEVEL (logging_level shift bits : Z) : Z := Z.land (Z.shiftr logging_level shift) (Z.shiftl 1 bits - 1).
Definition SCSI_LOG_MLQUEUE_SHIFT : Z := 9.
Definition SCSI_LOG_MLCOMPLETE_SHIFT : Z := 12.
Definition SCSI_LOG_BITS : Z := 3.
Definition SUCCESS : Z := 0x2002.

Definition log_send_at (level : Z) : list log_item :=
  if 1 <? level then
    [LogSend] ++ (if 2 <? level then [LogAddress] else []) ++ [LogCommand] ++ (if 3 <? level then [LogBuffer] else [])
  else [].
Definition scsi_log_send (logging_level : Z) : list log_item :=
  if c_true logging_level then log_send_at (SCSI_LOG_LEVEL logging_level SCSI_LOG_MLQUEUE_SHIFT SCSI_LOG_BITS) else [].

(** [check] says whether the status is CHECK CONDITION. *)
Definition log_completion_at (level result disposition : Z) (check : bool) : list log_item :=
  if ((0 <? level) && (c_true result || negb (disposition =? SUCCESS))) || (1 <? level) then
    [LogDone] ++ (if 2 <? level then [LogAddress] else []) ++ [LogDisposition disposition; LogResult; LogCommand]
    ++ (if check then [LogSense] else []) ++ (if 3 <? level then [LogBusy] else [])
  else [].
Definition scsi_log_completion (logging_level result disposition : Z) (check : bool) : list log_item :=
  if c_true logging_level
  then log_completion_at (SCSI_LOG_LEVEL logging_level SCSI_LOG_MLCOMPLETE_SHIFT SCSI_LOG_BITS) result disposition check
  else [].

(** A level prints all that the levels below it print, in the same order. *)
Lemma log_levels_nested level level' result disposition check :
  level <= level' ->
  log_send_at level `sublist_of` log_send_at level' /\
  log_completion_at level result disposition check `sublist_of` log_completion_at level' result disposition check.
Proof.
  intros Hl. unfold log_send_at, log_completion_at. set (bad := c_true result || _).
  destruct (Z.ltb_spec 0 level), (Z.ltb_spec 0 level'), (Z.ltb_spec 1 level), (Z.ltb_spec 1 level'), (Z.ltb_spec 2 level),
    (Z.ltb_spec 2 level'), (Z.ltb_spec 3 level), (Z.ltb_spec 3 level'); try lia; destruct bad, check;
    cbn [andb orb app]; split; auto 20 using sublist_nil_l, sublist_skip, sublist_cons.
Qed.
