(* ===== verification/ScsiMid.v ===== *)
(** * drivers/scsi/scsi.c: a command through the midlayer

    [scsi_dispatch_cmd] hands a command to the host adapter, [scsi_done] takes it
    back, with the hook that turns writes to simulated bad sectors into errors, and
    [scsi_finish_command] computes how much of it succeeded.  The host's
    [queuecommand], the block layer's completion and requeueing are recorded as
    events.  Results: a dispatched command goes exactly one way, and a simulated
    bad sector fails exactly the writes that touch it. *)

From stdpp Require Import base gmap list list_numbers.
From coqutil Require Import Byte Word.LittleEndianList.
From Stdlib Require Import ZArith Lia.
From S2P Require Import Prelude Kapi Ring Layout State Scsi SimDisk CoreInv CoreThm Sim Swap SwapThm Sd SdThm.

Local Open Scope Z_scope.

(** ** Data *)

(** include/scsi/scsi.h *)
Definition SCSI_MLQUEUE_HOST_BUSY : Z := 0x1055.
Definition SCSI_MLQUEUE_DEVICE_BUSY : Z := 0x1056.
Definition SCSI_MLQUEUE_TARGET_BUSY : Z := 0x1058.
Definition SCSI_UNKNOWN : Z := 0.
Definition SCSI_2 : Z := 3.

Record scsi_cmnd := mkCmnd {
  cmd_result : Z;
  cmd_cdb : bytes;
  cmd_len : Z
}.

(** What the host and the device say about dispatching. *)
Record mid_host := mkHost {
  host_max_cmd_len : Z;
  shost_del : bool;
  mid_scsi_level : Z;
  mid_lun : Z
}.

(** Commands completed, put back with a reason, and given to the adapter. *)
Inductive mid_event :=
  | Completed (c : scsi_cmnd)
  | Requeued (c : scsi_cmnd) (reason : Z)
  | Queued (c : scsi_cmnd).

Record mid (D : Type) := mkMid {
  md_sw : sw D;
  md_events : list mid_event;
  iorequest_cnt : Z;
  host_resetting : bool
}.
Arguments mkMid {D} _ _ _ _.
Arguments md_sw {D} _.
Arguments md_events {D} _.
Arguments iorequest_cnt {D} _.
Arguments host_resetting {D} _.

Definition md_add {D} (e : mid_event) (m : mid D) : mid D :=
  mkMid (md_sw m) (md_events m ++ [e]) (iorequest_cnt m) (host_resetting m).

(** include/scsi/scsi_device.h *)
Definition scsi_device_blocked (d : scsi_device) : bool :=
  bool_decide (sdev_state d = SDEV_BLOCK) || bool_decide (sdev_state d = SDEV_CREATED_BLOCK).

Section Mid.
Context {D : Type} `{ScsiLower D}.

(** Code of the swap driver. *)
Definition on_swap {A} (k : K (sw D) A) : K (mid D) A := fun m =>
  match k (md_sw m) with
  | Ok (a, w') => Ok (a, mkMid w' (md_events m) (iorequest_cnt m) (host_resetting m))
  | Oops f => Oops f
  end.

Definition scsi_done (cmd : scsi_cmnd) : K (mid D) unit :=
  bad ← on_swap (scmd_should_be_bad (cmd_cdb cmd));
  let result := if (bad : bool)
                then Z.lor (cmd_result cmd) (Z.lor (Z.shiftl DRIVER_INVALID 24) (Z.shiftl DID_ABORT 16))
                else cmd_result cmd in
  kmod (md_add (Completed (mkCmnd result (cmd_cdb cmd) (cmd_len cmd)))).

(** The LUN of a SCSI-2 device goes into the CDB. *)
Definition cmd_with_lun (h : mid_host) (cmd : scsi_cmnd) : scsi_cmnd :=
  if (mid_scsi_level h <=? SCSI_2) && negb (mid_scsi_level h =? SCSI_UNKNOWN) then
    mkCmnd (cmd_result cmd)
      (put [(1%nat, Z.lor (Z.land (cdb_byte (cmd_cdb cmd) 1) 0x1f)
                      (Z.land (Z.shiftl (mid_lun h) 5) 0xe0))] (cmd_cdb cmd))
      (cmd_len cmd)
  else cmd.

Definition cmd_fail (host_code : Z) (cmd : scsi_cmnd) : scsi_cmnd :=
  mkCmnd (Z.shiftl host_code 16) (cmd_cdb cmd) (cmd_len cmd).

(** [queuecommand]: 0, or the adapter's reason to refuse.  The wait after a reset
    ([before] says whether the delay is still running) only takes time. *)
Definition scsi_dispatch_cmd (h : mid_host) (queuecommand : scsi_cmnd -> Z) (before : bool)
    (cmd : scsi_cmnd) : K (mid D) Z :=
  kmod (fun m => mkMid (md_sw m) (md_events m) (s32 (iorequest_cnt m + 1)) (host_resetting m));;
  m ← kget;
  let d := sdev (sw_st (md_sw m)) in
  if bool_decide (sdev_state d = SDEV_DEL) then
    scsi_done (cmd_fail DID_NO_CONNECT cmd);; mret 0
  else if scsi_device_blocked d then
    kmod (md_add (Requeued cmd SCSI_MLQUEUE_DEVICE_BUSY));; mret 0
  else
  let cmd := cmd_with_lun h cmd in
  kmod (fun m => mkMid (md_sw m) (md_events m) (iorequest_cnt m) (host_resetting m && negb before));;
  if host_max_cmd_len h <? cmd_len cmd then
    scsi_done (cmd_fail DID_ABORT cmd);; mret 0
  else
  rtn ← (if shost_del h then scsi_done (cmd_fail DID_NO_CONNECT cmd);; mret 0
         else let rtn := queuecommand cmd in
              (if rtn =? 0 then kmod (md_add (Queued cmd)) else mret tt);; mret rtn);
  if negb (rtn =? 0) then
    let rtn := if negb (rtn =? SCSI_MLQUEUE_DEVICE_BUSY) && negb (rtn =? SCSI_MLQUEUE_TARGET_BUSY)
               then SCSI_MLQUEUE_HOST_BUSY else rtn in
    kmod (md_add (Requeued cmd rtn));;
    mret rtn
  else mret rtn.
End Mid.

(** [drv->done] of the upper driver, [None] when it has none; [resid] is read
    after it has run. *)
Definition scsi_finish_command (sense_valid block_pc : bool) (bufflen : Z)
    (drv_done : option (Z -> Z * Z)) (result resid : Z) : Z * Z :=
  let result := if sense_valid then Z.lor result (Z.shiftl DRIVER_SENSE 24) else result in
  let good := bufflen in
  if block_pc then (result, good) else
  let '(good, resid) := match drv_done with Some f => f result | None => (good, resid) end in
  (result, if good =? bufflen then u32 (good - resid) else good).

(** ** Results *)

Lemma wp_on_swap {D} {A} (k : K (sw D) A) Q (m : mid D) :
  wp k (fun a w' => Q a (mkMid w' (md_events m) (iorequest_cnt m) (host_resetting m))) (md_sw m) ->
  wp (on_swap k) Q m.
Proof. unfold wp, on_swap. by destruct (k (md_sw m)) as [[a w']|]. Qed.

(** Simulated bad sectors a write CDB names. *)
Definition sim_bad {D} (w : sw D) (cdb : bytes) : bool :=
  sw_enable w && bool_decide (scmd_get_action cdb = SCSI_ACTION_WRITE) &&
  (let '(num, sector) := sector_from_scmd cdb in scsi_swap_sim_hit (sw_sim w) sector num).

Definition bad_result (result : Z) : Z :=
  Z.lor result (Z.lor (Z.shiftl DRIVER_INVALID 24) (Z.shiftl DID_ABORT 16)).

Section Spec.
Context {D : Type} `{ScsiLower D}.

Lemma wp_should_be_bad cdb (w : sw D) :
  (sw_enable w = true -> sw_handler w = HLive) ->
  wp (scmd_should_be_bad cdb) (fun b w' => b = sim_bad w cdb /\ w' = w) w.
Proof.
  intros Hl. unfold scmd_should_be_bad, sim_bad. do 2 kstep. destruct (sw_enable w) eqn:E; cbn [negb andb];
    [|by kstep]. destruct (bool_decide _); cbn [negb andb]; [|by kstep].
  destruct (sector_from_scmd cdb) as [num sector]. kstep. apply wp_on_handler; [by apply Hl|]. do 2 kstep.
  split; [done|]. by destruct w.
Qed.

Definition done_cmd (w : sw D) (cmd : scsi_cmnd) : scsi_cmnd :=
  mkCmnd (if sim_bad w (cmd_cdb cmd) then bad_result (cmd_result cmd) else cmd_result cmd)
    (cmd_cdb cmd) (cmd_len cmd).

Lemma wp_scsi_done cmd (m : mid D) :
  (sw_enable (md_sw m) = true -> sw_handler (md_sw m) = HLive) ->
  wp (scsi_done cmd) (fun _ m' => m' = md_add (Completed (done_cmd (md_sw m) cmd)) m) m.
Proof.
  intros Hl. unfold scsi_done. kstep. apply wp_on_swap. eapply wp_mono; [by apply wp_should_be_bad|].
  cbv beta. intros b w' [-> ->]. kstep. by destruct m.
Qed.
End Spec.

(** What is left of the command: one event, and the return value that goes with it. *)
Definition dispatched {D} (queuecommand : scsi_cmnd -> Z) (m : mid D) (rtn : Z) (m' : mid D) : Prop :=
  md_sw m' = md_sw m /\ exists e, md_events m' = md_events m ++ [e] /\
  match e with
  | Completed c => rtn = 0 /\ cmd_result c <> 0
  | Queued c => rtn = 0 /\ queuecommand c = 0
  | Requeued c reason =>
      reason ∈ [SCSI_MLQUEUE_HOST_BUSY; SCSI_MLQUEUE_DEVICE_BUSY; SCSI_MLQUEUE_TARGET_BUSY] /\
      (rtn = reason /\ queuecommand c <> 0 \/
       rtn = 0 /\ scsi_device_blocked (sdev (sw_st (md_sw m))) = true)
  end.

Lemma bad_result_nonzero r : bad_result r <> 0.
Proof.
  unfold bad_result. intros E%(f_equal (fun z => Z.testbit z 16)).
  rewrite Z.lor_spec in E. change (Z.testbit (Z.lor _ _) 16) with true in E.
  by rewrite orb_true_r in E.
Qed.

(** A command ended before it reached the adapter. *)
Lemma wp_dispatch_fail {D} `{ScsiLower D} q (m0 m : mid D) code cmd :
  (sw_enable (md_sw m) = true -> sw_handler (md_sw m) = HLive) ->
  md_sw m = md_sw m0 -> md_events m = md_events m0 -> Z.shiftl code 16 <> 0 ->
  wp (scsi_done (cmd_fail code cmd);; mret 0) (fun rtn m' => rtn = 0 /\ dispatched q m0 rtn m') m.
Proof.
  intros Hl Es Ee Hc. kstep. eapply wp_mono; [by apply wp_scsi_done|]. cbv beta. intros _ m' ->. kstep.
  split; [done|]. split; [exact Es|]. eexists. split; [cbn; by rewrite Ee|]. cbn [cmd_result done_cmd cmd_fail].
  split; [done|]. destruct (sim_bad _ _); [apply bad_result_nonzero|exact Hc].
Qed.

(** a dispatched command leaves [scsi_dispatch_cmd] in exactly one way, counted
    once: completed with an error, put back on the queue, or with the adapter.  The
    return value is 0 unless the adapter refused the command, and then it names one
    of the three reasons and the command has been put back with it. *)
Theorem scsi_dispatch_once {D} `{ScsiLower D} (h : mid_host) (queuecommand : scsi_cmnd -> Z) (before : bool)
    (cmd : scsi_cmnd) (m : mid D) :
  (sw_enable (md_sw m) = true -> sw_handler (md_sw m) = HLive) ->
  wp (scsi_dispatch_cmd h queuecommand before cmd)
     (fun rtn m' => md_sw m' = md_sw m /\ exists e, md_events m' = md_events m ++ [e] /\
        match e with
        | Completed c => rtn = 0 /\ cmd_result c <> 0
        | Queued c => rtn = 0 /\ queuecommand c = 0
        | Requeued c reason =>
            reason ∈ [SCSI_MLQUEUE_HOST_BUSY; SCSI_MLQUEUE_DEVICE_BUSY; SCSI_MLQUEUE_TARGET_BUSY] /\
            (rtn = reason /\ queuecommand c <> 0 \/
             rtn = 0 /\ scsi_device_blocked (sdev (sw_st (md_sw m))) = true)
        end) m.
Proof.
  intros Hl. change (wp (scsi_dispatch_cmd h queuecommand before cmd) (dispatched queuecommand m) m).
  unfold scsi_dispatch_cmd. do 4 kstep. cbn [md_sw]. set (d := sdev _).
  destruct (bool_decide (sdev_state d = SDEV_DEL)).
  { eapply wp_mono; [by apply wp_dispatch_fail|]. by intros rtn m' [_ ?]. }
  destruct (scsi_device_blocked d) eqn:Eb.
  { do 3 kstep. split; [done|]. eexists. split; [done|]. split; [right; left|by right]. }
  do 2 kstep. set (cmd1 := cmd_with_lun h cmd).
  destruct (_ <? _).
  { eapply wp_mono; [by apply wp_dispatch_fail|]. by intros rtn m' [_ ?]. }
  kstep. destruct (shost_del h).
  { eapply wp_mono; [by apply wp_dispatch_fail|]. cbv beta. intros rtn m1 [-> Hm].
    cbn [Z.eqb negb]. by kstep. }
  kstep. destruct (Z.eqb_spec (queuecommand cmd1) 0) as [E|E].
  { do 2 kstep. rewrite E. cbn [Z.eqb negb]. kstep. split; [done|]. by eexists. }
  do 2 kstep. rewrite (proj2 (Z.eqb_neq _ _)) by done. cbn [negb]. do 3 kstep.
  split; [done|]. eexists. split; [done|]. split; [|by left].
  rewrite !elem_of_cons.
  destruct (Z.eqb_spec (queuecommand cmd1) SCSI_MLQUEUE_DEVICE_BUSY); cbn [negb andb]; [by auto|].
  destruct (Z.eqb_spec (queuecommand cmd1) SCSI_MLQUEUE_TARGET_BUSY); cbn [negb]; auto.
Qed.

(** A live device on a SCSI-3 host. *)
Definition demo_mid : mid simdisk := mkMid (demo_sw blank_disk) [] 0 false.
Definition demo_host : mid_host := mkHost 16 false 5 0.

Lemma scsi_dispatch_once_witness :
  exists rtn m', scsi_dispatch_cmd demo_host (fun _ => 7) false (mkCmnd 0 zero_cdb 6) demo_mid = Ok (rtn, m') /\
                 md_sw m' = md_sw demo_mid.
Proof.
  destruct (wp_inv _ _ _ (scsi_dispatch_once demo_host (fun _ => 7) false (mkCmnd 0 zero_cdb 6) demo_mid
    (fun _ => eq_refl))) as (rtn & m' & E & Hs & _).
  exists rtn, m'. split; [exact E|exact Hs].
Defined.

Lemma host_byte_bad result : host_byte (bad_result result) = Z.lor (host_byte result) DID_ABORT.
Proof.
  unfold host_byte, bad_result. rewrite !Z.shiftr_lor, !Z.land_lor_distr_l. f_equal.
Qed.

(** C22: from the request to the completion, a simulated bad sector fails exactly the
    writes that touch it.  Take the command [sd_prep_fn] builds for a read or a write
    of at most 0xffff sectors on a disk with 512-byte blocks that does not have the
    last sector bug and is not formatted with Type 2 protection (whose commands the
    driver does not decode: [type2_command_not_decoded]), where request, disk and
    declared ranges stay inside their types ([rw_request], [disk_ok], [node_ok]), on a
    driver that, when it is enabled, has a live handler.  Whatever result [res] the adapter gives,
    [scsi_done] completes the command once: if the driver is enabled, it is a write
    and one of its sectors has been declared bad, with DRIVER_INVALID and DID_ABORT
    ORed into [res], so that the host byte is DID_ABORT when the adapter had succeeded
    and is never 0; and with [res] itself otherwise. *)
Theorem simulated_sector_fails_writes {D} `{ScsiLower D} (setup_pc : prep) (c0 c : sd_cmd)
    (page ext_cdb : bool) (host_dif dix : Z) (k : scsi_disk) (rq : sd_request) (res len : Z) (m : mid D) :
  (sw_enable (md_sw m) = true -> sw_handler (md_sw m) = HLive) -> Forall node_ok (sw_sim (md_sw m)) ->
  disk_ok k -> sector_size (sk_device k) = 512 -> last_sector_bug (sk_device k) = false ->
  rw_request k rq -> rq_sectors rq <= 0xffff -> host_dif <> SD_DIF_TYPE2_PROTECTION ->
  sd_prep_fn setup_pc (BLKPREP_OK c0) page ext_cdb host_dif dix zero_cdb k rq = BLKPREP_OK c ->
  let hit := exists node x, node ∈ sw_sim (md_sw m) /\ rq_pos rq <= x < rq_pos rq + rq_sectors rq /\
                            sim_start node <= x < sim_start node + sim_num node in
  let bad := sw_enable (md_sw m) = true /\ Z.land (rq_cmd_flags rq) 1 <> 0 /\ hit in
  wp (scsi_done (mkCmnd res (c_cdb c) len))
     (fun _ m' => md_sw m' = md_sw m /\
        exists r, md_events m' = md_events m ++ [Completed (mkCmnd r (c_cdb c) len)] /\
        (bad -> r = Z.lor res (Z.lor (Z.shiftl DRIVER_INVALID 24) (Z.shiftl DID_ABORT 16)) /\
                host_byte r = Z.lor (host_byte res) DID_ABORT /\ host_byte r <> 0) /\
        (~ bad -> r = res)) m.
Proof.
  intros Hl Hsim Hk H512 Hbug Hr Hcnt Hdif Hprep hit bad.
  destruct (sd_prep_decodes _ _ _ _ _ _ _ _ _ Hk Hr Hdif Hprep)
    as (block & count & Hs & Hp & Hc0 & _ & _ & _ & Hall & Ha).
  rewrite H512 in *. change (512 / 512) with 1 in *. rewrite Z.mul_1_l in Hp. subst block.
  assert (count = rq_sectors rq) as -> by (rewrite <- (Z.mul_1_l count); apply Hall; [done|left; lia]).
  destruct Hr as [_ _ _ _ Hpos Hn Hw].
  eapply wp_mono; [by apply wp_scsi_done|]. cbv beta. intros _ m' ->. split; [done|]. eexists. split; [done|].
  cbn [done_cmd cmd_result cmd_cdb].
  assert (sim_bad (md_sw m) (c_cdb c) = true <-> bad) as Hbad.
  { assert (scsi_swap_sim_hit (sw_sim (md_sw m)) (rq_pos rq) (rq_sectors rq) = true <-> hit) as Hhit
      by (apply sim_hit_overlap; [done|lia|lia|lia]).
    unfold sim_bad. rewrite Ha, Hs, !andb_true_iff, bool_decide_eq_true, Hhit.
    unfold bad. destruct (Z.eqb_spec (Z.land (rq_cmd_flags rq) 1) 0) as [E|E]; split; intros Hx; try tauto; by destruct Hx as [[_ Hx] _]. }
  destruct (sim_bad (md_sw m) (c_cdb c)).
  - split; [|intros Hno; destruct Hno; by apply Hbad]. intros _. fold (bad_result res).
    split; [done|]. rewrite host_byte_bad. split; [done|]. intros [_ E]%Z.lor_eq_0_iff. discriminate E.
  - split; [|done]. intros Hyes%Hbad. discriminate Hyes.
Qed.

(** The disk of [demo_disk] with sectors 4100 to 4101 declared bad, and a write of
    sixteen sectors from 4096. *)
Definition demo_sim_mid : mid simdisk := mkMid (sw_with_sim [mkNode 4100 2] (demo_sw blank_disk)) [] 0 false.

Lemma demo_disk512_ok : disk_ok (demo_disk 512).
Proof. split; cbn; [left|lia|done|intros _; by vm_compute]. Qed.

Lemma simulated_sector_fails_writes_witness :
  exists c, sd_prep_fn BLKPREP_KILL (BLKPREP_OK (mkSdCmd [] [] 0 0 DMA_NONE None)) true true 0 0 zero_cdb
      (demo_disk 512) demo_sdrq = BLKPREP_OK c /\
    (exists m' r, scsi_done (mkCmnd 0 (c_cdb c) 16) demo_sim_mid = Ok (tt, m') /\
       md_events m' = [Completed (mkCmnd r (c_cdb c) 16)] /\ host_byte r = DID_ABORT) /\
    (exists m', scsi_done (mkCmnd (Z.shiftl DID_TIME_OUT 16) (c_cdb c) 16) demo_mid = Ok (tt, m') /\
       md_events m' = [Completed (mkCmnd (Z.shiftl DID_TIME_OUT 16) (c_cdb c) 16)]).
Proof.
  eexists. split; [reflexivity|]. split.
  - destruct (wp_inv _ _ _ (simulated_sector_fails_writes BLKPREP_KILL (mkSdCmd [] [] 0 0 DMA_NONE None) _ true true 0 0
      (demo_disk 512) demo_sdrq 0 16 demo_sim_mid (fun _ => eq_refl)
      ltac:(repeat constructor; cbn; lia) demo_disk512_ok eq_refl eq_refl ltac:(by split) ltac:(cbn; lia)
      ltac:(discriminate) eq_refl)) as ([] & m' & E & _ & r & He & Hh & _).
    exists m', r. split; [exact E|]. split; [exact He|]. apply Hh. split; [reflexivity|]. split; [discriminate|].
    exists (mkNode 4100 2), 4100. split; [left|]. cbn. lia.
  - destruct (wp_inv _ _ _ (simulated_sector_fails_writes BLKPREP_KILL (mkSdCmd [] [] 0 0 DMA_NONE None) _ true true 0 0
      (demo_disk 512) demo_sdrq (Z.shiftl DID_TIME_OUT 16) 16 demo_mid (fun _ => eq_refl)
      ltac:(constructor) demo_disk512_ok eq_refl eq_refl ltac:(by split) ltac:(cbn; lia)
      ltac:(discriminate) eq_refl)) as ([] & m' & E & _ & r & He & _ & Hr).
    exists m'. split; [exact E|]. rewrite <- Hr; [exact He|]. intros (_ & _ & node & x & Hin & _). by apply not_elem_of_nil in Hin.
Defined.
