(* ===== verification/ScsiPool.v ===== *)
(** * drivers/scsi/scsi.c: where commands come from

    Commands and sense buffers come from slab caches that the hosts share; every host
    keeps one command aside for the case that there is no memory.  The slab allocator
    is a parameter: [mem] is the sequence of its answers, and the objects it has handed
    out are kept in [live], so that a leak or a double free shows.  Results: for every
    sequence of allocations and releases, with any failures, the live objects are
    exactly those of the commands in use and aside; a host with no command in use can
    always get one; a host that is taken down leaves nothing behind.  One path leaks a
    reference to the pool. *)

From stdpp Require Import base gmap list relations.
From Stdlib Require Import ZArith Lia.
From S2P Require Import Prelude Kapi.

Local Open Scope Z_scope.

(** ** State *)

Inductive slab := CmdSlab (dma : bool) | SenseSlab (dma : bool) | SdbSlab.
#[global] Instance slab_eq_dec : EqDecision slab.
Proof. solve_decision. Defined.

(** [users] and whether the two caches exist. *)
Record scsi_host_cmd_pool := mkPool { users : Z; slabs : bool }.

(** [struct scsi_cmnd], as objects of the slabs. *)
Record pool_cmd := mkPoolCmd {
  pc_obj : Z;
  sense_buffer : Z;
  prot_sdb : option Z;
  pc_device : option Z
}.
#[global] Instance pool_cmd_eq_dec : EqDecision pool_cmd.
Proof. solve_decision. Defined.

(** One host; [cmd_list] holds the lists [dev->cmd_list] of its devices, of which
    [cmd->device] says whose an entry is; [dev_refs] counts references by device. *)
Record pst := mkPst {
  scsi_cmd_pool : scsi_host_cmd_pool;
  scsi_cmd_dma_pool : scsi_host_cmd_pool;
  live : list (Z * slab);
  next_id : Z;
  mem : list bool;
  cmd_pool : option bool;       (* which pool the host uses *)
  free_list : list pool_cmd;
  cmd_list : list pool_cmd;
  dev_refs : gmap Z Z
}.

Definition the_pool (dma : bool) (s : pst) : scsi_host_cmd_pool :=
  if dma then scsi_cmd_dma_pool s else scsi_cmd_pool s.
Definition set_pool (dma : bool) (p : scsi_host_cmd_pool) (s : pst) : pst :=
  mkPst (if dma then scsi_cmd_pool s else p) (if dma then p else scsi_cmd_dma_pool s) (live s) (next_id s) (mem s)
    (cmd_pool s) (free_list s) (cmd_list s) (dev_refs s).
Definition set_heap (l : list (Z * slab)) (n : Z) (m : list bool) (s : pst) : pst :=
  mkPst (scsi_cmd_pool s) (scsi_cmd_dma_pool s) l n m (cmd_pool s) (free_list s) (cmd_list s) (dev_refs s).
Definition set_host (p : option bool) (fl : list pool_cmd) (s : pst) : pst :=
  mkPst (scsi_cmd_pool s) (scsi_cmd_dma_pool s) (live s) (next_id s) (mem s) p fl (cmd_list s) (dev_refs s).
Definition set_free (fl : list pool_cmd) (s : pst) : pst := set_host (cmd_pool s) fl s.
Definition set_cmds (l : list pool_cmd) (s : pst) : pst :=
  mkPst (scsi_cmd_pool s) (scsi_cmd_dma_pool s) (live s) (next_id s) (mem s) (cmd_pool s) (free_list s) l (dev_refs s).
Definition add_ref (d : Z) (n : Z) (s : pst) : pst :=
  mkPst (scsi_cmd_pool s) (scsi_cmd_dma_pool s) (live s) (next_id s) (mem s) (cmd_pool s) (free_list s) (cmd_list s)
    (<[d := default 0 (dev_refs s !! d) + n]> (dev_refs s)).

(** ** The slab allocator *)

(** Its next answer; without one there is no memory. *)
Definition has_memory : K pst bool :=
  s ← kget;
  match mem s with
  | [] => mret false
  | b :: m => kmod (set_heap (live s) (next_id s) m);; mret b
  end.

Definition slab_exists (sl : slab) (s : pst) : bool :=
  match sl with CmdSlab dma | SenseSlab dma => slabs (the_pool dma s) | SdbSlab => true end.

Definition kmem_cache_alloc (sl : slab) : K pst (option Z) :=
  s ← kget;
  if negb (slab_exists sl s) then kfail NullDeref else
  ok ← has_memory;
  if negb (ok : bool) then mret None else
  s ← kget;
  kmod (set_heap ((next_id s, sl) :: live s) (next_id s + 1) (mem s));;
  mret (Some (next_id s)).

Definition kmem_cache_free (sl : slab) (id : Z) : K pst unit :=
  s ← kget;
  if negb (slab_exists sl s) then kfail NullDeref else
  if negb (bool_decide ((id, sl) ∈ live s)) then kfail UseAfterFree else
  kmod (fun s => set_heap (filter (fun x => x <> (id, sl)) (live s)) (next_id s) (mem s) s).

(** ** Commands of a pool *)

Definition scsi_pool_alloc_command (dma : bool) : K pst (option pool_cmd) :=
  cmd ← kmem_cache_alloc (CmdSlab dma);
  match cmd with
  | None => mret None
  | Some cmd =>
      sense ← kmem_cache_alloc (SenseSlab dma);
      match sense with
      | None => kmem_cache_free (CmdSlab dma) cmd;; mret None
      | Some sense => mret (Some (mkPoolCmd cmd sense None None))
      end
  end.

Definition scsi_pool_free_command (dma : bool) (cmd : pool_cmd) : K pst unit :=
  (match prot_sdb cmd with
   | Some p => kmem_cache_free SdbSlab p
   | None => mret tt
   end);;
  kmem_cache_free (SenseSlab dma) (sense_buffer cmd);;
  kmem_cache_free (CmdSlab dma) (pc_obj cmd).

Section Host.
(** [scsi_host_get_prot(shost) >= SHOST_DIX_TYPE0_PROTECTION], [unchecked_isa_dma] and,
    by device, whether [get_device] succeeds. *)
Variable dix : bool.
Variable unchecked_isa_dma : bool.
Variable get_device : Z -> bool.

Definition scsi_host_alloc_command : K pst (option pool_cmd) :=
  s ← kget;
  dma ← kderef NullDeref (cmd_pool s);
  cmd ← scsi_pool_alloc_command dma;
  match cmd with
  | None => mret None
  | Some cmd =>
      if (dix : bool) then
        prot ← kmem_cache_alloc SdbSlab;
        match prot with
        | None => scsi_pool_free_command dma cmd;; mret None
        | Some p => mret (Some (mkPoolCmd (pc_obj cmd) (sense_buffer cmd) (Some p) (pc_device cmd)))
        end
      else mret (Some cmd)
  end.

(** The command kept aside is taken when nothing can be allocated, and cleared but
    for its buffers. *)
Definition __scsi_get_command : K pst (option pool_cmd) :=
  cmd ← scsi_host_alloc_command;
  match cmd with
  | Some cmd => mret (Some cmd)
  | None =>
      s ← kget;
      match free_list s with
      | [] => mret None
      | cmd :: fl =>
          kmod (set_free fl);;
          mret (Some (mkPoolCmd (pc_obj cmd) (sense_buffer cmd) (prot_sdb cmd) None))
      end
  end.

Definition scsi_get_command (dev : Z) : K pst (option pool_cmd) :=
  if negb (get_device dev) then mret None else
  kmod (add_ref dev 1);;
  cmd ← __scsi_get_command;
  match cmd with
  | Some cmd =>
      let cmd := mkPoolCmd (pc_obj cmd) (sense_buffer cmd) (prot_sdb cmd) (Some dev) in
      kmod (fun s => set_cmds (cmd_list s ++ [cmd]) s);;
      mret (Some cmd)
  | None => kmod (add_ref dev (-1));; mret None
  end.

Definition __scsi_put_command (cmd : pool_cmd) (dev : Z) : K pst unit :=
  s ← kget;
  (match free_list s with
   | [] => kmod (set_free [cmd])
   | _ =>
       dma ← kderef NullDeref (cmd_pool s);
       scsi_pool_free_command dma cmd
   end);;
  kmod (add_ref dev (-1)).

Definition scsi_put_command (cmd : pool_cmd) : K pst unit :=
  dev ← kderef NullDeref (pc_device cmd);
  s ← kget;
  if negb (bool_decide (cmd ∈ cmd_list s)) then kfail BugOn else
  kmod (fun s => set_cmds (filter (fun c => c <> cmd) (cmd_list s)) s);;
  __scsi_put_command cmd dev.

(** ** The pools *)

Definition scsi_get_host_cmd_pool (dma : bool) : K pst bool :=
  s ← kget;
  let p := the_pool dma s in
  ok ← (if users p =? 0 then
          cmd ← has_memory;
          if negb (cmd : bool) then mret false else has_memory
        else mret true);
  if negb (ok : bool) then mret false else
  kmod (set_pool dma (mkPool (users p + 1) true));;
  mret true.

Definition scsi_put_host_cmd_pool (dma : bool) : K pst unit :=
  s ← kget;
  let p := the_pool dma s in
  if users p =? 0 then kfail BugOn else
  kmod (set_pool dma (mkPool (users p - 1) (if users p - 1 =? 0 then false else slabs p))).

Definition scsi_allocate_command (dma : bool) : K pst (option pool_cmd) :=
  pool ← scsi_get_host_cmd_pool dma;
  if negb (pool : bool) then mret None else scsi_pool_alloc_command dma.

Definition scsi_free_command (dma : bool) (cmd : pool_cmd) : K pst unit :=
  pool ← scsi_get_host_cmd_pool dma;
  if negb (pool : bool) then kfail BugOn else
  scsi_pool_free_command dma cmd;;
  scsi_put_host_cmd_pool dma;;
  scsi_put_host_cmd_pool dma.

Definition scsi_setup_command_freelist : K pst Z :=
  kmod (set_free []);;
  pool ← scsi_get_host_cmd_pool unchecked_isa_dma;
  kmod (fun s => set_host (if (pool : bool) then Some unchecked_isa_dma else None) (free_list s) s);;
  if negb (pool : bool) then mret (- ENOMEM) else
  cmd ← scsi_host_alloc_command;
  match cmd with
  | None =>
      scsi_put_host_cmd_pool unchecked_isa_dma;;
      kmod (fun s => set_host None (free_list s) s);;
      mret (- ENOMEM)
  | Some cmd =>
      kmod (fun s => set_free (cmd :: free_list s) s);;
      mret 0
  end.

(** The loop over the commands aside. *)
Fixpoint free_all (fuel : nat) (dma : bool) : K pst unit :=
  match fuel with
  | O => kfail Hang
  | S f =>
      s ← kget;
      match free_list s with
      | [] => mret tt
      | cmd :: fl =>
          kmod (set_free fl);;
          scsi_pool_free_command dma cmd;;
          free_all f dma
      end
  end.

Definition scsi_destroy_command_freelist : K pst unit :=
  s ← kget;
  match cmd_pool s with
  | None => mret tt
  | Some dma =>
      free_all (S (length (free_list s))) dma;;
      kmod (fun s => set_host None (free_list s) s);;
      scsi_put_host_cmd_pool unchecked_isa_dma
  end.
End Host.

(** ** The heap *)

Definition heap_ok (s : pst) : Prop := NoDup (live s) /\ Forall (fun x => fst x < next_id s) (live s).

(** Only the heap changed, and [l] is live now. *)
Definition heap_at (l : list (Z * slab)) (s s' : pst) : Prop :=
  (exists l' n m, s' = set_heap l' n m s) /\ live s' ≡ₚ l /\ heap_ok s'.

Definition cmd_objs (dma : bool) (c : pool_cmd) : list (Z * slab) :=
  (pc_obj c, CmdSlab dma) :: (sense_buffer c, SenseSlab dma)
    :: match prot_sdb c with Some p => [(p, SdbSlab)] | None => [] end.

Definition opt_objs (dma : bool) (o : option pool_cmd) : list (Z * slab) :=
  match o with Some c => cmd_objs dma c | None => [] end.

Lemma heap_at_refl s : heap_ok s -> heap_at (live s) s s.
Proof. intros Hs. split_and!; [|done|done]. exists (live s), (next_id s), (mem s). by destruct s. Qed.

Lemma heap_at_trans l1 l2 s s1 s2 : heap_at l1 s s1 -> heap_at l2 s1 s2 -> heap_at l2 s s2.
Proof.
  intros [(l & n & m & ->) _] [(l' & n' & m' & ->) H2]. split; [|exact H2]. by exists l', n', m'.
Qed.

Lemma heap_at_perm l l' s s' : l ≡ₚ l' -> heap_at l s s' -> heap_at l' s s'.
Proof. intros Hl (H1 & H2 & H3). split_and!; [done|by etrans|done]. Qed.

Lemma heap_at_slab l s s' sl : heap_at l s s' -> slab_exists sl s' = slab_exists sl s.
Proof. intros [(l' & n & m & ->) _]. done. Qed.

Lemma heap_at_pool l s s' dma : heap_at l s s' -> slabs (the_pool dma s') = slabs (the_pool dma s).
Proof. exact (fun H => heap_at_slab l s s' (CmdSlab dma) H). Qed.

Lemma wp_has_memory s Q : (forall b m, Q b (set_heap (live s) (next_id s) m s)) -> wp has_memory Q s.
Proof.
  intros HQ. unfold has_memory. do 2 kstep. destruct (mem s) as [|b m] eqn:E; repeat kstep; [|apply HQ].
  specialize (HQ false []). rewrite <- E in HQ. by destruct s.
Qed.

Lemma wp_alloc sl s :
  slab_exists sl s = true -> heap_ok s ->
  wp (kmem_cache_alloc sl)
     (fun o s' => heap_at (match o with Some id => (id, sl) :: live s | None => live s end) s s') s.
Proof.
  intros Hsl [Hn Hid]. unfold kmem_cache_alloc. do 2 kstep. rewrite Hsl. cbn [negb]. kstep.
  apply wp_has_memory. intros [] m; cbn [negb]; repeat kstep; cbn [live next_id set_heap mem].
  - split_and!; [by eexists _, _, _|done|]. split; cbn [live next_id set_heap].
    + apply NoDup_cons. split; [|done]. intros Hin. rewrite Forall_forall in Hid. specialize (Hid _ Hin). cbn in Hid. lia.
    + apply Forall_cons. split; [cbn; lia|]. eapply Forall_impl; [exact Hid|]. cbn. lia.
  - split_and!; [by eexists _, _, _|done|by split].
Qed.

Lemma filter_out {A} `{EqDecision A} (x : A) l :
  NoDup l -> x ∈ l -> l ≡ₚ x :: filter (fun y => y <> x) l.
Proof.
  intros Hn Hx. apply NoDup_Permutation; [done| |].
  - apply NoDup_cons. split; [|by apply NoDup_filter]. rewrite list_elem_of_filter. by intros [? _].
  - intros y. rewrite elem_of_cons, list_elem_of_filter. split; [|intros [->|[_ ?]]; done].
    intros Hy. destruct (decide (y = x)); [by left|by right].
Qed.

Lemma wp_free sl id rest s :
  slab_exists sl s = true -> heap_ok s -> live s ≡ₚ (id, sl) :: rest ->
  wp (kmem_cache_free sl id) (fun _ s' => heap_at rest s s') s.
Proof.
  intros Hsl [Hn Hid] Hl. unfold kmem_cache_free. do 2 kstep. rewrite Hsl. cbn [negb].
  assert ((id, sl) ∈ live s) as Hin by (rewrite Hl; left). rewrite bool_decide_true by done. cbn [negb]. kstep.
  split_and!; [by eexists _, _, _| |].
  - cbn [live set_heap]. apply (Permutation_cons_inv (a := (id, sl))). rewrite <- Hl. symmetry. by apply filter_out.
  - split; cbn [live set_heap next_id]; [by apply NoDup_filter|]. rewrite Forall_forall in *. intros x Hx.
    apply Hid. by apply list_elem_of_filter in Hx as [_ ?].
Qed.

(** ** Commands of a pool *)

Lemma wp_pool_alloc dma s :
  slabs (the_pool dma s) = true -> heap_ok s ->
  wp (scsi_pool_alloc_command dma)
     (fun o s' => heap_at (opt_objs dma o ++ live s) s s' /\ (forall c, o = Some c -> prot_sdb c = None)) s.
Proof.
  intros Hp Hs. unfold scsi_pool_alloc_command. kstep. eapply wp_mono; [by apply wp_alloc|]. cbv beta.
  intros [cmd|] s1 H1; [|kstep; by split]. kstep. pose proof H1 as (_ & L1 & Hs1).
  eapply wp_mono; [apply wp_alloc; [by rewrite (heap_at_slab _ _ _ _ H1)|done]|]. cbv beta. intros [sense|] s2 H2.
  - kstep. split; [|intros c [= <-]; done]. eapply heap_at_trans; [exact H1|]. eapply heap_at_perm; [|exact H2].
    etrans; [apply perm_skip, L1|]. apply perm_swap.
  - kstep. pose proof H2 as (_ & L2 & Hs2).
    eapply wp_mono; [apply (wp_free _ _ (live s)); [|done|by rewrite L2, L1]|].
    + by rewrite (heap_at_slab _ _ _ _ H2), (heap_at_slab _ _ _ _ H1).
    + cbv beta. intros _ s3 H3. kstep. split; [|done]. eapply heap_at_trans; [exact H1|].
      by eapply heap_at_trans.
Qed.

Lemma wp_pool_free dma c rest s :
  slabs (the_pool dma s) = true -> heap_ok s -> live s ≡ₚ cmd_objs dma c ++ rest ->
  wp (scsi_pool_free_command dma c) (fun _ s' => heap_at rest s s') s.
Proof.
  intros Hp Hs Hl. unfold scsi_pool_free_command. kstep.
  assert (wp (match prot_sdb c with Some p => kmem_cache_free SdbSlab p | None => mret tt end)
    (fun _ s1 => heap_at ((pc_obj c, CmdSlab dma) :: (sense_buffer c, SenseSlab dma) :: rest) s s1) s) as H1.
  { unfold cmd_objs in Hl. destruct (prot_sdb c) as [p|].
    - apply wp_free; [done|done|]. rewrite Hl. cbn [app].
      etrans; [apply perm_skip, perm_swap|]. apply perm_swap.
    - kstep. eapply heap_at_perm; [exact Hl|]. by apply heap_at_refl. }
  eapply wp_mono; [exact H1|]. cbv beta. intros _ s1 H2. pose proof H2 as (_ & L2 & Hs2). kstep.
  eapply wp_mono; [apply (wp_free _ _ ((pc_obj c, CmdSlab dma) :: rest)); [|done|]|].
  - by rewrite (heap_at_slab _ _ _ _ H2).
  - rewrite L2. apply perm_swap.
  - cbv beta. intros _ s3 H3. pose proof H3 as (_ & L3 & Hs3).
    eapply wp_mono; [apply (wp_free _ _ rest); [|done|done]|].
    + by rewrite (heap_at_slab _ _ _ _ H3), (heap_at_slab _ _ _ _ H2).
    + cbv beta. intros _ s4 H4. eapply heap_at_trans; [exact H2|]. by eapply heap_at_trans.
Qed.

(** ** One host *)

Definition owned (dma : bool) (s : pst) : list (Z * slab) :=
  concat (cmd_objs dma <$> (free_list s ++ cmd_list s)).

(** How many commands of device [d] are in use. *)
Definition in_use (d : Z) (l : list pool_cmd) : Z := zlen (filter (fun c => pc_device c = Some d) l).

(** The pool has [n] users, [other] are the objects that are not this host's, [base] the references to its
    devices that are not its commands'. *)
Record pool_inv (dma : bool) (n : Z) (other : list (Z * slab)) (base : Z -> Z) (s : pst) : Prop := {
  pi_heap : heap_ok s;
  pi_live : live s ≡ₚ other ++ owned dma s;
  pi_host : cmd_pool s = Some dma;
  pi_pool : the_pool dma s = mkPool n true;
  pi_refs : forall d, default 0 (dev_refs s !! d) = base d + in_use d (cmd_list s);
  pi_dev : Forall (fun c => is_Some (pc_device c)) (cmd_list s)
}.

(** A command is aside unless one is in use. *)
Definition aside (s : pst) : Prop := free_list s = [] -> cmd_list s <> [].

Lemma owned_cons dma c fl s : free_list s = c :: fl -> owned dma s = cmd_objs dma c ++ concat (cmd_objs dma <$> (fl ++ cmd_list s)).
Proof. intros E. unfold owned. by rewrite E. Qed.

Lemma objs_last dma other c fl cl :
  other ++ concat (cmd_objs dma <$> (fl ++ cl ++ [c])) ≡ₚ cmd_objs dma c ++ other ++ concat (cmd_objs dma <$> (fl ++ cl)).
Proof.
  rewrite app_assoc, fmap_app, concat_app, (app_assoc other). cbn [fmap list_fmap concat]. rewrite app_nil_r.
  apply Permutation_app_comm.
Qed.

Lemma concat_perm {A} (l l' : list (list A)) : l ≡ₚ l' -> concat l ≡ₚ concat l'.
Proof.
  induction 1 as [|x l l' _ IH|x y l|l1 l2 l3 _ IH1 _ IH2]; cbn [concat]; [done|by apply Permutation_app_head| |by etrans].
  rewrite !app_assoc. apply Permutation_app_tail, Permutation_app_comm.
Qed.

Lemma owned_NoDup dma s : NoDup (owned dma s) -> NoDup (cmd_list s).
Proof.
  unfold owned. rewrite fmap_app, concat_app. intros (_ & _ & Hn)%NoDup_app.
  induction (cmd_list s) as [|c l IH]; [constructor|]. cbn [fmap list_fmap concat] in Hn.
  apply NoDup_app in Hn as (_ & Hd & Hn). apply NoDup_cons. split; [|by apply IH]. intros Hin.
  apply (Hd (pc_obj c, CmdSlab dma)); [by left|]. apply list_elem_of_In, in_concat. exists (cmd_objs dma c).
  split; apply list_elem_of_In; [by apply list_elem_of_fmap_2|by left].
Qed.

Lemma in_use_app d l c : in_use d (l ++ [c]) = in_use d l + (if decide (pc_device c = Some d) then 1 else 0).
Proof.
  unfold in_use. rewrite filter_app, zlen_app. f_equal. rewrite filter_cons. by destruct (decide _).
Qed.

Lemma in_use_perm d l l' : l ≡ₚ l' -> in_use d l = in_use d l'.
Proof. intros Hl. unfold in_use, zlen. by rewrite (filter_Permutation _ _ _ Hl). Qed.

Lemma refs_add d n s d' :
  default 0 (dev_refs (add_ref d n s) !! d') = default 0 (dev_refs s !! d') + (if decide (d = d') then n else 0).
Proof.
  cbn [dev_refs add_ref]. destruct (decide (d = d')) as [->|Hne]; [by rewrite lookup_insert_eq|].
  rewrite lookup_insert_ne by done. lia.
Qed.

Lemma pool_slabs dma n s : the_pool dma s = mkPool n true -> slabs (the_pool dma s) = true.
Proof. by intros ->. Qed.

Section Inv.
Variable dix : bool.
Variable isa : bool.
Variable get_device : Z -> bool.

Lemma wp_host_alloc dma s :
  cmd_pool s = Some dma -> slabs (the_pool dma s) = true -> heap_ok s ->
  wp (scsi_host_alloc_command dix) (fun o s' => heap_at (opt_objs dma o ++ live s) s s') s.
Proof.
  intros Hc Hp Hs. unfold scsi_host_alloc_command. do 3 kstep. eapply wp_deref; [exact Hc|]. kstep.
  eapply wp_mono; [by apply wp_pool_alloc|]. cbv beta. intros [c|] s1 [H1 Hpr]; [|by kstep].
  destruct dix; [|by kstep]. specialize (Hpr c eq_refl). pose proof H1 as (_ & L1 & Hs1). kstep.
  eapply wp_mono; [by apply wp_alloc|]. cbv beta. intros [p|] s2 H2.
  - kstep. eapply heap_at_trans; [exact H1|]. eapply heap_at_perm; [|exact H2].
    etrans; [apply perm_skip, L1|]. unfold opt_objs, cmd_objs. rewrite Hpr. cbn [app pc_obj sense_buffer prot_sdb].
    etrans; [apply perm_swap|]. apply perm_skip, perm_swap.
  - kstep. pose proof H2 as (_ & L2 & Hs2).
    eapply wp_mono; [apply (wp_pool_free dma c (live s)); [|done|by rewrite L2, L1]|].
    + rewrite <- Hp. eapply heap_at_pool, heap_at_trans; [exact H1|exact H2].
    + cbv beta. intros _ s3 H3. kstep. eapply heap_at_trans; [exact H1|]. by eapply heap_at_trans.
Qed.

(** A command given out is in use from then on; without one nothing changes. *)
Lemma wp_get_command dma n other base d s :
  pool_inv dma n other base s ->
  wp (scsi_get_command dix get_device d)
     (fun o s' => pool_inv dma n other base s' /\
        match o with
        | Some c => cmd_list s' = cmd_list s ++ [c] /\ pc_device c = Some d
        | None => cmd_list s' = cmd_list s /\ (get_device d = true -> free_list s = []) /\
                  free_list s' = free_list s
        end) s.
Proof.
  intros [Hh Hl Hc Hp0 Hr Hd]. unfold scsi_get_command. destruct (get_device d); cbn [negb]; [|by kstep].
  do 2 kstep. unfold __scsi_get_command. do 2 kstep. set (s0 := add_ref d 1 s).
  eapply wp_mono; [apply (wp_host_alloc dma s0); [done|exact (pool_slabs _ _ _ Hp0)|done]|]. cbv beta. intros [c|] s1 H1.
  - do 3 kstep. destruct H1 as [(l & n' & m & ->) [L1 Hh1]]. split; [|done].
    split; [done| |done|done| |].
    + symmetry. etrans; [apply objs_last|]. symmetry. etrans; [exact L1|]. by apply Permutation_app_head.
    + intros d'. change (dev_refs _) with (dev_refs (add_ref d 1 s)). rewrite refs_add, Hr. cbn [cmd_list set_cmds set_heap].
      rewrite in_use_app. change (cmd_list s0) with (cmd_list s). cbn [pc_device]. destruct (decide (d = d')), (decide (Some d = Some d')); try congruence; lia.
    + cbn [cmd_list set_cmds set_heap]. apply Forall_app. split; [done|]. by apply Forall_singleton.
  - destruct H1 as [(l & n' & m & ->) [L1 Hh1]]. cbn [opt_objs app] in L1. do 2 kstep.
    cbn [free_list set_heap s0 add_ref]. destruct (free_list s) as [|c fl] eqn:Ef.
    + do 3 kstep. split; [|done]. split; [done| |done|done| |done].
      * etrans; [exact L1|exact Hl].
      * intros d'. rewrite refs_add. change (dev_refs (set_heap l n' m s0)) with (dev_refs (add_ref d 1 s)). rewrite refs_add, Hr.
        cbn [cmd_list add_ref set_heap s0]. destruct (decide (d = d')); lia.
    + do 4 kstep. split; [|done]. split; [done| |done|done| |].
      * symmetry. etrans; [apply objs_last|]. symmetry. etrans; [exact L1|]. etrans; [exact Hl|].
        rewrite (owned_cons _ _ _ _ Ef), app_assoc, (app_assoc (cmd_objs _ _)). apply Permutation_app_tail, Permutation_app_comm.
      * intros d'. change (dev_refs _) with (dev_refs (add_ref d 1 s)). rewrite refs_add, Hr. cbn [cmd_list set_cmds set_heap set_free set_host].
        rewrite in_use_app. cbn [pc_device s0 cmd_list add_ref]. destruct (decide (d = d')), (decide (Some d = Some d')); try congruence; lia.
      * cbn [cmd_list set_cmds set_heap set_free set_host]. apply Forall_app. split; [done|]. by apply Forall_singleton.
Qed.

(** A command of the device's list can be given back. *)
Lemma wp_put_command dma n other base c s :
  pool_inv dma n other base s -> c ∈ cmd_list s ->
  wp (scsi_put_command c)
     (fun _ s' => pool_inv dma n other base s' /\ cmd_list s ≡ₚ c :: cmd_list s' /\
        free_list s' = match free_list s with [] => [c] | fl => fl end) s.
Proof.
  intros [Hh Hl Hc Hp0 Hr Hd] Hin. unfold scsi_put_command.
  rewrite Forall_forall in Hd. destruct (Hd c Hin) as [d Hdev]. kstep. eapply wp_deref; [exact Hdev|]. do 2 kstep.
  rewrite bool_decide_true by done. cbn [negb]. do 2 kstep.
  assert (NoDup (cmd_list s)) as Hn.
  { destruct Hh as [Hn _]. rewrite Hl in Hn. apply NoDup_app in Hn as (_ & _ & Hn). by eapply owned_NoDup. }
  pose proof (filter_out _ _ Hn Hin) as Hp. set (cl := filter (fun y => y <> c) (cmd_list s)) in *.
  assert (Forall (fun c => is_Some (pc_device c)) cl) as Hd'.
  { apply Forall_forall. intros x Hx. apply Hd. by apply list_elem_of_filter in Hx as [_ ?]. }
  assert (forall d', default 0 (dev_refs (add_ref d (-1) s) !! d') = base d' + in_use d' cl) as Hr'.
  { intros d'. rewrite refs_add, Hr, (in_use_perm _ _ _ Hp). change (c :: cl) with ([c] ++ cl).
    rewrite (in_use_perm d' ([c] ++ cl) (cl ++ [c])) by apply Permutation_app_comm. rewrite in_use_app, Hdev.
    destruct (decide (d = d')), (decide (Some d = Some d')); try congruence; lia. }
  assert (live s ≡ₚ cmd_objs dma c ++ other ++ concat (cmd_objs dma <$> (free_list s ++ cl))) as Hl'.
  { etrans; [exact Hl|]. etrans; [|apply objs_last]. apply Permutation_app_head. unfold owned.
    apply concat_perm, fmap_Permutation, Permutation_app_head. etrans; [exact Hp|]. apply Permutation_cons_append. }
  unfold __scsi_put_command. do 2 kstep. cbn [free_list set_cmds]. destruct (free_list s) as [|c0 fl] eqn:Ef.
  - do 3 kstep. split_and!; [|done|done]. split; [done| |done|done|exact Hr'|done].
    cbn [app] in Hl'. etrans; [exact Hl'|]. change (owned dma _) with (cmd_objs dma c ++ concat (cmd_objs dma <$> cl)). rewrite !app_assoc.
    apply Permutation_app_tail, Permutation_app_comm.
  - do 2 kstep. eapply wp_deref; [exact Hc|].
    eapply wp_mono; [apply (wp_pool_free dma c (other ++ concat (cmd_objs dma <$> ((c0 :: fl) ++ cl))) (set_cmds cl s));
      [exact (pool_slabs _ _ _ Hp0)|done|exact Hl']|]. cbv beta.
    intros _ s1 [(l & n' & m & ->) [L1 Hh1]]. kstep. split_and!; [|done|by cbn]. split; [done| |done|done|exact Hr'|done].
    etrans; [exact L1|]. unfold owned. cbn [free_list cmd_list add_ref set_heap set_cmds]. by rewrite Ef.
Qed.

(** ** Setting a host up *)

(** A pool that is used has its caches, one that is not has none. *)
Definition pools_ok (s : pst) : Prop :=
  forall dma, 0 <= users (the_pool dma s) /\ slabs (the_pool dma s) = bool_decide (0 < users (the_pool dma s)).

(** The references to devices. *)
Definition refs_of (s : pst) (d : Z) : Z := default 0 (dev_refs s !! d).

Lemma the_pool_set dma p s : the_pool dma (set_pool dma p s) = p.
Proof. by destruct dma. Qed.

Lemma wp_get_pool dma s :
  pools_ok s ->
  wp (scsi_get_host_cmd_pool dma)
     (fun ok s' => exists m, s' = set_heap (live s) (next_id s) m
        (if (ok : bool) then set_pool dma (mkPool (users (the_pool dma s) + 1) true) s else s)) s.
Proof.
  intros Hp. unfold scsi_get_host_cmd_pool. do 3 kstep.
  assert (wp (if users (the_pool dma s) =? 0 then
     cmd ← has_memory; if negb (cmd : bool) then mret false else has_memory else mret true)
    (fun _ s' => exists m, s' = set_heap (live s) (next_id s) m s) s) as Hm.
  { destruct (_ =? 0); [|kstep; exists (mem s); by destruct s]. kstep. apply wp_has_memory. intros b m.
    destruct b; cbn [negb]; [apply wp_has_memory; intros b' m'; by exists m'|kstep; by exists m]. }
  eapply wp_mono; [exact Hm|]. cbv beta. intros ok s1 [m ->]. destruct ok; cbn [negb]; repeat kstep; by exists m.
Qed.

Lemma wp_setup s :
  heap_ok s -> pools_ok s -> cmd_list s = [] ->
  wp (scsi_setup_command_freelist dix isa)
     (fun ret s' =>
        (ret = 0 /\ pool_inv isa (users (the_pool isa s) + 1) (live s) (refs_of s) s' /\ cmd_list s' = [] /\
         exists c, free_list s' = [c]) \/
        (ret = - ENOMEM /\ cmd_pool s' = None /\ live s' ≡ₚ live s /\ the_pool isa s' = the_pool isa s)) s.
Proof.
  intros Hh Hp Hcl. unfold scsi_setup_command_freelist. do 3 kstep.
  eapply wp_mono; [apply (wp_get_pool isa (set_free [] s)); exact Hp|]. cbv beta. intros ok s1 [m ->].
  change (the_pool isa (set_free [] s)) with (the_pool isa s). do 2 kstep.
  destruct ok; cbn [negb]; [|kstep; right; by destruct isa]. kstep. set (s2 := set_host _ _ _).
  assert (the_pool isa s2 = mkPool (users (the_pool isa s) + 1) true) as Hp2 by by destruct isa.
  eapply wp_mono; [apply (wp_host_alloc isa s2); [done|by eapply pool_slabs|exact Hh]|]. cbv beta.
  intros [c|] s3 [(l & n & m' & ->) [L3 Hh3]].
  - do 2 kstep. left. split; [done|]. split; [|split; [exact Hcl|by exists c]].
    split; [done| |done|done| |by cbn; rewrite Hcl].
    + etrans; [exact L3|]. etrans; [apply Permutation_app_comm|]. apply Permutation_app_head. unfold owned.
      cbn [free_list cmd_list set_free set_host set_heap set_pool s2 app]. rewrite Hcl. cbn [fmap list_fmap concat app].
      by rewrite app_nil_r.
    + intros d. change (cmd_list _) with (cmd_list s). rewrite Hcl. cbn [set_free set_host set_heap dev_refs s2].
      unfold refs_of, in_use. change (dev_refs (set_pool _ _ _)) with (dev_refs s). symmetry. apply Z.add_0_r.
  - kstep. unfold scsi_put_host_cmd_pool. do 2 kstep. change (the_pool isa (set_heap l n m' s2)) with (the_pool isa s2).
    rewrite Hp2. cbn [users slabs]. destruct (Hp isa) as [Hu Hs].
    rewrite (proj2 (Z.eqb_neq _ _)) by lia. do 3 kstep. right. split_and!; [done|done|by destruct isa|].
    change (the_pool isa (set_host _ _ _)) with (the_pool isa (set_pool isa (mkPool (users (the_pool isa s) + 1 - 1)
      (if users (the_pool isa s) + 1 - 1 =? 0 then false else true)) (set_heap l n m' s2))).
    rewrite the_pool_set. destruct (the_pool isa s) as [u b]. cbn [users slabs] in *.
    replace (u + 1 - 1) with u by lia. f_equal. rewrite Hs. destruct (Z.eqb_spec u 0), (bool_decide_reflect (0 < u)); lia || done.
Qed.

(** ** All the uses of a host's commands *)

Inductive pool_step : pst -> pst -> Prop :=
  | step_get d o s s' : scsi_get_command dix get_device d s = Ok (o, s') -> pool_step s s'
  | step_put c s s' : c ∈ cmd_list s -> scsi_put_command c s = Ok (tt, s') -> pool_step s s'
  | step_mem m s : pool_step s (set_heap (live s) (next_id s) m s).   (* memory comes and goes *)

Lemma steps_keep dma n other base s s' :
  rtc pool_step s s' -> pool_inv dma n other base s -> aside s -> pool_inv dma n other base s' /\ aside s'.
Proof.
  induction 1 as [|s s1 s' Hst _ IH]; [done|]. intros Hi Ha. apply IH; clear IH.
  - inversion Hst as [d o ? ? E|c ? ? Hin E|m ?]; subst.
    + destruct (wp_inv _ _ _ (wp_get_command _ _ _ _ d _ Hi)) as (? & ? & E' & Hi' & _). rewrite E in E'. by inversion E'.
    + destruct (wp_inv _ _ _ (wp_put_command _ _ _ _ c _ Hi Hin)) as (? & ? & E' & Hi' & _). rewrite E in E'. by inversion E'.
    + by destruct Hi as [[]].
  - inversion Hst as [d o ? ? E|c ? ? Hin E|m ?]; subst; [| |exact Ha].
    + destruct (wp_inv _ _ _ (wp_get_command _ _ _ _ d _ Hi)) as (o' & ? & E' & _ & Ho). rewrite E in E'.
      inversion E'; subst. intros Hf. destruct o' as [c|].
      * destruct Ho as [-> _]. by destruct (cmd_list s).
      * destruct Ho as (-> & _ & Ef). apply Ha. by rewrite <- Ef.
    + destruct (wp_inv _ _ _ (wp_put_command _ _ _ _ c _ Hi Hin)) as (? & ? & E' & _ & _ & Ef). rewrite E in E'.
      inversion E'; subst. intros Hf. rewrite Hf in Ef. by destruct (free_list s).
Qed.
End Inv.

(** ** Taking a host down *)

Lemma wp_free_all dma n fuel : forall rest s,
  heap_ok s -> the_pool dma s = mkPool n true -> (length (free_list s) < fuel)%nat ->
  live s ≡ₚ rest ++ concat (cmd_objs dma <$> free_list s) ->
  wp (free_all fuel dma)
     (fun _ s' => heap_ok s' /\ live s' ≡ₚ rest /\ free_list s' = [] /\ the_pool dma s' = mkPool n true) s.
Proof.
  induction fuel as [|fuel IH]; intros rest s Hh Hp Hf Hl; [lia|]. cbn [free_all]. do 2 kstep.
  destruct (free_list s) as [|c fl] eqn:Ef.
  { kstep. cbn [fmap list_fmap concat] in Hl. rewrite app_nil_r in Hl. done. }
  do 3 kstep. cbn [fmap list_fmap concat] in Hl.
  eapply wp_mono; [apply (wp_pool_free dma c (rest ++ concat (cmd_objs dma <$> fl)) (set_free fl s));
    [by eapply pool_slabs|exact Hh|]|].
  { etrans; [exact Hl|]. rewrite !app_assoc. apply Permutation_app_tail, Permutation_app_comm. }
  cbv beta. intros _ s1 [(l & k & m & ->) [L1 Hh1]]. apply IH; [done|exact Hp|cbn in *; lia|exact L1].
Qed.

Lemma wp_destroy isa n other base s :
  pool_inv isa n other base s -> 0 < n -> cmd_list s = [] ->
  wp (scsi_destroy_command_freelist isa)
     (fun _ s' => live s' ≡ₚ other /\ free_list s' = [] /\ cmd_pool s' = None /\
        the_pool isa s' = mkPool (n - 1) (bool_decide (0 < n - 1))) s.
Proof.
  intros [Hh Hl Hc Hp Hr Hd] Hn Hcl. unfold scsi_destroy_command_freelist. do 2 kstep. rewrite Hc. kstep.
  eapply wp_mono; [apply (wp_free_all isa n _ other); [done|done|lia|]|].
  { etrans; [exact Hl|]. unfold owned. by rewrite Hcl, app_nil_r. }
  cbv beta. intros _ s1 (Hh1 & L1 & F1 & P1). unfold scsi_put_host_cmd_pool. do 4 kstep.
  change (the_pool isa (set_host _ _ s1)) with (the_pool isa s1). rewrite P1. cbn [users slabs].
  rewrite (proj2 (Z.eqb_neq _ _)) by lia. kstep. split_and!; [done|done|done|]. rewrite the_pool_set. f_equal.
  destruct (Z.eqb_spec (n - 1) 0), (bool_decide_reflect (0 < n - 1)); lia || done.
Qed.

Lemma setup_inv dix isa s0 s1 :
  heap_ok s0 -> pools_ok s0 -> cmd_list s0 = [] -> scsi_setup_command_freelist dix isa s0 = Ok (0, s1) ->
  pool_inv isa (users (the_pool isa s0) + 1) (live s0) (refs_of s0) s1 /\ aside s1.
Proof.
  intros Hh Hp Hcl E. destruct (wp_inv _ _ _ (wp_setup dix isa s0 Hh Hp Hcl)) as (ret & s' & E' & Hr).
  rewrite E in E'. inversion E'; subst. destruct Hr as [(_ & Hi & _ & c & Hf)|[Hr _]]; [|done].
  split; [done|]. intros Hn. by rewrite Hf in Hn.
Qed.

(** ** Results *)

(** C32: however a host's commands are taken and given back, and however memory comes and
    goes, the objects alive are exactly those that were alive before and those of the
    commands in use and aside: nothing leaks and nothing is freed twice.  Every device
    has one reference for each of its commands, and neither taking a command nor giving
    one back ever faults. *)
Theorem commands_accounted (dix isa : bool) (get_device : Z -> bool) (s0 s1 s : pst) :
  heap_ok s0 -> pools_ok s0 -> cmd_list s0 = [] ->
  scsi_setup_command_freelist dix isa s0 = Ok (0, s1) -> rtc (pool_step dix get_device) s1 s ->
  NoDup (live s) /\ live s ≡ₚ live s0 ++ owned isa s /\
  (forall d, refs_of s d = refs_of s0 d + in_use d (cmd_list s)) /\
  (forall d, exists o s', scsi_get_command dix get_device d s = Ok (o, s')) /\
  (forall c, c ∈ cmd_list s -> exists s', scsi_put_command c s = Ok (tt, s')).
Proof.
  intros Hh Hp Hcl E Hst. destruct (setup_inv _ _ _ _ Hh Hp Hcl E) as (Hi & Ha).
  destruct (steps_keep _ _ _ _ _ _ _ _ Hst Hi Ha) as [Hs _]. pose proof Hs as [[Hn _] Hl _ _ Hr _].
  split_and!; [done|done|exact Hr| |].
  - intros d. destruct (wp_inv _ _ _ (wp_get_command dix get_device _ _ _ _ d _ Hs)) as (o & s' & E' & _). by exists o, s'.
  - intros c Hin. destruct (wp_inv _ _ _ (wp_put_command _ _ _ _ c _ Hs Hin)) as ([] & s' & E' & _). by exists s'.
Qed.

(** C33: a host that is set up and has no command in use can always get one, even when
    nothing can be allocated: the command kept aside is there. *)
Theorem command_always_available (dix isa : bool) (get_device : Z -> bool) (s0 s1 s : pst) (d : Z) :
  heap_ok s0 -> pools_ok s0 -> cmd_list s0 = [] ->
  scsi_setup_command_freelist dix isa s0 = Ok (0, s1) -> rtc (pool_step dix get_device) s1 s ->
  cmd_list s = [] -> get_device d = true ->
  exists c s', scsi_get_command dix get_device d s = Ok (Some c, s') /\ cmd_list s' = [c].
Proof.
  intros Hh Hp Hcl E Hst Hnil Hd. destruct (setup_inv _ _ _ _ Hh Hp Hcl E) as (Hi & Ha).
  destruct (steps_keep _ _ _ _ _ _ _ _ Hst Hi Ha) as [Hs Has].
  destruct (wp_inv _ _ _ (wp_get_command dix get_device _ _ _ _ d _ Hs)) as ([c|] & s' & E' & _ & Ho).
  - exists c, s'. split; [done|]. destruct Ho as [-> _]. by rewrite Hnil.
  - destruct Ho as (_ & Hf & _). destruct (Has (Hf Hd) Hnil).
Qed.

(** a host that is taken down after all its commands have come back leaves the heap
    and the users of the pool as they were before it was set up, the caches of a pool
    without users destroyed. *)
Theorem host_teardown_clean (dix isa : bool) (get_device : Z -> bool) (s0 s1 s : pst) :
  heap_ok s0 -> pools_ok s0 -> cmd_list s0 = [] ->
  scsi_setup_command_freelist dix isa s0 = Ok (0, s1) -> rtc (pool_step dix get_device) s1 s -> cmd_list s = [] ->
  exists s', scsi_destroy_command_freelist isa s = Ok (tt, s') /\
    live s' ≡ₚ live s0 /\ the_pool isa s' = the_pool isa s0 /\ free_list s' = [] /\ cmd_pool s' = None.
Proof.
  intros Hh Hp Hcl E Hst Hnil. destruct (setup_inv _ _ _ _ Hh Hp Hcl E) as (Hi & Ha).
  destruct (steps_keep _ _ _ _ _ _ _ _ Hst Hi Ha) as [Hs _]. destruct (Hp isa) as [Hu Hsl].
  destruct (wp_inv _ _ _ (wp_destroy _ _ _ _ _ Hs ltac:(lia) Hnil)) as ([] & s' & E' & H1 & H2 & H3 & H4).
  exists s'. split_and!; [done|done| |done|done]. rewrite H4. destruct (the_pool isa s0) as [u b]. cbn [users slabs] in *.
  replace (u + 1 - 1) with u by lia. by rewrite Hsl.
Qed.

(** [scsi_allocate_command] keeps its reference to the pool when there is no memory
    for the command: the caller gets nothing to give back, and the pool stays in use for
    ever. *)
Theorem allocate_leaks_pool (dma : bool) (s : pst) :
  pools_ok s -> 0 < users (the_pool dma s) -> mem s = [] ->
  exists s', scsi_allocate_command dma s = Ok (None, s') /\
    users (the_pool dma s') = users (the_pool dma s) + 1 /\ live s' = live s.
Proof.
  intros Hp Hu Hm. destruct (Hp dma) as [_ Hsl].
  unfold scsi_allocate_command, scsi_get_host_cmd_pool, scsi_pool_alloc_command, kmem_cache_alloc, has_memory,
    mbind, K_bind, kget, kmod, mret, K_ret.
  rewrite (proj2 (Z.eqb_neq _ _)) by lia. cbn. rewrite (the_pool_set dma). cbn. rewrite Hm.
  eexists. split; [reflexivity|]. by rewrite the_pool_set.
Qed.

(** ** An execution: memory for a host and its one command, and none after that *)

Definition after {A} (m : K pst A) (s : pst) : pst := match m s with Ok (_, s') => s' | Oops _ => s end.
Definition pool0 : pst := mkPst (mkPool 0 false) (mkPool 0 false) [] 0 [true; true; true; true; true] None [] [] ∅.
Definition pool1 : pst := Eval vm_compute in after (scsi_setup_command_freelist true false) pool0.
Definition pool2 : pst := Eval vm_compute in after (scsi_get_command true (fun _ => true) 7) pool1.
Definition pool3 : pst := Eval vm_compute in
  after (match cmd_list pool2 with c :: _ => scsi_put_command c | [] => kfail BugOn end) pool2.

Lemma pool0_ok : heap_ok pool0 /\ pools_ok pool0 /\ cmd_list pool0 = [] /\
  scsi_setup_command_freelist true false pool0 = Ok (0, pool1).
Proof.
  split_and!; [split; constructor| |done|by vm_compute]. intros []; by split.
Qed.

Lemma pool2_reached : rtc (pool_step true (fun _ => true)) pool1 pool2.
Proof.
  apply rtc_once. apply (step_get _ _ 7 (Some (mkPoolCmd 0 1 (Some 2) (Some 7)))). by vm_compute.
Qed.
Lemma pool3_reached : rtc (pool_step true (fun _ => true)) pool1 pool3.
Proof.
  eapply rtc_r; [exact pool2_reached|]. apply (step_put _ _ (mkPoolCmd 0 1 (Some 2) (Some 7))); [left|by vm_compute].
Qed.

Lemma commands_accounted_witness :
  live pool2 ≡ₚ owned false pool2 /\ free_list pool2 = [] /\ refs_of pool2 7 = 1.
Proof.
  destruct pool0_ok as (H1 & H2 & H3 & H4).
  destruct (commands_accounted true false (fun _ => true) pool0 pool1 pool2 H1 H2 H3 H4 pool2_reached)
    as (_ & Hl & Hr & _).
  split_and!; [exact Hl|by vm_compute|]. rewrite (Hr 7). by vm_compute.
Defined.

Lemma command_always_available_witness :
  mem pool3 = [] /\ exists c s', scsi_get_command true (fun _ => true) 9 pool3 = Ok (Some c, s').
Proof.
  destruct pool0_ok as (H1 & H2 & H3 & H4). split; [by vm_compute|].
  destruct (command_always_available true false (fun _ => true) pool0 pool1 pool3 9 H1 H2 H3 H4 pool3_reached
    ltac:(by vm_compute) eq_refl) as (c & s' & E & _).
  exists c, s'. exact E.
Defined.

Lemma host_teardown_clean_witness :
  exists s', scsi_destroy_command_freelist false pool3 = Ok (tt, s') /\ live s' ≡ₚ [] /\
             the_pool false s' = mkPool 0 false.
Proof.
  destruct pool0_ok as (H1 & H2 & H3 & H4).
  destruct (host_teardown_clean true false (fun _ => true) pool0 pool1 pool3 H1 H2 H3 H4 pool3_reached
    ltac:(by vm_compute)) as (s' & E & Hl & Hp & _).
  exists s'. split; [exact E|]. split; [exact Hl|exact Hp].
Defined.

Lemma allocate_leaks_pool_witness :
  exists s', scsi_allocate_command false pool3 = Ok (None, s') /\ users (the_pool false s') = 2.
Proof.
  destruct (allocate_leaks_pool false pool3 ltac:(intros []; by vm_compute) ltac:(by vm_compute) ltac:(by vm_compute))
    as (s' & E & Hu & _).
  exists s'. split; [exact E|exact Hu].
Defined.
