(* ===== verification/ScsiDev.v ===== *)
(** * drivers/scsi/scsi.c: devices of a host

    References to devices and the walk over all devices of a host, lookups by address,
    the depth of a device's queue, and the start of the SCSI layer.  A callback is
    recorded as a visit; [get_device], the block layer's tag map and the functions that
    start the other parts of the layer are parameters.  Results: the walk visits every
    device that can be referenced once, in order, and gives back every reference; a
    lookup by target finds a live device whenever there is one; the queue depth follows
    repeated queue-full events; a start that fails undoes what was done in reverse
    order.  Two executions are not what is meant: a deleted device hides a live one with
    the same address, and a depth of 65536 becomes zero. *)

From stdpp Require Import base gmap list.
From Stdlib Require Import ZArith Lia.
From S2P Require Import Prelude Kapi State.

Local Open Scope Z_scope.

(** ** Devices and references *)

(** [dv_key] is the device's identity. *)
Record sdevice := mkDev {
  dv_key : Z;
  dv_channel : Z;
  dv_id : Z;
  dv_lun : Z;
  dv_state : scsi_device_state
}.

(** The host's list of devices, references by device, those to the driver's module and
    the devices that callbacks were called for. *)
Record hst := mkHst {
  __devices : list sdevice;
  dv_refs : gmap Z Z;
  module_refcount : Z;
  visited : list Z
}.

Definition ref_add (k n : Z) (s : hst) : hst :=
  mkHst (__devices s) (<[k := default 0 (dv_refs s !! k) + n]> (dv_refs s)) (module_refcount s) (visited s).
Definition mod_add (n : Z) (s : hst) : hst :=
  mkHst (__devices s) (dv_refs s) (module_refcount s + n) (visited s).
Definition visit (k : Z) (s : hst) : hst :=
  mkHst (__devices s) (dv_refs s) (module_refcount s) (visited s ++ [k]).

Section Refs.
(** Whether [get_device] succeeds, whether the driver is a module, and whether it is
    live, so that [try_module_get] succeeds. *)
Variable get_device : Z -> bool.
Variable has_module : bool.
Variable module_live : bool.

Definition scsi_device_get (d : sdevice) : K hst Z :=
  if bool_decide (dv_state d = SDEV_DEL) then mret (- ENXIO) else
  if negb (get_device (dv_key d)) then mret (- ENXIO) else
  kmod (ref_add (dv_key d) 1);;
  (if has_module && module_live then kmod (mod_add 1) else mret tt);;
  mret 0.

Definition scsi_device_put (d : sdevice) : K hst unit :=
  s ← kget;
  (if has_module && negb (module_refcount s =? 0) then kmod (mod_add (-1)) else mret tt);;
  kmod (ref_add (dv_key d) (-1)).

(** The entries of the list behind device [k]; nothing when it is not in the list. *)
Fixpoint behind (k : Z) (l : list sdevice) : option (list sdevice) :=
  match l with
  | [] => None
  | d :: l' => if dv_key d =? k then Some l' else behind k l'
  end.

(** The [while] loop: the first device that can be referenced. *)
Fixpoint next_device (l : list sdevice) : K hst (option sdevice) :=
  match l with
  | [] => mret None
  | d :: l' =>
      r ← scsi_device_get d;
      if r =? 0 then mret (Some d) else next_device l'
  end.

Definition __scsi_iterate_devices (prev : option sdevice) : K hst (option sdevice) :=
  s ← kget;
  l ← (match prev with
       | None => mret (__devices s)
       | Some p => kderef UseAfterFree (behind (dv_key p) (__devices s))
       end);
  next ← next_device l;
  (match prev with Some p => scsi_device_put p | None => mret tt end);;
  mret next.

(** [shost_for_each_device] with a body. *)
Fixpoint shost_for_each_device (fuel : nat) (prev : option sdevice) (body : sdevice -> K hst unit) : K hst unit :=
  match fuel with
  | O => kfail Hang
  | S f =>
      next ← __scsi_iterate_devices prev;
      match next with
      | None => mret tt
      | Some d => body d;; shost_for_each_device f (Some d) body
      end
  end.

Definition of_target (channel id : Z) (d : sdevice) : bool := (dv_channel d =? channel) && (dv_id d =? id).

(** One turn for each device and one that finds the end. *)
Definition starget_for_each_device (channel id : Z) : K hst unit :=
  s ← kget;
  shost_for_each_device (S (length (__devices s))) None
    (fun d => if of_target channel id d then kmod (visit (dv_key d)) else mret tt).

(** [__shost_for_each_device]: without references. *)
Fixpoint each_entry (l : list sdevice) (body : sdevice -> K hst unit) : K hst unit :=
  match l with
  | [] => mret tt
  | d :: l' => body d;; each_entry l' body
  end.

Definition __starget_for_each_device (channel id : Z) : K hst unit :=
  s ← kget;
  each_entry (__devices s) (fun d => if of_target channel id d then kmod (visit (dv_key d)) else mret tt).

(** ** Lookups *)

(** [devices] is [starget->devices]. *)
Definition __scsi_device_lookup_by_target (devices : list sdevice) (lun : Z) : option sdevice :=
  List.find (fun d => negb (bool_decide (dv_state d = SDEV_DEL)) && (dv_lun d =? lun)) devices.

Definition scsi_device_lookup_by_target (devices : list sdevice) (lun : Z) : K hst (option sdevice) :=
  match __scsi_device_lookup_by_target devices lun with
  | None => mret None
  | Some d => r ← scsi_device_get d; mret (if r =? 0 then Some d else None)
  end.

Definition __scsi_device_lookup (devices : list sdevice) (channel id lun : Z) : option sdevice :=
  List.find (fun d => of_target channel id d && (dv_lun d =? lun)) devices.

Definition scsi_device_lookup (channel id lun : Z) : K hst (option sdevice) :=
  s ← kget;
  match __scsi_device_lookup (__devices s) channel id lun with
  | None => mret None
  | Some d => r ← scsi_device_get d; mret (if r =? 0 then Some d else None)
  end.
End Refs.

(** ** Queue depth *)

Definition MSG_SIMPLE_TAG : Z := 0x20.
Definition MSG_ORDERED_TAG : Z := 0x22.

Record depth_state := mkDepth {
  queue_depth : Z;
  last_queue_full_depth : Z;
  last_queue_full_count : Z;
  last_queue_full_time : Z;
  ordered_tags : bool;
  simple_tags : bool
}.

Definition set_depth (depth : Z) (ordered simple : bool) (s : depth_state) : depth_state :=
  mkDepth depth (last_queue_full_depth s) (last_queue_full_count s) (last_queue_full_time s) ordered simple.

Section Depth.
(** [host->bqt], [blk_queue_tagged] and [blk_queue_resize_tags] of the block layer. *)
Variable bqt : bool.
Variable tagged_queue : bool.
Variable resize_tags : Z -> Z.
Variable cmd_per_lun : Z.

Definition scsi_adjust_queue_depth (tagged tags : Z) (s : depth_state) : depth_state :=
  if tags <=? 0 then s else
  if negb bqt && tagged_queue && negb (resize_tags tags =? 0) then s else
  if tagged =? MSG_ORDERED_TAG then set_depth (u16 tags) true true s
  else if tagged =? MSG_SIMPLE_TAG then set_depth (u16 tags) false true s
  else set_depth (u16 tags) false false s.

Definition scsi_track_queue_full (jiffies depth : Z) (s : depth_state) : Z * depth_state :=
  if Z.shiftr jiffies 4 =? Z.shiftr (last_queue_full_time s) 4 then (0, s) else
  let same := last_queue_full_depth s =? depth in
  let s := mkDepth (queue_depth s)
             (if same then last_queue_full_depth s else u16 depth)
             (if same then u16 (last_queue_full_count s + 1) else 1)
             jiffies (ordered_tags s) (simple_tags s) in
  if last_queue_full_count s <=? 10 then (0, s) else
  if last_queue_full_depth s <? 8 then (-1, scsi_adjust_queue_depth 0 cmd_per_lun s) else
  (depth, scsi_adjust_queue_depth (if ordered_tags s then MSG_ORDERED_TAG else MSG_SIMPLE_TAG) depth s).
End Depth.

(** ** Starting the layer *)

Inductive part := Queue | Procfs | Devinfo | Hosts | Sysctl | SysfsReg | Netlink | ProbeDomain.
#[global] Instance part_eq_dec : EqDecision part.
Proof. solve_decision. Defined.

Inductive part_event := Start (p : part) | Stop (p : part).

(** Functions called so far; [start_of] says what each start returns. *)
Definition start_part (start_of : part -> Z) (p : part) : K (list part_event) Z :=
  (if start_of p =? 0 then kmod (fun l => l ++ [Start p]) else mret tt);;
  mret (start_of p).
Definition stop_part (p : part) : K (list part_event) unit := kmod (fun l => l ++ [Stop p]).

(** A chain of starts; a failure stops those before it, the last one first. *)
Definition init_scsi (start_of : part -> Z) : K (list part_event) Z :=
  error ← start_part start_of Queue;
  if negb (error =? 0) then mret error else
  error ← start_part start_of Procfs;
  if negb (error =? 0) then stop_part Queue;; mret error else
  error ← start_part start_of Devinfo;
  if negb (error =? 0) then stop_part Procfs;; stop_part Queue;; mret error else
  error ← start_part start_of Hosts;
  if negb (error =? 0) then stop_part Devinfo;; stop_part Procfs;; stop_part Queue;; mret error else
  error ← start_part start_of Sysctl;
  if negb (error =? 0) then stop_part Hosts;; stop_part Devinfo;; stop_part Procfs;; stop_part Queue;; mret error else
  error ← start_part start_of SysfsReg;
  if negb (error =? 0) then
    stop_part Sysctl;; stop_part Hosts;; stop_part Devinfo;; stop_part Procfs;; stop_part Queue;; mret error
  else
  kmod (fun l => l ++ [Start Netlink]);;
  mret 0.

Definition exit_scsi : K (list part_event) unit :=
  stop_part Netlink;; stop_part SysfsReg;; stop_part Sysctl;; stop_part Hosts;; stop_part Devinfo;;
  stop_part Procfs;; stop_part Queue;; stop_part ProbeDomain.

(** ** References balance *)

(** Devices that can be referenced. *)
Definition gettable (get_device : Z -> bool) (d : sdevice) : bool :=
  negb (bool_decide (dv_state d = SDEV_DEL)) && get_device (dv_key d).

(** [s] is [s0] with the references [h] held and the devices [v] visited. *)
Record held (counted : bool) (s0 : hst) (h v : list Z) (s : hst) : Prop := {
  hl_devices : __devices s = __devices s0;
  hl_refs : forall k, default 0 (dv_refs s !! k) = default 0 (dv_refs s0 !! k) + zlen (filter (fun x => x = k) h);
  hl_module : module_refcount s = module_refcount s0 + (if counted then zlen h else 0);
  hl_visited : visited s = visited s0 ++ v
}.

Lemma refs_ref_add k n s k' :
  default 0 (dv_refs (ref_add k n s) !! k') = default 0 (dv_refs s !! k') + (if decide (k = k') then n else 0).
Proof.
  cbn [dv_refs ref_add]. destruct (decide (k = k')) as [->|Hne]; [by rewrite lookup_insert_eq|].
  rewrite lookup_insert_ne by done. lia.
Qed.

Lemma filter_first {A} (f : A -> bool) l d rest :
  filter f l = d :: rest -> exists l1 l2, l = l1 ++ d :: l2 /\ rest = filter f l2.
Proof.
  induction l as [|x l IH]; [done|]. rewrite filter_cons. case_decide as Hx.
  - intros [= -> <-]. by exists [], l.
  - intros (l1 & l2 & -> & ->)%IH. by exists (x :: l1), l2.
Qed.

Section Walk.
Variable get_device : Z -> bool.
Variable has_module module_live : bool.
Variable s0 : hst.
Hypothesis module_sane : module_live = true /\ 0 <= module_refcount s0 \/ module_refcount s0 = 0.

Local Abbreviation holds := (held (has_module && module_live) s0).
Local Abbreviation can_get := (gettable get_device).

Lemma wp_device_get d h v s :
  holds h v s ->
  wp (scsi_device_get get_device has_module module_live d)
     (fun r s' => if can_get d then r = 0 /\ holds (dv_key d :: h) v s' else r <> 0 /\ s' = s) s.
Proof.
  intros [H1 H2 H3 H4]. unfold scsi_device_get, gettable.
  destruct (bool_decide (dv_state d = SDEV_DEL)); cbn [negb andb]; [by kstep|].
  destruct (get_device (dv_key d)); cbn [negb]; [|by kstep]. do 3 kstep.
  assert (forall k, default 0 (dv_refs (ref_add (dv_key d) 1 s) !! k)
    = default 0 (dv_refs s0 !! k) + zlen (filter (fun x => x = k) (dv_key d :: h))) as Hr.
  { intros k. rewrite refs_ref_add, H2, filter_cons. repeat case_decide; rewrite ?zlen_cons; lia || done. }
  destruct (has_module && module_live); repeat kstep; (split; [done|]);
    (split; [done|exact Hr| |done]); cbn; rewrite ?zlen_cons; lia.
Qed.

Lemma wp_device_put d h v s :
  holds (h ++ [dv_key d]) v s -> wp (scsi_device_put has_module d) (fun _ s' => holds h v s') s.
Proof.
  intros [H1 H2 H3 H4]. unfold scsi_device_put. do 3 kstep.
  assert (forall k, default 0 (dv_refs (ref_add (dv_key d) (-1) s) !! k)
    = default 0 (dv_refs s0 !! k) + zlen (filter (fun x => x = k) h)) as Hr.
  { intros k. rewrite refs_ref_add, H2, filter_app, zlen_app, filter_cons, filter_nil.
    repeat case_decide; unfold zlen; cbn [length]; lia || done. }
  rewrite zlen_app in H3. change (zlen [dv_key d]) with 1 in H3. pose proof (zlen_nonneg h).
  destruct has_module; cbn [andb] in *.
  - destruct (Z.eqb_spec (module_refcount s) 0) as [E|E]; cbn [negb]; repeat kstep;
      (split; [done|exact Hr| |done]); cbn; destruct module_live; lia || (destruct module_sane as [[? ?]|?]; lia || congruence).
  - do 2 kstep. by split.
Qed.

Lemma wp_next_device l : forall h v s,
  holds h v s ->
  wp (next_device get_device has_module module_live l)
     (fun r s' => match filter can_get l with
                  | [] => r = None /\ holds h v s'
                  | d :: _ => r = Some d /\ holds (dv_key d :: h) v s'
                  end) s.
Proof.
  induction l as [|d l IH]; intros h v s Hs; cbn [next_device]; [by kstep|].
  kstep. eapply wp_mono; [by apply wp_device_get|]. cbv beta. intros r s1. rewrite filter_cons.
  destruct (can_get d) eqn:Eg; [rewrite decide_True by done|rewrite decide_False by (by intros [])].
  - intros [-> Hh]. change (0 =? 0) with true. cbv match. by kstep.
  - intros [Hr ->]. rewrite (proj2 (Z.eqb_neq _ _) Hr). by apply IH.
Qed.

Lemma behind_split pre d l : Forall (fun x => dv_key x <> dv_key d) pre -> behind (dv_key d) (pre ++ d :: l) = Some l.
Proof.
  induction 1 as [|x pre Hx _ IH]; cbn [app behind]; [by rewrite Z.eqb_refl|]. by rewrite (proj2 (Z.eqb_neq _ _) Hx).
Qed.

(** The rest [l] of the list, with the last device visited held. *)
Lemma wp_walk channel id fuel : forall prev pre l v s,
  NoDup (dv_key <$> __devices s0) -> (length l < fuel)%nat ->
  __devices s0 = pre ++ l -> (match prev with None => pre = [] | Some p => exists pre', pre = pre' ++ [p] end) ->
  holds (match prev with None => [] | Some p => [dv_key p] end) v s ->
  wp (shost_for_each_device get_device has_module module_live fuel prev
        (fun d => if of_target channel id d then kmod (visit (dv_key d)) else mret tt))
     (fun _ s' => holds [] (v ++ (dv_key <$> filter (of_target channel id) (filter can_get l))) s') s.
Proof.
  induction fuel as [|fuel IH]; intros prev pre l v s Hn Hf Hd Hpre Hs; [lia|].
  cbn [shost_for_each_device]. unfold __scsi_iterate_devices. do 4 kstep. pose proof Hs as [Hdev _ _ _].
  eapply wp_mono with (P := fun l' s' => l' = l /\ s' = s).
  { destruct prev as [p|].
    - destruct Hpre as [pre' ->]. eapply wp_deref; [|done]. rewrite Hdev, Hd, <- app_assoc. apply behind_split.
      rewrite Hd, <- app_assoc, fmap_app in Hn. apply NoDup_app in Hn as (_ & Hn & _). apply Forall_forall.
      intros x Hx E. apply (Hn (dv_key x)); [by apply list_elem_of_fmap_2|]. rewrite E. left.
    - subst pre. kstep. by rewrite Hdev, Hd. }
  cbv beta. intros l' s' [-> ->]. kstep. eapply wp_mono; [by apply wp_next_device|]. cbv beta. intros next s1 Hnext.
  kstep. assert (forall h, holds (h ++ match prev with None => [] | Some p => [dv_key p] end) v s1 ->
    wp (match prev with Some p => scsi_device_put has_module p | None => mret tt end) (fun _ s' => holds h v s') s1) as Hput.
  { intros h Hh. destruct prev as [p|]; [by apply wp_device_put|]. kstep. by rewrite app_nil_r in Hh. }
  destruct (filter can_get l) as [|d rest] eqn:Efl; destruct Hnext as [-> Hh].
  { eapply wp_mono; [by apply (Hput [])|]. cbv beta. intros _ s2 H2. do 2 kstep. by rewrite app_nil_r. }
  eapply wp_mono; [by apply (Hput [dv_key d])|]. cbv beta. intros _ s2 H2. do 2 kstep.
  destruct (filter_first _ _ _ _ Efl) as (l1 & l2 & -> & ->).
  eapply wp_mono with (P := fun _ s' =>
    holds [dv_key d] (v ++ (if of_target channel id d then [dv_key d] else [])) s').
  { destruct H2 as [A1 A2 A3 A4]. destruct (of_target channel id d); kstep; split; try done; cbn; rewrite A4.
    - by rewrite app_assoc.
    - by rewrite app_nil_r. }
  cbv beta. intros _ s3 H3. eapply wp_mono.
  - eapply (IH (Some d) (pre ++ l1 ++ [d]) l2); [done|rewrite length_app in Hf; cbn in Hf; lia| |by eexists; rewrite app_assoc|exact H3].
    by rewrite Hd, <- !app_assoc.
  - cbv beta. intros _ s4 H4. rewrite filter_cons. rewrite <- app_assoc in H4.
    destruct (of_target channel id d); [rewrite decide_True by done|rewrite decide_False by (by intros [])]; exact H4.
Qed.
End Walk.

(** ** Results *)

(** [starget_for_each_device] calls its callback for every device of the target that
    can be referenced, once each and in the order of the host's list, skipping the ones
    that cannot, and gives back every reference it took, to devices and to the module. *)
Theorem device_walk_complete (get_device : Z -> bool) (has_module module_live : bool) (channel id : Z) (s : hst) :
  NoDup (dv_key <$> __devices s) ->
  module_live = true /\ 0 <= module_refcount s \/ module_refcount s = 0 ->
  wp (starget_for_each_device get_device has_module module_live channel id)
     (fun _ s' => visited s' = visited s
                    ++ (dv_key <$> filter (of_target channel id) (filter (gettable get_device) (__devices s))) /\
        (forall k, default 0 (dv_refs s' !! k) = default 0 (dv_refs s !! k)) /\
        module_refcount s' = module_refcount s /\ __devices s' = __devices s) s.
Proof.
  intros Hn Hm. unfold starget_for_each_device. do 2 kstep.
  eapply wp_mono; [apply (wp_walk _ _ _ s Hm _ _ _ None [] (__devices s) []); [done|lia|done|done|]|].
  - split; [done|intros k; symmetry; apply Z.add_0_r|destruct (_ && _); symmetry; apply Z.add_0_r|by rewrite app_nil_r].
  - cbv beta. intros _ s' [H1 H2 H3 H4]. split_and!; [exact H4| | |done].
    + intros k. rewrite H2. apply Z.add_0_r.
    + rewrite H3. destruct (_ && _); apply Z.add_0_r.
Qed.

Lemma device_walk_complete_witness :
  let s := mkHst [mkDev 1 0 0 0 SDEV_RUNNING; mkDev 2 0 1 0 SDEV_RUNNING; mkDev 3 0 0 1 SDEV_DEL; mkDev 4 0 0 2 SDEV_OFFLINE]
             ∅ 0 [] in
  exists s', starget_for_each_device (fun _ => true) true true 0 0 s = Ok (tt, s') /\ visited s' = [1; 4].
Proof.
  intros s. destruct (wp_inv _ _ _ (device_walk_complete (fun _ => true) true true 0 0 s
    ltac:(apply (bool_decide_unpack _); by vm_compute) ltac:(left; by vm_compute))) as ([] & s' & E & Hv & _).
  exists s'. split; [exact E|exact Hv].
Defined.

(** A deleted device in front of a live one with the same address. *)
Definition shadowed (d1 d2 : sdevice) : Prop :=
  dv_state d1 = SDEV_DEL /\ dv_state d2 <> SDEV_DEL /\
  dv_channel d1 = dv_channel d2 /\ dv_id d1 = dv_id d2 /\ dv_lun d1 = dv_lun d2.

(** a device that has been deleted but is still in the host's list hides a live one
    with the same address from [scsi_device_lookup], which finds nothing; the lookup by
    target skips deleted devices and takes a reference to the live one. *)
Theorem deleted_device_hides_live (get_device : Z -> bool) (has_module module_live : bool) (d1 d2 : sdevice)
    (rest : list sdevice) (s : hst) :
  __devices s = d1 :: d2 :: rest -> shadowed d1 d2 -> get_device (dv_key d2) = true ->
  scsi_device_lookup get_device has_module module_live (dv_channel d2) (dv_id d2) (dv_lun d2) s = Ok (None, s) /\
  wp (scsi_device_lookup_by_target get_device has_module module_live (__devices s) (dv_lun d2))
     (fun o s' => o = Some d2 /\ default 0 (dv_refs s' !! dv_key d2) = default 0 (dv_refs s !! dv_key d2) + 1) s.
Proof.
  intros Hd (H1 & H2 & E1 & E2 & E3) Hg. split.
  - unfold scsi_device_lookup, mbind, K_bind, kget. rewrite Hd. cbn [__scsi_device_lookup List.find].
    unfold of_target. rewrite E1, E2, E3, !Z.eqb_refl. cbn [andb]. unfold scsi_device_get.
    by rewrite (bool_decide_true _ H1).
  - unfold scsi_device_lookup_by_target. rewrite Hd. unfold __scsi_device_lookup_by_target. cbn [List.find].
    rewrite (bool_decide_true _ H1), (bool_decide_false _ H2), Z.eqb_refl. cbn [negb andb]. kstep.
    unfold scsi_device_get. rewrite (bool_decide_false _ H2), Hg. cbn [negb]. do 3 kstep.
    destruct (_ && _); repeat kstep; (split; [done|]); cbn; by rewrite lookup_insert_eq.
Qed.

Lemma deleted_device_hides_live_witness :
  let s := mkHst [mkDev 1 0 0 0 SDEV_DEL; mkDev 2 0 0 0 SDEV_RUNNING] ∅ 0 [] in
  scsi_device_lookup (fun _ => true) true true 0 0 0 s = Ok (None, s).
Proof.
  intros s. apply (deleted_device_hides_live (fun _ => true) true true (mkDev 1 0 0 0 SDEV_DEL)
    (mkDev 2 0 0 0 SDEV_RUNNING) [] s eq_refl ltac:(done) eq_refl).
Defined.

(** ** The queue depth *)

(** Queue-full events at the given times, with the results. *)
Fixpoint track_all (bqt tagged : bool) (resize : Z -> Z) (per_lun depth : Z) (times : list Z) (s : depth_state)
    : list Z * depth_state :=
  match times with
  | [] => ([], s)
  | t :: ts =>
      let '(r, s1) := scsi_track_queue_full bqt tagged resize per_lun t depth s in
      let '(rs, s2) := track_all bqt tagged resize per_lun depth ts s1 in
      (r :: rs, s2)
  end.

(** Times none of which falls in the same sixteen jiffies as the one before. *)
Fixpoint apart (t0 : Z) (times : list Z) : Prop :=
  match times with
  | [] => True
  | t :: ts => Z.shiftr t 4 <> Z.shiftr t0 4 /\ apart t ts
  end.

Section Track.
Variable bqt tagged : bool.
Variable resize : Z -> Z.
Variable per_lun depth : Z.
Hypothesis depth_range : 8 <= depth < 65536.
Hypothesis resize_ok : resize depth = 0.

Local Abbreviation track := (scsi_track_queue_full bqt tagged resize per_lun).

Lemma adjust_depth kind s :
  let s' := scsi_adjust_queue_depth bqt tagged resize kind depth s in
  queue_depth s' = depth /\ last_queue_full_depth s' = last_queue_full_depth s /\
  last_queue_full_count s' = last_queue_full_count s /\ last_queue_full_time s' = last_queue_full_time s.
Proof.
  unfold scsi_adjust_queue_depth. rewrite (proj2 (Z.leb_gt _ _)) by lia. rewrite resize_ok. cbn [Z.eqb negb].
  rewrite andb_false_r. assert (u16 depth = depth) as -> by (apply Z.mod_small; lia).
  by destruct (kind =? MSG_ORDERED_TAG), (kind =? MSG_SIMPLE_TAG).
Qed.

Lemma track_same t s :
  last_queue_full_depth s = depth -> Z.shiftr t 4 <> Z.shiftr (last_queue_full_time s) 4 ->
  0 <= last_queue_full_count s < 65535 ->
  let '(r, s') := track t depth s in
  last_queue_full_depth s' = depth /\ last_queue_full_count s' = last_queue_full_count s + 1 /\ last_queue_full_time s' = t /\
  (if last_queue_full_count s <? 10 then r = 0 /\ queue_depth s' = queue_depth s else r = depth /\ queue_depth s' = depth).
Proof.
  intros Hd Ht Hc. unfold scsi_track_queue_full. rewrite (proj2 (Z.eqb_neq _ _) Ht), Hd, Z.eqb_refl.
  cbn [last_queue_full_count last_queue_full_depth ordered_tags].
  assert (u16 (last_queue_full_count s + 1) = last_queue_full_count s + 1) as -> by (apply Z.mod_small; lia).
  destruct (Z.ltb_spec (last_queue_full_count s) 10).
  - by rewrite (proj2 (Z.leb_le _ _)) by lia.
  - rewrite (proj2 (Z.leb_gt _ _)), (proj2 (Z.ltb_ge _ _)) by lia. set (s1 := mkDepth _ _ _ _ _ _).
    destruct (adjust_depth (if ordered_tags s then MSG_ORDERED_TAG else MSG_SIMPLE_TAG) s1) as (A1 & A2 & A3 & A4).
    rewrite A1, A2, A3, A4. done.
Qed.

Lemma track_run times : forall s,
  last_queue_full_depth s = depth -> apart (last_queue_full_time s) times ->
  0 <= last_queue_full_count s -> last_queue_full_count s + zlen times <= 65535 ->
  let '(rs, s') := track_all bqt tagged resize per_lun depth times s in
  rs = take (length times) (replicate (Z.to_nat (10 - last_queue_full_count s)) 0 ++ replicate (length times) depth) /\
  queue_depth s' = if last_queue_full_count s + zlen times <=? 10 then queue_depth s
                   else if zlen times =? 0 then queue_depth s else depth.
Proof.
  induction times as [|t ts IH]; intros s Hd Ha Hc Hl; cbn [track_all].
  { split; [done|]. by destruct (_ <=? _). }
  destruct Ha as [Ht Ha]. rewrite zlen_cons in *. pose proof (zlen_nonneg ts).
  pose proof (track_same t s Hd Ht ltac:(lia)) as Hs. destruct (track t depth s) as [r s1].
  destruct Hs as (D1 & C1 & T1 & Hr). specialize (IH s1 D1). rewrite T1, C1 in IH. specialize (IH Ha ltac:(lia) ltac:(lia)).
  destruct (track_all bqt tagged resize per_lun depth ts s1) as [rs s2]. destruct IH as [IHr IHq].
  rewrite (proj2 (Z.eqb_neq (1 + _) 0)) by lia. rewrite IHq, IHr. clear IHr IHq.
  destruct (Z.ltb_spec (last_queue_full_count s) 10) as [H10|H10]; destruct Hr as [-> ->].
  - replace (Z.to_nat (10 - last_queue_full_count s)) with (S (Z.to_nat (10 - (last_queue_full_count s + 1)))) by lia.
    cbn [replicate app length take]. split.
    + f_equal. rewrite replicate_cons_app, app_assoc. symmetry.
      apply take_app_le.
      rewrite length_app, !length_replicate. lia.
    + rewrite Z.add_assoc. destruct (Z.leb_spec (last_queue_full_count s + 1 + zlen ts) 10); [done|].
      destruct (Z.eqb_spec (zlen ts) 0); [lia|done].
  - replace (Z.to_nat (10 - last_queue_full_count s)) with 0%nat by lia.
    replace (Z.to_nat (10 - (last_queue_full_count s + 1))) with 0%nat by lia. cbn [replicate app length take]. split.
    + done.
    + rewrite Z.add_assoc, (proj2 (Z.leb_gt _ _)) by lia. by destruct (zlen ts =? 0).
Qed.
End Track.

(** after queue-full events at one depth, none in the same sixteen jiffies as the
    one before, the first ten change nothing and every later one sets the queue depth to
    it and says so. *)
Theorem queue_full_tracked (bqt tagged : bool) (resize : Z -> Z) (per_lun depth : Z) (times : list Z) (s : depth_state) :
  8 <= depth < 65536 -> resize depth = 0 -> last_queue_full_depth s <> depth ->
  apart (last_queue_full_time s) times -> 0 < zlen times <= 65535 ->
  let '(rs, s') := track_all bqt tagged resize per_lun depth times s in
  rs = take (length times) (replicate 10 0 ++ replicate (length times) depth) /\
  queue_depth s' = if zlen times <=? 10 then queue_depth s else depth.
Proof.
  intros Hd Hr Hne Ha Hl. destruct times as [|t ts]; [done|]. cbn [track_all]. destruct Ha as [Ht Ha].
  rewrite zlen_cons in *. unfold scsi_track_queue_full at 1.
  rewrite (proj2 (Z.eqb_neq _ _) Ht), (proj2 (Z.eqb_neq _ _) Hne). cbn [last_queue_full_count Z.leb Z.compare Pos.compare Pos.compare_cont].
  assert (u16 depth = depth) as Hu by (apply Z.mod_small; lia). set (s1 := mkDepth _ _ _ _ _ _).
  pose proof (track_run bqt tagged resize per_lun depth Hd Hr ts s1 Hu Ha ltac:(done) ltac:(cbn; lia)) as Hrun.
  destruct (track_all bqt tagged resize per_lun depth ts s1) as [rs s2]. destruct Hrun as [-> ->]. split.
  - change (Z.to_nat (10 - last_queue_full_count s1)) with 9%nat.
    change (length (t :: ts)) with (S (length ts)). change (replicate 10 0) with (0 :: replicate 9 0).
    change (replicate (S (length ts)) depth) with (depth :: replicate (length ts) depth).
    cbn [app take]. f_equal. rewrite (replicate_cons_app (length ts)), app_assoc. symmetry. apply take_app_le.
    rewrite length_app, !length_replicate. lia.
  - change (last_queue_full_count s1) with 1. change (queue_depth s1) with (queue_depth s).
    destruct (Z.leb_spec (1 + zlen ts) 10); [done|]. destruct (Z.eqb_spec (zlen ts) 0); [lia|done].
Qed.

Lemma queue_full_tracked_witness :
  let times := (fun n => 16 * Z.of_nat n) <$> seq 1 12 in
  queue_depth (snd (track_all false false (fun _ => 0) 1 24 times (mkDepth 64 0 0 0 false true))) = 24.
Proof.
  intros times. pose proof (queue_full_tracked false false (fun _ => 0) 1 24 times (mkDepth 64 0 0 0 false true)
    ltac:(lia) eq_refl ltac:(done) ltac:(by vm_compute) ltac:(by vm_compute)) as Hq.
  destruct (track_all _ _ _ _ _ _ _) as [rs s']. destruct Hq as [_ Hq]. exact Hq.
Defined.

(** [scsi_adjust_queue_depth] never sets a depth for a count that is not positive,
    but the field has sixteen bits: a count of 65536 sets the depth to zero. *)
Theorem depth_zero_for_65536 (bqt tagged : bool) (resize : Z -> Z) (kind tags : Z) (s : depth_state) :
  (tags <= 0 -> scsi_adjust_queue_depth bqt tagged resize kind tags s = s) /\
  (0 < tags < 65536 -> resize tags = 0 ->
   queue_depth (scsi_adjust_queue_depth bqt tagged resize kind tags s) = tags) /\
  (resize 65536 = 0 -> queue_depth (scsi_adjust_queue_depth bqt tagged resize kind 65536 s) = 0).
Proof.
  assert (forall n, 0 < n -> resize n = 0 ->
    queue_depth (scsi_adjust_queue_depth bqt tagged resize kind n s) = u16 n) as Hset.
  { intros n Hn Hr. unfold scsi_adjust_queue_depth. rewrite (proj2 (Z.leb_gt _ _)), Hr by lia. cbn [Z.eqb negb].
    rewrite andb_false_r. by destruct (kind =? MSG_ORDERED_TAG), (kind =? MSG_SIMPLE_TAG). }
  split_and!.
  - intros Ht. unfold scsi_adjust_queue_depth. by rewrite (proj2 (Z.leb_le _ _)).
  - intros Ht Hr. rewrite Hset by (done || lia). apply Z.mod_small. lia.
  - intros Hr. by rewrite Hset.
Qed.

Lemma depth_zero_for_65536_witness :
  queue_depth (scsi_adjust_queue_depth false true (fun _ => 0) MSG_SIMPLE_TAG 65536 (mkDepth 64 0 0 0 false true)) = 0.
Proof.
  destruct (depth_zero_for_65536 false true (fun _ => 0) MSG_SIMPLE_TAG 65536 (mkDepth 64 0 0 0 false true)) as (_ & _ & Hz).
  by apply Hz.
Defined.

(** ** Starting and stopping *)

Definition start_order : list part := [Queue; Procfs; Devinfo; Hosts; Sysctl; SysfsReg].

(** The parts that start, up to the first failure, and the result. *)
Fixpoint started (start_of : part -> Z) (l : list part) : list part * Z :=
  match l with
  | [] => ([], 0)
  | p :: l' =>
      if start_of p =? 0 then let '(ps, e) := started start_of l' in (p :: ps, e) else ([], start_of p)
  end.

(** [init_scsi] starts the parts of the layer in order and, at the first failure,
    stops exactly those that were started, in reverse order, and returns the error;
    [exit_scsi] stops everything a successful start has started, in reverse order. *)
Theorem init_failure_undone (start_of : part -> Z) :
  (let '(ps, e) := started start_of start_order in
   init_scsi start_of [] =
     Ok (e, if e =? 0 then (Start <$> ps) ++ [Start Netlink] else (Start <$> ps) ++ (Stop <$> rev ps))) /\
  exit_scsi [] = Ok (tt, (Stop <$> rev (start_order ++ [Netlink])) ++ [Stop ProbeDomain]).
Proof.
  split; [|done]. unfold init_scsi, start_order, start_part, stop_part. cbn [started].
  unfold mbind, K_bind, kmod, mret, K_ret.
  repeat match goal with
    | |- context [start_of ?p =? 0] => destruct (Z.eqb_spec (start_of p) 0) as [?E|?E]; cbn
    end; try rewrite (proj2 (Z.eqb_neq _ _)) by done; done.
Qed.
